(* ===== verification/_CoqProject ===== *)
-Q . S2P
Prelude.v
Sha256.v
Text.v
TextLemmas.v
Generator.v
Identifiers.v
Domain.v
Clocks.v
Queue.v
Engine.v
Lifecycle.v
Replay.v
Commands.v
Json.v
Store.v
Journal.v
Schedules.v
Demo.v
Ledger.v
Outcomes.v
Claiming.v
Idempotence.v
History.v
Verdicts.v
JsonFlat.v
Retries.v
Barriers.v
Recovery.v
RecoveryScan.v
Recoverable.v
ScheduleLaws.v
RecoveryTotal.v
RecoveryApply.v
Policy.v
ResumeSafety.v
ResumeTotal.v
Hashing.v
Canonical.v
Evidence.v
ObserverProtocol.v
Reconcile.v
Addresses.v
AddressText.v
AddressClasses.v
Destination.v
Dialer.v
DestinationHosts.v
DestinationSafety.v
Capabilities.v
Base64.v
Signing.v
SigningFrames.v
HmacSigners.v
SignerTexts.v
SignerLaws.v
Signatures.v
Mutations.v
MutationPipeline.v
MutationOperators.v
PipelineLaws.v
PipelineSafety.v
PipelineFaults.v
PipelineErrors.v
Polling.v
PollingLaws.v
PollingSeries.v
PollingSettles.v
ConfigValues.v
AssertionConfig.v
EvidenceFacts.v
EvidenceLaws.v
PointerLaws.v
FactLaws.v
Evaluators.v
TemporalAssertions.v
CompositeLaws.v
TemporalLaws.v
Observations.v
ObservationLaws.v
