(* ===== verification/Prelude.v ===== *)
(** * Verification of the webhook receiver conformance harness

    The program sends signed webhook deliveries to a receiver under test and decides, from what it
    observed, whether the receiver conforms.  Every step of a run is recorded in an SQLite journal
    before it happens, so that a crashed run can be resumed without sending a request twice by
    accident.  This library models the parts of [src/src/webhook_receiver_conformance] that decide
    what is sent, what is recorded and what is concluded, and proves what they promise each other.

    ** Parts and files

    - Determinism.  [Sha256], [Generator] ([determinism/generator.py]) and [Identifiers]
      ([domain/identifiers.py]): the keyed stream every random choice is drawn from, and the
      identifiers derived from it.  [Text] holds UTF-8 and decimal text.
    - Vocabulary.  [Domain] ([domain/enums.py], [errors.py], the request and response metadata of
      [domain/models.py]).
    - Scheduling.  [Clocks], [Queue], [Engine], [Retries], [Barriers] ([scheduler/]): logical time and
      its scaling, the priority queue, journal-first leasing, the retry decision and the worker pool
      of concurrent deliveries.
    - The journal.  [Lifecycle] is the six state machines of [journal/transitions.py], [Commands]
      its transition commands and their validation, [Replay] its replay and projection audit.
      [Store] is the tables as finite maps, [Journal] the transactions of [journal/repositories.py]
      over them: applying a transition with its guards and evidence, claiming a schedule entry,
      rebinding an attempt, reading history and auditing.  [Schedules] is [journal/schedules.py]: the
      entries of a run that are pending, and its completion.  [Demo] is a run worked through, used by
      the witnesses.
    - What the journal promises.  [Ledger] (the ledger and the live rows agree in every execution),
      [Outcomes] (what a terminal row stands for), [Claiming] (claims are atomic and happen once),
      [Idempotence] (repeating a command), [History] (reading back) and [ScheduleLaws]
      (reading what is due, and a completed run stays as it is).
    - Recovery after a crash.  [Recovery] is [recovery/models.py] and [recovery/scanner.py];
      [RecoveryScan], [Recoverable], [RecoveryTotal] and [RecoveryApply] prove what a scan finds and
      what applying its plan does.  [Policy] is [recovery/policy.py], with its theorems in
      [ResumeSafety] and [ResumeTotal].  [Reconcile] is [recovery/reconcile.py].
    - Observing the receiver.  [Evidence] and [ObserverProtocol] are [observers/protocol.py]: bounded
      evidence and the requests, responses and records that carry it, each with its validation, and
      the policy over them.  [Polling] is [observers/polling.py] over the class [PollEnvironment] of
      the observer, the journal and the clocks; [PollingLaws] gives each of its operations a
      specification, [PollingSeries] follows one turn of the loop and [PollingSettles] a whole
      series.  [Observations] is the journal's side of it: the adapter of [runtime/observations.py], the
      series, samples and assertion evaluations of [journal/repositories.py] over the tables of [Store] and
      four more, and [ObservationLaws] proves that the evidence stays consistent however its operations
      interleave with the transitions.
    - Where deliveries may go.  [Addresses] is [network/addresses.py] with the text of IP addresses,
      [AddressText] and [AddressClasses] its round trips and what a class means.  [Destination] is
      [network/policy.py] and [Dialer] is [network/dialer.py] with the plans of
      [network/transport.py]; [DestinationHosts] proves that accepted hosts are normal forms,
      [Capabilities] that minted capabilities are accepted, [DestinationSafety] what a dialed
      connection is connected to and what becomes of the stream of a refused one.
    - Signed deliveries.  [Signing] is [signatures/base.py] with the use of a secret in [secrets.py]:
      signing inputs, templates, headers and evidence, and the class [Signer].  [HmacSigners] is the
      three built-in signers, over the hexadecimal and base64 text of [Base64].  [SigningFrames]
      proves what a rendered template determines, [SignerTexts] that what a signer writes it reads
      back, [SignerLaws] the laws a signer keeps, and [Signatures] what signing and verifying promise.
    - Mutated deliveries.  [Mutations] is the contract of [mutations/base.py], [MutationPipeline] is
      [mutations/pipeline.py] over the classes [Signer] and [MutationOperator], [MutationOperators] the
      runtime operators of [mutations/raw_ops.py] and [mutations/signature_ops.py].  [PipelineLaws]
      proves what an accepted plan and an applied mutation are and that the runtime operators keep the laws
      of their class, [PipelineSafety] and [PipelineFaults] what the
      receiver's verification says of a mutated delivery and [PipelineErrors] how a pipeline fails.
    - Text formats.  [TextLemmas] holds what is known of text.
      [Json] is what the code uses of [json.loads] and [json.dumps], [JsonFlat] their
      round trip on flat objects and what is known of decimal text.  [Hashing] is [domain/hashing.py], with its theorems in [Canonical].
    - Assertions.  [ConfigValues] and [AssertionConfig] are the values, predicates and assertions of
      [config/models.py] with their validation, [EvidenceFacts] the typed facts and comparisons the
      evaluators of [assertions/] share, and [Evaluators] and [TemporalAssertions] the evaluators
      themselves.  [EvidenceLaws], [FactLaws] and [PointerLaws] prove what evidence, facts and pointers
      are, [CompositeLaws] and [TemporalLaws] what an assertion decides, an eventual state on the result of a
      series the poller drove with the assertion's own predicate.
    - Conclusions.  [Verdicts] ([runtime/verdicts.py], [cli/exit_codes.py] and the reduction of
      [reporting/summary.py]).

    The parts meet at the journal.  The engine leases an entry through the class [ScheduleJournal] of
    [Engine]; a transition goes through [Journal.apply_execute], a claim through
    [Journal.claim_execute]; a retry decided by [Retries] becomes a row whose condition
    [Journal.claim_execute] checks when the entry is claimed; a scan reads the tables those
    transactions left and its plan is applied through the same transactions; the resume policy turns
    the plan and the pending schedule into the work of the next process, whose redeliveries are
    claimed like any other entry.

    ** How code is modelled

    A Python function that may raise is a function to [result]; [let!] is the sequence of its
    statements and [raise_if] an early exit.  Exceptions are the classes of [exn]; messages are not
    modelled.  A dataclass is a record, its [__post_init__] a [validate_] or [make_] function, an
    enumeration an inductive type with a [_value] function for its text.  Checks of an argument's
    Python type have no counterpart, since the model is typed.  Integers are [Z]: Python's do not
    wrap, and the bounds the code checks are checked.  Text is a list of code points, bytes a list
    of integers.  A table is a finite map from its primary key, a query a filter over it, and the
    constraints the statements can violate raise [SqlConstraintError].  A transaction that raises
    leaves the database it began with.  What a coroutine awaits that the model does not contain (a
    callback, the journal adapter of the resume policy, an observer, a resolver, a connector or the
    provider of a secret) is an argument, an await that may be cancelled answers whether it was, and where several coroutines run the model is a step relation over all their
    interleavings.  The registry of capabilities in [Destination] is a store from identities to what
    was minted, so that an object changed after it was minted is told apart.  The Unicode tables are
    a parameter there: text within ASCII does not consult them.

    ** What the theorems show

    Invariants and safety are proved over every execution: over [journal_reachable], any sequence of
    transitions, claims, rebinds and completions that succeed or fail ([Ledger], [Outcomes],
    [Claiming], [Recoverable], [ScheduleLaws]), over
    [engine_reachable], any interleaving of scheduling, leasing, journal failures and restarts
    ([Engine]), over [evidence_reachable], which adds series, samples and evaluations
    ([ObservationLaws]), and over the steps of the worker pool ([Barriers]).  Functional theorems give the
    result of an operation on every branch, errors included ([Retries], [Replay], [History],
    [Reconcile], [Verdicts]).  Totality theorems show that the answer exists: a scan of a reachable
    journal returns a plan ([RecoveryTotal]), the pending entries can be read ([ScheduleLaws]) and
    the resume policy answers every valid input ([ResumeTotal]).  [DestinationSafety.dial_safe] holds
    of every resolver and connector, those that lie included, and a close that fails is told apart from
    one that completes; [Signatures] says that a signed delivery
    verifies and that what verifies was signed, for every built-in signer, and [PipelineFaults] carries
    both through the mutations a delivery may undergo.  [PollingSettles] says of every observer and
    cancellation that a series ends and is accounted for by its samples; of the journal it asks that it
    begins no series for an observer whose name a record cannot hold, which [ObservationLaws] proves of the
    adapter.  [TemporalLaws] says that an eventual state is judged by what that series showed.  The
    configuration admits expected values that evidence cannot hold (a date that does not exist): the
    theorems on predicates and assertions say that the evaluation then raises.  Evaluators are related to what they mean: exact
    numbers ([FactLaws]), the tokens of a pointer ([PointerLaws]), subsequences and segments
    ([TemporalLaws]), all or none of a set of side effects ([CompositeLaws]), the precedence of verdicts
    (REPORT-022, [Verdicts]).  [History] also proves a defect: once a claim inserted an attempt, every
    audit of its run is refused.  Round trips and equivalences tie what
    one component writes to what another reads ([Store], [RecoveryScan], [Canonical], [Identifiers],
    [AddressText], [Base64]).

    ** Bounds and fuel

    The JSON scanner has the length of the text as fuel and every call consumes a character.  Paged
    reads have the number of rows as fuel and every page but the last is full.  [bounded_int] draws
    samples until one is accepted: its loop has fuel, and [Generator.bounded_int_terminates] relates
    it to the stream.  The loop of the poller has fuel, and every plan ends within its quotient of
    deadline and interval, plus two.  The walk over a JSON value of the configuration has the number of
    its nodes as fuel and pops one at each turn.  The other loops recur on the list they run over.

    ** Not modelled

    SQLite itself, its connection thread and the run lock ([journal/service.py],
    [journal/connection.py], [journal/run_lock.py]): the model takes transactions to be atomic and
    serial.  Sockets, the challenge exchange of [network/preflight.py], subprocesses, file access,
    rendering and command-line parsing.  The parsing of observer messages, the other Pydantic models of
    the configuration, scenario and manifest documents, the tasks that run assertions
    ([runtime/assertions.py], [runtime/observer_assertions.py]) and the orchestration in
    [runtime/runner.py] are not modelled yet. *)

From stdpp Require Import base numbers list sorting gmap strings option.
From Stdlib Require Export ZArith.
From stdpp Require Export base numbers list sorting gmap strings option.


(** ** Python text

    A Python [str] is a sequence of Unicode code points.  [u] turns an ASCII
    literal into one. *)

Abbreviation str := (list N).

Definition u (s : string) : str :=
  map Ascii.N_of_ascii (String.list_ascii_of_string s).

(** Bytes are integers in [0, 256). *)
Abbreviation bytes := (list Z).

(** ** Exceptions

    The exception classes the modelled code raises.  Messages are not modelled;
    classes and, where the code carries one, error codes are. *)

Inductive ScheduleQueueErrorCode :=
  | CAPACITY_EXCEEDED
  | DUPLICATE_CONFLICT
  | INVALID_ITEM.

Inductive PolicyErrorCode :=
  | INVALID_URL | INVALID_SCHEME | USERINFO_FORBIDDEN | FRAGMENT_FORBIDDEN | INVALID_HOST | INVALID_PORT
  | HOST_NOT_ALLOWED | PORT_NOT_ALLOWED | PUBLIC_HTTPS_REQUIRED | PUBLIC_AUTHORIZATION_REQUIRED
  | PUBLIC_AUTHORIZATION_MISMATCH | PREFLIGHT_CONFIGURATION_INVALID | ADDRESS_INVALID | ADDRESS_BLOCKED
  | ADDRESS_PROFILE_MISMATCH | ADDRESS_SET_INVALID.

Inductive DialErrorCode :=
  | RESOLUTION_TIMEOUT | RESOLUTION_RESULT_LIMIT | RESOLUTION_RESULT_INVALID | RESOLUTION_FAILED
  | TLS_CONFIGURATION_FAILED | CONNECT_TIMEOUT | TLS_FAILED | CONNECTION_FAILED | PEER_INVALID | PEER_MISMATCH.

Inductive exn :=
  | TypeError
  | ValueError
  | OverflowError
  | RuntimeError
  | KeyError
  | IndexError
  | ScheduleQueueError (code : ScheduleQueueErrorCode)
  | BarrierInputError
  | RetryPolicyError
  | IdentifierCollisionError
  | IllegalTransitionError
  | StaleOwnerEpochError
  | CrossRunReferenceError
  | IdempotencyConflictError
  | ProjectionIntegrityError
  | SqlConstraintError
  | RecoveryIntegrityError
  | RecoveryResourceLimitError
  | RecoveryOwnerEpochError
  | ResumePolicyIntegrityError
  | ResumePolicyInputError
  | ResumePolicyResourceLimitError
  | Cancelled
  | DestinationPolicyError (code : PolicyErrorCode)
  | PinnedDialError (code : DialErrorCode)
  | SecretResolutionError (code : string)
  | SignerError (code : string)
  | MutationError (code : string)
  | TimeoutError
  | ObserverJsonResourceLimitError (code : string)
  | ObserverProtocolError (code : string)
  | ObserverRegistryError (code : string)
  | TemporalPredicateError (code : string).

#[global] Instance ScheduleQueueErrorCode_eq_dec : EqDecision ScheduleQueueErrorCode.
Proof. solve_decision. Defined.
#[global] Instance PolicyErrorCode_eq_dec : EqDecision PolicyErrorCode.
Proof. solve_decision. Defined.
#[global] Instance DialErrorCode_eq_dec : EqDecision DialErrorCode.
Proof. solve_decision. Defined.
#[global] Instance exn_eq_dec : EqDecision exn.
Proof. solve_decision. Defined.

(** Code that may raise returns [result]. *)
Inductive result (A : Type) :=
  | Ok (a : A)
  | Raise (e : exn).
Arguments Ok {A} a.
Arguments Raise {A} e.

Declare Scope py_scope.
Delimit Scope py_scope with py.
Open Scope py_scope.

Notation "'let!' x := e 'in' k" :=
  (match e with Ok x => k | Raise err => Raise err end)
  (at level 10, x pattern, e at level 200, k at level 200,
   format "'let!'  x  :=  e  'in' '//' k") : py_scope.

(** [raise_if b e k]: the early exit [if b: raise e], then [k]. *)
Notation "'raise_if' b 'with' e ';;' k" :=
  (if (b : bool) then Raise e else k)
  (at level 10, b at level 200, e at level 99, k at level 200,
   format "'raise_if'  b  'with'  e  ';;' '//' k") : py_scope.

Definition is_ok {A} (r : result A) : bool :=
  match r with Ok _ => true | Raise _ => false end.

Lemma raise_if_ok {A} (b : bool) e (k : result A) :
  is_ok (raise_if b with e ;; k) = true <-> b = false /\ is_ok k = true.
Proof. destruct b; simpl; naive_solver. Qed.

Lemma is_ok_exists {A} (r : result A) : is_ok r = true <-> exists a, r = Ok a.
Proof. destruct r; simpl; naive_solver. Qed.

Lemma negb_bool_decide_false (P : Prop) `{Decision P} : negb (bool_decide P) = false <-> P.
Proof. by rewrite negb_false_iff, bool_decide_eq_true. Qed.

(** [for x in l: body] where the body may raise and threads [s]. *)
Fixpoint for_each {A S} (body : S -> A -> result S) (s : S) (l : list A) : result S :=
  match l with
  | [] => Ok s
  | x :: rest => let! s' := body s x in for_each body s' rest
  end.

Lemma for_each_app {A S} (body : S -> A -> result S) l1 l2 s :
  for_each body s (l1 ++ l2) =
  (let! s' := for_each body s l1 in for_each body s' l2).
Proof.
  revert s; induction l1 as [|x l1 IH]; intros s; simpl; [done|].
  destruct (body s x); [apply IH|done].
Qed.

(** An invariant of the loop body is an invariant of the loop. *)
Lemma for_each_invariant {A S} (P : S -> Prop) (body : S -> A -> result S) l s s' :
  (forall x t t', x ∈ l -> P t -> body t x = Ok t' -> P t') ->
  P s -> for_each body s l = Ok s' -> P s'.
Proof.
  revert s; induction l as [|x l IH]; simpl; intros s Hstep HP Heq; [congruence|].
  destruct (body s x) as [t|] eqn:E; [|congruence].
  apply (IH t); [|eapply Hstep; [left|exact HP|exact E]|done].
  intros y t1 t2 Hy; apply Hstep; by right.
Qed.

(** ** Lists related element by element *)

Lemma Forall2_in_r {A B} (R : A -> B -> Prop) l k y : Forall2 R l k -> y ∈ k -> exists x, x ∈ l /\ R x y.
Proof.
  intros Hf (i & Hy)%list_elem_of_lookup. destruct (Forall2_lookup_r _ _ _ _ _ Hf Hy) as (x & Hx & HR).
  exists x. split; [|done]. by eapply list_elem_of_lookup_2.
Qed.
Lemma Forall2_in_l {A B} (R : A -> B -> Prop) l k x : Forall2 R l k -> x ∈ l -> exists y, y ∈ k /\ R x y.
Proof. intros Hf%Forall2_flip Hx. by apply (Forall2_in_r _ _ _ _ Hf). Qed.

(** Python's [map] with a body that may raise. *)
Fixpoint map_result {A B} (f : A -> result B) (l : list A) : result (list B) :=
  match l with
  | [] => Ok []
  | x :: rest => let! y := f x in let! ys := map_result f rest in Ok (y :: ys)
  end.

Lemma map_result_ok {A B} (f : A -> result B) l r :
  map_result f l = Ok r <-> Forall2 (fun x y => f x = Ok y) l r.
Proof.
  revert r; induction l as [|x l IH]; intros r; simpl.
  - split; [intros [= <-]; constructor|by inversion 1].
  - split.
    + destruct (f x) eqn:E; [|done]. destruct (map_result f l) eqn:El; [|done].
      intros [= <-]; constructor; [done|by apply IH].
    + inversion 1 as [|? y ? ys Hy Hys]; subst. rewrite Hy.
      apply IH in Hys. by rewrite Hys.
Qed.

Lemma map_result_total {A B} (f : A -> result B) l :
  (forall x, x ∈ l -> exists y, f x = Ok y) -> exists r, map_result f l = Ok r.
Proof.
  induction l as [|x l IH]; intros H; [by eexists|]. simpl.
  destruct (H x (list_elem_of_here _ _)) as [y ->]. destruct IH as [ys ->]; [|by eexists].
  intros z Hz. apply H. by right.
Qed.

Lemma map_result_map {A B} (f : A -> result B) (g : A -> B) l :
  (forall a, a ∈ l -> f a = Ok (g a)) -> map_result f l = Ok (map g l).
Proof.
  induction l as [|a l IH]; intros H; [done|]. simpl. rewrite (H a (list_elem_of_here _ _)), IH; [done|].
  intros b Hb. apply H. by right.
Qed.

Lemma map_result_of_map {A B C} (p : B -> result C) (f : A -> B) l :
  map_result p (map f l) = map_result (fun x => p (f x)) l.
Proof. induction l as [|x l IH]; simpl; [done|]. by rewrite IH. Qed.

Lemma existsb_false {A} (p : A -> bool) l : Forall (fun x => p x = false) l -> existsb p l = false.
Proof. induction 1 as [|x l Hx _ IH]; [done|]. simpl. by rewrite Hx. Qed.

Lemma existsb_all {A} (p : A -> bool) l : existsb p l = false -> forall x, x ∈ l -> p x = false.
Proof.
  intros H x Hx%list_elem_of_In. destruct (p x) eqn:E; [|done].
  assert (existsb p l = true) as H' by (apply List.existsb_exists; by exists x). congruence.
Qed.

Lemma nodup_injective {A B} (g : A -> B) (l : list A) x y : NoDup (map g l) -> x ∈ l -> y ∈ l -> g x = g y -> x = y.
Proof.
  induction l as [|a l IH]; [set_solver|]. intros [Hna Hnd]%list.NoDup_cons Hx Hy Heq.
  apply elem_of_cons in Hx as [->|Hx]; apply elem_of_cons in Hy as [->|Hy]; try done.
  - exfalso. apply Hna. rewrite Heq. by apply list_elem_of_fmap_2.
  - exfalso. apply Hna. rewrite <- Heq. by apply list_elem_of_fmap_2.
  - by apply IH.
Qed.

Lemma filter_all {A} (p : A -> bool) l : length (List.filter p l) = length l -> List.filter p l = l /\ forall x, x ∈ l -> p x = true.
Proof.
  induction l as [|x l IH]; simpl; [set_solver|]. destruct (p x) eqn:E; simpl.
  - intros [= H]. destruct (IH H) as [-> H']. split; [done|]. intros y [->|Hy]%elem_of_cons; auto.
  - pose proof (List.filter_length_le p l). lia.
Qed.

Lemma filter_none {A} (P : A -> Prop) `{forall x, Decision (P x)} (l : list A) :
  Forall (fun x => ~ P x) l -> filter P l = [].
Proof. induction 1 as [|x l Hx _ IH]; [done|]. by rewrite filter_cons_False. Qed.

(** ** Lexicographic comparison, as Python compares integers, text and tuples *)

Class Cmp (A : Type) := cmp : A -> A -> comparison.

Class CmpLaws (A : Type) `{Cmp A} := {
  cmp_eq : forall x y : A, cmp x y = Eq <-> x = y;
  cmp_opp : forall x y : A, cmp y x = CompOpp (cmp x y);
  cmp_trans : forall x y z : A, cmp x y = Lt -> cmp y z = Lt -> cmp x z = Lt
}.

#[global] Instance Z_cmp : Cmp Z := Z.compare.
#[global] Instance N_cmp : Cmp N := N.compare.
#[global] Instance prod_cmp {A B} `{Cmp A, Cmp B} : Cmp (A * B) :=
  fun p q => match cmp p.1 q.1 with Eq => cmp p.2 q.2 | c => c end.

Fixpoint list_cmp_fix {A} `{Cmp A} (l k : list A) : comparison :=
  match l, k with
  | [], [] => Eq
  | [], _ :: _ => Lt
  | _ :: _, [] => Gt
  | x :: l', y :: k' => match cmp x y with Eq => list_cmp_fix l' k' | c => c end
  end.
#[global] Instance list_cmp {A} `{Cmp A} : Cmp (list A) := list_cmp_fix.

#[global] Instance Z_cmp_laws : CmpLaws Z.
Proof.
  split; unfold cmp, Z_cmp; intros.
  - apply Z.compare_eq_iff.
  - apply Z.compare_antisym.
  - rewrite Z.compare_lt_iff in *; lia.
Qed.

#[global] Instance N_cmp_laws : CmpLaws N.
Proof.
  split; unfold cmp, N_cmp; intros.
  - apply N.compare_eq_iff.
  - apply N.compare_antisym.
  - rewrite N.compare_lt_iff in *; lia.
Qed.

Section lexicographic.
Context {A B : Type} `{CmpLaws A, CmpLaws B}.

Lemma cmp_refl (x : A) : cmp x x = Eq.
Proof. by apply cmp_eq. Qed.

#[global] Instance prod_cmp_laws : CmpLaws (A * B).
Proof.
  split.
  - intros [a b] [a' b']; unfold cmp, prod_cmp; simpl.
    destruct (cmp a a') eqn:E; (split; [intros Heq|intros [= -> ->]]);
      try done; try (by rewrite cmp_refl in E); try by apply cmp_eq.
    apply cmp_eq in E as ->. by apply cmp_eq in Heq as ->.
  - intros [a b] [a' b']; unfold cmp, prod_cmp; simpl.
    rewrite (cmp_opp a a'). destruct (cmp a a'); simpl; [apply cmp_opp|done|done].
  - intros [a b] [a' b'] [a'' b'']; unfold cmp, prod_cmp; simpl.
    destruct (cmp a a') eqn:E1; [apply cmp_eq in E1 as ->| |done].
    + destruct (cmp a' a''); [apply cmp_trans|done|done].
    + intros _. destruct (cmp a' a'') eqn:E2; [apply cmp_eq in E2 as ->| |done].
      * by rewrite E1.
      * by rewrite (cmp_trans a a' a'' E1 E2).
Qed.

#[global] Instance list_cmp_laws : CmpLaws (list A).
Proof.
  split; unfold cmp, list_cmp.
  - intros l; induction l as [|x l IH]; intros [|y k]; simpl; try done.
    destruct (cmp x y) eqn:E; (split; [intros Heq|intros [= -> ->]]);
      try done; try (by rewrite cmp_refl in E); try by apply IH.
    apply cmp_eq in E as ->. by apply IH in Heq as ->.
  - intros l; induction l as [|x l IH]; intros [|y k]; simpl; try done.
    rewrite (cmp_opp x y). destruct (cmp x y); simpl; [apply IH|done|done].
  - intros l; induction l as [|x l IH]; intros [|y k] [|z m]; simpl; try done.
    destruct (cmp x y) eqn:E1; [apply cmp_eq in E1 as ->| |done].
    + destruct (cmp y z); [apply IH|done|done].
    + intros _. destruct (cmp y z) eqn:E2; [apply cmp_eq in E2 as ->| |done].
      * by rewrite E1.
      * by rewrite (cmp_trans x y z E1 E2).
Qed.
End lexicographic.

(** [x <= y] in Python's order on keys. *)
Definition cmp_le {A} `{Cmp A} (x y : A) : Prop := cmp y x <> Lt.
Definition cmp_ltb {A} `{Cmp A} (x y : A) : bool :=
  match cmp x y with Lt => true | _ => false end.

#[global] Instance cmp_le_dec {A} `{Cmp A} (x y : A) : Decision (cmp_le x y).
Proof. unfold cmp_le; apply _. Defined.

Section cmp_order.
Context {A : Type} `{CmpLaws A}.
Implicit Types x y z : A.

Lemma cmp_le_refl x : cmp_le x x.
Proof. unfold cmp_le; by rewrite cmp_refl. Qed.
Lemma cmp_gt_lt x y : cmp x y = Gt -> cmp y x = Lt.
Proof. intros E; by rewrite (cmp_opp x y), E. Qed.
Lemma cmp_le_cases x y : cmp_le x y <-> cmp x y = Lt \/ x = y.
Proof.
  unfold cmp_le. rewrite (cmp_opp x y), <- cmp_eq.
  destruct (cmp x y); simpl; intuition congruence.
Qed.
Lemma cmp_le_trans x y z : cmp_le x y -> cmp_le y z -> cmp_le x z.
Proof.
  rewrite !cmp_le_cases. intros [E1| ->] [E2| ->]; auto.
  left; by apply (cmp_trans x y z).
Qed.
Lemma cmp_le_antisym x y : cmp_le x y -> cmp_le y x -> x = y.
Proof.
  rewrite !cmp_le_cases. intros [E1| ->] [E2|E2]; auto.
  rewrite (cmp_opp x y), E1 in E2. done.
Qed.
Lemma cmp_le_total x y : cmp_le x y \/ cmp_le y x.
Proof.
  rewrite !cmp_le_cases. destruct (cmp x y) eqn:E; auto.
  - apply cmp_eq in E; auto.
  - apply cmp_gt_lt in E; auto.
Qed.
Lemma cmp_ltb_le x y : cmp_ltb x y = false <-> cmp_le y x.
Proof. unfold cmp_ltb, cmp_le. destruct (cmp x y); naive_solver. Qed.
Lemma cmp_ltb_lt x y : cmp_ltb x y = true <-> cmp x y = Lt.
Proof. unfold cmp_ltb. destruct (cmp x y); naive_solver. Qed.
End cmp_order.

Lemma cmp_le_fst {A B} `{Cmp A, Cmp B} (p q : A * B) : cmp_le p q -> cmp_le p.1 q.1.
Proof.
  unfold cmp_le. intros Hne Hlt. apply Hne. change (prod_cmp q p = Lt). unfold prod_cmp.
  by rewrite Hlt.
Qed.

(** ** [sorted(l, key=...)]: Python's stable sort *)

Section sorting.
Context {A K : Type} `{CmpLaws K} (key : A -> K).

Fixpoint sort_insert (x : A) (l : list A) : list A :=
  match l with
  | [] => [x]
  | y :: rest => if cmp_ltb (key y) (key x) then y :: sort_insert x rest else x :: l
  end.

Fixpoint py_sorted (l : list A) : list A :=
  match l with
  | [] => []
  | x :: rest => sort_insert x (py_sorted rest)
  end.

Definition key_le (x y : A) : Prop := cmp_le (key x) (key y).

Lemma sort_insert_perm x l : sort_insert x l ≡ₚ x :: l.
Proof.
  induction l as [|y l IH]; simpl; [done|].
  case_match; [|done]. rewrite IH. constructor.
Qed.

Lemma py_sorted_perm l : py_sorted l ≡ₚ l.
Proof. induction l as [|x l IH]; simpl; [done|]. by rewrite sort_insert_perm, IH. Qed.

Lemma sort_insert_sorted x l :
  StronglySorted key_le l -> StronglySorted key_le (sort_insert x l).
Proof.
  induction 1 as [|y l Hl IH Hy]; simpl; [by repeat constructor|].
  destruct (cmp_ltb (key y) (key x)) eqn:E.
  - constructor; [done|]. rewrite sort_insert_perm.
    constructor; [|done]. apply cmp_ltb_lt in E.
    unfold key_le; rewrite cmp_le_cases; by left.
  - apply cmp_ltb_le in E. constructor; [by constructor|].
    constructor; [done|]. eapply Forall_impl; [|exact Hy].
    intros z Hz. by apply (cmp_le_trans _ (key y)).
Qed.

Lemma py_sorted_sorted l : StronglySorted key_le (py_sorted l).
Proof. induction l; simpl; [constructor|by apply sort_insert_sorted]. Qed.

(** A list in order is its own sorted form. *)
Lemma py_sorted_id l : StronglySorted key_le l -> py_sorted l = l.
Proof.
  induction 1 as [|x l _ IH Hx]; [done|]. simpl. rewrite IH. destruct Hx as [|y l Hy _]; [done|]. simpl.
  assert (cmp_ltb (key y) (key x) = false) as -> by (by apply cmp_ltb_le). done.
Qed.

(** With pairwise distinct keys the result does not depend on the input order. *)
Lemma sorted_unique l k :
  (forall x y, x ∈ l -> y ∈ l -> key x = key y -> x = y) ->
  l ≡ₚ k -> StronglySorted key_le l -> StronglySorted key_le k -> l = k.
Proof.
  intros Hinj Hperm Hl; revert k Hinj Hperm.
  induction Hl as [|x l Hl IH Hx]; intros k Hinj Hperm Hk.
  { by apply Permutation_nil_l in Hperm. }
  destruct Hk as [|y k Hk Hy]; [by apply Permutation_nil_r in Hperm|].
  assert (x = y) as ->.
  { assert (Hxin : x ∈ y :: k) by (rewrite <- Hperm; left).
    assert (Hyin : y ∈ x :: l) by (rewrite Hperm; left).
    apply list_elem_of_In in Hxin, Hyin. destruct Hxin as [->|Hxk]; [done|].
    destruct Hyin as [->|Hyl]; [done|].
    apply Hinj; [left|right; by apply list_elem_of_In|].
    rewrite List.Forall_forall in Hx, Hy.
    apply cmp_le_antisym; [by apply Hx|by apply Hy]. }
  f_equal. apply IH; [|by apply Permutation_cons_inv in Hperm|done].
  intros a b Ha Hb; apply Hinj; by right.
Qed.

Lemma py_sorted_canonical l k :
  (forall x y, x ∈ l -> y ∈ l -> key x = key y -> x = y) ->
  l ≡ₚ k -> py_sorted l = py_sorted k.
Proof.
  intros Hinj Hp. apply sorted_unique; try apply py_sorted_sorted.
  - intros x y. rewrite !py_sorted_perm. apply Hinj.
  - by rewrite !py_sorted_perm.
Qed.

Lemma elem_of_py_sorted x l : x ∈ py_sorted l <-> x ∈ l.
Proof. by rewrite py_sorted_perm. Qed.
End sorting.

Lemma sort_insert_map {A B K} `{Cmp K} (key : B -> K) (f : A -> B) x l :
  sort_insert key (f x) (map f l) = map f (sort_insert (fun a => key (f a)) x l).
Proof. induction l as [|y l IH]; simpl; [done|]. case_match; simpl; [by rewrite IH|done]. Qed.
Lemma py_sorted_map {A B K} `{Cmp K} (key : B -> K) (f : A -> B) l :
  py_sorted key (map f l) = map f (py_sorted (fun a => key (f a)) l).
Proof. induction l as [|x l IH]; simpl; [done|]. by rewrite IH, sort_insert_map. Qed.

Lemma sorted_filter {A} (R : A -> A -> Prop) (f : A -> bool) l :
  StronglySorted R l -> StronglySorted R (List.filter f l).
Proof.
  induction 1 as [|x l Hl IH Hx]; simpl; [constructor|].
  destruct (f x); [|done]. constructor; [done|].
  rewrite List.Forall_forall in *. intros y [Hy _]%List.filter_In. auto.
Qed.

Lemma sorted_map {A B C} `{Cmp C} (kf : A -> C) (kg : B -> C) (f : A -> B) l :
  (forall x, kg (f x) = kf x) ->
  StronglySorted (key_le kf) l -> StronglySorted (key_le kg) (@map A B f l).
Proof.
  intros Hk. induction 1 as [|x l _ IH Hf]; simpl; constructor; [done|].
  apply Forall_map. eapply List.Forall_impl; [|exact Hf]. intros y. unfold key_le. by rewrite !Hk.
Qed.

(** ** Fixed-width big-endian digits

    [int.from_bytes(_, "big")], [int.to_bytes(n, "big")] and the Base32 loops
    are digit strings in base [2^k]. *)

Fixpoint to_digits (k : Z) (n : nat) (i : Z) (acc : list Z) : list Z :=
  match n with
  | O => acc
  | S n' => to_digits k n' (Z.shiftr i k) (Z.land i (Z.ones k) :: acc)
  end.

Definition of_digits (k : Z) (l : list Z) : Z :=
  fold_left (fun acc d => Z.lor (Z.shiftl acc k) d) l 0%Z.

Definition is_digit (k d : Z) : Prop := (0 <= d < 2 ^ k)%Z.

(** [int.from_bytes(b, "big")] and [i.to_bytes(n, "big")]. *)
Definition int_from_bytes (b : bytes) : Z := of_digits 8 b.
Definition int_to_bytes (n : nat) (i : Z) : bytes := to_digits 8 n i [].

Definition is_byte (b : Z) : Prop := is_digit 8 b.

Section digits.
Context (k : Z) (Hk : (0 < k)%Z).

Lemma digit_lor a d : is_digit k d -> Z.lor (Z.shiftl a k) d = (a * 2 ^ k + d)%Z.
Proof using Hk.
  intros Hd. unfold is_digit in Hd.
  assert (Z.land (Z.shiftl a k) d = 0%Z) as Hland.
  { apply Z.bits_inj'; intros n Hn. rewrite Z.land_spec, Z.bits_0.
    destruct (Z.lt_ge_cases n k); [by rewrite Z.shiftl_spec_low|].
    rewrite <- (Z.mod_small d (2 ^ k)) by lia.
    rewrite Z.mod_pow2_bits_high by lia. apply andb_false_r. }
  pose proof (Z.add_lor_land (Z.shiftl a k) d) as Hadd.
  rewrite Hland, Z.shiftl_mul_pow2 in * by lia. lia.
Qed.

Lemma of_digits_app l d :
  is_digit k d -> of_digits k (l ++ [d]) = (of_digits k l * 2 ^ k + d)%Z.
Proof using Hk. intros Hd. unfold of_digits. rewrite fold_left_app. by apply digit_lor. Qed.

Lemma of_digits_bound l :
  Forall (is_digit k) l -> (0 <= of_digits k l < 2 ^ (k * Z.of_nat (length l)))%Z.
Proof using Hk.
  induction l as [|d l IH] using rev_ind; intros HF.
  { change (of_digits k []) with 0%Z. simpl. rewrite Z.mul_0_r. simpl. lia. }
  apply Forall_app in HF as [HF Hd]. rewrite Forall_singleton in Hd.
  rewrite of_digits_app by done. specialize (IH HF). unfold is_digit in Hd.
  rewrite length_app, Nat2Z.inj_add, Z.mul_add_distr_l, Z.pow_add_r by lia.
  simpl. rewrite Z.mul_1_r. nia.
Qed.

Lemma to_digits_acc n i acc : to_digits k n i acc = to_digits k n i [] ++ acc.
Proof using Type.
  revert i acc; induction n as [|n IH]; intros i acc; simpl; [done|].
  rewrite IH, (IH _ [_]), <- app_assoc. done.
Qed.

Lemma to_digits_S n i :
  to_digits k (S n) i [] = to_digits k n (Z.shiftr i k) [] ++ [Z.land i (Z.ones k)].
Proof using Type. simpl. by rewrite to_digits_acc. Qed.

Lemma land_ones_digit i : is_digit k (Z.land i (Z.ones k)).
Proof using Hk.
  unfold is_digit. rewrite Z.land_ones by lia. apply Z.mod_pos_bound. lia.
Qed.

Lemma length_to_digits n i : length (to_digits k n i []) = n.
Proof using Type.
  revert i; induction n as [|n IH]; intros i; [done|].
  rewrite to_digits_S, length_app, IH. simpl; lia.
Qed.

Lemma to_digits_digit n i : Forall (is_digit k) (to_digits k n i []).
Proof using Hk.
  revert i; induction n as [|n IH]; intros i; [constructor|].
  rewrite to_digits_S, Forall_app. split; [done|].
  apply Forall_singleton, land_ones_digit.
Qed.

Lemma of_to_digits n i :
  (0 <= i < 2 ^ (k * Z.of_nat n))%Z -> of_digits k (to_digits k n i []) = i.
Proof using Hk.
  revert i; induction n as [|n IH]; intros i Hi.
  { rewrite Z.mul_0_r in Hi. simpl in *. unfold of_digits; simpl; lia. }
  rewrite to_digits_S, of_digits_app by apply land_ones_digit.
  rewrite Nat2Z.inj_succ, Z.mul_succ_r, Z.pow_add_r in Hi by lia.
  rewrite Z.shiftr_div_pow2, Z.land_ones by lia.
  assert (0 < 2 ^ k)%Z by lia.
  rewrite IH.
  - rewrite (Z.div_mod i (2 ^ k)) at 3 by lia. lia.
  - split; [apply Z.div_pos; lia|apply Z.div_lt_upper_bound; lia].
Qed.

Lemma to_of_digits l :
  Forall (is_digit k) l -> to_digits k (length l) (of_digits k l) [] = l.
Proof using Hk.
  induction l as [|d l IH] using rev_ind; intros HF; [done|].
  apply Forall_app in HF as [HF Hd]. rewrite Forall_singleton in Hd.
  rewrite length_app, Nat.add_1_r, to_digits_S, of_digits_app by done.
  unfold is_digit in Hd. assert (0 < 2 ^ k)%Z by lia.
  rewrite Z.shiftr_div_pow2, Z.land_ones by lia.
  rewrite Z.div_add_l, Z.div_small, Z.add_0_r by lia.
  rewrite Z.add_comm, Z.mod_add, Z.mod_small by lia. by rewrite IH.
Qed.

Lemma of_digits_app_pow l1 l2 :
  Forall (is_digit k) l2 ->
  of_digits k (l1 ++ l2) = (of_digits k l1 * 2 ^ (k * Z.of_nat (length l2)) + of_digits k l2)%Z.
Proof using Hk.
  induction l2 as [|d l2 IH] using rev_ind; intros HF.
  { rewrite app_nil_r. simpl. rewrite Z.mul_0_r. unfold of_digits; simpl. lia. }
  apply Forall_app in HF as [HF Hd]. rewrite Forall_singleton in Hd.
  rewrite app_assoc, !of_digits_app, IH by done.
  rewrite length_app, Nat2Z.inj_add, Z.mul_add_distr_l, Z.pow_add_r by lia.
  simpl. rewrite Z.mul_1_r. lia.
Qed.

(** Shifting away the low digits leaves the high ones. *)
Lemma of_digits_shiftr l1 l2 :
  Forall (is_digit k) l2 ->
  Z.shiftr (of_digits k (l1 ++ l2)) (k * Z.of_nat (length l2)) = of_digits k l1.
Proof using Hk.
  intros HF. rewrite of_digits_app_pow, Z.shiftr_div_pow2 by (done || lia).
  pose proof (of_digits_bound l2 HF).
  rewrite Z.div_add_l, Z.div_small by lia. lia.
Qed.

Lemma of_digits_low l d : is_digit k d -> Z.land (of_digits k (l ++ [d])) (Z.ones k) = d.
Proof using Hk.
  intros Hd. rewrite of_digits_app, Z.land_ones by (done || lia). unfold is_digit in Hd.
  rewrite Z.add_comm, Z.mod_add, Z.mod_small by lia. done.
Qed.
End digits.

(** ** Character classes of the code's regular expressions *)

Definition char_between (lo hi c : N) : bool := (lo <=? c)%N && (c <=? hi)%N.
Definition is_upper (c : N) : bool := char_between 65 90 c.
Definition is_lower (c : N) : bool := char_between 97 122 c.
Definition is_decimal (c : N) : bool := char_between 48 57 c.
Definition is_hex (c : N) : bool := is_decimal c || char_between 97 102 c.

(** [A-Za-z0-9_.:-] *)
Definition is_token_char (c : N) : bool :=
  is_upper c || is_lower c || is_decimal c
  || (c =? 95)%N || (c =? 46)%N || (c =? 58)%N || (c =? 45)%N.

(** [len(value)] is between 1 and [maximum]. *)
Definition len_within (value : str) (maximum : Z) : bool :=
  (1 <=? Z.of_nat (length value))%Z && (Z.of_nat (length value) <=? maximum)%Z.

(** [[A-Za-z0-9_.:-]+] with a length bound, the token shape every boundary uses. *)
Definition is_token (value : str) (maximum : Z) : bool :=
  len_within value maximum && forallb is_token_char value.

Definition MAX_SAFE_INTEGER : Z := 9007199254740991.

(** [minimum <= value <= maximum] *)
Definition within (minimum maximum value : Z) : bool :=
  (minimum <=? value)%Z && (value <=? maximum)%Z.

Lemma within_spec lo hi v : within lo hi v = true <-> (lo <= v <= hi)%Z.
Proof. unfold within. rewrite andb_true_iff, !Z.leb_le. done. Qed.

(** ** Automation *)

(** Case split every guard of a modelled function and discard the branches the
    hypotheses exclude. *)
Ltac py_cases :=
  repeat (case_match; simplify_eq/=; try done).

(** Turn boolean guards into arithmetic and logic. *)
Ltac py_bool :=
  repeat match goal with
  | H : _ && _ = true |- _ => apply andb_true_iff in H as [? ?]
  | H : _ || _ = false |- _ => apply orb_false_iff in H as [? ?]
  | H : negb _ = true |- _ => apply negb_true_iff in H
  | H : negb _ = false |- _ => apply negb_false_iff in H
  | H : within _ _ _ = true |- _ => apply within_spec in H
  | H : bool_decide _ = true |- _ => apply bool_decide_eq_true in H
  | H : bool_decide _ = false |- _ => apply bool_decide_eq_false in H
  | H : Z.leb _ _ = true |- _ => apply Z.leb_le in H
  | H : Z.leb _ _ = false |- _ => apply Z.leb_gt in H
  | H : Z.ltb _ _ = true |- _ => apply Z.ltb_lt in H
  | H : Z.ltb _ _ = false |- _ => apply Z.ltb_ge in H
  | H : Z.eqb _ _ = true |- _ => apply Z.eqb_eq in H
  | H : Z.eqb _ _ = false |- _ => apply Z.eqb_neq in H
  end.

(** Walk through a computation that returned: every bind succeeded and no early exit was
    taken.  Branches that can both return are left alone. *)
Ltac py_inv H :=
  repeat match type of H with
  | match ?x with _ => _ end = Ok _ =>
    first [ destruct x eqn:?; [discriminate H|] | destruct x eqn:?; [|discriminate H] ]
  end.

(** [raise_if]s and binds at the head of a returned computation, one at a time. *)
Ltac py_step H :=
  match type of H with
  | match ?x with _ => _ end = Ok _ =>
    let E := fresh "E" in
    first [ destruct x eqn:E; [discriminate H|] | destruct x eqn:E; [|discriminate H] ]
  end.
