(* ===== verification/Sha256.v ===== *)
(** * hashlib.sha256 and hmac.digest

    The two standard-library digests the harness uses, executable on byte
    lists, with test vectors and the shape of their output.  Words are integers
    in [0, 2^32) with the wrap-around written out. *)

From S2P Require Import Prelude.

Local Open Scope Z_scope.

Definition w32 (x : Z) : Z := Z.land x (Z.ones 32).
Definition add32 (x y : Z) : Z := w32 (x + y).
Definition rotr32 (n x : Z) : Z := Z.lor (Z.shiftr x n) (w32 (Z.shiftl x (32 - n))).

(** The round constants are the first 32 bits of the fractional parts of the cube roots
    of the first sixty-four primes, the initial state those of the square roots of the
    first eight; both are computed here, by bisection for the cube root. *)
Definition is_prime (n : nat) : bool :=
  forallb (fun d => negb (Nat.modulo n d =? 0)%nat) (seq 2 (n - 2)).
Definition sha_primes : list Z :=
  Eval vm_compute in map Z.of_nat (List.filter is_prime (seq 2 310)).

Fixpoint bisect_cbrt (fuel : nat) (n root step : Z) : Z :=
  match fuel with
  | O => root
  | S fuel' =>
    let r := root + step in
    bisect_cbrt fuel' n (if r * r * r <=? n then r else root) (Z.div2 step)
  end.

Definition sha_k : list Z :=
  Eval vm_compute in map (fun p => w32 (bisect_cbrt 40 (Z.shiftl p 96) 0 (Z.shiftl 1 39))) sha_primes.

Record sha_state := {
  sh_a : Z; sh_b : Z; sh_c : Z; sh_d : Z; sh_e : Z; sh_f : Z; sh_g : Z; sh_h : Z
}.

Definition sha_sqrt (i : nat) : Z := w32 (Z.sqrt (Z.shiftl (nth i sha_primes 0) 64)).
Definition sha_init : sha_state :=
  Eval vm_compute in
  {| sh_a := sha_sqrt 0; sh_b := sha_sqrt 1; sh_c := sha_sqrt 2; sh_d := sha_sqrt 3;
     sh_e := sha_sqrt 4; sh_f := sha_sqrt 5; sh_g := sha_sqrt 6; sh_h := sha_sqrt 7 |}.

(** Padding: 0x80, zeros, and the bit length as eight bytes. *)
Definition sha_pad (m : bytes) : bytes :=
  let n := Z.of_nat (length m) in
  m ++ 0x80 :: replicate (Z.to_nat ((55 - n) mod 64)) 0 ++ int_to_bytes 8 (8 * n).

Fixpoint sha_words (b : bytes) : list Z :=
  match b with
  | w :: x :: y :: z :: rest => int_from_bytes [w; x; y; z] :: sha_words rest
  | _ => []
  end.

(** The message schedule: sixteen words extended to sixty-four.  The list is kept
    newest first. *)
Fixpoint sha_extend (n : nat) (ws : list Z) : list Z :=
  match n with
  | O => ws
  | S n' =>
    let at_ i := nth i ws 0 in
    let s0 := Z.lxor (Z.lxor (rotr32 7 (at_ 14%nat)) (rotr32 18 (at_ 14%nat))) (Z.shiftr (at_ 14%nat) 3) in
    let s1 := Z.lxor (Z.lxor (rotr32 17 (at_ 1%nat)) (rotr32 19 (at_ 1%nat))) (Z.shiftr (at_ 1%nat) 10) in
    sha_extend n' (add32 (add32 (at_ 15%nat) s0) (add32 (at_ 6%nat) s1) :: ws)
  end.

Definition sha_round (s : sha_state) (kw : Z * Z) : sha_state :=
  let s1 := Z.lxor (Z.lxor (rotr32 6 (sh_e s)) (rotr32 11 (sh_e s))) (rotr32 25 (sh_e s)) in
  let ch := Z.lxor (Z.land (sh_e s) (sh_f s)) (Z.land (Z.lxor (sh_e s) (Z.ones 32)) (sh_g s)) in
  let t1 := add32 (add32 (sh_h s) s1) (add32 ch (add32 kw.1 kw.2)) in
  let s0 := Z.lxor (Z.lxor (rotr32 2 (sh_a s)) (rotr32 13 (sh_a s))) (rotr32 22 (sh_a s)) in
  let maj := Z.lxor (Z.lxor (Z.land (sh_a s) (sh_b s)) (Z.land (sh_a s) (sh_c s)))
                    (Z.land (sh_b s) (sh_c s)) in
  let t2 := add32 s0 maj in
  {| sh_a := add32 t1 t2; sh_b := sh_a s; sh_c := sh_b s; sh_d := sh_c s;
     sh_e := add32 (sh_d s) t1; sh_f := sh_e s; sh_g := sh_f s; sh_h := sh_g s |}.

Definition sha_block (s : sha_state) (block : list Z) : sha_state :=
  let t := fold_left sha_round (zip sha_k (rev (sha_extend 48 (rev block)))) s in
  {| sh_a := add32 (sh_a s) (sh_a t); sh_b := add32 (sh_b s) (sh_b t);
     sh_c := add32 (sh_c s) (sh_c t); sh_d := add32 (sh_d s) (sh_d t);
     sh_e := add32 (sh_e s) (sh_e t); sh_f := add32 (sh_f s) (sh_f t);
     sh_g := add32 (sh_g s) (sh_g t); sh_h := add32 (sh_h s) (sh_h t) |}.

Fixpoint sha_blocks (fuel : nat) (s : sha_state) (ws : list Z) : sha_state :=
  match fuel with
  | O => s
  | S fuel' =>
    match ws with
    | [] => s
    | _ => sha_blocks fuel' (sha_block s (take 16 ws)) (drop 16 ws)
    end
  end.

Definition sha_output (s : sha_state) : bytes :=
  mjoin (map (int_to_bytes 4)
    [sh_a s; sh_b s; sh_c s; sh_d s; sh_e s; sh_f s; sh_g s; sh_h s]).

(** [hashlib.sha256(m).digest()]; every block consumes sixteen words, so the word
    count is enough fuel. *)
Definition sha256 (m : bytes) : bytes :=
  let ws := sha_words (sha_pad m) in
  sha_output (sha_blocks (length ws) sha_init ws).

(** [hmac.digest(key, m, "sha256")] *)
Definition hmac_sha256 (key m : bytes) : bytes :=
  let short := if (64 <? Z.of_nat (length key)) then sha256 key else key in
  let block := short ++ replicate (64 - length short) 0 in
  sha256 (map (Z.lxor 0x5c) block ++ sha256 (map (Z.lxor 0x36) block ++ m)).

Definition hex_digit (d : Z) : N := Z.to_N (if d <? 10 then 48 + d else 87 + d).

(** [bytes.hex()] and [hexdigest()] *)
Definition hex_of_bytes (b : bytes) : str :=
  mjoin (map (fun x => [hex_digit (Z.shiftr x 4); hex_digit (Z.land x 15)]) b).

(** Text that is known to be ASCII, as bytes. *)
Definition ascii_bytes (s : str) : bytes := map Z.of_N s.

(** ** Test vectors *)

Example sha256_empty :
  hex_of_bytes (sha256 []) =
  u "e3b0c44298fc1c149afbf4c8996fb92427ae41e4649b934ca495991b7852b855".
Proof. vm_compute. reflexivity. Qed.

Example sha256_abc :
  hex_of_bytes (sha256 (ascii_bytes (u "abc"))) =
  u "ba7816bf8f01cfea414140de5dae2223b00361a396177a9cb410ff61f20015ad".
Proof. vm_compute. reflexivity. Qed.

Example hmac_sha256_rfc4231_2 :
  hex_of_bytes (hmac_sha256 (ascii_bytes (u "Jefe"))
                            (ascii_bytes (u "what do ya want for nothing?"))) =
  u "5bdcc146bf60754e6a042426089575c75a003f089d2739839dec58b964ec3843".
Proof. vm_compute. reflexivity. Qed.

(** ** Shape of the output *)

Lemma length_int_to_bytes n i : length (int_to_bytes n i) = n.
Proof. apply length_to_digits. Qed.

Lemma int_to_bytes_byte n i : Forall is_byte (int_to_bytes n i).
Proof. by apply to_digits_digit. Qed.

Lemma length_sha_output s : length (sha_output s) = 32%nat.
Proof. reflexivity. Qed.

Lemma sha256_length m : length (sha256 m) = 32%nat.
Proof. apply length_sha_output. Qed.

Lemma sha256_byte m : Forall is_byte (sha256 m).
Proof.
  unfold sha256, sha_output. apply Forall_join.
  repeat (constructor; [apply int_to_bytes_byte|]). constructor.
Qed.

Lemma hmac_sha256_length key m : length (hmac_sha256 key m) = 32%nat.
Proof. apply sha256_length. Qed.

Lemma hmac_sha256_byte key m : Forall is_byte (hmac_sha256 key m).
Proof. apply sha256_byte. Qed.

Lemma hex_of_bytes_length b : length (hex_of_bytes b) = (2 * length b)%nat.
Proof.
  unfold hex_of_bytes. induction b as [|x b IH]; simpl; [done|].
  simpl in IH. rewrite IH. lia.
Qed.

Lemma hex_of_bytes_hex b : Forall is_byte b -> forallb is_hex (hex_of_bytes b) = true.
Proof.
  assert (forall d, (0 <= d < 16)%Z -> is_hex (hex_digit d) = true) as Hd.
  { assert (Forall (fun d => is_hex (hex_digit d) = true) (seqZ 0 16)) as HF
      by (vm_compute; repeat constructor).
    rewrite Forall_forall in HF. intros d Hd. apply HF, list_elem_of_In, elem_of_seqZ. lia. }
  unfold hex_of_bytes. induction 1 as [|x b Hx _ IH]; [done|]. simpl.
  unfold is_byte, is_digit in Hx. rewrite !Hd; [done| |].
  - change 15 with (Z.ones 4). rewrite Z.land_ones by lia. by apply Z.mod_pos_bound.
  - rewrite Z.shiftr_div_pow2 by lia. change (2 ^ 4) with 16 in *.
    split; [apply Z.div_pos; lia|apply Z.div_lt_upper_bound; lia].
Qed.
