(* ===== verification/Text.v ===== *)
(** * Text encodings

    What several components use of [str]: decimal rendering, splitting and joining, stripping, lower
    case and [encode("utf-8")], with the facts they rely on: UTF-8 is injective and produces bytes. *)

From S2P Require Import Prelude.
From stdpp Require Import pretty.

Local Open Scope Z_scope.

(** [str(n)] for an integer [n]. *)
Definition str_of_int (n : Z) : str := u (pretty n).

(** [str.split(sep)] and [sep.join(parts)] for a separator of one character. *)
Fixpoint split_on (sep : N) (s : str) : list str :=
  match s with
  | [] => [[]]
  | c :: rest =>
    if (c =? sep)%N then [] :: split_on sep rest
    else match split_on sep rest with
         | part :: parts => (c :: part) :: parts
         | [] => [[c]]
         end
  end.
Fixpoint join_on (sep : N) (parts : list str) : str :=
  match parts with
  | [] => []
  | [p] => p
  | p :: rest => p ++ sep :: join_on sep rest
  end.

(** [str.partition(sep)]: the text before the first separator, and the text after it if there is one. *)
Fixpoint partition_on (sep : N) (s : str) : str * option str :=
  match s with
  | [] => ([], None)
  | c :: rest =>
    if (c =? sep)%N then ([], Some rest)
    else let (base, tail) := partition_on sep rest in (c :: base, tail)
  end.

Definition has_char (c : N) (s : str) : bool := existsb (N.eqb c) s.

(** [str.strip()]: the characters Python counts as white space. *)
Definition is_py_space (c : N) : bool :=
  char_between 9 13 c || char_between 28 32 c || (c =? 133)%N || (c =? 160)%N || (c =? 5760)%N
  || char_between 8192 8202 c || (c =? 8232)%N || (c =? 8233)%N || (c =? 8239)%N || (c =? 8287)%N || (c =? 12288)%N.
Fixpoint lstrip (s : str) : str :=
  match s with
  | c :: rest => if is_py_space c then lstrip rest else s
  | [] => []
  end.
Definition strip (s : str) : str := rev (lstrip (rev (lstrip s))).

(** [any(ord(c) < 32 or ord(c) == 127 for c in text)] *)
Definition has_control (s : str) : bool := existsb (fun c => (c <? 32)%N || (c =? 127)%N) s.

(** [str.lower()] of ASCII text. *)
Definition lower_char (c : N) : N := if char_between 65 90 c then (c + 32)%N else c.
Definition ascii_lower (s : str) : str := map lower_char s.

(** Surrogates are code points but not Unicode scalar values. *)
Definition is_surrogate (c : N) : bool := char_between 0xD800 0xDFFF c.
Definition is_scalar (c : N) : bool := (c <=? 0x10FFFF)%N && negb (is_surrogate c).

Definition utf8_char (c : Z) : bytes :=
  if c <? 0x80 then [c]
  else if c <? 0x800 then [0xC0 + c / 64; 0x80 + c mod 64]
  else if c <? 0x10000 then [0xE0 + c / 4096; 0x80 + (c / 64) mod 64; 0x80 + c mod 64]
  else [0xF0 + c / 262144; 0x80 + (c / 4096) mod 64; 0x80 + (c / 64) mod 64; 0x80 + c mod 64].

(** [value.encode("utf-8")]: [UnicodeEncodeError], a [ValueError], on a surrogate. *)
Definition utf8_encode (value : str) : result bytes :=
  raise_if negb (forallb is_scalar value) with ValueError ;;
  Ok (mjoin (map (fun c => utf8_char (Z.of_N c)) value)).

(** The lead byte determines how many bytes belong to the first character. *)
Definition utf8_split (b : bytes) : option (Z * bytes) :=
  match b with
  | [] => None
  | x :: rest =>
    if x <? 0x80 then Some (x, rest)
    else if x <? 0xE0 then
      match rest with
      | y :: rest' => Some ((x - 0xC0) * 64 + (y - 0x80), rest')
      | _ => None
      end
    else if x <? 0xF0 then
      match rest with
      | y :: z :: rest' => Some ((x - 0xE0) * 4096 + (y - 0x80) * 64 + (z - 0x80), rest')
      | _ => None
      end
    else
      match rest with
      | y :: z :: w :: rest' =>
        Some ((x - 0xF0) * 262144 + (y - 0x80) * 4096 + (z - 0x80) * 64 + (w - 0x80), rest')
      | _ => None
      end
  end.

Ltac div_facts :=
  repeat match goal with
  | |- context [ ?a / ?b ] =>
    lazymatch goal with
    | H : a = b * (a / b) + a mod b |- _ => fail
    | _ => pose proof (Z.div_mod a b ltac:(lia)); pose proof (Z.mod_pos_bound a b ltac:(lia))
    end
  | |- context [ ?a mod ?b ] =>
    lazymatch goal with
    | H : a = b * (a / b) + a mod b |- _ => fail
    | _ => pose proof (Z.div_mod a b ltac:(lia)); pose proof (Z.mod_pos_bound a b ltac:(lia))
    end
  end.

Lemma utf8_split_char c rest :
  0 <= c <= 0x10FFFF -> utf8_split (utf8_char c ++ rest) = Some (c, rest).
Proof.
  intros Hc. unfold utf8_char, utf8_split.
  destruct (c <? 0x80) eqn:E1; [py_bool; simpl; by rewrite (proj2 (Z.ltb_lt c 128))|].
  destruct (c <? 0x800) eqn:E2; [|destruct (c <? 0x10000) eqn:E3]; py_bool; simpl app;
    cbv beta iota.
  - assert (2 <= c / 64 < 32) by (div_facts; lia).
    rewrite (proj2 (Z.ltb_ge _ 128)), (proj2 (Z.ltb_lt _ 224)) by lia.
    repeat f_equal. div_facts; lia.
  - assert (0 <= c / 4096 < 16) by (div_facts; lia).
    rewrite (proj2 (Z.ltb_ge _ 128)), (proj2 (Z.ltb_ge _ 224)), (proj2 (Z.ltb_lt _ 240)) by lia.
    repeat f_equal.
    replace (c / 4096) with (c / 64 / 64) by (rewrite Z.div_div by lia; done).
    div_facts; lia.
  - assert (0 <= c / 262144 < 8) by (div_facts; lia).
    rewrite (proj2 (Z.ltb_ge _ 128)), (proj2 (Z.ltb_ge _ 224)), (proj2 (Z.ltb_ge _ 240)) by lia.
    repeat f_equal.
    replace (c / 262144) with (c / 64 / 64 / 64) by (rewrite !Z.div_div by lia; done).
    replace (c / 4096) with (c / 64 / 64) by (rewrite !Z.div_div by lia; done).
    div_facts; lia.
Qed.

Lemma is_scalar_bound c : is_scalar c = true -> 0 <= Z.of_N c <= 0x10FFFF.
Proof. unfold is_scalar. intros H. py_bool. apply N.leb_le in H. lia. Qed.

Lemma utf8_char_byte c : 0 <= c <= 0x10FFFF -> Forall is_byte (utf8_char c).
Proof.
  intros Hc. unfold utf8_char, is_byte, is_digit. change (2 ^ 8) with 256.
  repeat case_match; py_bool; repeat constructor; div_facts; lia.
Qed.

Lemma utf8_char_not_nil c : utf8_char c <> [].
Proof. unfold utf8_char. repeat case_match; done. Qed.

Lemma utf8_encode_ok value b :
  utf8_encode value = Ok b ->
  forallb is_scalar value = true /\ b = mjoin (map (fun c => utf8_char (Z.of_N c)) value).
Proof. unfold utf8_encode. case_match; [done|]. py_bool. by intros [= <-]. Qed.

Lemma utf8_encode_byte value b : utf8_encode value = Ok b -> Forall is_byte b.
Proof.
  intros [Hs ->]%utf8_encode_ok. apply Forall_join, Forall_map, list.Forall_forall.
  intros c Hc. apply utf8_char_byte, is_scalar_bound.
  rewrite forallb_forall in Hs. by apply Hs, list_elem_of_In.
Qed.

(** Distinct texts have distinct encodings. *)
Lemma utf8_encode_inj v w b : utf8_encode v = Ok b -> utf8_encode w = Ok b -> v = w.
Proof.
  intros [Hv ->]%utf8_encode_ok [Hw Heq]%utf8_encode_ok.
  revert w Hv Hw Heq; induction v as [|c v IH]; intros [|d w] Hv Hw Heq; simpl in *; auto.
  - destruct (utf8_char (Z.of_N d)) eqn:E; [by apply utf8_char_not_nil in E|done].
  - destruct (utf8_char (Z.of_N c)) eqn:E; [by apply utf8_char_not_nil in E|done].
  - apply andb_true_iff in Hv as [Hc Hv], Hw as [Hd Hw].
    apply (f_equal utf8_split) in Heq.
    rewrite !utf8_split_char in Heq by (by apply is_scalar_bound).
    injection Heq as Hcd Hrest. apply N2Z.inj in Hcd as ->. f_equal. by apply IH.
Qed.

Lemma utf8_encode_nonempty v b : utf8_encode v = Ok b -> v <> [] -> b <> [].
Proof.
  intros [_ ->]%utf8_encode_ok. destruct v as [|c v]; [done|]. simpl. intros _.
  destruct (utf8_char (Z.of_N c)) eqn:E; [by apply utf8_char_not_nil in E|done].
Qed.
