(* ===== verification/TextLemmas.v ===== *)
(** * Splitting and joining text

    The facts about [str.split], [str.join] and [str.partition] the components share. *)

From S2P Require Import Prelude Text.

Local Open Scope Z_scope.

Lemma ok_inj {A} (a b : A) : Ok a = Ok b -> a = b.
Proof. congruence. Qed.

Lemma mapM_inverse {A B} (f : A -> option B) (g : B -> A) l :
  (forall x, x ∈ l -> f (g x) = Some x) -> mapM f (map g l) = Some l.
Proof.
  intros H. apply mapM_Some. induction l as [|x l IH]; simpl; constructor; [apply H; by left|].
  apply IH. intros y Hy. apply H. by right.
Qed.

Lemma last_append {A} (l k : list A) d : k <> [] -> List.last (l ++ k) d = List.last k d.
Proof. intros Hk. destruct (exists_last Hk) as (k' & x & ->). by rewrite app_assoc, !last_last. Qed.

Lemma last_in {A} (l : list A) d : l <> [] -> In (List.last l d) l.
Proof. intros H. destruct (exists_last H) as (k & x & ->). rewrite last_last. apply in_or_app. right. by left. Qed.

Lemma has_char_app c p q : has_char c (p ++ q) = has_char c p || has_char c q.
Proof. apply existsb_app. Qed.

Lemma split_plain sep p : has_char sep p = false -> split_on sep p = [p].
Proof.
  induction p as [|c p IH]; [done|]. unfold has_char. simpl. rewrite orb_false_iff, N.eqb_sym. intros [-> Hp].
  by rewrite (IH Hp).
Qed.

Lemma split_prefix sep p s : has_char sep p = false -> split_on sep (p ++ sep :: s) = p :: split_on sep s.
Proof.
  induction p as [|c p IH]; simpl; [by rewrite N.eqb_refl|].
  unfold has_char. simpl. rewrite orb_false_iff, N.eqb_sym. intros [-> Hp]. by rewrite (IH Hp).
Qed.

Lemma split_join sep parts :
  parts <> [] -> Forall (fun p => has_char sep p = false) parts -> split_on sep (join_on sep parts) = parts.
Proof.
  intros Hne Hf. induction Hf as [|p rest Hp Hf IH]; [done|].
  destruct rest as [|q rest]; [by apply split_plain|].
  change (join_on sep (p :: q :: rest)) with (p ++ sep :: join_on sep (q :: rest)).
  rewrite split_prefix by done. by rewrite IH.
Qed.

Lemma split_nonempty sep s : split_on sep s <> [].
Proof. destruct s as [|c s]; simpl; [done|]. destruct (c =? sep)%N; [done|]. by destruct (split_on sep s). Qed.

Lemma join_split sep s : join_on sep (split_on sep s) = s.
Proof.
  induction s as [|c s IH]; [done|]. simpl. pose proof (split_nonempty sep s) as Hne.
  destruct (c =? sep)%N eqn:E.
  - apply N.eqb_eq in E as ->. destruct (split_on sep s); [done|]. simpl in *. by rewrite IH.
  - destruct (split_on sep s) as [|p [|q l]]; [done|simpl in *; by rewrite IH|].
    change (join_on sep ((c :: p) :: q :: l)) with (c :: (p ++ sep :: join_on sep (q :: l))).
    change (join_on sep (p :: q :: l)) with (p ++ sep :: join_on sep (q :: l)) in IH. by rewrite IH.
Qed.

Lemma split_no_sep sep s : Forall (fun p => has_char sep p = false) (split_on sep s).
Proof.
  induction s as [|c s IH]; [by constructor|]. simpl. destruct (c =? sep)%N eqn:E; [by constructor|].
  pose proof (split_nonempty sep s) as Hne. destruct (split_on sep s) as [|p l]; [done|].
  apply list.Forall_cons in IH as [Hp Hl]. constructor; [|done]. unfold has_char. simpl. by rewrite N.eqb_sym, E.
Qed.

Lemma join_char c sep parts :
  c <> sep -> Forall (fun p => has_char c p = false) parts -> has_char c (join_on sep parts) = false.
Proof.
  intros Hne Hf. induction Hf as [|p rest Hp Hf IH]; [done|]. destruct rest as [|q rest]; [done|].
  change (join_on sep (p :: q :: rest)) with (p ++ sep :: join_on sep (q :: rest)).
  rewrite has_char_app, Hp. simpl. apply orb_false_iff. split; [by apply N.eqb_neq|done].
Qed.

Lemma join_forallb p sep parts :
  p sep = true -> Forall (fun part => forallb p part = true) parts -> forallb p (join_on sep parts) = true.
Proof.
  intros Hs Hf. induction Hf as [|x l Hx Hf IH]; [done|]. destruct l as [|y l]; [done|].
  change (join_on sep (x :: y :: l)) with (x ++ sep :: join_on sep (y :: l)).
  rewrite forallb_app, Hx. simpl. by rewrite Hs.
Qed.

Lemma join_on_length sep parts n :
  Forall (fun p => length p <= n)%nat parts -> (length (join_on sep parts) <= length parts * S n)%nat.
Proof.
  intros Hf. induction Hf as [|x l Hx Hf IH]; [done|]. destruct l as [|y l]; [simpl; lia|].
  change (join_on sep (x :: y :: l)) with (x ++ sep :: join_on sep (y :: l)). rewrite length_app.
  cbn [length] in *. lia.
Qed.

Lemma join_nonempty sep p parts : p <> [] \/ parts <> [] -> join_on sep (p :: parts) <> [].
Proof.
  destruct parts as [|q l]; [intros [H|H]; done|]. intros _.
  change (p ++ sep :: join_on sep (q :: l) <> []). by destruct p.
Qed.

Lemma partition_absent sep s : has_char sep s = false -> partition_on sep s = (s, None).
Proof.
  induction s as [|c s IH]; [done|]. unfold has_char. simpl. rewrite orb_false_iff, N.eqb_sym. intros [-> Hs].
  by rewrite (IH Hs).
Qed.

Lemma last_join sep p parts : parts <> [] -> List.last parts [] <> [] -> p <> sep ->
  List.last (join_on sep parts) p = List.last (List.last parts []) p.
Proof.
  intros Hne Hl Hp. induction parts as [|x [|y l] IH]; [done|done|].
  change (join_on sep (x :: y :: l)) with (x ++ sep :: join_on sep (y :: l)).
  change (List.last (x :: y :: l) []) with (List.last (y :: l) []) in *.
  rewrite <- IH by done. rewrite last_append by done. apply (last_append [sep]). intros E.
  assert (split_on sep (join_on sep (y :: l)) = split_on sep []) as Hs by (by rewrite E).
  destruct l as [|z l]; [simpl in E; by subst|].
  change (y ++ sep :: join_on sep (z :: l) = []) in E. by destruct y.
Qed.
