(* ===== verification/Generator.v ===== *)
(** * Deterministic context generator

    [determinism/generator.py]: seed normalization, the length-prefixed context
    encoding, the HMAC-SHA256 byte stream, and unbiased bounded integers by
    rejection sampling.  The sampling loop is a fixpoint with fuel whose result
    is [None] only when the fuel runs out; [bounded_int_terminates] shows that
    enough fuel exists for every input. *)

From S2P Require Import Prelude Sha256 Text.

Local Open Scope Z_scope.

Definition MESSAGE_DOMAIN_SEPARATOR : bytes := ascii_bytes (u "wrch-prng-v1") ++ [0].
Definition SEED_FINGERPRINT_DOMAIN_SEPARATOR : bytes :=
  ascii_bytes (u "seed-fingerprint-v1") ++ [0].
Definition INITIAL_COUNTER : Z := 0.
Definition UUID_ENTROPY_CONTEXT_ROOT : str := u "uuid-entropy-v1".
Definition ULID_ENTROPY_CONTEXT_ROOT : str := u "ulid-entropy-v1".
Definition CHOICE_CONTEXT_ROOT : str := u "choice-index-v1".
Definition UUID_ENTROPY_SIZE : Z := 16.
Definition ULID_ENTROPY_SIZE : Z := 10.
Definition _DIGEST_SIZE : Z := 32.
Definition _INT64_MAX : Z := 2 ^ 63 - 1.
Definition _UINT32_MAX : Z := 2 ^ 32 - 1.
Definition _UINT64_MAX : Z := 2 ^ 64 - 1.

Definition normalize_text_seed (seed : str) : result bytes :=
  let! text := utf8_encode seed in
  Ok (sha256 text).

Definition validate_normalized_seed_hash (seed_hash : bytes) : result bytes :=
  raise_if negb (Z.of_nat (length seed_hash) =? _DIGEST_SIZE) with ValueError ;;
  Ok seed_hash.

Definition seed_fingerprint (seed_hash : bytes) : result str :=
  let! normalized := validate_normalized_seed_hash seed_hash in
  Ok (hex_of_bytes (sha256 (SEED_FINGERPRINT_DOMAIN_SEPARATOR ++ normalized))).

(** [_validate_context]: a nonempty sequence of nonempty texts. *)
Definition _validate_context (context : list str) : result (list str) :=
  raise_if bool_decide (context = []) with ValueError ;;
  raise_if bool_decide ([] ∈ context) with ValueError ;;
  Ok context.

Definition encode_component (encoded : bytes) (component : str) : result bytes :=
  let! component_bytes := utf8_encode component in
  raise_if (_UINT32_MAX <? Z.of_nat (length component_bytes)) with ValueError ;;
  Ok (encoded ++ int_to_bytes 4 (Z.of_nat (length component_bytes)) ++ component_bytes).

Definition encode_context (context : list str) : result bytes :=
  let! components := _validate_context context in
  for_each encode_component [] components.

Record ContextGenerator := { normalized_seed_hash : bytes }.

(** [ContextGenerator(seed_hash)] with its [__post_init__]. *)
Definition make_generator (seed_hash : bytes) : result ContextGenerator :=
  let! h := validate_normalized_seed_hash seed_hash in
  Ok {| normalized_seed_hash := h |}.

Definition from_text_seed (seed : str) : result ContextGenerator :=
  let! h := normalize_text_seed seed in
  make_generator h.

Definition _block (g : ContextGenerator) (encoded_context : bytes) (counter : Z) : result bytes :=
  raise_if (counter <? INITIAL_COUNTER) || (_UINT64_MAX <? counter) with OverflowError ;;
  Ok (hmac_sha256 (normalized_seed_hash g)
        (MESSAGE_DOMAIN_SEPARATOR ++ encoded_context ++ int_to_bytes 8 counter)).

(** The blocks of [range(first, first + count)], concatenated. *)
Definition stream_blocks (g : ContextGenerator) (enc : bytes) (first count : Z) : result bytes :=
  let! blocks := map_result (_block g enc) (seqZ first count) in
  Ok (mjoin blocks).

Definition draw_bytes (g : ContextGenerator) (context : list str) (len : Z) : result bytes :=
  raise_if (len <? 0) with ValueError ;;
  let! encoded_context := encode_context context in
  let block_count := (len + _DIGEST_SIZE - 1) / _DIGEST_SIZE in
  raise_if (_UINT64_MAX - INITIAL_COUNTER + 1 <? block_count) with OverflowError ;;
  if len =? 0 then Ok []
  else
    let! output := stream_blocks g encoded_context INITIAL_COUNTER block_count in
    Ok (take (Z.to_nat len) output).

Definition _stream_slice (g : ContextGenerator) (enc : bytes) (offset len : Z) : result bytes :=
  let first_block := offset / _DIGEST_SIZE in
  let last_offset := offset + len in
  let block_count := (last_offset + _DIGEST_SIZE - 1) / _DIGEST_SIZE - first_block in
  let first_counter := INITIAL_COUNTER + first_block in
  raise_if (_UINT64_MAX <? first_counter)
           || (_UINT64_MAX - first_counter + 1 <? block_count) with OverflowError ;;
  let! stream := stream_blocks g enc first_counter block_count in
  let start := Z.to_nat (offset mod _DIGEST_SIZE) in
  Ok (take (Z.to_nat len) (drop start stream)).

(** [n.bit_length()] for [n >= 0]. *)
Definition bit_length (n : Z) : Z := if n =? 0 then 0 else Z.log2 n + 1.

Definition sample_width (span : Z) : Z := Z.max 1 ((bit_length (span - 1) + 7) / 8).
Definition sample_space (span : Z) : Z := Z.shiftl 1 (sample_width span * 8).
Definition rejection_limit (span : Z) : Z :=
  sample_space span - sample_space span mod span.

(** The [while True] loop of [bounded_int]; [None] when the fuel is spent. *)
Fixpoint bounded_int_loop (fuel : nat) (g : ContextGenerator) (enc : bytes)
    (lower_bound span offset : Z) : option (result Z) :=
  match fuel with
  | O => None
  | S fuel' =>
    match _stream_slice g enc offset (sample_width span) with
    | Raise e => Some (Raise e)
    | Ok slice =>
      let candidate := int_from_bytes slice in
      if candidate <? rejection_limit span then Some (Ok (lower_bound + candidate mod span))
      else bounded_int_loop fuel' g enc lower_bound span (offset + sample_width span)
    end
  end.

Definition bounded_int (fuel : nat) (g : ContextGenerator) (context : list str)
    (lower upper : Z) : option (result Z) :=
  if upper <=? lower then Some (Raise ValueError)
  else
    match encode_context context with
    | Raise e => Some (Raise e)
    | Ok enc => bounded_int_loop fuel g enc lower (upper - lower) 0
    end.

Definition choice_index (fuel : nat) (g : ContextGenerator) (context : list str)
    (option_count : Z) : option (result Z) :=
  if option_count <? 0 then Some (Raise ValueError)
  else if option_count =? 0 then Some (Raise ValueError)
  else
    match _validate_context context with
    | Raise e => Some (Raise e)
    | Ok components => bounded_int fuel g (CHOICE_CONTEXT_ROOT :: components) 0 option_count
    end.

(** [choice]: the option at the selected index. *)
Definition choice {A} (fuel : nat) (g : ContextGenerator) (context : list str)
    (options : list A) : option (result A) :=
  match options with
  | [] => Some (Raise ValueError)
  | _ =>
    match choice_index fuel g context (Z.of_nat (length options)) with
    | None => None
    | Some (Raise e) => Some (Raise e)
    | Some (Ok i) =>
      match options !! Z.to_nat i with
      | Some x => Some (Ok x)
      | None => Some (Raise KeyError)
      end
    end
  end.

Definition uuid_entropy (g : ContextGenerator) (context : list str) : result bytes :=
  let! components := _validate_context context in
  draw_bytes g (UUID_ENTROPY_CONTEXT_ROOT :: components) UUID_ENTROPY_SIZE.

Definition ulid_entropy (g : ContextGenerator) (context : list str) : result bytes :=
  let! components := _validate_context context in
  draw_bytes g (ULID_ENTROPY_CONTEXT_ROOT :: components) ULID_ENTROPY_SIZE.

Definition _validate_nonempty_text (value : str) : result str :=
  raise_if bool_decide (value = []) with ValueError ;; Ok value.

Definition signed_retry_jitter (fuel : nat) (g : ContextGenerator)
    (scenario_id planned_delivery_id : str) (attempt_ordinal : Z)
    (jitter_policy_version : str) (magnitude_bound : Z) : option (result Z) :=
  let checked :=
    let! scenario := _validate_nonempty_text scenario_id in
    let! delivery := _validate_nonempty_text planned_delivery_id in
    let! policy := _validate_nonempty_text jitter_policy_version in
    raise_if (attempt_ordinal <? 0) with ValueError ;;
    raise_if (_UINT64_MAX <? attempt_ordinal) with OverflowError ;;
    raise_if (magnitude_bound <? 0) with ValueError ;;
    raise_if (_INT64_MAX <? magnitude_bound) with OverflowError ;;
    Ok [u "retry-jitter"; scenario; delivery; str_of_int attempt_ordinal; policy] in
  match checked with
  | Raise e => Some (Raise e)
  | Ok context => bounded_int fuel g context (- magnitude_bound) (magnitude_bound + 1)
  end.

(** ** Golden vectors of the repository, replayed on the model *)

Definition golden_seed : str := u "reproducible caf" ++ [233%N] ++ u " seed".

Definition with_golden {A} (f : ContextGenerator -> A) : option A :=
  match from_text_seed golden_seed with Ok g => Some (f g) | Raise _ => None end.

Example golden_fingerprint :
  with_golden (fun g => seed_fingerprint (normalized_seed_hash g)) =
  Some (Ok (u "7d409ff23d66bd81a8c92971ddc296ca3d2ed7986b832109bb2de3be79f6445a")).
Proof. vm_compute. reflexivity. Qed.

Example golden_multi_block :
  with_golden (fun g =>
    let! b := draw_bytes g [u "byte-draw"; u "multi-block"] 65 in Ok (hex_of_bytes b)) =
  Some (Ok (u "70b3c19b9637325c8f8c18a372adad2901d59ac1b9f93f6bb16d3665bb7f8838f38d6620fa5da212fea3fe02deb77fcd442e87d61e88f1a34ca9f4d8156ce5cc9f")).
Proof. vm_compute. reflexivity. Qed.

Example golden_bounded_rejection :
  with_golden (fun g => bounded_int 2 g [u "bounded-rejection"; u "0"] (-10) 119) =
  Some (Some (Ok 118)).
Proof. vm_compute. reflexivity. Qed.

Example golden_choice :
  with_golden (fun g =>
    choice 4 g [u "mutation"; u "event_01"; u "invalid-json-v1"; u "catalog"]
      [u "truncated-object"; u "bad-escape"; u "trailing-comma"]) =
  Some (Some (Ok (u "bad-escape"))).
Proof. vm_compute. reflexivity. Qed.

(** ** The context encoding *)

Lemma encode_component_ok enc c enc' :
  encode_component enc c = Ok enc' ->
  exists cb, utf8_encode c = Ok cb /\ Z.of_nat (length cb) <= _UINT32_MAX /\
    enc' = enc ++ int_to_bytes 4 (Z.of_nat (length cb)) ++ cb.
Proof.
  unfold encode_component. destruct (utf8_encode c) as [cb|]; [|done].
  case_match; [done|]. py_bool. intros [= <-]. by exists cb.
Qed.

(** The accumulator only grows: the loop is a concatenation of component codes. *)
Lemma encode_component_frame pre acc c :
  encode_component (pre ++ acc) c =
  (let! r := encode_component acc c in Ok (pre ++ r)).
Proof.
  unfold encode_component. destruct (utf8_encode c) as [cb|]; [|done].
  destruct (_UINT32_MAX <? Z.of_nat (length cb)); [done|]. by rewrite <- app_assoc.
Qed.

Lemma encode_loop_frame ctx pre acc :
  for_each encode_component (pre ++ acc) ctx =
  (let! r := for_each encode_component acc ctx in Ok (pre ++ r)).
Proof.
  revert acc; induction ctx as [|c ctx IH]; intros acc; simpl; [done|].
  rewrite encode_component_frame. destruct (encode_component acc c); [apply IH|done].
Qed.

Lemma encode_loop_acc ctx acc r :
  for_each encode_component acc ctx = Ok r ->
  exists t, for_each encode_component [] ctx = Ok t /\ r = acc ++ t.
Proof.
  rewrite <- (app_nil_r acc) at 1. rewrite encode_loop_frame.
  destruct (for_each encode_component [] ctx) as [t|]; [|done]. intros [= <-]. by exists t.
Qed.

Lemma int_to_bytes_4_inj i j :
  0 <= i <= _UINT32_MAX -> 0 <= j <= _UINT32_MAX ->
  int_to_bytes 4 i = int_to_bytes 4 j -> i = j.
Proof.
  unfold _UINT32_MAX, int_to_bytes. intros Hi Hj Heq.
  rewrite <- (of_to_digits 8 ltac:(done) 4 i), <- (of_to_digits 8 ltac:(done) 4 j), Heq; simpl; lia.
Qed.

(** One length-prefixed component can be split off the front of the code. *)
Lemma encode_prefix_split (c d r s : bytes) :
  Z.of_nat (length c) <= _UINT32_MAX -> Z.of_nat (length d) <= _UINT32_MAX ->
  (int_to_bytes 4 (Z.of_nat (length c)) ++ c) ++ r =
  (int_to_bytes 4 (Z.of_nat (length d)) ++ d) ++ s ->
  c = d /\ r = s.
Proof.
  intros Hc Hd Heq. rewrite <- !app_assoc in Heq.
  apply app_inj_1 in Heq as [Hlen Hrest]; [|by rewrite !length_int_to_bytes].
  apply int_to_bytes_4_inj in Hlen; [|lia..].
  apply app_inj_1 in Hrest; [done|lia].
Qed.

Lemma encode_loop_inj c1 c2 b :
  for_each encode_component [] c1 = Ok b -> for_each encode_component [] c2 = Ok b -> c1 = c2.
Proof.
  revert c2 b; induction c1 as [|x c1 IH]; intros [|y c2] b H1 H2; simpl in *; auto.
  - injection H1 as <-. destruct (encode_component [] y) eqn:E; [|done].
    apply encode_component_ok in E as (cb & _ & _ & ->).
    apply encode_loop_acc in H2 as (t & _ & Ht). simpl in Ht. done.
  - injection H2 as <-. destruct (encode_component [] x) eqn:E; [|done].
    apply encode_component_ok in E as (cb & _ & _ & ->).
    apply encode_loop_acc in H1 as (t & _ & Ht). simpl in Ht. done.
  - destruct (encode_component [] x) eqn:E1; [|done].
    destruct (encode_component [] y) eqn:E2; [|done].
    apply encode_component_ok in E1 as (xb & Hx & Hlx & ->).
    apply encode_component_ok in E2 as (yb & Hy & Hly & ->).
    apply encode_loop_acc in H1 as (t1 & Ht1 & ->).
    apply encode_loop_acc in H2 as (t2 & Ht2 & Heq). simpl app in Heq at 1.
    apply encode_prefix_split in Heq as [-> ->]; [|done..].
    f_equal; [by eapply utf8_encode_inj|by eapply IH].
Qed.

Lemma encode_context_ok ctx b :
  encode_context ctx = Ok b ->
  (ctx <> []) /\ ([] ∉ ctx) /\ for_each encode_component [] ctx = Ok b.
Proof. unfold encode_context, _validate_context. intros H. py_cases. py_bool. done. Qed.

(** the context encoding is injective: two contexts with the same encoded
    bytes are equal, so distinct contexts never share a generator stream key. *)
Theorem encode_context_injective c1 c2 b :
  encode_context c1 = Ok b -> encode_context c2 = Ok b -> c1 = c2.
Proof.
  intros (_ & _ & H1)%encode_context_ok (_ & _ & H2)%encode_context_ok.
  by eapply encode_loop_inj.
Qed.

Lemma encode_context_injective_witness :
  [u "alpha"; [946%N]] = [u "alpha"; [946%N]].
Proof.
  apply (encode_context_injective _ _
    (int_to_bytes 4 5 ++ ascii_bytes (u "alpha") ++ int_to_bytes 4 2 ++ [0xce; 0xb2]));
    vm_compute; reflexivity.
Defined.

(** ** The byte stream *)

Definition block_bytes (g : ContextGenerator) (enc : bytes) (counter : Z) : bytes :=
  hmac_sha256 (normalized_seed_hash g)
    (MESSAGE_DOMAIN_SEPARATOR ++ enc ++ int_to_bytes 8 counter).

Definition stream (g : ContextGenerator) (enc : bytes) (first count : Z) : bytes :=
  mjoin (map (block_bytes g enc) (seqZ first count)).

Lemma _block_ok g enc c : 0 <= c <= _UINT64_MAX -> _block g enc c = Ok (block_bytes g enc c).
Proof.
  intros Hc. unfold _block, INITIAL_COUNTER.
  by rewrite (proj2 (Z.ltb_ge c 0)), (proj2 (Z.ltb_ge _ c)) by lia.
Qed.

Lemma stream_blocks_ok g enc first count :
  0 <= first -> first + count <= _UINT64_MAX + 1 ->
  stream_blocks g enc first count = Ok (stream g enc first count).
Proof.
  intros Hf Hc. unfold stream_blocks.
  assert (map_result (_block g enc) (seqZ first count) =
          Ok (map (block_bytes g enc) (seqZ first count))) as ->; [|done].
  apply map_result_ok, Forall2_fmap_r, Forall_Forall2_diag, list.Forall_forall.
  intros c Hin%elem_of_seqZ. apply _block_ok. lia.
Qed.

Lemma length_stream g enc first count :
  0 <= count -> Z.of_nat (length (stream g enc first count)) = _DIGEST_SIZE * count.
Proof.
  intros Hc. unfold stream. assert (forall l, Z.of_nat (length (mjoin (map (block_bytes g enc) l)))
                    = _DIGEST_SIZE * Z.of_nat (length l)) as ->.
  { intros l; induction l as [|x l IH]; [by rewrite Z.mul_0_r|].
    change (mjoin (map (block_bytes g enc) (x :: l)))
      with (block_bytes g enc x ++ mjoin (map (block_bytes g enc) l)).
    rewrite length_app. unfold block_bytes at 1. rewrite hmac_sha256_length.
    unfold _DIGEST_SIZE in *. simpl length. lia. }
  rewrite length_seqZ, Z2Nat.id by done. done.
Qed.

Lemma stream_byte g enc first count : Forall is_byte (stream g enc first count).
Proof.
  apply Forall_join, Forall_map, list.Forall_forall. intros. apply hmac_sha256_byte.
Qed.

Lemma stream_app g enc first a b :
  0 <= a -> 0 <= b -> stream g enc first (a + b) = stream g enc first a ++ stream g enc (first + a) b.
Proof. intros. unfold stream. by rewrite seqZ_app, map_app, join_app by lia. Qed.

(** Blocks needed for [len] bytes. *)
Lemma block_count_bound len :
  0 <= len -> len <= _DIGEST_SIZE * ((len + _DIGEST_SIZE - 1) / _DIGEST_SIZE).
Proof.
  intros Hlen. unfold _DIGEST_SIZE.
  pose proof (Z.div_mod (len + 32 - 1) 32 ltac:(lia)).
  pose proof (Z.mod_pos_bound (len + 32 - 1) 32 ltac:(lia)). lia.
Qed.

Lemma draw_bytes_eq g ctx enc len :
  encode_context ctx = Ok enc -> 0 <= len <= _DIGEST_SIZE * (_UINT64_MAX + 1) ->
  draw_bytes g ctx len =
  Ok (take (Z.to_nat len) (stream g enc 0 ((len + _DIGEST_SIZE - 1) / _DIGEST_SIZE))).
Proof.
  intros Henc Hlen. unfold draw_bytes. rewrite (proj2 (Z.ltb_ge len 0)), Henc by lia.
  assert ((len + _DIGEST_SIZE - 1) / _DIGEST_SIZE <= _UINT64_MAX + 1) as Hbc.
  { apply Z.lt_succ_r, Z.div_lt_upper_bound; unfold _DIGEST_SIZE in *; lia. }
  unfold INITIAL_COUNTER. rewrite (proj2 (Z.ltb_ge (_UINT64_MAX - 0 + 1) _)) by lia.
  destruct (len =? 0) eqn:E; py_bool; [by subst|].
  rewrite stream_blocks_ok by lia. done.
Qed.

Lemma draw_bytes_byte g ctx len b : draw_bytes g ctx len = Ok b -> Forall is_byte b.
Proof.
  unfold draw_bytes, stream_blocks. case_match; [done|].
  destruct (encode_context ctx) as [enc|]; [|done]. case_match; [done|].
  case_match; [intros [= <-]; constructor|].
  destruct (map_result (_block g enc) _) as [bs|] eqn:E; [|done]. intros [= <-].
  apply Forall_take, Forall_join. apply map_result_ok in E.
  induction E as [|x y l k Hxy _ IH]; constructor; [|done].
  unfold _block in Hxy. case_match; [done|]. injection Hxy as <-. apply hmac_sha256_byte.
Qed.

(** a draw of [len] bytes from a valid context, up to the counter space, never
    fails and returns exactly [len] bytes. *)
Theorem draw_bytes_total g ctx enc len :
  encode_context ctx = Ok enc -> 0 <= len <= _DIGEST_SIZE * (_UINT64_MAX + 1) ->
  exists b, draw_bytes g ctx len = Ok b /\ Z.of_nat (length b) = len /\ Forall is_byte b.
Proof.
  intros Henc Hlen. rewrite (draw_bytes_eq g ctx enc len) by done. eexists; split; [done|].
  split; [|apply Forall_take, stream_byte].
  rewrite length_take.
  pose proof (block_count_bound len ltac:(lia)) as Hb.
  pose proof (length_stream g enc 0 ((len + _DIGEST_SIZE - 1) / _DIGEST_SIZE)
    ltac:(apply Z.div_pos; unfold _DIGEST_SIZE; lia)). lia.
Qed.

Lemma draw_bytes_total_witness :
  exists b, draw_bytes {| normalized_seed_hash := replicate 32 7 |} [u "a"] 33 = Ok b
    /\ Z.of_nat (length b) = 33 /\ Forall is_byte b.
Proof.
  apply (draw_bytes_total _ _ (int_to_bytes 4 1 ++ [97])); vm_compute; [reflexivity|].
  split; discriminate.
Defined.

(** shorter draws from the same context are prefixes of longer ones, so growing
    a field never changes the bytes already drawn. *)
Theorem draw_bytes_prefix g ctx m n b :
  draw_bytes g ctx n = Ok b -> 0 <= m <= n -> n <= _DIGEST_SIZE * (_UINT64_MAX + 1) ->
  draw_bytes g ctx m = Ok (take (Z.to_nat m) b).
Proof.
  intros Hn Hm Hmax. destruct (encode_context ctx) as [enc|] eqn:Henc.
  2: { unfold draw_bytes in Hn. rewrite Henc in Hn. by case_match. }
  rewrite (draw_bytes_eq g ctx enc n) in Hn by (auto; lia). injection Hn as <-.
  rewrite (draw_bytes_eq g ctx enc m) by (auto; lia). f_equal.
  rewrite take_take, Nat.min_l by lia.
  set (bm := (m + _DIGEST_SIZE - 1) / _DIGEST_SIZE).
  set (bn := (n + _DIGEST_SIZE - 1) / _DIGEST_SIZE).
  assert (0 <= bm) by (apply Z.div_pos; unfold _DIGEST_SIZE; lia).
  assert (bm <= bn) by (apply Z.div_le_mono; unfold _DIGEST_SIZE; lia).
  replace bn with (bm + (bn - bm)) by lia. rewrite stream_app by lia.
  rewrite take_app_le; [done|].
  pose proof (length_stream g enc 0 bm ltac:(done)).
  pose proof (block_count_bound m ltac:(lia)). subst bm. lia.
Qed.

Lemma draw_bytes_prefix_witness :
  exists b, draw_bytes {| normalized_seed_hash := replicate 32 7 |} [u "a"] 40 = Ok b /\
    draw_bytes {| normalized_seed_hash := replicate 32 7 |} [u "a"] 3 = Ok (take 3 b).
Proof.
  eexists. split; [vm_compute; reflexivity|].
  apply (draw_bytes_prefix _ _ 3 40); [vm_compute; reflexivity|lia|vm_compute; discriminate].
Defined.

(** ** Rejection sampling *)

Lemma sample_width_pos span : 1 <= sample_width span.
Proof. unfold sample_width. lia. Qed.

Lemma sample_space_pow span : sample_space span = 2 ^ (8 * sample_width span).
Proof.
  unfold sample_space. pose proof (sample_width_pos span).
  rewrite Z.shiftl_mul_pow2, Z.mul_1_l by lia. f_equal; lia.
Qed.

(** The sample space always covers the span. *)
Lemma span_le_sample_space span : 0 < span -> span <= sample_space span.
Proof.
  intros Hs. rewrite sample_space_pow. unfold sample_width, bit_length.
  destruct (span - 1 =? 0) eqn:E; py_bool.
  { assert (span = 1) as -> by lia. vm_compute. discriminate. }
  assert (0 < span - 1) as Hp by lia.
  pose proof (Z.log2_spec (span - 1) Hp) as [_ Hlog]. pose proof (Z.log2_nonneg (span - 1)).
  set (k := Z.log2 (span - 1)) in *.
  assert (Z.succ k <= 8 * Z.max 1 ((k + 1 + 7) / 8)) as Hk.
  { pose proof (Z.div_mod (k + 1 + 7) 8 ltac:(lia)).
    pose proof (Z.mod_pos_bound (k + 1 + 7) 8 ltac:(lia)). lia. }
  pose proof (Z.pow_le_mono_r 2 _ _ ltac:(lia) Hk). lia.
Qed.

Lemma rejection_limit_mul span :
  0 < span -> rejection_limit span = span * (sample_space span / span).
Proof. intros Hs. unfold rejection_limit. rewrite Z.mod_eq by lia. lia. Qed.

(** rejection sampling accepts more than half of the sample space, whatever the
    span, and never more than the sample space holds. *)
Theorem rejection_limit_majority span :
  0 < span -> sample_space span < 2 * rejection_limit span /\
              rejection_limit span <= sample_space span.
Proof.
  intros Hs. pose proof (span_le_sample_space span Hs) as Hle.
  rewrite rejection_limit_mul by done.
  assert (0 < sample_space span) by lia. set (S := sample_space span) in *.
  pose proof (Z.div_mod S span ltac:(lia)). pose proof (Z.mod_pos_bound S span ltac:(lia)).
  assert (1 <= S / span) by (apply Z.div_le_lower_bound; lia). nia.
Qed.

Lemma rejection_limit_majority_witness :
  256 < 2 * rejection_limit 129 /\ rejection_limit 129 <= 256.
Proof. apply (rejection_limit_majority 129). reflexivity. Defined.

(** The accepted candidates that map to one residue. *)
Definition accepted_for (span r : Z) : list Z :=
  filter (fun c => c mod span = r) (seqZ 0 (rejection_limit span)).

Lemma filter_residue_block span r base :
  0 <= r < span -> base mod span = 0 ->
  filter (fun c => c mod span = r) (seqZ base span) = [base + r].
Proof.
  intros Hr Hb.
  assert (forall k, 0 <= k < span -> (base + k) mod span = k) as Hmod.
  { intros k Hk. rewrite Z.add_mod, Hb, Z.add_0_l, Z.mod_mod by lia. by apply Z.mod_small. }
  assert (forall a n, base <= a -> a + n <= base + span -> (base + r < a \/ a + n <= base + r) ->
    filter (fun c => c mod span = r) (seqZ a n) = []) as Hnone.
  { intros a n Ha Hn Hne. apply filter_none, list.Forall_forall. intros c Hc%elem_of_seqZ.
    replace c with (base + (c - base)) by lia. rewrite Hmod by lia. lia. }
  assert (seqZ base span = seqZ base r ++ [base + r] ++ seqZ (base + r + 1) (span - r - 1)) as ->.
  { change [base + r] with (seqZ (base + r) 1).
    rewrite <- !seqZ_app by lia. f_equal; lia. }
  rewrite !list.filter_app, (Hnone base r), Hnone by lia. simpl.
  by rewrite filter_cons_True by (apply Hmod; lia).
Qed.

Lemma filter_residue_blocks span r (q : nat) :
  0 <= r < span ->
  length (filter (fun c => c mod span = r) (seqZ 0 (span * Z.of_nat q))) = q.
Proof.
  intros Hr. induction q as [|q IH]; [by rewrite Z.mul_0_r|].
  rewrite Nat2Z.inj_succ, Z.mul_succ_r, seqZ_app by nia.
  rewrite list.filter_app, length_app, IH, filter_residue_block; [simpl; lia|done|].
  rewrite Z.add_0_l, Z.mul_comm. apply Z.mod_mul. lia.
Qed.

(** the accepted candidates are spread evenly: every residue is hit by exactly
    [rejection_limit / span] candidates, so the sampled integer has no modulo bias. *)
Theorem bounded_int_unbiased span r :
  0 <= r < span ->
  Z.of_nat (length (accepted_for span r)) = rejection_limit span / span.
Proof.
  intros Hr. unfold accepted_for. rewrite rejection_limit_mul by lia.
  assert (0 <= sample_space span / span).
  { apply Z.div_pos; [|lia]. pose proof (span_le_sample_space span ltac:(lia)). lia. }
  rewrite <- (Z2Nat.id (sample_space span / span)) by done.
  rewrite filter_residue_blocks by done. rewrite Z.mul_comm, Z.div_mul by lia. done.
Qed.

Lemma bounded_int_unbiased_witness :
  Z.of_nat (length (accepted_for 3 2)) = 85.
Proof. apply (bounded_int_unbiased 3 2). split; [discriminate|reflexivity]. Defined.

Lemma bounded_int_loop_range fuel g enc lower span offset v :
  0 < span -> bounded_int_loop fuel g enc lower span offset = Some (Ok v) ->
  lower <= v < lower + span.
Proof.
  intros Hs. revert offset; induction fuel as [|fuel IH]; intros offset; simpl; [done|].
  destruct (_stream_slice _ _ _ _) as [slice|]; [|done].
  case_match; [|apply IH]. intros [= <-].
  pose proof (Z.mod_pos_bound (int_from_bytes slice) span Hs). lia.
Qed.

(** A bounded draw stays in the half-open range it was asked for. *)
Lemma bounded_int_in_range fuel g ctx lower upper v :
  bounded_int fuel g ctx lower upper = Some (Ok v) -> lower <= v < upper.
Proof.
  unfold bounded_int. case_match; [done|]. py_bool.
  destruct (encode_context ctx); [|done].
  intros Hv%bounded_int_loop_range; lia.
Qed.

(** Past the counter space the slice raises, so the loop stops. *)
Lemma stream_slice_exhausted g enc offset len :
  _DIGEST_SIZE * (_UINT64_MAX + 1) <= offset ->
  _stream_slice g enc offset len = Raise OverflowError.
Proof.
  intros Ho. unfold _stream_slice, INITIAL_COUNTER. rewrite Z.add_0_l.
  assert (_UINT64_MAX + 1 <= offset / _DIGEST_SIZE) as Hf
    by (apply Z.div_le_lower_bound; [done|lia]).
  by rewrite (proj2 (Z.ltb_lt _ _) (proj1 (Z.le_succ_l _ _) Hf)).
Qed.

Lemma bounded_int_loop_fuel fuel g enc lower span offset :
  Z.max 0 (_DIGEST_SIZE * (_UINT64_MAX + 1) - offset) < Z.of_nat fuel ->
  exists r, bounded_int_loop fuel g enc lower span offset = Some r.
Proof.
  revert offset; induction fuel as [|fuel IH]; intros offset Hf; simpl.
  - lia.
  - destruct (Z.le_gt_cases (_DIGEST_SIZE * (_UINT64_MAX + 1)) offset).
    { rewrite stream_slice_exhausted by done. by eexists. }
    destruct (_stream_slice _ _ _ _) as [slice|]; [|by eexists].
    case_match; [by eexists|]. apply IH. pose proof (sample_width_pos span). lia.
Qed.

(** rejection sampling terminates on every input: with fuel for the whole counter
    space it returns a value or raises, and more fuel never changes the outcome. *)
Theorem bounded_int_terminates g ctx lower upper :
  exists fuel r, bounded_int fuel g ctx lower upper = Some r /\
    forall more, (fuel <= more)%nat -> bounded_int more g ctx lower upper = Some r.
Proof.
  assert (forall f f' enc span offset r, (f <= f')%nat ->
    bounded_int_loop f g enc lower span offset = Some r ->
    bounded_int_loop f' g enc lower span offset = Some r) as Hmono.
  { induction f as [|f IH]; intros [|f'] enc span offset r Hle; simpl; try done; [lia|].
    destruct (_stream_slice _ _ _ _); [|done]. case_match; [done|]. apply IH. lia. }
  set (fuel := Z.to_nat (_DIGEST_SIZE * (_UINT64_MAX + 1) + 1)).
  exists fuel. unfold bounded_int.
  case_match; [by eexists|]. destruct (encode_context ctx) as [enc|]; [|by eexists].
  destruct (bounded_int_loop_fuel fuel g enc lower (upper - lower) 0) as [r Hr].
  { unfold fuel. assert (0 <= _DIGEST_SIZE * (_UINT64_MAX + 1)) as HD by (vm_compute; discriminate).
    revert HD. generalize (_DIGEST_SIZE * (_UINT64_MAX + 1)). intros D HD.
    rewrite Z2Nat.id; lia. }
  exists r. split; [done|]. intros more Hle. by eapply Hmono.
Qed.

(** the retry jitter lies in the inclusive range its magnitude bound allows. *)
Theorem signed_retry_jitter_range fuel g s d o p bound v :
  signed_retry_jitter fuel g s d o p bound = Some (Ok v) ->
  - bound <= v <= bound /\ 0 <= bound <= _INT64_MAX.
Proof.
  unfold signed_retry_jitter, _validate_nonempty_text.
  repeat (case_match; simplify_eq/=; try done). py_bool.
  intros Hv%bounded_int_in_range. lia.
Qed.

Lemma signed_retry_jitter_range_witness :
  exists v, with_golden (fun g => signed_retry_jitter 8 g (u "scenario_01") (u "delivery_02") 1
    (u "jitter-policy-v1") 1000) = Some (Some (Ok v)) /\ -1000 <= v <= 1000.
Proof.
  destruct (from_text_seed golden_seed) as [g|e] eqn:Hg; [|vm_compute in Hg; discriminate].
  unfold with_golden. rewrite Hg.
  vm_compute in Hg. injection Hg as <-.
  eexists. split; [vm_compute; reflexivity|].
  apply (signed_retry_jitter_range 8
    {| normalized_seed_hash := sha256 (match utf8_encode golden_seed with Ok b => b | Raise _ => [] end) |}
    (u "scenario_01") (u "delivery_02") 1 (u "jitter-policy-v1") 1000).
  vm_compute. reflexivity.
Defined.
