(* ===== verification/Identifiers.v ===== *)
(** * Execution, planned-entity and evidence identifiers

    [domain/identifiers.py]: Crockford Base32 ULID payloads, the type-prefixed
    planned and fresh identifiers, canonical UUIDv4 run identifiers, and the
    registry that detects two natural keys claiming one planned identifier. *)

From S2P Require Import Prelude Sha256 Text Generator.

Local Open Scope Z_scope.

Definition PLANNED_ID_ALGORITHM : str := u "planned-id-v1".
Definition _CROCKFORD_ALPHABET : str := u "0123456789ABCDEFGHJKMNPQRSTVWXYZ".
Definition _ULID_LENGTH : nat := 26.
Definition _ULID_BYTES : nat := 16.
Definition _MAX_NATURAL_KEY_BYTES : Z := 4096.

(** [_CROCKFORD_DECODE]: the index of a character of the alphabet. *)
Fixpoint alphabet_index (i : Z) (alphabet : str) (c : N) : option Z :=
  match alphabet with
  | [] => None
  | a :: rest => if (a =? c)%N then Some i else alphabet_index (i + 1) rest c
  end.
Definition _CROCKFORD_DECODE (c : N) : option Z := alphabet_index 0 _CROCKFORD_ALPHABET c.

Definition crockford_char (d : Z) : N := nth (Z.to_nat d) _CROCKFORD_ALPHABET 0%N.

Inductive PlannedIdKind :=
  | Planned_SCENARIO
  | Planned_EVENT
  | Planned_DELIVERY
  | Planned_ATTEMPT_PLAN
  | Planned_OBSERVATION
  | Planned_ASSERTION.

Inductive FreshIdKind :=
  | Fresh_ATTEMPT
  | Fresh_SAMPLE
  | Fresh_EVALUATION
  | Fresh_RECORD.

#[global] Instance PlannedIdKind_eq_dec : EqDecision PlannedIdKind.
Proof. solve_decision. Defined.
#[global] Instance FreshIdKind_eq_dec : EqDecision FreshIdKind.
Proof. solve_decision. Defined.

Definition PlannedIdKind_value (k : PlannedIdKind) : str :=
  match k with
  | Planned_SCENARIO => u "scenario"
  | Planned_EVENT => u "event"
  | Planned_DELIVERY => u "delivery"
  | Planned_ATTEMPT_PLAN => u "attempt_plan"
  | Planned_OBSERVATION => u "observation"
  | Planned_ASSERTION => u "assertion"
  end.

Definition FreshIdKind_value (k : FreshIdKind) : str :=
  match k with
  | Fresh_ATTEMPT => u "attempt"
  | Fresh_SAMPLE => u "sample"
  | Fresh_EVALUATION => u "evaluation"
  | Fresh_RECORD => u "record"
  end.

Definition PlannedIdKind_members : list PlannedIdKind :=
  [Planned_SCENARIO; Planned_EVENT; Planned_DELIVERY; Planned_ATTEMPT_PLAN;
   Planned_OBSERVATION; Planned_ASSERTION].
Definition FreshIdKind_members : list FreshIdKind :=
  [Fresh_ATTEMPT; Fresh_SAMPLE; Fresh_EVALUATION; Fresh_RECORD].

(** The loop of [encode_crockford_ulid]: fill the 26 positions from the last one,
    taking five bits at a time. *)
Fixpoint encode_loop (n : nat) (integer : Z) (encoded : str) : str :=
  match n with
  | O => encoded
  | S n' => encode_loop n' (Z.shiftr integer 5)
              (crockford_char (Z.land integer 0x1F) :: encoded)
  end.

Definition encode_crockford_ulid (value : bytes) : result str :=
  raise_if negb (length value =? _ULID_BYTES)%nat with ValueError ;;
  Ok (encode_loop _ULID_LENGTH (int_from_bytes value) []).

(** One step of the decoding loop; a missing key is reported as [ValueError]. *)
Definition decode_step (integer : Z) (character : N) : result Z :=
  match _CROCKFORD_DECODE character with
  | Some d => Ok (Z.lor (Z.shiftl integer 5) d)
  | None => Raise ValueError
  end.

Definition decode_crockford_ulid (text : str) : result bytes :=
  raise_if negb (length text =? _ULID_LENGTH)%nat with ValueError ;;
  let! integer := for_each decode_step 0 text in
  raise_if (Z.shiftl 1 (Z.of_nat _ULID_BYTES * 8) <=? integer) with ValueError ;;
  Ok (int_to_bytes _ULID_BYTES integer).

(** [text.startswith(prefix)] with [text.removeprefix(prefix)]. *)
Fixpoint strip_prefix (prefix text : str) : option str :=
  match prefix, text with
  | [], _ => Some text
  | p :: prefix', c :: text' => if (p =? c)%N then strip_prefix prefix' text' else None
  | _ :: _, [] => None
  end.

Definition underscore : N := 95.

Fixpoint parse_kinds {K} (value_of : K -> str) (kinds : list K) (text : str) : result (K * bytes) :=
  match kinds with
  | [] => Raise ValueError
  | kind :: rest =>
    match strip_prefix (value_of kind ++ [underscore]) text with
    | Some payload => let! raw := decode_crockford_ulid payload in Ok (kind, raw)
    | None => parse_kinds value_of rest text
    end
  end.

Definition parse_planned_id (text : str) : result (PlannedIdKind * bytes) :=
  parse_kinds PlannedIdKind_value PlannedIdKind_members text.

Definition has_planned_prefix (text : str) : bool :=
  existsb (fun kind =>
    match strip_prefix (PlannedIdKind_value kind ++ [underscore]) text with
    | Some _ => true | None => false end) PlannedIdKind_members.

Definition parse_fresh_id (text : str) : result (FreshIdKind * bytes) :=
  raise_if has_planned_prefix text with ValueError ;;
  parse_kinds FreshIdKind_value FreshIdKind_members text.

Definition validate_planned_id (value : str) (expected_kind : option PlannedIdKind) : result str :=
  let! kp := parse_planned_id value in
  match expected_kind with
  | None => Ok value
  | Some k => raise_if negb (bool_decide (kp.1 = k)) with ValueError ;; Ok value
  end.

Definition validate_fresh_id (value : str) (expected_kind : option FreshIdKind) : result str :=
  let! kp := parse_fresh_id value in
  match expected_kind with
  | None => Ok value
  | Some k => raise_if negb (bool_decide (kp.1 = k)) with ValueError ;; Ok value
  end.

Definition validate_natural_key_component (component : str) : result str :=
  raise_if bool_decide (component = []) with ValueError ;;
  raise_if existsb is_surrogate component with ValueError ;;
  let! encoded := utf8_encode component in
  raise_if (_MAX_NATURAL_KEY_BYTES <? Z.of_nat (length encoded)) with ValueError ;;
  Ok component.

Definition _validate_natural_key (value : list str) : result (list str) :=
  raise_if bool_decide (value = []) with ValueError ;;
  map_result validate_natural_key_component value.

Definition planned_id (g : ContextGenerator) (kind : PlannedIdKind) (natural_key : list str)
    : result str :=
  let! components := _validate_natural_key natural_key in
  let! raw := draw_bytes g
    ([PLANNED_ID_ALGORITHM; PlannedIdKind_value kind] ++ components) (Z.of_nat _ULID_BYTES) in
  let! payload := encode_crockford_ulid raw in
  Ok (PlannedIdKind_value kind ++ [underscore] ++ payload).

(** [new_fresh_id]; the random bytes of [secrets.token_bytes(16)] are an argument. *)
Definition new_fresh_id (kind : FreshIdKind) (token_bytes : bytes) : result str :=
  let! payload := encode_crockford_ulid token_bytes in
  Ok (FreshIdKind_value kind ++ [underscore] ++ payload).

(** ** Run identifiers *)

Definition hyphen : N := 45.
Definition is_char (c d : N) : bool := (c =? d)%N.
Definition is_variant_char (c : N) : bool := existsb (is_char c) (u "89ab").

(** [_RUN_ID], one predicate per position of the pattern. *)
Definition _RUN_ID : list (N -> bool) :=
  replicate 8 is_hex ++ [is_char hyphen] ++ replicate 4 is_hex ++ [is_char hyphen]
  ++ [is_char 52] ++ replicate 3 is_hex ++ [is_char hyphen]
  ++ [is_variant_char] ++ replicate 3 is_hex ++ [is_char hyphen] ++ replicate 12 is_hex.

Fixpoint fullmatch_classes (classes : list (N -> bool)) (text : str) : bool :=
  match classes, text with
  | [], [] => true
  | p :: classes', c :: text' => p c && fullmatch_classes classes' text'
  | _, _ => false
  end.

(** [uuid.UUID(text)] on text that matched: the hyphens are dropped and the 32
    remaining digits read in base 16. *)
Definition hex_value (c : N) : Z := if is_decimal c then Z.of_N c - 48 else Z.of_N c - 87.
Definition uuid_digits (text : str) : list Z :=
  map hex_value (List.filter (fun c => negb (is_char hyphen c)) text).
Definition uuid_int (text : str) : Z := of_digits 4 (uuid_digits text).

(** [UUID.variant == RFC_4122] and [UUID.version]. *)
Definition uuid_is_rfc4122 (i : Z) : bool :=
  Z.testbit i 63 && negb (Z.testbit i 62).
Definition uuid_version (i : Z) : Z := Z.land (Z.shiftr i 76) 0xF.

(** [str(uuid)]: [%032x] with hyphens after 8, 12, 16 and 20 digits. *)
Definition uuid_str (i : Z) : str :=
  let hex := map hex_digit (to_digits 4 32 i []) in
  take 8 hex ++ [hyphen] ++ take 4 (drop 8 hex) ++ [hyphen] ++ take 4 (drop 12 hex)
  ++ [hyphen] ++ take 4 (drop 16 hex) ++ [hyphen] ++ drop 20 hex.

Definition validate_run_id (text : str) : result str :=
  raise_if negb (fullmatch_classes _RUN_ID text) with ValueError ;;
  let parsed := uuid_int text in
  raise_if negb (uuid_version parsed =? 4) || negb (uuid_is_rfc4122 parsed)
           || negb (bool_decide (uuid_str parsed = text)) with ValueError ;;
  Ok text.

(** ** The registry of claimed planned identifiers *)

Record PlannedIdRegistry := { _claims : gmap str (list str) }.

Definition claim (registry : PlannedIdRegistry) (identifier : str) (natural_key : list str)
    : result PlannedIdRegistry :=
  let! stable_id := validate_planned_id identifier None in
  let! source := _validate_natural_key natural_key in
  match _claims registry !! stable_id with
  | None => Ok {| _claims := <[stable_id := source]> (_claims registry) |}
  | Some existing =>
    raise_if negb (bool_decide (existing = source)) with IdentifierCollisionError ;;
    Ok registry
  end.

(** ** Crockford Base32 *)

Lemma alphabet_index_some i al c d :
  alphabet_index i al c = Some d ->
  i <= d < i + Z.of_nat (length al) /\ nth (Z.to_nat (d - i)) al 0%N = c.
Proof.
  revert i; induction al as [|a al IH]; intros i; simpl; [done|].
  destruct (N.eqb_spec a c) as [->|Hne].
  - intros [= ->]. rewrite Z.sub_diag. split; [lia|done].
  - intros (Hb & Hn)%IH. split; [lia|].
    replace (d - i) with (Z.succ (d - (i + 1))) by lia.
    rewrite Z2Nat.inj_succ by lia. done.
Qed.

Lemma crockford_decode_some c d :
  _CROCKFORD_DECODE c = Some d -> is_digit 5 d /\ crockford_char d = c.
Proof.
  intros (Hb & Hn)%alphabet_index_some. rewrite Z.sub_0_r in Hn.
  split; [|done]. unfold is_digit. simpl in Hb. simpl. lia.
Qed.

Lemma crockford_decode_char d :
  is_digit 5 d -> _CROCKFORD_DECODE (crockford_char d) = Some d.
Proof.
  intros Hd.
  assert (Forall (fun d => _CROCKFORD_DECODE (crockford_char d) = Some d) (seqZ 0 32)) as HF
    by (vm_compute; repeat constructor).
  rewrite list.Forall_forall in HF. apply HF, elem_of_seqZ. unfold is_digit in Hd.
  change (2 ^ 5) with 32 in Hd. lia.
Qed.

Lemma encode_loop_digits n i acc :
  encode_loop n i acc = map crockford_char (to_digits 5 n i []) ++ acc.
Proof.
  revert i acc; induction n as [|n IH]; intros i acc; [done|].
  rewrite to_digits_S. simpl. rewrite IH, map_app, <- app_assoc. done.
Qed.

(** Decoding reads exactly the digit string of the text. *)
Lemma decode_loop_digits text i j :
  for_each decode_step i text = Ok j <->
  exists ds, map crockford_char ds = text /\ Forall (is_digit 5) ds /\
    j = fold_left (fun acc d => Z.lor (Z.shiftl acc 5) d) ds i.
Proof.
  revert i; induction text as [|c text IH]; intros i; simpl.
  - split; [intros [= <-]; by exists []|]. intros ([|] & ? & _ & ->); done.
  - unfold decode_step at 1. split.
    + destruct (_CROCKFORD_DECODE c) as [d|] eqn:E; [|done].
      apply crockford_decode_some in E as [Hd <-].
      intros (ds & <- & HF & ->)%IH. exists (d :: ds). auto.
    + intros ([|d ds] & Hm & HF & ->); [done|]. simpl in Hm. injection Hm as <- <-.
      inversion_clear HF. rewrite crockford_decode_char by done. apply IH. by exists ds.
Qed.

Lemma decode_loop_ok text j :
  for_each decode_step 0 text = Ok j <->
  exists ds, map crockford_char ds = text /\ Forall (is_digit 5) ds /\ j = of_digits 5 ds.
Proof. apply decode_loop_digits. Qed.

Lemma ulid_bits : 2 ^ (5 * Z.of_nat _ULID_LENGTH) = 4 * 2 ^ 128.
Proof. vm_compute. reflexivity. Qed.
Lemma ulid_bytes_bits : 2 ^ (8 * Z.of_nat _ULID_BYTES) = 2 ^ 128.
Proof. vm_compute. reflexivity. Qed.
Lemma ulid_limit : Z.shiftl 1 (Z.of_nat _ULID_BYTES * 8) = 2 ^ 128.
Proof. vm_compute. reflexivity. Qed.

Lemma ulid_length_ok {A} (l : list A) n :
  negb (length l =? n)%nat = false <-> length l = n.
Proof. rewrite negb_false_iff. apply Nat.eqb_eq. Qed.

Lemma decode_encode_ulid raw :
  length raw = _ULID_BYTES -> Forall is_byte raw ->
  exists t, encode_crockford_ulid raw = Ok t /\ decode_crockford_ulid t = Ok raw.
Proof.
  intros Hlen HF. unfold encode_crockford_ulid. rewrite (proj2 (ulid_length_ok raw _) Hlen).
  eexists; split; [reflexivity|].
  pose proof (of_digits_bound 8 ltac:(done) raw HF) as Hb. fold (int_from_bytes raw) in Hb.
  rewrite Hlen, ulid_bytes_bits in Hb.
  unfold decode_crockford_ulid. rewrite encode_loop_digits, app_nil_r.
  rewrite (proj2 (ulid_length_ok _ _)) by (by rewrite length_map, length_to_digits).
  rewrite (proj2 (decode_loop_ok _ (int_from_bytes raw))).
  - rewrite ulid_limit, (proj2 (Z.leb_gt _ _)) by lia. f_equal.
    unfold int_to_bytes, int_from_bytes. rewrite <- Hlen. by apply to_of_digits.
  - eexists. split; [reflexivity|]. split; [by apply to_digits_digit|].
    rewrite of_to_digits by (rewrite ?ulid_bits; lia). done.
Qed.

Lemma encode_decode_ulid t raw :
  decode_crockford_ulid t = Ok raw ->
  length raw = _ULID_BYTES /\ Forall is_byte raw /\ encode_crockford_ulid raw = Ok t.
Proof.
  unfold decode_crockford_ulid. case_match eqn:Elen; [done|]. apply ulid_length_ok in Elen.
  destruct (for_each decode_step 0 t) as [i|] eqn:Ei; [|done].
  rewrite ulid_limit. case_match eqn:Eb; [done|]. py_bool. intros [= <-].
  apply decode_loop_ok in Ei as (ds & <- & HF & ->). rewrite length_map in Elen.
  pose proof (of_digits_bound 5 ltac:(done) ds HF) as [H0 _].
  split; [apply length_int_to_bytes|]. split; [apply int_to_bytes_byte|].
  unfold encode_crockford_ulid.
  rewrite (proj2 (ulid_length_ok _ _)) by apply length_int_to_bytes.
  rewrite encode_loop_digits, app_nil_r. unfold int_from_bytes, int_to_bytes.
  rewrite of_to_digits by (rewrite ?ulid_bytes_bits; lia).
  rewrite <- Elen, to_of_digits by done. done.
Qed.

(** Crockford ULID encoding and decoding are inverse: decoding an encoded 16-byte
    payload returns it, and a text that decodes is the unique canonical encoding of
    its payload (no two texts share a payload). *)
Theorem crockford_roundtrip raw t :
  (length raw = _ULID_BYTES /\ Forall is_byte raw /\ encode_crockford_ulid raw = Ok t)
  <-> decode_crockford_ulid t = Ok raw.
Proof.
  split; [|apply encode_decode_ulid].
  intros (Hlen & HF & Ht). destruct (decode_encode_ulid raw Hlen HF) as (t' & Ht' & Hd).
  rewrite Ht in Ht'. by injection Ht' as <-.
Qed.

(** ** Type prefixes *)

Lemma strip_prefix_app p t : strip_prefix p (p ++ t) = Some t.
Proof. induction p as [|c p IH]; [done|]. simpl. by rewrite N.eqb_refl. Qed.

Lemma strip_prefix_some p t r : strip_prefix p t = Some r -> t = p ++ r.
Proof.
  revert t; induction p as [|c p IH]; intros [|d t]; simpl; try done; [by intros [= <-]..|].
  case_match eqn:E; [|done]. apply N.eqb_eq in E as ->. intros ->%IH. done.
Qed.

(** Every prefix other than the kind's own fails on the kind's identifiers: the
    prefixes differ at some position before the payload. *)
Lemma parse_planned_kind k payload raw :
  decode_crockford_ulid payload = Ok raw ->
  parse_planned_id (PlannedIdKind_value k ++ [underscore] ++ payload) = Ok (k, raw).
Proof. intros Hd. destruct k; lazy -[decode_crockford_ulid]; by rewrite Hd. Qed.

Lemma crockford_char_not_lower c d : _CROCKFORD_DECODE c = Some d -> is_lower c = false.
Proof.
  intros [Hd <-]%crockford_decode_some.
  assert (Forall (fun d => is_lower (crockford_char d) = false) (seqZ 0 32)) as HF
    by (vm_compute; repeat constructor).
  rewrite list.Forall_forall in HF. apply HF, elem_of_seqZ. unfold is_digit in Hd.
  change (2 ^ 5) with 32 in Hd. lia.
Qed.

Lemma parse_fresh_kind k payload raw :
  decode_crockford_ulid payload = Ok raw ->
  parse_fresh_id (FreshIdKind_value k ++ [underscore] ++ payload) = Ok (k, raw).
Proof.
  intros Hd. unfold parse_fresh_id.
  assert (has_planned_prefix (FreshIdKind_value k ++ [underscore] ++ payload) = false) as ->.
  2: { destruct k; lazy -[decode_crockford_ulid]; by rewrite Hd. }
  destruct k; try reflexivity.
  (* attempt_ against attempt_plan_: the payload would have to start with a letter p *)
  unfold decode_crockford_ulid in Hd. case_match eqn:Elen; [done|].
  destruct payload as [|c payload]; [done|]. simpl in Hd. unfold decode_step at 1 in Hd.
  destruct (_CROCKFORD_DECODE c) eqn:Ec; [|done].
  apply crockford_char_not_lower in Ec.
  destruct (N.eqb_spec 112 c) as [<-|Hne]; [done|].
  unfold has_planned_prefix. lazy -[N.eqb]. 
  rewrite (proj2 (N.eqb_neq 112 c) Hne). reflexivity.
Qed.

Lemma validate_natural_key_same key comps :
  _validate_natural_key key = Ok comps -> comps = key.
Proof.
  unfold _validate_natural_key. case_match; [done|]. intros Ek%map_result_ok. clear -Ek.
  induction Ek as [|x y l k Hxy _ IH]; [done|]. f_equal; [|done].
  unfold validate_natural_key_component in Hxy. py_cases.
Qed.

(** a derived planned identifier parses back to its kind and to the sixteen bytes
    drawn for its natural key, and is never accepted as a fresh identifier. *)
Theorem planned_id_parses g kind key id :
  planned_id g kind key = Ok id ->
  exists raw, draw_bytes g ([PLANNED_ID_ALGORITHM; PlannedIdKind_value kind] ++ key) 16 = Ok raw
    /\ parse_planned_id id = Ok (kind, raw)
    /\ parse_fresh_id id = Raise ValueError.
Proof.
  unfold planned_id. destruct (_validate_natural_key key) as [comps|] eqn:Ek; [|done].
  apply validate_natural_key_same in Ek as ->.
  destruct (draw_bytes _ _ _) as [raw|] eqn:Ed; [|done].
  destruct (encode_crockford_ulid raw) as [p|] eqn:Ep; [|done].
  intros Hid. assert (id = PlannedIdKind_value kind ++ [underscore] ++ p) as -> by congruence.
  exists raw. split; [done|].
  assert (decode_crockford_ulid p = Ok raw) as Hdec.
  { assert (length raw = _ULID_BYTES) as Hlen.
    { unfold encode_crockford_ulid in Ep. case_match eqn:El; [done|]. by apply ulid_length_ok in El. }
    destruct (decode_encode_ulid raw Hlen (draw_bytes_byte _ _ _ _ Ed)) as (t & Ht & Hdt).
    rewrite Ep in Ht. by injection Ht as <-. }
  split; [by apply parse_planned_kind|].
  unfold parse_fresh_id.
  assert (has_planned_prefix (PlannedIdKind_value kind ++ [underscore] ++ p) = true) as ->; [|done].
  apply existsb_exists. exists kind. split; [destruct kind; cbn; tauto|].
  by rewrite (app_assoc _ [underscore]), strip_prefix_app.
Qed.

Lemma planned_id_parses_witness :
  exists id raw, planned_id {| normalized_seed_hash := replicate 32 7 |} Planned_EVENT [u "e1"] = Ok id
    /\ parse_planned_id id = Ok (Planned_EVENT, raw) /\ parse_fresh_id id = Raise ValueError.
Proof.
  destruct (planned_id {| normalized_seed_hash := replicate 32 7 |} Planned_EVENT [u "e1"])
    as [id|] eqn:E; [|vm_compute in E; discriminate].
  destruct (planned_id_parses _ _ _ _ E) as (raw & _ & Hp & Hf). by exists id, raw.
Defined.

(** no text is both a planned and a fresh identifier, and every fresh identifier
    parses back to its kind and payload. *)
Theorem fresh_id_roundtrip k raw :
  length raw = _ULID_BYTES -> Forall is_byte raw ->
  exists id, new_fresh_id k raw = Ok id /\ parse_fresh_id id = Ok (k, raw)
    /\ parse_planned_id id = Raise ValueError.
Proof.
  intros Hlen HF. destruct (decode_encode_ulid raw Hlen HF) as (t & Ht & Hd).
  exists (FreshIdKind_value k ++ [underscore] ++ t). unfold new_fresh_id. rewrite Ht.
  split; [done|]. assert (parse_fresh_id (FreshIdKind_value k ++ [underscore] ++ t) = Ok (k, raw)) as Hf
    by (by apply parse_fresh_kind).
  split; [done|]. unfold parse_fresh_id in Hf. case_match eqn:Ep; [done|].
  unfold parse_planned_id. clear Hf. revert Ep. unfold has_planned_prefix.
  generalize (FreshIdKind_value k ++ [underscore] ++ t). intros text.
  induction PlannedIdKind_members as [|m ms IH]; [done|]. simpl.
  destruct (strip_prefix _ text); [done|]. apply IH.
Qed.

Lemma fresh_id_roundtrip_witness :
  exists id, new_fresh_id Fresh_ATTEMPT (replicate 16 255) = Ok id
    /\ parse_fresh_id id = Ok (Fresh_ATTEMPT, replicate 16 255)
    /\ parse_planned_id id = Raise ValueError.
Proof.
  apply (fresh_id_roundtrip Fresh_ATTEMPT (replicate 16 255)); [reflexivity|].
  repeat constructor; discriminate.
Defined.

(** ** Run identifiers *)

Lemma is_hex_cases c : is_hex c = true -> In c (u "0123456789abcdef").
Proof.
  unfold is_hex, is_decimal, char_between. rewrite orb_true_iff, !andb_true_iff, !N.leb_le.
  intros Hc. assert (forall n, (n <= 54)%N -> (n <= 9 \/ 49 <= n)%N -> In (48 + n)%N (u "0123456789abcdef")) as Hn.
  { intros n Hn Hr. assert (N.to_nat n < 55)%nat as Hlt by lia.
    rewrite <- (N2Nat.id n) in *. generalize dependent (N.to_nat n). intros m Hr Hlt _.
    do 55 (destruct m as [|m]; [vm_compute; (lia || tauto)|]). lia. }
  replace c with (48 + (c - 48))%N by lia. apply Hn; lia.
Qed.

Lemma hex_value_digit c :
  is_hex c = true ->
  is_digit 4 (hex_value c) /\ hex_digit (hex_value c) = c /\ is_char hyphen c = false.
Proof.
  intros Hin%is_hex_cases. revert c Hin.
  assert (Forall (fun c => (0 <=? hex_value c) && (hex_value c <? 16) = true /\
    hex_digit (hex_value c) = c /\ is_char hyphen c = false) (u "0123456789abcdef")) as HF
    by (vm_compute; repeat constructor).
  intros c Hin. rewrite List.Forall_forall in HF. destruct (HF c Hin) as (H1 & H2 & H3).
  unfold is_digit. change (2 ^ 4) with 16. py_bool. auto.
Qed.

Lemma is_variant_char_cases c :
  is_variant_char c = true -> is_hex c = true /\ Z.testbit (hex_value c) 3 = true
    /\ Z.testbit (hex_value c) 2 = false.
Proof.
  intros (d & Hd & Heq)%existsb_exists. apply N.eqb_eq in Heq as ->.
  assert (Forall (fun c => is_hex c = true /\ Z.testbit (hex_value c) 3 = true
    /\ Z.testbit (hex_value c) 2 = false) (u "89ab")) as HF by (vm_compute; repeat constructor).
  rewrite List.Forall_forall in HF. auto.
Qed.

Lemma fullmatch_app p1 p2 t :
  fullmatch_classes (p1 ++ p2) t = true ->
  exists t1 t2, t = t1 ++ t2 /\ fullmatch_classes p1 t1 = true /\ fullmatch_classes p2 t2 = true.
Proof.
  revert t; induction p1 as [|p p1 IH]; intros t; simpl; [by exists [], t|].
  destruct t as [|c t]; [done|]. intros [Hc (t1 & t2 & -> & H1 & H2)%IH]%andb_true_iff.
  exists (c :: t1), t2. simpl. by rewrite Hc, H1.
Qed.

Lemma fullmatch_hex n t :
  fullmatch_classes (replicate n is_hex) t = true -> length t = n /\ Forall (fun c => is_hex c = true) t.
Proof.
  revert t; induction n as [|n IH]; intros [|c t]; simpl; try done.
  intros [Hc [Hl HF]%IH]%andb_true_iff. split; [lia|]. by constructor.
Qed.

Lemma fullmatch_one p t : fullmatch_classes [p] t = true -> exists c, t = [c] /\ p c = true.
Proof.
  destruct t as [|c [|d t]]; simpl; rewrite ?andb_true_r, ?andb_false_r; try done. by exists c.
Qed.

(** The five groups of a text that matches [_RUN_ID]. *)
Lemma run_id_groups t :
  fullmatch_classes _RUN_ID t = true ->
  exists a b c v d e,
    t = a ++ [hyphen] ++ b ++ [hyphen] ++ [52%N] ++ c ++ [hyphen] ++ [v] ++ d ++ [hyphen] ++ e /\
    length a = 8%nat /\ length b = 4%nat /\ length c = 3%nat /\ length d = 3%nat /\
    length e = 12%nat /\ is_variant_char v = true /\
    Forall (fun x => is_hex x = true) (a ++ b ++ [52%N] ++ c ++ [v] ++ d ++ e).
Proof.
  unfold _RUN_ID. intros H.
  apply fullmatch_app in H as (a & t1 & -> & [Ha Fa]%fullmatch_hex & H).
  apply fullmatch_app in H as (h1 & t2 & -> & (x1 & -> & E1)%fullmatch_one & H).
  apply fullmatch_app in H as (b & t3 & -> & [Hb Fb]%fullmatch_hex & H).
  apply fullmatch_app in H as (h2 & t4 & -> & (x2 & -> & E2)%fullmatch_one & H).
  apply fullmatch_app in H as (h3 & t5 & -> & (x3 & -> & E3)%fullmatch_one & H).
  apply fullmatch_app in H as (c & t6 & -> & [Hc Fc]%fullmatch_hex & H).
  apply fullmatch_app in H as (h4 & t7 & -> & (x4 & -> & E4)%fullmatch_one & H).
  apply fullmatch_app in H as (h5 & t8 & -> & (v & -> & Hv)%fullmatch_one & H).
  apply fullmatch_app in H as (d & t9 & -> & [Hd Fd]%fullmatch_hex & H).
  apply fullmatch_app in H as (h6 & e & -> & (x6 & -> & E6)%fullmatch_one & [He Fe]%fullmatch_hex).
  unfold is_char in *. apply N.eqb_eq in E1, E2, E3, E4, E6. subst.
  exists a, b, c, v, d, e. repeat (split; [done|]).
  destruct (is_variant_char_cases v Hv) as [Hhv _].
  repeat (apply Forall_app_2; [by auto|]); auto.
Qed.

Lemma filter_hyphens_hex l :
  Forall (fun x => is_hex x = true) l -> List.filter (fun c => negb (is_char hyphen c)) l = l.
Proof.
  induction 1 as [|c l Hc _ IH]; [done|]. cbn [List.filter].
  destruct (hex_value_digit c Hc) as (_ & _ & ->). cbn [negb]. by rewrite IH.
Qed.

Lemma map_hex_value_digits l :
  Forall (fun x => is_hex x = true) l -> Forall (is_digit 4) (map hex_value l).
Proof. intros HF. apply Forall_map. eapply Forall_impl; [|exact HF]. intros c Hc. by apply hex_value_digit. Qed.

Lemma map_hex_digit_value l :
  Forall (fun x => is_hex x = true) l -> map hex_digit (map hex_value l) = l.
Proof.
  induction 1 as [|c l Hc _ IH]; [done|]. simpl. rewrite IH.
  by destruct (hex_value_digit c Hc) as (_ & -> & _).
Qed.

(** A text of the pattern, read as a UUID: its digits, version and variant bits. *)
Lemma run_id_uuid a b c v d e :
  length a = 8%nat -> length b = 4%nat -> length c = 3%nat -> length d = 3%nat ->
  length e = 12%nat -> is_variant_char v = true ->
  Forall (fun x => is_hex x = true) (a ++ b ++ [52%N] ++ c ++ [v] ++ d ++ e) ->
  let t := a ++ [hyphen] ++ b ++ [hyphen] ++ [52%N] ++ c ++ [hyphen] ++ [v] ++ d ++ [hyphen] ++ e in
  uuid_version (uuid_int t) = 4 /\ uuid_is_rfc4122 (uuid_int t) = true /\ uuid_str (uuid_int t) = t.
Proof.
  intros Ha Hb Hc Hd He Hv HF t.
  destruct (is_variant_char_cases v Hv) as (Hhv & Hv3 & Hv2).
  set (L := a ++ b ++ [52%N] ++ c ++ [v] ++ d ++ e) in *.
  assert (uuid_digits t = map hex_value L) as Hdig.
  { unfold uuid_digits, t, L. unfold L in HF. rewrite !Forall_app in HF.
    destruct HF as (Fa & Fb & F4 & Fc & Fv & Fd & Fe). rewrite !List.filter_app.
    rewrite (filter_hyphens_hex a Fa), (filter_hyphens_hex b Fb), (filter_hyphens_hex [52%N] F4),
      (filter_hyphens_hex c Fc), (filter_hyphens_hex [v] Fv), (filter_hyphens_hex d Fd),
      (filter_hyphens_hex e Fe). done. }
  unfold uuid_int. rewrite Hdig. pose proof (map_hex_value_digits L HF) as HD.
  split; [|split].
  - unfold uuid_version.
    assert (map hex_value L = (map hex_value (a ++ b) ++ [hex_value 52])
      ++ map hex_value (c ++ [v] ++ d ++ e)) as Hs.
    { unfold L. by rewrite !map_app, <- !app_assoc. }
    rewrite Hs in HD |- *. apply Forall_app in HD as [HD1 HD2].
    replace 76 with (4 * Z.of_nat (length (map hex_value (c ++ [v] ++ d ++ e))))
      by (rewrite length_map, !length_app; simpl; lia).
    rewrite of_digits_shiftr by done. change 0xF with (Z.ones 4).
    apply Forall_app in HD1 as [_ HD4]. rewrite Forall_singleton in HD4.
    rewrite of_digits_low by done. done.
  - assert (map hex_value L = (map hex_value (a ++ b ++ [52%N] ++ c) ++ [hex_value v])
      ++ map hex_value (d ++ e)) as Hs.
    { unfold L. by rewrite !map_app, <- !app_assoc. }
    rewrite Hs in HD |- *. apply Forall_app in HD as [HD1 HD2].
    assert (forall j, 0 <= j < 4 ->
      Z.testbit (of_digits 4 ((map hex_value (a ++ b ++ [52%N] ++ c) ++ [hex_value v])
        ++ map hex_value (d ++ e))) (60 + j) = Z.testbit (hex_value v) j) as Hbit.
    { intros j Hj. rewrite (Z.add_comm 60), <- Z.shiftr_spec by lia.
      replace 60 with (4 * Z.of_nat (length (map hex_value (d ++ e))))
        by (rewrite length_map, length_app; lia).
      rewrite of_digits_shiftr by done. apply Forall_app in HD1 as [_ HDv].
      rewrite Forall_singleton in HDv.
      rewrite <- (of_digits_low 4 ltac:(done) (map hex_value (a ++ b ++ [52%N] ++ c)) _ HDv) at 2.
      rewrite Z.land_spec, Z.ones_spec_low by lia. by rewrite andb_true_r. }
    unfold uuid_is_rfc4122. change 63 with (60 + 3). change 62 with (60 + 2).
    rewrite (Hbit 3), (Hbit 2), Hv3, Hv2 by lia. done.
  - unfold uuid_str. assert (length (map hex_value L) = 32%nat) as HlenL.
    { unfold L. rewrite length_map, !length_app. simpl. lia. }
    pose proof (to_of_digits 4 ltac:(done) _ HD) as Hto. rewrite HlenL in Hto.
    rewrite Hto, map_hex_digit_value by done. unfold L, t.
    clear -Ha Hb Hc Hd He.
    do 8 (destruct a as [|? a]; [discriminate Ha|]). destruct a; [|discriminate Ha].
    do 4 (destruct b as [|? b]; [discriminate Hb|]). destruct b; [|discriminate Hb].
    do 3 (destruct c as [|? c]; [discriminate Hc|]). destruct c; [|discriminate Hc].
    do 3 (destruct d as [|? d]; [discriminate Hd|]). destruct d; [|discriminate Hd].
    reflexivity.
Qed.

(** the run identifier validator accepts exactly the texts of its pattern: on a
    matching text the UUID version, variant and canonical-form checks that follow
    can never reject. *)
Theorem validate_run_id_pattern t :
  validate_run_id t = if fullmatch_classes _RUN_ID t then Ok t else Raise ValueError.
Proof.
  unfold validate_run_id. destruct (fullmatch_classes _RUN_ID t) eqn:E; [|done].
  destruct (run_id_groups t E) as (a & b & c & v & d & e & -> & Ha & Hb & Hc & Hd & He & Hv & HF).
  destruct (run_id_uuid a b c v d e Ha Hb Hc Hd He Hv HF) as (H4 & H5 & H6).
  cbn [negb]. cbv zeta. rewrite H4, H5, H6. rewrite bool_decide_true by done. done.
Qed.

(** ** The registry *)

(** the registry never lets two natural keys share an identifier: a claim succeeds
    only if the identifier is free or already held by the same key, afterwards it is
    held by that key, and no other identifier's owner changes. *)
Theorem claim_spec reg id key reg' :
  claim reg id key = Ok reg' ->
  _claims reg' !! id = Some key /\
  (_claims reg !! id = None \/ _claims reg !! id = Some key) /\
  (forall other, other <> id -> _claims reg' !! other = _claims reg !! other).
Proof.
  unfold claim, validate_planned_id.
  destruct (parse_planned_id id); [|done].
  destruct (_validate_natural_key key) as [src|] eqn:Ek; [|done].
  apply validate_natural_key_same in Ek as ->.
  destruct (_claims reg !! id) as [existing|] eqn:El.
  - case_match eqn:Ee; [done|]. py_bool. subst. intros [= <-]. auto.
  - intros [= <-]. simpl. rewrite lookup_insert_eq. split; [done|]. split; [by left|].
    intros other Hne. by rewrite lookup_insert_ne.
Qed.

Lemma claim_spec_witness :
  exists id reg', claim {| _claims := ∅ |} id [u "e1"] = Ok reg' /\
    _claims reg' !! id = Some [u "e1"].
Proof.
  set (id := u "event_" ++ replicate 26 48%N). exists id.
  destruct (claim {| _claims := ∅ |} id [u "e1"]) as [reg'|] eqn:E;
    [|vm_compute in E; discriminate].
  exists reg'. split; [done|]. apply (claim_spec _ _ _ _ E).
Defined.
