(* ===== verification/Domain.v ===== *)
(** * Closed vocabularies

    The enumerations of [domain/enums.py] and [errors.py], with the value each
    member serializes to and the order of the members, and the sanitized
    request, response and error metadata of [domain/models.py]. *)

From S2P Require Import Prelude.

(** [RunState]: run states *)
Inductive RunState :=
  | Run_PLANNED
  | Run_RUNNING
  | Run_PAUSED
  | Run_COMPLETED
  | Run_CANCELLED
  | Run_FAILED.

#[global] Instance RunState_eq_dec : EqDecision RunState.
Proof. solve_decision. Defined.

Definition RunState_value (s : RunState) : str :=
  match s with
  | Run_PLANNED => u "planned"
  | Run_RUNNING => u "running"
  | Run_PAUSED => u "paused"
  | Run_COMPLETED => u "completed"
  | Run_CANCELLED => u "cancelled"
  | Run_FAILED => u "failed"
  end.

(** [tuple(RunState)], the members in declaration order. *)
Definition RunState_members : list RunState :=
  [Run_PLANNED; Run_RUNNING; Run_PAUSED; Run_COMPLETED; Run_CANCELLED; Run_FAILED].

(** [ScenarioState]: scenario states *)
Inductive ScenarioState :=
  | Scenario_PENDING
  | Scenario_ELIGIBLE
  | Scenario_RUNNING
  | Scenario_PASSED
  | Scenario_FAILED
  | Scenario_ERROR
  | Scenario_SKIPPED
  | Scenario_AMBIGUOUS
  | Scenario_CANCELLED.

#[global] Instance ScenarioState_eq_dec : EqDecision ScenarioState.
Proof. solve_decision. Defined.

Definition ScenarioState_value (s : ScenarioState) : str :=
  match s with
  | Scenario_PENDING => u "pending"
  | Scenario_ELIGIBLE => u "eligible"
  | Scenario_RUNNING => u "running"
  | Scenario_PASSED => u "passed"
  | Scenario_FAILED => u "failed"
  | Scenario_ERROR => u "error"
  | Scenario_SKIPPED => u "skipped"
  | Scenario_AMBIGUOUS => u "ambiguous"
  | Scenario_CANCELLED => u "cancelled"
  end.

(** [tuple(ScenarioState)], the members in declaration order. *)
Definition ScenarioState_members : list ScenarioState :=
  [Scenario_PENDING; Scenario_ELIGIBLE; Scenario_RUNNING; Scenario_PASSED; Scenario_FAILED; Scenario_ERROR; Scenario_SKIPPED; Scenario_AMBIGUOUS; Scenario_CANCELLED].

(** [DeliveryState]: planned-delivery states *)
Inductive DeliveryState :=
  | Delivery_PENDING
  | Delivery_ELIGIBLE
  | Delivery_ACTIVE
  | Delivery_SATISFIED
  | Delivery_EXHAUSTED
  | Delivery_AMBIGUOUS
  | Delivery_CANCELLED
  | Delivery_SKIPPED.

#[global] Instance DeliveryState_eq_dec : EqDecision DeliveryState.
Proof. solve_decision. Defined.

Definition DeliveryState_value (s : DeliveryState) : str :=
  match s with
  | Delivery_PENDING => u "pending"
  | Delivery_ELIGIBLE => u "eligible"
  | Delivery_ACTIVE => u "active"
  | Delivery_SATISFIED => u "satisfied"
  | Delivery_EXHAUSTED => u "exhausted"
  | Delivery_AMBIGUOUS => u "ambiguous"
  | Delivery_CANCELLED => u "cancelled"
  | Delivery_SKIPPED => u "skipped"
  end.

(** [tuple(DeliveryState)], the members in declaration order. *)
Definition DeliveryState_members : list DeliveryState :=
  [Delivery_PENDING; Delivery_ELIGIBLE; Delivery_ACTIVE; Delivery_SATISFIED; Delivery_EXHAUSTED; Delivery_AMBIGUOUS; Delivery_CANCELLED; Delivery_SKIPPED].

(** [AttemptState]: physical-attempt states *)
Inductive AttemptState :=
  | Attempt_SCHEDULED
  | Attempt_CLAIMED
  | Attempt_PRE_SEND_COMMITTED
  | Attempt_CONNECTING
  | Attempt_SENDING
  | Attempt_AWAITING_RESPONSE
  | Attempt_RESPONSE_OBSERVED
  | Attempt_NOT_SENT
  | Attempt_SUCCEEDED
  | Attempt_REJECTED
  | Attempt_TRANSPORT_FAILED
  | Attempt_UNKNOWN_OUTCOME
  | Attempt_CANCELLED.

#[global] Instance AttemptState_eq_dec : EqDecision AttemptState.
Proof. solve_decision. Defined.

Definition AttemptState_value (s : AttemptState) : str :=
  match s with
  | Attempt_SCHEDULED => u "scheduled"
  | Attempt_CLAIMED => u "claimed"
  | Attempt_PRE_SEND_COMMITTED => u "pre_send_committed"
  | Attempt_CONNECTING => u "connecting"
  | Attempt_SENDING => u "sending"
  | Attempt_AWAITING_RESPONSE => u "awaiting_response"
  | Attempt_RESPONSE_OBSERVED => u "response_observed"
  | Attempt_NOT_SENT => u "not_sent"
  | Attempt_SUCCEEDED => u "succeeded"
  | Attempt_REJECTED => u "rejected"
  | Attempt_TRANSPORT_FAILED => u "transport_failed"
  | Attempt_UNKNOWN_OUTCOME => u "unknown_outcome"
  | Attempt_CANCELLED => u "cancelled"
  end.

(** [tuple(AttemptState)], the members in declaration order. *)
Definition AttemptState_members : list AttemptState :=
  [Attempt_SCHEDULED; Attempt_CLAIMED; Attempt_PRE_SEND_COMMITTED; Attempt_CONNECTING; Attempt_SENDING; Attempt_AWAITING_RESPONSE; Attempt_RESPONSE_OBSERVED; Attempt_NOT_SENT; Attempt_SUCCEEDED; Attempt_REJECTED; Attempt_TRANSPORT_FAILED; Attempt_UNKNOWN_OUTCOME; Attempt_CANCELLED].

(** [ObservationState]: observation-series states *)
Inductive ObservationState :=
  | Observation_SCHEDULED
  | Observation_RUNNING
  | Observation_OK
  | Observation_PENDING
  | Observation_UNSUPPORTED
  | Observation_ERROR
  | Observation_TIMED_OUT
  | Observation_CANCELLED.

#[global] Instance ObservationState_eq_dec : EqDecision ObservationState.
Proof. solve_decision. Defined.

Definition ObservationState_value (s : ObservationState) : str :=
  match s with
  | Observation_SCHEDULED => u "scheduled"
  | Observation_RUNNING => u "running"
  | Observation_OK => u "ok"
  | Observation_PENDING => u "pending"
  | Observation_UNSUPPORTED => u "unsupported"
  | Observation_ERROR => u "error"
  | Observation_TIMED_OUT => u "timed_out"
  | Observation_CANCELLED => u "cancelled"
  end.

(** [tuple(ObservationState)], the members in declaration order. *)
Definition ObservationState_members : list ObservationState :=
  [Observation_SCHEDULED; Observation_RUNNING; Observation_OK; Observation_PENDING; Observation_UNSUPPORTED; Observation_ERROR; Observation_TIMED_OUT; Observation_CANCELLED].

(** [AssertionState]: assertion states *)
Inductive AssertionState :=
  | Assertion_PENDING
  | Assertion_RUNNING
  | Assertion_PASSED
  | Assertion_FAILED
  | Assertion_ERROR
  | Assertion_UNSUPPORTED
  | Assertion_CANCELLED.

#[global] Instance AssertionState_eq_dec : EqDecision AssertionState.
Proof. solve_decision. Defined.

Definition AssertionState_value (s : AssertionState) : str :=
  match s with
  | Assertion_PENDING => u "pending"
  | Assertion_RUNNING => u "running"
  | Assertion_PASSED => u "passed"
  | Assertion_FAILED => u "failed"
  | Assertion_ERROR => u "error"
  | Assertion_UNSUPPORTED => u "unsupported"
  | Assertion_CANCELLED => u "cancelled"
  end.

(** [tuple(AssertionState)], the members in declaration order. *)
Definition AssertionState_members : list AssertionState :=
  [Assertion_PENDING; Assertion_RUNNING; Assertion_PASSED; Assertion_FAILED; Assertion_ERROR; Assertion_UNSUPPORTED; Assertion_CANCELLED].

(** [AttemptEvidenceState]: serialized attempt states *)
Inductive AttemptEvidenceState :=
  | Evidence_SCHEDULED
  | Evidence_LEASED
  | Evidence_SENDING
  | Evidence_ACKNOWLEDGED
  | Evidence_REJECTED
  | Evidence_TIMED_OUT
  | Evidence_CONNECTION_FAILED
  | Evidence_PROTOCOL_FAILED
  | Evidence_CANCELLED
  | Evidence_UNKNOWN_OUTCOME.

#[global] Instance AttemptEvidenceState_eq_dec : EqDecision AttemptEvidenceState.
Proof. solve_decision. Defined.

Definition AttemptEvidenceState_value (s : AttemptEvidenceState) : str :=
  match s with
  | Evidence_SCHEDULED => u "scheduled"
  | Evidence_LEASED => u "leased"
  | Evidence_SENDING => u "sending"
  | Evidence_ACKNOWLEDGED => u "acknowledged"
  | Evidence_REJECTED => u "rejected"
  | Evidence_TIMED_OUT => u "timed_out"
  | Evidence_CONNECTION_FAILED => u "connection_failed"
  | Evidence_PROTOCOL_FAILED => u "protocol_failed"
  | Evidence_CANCELLED => u "cancelled"
  | Evidence_UNKNOWN_OUTCOME => u "unknown_outcome"
  end.

(** [tuple(AttemptEvidenceState)], the members in declaration order. *)
Definition AttemptEvidenceState_members : list AttemptEvidenceState :=
  [Evidence_SCHEDULED; Evidence_LEASED; Evidence_SENDING; Evidence_ACKNOWLEDGED; Evidence_REJECTED; Evidence_TIMED_OUT; Evidence_CONNECTION_FAILED; Evidence_PROTOCOL_FAILED; Evidence_CANCELLED; Evidence_UNKNOWN_OUTCOME].

(** [AttemptClassification]: serialized attempt classifications *)
Inductive AttemptClassification :=
  | Class_PLANNED
  | Class_RECEIVER_ACCEPTED
  | Class_RECEIVER_REJECTED
  | Class_ENVIRONMENT_FAILURE
  | Class_HARNESS_FAILURE
  | Class_CANCELLED
  | Class_AMBIGUOUS.

#[global] Instance AttemptClassification_eq_dec : EqDecision AttemptClassification.
Proof. solve_decision. Defined.

Definition AttemptClassification_value (s : AttemptClassification) : str :=
  match s with
  | Class_PLANNED => u "planned"
  | Class_RECEIVER_ACCEPTED => u "receiver_accepted"
  | Class_RECEIVER_REJECTED => u "receiver_rejected"
  | Class_ENVIRONMENT_FAILURE => u "environment_failure"
  | Class_HARNESS_FAILURE => u "harness_failure"
  | Class_CANCELLED => u "cancelled"
  | Class_AMBIGUOUS => u "ambiguous"
  end.

(** [tuple(AttemptClassification)], the members in declaration order. *)
Definition AttemptClassification_members : list AttemptClassification :=
  [Class_PLANNED; Class_RECEIVER_ACCEPTED; Class_RECEIVER_REJECTED; Class_ENVIRONMENT_FAILURE; Class_HARNESS_FAILURE; Class_CANCELLED; Class_AMBIGUOUS].

(** [AssertionResult]: serialized assertion results *)
Inductive AssertionResult :=
  | Result_PASS
  | Result_FAIL
  | Result_ERROR
  | Result_SKIPPED
  | Result_PENDING.

#[global] Instance AssertionResult_eq_dec : EqDecision AssertionResult.
Proof. solve_decision. Defined.

Definition AssertionResult_value (s : AssertionResult) : str :=
  match s with
  | Result_PASS => u "pass"
  | Result_FAIL => u "fail"
  | Result_ERROR => u "error"
  | Result_SKIPPED => u "skipped"
  | Result_PENDING => u "pending"
  end.

(** [ResultCategory]: terminal result values *)
Inductive ResultCategory :=
  | Category_PASS
  | Category_RECEIVER_FAILURE
  | Category_ENVIRONMENT_ERROR
  | Category_HARNESS_ERROR
  | Category_AMBIGUOUS
  | Category_INVALID_INPUT
  | Category_UNSUPPORTED
  | Category_CANCELLED.

#[global] Instance ResultCategory_eq_dec : EqDecision ResultCategory.
Proof. solve_decision. Defined.

Definition ResultCategory_value (s : ResultCategory) : str :=
  match s with
  | Category_PASS => u "pass"
  | Category_RECEIVER_FAILURE => u "receiver_failure"
  | Category_ENVIRONMENT_ERROR => u "environment_error"
  | Category_HARNESS_ERROR => u "harness_error"
  | Category_AMBIGUOUS => u "ambiguous"
  | Category_INVALID_INPUT => u "invalid_input"
  | Category_UNSUPPORTED => u "unsupported"
  | Category_CANCELLED => u "cancelled"
  end.

(** [tuple(ResultCategory)], the members in declaration order. *)
Definition ResultCategory_members : list ResultCategory :=
  [Category_PASS; Category_RECEIVER_FAILURE; Category_ENVIRONMENT_ERROR; Category_HARNESS_ERROR; Category_AMBIGUOUS; Category_INVALID_INPUT; Category_UNSUPPORTED; Category_CANCELLED].

(** [CliExitCategory]: CLI failure-form names *)
Inductive CliExitCategory :=
  | Cli_PASS
  | Cli_RECEIVER_FAILURE
  | Cli_INVALID_INPUT
  | Cli_ENVIRONMENT_FAILURE
  | Cli_AMBIGUOUS
  | Cli_HARNESS_FAILURE
  | Cli_UNSUPPORTED
  | Cli_CANCELLED.

#[global] Instance CliExitCategory_eq_dec : EqDecision CliExitCategory.
Proof. solve_decision. Defined.

Definition CliExitCategory_value (s : CliExitCategory) : str :=
  match s with
  | Cli_PASS => u "pass"
  | Cli_RECEIVER_FAILURE => u "receiver_failure"
  | Cli_INVALID_INPUT => u "invalid_input"
  | Cli_ENVIRONMENT_FAILURE => u "environment_failure"
  | Cli_AMBIGUOUS => u "ambiguous"
  | Cli_HARNESS_FAILURE => u "harness_failure"
  | Cli_UNSUPPORTED => u "unsupported"
  | Cli_CANCELLED => u "cancelled"
  end.

(** [tuple(CliExitCategory)], the members in declaration order. *)
Definition CliExitCategory_members : list CliExitCategory :=
  [Cli_PASS; Cli_RECEIVER_FAILURE; Cli_INVALID_INPUT; Cli_ENVIRONMENT_FAILURE; Cli_AMBIGUOUS; Cli_HARNESS_FAILURE; Cli_UNSUPPORTED; Cli_CANCELLED].

(** [ExitCode]: process exit codes *)
Inductive ExitCode :=
  | Exit_PASS
  | Exit_RECEIVER_FAILURE
  | Exit_INVALID_INPUT
  | Exit_ENVIRONMENT_FAILURE
  | Exit_AMBIGUOUS
  | Exit_HARNESS_FAILURE
  | Exit_UNSUPPORTED
  | Exit_CANCELLED.

#[global] Instance ExitCode_eq_dec : EqDecision ExitCode.
Proof. solve_decision. Defined.

Definition ExitCode_value (s : ExitCode) : Z :=
  match s with
  | Exit_PASS => 0%Z
  | Exit_RECEIVER_FAILURE => 1%Z
  | Exit_INVALID_INPUT => 2%Z
  | Exit_ENVIRONMENT_FAILURE => 3%Z
  | Exit_AMBIGUOUS => 4%Z
  | Exit_HARNESS_FAILURE => 5%Z
  | Exit_UNSUPPORTED => 6%Z
  | Exit_CANCELLED => 130%Z
  end.

(** [tuple(ExitCode)], the members in declaration order. *)
Definition ExitCode_members : list ExitCode :=
  [Exit_PASS; Exit_RECEIVER_FAILURE; Exit_INVALID_INPUT; Exit_ENVIRONMENT_FAILURE; Exit_AMBIGUOUS; Exit_HARNESS_FAILURE; Exit_UNSUPPORTED; Exit_CANCELLED].

(** ** Sanitized transport metadata *)

Record RequestMetadata := {
  req_method : str;
  req_url_redacted : str;
  req_body_sha256 : str;
  req_byte_length : Z;
  req_header_names : list str
}.

Record ResponseMetadata := {
  resp_status : Z;
  resp_body_sha256 : option str;
  resp_captured_bytes : Z;
  resp_truncated : bool
}.

Record TransportError := {
  err_category : str;
  err_message_redacted : str;
  err_phase : option str
}.

#[global] Instance RequestMetadata_eq_dec : EqDecision RequestMetadata.
Proof. solve_decision. Defined.
#[global] Instance ResponseMetadata_eq_dec : EqDecision ResponseMetadata.
Proof. solve_decision. Defined.
#[global] Instance TransportError_eq_dec : EqDecision TransportError.
Proof. solve_decision. Defined.

(** ** Values identify members *)

Ltac enum_inj := intros [] []; vm_compute; congruence.

#[global] Instance RunState_value_inj : Inj (=) (=) RunState_value.
Proof. enum_inj. Qed.
#[global] Instance ScenarioState_value_inj : Inj (=) (=) ScenarioState_value.
Proof. enum_inj. Qed.
#[global] Instance DeliveryState_value_inj : Inj (=) (=) DeliveryState_value.
Proof. enum_inj. Qed.
#[global] Instance AttemptState_value_inj : Inj (=) (=) AttemptState_value.
Proof. enum_inj. Qed.
#[global] Instance ObservationState_value_inj : Inj (=) (=) ObservationState_value.
Proof. enum_inj. Qed.
#[global] Instance AssertionState_value_inj : Inj (=) (=) AssertionState_value.
Proof. enum_inj. Qed.
