(* ===== verification/Clocks.v ===== *)
(** * Wall, monotonic and logical clock domains

    [scheduler/clocks.py].  A clock reading is an argument of the operation that
    takes it, so that a run of the clock is a sequence of readings; the mutable
    [_last_monotonic_ns] of [RuntimeClock] is threaded explicitly.  Sleeping is
    modelled by the physical duration handed to the sleep function. *)

From S2P Require Import Prelude.

Local Open Scope Z_scope.

Definition SIGNED_INT64_MIN : Z := - Z.shiftl 1 63.
Definition SIGNED_INT64_MAX : Z := Z.shiftl 1 63 - 1.
Definition _MAX_SCALE_COMPONENT : Z := 10 ^ 32.

Definition _signed_int64 (value : Z) : result Z :=
  raise_if negb (within SIGNED_INT64_MIN SIGNED_INT64_MAX value) with ValueError ;;
  Ok value.

Definition _nonnegative_int64 (value : Z) : result Z :=
  let! integer := _signed_int64 value in
  raise_if (integer <? 0) with ValueError ;;
  Ok integer.

Definition _positive_integer (value maximum : Z) : result Z :=
  raise_if negb (within 1 maximum value) with ValueError ;;
  Ok value.

Definition validate_logical_nanoseconds (value : Z) : result Z := _signed_int64 value.

Definition add_logical_nanoseconds (left right : Z) : result Z :=
  let! first := validate_logical_nanoseconds left in
  let! second := validate_logical_nanoseconds right in
  let total := first + second in
  raise_if negb (within SIGNED_INT64_MIN SIGNED_INT64_MAX total) with OverflowError ;;
  Ok total.

Definition _ceil_fraction (value numerator denominator : Z) : Z :=
  let product := value * numerator in
  (product + denominator - 1) / denominator.

(** ** The schedule conversion policy *)

Inductive ClockMode := Clock_REAL | Clock_SCALED.
#[global] Instance ClockMode_eq_dec : EqDecision ClockMode.
Proof. solve_decision. Defined.

Record ClockPolicy := {
  mode : ClockMode;
  scale_numerator : Z;
  scale_denominator : Z;
  minimum_physical_wait_ns : Z
}.

(** [ClockPolicy(...)] with its [__post_init__]; [Fraction] reduces the scale. *)
Definition make_clock_policy (m : ClockMode) (num den min_wait : Z) : result ClockPolicy :=
  let! numerator := _positive_integer num _MAX_SCALE_COMPONENT in
  let! denominator := _positive_integer den _MAX_SCALE_COMPONENT in
  let! minimum_wait := _nonnegative_int64 min_wait in
  let g := Z.gcd numerator denominator in
  let sn := numerator / g in
  let sd := denominator / g in
  raise_if bool_decide (m = Clock_REAL) && negb (sn =? sd) with ValueError ;;
  raise_if bool_decide (m = Clock_SCALED)
           && negb ((sd <=? sn * 1000) && (sn <=? 100 * sd)) with ValueError ;;
  Ok {| mode := m;
        scale_numerator := sn;
        scale_denominator := sd;
        minimum_physical_wait_ns :=
          match m with Clock_REAL => 0 | Clock_SCALED => minimum_wait end |}.

Definition physical_wait_ns (p : ClockPolicy) (logical_wait_ns : Z) : result Z :=
  let! logical := validate_logical_nanoseconds logical_wait_ns in
  raise_if (logical <? 0) with ValueError ;;
  if logical =? 0 then Ok 0
  else
    let scaled := _ceil_fraction logical (scale_numerator p) (scale_denominator p) in
    let physical :=
      match mode p with
      | Clock_SCALED => Z.max scaled (minimum_physical_wait_ns p)
      | Clock_REAL => scaled
      end in
    _nonnegative_int64 physical.

Definition physical_timeout_ns (timeout_ns : Z) : result Z := _nonnegative_int64 timeout_ns.

(** ** Wall time *)

(** A [datetime]: an instant in microseconds and its UTC offset, absent when naive. *)
Record datetime := { dt_instant_us : Z; dt_utcoffset_us : option Z }.
#[global] Instance datetime_eq_dec : EqDecision datetime.
Proof. solve_decision. Defined.

Definition validate_utc_wall_time (value : datetime) : result datetime :=
  match dt_utcoffset_us value with
  | None => Raise ValueError
  | Some offset =>
    raise_if negb (offset =? 0) with ValueError ;;
    Ok value
  end.

Record TransitionTimestamp := { wall_time : datetime; ts_monotonic_elapsed_ns : option Z }.
#[global] Instance TransitionTimestamp_eq_dec : EqDecision TransitionTimestamp.
Proof. solve_decision. Defined.

Definition make_transition_timestamp (w : datetime) (elapsed : option Z)
    : result TransitionTimestamp :=
  let! wt := validate_utc_wall_time w in
  match elapsed with
  | None => Ok {| wall_time := wt; ts_monotonic_elapsed_ns := None |}
  | Some e =>
    let! e' := _nonnegative_int64 e in
    Ok {| wall_time := wt; ts_monotonic_elapsed_ns := Some e' |}
  end.

Definition historical (w : datetime) : result TransitionTimestamp :=
  make_transition_timestamp w None.

Definition is_live (t : TransitionTimestamp) : bool :=
  match ts_monotonic_elapsed_ns t with Some _ => true | None => false end.

(** ** The runtime clock *)

Record RuntimeClock := {
  _policy : ClockPolicy;
  _origin_monotonic_ns : Z;
  _last_monotonic_ns : Z
}.

(** [RuntimeClock(policy)], reading the monotonic clock once. *)
Definition make_runtime_clock (p : ClockPolicy) (reading : Z) : result RuntimeClock :=
  let! origin := _nonnegative_int64 reading in
  Ok {| _policy := p; _origin_monotonic_ns := origin; _last_monotonic_ns := origin |}.

Definition monotonic_now_ns (c : RuntimeClock) (reading : Z) : result (Z * RuntimeClock) :=
  let! current := _nonnegative_int64 reading in
  raise_if (current <? _last_monotonic_ns c) with ValueError ;;
  Ok (current, {| _policy := _policy c;
                  _origin_monotonic_ns := _origin_monotonic_ns c;
                  _last_monotonic_ns := current |}).

Definition monotonic_elapsed_ns (c : RuntimeClock) (reading : Z) : result (Z * RuntimeClock) :=
  let! (now, c') := monotonic_now_ns c reading in
  let! elapsed := _nonnegative_int64 (now - _origin_monotonic_ns c') in
  Ok (elapsed, c').

Definition transition_timestamp (c : RuntimeClock) (wall : datetime) (reading : Z)
    : result (TransitionTimestamp * RuntimeClock) :=
  let! w := validate_utc_wall_time wall in
  let! (elapsed, c') := monotonic_elapsed_ns c reading in
  let! t := make_transition_timestamp w (Some elapsed) in
  Ok (t, c').

Record MonotonicDeadline := { nanoseconds : Z }.

Definition make_deadline (ns : Z) : result MonotonicDeadline :=
  let! n := _nonnegative_int64 ns in Ok {| nanoseconds := n |}.

Definition remaining_ns (d : MonotonicDeadline) (c : RuntimeClock) (reading : Z)
    : result (Z * RuntimeClock) :=
  let! (now, c') := monotonic_now_ns c reading in
  Ok (Z.max 0 (nanoseconds d - now), c').

Definition expired (d : MonotonicDeadline) (c : RuntimeClock) (reading : Z)
    : result (bool * RuntimeClock) :=
  let! (now, c') := monotonic_now_ns c reading in
  Ok (nanoseconds d <=? now, c').

Definition deadline_after (c : RuntimeClock) (timeout_ns reading : Z)
    : result (MonotonicDeadline * RuntimeClock) :=
  let! timeout := physical_timeout_ns timeout_ns in
  let! (now, c') := monotonic_now_ns c reading in
  raise_if (SIGNED_INT64_MAX - now <? timeout) with OverflowError ;;
  let! d := make_deadline (now + timeout) in
  Ok (d, c').

Definition elapsed_since (c : RuntimeClock) (started_ns reading : Z)
    : result (Z * RuntimeClock) :=
  let! started := _nonnegative_int64 started_ns in
  let! (current, c') := monotonic_now_ns c reading in
  raise_if (current <? started) with ValueError ;;
  Ok (current - started, c').

(** [sleep_logical] and [sleep_physical]: the duration slept, which is also returned. *)
Definition sleep_logical (c : RuntimeClock) (logical_wait_ns : Z) : result Z :=
  physical_wait_ns (_policy c) logical_wait_ns.
Definition sleep_physical (c : RuntimeClock) (timeout_ns : Z) : result Z :=
  physical_timeout_ns timeout_ns.

(** ** Validators *)

Lemma signed_int64_ok v r : _signed_int64 v = Ok r -> r = v /\ SIGNED_INT64_MIN <= v <= SIGNED_INT64_MAX.
Proof. unfold _signed_int64. case_match; [done|]. py_bool. by intros [= <-]. Qed.

Lemma nonnegative_int64_ok v r : _nonnegative_int64 v = Ok r -> r = v /\ 0 <= v <= SIGNED_INT64_MAX.
Proof.
  unfold _nonnegative_int64. destruct (_signed_int64 v) eqn:E; [|done].
  apply signed_int64_ok in E as [-> E]. case_match; [done|]. py_bool. intros [= <-]. lia.
Qed.

Lemma nonnegative_int64_some v : 0 <= v <= SIGNED_INT64_MAX -> _nonnegative_int64 v = Ok v.
Proof.
  intros Hv. assert (SIGNED_INT64_MIN <= 0) by (vm_compute; discriminate).
  unfold _nonnegative_int64, _signed_int64. rewrite (proj2 (within_spec _ _ _)) by lia. simpl.
  by rewrite (proj2 (Z.ltb_ge _ _)) by lia.
Qed.

(** A reading either raises or becomes the new high-water mark. *)
Lemma monotonic_now_ok c r v c' :
  monotonic_now_ns c r = Ok (v, c') ->
  v = r /\ _last_monotonic_ns c <= v /\ 0 <= v <= SIGNED_INT64_MAX /\
  _last_monotonic_ns c' = v /\ _origin_monotonic_ns c' = _origin_monotonic_ns c /\
  _policy c' = _policy c.
Proof.
  unfold monotonic_now_ns. destruct (_nonnegative_int64 r) eqn:E; [|done].
  apply nonnegative_int64_ok in E as [-> E]. case_match; [done|]. py_bool.
  intros [= <- <-]. simpl. split_and!; auto; lia.
Qed.

(** ** Conversion of waits *)

(** Well-formed policies: what [make_clock_policy] establishes. *)
Definition policy_wf (p : ClockPolicy) : Prop :=
  0 < scale_numerator p /\ 0 < scale_denominator p /\
  0 <= minimum_physical_wait_ns p <= SIGNED_INT64_MAX /\
  match mode p with
  | Clock_REAL => scale_numerator p = 1 /\ scale_denominator p = 1 /\ minimum_physical_wait_ns p = 0
  | Clock_SCALED => scale_denominator p <= 1000 * scale_numerator p /\
                    scale_numerator p <= 100 * scale_denominator p
  end.

Lemma make_clock_policy_wf m n d w p :
  make_clock_policy m n d w = Ok p ->
  policy_wf p /\ mode p = m /\ scale_numerator p * d = n * scale_denominator p.
Proof.
  unfold make_clock_policy, _positive_integer.
  destruct (within 1 _MAX_SCALE_COMPONENT n) eqn:En; [|done].
  destruct (within 1 _MAX_SCALE_COMPONENT d) eqn:Ed; [|done].
  simpl negb. cbv iota. destruct (_nonnegative_int64 w) as [w'|] eqn:Ew; [|done].
  apply nonnegative_int64_ok in Ew as [-> Ew]. py_bool.
  assert (0 < Z.gcd n d) as Hg.
  { pose proof (Z.gcd_nonneg n d). enough (Z.gcd n d <> 0) by lia.
    intros Hz%Z.gcd_eq_0_l. lia. }
  destruct (Z.gcd_divide_l n d) as [a Ha]. destruct (Z.gcd_divide_r n d) as [b Hb].
  set (g := Z.gcd n d) in *.
  assert (n / g = a) as -> by (rewrite Ha at 1; apply Z.div_mul; lia).
  assert (d / g = b) as -> by (rewrite Hb at 1; apply Z.div_mul; lia).
  assert (0 < a /\ 0 < b) as [Ha0 Hb0] by nia.
  assert (Z.gcd a b = 1) as Hcop.
  { pose proof (Z.gcd_mul_mono_r_nonneg a b g ltac:(lia)) as Hm. rewrite <- Ha, <- Hb in Hm.
    fold g in Hm. nia. }
  case_match eqn:E1; [done|]. case_match eqn:E2; [done|]. intros [= <-]. unfold policy_wf. simpl.
  split; [|split; [done|nia]]. split; [done|]. split; [done|].
  destruct m; simpl in *.
  - py_bool. subst b. rewrite Z.gcd_diag_nonneg in Hcop by lia.
    split; [|lia]. vm_compute; split; discriminate.
  - py_bool. lia.
Qed.

Lemma ceil_fraction_bounds v n d :
  0 < d -> v * n <= _ceil_fraction v n d * d < v * n + d.
Proof.
  intros Hd. unfold _ceil_fraction.
  pose proof (Z.div_mod (v * n + d - 1) d ltac:(lia)).
  pose proof (Z.mod_pos_bound (v * n + d - 1) d ltac:(lia)). lia.
Qed.

Lemma ceil_fraction_nonneg v n d : 0 < d -> 0 <= v * n -> 0 <= _ceil_fraction v n d.
Proof. intros Hd Hv. apply Z.div_pos; lia. Qed.

(** a schedule wait is never shorter than its scaled logical duration nor than the
    configured minimum, and less than one nanosecond longer than the larger of the
    two; in real mode it is the logical wait itself, and a zero wait stays zero. *)
Theorem physical_wait_exact m n d w p logical physical :
  make_clock_policy m n d w = Ok p ->
  physical_wait_ns p logical = Ok physical ->
  (logical = 0 -> physical = 0) /\
  (m = Clock_REAL -> physical = logical) /\
  (m = Clock_SCALED -> 0 < logical ->
     w <= physical /\ logical * n <= physical * d /\
     (physical = w \/ (physical - 1) * d < logical * n)).
Proof.
  intros Hp. assert (0 < d /\ 0 < n) as [Hd0 Hn0].
  { unfold make_clock_policy, _positive_integer in Hp.
    destruct (within 1 _MAX_SCALE_COMPONENT n) eqn:En; [|done].
    destruct (within 1 _MAX_SCALE_COMPONENT d) eqn:Ed; [|done]. py_bool. lia. }
  assert (m = Clock_SCALED -> minimum_physical_wait_ns p = w) as Hw.
  { unfold make_clock_policy in Hp.
    destruct (_positive_integer n _MAX_SCALE_COMPONENT); [|done].
    destruct (_positive_integer d _MAX_SCALE_COMPONENT); [|done].
    destruct (_nonnegative_int64 w) eqn:Ew; [|done]. apply nonnegative_int64_ok in Ew as [-> _].
    py_cases. }
  destruct (make_clock_policy_wf m n d w p Hp) as ((Hn & Hd & Hmin & Hmode) & Hm & Hscale).
  unfold physical_wait_ns, validate_logical_nanoseconds.
  destruct (_signed_int64 logical) as [l|] eqn:El; [|done]. apply signed_int64_ok in El as [-> El].
  destruct (logical <? 0) eqn:E0; [done|]. destruct (logical =? 0) eqn:E1; py_bool.
  { intros [= <-]. subst. split_and!; lia. }
  intros [-> Hb]%nonnegative_int64_ok.
  pose proof (ceil_fraction_bounds logical (scale_numerator p) (scale_denominator p) Hd) as Hc.
  rewrite Hm in *. split; [lia|]. split.
  - intros ->. destruct Hmode as (Hn1 & Hd1 & _). rewrite Hn1, Hd1 in *. lia.
  - intros -> _. specialize (Hw eq_refl). rewrite Hw in *.
    set (x := _ceil_fraction _ _ _) in *.
    assert (logical * n <= x * d) by nia.
    assert ((x - 1) * d < logical * n) by nia.
    destruct (Z.max_spec x w) as [[? ->]|[? ->]]; split_and!; try lia; nia.
Qed.

Lemma physical_wait_exact_witness :
  physical_wait_ns {| mode := Clock_SCALED; scale_numerator := 1; scale_denominator := 3;
                      minimum_physical_wait_ns := 2 |} 10 = Ok 4 /\
  (2 <= 4 /\ 10 * 2 <= 4 * 6 /\ (4 = 2 \/ (4 - 1) * 6 < 10 * 2)).
Proof.
  split; [reflexivity|].
  apply (physical_wait_exact Clock_SCALED 2 6 2
    {| mode := Clock_SCALED; scale_numerator := 1; scale_denominator := 3;
       minimum_physical_wait_ns := 2 |} 10 4); reflexivity.
Defined.

(** Successive elapsed-time readings of one clock. *)
Fixpoint elapsed_run (c : RuntimeClock) (readings : list Z) : result (list Z * RuntimeClock) :=
  match readings with
  | [] => Ok ([], c)
  | r :: rest =>
    let! (e, c') := monotonic_elapsed_ns c r in
    let! (es, c'') := elapsed_run c' rest in
    Ok (e :: es, c'')
  end.

Lemma monotonic_elapsed_ok c r e c' :
  monotonic_elapsed_ns c r = Ok (e, c') ->
  e = r - _origin_monotonic_ns c /\ 0 <= e <= SIGNED_INT64_MAX /\
  _last_monotonic_ns c <= r /\ _last_monotonic_ns c' = r /\
  _origin_monotonic_ns c' = _origin_monotonic_ns c.
Proof.
  unfold monotonic_elapsed_ns. destruct (monotonic_now_ns c r) as [[v c1]|] eqn:E; [|done].
  apply monotonic_now_ok in E as (-> & Hle & Hb & Hl & Ho & _).
  destruct (_nonnegative_int64 _) eqn:En; [|done]. apply nonnegative_int64_ok in En as [-> En].
  intros [= <- <-]. rewrite Ho in *. done.
Qed.

Lemma elapsed_run_ok c rs es c' :
  elapsed_run c rs = Ok (es, c') ->
  es = map (fun r => r - _origin_monotonic_ns c) rs /\
  Sorted Z.le (_last_monotonic_ns c :: rs) /\ Forall (Z.le 0) es.
Proof.
  revert c es; induction rs as [|r rs IH]; intros c es; simpl.
  { intros [= <- <-]. by repeat constructor. }
  destruct (monotonic_elapsed_ns c r) as [[e c1]|] eqn:E; [|done].
  destruct (elapsed_run c1 rs) as [[es1 c2]|] eqn:E2; [|done]. intros [= <- <-].
  apply monotonic_elapsed_ok in E as (-> & Hb & Hle & Hl & Ho).
  apply IH in E2 as (-> & Hs & HF). rewrite Ho, Hl in *.
  split; [done|]. split; [constructor; [done|by constructor]|]. constructor; [lia|done].
Qed.

(** elapsed times taken from one runtime clock never decrease and are never
    negative, whatever the injected monotonic source returns: a reading that goes
    backwards raises instead. *)
Theorem clock_monotone p origin c rs es c' :
  make_runtime_clock p origin = Ok c -> elapsed_run c rs = Ok (es, c') ->
  Sorted Z.le (0 :: es) /\ es = map (fun r => r - origin) rs.
Proof.
  unfold make_runtime_clock. destruct (_nonnegative_int64 origin) eqn:E; [|done].
  apply nonnegative_int64_ok in E as [-> E]. intros [= <-] (-> & Hs & HF)%elapsed_run_ok.
  simpl in *. split; [|done].
  assert (forall x l, Sorted Z.le (x :: l) ->
    Sorted Z.le ((x - origin) :: map (fun r => r - origin) l)) as Hshift.
  { intros x l; revert x; induction l as [|y l IH]; intros x H; simpl; [by repeat constructor|].
    inversion_clear H as [|? ? Hyl Hxy]. inversion_clear Hxy.
    constructor; [by apply IH|constructor; lia]. }
  rewrite <- (Z.sub_diag origin). by apply Hshift.
Qed.

Lemma clock_monotone_witness :
  Sorted Z.le (0 :: [5; 5; 12]) /\ [5; 5; 12] = map (fun r => r - 100) [105; 105; 112].
Proof.
  set (p := {| mode := Clock_REAL; scale_numerator := 1; scale_denominator := 1;
               minimum_physical_wait_ns := 0 |}).
  set (c k := {| _policy := p; _origin_monotonic_ns := 100; _last_monotonic_ns := k |}).
  apply (clock_monotone p 100 (c 100) [105; 105; 112] [5; 5; 12] (c 112)); reflexivity.
Defined.

(** a deadline expires exactly when the timeout has elapsed on the clock that made
    it, reports the exact remaining time before that, and its arithmetic never
    leaves the signed 64-bit range. *)
Theorem deadline_exact c timeout r1 d c1 r2 b c2 :
  deadline_after c timeout r1 = Ok (d, c1) -> expired d c1 r2 = Ok (b, c2) ->
  nanoseconds d = r1 + timeout /\ nanoseconds d <= SIGNED_INT64_MAX /\
  (b = true <-> timeout <= r2 - r1) /\
  remaining_ns d c1 r2 = Ok (Z.max 0 (timeout - (r2 - r1)), c2).
Proof.
  unfold deadline_after, physical_timeout_ns, make_deadline, expired, remaining_ns.
  destruct (_nonnegative_int64 timeout) eqn:Et; [|done]. apply nonnegative_int64_ok in Et as [-> Et].
  destruct (monotonic_now_ns c r1) as [[v1 c1']|] eqn:E1; [|done].
  apply monotonic_now_ok in E1 as (-> & _ & Hb1 & _). case_match; [done|]. py_bool.
  rewrite nonnegative_int64_some by lia. intros [= <- <-]. simpl.
  destruct (monotonic_now_ns c1' r2) as [[v2 c2']|] eqn:E2; [|done].
  apply monotonic_now_ok in E2 as (-> & _). intros [= <- <-].
  split_and!; [done|lia|rewrite Z.leb_le; lia|]. do 2 f_equal. lia.
Qed.

Lemma deadline_exact_witness :
  nanoseconds {| nanoseconds := 150 |} = 100 + 50 /\ 150 <= SIGNED_INT64_MAX /\
  (false = true <-> 50 <= 120 - 100).
Proof.
  set (p := {| mode := Clock_REAL; scale_numerator := 1; scale_denominator := 1;
               minimum_physical_wait_ns := 0 |}).
  set (c k := {| _policy := p; _origin_monotonic_ns := 0; _last_monotonic_ns := k |}).
  destruct (deadline_exact (c 0) 50 100 {| nanoseconds := 150 |} (c 100) 120 false (c 120))
    as (H1 & H2 & H3 & _); [reflexivity|reflexivity|]. auto.
Defined.
