(* ===== verification/Queue.v ===== *)
(** * The deterministic schedule queue

    [scheduler/queue.py].  The dictionary of pending entries is a finite map and
    the heap is represented by its ascending content: [heapq] keeps the smallest
    pair first, [heappush] adds a pair and [heappop] removes the first one. *)

From S2P Require Import Prelude Clocks.

Local Open Scope Z_scope.

Definition MAX_SCHEDULE_ITEMS : Z := 100000.
Definition MAX_ORDINAL : Z := 9007199254740991.

Record ScheduleItem := {
  schedule_entry_id : str;
  entity_id : str;
  logical_due_ns : Z;
  scenario_ordinal : Z;
  step_ordinal : Z;
  delivery_ordinal : Z;
  attempt_ordinal : Z;
  deterministic_tie_key : str
}.
#[global] Instance ScheduleItem_eq_dec : EqDecision ScheduleItem.
Proof. solve_decision. Defined.

Definition _token (value : str) (maximum : Z) : result str :=
  raise_if negb (is_token value maximum) with ScheduleQueueError INVALID_ITEM ;;
  Ok value.

Definition check_ordinal (value : Z) : result Z :=
  raise_if negb (within 0 MAX_ORDINAL value) with ScheduleQueueError INVALID_ITEM ;;
  Ok value.

(** [ScheduleItem(...)]: the checks of [__post_init__]. *)
Definition validate_item (i : ScheduleItem) : result ScheduleItem :=
  let! _ := _token (schedule_entry_id i) 96 in
  let! _ := _token (entity_id i) 96 in
  let! _ := validate_logical_nanoseconds (logical_due_ns i) in
  let! _ := map_result check_ordinal
    [scenario_ordinal i; step_ordinal i; delivery_ordinal i; attempt_ordinal i] in
  let! _ := _token (deterministic_tie_key i) 256 in
  Ok i.

Abbreviation key := (Z * (Z * (Z * (Z * (Z * (str * str))))))%type.

Definition order_key (i : ScheduleItem) : key :=
  (logical_due_ns i, (scenario_ordinal i, (step_ordinal i, (delivery_ordinal i,
   (attempt_ordinal i, (deterministic_tie_key i, schedule_entry_id i)))))).

(** ** The heap of [(order_key, schedule_entry_id)] pairs *)

Definition heappush (heap : list (key * str)) (x : key * str) : list (key * str) :=
  sort_insert (fun y => y) x heap.
Definition heappop (heap : list (key * str)) : list (key * str) := tail heap.

(** ** The queue *)

Record PersistentPriorityQueue := {
  _maximum_items : Z;
  _entries : gmap str ScheduleItem;
  _heap : list (key * str)
}.

Definition make_queue (maximum_items : Z) : result PersistentPriorityQueue :=
  raise_if negb (within 1 MAX_SCHEDULE_ITEMS maximum_items) with ValueError ;;
  Ok {| _maximum_items := maximum_items; _entries := ∅; _heap := [] |}.

(** [len(self._entries)] *)
Definition queue_len (q : PersistentPriorityQueue) : Z := Z.of_nat (size (_entries q)).

Definition validate_add (q : PersistentPriorityQueue) (item : ScheduleItem) : result bool :=
  match _entries q !! schedule_entry_id item with
  | Some existing =>
    raise_if negb (bool_decide (existing = item)) with ScheduleQueueError DUPLICATE_CONFLICT ;;
    Ok false
  | None =>
    raise_if (_maximum_items q <=? queue_len q) with ScheduleQueueError CAPACITY_EXCEEDED ;;
    Ok true
  end.

Definition add (q : PersistentPriorityQueue) (item : ScheduleItem)
    : result (bool * PersistentPriorityQueue) :=
  let! should_add := validate_add q item in
  if should_add then
    Ok (true, {| _maximum_items := _maximum_items q;
                 _entries := <[schedule_entry_id item := item]> (_entries q);
                 _heap := heappush (_heap q) (order_key item, schedule_entry_id item) |})
  else Ok (false, q).

(** [reconstruct]: replay the persisted entries that were not consumed. *)
Definition reconstruct_step (consumed_entry_ids : gset str) (q : PersistentPriorityQueue)
    (entry : ScheduleItem) : result PersistentPriorityQueue :=
  if bool_decide (schedule_entry_id entry ∈ consumed_entry_ids) then Ok q
  else let! (_, q') := add q entry in Ok q'.

Definition reconstruct (entries : list ScheduleItem) (consumed_entry_ids : gset str)
    (maximum_items : Z) : result PersistentPriorityQueue :=
  let! q := make_queue maximum_items in
  for_each (reconstruct_step consumed_entry_ids) q entries.

(** [self._entries.values()] *)
Definition values (q : PersistentPriorityQueue) : list ScheduleItem :=
  map snd (map_to_list (_entries q)).

Definition snapshot (q : PersistentPriorityQueue) : list ScheduleItem :=
  py_sorted order_key (values q).

Definition due (q : PersistentPriorityQueue) (logical_now_ns limit : Z) : result (list ScheduleItem) :=
  let! now := validate_logical_nanoseconds logical_now_ns in
  raise_if negb (within 1 (_maximum_items q) limit) with ValueError ;;
  Ok (take (Z.to_nat limit)
        (List.filter (fun i => logical_due_ns i <=? now) (py_sorted order_key (values q)))).

(** [_discard_stale]: pop while the top names no pending entry ([rest] is
    [heappop heap]). *)
Fixpoint discard_stale (entries : gmap str ScheduleItem) (heap : list (key * str))
    : list (key * str) :=
  match heap with
  | [] => []
  | top :: rest =>
    match entries !! top.2 with
    | Some _ => heap
    | None => discard_stale entries rest
    end
  end.

Definition peek (q : PersistentPriorityQueue) : option ScheduleItem * PersistentPriorityQueue :=
  let heap := discard_stale (_entries q) (_heap q) in
  let q' := {| _maximum_items := _maximum_items q; _entries := _entries q; _heap := heap |} in
  match heap with
  | [] => (None, q')
  | top :: _ => (_entries q !! top.2, q')
  end.

Definition mark_consumed (q : PersistentPriorityQueue) (entry_id : str)
    : result (option ScheduleItem * PersistentPriorityQueue) :=
  let! _ := _token entry_id 96 in
  Ok (_entries q !! entry_id,
      {| _maximum_items := _maximum_items q;
         _entries := delete entry_id (_entries q);
         _heap := _heap q |}).

(** ** Invariant

    Entries are keyed by their own identifier, the bound holds, the heap is
    ascending and every pending entry is in it. *)

Record queue_inv (q : PersistentPriorityQueue) : Prop := {
  inv_keyed : forall id i, _entries q !! id = Some i -> schedule_entry_id i = id;
  inv_bound : 1 <= _maximum_items q <= MAX_SCHEDULE_ITEMS /\ queue_len q <= _maximum_items q;
  inv_sorted : StronglySorted (key_le (fun y : key * str => y)) (_heap q);
  inv_heap : forall id i, _entries q !! id = Some i -> (order_key i, id) ∈ _heap q;
  inv_pair : forall k id, (k, id) ∈ _heap q -> k.2.2.2.2.2.2 = id
}.

Lemma make_queue_inv n q : make_queue n = Ok q -> queue_inv q /\ _entries q = ∅.
Proof.
  unfold make_queue. case_match eqn:E; [done|]. py_bool. intros [= <-].
  split; [|done]. split; cbn [_entries _heap _maximum_items].
  - done.
  - unfold queue_len. cbn [_entries]. rewrite map_size_empty. lia.
  - constructor.
  - done.
  - by intros k id ?%not_elem_of_nil.
Qed.

Lemma validate_add_ok q item b :
  validate_add q item = Ok b ->
  (b = true /\ _entries q !! schedule_entry_id item = None /\ queue_len q < _maximum_items q) \/
  (b = false /\ _entries q !! schedule_entry_id item = Some item).
Proof.
  unfold validate_add. destruct (_entries q !! _) eqn:E; case_match; try done; py_bool.
  - intros [= <-]. subst. auto.
  - intros [= <-]. auto.
Qed.

Lemma add_ok q item b q' :
  add q item = Ok (b, q') ->
  (b = false /\ q' = q /\ _entries q !! schedule_entry_id item = Some item) \/
  (b = true /\ _entries q !! schedule_entry_id item = None /\
   _entries q' = <[schedule_entry_id item := item]> (_entries q) /\
   _maximum_items q' = _maximum_items q /\ queue_len q < _maximum_items q /\
   _heap q' = heappush (_heap q) (order_key item, schedule_entry_id item)).
Proof.
  unfold add. destruct (validate_add q item) as [[]|] eqn:E; [| |done];
    apply validate_add_ok in E as [(? & E & ?)|(? & E)]; try done; intros [= <- <-]; simpl; auto 10.
Qed.

Lemma add_inv q item b q' : queue_inv q -> add q item = Ok (b, q') -> queue_inv q'.
Proof.
  intros Hq [(_ & -> & _)|(_ & Hn & He & Hm & Hlt & Hh)]%add_ok; [done|].
  destruct Hq as [Hk [Hb Hl] Hs Hi Hp]. split.
  - intros id i. rewrite He, lookup_insert_Some. intros [[<- <-]|[_ Hid]]; [done|by apply Hk].
  - unfold queue_len in *. rewrite He, map_size_insert_None, Hm by done. lia.
  - rewrite Hh. by apply sort_insert_sorted.
  - intros id i. rewrite He, lookup_insert_Some, Hh. unfold heappush. rewrite sort_insert_perm.
    intros [[<- <-]|[_ Hid]]; [left|right; by apply Hi].
  - intros k id. rewrite Hh. unfold heappush. rewrite sort_insert_perm.
    intros [[= -> ->]|Hin]%elem_of_cons; [done|by apply Hp].
Qed.

Lemma mark_consumed_ok q id o q' :
  mark_consumed q id = Ok (o, q') ->
  o = _entries q !! id /\ _entries q' = delete id (_entries q) /\
  _maximum_items q' = _maximum_items q /\ _heap q' = _heap q.
Proof. unfold mark_consumed. destruct (_token id 96); [|done]. by intros [= <- <-]. Qed.

Lemma mark_consumed_inv q id o q' :
  queue_inv q -> mark_consumed q id = Ok (o, q') -> queue_inv q'.
Proof.
  intros [Hk [Hb Hl] Hs Hi Hp] (_ & He & Hm & Hh)%mark_consumed_ok. split.
  - intros id' i. rewrite He. intros [_ Hid]%lookup_delete_Some. by apply Hk.
  - unfold queue_len in *. rewrite He, Hm. split; [done|].
    destruct (_entries q !! id) eqn:E.
    + rewrite map_size_delete_Some by eauto. lia.
    + rewrite delete_id by done. lia.
  - by rewrite Hh.
  - intros id' i. rewrite He, Hh. intros [_ Hid]%lookup_delete_Some. by apply Hi.
  - intros k id'. rewrite Hh. apply Hp.
Qed.

(** ** The pending projection *)

Lemma elem_of_values q i : queue_inv q -> i ∈ values q <-> _entries q !! schedule_entry_id i = Some i.
Proof.
  intros Hq. unfold values. rewrite list_elem_of_fmap. split.
  - intros ([id j] & -> & Hin). apply elem_of_map_to_list in Hin. simpl.
    by rewrite (inv_keyed q Hq id j Hin).
  - intros Hi. exists (schedule_entry_id i, i). split; [done|]. by apply elem_of_map_to_list.
Qed.

Lemma elem_of_snapshot q i :
  queue_inv q -> i ∈ snapshot q <-> _entries q !! schedule_entry_id i = Some i.
Proof. intros Hq. unfold snapshot. rewrite elem_of_py_sorted. by apply elem_of_values. Qed.

Lemma order_key_id i j : order_key i = order_key j -> schedule_entry_id i = schedule_entry_id j.
Proof. unfold order_key. by intros [=]. Qed.

(** Pending items are told apart by their order key. *)
Lemma values_key_inj q i j :
  queue_inv q -> i ∈ values q -> j ∈ values q -> order_key i = order_key j -> i = j.
Proof.
  intros Hq Hi Hj Hk%order_key_id. apply elem_of_values in Hi, Hj; [|done..].
  rewrite Hk in Hi. congruence.
Qed.

Lemma snapshot_sorted q : StronglySorted (key_le order_key) (snapshot q).
Proof. apply py_sorted_sorted. Qed.

(** Equal pending maps have the same canonical order. *)
Lemma snapshot_entries q q' : _entries q = _entries q' -> snapshot q = snapshot q'.
Proof. unfold snapshot, values. by intros ->. Qed.

(** ** Reconstruction *)

Lemma reconstruct_step_ok consumed q e q' :
  queue_inv q -> reconstruct_step consumed q e = Ok q' ->
  queue_inv q' /\ _maximum_items q' = _maximum_items q /\ _entries q ⊆ _entries q' /\
  (forall i, _entries q' !! schedule_entry_id i = Some i <->
     _entries q !! schedule_entry_id i = Some i \/
     i = e /\ schedule_entry_id e ∉ consumed).
Proof.
  unfold reconstruct_step. case_bool_decide as Hc; intros Hq H.
  { injection H as <-. split_and!; [done..|]. intros i. naive_solver. }
  destruct (add q e) as [[b q1]|] eqn:E; [|done]. injection H as <-.
  pose proof (add_inv _ _ _ _ Hq E) as Hq1.
  apply add_ok in E as [(_ & -> & He)|(_ & Hn & He & Hm & _)].
  { split_and!; [done..|]. intros i. naive_solver. }
  rewrite He. split_and!; [done..|by apply insert_subseteq|].
  intros i. rewrite lookup_insert_Some. split.
  - intros [[_ <-]|[_ Hi]]; auto.
  - intros [Hi|[-> _]]; [right|by left]. split; [congruence|done].
Qed.

Lemma reconstruct_loop consumed l q q' :
  queue_inv q -> for_each (reconstruct_step consumed) q l = Ok q' ->
  queue_inv q' /\ _maximum_items q' = _maximum_items q /\
  (forall i, _entries q' !! schedule_entry_id i = Some i <->
     _entries q !! schedule_entry_id i = Some i \/
     i ∈ l /\ schedule_entry_id i ∉ consumed).
Proof.
  revert q; induction l as [|e l IH]; simpl; intros q Hq H.
  { injection H as <-. split_and!; [done..|]. intros i. rewrite elem_of_nil. naive_solver. }
  destruct (reconstruct_step consumed q e) as [q1|] eqn:E; [|done].
  apply reconstruct_step_ok in E as (Hq1 & Hm1 & _ & Hi1); [|done].
  apply IH in H as (Hq' & Hm' & Hi'); [|done]. split_and!; [done|congruence|].
  intros i. rewrite Hi', Hi1, elem_of_cons. naive_solver.
Qed.

Lemma reconstruct_ok l consumed n q :
  reconstruct l consumed n = Ok q ->
  queue_inv q /\ _maximum_items q = n /\
  (forall i, _entries q !! schedule_entry_id i = Some i <-> i ∈ l /\ schedule_entry_id i ∉ consumed).
Proof.
  unfold reconstruct. destruct (make_queue n) as [q0|] eqn:E; [|done].
  pose proof (make_queue_inv n q0 E) as [Hq0 He0].
  assert (_maximum_items q0 = n) as <-.
  { unfold make_queue in E. case_match; [done|]. by injection E as <-. }
  intros (Hq & Hm & Hi)%reconstruct_loop; [|done]. split_and!; [done..|].
  intros i. rewrite Hi, He0, lookup_empty. naive_solver.
Qed.

(** Reconstruction succeeds on any list whose pending part fits a given queue. *)
Lemma reconstruct_loop_total consumed l q target :
  queue_inv q -> queue_inv target -> _maximum_items q = _maximum_items target ->
  _entries q ⊆ _entries target ->
  (forall i, i ∈ l -> schedule_entry_id i ∉ consumed -> _entries target !! schedule_entry_id i = Some i) ->
  exists q', for_each (reconstruct_step consumed) q l = Ok q'.
Proof.
  intros Hq Ht Hm Hsub. revert q Hq Hm Hsub. induction l as [|e l IH]; intros q Hq Hm Hsub Hl; simpl.
  { by eexists. }
  assert (exists q1, reconstruct_step consumed q e = Ok q1 /\ queue_inv q1 /\
    _maximum_items q1 = _maximum_items target /\ _entries q1 ⊆ _entries target)
    as (q1 & -> & Hq1 & Hm1 & Hsub1).
  2: { apply IH; [done..|]. intros i Hi. apply Hl. by right. }
  destruct (reconstruct_step consumed q e) as [q1|ex] eqn:E.
  - exists q1. pose proof (reconstruct_step_ok _ _ _ _ Hq E) as (Hq1 & Hm1 & _ & Hi).
    split_and!; [done..|congruence|]. apply map_subseteq_spec. intros id i Hid.
    rewrite <- (inv_keyed _ Hq1 _ _ Hid) in Hid |- *. apply Hi in Hid as [Hid|[-> Hc]].
    + by eapply lookup_weaken.
    + apply Hl; [left|done].
  - exfalso. unfold reconstruct_step in E. case_bool_decide as Hc; [done|].
    specialize (Hl e (list_elem_of_here _ _) Hc).
    unfold add, validate_add in E. destruct (_entries q !! schedule_entry_id e) as [j|] eqn:Ej.
    + assert (j = e) as -> by (pose proof (lookup_weaken _ _ _ _ Ej Hsub); congruence).
      by rewrite bool_decide_true in E by done.
    + assert (queue_len q < _maximum_items q) as Hlt.
      { pose proof (inv_bound _ Ht) as [_ Hb]. unfold queue_len in *. rewrite Hm.
        enough (S (size (_entries q)) <= size (_entries target))%nat by lia.
        rewrite <- (map_size_insert_None (schedule_entry_id e) e (_entries q) Ej).
        apply map_subseteq_size. apply insert_subseteq_l; done. }
      rewrite (proj2 (Z.leb_gt _ _) Hlt) in E. done.
Qed.

(** rebuilding the queue from the journal yields exactly the unconsumed entries in
    their canonical order, and any enumeration order of the persisted rows
    rebuilds the same projection. *)
Theorem reconstruct_canonical l k consumed n q :
  reconstruct l consumed n = Ok q -> l ≡ₚ k ->
  (forall i, i ∈ snapshot q <-> i ∈ l /\ schedule_entry_id i ∉ consumed) /\
  StronglySorted (key_le order_key) (snapshot q) /\
  exists q', reconstruct k consumed n = Ok q' /\ snapshot q' = snapshot q.
Proof.
  intros Hq Hlk. pose proof (reconstruct_ok _ _ _ _ Hq) as (Hinv & Hmax & Hi).
  split; [|split; [apply snapshot_sorted|]].
  { intros i. by rewrite elem_of_snapshot, Hi. }
  assert (exists q', reconstruct k consumed n = Ok q') as [q' Hq'].
  { unfold reconstruct in *. destruct (make_queue n) as [q0|] eqn:E0; [|done].
    pose proof (make_queue_inv n q0 E0) as [Hq0 He0].
    apply (reconstruct_loop_total consumed k q0 q Hq0 Hinv).
    - unfold make_queue in E0. case_match; [done|]. by injection E0 as <-.
    - rewrite He0. apply map_empty_subseteq.
    - intros i Hin Hc. apply Hi. by rewrite Hlk. }
  exists q'. split; [done|]. pose proof (reconstruct_ok _ _ _ _ Hq') as (Hinv' & _ & Hi').
  apply snapshot_entries, map_eq. intros id. apply option_eq. intros i.
  split; intros Hid.
  - pose proof (inv_keyed _ Hinv' _ _ Hid) as <-. apply Hi'  in Hid. apply Hi. by rewrite Hlk.
  - pose proof (inv_keyed _ Hinv _ _ Hid) as <-. apply Hi in Hid. apply Hi'. by rewrite <- Hlk.
Qed.

(** A small schedule used by the witnesses. *)
Definition sample_item (id : string) (due_ns : Z) : ScheduleItem :=
  {| schedule_entry_id := u id; entity_id := u "plan"; logical_due_ns := due_ns;
     scenario_ordinal := 0; step_ordinal := 0; delivery_ordinal := 0; attempt_ordinal := 1;
     deterministic_tie_key := u "tie" |}.

Definition sample_queue : PersistentPriorityQueue :=
  match reconstruct [sample_item "a" 30; sample_item "b" 10; sample_item "c" 20] {[ u "c" ]} 4 with
  | Ok q => q
  | Raise _ => {| _maximum_items := 1; _entries := ∅; _heap := [] |}
  end.

Lemma reconstruct_canonical_witness :
  exists q', reconstruct [sample_item "c" 20; sample_item "a" 30; sample_item "b" 10] {[ u "c" ]} 4 = Ok q'
    /\ snapshot q' = snapshot sample_queue.
Proof.
  apply (reconstruct_canonical
    [sample_item "a" 30; sample_item "b" 10; sample_item "c" 20]
    [sample_item "c" 20; sample_item "a" 30; sample_item "b" 10] {[ u "c" ]} 4 sample_queue).
  - vm_compute. reflexivity.
  - solve_Permutation.
Defined.

(** ** Due work *)

Lemma sorted_app_le {A} (R : A -> A -> Prop) l k :
  StronglySorted R (l ++ k) -> forall x y, x ∈ l -> y ∈ k -> R x y.
Proof.
  induction l as [|a l IH]; simpl; intros Hs x y Hx Hy; [by apply not_elem_of_nil in Hx|].
  inversion_clear Hs as [|? ? Hs' HF]. apply elem_of_cons in Hx as [->|Hx]; [|by apply IH].
  rewrite list.Forall_forall in HF. apply HF, elem_of_app. by right.
Qed.

Lemma sorted_take {A} (R : A -> A -> Prop) n l : StronglySorted R l -> StronglySorted R (take n l).
Proof.
  intros Hs; revert n; induction Hs as [|x l Hl IH Hx]; intros [|n]; simpl; try constructor; auto.
  by apply Forall_take.
Qed.

(** [due] returns pending items whose logical time has come, in the stable order, at
    most [limit] of them, and never skips one: every due item left out comes after
    every item returned, and none is left out while there is room. *)
Theorem due_earliest_first q now limit l :
  queue_inv q -> due q now limit = Ok l ->
  StronglySorted (key_le order_key) l /\ Z.of_nat (length l) <= limit /\
  (forall i, i ∈ l -> _entries q !! schedule_entry_id i = Some i /\ logical_due_ns i <= now) /\
  (forall j, _entries q !! schedule_entry_id j = Some j -> logical_due_ns j <= now -> j ∉ l ->
     Z.of_nat (length l) = limit /\ forall i, i ∈ l -> key_le order_key i j).
Proof.
  intros Hq. unfold due, validate_logical_nanoseconds.
  destruct (_signed_int64 now) as [n|] eqn:En; [|done]. apply signed_int64_ok in En as [-> _].
  case_match eqn:El; [done|]. py_bool. intros [= <-].
  set (d := List.filter _ _).
  assert (forall i, i ∈ d <-> _entries q !! schedule_entry_id i = Some i /\ logical_due_ns i <= now) as Hd.
  { intros i. unfold d. rewrite list_elem_of_In, List.filter_In, <- list_elem_of_In.
    rewrite Z.leb_le, elem_of_py_sorted, elem_of_values by done. done. }
  assert (StronglySorted (key_le order_key) d) as Hs
    by (apply sorted_filter, py_sorted_sorted).
  split; [by apply sorted_take|]. split; [rewrite length_take; lia|]. split.
  - intros i Hi. apply Hd. rewrite <- (take_drop (Z.to_nat limit) d), elem_of_app. by left.
  - intros j Hj Hdue Hout.
    assert (j ∈ drop (Z.to_nat limit) d) as Hin.
    { assert (j ∈ d) as Hjd by (by apply Hd).
      rewrite <- (take_drop (Z.to_nat limit) d), elem_of_app in Hjd. by destruct Hjd. }
    split.
    + rewrite length_take. enough (Z.to_nat limit < length d)%nat by lia.
      destruct (decide (length d <= Z.to_nat limit)%nat); [|lia].
      rewrite drop_ge in Hin by done. by apply not_elem_of_nil in Hin.
    + intros i Hi. rewrite <- (take_drop (Z.to_nat limit) d) in Hs.
      by apply (sorted_app_le _ _ _ Hs).
Qed.

Lemma sample_queue_inv : queue_inv sample_queue.
Proof.
  apply (reconstruct_ok [sample_item "a" 30; sample_item "b" 10; sample_item "c" 20] {[ u "c" ]} 4).
  vm_compute. reflexivity.
Qed.

Lemma due_earliest_first_witness :
  StronglySorted (key_le order_key) [sample_item "b" 10] /\ 1 <= 1.
Proof.
  destruct (due_earliest_first sample_queue 100 1 [sample_item "b" 10]) as (H1 & H2 & _);
    [apply sample_queue_inv|vm_compute; reflexivity|]. auto.
Defined.

(** ** Peeking

    [peek] trusts the heap key of an entry.  That key is current as long as no
    identifier is added again, with another key, after it was consumed. *)

Definition heap_fresh (q : PersistentPriorityQueue) : Prop :=
  forall k id i, (k, id) ∈ _heap q -> _entries q !! id = Some i -> k = order_key i.

Lemma discard_stale_suffix entries heap :
  exists stale, heap = stale ++ discard_stale entries heap /\
    Forall (fun p => entries !! p.2 = None) stale.
Proof.
  induction heap as [|top heap (stale & Heq & HF)]; simpl; [by exists []|].
  destruct (entries !! top.2) eqn:E; [by exists []|].
  exists (top :: stale). simpl. split; [congruence|by constructor].
Qed.

Lemma discard_stale_head entries heap top rest :
  discard_stale entries heap = top :: rest -> is_Some (entries !! top.2).
Proof.
  induction heap as [|t heap IH]; simpl; [done|].
  destruct (entries !! t.2) eqn:E; [intros [= -> ->]; by eexists|done].
Qed.

(** while the heap keys are current, [peek] returns the first item of the canonical
    pending order, and leaves the pending entries unchanged. *)
Theorem peek_first q :
  queue_inv q -> heap_fresh q ->
  (peek q).1 = head (snapshot q) /\ _entries (peek q).2 = _entries q.
Proof.
  intros Hq Hf. unfold peek.
  destruct (discard_stale_suffix (_entries q) (_heap q)) as (stale & Hheap & HF).
  destruct (discard_stale (_entries q) (_heap q)) as [|top rest] eqn:E; simpl; split; try done.
  - destruct (snapshot q) as [|i s] eqn:Es; [done|]. exfalso.
    assert (_entries q !! schedule_entry_id i = Some i) as Hi
      by (apply elem_of_snapshot; [done|]; rewrite Es; left).
    pose proof (inv_heap q Hq _ _ Hi) as Hin. rewrite Hheap, app_nil_r in Hin.
    rewrite list.Forall_forall in HF. apply HF in Hin. simpl in Hin. congruence.
  - destruct (discard_stale_head _ _ _ _ E) as [i Hi]. rewrite Hi. symmetry.
    assert (i ∈ snapshot q) as Hin.
    { apply elem_of_snapshot; [done|]. by rewrite (inv_keyed q Hq _ _ Hi). }
    destruct (snapshot q) as [|j s] eqn:Es; [by apply not_elem_of_nil in Hin|]. simpl. f_equal.
    assert (_entries q !! schedule_entry_id j = Some j) as Hj
      by (apply elem_of_snapshot; [done|]; rewrite Es; left).
    assert (top ∈ _heap q) as Htop by (rewrite Hheap; apply elem_of_app; right; left).
    destruct top as [k id]. simpl in *. pose proof (Hf _ _ _ Htop Hi) as ->.
    apply (values_key_inj q); [done|..].
    { apply elem_of_values; [done|]. done. }
    { apply elem_of_values; [done|]. by rewrite (inv_keyed q Hq _ _ Hi). }
    apply cmp_le_antisym.
    + pose proof (snapshot_sorted q) as Hs. rewrite Es in Hs. inversion_clear Hs as [|? ? _ HFs].
      apply elem_of_cons in Hin as [->|Hin]; [apply cmp_le_refl|].
      rewrite list.Forall_forall in HFs. by apply HFs.
    + pose proof (inv_heap q Hq _ _ Hj) as Hjh. rewrite Hheap in Hjh.
      apply elem_of_app in Hjh as [Hst|Hjh].
      { rewrite list.Forall_forall in HF. apply HF in Hst. simpl in Hst. congruence. }
      pose proof (inv_sorted q Hq) as Hs. rewrite Hheap in Hs.
      apply elem_of_cons in Hjh as [Heq|Hjr].
      { apply (f_equal fst) in Heq. cbn [fst] in Heq. rewrite Heq. apply cmp_le_refl. }
      assert (key_le (fun y => y) (order_key i, id) (order_key j, schedule_entry_id j)) as Hle.
      { apply (sorted_app_le _ (stale ++ [(order_key i, id)]) rest).
        - by rewrite <- app_assoc.
        - apply elem_of_app. right. left.
        - done. }
      by apply cmp_le_fst in Hle.
Qed.

Lemma peek_first_witness : (peek sample_queue).1 = head (snapshot sample_queue).
Proof.
  apply (peek_first sample_queue).
  - apply sample_queue_inv.
  - intros k id i Hin Hi.
    assert (sample_queue.(_heap) = [(order_key (sample_item "b" 10), u "b");
                                    (order_key (sample_item "a" 30), u "a")]) as Hh
      by (vm_compute; reflexivity).
    rewrite Hh in Hin. apply list_elem_of_In in Hin. simpl in Hin.
    destruct Hin as [[= <- <-]|[[= <- <-]|[]]]; vm_compute in Hi; by injection Hi as <-.
Defined.

(** The operations of the counterexample below. *)
Definition readded_queue : result PersistentPriorityQueue :=
  let! q0 := make_queue 8 in
  let! (_, q1) := add q0 (sample_item "a" 10) in
  let! (_, q2) := mark_consumed q1 (u "a") in
  let! (_, q3) := add q2 (sample_item "b" 50) in
  let! (_, q4) := add q3 (sample_item "a" 90) in
  Ok q4.

(** after an identifier is consumed and added again with a later due time, the stale
    heap pair revives: [peek] returns the later item although an earlier one is
    pending, so it disagrees with the canonical order of [snapshot] and [due]. *)
Theorem peek_stale_key :
  exists q, readded_queue = Ok q /\
    (peek q).1 = Some (sample_item "a" 90) /\
    snapshot q = [sample_item "b" 50; sample_item "a" 90].
Proof.
  destruct readded_queue as [q|e] eqn:E; [|vm_compute in E; discriminate].
  exists q. split; [done|]. vm_compute in E. injection E as <-.
  split; vm_compute; reflexivity.
Qed.
