(* ===== verification/Engine.v ===== *)
(** * The journal-first leasing engine

    [scheduler/engine.py].  The persistence boundary is a type class with the
    contract its docstrings state; the scheduler is proved against the contract.
    An operation returns its outcome together with the new state, because a
    Python exception does not undo the mutations that came before it.  A crash
    loses the queue and keeps the journal; a restart reconstructs the queue from
    the journal's rows. *)

From S2P Require Import Prelude Clocks Queue.

Local Open Scope Z_scope.

(** [ScheduleJournal]: each method commits one atomic transaction. *)
Class ScheduleJournal (J : Type) := {
  persist : J -> ScheduleItem -> result bool * J;
  consume : J -> ScheduleItem -> Z -> TransitionTimestamp -> result bool * J
}.

(** What the scheduler relies on: [persist] adds a new row and returns false on an exact
    replay; [consume] claims a row at most once and returns false when it is already
    consumed; an operation that raises commits nothing. *)
Class ScheduleJournalLaws (J : Type) `{ScheduleJournal J} := {
  persisted : J -> gmap str ScheduleItem;
  consumed : J -> gset str;
  persist_true : forall j i j', persist j i = (Ok true, j') ->
    persisted j !! schedule_entry_id i = None /\
    persisted j' = <[schedule_entry_id i := i]> (persisted j) /\ consumed j' = consumed j;
  persist_false : forall j i j', persist j i = (Ok false, j') ->
    persisted j !! schedule_entry_id i = Some i /\
    persisted j' = persisted j /\ consumed j' = consumed j;
  persist_raise : forall j i e j', persist j i = (Raise e, j') ->
    persisted j' = persisted j /\ consumed j' = consumed j;
  consume_true : forall j i ep ts j', consume j i ep ts = (Ok true, j') ->
    (schedule_entry_id i ∉ consumed j) /\
    persisted j' = persisted j /\ consumed j' = {[ schedule_entry_id i ]} ∪ consumed j;
  consume_false : forall j i ep ts j', consume j i ep ts = (Ok false, j') ->
    schedule_entry_id i ∈ consumed j /\
    persisted j' = persisted j /\ consumed j' = consumed j;
  consume_raise : forall j i ep ts e j', consume j i ep ts = (Raise e, j') ->
    persisted j' = persisted j /\ consumed j' = consumed j
}.

Record WorkLease := { item : ScheduleItem; owner_epoch : Z; leased_at : TransitionTimestamp }.

Record PersistentScheduler (J : Type) := {
  _queue : PersistentPriorityQueue;
  _journal : J;
  _clock : RuntimeClock;
  _owner_epoch : Z
}.
Arguments _queue {J} _.
Arguments _journal {J} _.
Arguments _clock {J} _.
Arguments _owner_epoch {J} _.
Arguments Build_PersistentScheduler {J} _ _ _ _.

Section engine.
Context {J : Type} `{ScheduleJournal J}.

Definition make_scheduler (q : PersistentPriorityQueue) (j : J) (c : RuntimeClock) (epoch : Z)
    : result (PersistentScheduler J) :=
  raise_if negb (within 0 (2 ^ 63 - 1) epoch) with ValueError ;;
  Ok (Build_PersistentScheduler q j c epoch).

Definition set_queue (s : PersistentScheduler J) (q : PersistentPriorityQueue) :=
  Build_PersistentScheduler q (_journal s) (_clock s) (_owner_epoch s).
Definition set_journal (s : PersistentScheduler J) (j : J) :=
  Build_PersistentScheduler (_queue s) j (_clock s) (_owner_epoch s).
Definition set_clock (s : PersistentScheduler J) (c : RuntimeClock) :=
  Build_PersistentScheduler (_queue s) (_journal s) c (_owner_epoch s).

(** [schedule]: persist before the item becomes visible in the queue. *)
Definition schedule (s : PersistentScheduler J) (i : ScheduleItem)
    : result bool * PersistentScheduler J :=
  match validate_add (_queue s) i with
  | Raise e => (Raise e, s)
  | Ok should_add =>
    match persist (_journal s) i with
    | (Raise e, j) => (Raise e, set_journal s j)
    | (Ok committed, j) =>
      let s1 := set_journal s j in
      match add (_queue s1) i with
      | Raise e => (Raise e, s1)
      | Ok (added, q) =>
        let s2 := set_queue s1 q in
        if negb (eqb added should_add) || negb (eqb committed added) then
          if negb committed && negb added then (Ok false, s2)
          else (Raise RuntimeError, s2)
        else (Ok added, s2)
      end
    end
  end.

(** The body of the [for item in due] loop of [lease_due]; the clock readings it
    takes are arguments. *)
Definition lease_item (s : PersistentScheduler J) (i : ScheduleItem) (wall : datetime) (reading : Z)
    : result (list WorkLease) * PersistentScheduler J :=
  match transition_timestamp (_clock s) wall reading with
  | Raise e => (Raise e, s)
  | Ok (ts, c) =>
    let s1 := set_clock s c in
    match consume (_journal s1) i (_owner_epoch s1) ts with
    | (Raise e, j) => (Raise e, set_journal s1 j)
    | (Ok was_consumed, j) =>
      let s2 := set_journal s1 j in
      match mark_consumed (_queue s2) (schedule_entry_id i) with
      | Raise e => (Raise e, s2)
      | Ok (_, q) =>
        let s3 := set_queue s2 q in
        if (was_consumed : bool)
        then (Ok [{| item := i; owner_epoch := _owner_epoch s3; leased_at := ts |}], s3)
        else (Ok [], s3)
      end
    end
  end.

(** [lease_due]: the limit is one, so the loop runs at most once. *)
Definition lease_due (s : PersistentScheduler J) (logical_now_ns limit : Z)
    (wall : datetime) (reading : Z) : result (list WorkLease) * PersistentScheduler J :=
  match validate_logical_nanoseconds logical_now_ns with
  | Raise e => (Raise e, s)
  | Ok logical_now =>
    if negb (limit =? 1) then (Raise ValueError, s)
    else
      match due (_queue s) logical_now limit with
      | Raise e => (Raise e, s)
      | Ok [] => (Ok [], s)
      | Ok (i :: _) => lease_item s i wall reading
      end
  end.

Definition pending (s : PersistentScheduler J) : list ScheduleItem := snapshot (_queue s).

Context `{!ScheduleJournalLaws J}.

(** ** Executions

    A harness process schedules and leases; it may stop at any point, losing its
    queue and clock, and a later process may start from the journal. *)

Definition leases_of (r : result (list WorkLease)) : list WorkLease :=
  match r with Ok l => l | Raise _ => [] end.

Inductive engine_step : PersistentScheduler J * list WorkLease ->
    PersistentScheduler J * list WorkLease -> Prop :=
  | step_schedule s ls i r s' :
      schedule s i = (r, s') -> engine_step (s, ls) (s', ls)
  | step_lease s ls now limit wall reading r s' :
      lease_due s now limit wall reading = (r, s') ->
      engine_step (s, ls) (s', ls ++ leases_of r)
  | step_restart s ls rows max q c epoch s' :
      rows ≡ₚ map snd (map_to_list (persisted (_journal s))) ->
      reconstruct rows (consumed (_journal s)) max = Ok q ->
      make_scheduler q (_journal s) c epoch = Ok s' ->
      engine_step (s, ls) (s', ls).

Inductive engine_reachable (start : PersistentScheduler J)
    : PersistentScheduler J * list WorkLease -> Prop :=
  | reach_start : engine_reachable start (start, [])
  | reach_step x y : engine_reachable start x -> engine_step x y -> engine_reachable start y.

(** Every lease is recorded in the journal, no identifier was leased twice, and every
    visible item was persisted first. *)
Record engine_inv (x : PersistentScheduler J * list WorkLease) : Prop := {
  ei_queue : queue_inv (_queue x.1);
  ei_visible : forall i, _entries (_queue x.1) !! schedule_entry_id i = Some i ->
    persisted (_journal x.1) !! schedule_entry_id i = Some i;
  ei_keyed : forall id i, persisted (_journal x.1) !! id = Some i -> schedule_entry_id i = id;
  ei_leased : forall l, l ∈ x.2 -> schedule_entry_id (item l) ∈ consumed (_journal x.1);
  ei_once : NoDup (map (fun l => schedule_entry_id (item l)) x.2)
}.

(** The steps change the journal only through its two methods. *)
Lemma schedule_cases s i r s' :
  queue_inv (_queue s) -> schedule s i = (r, s') ->
  queue_inv (_queue s') /\ consumed (_journal s') = consumed (_journal s) /\
  (persisted (_journal s') = persisted (_journal s) \/
   persisted (_journal s) !! schedule_entry_id i = None /\
   persisted (_journal s') = <[schedule_entry_id i := i]> (persisted (_journal s))) /\
  (_entries (_queue s') = _entries (_queue s) \/
   _entries (_queue s') = <[schedule_entry_id i := i]> (_entries (_queue s)) /\
   persisted (_journal s') !! schedule_entry_id i = Some i).
Proof.
  intros Hq. unfold schedule. destruct (validate_add (_queue s) i) as [should|]; [|intros [= <- <-]; auto].
  destruct (persist (_journal s) i) as [[committed|e] j] eqn:Ep.
  2: { intros [= <- <-]. simpl. apply persist_raise in Ep as [-> ->]. auto. }
  assert (consumed j = consumed (_journal s) /\ persisted j !! schedule_entry_id i = Some i /\
    (persisted j = persisted (_journal s) \/
     persisted (_journal s) !! schedule_entry_id i = None /\
     persisted j = <[schedule_entry_id i := i]> (persisted (_journal s)))) as (Hc & Hl & Hp).
  { destruct committed; [apply persist_true in Ep as (? & -> & ->)|apply persist_false in Ep as (? & -> & ->)].
    - rewrite lookup_insert_eq. auto.
    - auto. }
  destruct (add (_queue (set_journal s j)) i) as [[added q]|] eqn:Ea; [|intros [= <- <-]; simpl; auto].
  intros Hs. assert (s' = set_queue (set_journal s j) q) as -> by (by repeat case_match; simplify_eq).
  simpl in *. split; [by eapply add_inv|]. split_and!; auto.
  apply add_ok in Ea as [(_ & -> & _)|(_ & _ & -> & _)]; auto.
Qed.

Lemma lease_cases s now limit wall reading r s' :
  queue_inv (_queue s) -> lease_due s now limit wall reading = (r, s') ->
  queue_inv (_queue s') /\ persisted (_journal s') = persisted (_journal s) /\
  _entries (_queue s') ⊆ _entries (_queue s) /\
  (leases_of r = [] /\ consumed (_journal s) ⊆ consumed (_journal s') \/
   exists i ts, due (_queue s) now 1 = Ok [i] /\
     r = Ok [{| item := i; owner_epoch := _owner_epoch s; leased_at := ts |}] /\
     (schedule_entry_id i ∉ consumed (_journal s)) /\
     consumed (_journal s') = {[ schedule_entry_id i ]} ∪ consumed (_journal s) /\
     _entries (_queue s') = delete (schedule_entry_id i) (_entries (_queue s))).
Proof.
  intros Hq. unfold lease_due. destruct (validate_logical_nanoseconds now) as [n|] eqn:En;
    [|intros [= <- <-]; auto 10].
  apply signed_int64_ok in En as [-> _].
  destruct (negb (limit =? 1)) eqn:El; [intros [= <- <-]; auto 10|].
  apply negb_false_iff, Z.eqb_eq in El as ->.
  destruct (due (_queue s) now 1) as [[|i l]|] eqn:Ed; [intros [= <- <-]; auto 10| |intros [= <- <-]; auto 10].
  assert (l = []) as ->.
  { unfold due in Ed. destruct (validate_logical_nanoseconds now); [|done]. case_match; [done|].
    apply (f_equal (fun r => match r with Ok x => tl x | Raise _ => [] end)) in Ed.
    simpl in Ed. rewrite <- Ed. by destruct (List.filter _ _). }
  unfold lease_item. destruct (transition_timestamp _ _ _) as [[ts c]|]; [|intros [= <- <-]; auto 10].
  destruct (consume _ _ _ _) as [[was|e] j] eqn:Ec.
  2: { intros [= <- <-]. simpl in *. apply consume_raise in Ec as [-> ->]. auto 10. }
  simpl in Ec. destruct (mark_consumed _ _) as [[o q]|] eqn:Em.
  - simpl in Em. pose proof (mark_consumed_inv _ _ _ _ Hq Em) as Hq'.
    apply mark_consumed_ok in Em as (_ & He & _).
    assert (_entries q ⊆ _entries (_queue s)) as Hsub by (rewrite He; apply delete_subseteq).
    destruct was; intros [= <- <-]; simpl.
    + apply consume_true in Ec as (Hn & -> & ->). eauto 15.
    + apply consume_false in Ec as (Hn & -> & ->). auto 10.
  - intros [= <- <-]. simpl.
    destruct was; [apply consume_true in Ec as (Hn & -> & ->)|apply consume_false in Ec as (Hn & -> & ->)];
      split_and!; auto; left; set_solver.
Qed.

Lemma due_one_head q now i :
  due q now 1 = Ok [i] ->
  head (List.filter (fun i => logical_due_ns i <=? now) (snapshot q)) = Some i.
Proof.
  unfold due. destruct (validate_logical_nanoseconds now) as [n|] eqn:En; [|done].
  apply signed_int64_ok in En as [-> _]. case_match; [done|]. unfold snapshot.
  destruct (List.filter _ _); [done|]. by intros [= ->].
Qed.

Lemma head_filter_elem {A} (f : A -> bool) l x : head (List.filter f l) = Some x -> x ∈ l.
Proof.
  intros Hh. apply list_elem_of_In, (List.filter_In f). destruct (List.filter f l); [done|].
  injection Hh as ->. by left.
Qed.

Lemma make_scheduler_ok q j c epoch s' :
  make_scheduler q j c epoch = Ok s' -> _queue s' = q /\ _journal s' = j.
Proof. unfold make_scheduler. case_match; [done|]. by intros [= <-]. Qed.

(** What a restart recovers: exactly the persisted rows that were not consumed. *)
Lemma restart_pending (s s' : PersistentScheduler J) rows max q c epoch :
  (forall id i, persisted (_journal s) !! id = Some i -> schedule_entry_id i = id) ->
  rows ≡ₚ map snd (map_to_list (persisted (_journal s))) ->
  reconstruct rows (consumed (_journal s)) max = Ok q ->
  make_scheduler q (_journal s) c epoch = Ok s' ->
  queue_inv (_queue s') /\ _journal s' = _journal s /\
  (forall i, _entries (_queue s') !! schedule_entry_id i = Some i <->
     persisted (_journal s) !! schedule_entry_id i = Some i /\
     schedule_entry_id i ∉ consumed (_journal s)).
Proof.
  intros Hk Hrows (Hq & _ & Hi)%reconstruct_ok [<- Hj]%make_scheduler_ok.
  split_and!; [done..|]. intros i. rewrite Hi. f_equiv. rewrite Hrows, list_elem_of_fmap. split.
  - intros ([id k] & -> & Hin%elem_of_map_to_list). simpl. by rewrite (Hk _ _ Hin).
  - intros Hin. exists (schedule_entry_id i, i). by rewrite elem_of_map_to_list.
Qed.

Lemma engine_inv_step x y : engine_inv x -> engine_step x y -> engine_inv y.
Proof.
  intros [Hq Hv Hk Hl Ho] Hstep. destruct Hstep as [s ls i r s' E|s ls now limit wall reading r s' E|
    s ls rows max q c epoch s' Hrows Hrec Hmk]; simpl in *.
  - apply schedule_cases in E as (Hq' & Hc & Hp & He); [|done]. split; simpl; [done| | |by rewrite Hc|done].
    + intros k Hin. destruct He as [He|[He Hi]]; rewrite He in Hin.
      * apply Hv in Hin. destruct Hp as [->|[Hn ->]]; [done|].
        rewrite lookup_insert_ne; [done|]. congruence.
      * apply lookup_insert_Some in Hin as [[_ <-]|[Hne Hin]]; [done|]. apply Hv in Hin.
        destruct Hp as [->|[_ ->]]; [done|]. by rewrite lookup_insert_ne.
    + intros id k. destruct Hp as [->|[_ ->]]; [apply Hk|].
      intros [[<- <-]|[_ Hin]]%lookup_insert_Some; [done|by apply Hk].
  - apply lease_cases in E as (Hq' & Hp & Hsub & Hcase); [|done].
    split; simpl; rewrite ?Hp; [done| |done| |].
    + intros k Hin. apply Hv. by eapply lookup_weaken.
    + intros l. rewrite elem_of_app. destruct Hcase as [(-> & Hc)|(i & ts & _ & -> & _ & -> & _)].
      * intros [Hin|[]%not_elem_of_nil]. by apply Hc, Hl.
      * intros [Hin|Hin]; [apply Hl in Hin; set_solver|].
        apply list_elem_of_singleton in Hin as ->. simpl. set_solver.
    + rewrite map_app, list.NoDup_app. destruct Hcase as [(-> & Hc)|(i & ts & _ & -> & Hn & _)].
      * split_and!; [done| |constructor]. intros ? ? []%not_elem_of_nil.
      * split_and!; [done| |apply NoDup_singleton]. simpl.
        intros id (l & -> & Hin)%list_elem_of_fmap. rewrite list_elem_of_singleton. intros Heq.
        apply Hl in Hin. congruence.
  - destruct (restart_pending s s' rows max q c epoch Hk Hrows Hrec Hmk) as (Hq' & Hj & Hi).
    split; simpl; rewrite ?Hj; [done| |done..]. intros k [Hin _]%Hi. done.
Qed.

(** The scheduler a process starts with: an empty queue over a keyed journal. *)
Definition engine_start (s : PersistentScheduler J) : Prop :=
  queue_inv (_queue s) /\ _entries (_queue s) = ∅ /\
  (forall id i, persisted (_journal s) !! id = Some i -> schedule_entry_id i = id).

Lemma engine_reachable_inv s x : engine_start s -> engine_reachable s x -> engine_inv x.
Proof.
  intros (Hq & He & Hk). induction 1 as [|x y _ IH Hstep]; [|by eapply engine_inv_step].
  split; simpl; [done| |done| |constructor].
  - intros i. by rewrite He, lookup_empty.
  - by intros l ?%not_elem_of_nil.
Qed.

(** C4: However scheduling, leasing, failures of the journal and process restarts interleave,
    no schedule entry is ever leased twice, every lease handed out is recorded as consumed in
    the journal, and every item the scheduler shows as pending was persisted before. *)
Theorem lease_at_most_once s0 s leases :
  engine_start s0 -> engine_reachable s0 (s, leases) ->
  NoDup (map (fun l => schedule_entry_id (item l)) leases) /\
  (forall l, l ∈ leases -> schedule_entry_id (item l) ∈ consumed (_journal s)) /\
  (forall i, i ∈ pending s -> persisted (_journal s) !! schedule_entry_id i = Some i).
Proof.
  intros Hs Hr. destruct (engine_reachable_inv _ _ Hs Hr) as [Hq Hv _ Hl Ho].
  split_and!; [done..|]. intros i Hi. apply Hv. by apply elem_of_snapshot.
Qed.

(** A lease hands out the first item of the canonical pending order that is due, under
    the scheduler's owner epoch, only after the journal recorded its consumption (it was not
    consumed before), and removes exactly that item from the pending projection. *)
Theorem lease_due_first s0 s leases now limit wall reading l rest s' :
  engine_start s0 -> engine_reachable s0 (s, leases) ->
  lease_due s now limit wall reading = (Ok (l :: rest), s') ->
  rest = [] /\ limit = 1 /\ owner_epoch l = _owner_epoch s /\
  head (List.filter (fun i => logical_due_ns i <=? now) (pending s)) = Some (item l) /\
  (schedule_entry_id (item l) ∉ consumed (_journal s)) /\
  consumed (_journal s') = {[ schedule_entry_id (item l) ]} ∪ consumed (_journal s) /\
  (forall i, i ∈ pending s' <-> i ∈ pending s /\ i <> item l).
Proof.
  intros Hs Hr E. destruct (engine_reachable_inv _ _ Hs Hr) as [Hq _ _ _ _]. simpl in Hq.
  assert (limit = 1) as ->.
  { unfold lease_due in E. repeat case_match; simplify_eq; py_bool; lia. }
  apply lease_cases in E as (Hq' & _ & _ & [[? _]|(i & ts & Hd & [= -> ->] & Hn & Hc & He)]); [done| |done].
  simpl. split_and!; try done.
  - by apply due_one_head.
  - intros k. unfold pending. rewrite !elem_of_snapshot, He, lookup_delete_Some by done.
    apply due_one_head, head_filter_elem, elem_of_snapshot in Hd as Hi; [|done].
    split; [intros [Hne Hk]; split; [done|] | intros [Hk Hne]; split; [|done]]; congruence.
Qed.

(** A restart over the journal's rows recovers exactly the persisted and unconsumed
    entries, whatever order the rows are read in: no scheduled work is lost by a crash and no
    leased work comes back. *)
Theorem restart_recovers s0 s leases rows max q c epoch s' :
  engine_start s0 -> engine_reachable s0 (s, leases) ->
  rows ≡ₚ map snd (map_to_list (persisted (_journal s))) ->
  reconstruct rows (consumed (_journal s)) max = Ok q ->
  make_scheduler q (_journal s) c epoch = Ok s' ->
  (forall i, i ∈ pending s' <-> persisted (_journal s) !! schedule_entry_id i = Some i /\
     schedule_entry_id i ∉ consumed (_journal s)) /\
  (forall l, l ∈ leases -> item l ∉ pending s').
Proof.
  intros Hs Hr Hrows Hrec Hmk. destruct (engine_reachable_inv _ _ Hs Hr) as [_ _ Hk Hl _].
  destruct (restart_pending s s' rows max q c epoch Hk Hrows Hrec Hmk) as (Hq' & _ & Hi).
  assert (forall i, i ∈ pending s' <-> persisted (_journal s) !! schedule_entry_id i = Some i /\
     schedule_entry_id i ∉ consumed (_journal s)) as Hp.
  { intros i. unfold pending. by rewrite elem_of_snapshot, Hi. }
  split; [done|]. intros l Hin Hpl. apply Hp in Hpl as [_ Hn]. by apply Hn, Hl.
Qed.
End engine.

(** ** An in-memory journal that meets the contract *)

Record MemoryJournal := { rows_of : gmap str ScheduleItem; done_of : gset str }.

#[global] Instance memory_journal : ScheduleJournal MemoryJournal := {
  persist j i :=
    match rows_of j !! schedule_entry_id i with
    | Some k => (if bool_decide (k = i) then Ok false else Raise IdempotencyConflictError, j)
    | None => (Ok true, {| rows_of := <[schedule_entry_id i := i]> (rows_of j); done_of := done_of j |})
    end;
  consume j i _ _ :=
    if bool_decide (schedule_entry_id i ∈ done_of j) then (Ok false, j)
    else (Ok true, {| rows_of := rows_of j; done_of := {[ schedule_entry_id i ]} ∪ done_of j |})
}.

#[global] Program Instance memory_journal_laws : ScheduleJournalLaws MemoryJournal := {
  persisted := rows_of;
  consumed := done_of
}.
Solve Obligations with
  simpl; intros; repeat case_match; repeat case_bool_decide; simplify_eq; auto.

(** A run of the in-memory engine: two entries are scheduled, the process crashes, restarts
    from the journal and leases. *)
Definition demo_clock : RuntimeClock :=
  {| _policy := {| mode := Clock_REAL; scale_numerator := 1; scale_denominator := 1;
                 minimum_physical_wait_ns := 0 |};
     _origin_monotonic_ns := 100; _last_monotonic_ns := 100 |}.
Definition demo_wall : datetime := {| dt_instant_us := 0; dt_utcoffset_us := Some 0 |}.
Definition demo_start : PersistentScheduler MemoryJournal :=
  {| _queue := {| _maximum_items := 8; _entries := ∅; _heap := [] |};
     _journal := {| rows_of := ∅; done_of := ∅ |};
     _clock := demo_clock; _owner_epoch := 7 |}.
Definition demo_scheduled : PersistentScheduler MemoryJournal :=
  (schedule (schedule demo_start (sample_item "se_b" 20)).2 (sample_item "se_a" 10)).2.
Definition demo_leased := lease_due demo_scheduled 15 1 demo_wall 150.

Lemma demo_start_ok : engine_start demo_start.
Proof.
  split_and!; [|done|done]. eapply (make_queue_inv 8). by vm_compute.
Qed.

Definition demo_lease : WorkLease :=
  {| item := sample_item "se_a" 10; owner_epoch := 7;
     leased_at := {| wall_time := demo_wall; ts_monotonic_elapsed_ns := Some 50 |} |}.
Definition demo_queue2 : PersistentPriorityQueue :=
  {| _maximum_items := 8;
     _entries := {[ u "se_b" := sample_item "se_b" 20 ]};
     _heap := [(order_key (sample_item "se_b" 20), u "se_b")] |}.
Definition demo_restarted : PersistentScheduler MemoryJournal :=
  {| _queue := demo_queue2; _journal := _journal demo_leased.2;
     _clock := demo_clock; _owner_epoch := 8 |}.

Lemma demo_reach1 : engine_reachable demo_start (demo_scheduled, []).
Proof.
  eapply reach_step; [eapply reach_step; [apply reach_start|]|];
    eapply step_schedule; apply surjective_pairing.
Qed.

Lemma demo_lease_ok : demo_leased.1 = Ok [demo_lease].
Proof. vm_compute. reflexivity. Qed.

Lemma demo_lease_eq : lease_due demo_scheduled 15 1 demo_wall 150 = (Ok [demo_lease], demo_leased.2).
Proof. rewrite <- demo_lease_ok. apply surjective_pairing. Qed.

Lemma demo_reach2 : engine_reachable demo_start (demo_leased.2, [demo_lease]).
Proof.
  eapply reach_step; [apply demo_reach1|].
  apply (step_lease demo_scheduled [] 15 1 demo_wall 150 (Ok [demo_lease])), demo_lease_eq.
Qed.

Lemma demo_restart :
  reconstruct [sample_item "se_a" 10; sample_item "se_b" 20] (consumed (_journal demo_leased.2)) 8
    = Ok demo_queue2.
Proof. vm_compute. reflexivity. Qed.

Lemma demo_rows :
  [sample_item "se_a" 10; sample_item "se_b" 20]
    ≡ₚ map snd (map_to_list (persisted (_journal demo_leased.2))).
Proof.
  assert (map snd (map_to_list (persisted (_journal demo_leased.2))) =
    [sample_item "se_a" 10; sample_item "se_b" 20] \/
    map snd (map_to_list (persisted (_journal demo_leased.2))) =
    [sample_item "se_b" 20; sample_item "se_a" 10]) as [-> | ->]
    by (vm_compute; auto); [done|apply perm_swap].
Qed.

Lemma lease_at_most_once_witness :
  NoDup [u "se_a"] /\ u "se_a" ∈ consumed (_journal demo_leased.2).
Proof.
  destruct (lease_at_most_once demo_start demo_leased.2 [demo_lease] demo_start_ok demo_reach2)
    as (Hn & Hl & _).
  split; [exact Hn|]. apply (Hl demo_lease), list_elem_of_here.
Defined.

Lemma lease_due_first_witness :
  head (List.filter (fun i => logical_due_ns i <=? 15) (pending demo_scheduled))
    = Some (sample_item "se_a" 10).
Proof.
  apply (lease_due_first demo_start demo_scheduled [] 15 1 demo_wall 150 demo_lease [] demo_leased.2
    demo_start_ok demo_reach1 demo_lease_eq).
Defined.

Lemma restart_recovers_witness : sample_item "se_a" 10 ∉ pending demo_restarted.
Proof.
  destruct (restart_recovers demo_start demo_leased.2 [demo_lease]
    [sample_item "se_a" 10; sample_item "se_b" 20] 8 demo_queue2 demo_clock 8 demo_restarted
    demo_start_ok demo_reach2 demo_rows demo_restart eq_refl) as [_ Hl].
  apply (Hl demo_lease), list_elem_of_here.
Defined.
