(* ===== verification/Lifecycle.v ===== *)
(** * Lifecycle state machines

    The executable tables of [journal/transitions.py]: the six state machines
    (run, scenario, delivery, attempt, observation, assertion), the comparison with an
    external definition, the replay of a transition history into a projection inventory and
    the audit that compares two inventories.

    A state is a member of one of six [StrEnum]s.  Python compares members of string enums
    by value, so two members of different enums with the same value are equal; the model
    compares [state_value]s wherever the code compares states with [==]. *)

From S2P Require Import Prelude Domain.

Local Open Scope Z_scope.

Definition MAX_REPLAY_TRANSITIONS : Z := 100000.

(** ** States *)

Inductive EntityType :=
  | Entity_RUN
  | Entity_SCENARIO
  | Entity_DELIVERY
  | Entity_ATTEMPT
  | Entity_OBSERVATION
  | Entity_ASSERTION.

#[global] Instance EntityType_eq_dec : EqDecision EntityType.
Proof. solve_decision. Defined.

Definition EntityType_value (e : EntityType) : str :=
  match e with
  | Entity_RUN => u "run"
  | Entity_SCENARIO => u "scenario"
  | Entity_DELIVERY => u "delivery"
  | Entity_ATTEMPT => u "attempt"
  | Entity_OBSERVATION => u "observation"
  | Entity_ASSERTION => u "assertion"
  end.

Definition EntityType_members : list EntityType :=
  [Entity_RUN; Entity_SCENARIO; Entity_DELIVERY; Entity_ATTEMPT; Entity_OBSERVATION; Entity_ASSERTION].

(** [tuple(EntityType).index(e)] *)
Definition EntityType_index (e : EntityType) : Z :=
  match e with
  | Entity_RUN => 0 | Entity_SCENARIO => 1 | Entity_DELIVERY => 2
  | Entity_ATTEMPT => 3 | Entity_OBSERVATION => 4 | Entity_ASSERTION => 5
  end.

#[global] Instance EntityType_index_inj : Inj (=) (=) EntityType_index.
Proof. by intros [] []. Qed.
#[global] Instance EntityType_countable : Countable EntityType :=
  inj_countable' EntityType_index
    (fun i => nth (Z.to_nat i) EntityType_members Entity_RUN) ltac:(by intros []).

Inductive LifecycleState :=
  | OfRun (s : RunState)
  | OfScenario (s : ScenarioState)
  | OfDelivery (s : DeliveryState)
  | OfAttempt (s : AttemptState)
  | OfObservation (s : ObservationState)
  | OfAssertion (s : AssertionState).

#[global] Instance LifecycleState_eq_dec : EqDecision LifecycleState.
Proof. solve_decision. Defined.

(** The enum classes, [type(state)] and [state.value]. *)
Inductive StateType :=
  | RunState_class | ScenarioState_class | DeliveryState_class
  | AttemptState_class | ObservationState_class | AssertionState_class.

#[global] Instance StateType_eq_dec : EqDecision StateType.
Proof. solve_decision. Defined.

Definition type_of (s : LifecycleState) : StateType :=
  match s with
  | OfRun _ => RunState_class
  | OfScenario _ => ScenarioState_class
  | OfDelivery _ => DeliveryState_class
  | OfAttempt _ => AttemptState_class
  | OfObservation _ => ObservationState_class
  | OfAssertion _ => AssertionState_class
  end.

Definition state_value (s : LifecycleState) : str :=
  match s with
  | OfRun s => RunState_value s
  | OfScenario s => ScenarioState_value s
  | OfDelivery s => DeliveryState_value s
  | OfAttempt s => AttemptState_value s
  | OfObservation s => ObservationState_value s
  | OfAssertion s => AssertionState_value s
  end.

Definition class_members (t : StateType) : list LifecycleState :=
  match t with
  | RunState_class => map OfRun RunState_members
  | ScenarioState_class => map OfScenario ScenarioState_members
  | DeliveryState_class => map OfDelivery DeliveryState_members
  | AttemptState_class => map OfAttempt AttemptState_members
  | ObservationState_class => map OfObservation ObservationState_members
  | AssertionState_class => map OfAssertion AssertionState_members
  end.

(** [==] on states and on optional states. *)
Definition states_equal (x y : option LifecycleState) : bool :=
  bool_decide (option_map state_value x = option_map state_value y).

(** ** Edge tables *)

Abbreviation StateEdge := (str * str)%type.

Definition edge_table {S} (value : S -> str) (pairs : list (S * S)) : gset StateEdge :=
  list_to_set (map (fun p => (value p.1, value p.2)) pairs).

Definition run_pairs : list (RunState * RunState) := [
  (Run_PLANNED, Run_RUNNING); (Run_PLANNED, Run_CANCELLED); (Run_PLANNED, Run_FAILED);
  (Run_RUNNING, Run_PAUSED); (Run_RUNNING, Run_COMPLETED); (Run_RUNNING, Run_CANCELLED);
  (Run_RUNNING, Run_FAILED);
  (Run_PAUSED, Run_RUNNING); (Run_PAUSED, Run_CANCELLED); (Run_PAUSED, Run_FAILED)].
Definition RUN_EDGES : gset StateEdge := edge_table RunState_value run_pairs.

Definition scenario_pairs : list (ScenarioState * ScenarioState) := [
  (Scenario_PENDING, Scenario_ELIGIBLE); (Scenario_PENDING, Scenario_SKIPPED);
  (Scenario_PENDING, Scenario_ERROR); (Scenario_PENDING, Scenario_CANCELLED);
  (Scenario_ELIGIBLE, Scenario_RUNNING); (Scenario_ELIGIBLE, Scenario_SKIPPED);
  (Scenario_ELIGIBLE, Scenario_ERROR); (Scenario_ELIGIBLE, Scenario_CANCELLED);
  (Scenario_RUNNING, Scenario_PASSED); (Scenario_RUNNING, Scenario_FAILED);
  (Scenario_RUNNING, Scenario_ERROR); (Scenario_RUNNING, Scenario_SKIPPED);
  (Scenario_RUNNING, Scenario_AMBIGUOUS); (Scenario_RUNNING, Scenario_CANCELLED)].
Definition SCENARIO_EDGES : gset StateEdge := edge_table ScenarioState_value scenario_pairs.

Definition delivery_pairs : list (DeliveryState * DeliveryState) := [
  (Delivery_PENDING, Delivery_ELIGIBLE); (Delivery_PENDING, Delivery_SKIPPED);
  (Delivery_PENDING, Delivery_CANCELLED);
  (Delivery_ELIGIBLE, Delivery_ACTIVE); (Delivery_ELIGIBLE, Delivery_SKIPPED);
  (Delivery_ELIGIBLE, Delivery_CANCELLED);
  (Delivery_ACTIVE, Delivery_ELIGIBLE); (Delivery_ACTIVE, Delivery_SATISFIED);
  (Delivery_ACTIVE, Delivery_EXHAUSTED); (Delivery_ACTIVE, Delivery_AMBIGUOUS);
  (Delivery_ACTIVE, Delivery_CANCELLED)].
Definition DELIVERY_EDGES : gset StateEdge := edge_table DeliveryState_value delivery_pairs.

Definition attempt_pairs : list (AttemptState * AttemptState) := [
  (Attempt_SCHEDULED, Attempt_CLAIMED); (Attempt_SCHEDULED, Attempt_CANCELLED);
  (Attempt_CLAIMED, Attempt_PRE_SEND_COMMITTED); (Attempt_CLAIMED, Attempt_NOT_SENT);
  (Attempt_CLAIMED, Attempt_CANCELLED);
  (Attempt_PRE_SEND_COMMITTED, Attempt_CONNECTING); (Attempt_PRE_SEND_COMMITTED, Attempt_NOT_SENT);
  (Attempt_PRE_SEND_COMMITTED, Attempt_CANCELLED);
  (Attempt_CONNECTING, Attempt_SENDING); (Attempt_CONNECTING, Attempt_NOT_SENT);
  (Attempt_CONNECTING, Attempt_TRANSPORT_FAILED); (Attempt_CONNECTING, Attempt_UNKNOWN_OUTCOME);
  (Attempt_CONNECTING, Attempt_CANCELLED);
  (Attempt_SENDING, Attempt_AWAITING_RESPONSE); (Attempt_SENDING, Attempt_TRANSPORT_FAILED);
  (Attempt_SENDING, Attempt_UNKNOWN_OUTCOME);
  (Attempt_AWAITING_RESPONSE, Attempt_RESPONSE_OBSERVED);
  (Attempt_AWAITING_RESPONSE, Attempt_TRANSPORT_FAILED);
  (Attempt_AWAITING_RESPONSE, Attempt_UNKNOWN_OUTCOME);
  (Attempt_RESPONSE_OBSERVED, Attempt_SUCCEEDED); (Attempt_RESPONSE_OBSERVED, Attempt_REJECTED);
  (Attempt_RESPONSE_OBSERVED, Attempt_TRANSPORT_FAILED)].
Definition ATTEMPT_EDGES : gset StateEdge := edge_table AttemptState_value attempt_pairs.

Definition observation_pairs : list (ObservationState * ObservationState) := [
  (Observation_SCHEDULED, Observation_RUNNING); (Observation_SCHEDULED, Observation_CANCELLED);
  (Observation_RUNNING, Observation_OK); (Observation_RUNNING, Observation_PENDING);
  (Observation_RUNNING, Observation_UNSUPPORTED); (Observation_RUNNING, Observation_ERROR);
  (Observation_RUNNING, Observation_TIMED_OUT); (Observation_RUNNING, Observation_CANCELLED)].
Definition OBSERVATION_EDGES : gset StateEdge := edge_table ObservationState_value observation_pairs.

Definition assertion_pairs : list (AssertionState * AssertionState) := [
  (Assertion_PENDING, Assertion_RUNNING); (Assertion_PENDING, Assertion_CANCELLED);
  (Assertion_RUNNING, Assertion_PASSED); (Assertion_RUNNING, Assertion_FAILED);
  (Assertion_RUNNING, Assertion_ERROR); (Assertion_RUNNING, Assertion_UNSUPPORTED);
  (Assertion_RUNNING, Assertion_CANCELLED)].
Definition ASSERTION_EDGES : gset StateEdge := edge_table AssertionState_value assertion_pairs.

(** ** Definitions *)

Record StateMachineDefinition := {
  entity_type : EntityType;
  state_type : StateType;
  initial_state : str;
  states : gset str;
  edges : gset StateEdge;
  terminal_states : gset str
}.

Definition enum_values (t : StateType) : gset str := list_to_set (map state_value (class_members t)).

(** [{left for left, _right in edges}] *)
Definition edge_sources (e : gset StateEdge) : gset str := set_map fst e.

(** [StateMachineDefinition.__post_init__] *)
Definition validate_machine (m : StateMachineDefinition) : result StateMachineDefinition :=
  raise_if negb (bool_decide (enum_values (state_type m) = states m)) with ValueError ;;
  raise_if negb (bool_decide (initial_state m ∈ states m)) with ValueError ;;
  raise_if bool_decide (set_Exists (fun e => e.1 ∉ states m \/ e.2 ∉ states m) (edges m))
    with ValueError ;;
  raise_if negb (bool_decide (terminal_states m = states m ∖ edge_sources (edges m))) with ValueError ;;
  Ok m.

Definition allows (m : StateMachineDefinition) (from_state to_state : str) : bool :=
  bool_decide ((from_state, to_state) ∈ edges m).

Definition _definition (e : EntityType) (t : StateType) (initial : LifecycleState)
    (es : gset StateEdge) : StateMachineDefinition :=
  let ss := enum_values t in
  {| entity_type := e; state_type := t; initial_state := state_value initial;
     states := ss; edges := es; terminal_states := ss ∖ edge_sources es |}.

Definition STATE_MACHINES (e : EntityType) : StateMachineDefinition :=
  match e with
  | Entity_RUN => _definition Entity_RUN RunState_class (OfRun Run_PLANNED) RUN_EDGES
  | Entity_SCENARIO =>
    _definition Entity_SCENARIO ScenarioState_class (OfScenario Scenario_PENDING) SCENARIO_EDGES
  | Entity_DELIVERY =>
    _definition Entity_DELIVERY DeliveryState_class (OfDelivery Delivery_PENDING) DELIVERY_EDGES
  | Entity_ATTEMPT =>
    _definition Entity_ATTEMPT AttemptState_class (OfAttempt Attempt_SCHEDULED) ATTEMPT_EDGES
  | Entity_OBSERVATION =>
    _definition Entity_OBSERVATION ObservationState_class (OfObservation Observation_SCHEDULED)
      OBSERVATION_EDGES
  | Entity_ASSERTION =>
    _definition Entity_ASSERTION AssertionState_class (OfAssertion Assertion_PENDING) ASSERTION_EDGES
  end.

Definition state_machine (e : EntityType) : StateMachineDefinition := STATE_MACHINES e.

Definition parse_state (e : EntityType) (value : str) : result LifecycleState :=
  match List.find (fun s => bool_decide (state_value s = value))
          (class_members (state_type (state_machine e))) with
  | Some s => Ok s
  | None => Raise ProjectionIntegrityError
  end.

Definition transition_allowed (e : EntityType) (from_state to_state : LifecycleState) : bool :=
  let machine := state_machine e in
  if negb (bool_decide (type_of from_state = state_type machine))
     || negb (bool_decide (type_of to_state = state_type machine)) then false
  else allows machine (state_value from_state) (state_value to_state).

(** ** Comparison with an external definition *)

Record StateMachineComparison := {
  missing_states : gset str;
  unexpected_states : gset str;
  missing_edges : gset StateEdge;
  unexpected_edges : gset StateEdge;
  missing_initial_states : gset str;
  unexpected_initial_states : gset str;
  missing_terminal_states : gset str;
  unexpected_terminal_states : gset str
}.

Definition comparison_matches (c : StateMachineComparison) : bool :=
  negb (negb (bool_decide (missing_states c = ∅))
        || negb (bool_decide (unexpected_states c = ∅))
        || negb (bool_decide (missing_edges c = ∅))
        || negb (bool_decide (unexpected_edges c = ∅))
        || negb (bool_decide (missing_initial_states c = ∅))
        || negb (bool_decide (unexpected_initial_states c = ∅))
        || negb (bool_decide (missing_terminal_states c = ∅))
        || negb (bool_decide (unexpected_terminal_states c = ∅))).

Definition compare_state_machine_definition (e : EntityType) (ss : list str) (es : list StateEdge)
    (initials terminals : option (list str)) : StateMachineComparison :=
  let machine := state_machine e in
  let external_states : gset str := list_to_set ss in
  let external_edges : gset StateEdge := list_to_set es in
  let expected_initial_states : gset str := {[ initial_state machine ]} in
  let external_initial_states :=
    match initials with None => expected_initial_states | Some l => list_to_set l end in
  let external_terminal_states :=
    match terminals with None => terminal_states machine | Some l => list_to_set l end in
  {| missing_states := states machine ∖ external_states;
     unexpected_states := external_states ∖ states machine;
     missing_edges := edges machine ∖ external_edges;
     unexpected_edges := external_edges ∖ edges machine;
     missing_initial_states := expected_initial_states ∖ external_initial_states;
     unexpected_initial_states := external_initial_states ∖ expected_initial_states;
     missing_terminal_states := terminal_states machine ∖ external_terminal_states;
     unexpected_terminal_states := external_terminal_states ∖ terminal_states machine |}.

(** ** Typed edges

    The tables hold pairs of values; between members of the machine's enum they are the
    typed pairs they were written from. *)

Definition pair_map {A B} (f : A -> B) (p : A * A) : B * B := (f p.1, f p.2).

Definition typed_edges (e : EntityType) : list (LifecycleState * LifecycleState) :=
  match e with
  | Entity_RUN => map (pair_map OfRun) run_pairs
  | Entity_SCENARIO => map (pair_map OfScenario) scenario_pairs
  | Entity_DELIVERY => map (pair_map OfDelivery) delivery_pairs
  | Entity_ATTEMPT => map (pair_map OfAttempt) attempt_pairs
  | Entity_OBSERVATION => map (pair_map OfObservation) observation_pairs
  | Entity_ASSERTION => map (pair_map OfAssertion) assertion_pairs
  end.

Definition machine_members (e : EntityType) : list LifecycleState :=
  class_members (state_type (state_machine e)).

Lemma class_members_complete s : s ∈ class_members (type_of s).
Proof. destruct s as [s|s|s|s|s|s]; apply list_elem_of_fmap_2; destruct s; set_solver. Qed.

Lemma machine_member e s : type_of s = state_type (state_machine e) -> s ∈ machine_members e.
Proof. intros He. unfold machine_members. rewrite <- He. apply class_members_complete. Qed.

Lemma member_type t s : s ∈ class_members t -> type_of s = t.
Proof. destruct t; intros (x & -> & _)%list_elem_of_fmap; done. Qed.

(** Two members of one enum are told apart by their values. *)
Lemma state_value_inj s t : type_of s = type_of t -> state_value s = state_value t -> s = t.
Proof.
  destruct s as [s|s|s|s|s|s], t as [t|t|t|t|t|t]; try done; intros _ Hv; simpl in Hv;
    f_equal; revert Hv; apply inj; apply _.
Qed.

Lemma machine_edges e :
  edges (state_machine e) = list_to_set (map (pair_map state_value) (typed_edges e)).
Proof. destruct e; reflexivity. Qed.

Lemma typed_edge_types e s t :
  (s, t) ∈ typed_edges e ->
  type_of s = state_type (state_machine e) /\ type_of t = state_type (state_machine e).
Proof. destruct e; intros (p & [= -> ->] & _)%list_elem_of_fmap; done. Qed.

Lemma transition_allowed_edge e s t :
  transition_allowed e s t = true <-> (s, t) ∈ typed_edges e.
Proof.
  unfold transition_allowed. split.
  - destruct (_ || _) eqn:E; [done|]. apply orb_false_iff in E as [Es Et].
    apply negb_false_iff, bool_decide_eq_true in Es, Et.
    unfold allows. rewrite bool_decide_eq_true, machine_edges, elem_of_list_to_set.
    intros ([x y] & [= Hx Hy] & Hin)%list_elem_of_fmap. simpl in *.
    pose proof (typed_edge_types _ _ _ Hin) as [Tx Ty].
    assert (s = x) as -> by (apply state_value_inj; congruence).
    assert (t = y) as -> by (apply state_value_inj; congruence). done.
  - intros Hin. pose proof (typed_edge_types _ _ _ Hin) as [-> ->].
    rewrite !bool_decide_true by done. simpl. unfold allows.
    rewrite bool_decide_eq_true, machine_edges, elem_of_list_to_set.
    by apply (list_elem_of_fmap_2 (pair_map state_value)) in Hin.
Qed.

Lemma transition_types e s t :
  transition_allowed e s t = true ->
  type_of s = state_type (state_machine e) /\ type_of t = state_type (state_machine e).
Proof. intros ?%transition_allowed_edge. by apply typed_edge_types. Qed.

(** A property of all edges, or of all states, is decided by evaluation. *)
Definition check_states (e : EntityType) (p : LifecycleState -> bool) : bool :=
  forallb p (machine_members e).
Definition check_edges (e : EntityType) (p : LifecycleState -> LifecycleState -> bool) : bool :=
  forallb (fun st => p st.1 st.2) (typed_edges e).

Lemma check_states_ok e p :
  check_states e p = true -> forall s, type_of s = state_type (state_machine e) -> p s = true.
Proof.
  unfold check_states. rewrite List.forallb_forall. intros H s Hs%machine_member.
  apply H. by apply list_elem_of_In.
Qed.

Lemma check_edges_ok e p :
  check_edges e p = true -> forall s t, transition_allowed e s t = true -> p s t = true.
Proof.
  unfold check_edges. rewrite List.forallb_forall. intros H s t Hst%transition_allowed_edge.
  apply list_elem_of_In in Hst. by apply H in Hst.
Qed.

(** ** Lifecycles as traces of allowed transitions *)

Inductive lifecycle_trace (e : EntityType)
    : LifecycleState -> list LifecycleState -> LifecycleState -> Prop :=
  | trace_nil s : lifecycle_trace e s [] s
  | trace_step s t l r :
      transition_allowed e s t = true -> lifecycle_trace e t l r -> lifecycle_trace e s (t :: l) r.

(** A property closed under the edges holds along a trace. *)
Lemma trace_invariant e (p : LifecycleState -> bool) s l t :
  check_edges e (fun x y => implb (p x) (p y)) = true ->
  lifecycle_trace e s l t -> p s = true -> p t = true.
Proof.
  intros Hc. induction 1 as [|x y l z Hxy _ IH]; [done|]. intros Hx. apply IH.
  pose proof (check_edges_ok _ _ Hc x y Hxy) as Hp. simpl in Hp. by rewrite Hx in Hp.
Qed.

(** Bounded search for a trace. *)
Fixpoint can_reach (fuel : nat) (e : EntityType) (goal : LifecycleState -> bool) (s : LifecycleState) : bool :=
  if goal s then true else
  match fuel with
  | O => false
  | S n => existsb (fun st => if bool_decide (st.1 = s) then can_reach n e goal st.2 else false)
             (typed_edges e)
  end.

Lemma can_reach_sound fuel e goal s :
  can_reach fuel e goal s = true -> exists l t, lifecycle_trace e s l t /\ goal t = true.
Proof.
  revert s; induction fuel as [|n IH]; intros s; simpl; destruct (goal s) eqn:Hg; try done.
  1,2: intros _; exists [], s; split; [constructor|done].
  intros ([x t] & Hin%list_elem_of_In & Ht)%existsb_exists. simpl in Ht.
  case_bool_decide; [|done]. subst x. apply IH in Ht as (l & r & Hl & Hr).
  apply transition_allowed_edge in Hin. exists (t :: l), r. split; [by econstructor|done].
Qed.

Lemma elem_of_edge_sources e s :
  type_of s = state_type (state_machine e) ->
  state_value s ∈ edge_sources (edges (state_machine e)) <-> exists t, transition_allowed e s t = true.
Proof.
  intros Hs. unfold edge_sources. rewrite elem_of_map, machine_edges. split.
  - intros (x & Hv & (p & -> & Hp)%elem_of_list_to_set%list_elem_of_fmap). destruct p as [a b].
    simpl in Hv. exists b. apply transition_allowed_edge.
    assert (s = a) as ->; [|done]. apply state_value_inj; [|done].
    apply typed_edge_types in Hp as [-> _]. done.
  - intros [t Ht%transition_allowed_edge]. exists (pair_map state_value (s, t)). split; [done|].
    by apply elem_of_list_to_set, (list_elem_of_fmap_2 (pair_map state_value)).
Qed.

(** Terminal states are the states without an outgoing transition. *)
Lemma terminal_no_edge e s :
  type_of s = state_type (state_machine e) ->
  state_value s ∈ terminal_states (state_machine e) <-> forall t, transition_allowed e s t = false.
Proof.
  intros Hs.
  assert (terminal_states (state_machine e) =
    enum_values (state_type (state_machine e)) ∖ edge_sources (edges (state_machine e))) as ->
    by (by destruct e).
  rewrite elem_of_difference, elem_of_edge_sources by done. split.
  - intros [_ Hn] t. destruct (transition_allowed e s t) eqn:E; [|done]. by destruct Hn; exists t.
  - intros Hn. split; [|intros [t Ht]; by rewrite Hn in Ht].
    apply elem_of_list_to_set, list_elem_of_fmap_2. rewrite <- Hs. apply class_members_complete.
Qed.

Definition machine_initial (e : EntityType) (s : LifecycleState) : bool :=
  bool_decide (type_of s = state_type (state_machine e))
  && bool_decide (state_value s = initial_state (state_machine e)).

(** No outgoing edge, on the typed table. *)
Definition stuck (e : EntityType) (s : LifecycleState) : bool :=
  forallb (fun st => negb (bool_decide (st.1 = s))) (typed_edges e).

Lemma stuck_spec e s : stuck e s = true <-> forall t, transition_allowed e s t = false.
Proof.
  unfold stuck. rewrite List.forallb_forall. split.
  - intros H t. destruct (transition_allowed e s t) eqn:E; [|done].
    apply transition_allowed_edge, list_elem_of_In, H in E. simpl in E. by case_bool_decide.
  - intros H [x t] Hin%list_elem_of_In. simpl. case_bool_decide as Hx; [|done]. subst x.
    apply transition_allowed_edge in Hin. by rewrite H in Hin.
Qed.

(** Every state is reachable from the initial one and can reach a stuck state. *)
Definition machine_check (e : EntityType) : bool :=
  let initials := List.filter (machine_initial e) (machine_members e) in
  check_states e (fun s =>
    existsb (can_reach 7 e (fun t => bool_decide (t = s))) initials
    && can_reach 4 e (stuck e) s).

Lemma machine_check_ok e : machine_check e = true.
Proof. destruct e; vm_compute; reflexivity. Qed.

Lemma machine_valid e : validate_machine (state_machine e) = Ok (state_machine e).
Proof.
  assert (is_ok (validate_machine (state_machine e)) = true) as H by (destruct e; vm_compute; reflexivity).
  revert H. unfold validate_machine. by repeat case_match.
Qed.

Lemma trace_type e s l t :
  lifecycle_trace e s l t -> type_of s = state_type (state_machine e) ->
  type_of t = state_type (state_machine e).
Proof. induction 1 as [|x y l z Hxy _ IH]; [done|]. intros _. apply IH, (transition_types _ _ _ Hxy). Qed.

(** C39: All six lifecycle definitions pass their own construction checks; in each of them every
    state of the enum is reachable from the initial state, every state can still reach a terminal
    state, and the terminal states are exactly the states with no outgoing transition. *)
Theorem state_machines_sound e :
  validate_machine (state_machine e) = Ok (state_machine e) /\
  entity_type (state_machine e) = e /\
  forall s, type_of s = state_type (state_machine e) ->
    (exists i l, machine_initial e i = true /\ lifecycle_trace e i l s) /\
    (exists l t, lifecycle_trace e s l t /\ state_value t ∈ terminal_states (state_machine e)) /\
    (state_value s ∈ terminal_states (state_machine e) <->
     forall t, transition_allowed e s t = false).
Proof.
  split; [apply machine_valid|]. split; [by destruct e|]. intros s Hs.
  pose proof (check_states_ok _ _ (machine_check_ok e) s Hs) as H. cbv beta in H.
  apply andb_true_iff in H as [(i & [_ Hi]%List.filter_In & Hr)%existsb_exists Ht].
  apply can_reach_sound in Hr as (l & x & Hl & ->%bool_decide_eq_true),
    Ht as (k & t & Hk & Ht). split_and!; [by eauto| |by apply terminal_no_edge].
  exists k, t. split; [done|]. apply terminal_no_edge; [by eapply trace_type|]. by apply stuck_spec.
Qed.

(** The longest lifecycle still possible from a state, in transitions. *)
Definition remaining_transitions (s : LifecycleState) : nat :=
  match s with
  | OfScenario Scenario_PENDING => 3 | OfScenario Scenario_ELIGIBLE => 2 | OfScenario Scenario_RUNNING => 1
  | OfAttempt Attempt_SCHEDULED => 7 | OfAttempt Attempt_CLAIMED => 6
  | OfAttempt Attempt_PRE_SEND_COMMITTED => 5 | OfAttempt Attempt_CONNECTING => 4
  | OfAttempt Attempt_SENDING => 3 | OfAttempt Attempt_AWAITING_RESPONSE => 2
  | OfAttempt Attempt_RESPONSE_OBSERVED => 1
  | OfObservation Observation_SCHEDULED => 2 | OfObservation Observation_RUNNING => 1
  | OfAssertion Assertion_PENDING => 2 | OfAssertion Assertion_RUNNING => 1
  | _ => 0
  end.

(** Scenarios, attempts, observations and assertions never revisit a state: their lifecycles
    end after at most three, seven, two and two transitions, whatever the order of events. *)
Theorem lifecycle_terminates e s l t :
  e <> Entity_RUN -> e <> Entity_DELIVERY -> lifecycle_trace e s l t ->
  (length l + remaining_transitions t <= remaining_transitions s)%nat.
Proof.
  intros Hr Hd.
  assert (check_edges e (fun s t => (remaining_transitions t <? remaining_transitions s)%nat) = true) as Hc
    by (destruct e; [done|vm_compute; reflexivity|done|vm_compute; reflexivity..]).
  induction 1 as [|x y l z Hxy _ IH]; simpl; [lia|].
  apply (check_edges_ok _ _ Hc), Nat.ltb_lt in Hxy. lia.
Qed.

Definition happy_attempt : list LifecycleState :=
  [OfAttempt Attempt_CLAIMED; OfAttempt Attempt_PRE_SEND_COMMITTED; OfAttempt Attempt_CONNECTING;
   OfAttempt Attempt_SENDING; OfAttempt Attempt_AWAITING_RESPONSE; OfAttempt Attempt_RESPONSE_OBSERVED;
   OfAttempt Attempt_SUCCEEDED].

Lemma happy_attempt_trace :
  lifecycle_trace Entity_ATTEMPT (OfAttempt Attempt_SCHEDULED) happy_attempt (OfAttempt Attempt_SUCCEEDED).
Proof. repeat (eapply trace_step; [by vm_compute|]). constructor. Qed.

Lemma lifecycle_terminates_witness : (7 + 0 <= 7)%nat.
Proof.
  exact (lifecycle_terminates Entity_ATTEMPT _ _ _ ltac:(done) ltac:(done) happy_attempt_trace).
Defined.

(** A trace that leaves a set of states whose only exit is [x] goes through [x]. *)
Lemma trace_must_pass e (p : LifecycleState -> bool) x s l t :
  check_edges e (fun a b => implb (p a) (p b || bool_decide (b = x))) = true ->
  lifecycle_trace e s l t -> p s = true -> p t = false -> x ∈ l.
Proof.
  intros Hc. induction 1 as [|a b l z Hab _ IH]; intros Hs Ht; [congruence|].
  apply (check_edges_ok _ _ Hc) in Hab. rewrite Hs in Hab. simpl in Hab.
  apply orb_true_iff in Hab as [Hb| ->%bool_decide_eq_true]; [right; auto|left].
Qed.

(** Request bytes may have left the process. *)
Definition attempt_sent (s : LifecycleState) : bool :=
  bool_decide (s ∈ map OfAttempt [Attempt_SENDING; Attempt_AWAITING_RESPONSE; Attempt_RESPONSE_OBSERVED;
    Attempt_SUCCEEDED; Attempt_REJECTED]).

(** Write-ahead sending: every attempt history that reaches a state in which request bytes
    may have left the process went through PRE_SEND_COMMITTED and CONNECTING first; and from
    such a state no history leads back to NOT_SENT or CANCELLED, so what was sent is never
    recorded as unsent. *)
Theorem sending_is_write_ahead l s :
  lifecycle_trace Entity_ATTEMPT (OfAttempt Attempt_SCHEDULED) l s -> attempt_sent s = true ->
  OfAttempt Attempt_PRE_SEND_COMMITTED ∈ l /\ OfAttempt Attempt_CONNECTING ∈ l /\
  forall k t, lifecycle_trace Entity_ATTEMPT s k t ->
    t <> OfAttempt Attempt_NOT_SENT /\ t <> OfAttempt Attempt_CANCELLED.
Proof.
  intros Hl Hs.
  set (p1 x := bool_decide (x ∈ map OfAttempt [Attempt_SCHEDULED; Attempt_CLAIMED; Attempt_NOT_SENT;
    Attempt_CANCELLED])).
  set (p2 x := bool_decide (x ∈ map OfAttempt [Attempt_SCHEDULED; Attempt_CLAIMED; Attempt_NOT_SENT;
    Attempt_CANCELLED; Attempt_PRE_SEND_COMMITTED])).
  set (p3 x := negb (bool_decide (x ∈ map OfAttempt [Attempt_SCHEDULED; Attempt_CLAIMED; Attempt_NOT_SENT;
    Attempt_CANCELLED; Attempt_PRE_SEND_COMMITTED; Attempt_CONNECTING]))).
  assert (p1 s = false /\ p2 s = false /\ p3 s = true) as (H1 & H2 & H3).
  { clear Hl. destruct s as [a|a|a|a|a|a]; destruct a; vm_compute in Hs; try discriminate Hs; by vm_compute. }
  split_and!.
  - apply (trace_must_pass Entity_ATTEMPT p1 _ _ _ _) with (2 := Hl); try done; by vm_compute.
  - apply (trace_must_pass Entity_ATTEMPT p2 _ _ _ _) with (2 := Hl); try done; by vm_compute.
  - intros k t Ht. assert (p3 t = true) as Hp.
    { eapply (trace_invariant Entity_ATTEMPT p3); [|exact Ht|done]. by vm_compute. }
    split; intros ->; by vm_compute in Hp.
Qed.

Lemma sending_is_write_ahead_witness :
  OfAttempt Attempt_PRE_SEND_COMMITTED ∈ happy_attempt /\ OfAttempt Attempt_CONNECTING ∈ happy_attempt.
Proof.
  destruct (sending_is_write_ahead happy_attempt _ happy_attempt_trace) as (H1 & H2 & _);
    [by vm_compute|]. exact (conj H1 H2).
Defined.

Lemma set_eq_differences {A} `{Countable A} (X Y : gset A) : X ∖ Y = ∅ -> Y ∖ X = ∅ -> X = Y.
Proof.
  intros ?%empty_difference_subseteq_L ?%empty_difference_subseteq_L. by apply (anti_symm (⊆)).
Qed.

(** An external diagram matches the executable machine exactly when it has the same set of
    states and edges and, where it gives them, the same initial and terminal states. *)
Theorem comparison_matches_iff e ss es initials terminals :
  comparison_matches (compare_state_machine_definition e ss es initials terminals) = true <->
  list_to_set ss = states (state_machine e) /\
  list_to_set es = edges (state_machine e) /\
  from_option (fun l => list_to_set l = ({[ initial_state (state_machine e) ]} : gset str)) True initials /\
  from_option (fun l => list_to_set l = terminal_states (state_machine e)) True terminals.
Proof.
  unfold comparison_matches. rewrite negb_true_iff, !orb_false_iff, !negb_false_iff, !bool_decide_eq_true.
  unfold compare_state_machine_definition. cbn [missing_states unexpected_states missing_edges
    unexpected_edges missing_initial_states unexpected_initial_states missing_terminal_states
    unexpected_terminal_states].
  generalize (states (state_machine e)), (edges (state_machine e)), (terminal_states (state_machine e)),
    (initial_state (state_machine e)).
  intros st ed tm ini. split.
  - intros [[[[[[[H1 H2] H3] H4] H5] H6] H7] H8].
    split_and!; [by apply set_eq_differences..| |].
    + destruct initials; simpl; [by apply set_eq_differences|done].
    + destruct terminals; simpl; [by apply set_eq_differences|done].
  - intros (-> & -> & Hi & Ht). rewrite !difference_diag_L.
    destruct initials, terminals; simpl in *; rewrite ?Hi, ?Ht, ?difference_diag_L; done.
Qed.
