(* ===== verification/Replay.v ===== *)
(** * Transition history

    The ledger record of [journal/transitions.py], the replay of an ordered history into a
    lifecycle inventory ([replay_transition_records]) and the audit of a live inventory
    against the replayed one ([compare_projection_inventories]).

    The abstract specification is [legal_history]: every entity's own records form a legal
    lifecycle, sequence numbers increase within a run, and transition identifiers and
    idempotency keys are unique.  The replay is proved to accept exactly the legal histories
    and to return the last state of every entity. *)

From S2P Require Import Prelude Domain Clocks Lifecycle.

Local Open Scope Z_scope.

Record TransitionRecord := {
  tr_transition_id : str;
  tr_run_id : str;
  tr_sequence : Z;
  tr_entity_type : EntityType;
  tr_entity_id : str;
  tr_from_state : option LifecycleState;
  tr_to_state : LifecycleState;
  tr_trigger_category : str;
  tr_causal_record_id : option str;
  tr_timestamp : TransitionTimestamp;
  tr_logical_time_ns : option Z;
  tr_owner_epoch : Z;
  tr_idempotency_key : str
}.

#[global] Instance TransitionRecord_eq_dec : EqDecision TransitionRecord.
Proof. solve_decision. Defined.

Record ProjectionState := {
  ps_run_id : str;
  ps_entity_type : EntityType;
  ps_entity_id : str;
  ps_state : LifecycleState
}.

Record ProjectionMismatch := {
  pm_run_id : str;
  pm_entity_type : EntityType;
  pm_entity_id : str;
  projected_state : option LifecycleState;
  replayed_state : option LifecycleState
}.

Record ProjectionAudit := {
  projected : list ProjectionState;
  replayed : list ProjectionState;
  mismatches : list ProjectionMismatch
}.

Definition audit_matches (a : ProjectionAudit) : bool := bool_decide (length (mismatches a) = 0%nat).

Abbreviation identity := (str * EntityType * str)%type.

(** The sort key of an identity. *)
Definition identity_key (i : identity) : str * (Z * str) :=
  (i.1.1, (EntityType_index i.1.2, i.2)).

(** ** Replay *)

Record ReplayState := {
  current : gmap identity LifecycleState;
  transition_ids : gset str;
  idempotency_keys : gset (str * str);
  prior_sequence : gmap str Z
}.

Definition replay_init : ReplayState :=
  {| current := ∅; transition_ids := ∅; idempotency_keys := ∅; prior_sequence := ∅ |}.

Definition record_identity (r : TransitionRecord) : identity :=
  (tr_run_id r, tr_entity_type r, tr_entity_id r).
Definition record_key (r : TransitionRecord) : str * str := (tr_run_id r, tr_idempotency_key r).

(** The check of one record against the entity's current state: a first record enters the
    initial state from nowhere, a later one continues from the current state along an edge. *)
Definition continues (e : EntityType) (existing from_state : option LifecycleState)
    (to_state : LifecycleState) : bool :=
  let machine := state_machine e in
  match existing with
  | None =>
    negb (match from_state with Some _ => true | None => false end
          || negb (bool_decide (state_value to_state = initial_state machine)))
  | Some s =>
    negb (negb (states_equal from_state (Some s))
          || negb (allows machine (state_value s) (state_value to_state)))
  end.

(** The body of the loop. *)
Definition replay_step (st : ReplayState) (r : TransitionRecord) : result ReplayState :=
  let previous_sequence := default 0 (prior_sequence st !! tr_run_id r) in
  raise_if (tr_sequence r <=? previous_sequence) with ProjectionIntegrityError ;;
  raise_if bool_decide (tr_transition_id r ∈ transition_ids st) with ProjectionIntegrityError ;;
  raise_if bool_decide (record_key r ∈ idempotency_keys st) with ProjectionIntegrityError ;;
  raise_if negb (continues (tr_entity_type r) (current st !! record_identity r)
                   (tr_from_state r) (tr_to_state r)) with ProjectionIntegrityError ;;
  Ok {| current := <[record_identity r := tr_to_state r]> (current st);
        transition_ids := {[ tr_transition_id r ]} ∪ transition_ids st;
        idempotency_keys := {[ record_key r ]} ∪ idempotency_keys st;
        prior_sequence := <[tr_run_id r := tr_sequence r]> (prior_sequence st) |}.

Definition to_projection (x : identity * LifecycleState) : ProjectionState :=
  {| ps_run_id := x.1.1.1; ps_entity_type := x.1.1.2; ps_entity_id := x.1.2; ps_state := x.2 |}.

(** [sorted(current.items(), key=...)] as projection states. *)
Definition inventory_of (m : gmap identity LifecycleState) : list ProjectionState :=
  map to_projection (py_sorted (fun x => identity_key x.1) (map_to_list m)).

Definition replay_transition_records (records : list TransitionRecord) : result (list ProjectionState) :=
  raise_if (MAX_REPLAY_TRANSITIONS <? Z.of_nat (length records)) with ProjectionIntegrityError ;;
  let! st := for_each replay_step replay_init records in
  Ok (inventory_of (current st)).

(** ** Audit *)

Definition projection_step (m : gmap identity LifecycleState) (p : ProjectionState)
    : result (gmap identity LifecycleState) :=
  let i := (ps_run_id p, ps_entity_type p, ps_entity_id p) in
  raise_if bool_decide (is_Some (m !! i)) with ProjectionIntegrityError ;;
  Ok (<[i := ps_state p]> m).

Definition _projection_map (inventory : list ProjectionState) : result (gmap identity LifecycleState) :=
  for_each projection_step ∅ inventory.

Definition compare_projection_inventories (projected replayed : list ProjectionState)
    : result ProjectionAudit :=
  let! projected_map := _projection_map projected in
  let! replayed_map := _projection_map replayed in
  let identities := py_sorted identity_key (elements (dom projected_map ∪ dom replayed_map)) in
  Ok {| projected := projected; replayed := replayed;
        mismatches :=
          map (fun i : identity => {| pm_run_id := i.1.1; pm_entity_type := i.1.2; pm_entity_id := i.2;
                           projected_state := projected_map !! i;
                           replayed_state := replayed_map !! i |})
            (List.filter (fun i => negb (states_equal (projected_map !! i) (replayed_map !! i)))
              identities) |}.

(** ** Specification *)

(** The records of one entity, in order, continue from [cur]. *)
Fixpoint legal_lifecycle (e : EntityType) (cur : option LifecycleState) (l : list TransitionRecord) : Prop :=
  match l with
  | [] => True
  | r :: rest =>
    continues e cur (tr_from_state r) (tr_to_state r) = true /\
    legal_lifecycle e (Some (tr_to_state r)) rest
  end.

Definition entity_records (i : identity) (l : list TransitionRecord) : list TransitionRecord :=
  filter (fun r => record_identity r = i) l.
Definition run_records (run : str) (l : list TransitionRecord) : list TransitionRecord :=
  filter (fun r => tr_run_id r = run) l.

(** The target of an entity's last record, and the last sequence number of a run. *)
Definition final_state (i : identity) (l : list TransitionRecord) : option LifecycleState :=
  fold_left (fun _ r => Some (tr_to_state r)) (entity_records i l) None.
Definition final_sequence (run : str) (l : list TransitionRecord) : Z :=
  fold_left (fun _ r => tr_sequence r) (run_records run l) 0.

Record legal_history (l : list TransitionRecord) : Prop := {
  lh_sequence : forall run, StronglySorted Z.lt (0 :: map tr_sequence (run_records run l));
  lh_ids : NoDup (map tr_transition_id l);
  lh_keys : NoDup (map record_key l);
  lh_lifecycle : forall i, legal_lifecycle i.1.2 None (entity_records i l)
}.

(** What a record must satisfy to extend a history. *)
Definition extends (l : list TransitionRecord) (r : TransitionRecord) : Prop :=
  final_sequence (tr_run_id r) l < tr_sequence r /\
  (tr_transition_id r ∉ map tr_transition_id l) /\
  (record_key r ∉ map record_key l) /\
  continues (tr_entity_type r) (final_state (record_identity r) l) (tr_from_state r) (tr_to_state r) = true.

Lemma sorted_lt_snoc (L : list TransitionRecord) a y :
  StronglySorted Z.lt (a :: map tr_sequence L ++ [y]) <->
  StronglySorted Z.lt (a :: map tr_sequence L) /\ fold_left (fun _ r => tr_sequence r) L a < y.
Proof.
  revert a; induction L as [|r L IH]; intros a; simpl.
  - split; [|intros [_ Hy]; repeat constructor; done].
    intros [_ Hf]%StronglySorted_inv. split; [repeat constructor|by inversion Hf].
  - split.
    + intros [Hs Hf]%StronglySorted_inv. apply IH in Hs as [Hs Hlt]. split; [|done].
      constructor; [done|]. inversion_clear Hf as [|? ? Hb Hr]. apply Forall_app in Hr as [Hr _].
      by constructor.
    + intros [[Hs Hf]%StronglySorted_inv Hlt]. assert (StronglySorted Z.lt (tr_sequence r ::
        map tr_sequence L ++ [y])) as Hs' by by apply IH.
      constructor; [done|]. inversion_clear Hf as [|? ? Hb Hr]. constructor; [done|].
      apply StronglySorted_inv in Hs' as [_ Hf']. eapply List.Forall_impl; [|exact Hf'].
      simpl. lia.
Qed.

Lemma legal_lifecycle_snoc e cur L r :
  legal_lifecycle e cur (L ++ [r]) <->
  legal_lifecycle e cur L /\
  continues e (fold_left (fun _ r => Some (tr_to_state r)) L cur) (tr_from_state r) (tr_to_state r) = true.
Proof. revert cur; induction L as [|x L IH]; intros cur; simpl; [tauto|]. rewrite IH. tauto. Qed.

Lemma entity_records_snoc i l r :
  entity_records i (l ++ [r]) =
  entity_records i l ++ (if decide (record_identity r = i) then [r] else []).
Proof. unfold entity_records. by rewrite list.filter_app. Qed.

Lemma run_records_snoc run l r :
  run_records run (l ++ [r]) = run_records run l ++ (if decide (tr_run_id r = run) then [r] else []).
Proof. unfold run_records. by rewrite list.filter_app. Qed.

Lemma NoDup_snoc {A} (l : list A) x : NoDup (l ++ [x]) <-> NoDup l /\ x ∉ l.
Proof.
  rewrite list.NoDup_app. split.
  - intros (Hl & Hd & _). split; [done|]. intros Hx. by apply (Hd x Hx), list_elem_of_here.
  - intros [Hl Hx]. split_and!; [done| |apply NoDup_singleton].
    intros y Hy ->%list_elem_of_singleton. done.
Qed.

Lemma legal_history_snoc l r : legal_history (l ++ [r]) <-> legal_history l /\ extends l r.
Proof.
  split.
  - intros [Hs Hi Hk Hl]. rewrite map_app in Hi, Hk. apply NoDup_snoc in Hi as [Hi Hi'], Hk as [Hk Hk']. split.
    + split; [|done..|].
      * intros run. specialize (Hs run). rewrite run_records_snoc in Hs. destruct (decide _) as [<-|].
        -- rewrite map_app in Hs. by apply sorted_lt_snoc in Hs as [Hs _].
        -- by rewrite app_nil_r in Hs.
      * intros i. specialize (Hl i). rewrite entity_records_snoc in Hl. destruct (decide _) as [<-|].
        -- by apply legal_lifecycle_snoc in Hl as [Hl _].
        -- by rewrite app_nil_r in Hl.
    + split_and!; [|done..|].
      * specialize (Hs (tr_run_id r)). rewrite run_records_snoc, decide_True, map_app in Hs by done.
        by apply sorted_lt_snoc in Hs as [_ Hs].
      * specialize (Hl (record_identity r)). rewrite entity_records_snoc, decide_True in Hl by done.
        by apply legal_lifecycle_snoc in Hl as [_ Hl].
  - intros [[Hs Hi Hk Hl] (Hlt & Hni & Hnk & Hc)]. split; [|by rewrite map_app; apply NoDup_snoc..|].
    + intros run. rewrite run_records_snoc. destruct (decide _) as [<-|].
      * rewrite map_app. by apply sorted_lt_snoc.
      * by rewrite app_nil_r.
    + intros i. rewrite entity_records_snoc. destruct (decide _) as [<-|].
      * by apply legal_lifecycle_snoc.
      * by rewrite app_nil_r.
Qed.

(** The replay state after a history. *)
Record replayed_as (l : list TransitionRecord) (st : ReplayState) : Prop := {
  ra_current : forall i, current st !! i = final_state i l;
  ra_ids : forall x, x ∈ transition_ids st <-> x ∈ map tr_transition_id l;
  ra_keys : forall x, x ∈ idempotency_keys st <-> x ∈ map record_key l;
  ra_sequence : forall run, default 0 (prior_sequence st !! run) = final_sequence run l
}.

Lemma replay_step_spec l st r :
  replayed_as l st ->
  (is_ok (replay_step st r) = true <-> extends l r) /\
  (forall st', replay_step st r = Ok st' -> replayed_as (l ++ [r]) st').
Proof.
  intros [Hc Hi Hk Hs]. unfold replay_step, extends. rewrite Hs, Hc, <- Hi, <- Hk.
  destruct (tr_sequence r <=? _) eqn:E1; [apply Z.leb_le in E1; split; [|done]; split; [done|lia]|].
  apply Z.leb_gt in E1.
  case_bool_decide as E2; [split; [|done]; split; [done|tauto]|].
  case_bool_decide as E3; [split; [|done]; split; [done|tauto]|].
  destruct (continues _ _ _ _) eqn:E4; simpl; [|split; [|done]; split; [done|naive_solver]].
  split; [done|]. intros st' [= <-]. split; simpl.
  - intros i. unfold final_state. rewrite entity_records_snoc. destruct (decide _) as [<-|Hne].
    + by rewrite lookup_insert_eq, fold_left_app.
    + by rewrite lookup_insert_ne, app_nil_r, Hc.
  - intros x. rewrite map_app, elem_of_app, elem_of_union, elem_of_singleton, Hi.
    simpl. rewrite list_elem_of_singleton. tauto.
  - intros x. rewrite map_app, elem_of_app, elem_of_union, elem_of_singleton, Hk.
    simpl. rewrite list_elem_of_singleton. tauto.
  - intros run. unfold final_sequence. rewrite run_records_snoc. destruct (decide _) as [<-|Hne].
    + by rewrite lookup_insert_eq, fold_left_app.
    + by rewrite lookup_insert_ne, app_nil_r, Hs.
Qed.

Lemma legal_history_nil : legal_history [].
Proof. split; [intros run; repeat constructor|constructor..|done]. Qed.

Lemma replay_spec l :
  (is_ok (for_each replay_step replay_init l) = true <-> legal_history l) /\
  (forall st, for_each replay_step replay_init l = Ok st -> replayed_as l st).
Proof.
  induction l as [|r l [IHok IHst]] using rev_ind.
  { split; [split; [intros _; apply legal_history_nil|done]|].
    intros st [= <-]. split; simpl; intros; rewrite ?lookup_empty; set_solver. }
  rewrite for_each_app, legal_history_snoc.
  destruct (for_each replay_step replay_init l) as [st|] eqn:E.
  2: { split; [|done]. simpl in *. naive_solver. }
  specialize (IHst st eq_refl). destruct (replay_step_spec l st r IHst) as [Hok Hst]. simpl.
  destruct (replay_step st r) as [st'|] eqn:E'; simpl in *; split; try naive_solver.
Qed.

Definition projection_identity (p : ProjectionState) : identity :=
  (ps_run_id p, ps_entity_type p, ps_entity_id p).
Definition mismatch_identity (m : ProjectionMismatch) : identity :=
  (pm_run_id m, pm_entity_type m, pm_entity_id m).

Lemma inventory_of_spec m :
  StronglySorted (key_le (fun p => identity_key (projection_identity p))) (inventory_of m) /\
  forall p, p ∈ inventory_of m <-> m !! projection_identity p = Some (ps_state p).
Proof.
  split.
  - apply (sorted_map (fun x : identity * LifecycleState => identity_key x.1));
      [by intros [[[] ] ]|apply py_sorted_sorted].
  - intros p. unfold inventory_of. rewrite list_elem_of_fmap. split.
    + intros ([[[r e] i] s] & -> & Hin%elem_of_py_sorted%elem_of_map_to_list). done.
    + intros Hin. exists (projection_identity p, ps_state p). split; [by destruct p|].
      by apply elem_of_py_sorted, elem_of_map_to_list.
Qed.

(** C37: Replay implements the history specification: it succeeds exactly on bounded histories
    in which every entity's own records form a legal lifecycle from its initial state, sequence
    numbers increase within each run, and transition identifiers and idempotency keys are
    unique; and then it returns, in canonical order, exactly the last state of every entity. *)
Theorem replay_refines_history l :
  ((exists inv, replay_transition_records l = Ok inv) <->
   Z.of_nat (length l) <= MAX_REPLAY_TRANSITIONS /\ legal_history l) /\
  (forall inv, replay_transition_records l = Ok inv ->
   StronglySorted (key_le (fun p => identity_key (projection_identity p))) inv /\
   forall p, p ∈ inv <-> final_state (projection_identity p) l = Some (ps_state p)).
Proof.
  unfold replay_transition_records. destruct (replay_spec l) as [Hok Hst].
  destruct (MAX_REPLAY_TRANSITIONS <? _) eqn:E.
  { apply Z.ltb_lt in E. split; [|done]. split; [by intros []|lia]. }
  apply Z.ltb_ge in E.
  destruct (for_each replay_step replay_init l) as [st|] eqn:Ef; simpl in *.
  - split; [naive_solver|]. intros inv [= <-]. destruct (inventory_of_spec (current st)) as [Hs Hm].
    split; [done|]. intros p. by rewrite Hm, (ra_current _ _ (Hst st eq_refl)).
  - split; [|done]. split; [by intros []|]. intros [_ Hl]. by apply Hok in Hl.
Qed.

(** The state an inventory gives an entity. *)
Definition inventory_state (inv : list ProjectionState) (i : identity) : option LifecycleState :=
  option_map ps_state (List.find (fun p => bool_decide (projection_identity p = i)) inv).

Lemma projection_loop inv m :
  (is_ok (for_each projection_step m inv) = true <->
   NoDup (map projection_identity inv) /\ forall p, p ∈ inv -> m !! projection_identity p = None) /\
  (forall m', for_each projection_step m inv = Ok m' ->
   forall i, m' !! i = match inventory_state inv i with Some s => Some s | None => m !! i end).
Proof.
  revert m; induction inv as [|p inv IH]; intros m; simpl.
  { split; [split; [intros _; split; [constructor|by intros ? ?%not_elem_of_nil]|done]|].
    by intros m' [= <-]. }
  unfold projection_step at 1 3. fold (projection_identity p).
  destruct (m !! projection_identity p) as [s|] eqn:E.
  { rewrite bool_decide_true by by eexists. split; [|done]. split; [done|].
    intros [_ Hn]. specialize (Hn p (list_elem_of_here _ _)). congruence. }
  rewrite bool_decide_false by by intros [].
  destruct (IH (<[projection_identity p := ps_state p]> m)) as [IHok IHm]. split.
  - rewrite IHok, list.NoDup_cons. split.
    + intros [Hnd Hn]. split.
      * split; [|done]. intros (q & Hq & Hin)%list_elem_of_fmap.
        specialize (Hn q Hin). by rewrite <- Hq, lookup_insert_eq in Hn.
      * intros q [->|Hin]%elem_of_cons; [done|]. specialize (Hn q Hin).
        by apply lookup_insert_None in Hn as [Hn _].
    + intros [[Hp Hnd] Hn]. split; [done|]. intros q Hin. apply lookup_insert_None. split.
      * apply Hn. by right.
      * intros Heq. apply Hp. rewrite Heq. by apply list_elem_of_fmap_2.
  - intros m' Hm' i. rewrite (IHm m' Hm'). unfold inventory_state. simpl.
    case_bool_decide as Hi; simpl.
    + subst i. rewrite lookup_insert_eq.
      destruct (List.find _ inv) as [q|] eqn:Ef; [|done]. exfalso.
      apply List.find_some in Ef as [Hin%list_elem_of_In Hq%bool_decide_eq_true].
      assert (is_ok (for_each projection_step (<[projection_identity p := ps_state p]> m) inv) = true)
        as [_ Hn]%IHok by by rewrite Hm'.
      specialize (Hn q Hin). by rewrite Hq, lookup_insert_eq in Hn.
    + destruct (List.find _ inv); simpl; [done|]. by rewrite lookup_insert_ne.
Qed.

Lemma projection_map_spec inv :
  (is_ok (_projection_map inv) = true <-> NoDup (map projection_identity inv)) /\
  (forall m, _projection_map inv = Ok m -> forall i, m !! i = inventory_state inv i).
Proof.
  destruct (projection_loop inv ∅) as [Hok Hm]. split.
  - unfold _projection_map. rewrite Hok. split; [tauto|]. intros H. split; [done|]. intros. apply lookup_empty.
  - intros m Hmap i. rewrite (Hm m Hmap), lookup_empty. by destruct (inventory_state inv i).
Qed.

(** The audit is defined exactly when neither inventory names an entity twice, and then it
    reports, in canonical order, exactly the entities whose live state and replayed state differ
    (missing on either side included), each with the two states. *)
Theorem audit_complete live history :
  ((exists a, compare_projection_inventories live history = Ok a) <->
   NoDup (map projection_identity live) /\ NoDup (map projection_identity history)) /\
  (forall a, compare_projection_inventories live history = Ok a ->
   StronglySorted (key_le (fun m => identity_key (mismatch_identity m))) (mismatches a) /\
   (forall m, m ∈ mismatches a <->
      projected_state m = inventory_state live (mismatch_identity m) /\
      replayed_state m = inventory_state history (mismatch_identity m) /\
      option_map state_value (projected_state m) <> option_map state_value (replayed_state m)) /\
   (audit_matches a = true <->
    forall i, option_map state_value (inventory_state live i)
              = option_map state_value (inventory_state history i))).
Proof.
  destruct (projection_map_spec live) as [Hok1 Hm1], (projection_map_spec history) as [Hok2 Hm2].
  unfold compare_projection_inventories.
  destruct (_projection_map live) as [m1|] eqn:E1; simpl in *.
  2: { split; [|done]. split; [by intros []|]. intros [H _]. by apply Hok1 in H. }
  destruct (_projection_map history) as [m2|] eqn:E2; simpl in *.
  2: { split; [|done]. split; [by intros []|]. intros [_ H]. by apply Hok2 in H. }
  split; [naive_solver|]. intros a [= <-]. simpl.
  specialize (Hm1 _ eq_refl). specialize (Hm2 _ eq_refl).
  set (ids := List.filter _ _).
  assert (forall i, i ∈ ids <-> option_map state_value (inventory_state live i)
              <> option_map state_value (inventory_state history i)) as Hids.
  { intros i. unfold ids. rewrite list_elem_of_In, List.filter_In, <- list_elem_of_In, elem_of_py_sorted,
      elem_of_elements, elem_of_union, !elem_of_dom, !Hm1, !Hm2, negb_true_iff. unfold states_equal.
    rewrite bool_decide_eq_false. split; [tauto|]. intros Hne. split; [|done].
    destruct (inventory_state live i), (inventory_state history i); by eauto. }
  set (f := fun i : identity => _).
  assert (forall m, m ∈ map f ids <-> projected_state m = inventory_state live (mismatch_identity m) /\
      replayed_state m = inventory_state history (mismatch_identity m) /\
      option_map state_value (projected_state m) <> option_map state_value (replayed_state m)) as Hin.
  { intros m. rewrite list_elem_of_fmap. split.
    - intros ([[r e] i] & -> & Hi%Hids). simpl. rewrite Hm1, Hm2. done.
    - intros (Hp & Hr & Hne). exists (mismatch_identity m). unfold f. rewrite Hids, Hm1, Hm2.
      destruct m. simpl in *. by rewrite <- Hp, <- Hr. }
  split_and!; [|done|].
  - apply (sorted_map identity_key); [by intros [[] ]|].
    apply sorted_filter, py_sorted_sorted.
  - unfold audit_matches. rewrite bool_decide_eq_true, length_zero_iff_nil. simpl. split.
    + intros Hnil i. destruct (decide (option_map state_value (inventory_state live i)
        = option_map state_value (inventory_state history i))) as [|Hne%Hids]; [done|].
      assert (f i ∈ map f ids) as Hf by by apply list_elem_of_fmap_2.
      rewrite Hnil in Hf. by apply not_elem_of_nil in Hf.
    + intros Heq. destruct ids as [|i ids']; [done|]. exfalso.
      apply (proj1 (Hids i) (list_elem_of_here _ _)), Heq.
Qed.
