(* ===== verification/Commands.v ===== *)
(** * Journal commands

    The typed commands of [journal/transitions.py] with their [__post_init__] checks, in the
    order the code makes them, and the boundary validators they share.  A constructor call is
    [validate_<class>], which returns the record or the exception; checks that the static type
    of a field already guarantees are not repeated. *)

From S2P Require Import Prelude Text Identifiers Domain Clocks Lifecycle.

Local Open Scope Z_scope.

Definition MAX_OWNER_EPOCH : Z := 9223372036854775807.
Definition MAX_CONDITION_BYTES : Z := 1048576.
Definition MAX_REQUEST_HEADER_NAMES : Z := 256.
Definition MAX_REQUEST_HEADER_NAME_BYTES : Z := 256.
Definition MAX_REQUEST_HEADER_NAMES_JSON_BYTES : Z := 16384.

(** ** Boundary validators *)

Definition zlen {A} (l : list A) : Z := Z.of_nat (length l).

(** [_BOUNDARY_ID.fullmatch] is [is_token]'s character class. *)
Definition _bounded_token (value : str) (maximum : Z) : result str :=
  raise_if negb (within 1 maximum (zlen value)) || negb (forallb is_token_char value)
    with ValueError ;;
  Ok value.

(** [_LOWER_IDENTIFIER.fullmatch] *)
Definition is_lower_identifier (value : str) : bool :=
  match value with
  | [] => false
  | c :: rest => is_lower c && forallb (fun d => is_lower d || is_decimal d || (d =? 95)%N) rest
  end.

Definition _lower_identifier (value : str) (maximum : Z) : result str :=
  raise_if negb (within 1 maximum (zlen value)) || negb (is_lower_identifier value) with ValueError ;;
  Ok value.

Definition _safe_integer (value : Z) (signed : bool) : result Z :=
  let minimum := if signed then - MAX_SAFE_INTEGER else 0 in
  raise_if negb (within minimum MAX_SAFE_INTEGER value) with ValueError ;;
  Ok value.

Definition _owner_epoch (value : Z) : result Z :=
  raise_if negb (within 0 MAX_OWNER_EPOCH value) with ValueError ;;
  Ok value.

Definition validate_entity_id (e : EntityType) (entity_id run_id : str) : result unit :=
  match e with
  | Entity_RUN =>
    let! _ := validate_run_id entity_id in
    raise_if negb (bool_decide (entity_id = run_id)) with ValueError ;;
    Ok tt
  | Entity_SCENARIO => let! _ := validate_planned_id entity_id (Some Planned_SCENARIO) in Ok tt
  | Entity_DELIVERY => let! _ := validate_planned_id entity_id (Some Planned_DELIVERY) in Ok tt
  | Entity_ATTEMPT => let! _ := validate_fresh_id entity_id (Some Fresh_ATTEMPT) in Ok tt
  | Entity_OBSERVATION => let! _ := validate_planned_id entity_id (Some Planned_OBSERVATION) in Ok tt
  | Entity_ASSERTION => let! _ := validate_planned_id entity_id (Some Planned_ASSERTION) in Ok tt
  end.

Definition is_control (c : N) : bool := (c <? 32)%N || (c =? 127)%N.

Definition _control_free_text (value : str) (maximum : Z) : result str :=
  raise_if negb (within 1 maximum (zlen value)) || existsb is_control value with ValueError ;;
  raise_if existsb is_surrogate value with ValueError ;;
  Ok value.

(** ** Header names *)

(** [_LOWER_HEADER_NAME]'s character class. *)
Definition is_header_name_char (c : N) : bool :=
  existsb (N.eqb c) (u "!#$%&'*+-.^_`|~") || is_decimal c || is_lower c.

Definition header_name_ok (name : str) : bool :=
  within 1 MAX_REQUEST_HEADER_NAME_BYTES (zlen (List.filter (fun c => (c <? 128)%N) name))
  && negb (bool_decide (name = [])) && forallb is_header_name_char name.

(** [json.dumps(text, ensure_ascii=True)] of one string. *)
Definition hex4 (v : N) : str :=
  map (fun d => if (d <? 10)%N then (48 + d)%N else (87 + d)%N)
    [(v / 4096) mod 16; (v / 256) mod 16; (v / 16) mod 16; v mod 16]%N.
Definition json_escape (v : N) : str := [92; 117]%N ++ hex4 v.
Definition json_char (c : N) : str :=
  (if c =? 34 then [92; 34]
   else if c =? 92 then [92; 92]
   else if c =? 10 then [92; 110]
   else if c =? 13 then [92; 114]
   else if c =? 9 then [92; 116]
   else if c =? 8 then [92; 98]
   else if c =? 12 then [92; 102]
   else if (32 <=? c) && (c <=? 126) then [c]
   else if c <? 65536 then json_escape c
   else json_escape (55296 + (c - 65536) / 1024) ++ json_escape (56320 + (c - 65536) mod 1024))%N.
Definition json_string (s : str) : str := [34%N] ++ concat (map json_char s) ++ [34%N].

(** [separators=(",", ":")] on a tuple of strings. *)
Fixpoint json_join (parts : list str) : str :=
  match parts with
  | [] => []
  | [p] => p
  | p :: rest => p ++ [44%N] ++ json_join rest
  end.
Definition json_array (names : list str) : str := [91%N] ++ json_join (map json_string names) ++ [93%N].

Definition canonical_request_header_names_json (request : option RequestMetadata) : result (option str) :=
  match request with
  | None => Ok None
  | Some r =>
    let encoded := json_array (req_header_names r) in
    raise_if (MAX_REQUEST_HEADER_NAMES_JSON_BYTES <? zlen encoded) with ValueError ;;
    Ok (Some encoded)
  end.

(** [tuple(sorted(set(names)))] *)
Definition sorted_set (names : list str) : list str :=
  py_sorted (fun n => n) (elements (list_to_set names : gset str)).

Definition _validate_request_metadata (request : RequestMetadata) : result unit :=
  let! _ := _control_free_text (req_url_redacted request) 2048 in
  let names := req_header_names request in
  raise_if (MAX_REQUEST_HEADER_NAMES <? zlen names) with ValueError ;;
  raise_if negb (forallb header_name_ok names) with ValueError ;;
  raise_if negb (bool_decide (names = sorted_set names)) with ValueError ;;
  let! _ := canonical_request_header_names_json (Some request) in
  Ok tt.

Definition _validate_transport_error (error : TransportError) : result unit :=
  let! _ := _control_free_text (err_category error) 128 in
  let! _ := _control_free_text (err_message_redacted error) 4096 in
  match err_phase error with
  | None => Ok tt
  | Some phase => let! _ := _control_free_text phase 64 in Ok tt
  end.

(** ** Commands *)

Inductive DeliverySatisfactionKind := Satisfied_ATTEMPT | Satisfied_ASSERTION_POLICY.
#[global] Instance DeliverySatisfactionKind_eq_dec : EqDecision DeliverySatisfactionKind.
Proof. solve_decision. Defined.

Definition DeliverySatisfactionKind_value (k : DeliverySatisfactionKind) : str :=
  match k with Satisfied_ATTEMPT => u "attempt" | Satisfied_ASSERTION_POLICY => u "assertion_policy" end.

Record CausalReference := { cause_run_id : str; cause_record_id : str }.
#[global] Instance CausalReference_eq_dec : EqDecision CausalReference.
Proof. solve_decision. Defined.

Definition validate_causal_reference (c : CausalReference) : result CausalReference :=
  let! _ := validate_run_id (cause_run_id c) in
  let! _ := _bounded_token (cause_record_id c) 96 in
  Ok c.

Record DeliverySatisfactionEvidence := {
  satisfaction_kind : DeliverySatisfactionKind;
  satisfaction_cause : CausalReference
}.
#[global] Instance DeliverySatisfactionEvidence_eq_dec : EqDecision DeliverySatisfactionEvidence.
Proof. solve_decision. Defined.

Record RetrySchedule := {
  rs_schedule_entry_id : str;
  rs_scenario_id : str;
  rs_entity_type : str;
  rs_entity_id : str;
  rs_logical_time_ns : Z;
  rs_scenario_ordinal : Z;
  rs_step_ordinal : Z;
  rs_delivery_ordinal : Z;
  rs_attempt_ordinal : Z;
  rs_deterministic_tie_key : str;
  rs_idempotency_key : str;
  rs_predecessor_attempt_id : str;
  rs_condition_json : option bytes
}.
#[global] Instance RetrySchedule_eq_dec : EqDecision RetrySchedule.
Proof. solve_decision. Defined.

(** [condition_json is not None and len(condition_json) > MAX_CONDITION_BYTES] *)
Definition condition_too_long (condition_json : option bytes) : bool :=
  match condition_json with Some b => MAX_CONDITION_BYTES <? zlen b | None => false end.

Definition validate_retry_schedule (r : RetrySchedule) : result RetrySchedule :=
  let! _ := _bounded_token (rs_schedule_entry_id r) 96 in
  let! _ := validate_planned_id (rs_scenario_id r) (Some Planned_SCENARIO) in
  let! _ := _lower_identifier (rs_entity_type r) 64 in
  let! _ := _bounded_token (rs_entity_id r) 96 in
  let! _ := _safe_integer (rs_logical_time_ns r) true in
  let! _ := _safe_integer (rs_scenario_ordinal r) false in
  let! _ := _safe_integer (rs_step_ordinal r) false in
  let! _ := _safe_integer (rs_delivery_ordinal r) false in
  let! _ := _safe_integer (rs_attempt_ordinal r) false in
  let! _ := _bounded_token (rs_deterministic_tie_key r) 256 in
  let! _ := _bounded_token (rs_idempotency_key r) 256 in
  let! _ := validate_fresh_id (rs_predecessor_attempt_id r) (Some Fresh_ATTEMPT) in
  raise_if condition_too_long (rs_condition_json r) with ValueError ;;
  Ok r.

Record AttemptTerminalOutcome := {
  outcome_classification : AttemptClassification;
  outcome_retry_schedule : option RetrySchedule
}.
#[global] Instance AttemptTerminalOutcome_eq_dec : EqDecision AttemptTerminalOutcome.
Proof. solve_decision. Defined.

Inductive AttemptPhaseEvidence :=
  | Phase_CONTROLLED_PRE_TRANSPORT
  | Phase_NO_CONNECTION_ESTABLISHED
  | Phase_CONNECTION_ATTEMPT_STARTED
  | Phase_REQUEST_SEND_STARTED
  | Phase_AWAITING_RESPONSE
  | Phase_RESPONSE_OBSERVED.
#[global] Instance AttemptPhaseEvidence_eq_dec : EqDecision AttemptPhaseEvidence.
Proof. solve_decision. Defined.

Definition AttemptPhaseEvidence_value (p : AttemptPhaseEvidence) : str :=
  match p with
  | Phase_CONTROLLED_PRE_TRANSPORT => u "controlled_pre_transport"
  | Phase_NO_CONNECTION_ESTABLISHED => u "no_connection_established"
  | Phase_CONNECTION_ATTEMPT_STARTED => u "connection_attempt_started"
  | Phase_REQUEST_SEND_STARTED => u "request_send_started"
  | Phase_AWAITING_RESPONSE => u "awaiting_response"
  | Phase_RESPONSE_OBSERVED => u "response_observed"
  end.

Record AttemptPhaseEvidenceCommand := {
  ph_phase : AttemptPhaseEvidence;
  ph_request_blob_hash : option str;
  ph_request_headers_hash : option str
}.
#[global] Instance AttemptPhaseEvidenceCommand_eq_dec : EqDecision AttemptPhaseEvidenceCommand.
Proof. solve_decision. Defined.

(** A lowercase sha256 digest: 71 characters, the prefix, then hexadecimal digits. *)
Definition is_sha256_digest (value : str) : bool :=
  (zlen value =? 71)
  && match strip_prefix (u "sha256:") value with
     | Some rest => forallb is_hex rest
     | None => false
     end.

Definition digest_ok (value : option str) : bool :=
  match value with Some v => is_sha256_digest v | None => true end.

Definition validate_phase_evidence (p : AttemptPhaseEvidenceCommand) : result AttemptPhaseEvidenceCommand :=
  raise_if negb (digest_ok (ph_request_blob_hash p)) with ValueError ;;
  raise_if negb (digest_ok (ph_request_headers_hash p)) with ValueError ;;
  Ok p.

Record AttemptTransportEvidenceCommand := {
  ev_record_id : str;
  ev_run_id : str;
  ev_scenario_id : str;
  ev_event_id : str;
  ev_delivery_id : str;
  ev_attempt_id : str;
  ev_state : AttemptEvidenceState;
  ev_classification : AttemptClassification;
  ev_request : option RequestMetadata;
  ev_response : option ResponseMetadata;
  ev_error : option TransportError;
  ev_response_headers_elapsed_ns : option Z
}.
#[global] Instance AttemptTransportEvidenceCommand_eq_dec : EqDecision AttemptTransportEvidenceCommand.
Proof. solve_decision. Defined.

(** The table [expected_classifications]; [None] for a state it does not name. *)
Definition expected_classifications (s : AttemptEvidenceState) : option (list AttemptClassification) :=
  match s with
  | Evidence_ACKNOWLEDGED => Some [Class_RECEIVER_ACCEPTED]
  | Evidence_REJECTED => Some [Class_RECEIVER_REJECTED]
  | Evidence_TIMED_OUT | Evidence_CONNECTION_FAILED | Evidence_PROTOCOL_FAILED =>
    Some [Class_ENVIRONMENT_FAILURE; Class_HARNESS_FAILURE]
  | Evidence_CANCELLED => Some [Class_CANCELLED]
  | Evidence_UNKNOWN_OUTCOME => Some [Class_AMBIGUOUS]
  | _ => None
  end.

Definition is_failure_state (s : AttemptEvidenceState) : bool :=
  bool_decide (s ∈ [Evidence_TIMED_OUT; Evidence_CONNECTION_FAILED; Evidence_PROTOCOL_FAILED]).

Definition is_none {A} (o : option A) : bool := match o with None => true | Some _ => false end.

Definition _validate_transport_evidence_shape (e : AttemptTransportEvidenceCommand) : result unit :=
  raise_if match expected_classifications (ev_state e) with
           | None => true
           | Some allowed => negb (bool_decide (ev_classification e ∈ allowed))
           end with ValueError ;;
  if bool_decide (ev_state e ∈ [Evidence_ACKNOWLEDGED; Evidence_REJECTED]) then
    raise_if is_none (ev_response e) || negb (is_none (ev_error e)) with ValueError ;; Ok tt
  else if is_failure_state (ev_state e) || bool_decide (ev_state e = Evidence_UNKNOWN_OUTCOME) then
    raise_if is_none (ev_error e) with ValueError ;; Ok tt
  else
    raise_if negb (is_none (ev_response e)) with ValueError ;; Ok tt.

Definition when_some {A} (o : option A) (check : A -> result unit) : result unit :=
  match o with None => Ok tt | Some a => check a end.

Definition validate_transport_evidence (e : AttemptTransportEvidenceCommand)
    : result AttemptTransportEvidenceCommand :=
  let! _ := validate_fresh_id (ev_record_id e) (Some Fresh_RECORD) in
  let! _ := validate_run_id (ev_run_id e) in
  let! _ := validate_planned_id (ev_scenario_id e) (Some Planned_SCENARIO) in
  let! _ := validate_planned_id (ev_event_id e) (Some Planned_EVENT) in
  let! _ := validate_planned_id (ev_delivery_id e) (Some Planned_DELIVERY) in
  let! _ := validate_fresh_id (ev_attempt_id e) (Some Fresh_ATTEMPT) in
  let! _ := when_some (ev_request e) _validate_request_metadata in
  let! _ := when_some (ev_error e) _validate_transport_error in
  let! _ := when_some (ev_response_headers_elapsed_ns e) (fun ns =>
    let! _ := _safe_integer ns false in
    raise_if is_none (ev_response e) with ValueError ;; Ok tt) in
  let! _ := _validate_transport_evidence_shape e in
  Ok e.

Definition request_header_names_json (e : AttemptTransportEvidenceCommand) : result (option str) :=
  canonical_request_header_names_json (ev_request e).

Record AttemptResponseStagingCommand := {
  st_terminal_state : AttemptState;
  st_terminal_outcome : AttemptTerminalOutcome;
  st_transport_evidence : AttemptTransportEvidenceCommand
}.

(** The triple the response determines. *)
Definition derived_outcome (e : AttemptTransportEvidenceCommand) (response : ResponseMetadata)
    : AttemptState * AttemptEvidenceState * AttemptClassification :=
  match ev_error e with
  | Some _ => (Attempt_TRANSPORT_FAILED, ev_state e, Class_ENVIRONMENT_FAILURE)
  | None =>
    if within 200 299 (resp_status response)
    then (Attempt_SUCCEEDED, Evidence_ACKNOWLEDGED, Class_RECEIVER_ACCEPTED)
    else (Attempt_REJECTED, Evidence_REJECTED, Class_RECEIVER_REJECTED)
  end.

Definition validate_response_staging (c : AttemptResponseStagingCommand)
    : result AttemptResponseStagingCommand :=
  let e := st_transport_evidence c in
  raise_if negb (bool_decide (st_terminal_state c ∈
    [Attempt_SUCCEEDED; Attempt_REJECTED; Attempt_TRANSPORT_FAILED])) with ValueError ;;
  match ev_request e, ev_response e with
  | Some _, Some response =>
    raise_if is_none (resp_body_sha256 response) with ValueError ;;
    raise_if negb (bool_decide (ev_classification e = outcome_classification (st_terminal_outcome c)))
      with ValueError ;;
    let derived := derived_outcome e response in
    raise_if negb (bool_decide (st_terminal_state c = derived.1.1))
             || negb (bool_decide (ev_state e = derived.1.2))
             || negb (bool_decide (ev_classification e = derived.2)) with ValueError ;;
    raise_if bool_decide (st_terminal_state c = Attempt_TRANSPORT_FAILED)
             && negb (is_failure_state (ev_state e)) with ValueError ;;
    match outcome_retry_schedule (st_terminal_outcome c) with
    | None => Ok c
    | Some retry =>
      raise_if negb (bool_decide (st_terminal_state c ∈ [Attempt_REJECTED; Attempt_TRANSPORT_FAILED]))
        with ValueError ;;
      raise_if negb (bool_decide (rs_predecessor_attempt_id retry = ev_attempt_id e)) with ValueError ;;
      Ok c
    end
  | _, _ => Raise ValueError
  end.

Record TransitionCommand := {
  tc_run_id : str;
  tc_transition_id : str;
  tc_entity_type : EntityType;
  tc_entity_id : str;
  tc_expected_state : option LifecycleState;
  tc_new_state : LifecycleState;
  tc_trigger_category : str;
  tc_timestamp : TransitionTimestamp;
  tc_owner_epoch : Z;
  tc_idempotency_key : str;
  tc_causal_reference : option CausalReference;
  tc_logical_time_ns : option Z;
  tc_delivery_satisfaction : option DeliverySatisfactionEvidence;
  tc_attempt_outcome : option AttemptTerminalOutcome
}.

(** [type(state) is machine.state_type] *)
Definition uses_enum (e : EntityType) (s : LifecycleState) : bool :=
  bool_decide (type_of s = state_type (state_machine e)).

Definition validate_transition_command (c : TransitionCommand) : result TransitionCommand :=
  let! _ := validate_run_id (tc_run_id c) in
  let! _ := validate_entity_id (tc_entity_type c) (tc_entity_id c) (tc_run_id c) in
  let! _ := _bounded_token (tc_transition_id c) 96 in
  let! _ := _lower_identifier (tc_trigger_category c) 64 in
  let! _ := _bounded_token (tc_idempotency_key c) 256 in
  let! _ := _owner_epoch (tc_owner_epoch c) in
  let! _ := when_some (tc_logical_time_ns c) (fun t => let! _ := _safe_integer t true in Ok tt) in
  raise_if match ts_monotonic_elapsed_ns (tc_timestamp c) with
           | Some elapsed => MAX_SAFE_INTEGER <? elapsed
           | None => false
           end with ValueError ;;
  raise_if negb (uses_enum (tc_entity_type c) (tc_new_state c)) with TypeError ;;
  raise_if match tc_expected_state c with
           | Some s => negb (uses_enum (tc_entity_type c) s)
           | None => false
           end with TypeError ;;
  Ok c.

Record AttemptScheduleClaim := {
  cl_schedule_entry_id : str;
  cl_attempt_id : str;
  cl_attempt_plan_id : str;
  cl_event_id : str;
  cl_delivery_id : str;
  cl_predecessor_attempt_id : option str;
  cl_condition_json : option bytes;
  cl_claim_transition : TransitionCommand
}.

Definition validate_schedule_claim (c : AttemptScheduleClaim) : result AttemptScheduleClaim :=
  let! _ := _bounded_token (cl_schedule_entry_id c) 96 in
  let! _ := validate_fresh_id (cl_attempt_id c) (Some Fresh_ATTEMPT) in
  let! _ := validate_planned_id (cl_attempt_plan_id c) (Some Planned_ATTEMPT_PLAN) in
  let! _ := validate_planned_id (cl_event_id c) (Some Planned_EVENT) in
  let! _ := validate_planned_id (cl_delivery_id c) (Some Planned_DELIVERY) in
  let! _ := when_some (cl_predecessor_attempt_id c) (fun p =>
    let! _ := validate_fresh_id p (Some Fresh_ATTEMPT) in Ok tt) in
  raise_if condition_too_long (cl_condition_json c) with ValueError ;;
  let t := cl_claim_transition c in
  raise_if negb (bool_decide (tc_entity_type t = Entity_ATTEMPT))
           || negb (bool_decide (tc_entity_id t = cl_attempt_id c))
           || negb (bool_decide (tc_expected_state t = Some (OfAttempt Attempt_SCHEDULED)))
           || negb (bool_decide (tc_new_state t = OfAttempt Attempt_CLAIMED))
           || negb (is_none (tc_causal_reference t))
           || negb (is_none (tc_attempt_outcome t)) with ValueError ;;
  Ok c.

(** ** Staged responses *)

(** A durable response staging is accepted exactly when the request was recorded and the
    response is complete, its terminal state, evidence state and classification are the ones the
    transport error or the HTTP status determines, and a retry is attached only to a rejected or
    failed response, naming that very attempt as predecessor. *)
Theorem staging_determined_by_response c :
  is_ok (validate_response_staging c) = true <->
  exists request response body,
    ev_request (st_transport_evidence c) = Some request /\
    ev_response (st_transport_evidence c) = Some response /\
    resp_body_sha256 response = Some body /\
    ev_classification (st_transport_evidence c) = outcome_classification (st_terminal_outcome c) /\
    match ev_error (st_transport_evidence c) with
    | Some _ =>
      st_terminal_state c = Attempt_TRANSPORT_FAILED /\
      ev_state (st_transport_evidence c) ∈ [Evidence_TIMED_OUT; Evidence_CONNECTION_FAILED; Evidence_PROTOCOL_FAILED] /\
      ev_classification (st_transport_evidence c) = Class_ENVIRONMENT_FAILURE
    | None =>
      if within 200 299 (resp_status response)
      then st_terminal_state c = Attempt_SUCCEEDED /\
           ev_state (st_transport_evidence c) = Evidence_ACKNOWLEDGED /\
           ev_classification (st_transport_evidence c) = Class_RECEIVER_ACCEPTED
      else st_terminal_state c = Attempt_REJECTED /\
           ev_state (st_transport_evidence c) = Evidence_REJECTED /\
           ev_classification (st_transport_evidence c) = Class_RECEIVER_REJECTED
    end /\
    (forall retry, outcome_retry_schedule (st_terminal_outcome c) = Some retry ->
       st_terminal_state c <> Attempt_SUCCEEDED /\
       rs_predecessor_attempt_id retry = ev_attempt_id (st_transport_evidence c)).
Proof.
  destruct c as [ts out e]. unfold validate_response_staging, derived_outcome, is_failure_state. simpl.
  rewrite raise_if_ok, negb_bool_decide_false.
  destruct (ev_request e) as [req|]; [|naive_solver].
  destruct (ev_response e) as [resp|]; [|naive_solver].
  destruct (resp_body_sha256 resp) as [body|] eqn:Eb; [|naive_solver]. simpl.
  rewrite !raise_if_ok, !orb_false_iff, !negb_bool_decide_false, andb_false_iff, bool_decide_eq_false,
    negb_bool_decide_false.
  assert (is_ok (match outcome_retry_schedule out with
      | None => Ok {| st_terminal_state := ts; st_terminal_outcome := out; st_transport_evidence := e |}
      | Some retry =>
        raise_if negb (bool_decide (ts ∈ [Attempt_REJECTED; Attempt_TRANSPORT_FAILED])) with ValueError ;;
        raise_if negb (bool_decide (rs_predecessor_attempt_id retry = ev_attempt_id e)) with ValueError ;;
        Ok {| st_terminal_state := ts; st_terminal_outcome := out; st_transport_evidence := e |}
      end) = true <->
    forall retry, outcome_retry_schedule out = Some retry ->
      ts ∈ [Attempt_REJECTED; Attempt_TRANSPORT_FAILED] /\ rs_predecessor_attempt_id retry = ev_attempt_id e)
    as ->.
  { destruct (outcome_retry_schedule out); [|naive_solver].
    rewrite !raise_if_ok, !negb_bool_decide_false. naive_solver. }
  destruct (ev_error e); [|destruct (within _ _ _) eqn:Ew]; simpl; set_unfold; split.
  1,3,5: intros (H1 & H2 & H3 & H4 & H5); exists req, resp, body; rewrite ?Ew;
    split_and!; try done; [naive_solver..|]; intros retry [? ?]%H5; split; [|done]; naive_solver.
  all: intros (req' & resp' & body' & Hreq & Hresp & Hb & Hc & Hm & Hr); simplify_eq;
    rewrite ?Ew in *; split_and!; try naive_solver; intros retry [? ?]%Hr; naive_solver.
Qed.

(** ** Header-name JSON *)

Lemma header_char_plain c : is_header_name_char c = true -> json_char c = [c] /\ c <> 34%N.
Proof.
  intros H. assert (c < 127)%N as Hc.
  { unfold is_header_name_char, is_decimal, is_lower, char_between in H. simpl in H.
    rewrite !orb_true_iff, !andb_true_iff, !N.eqb_eq, !N.leb_le in H. lia. }
  assert (forallb (fun n => implb (is_header_name_char (N.of_nat n))
    (bool_decide (json_char (N.of_nat n) = [N.of_nat n]) && negb (N.of_nat n =? 34)%N)) (seq 0 127) = true)
    as Hall by (vm_compute; reflexivity).
  rewrite List.forallb_forall in Hall. specialize (Hall (N.to_nat c)). rewrite N2Nat.id, H in Hall.
  specialize (Hall ltac:(apply in_seq; lia)). simpl in Hall.
  apply andb_true_iff in Hall as [Hj%bool_decide_eq_true Hn]. split; [done|].
  intros ->. done.
Qed.

Lemma json_string_plain name :
  forallb is_header_name_char name = true ->
  json_string name = [34%N] ++ name ++ [34%N] /\ 34%N ∉ name.
Proof.
  intros H. rewrite List.forallb_forall in H. unfold json_string. split.
  - do 2 f_equal. induction name as [|c name IH]; simpl; [done|].
    destruct (header_char_plain c) as [-> _]; [apply H; by left|]. simpl. f_equal.
    apply IH. intros x Hx. apply H. by right.
  - intros Hin%list_elem_of_In%H. by apply header_char_plain in Hin as [_ ?].
Qed.

(** Text up to the first closing quote is determined. *)
Lemma quote_split a b x y :
  34%N ∉ a -> 34%N ∉ b -> a ++ 34%N :: x = b ++ 34%N :: y -> a = b /\ x = y.
Proof.
  revert b; induction a as [|c a IH]; intros [|d b] Ha Hb; simpl; intros [=]; subst; try set_solver.
  destruct (IH b) as [-> ->]; set_solver.
Qed.

Lemma json_join_inj names names' :
  Forall (fun n => forallb is_header_name_char n = true) names ->
  Forall (fun n => forallb is_header_name_char n = true) names' ->
  json_join (map json_string names) ++ [93%N] = json_join (map json_string names') ++ [93%N] ->
  names = names'.
Proof.
  intros H. revert names'. induction H as [|a l Ha Hl IH]; intros [|b l'] Hn; cbn [map json_join].
  - done.
  - inversion_clear Hn as [|? ? Hb _]. apply json_string_plain in Hb as [-> _].
    destruct (map json_string l'); simpl; intros [=].
  - apply json_string_plain in Ha as [-> _]. destruct (map json_string l); simpl; intros [=].
  - inversion_clear Hn as [|? ? Hb Hl']. apply json_string_plain in Ha as [-> Ha], Hb as [-> Hb].
    intros Heq.
    assert (a ++ 34%N :: (match map json_string l with [] => [] | _ => 44%N :: json_join (map json_string l) end ++ [93%N])
      = b ++ 34%N :: (match map json_string l' with [] => [] | _ => 44%N :: json_join (map json_string l') end ++ [93%N]))
      as Htail.
    { revert Heq. destruct (map json_string l), (map json_string l'); simpl; rewrite <- ?app_assoc; simpl;
        by intros [= ->]. }
    apply quote_split in Htail as [-> Htail]; [|done..]. f_equal. apply IH; [done|].
    destruct l as [|a2 l2], l' as [|b2 l2']; simpl in *; try done.
    by injection Htail.
Qed.

Lemma request_metadata_names r :
  _validate_request_metadata r = Ok tt ->
  Forall (fun n => forallb is_header_name_char n = true) (req_header_names r).
Proof.
  unfold _validate_request_metadata. destruct (_control_free_text _ _); [|done].
  case_match; [done|]. destruct (negb (forallb header_name_ok _)) eqn:E; [done|]. intros _.
  apply negb_false_iff in E. rewrite List.forallb_forall in E. apply List.Forall_forall.
  intros n Hn%E. unfold header_name_ok in Hn. by apply andb_true_iff in Hn as [_ ?].
Qed.

(** The persisted header-name JSON identifies the header names: two validated requests with
    the same canonical bytes have the same names, and these are sorted without duplicates. *)
Theorem header_names_json_injective r r' encoded :
  _validate_request_metadata r = Ok tt -> _validate_request_metadata r' = Ok tt ->
  canonical_request_header_names_json (Some r) = Ok (Some encoded) ->
  canonical_request_header_names_json (Some r') = Ok (Some encoded) ->
  req_header_names r = req_header_names r' /\
  NoDup (req_header_names r) /\ StronglySorted (key_le (fun n => n)) (req_header_names r).
Proof.
  intros Hr Hr' He He'. pose proof (request_metadata_names _ Hr) as Hn.
  pose proof (request_metadata_names _ Hr') as Hn'. split.
  - unfold canonical_request_header_names_json in *. repeat case_match; simplify_eq.
    apply json_join_inj; [done..|]. unfold json_array in *. congruence.
  - unfold _validate_request_metadata in Hr. destruct (_control_free_text _ _); [|done].
    do 2 (case_match; [done|]). destruct (negb (bool_decide (req_header_names r = _))) eqn:E; [done|].
    apply negb_bool_decide_false in E. rewrite E. unfold sorted_set.
    split; [|apply py_sorted_sorted]. rewrite py_sorted_perm. apply NoDup_elements.
Qed.

Definition sample_request (names : list str) : RequestMetadata :=
  {| req_method := u "POST"; req_url_redacted := u "https://receiver.test/hook";
     req_body_sha256 := u "sha256:00"; req_byte_length := 2; req_header_names := names |}.

Lemma header_names_json_injective_witness :
  NoDup (req_header_names (sample_request [u "accept"; u "content-type"])).
Proof.
  destruct (header_names_json_injective (sample_request [u "accept"; u "content-type"])
    (sample_request [u "accept"; u "content-type"]) (json_array [u "accept"; u "content-type"]))
    as (_ & Hn & _); [vm_compute; reflexivity..|exact Hn].
Defined.
