(* ===== verification/Json.v ===== *)
(** * json.loads and json.dumps

    What the journal uses of the standard library's JSON codec: the scanner with the
    [parse_int], [parse_float] and [object_pairs_hook] hooks and
    a [parse_constant] that refuses NaN and the infinities; and the canonical writer
    ([ensure_ascii], compact separators, sorted keys).  The parser's fuel is the length of the
    text: every recursive call consumes a character. *)

From S2P Require Import Prelude Text Commands.

Local Open Scope Z_scope.

Set Warnings "-register-all".
Inductive json :=
  | JNull
  | JBool (b : bool)
  | JInt (z : Z)
  | JFloat (raw : str)
  | JString (s : str)
  | JArray (items : list json)
  | JObject (members : list (str * json)).

(** ** Decoding bytes *)

(** [value.decode("ascii")] *)
Definition ascii_decode (b : bytes) : option str :=
  if forallb (within 0 127) b then Some (map Z.to_N b) else None.

Definition is_continuation (b : Z) : bool := within 128 191 b.

(** [value.decode("utf-8")]: shortest forms only, no surrogates, at most U+10FFFF. *)
Fixpoint utf8_decode (b : bytes) : option str :=
  match b with
  | [] => Some []
  | x :: rest =>
    if within 0 127 x then option_map (cons (Z.to_N x)) (utf8_decode rest)
    else if within 194 223 x then
      match rest with
      | y :: rest1 =>
        if is_continuation y then
          option_map (cons (Z.to_N ((x - 192) * 64 + (y - 128)))) (utf8_decode rest1)
        else None
      | [] => None
      end
    else if within 224 239 x then
      match rest with
      | y :: z :: rest1 =>
        let v := (x - 224) * 4096 + (y - 128) * 64 + (z - 128) in
        if is_continuation y && is_continuation z && (2048 <=? v) && negb (within 55296 57343 v) then
          option_map (cons (Z.to_N v)) (utf8_decode rest1)
        else None
      | _ => None
      end
    else if within 240 244 x then
      match rest with
      | y :: z :: t :: rest1 =>
        let v := (x - 240) * 262144 + (y - 128) * 4096 + (z - 128) * 64 + (t - 128) in
        if is_continuation y && is_continuation z && is_continuation t && within 65536 1114111 v then
          option_map (cons (Z.to_N v)) (utf8_decode rest1)
        else None
      | _ => None
      end
    else None
  end.

(** ** Scanner *)

Definition is_json_space (c : N) : bool := existsb (N.eqb c) [32; 9; 10; 13]%N.

Fixpoint skip_space (s : str) : str :=
  match s with
  | c :: rest => if is_json_space c then skip_space rest else s
  | [] => []
  end.

Definition hex_char_value (c : N) : option N :=
  (if is_decimal c then Some (c - 48)
   else if char_between 97 102 c then Some (c - 87)
   else if char_between 65 70 c then Some (c - 55)
   else None)%N.

Definition hex4_value (a b c d : N) : option N :=
  match hex_char_value a, hex_char_value b, hex_char_value c, hex_char_value d with
  | Some w, Some x, Some y, Some z => Some (w * 4096 + x * 256 + y * 16 + z)%N
  | _, _, _, _ => None
  end.

Definition simple_escape (c : N) : option N :=
  (if c =? 34 then Some 34 else if c =? 92 then Some 92 else if c =? 47 then Some 47
   else if c =? 98 then Some 8 else if c =? 102 then Some 12 else if c =? 110 then Some 10
   else if c =? 114 then Some 13 else if c =? 116 then Some 9 else None)%N.

Definition cons_char (c : N) (r : option (str * str)) : option (str * str) :=
  match r with Some (text, rest) => Some (c :: text, rest) | None => None end.

(** The body of a string, after its opening quote. *)
Fixpoint scan_string (s : str) : option (str * str) :=
  match s with
  | [] => None
  | c :: rest =>
    if (c =? 34)%N then Some ([], rest)
    else if (c =? 92)%N then
      match rest with
      | [] => None
      | e :: rest1 =>
        if (e =? 117)%N then
          match rest1 with
          | x1 :: x2 :: x3 :: x4 :: rest2 =>
            match hex4_value x1 x2 x3 x4 with
            | None => None
            | Some v =>
              if char_between 55296 56319 v then
                match rest2 with
                | q1 :: q2 :: y1 :: y2 :: y3 :: y4 :: rest3 =>
                  if (q1 =? 92)%N && (q2 =? 117)%N then
                    match hex4_value y1 y2 y3 y4 with
                    | None => None
                    | Some v2 =>
                      if char_between 56320 57343 v2
                      then cons_char (65536 + (v - 55296) * 1024 + (v2 - 56320))%N (scan_string rest3)
                      else cons_char v (scan_string rest2)
                    end
                  else cons_char v (scan_string rest2)
                | _ => cons_char v (scan_string rest2)
                end
              else cons_char v (scan_string rest2)
            end
          | _ => None
          end
        else match simple_escape e with
             | None => None
             | Some x => cons_char x (scan_string rest1)
             end
      end
    else if (c <? 32)%N then None
    else cons_char c (scan_string rest)
  end.

(** The longest run of decimal digits. *)
Fixpoint span_digits (s : str) : str * str :=
  match s with
  | c :: rest => if is_decimal c then let (d, r) := span_digits rest in (c :: d, r) else ([], s)
  | [] => ([], [])
  end.

(** An optional minus sign, then 0 or digits that do not start with 0. *)
Definition scan_int (s : str) : option (str * str) :=
  let (sign, body) := match s with
    | c :: rest => if (c =? 45)%N then ([45%N], rest) else ([], s)
    | [] => ([], [])
    end in
  match body with
  | c :: rest =>
    if (c =? 48)%N then Some (sign ++ [c], rest)
    else if is_decimal c then let (d, r) := span_digits rest in Some (sign ++ c :: d, r)
    else None
  | [] => None
  end.

(** An optional fraction: a point and digits. *)
Definition scan_fraction (s : str) : str * str :=
  match s with
  | c :: rest =>
    if (c =? 46)%N then
      let (d, r) := span_digits rest in
      if bool_decide (d = []) then ([], s) else (c :: d, r)
    else ([], s)
  | [] => ([], s)
  end.

(** An optional exponent. *)
Definition scan_exponent (s : str) : str * str :=
  match s with
  | c :: rest =>
    if (c =? 101)%N || (c =? 69)%N then
      let (sign, body) := match rest with
        | e :: rest1 => if (e =? 45)%N || (e =? 43)%N then ([e], rest1) else ([], rest)
        | [] => ([], [])
        end in
      let (d, r) := span_digits body in
      if bool_decide (d = []) then ([], s) else (c :: sign ++ d, r)
    else ([], s)
  | [] => ([], s)
  end.

(** [int(raw)] of a scanned integer. *)
Definition int_of_decimal (raw : str) : Z :=
  let digits := List.filter is_decimal raw in
  let magnitude := fold_left (fun acc c => acc * 10 + (Z.of_N c - 48)) digits 0 in
  match raw with
  | c :: _ => if (c =? 45)%N then - magnitude else magnitude
  | [] => 0
  end.

(** An [object_pairs_hook] that refuses a repeated key. *)
Definition unique_pairs (pairs : list (str * json)) : option json :=
  if bool_decide (NoDup (map fst pairs)) then Some (JObject pairs) else None.

(** Without the hook a dict is built: a repeated key keeps its first place and its last value. *)
Fixpoint dict_set (key : str) (v : json) (members : list (str * json)) : list (str * json) :=
  match members with
  | [] => [(key, v)]
  | (k, x) :: rest => if bool_decide (k = key) then (k, v) :: rest else (k, x) :: dict_set key v rest
  end.
Definition dict_pairs (pairs : list (str * json)) : option json :=
  Some (JObject (fold_left (fun members m => dict_set m.1 m.2 members) pairs [])).

Record JsonHooks := {
  parse_int : str -> option json;
  parse_float : str -> option json;
  object_pairs : list (str * json) -> option json
}.

Definition scan_number (h : JsonHooks) (s : str) : option (json * str) :=
  match scan_int s with
  | None => None
  | Some (raw, rest) =>
    let (frac, rest1) := scan_fraction rest in
    let (exponent, rest2) := scan_exponent rest1 in
    let value := if bool_decide (frac ++ exponent = []) then parse_int h raw
                 else parse_float h (raw ++ frac ++ exponent) in
    match value with Some v => Some (v, rest2) | None => None end
  end.

Definition literal (text : str) (v : json) (s : str) : option (json * str) :=
  match Identifiers.strip_prefix text s with Some rest => Some (v, rest) | None => None end.

Fixpoint scan_value (fuel : nat) (h : JsonHooks) (s : str) {struct fuel} : option (json * str) :=
  match fuel with
  | O => None
  | S fuel' =>
    match s with
    | [] => None
    | c :: rest =>
      if (c =? 34)%N then
        match scan_string rest with Some (text, r) => Some (JString text, r) | None => None end
      else if (c =? 123)%N then
        let rest1 := skip_space rest in
        match rest1 with
        | d :: rest2 =>
          if (d =? 125)%N then Some (JObject [], rest2)
          else match scan_members fuel' h rest1 with
               | Some (pairs, r) => match object_pairs h pairs with Some v => Some (v, r) | None => None end
               | None => None
               end
        | [] => None
        end
      else if (c =? 91)%N then
        let rest1 := skip_space rest in
        match rest1 with
        | d :: rest2 =>
          if (d =? 93)%N then Some (JArray [], rest2)
          else match scan_items fuel' h rest1 with
               | Some (items, r) => Some (JArray items, r)
               | None => None
               end
        | [] => None
        end
      else if (c =? 110)%N then literal (u "null") JNull s
      else if (c =? 116)%N then literal (u "true") (JBool true) s
      else if (c =? 102)%N then literal (u "false") (JBool false) s
      else scan_number h s
    end
  end
with scan_members (fuel : nat) (h : JsonHooks) (s : str) {struct fuel}
    : option (list (str * json) * str) :=
  match fuel with
  | O => None
  | S fuel' =>
    match s with
    | [] => None
    | c :: rest =>
      if (c =? 34)%N then
        match scan_string rest with
        | None => None
        | Some (k, r) =>
          match skip_space r with
          | d :: r1 =>
            if (d =? 58)%N then
              match scan_value fuel' h (skip_space r1) with
              | None => None
              | Some (v, r2) =>
                match skip_space r2 with
                | e :: r3 =>
                  if (e =? 125)%N then Some ([(k, v)], r3)
                  else if (e =? 44)%N then
                    match scan_members fuel' h (skip_space r3) with
                    | Some (more, r4) => Some ((k, v) :: more, r4)
                    | None => None
                    end
                  else None
                | [] => None
                end
              end
            else None
          | [] => None
          end
        end
      else None
    end
  end
with scan_items (fuel : nat) (h : JsonHooks) (s : str) {struct fuel} : option (list json * str) :=
  match fuel with
  | O => None
  | S fuel' =>
    match scan_value fuel' h s with
    | None => None
    | Some (v, r) =>
      match skip_space r with
      | e :: r1 =>
        if (e =? 93)%N then Some ([v], r1)
        else if (e =? 44)%N then
          match scan_items fuel' h (skip_space r1) with
          | Some (more, r2) => Some (v :: more, r2)
          | None => None
          end
        else None
      | [] => None
      end
    end
  end.

(** [json.loads(text, ...)]; [None] is any of the exceptions its callers catch. *)
Definition json_loads (h : JsonHooks) (text : str) : option json :=
  match text with
  | 65279%N :: _ => None
  | _ =>
    match scan_value (S (length text)) h (skip_space text) with
    | Some (v, rest) => if bool_decide (skip_space rest = []) then Some v else None
    | None => None
    end
  end.

(** ** Canonical writer *)

Fixpoint json_dumps (j : json) : str :=
  match j with
  | JNull => u "null"
  | JBool true => u "true"
  | JBool false => u "false"
  | JInt z => str_of_int z
  | JFloat raw => raw
  | JString s => json_string s
  | JArray items => [91%N] ++ json_join (map json_dumps items) ++ [93%N]
  | JObject members =>
    [123%N] ++ json_join (map snd (py_sorted fst
      (map (fun m => (m.1, json_string m.1 ++ [58%N] ++ json_dumps m.2)) members))) ++ [125%N]
  end.

(** ** Structure *)

(** The nesting depth, the top value counting one, and the number of values. *)
Fixpoint json_depth (j : json) : Z :=
  match j with
  | JArray items => 1 + fold_right Z.max 0 (map json_depth items)
  | JObject members => 1 + fold_right Z.max 0 (map (fun m => json_depth m.2) members)
  | _ => 1
  end.
Fixpoint json_nodes (j : json) : Z :=
  match j with
  | JArray items => 1 + fold_right Z.add 0 (map json_nodes items)
  | JObject members => 1 + fold_right Z.add 0 (map (fun m => json_nodes m.2) members)
  | _ => 1
  end.

(** [dict.get(key)] *)
Fixpoint json_get (key : str) (members : list (str * json)) : option json :=
  match members with
  | [] => None
  | (k, v) :: rest => if bool_decide (k = key) then Some v else json_get key rest
  end.

(** [value == text] and [value == number]; Python's [True] equals 1 and [False] equals 0. *)
Definition json_is_text (v : option json) (text : str) : bool :=
  match v with Some (JString s) => bool_decide (s = text) | _ => false end.
Definition json_is_int (v : option json) (n : Z) : bool :=
  match v with
  | Some (JInt z) => z =? n
  | Some (JBool b) => (if b then 1 else 0) =? n
  | _ => false
  end.

(** JSON text written with apostrophes for quotes, for examples. *)
Definition jq (s : string) : str := map (fun c => if (c =? 39)%N then 34%N else c) (u s).

Definition any_number : JsonHooks :=
  {| parse_int := fun raw => Some (JInt (int_of_decimal raw)); parse_float := fun raw => Some (JFloat raw);
     object_pairs := unique_pairs |}.

Example loads_nested :
  json_loads any_number (jq " { 'b' : [1, -20,true, 0.5e3] , 'a':null } ") =
  Some (JObject [(u "b", JArray [JInt 1; JInt (-20); JBool true; JFloat (u "0.5e3")]); (u "a", JNull)]).
Proof. vm_compute. reflexivity. Qed.
Example loads_duplicate : json_loads any_number (jq "{'a':1,'a':2}") = None.
Proof. vm_compute. reflexivity. Qed.
Example loads_trailing : json_loads any_number (jq "[1,]") = None.
Proof. vm_compute. reflexivity. Qed.
Example loads_nan : json_loads any_number (jq "[NaN]") = None.
Proof. vm_compute. reflexivity. Qed.
Example loads_escape : json_loads any_number (jq "'\u00e9\ud83d\ude00\n\/'") = Some (JString [233; 128512; 10; 47]%N).
Proof. vm_compute. reflexivity. Qed.
Example dumps_sorted :
  json_dumps (JObject [(u "b", JArray [JInt 1; JInt (-20)]); (u "a", JString [233; 128512]%N)]) =
  jq "{'a':'\u00e9\ud83d\ude00','b':[1,-20]}".
Proof. vm_compute. reflexivity. Qed.

Example utf8_decode_example : utf8_decode [97; 195; 169; 240; 159; 152; 128] = Some [97; 233; 128512]%N.
Proof. vm_compute. reflexivity. Qed.
