(* ===== verification/Store.v ===== *)
(** * The journal database

    The tables of [journal/migrations] the transition repository works on, as finite maps by
    primary key (the append-only [transitions] table is a list in insertion order), with the
    uniqueness and foreign-key constraints the statements can run into.  Columns restricted by a
    CHECK to the values of an enumeration hold a member of it; a timestamp column, ISO text in
    UTC with microseconds, holds the instant in microseconds.  CHECK constraints that repeat a
    command's own validation are not repeated here. *)

From S2P Require Import Prelude Domain Clocks Lifecycle Replay Commands.

Local Open Scope Z_scope.

Record RunRow := {
  run_state : RunState; run_owner_epoch : Z; run_terminal_category : option str; run_terminal_at : option str
}.

Record ScenarioRow := { sc_run_id : str; sc_ordinal : Z; sc_state : ScenarioState }.

Record DeliveryRow := {
  dl_run_id : str; dl_scenario_id : str; dl_event_id : str;
  dl_ordinal : Z; dl_step_ordinal : Z; dl_state : DeliveryState; dl_required : bool
}.

Record AttemptRow := {
  at_run_id : str; at_scenario_id : str; at_event_id : str; at_delivery_id : str;
  at_attempt_plan_id : option str; at_ordinal : Z; at_state : AttemptState;
  at_phase : option str; at_request_blob_hash : option str; at_request_headers_hash : option str;
  at_outcome_category : option AttemptClassification; at_predecessor_attempt_id : option str;
  at_owner_epoch : option Z; at_terminal_recorded_at : option Z
}.

Record SeriesRow := { ob_run_id : str; ob_scenario_id : str; ob_state : ObservationState }.

Record AssertionRow := {
  as_run_id : str; as_scenario_id : str; as_policy_json : option bytes;
  as_required : bool; as_state : AssertionState
}.

Record ScheduleRow := {
  se_run_id : str; se_scenario_id : str; se_entity_type : str; se_entity_id : str;
  se_logical_time_ns : Z; se_scenario_ordinal : Z; se_step_ordinal : Z;
  se_delivery_ordinal : Z; se_attempt_ordinal : Z; se_deterministic_tie_key : str;
  se_condition_json : option bytes; se_idempotency_key : str;
  se_consumed_at : option Z; se_consumed_by_owner_epoch : option Z
}.

Record TransitionRow := {
  tw_transition_id : str; tw_run_id : str; tw_sequence : Z;
  tw_entity_type : str; tw_entity_id : str;
  tw_from_state : option str; tw_to_state : str;
  tw_trigger_category : str; tw_causal_record_id : option str;
  tw_wall_time : Z; tw_monotonic_elapsed_ns : option Z; tw_monotonic_unavailable : Z;
  tw_logical_time_ns : option Z; tw_owner_epoch : Z; tw_idempotency_key : str
}.

Record AttemptRecordRow := {
  ar_record_id : str; ar_run_id : str; ar_scenario_id : str; ar_event_id : str;
  ar_delivery_id : str; ar_attempt_id : str; ar_sequence : Z; ar_recorded_at : Z;
  ar_logical_time_ns : option Z; ar_monotonic_elapsed_ns : option Z;
  ar_state : AttemptEvidenceState; ar_classification : AttemptClassification;
  ar_request_method : option str; ar_request_url_redacted : option str;
  ar_request_body_sha256 : option str; ar_request_byte_length : option Z;
  ar_request_header_names_json : option str;
  ar_response_status : option Z; ar_response_body_sha256 : option str;
  ar_response_captured_bytes : option Z; ar_response_truncated : option bool;
  ar_error_category : option str; ar_error_message_redacted : option str; ar_error_phase : option str;
  ar_response_headers_elapsed_ns : option Z
}.
#[global] Instance AttemptRecordRow_eq_dec : EqDecision AttemptRecordRow.
Proof. solve_decision. Defined.

Record StagingRow := {
  sg_record_id : str; sg_run_id : str; sg_scenario_id : str; sg_event_id : str; sg_delivery_id : str;
  sg_terminal_state : AttemptState; sg_classification : AttemptClassification;
  sg_evidence_state : AttemptEvidenceState;
  sg_request_method : str; sg_request_url_redacted : str; sg_request_body_sha256 : str;
  sg_request_byte_length : Z; sg_request_header_names_json : option str;
  sg_response_status : Z; sg_response_body_sha256 : str; sg_response_captured_bytes : Z;
  sg_response_truncated : bool;
  sg_error_category : option str; sg_error_message_redacted : option str; sg_error_phase : option str;
  sg_response_headers_elapsed_ns : option Z;
  sg_retry_schedule_entry_id : option str; sg_retry_entity_id : option str;
  sg_retry_logical_time_ns : option Z; sg_retry_scenario_ordinal : option Z;
  sg_retry_step_ordinal : option Z; sg_retry_delivery_ordinal : option Z;
  sg_retry_attempt_ordinal : option Z; sg_retry_deterministic_tie_key : option str;
  sg_retry_idempotency_key : option str; sg_retry_condition_json : option bytes
}.
#[global] Instance StagingRow_eq_dec : EqDecision StagingRow.
Proof. solve_decision. Defined.

Record Database := {
  runs : gmap str RunRow;
  scenarios : gmap str ScenarioRow;
  deliveries : gmap str DeliveryRow;
  attempts : gmap str AttemptRow;
  observer_series : gmap str SeriesRow;
  assertions : gmap str AssertionRow;
  transitions : list TransitionRow;
  schedule_entries : gmap str ScheduleRow;
  attempt_records : gmap str AttemptRecordRow;
  attempt_response_staging : gmap str StagingRow
}.

(** ** One-table updates *)

Definition with_runs (db : Database) (t : gmap str RunRow) : Database :=
  {| runs := t; scenarios := scenarios db; deliveries := deliveries db; attempts := attempts db;
     observer_series := observer_series db; assertions := assertions db; transitions := transitions db;
     schedule_entries := schedule_entries db; attempt_records := attempt_records db;
     attempt_response_staging := attempt_response_staging db |}.
Definition with_scenarios (db : Database) (t : gmap str ScenarioRow) : Database :=
  {| runs := runs db; scenarios := t; deliveries := deliveries db; attempts := attempts db;
     observer_series := observer_series db; assertions := assertions db; transitions := transitions db;
     schedule_entries := schedule_entries db; attempt_records := attempt_records db;
     attempt_response_staging := attempt_response_staging db |}.
Definition with_deliveries (db : Database) (t : gmap str DeliveryRow) : Database :=
  {| runs := runs db; scenarios := scenarios db; deliveries := t; attempts := attempts db;
     observer_series := observer_series db; assertions := assertions db; transitions := transitions db;
     schedule_entries := schedule_entries db; attempt_records := attempt_records db;
     attempt_response_staging := attempt_response_staging db |}.
Definition with_attempts (db : Database) (t : gmap str AttemptRow) : Database :=
  {| runs := runs db; scenarios := scenarios db; deliveries := deliveries db; attempts := t;
     observer_series := observer_series db; assertions := assertions db; transitions := transitions db;
     schedule_entries := schedule_entries db; attempt_records := attempt_records db;
     attempt_response_staging := attempt_response_staging db |}.
Definition with_observer_series (db : Database) (t : gmap str SeriesRow) : Database :=
  {| runs := runs db; scenarios := scenarios db; deliveries := deliveries db; attempts := attempts db;
     observer_series := t; assertions := assertions db; transitions := transitions db;
     schedule_entries := schedule_entries db; attempt_records := attempt_records db;
     attempt_response_staging := attempt_response_staging db |}.
Definition with_assertions (db : Database) (t : gmap str AssertionRow) : Database :=
  {| runs := runs db; scenarios := scenarios db; deliveries := deliveries db; attempts := attempts db;
     observer_series := observer_series db; assertions := t; transitions := transitions db;
     schedule_entries := schedule_entries db; attempt_records := attempt_records db;
     attempt_response_staging := attempt_response_staging db |}.
Definition with_transitions (db : Database) (t : list TransitionRow) : Database :=
  {| runs := runs db; scenarios := scenarios db; deliveries := deliveries db; attempts := attempts db;
     observer_series := observer_series db; assertions := assertions db; transitions := t;
     schedule_entries := schedule_entries db; attempt_records := attempt_records db;
     attempt_response_staging := attempt_response_staging db |}.
Definition with_schedule_entries (db : Database) (t : gmap str ScheduleRow) : Database :=
  {| runs := runs db; scenarios := scenarios db; deliveries := deliveries db; attempts := attempts db;
     observer_series := observer_series db; assertions := assertions db; transitions := transitions db;
     schedule_entries := t; attempt_records := attempt_records db;
     attempt_response_staging := attempt_response_staging db |}.
Definition with_attempt_records (db : Database) (t : gmap str AttemptRecordRow) : Database :=
  {| runs := runs db; scenarios := scenarios db; deliveries := deliveries db; attempts := attempts db;
     observer_series := observer_series db; assertions := assertions db; transitions := transitions db;
     schedule_entries := schedule_entries db; attempt_records := t;
     attempt_response_staging := attempt_response_staging db |}.
Definition with_staging (db : Database) (t : gmap str StagingRow) : Database :=
  {| runs := runs db; scenarios := scenarios db; deliveries := deliveries db; attempts := attempts db;
     observer_series := observer_series db; assertions := assertions db; transitions := transitions db;
     schedule_entries := schedule_entries db; attempt_records := attempt_records db;
     attempt_response_staging := t |}.

(** ** Queries *)

(** Rows of a table that satisfy a condition, as a list. *)
Definition select {A} (t : gmap str A) (cond : str -> A -> bool) : list (str * A) :=
  List.filter (fun kv => cond kv.1 kv.2) (map_to_list t).

(** [SELECT 1 ... WHERE cond LIMIT 1] returned a row. *)
Definition exists_row {A} (t : gmap str A) (cond : str -> A -> bool) : bool :=
  negb (bool_decide (length (select t cond) = 0%nat)).

(** The lifecycle state of an entity, with the run that owns it. *)
Definition entity_state (db : Database) (e : EntityType) (id : str) : option (str * LifecycleState) :=
  match e with
  | Entity_RUN => option_map (fun r => (id, OfRun (run_state r))) (runs db !! id)
  | Entity_SCENARIO => option_map (fun r => (sc_run_id r, OfScenario (sc_state r))) (scenarios db !! id)
  | Entity_DELIVERY => option_map (fun r => (dl_run_id r, OfDelivery (dl_state r))) (deliveries db !! id)
  | Entity_ATTEMPT => option_map (fun r => (at_run_id r, OfAttempt (at_state r))) (attempts db !! id)
  | Entity_OBSERVATION => option_map (fun r => (ob_run_id r, OfObservation (ob_state r))) (observer_series db !! id)
  | Entity_ASSERTION => option_map (fun r => (as_run_id r, OfAssertion (as_state r))) (assertions db !! id)
  end.

(** ** The ledger's row format *)

Definition _format_wall_time (t : TransitionTimestamp) : Z := dt_instant_us (wall_time t).
Definition _parse_wall_time (us : Z) : datetime := {| dt_instant_us := us; dt_utcoffset_us := Some 0 |}.

(** The values [_insert_transition] binds. *)
Definition transition_row (r : TransitionRecord) : TransitionRow :=
  {| tw_transition_id := tr_transition_id r; tw_run_id := tr_run_id r; tw_sequence := tr_sequence r;
     tw_entity_type := EntityType_value (tr_entity_type r); tw_entity_id := tr_entity_id r;
     tw_from_state := option_map state_value (tr_from_state r); tw_to_state := state_value (tr_to_state r);
     tw_trigger_category := tr_trigger_category r; tw_causal_record_id := tr_causal_record_id r;
     tw_wall_time := _format_wall_time (tr_timestamp r);
     tw_monotonic_elapsed_ns := ts_monotonic_elapsed_ns (tr_timestamp r);
     tw_monotonic_unavailable := if is_live (tr_timestamp r) then 0 else 1;
     tw_logical_time_ns := tr_logical_time_ns r; tw_owner_epoch := tr_owner_epoch r;
     tw_idempotency_key := tr_idempotency_key r |}.

Definition EntityType_of_value (value : str) : result EntityType :=
  match List.find (fun e => bool_decide (EntityType_value e = value)) EntityType_members with
  | Some e => Ok e
  | None => Raise ProjectionIntegrityError
  end.

Definition _record_from_row (w : TransitionRow) : result TransitionRecord :=
  let! e := EntityType_of_value (tw_entity_type w) in
  raise_if negb (eqb (tw_monotonic_unavailable w =? 0) (negb (is_none (tw_monotonic_elapsed_ns w))))
    with ProjectionIntegrityError ;;
  let! ts := make_transition_timestamp (_parse_wall_time (tw_wall_time w)) (tw_monotonic_elapsed_ns w) in
  let! from_state := match tw_from_state w with
    | None => Ok None
    | Some v => let! s := parse_state e v in Ok (Some s)
    end in
  let! to_state := parse_state e (tw_to_state w) in
  Ok {| tr_transition_id := tw_transition_id w; tr_run_id := tw_run_id w; tr_sequence := tw_sequence w;
        tr_entity_type := e; tr_entity_id := tw_entity_id w; tr_from_state := from_state;
        tr_to_state := to_state; tr_trigger_category := tw_trigger_category w;
        tr_causal_record_id := tw_causal_record_id w; tr_timestamp := ts;
        tr_logical_time_ns := tw_logical_time_ns w; tr_owner_epoch := tw_owner_epoch w;
        tr_idempotency_key := tw_idempotency_key w |}.

(** A timestamp its constructor accepts. *)
Definition timestamp_ok (ts : TransitionTimestamp) : Prop :=
  make_transition_timestamp (wall_time ts) (ts_monotonic_elapsed_ns ts) = Ok ts.

(** A record whose states use the enum of its entity and whose timestamp is a UTC one. *)
Definition record_ok (r : TransitionRecord) : Prop :=
  uses_enum (tr_entity_type r) (tr_to_state r) = true /\
  (forall s, tr_from_state r = Some s -> uses_enum (tr_entity_type r) s = true) /\
  timestamp_ok (tr_timestamp r).

Lemma timestamp_ok_utc ts : timestamp_ok ts -> dt_utcoffset_us (wall_time ts) = Some 0.
Proof.
  unfold timestamp_ok, make_transition_timestamp, validate_utc_wall_time. intros H.
  destruct (dt_utcoffset_us (wall_time ts)) as [o|]; [|done].
  destruct (o =? 0) eqn:E; [|done]. by apply Z.eqb_eq in E as ->.
Qed.

Lemma parse_state_value e s :
  uses_enum e s = true -> parse_state e (state_value s) = Ok s.
Proof.
  intros Hs%bool_decide_eq_true. unfold parse_state.
  destruct (List.find _ _) as [t|] eqn:E.
  - apply List.find_some in E as [Hin%list_elem_of_In%member_type Hv%bool_decide_eq_true].
    f_equal. apply state_value_inj; congruence.
  - exfalso. pose proof (machine_member _ _ Hs) as Hin%list_elem_of_In.
    apply (List.find_none _ _ E) in Hin. by rewrite bool_decide_true in Hin.
Qed.

Lemma entity_type_value e : EntityType_of_value (EntityType_value e) = Ok e.
Proof. destruct e; vm_compute; reflexivity. Qed.

Lemma record_roundtrip r : record_ok r -> _record_from_row (transition_row r) = Ok r.
Proof.
  intros (Hto & Hfrom & Hts). pose proof (timestamp_ok_utc _ Hts) as Hoff. unfold timestamp_ok in Hts.
  unfold _record_from_row, transition_row. simpl.
  rewrite entity_type_value.
  assert (negb (eqb ((if is_live (tr_timestamp r) then 0 else 1) =? 0)
    (negb (is_none (ts_monotonic_elapsed_ns (tr_timestamp r))))) = false) as ->
    by (unfold is_live; by destruct (ts_monotonic_elapsed_ns _)).
  assert (_parse_wall_time (_format_wall_time (tr_timestamp r)) = wall_time (tr_timestamp r)) as ->.
  { unfold _parse_wall_time, _format_wall_time. destruct (wall_time (tr_timestamp r)); simpl in *; congruence. }
  rewrite Hts. destruct r as [? ? ? ? ? from ? ? ? ? ? ? ?]. simpl in *. destruct from as [s|]; simpl.
  - rewrite !parse_state_value by auto. done.
  - rewrite parse_state_value by auto. done.
Qed.

(** What the ledger stores reads back: a transition record written as a row is decoded to the
    same record. *)
Theorem transition_row_roundtrip r : record_ok r -> _record_from_row (transition_row r) = Ok r.
Proof. apply record_roundtrip. Qed.

Definition sample_record : TransitionRecord :=
  {| tr_transition_id := u "t1"; tr_run_id := u "run"; tr_sequence := 1; tr_entity_type := Entity_ATTEMPT;
     tr_entity_id := u "a"; tr_from_state := Some (OfAttempt Attempt_SCHEDULED);
     tr_to_state := OfAttempt Attempt_CLAIMED; tr_trigger_category := u "claim"; tr_causal_record_id := None;
     tr_timestamp := {| wall_time := {| dt_instant_us := 5; dt_utcoffset_us := Some 0 |};
                        ts_monotonic_elapsed_ns := Some 7 |};
     tr_logical_time_ns := None; tr_owner_epoch := 1; tr_idempotency_key := u "k" |}.

Lemma transition_row_roundtrip_witness :
  _record_from_row (transition_row sample_record) = Ok sample_record.
Proof.
  apply transition_row_roundtrip. split_and!.
  - vm_compute. reflexivity.
  - intros s [= <-]. vm_compute. reflexivity.
  - vm_compute. reflexivity.
Defined.
