(* ===== verification/Journal.v ===== *)
(** * The transition repository

    [journal/repositories.py]: the guarded, idempotent transition operation, the atomic
    schedule claim and the recovery rebind, with every check in the order the code makes it.
    An operation runs inside one transaction of [journal/service.py]: it returns the new
    database, and when it raises, the transaction's writes are rolled back. *)

From S2P Require Import Prelude Text Identifiers Domain Clocks Lifecycle Replay Commands Json Store.

Local Open Scope Z_scope.

Definition TRIGGER_ATTEMPT_OUTCOME : str := u "attempt_outcome".
Definition TRIGGER_ASSERTION_POLICY : str := u "assertion_policy".
Definition TRIGGER_RETRY_ELIGIBLE : str := u "retry_eligible".
Definition MAX_POLICY_JSON_DEPTH : Z := 64.
Definition INVENTORY_PAGE_SIZE : nat := 1000.

Definition _TERMINAL_ATTEMPT_STATES : list AttemptState :=
  [Attempt_NOT_SENT; Attempt_SUCCEEDED; Attempt_REJECTED; Attempt_TRANSPORT_FAILED;
   Attempt_UNKNOWN_OUTCOME; Attempt_CANCELLED].
Definition _RETRY_PREDECESSOR_STATES : list AttemptState :=
  [Attempt_NOT_SENT; Attempt_REJECTED; Attempt_TRANSPORT_FAILED; Attempt_UNKNOWN_OUTCOME].
Definition _ATOMIC_RETRY_STATES : list AttemptState :=
  [Attempt_NOT_SENT; Attempt_REJECTED; Attempt_TRANSPORT_FAILED].

(** The tables by terminal state; a state that is not terminal has no entry. *)
Definition _CLASSIFICATIONS_BY_TERMINAL_STATE (s : AttemptState) : list AttemptClassification :=
  match s with
  | Attempt_NOT_SENT => [Class_ENVIRONMENT_FAILURE; Class_HARNESS_FAILURE]
  | Attempt_SUCCEEDED => [Class_RECEIVER_ACCEPTED]
  | Attempt_REJECTED => [Class_RECEIVER_REJECTED]
  | Attempt_TRANSPORT_FAILED => [Class_ENVIRONMENT_FAILURE; Class_HARNESS_FAILURE]
  | Attempt_UNKNOWN_OUTCOME => [Class_AMBIGUOUS]
  | Attempt_CANCELLED => [Class_CANCELLED]
  | _ => []
  end.
Definition _EVIDENCE_STATES_BY_TERMINAL_STATE (s : AttemptState) : list AttemptEvidenceState :=
  match s with
  | Attempt_NOT_SENT => [Evidence_CONNECTION_FAILED; Evidence_PROTOCOL_FAILED]
  | Attempt_SUCCEEDED => [Evidence_ACKNOWLEDGED]
  | Attempt_REJECTED => [Evidence_REJECTED]
  | Attempt_TRANSPORT_FAILED => [Evidence_TIMED_OUT; Evidence_CONNECTION_FAILED; Evidence_PROTOCOL_FAILED]
  | Attempt_UNKNOWN_OUTCOME => [Evidence_UNKNOWN_OUTCOME]
  | Attempt_CANCELLED => [Evidence_CANCELLED]
  | _ => []
  end.

(** ** Failpoints *)

Inductive TransitionMutationPhase :=
  | AFTER_APPEND
  | AFTER_PROJECTION
  | AFTER_DERIVED_SCHEDULE.
Inductive AttemptMutationPhase :=
  | AFTER_SCHEDULE_CONSUMED
  | AFTER_ATTEMPT_INSERT
  | AFTER_PHASE_EVIDENCE
  | AFTER_ATTEMPT_RECORD.

(** A crash hook is a callback that may raise at a phase. *)
Abbreviation TransitionCrashHook := (TransitionMutationPhase + AttemptMutationPhase -> option exn).

Definition _call_crash_hook (hook : option TransitionCrashHook)
    (phase : TransitionMutationPhase + AttemptMutationPhase) : result unit :=
  match hook with
  | None => Ok tt
  | Some h => match h phase with Some e => Raise e | None => Ok tt end
  end.

(** ** Shapes of a command *)

Definition is_entity (c : TransitionCommand) (e : EntityType) : bool := bool_decide (tc_entity_type c = e).

(** [isinstance(new_state, AttemptState) and new_state in _TERMINAL_ATTEMPT_STATES] *)
Definition enters_terminal (s : LifecycleState) : bool :=
  match s with OfAttempt a => bool_decide (a ∈ _TERMINAL_ATTEMPT_STATES) | _ => false end.
Definition is_terminal_attempt (c : TransitionCommand) : bool :=
  is_entity c Entity_ATTEMPT && enters_terminal (tc_new_state c).

Definition causal_record (c : TransitionCommand) : option str :=
  option_map cause_record_id (tc_causal_reference c).

(** [cause is not None and cause.run_id != command.run_id] *)
Definition foreign_cause (c : TransitionCommand) : bool :=
  match tc_causal_reference c with
  | Some cause => negb (bool_decide (cause_run_id cause = tc_run_id c))
  | None => false
  end.

Definition _validate_payload_scope (c : TransitionCommand) : result unit :=
  raise_if foreign_cause c with CrossRunReferenceError ;;
  let is_delivery_satisfaction :=
    is_entity c Entity_DELIVERY && bool_decide (tc_new_state c = OfDelivery Delivery_SATISFIED) in
  raise_if negb (eqb is_delivery_satisfaction (negb (is_none (tc_delivery_satisfaction c))))
    with IllegalTransitionError ;;
  let! _ := when_some (tc_delivery_satisfaction c) (fun evidence =>
    raise_if negb (bool_decide (tc_causal_reference c = Some (satisfaction_cause evidence)))
      with IllegalTransitionError ;;
    let expected_trigger :=
      match satisfaction_kind evidence with
      | Satisfied_ATTEMPT => TRIGGER_ATTEMPT_OUTCOME
      | Satisfied_ASSERTION_POLICY => TRIGGER_ASSERTION_POLICY
      end in
    raise_if negb (bool_decide (tc_trigger_category c = expected_trigger)) with IllegalTransitionError ;;
    Ok tt) in
  raise_if negb (eqb (is_terminal_attempt c) (negb (is_none (tc_attempt_outcome c))))
    with IllegalTransitionError ;;
  when_some (tc_attempt_outcome c) (fun outcome =>
    when_some (outcome_retry_schedule outcome) (fun schedule =>
      raise_if negb (bool_decide (rs_predecessor_attempt_id schedule = tc_entity_id c))
        with IllegalTransitionError ;;
      Ok tt)).

Definition _validate_response_staging_presence (c : TransitionCommand)
    (staging : option AttemptResponseStagingCommand) : result unit :=
  let is_response_observation :=
    is_entity c Entity_ATTEMPT
    && bool_decide (tc_expected_state c = Some (OfAttempt Attempt_AWAITING_RESPONSE))
    && bool_decide (tc_new_state c = OfAttempt Attempt_RESPONSE_OBSERVED) in
  raise_if negb (eqb is_response_observation (negb (is_none staging))) with IllegalTransitionError ;;
  when_some staging (fun s =>
    let evidence := st_transport_evidence s in
    raise_if negb (bool_decide (ev_run_id evidence = tc_run_id c)) with CrossRunReferenceError ;;
    raise_if negb (bool_decide (ev_attempt_id evidence = tc_entity_id c)) with IllegalTransitionError ;;
    Ok tt).

Definition _validate_transport_evidence_presence (c : TransitionCommand)
    (evidence : option AttemptTransportEvidenceCommand) : result unit :=
  raise_if negb (eqb (is_terminal_attempt c) (negb (is_none evidence))) with IllegalTransitionError ;;
  when_some evidence (fun e =>
    match tc_attempt_outcome c, tc_new_state c with
    | None, _ => Raise IllegalTransitionError
    | Some outcome, OfAttempt terminal_state =>
      raise_if negb (bool_decide (ev_run_id e = tc_run_id c)) with CrossRunReferenceError ;;
      raise_if negb (bool_decide (ev_attempt_id e = tc_entity_id c)) with IllegalTransitionError ;;
      raise_if negb (bool_decide (ev_classification e = outcome_classification outcome))
        with IllegalTransitionError ;;
      raise_if negb (bool_decide (ev_state e ∈ _EVIDENCE_STATES_BY_TERMINAL_STATE terminal_state))
        with IllegalTransitionError ;;
      Ok tt
    | Some _, _ => Raise KeyError
    end).

Definition _require_current_owner (db : Database) (c : TransitionCommand) : result unit :=
  match runs db !! tc_run_id c with
  | None => Raise CrossRunReferenceError
  | Some row =>
    raise_if negb (run_owner_epoch row =? tc_owner_epoch c) with StaleOwnerEpochError ;;
    raise_if foreign_cause c with CrossRunReferenceError ;;
    Ok tt
  end.

Definition _require_run_exists (db : Database) (run_id : str) : result unit :=
  match runs db !! run_id with Some _ => Ok tt | None => Raise CrossRunReferenceError end.

(** ** The ledger *)

Definition _transition_by_idempotency_key (db : Database) (run_id key : str)
    : result (option TransitionRecord) :=
  match List.find (fun w => bool_decide (tw_run_id w = run_id) && bool_decide (tw_idempotency_key w = key))
          (transitions db) with
  | Some w => let! r := _record_from_row w in Ok (Some r)
  | None => Ok None
  end.

Definition _transition_id_exists (db : Database) (transition_id : str) : bool :=
  existsb (fun w => bool_decide (tw_transition_id w = transition_id)) (transitions db).

Definition run_rows (db : Database) (run_id : str) : list TransitionRow :=
  List.filter (fun w => bool_decide (tw_run_id w = run_id)) (transitions db).

(** [COALESCE(MAX(sequence), 0) + 1] *)
Definition next_sequence (sequences : list Z) : Z := fold_right Z.max 0 sequences + 1.

Definition _next_transition_sequence (db : Database) (run_id : str) : result Z :=
  let sequence := next_sequence (map tw_sequence (run_rows db run_id)) in
  raise_if negb (within 1 MAX_SAFE_INTEGER sequence) with ProjectionIntegrityError ;;
  Ok sequence.

Definition _record_from_command (c : TransitionCommand) (sequence : Z) : TransitionRecord :=
  {| tr_transition_id := tc_transition_id c; tr_run_id := tc_run_id c; tr_sequence := sequence;
     tr_entity_type := tc_entity_type c; tr_entity_id := tc_entity_id c;
     tr_from_state := tc_expected_state c; tr_to_state := tc_new_state c;
     tr_trigger_category := tc_trigger_category c; tr_causal_record_id := causal_record c;
     tr_timestamp := tc_timestamp c; tr_logical_time_ns := tc_logical_time_ns c;
     tr_owner_epoch := tc_owner_epoch c; tr_idempotency_key := tc_idempotency_key c |}.

(** PRIMARY KEY (transition_id), UNIQUE (run_id, sequence), UNIQUE (run_id, idempotency_key). *)
Definition transition_conflict (w : TransitionRow) (x : TransitionRow) : bool :=
  bool_decide (tw_transition_id x = tw_transition_id w)
  || (bool_decide (tw_run_id x = tw_run_id w)
      && ((tw_sequence x =? tw_sequence w) || bool_decide (tw_idempotency_key x = tw_idempotency_key w))).

Definition _insert_transition (db : Database) (r : TransitionRecord) : result Database :=
  let w := transition_row r in
  raise_if existsb (transition_conflict w) (transitions db) with SqlConstraintError ;;
  Ok (with_transitions db (transitions db ++ [w])).

(** ** Projections *)

Record _EntityProjection := {
  pj_run_id : str;
  pj_state : LifecycleState;
  pj_scenario_id : option str;
  pj_delivery_id : option str;
  pj_outcome_category : option AttemptClassification;
  pj_terminal_recorded_at : option Z;
  pj_attempt_ordinal : option Z;
  pj_scenario_ordinal : option Z;
  pj_step_ordinal : option Z;
  pj_delivery_ordinal : option Z
}.

Definition simple_projection (run_id : str) (s : LifecycleState) (scenario : option str) : _EntityProjection :=
  {| pj_run_id := run_id; pj_state := s; pj_scenario_id := scenario; pj_delivery_id := None;
     pj_outcome_category := None; pj_terminal_recorded_at := None; pj_attempt_ordinal := None;
     pj_scenario_ordinal := None; pj_step_ordinal := None; pj_delivery_ordinal := None |}.

(** The attempt's row joined with its scenario and its delivery. *)
Definition load_attempt_projection (db : Database) (id : str) : option _EntityProjection :=
  match attempts db !! id with
  | None => None
  | Some a =>
    match scenarios db !! at_scenario_id a, deliveries db !! at_delivery_id a with
    | Some s, Some d =>
      if bool_decide (sc_run_id s = at_run_id a) && bool_decide (dl_run_id d = at_run_id a)
         && bool_decide (dl_scenario_id d = at_scenario_id a) && bool_decide (dl_event_id d = at_event_id a)
      then Some {| pj_run_id := at_run_id a; pj_state := OfAttempt (at_state a);
                   pj_scenario_id := Some (at_scenario_id a); pj_delivery_id := Some (at_delivery_id a);
                   pj_outcome_category := at_outcome_category a;
                   pj_terminal_recorded_at := at_terminal_recorded_at a;
                   pj_attempt_ordinal := Some (at_ordinal a); pj_scenario_ordinal := Some (sc_ordinal s);
                   pj_step_ordinal := Some (dl_step_ordinal d); pj_delivery_ordinal := Some (dl_ordinal d) |}
      else None
    | _, _ => None
    end
  end.

Definition _load_entity_projection (db : Database) (e : EntityType) (id : str) : option _EntityProjection :=
  match e with
  | Entity_ATTEMPT => load_attempt_projection db id
  | Entity_DELIVERY =>
    option_map (fun d =>
      {| pj_run_id := dl_run_id d; pj_state := OfDelivery (dl_state d);
         pj_scenario_id := Some (dl_scenario_id d); pj_delivery_id := None; pj_outcome_category := None;
         pj_terminal_recorded_at := None; pj_attempt_ordinal := None; pj_scenario_ordinal := None;
         pj_step_ordinal := Some (dl_step_ordinal d); pj_delivery_ordinal := Some (dl_ordinal d) |})
      (deliveries db !! id)
  | Entity_SCENARIO =>
    option_map (fun r => simple_projection (sc_run_id r) (OfScenario (sc_state r)) (Some id))
      (scenarios db !! id)
  | Entity_OBSERVATION =>
    option_map (fun r => simple_projection (ob_run_id r) (OfObservation (ob_state r)) (Some (ob_scenario_id r)))
      (observer_series db !! id)
  | Entity_ASSERTION =>
    option_map (fun r => simple_projection (as_run_id r) (OfAssertion (as_state r)) (Some (as_scenario_id r)))
      (assertions db !! id)
  | Entity_RUN =>
    option_map (fun r => simple_projection id (OfRun (run_state r)) None) (runs db !! id)
  end.

Definition _validate_projection_and_edge (db : Database) (c : TransitionCommand) (p : _EntityProjection)
    : result unit :=
  match tc_expected_state c with
  | None =>
    raise_if negb (bool_decide (state_value (tc_new_state c) = initial_state (state_machine (tc_entity_type c))))
             || negb (states_equal (Some (pj_state p)) (Some (tc_new_state c)))
      with IllegalTransitionError ;;
    raise_if existsb (fun w => bool_decide (tw_run_id w = tc_run_id c)
                        && bool_decide (tw_entity_type w = EntityType_value (tc_entity_type c))
                        && bool_decide (tw_entity_id w = tc_entity_id c)) (transitions db)
      with IllegalTransitionError ;;
    Ok tt
  | Some expected =>
    raise_if negb (states_equal (Some (pj_state p)) (Some expected)) with IllegalTransitionError ;;
    raise_if negb (transition_allowed (tc_entity_type c) expected (tc_new_state c))
      with IllegalTransitionError ;;
    Ok tt
  end.

(** ** Guards *)

Definition _guard_run_completion (db : Database) (run_id : str) : result unit :=
  raise_if exists_row (deliveries db) (fun _ d =>
      bool_decide (dl_run_id d = run_id) && dl_required d
      && bool_decide (dl_state d ∈ [Delivery_PENDING; Delivery_ELIGIBLE; Delivery_ACTIVE; Delivery_AMBIGUOUS]))
    with IllegalTransitionError ;;
  Ok tt.

(** The hooks of the policy decoder; [int] refuses more than 4300 digits. *)
Definition policy_hooks : JsonHooks :=
  {| parse_int := fun raw => if 4300 <? zlen (List.filter is_decimal raw) then None
                             else Some (JInt (int_of_decimal raw));
     parse_float := fun raw => Some (JFloat raw);
     object_pairs := unique_pairs |}.

Definition _require_bounded_json_depth (v : json) : result unit :=
  raise_if (MAX_POLICY_JSON_DEPTH <? json_depth v) with ProjectionIntegrityError ;;
  Ok tt.

Definition _unsupported_policy_allows_skip (value : option bytes) : result bool :=
  match value with
  | None => Ok false
  | Some blob =>
    raise_if (MAX_CONDITION_BYTES <? zlen blob) with ProjectionIntegrityError ;;
    match utf8_decode blob with
    | None => Raise ProjectionIntegrityError
    | Some text =>
      match json_loads policy_hooks text with
      | Some (JObject policy) =>
        let! _ := _require_bounded_json_depth (JObject policy) in
        Ok (json_is_text (json_get (u "on_unsupported") policy) (u "skip"))
      | _ => Raise ProjectionIntegrityError
      end
    end
  end.

Definition scenario_pass_step (_ : unit) (row : str * AssertionRow) : result unit :=
  match as_state row.2 with
  | Assertion_PASSED => Ok tt
  | Assertion_UNSUPPORTED =>
    let! skip := _unsupported_policy_allows_skip (as_policy_json row.2) in
    raise_if negb skip with IllegalTransitionError ;; Ok tt
  | _ => Raise IllegalTransitionError
  end.

Definition _guard_scenario_pass (db : Database) (run_id scenario_id : str) : result unit :=
  for_each scenario_pass_step tt
    (py_sorted fst (select (assertions db) (fun _ a =>
      bool_decide (as_run_id a = run_id) && bool_decide (as_scenario_id a = scenario_id) && as_required a))).

Definition _require_related_attempt (db : Database) (cause : CausalReference) (scenario_id delivery_id : str)
    (allowed_states : list AttemptState) : result unit :=
  match attempts db !! cause_record_id cause with
  | None => Raise IllegalTransitionError
  | Some a =>
    raise_if negb (bool_decide (at_run_id a = cause_run_id cause))
             || negb (bool_decide (at_scenario_id a = scenario_id))
             || negb (bool_decide (at_delivery_id a = delivery_id)) with CrossRunReferenceError ;;
    raise_if negb (bool_decide (at_state a ∈ allowed_states)) with IllegalTransitionError ;;
    match at_outcome_category a, at_terminal_recorded_at a with
    | Some classification, Some _ =>
      raise_if negb (bool_decide (classification ∈ _CLASSIFICATIONS_BY_TERMINAL_STATE (at_state a)))
        with ProjectionIntegrityError ;;
      Ok tt
    | _, _ => Raise ProjectionIntegrityError
    end
  end.

Definition _guard_delivery_satisfaction (db : Database) (c : TransitionCommand) (p : _EntityProjection)
    : result unit :=
  match tc_delivery_satisfaction c with
  | None => Raise RuntimeError
  | Some evidence =>
    let cause := satisfaction_cause evidence in
    match pj_scenario_id p with
    | None => Raise CrossRunReferenceError
    | Some scenario_id =>
      raise_if negb (bool_decide (cause_run_id cause = tc_run_id c))
               || negb (bool_decide (tc_causal_reference c = Some cause)) with CrossRunReferenceError ;;
      match satisfaction_kind evidence with
      | Satisfied_ATTEMPT =>
        raise_if negb (bool_decide (tc_trigger_category c = TRIGGER_ATTEMPT_OUTCOME))
          with IllegalTransitionError ;;
        _require_related_attempt db cause scenario_id (tc_entity_id c) [Attempt_SUCCEEDED]
      | Satisfied_ASSERTION_POLICY =>
        raise_if negb (bool_decide (tc_trigger_category c = TRIGGER_ASSERTION_POLICY))
          with IllegalTransitionError ;;
        match assertions db !! cause_record_id cause with
        | None => Raise IllegalTransitionError
        | Some a =>
          raise_if negb (bool_decide (as_run_id a = tc_run_id c))
                   || negb (bool_decide (as_scenario_id a = scenario_id)) with CrossRunReferenceError ;;
          raise_if negb (bool_decide (as_state a = Assertion_PASSED)) with IllegalTransitionError ;;
          Ok tt
        end
      end
    end
  end.

Definition _guard_retry_predecessor (db : Database) (c : TransitionCommand) (p : _EntityProjection)
    : result unit :=
  match tc_causal_reference c, pj_scenario_id p with
  | Some cause, Some scenario_id =>
    raise_if negb (bool_decide (tc_trigger_category c = TRIGGER_RETRY_ELIGIBLE)) with IllegalTransitionError ;;
    _require_related_attempt db cause scenario_id (tc_entity_id c) _RETRY_PREDECESSOR_STATES
  | _, _ => Raise IllegalTransitionError
  end.

Definition _validate_retry_schedule_identity (c : TransitionCommand) (p : _EntityProjection) : result unit :=
  match tc_attempt_outcome c with
  | None => Raise IdempotencyConflictError
  | Some outcome =>
    when_some (outcome_retry_schedule outcome) (fun schedule =>
      raise_if negb (match tc_new_state c with
                     | OfAttempt s => bool_decide (s ∈ _ATOMIC_RETRY_STATES) | _ => false end)
               || negb (bool_decide (rs_predecessor_attempt_id schedule = tc_entity_id c))
               || negb (bool_decide (pj_scenario_id p = Some (rs_scenario_id schedule)))
               || negb (bool_decide (rs_entity_type schedule = u "attempt"))
               || negb (bool_decide (pj_scenario_ordinal p = Some (rs_scenario_ordinal schedule)))
               || negb (bool_decide (pj_step_ordinal p = Some (rs_step_ordinal schedule)))
               || negb (bool_decide (pj_delivery_ordinal p = Some (rs_delivery_ordinal schedule)))
               || negb (bool_decide (option_map (Z.add 1) (pj_attempt_ordinal p)
                                     = Some (rs_attempt_ordinal schedule))) with IllegalTransitionError ;;
      raise_if negb (is_ok (validate_planned_id (rs_entity_id schedule) (Some Planned_ATTEMPT_PLAN)))
        with IllegalTransitionError ;;
      Ok tt)
  end.

Definition _guard_terminal_attempt (c : TransitionCommand) (p : _EntityProjection) : result unit :=
  match tc_attempt_outcome c, tc_new_state c with
  | Some outcome, OfAttempt s =>
    raise_if negb (bool_decide (outcome_classification outcome ∈ _CLASSIFICATIONS_BY_TERMINAL_STATE s))
      with IllegalTransitionError ;;
    raise_if negb (is_none (pj_outcome_category p)) || negb (is_none (pj_terminal_recorded_at p))
      with ProjectionIntegrityError ;;
    _validate_retry_schedule_identity c p
  | _, _ => Raise IllegalTransitionError
  end.

Definition _validate_transition_guards (db : Database) (c : TransitionCommand) (p : _EntityProjection)
    : result unit :=
  let! _ :=
    if is_entity c Entity_RUN && bool_decide (tc_expected_state c = Some (OfRun Run_RUNNING))
       && bool_decide (tc_new_state c = OfRun Run_COMPLETED)
    then _guard_run_completion db (tc_run_id c) else Ok tt in
  let! _ :=
    if is_entity c Entity_SCENARIO && bool_decide (tc_new_state c = OfScenario Scenario_PASSED)
    then _guard_scenario_pass db (tc_run_id c) (tc_entity_id c) else Ok tt in
  let! _ :=
    if is_entity c Entity_DELIVERY then
      if bool_decide (tc_new_state c = OfDelivery Delivery_SATISFIED)
      then _guard_delivery_satisfaction db c p
      else if bool_decide (tc_expected_state c = Some (OfDelivery Delivery_ACTIVE))
              && bool_decide (tc_new_state c = OfDelivery Delivery_ELIGIBLE)
      then _guard_retry_predecessor db c p
      else Ok tt
    else Ok tt in
  if is_terminal_attempt c then _guard_terminal_attempt c p else Ok tt.

(** ** Final attempt evidence *)

Definition _validate_transport_evidence_identity (db : Database) (c : TransitionCommand)
    (e : AttemptTransportEvidenceCommand) : result unit :=
  match attempts db !! tc_entity_id c with
  | None => Raise IllegalTransitionError
  | Some a =>
    raise_if negb (bool_decide ((at_run_id a, at_scenario_id a, at_event_id a, at_delivery_id a)
                   = (ev_run_id e, ev_scenario_id e, ev_event_id e, ev_delivery_id e)))
      with CrossRunReferenceError ;;
    raise_if exists_row (attempt_records db) (fun _ r =>
        bool_decide (ar_run_id r = tc_run_id c) && bool_decide (ar_attempt_id r = tc_entity_id c))
      with ProjectionIntegrityError ;;
    raise_if negb (is_none (attempt_records db !! ev_record_id e)) with IdempotencyConflictError ;;
    Ok tt
  end.

Definition _next_attempt_record_sequence (db : Database) (run_id : str) : result Z :=
  let sequence := next_sequence (map (fun kv => ar_sequence kv.2)
    (select (attempt_records db) (fun _ r => bool_decide (ar_run_id r = run_id)))) in
  raise_if negb (within 1 MAX_SAFE_INTEGER sequence) with ProjectionIntegrityError ;;
  Ok sequence.

(** [_attempt_record_from_command] and the columns of [_attempt_record_values]. *)
Definition attempt_record_values (e : AttemptTransportEvidenceCommand) (ts : TransitionTimestamp)
    (logical_time_ns : option Z) (sequence : Z) : result AttemptRecordRow :=
  let request := ev_request e in let response := ev_response e in let error := ev_error e in
  let! names := canonical_request_header_names_json request in
  Ok {| ar_record_id := ev_record_id e; ar_run_id := ev_run_id e; ar_scenario_id := ev_scenario_id e;
        ar_event_id := ev_event_id e; ar_delivery_id := ev_delivery_id e; ar_attempt_id := ev_attempt_id e;
        ar_sequence := sequence; ar_recorded_at := dt_instant_us (wall_time ts);
        ar_logical_time_ns := logical_time_ns; ar_monotonic_elapsed_ns := ts_monotonic_elapsed_ns ts;
        ar_state := ev_state e; ar_classification := ev_classification e;
        ar_request_method := option_map req_method request;
        ar_request_url_redacted := option_map req_url_redacted request;
        ar_request_body_sha256 := option_map req_body_sha256 request;
        ar_request_byte_length := option_map req_byte_length request;
        ar_request_header_names_json := names;
        ar_response_status := option_map resp_status response;
        ar_response_body_sha256 := response ≫= resp_body_sha256;
        ar_response_captured_bytes := option_map resp_captured_bytes response;
        ar_response_truncated := option_map resp_truncated response;
        ar_error_category := option_map err_category error;
        ar_error_message_redacted := option_map err_message_redacted error;
        ar_error_phase := error ≫= err_phase;
        ar_response_headers_elapsed_ns := ev_response_headers_elapsed_ns e |}.

(** PRIMARY KEY (record_id), UNIQUE (run_id, sequence), UNIQUE (run_id, attempt_id). *)
Definition _insert_attempt_record (db : Database) (row : AttemptRecordRow) : result Database :=
  raise_if negb (is_none (attempt_records db !! ar_record_id row))
           || exists_row (attempt_records db) (fun _ r => bool_decide (ar_run_id r = ar_run_id row)
                && ((ar_sequence r =? ar_sequence row) || bool_decide (ar_attempt_id r = ar_attempt_id row)))
    with SqlConstraintError ;;
  Ok (with_attempt_records db (<[ar_record_id row := row]> (attempt_records db))).

(** [_verify_existing_attempt_record] *)
Definition _verify_existing_attempt_record (db : Database) (c : TransitionCommand)
    (transition : TransitionRecord) (e : AttemptTransportEvidenceCommand) : result unit :=
  match select (attempt_records db) (fun _ r =>
          bool_decide (ar_run_id r = tc_run_id c) && bool_decide (ar_attempt_id r = tc_entity_id c)) with
  | [(_, row)] =>
    let! expected := attempt_record_values e (tr_timestamp transition) (tr_logical_time_ns transition)
                       (ar_sequence row) in
    raise_if negb (bool_decide (row = expected)) with IdempotencyConflictError ;;
    Ok tt
  | _ => Raise ProjectionIntegrityError
  end.

(** ** Phase evidence *)

Definition _PHASE_EDGES (p : AttemptPhaseEvidence) : list (AttemptState * AttemptState) :=
  match p with
  | Phase_CONTROLLED_PRE_TRANSPORT =>
    [(Attempt_CLAIMED, Attempt_PRE_SEND_COMMITTED); (Attempt_CLAIMED, Attempt_NOT_SENT);
     (Attempt_PRE_SEND_COMMITTED, Attempt_NOT_SENT)]
  | Phase_NO_CONNECTION_ESTABLISHED => [(Attempt_CONNECTING, Attempt_NOT_SENT)]
  | Phase_CONNECTION_ATTEMPT_STARTED =>
    [(Attempt_PRE_SEND_COMMITTED, Attempt_CONNECTING); (Attempt_CONNECTING, Attempt_UNKNOWN_OUTCOME)]
  | Phase_REQUEST_SEND_STARTED =>
    [(Attempt_CONNECTING, Attempt_SENDING); (Attempt_SENDING, Attempt_UNKNOWN_OUTCOME)]
  | Phase_AWAITING_RESPONSE =>
    [(Attempt_SENDING, Attempt_AWAITING_RESPONSE); (Attempt_AWAITING_RESPONSE, Attempt_UNKNOWN_OUTCOME)]
  | Phase_RESPONSE_OBSERVED =>
    [(Attempt_AWAITING_RESPONSE, Attempt_RESPONSE_OBSERVED); (Attempt_RESPONSE_OBSERVED, Attempt_SUCCEEDED);
     (Attempt_RESPONSE_OBSERVED, Attempt_REJECTED); (Attempt_RESPONSE_OBSERVED, Attempt_TRANSPORT_FAILED)]
  end.

Definition _validate_phase_edge (c : TransitionCommand) (p : AttemptPhaseEvidenceCommand) : result unit :=
  match tc_expected_state c, tc_new_state c with
  | Some (OfAttempt from_state), OfAttempt to_state =>
    raise_if negb (bool_decide ((from_state, to_state) ∈ _PHASE_EDGES (ph_phase p)))
      with IllegalTransitionError ;;
    raise_if bool_decide (from_state = Attempt_CLAIMED) && bool_decide (to_state = Attempt_PRE_SEND_COMMITTED)
             && (is_none (ph_request_blob_hash p) || is_none (ph_request_headers_hash p))
      with IllegalTransitionError ;;
    Ok tt
  | _, _ => Raise IllegalTransitionError
  end.

(** [stored IS NULL OR stored = given OR given IS NULL] and [COALESCE(given, stored)] *)
Definition digest_compatible (stored given : option str) : bool :=
  is_none stored || bool_decide (stored = given) || is_none given.
Definition coalesce {A} (given stored : option A) : option A :=
  match given with Some _ => given | None => stored end.

Definition known_phase (p : option str) : bool :=
  match p with
  | None => true
  | Some v => bool_decide (v ∈ map AttemptPhaseEvidence_value
      [Phase_CONTROLLED_PRE_TRANSPORT; Phase_NO_CONNECTION_ESTABLISHED; Phase_CONNECTION_ATTEMPT_STARTED;
       Phase_REQUEST_SEND_STARTED; Phase_AWAITING_RESPONSE; Phase_RESPONSE_OBSERVED])
  end.

Definition set_phase (a : AttemptRow) (p : AttemptPhaseEvidenceCommand) : AttemptRow :=
  {| at_run_id := at_run_id a; at_scenario_id := at_scenario_id a; at_event_id := at_event_id a;
     at_delivery_id := at_delivery_id a; at_attempt_plan_id := at_attempt_plan_id a;
     at_ordinal := at_ordinal a; at_state := at_state a;
     at_phase := Some (AttemptPhaseEvidence_value (ph_phase p));
     at_request_blob_hash := coalesce (ph_request_blob_hash p) (at_request_blob_hash a);
     at_request_headers_hash := coalesce (ph_request_headers_hash p) (at_request_headers_hash a);
     at_outcome_category := at_outcome_category a;
     at_predecessor_attempt_id := at_predecessor_attempt_id a;
     at_owner_epoch := at_owner_epoch a; at_terminal_recorded_at := at_terminal_recorded_at a |}.

Definition _persist_attempt_phase_evidence (db : Database) (c : TransitionCommand)
    (p : AttemptPhaseEvidenceCommand) : result Database :=
  let! _ := _validate_phase_edge c p in
  match attempts db !! tc_entity_id c with
  | Some a =>
    if bool_decide (at_run_id a = tc_run_id c)
       && bool_decide (AttemptState_value (at_state a) = state_value (tc_new_state c))
       && known_phase (at_phase a)
       && digest_compatible (at_request_blob_hash a) (ph_request_blob_hash p)
       && digest_compatible (at_request_headers_hash a) (ph_request_headers_hash p)
    then Ok (with_attempts db (<[tc_entity_id c := set_phase a p]> (attempts db)))
    else Raise IdempotencyConflictError
  | None => Raise IdempotencyConflictError
  end.

(** [given is not None and stored != given] *)
Definition digest_differs (given stored : option str) : bool :=
  match given with Some _ => negb (bool_decide (stored = given)) | None => false end.

Definition _verify_attempt_phase_evidence (db : Database) (c : TransitionCommand)
    (p : AttemptPhaseEvidenceCommand) : result unit :=
  match attempts db !! tc_entity_id c with
  | Some a =>
    raise_if negb (bool_decide (at_run_id a = tc_run_id c)) with IdempotencyConflictError ;;
    let! _ := _validate_phase_edge c p in
    raise_if (bool_decide (AttemptState_value (at_state a) = state_value (tc_new_state c))
              && negb (bool_decide (at_phase a = Some (AttemptPhaseEvidence_value (ph_phase p)))))
             || digest_differs (ph_request_blob_hash p) (at_request_blob_hash a)
             || digest_differs (ph_request_headers_hash p) (at_request_headers_hash a)
      with IdempotencyConflictError ;;
    Ok tt
  | None => Raise IdempotencyConflictError
  end.

(** ** Staged responses *)

Definition _attempt_response_staging_values (s : AttemptResponseStagingCommand) : result StagingRow :=
  let e := st_transport_evidence s in
  let error := ev_error e in
  let retry := outcome_retry_schedule (st_terminal_outcome s) in
  match ev_request e, ev_response e with
  | Some request, Some response =>
    match resp_body_sha256 response with
    | None => Raise IllegalTransitionError
    | Some body =>
      let! names := canonical_request_header_names_json (Some request) in
      Ok {| sg_record_id := ev_record_id e; sg_run_id := ev_run_id e; sg_scenario_id := ev_scenario_id e;
            sg_event_id := ev_event_id e; sg_delivery_id := ev_delivery_id e;
            sg_terminal_state := st_terminal_state s;
            sg_classification := outcome_classification (st_terminal_outcome s);
            sg_evidence_state := ev_state e;
            sg_request_method := req_method request; sg_request_url_redacted := req_url_redacted request;
            sg_request_body_sha256 := req_body_sha256 request; sg_request_byte_length := req_byte_length request;
            sg_request_header_names_json := names;
            sg_response_status := resp_status response; sg_response_body_sha256 := body;
            sg_response_captured_bytes := resp_captured_bytes response;
            sg_response_truncated := resp_truncated response;
            sg_error_category := option_map err_category error;
            sg_error_message_redacted := option_map err_message_redacted error;
            sg_error_phase := error ≫= err_phase;
            sg_response_headers_elapsed_ns := ev_response_headers_elapsed_ns e;
            sg_retry_schedule_entry_id := option_map rs_schedule_entry_id retry;
            sg_retry_entity_id := option_map rs_entity_id retry;
            sg_retry_logical_time_ns := option_map rs_logical_time_ns retry;
            sg_retry_scenario_ordinal := option_map rs_scenario_ordinal retry;
            sg_retry_step_ordinal := option_map rs_step_ordinal retry;
            sg_retry_delivery_ordinal := option_map rs_delivery_ordinal retry;
            sg_retry_attempt_ordinal := option_map rs_attempt_ordinal retry;
            sg_retry_deterministic_tie_key := option_map rs_deterministic_tie_key retry;
            sg_retry_idempotency_key := option_map rs_idempotency_key retry;
            sg_retry_condition_json := retry ≫= rs_condition_json |}
    end
  | _, _ => Raise IllegalTransitionError
  end.

(** PRIMARY KEY (attempt_id), UNIQUE (record_id). *)
Definition _persist_attempt_response_staging (db : Database) (c : TransitionCommand)
    (s : AttemptResponseStagingCommand) : result Database :=
  let! _ := _validate_response_staging_presence c (Some s) in
  let e := st_transport_evidence s in
  let! _ := _validate_transport_evidence_identity db c e in
  let! row := _attempt_response_staging_values s in
  raise_if negb (is_none (attempt_response_staging db !! ev_attempt_id e))
           || exists_row (attempt_response_staging db) (fun _ r => bool_decide (sg_record_id r = sg_record_id row))
    with SqlConstraintError ;;
  Ok (with_staging db (<[ev_attempt_id e := row]> (attempt_response_staging db))).

(** The staged row of the command's attempt, when its run matches. *)
Definition staged_row (db : Database) (c : TransitionCommand) : option StagingRow :=
  match attempt_response_staging db !! tc_entity_id c with
  | Some r => if bool_decide (sg_run_id r = tc_run_id c) then Some r else None
  | None => None
  end.

Definition _verify_attempt_response_staging (db : Database) (c : TransitionCommand)
    (s : AttemptResponseStagingCommand) : result unit :=
  let! _ := _validate_response_staging_presence c (Some s) in
  match staged_row db c with
  | None => Raise IdempotencyConflictError
  | Some r =>
    let! expected := _attempt_response_staging_values s in
    raise_if negb (bool_decide (ev_attempt_id (st_transport_evidence s) = tc_entity_id c))
             || negb (bool_decide (r = expected)) with IdempotencyConflictError ;;
    Ok tt
  end.

Definition is_response_reduction (c : TransitionCommand) : bool :=
  is_entity c Entity_ATTEMPT
  && bool_decide (tc_expected_state c = Some (OfAttempt Attempt_RESPONSE_OBSERVED))
  && enters_terminal (tc_new_state c).

Definition _validate_terminal_response_staging (db : Database) (c : TransitionCommand)
    (evidence : option AttemptTransportEvidenceCommand) : result unit :=
  if negb (is_response_reduction c) then Ok tt
  else
    match evidence, tc_attempt_outcome c, tc_new_state c with
    | Some e, Some outcome, OfAttempt terminal_state =>
      let! expected := validate_response_staging
        {| st_terminal_state := terminal_state; st_terminal_outcome := outcome; st_transport_evidence := e |} in
      match staged_row db c with
      | None => Raise ProjectionIntegrityError
      | Some r =>
        let! values := _attempt_response_staging_values expected in
        raise_if negb (bool_decide (ev_attempt_id e = tc_entity_id c)) || negb (bool_decide (r = values))
          with ProjectionIntegrityError ;;
        Ok tt
      end
    | _, _, _ => Raise IllegalTransitionError
    end.

Definition _consume_attempt_response_staging (db : Database) (c : TransitionCommand) : result Database :=
  match staged_row db c with
  | None => Raise ProjectionIntegrityError
  | Some _ => Ok (with_staging db (delete (tc_entity_id c) (attempt_response_staging db)))
  end.

(** ** Projection update *)

(** [UPDATE ... SET state WHERE id AND run_id AND state], one table per entity kind; a value the
    column's CHECK refuses violates a constraint. *)
Definition set_attempt_outcome (a : AttemptRow) (s : AttemptState) (k : AttemptClassification) (at_ : Z)
    : AttemptRow :=
  {| at_run_id := at_run_id a; at_scenario_id := at_scenario_id a; at_event_id := at_event_id a;
     at_delivery_id := at_delivery_id a; at_attempt_plan_id := at_attempt_plan_id a;
     at_ordinal := at_ordinal a; at_state := s; at_phase := at_phase a;
     at_request_blob_hash := at_request_blob_hash a; at_request_headers_hash := at_request_headers_hash a;
     at_outcome_category := Some k; at_predecessor_attempt_id := at_predecessor_attempt_id a;
     at_owner_epoch := at_owner_epoch a; at_terminal_recorded_at := Some at_ |}.
Definition set_attempt_state (a : AttemptRow) (s : AttemptState) : AttemptRow :=
  {| at_run_id := at_run_id a; at_scenario_id := at_scenario_id a; at_event_id := at_event_id a;
     at_delivery_id := at_delivery_id a; at_attempt_plan_id := at_attempt_plan_id a;
     at_ordinal := at_ordinal a; at_state := s; at_phase := at_phase a;
     at_request_blob_hash := at_request_blob_hash a; at_request_headers_hash := at_request_headers_hash a;
     at_outcome_category := at_outcome_category a; at_predecessor_attempt_id := at_predecessor_attempt_id a;
     at_owner_epoch := at_owner_epoch a; at_terminal_recorded_at := at_terminal_recorded_at a |}.

Definition write_state (db : Database) (e : EntityType) (id : str) (s : LifecycleState) : result Database :=
  match e, s with
  | Entity_RUN, OfRun s =>
    Ok (with_runs db (alter (fun r => {| run_state := s; run_owner_epoch := run_owner_epoch r;
      run_terminal_category := run_terminal_category r; run_terminal_at := run_terminal_at r |}) id (runs db)))
  | Entity_SCENARIO, OfScenario s =>
    Ok (with_scenarios db (alter (fun r => {| sc_run_id := sc_run_id r; sc_ordinal := sc_ordinal r;
      sc_state := s |}) id (scenarios db)))
  | Entity_DELIVERY, OfDelivery s =>
    Ok (with_deliveries db (alter (fun r => {| dl_run_id := dl_run_id r; dl_scenario_id := dl_scenario_id r;
      dl_event_id := dl_event_id r; dl_ordinal := dl_ordinal r; dl_step_ordinal := dl_step_ordinal r;
      dl_state := s; dl_required := dl_required r |}) id (deliveries db)))
  | Entity_ATTEMPT, OfAttempt s =>
    Ok (with_attempts db (alter (fun a => set_attempt_state a s) id (attempts db)))
  | Entity_OBSERVATION, OfObservation s =>
    Ok (with_observer_series db (alter (fun r => {| ob_run_id := ob_run_id r;
      ob_scenario_id := ob_scenario_id r; ob_state := s |}) id (observer_series db)))
  | Entity_ASSERTION, OfAssertion s =>
    Ok (with_assertions db (alter (fun r => {| as_run_id := as_run_id r; as_scenario_id := as_scenario_id r;
      as_policy_json := as_policy_json r; as_required := as_required r; as_state := s |}) id (assertions db)))
  | _, _ => Raise SqlConstraintError
  end.

(** The WHERE clause of the compare-and-swap. *)
Definition cas_matches (db : Database) (c : TransitionCommand) (expected : LifecycleState) : bool :=
  match entity_state db (tc_entity_type c) (tc_entity_id c) with
  | Some (run, s) => bool_decide (run = tc_run_id c) && states_equal (Some s) (Some expected)
  | None => false
  end.

Definition _update_projection (db : Database) (c : TransitionCommand) (expected : LifecycleState)
    : result Database :=
  match tc_attempt_outcome c with
  | Some outcome =>
    if is_entity c Entity_ATTEMPT then
      match attempts db !! tc_entity_id c, tc_new_state c with
      | Some a, OfAttempt s =>
        raise_if negb (cas_matches db c expected) || negb (is_none (at_outcome_category a))
                 || negb (is_none (at_terminal_recorded_at a)) with ProjectionIntegrityError ;;
        Ok (with_attempts db (<[tc_entity_id c := set_attempt_outcome a s
              (outcome_classification outcome) (_format_wall_time (tc_timestamp c))]> (attempts db)))
      | None, _ => Raise ProjectionIntegrityError
      | _, _ => Raise SqlConstraintError
      end
    else
      raise_if negb (cas_matches db c expected) with ProjectionIntegrityError ;;
      write_state db (tc_entity_type c) (tc_entity_id c) (tc_new_state c)
  | None =>
    raise_if negb (cas_matches db c expected) with ProjectionIntegrityError ;;
    write_state db (tc_entity_type c) (tc_entity_id c) (tc_new_state c)
  end.

(** ** Derived retry schedules *)

Definition retry_schedule_row (run_id : str) (s : RetrySchedule) : ScheduleRow :=
  {| se_run_id := run_id; se_scenario_id := rs_scenario_id s; se_entity_type := rs_entity_type s;
     se_entity_id := rs_entity_id s; se_logical_time_ns := rs_logical_time_ns s;
     se_scenario_ordinal := rs_scenario_ordinal s; se_step_ordinal := rs_step_ordinal s;
     se_delivery_ordinal := rs_delivery_ordinal s; se_attempt_ordinal := rs_attempt_ordinal s;
     se_deterministic_tie_key := rs_deterministic_tie_key s; se_condition_json := rs_condition_json s;
     se_idempotency_key := rs_idempotency_key s; se_consumed_at := None; se_consumed_by_owner_epoch := None |}.

(** FOREIGN KEY (run_id, scenario_id) REFERENCES scenarios *)
Definition scenario_exists (db : Database) (run_id scenario_id : str) : bool :=
  match scenarios db !! scenario_id with
  | Some s => bool_decide (sc_run_id s = run_id)
  | None => false
  end.

(** PRIMARY KEY (schedule_entry_id), UNIQUE (run_id, idempotency_key). *)
Definition _insert_retry_schedule (db : Database) (run_id : str) (s : RetrySchedule) : result Database :=
  raise_if negb (is_none (schedule_entries db !! rs_schedule_entry_id s))
           || exists_row (schedule_entries db) (fun _ r => bool_decide (se_run_id r = run_id)
                && bool_decide (se_idempotency_key r = rs_idempotency_key s))
           || negb (scenario_exists db run_id (rs_scenario_id s)) with SqlConstraintError ;;
  Ok (with_schedule_entries db
        (<[rs_schedule_entry_id s := retry_schedule_row run_id s]> (schedule_entries db))).

Definition _derived_next_attempt_schedule_exists (db : Database) (run_id : str) (p : _EntityProjection)
    : result bool :=
  match pj_scenario_id p, pj_scenario_ordinal p, pj_step_ordinal p, pj_delivery_ordinal p,
        pj_attempt_ordinal p with
  | Some scenario_id, Some scenario_ordinal, Some step_ordinal, Some delivery_ordinal, Some attempt_ordinal =>
    Ok (exists_row (schedule_entries db) (fun _ r =>
      bool_decide (se_run_id r = run_id) && bool_decide (se_scenario_id r = scenario_id)
      && bool_decide (se_entity_type r = u "attempt") && (se_scenario_ordinal r =? scenario_ordinal)
      && (se_step_ordinal r =? step_ordinal) && (se_delivery_ordinal r =? delivery_ordinal)
      && (se_attempt_ordinal r =? attempt_ordinal + 1)))
  | _, _, _, _, _ => Raise ProjectionIntegrityError
  end.

(** The columns [_verify_existing_retry_schedule] compares. *)
Definition schedule_columns (id : str) (r : ScheduleRow)
    : str * str * str * str * Z * Z * Z * Z * Z * str * option bytes :=
  (id, se_scenario_id r, se_entity_type r, se_entity_id r, se_logical_time_ns r, se_scenario_ordinal r,
   se_step_ordinal r, se_delivery_ordinal r, se_attempt_ordinal r, se_deterministic_tie_key r,
   se_condition_json r).

Definition _verify_existing_retry_schedule (db : Database) (run_id : str) (s : RetrySchedule) : result unit :=
  match select (schedule_entries db) (fun _ r => bool_decide (se_run_id r = run_id)
          && bool_decide (se_idempotency_key r = rs_idempotency_key s)) with
  | (id, r) :: _ =>
    raise_if negb (bool_decide (schedule_columns id r
                   = schedule_columns (rs_schedule_entry_id s) (retry_schedule_row run_id s)))
      with ProjectionIntegrityError ;;
    Ok tt
  | [] => Raise ProjectionIntegrityError
  end.

(** ** Idempotent replay *)

Definition _verify_existing_attempt_outcome (db : Database) (c : TransitionCommand)
    (existing : TransitionRecord) : result unit :=
  match tc_attempt_outcome c with
  | None => Raise IdempotencyConflictError
  | Some outcome =>
    match _load_entity_projection db Entity_ATTEMPT (tc_entity_id c) with
    | None => Raise ProjectionIntegrityError
    | Some p =>
      raise_if negb (bool_decide (pj_run_id p = tc_run_id c)) with ProjectionIntegrityError ;;
      raise_if negb (states_equal (Some (pj_state p)) (Some (tr_to_state existing)))
               || negb (bool_decide (pj_outcome_category p = Some (outcome_classification outcome)))
               || negb (bool_decide (pj_terminal_recorded_at p = Some (_format_wall_time (tr_timestamp existing))))
        with ProjectionIntegrityError ;;
      let! _ := _validate_retry_schedule_identity c p in
      match outcome_retry_schedule outcome with
      | None =>
        if match pj_state p with OfAttempt s => bool_decide (s ∈ _ATOMIC_RETRY_STATES) | _ => false end then
          let! derived := _derived_next_attempt_schedule_exists db (tc_run_id c) p in
          raise_if derived with IdempotencyConflictError ;; Ok tt
        else Ok tt
      | Some schedule => _verify_existing_retry_schedule db (tc_run_id c) schedule
      end
    end
  end.

Definition _verify_idempotent_replay (db : Database) (c : TransitionCommand) (existing : TransitionRecord)
    : result unit :=
  raise_if negb (bool_decide (tr_transition_id existing = tc_transition_id c))
           || negb (bool_decide (tr_run_id existing = tc_run_id c))
           || negb (bool_decide (tr_entity_type existing = tc_entity_type c))
           || negb (bool_decide (tr_entity_id existing = tc_entity_id c))
           || negb (states_equal (tr_from_state existing) (tc_expected_state c))
           || negb (states_equal (Some (tr_to_state existing)) (Some (tc_new_state c)))
           || negb (bool_decide (tr_trigger_category existing = tc_trigger_category c))
           || negb (bool_decide (tr_causal_record_id existing = causal_record c))
           || negb (bool_decide (tr_logical_time_ns existing = tc_logical_time_ns c))
           || negb (tr_owner_epoch existing =? tc_owner_epoch c) with IdempotencyConflictError ;;
  match tc_attempt_outcome c with
  | Some _ => _verify_existing_attempt_outcome db c existing
  | None => Ok tt
  end.

(** ** The transition operation *)

Record CommittedTransition := { committed_record : TransitionRecord; idempotent_replay : bool }.

Record _ApplyTransitionOperation := {
  op_command : TransitionCommand;
  op_crash_hook : option TransitionCrashHook;
  op_phase_evidence : option AttemptPhaseEvidenceCommand;
  op_response_staging : option AttemptResponseStagingCommand;
  op_transport_evidence : option AttemptTransportEvidenceCommand
}.

(** Run a statement only when its argument is present. *)
Definition persist_some {A} (o : option A) (db : Database) (f : Database -> A -> result Database)
    : result Database :=
  match o with None => Ok db | Some a => f db a end.

(** The branch taken when the idempotency key is already in the ledger. *)
Definition replay_existing (db : Database) (op : _ApplyTransitionOperation) (existing : TransitionRecord)
    : result (CommittedTransition * Database) :=
  let c := op_command op in
  let! _ := _verify_idempotent_replay db c existing in
  let! _ := when_some (op_phase_evidence op) (_verify_attempt_phase_evidence db c) in
  let! _ := when_some (op_response_staging op) (_verify_attempt_response_staging db c) in
  let! _ := when_some (op_transport_evidence op) (_verify_existing_attempt_record db c existing) in
  Ok ({| committed_record := existing; idempotent_replay := true |}, db).

(** The validation of a fresh command against the database. *)
Definition validate_fresh (db : Database) (op : _ApplyTransitionOperation) : result _EntityProjection :=
  let c := op_command op in
  raise_if _transition_id_exists db (tc_transition_id c) with IdempotencyConflictError ;;
  match _load_entity_projection db (tc_entity_type c) (tc_entity_id c) with
  | None => Raise IllegalTransitionError
  | Some p =>
    raise_if negb (bool_decide (pj_run_id p = tc_run_id c)) with CrossRunReferenceError ;;
    let! _ := _validate_projection_and_edge db c p in
    let! _ := _validate_transition_guards db c p in
    let! _ := when_some (op_transport_evidence op) (_validate_transport_evidence_identity db c) in
    let! _ := _validate_terminal_response_staging db c (op_transport_evidence op) in
    Ok p
  end.

(** The writes of a fresh command, with the failpoints between them. *)
Definition write_fresh (db : Database) (op : _ApplyTransitionOperation)
    : result (CommittedTransition * Database) :=
  let c := op_command op in
  let hook := _call_crash_hook (op_crash_hook op) in
  let! sequence := _next_transition_sequence db (tc_run_id c) in
  let record := _record_from_command c sequence in
  let! db1 := _insert_transition db record in
  let! _ := hook (inl AFTER_APPEND) in
  let! db2 := persist_some (tc_expected_state c) db1 (fun db' expected => _update_projection db' c expected) in
  let! _ := hook (inl AFTER_PROJECTION) in
  let! db3 := persist_some (op_phase_evidence op) db2 (fun db' p =>
    let! db'' := _persist_attempt_phase_evidence db' c p in
    let! _ := hook (inr AFTER_PHASE_EVIDENCE) in
    Ok db'') in
  let! db4 := persist_some (op_response_staging op) db3 (fun db' s =>
    _persist_attempt_response_staging db' c s) in
  let! db5 := persist_some (op_transport_evidence op) db4 (fun db' e =>
    let! evidence_sequence := _next_attempt_record_sequence db' (tc_run_id c) in
    let! row := attempt_record_values e (tc_timestamp c) (tc_logical_time_ns c) evidence_sequence in
    let! db'' := _insert_attempt_record db' row in
    let! _ := hook (inr AFTER_ATTEMPT_RECORD) in
    Ok db'') in
  let! db6 := persist_some (tc_attempt_outcome c ≫= outcome_retry_schedule) db5 (fun db' s =>
    _insert_retry_schedule db' (tc_run_id c) s) in
  let! db7 := if is_response_reduction c then _consume_attempt_response_staging db6 c else Ok db6 in
  let! _ := hook (inl AFTER_DERIVED_SCHEDULE) in
  Ok ({| committed_record := record; idempotent_replay := false |}, db7).

(** [_ApplyTransitionOperation.execute] *)
Definition apply_execute (db : Database) (op : _ApplyTransitionOperation)
    : result (CommittedTransition * Database) :=
  let c := op_command op in
  let! _ := _validate_payload_scope c in
  let! _ := _validate_response_staging_presence c (op_response_staging op) in
  let! _ := _validate_transport_evidence_presence c (op_transport_evidence op) in
  let! _ := _require_current_owner db c in
  let! existing := _transition_by_idempotency_key db (tc_run_id c) (tc_idempotency_key c) in
  match existing with
  | Some r => replay_existing db op r
  | None => let! _ := validate_fresh db op in write_fresh db op
  end.

(** ** The schedule claim *)

Definition retry_hooks : JsonHooks :=
  {| parse_int := fun raw =>
       let z := int_of_decimal raw in
       if within (- MAX_SAFE_INTEGER) MAX_SAFE_INTEGER z then Some (JInt z) else None;
     parse_float := fun _ => None;
     object_pairs := unique_pairs |}.

Definition _validate_retry_condition (value : bytes) (predecessor_attempt_id : str) (next_attempt_ordinal : Z)
    : result unit :=
  match ascii_decode value with
  | None => Raise IllegalTransitionError
  | Some decoded =>
    match json_loads retry_hooks decoded with
    | Some (JObject condition) =>
      raise_if (64 <? json_depth (JObject condition)) || (10000 <? json_nodes (JObject condition))
        with IllegalTransitionError ;;
      raise_if negb (json_is_text (json_get (u "predecessor_attempt_id") condition) predecessor_attempt_id)
               || negb (json_is_int (json_get (u "next_attempt_ordinal") condition) next_attempt_ordinal)
               || negb (bool_decide (json_dumps (JObject condition) = decoded)) with IllegalTransitionError ;;
      Ok tt
    | _ => Raise IllegalTransitionError
    end
  end.

(** The predecessor's row checks of [_validate_attempt_schedule_claim]. *)
Definition validate_predecessor (db : Database) (claim : AttemptScheduleClaim) (schedule : ScheduleRow)
    (predecessor : str) : result unit :=
  match attempts db !! predecessor with
  | None => Raise IllegalTransitionError
  | Some prior =>
    raise_if negb (bool_decide (at_run_id prior = se_run_id schedule))
             || negb (bool_decide (at_scenario_id prior = se_scenario_id schedule))
             || negb (bool_decide (at_event_id prior = cl_event_id claim))
             || negb (bool_decide (at_delivery_id prior = cl_delivery_id claim))
             || negb (at_ordinal prior + 1 =? se_attempt_ordinal schedule)
             || negb (bool_decide (at_state prior ∈ _RETRY_PREDECESSOR_STATES))
             || is_none (at_outcome_category prior) || is_none (at_terminal_recorded_at prior)
      with IllegalTransitionError ;;
    Ok tt
  end.

Definition _validate_attempt_schedule_claim (db : Database) (claim : AttemptScheduleClaim)
    (schedule : ScheduleRow) : result unit :=
  let c := cl_claim_transition claim in
  raise_if negb (bool_decide (se_run_id schedule = tc_run_id c)) with CrossRunReferenceError ;;
  raise_if negb (bool_decide (se_entity_type schedule = u "attempt"))
           || negb (bool_decide (se_entity_id schedule = cl_attempt_plan_id claim))
           || negb (bool_decide (tc_logical_time_ns c = Some (se_logical_time_ns schedule)))
           || negb (bool_decide (se_condition_json schedule = cl_condition_json claim))
    with IdempotencyConflictError ;;
  let! _ := validate_planned_id (se_entity_id schedule) (Some Planned_ATTEMPT_PLAN) in
  match deliveries db !! cl_delivery_id claim with
  | None => Raise IllegalTransitionError
  | Some d =>
    match scenarios db !! dl_scenario_id d with
    | None => Raise IllegalTransitionError
    | Some s =>
      raise_if negb (bool_decide (dl_run_id d = se_run_id schedule))
               || negb (bool_decide (sc_run_id s = dl_run_id d)) with IllegalTransitionError ;;
      raise_if negb (bool_decide (dl_scenario_id d = se_scenario_id schedule))
               || negb (bool_decide (dl_event_id d = cl_event_id claim))
               || negb (sc_ordinal s =? se_scenario_ordinal schedule)
               || negb (dl_step_ordinal d =? se_step_ordinal schedule)
               || negb (dl_ordinal d =? se_delivery_ordinal schedule) with IllegalTransitionError ;;
      match cl_predecessor_attempt_id claim with
      | None =>
        raise_if negb (is_none (se_condition_json schedule)) || negb (se_attempt_ordinal schedule =? 1)
          with IllegalTransitionError ;;
        Ok tt
      | Some predecessor =>
        match se_condition_json schedule with
        | None => Raise IllegalTransitionError
        | Some condition =>
          raise_if (se_attempt_ordinal schedule <? 1) with IllegalTransitionError ;;
          raise_if bool_decide (predecessor = cl_attempt_id claim) with IllegalTransitionError ;;
          let! _ := _validate_retry_condition condition predecessor (se_attempt_ordinal schedule) in
          validate_predecessor db claim schedule predecessor
        end
      end
    end
  end.

(** The row of a freshly claimed attempt. *)
Definition claimed_attempt_row (claim : AttemptScheduleClaim) (schedule : ScheduleRow) : AttemptRow :=
  let c := cl_claim_transition claim in
  {| at_run_id := tc_run_id c; at_scenario_id := se_scenario_id schedule; at_event_id := cl_event_id claim;
     at_delivery_id := cl_delivery_id claim; at_attempt_plan_id := Some (se_entity_id schedule);
     at_ordinal := se_attempt_ordinal schedule; at_state := Attempt_SCHEDULED; at_phase := None;
     at_request_blob_hash := None; at_request_headers_hash := None; at_outcome_category := None;
     at_predecessor_attempt_id := cl_predecessor_attempt_id claim;
     at_owner_epoch := Some (tc_owner_epoch c); at_terminal_recorded_at := None |}.

(** The columns a prepared or claimed attempt is compared on. *)
Definition attempt_identity (a : AttemptRow)
    : str * str * str * str * option str * Z * option str * option Z :=
  (at_run_id a, at_scenario_id a, at_event_id a, at_delivery_id a, at_attempt_plan_id a, at_ordinal a,
   at_predecessor_attempt_id a, at_owner_epoch a).

(** The foreign keys of an attempt: its delivery, and its predecessor in the same delivery. *)
Definition attempt_references_ok (db : Database) (a : AttemptRow) : bool :=
  match deliveries db !! at_delivery_id a with
  | Some d => bool_decide ((dl_run_id d, dl_scenario_id d, dl_event_id d)
                           = (at_run_id a, at_scenario_id a, at_event_id a))
  | None => false
  end
  && match at_predecessor_attempt_id a with
     | None => true
     | Some p =>
       match attempts db !! p with
       | Some q => bool_decide ((at_run_id q, at_scenario_id q, at_event_id q, at_delivery_id q)
                                = (at_run_id a, at_scenario_id a, at_event_id a, at_delivery_id a))
       | None => false
       end
     end.

(** A prepared row is accepted when it is the one the claim would insert; otherwise the row is
    inserted under PRIMARY KEY (attempt_id) and UNIQUE (delivery_id, ordinal). *)
Definition _insert_claimed_attempt (db : Database) (claim : AttemptScheduleClaim) (schedule : ScheduleRow)
    : result Database :=
  let row := claimed_attempt_row claim schedule in
  match attempts db !! cl_attempt_id claim with
  | Some prepared =>
    raise_if negb (bool_decide (attempt_identity prepared = attempt_identity row))
             || negb (bool_decide (at_state prepared = Attempt_SCHEDULED)) with IdempotencyConflictError ;;
    Ok db
  | None =>
    raise_if exists_row (attempts db) (fun _ a => bool_decide (at_delivery_id a = at_delivery_id row)
               && (at_ordinal a =? at_ordinal row))
             || negb (attempt_references_ok db row) with SqlConstraintError ;;
    Ok (with_attempts db (<[cl_attempt_id claim := row]> (attempts db)))
  end.

Definition _verify_claimed_attempt (db : Database) (claim : AttemptScheduleClaim) (schedule : ScheduleRow)
    : result unit :=
  match attempts db !! cl_attempt_id claim with
  | Some a =>
    raise_if negb (bool_decide (attempt_identity a = attempt_identity (claimed_attempt_row claim schedule)))
      with IdempotencyConflictError ;;
    Ok tt
  | None => Raise IdempotencyConflictError
  end.

Definition _verified_claim_transition (db : Database) (c : TransitionCommand) : result TransitionRecord :=
  let! existing := _transition_by_idempotency_key db (tc_run_id c) (tc_idempotency_key c) in
  match existing with
  | None => Raise IdempotencyConflictError
  | Some r =>
    raise_if negb (bool_decide (tr_transition_id r = tc_transition_id c))
             || negb (bool_decide (tr_run_id r = tc_run_id c))
             || negb (bool_decide (tr_entity_type r = Entity_ATTEMPT))
             || negb (bool_decide (tr_entity_id r = tc_entity_id c))
             || negb (bool_decide (tr_from_state r = Some (OfAttempt Attempt_SCHEDULED)))
             || negb (bool_decide (tr_to_state r = OfAttempt Attempt_CLAIMED))
             || negb (bool_decide (tr_trigger_category r = tc_trigger_category c))
             || negb (is_none (tr_causal_record_id r))
             || negb (bool_decide (tr_logical_time_ns r = tc_logical_time_ns c))
             || (tc_owner_epoch c <? tr_owner_epoch r) with IdempotencyConflictError ;;
    Ok r
  end.

Definition consume_schedule (r : ScheduleRow) (at_ : option Z) (epoch : Z) : ScheduleRow :=
  {| se_run_id := se_run_id r; se_scenario_id := se_scenario_id r; se_entity_type := se_entity_type r;
     se_entity_id := se_entity_id r; se_logical_time_ns := se_logical_time_ns r;
     se_scenario_ordinal := se_scenario_ordinal r; se_step_ordinal := se_step_ordinal r;
     se_delivery_ordinal := se_delivery_ordinal r; se_attempt_ordinal := se_attempt_ordinal r;
     se_deterministic_tie_key := se_deterministic_tie_key r; se_condition_json := se_condition_json r;
     se_idempotency_key := se_idempotency_key r; se_consumed_at := at_;
     se_consumed_by_owner_epoch := Some epoch |}.

(** [_ClaimAttemptScheduleOperation.execute] *)
Definition claim_execute (db : Database) (claim : AttemptScheduleClaim) (hook : option TransitionCrashHook)
    : result (CommittedTransition * Database) :=
  let c := cl_claim_transition claim in
  let! _ := _require_current_owner db c in
  match schedule_entries db !! cl_schedule_entry_id claim with
  | None => Raise IllegalTransitionError
  | Some schedule =>
    let! _ := _validate_attempt_schedule_claim db claim schedule in
    match se_consumed_at schedule with
    | None =>
      raise_if negb (bool_decide (se_run_id schedule = tc_run_id c))
               || negb (is_none (se_consumed_by_owner_epoch schedule)) with ProjectionIntegrityError ;;
      let db1 := with_schedule_entries db (<[cl_schedule_entry_id claim :=
        consume_schedule schedule (Some (_format_wall_time (tc_timestamp c))) (tc_owner_epoch c)]>
        (schedule_entries db)) in
      let! _ := _call_crash_hook hook (inr AFTER_SCHEDULE_CONSUMED) in
      let! db2 := _insert_claimed_attempt db1 claim schedule in
      let! _ := _call_crash_hook hook (inr AFTER_ATTEMPT_INSERT) in
      apply_execute db2 {| op_command := c; op_crash_hook := hook; op_phase_evidence := None;
                           op_response_staging := None; op_transport_evidence := None |}
    | Some _ =>
      raise_if negb (bool_decide (se_consumed_by_owner_epoch schedule = Some (tc_owner_epoch c)))
        with IdempotencyConflictError ;;
      let! _ := _verify_claimed_attempt db claim schedule in
      let! existing := _verified_claim_transition db c in
      Ok ({| committed_record := existing; idempotent_replay := true |}, db)
    end
  end.

(** ** The recovery rebind *)

(** The schedules the join selects for an attempt. *)
Definition rebind_schedules (db : Database) (a : AttemptRow) : list (str * ScheduleRow) :=
  match deliveries db !! at_delivery_id a with
  | None => []
  | Some d =>
    if bool_decide (dl_run_id d = at_run_id a) && bool_decide (dl_scenario_id d = at_scenario_id a) then
      select (schedule_entries db) (fun _ r =>
        bool_decide (se_run_id r = at_run_id a) && bool_decide (se_scenario_id r = at_scenario_id a)
        && bool_decide (se_entity_type r = u "attempt")
        && bool_decide (Some (se_entity_id r) = at_attempt_plan_id a)
        && (se_delivery_ordinal r =? dl_ordinal d) && (se_attempt_ordinal r =? at_ordinal a))
    else []
  end.

Definition set_attempt_owner (a : AttemptRow) (epoch : Z) : AttemptRow :=
  {| at_run_id := at_run_id a; at_scenario_id := at_scenario_id a; at_event_id := at_event_id a;
     at_delivery_id := at_delivery_id a; at_attempt_plan_id := at_attempt_plan_id a;
     at_ordinal := at_ordinal a; at_state := at_state a; at_phase := at_phase a;
     at_request_blob_hash := at_request_blob_hash a; at_request_headers_hash := at_request_headers_hash a;
     at_outcome_category := at_outcome_category a; at_predecessor_attempt_id := at_predecessor_attempt_id a;
     at_owner_epoch := Some epoch; at_terminal_recorded_at := at_terminal_recorded_at a |}.

(** [_RebindRecoverableAttemptOperation.execute] *)
Definition rebind_execute (db : Database) (run_id attempt_id : str) (expected_state : AttemptState)
    (owner_epoch : Z) : result Database :=
  raise_if negb (bool_decide (option_map run_owner_epoch (runs db !! run_id) = Some owner_epoch))
    with StaleOwnerEpochError ;;
  match attempts db !! attempt_id with
  | None => Raise ProjectionIntegrityError
  | Some a =>
    raise_if negb (bool_decide (at_run_id a = run_id)) with ProjectionIntegrityError ;;
    match rebind_schedules db a with
    | [(schedule_id, schedule)] =>
      raise_if negb (bool_decide (at_state a = expected_state)) with IllegalTransitionError ;;
      match at_owner_epoch a with
      | None => Raise ProjectionIntegrityError
      | Some attempt_owner =>
        raise_if (owner_epoch <? attempt_owner) with StaleOwnerEpochError ;;
        let! db1 :=
          if bool_decide (expected_state = Attempt_SCHEDULED) then
            raise_if negb (is_none (se_consumed_at schedule))
                     || negb (is_none (se_consumed_by_owner_epoch schedule)) with ProjectionIntegrityError ;;
            Ok db
          else
            match se_consumed_at schedule, se_consumed_by_owner_epoch schedule with
            | Some at_, Some consumed_epoch =>
              raise_if negb (consumed_epoch =? attempt_owner) with ProjectionIntegrityError ;;
              raise_if (owner_epoch <? consumed_epoch) with StaleOwnerEpochError ;;
              Ok (with_schedule_entries db (<[schedule_id := consume_schedule schedule (Some at_) owner_epoch]>
                    (schedule_entries db)))
            | _, _ => Raise ProjectionIntegrityError
            end in
        Ok (with_attempts db1 (<[attempt_id := set_attempt_owner a owner_epoch]> (attempts db1)))
      end
    | _ => Raise ProjectionIntegrityError
    end
  end.

(** ** History, inventory and audit *)

(** [WHERE run_id = ? AND sequence > ? ORDER BY sequence LIMIT 1000], and the same for one
    entity. *)
Definition history_page (db : Database) (run_id : str) (entity : option (EntityType * str)) (last : Z)
    : list TransitionRow :=
  take INVENTORY_PAGE_SIZE
    (py_sorted tw_sequence (List.filter (fun w =>
       bool_decide (tw_run_id w = run_id)
       && match entity with
          | None => true
          | Some (e, id) => bool_decide (tw_entity_type w = EntityType_value e) && bool_decide (tw_entity_id w = id)
          end
       && (last <? tw_sequence w)) (transitions db))).

(** The [while True] loop; each page but the last has a thousand rows. *)
Fixpoint history_loop (fuel : nat) (db : Database) (run_id : str) (entity : option (EntityType * str))
    (last : Z) (records : list TransitionRecord) : result (list TransitionRecord) :=
  match fuel with
  | O => Raise RuntimeError
  | S fuel' =>
    let page := history_page db run_id entity last in
    if bool_decide (length page = 0%nat) then Ok records
    else
      let! rows := map_result _record_from_row page in
      let records' := records ++ rows in
      raise_if (MAX_REPLAY_TRANSITIONS <? zlen records') with ProjectionIntegrityError ;;
      if bool_decide ((length page < INVENTORY_PAGE_SIZE)%nat) then Ok records'
      else history_loop fuel' db run_id entity (fold_left (fun _ r => tr_sequence r) rows last) records'
  end.

Definition _load_transition_history (db : Database) (run_id : str) (entity : option (EntityType * str))
    : result (list TransitionRecord) :=
  history_loop (S (length (transitions db))) db run_id entity 0 [].

(** The rows of one projection table that belong to a run, by identifier. *)
Definition table_states (db : Database) (e : EntityType) (run_id : str) : list (str * LifecycleState) :=
  let own {A} (t : gmap str A) (run : str -> A -> str) (st : A -> LifecycleState) :=
    map (fun kv => (kv.1, st kv.2)) (select t (fun k r => bool_decide (run k r = run_id))) in
  py_sorted fst
    match e with
    | Entity_RUN => own (runs db) (fun k _ => k) (fun r => OfRun (run_state r))
    | Entity_SCENARIO => own (scenarios db) (fun _ => sc_run_id) (fun r => OfScenario (sc_state r))
    | Entity_DELIVERY => own (deliveries db) (fun _ => dl_run_id) (fun r => OfDelivery (dl_state r))
    | Entity_ATTEMPT => own (attempts db) (fun _ => at_run_id) (fun r => OfAttempt (at_state r))
    | Entity_OBSERVATION => own (observer_series db) (fun _ => ob_run_id) (fun r => OfObservation (ob_state r))
    | Entity_ASSERTION => own (assertions db) (fun _ => as_run_id) (fun r => OfAssertion (as_state r))
    end.

(** [WHERE run_id = ? AND id > ? ORDER BY id LIMIT 1000] *)
Definition inventory_page (db : Database) (e : EntityType) (run_id last : str) : list (str * LifecycleState) :=
  take INVENTORY_PAGE_SIZE (List.filter (fun kv => cmp_ltb last kv.1) (table_states db e run_id)).

Fixpoint inventory_loop (fuel : nat) (db : Database) (run_id : str) (e : EntityType) (last : str)
    (acc : list ProjectionState) : result (list ProjectionState) :=
  match fuel with
  | O => Raise RuntimeError
  | S fuel' =>
    let page := inventory_page db e run_id last in
    if bool_decide (length page = 0%nat) then Ok acc
    else
      let acc' := acc ++ map (fun kv => {| ps_run_id := run_id; ps_entity_type := e; ps_entity_id := kv.1;
                                           ps_state := kv.2 |}) page in
      raise_if (MAX_REPLAY_TRANSITIONS <? zlen acc') with ProjectionIntegrityError ;;
      if bool_decide ((length page < INVENTORY_PAGE_SIZE)%nat) then Ok acc'
      else inventory_loop fuel' db run_id e (fold_left (fun _ kv => kv.1) page last) acc'
  end.

Definition _load_projection_inventory (db : Database) (run_id : str) : result (list ProjectionState) :=
  for_each (fun acc e => inventory_loop (S (length (table_states db e run_id))) db run_id e [] acc)
    [] EntityType_members.

(** [_ProjectionAuditOperation.execute] *)
Definition audit_execute (db : Database) (run_id : str) : result ProjectionAudit :=
  let! _ := _require_run_exists db run_id in
  let! projected := _load_projection_inventory db run_id in
  let! history := _load_transition_history db run_id None in
  let! replayed := replay_transition_records history in
  compare_projection_inventories projected replayed.

(** ** Transactions

    [JournalService.execute] commits an operation's writes or, when it raises, rolls all of
    them back. *)
Definition in_transaction {A} (db : Database) (r : result (A * Database)) : result A * Database :=
  match r with
  | Ok (a, db') => (Ok a, db')
  | Raise e => (Raise e, db)
  end.
