(* ===== verification/Schedules.v ===== *)
(** * Pending schedules and the completion of a run

    [journal/schedules.py]: the repository through which the runner reads the work that is due and
    finishes a run.  An entry is pending while it is not consumed, and after it was consumed for as
    long as the attempt it was claimed for has not left [claimed] under the run's current owner:
    a process that stops between the claim and the first byte finds its work again. *)

From S2P Require Import Prelude Text Identifiers Domain Clocks Lifecycle Replay Commands Json Store Journal.

Local Open Scope Z_scope.

Definition _MAX_SCHEDULE_ENTRY_ID : Z := 96.
Definition _MAX_TIE_KEY : Z := 256.

(** ** Pending entries *)

Record PersistedScheduleEntry := {
  pe_schedule_entry_id : str; pe_run_id : str; pe_scenario_id : str; pe_attempt_plan_id : str;
  pe_logical_due_ns : Z; pe_scenario_ordinal : Z; pe_step_ordinal : Z; pe_delivery_ordinal : Z;
  pe_attempt_ordinal : Z; pe_deterministic_tie_key : str; pe_condition_json : option bytes;
  pe_predecessor_attempt_id : option str; pe_prepared_attempt_id : option str
}.

Definition validate_attempt_id (id : option str) : result unit :=
  match id with
  | None => Ok tt
  | Some a => let! _ := validate_fresh_id a (Some Fresh_ATTEMPT) in Ok tt
  end.

Definition validate_schedule_entry (e : PersistedScheduleEntry) : result PersistedScheduleEntry :=
  let! _ := validate_run_id (pe_run_id e) in
  let! _ := validate_planned_id (pe_scenario_id e) (Some Planned_SCENARIO) in
  let! _ := validate_planned_id (pe_attempt_plan_id e) (Some Planned_ATTEMPT_PLAN) in
  raise_if negb (within 1 _MAX_SCHEDULE_ENTRY_ID (zlen (pe_schedule_entry_id e))) with ValueError ;;
  raise_if negb (within (- MAX_SAFE_INTEGER) MAX_SAFE_INTEGER (pe_logical_due_ns e)) with ValueError ;;
  raise_if negb (forallb (within 0 MAX_SAFE_INTEGER)
    [pe_scenario_ordinal e; pe_step_ordinal e; pe_delivery_ordinal e; pe_attempt_ordinal e]) with ValueError ;;
  raise_if negb (within 1 _MAX_TIE_KEY (zlen (pe_deterministic_tie_key e))) with ValueError ;;
  raise_if match pe_condition_json e with Some c => MAX_CONDITION_BYTES <? zlen c | None => false end with ValueError ;;
  let! _ := validate_attempt_id (pe_predecessor_attempt_id e) in
  let! _ := validate_attempt_id (pe_prepared_attempt_id e) in
  raise_if negb (eqb (pe_attempt_ordinal e =? 1) (is_none (pe_predecessor_attempt_id e))) with ValueError ;;
  Ok e.

(** [order_key] *)
Definition entry_order_key (e : PersistedScheduleEntry) : Z * (Z * (Z * (Z * (Z * (str * str))))) :=
  (pe_logical_due_ns e, (pe_scenario_ordinal e, (pe_step_ordinal e, (pe_delivery_ordinal e,
   (pe_attempt_ordinal e, (pe_deterministic_tie_key e, pe_schedule_entry_id e)))))).

(** ** Reading a row *)

(** [json.loads] with the interpreter's limit on the digits of an integer, floats refused. *)
Definition condition_hooks : JsonHooks :=
  {| parse_int := fun raw =>
       if 4300 <? zlen (List.filter is_decimal raw) then None else Some (JInt (int_of_decimal raw));
     parse_float := fun _ => None;
     object_pairs := dict_pairs |}.

Definition _predecessor (condition : option bytes) : result (option str) :=
  match condition with
  | None => Ok None
  | Some blob =>
    match ascii_decode blob ≫= json_loads condition_hooks with
    | None => Raise RuntimeError
    | Some (JObject mapping) =>
      match json_get (u "predecessor_attempt_id") mapping with
      | Some (JString predecessor) =>
        let! _ := validate_fresh_id predecessor (Some Fresh_ATTEMPT) in Ok (Some predecessor)
      | _ => Raise RuntimeError
      end
    | Some _ => Raise TypeError
    end
  end.

(** [_text] of a text column. *)
Definition row_text (value : str) : result str :=
  raise_if bool_decide (value = []) with RuntimeError ;; Ok value.

Definition _schedule_entry (id : str) (e : ScheduleRow) (prepared : option str) : result PersistedScheduleEntry :=
  let! entity_type := row_text (se_entity_type e) in
  raise_if negb (bool_decide (entity_type = u "attempt")) with RuntimeError ;;
  let! schedule_entry_id := row_text id in
  let! run_id := row_text (se_run_id e) in
  let! scenario_id := row_text (se_scenario_id e) in
  let! attempt_plan_id := row_text (se_entity_id e) in
  let! tie_key := row_text (se_deterministic_tie_key e) in
  let! predecessor := _predecessor (se_condition_json e) in
  let! prepared_attempt_id :=
    match prepared with None => Ok None | Some a => let! t := row_text a in Ok (Some t) end in
  validate_schedule_entry
    {| pe_schedule_entry_id := schedule_entry_id; pe_run_id := run_id; pe_scenario_id := scenario_id;
       pe_attempt_plan_id := attempt_plan_id; pe_logical_due_ns := se_logical_time_ns e;
       pe_scenario_ordinal := se_scenario_ordinal e; pe_step_ordinal := se_step_ordinal e;
       pe_delivery_ordinal := se_delivery_ordinal e; pe_attempt_ordinal := se_attempt_ordinal e;
       pe_deterministic_tie_key := tie_key; pe_condition_json := se_condition_json e;
       pe_predecessor_attempt_id := predecessor; pe_prepared_attempt_id := prepared_attempt_id |}.

(** ** The query *)

(** A left join: every match, or one row without one. *)
Definition left_join {A} (matches : list A) : list (option A) :=
  match matches with [] => [None] | _ => map Some matches end.

Definition joined_deliveries (db : Database) (e : ScheduleRow) : list (option str) :=
  left_join (map fst (select (deliveries db) (fun _ d =>
    bool_decide (dl_run_id d = se_run_id e) && bool_decide (dl_scenario_id d = se_scenario_id e)
    && (dl_ordinal d =? se_delivery_ordinal e)))).

(** [attempts] joined to an entry and one of its deliveries. *)
Definition prepares (e : ScheduleRow) (delivery : option str) (a : AttemptRow) : bool :=
  bool_decide (at_run_id a = se_run_id e) && bool_decide (at_scenario_id a = se_scenario_id e)
  && bool_decide (Some (at_delivery_id a) = delivery) && bool_decide (at_attempt_plan_id a = Some (se_entity_id e))
  && (at_ordinal a =? se_attempt_ordinal e) && bool_decide (at_state a ∈ [Attempt_SCHEDULED; Attempt_CLAIMED]).
Definition joined_attempts (db : Database) (e : ScheduleRow) (delivery : option str) : list (option (str * AttemptRow)) :=
  left_join (select (attempts db) (fun _ a => prepares e delivery a)).

(** The [WHERE] clause. *)
Definition is_open (epoch : Z) (e : ScheduleRow) (a : option (str * AttemptRow)) : bool :=
  is_none (se_consumed_at e)
  || (match a with Some (_, row) => bool_decide (at_state row = Attempt_CLAIMED) | None => false end
      && bool_decide (se_consumed_by_owner_epoch e = Some epoch)).

(** The rows of one entry: its identifier, its columns and the attempt prepared for it. *)
Definition entry_rows (db : Database) (epoch : Z) (id : str) (e : ScheduleRow) : list (str * ScheduleRow * option str) :=
  d ← joined_deliveries db e;
  map (fun a => (id, e, option_map fst a)) (List.filter (is_open epoch e) (joined_attempts db e d)).

Definition row_order_key (r : str * ScheduleRow * option str) : Z * (Z * (Z * (Z * (Z * (str * str))))) :=
  let e := r.1.2 in
  (se_logical_time_ns e, (se_scenario_ordinal e, (se_step_ordinal e, (se_delivery_ordinal e,
   (se_attempt_ordinal e, (se_deterministic_tie_key e, r.1.1)))))).

Definition pending_rows (db : Database) (run_id : str) (epoch : Z) : list (str * ScheduleRow * option str) :=
  py_sorted row_order_key
    (kv ← select (schedule_entries db) (fun _ e => bool_decide (se_run_id e = run_id)); entry_rows db epoch kv.1 kv.2).

(** [_PendingScheduleOperation.execute] *)
Definition pending_execute (db : Database) (run_id : str) : result (list PersistedScheduleEntry) :=
  match runs db !! run_id with
  | None => Raise RuntimeError
  | Some run =>
    let! entries := map_result (fun r => _schedule_entry r.1.1 r.1.2 r.2) (pending_rows db run_id (run_owner_epoch run)) in
    let keys := map entry_order_key entries in
    raise_if negb (bool_decide (keys = py_sorted (fun k => k) keys)) with RuntimeError ;;
    Ok entries
  end.

(** [PersistentScheduleRepository.pending] *)
Definition pending_schedule (db : Database) (run_id : str) : result (list PersistedScheduleEntry) :=
  let! _ := validate_run_id run_id in pending_execute db run_id.

(** ** Completion *)

Definition _RUN_STATE_BY_RESULT (c : ResultCategory) : result RunState :=
  match c with
  | Category_PASS | Category_RECEIVER_FAILURE | Category_ENVIRONMENT_ERROR | Category_UNSUPPORTED => Ok Run_COMPLETED
  | Category_CANCELLED => Ok Run_CANCELLED
  | Category_HARNESS_ERROR | Category_INVALID_INPUT => Ok Run_FAILED
  | Category_AMBIGUOUS => Raise KeyError
  end.

(** A number written with ASCII digits. *)
Definition ascii_number (digits : str) : option Z :=
  if forallb is_decimal digits then Some (fold_left (fun acc c => acc * 10 + (Z.of_N c - 48)) digits 0) else None.
Definition number_within (lo hi : Z) (digits : str) : bool :=
  match ascii_number digits with Some v => within lo hi v | None => false end.

Definition days_in_month (year month : Z) : Z :=
  if month =? 2 then (if (year mod 4 =? 0) && (negb (year mod 100 =? 0) || (year mod 400 =? 0)) then 29 else 28)
  else if bool_decide (month ∈ [4; 6; 9; 11]) then 30 else 31.

(** An optional fraction of one to six digits, and the final Z. *)
Definition utc_tail (tail : str) : bool :=
  match tail with
  | c :: rest =>
    if (c =? 90)%N then bool_decide (rest = [])
    else if (c =? 46)%N then
      let digits := removelast rest in
      bool_decide (List.last rest 0%N = 90%N) && within 1 6 (zlen digits) && forallb is_decimal digits
    else false
  | [] => false
  end.

(** [_parse_timestamp]: the pattern and the calendar; digits outside ASCII, which the pattern lets
    through, are refused by [datetime.fromisoformat]. *)
Definition _parse_timestamp (value : str) : result unit :=
  match value with
  | y1 :: y2 :: y3 :: y4 :: c1 :: m1 :: m2 :: c2 :: d1 :: d2 :: c3 :: h1 :: h2 :: c4 :: n1 :: n2 :: c5 :: s1 :: s2 :: tail =>
    raise_if negb (bool_decide ([c1; c2; c3; c4; c5] = u "--T::") && utc_tail tail) with ValueError ;;
    raise_if negb (number_within 1 9999 [y1; y2; y3; y4] && number_within 1 12 [m1; m2] && number_within 1 31 [d1; d2]
                   && number_within 0 23 [h1; h2] && number_within 0 59 [n1; n2] && number_within 0 59 [s1; s2])
      with ValueError ;;
    match ascii_number [y1; y2; y3; y4], ascii_number [m1; m2], ascii_number [d1; d2] with
    | Some year, Some month, Some day => raise_if days_in_month year month <? day with ValueError ;; Ok tt
    | _, _, _ => Raise ValueError
    end
  | _ => Raise ValueError
  end.

Record FullRunCompletionRequest := {
  fr_run_id : str; fr_owner_epoch : Z; fr_result_category : ResultCategory; fr_completed_at : str;
  fr_transition : TransitionCommand
}.
Definition validate_completion_request (q : FullRunCompletionRequest) : result FullRunCompletionRequest :=
  let! _ := validate_run_id (fr_run_id q) in
  raise_if negb (within 0 MAX_OWNER_EPOCH (fr_owner_epoch q)) with ValueError ;;
  raise_if bool_decide (fr_result_category q = Category_AMBIGUOUS) with ValueError ;;
  let! _ := _parse_timestamp (fr_completed_at q) in
  let! expected_state := _RUN_STATE_BY_RESULT (fr_result_category q) in
  let c := fr_transition q in
  raise_if negb (bool_decide (tc_run_id c = fr_run_id q)) || negb (bool_decide (tc_entity_type c = Entity_RUN))
           || negb (bool_decide (tc_entity_id c = fr_run_id q))
           || negb (bool_decide (tc_expected_state c = Some (OfRun Run_RUNNING)))
           || negb (bool_decide (tc_new_state c = OfRun expected_state))
           || negb (tc_owner_epoch c =? fr_owner_epoch q) with ValueError ;;
  Ok q.

Definition completion_op (q : FullRunCompletionRequest) : _ApplyTransitionOperation :=
  {| op_command := fr_transition q; op_crash_hook := None; op_phase_evidence := None; op_response_staging := None;
     op_transport_evidence := None |}.

(** The [UPDATE] of the terminal columns. *)
Definition set_terminal (category at_ : str) (r : RunRow) : RunRow :=
  {| run_state := run_state r; run_owner_epoch := run_owner_epoch r; run_terminal_category := Some category;
     run_terminal_at := Some at_ |}.
Definition with_terminal (db : Database) (run_id category at_ : str) (r : RunRow) : Database :=
  with_runs db (<[run_id := set_terminal category at_ r]> (runs db)).
Definition terminal_open (category at_ : str) (r : RunRow) : bool :=
  (is_none (run_terminal_category r) && is_none (run_terminal_at r))
  || (bool_decide (run_terminal_category r = Some category) && bool_decide (run_terminal_at r = Some at_)).

(** [_FinalizeFullRunOperation.execute] *)
Definition finalize_execute (db : Database) (q : FullRunCompletionRequest) : result Database :=
  let category := ResultCategory_value (fr_result_category q) in
  let! done := apply_execute db (completion_op q) in
  match runs done.2 !! fr_run_id q with
  | Some r =>
    raise_if negb (terminal_open category (fr_completed_at q) r) with RuntimeError ;;
    Ok (with_terminal done.2 (fr_run_id q) category (fr_completed_at q) r)
  | None => Raise RuntimeError
  end.

Example timestamp_ok_example : _parse_timestamp (u "2024-02-29T23:59:59.125Z") = Ok tt.
Proof. vm_compute. reflexivity. Qed.
Example timestamp_day : _parse_timestamp (u "2023-02-29T00:00:00Z") = Raise ValueError.
Proof. vm_compute. reflexivity. Qed.
Example timestamp_fraction : _parse_timestamp (u "2023-02-28T00:00:00.Z") = Raise ValueError.
Proof. vm_compute. reflexivity. Qed.
