(* ===== verification/Demo.v ===== *)
(** * A worked run

    A concrete journal (one run, scenario, delivery and assertion with one schedule entry) and
    the calls a successful run makes on it: the claim, the attempt's way through transport to a
    received response, and the settlement of delivery, assertion, scenario and run.  The
    witnesses of the journal's theorems evaluate it. *)

From S2P Require Import Prelude Identifiers Domain Clocks Lifecycle Replay Commands Json Store Journal Schedules.

Local Open Scope Z_scope.

(** ** Calls on the repository *)

(** One call of a client, and the database its transaction leaves. *)
Inductive journal_call :=
  | CallApply (op : _ApplyTransitionOperation)
  | CallClaim (claim : AttemptScheduleClaim) (hook : option TransitionCrashHook)
  | CallRebind (run id : str) (st : AttemptState) (epoch : Z)
  | CallFinalize (q : FullRunCompletionRequest).

Definition journal_exec (db : Database) (call : journal_call) : Database :=
  match call with
  | CallApply op => (in_transaction db (apply_execute db op)).2
  | CallClaim claim hook => (in_transaction db (claim_execute db claim hook)).2
  | CallRebind run id st epoch =>
    (in_transaction db (let! db1 := rebind_execute db run id st epoch in Ok (tt, db1))).2
  | CallFinalize q => (in_transaction db (let! db1 := finalize_execute db q in Ok (tt, db1))).2
  end.

Definition call_succeeds (db : Database) (call : journal_call) : bool :=
  match call with
  | CallApply op => is_ok (apply_execute db op)
  | CallClaim claim hook => is_ok (claim_execute db claim hook)
  | CallRebind run id st epoch => is_ok (rebind_execute db run id st epoch)
  | CallFinalize q => is_ok (finalize_execute db q)
  end.

(** How many calls of a sequence committed. *)
Fixpoint committed_calls (db : Database) (calls : list journal_call) : nat :=
  match calls with
  | [] => 0
  | call :: rest => Nat.b2n (call_succeeds db call) + committed_calls (journal_exec db call) rest
  end.

(** ** The start *)

Definition demo_run : str := u "123e4567-e89b-42d3-a456-426614174000".
Definition demo_payload : str := u "01ARZ3NDEKTSV4RRFFQ69G5FAV".
Definition demo_scenario : str := u "scenario_" ++ demo_payload.
Definition demo_event : str := u "event_" ++ demo_payload.
Definition demo_delivery : str := u "delivery_" ++ demo_payload.
Definition demo_plan : str := u "attempt_plan_" ++ demo_payload.
Definition demo_assertion : str := u "assertion_" ++ demo_payload.
Definition demo_attempt : str := u "attempt_" ++ demo_payload.
Definition demo_record : str := u "record_" ++ demo_payload.
Definition demo_schedule : str := u "schedule-1".
Definition demo_digest : str := u "sha256:0123456789abcdef0123456789abcdef0123456789abcdef0123456789abcdef".

Definition demo_entry : ScheduleRow :=
  {| se_run_id := demo_run; se_scenario_id := demo_scenario;
       se_entity_type := u "attempt"; se_entity_id := demo_plan; se_logical_time_ns := 5;
       se_scenario_ordinal := 0; se_step_ordinal := 1; se_delivery_ordinal := 2; se_attempt_ordinal := 1;
       se_deterministic_tie_key := u "tie"; se_condition_json := None; se_idempotency_key := u "s1";
       se_consumed_at := None; se_consumed_by_owner_epoch := None |}.

Definition demo_db : Database :=
  {| runs := {[demo_run := {| run_state := Run_RUNNING; run_owner_epoch := 3;
       run_terminal_category := None; run_terminal_at := None |}]};
     scenarios := {[demo_scenario := {| sc_run_id := demo_run; sc_ordinal := 0; sc_state := Scenario_RUNNING |}]};
     deliveries := {[demo_delivery := {| dl_run_id := demo_run; dl_scenario_id := demo_scenario;
       dl_event_id := demo_event; dl_ordinal := 2; dl_step_ordinal := 1; dl_state := Delivery_ELIGIBLE;
       dl_required := true |}]};
     attempts := ∅; observer_series := ∅;
     assertions := {[demo_assertion := {| as_run_id := demo_run; as_scenario_id := demo_scenario;
       as_policy_json := None; as_required := true; as_state := Assertion_RUNNING |}]};
     transitions := [];
     schedule_entries := {[demo_schedule := demo_entry]};
     attempt_records := ∅; attempt_response_staging := ∅ |}.

(** ** The calls *)

Definition demo_time (us : Z) : TransitionTimestamp :=
  {| wall_time := {| dt_instant_us := us; dt_utcoffset_us := Some 0 |}; ts_monotonic_elapsed_ns := Some us |}.

(** A command of the demo run; [n] numbers its identifier and key. *)
Definition demo_command (n : Z) (e : EntityType) (id : str) (from to : LifecycleState) : TransitionCommand :=
  {| tc_run_id := demo_run; tc_transition_id := u "t" ++ [Z.to_N (97 + n)]; tc_entity_type := e;
     tc_entity_id := id; tc_expected_state := Some from; tc_new_state := to;
     tc_trigger_category := u "scheduler"; tc_timestamp := demo_time n; tc_owner_epoch := 3;
     tc_idempotency_key := u "k" ++ [Z.to_N (97 + n)]; tc_causal_reference := None;
     tc_logical_time_ns := Some 5; tc_delivery_satisfaction := None; tc_attempt_outcome := None |}.

Definition demo_op (c : TransitionCommand) : _ApplyTransitionOperation :=
  {| op_command := c; op_crash_hook := None; op_phase_evidence := None; op_response_staging := None;
     op_transport_evidence := None |}.

Definition demo_claim : AttemptScheduleClaim :=
  {| cl_schedule_entry_id := demo_schedule; cl_attempt_id := demo_attempt; cl_attempt_plan_id := demo_plan;
     cl_event_id := demo_event; cl_delivery_id := demo_delivery; cl_predecessor_attempt_id := None;
     cl_condition_json := None;
     cl_claim_transition := demo_command 1 Entity_ATTEMPT demo_attempt
       (OfAttempt Attempt_SCHEDULED) (OfAttempt Attempt_CLAIMED) |}.

(** A phase of the attempt, with its evidence. *)
Definition demo_phase (n : Z) (from to : AttemptState) (p : AttemptPhaseEvidence) : _ApplyTransitionOperation :=
  {| op_command := demo_command n Entity_ATTEMPT demo_attempt (OfAttempt from) (OfAttempt to);
     op_crash_hook := None;
     op_phase_evidence := Some {| ph_phase := p; ph_request_blob_hash := Some demo_digest;
                                  ph_request_headers_hash := Some demo_digest |};
     op_response_staging := None; op_transport_evidence := None |}.

Definition demo_evidence : AttemptTransportEvidenceCommand :=
  {| ev_record_id := demo_record; ev_run_id := demo_run; ev_scenario_id := demo_scenario;
     ev_event_id := demo_event; ev_delivery_id := demo_delivery; ev_attempt_id := demo_attempt;
     ev_state := Evidence_ACKNOWLEDGED; ev_classification := Class_RECEIVER_ACCEPTED;
     ev_request := Some {| req_method := u "POST"; req_url_redacted := u "http://127.0.0.1/hook";
       req_body_sha256 := demo_digest; req_byte_length := 17;
       req_header_names := [u "content-type"; u "x-signature"] |};
     ev_response := Some {| resp_status := 204; resp_body_sha256 := Some demo_digest;
       resp_captured_bytes := 0; resp_truncated := false |};
     ev_error := None; ev_response_headers_elapsed_ns := Some 900 |}.
Definition demo_outcome : AttemptTerminalOutcome :=
  {| outcome_classification := Class_RECEIVER_ACCEPTED; outcome_retry_schedule := None |}.

(** The response is staged, then reduced to the terminal outcome. *)
Definition demo_staging : _ApplyTransitionOperation :=
  {| op_command := demo_command 6 Entity_ATTEMPT demo_attempt
       (OfAttempt Attempt_AWAITING_RESPONSE) (OfAttempt Attempt_RESPONSE_OBSERVED);
     op_crash_hook := None;
     op_phase_evidence := Some {| ph_phase := Phase_RESPONSE_OBSERVED; ph_request_blob_hash := None;
                                  ph_request_headers_hash := None |};
     op_response_staging := Some {| st_terminal_state := Attempt_SUCCEEDED;
       st_terminal_outcome := demo_outcome; st_transport_evidence := demo_evidence |};
     op_transport_evidence := None |}.
Definition with_outcome (c : TransitionCommand) (o : AttemptTerminalOutcome) : TransitionCommand :=
  {| tc_run_id := tc_run_id c; tc_transition_id := tc_transition_id c; tc_entity_type := tc_entity_type c;
     tc_entity_id := tc_entity_id c; tc_expected_state := tc_expected_state c; tc_new_state := tc_new_state c;
     tc_trigger_category := tc_trigger_category c; tc_timestamp := tc_timestamp c;
     tc_owner_epoch := tc_owner_epoch c; tc_idempotency_key := tc_idempotency_key c;
     tc_causal_reference := tc_causal_reference c; tc_logical_time_ns := tc_logical_time_ns c;
     tc_delivery_satisfaction := tc_delivery_satisfaction c; tc_attempt_outcome := Some o |}.
Definition demo_terminal : _ApplyTransitionOperation :=
  {| op_command := with_outcome (demo_command 7 Entity_ATTEMPT demo_attempt
       (OfAttempt Attempt_RESPONSE_OBSERVED) (OfAttempt Attempt_SUCCEEDED)) demo_outcome;
     op_crash_hook := None; op_phase_evidence := None; op_response_staging := None;
     op_transport_evidence := Some demo_evidence |}.

Definition demo_cause : CausalReference := {| cause_run_id := demo_run; cause_record_id := demo_attempt |}.
Definition demo_satisfied : TransitionCommand :=
  let c := demo_command 8 Entity_DELIVERY demo_delivery (OfDelivery Delivery_ACTIVE) (OfDelivery Delivery_SATISFIED) in
  {| tc_run_id := tc_run_id c; tc_transition_id := tc_transition_id c; tc_entity_type := tc_entity_type c;
     tc_entity_id := tc_entity_id c; tc_expected_state := tc_expected_state c; tc_new_state := tc_new_state c;
     tc_trigger_category := TRIGGER_ATTEMPT_OUTCOME; tc_timestamp := tc_timestamp c;
     tc_owner_epoch := tc_owner_epoch c; tc_idempotency_key := tc_idempotency_key c;
     tc_causal_reference := Some demo_cause; tc_logical_time_ns := tc_logical_time_ns c;
     tc_delivery_satisfaction := Some {| satisfaction_kind := Satisfied_ATTEMPT; satisfaction_cause := demo_cause |};
     tc_attempt_outcome := None |}.

(** Completing the run before its delivery is settled is refused. *)
Definition demo_completion (n : Z) : TransitionCommand :=
  demo_command n Entity_RUN demo_run (OfRun Run_RUNNING) (OfRun Run_COMPLETED).

Definition demo_send : list journal_call :=
  [CallApply (demo_op (demo_command 0 Entity_DELIVERY demo_delivery
     (OfDelivery Delivery_ELIGIBLE) (OfDelivery Delivery_ACTIVE)));
   CallClaim demo_claim None;
   CallRebind demo_run demo_attempt Attempt_CLAIMED 3;
   CallApply (demo_phase 2 Attempt_CLAIMED Attempt_PRE_SEND_COMMITTED Phase_CONTROLLED_PRE_TRANSPORT);
   CallApply (demo_phase 3 Attempt_PRE_SEND_COMMITTED Attempt_CONNECTING Phase_CONNECTION_ATTEMPT_STARTED);
   CallApply (demo_phase 4 Attempt_CONNECTING Attempt_SENDING Phase_REQUEST_SEND_STARTED);
   CallApply (demo_phase 5 Attempt_SENDING Attempt_AWAITING_RESPONSE Phase_AWAITING_RESPONSE);
   CallApply demo_staging;
   CallApply (demo_op (demo_completion 9));
   CallApply demo_terminal].

Definition demo_settle : list journal_call :=
  [CallApply (demo_op demo_satisfied);
   CallApply (demo_op (demo_command 10 Entity_ASSERTION demo_assertion
     (OfAssertion Assertion_RUNNING) (OfAssertion Assertion_PASSED)));
   CallApply (demo_op (demo_command 11 Entity_SCENARIO demo_scenario
     (OfScenario Scenario_RUNNING) (OfScenario Scenario_PASSED)));
   CallApply (demo_op (demo_completion 9))].

Definition demo_calls : list journal_call := demo_send ++ demo_settle.
Definition demo_sent : Database := Eval vm_compute in fold_left journal_exec demo_send demo_db.
Definition demo_end : Database := Eval vm_compute in fold_left journal_exec demo_calls demo_db.
