(* ===== verification/Ledger.v ===== *)
(** * The ledger invariant

    What a committed operation of the transition repository does to the database, table by
    table, and the invariant that ties the append-only ledger to the live projections: every
    entity's records form a linked chain of authoritative transitions that ends in the state
    its projection row holds, sequence numbers increase within a run, and transition
    identifiers and idempotency keys are unique.  The invariant holds in every database that is
    reachable from an empty ledger by applying, claiming and rebinding, failed operations and
    failpoints included. *)

From S2P Require Import Prelude Domain Clocks Identifiers Lifecycle Replay Commands Json Store Journal Schedules Demo.

Local Open Scope Z_scope.

(** ** Effect of the writes *)

(** The columns of an attempt that phase evidence leaves alone. *)
Definition attempt_core (a : AttemptRow) :=
  (attempt_identity a, at_state a, at_outcome_category a, at_terminal_recorded_at a).

Lemma set_phase_core a p : attempt_core (set_phase a p) = attempt_core a.
Proof. done. Qed.

(** The part of the database the evidence writes never touch. *)
Record same_projections (db db' : Database) : Prop := {
  sp_runs : runs db' = runs db;
  sp_scenarios : scenarios db' = scenarios db;
  sp_deliveries : deliveries db' = deliveries db;
  sp_series : observer_series db' = observer_series db;
  sp_assertions : assertions db' = assertions db;
  sp_transitions : transitions db' = transitions db;
  sp_attempts : forall id, option_map attempt_core (attempts db' !! id) = option_map attempt_core (attempts db !! id)
}.

#[global] Instance same_projections_refl : Reflexive same_projections.
Proof. by split. Qed.
#[global] Instance same_projections_trans : Transitive same_projections.
Proof. intros a b c [] []. split; congruence. Qed.

Lemma persist_phase_effect db c p db' :
  _persist_attempt_phase_evidence db c p = Ok db' ->
  same_projections db db' /\ schedule_entries db' = schedule_entries db /\
  attempt_records db' = attempt_records db /\ attempt_response_staging db' = attempt_response_staging db.
Proof.
  unfold _persist_attempt_phase_evidence. intros H. py_step H.
  destruct (attempts db !! tc_entity_id c) as [row|] eqn:Ea; [|done]. case_match; [|done].
  injection H as <-. simpl. split_and!; [|done..]. split; simpl; try done.
  intros id. destruct (decide (id = tc_entity_id c)) as [->|Hne].
  - by rewrite lookup_insert_eq, Ea.
  - by rewrite lookup_insert_ne.
Qed.

Lemma persist_staging_effect db c s db' :
  _persist_attempt_response_staging db c s = Ok db' ->
  same_projections db db' /\ schedule_entries db' = schedule_entries db /\
  attempt_records db' = attempt_records db.
Proof.
  unfold _persist_attempt_response_staging. intros H. do 4 py_step H. injection H as <-. by repeat split.
Qed.

Lemma insert_record_effect db row db' :
  _insert_attempt_record db row = Ok db' ->
  same_projections db db' /\ schedule_entries db' = schedule_entries db /\
  attempt_records db' = <[ar_record_id row := row]> (attempt_records db) /\
  attempt_records db !! ar_record_id row = None.
Proof.
  unfold _insert_attempt_record. intros H. py_step H. injection H as <-.
  apply orb_false_iff in E as [E _]. split_and!; [by repeat split|done..|].
  by destruct (attempt_records db !! ar_record_id row).
Qed.

Lemma insert_retry_effect db run s db' :
  _insert_retry_schedule db run s = Ok db' ->
  same_projections db db' /\ attempt_records db' = attempt_records db /\
  schedule_entries db !! rs_schedule_entry_id s = None /\
  schedule_entries db' = <[rs_schedule_entry_id s := retry_schedule_row run s]> (schedule_entries db).
Proof.
  unfold _insert_retry_schedule. intros H. py_step H. injection H as <-.
  rewrite !orb_false_iff in E. destruct E as [[E _] _]. split_and!; [by repeat split|done| |done].
  by destruct (schedule_entries db !! rs_schedule_entry_id s).
Qed.

Lemma consume_staging_effect db c db' :
  _consume_attempt_response_staging db c = Ok db' ->
  same_projections db db' /\ schedule_entries db' = schedule_entries db /\
  attempt_records db' = attempt_records db.
Proof.
  unfold _consume_attempt_response_staging. intros H. py_step H. injection H as <-. by repeat split.
Qed.

(** The records and schedules a committed command may add. *)
Definition adds_record (db db' : Database) (op : _ApplyTransitionOperation) : Prop :=
  match op_transport_evidence op with
  | None => attempt_records db' = attempt_records db
  | Some e => exists row sequence,
      attempt_record_values e (tc_timestamp (op_command op)) (tc_logical_time_ns (op_command op)) sequence = Ok row /\
      attempt_records db !! ar_record_id row = None /\
      attempt_records db' = <[ar_record_id row := row]> (attempt_records db)
  end.
Definition adds_schedule (db db' : Database) (c : TransitionCommand) : Prop :=
  match tc_attempt_outcome c ≫= outcome_retry_schedule with
  | None => schedule_entries db' = schedule_entries db
  | Some s =>
    schedule_entries db !! rs_schedule_entry_id s = None /\
    schedule_entries db' = <[rs_schedule_entry_id s := retry_schedule_row (tc_run_id c) s]> (schedule_entries db)
  end.

(** The chain of writes, without the failpoints, which did not fire. *)
Record fresh_writes (db : Database) (op : _ApplyTransitionOperation) (sequence : Z)
    (db1 db2 db3 db4 db5 db6 db7 : Database) : Prop := {
  fw_sequence : _next_transition_sequence db (tc_run_id (op_command op)) = Ok sequence;
  fw_append : _insert_transition db (_record_from_command (op_command op) sequence) = Ok db1;
  fw_project : persist_some (tc_expected_state (op_command op)) db1
    (fun db' expected => _update_projection db' (op_command op) expected) = Ok db2;
  fw_phase : persist_some (op_phase_evidence op) db2
    (fun db' p => _persist_attempt_phase_evidence db' (op_command op) p) = Ok db3;
  fw_staging : persist_some (op_response_staging op) db3
    (fun db' s => _persist_attempt_response_staging db' (op_command op) s) = Ok db4;
  fw_record : match op_transport_evidence op with
    | None => db5 = db4
    | Some e => exists evidence_sequence row,
        _next_attempt_record_sequence db4 (tc_run_id (op_command op)) = Ok evidence_sequence /\
        attempt_record_values e (tc_timestamp (op_command op)) (tc_logical_time_ns (op_command op))
          evidence_sequence = Ok row /\
        _insert_attempt_record db4 row = Ok db5
    end;
  fw_schedule : persist_some (tc_attempt_outcome (op_command op) ≫= outcome_retry_schedule) db5
    (fun db' s => _insert_retry_schedule db' (tc_run_id (op_command op)) s) = Ok db6;
  fw_consume : (if is_response_reduction (op_command op)
    then _consume_attempt_response_staging db6 (op_command op) else Ok db6) = Ok db7
}.

Lemma write_fresh_chain db op ct db' :
  write_fresh db op = Ok (ct, db') ->
  exists sequence db1 db2 db3 db4 db5 db6,
    fresh_writes db op sequence db1 db2 db3 db4 db5 db6 db' /\
    ct = {| committed_record := _record_from_command (op_command op) sequence; idempotent_replay := false |}.
Proof.
  unfold write_fresh. intros H. simpl. py_step H. py_step H. py_step H. py_step H.
  rename a into sequence, a0 into db1, a2 into db2. do 2 py_step H. rename a0 into db3.
  do 2 py_step H. rename a0 into db4, a2 into db5. py_step H. rename a0 into db6.
  destruct (if is_response_reduction _ then _ else _) as [db7|] eqn:E8; [|done]. py_step H.
  injection H as <- <-. exists sequence, db1, db2, db3, db4, db5, db6. split; [|done].
  split; try done.
  - destruct (op_phase_evidence op); [|done]. simpl in *. py_step E4. by py_step E4.
  - destruct (op_transport_evidence op); simpl in *; [|congruence].
    do 4 py_step E6. injection E6 as <-. eauto.
Qed.

Lemma write_fresh_effect db op ct db' :
  write_fresh db op = Ok (ct, db') ->
  let c := op_command op in
  exists sequence db1 db2,
    _next_transition_sequence db (tc_run_id c) = Ok sequence /\
    ct = {| committed_record := _record_from_command c sequence; idempotent_replay := false |} /\
    _insert_transition db (_record_from_command c sequence) = Ok db1 /\
    persist_some (tc_expected_state c) db1 (fun db' expected => _update_projection db' c expected) = Ok db2 /\
    same_projections db2 db' /\ adds_record db2 db' op /\ adds_schedule db2 db' c.
Proof.
  intros (sequence & db1 & db2 & db3 & db4 & db5 & db6 & [H0 H1 H2 H3 H4 H5 H6 H7] & ->)%write_fresh_chain.
  exists sequence, db1, db2. do 4 (split; [done|]). unfold adds_record, adds_schedule.
  assert (same_projections db2 db3 /\ schedule_entries db3 = schedule_entries db2 /\
    attempt_records db3 = attempt_records db2) as (P3 & S3 & R3).
  { destruct (op_phase_evidence op); simpl in H3; [|by injection H3 as <-].
    apply persist_phase_effect in H3 as (? & ? & ? & ?). auto. }
  assert (same_projections db3 db4 /\ schedule_entries db4 = schedule_entries db3 /\
    attempt_records db4 = attempt_records db3) as (P4 & S4 & R4).
  { destruct (op_response_staging op); simpl in H4; [|by injection H4 as <-].
    by apply persist_staging_effect in H4. }
  assert (same_projections db6 db' /\ schedule_entries db' = schedule_entries db6 /\
    attempt_records db' = attempt_records db6) as (P7 & S7 & R7).
  { destruct (is_response_reduction _); [by apply consume_staging_effect in H7|by injection H7 as <-]. }
  assert (same_projections db4 db5 /\ schedule_entries db5 = schedule_entries db4) as (P5 & S5).
  { destruct (op_transport_evidence op); [|by subst].
    destruct H5 as (? & ? & _ & _ & (? & ? & _)%insert_record_effect). auto. }
  assert (same_projections db5 db6 /\ attempt_records db6 = attempt_records db5) as (P6 & R6).
  { destruct (tc_attempt_outcome _ ≫= _); simpl in H6; [|by injection H6 as <-].
    apply insert_retry_effect in H6 as (? & ? & _). auto. }
  split_and!.
  - by do 4 (etrans; [eassumption|]).
  - destruct (op_transport_evidence op); [|congruence].
    destruct H5 as (sq & row & _ & Hv & (_ & _ & Hr & Hn)%insert_record_effect).
    exists row, sq. rewrite R7, R6, Hr, R4, R3 in *. auto.
  - destruct (tc_attempt_outcome _ ≫= _); simpl in H6; [|congruence].
    apply insert_retry_effect in H6 as (_ & _ & Hn & Hs). rewrite S7, Hs, S5, S4, S3 in *. auto.
Qed.

(** ** Effect of the projection update *)

Definition run_terminal (r : RunRow) := (run_terminal_category r, run_terminal_at r).

(** The columns no operation of a transition changes. *)
Record same_identities (db db' : Database) : Prop := {
  si_runs : forall id, option_map (fun r => (run_owner_epoch r, run_terminal r)) (runs db' !! id)
    = option_map (fun r => (run_owner_epoch r, run_terminal r)) (runs db !! id);
  si_scenarios : forall id, option_map (fun r => (sc_run_id r, sc_ordinal r)) (scenarios db' !! id)
    = option_map (fun r => (sc_run_id r, sc_ordinal r)) (scenarios db !! id);
  si_deliveries : forall id,
    option_map (fun r => (dl_run_id r, dl_scenario_id r, dl_event_id r, dl_ordinal r, dl_step_ordinal r, dl_required r))
      (deliveries db' !! id)
    = option_map (fun r => (dl_run_id r, dl_scenario_id r, dl_event_id r, dl_ordinal r, dl_step_ordinal r, dl_required r))
      (deliveries db !! id);
  si_attempts : forall id, option_map attempt_identity (attempts db' !! id)
    = option_map attempt_identity (attempts db !! id);
  si_series : forall id, option_map (fun r => (ob_run_id r, ob_scenario_id r)) (observer_series db' !! id)
    = option_map (fun r => (ob_run_id r, ob_scenario_id r)) (observer_series db !! id);
  si_assertions : forall id,
    option_map (fun r => (as_run_id r, as_scenario_id r, as_policy_json r, as_required r)) (assertions db' !! id)
    = option_map (fun r => (as_run_id r, as_scenario_id r, as_policy_json r, as_required r)) (assertions db !! id)
}.

#[global] Instance same_identities_refl : Reflexive same_identities.
Proof. by split. Qed.
#[global] Instance same_identities_trans : Transitive same_identities.
Proof. intros a b c [] []. split; congruence. Qed.

Lemma same_projections_identities db db' : same_projections db db' -> same_identities db db'.
Proof.
  intros [Hr Hs Hd Ho Has _ Ha]. split; intros id; rewrite ?Hr, ?Hs, ?Hd, ?Ho, ?Has; try done.
  specialize (Ha id).
  destruct (attempts db' !! id), (attempts db !! id); simpl in *; unfold attempt_core in *; congruence.
Qed.

Lemma same_projections_state db db' e id :
  same_projections db db' -> entity_state db' e id = entity_state db e id.
Proof.
  intros [Hr Hs Hd Ho Has _ Ha]. unfold entity_state. rewrite Hr, Hs, Hd, Ho, Has.
  destruct e; try done. specialize (Ha id).
  destruct (attempts db' !! id), (attempts db !! id); simpl in *; try done.
  unfold attempt_core, attempt_identity in Ha. congruence.
Qed.

(** Altering a row's state keeps its other columns. *)
Lemma alter_core {A B : Type} (m : gmap str A) (f : A -> A) (core : A -> B) k id :
  (forall r, core (f r) = core r) ->
  option_map core (alter f k m !! id) = option_map core (m !! id).
Proof.
  intros Hf. destruct (decide (k = id)) as [->|Hne].
  - rewrite lookup_alter_eq. destruct (m !! id); simpl; [by rewrite Hf|done].
  - by rewrite lookup_alter_ne.
Qed.

Definition same_ledgers (db db' : Database) : Prop :=
  transitions db' = transitions db /\ schedule_entries db' = schedule_entries db /\
  attempt_records db' = attempt_records db /\ attempt_response_staging db' = attempt_response_staging db.

Definition attempt_outcome (a : AttemptRow) := (at_outcome_category a, at_terminal_recorded_at a).

(** One state changes. *)
Definition state_written (db db' : Database) (e : EntityType) (id run : str) (s : LifecycleState) : Prop :=
  forall e' id', entity_state db' e' id' =
    if decide (e' = e /\ id' = id) then Some (run, s) else entity_state db e' id'.

Lemma write_state_effect db e id s db' run cur :
  entity_state db e id = Some (run, cur) -> write_state db e id s = Ok db' ->
  state_written db db' e id run s /\ same_identities db db' /\ same_ledgers db db' /\
  (forall i, option_map attempt_outcome (attempts db' !! i) = option_map attempt_outcome (attempts db !! i)).
Proof.
  intros Hcur. unfold write_state. intros H.
  destruct e, s; try discriminate H; injection H as <-;
    (split_and!; [|split; simpl; intros; try done; by apply alter_core|by repeat split|
      simpl; intros; try done; by apply alter_core]);
    intros e' id'; destruct (decide _) as [[-> ->]|Hne]; unfold entity_state in *; simpl in *;
    rewrite ?lookup_alter_eq.
  all: try (destruct (_ !! id); simpl in *; by simplify_eq).
  all: destruct e'; try done; rewrite lookup_alter_ne; [done|]; intros ->; by apply Hne.
Qed.

Lemma cas_matches_state db c expected :
  cas_matches db c expected = true ->
  exists cur, entity_state db (tc_entity_type c) (tc_entity_id c) = Some (tc_run_id c, cur) /\
    state_value cur = state_value expected.
Proof.
  unfold cas_matches. destruct (entity_state _ _ _) as [[run cur]|]; [|done].
  intros [->%bool_decide_eq_true Hs]%andb_true_iff. exists cur. split; [done|].
  unfold states_equal in Hs. apply bool_decide_eq_true in Hs. by injection Hs.
Qed.

(** The terminal update also records the outcome. *)
Definition outcome_written (db db' : Database) (c : TransitionCommand) : Prop :=
  match tc_attempt_outcome c with
  | Some outcome =>
    if is_entity c Entity_ATTEMPT then
      (exists a, attempts db !! tc_entity_id c = Some a /\ attempt_outcome a = (None, None)) /\
      forall i, option_map attempt_outcome (attempts db' !! i) =
        if decide (i = tc_entity_id c)
        then Some (Some (outcome_classification outcome), Some (_format_wall_time (tc_timestamp c)))
        else option_map attempt_outcome (attempts db !! i)
    else
      forall i, option_map attempt_outcome (attempts db' !! i) = option_map attempt_outcome (attempts db !! i)
  | None =>
    forall i, option_map attempt_outcome (attempts db' !! i) = option_map attempt_outcome (attempts db !! i)
  end.

Lemma update_projection_effect db c expected db' :
  _update_projection db c expected = Ok db' ->
  (exists cur, entity_state db (tc_entity_type c) (tc_entity_id c) = Some (tc_run_id c, cur) /\
    state_value cur = state_value expected) /\
  state_written db db' (tc_entity_type c) (tc_entity_id c) (tc_run_id c) (tc_new_state c) /\
  same_identities db db' /\ same_ledgers db db' /\ outcome_written db db' c.
Proof.
  unfold _update_projection, outcome_written. intros H.
  destruct (tc_attempt_outcome c) as [outcome|]; [destruct (is_entity c Entity_ATTEMPT) eqn:Ee|].
  - pose proof Ee as Ee'. apply bool_decide_eq_true in Ee.
    destruct (attempts db !! tc_entity_id c) as [a|] eqn:Ea; [|done].
    destruct (tc_new_state c) as [| | |s| |] eqn:En; try done. py_step H. injection H as <-.
    rewrite !orb_false_iff, negb_false_iff in E. destruct E as [[Hc%cas_matches_state Ho] Ht].
    rewrite Ee in *. split; [done|]. destruct Hc as (cur & Hcur & _). split_and!.
    + intros e' id'. destruct (decide _) as [[-> ->]|Hne]; unfold entity_state in *; simpl in *.
      * rewrite lookup_insert_eq. rewrite Ea in Hcur. simpl in *. congruence.
      * destruct e'; try done. rewrite lookup_insert_ne; [done|]. intros <-. by apply Hne.
    + split; simpl; try done. intros i. destruct (decide (i = tc_entity_id c)) as [->|Hne].
      * by rewrite lookup_insert_eq, Ea.
      * by rewrite lookup_insert_ne.
    + by repeat split.
    + exists a. split; [done|]. unfold attempt_outcome.
      by destruct (at_outcome_category a), (at_terminal_recorded_at a).
    + intros i. simpl. destruct (decide _) as [->|Hne]; [by rewrite lookup_insert_eq|by rewrite lookup_insert_ne].
  - py_step H. apply negb_false_iff, cas_matches_state in E. destruct E as (cur & Hcur & Hv).
    destruct (write_state_effect _ _ _ _ _ _ _ Hcur H) as (Hs & Hi & Hl & Ho). split_and!; eauto.
  - py_step H. apply negb_false_iff, cas_matches_state in E. destruct E as (cur & Hcur & Hv).
    destruct (write_state_effect _ _ _ _ _ _ _ Hcur H) as (Hs & Hi & Hl & Ho). split_and!; eauto.
Qed.

(** ** The invariant *)

(** One record continues an entity's history: from its current state along an edge; the first
    record either enters the initial state or leaves a state the row was created in. *)
Definition linked_step (e : EntityType) (cur : option LifecycleState) (r : TransitionRecord) : Prop :=
  match cur with
  | Some s => tr_from_state r = Some s /\ transition_allowed e s (tr_to_state r) = true
  | None =>
    (tr_from_state r = None /\ state_value (tr_to_state r) = initial_state (state_machine e)) \/
    (exists s, tr_from_state r = Some s /\ transition_allowed e s (tr_to_state r) = true)
  end.

Fixpoint linked (e : EntityType) (cur : option LifecycleState) (l : list TransitionRecord) : Prop :=
  match l with
  | [] => True
  | r :: rest => linked_step e cur r /\ linked e (Some (tr_to_state r)) rest
  end.

Record ledger_of (db : Database) (rs : list TransitionRecord) : Prop := {
  lg_rows : transitions db = map transition_row rs;
  lg_ok : Forall record_ok rs;
  lg_sequence : forall run, StronglySorted Z.lt (0 :: map tr_sequence (run_records run rs));
  lg_ids : NoDup (map tr_transition_id rs);
  lg_keys : NoDup (map record_key rs);
  lg_linked : forall i, linked i.1.2 None (entity_records i rs);
  lg_projected : forall i s, final_state i rs = Some s -> entity_state db i.1.2 i.2 = Some (i.1.1, s)
}.

Lemma linked_snoc e cur L r :
  linked e cur (L ++ [r]) <->
  linked e cur L /\ linked_step e (fold_left (fun _ r => Some (tr_to_state r)) L cur) r.
Proof. revert cur; induction L as [|x L IH]; intros cur; simpl; [tauto|]. rewrite IH. tauto. Qed.

(** A change that keeps the ledger and every known state keeps the invariant. *)
Lemma ledger_frame db db' rs :
  ledger_of db rs -> transitions db' = transitions db ->
  (forall e id x, entity_state db e id = Some x -> entity_state db' e id = Some x) ->
  ledger_of db' rs.
Proof. intros [H1 H2 H3 H4 H5 H6 H7] Ht He. split; try done; [congruence|]. eauto. Qed.

Lemma load_projection_state db e id p :
  _load_entity_projection db e id = Some p -> entity_state db e id = Some (pj_run_id p, pj_state p).
Proof.
  unfold _load_entity_projection, load_attempt_projection, entity_state.
  destruct e; intros H.
  4: { destruct (attempts db !! id) as [a|]; [|done]. simpl. repeat case_match; simplify_eq; done. }
  all: destruct (_ !! id); simpl in *; simplify_eq; done.
Qed.

Lemma entity_state_type db e id run s :
  entity_state db e id = Some (run, s) -> type_of s = state_type (state_machine e).
Proof. unfold entity_state. destruct e, (_ !! id); simpl; intros; simplify_eq; done. Qed.

(** ** Sequence numbers *)

Lemma fold_max_le l : Forall (fun x => x <= fold_right Z.max 0 l) l.
Proof.
  induction l as [|x l IH]; constructor; simpl; [lia|].
  eapply List.Forall_impl; [|exact IH]. simpl. lia.
Qed.

Lemma run_rows_records db rs run :
  transitions db = map transition_row rs ->
  map tw_sequence (run_rows db run) = map tr_sequence (run_records run rs).
Proof.
  unfold run_rows. intros ->. induction rs as [|r rs IH]; [done|]. simpl.
  unfold run_records. rewrite filter_cons. case_bool_decide as Hr.
  - rewrite decide_True by done. simpl. f_equal. apply IH.
  - rewrite decide_False by done. apply IH.
Qed.

Lemma final_sequence_cases run rs :
  final_sequence run rs = 0 \/ In (final_sequence run rs) (map tr_sequence (run_records run rs)).
Proof.
  unfold final_sequence. generalize (run_records run rs) as L. intros L.
  destruct L as [|r L] using rev_ind; [by left|]. right.
  rewrite fold_left_app, map_app. simpl. apply in_or_app. right. by left.
Qed.

Lemma next_sequence_fresh db rs run sequence :
  transitions db = map transition_row rs ->
  _next_transition_sequence db run = Ok sequence -> final_sequence run rs < sequence.
Proof.
  intros Hrows. unfold _next_transition_sequence, next_sequence. rewrite (run_rows_records _ rs) by done.
  intros H. py_step H. injection H as <-.
  pose proof (fold_max_le (map tr_sequence (run_records run rs))) as Hmax.
  rewrite List.Forall_forall in Hmax. py_bool.
  destruct (final_sequence_cases run rs) as [->|Hin]; [lia|]. apply Hmax in Hin. lia.
Qed.

Lemma insert_transition_effect db r db' rs :
  transitions db = map transition_row rs -> _insert_transition db r = Ok db' ->
  db' = with_transitions db (transitions db ++ [transition_row r]) /\
  (tr_transition_id r ∉ map tr_transition_id rs) /\ (record_key r ∉ map record_key rs).
Proof.
  intros Hrows. unfold _insert_transition. intros H. py_step H. injection H as <-. split; [done|].
  rewrite Hrows in E.
  assert (forall x, x ∈ rs -> transition_conflict (transition_row r) (transition_row x) = false) as Hc.
  { intros x Hx. destruct (transition_conflict _ _) eqn:Ex; [|done].
    rewrite <- E. symmetry. apply existsb_exists. exists (transition_row x). split; [|done].
    apply in_map. by apply list_elem_of_In. }
  split; intros (x & Hx & Hin%Hc)%list_elem_of_fmap; unfold transition_conflict in Hin; simpl in Hin;
    rewrite !orb_false_iff in Hin; destruct Hin as [H1 H2].
  - rewrite bool_decide_eq_false in H1. congruence.
  - unfold record_key in Hx. injection Hx as Hr Hk. rewrite !bool_decide_true in H2 by done.
    by destruct (_ =? _).
Qed.

(** ** Preservation *)

(** What the constructors of the command and of its timestamp guarantee. *)
Definition command_ok (c : TransitionCommand) : Prop :=
  validate_transition_command c = Ok c /\ timestamp_ok (tc_timestamp c).

(** What the constructors of the evidence it carries guarantee. *)
Definition retry_ok (o : AttemptTerminalOutcome) : Prop :=
  forall r, outcome_retry_schedule o = Some r -> validate_retry_schedule r = Ok r.
Definition staging_ok (s : AttemptResponseStagingCommand) : Prop :=
  validate_transport_evidence (st_transport_evidence s) = Ok (st_transport_evidence s) /\
  validate_response_staging s = Ok s /\ retry_ok (st_terminal_outcome s) /\
  forall r, ev_request (st_transport_evidence s) = Some r -> req_method r = u "POST".
Definition op_ok (op : _ApplyTransitionOperation) : Prop :=
  command_ok (op_command op) /\ (forall s, op_response_staging op = Some s -> staging_ok s) /\
  (forall o, tc_attempt_outcome (op_command op) = Some o -> retry_ok o).

Lemma op_command_ok op : op_ok op -> command_ok (op_command op).
Proof. by intros []. Qed.

Lemma command_ok_enums c :
  command_ok c ->
  uses_enum (tc_entity_type c) (tc_new_state c) = true /\
  (forall s, tc_expected_state c = Some s -> uses_enum (tc_entity_type c) s = true).
Proof.
  intros [H _]. unfold validate_transition_command in H. do 10 py_step H.
  apply negb_false_iff in E7. split; [done|]. intros s Hs. rewrite Hs in E8. by apply negb_false_iff in E8.
Qed.

Lemma command_record_ok c sequence : command_ok c -> record_ok (_record_from_command c sequence).
Proof. intros Hc. pose proof (command_ok_enums c Hc) as [Hn He]. destruct Hc as [_ Ht]. by split_and!. Qed.

Lemma states_equal_some x y : states_equal (Some x) (Some y) = true <-> state_value x = state_value y.
Proof. unfold states_equal. rewrite bool_decide_eq_true. simpl. split; congruence. Qed.

Lemma validate_fresh_parts db op p :
  validate_fresh db op = Ok p ->
  let c := op_command op in
  _load_entity_projection db (tc_entity_type c) (tc_entity_id c) = Some p /\
  pj_run_id p = tc_run_id c /\
  _validate_projection_and_edge db c p = Ok tt /\
  _validate_transition_guards db c p = Ok tt /\
  when_some (op_transport_evidence op) (_validate_transport_evidence_identity db c) = Ok tt /\
  _validate_terminal_response_staging db c (op_transport_evidence op) = Ok tt.
Proof.
  unfold validate_fresh. intros H. simpl. do 7 py_step H. injection H as ->.
  apply negb_bool_decide_false in E1. repeat match goal with x : unit |- _ => destruct x end. auto 10.
Qed.

(** What the checks of a fresh command establish about the entity. *)
Lemma validate_fresh_edge db op p :
  validate_fresh db op = Ok p ->
  let c := op_command op in
  entity_state db (tc_entity_type c) (tc_entity_id c) = Some (tc_run_id c, pj_state p) /\
  match tc_expected_state c with
  | None =>
    state_value (tc_new_state c) = initial_state (state_machine (tc_entity_type c)) /\
    state_value (pj_state p) = state_value (tc_new_state c) /\
    forall w, w ∈ transitions db ->
      (tw_run_id w, tw_entity_type w, tw_entity_id w)
        <> (tc_run_id c, EntityType_value (tc_entity_type c), tc_entity_id c)
  | Some expected =>
    state_value (pj_state p) = state_value expected /\
    transition_allowed (tc_entity_type c) expected (tc_new_state c) = true
  end.
Proof.
  intros (E0 & E1 & E2 & _)%validate_fresh_parts. simpl.
  apply load_projection_state in E0. rewrite E1 in E0.
  split; [done|]. unfold _validate_projection_and_edge in E2.
  destruct (tc_expected_state _) as [expected|].
  - py_step E2. py_step E2. apply negb_false_iff in E, E3. by apply states_equal_some in E.
  - py_step E2. py_step E2. rewrite orb_false_iff, negb_false_iff, negb_false_iff in E.
    destruct E as [Hi%bool_decide_eq_true Hs%states_equal_some]. split_and!; [done..|].
    intros w Hw [= H1 H2 H3]. rewrite <- Bool.not_true_iff_false in E3. apply E3, existsb_exists.
    exists w. split; [by apply list_elem_of_In|]. by rewrite !bool_decide_true.
Qed.

Lemma entity_type_value_inj e e' : EntityType_value e = EntityType_value e' -> e = e'.
Proof. by destruct e, e'; intros H; try done; vm_compute in H. Qed.

Lemma entity_records_none db rs i :
  transitions db = map transition_row rs ->
  (forall w, w ∈ transitions db ->
     (tw_run_id w, tw_entity_type w, tw_entity_id w) <> (i.1.1, EntityType_value i.1.2, i.2)) ->
  entity_records i rs = [].
Proof.
  intros Hrows Hn. apply filter_none, list.Forall_forall. intros r Hr Hi.
  apply (Hn (transition_row r)); [rewrite Hrows; by apply list_elem_of_fmap_2|]. by subst i.
Qed.

(** The new record links to the entity's history. *)
Lemma fresh_record_linked db op p rs sequence :
  ledger_of db rs -> command_ok (op_command op) -> validate_fresh db op = Ok p ->
  let c := op_command op in let r := _record_from_command c sequence in
  linked_step (tc_entity_type c) (final_state (record_identity r) rs) r.
Proof.
  intros Hl Hc Hv. simpl. set (c := op_command op) in *.
  pose proof (validate_fresh_edge _ _ _ Hv) as [Hst He]. fold c in Hst, He.
  pose proof (command_ok_enums c Hc) as [_ Henum].
  change (record_identity _) with (tc_run_id c, tc_entity_type c, tc_entity_id c).
  unfold linked_step. simpl. destruct (tc_expected_state c) as [expected|] eqn:Ee.
  - destruct He as [Hv' Ha]. destruct (final_state _ rs) as [s|] eqn:Ef; [|eauto].
    apply (lg_projected _ _ Hl) in Ef. simpl in Ef. rewrite Hst in Ef. injection Ef as <-.
    assert (pj_state p = expected) as ->; [|done]. apply state_value_inj; [|done].
    rewrite (entity_state_type _ _ _ _ _ Hst). symmetry. by apply (transition_types _ _ _ Ha).
  - destruct He as (Hi & _ & Hn).
    unfold final_state. rewrite (entity_records_none db rs (_, _, _) (lg_rows _ _ Hl)) by done.
    simpl. by left.
Qed.

(** What a fresh command changes in the projections. *)
Lemma project_effect db c sequence db1 db2 :
  _insert_transition db (_record_from_command c sequence) = Ok db1 ->
  persist_some (tc_expected_state c) db1 (fun db' expected => _update_projection db' c expected) = Ok db2 ->
  transitions db2 = transitions db ++ [transition_row (_record_from_command c sequence)] /\
  same_identities db db2 /\ schedule_entries db2 = schedule_entries db /\
  attempt_records db2 = attempt_records db /\ attempt_response_staging db2 = attempt_response_staging db /\
  match tc_expected_state c with
  | None => (forall e id, entity_state db2 e id = entity_state db e id) /\ attempts db2 = attempts db
  | Some _ =>
    state_written db db2 (tc_entity_type c) (tc_entity_id c) (tc_run_id c) (tc_new_state c) /\
    outcome_written db db2 c
  end.
Proof.
  intros H. unfold _insert_transition in H. py_step H. injection H as <-.
  destruct (tc_expected_state c) as [expected|]; simpl.
  - intros (_ & Hs & Hi & (Ht & Hsc & Hr & Hg) & Ho)%update_projection_effect.
    split_and!; try done. etrans; [|exact Hi]. by split.
  - intros [= <-]. split_and!; try done.
Qed.

Lemma fresh_ledger db op p ct db' rs :
  ledger_of db rs -> command_ok (op_command op) -> validate_fresh db op = Ok p ->
  write_fresh db op = Ok (ct, db') -> ledger_of db' (rs ++ [committed_record ct]).
Proof.
  intros Hl Hc Hv Hw. pose proof (lg_rows _ _ Hl) as Hrows.
  apply write_fresh_effect in Hw as (sequence & db1 & db2 & Hseq & -> & Hins & Hup & Hsp & _ & _). simpl.
  set (c := op_command op) in *. set (r := _record_from_command c sequence) in *.
  pose proof (next_sequence_fresh _ _ _ _ Hrows Hseq) as Hlt.
  destruct (insert_transition_effect _ _ _ _ Hrows Hins) as (_ & Hid & Hkey).
  destruct (project_effect _ _ _ _ _ Hins Hup) as (Hrows2 & _ & _ & _ & _ & Hproj).
  pose proof (fresh_record_linked _ _ _ _ sequence Hl Hc Hv) as Hlink. simpl in Hlink. fold c r in Hlink.
  pose proof (validate_fresh_edge _ _ _ Hv) as [Hst Hedge]. simpl in Hst, Hedge. fold c in Hst, Hedge.
  destruct Hl as [_ Hok Hseqs Hids Hkeys Hlinked Hprojd]. split.
  - by rewrite (sp_transitions _ _ Hsp), Hrows2, Hrows, map_app.
  - apply Forall_app. split; [done|]. apply Forall_singleton. by apply command_record_ok.
  - intros run. rewrite run_records_snoc. destruct (decide _) as [<-|]; [|by rewrite app_nil_r].
    rewrite map_app. by apply sorted_lt_snoc.
  - rewrite map_app. by apply NoDup_snoc.
  - rewrite map_app. by apply NoDup_snoc.
  - intros i. rewrite entity_records_snoc. destruct (decide _) as [<-|]; [|by rewrite app_nil_r].
    by apply linked_snoc.
  - intros i s. rewrite (same_projections_state _ _ _ _ Hsp). unfold final_state. rewrite entity_records_snoc.
    destruct (decide (record_identity r = i)) as [<-|Hne].
    + rewrite fold_left_app. simpl. intros [= <-]. destruct (tc_expected_state c) as [expected|].
      * destruct Hproj as [Hs _]. rewrite Hs. by rewrite decide_True.
      * destruct Hproj as [Hs _], Hedge as (_ & Hval & _). rewrite Hs, Hst. do 2 f_equal.
        apply state_value_inj; [|done]. rewrite (entity_state_type _ _ _ _ _ Hst).
        pose proof (command_ok_enums _ Hc) as [Hn%bool_decide_eq_true _]. done.
    + rewrite app_nil_r. intros Hf%Hprojd.
      destruct (tc_expected_state c) as [expected|]; destruct Hproj as [Hs _]; rewrite Hs; [|done].
      destruct (decide _) as [[He Hi]|]; [|done]. exfalso. apply Hne. destruct i as [[run e] id]. simpl in *.
      subst. rewrite Hst in Hf. injection Hf as <-. done.
Qed.

(** The ledger decodes to the records it was built from. *)
Lemma find_record db rs run key r :
  ledger_of db rs -> _transition_by_idempotency_key db run key = Ok (Some r) ->
  r ∈ rs /\ tr_run_id r = run /\ tr_idempotency_key r = key.
Proof.
  intros Hl. unfold _transition_by_idempotency_key. rewrite (lg_rows _ _ Hl).
  destruct (List.find _ _) as [w|] eqn:Ef; [|done].
  apply List.find_some in Ef as [(x & <- & Hin%list_elem_of_In)%in_map_iff Hw].
  pose proof (lg_ok _ _ Hl) as Hok. rewrite list.Forall_forall in Hok.
  rewrite record_roundtrip by auto. intros [= <-]. simpl in Hw. py_bool. done.
Qed.

Lemma apply_ledger db op ct db' rs :
  ledger_of db rs -> command_ok (op_command op) -> apply_execute db op = Ok (ct, db') ->
  (idempotent_replay ct = true /\ db' = db /\ committed_record ct ∈ rs) \/
  (idempotent_replay ct = false /\ ledger_of db' (rs ++ [committed_record ct])).
Proof.
  intros Hl Hc. unfold apply_execute. intros H. do 5 py_step H.
  destruct a3 as [r|].
  - left. unfold replay_existing in H. do 4 py_step H. injection H as <- <-. simpl.
    apply (find_record _ _ _ _ _ Hl) in E3 as (Hin & _ & _). done.
  - right. py_step H. pose proof (fresh_ledger _ _ _ _ _ _ Hl Hc E4 H) as Hl'.
    apply write_fresh_effect in H as (? & ? & ? & _ & -> & _). done.
Qed.

(** ** Claims and rebinds *)

(** The database after the claim's own writes: the schedule is consumed, and the attempt row is
    either the prepared one or a new one in SCHEDULED. *)
Definition claim_prepared (db db2 : Database) (claim : AttemptScheduleClaim) (schedule : ScheduleRow) : Prop :=
  let c := cl_claim_transition claim in
  schedule_entries db2 = <[cl_schedule_entry_id claim :=
    consume_schedule schedule (Some (_format_wall_time (tc_timestamp c))) (tc_owner_epoch c)]> (schedule_entries db) /\
  runs db2 = runs db /\ scenarios db2 = scenarios db /\ deliveries db2 = deliveries db /\
  observer_series db2 = observer_series db /\ assertions db2 = assertions db /\
  transitions db2 = transitions db /\ attempt_records db2 = attempt_records db /\
  attempt_response_staging db2 = attempt_response_staging db /\
  ((exists prepared, attempts db !! cl_attempt_id claim = Some prepared /\ at_state prepared = Attempt_SCHEDULED /\
      attempt_identity prepared = attempt_identity (claimed_attempt_row claim schedule) /\
      attempts db2 = attempts db) \/
   (attempts db !! cl_attempt_id claim = None /\
    attempts db2 = <[cl_attempt_id claim := claimed_attempt_row claim schedule]> (attempts db))).

Lemma claim_execute_cases db claim hook ct db' :
  claim_execute db claim hook = Ok (ct, db') ->
  let c := cl_claim_transition claim in
  exists schedule, schedule_entries db !! cl_schedule_entry_id claim = Some schedule /\
    _validate_attempt_schedule_claim db claim schedule = Ok tt /\
    option_map run_owner_epoch (runs db !! tc_run_id c) = Some (tc_owner_epoch c) /\
    ((db' = db /\ idempotent_replay ct = true /\ se_consumed_at schedule <> None /\
      se_consumed_by_owner_epoch schedule = Some (tc_owner_epoch c) /\
      _verified_claim_transition db c = Ok (committed_record ct)) \/
     (se_consumed_at schedule = None /\ exists db2, claim_prepared db db2 claim schedule /\
        apply_execute db2 {| op_command := c; op_crash_hook := hook; op_phase_evidence := None;
                             op_response_staging := None; op_transport_evidence := None |} = Ok (ct, db'))).
Proof.
  unfold claim_execute. intros H. simpl. py_step H. rename E into Eo.
  destruct (schedule_entries db !! cl_schedule_entry_id claim) as [schedule|] eqn:Es; [|done].
  exists schedule. split; [done|]. py_step H. split; [by destruct a0|].
  assert (option_map run_owner_epoch (runs db !! tc_run_id (cl_claim_transition claim)) =
    Some (tc_owner_epoch (cl_claim_transition claim))) as Hep.
  { unfold _require_current_owner in Eo. destruct (runs db !! _); [|done]. py_step Eo. py_bool. simpl. congruence. }
  split; [done|]. destruct (se_consumed_at schedule) as [at_|] eqn:Ec.
  - left. do 3 py_step H. injection H as <- <-. apply negb_bool_decide_false in E0. done.
  - right. split; [done|]. do 4 py_step H. exists a2. split; [|done].
    unfold _insert_claimed_attempt in E2. simpl in E2. unfold claim_prepared.
    destruct (attempts db !! cl_attempt_id claim) as [prepared|] eqn:Ea.
    + py_step E2. injection E2 as <-. apply orb_false_iff in E4 as [Hi%negb_bool_decide_false Hs%negb_bool_decide_false].
      simpl. split_and!; try done. left. eauto 10.
    + py_step E2. injection E2 as <-. simpl. split_and!; try done. right. done.
Qed.

Lemma claim_prepared_state db db2 claim schedule e id x :
  claim_prepared db db2 claim schedule -> entity_state db e id = Some x -> entity_state db2 e id = Some x.
Proof.
  intros (_ & Hr & Hsc & Hd & Ho & Has & _ & _ & _ & Hatt). unfold entity_state.
  rewrite Hr, Hsc, Hd, Ho, Has. destruct e; try done.
  destruct Hatt as [(? & _ & _ & _ & ->)|[Hn ->]]; [done|].
  destruct (decide (id = cl_attempt_id claim)) as [->|]; [by rewrite Hn|]. by rewrite lookup_insert_ne.
Qed.

Lemma claim_ledger db claim hook ct db' rs :
  ledger_of db rs -> command_ok (cl_claim_transition claim) -> claim_execute db claim hook = Ok (ct, db') ->
  exists rs', ledger_of db' rs'.
Proof.
  intros Hl Hc (schedule & _ & _ & _ & [(-> & _)|(_ & db2 & Hp & Ha)])%claim_execute_cases; [eauto|].
  assert (ledger_of db2 rs) as Hl2.
  { eapply ledger_frame; [exact Hl| |intros; by eapply claim_prepared_state]. by apply Hp. }
  eapply apply_ledger in Ha as [(_ & -> & _)|[_ ?]]; [by eauto|by eauto|exact Hl2|exact Hc].
Qed.

Lemma rebind_effect db run id st epoch db' :
  rebind_execute db run id st epoch = Ok db' ->
  exists a, attempts db !! id = Some a /\ at_run_id a = run /\ at_state a = st /\
    attempts db' = <[id := set_attempt_owner a epoch]> (attempts db) /\
    runs db' = runs db /\ scenarios db' = scenarios db /\ deliveries db' = deliveries db /\
    observer_series db' = observer_series db /\ assertions db' = assertions db /\
    transitions db' = transitions db /\ attempt_records db' = attempt_records db /\
    attempt_response_staging db' = attempt_response_staging db /\
    option_map run_owner_epoch (runs db !! run) = Some epoch.
Proof.
  unfold rebind_execute. intros H. py_step H. apply negb_bool_decide_false in E.
  destruct (attempts db !! id) as [a|] eqn:Ea; [|done]. py_step H. apply negb_bool_decide_false in E0.
  destruct (rebind_schedules db a) as [|[sid schedule] [|]]; [done| |done]. py_step H.
  apply negb_bool_decide_false in E1. destruct (at_owner_epoch a) as [owner|]; [|done]. py_step H.
  destruct (if bool_decide _ then _ else _) as [db1|] eqn:E3; [|done]. injection H as <-. exists a.
  assert (attempts db1 = attempts db /\ runs db1 = runs db /\ scenarios db1 = scenarios db /\
    deliveries db1 = deliveries db /\ observer_series db1 = observer_series db /\
    assertions db1 = assertions db /\ transitions db1 = transitions db /\
    attempt_records db1 = attempt_records db /\
    attempt_response_staging db1 = attempt_response_staging db) as (-> & ? & ? & ? & ? & ? & ? & ? & ?).
  { case_bool_decide; [by py_step E3; injection E3 as <-|].
    destruct (se_consumed_at schedule), (se_consumed_by_owner_epoch schedule); try done.
    do 2 py_step E3. injection E3 as <-. done. }
  simpl. auto 20.
Qed.

Lemma rebind_state db run id st epoch db' e i :
  rebind_execute db run id st epoch = Ok db' -> entity_state db' e i = entity_state db e i.
Proof.
  intros (a & Ha & _ & _ & Hat & Hr & Hs & Hd & Ho & Has & _)%rebind_effect. unfold entity_state.
  rewrite Hr, Hs, Hd, Ho, Has, Hat. destruct e; try done.
  destruct (decide (i = id)) as [->|]; [by rewrite lookup_insert_eq, Ha|by rewrite lookup_insert_ne].
Qed.

(** The terminal columns of a run are no part of its state. *)
Lemma terminal_entity db run category at_ r e i :
  runs db !! run = Some r -> entity_state (with_terminal db run category at_ r) e i = entity_state db e i.
Proof.
  intros Hr. unfold entity_state, with_terminal. destruct e; try done. cbn [runs with_runs].
  destruct (decide (i = run)) as [->|]; [by rewrite lookup_insert_eq, Hr|by rewrite lookup_insert_ne].
Qed.

(** ** Executions *)

(** Any sequence of the repository's operations; a failed one, or one stopped at a failpoint,
    leaves the database as it was. *)
Inductive journal_step : Database -> Database -> Prop :=
  | step_apply db op r db' :
      op_ok op ->
      in_transaction db (apply_execute db op) = (r, db') -> journal_step db db'
  | step_claim db claim hook r db' :
      validate_schedule_claim claim = Ok claim -> command_ok (cl_claim_transition claim) ->
      in_transaction db (claim_execute db claim hook) = (r, db') -> journal_step db db'
  | step_rebind db run id st epoch r db' :
      st ∈ [Attempt_SCHEDULED; Attempt_CLAIMED] ->
      in_transaction db (let! db1 := rebind_execute db run id st epoch in Ok (tt, db1)) = (r, db') ->
      journal_step db db'
  | step_finalize db q r db' :
      op_ok (completion_op q) -> validate_completion_request q = Ok q ->
      in_transaction db (let! db1 := finalize_execute db q in Ok (tt, db1)) = (r, db') ->
      journal_step db db'.

Inductive journal_reachable (start : Database) : Database -> Prop :=
  | journal_start : journal_reachable start start
  | journal_next db db' : journal_reachable start db -> journal_step db db' -> journal_reachable start db'.

(** A finalization is a transition followed by the run's terminal columns. *)
Lemma finalize_cases db q db' :
  finalize_execute db q = Ok db' ->
  exists ct d r, apply_execute db (completion_op q) = Ok (ct, d) /\ runs d !! fr_run_id q = Some r /\
    terminal_open (ResultCategory_value (fr_result_category q)) (fr_completed_at q) r = true /\
    db' = with_terminal d (fr_run_id q) (ResultCategory_value (fr_result_category q)) (fr_completed_at q) r.
Proof.
  unfold finalize_execute. destruct (apply_execute _ _) as [[ct d]|] eqn:E; [|done]. cbn [snd].
  destruct (runs d !! fr_run_id q) as [r|] eqn:Er; [|done]. destruct (terminal_open _ _ r) eqn:Et; [|done].
  intros [= <-]. eauto 10.
Qed.

(** An invariant of the committed operations is an invariant of every execution. *)
Lemma journal_invariant (P : Database -> Prop) start :
  P start ->
  (forall db op ct db', P db -> op_ok op -> apply_execute db op = Ok (ct, db') -> P db') ->
  (forall db claim hook ct db', P db -> validate_schedule_claim claim = Ok claim ->
     command_ok (cl_claim_transition claim) -> claim_execute db claim hook = Ok (ct, db') -> P db') ->
  (forall db run id st epoch db', P db -> st ∈ [Attempt_SCHEDULED; Attempt_CLAIMED] ->
     rebind_execute db run id st epoch = Ok db' -> P db') ->
  (forall db run category at_ r, P db -> runs db !! run = Some r -> terminal_open category at_ r = true ->
     P (with_terminal db run category at_ r)) ->
  forall db, journal_reachable start db -> P db.
Proof.
  intros H0 Ha Hc Hr Hf db. induction 1 as [|db db' _ IH Hstep]; [done|].
  destruct Hstep as [db op r db' Hok Ht|db claim hook r db' Hv Hok Ht|db run id st epoch r db' Hst Ht|db q r db' Hok Hv Ht];
    unfold in_transaction in Ht.
  - destruct (apply_execute db op) as [[ct d]|] eqn:E; injection Ht as _ <-; eauto.
  - destruct (claim_execute db claim hook) as [[ct d]|] eqn:E; injection Ht as _ <-; eauto.
  - destruct (rebind_execute db run id st epoch) as [d|] eqn:E; injection Ht as _ <-; eauto.
  - destruct (finalize_execute db q) as [d|] eqn:E; injection Ht as _ <-; [|done].
    apply finalize_cases in E as (ct & d' & row & Happ & Hrow & Hopen & ->). eauto.
Qed.

(** A sequence of calls with constructed arguments is an execution. *)
Definition call_ok (call : journal_call) : Prop :=
  match call with
  | CallApply op => op_ok op
  | CallClaim claim _ => validate_schedule_claim claim = Ok claim /\ command_ok (cl_claim_transition claim)
  | CallRebind _ _ st _ => st ∈ [Attempt_SCHEDULED; Attempt_CLAIMED]
  | CallFinalize q => op_ok (completion_op q) /\ validate_completion_request q = Ok q
  end.

Lemma exec_reachable start calls : Forall call_ok calls -> journal_reachable start (fold_left journal_exec calls start).
Proof.
  induction calls as [|call calls IH] using rev_ind; [constructor|].
  rewrite fold_left_app, Forall_app. intros [H%IH Hc]. rewrite Forall_singleton in Hc. simpl.
  eapply journal_next; [exact H|].
  destruct call as [op|claim hook|run id st epoch|q]; simpl.
  - eapply step_apply; [exact Hc|apply surjective_pairing].
  - destruct Hc. eapply step_claim; [done..|apply surjective_pairing].
  - eapply step_rebind; [exact Hc|apply surjective_pairing].
  - destruct Hc. eapply step_finalize; [done..|apply surjective_pairing].
Qed.

(** The worked run is an execution. *)
Ltac constructed := split; vm_compute; reflexivity.

Lemma demo_staging_ok : op_ok demo_staging.
Proof.
  split; [constructed|]. split; [|intros o Ho; discriminate Ho]. intros s [= <-].
  split; [vm_compute; reflexivity|]. split; [vm_compute; reflexivity|].
  split; [intros r Hr; discriminate Hr|]. intros r [= <-]. reflexivity.
Qed.

Lemma demo_calls_ok : Forall call_ok demo_calls.
Proof.
  repeat (apply List.Forall_cons; [|]); [..|apply List.Forall_nil];
    match goal with
    | |- call_ok (CallApply demo_staging) => exact demo_staging_ok
    | |- call_ok (CallApply _) => split; [constructed|]; split; [intros s Hs; discriminate Hs|];
        intros o Ho; try discriminate Ho; injection Ho as <-; intros r Hr; discriminate Hr
    | |- call_ok (CallClaim _ _) => split; [vm_compute; reflexivity|constructed]
    | |- call_ok (CallRebind _ _ _ _) => simpl; set_solver
    end.
Qed.

Lemma demo_sent_reachable : journal_reachable demo_db demo_sent.
Proof.
  change demo_sent with (fold_left journal_exec demo_send demo_db).
  apply exec_reachable. pose proof demo_calls_ok as H. unfold demo_calls in H.
  rewrite Forall_app in H. apply H.
Qed.

Lemma demo_settled_reachable : journal_reachable demo_sent demo_end.
Proof.
  change demo_end with (fold_left journal_exec demo_settle demo_sent).
  apply exec_reachable. pose proof demo_calls_ok as H. unfold demo_calls in H.
  rewrite Forall_app in H. apply H.
Qed.

Lemma demo_end_reachable : journal_reachable demo_db demo_end.
Proof.
  change demo_end with (fold_left journal_exec demo_calls demo_db).
  apply exec_reachable, demo_calls_ok.
Qed.

Lemma ledger_reachable start db :
  transitions start = [] -> journal_reachable start db -> exists rs, ledger_of db rs.
Proof.
  intros Hs. revert db. apply (journal_invariant (fun db => exists rs, ledger_of db rs)).
  - exists []. split; try done; try constructor; try constructor.
  - intros d op ct d' [rs Hl] Hc%op_command_ok H. apply (apply_ledger _ _ _ _ _ Hl Hc) in H as [(_ & -> & _)|[_ ?]]; eauto.
  - intros d claim hook ct d' [rs Hl] _ Hc H. by eapply claim_ledger.
  - intros d run id st epoch d' [rs Hl] _ H. exists rs. eapply ledger_frame; [exact Hl| |].
    + by apply rebind_effect in H as (? & _ & _ & _ & _ & _ & _ & _ & _ & _ & ? & _).
    + intros e i x. by rewrite (rebind_state _ _ _ _ _ _ _ _ H).
  - intros d run category at_ r [rs Hl] Hr. exists rs. eapply ledger_frame; [exact Hl|done|].
    intros e i x. by rewrite terminal_entity.
Qed.

(** C1: However transitions, schedule claims, recovery rebinds, failures and failpoints interleave
    from an empty ledger, the append-only ledger and the live projections agree: the ledger's rows
    decode to records in which every entity's own records form a chain of authoritative
    transitions, each leaving the state the previous one entered; the last target is exactly the
    state in the entity's projection row; sequence numbers strictly increase within a run; and no
    transition identifier or idempotency key occurs twice. *)
Theorem ledger_projection_agreement start db :
  transitions start = [] -> journal_reachable start db ->
  exists rs, map_result _record_from_row (transitions db) = Ok rs /\
    (forall i, linked i.1.2 None (entity_records i rs)) /\
    (forall i s, final_state i rs = Some s -> entity_state db i.1.2 i.2 = Some (i.1.1, s)) /\
    (forall run, StronglySorted Z.lt (0 :: map tr_sequence (run_records run rs))) /\
    NoDup (map tr_transition_id rs) /\ NoDup (map record_key rs).
Proof.
  intros Hs Hr. destruct (ledger_reachable start db Hs Hr) as [rs [Hrows Hok Hseq Hids Hkeys Hlink Hproj]].
  exists rs. split_and!; try done. rewrite Hrows. apply map_result_ok.
  clear -Hok. induction Hok; constructor; [by apply record_roundtrip|done].
Qed.

(** Twelve of the fourteen calls of the worked run append to the ledger: the rebind does not, and
    the premature completion is refused. *)
Lemma ledger_projection_agreement_witness :
  length (transitions demo_end) = 12%nat /\
  exists rs, map_result _record_from_row (transitions demo_end) = Ok rs /\
    (forall i, linked i.1.2 None (entity_records i rs)) /\
    (forall i s, final_state i rs = Some s -> entity_state demo_end i.1.2 i.2 = Some (i.1.1, s)) /\
    (forall run, StronglySorted Z.lt (0 :: map tr_sequence (run_records run rs))) /\
    NoDup (map tr_transition_id rs) /\ NoDup (map record_key rs).
Proof.
  split; [vm_compute; reflexivity|].
  apply (ledger_projection_agreement demo_db demo_end); [reflexivity|exact demo_end_reachable].
Defined.
