(* ===== verification/Outcomes.v ===== *)
(** * Evidence behind lifecycle outcomes

    Invariants of every execution of the transition repository: terminal states are final, a
    completed run has only settled required deliveries, a satisfied delivery has a succeeded
    attempt or a passed assertion behind it, a passed scenario has no failed required
    assertion, a terminal attempt carries exactly one compatible outcome record, and consumed
    schedules stay consumed. *)

From S2P Require Import Prelude Domain Clocks Identifiers Lifecycle Replay Commands Json Store Journal Schedules Demo Ledger.

Local Open Scope Z_scope.

(** ** One committed command *)

(** The change a fresh command makes to the projections. *)
Record fresh_change (db db' : Database) (op : _ApplyTransitionOperation) (p : _EntityProjection) : Prop := {
  fc_load : _load_entity_projection db (tc_entity_type (op_command op)) (tc_entity_id (op_command op)) = Some p;
  fc_run : pj_run_id p = tc_run_id (op_command op);
  fc_guards : _validate_transition_guards db (op_command op) p = Ok tt;
  fc_evidence : when_some (op_transport_evidence op)
    (_validate_transport_evidence_identity db (op_command op)) = Ok tt;
  fc_identities : same_identities db db';
  fc_record : adds_record db db' op;
  fc_schedule : adds_schedule db db' (op_command op);
  fc_states : match tc_expected_state (op_command op) with
    | None =>
      (forall e id, entity_state db' e id = entity_state db e id) /\
      (forall id, option_map attempt_outcome (attempts db' !! id) = option_map attempt_outcome (attempts db !! id)) /\
      state_value (tc_new_state (op_command op)) = initial_state (state_machine (tc_entity_type (op_command op)))
    | Some expected =>
      entity_state db (tc_entity_type (op_command op)) (tc_entity_id (op_command op))
        = Some (tc_run_id (op_command op), expected) /\
      transition_allowed (tc_entity_type (op_command op)) expected (tc_new_state (op_command op)) = true /\
      state_written db db' (tc_entity_type (op_command op)) (tc_entity_id (op_command op))
        (tc_run_id (op_command op)) (tc_new_state (op_command op)) /\
      outcome_written db db' (op_command op)
    end
}.

Lemma same_projections_outcome db db' id :
  same_projections db db' ->
  option_map attempt_outcome (attempts db' !! id) = option_map attempt_outcome (attempts db !! id).
Proof.
  intros Hsp. pose proof (sp_attempts _ _ Hsp id) as Ha.
  destruct (attempts db' !! id), (attempts db !! id); simpl in *; try done.
  unfold attempt_core, attempt_outcome in *. congruence.
Qed.

Lemma outcome_written_projections db db2 db' c :
  same_projections db2 db' -> outcome_written db db2 c -> outcome_written db db' c.
Proof.
  intros Hsp. unfold outcome_written. destruct (tc_attempt_outcome c); [destruct (is_entity _ _)|].
  - intros [Ha Hi]. split; [done|]. intros i. by rewrite (same_projections_outcome _ _ _ Hsp).
  - intros Hi i. by rewrite (same_projections_outcome _ _ _ Hsp).
  - intros Hi i. by rewrite (same_projections_outcome _ _ _ Hsp).
Qed.

Lemma apply_cases db op ct db' :
  apply_execute db op = Ok (ct, db') ->
  option_map run_owner_epoch (runs db !! tc_run_id (op_command op)) = Some (tc_owner_epoch (op_command op)) /\
  _validate_payload_scope (op_command op) = Ok tt /\
  _validate_transport_evidence_presence (op_command op) (op_transport_evidence op) = Ok tt /\
  ((idempotent_replay ct = true /\ db' = db) \/
   (idempotent_replay ct = false /\ exists p, fresh_change db db' op p)).
Proof.
  unfold apply_execute. intros H. do 5 py_step H.
  assert (option_map run_owner_epoch (runs db !! tc_run_id (op_command op)) = Some (tc_owner_epoch (op_command op)))
    as Hep.
  { unfold _require_current_owner in E2. destruct (runs db !! _); [|done]. py_step E2. py_bool. simpl. congruence. }
  split; [done|]. split; [by destruct a|]. split; [by destruct a1|]. destruct a3 as [r|].
  - left. unfold replay_existing in H. do 4 py_step H. by injection H as <- <-.
  - right. py_step H. rename a3 into p. pose proof (validate_fresh_edge _ _ _ E4) as [Hst Hedge].
    apply validate_fresh_parts in E4 as (Hload & Hrun & _ & Hg & Hev & _).
    apply write_fresh_effect in H as (sq & db1 & db2 & _ & -> & Hins & Hup & Hsp & Hrec & Hsch).
    split; [done|]. exists p.
    destruct (project_effect _ _ _ _ _ Hins Hup) as (_ & Hi & Hs2 & Hr2 & _ & Hp).
    split; try done.
    + etrans; [exact Hi|by apply same_projections_identities].
    + unfold adds_record in *. by rewrite Hr2 in Hrec.
    + unfold adds_schedule in *. by rewrite Hs2 in Hsch.
    + destruct (tc_expected_state _) as [expected|] eqn:Ee; simpl in *.
      * destruct Hedge as [Hv Ha], Hp as [Hw Ho].
        assert (pj_state p = expected) as Heq.
        { apply state_value_inj; [|done]. rewrite (entity_state_type _ _ _ _ _ Hst). symmetry.
          by apply (transition_types _ _ _ Ha). }
        rewrite Heq in Hst. split_and!; try done.
        -- intros e' id'. by rewrite (same_projections_state _ _ _ _ Hsp).
        -- by eapply outcome_written_projections.
      * destruct Hp as [Hw Ho]. split_and!; [| |by apply Hedge].
        -- intros e id. by rewrite (same_projections_state _ _ _ _ Hsp).
        -- intros id. by rewrite (same_projections_outcome _ _ _ Hsp), Ho.
Qed.

(** A state after the command was there before, or the command wrote it. *)
Lemma fresh_state_cases db db' op p e id run s :
  fresh_change db db' op p -> entity_state db' e id = Some (run, s) ->
  entity_state db e id = Some (run, s) \/
  (tc_entity_type (op_command op) = e /\ tc_entity_id (op_command op) = id /\
   tc_run_id (op_command op) = run /\ tc_new_state (op_command op) = s /\
   exists expected, tc_expected_state (op_command op) = Some expected /\
     transition_allowed e expected s = true /\ entity_state db e id = Some (run, expected)).
Proof.
  intros Hf Hs. pose proof (fc_states _ _ _ _ Hf) as Hst.
  destruct (tc_expected_state (op_command op)) as [expected|].
  - destruct Hst as (Hst & Ha & Hw & _). rewrite Hw in Hs.
    destruct (decide _) as [[-> ->]|]; [|by left]. injection Hs as <- <-. right. eauto 10.
  - left. destruct Hst as [Hw _]. by rewrite <- Hw.
Qed.

(** ** How a database evolves *)

(** The columns of an attempt no operation changes after its insertion. *)
Definition attempt_place (a : AttemptRow) :=
  (at_run_id a, at_scenario_id a, at_event_id a, at_delivery_id a, at_attempt_plan_id a, at_ordinal a,
   at_predecessor_attempt_id a).

Definition no_exit (e : EntityType) (s : LifecycleState) : Prop := forall t, transition_allowed e s t = false.

Record evolves (db db' : Database) : Prop := {
  ev_runs : forall id, option_map run_owner_epoch (runs db' !! id) = option_map run_owner_epoch (runs db !! id);
  ev_terminal : forall id c t, option_map run_terminal (runs db !! id) = Some (Some c, Some t) ->
    option_map run_terminal (runs db' !! id) = Some (Some c, Some t);
  ev_scenarios : forall id, option_map (fun r => (sc_run_id r, sc_ordinal r)) (scenarios db' !! id)
    = option_map (fun r => (sc_run_id r, sc_ordinal r)) (scenarios db !! id);
  ev_deliveries : forall id,
    option_map (fun r => (dl_run_id r, dl_scenario_id r, dl_event_id r, dl_ordinal r, dl_step_ordinal r, dl_required r))
      (deliveries db' !! id)
    = option_map (fun r => (dl_run_id r, dl_scenario_id r, dl_event_id r, dl_ordinal r, dl_step_ordinal r, dl_required r))
      (deliveries db !! id);
  ev_assertions : forall id,
    option_map (fun r => (as_run_id r, as_scenario_id r, as_policy_json r, as_required r)) (assertions db' !! id)
    = option_map (fun r => (as_run_id r, as_scenario_id r, as_policy_json r, as_required r)) (assertions db !! id);
  ev_series : forall id, option_map (fun r => (ob_run_id r, ob_scenario_id r)) (observer_series db' !! id)
    = option_map (fun r => (ob_run_id r, ob_scenario_id r)) (observer_series db !! id);
  ev_attempts : forall id a, attempts db !! id = Some a ->
    exists a', attempts db' !! id = Some a' /\ attempt_place a' = attempt_place a /\
      (attempt_outcome a <> (None, None) -> attempt_outcome a' = attempt_outcome a);
  ev_final : forall e id run s, entity_state db e id = Some (run, s) -> no_exit e s ->
    entity_state db' e id = Some (run, s)
}.

#[global] Instance evolves_refl : Reflexive evolves.
Proof. split; eauto. Qed.

#[global] Instance evolves_trans : Transitive evolves.
Proof.
  intros a b c [] []. split; try congruence; [by eauto| |by eauto].
  intros id x Hx. destruct (ev_attempts0 _ _ Hx) as (y & Hy & Hp & Ho).
  destruct (ev_attempts1 _ _ Hy) as (z & Hz & Hp' & Ho'). exists z. split_and!; [done|congruence|].
  intros Hne. specialize (Ho Hne). rewrite Ho'; congruence.
Qed.

Lemma fresh_evolves db db' op p : fresh_change db db' op p -> evolves db db'.
Proof.
  intros Hf. pose proof (fc_identities _ _ _ _ Hf) as [Hr Hs Hd Ha Hse Has].
  split; try done.
  - intros id. specialize (Hr id). destruct (runs db' !! id), (runs db !! id); simpl in *; congruence.
  - intros id c t. specialize (Hr id). destruct (runs db' !! id), (runs db !! id); simpl in *; congruence.
  - intros id a Hid. specialize (Ha id). rewrite Hid in Ha. simpl in Ha.
    destruct (attempts db' !! id) as [a'|] eqn:Ea'; [|done]. exists a'. split_and!; [done| |].
    + unfold attempt_identity, attempt_place in *. simpl in Ha. congruence.
    + intros Hne. pose proof (fc_states _ _ _ _ Hf) as Hst.
      assert (option_map attempt_outcome (attempts db' !! id) = option_map attempt_outcome (attempts db !! id)) as Ho.
      2: { rewrite Ea', Hid in Ho. simpl in Ho. congruence. }
      destruct (tc_expected_state _); [|by destruct Hst as (_ & -> & _)].
      destruct Hst as (Hst & _ & _ & Ho). unfold outcome_written in Ho.
      destruct (tc_attempt_outcome _); [|done]. destruct (is_entity _ _); [|done].
      destruct Ho as ((x & Hx & Hxo) & Hi). rewrite Hi. destruct (decide _) as [->|]; [|done].
      rewrite Hid in Hx. by injection Hx as <-.
  - intros e id run s Hst Hne. pose proof (fc_states _ _ _ _ Hf) as Hw.
    destruct (tc_expected_state _) as [expected|]; [|by destruct Hw as [-> _]].
    destruct Hw as (Hcur & Hallow & Hw & _). rewrite Hw. destruct (decide _) as [[-> ->]|]; [|done].
    rewrite Hcur in Hst. injection Hst as <- <-. by rewrite Hne in Hallow.
Qed.

Lemma apply_evolves db op ct db' : apply_execute db op = Ok (ct, db') -> evolves db db'.
Proof.
  intros (_ & _ & _ & [[_ ->]|[_ [p Hf]]])%apply_cases; [reflexivity|by eapply fresh_evolves].
Qed.

Lemma claim_prepared_evolves db db2 claim schedule :
  claim_prepared db db2 claim schedule -> evolves db db2.
Proof.
  intros Hp. pose proof Hp as (_ & Hr & Hsc & Hd & Ho & Has & _ & _ & _ & Hatt).
  split; try (intros; congruence).
  - intros id a Ha. exists a. split; [|done].
    destruct Hatt as [(? & _ & _ & _ & ->)|[Hn ->]]; [done|]. rewrite lookup_insert_ne; [done|congruence].
  - intros e id run s Hs _. by eapply claim_prepared_state.
Qed.

Lemma claim_evolves db claim hook ct db' : claim_execute db claim hook = Ok (ct, db') -> evolves db db'.
Proof.
  intros (schedule & _ & _ & _ & [(-> & _)|(_ & db2 & Hp & Ha)])%claim_execute_cases; [reflexivity|].
  etrans; [by eapply claim_prepared_evolves|by eapply apply_evolves].
Qed.

Lemma rebind_evolves db run id st epoch db' : rebind_execute db run id st epoch = Ok db' -> evolves db db'.
Proof.
  intros H. pose proof H as (a & Ha & _ & _ & Hat & Hr & Hs & Hd & Ho & Has & _)%rebind_effect.
  split; try (intros; congruence).
  - intros i x Hx. rewrite Hat. destruct (decide (i = id)) as [->|].
    + rewrite lookup_insert_eq. rewrite Ha in Hx. injection Hx as <-. by eexists.
    + rewrite lookup_insert_ne by done. eauto.
  - intros e i r s. by rewrite (rebind_state _ _ _ _ _ _ _ _ H).
Qed.

Lemma terminal_evolves db run category at_ r :
  runs db !! run = Some r -> terminal_open category at_ r = true -> evolves db (with_terminal db run category at_ r).
Proof.
  intros Hr Ho. split; try done; [| |by eauto|intros e id x s; by rewrite terminal_entity];
    intros id; cbn [runs with_terminal with_runs];
    (destruct (decide (id = run)) as [->|]; [rewrite lookup_insert_eq, Hr|by rewrite lookup_insert_ne]); [done|].
  intros c t. simpl. unfold run_terminal. simpl. intros [= Hc Ht]. unfold terminal_open in Ho.
  rewrite Hc, Ht in Ho. simpl in Ho. by apply andb_true_iff in Ho as [->%bool_decide_eq_true ->%bool_decide_eq_true].
Qed.

Lemma reachable_evolves start db : journal_reachable start db -> evolves start db.
Proof.
  revert db. apply (journal_invariant (evolves start)).
  - reflexivity.
  - intros d op ct d' Hd _ H. etrans; [exact Hd|by eapply apply_evolves].
  - intros d claim hook ct d' Hd _ _ H. etrans; [exact Hd|by eapply claim_evolves].
  - intros d run id st epoch d' Hd _ H. etrans; [exact Hd|by eapply rebind_evolves].
  - intros d run category at_ r Hd Hr Ho. etrans; [exact Hd|by apply terminal_evolves].
Qed.

(** C9: Terminal states are final: whatever operations follow, in whatever order and with whatever
    failures, an entity of any kind that reached a terminal state of its lifecycle keeps exactly
    that state. *)
Theorem terminal_is_final start db e id run s :
  journal_reachable start db -> entity_state start e id = Some (run, s) ->
  state_value s ∈ terminal_states (state_machine e) -> entity_state db e id = Some (run, s).
Proof.
  intros Hr Hs Ht. apply (ev_final _ _ (reachable_evolves _ _ Hr) _ _ _ _ Hs).
  intros t. apply terminal_no_edge; [|done]. by eapply entity_state_type.
Qed.

(** The attempt of the worked run stays SUCCEEDED through the settlement. *)
Lemma terminal_is_final_witness :
  entity_state demo_end Entity_ATTEMPT demo_attempt = Some (demo_run, OfAttempt Attempt_SUCCEEDED).
Proof.
  apply (terminal_is_final demo_sent demo_end).
  - exact demo_settled_reachable.
  - vm_compute. reflexivity.
  - apply (bool_decide_eq_true_1 _). vm_compute. reflexivity.
Defined.

(** A state invariant that evolution keeps and fresh commands establish holds throughout. *)
Lemma outcome_invariant (P : Database -> Prop) start :
  P start ->
  (forall db db' op p, P db -> command_ok (op_command op) ->
     _validate_payload_scope (op_command op) = Ok tt ->
     _validate_transport_evidence_presence (op_command op) (op_transport_evidence op) = Ok tt ->
     fresh_change db db' op p -> P db') ->
  (forall db db2 claim schedule, P db -> claim_prepared db db2 claim schedule -> P db2) ->
  (forall db run id st epoch db', P db -> rebind_execute db run id st epoch = Ok db' -> P db') ->
  (forall db run category at_ r, P db -> runs db !! run = Some r -> terminal_open category at_ r = true ->
     P (with_terminal db run category at_ r)) ->
  forall db, journal_reachable start db -> P db.
Proof.
  intros H0 Hf Hc Hr Ht.
  assert (forall db op ct db', P db -> command_ok (op_command op) -> apply_execute db op = Ok (ct, db') -> P db')
    as Happly.
  { intros db op ct db' HP Hok (_ & Hpay & Hev & [[_ ->]|[_ [p Hfc]]])%apply_cases; [done|]. by eapply Hf. }
  apply (journal_invariant P); eauto using op_command_ok.
  intros db claim hook ct db' HP _ Hok (schedule & _ & _ & _ & [(-> & _)|(_ & db2 & Hp & Ha)])%claim_execute_cases;
    [done|]. eapply Happly; [by eapply Hc| |exact Ha]. exact Hok.
Qed.

(** ** Completed runs *)

Definition unsettled : list DeliveryState :=
  [Delivery_PENDING; Delivery_ELIGIBLE; Delivery_ACTIVE; Delivery_AMBIGUOUS].

(** Every required delivery of a completed run is settled. *)
Definition runs_settled (db : Database) : Prop :=
  forall run row id d, runs db !! run = Some row -> run_state row = Run_COMPLETED ->
    deliveries db !! id = Some d -> dl_run_id d = run -> dl_required d = true -> dl_state d ∉ unsettled.

Lemma exists_row_false {A} (t : gmap str A) cond k v :
  exists_row t cond = false -> t !! k = Some v -> cond k v = false.
Proof.
  unfold exists_row, select. rewrite negb_bool_decide_false. intros Hl%length_zero_iff_nil Hk.
  destruct (cond k v) eqn:E; [|done].
  assert (In (k, v) (List.filter (fun kv => cond kv.1 kv.2) (map_to_list t))) as Hin.
  { apply List.filter_In. split; [|done]. by apply list_elem_of_In, elem_of_map_to_list. }
  rewrite Hl in Hin. destruct Hin.
Qed.

(** Reading the state of a delivery or a run through [entity_state]. *)
Lemma delivery_before db db' id d :
  (forall i, option_map (fun r => (dl_run_id r, dl_scenario_id r, dl_event_id r, dl_ordinal r, dl_step_ordinal r,
      dl_required r)) (deliveries db' !! i)
    = option_map (fun r => (dl_run_id r, dl_scenario_id r, dl_event_id r, dl_ordinal r, dl_step_ordinal r,
      dl_required r)) (deliveries db !! i)) ->
  deliveries db' !! id = Some d ->
  exists d0, deliveries db !! id = Some d0 /\ dl_run_id d0 = dl_run_id d /\
    dl_scenario_id d0 = dl_scenario_id d /\ dl_event_id d0 = dl_event_id d /\ dl_required d0 = dl_required d.
Proof.
  intros H Hd. specialize (H id). rewrite Hd in H. destruct (deliveries db !! id) as [d0|]; [|done].
  exists d0. simpl in H. injection H. intros. auto.
Qed.

Lemma settled_no_exit d : d ∉ unsettled -> no_exit Entity_DELIVERY (OfDelivery d).
Proof.
  intros Hd. refine (proj1 (stuck_spec _ _) _). destruct d; try (by vm_compute); exfalso; apply Hd; unfold unsettled; set_solver.
Qed.

Lemma fresh_runs_settled db db' op p : runs_settled db -> fresh_change db db' op p -> runs_settled db'.
Proof.
  intros HP Hf run row id d Hrun Hcomp Hd Hdr Hreq.
  destruct (delivery_before db db' id d (si_deliveries _ _ (fc_identities _ _ _ _ Hf)) Hd)
    as (d0 & Hd0 & Er0 & _ & _ & Ereq).
  assert (entity_state db' Entity_RUN run = Some (run, OfRun Run_COMPLETED)) as Hrs
    by (unfold entity_state; rewrite Hrun; simpl; by rewrite Hcomp).
  assert (entity_state db' Entity_DELIVERY id = Some (run, OfDelivery (dl_state d))) as Hds
    by (unfold entity_state; rewrite Hd; simpl; by rewrite Hdr).
  assert (dl_state d0 ∉ unsettled) as Hold.
  { apply (fresh_state_cases _ _ _ _ _ _ _ _ Hf) in Hrs
      as [Hrs|(He & Hi & Hr & Hn & expected & Hexp & Ha & Hst)].
    - unfold entity_state in Hrs. destruct (runs db !! run) as [row0|] eqn:Hr0; [|done].
      simpl in Hrs. eapply (HP run row0 id d0); congruence.
    - pose proof (fc_guards _ _ _ _ Hf) as Hg. unfold _validate_transition_guards in Hg.
      assert (expected = OfRun Run_RUNNING) as ->.
      { pose proof (check_edges_ok Entity_RUN (fun s t => implb (bool_decide (t = OfRun Run_COMPLETED))
          (bool_decide (s = OfRun Run_RUNNING))) ltac:(by vm_compute) _ _ Ha) as Hb. simpl in Hb.
        by apply bool_decide_eq_true in Hb. }
      unfold is_entity in Hg. rewrite He, Hexp, Hn in Hg. simpl in Hg. py_step Hg.
      unfold _guard_run_completion in E. py_step E.
      apply (exists_row_false _ _ _ _ E0) in Hd0. rewrite Hr, bool_decide_true, Ereq, Hreq in Hd0 by congruence.
      simpl in Hd0. by apply bool_decide_eq_false in Hd0. }
  assert (entity_state db Entity_DELIVERY id = Some (run, OfDelivery (dl_state d0))) as Hds0
    by (unfold entity_state; rewrite Hd0; simpl; congruence).
  apply (ev_final _ _ (fresh_evolves _ _ _ _ Hf)) in Hds0; [|by apply settled_no_exit].
  rewrite Hds0 in Hds. by injection Hds as <-.
Qed.

(** C5: In every execution, whatever is applied, claimed, rebound or fails, a run in COMPLETED has
    no required delivery that is pending, eligible, active or ambiguous: completion waits for every
    required delivery and later operations cannot reopen one. *)
Theorem completed_runs_settled start db :
  runs_settled start -> journal_reachable start db -> runs_settled db.
Proof.
  intros H0. revert db. apply (outcome_invariant runs_settled); [done| | | |].
  - intros d d' op p HP _ _ _ Hf. by eapply fresh_runs_settled.
  - intros d d2 claim schedule HP (_ & Hr & _ & Hd & _). unfold runs_settled. by rewrite Hr, Hd.
  - intros d run id st epoch d' HP (a & _ & _ & _ & _ & Hr & _ & Hd & _)%rebind_effect.
    unfold runs_settled. by rewrite Hr, Hd.
  - intros d run category at_ r HP Hr _ run' row id x Hrow. cbn [runs with_terminal with_runs] in Hrow.
    apply lookup_insert_Some in Hrow as [[<- <-]|[_ Hrow]]; [exact (HP _ _ id x Hr)|by apply HP].
Qed.

Lemma completed_runs_settled_witness :
  option_map run_state (runs demo_end !! demo_run) = Some Run_COMPLETED /\ runs_settled demo_end.
Proof.
  split; [vm_compute; reflexivity|]. apply (completed_runs_settled demo_db demo_end).
  - intros run row id d H. unfold demo_db in H. simpl in H. by apply lookup_singleton_Some in H as [_ <-].
  - exact demo_end_reachable.
Defined.

(** ** Satisfied deliveries *)

Definition succeeded_attempt (db : Database) (run scenario delivery : str) : Prop :=
  exists aid a t, attempts db !! aid = Some a /\
    (at_run_id a, at_scenario_id a, at_delivery_id a) = (run, scenario, delivery) /\
    at_state a = Attempt_SUCCEEDED /\ attempt_outcome a = (Some Class_RECEIVER_ACCEPTED, Some t).
Definition passed_assertion (db : Database) (run scenario : str) : Prop :=
  exists sid s, assertions db !! sid = Some s /\
    (as_run_id s, as_scenario_id s, as_state s) = (run, scenario, Assertion_PASSED).

(** Every satisfied delivery has its evidence in the database. *)
Definition deliveries_evidenced (db : Database) : Prop :=
  forall id d, deliveries db !! id = Some d -> dl_state d = Delivery_SATISFIED ->
    succeeded_attempt db (dl_run_id d) (dl_scenario_id d) id \/
    passed_assertion db (dl_run_id d) (dl_scenario_id d).

Lemma succeeded_attempt_kept db db' run scenario delivery :
  evolves db db' -> succeeded_attempt db run scenario delivery -> succeeded_attempt db' run scenario delivery.
Proof.
  intros Hev (aid & a & t & Ha & Hpl & Hs & Ho).
  destruct (ev_attempts _ _ Hev _ _ Ha) as (a' & Ha' & Hp & Hout).
  assert (entity_state db Entity_ATTEMPT aid = Some (at_run_id a, OfAttempt Attempt_SUCCEEDED)) as Hst
    by (unfold entity_state; rewrite Ha; simpl; by rewrite Hs).
  apply (ev_final _ _ Hev) in Hst.
  2: { refine (proj1 (stuck_spec _ _) _). by vm_compute. }
  unfold entity_state in Hst. rewrite Ha' in Hst. simpl in Hst. injection Hst as Hr Hs'.
  exists aid, a', t. split_and!; [done| |done|].
  - unfold attempt_place in Hp. congruence.
  - rewrite Hout; [done|]. by rewrite Ho.
Qed.

Lemma passed_assertion_kept db db' run scenario :
  evolves db db' -> passed_assertion db run scenario -> passed_assertion db' run scenario.
Proof.
  intros Hev (sid & s & Hs & [= Hr Hsc Hst]).
  pose proof (ev_assertions _ _ Hev sid) as Ha. rewrite Hs in Ha.
  destruct (assertions db' !! sid) as [s'|] eqn:Hs'; [|done]. exists sid, s'. split; [done|].
  assert (entity_state db Entity_ASSERTION sid = Some (run, OfAssertion Assertion_PASSED)) as He
    by (unfold entity_state; rewrite Hs; simpl; congruence).
  apply (ev_final _ _ Hev) in He; [|refine (proj1 (stuck_spec _ _) _); by vm_compute].
  unfold entity_state in He. rewrite Hs' in He. simpl in *. congruence.
Qed.

Lemma related_attempt_ok db cause scenario delivery allowed :
  _require_related_attempt db cause scenario delivery allowed = Ok tt ->
  exists a k t, attempts db !! cause_record_id cause = Some a /\
    (at_run_id a, at_scenario_id a, at_delivery_id a) = (cause_run_id cause, scenario, delivery) /\
    at_state a ∈ allowed /\ attempt_outcome a = (Some k, Some t) /\
    k ∈ _CLASSIFICATIONS_BY_TERMINAL_STATE (at_state a).
Proof.
  unfold _require_related_attempt. intros H. destruct (attempts db !! _) as [a|]; [|done].
  do 2 py_step H. rewrite !orb_false_iff, !negb_bool_decide_false in E. destruct E as [[E1 E2] E3].
  apply negb_bool_decide_false in E0. unfold attempt_outcome.
  destruct (at_outcome_category a) as [k|] eqn:Ek; [|done].
  destruct (at_terminal_recorded_at a) as [t|] eqn:Et; [|done].
  py_step H. apply negb_bool_decide_false in E. exists a, k, t. split_and!; try done; congruence.
Qed.

(** What the satisfaction guard established. *)
Lemma satisfaction_guard db c p d :
  _guard_delivery_satisfaction db c p = Ok tt -> deliveries db !! tc_entity_id c = Some d ->
  pj_scenario_id p = Some (dl_scenario_id d) -> dl_run_id d = tc_run_id c ->
  succeeded_attempt db (dl_run_id d) (dl_scenario_id d) (tc_entity_id c) \/
  passed_assertion db (dl_run_id d) (dl_scenario_id d).
Proof.
  unfold _guard_delivery_satisfaction. intros H Hd Hsc Hrun.
  destruct (tc_delivery_satisfaction c) as [ev|]; [|done]. rewrite Hsc in H. py_step H.
  rewrite orb_false_iff, !negb_bool_decide_false in E. destruct E as [Hcr _].
  destruct (satisfaction_kind ev); py_step H.
  - left. apply related_attempt_ok in H as (a & k & t & Ha & Hpl & Hs & Ho & Hk).
    apply list_elem_of_singleton in Hs. rewrite Hs in Hk. apply list_elem_of_singleton in Hk as ->.
    exists (cause_record_id (satisfaction_cause ev)), a, t. split_and!; try done. congruence.
  - right. destruct (assertions db !! _) as [s|] eqn:Es; [|done]. do 2 py_step H.
    rewrite orb_false_iff, !negb_bool_decide_false in E0. destruct E0 as [Er Es'].
    apply negb_bool_decide_false in E1. exists (cause_record_id (satisfaction_cause ev)), s.
    split; [done|]. congruence.
Qed.

Lemma fresh_deliveries_evidenced db db' op p :
  deliveries_evidenced db -> fresh_change db db' op p -> deliveries_evidenced db'.
Proof.
  intros HP Hf id d Hd Hsat.
  destruct (delivery_before db db' id d (si_deliveries _ _ (fc_identities _ _ _ _ Hf)) Hd)
    as (d0 & Hd0 & Er & Esc & _ & _).
  assert (succeeded_attempt db (dl_run_id d) (dl_scenario_id d) id \/
    passed_assertion db (dl_run_id d) (dl_scenario_id d)) as Hev.
  2: { pose proof (fresh_evolves _ _ _ _ Hf) as He. destruct Hev as [Hev|Hev];
       [left; by eapply succeeded_attempt_kept|right; by eapply passed_assertion_kept]. }
  assert (entity_state db' Entity_DELIVERY id = Some (dl_run_id d, OfDelivery Delivery_SATISFIED)) as Hds
    by (unfold entity_state; rewrite Hd; simpl; by rewrite Hsat).
  apply (fresh_state_cases _ _ _ _ _ _ _ _ Hf) in Hds as [Hds|(He & Hi & Hr & Hn & _)].
  - unfold entity_state in Hds. rewrite Hd0 in Hds. simpl in Hds. rewrite <- Er, <- Esc.
    apply HP; [done|congruence].
  - pose proof (fc_guards _ _ _ _ Hf) as Hg. unfold _validate_transition_guards, is_entity in Hg.
    rewrite He, Hn in Hg. simpl in Hg. py_step Hg. clear Hg. subst id. rewrite <- Er, <- Esc.
    assert (a = tt) as -> by (by destruct a). eapply satisfaction_guard; [exact E|done| |congruence].
    pose proof (fc_load _ _ _ _ Hf) as Hl. rewrite He in Hl. simpl in Hl. rewrite Hd0 in Hl. by injection Hl as <-.
Qed.

(** C6: In every execution, a delivery in SATISFIED has durable evidence in the same database: a
    succeeded attempt of that very delivery, run and scenario classified as accepted by the
    receiver, or a passed assertion of its scenario. *)
Theorem satisfied_deliveries_evidenced start db :
  deliveries_evidenced start -> journal_reachable start db -> deliveries_evidenced db.
Proof.
  intros H0. revert db. apply (outcome_invariant deliveries_evidenced); [done| | | |].
  - intros d d' op p HP _ _ _ Hf. by eapply fresh_deliveries_evidenced.
  - intros d d2 claim schedule HP Hp id x Hx Hsat.
    pose proof (claim_prepared_evolves _ _ _ _ Hp) as He. pose proof Hp as (_ & _ & _ & Hd & _).
    rewrite Hd in Hx. destruct (HP id x Hx Hsat) as [Hv|Hv];
      [left; by eapply succeeded_attempt_kept|right; by eapply passed_assertion_kept].
  - intros d run i st epoch d' HP Hr id x Hx Hsat. pose proof (rebind_evolves _ _ _ _ _ _ Hr) as He.
    apply rebind_effect in Hr as (a & _ & _ & _ & _ & _ & _ & Hd & _).
    rewrite Hd in Hx. destruct (HP id x Hx Hsat) as [Hv|Hv];
      [left; by eapply succeeded_attempt_kept|right; by eapply passed_assertion_kept].
  - by intros d run category at_ r HP _ _.
Qed.

Lemma satisfied_deliveries_evidenced_witness :
  option_map dl_state (deliveries demo_end !! demo_delivery) = Some Delivery_SATISFIED /\
  deliveries_evidenced demo_end.
Proof.
  split; [vm_compute; reflexivity|]. apply (satisfied_deliveries_evidenced demo_db demo_end).
  - intros id d H. unfold demo_db in H. simpl in H. by apply lookup_singleton_Some in H as [_ <-].
  - exact demo_end_reachable.
Defined.

(** ** Passed scenarios *)

(** A required assertion that does not stand against its scenario passing. *)
Definition assertion_cleared (s : AssertionRow) : Prop :=
  as_state s = Assertion_PASSED \/
  as_state s = Assertion_UNSUPPORTED /\ _unsupported_policy_allows_skip (as_policy_json s) = Ok true.

Definition scenarios_cleared (db : Database) : Prop :=
  forall sc row id s, scenarios db !! sc = Some row -> sc_state row = Scenario_PASSED ->
    assertions db !! id = Some s -> as_run_id s = sc_run_id row -> as_scenario_id s = sc ->
    as_required s = true -> assertion_cleared s.

Lemma for_each_unit_all {A} (body : unit -> A -> result unit) l :
  for_each body tt l = Ok tt -> forall x, x ∈ l -> body tt x = Ok tt.
Proof.
  induction l as [|y l IH]; simpl; [by intros _ x ?%not_elem_of_nil|].
  destruct (body tt y) as [[]|] eqn:E; [|done]. intros Hl x [->|Hx]%elem_of_cons; auto.
Qed.

Lemma scenario_guard db run sc id s :
  _guard_scenario_pass db run sc = Ok tt -> assertions db !! id = Some s ->
  as_run_id s = run -> as_scenario_id s = sc -> as_required s = true -> assertion_cleared s.
Proof.
  intros H Hs Hr Hsc Hreq. unfold _guard_scenario_pass in H.
  pose proof (for_each_unit_all _ _ H (id, s)) as Hstep.
  assert (scenario_pass_step tt (id, s) = Ok tt) as Hok.
  { apply Hstep, elem_of_py_sorted, list_elem_of_In, List.filter_In. split.
    - by apply list_elem_of_In, elem_of_map_to_list.
    - simpl. by rewrite !bool_decide_true, Hreq. }
  unfold scenario_pass_step in Hok. unfold assertion_cleared. simpl in Hok.
  destruct (as_state s); try done; [by left|]. right. split; [done|]. py_step Hok. py_step Hok.
  by apply negb_false_iff in E0 as ->.
Qed.

Lemma assertion_kept db db' id s' :
  evolves db db' -> assertions db' !! id = Some s' ->
  exists s, assertions db !! id = Some s /\ as_run_id s = as_run_id s' /\ as_scenario_id s = as_scenario_id s' /\
    as_required s = as_required s' /\ (assertion_cleared s -> assertion_cleared s').
Proof.
  intros Hev Hs'. pose proof (ev_assertions _ _ Hev id) as Ha. rewrite Hs' in Ha.
  destruct (assertions db !! id) as [s|] eqn:Hs; [|done]. simpl in Ha. injection Ha as E1 E2 E3 E4.
  exists s. split_and!; try done. intros Hc.
  assert (as_state s' = as_state s) as Heq.
  { assert (entity_state db Entity_ASSERTION id = Some (as_run_id s, OfAssertion (as_state s))) as He
      by (unfold entity_state; by rewrite Hs).
    apply (ev_final _ _ Hev) in He.
    - unfold entity_state in He. rewrite Hs' in He. simpl in He. congruence.
    - refine (proj1 (stuck_spec _ _) _). destruct Hc as [-> | [-> _]]; by vm_compute. }
  unfold assertion_cleared in *. by rewrite Heq, E3.
Qed.

Lemma fresh_scenarios_cleared db db' op p :
  scenarios_cleared db -> fresh_change db db' op p -> scenarios_cleared db'.
Proof.
  intros HP Hf sc row id s' Hrow Hpass Hs' Hr Hsc Hreq.
  destruct (assertion_kept _ _ _ _ (fresh_evolves _ _ _ _ Hf) Hs') as (s & Hs & E1 & E2 & E3 & Hk).
  apply Hk. pose proof (si_scenarios _ _ (fc_identities _ _ _ _ Hf) sc) as Hi. rewrite Hrow in Hi.
  destruct (scenarios db !! sc) as [row0|] eqn:Hrow0; [|done]. simpl in Hi. injection Hi as Er _.
  assert (entity_state db' Entity_SCENARIO sc = Some (sc_run_id row, OfScenario Scenario_PASSED)) as Hst
    by (unfold entity_state; rewrite Hrow; simpl; by rewrite Hpass).
  apply (fresh_state_cases _ _ _ _ _ _ _ _ Hf) in Hst as [Hst|(He & Hi & Hrn & Hn & _)].
  - unfold entity_state in Hst. rewrite Hrow0 in Hst. simpl in Hst.
    eapply (HP sc row0 id s); congruence.
  - pose proof (fc_guards _ _ _ _ Hf) as Hg. unfold _validate_transition_guards, is_entity in Hg.
    rewrite He, Hn in Hg. simpl in Hg. py_step Hg. destruct a.
    eapply scenario_guard; [exact E|done|congruence|congruence|congruence].
Qed.

(** C8: In every execution, a scenario in PASSED has every required assertion passed, or unsupported
    under a policy that says to skip it; nothing that happens later can change that. *)
Theorem passed_scenarios_cleared start db :
  scenarios_cleared start -> journal_reachable start db -> scenarios_cleared db.
Proof.
  intros H0. revert db. apply (outcome_invariant scenarios_cleared); [done| | | |].
  - intros d d' op p HP _ _ _ Hf. by eapply fresh_scenarios_cleared.
  - intros d d2 claim schedule HP (_ & _ & Hsc & _ & _ & Has & _). unfold scenarios_cleared. by rewrite Hsc, Has.
  - intros d run id st epoch d' HP (a & _ & _ & _ & _ & _ & Hsc & _ & _ & Has & _)%rebind_effect.
    unfold scenarios_cleared. by rewrite Hsc, Has.
  - by intros d run category at_ r HP _ _.
Qed.

Lemma passed_scenarios_cleared_witness :
  option_map sc_state (scenarios demo_end !! demo_scenario) = Some Scenario_PASSED /\
  scenarios_cleared demo_end.
Proof.
  split; [vm_compute; reflexivity|]. apply (passed_scenarios_cleared demo_db demo_end).
  - intros sc row id s H. unfold demo_db in H. simpl in H. by apply lookup_singleton_Some in H as [_ <-].
  - exact demo_end_reachable.
Defined.

(** ** Terminal attempts *)

Definition records_of (db : Database) (run id : str) (rid : str) (r : AttemptRecordRow) : Prop :=
  attempt_records db !! rid = Some r /\ ar_run_id r = run /\ ar_attempt_id r = id.

(** A terminal attempt carries its outcome and exactly one compatible final record; any other
    attempt carries neither. *)
Definition attempts_recorded (db : Database) : Prop :=
  forall id a, attempts db !! id = Some a ->
    if bool_decide (at_state a ∈ _TERMINAL_ATTEMPT_STATES) then
      exists k t rid r, attempt_outcome a = (Some k, Some t) /\
        k ∈ _CLASSIFICATIONS_BY_TERMINAL_STATE (at_state a) /\
        records_of db (at_run_id a) id rid r /\ ar_classification r = k /\
        ar_state r ∈ _EVIDENCE_STATES_BY_TERMINAL_STATE (at_state a) /\
        (forall rid' r', records_of db (at_run_id a) id rid' r' -> rid' = rid)
    else
      attempt_outcome a = (None, None) /\ forall rid r, ~ records_of db (at_run_id a) id rid r.

Lemma payload_terminal c :
  _validate_payload_scope c = Ok tt -> is_terminal_attempt c = negb (is_none (tc_attempt_outcome c)).
Proof.
  unfold _validate_payload_scope. intros H. do 4 py_step H. by apply negb_false_iff, eqb_prop in E2.
Qed.

Lemma evidence_presence c ev :
  _validate_transport_evidence_presence c ev = Ok tt ->
  is_terminal_attempt c = negb (is_none ev) /\
  forall e, ev = Some e -> exists outcome s,
    tc_attempt_outcome c = Some outcome /\ tc_new_state c = OfAttempt s /\
    ev_run_id e = tc_run_id c /\ ev_attempt_id e = tc_entity_id c /\
    ev_classification e = outcome_classification outcome /\ ev_state e ∈ _EVIDENCE_STATES_BY_TERMINAL_STATE s.
Proof.
  unfold _validate_transport_evidence_presence. intros H. py_step H. apply negb_false_iff, eqb_prop in E.
  split; [done|]. intros e ->. simpl in H. destruct (tc_attempt_outcome c) as [outcome|]; [|done].
  destruct (tc_new_state c) as [| | |s| |]; try done. do 4 py_step H.
  apply negb_bool_decide_false in E0, E1, E2, E3. eauto 10.
Qed.

Lemma attempt_record_columns e ts lt sq row :
  attempt_record_values e ts lt sq = Ok row ->
  ar_record_id row = ev_record_id e /\ ar_run_id row = ev_run_id e /\ ar_attempt_id row = ev_attempt_id e /\
  ar_classification row = ev_classification e /\ ar_state row = ev_state e.
Proof. unfold attempt_record_values. intros H. py_step H. by injection H as <-. Qed.

(** The row of an attempt after a fresh command that did not target it in a terminal way. *)
Lemma fresh_records_other db db' op p run id rid r :
  _validate_transport_evidence_presence (op_command op) (op_transport_evidence op) = Ok tt ->
  fresh_change db db' op p -> id <> tc_entity_id (op_command op) ->
  records_of db' run id rid r <-> records_of db run id rid r.
Proof.
  intros [_ Hev]%evidence_presence Hf Hne. pose proof (fc_record _ _ _ _ Hf) as Hr. unfold adds_record in Hr.
  unfold records_of. destruct (op_transport_evidence op) as [e|]; [|by rewrite Hr].
  destruct Hr as (row & sq & Hv%attempt_record_columns & Hn & ->). destruct (Hev e eq_refl) as (? & ? & _ & _ & _ & Ha & _).
  destruct Hv as (_ & _ & Hid & _). split.
  - intros ([[<- <-]|[_ Hl]]%lookup_insert_Some & Hrun & Hat); [congruence|done].
  - intros (Hl & Hrun & Hat). split; [|done]. apply lookup_insert_Some. right. split; [congruence|done].
Qed.

Lemma is_terminal_attempt_spec c :
  is_terminal_attempt c = true <->
  tc_entity_type c = Entity_ATTEMPT /\ exists s, tc_new_state c = OfAttempt s /\ s ∈ _TERMINAL_ATTEMPT_STATES.
Proof.
  unfold is_terminal_attempt, is_entity, enters_terminal. rewrite andb_true_iff, bool_decide_eq_true. split.
  - intros [He Ht]. split; [done|]. destruct (tc_new_state c); try done. apply bool_decide_eq_true in Ht. eauto.
  - intros [He (s & -> & Hs)]. split; [done|]. by apply bool_decide_eq_true.
Qed.

Lemma fresh_outcome db db' op p id :
  fresh_change db db' op p ->
  (is_terminal_attempt (op_command op) = negb (is_none (tc_attempt_outcome (op_command op)))) ->
  option_map attempt_outcome (attempts db' !! id) =
    match tc_expected_state (op_command op), tc_attempt_outcome (op_command op) with
    | Some _, Some outcome =>
      if decide (id = tc_entity_id (op_command op))
      then Some (Some (outcome_classification outcome), Some (_format_wall_time (tc_timestamp (op_command op))))
      else option_map attempt_outcome (attempts db !! id)
    | _, _ => option_map attempt_outcome (attempts db !! id)
    end.
Proof.
  intros Hf Hterm. pose proof (fc_states _ _ _ _ Hf) as Hst.
  destruct (tc_expected_state _) as [expected|]; [|by destruct Hst as (_ & -> & _)].
  destruct Hst as (_ & _ & _ & Ho). unfold outcome_written in Ho.
  destruct (tc_attempt_outcome _) as [outcome|]; [|done]. simpl in Hterm.
  apply is_terminal_attempt_spec in Hterm as [He _]. unfold is_entity in Ho. rewrite bool_decide_true in Ho by done.
  destruct Ho as [_ ->]. done.
Qed.

Lemma fresh_records_same db db' op p run id rid r :
  _validate_transport_evidence_presence (op_command op) (op_transport_evidence op) = Ok tt ->
  fresh_change db db' op p ->
  (is_terminal_attempt (op_command op) = true -> id <> tc_entity_id (op_command op)) ->
  records_of db' run id rid r <-> records_of db run id rid r.
Proof.
  intros Hev Hf Hne. destruct (is_terminal_attempt (op_command op)) eqn:Et.
  - eapply fresh_records_other; [exact Hev|exact Hf|]. by apply Hne.
  - apply evidence_presence in Hev as [Hn _]. rewrite Et in Hn.
    pose proof (fc_record _ _ _ _ Hf) as Hr. unfold adds_record in Hr. unfold records_of.
    destruct (op_transport_evidence op); [done|]. by rewrite Hr.
Qed.

(** A terminal command records the outcome. *)
Lemma fresh_terminal_recorded db db' op p id a s :
  _validate_transport_evidence_presence (op_command op) (op_transport_evidence op) = Ok tt ->
  fresh_change db db' op p -> is_terminal_attempt (op_command op) = true ->
  tc_entity_id (op_command op) = id -> tc_new_state (op_command op) = OfAttempt s ->
  attempts db !! id = Some a -> at_run_id a = tc_run_id (op_command op) ->
  (forall rid r, ~ records_of db (at_run_id a) id rid r) ->
  exists k rid r, option_map outcome_classification (tc_attempt_outcome (op_command op)) = Some k /\
    k ∈ _CLASSIFICATIONS_BY_TERMINAL_STATE s /\ records_of db' (at_run_id a) id rid r /\
    ar_classification r = k /\ ar_state r ∈ _EVIDENCE_STATES_BY_TERMINAL_STATE s /\
    (forall rid' r', records_of db' (at_run_id a) id rid' r' -> rid' = rid).
Proof.
  intros Hev Hf Ht Hid Hs Ha Hrun Hno. pose proof (evidence_presence _ _ Hev) as [Hp Hev'].
  rewrite Ht in Hp. destruct (op_transport_evidence op) as [e|] eqn:Ee; [|done].
  destruct (Hev' e eq_refl) as (outcome & s' & Hout & Hs' & Er & Eid & Ecl & Est).
  assert (s' = s) as -> by congruence. rewrite Hout. simpl.
  pose proof (fc_record _ _ _ _ Hf) as Hr. unfold adds_record in Hr. rewrite Ee in Hr.
  destruct Hr as (row & sq & Hv%attempt_record_columns & _ & Hrec).
  destruct Hv as (_ & Vr & Va & Vc & Vs).
  exists (outcome_classification outcome), (ar_record_id row), row. split; [done|]. split_and!.
  - pose proof (fc_guards _ _ _ _ Hf) as Hg. unfold _validate_transition_guards in Hg. do 3 py_step Hg.
    rewrite Ht in Hg. unfold _guard_terminal_attempt in Hg. rewrite Hout, Hs in Hg. py_step Hg.
    by apply negb_bool_decide_false in E2.
  - split_and!; [by rewrite Hrec, lookup_insert_eq|congruence..].
  - congruence.
  - congruence.
  - intros rid' r' (Hl & H1 & H2). rewrite Hrec in Hl. apply lookup_insert_Some in Hl as [[<- _]|[_ Hl]]; [done|].
    exfalso. by apply (Hno rid' r').
Qed.

Lemma terminal_no_exit s : s ∈ _TERMINAL_ATTEMPT_STATES -> no_exit Entity_ATTEMPT (OfAttempt s).
Proof.
  intros Hs. refine (proj1 (stuck_spec _ _) _).
  destruct s; try (by vm_compute); exfalso; unfold _TERMINAL_ATTEMPT_STATES in Hs; set_solver.
Qed.

(** Only a terminal command moves an attempt into a terminal state. *)
Lemma fresh_attempt_terminal db db' op p id a a' :
  fresh_change db db' op p -> attempts db !! id = Some a -> attempts db' !! id = Some a' ->
  ~ (is_terminal_attempt (op_command op) = true /\ tc_entity_id (op_command op) = id) ->
  bool_decide (at_state a' ∈ _TERMINAL_ATTEMPT_STATES) = bool_decide (at_state a ∈ _TERMINAL_ATTEMPT_STATES) /\
  (at_state a' ∈ _TERMINAL_ATTEMPT_STATES -> at_state a' = at_state a).
Proof.
  intros Hf Ha Ha' Hnt.
  assert (entity_state db' Entity_ATTEMPT id = Some (at_run_id a', OfAttempt (at_state a'))) as Hs
    by (unfold entity_state; by rewrite Ha').
  apply (fresh_state_cases _ _ _ _ _ _ _ _ Hf) in Hs as [Hs|(He & Hi & _ & Hn & expected & _ & Hallow & Hst)].
  - unfold entity_state in Hs. rewrite Ha in Hs. simpl in Hs. injection Hs as _ ->. done.
  - unfold entity_state in Hst. rewrite Ha in Hst. simpl in Hst. injection Hst as _ <-.
    assert (at_state a' ∉ _TERMINAL_ATTEMPT_STATES) as Hx.
    { intros Hx. apply Hnt. split; [|done]. apply is_terminal_attempt_spec. eauto. }
    rewrite (bool_decide_false (at_state a' ∈ _)) by exact Hx. split; [|intros Hy; by destruct (Hx Hy)].
    rewrite bool_decide_false; [reflexivity|]. intros Hy%terminal_no_exit. rewrite Hy in Hallow. discriminate Hallow.
Qed.

Lemma fresh_attempts_recorded db db' op p :
  attempts_recorded db -> _validate_payload_scope (op_command op) = Ok tt ->
  _validate_transport_evidence_presence (op_command op) (op_transport_evidence op) = Ok tt ->
  fresh_change db db' op p -> attempts_recorded db'.
Proof.
  intros HP Hpay%payload_terminal Hev Hf id a' Ha'. set (c := op_command op) in *.
  pose proof (si_attempts _ _ (fc_identities _ _ _ _ Hf) id) as Hid. rewrite Ha' in Hid.
  destruct (attempts db !! id) as [a|] eqn:Ha; [|done]. simpl in Hid.
  assert (at_run_id a' = at_run_id a) as Hrun by (unfold attempt_identity in Hid; congruence).
  pose proof (fresh_outcome _ _ _ _ id Hf Hpay) as Ho. rewrite Ha', Ha in Ho. simpl in Ho. fold c in Ho.
  specialize (HP id a Ha). rewrite Hrun.
  destruct (decide (is_terminal_attempt c = true /\ tc_entity_id c = id)) as [[Ht Hi]|Hnt].
  - pose proof Ht as [He (s & Hs & Hts)]%is_terminal_attempt_spec.
    pose proof (fc_states _ _ _ _ Hf) as Hst. fold c in Hst. rewrite Hpay in Ht.
    destruct (tc_attempt_outcome c) as [outcome|] eqn:Eo; [|done].
    destruct (tc_expected_state c) as [expected|].
    2: { destruct Hst as (_ & _ & Hini). rewrite He, Hs in Hini. exfalso.
         unfold _TERMINAL_ATTEMPT_STATES in Hts. destruct s; try (vm_compute in Hini; discriminate Hini). set_solver. }
    destruct Hst as (Hcur & Hallow & Hw & _). rewrite He in *.
    unfold entity_state in Hcur. rewrite Hi, Ha in Hcur. simpl in Hcur. injection Hcur as Hr Hex.
    rewrite bool_decide_false in HP.
    2: { intros Hx%terminal_no_exit. rewrite <- Hex, Hx in Hallow. done. }
    destruct HP as [_ Hno].
    destruct (fresh_terminal_recorded db db' op p id a s Hev Hf)
      as (k & rid & r & Hk & H1 & H2 & H3 & H4 & H5).
    1: exact Hpay. 1-5: done.
    fold c in Hk. rewrite Eo in Hk. injection Hk as <-.
    assert (entity_state db' Entity_ATTEMPT id = Some (tc_run_id c, OfAttempt s)) as Hs'
      by (rewrite Hw, decide_True by done; by rewrite Hs).
    unfold entity_state in Hs'. rewrite Ha' in Hs'. injection Hs' as _ Hs'. rewrite Hs'.
    rewrite bool_decide_true by done. rewrite decide_True in Ho by done. apply (inj Some) in Ho. eauto 15.
  - assert (forall rid r, records_of db' (at_run_id a) id rid r <-> records_of db (at_run_id a) id rid r) as Hrec.
    { intros rid r. eapply fresh_records_same; [exact Hev|exact Hf|]. intros Ht ->. by apply Hnt. }
    assert (attempt_outcome a' = attempt_outcome a) as Hout.
    { destruct (tc_expected_state c); [|congruence]. destruct (tc_attempt_outcome c) eqn:Eo; [|congruence].
      rewrite decide_False in Ho; [congruence|]. intros ->. by apply Hnt. }
    assert (bool_decide (at_state a' ∈ _TERMINAL_ATTEMPT_STATES) =
            bool_decide (at_state a ∈ _TERMINAL_ATTEMPT_STATES) /\
            (at_state a' ∈ _TERMINAL_ATTEMPT_STATES -> at_state a' = at_state a)) as [Hb Heq].
    { eapply fresh_attempt_terminal; [exact Hf|done|done|]. intros Ht. by apply Hnt. }
    rewrite Hb, Hout. destruct (bool_decide (at_state a ∈ _)) eqn:Eb.
    + apply bool_decide_eq_true in Hb. rewrite (Heq Hb). destruct HP as (k & t & rid & r & H1 & H2 & H3 & H4 & H5 & H6).
      exists k, t, rid, r. rewrite Hrec. split_and!; try done. intros rid' r'. rewrite Hrec. apply H6.
    + split; [apply HP|]. intros rid r. rewrite Hrec. apply HP.
Qed.

(** FOREIGN KEY: a final record belongs to an attempt. *)
Definition records_referenced (db : Database) : Prop :=
  forall rid r, attempt_records db !! rid = Some r -> is_Some (attempts db !! ar_attempt_id r).

Lemma fresh_records_referenced db db' op p :
  records_referenced db ->
  _validate_transport_evidence_presence (op_command op) (op_transport_evidence op) = Ok tt ->
  fresh_change db db' op p -> records_referenced db'.
Proof.
  intros HP Hev Hf. pose proof (fresh_evolves _ _ _ _ Hf) as He.
  assert (forall id, is_Some (attempts db !! id) -> is_Some (attempts db' !! id)) as Hk.
  { intros id [a Ha]. destruct (ev_attempts _ _ He _ _ Ha) as (a' & -> & _). by eexists. }
  pose proof (fc_record _ _ _ _ Hf) as Hr. unfold adds_record in Hr.
  pose proof (fc_evidence _ _ _ _ Hf) as Hv. intros rid r Hl.
  destruct (op_transport_evidence op) as [e|]; [|rewrite Hr in Hl; eauto].
  destruct Hr as (row & sq & (_ & _ & Va & _)%attempt_record_columns & _ & Hrec).
  rewrite Hrec in Hl. apply lookup_insert_Some in Hl as [[_ <-]|[_ Hl]]; [|eauto].
  apply evidence_presence in Hev as [_ Hev]. destruct (Hev e eq_refl) as (? & ? & _ & _ & _ & Ha & _).
  apply Hk. rewrite Va, Ha. simpl in Hv. unfold _validate_transport_evidence_identity in Hv.
  destruct (attempts db !! _); [by eexists|done].
Qed.

Lemma recorded_reachable start db :
  attempts_recorded start -> records_referenced start -> journal_reachable start db ->
  attempts_recorded db /\ records_referenced db.
Proof.
  intros H0 H1. revert db.
  apply (outcome_invariant (fun db => attempts_recorded db /\ records_referenced db)); [done| | | |].
  - intros d d' op p [HA HR] _ Hpay Hev Hf. split; [by eapply fresh_attempts_recorded|by eapply fresh_records_referenced].
  - intros d d2 claim schedule [HA HR] (_ & _ & _ & _ & _ & _ & _ & Hrec & _ & Hatt).
    unfold attempts_recorded, records_referenced, records_of in *. rewrite Hrec.
    destruct Hatt as [(prepared & _ & _ & _ & ->)|[Hn ->]]; [done|]. split.
    + intros id a [[<- <-]|[_ Ha]]%lookup_insert_Some; [|by apply HA]. simpl. split; [done|].
      intros rid r (Hl & _ & Hat). apply HR in Hl as [x Hx]. congruence.
    + intros rid r [x Hx]%HR. destruct (decide (ar_attempt_id r = cl_attempt_id claim)) as [->|Hne].
      * rewrite lookup_insert_eq. by eexists.
      * rewrite lookup_insert_ne by done. by eexists.
  - intros d run i st epoch d' [HA HR] (a & Ha & _ & _ & Hat & _ & _ & _ & _ & _ & _ & Hrec & _)%rebind_effect.
    unfold attempts_recorded, records_referenced, records_of in *. rewrite Hrec, Hat. split.
    + intros id x [[<- <-]|[_ Hx]]%lookup_insert_Some; [|by apply HA]. exact (HA _ _ Ha).
    + intros rid r [x Hx]%HR. destruct (decide (ar_attempt_id r = i)) as [->|Hne].
      * rewrite lookup_insert_eq. by eexists.
      * rewrite lookup_insert_ne by done. by eexists.
  - by intros d run category at_ r HP _ _.
Qed.

(** C7: In every execution, an attempt in a terminal state carries an outcome classification that
    its state allows and exactly one final attempt record, with the same classification and a
    compatible evidence state; an attempt that is not terminal carries neither. *)
Theorem terminal_attempts_recorded start db :
  attempts_recorded start -> records_referenced start -> journal_reachable start db -> attempts_recorded db.
Proof. intros H0 H1 Hr. by destruct (recorded_reachable start db H0 H1 Hr). Qed.

Lemma terminal_attempts_recorded_witness :
  option_map at_state (attempts demo_end !! demo_attempt) = Some Attempt_SUCCEEDED /\
  attempts_recorded demo_end.
Proof.
  split; [vm_compute; reflexivity|]. apply (terminal_attempts_recorded demo_db demo_end).
  - intros id a [=].
  - intros rid r [=].
  - exact demo_end_reachable.
Defined.
