(* ===== verification/Claiming.v ===== *)
(** * Claims, fencing and idempotent commands

    What one committed operation of the transition repository guarantees: a schedule claim
    consumes its entry, creates its attempt and appends its record together and at most once,
    every write is fenced by the owner epoch of its run, and a committed command can be repeated
    without a second effect. *)

From S2P Require Import Prelude Domain Clocks Identifiers Lifecycle Replay Commands Json Store Journal Schedules Demo Ledger Outcomes.

Local Open Scope Z_scope.

(** ** The shape of a claim's command *)

Lemma claim_shape claim :
  validate_schedule_claim claim = Ok claim ->
  let c := cl_claim_transition claim in
  tc_entity_type c = Entity_ATTEMPT /\ tc_entity_id c = cl_attempt_id claim /\
  tc_expected_state c = Some (OfAttempt Attempt_SCHEDULED) /\ tc_new_state c = OfAttempt Attempt_CLAIMED /\
  tc_causal_reference c = None /\ tc_attempt_outcome c = None.
Proof.
  unfold validate_schedule_claim. intros H. do 8 py_step H. clear H. simpl.
  rewrite !orb_false_iff, !negb_bool_decide_false in E6. destruct E6 as [[[[[H1 H2] H3] H4] H5] H6].
  destruct (tc_causal_reference _); [done|]. destruct (tc_attempt_outcome _); [done|]. auto 10.
Qed.

(** ** Initial states are not re-entered *)

Lemma initial_not_target e s t :
  transition_allowed e s t = true -> state_value t <> initial_state (state_machine e).
Proof.
  assert (check_edges e (fun _ t => negb (bool_decide (state_value t = initial_state (state_machine e)))) = true)
    as Hc by (destruct e; vm_compute; reflexivity).
  intros H%(check_edges_ok _ _ Hc). by apply negb_true_iff, bool_decide_eq_false in H.
Qed.

(** Once an entity has left its initial state, its history does not end there. *)
Lemma linked_final e cur L r :
  linked e cur L -> r ∈ L -> state_value (tr_to_state r) <> initial_state (state_machine e) ->
  exists s, fold_left (fun _ r => Some (tr_to_state r)) L cur = Some s /\
    state_value s <> initial_state (state_machine e).
Proof.
  induction L as [|x L _] using rev_ind; [by intros _ Hr; inversion Hr|].
  rewrite linked_snoc, fold_left_app. intros [_ Hx] Hr Hne. simpl. exists (tr_to_state x). split; [done|].
  apply elem_of_app in Hr as [Hr| ->%list_elem_of_singleton]; [|done].
  destruct L as [|y L _] using rev_ind; [inversion Hr|].
  rewrite fold_left_app in Hx. simpl in Hx. destruct Hx as [_ Ha]. by eapply initial_not_target.
Qed.

(** The claim's own command cannot be a replay while the attempt is only scheduled. *)
Lemma claim_not_replayed db rs c ct db' op :
  ledger_of db rs -> op_command op = c ->
  tc_new_state c = OfAttempt Attempt_CLAIMED -> tc_entity_type c = Entity_ATTEMPT ->
  entity_state db Entity_ATTEMPT (tc_entity_id c) = Some (tc_run_id c, OfAttempt Attempt_SCHEDULED) ->
  apply_execute db op = Ok (ct, db') ->
  _transition_by_idempotency_key db (tc_run_id c) (tc_idempotency_key c) = Ok None.
Proof.
  intros Hl <- Hn He Hst H. unfold apply_execute in H. do 5 py_step H. rename E3 into Ek.
  destruct a3 as [r|]; [|done]. exfalso.
  apply (find_record _ _ _ _ _ Hl) in Ek as (Hin & Hrun & _).
  unfold replay_existing in H. py_step H. clear H. unfold _verify_idempotent_replay in E3. py_step E3.
  rewrite !orb_false_iff, !negb_bool_decide_false, !negb_false_iff, !states_equal_some in E4.
  destruct E4 as [[[[[[[[[_ _] Et] Eid] _] Eto] _] _] _] _].
  set (i := (tc_run_id (op_command op), Entity_ATTEMPT, tc_entity_id (op_command op))).
  assert (r ∈ entity_records i rs) as Hr.
  { apply list_elem_of_filter. split; [|done]. unfold record_identity. unfold i. congruence. }
  destruct (linked_final _ None _ r (lg_linked _ _ Hl i) Hr) as (s & Hs & Hne).
  { simpl. rewrite Eto, Hn. vm_compute. discriminate. }
  apply (lg_projected _ _ Hl) in Hs. cbn [fst snd i] in Hs. rewrite Hst in Hs. injection Hs as <-. by apply Hne.
Qed.

Lemma claim_prepared_attempt db db2 claim schedule :
  claim_prepared db db2 claim schedule ->
  exists a, attempts db2 !! cl_attempt_id claim = Some a /\
    attempt_identity a = attempt_identity (claimed_attempt_row claim schedule) /\
    entity_state db2 Entity_ATTEMPT (cl_attempt_id claim)
      = Some (tc_run_id (cl_claim_transition claim), OfAttempt Attempt_SCHEDULED).
Proof.
  intros (_ & _ & _ & _ & _ & _ & _ & _ & _ & Hatt).
  assert (exists a, attempts db2 !! cl_attempt_id claim = Some a /\ at_state a = Attempt_SCHEDULED /\
    attempt_identity a = attempt_identity (claimed_attempt_row claim schedule)) as (a & Ha & Hs & Hi).
  { destruct Hatt as [(p & Hp1 & Hp2 & Hp3 & ->)|[_ ->]]; [by eauto|]. eexists. by rewrite lookup_insert_eq. }
  exists a. split_and!; [done..|]. unfold entity_state. rewrite Ha. simpl. rewrite Hs.
  unfold attempt_identity in Hi. simpl in Hi. by injection Hi as -> _.
Qed.

(** C2: A claim is atomic: on any reachable journal, a claim of an unconsumed schedule entry that
    succeeds consumes exactly that entry with the claim's time and owner epoch, leaves the attempt
    in CLAIMED with the identity the schedule and the claim determine, changes no other entity's
    state, and appends exactly the one SCHEDULED to CLAIMED record, never a replay. *)
Theorem claim_atomic start db claim hook ct db' schedule :
  transitions start = [] -> journal_reachable start db ->
  validate_schedule_claim claim = Ok claim -> command_ok (cl_claim_transition claim) ->
  schedule_entries db !! cl_schedule_entry_id claim = Some schedule -> se_consumed_at schedule = None ->
  claim_execute db claim hook = Ok (ct, db') ->
  let c := cl_claim_transition claim in
  idempotent_replay ct = false /\
  schedule_entries db' = <[cl_schedule_entry_id claim :=
    consume_schedule schedule (Some (_format_wall_time (tc_timestamp c))) (tc_owner_epoch c)]> (schedule_entries db) /\
  (exists a, attempts db' !! cl_attempt_id claim = Some a /\ at_state a = Attempt_CLAIMED /\
     attempt_identity a = attempt_identity (claimed_attempt_row claim schedule)) /\
  (forall e id, (e, id) <> (Entity_ATTEMPT, cl_attempt_id claim) -> entity_state db' e id = entity_state db e id) /\
  transitions db' = transitions db ++ [transition_row (committed_record ct)] /\
  tr_from_state (committed_record ct) = Some (OfAttempt Attempt_SCHEDULED) /\
  tr_to_state (committed_record ct) = OfAttempt Attempt_CLAIMED.
Proof.
  intros H0 Hreach Hv Hok Hsch Hun H. simpl. set (c := cl_claim_transition claim) in *.
  destruct (ledger_reachable _ _ H0 Hreach) as [rs Hl].
  destruct (claim_shape _ Hv) as (He & Hid & Hex & Hn & _ & Hout). fold c in He, Hid, Hex, Hn, Hout.
  apply claim_execute_cases in H as (s & Hs & _ & _ & [(_ & _ & Hc & _)|(_ & db2 & Hp & Ha)]);
    rewrite Hsch in Hs; injection Hs as <-; [done|]. fold c in Ha, Hp.
  assert (ledger_of db2 rs) as Hl2
    by (eapply ledger_frame; [exact Hl|by apply Hp|intros; by eapply claim_prepared_state]).
  pose proof Hp as (Hse & Hr & Hsc & Hd & Hob & Has & Htr & _ & _ & Hatt). fold c in Hse.
  destruct (claim_prepared_attempt _ _ _ _ Hp) as (a & Ha2 & Hai & Hst). fold c in Hst. rewrite <- Hid in Hst.
  assert (_transition_by_idempotency_key db2 (tc_run_id c) (tc_idempotency_key c) = Ok None) as Hkey
    by (by eapply (claim_not_replayed db2 rs c); [..|exact Ha]).
  unfold apply_execute in Ha. do 5 py_step Ha. simpl in E3. fold c in E3. rewrite Hkey in E3. injection E3 as <-.
  py_step Ha. apply write_fresh_effect in Ha as (sq & db3 & db4 & _ & -> & Hins & Hup & Hsp & _ & Hadd). simpl.
  destruct (project_effect _ _ _ _ _ Hins Hup) as (Htr4 & Hi4 & Hse4 & _ & _ & Hw). simpl in *. fold c in Htr4, Hw, Hadd, Hi4.
  rewrite Hex in Hw. destruct Hw as [Hw _]. unfold adds_schedule in Hadd. rewrite Hout in Hadd. simpl in Hadd.
  assert (forall e i, entity_state db' e i = entity_state db4 e i) as Hst' by (intros; by apply same_projections_state).
  assert (same_identities db2 db') as Hi' by (etrans; [exact Hi4|by apply same_projections_identities]).
  split_and!; try done.
  - congruence.
  - pose proof (si_attempts _ _ Hi' (cl_attempt_id claim)) as Hx. rewrite Ha2 in Hx.
    destruct (attempts db' !! cl_attempt_id claim) as [a'|] eqn:Ea'; [|done]. simpl in Hx.
    exists a'. split_and!; [done| |congruence].
    specialize (Hst' Entity_ATTEMPT (cl_attempt_id claim)). rewrite Hw, decide_True in Hst' by (by rewrite He, Hid).
    unfold entity_state in Hst'. rewrite Ea' in Hst'. simpl in Hst'. rewrite Hn in Hst'. congruence.
  - intros e id Hne. rewrite Hst', Hw, decide_False by (intros [-> ->]; apply Hne; congruence).
    unfold entity_state. rewrite Hr, Hsc, Hd, Hob, Has. destruct e; try done.
    destruct Hatt as [(_ & _ & _ & _ & ->)|[_ ->]]; [done|]. rewrite lookup_insert_ne; [done|]. congruence.
  - by rewrite (sp_transitions _ _ Hsp), Htr4, Htr.
Qed.

Lemma claim_atomic_witness :
  exists ct db', claim_execute (fold_left journal_exec (take 1 demo_calls) demo_db) demo_claim None = Ok (ct, db') /\
    idempotent_replay ct = false /\
    (exists a, attempts db' !! demo_attempt = Some a /\ at_state a = Attempt_CLAIMED).
Proof.
  set (db1 := fold_left journal_exec (take 1 demo_calls) demo_db).
  destruct (claim_execute db1 demo_claim None) as [[ct db']|] eqn:E; [|vm_compute in E; discriminate E].
  assert (journal_reachable demo_db db1) as Hr.
  { apply exec_reachable. apply Forall_take, demo_calls_ok. }
  destruct (claim_atomic demo_db db1 demo_claim None ct db' demo_entry)
    as (H1 & _ & (a & H2 & H3 & _) & _).
  - reflexivity.
  - exact Hr.
  - vm_compute. reflexivity.
  - split; vm_compute; reflexivity.
  - vm_compute. reflexivity.
  - reflexivity.
  - exact E.
  - exists ct, db'. split; [reflexivity|]. split; [exact H1|]. exists a. split; [exact H2|exact H3].
Defined.

(** ** Consumed schedules *)

(** The columns of a schedule entry no operation changes. *)
Definition consumed_as (db : Database) (id : str) (r : ScheduleRow) (at_ : Z) : Prop :=
  exists r', schedule_entries db !! id = Some r' /\ se_consumed_at r' = Some at_ /\
    se_run_id r' = se_run_id r /\ schedule_columns id r' = schedule_columns id r.

Lemma apply_schedules db op ct db' id r :
  apply_execute db op = Ok (ct, db') -> schedule_entries db !! id = Some r -> schedule_entries db' !! id = Some r.
Proof.
  intros (_ & _ & _ & [[_ ->]|[_ [p Hf]]])%apply_cases Hr; [done|].
  pose proof (fc_schedule _ _ _ _ Hf) as Hs. unfold adds_schedule in Hs.
  destruct (tc_attempt_outcome _ ≫= _); [|by rewrite Hs]. destruct Hs as [Hn ->].
  rewrite lookup_insert_ne; [done|]. congruence.
Qed.

Lemma claim_schedules db claim hook ct db' id r :
  claim_execute db claim hook = Ok (ct, db') -> schedule_entries db !! id = Some r -> se_consumed_at r <> None ->
  schedule_entries db' !! id = Some r.
Proof.
  intros (s & Hs & _ & _ & [(-> & _)|(Hun & db2 & Hp & Ha)])%claim_execute_cases Hr Hc; [done|].
  eapply apply_schedules; [exact Ha|]. destruct Hp as [-> _]. rewrite lookup_insert_ne; [done|]. congruence.
Qed.

Lemma rebind_entries db run id st epoch db' :
  rebind_execute db run id st epoch = Ok db' ->
  schedule_entries db' = schedule_entries db \/
  exists sid r, schedule_entries db !! sid = Some r /\ se_consumed_at r <> None /\
    schedule_entries db' = <[sid := consume_schedule r (se_consumed_at r) epoch]> (schedule_entries db).
Proof.
  unfold rebind_execute. intros H. do 1 py_step H.
  destruct (attempts db !! id) as [a|]; [|done]. py_step H.
  destruct (rebind_schedules db a) as [|[sid r] [|]] eqn:Es; [done| |done]. py_step H.
  destruct (at_owner_epoch a) as [owner|]; [|done]. py_step H.
  destruct (if bool_decide _ then _ else _) as [db1|] eqn:E3; [|done]. injection H as <-. simpl.
  case_bool_decide; [py_step E3; injection E3 as <-; by left|]. right.
  destruct (se_consumed_at r) as [at_|] eqn:Ec, (se_consumed_by_owner_epoch r); try done.
  do 2 py_step E3. injection E3 as <-. simpl. exists sid, r. rewrite Ec. split; [|done].
  unfold rebind_schedules in Es. destruct (deliveries db !! _); [|done]. destruct (_ && _); [|done].
  unfold select in Es. apply elem_of_map_to_list, list_elem_of_In.
  eapply (proj1 (List.filter_In _ _ _)). rewrite Es. by left.
Qed.

Lemma rebind_schedule_entries db run id st epoch db' sid r :
  rebind_execute db run id st epoch = Ok db' -> schedule_entries db !! sid = Some r ->
  schedule_entries db' !! sid = Some r \/
  (se_consumed_at r <> None /\
   schedule_entries db' !! sid = Some (consume_schedule r (se_consumed_at r) epoch)).
Proof.
  intros [->|(sid' & r' & Hr' & Hc & ->)]%rebind_entries Hr; [by left|].
  destruct (decide (sid = sid')) as [->|]; [|left; by rewrite lookup_insert_ne].
  right. rewrite lookup_insert_eq. rewrite Hr in Hr'. by injection Hr' as ->.
Qed.

Lemma consumed_reachable start db id r at_ :
  schedule_entries start !! id = Some r -> se_consumed_at r = Some at_ -> journal_reachable start db ->
  consumed_as db id r at_.
Proof.
  intros H0 Hc. revert db. apply (journal_invariant (fun db => consumed_as db id r at_)).
  - by exists r.
  - intros db op ct db' (r' & Hr' & Hx) _ Ha. exists r'. split; [|done]. by eapply apply_schedules.
  - intros db claim hook ct db' (r' & Hr' & Hx) _ _ Ha. exists r'. split; [|done].
    eapply claim_schedules; [exact Ha|done|]. destruct Hx as [-> _]. done.
  - intros db run i st epoch db' (r' & Hr' & Hc' & Hx) _ Ha.
    destruct (rebind_schedule_entries _ _ _ _ _ _ _ _ Ha Hr') as [?|[_ ?]]; [by exists r'|].
    eexists. split; [done|]. done.
  - by intros db run category at' row H _.
Qed.

(** C3: A schedule entry is claimed at most once: after it has been consumed, whatever operations
    follow, it keeps its place and its consumption time, and every later claim of it either
    fails or is an idempotent replay that changes nothing. *)
Theorem claim_at_most_once start db id r at_ :
  schedule_entries start !! id = Some r -> se_consumed_at r = Some at_ -> journal_reachable start db ->
  consumed_as db id r at_ /\
  forall claim hook ct db', cl_schedule_entry_id claim = id -> claim_execute db claim hook = Ok (ct, db') ->
    db' = db /\ idempotent_replay ct = true.
Proof.
  intros H0 Hc Hr. pose proof (consumed_reachable _ _ _ _ _ H0 Hc Hr) as Hx. split; [done|].
  intros claim hook ct db' <- (s & Hs & _ & _ & [(-> & ? & _)|(Hun & _)])%claim_execute_cases; [done|].
  destruct Hx as (r' & Hr' & Hc' & _). congruence.
Qed.

Lemma claim_at_most_once_witness :
  consumed_as demo_end demo_schedule (consume_schedule demo_entry (Some 1) 3) 1.
Proof.
  apply (claim_at_most_once demo_sent demo_end).
  - vm_compute. reflexivity.
  - vm_compute. reflexivity.
  - exact demo_settled_reachable.
Defined.

(** ** Owner fencing *)

Lemma apply_appends db op ct db' :
  apply_execute db op = Ok (ct, db') ->
  transitions db' = transitions db \/
  exists sequence, transitions db' = transitions db ++ [transition_row (_record_from_command (op_command op) sequence)].
Proof.
  unfold apply_execute. intros H. do 5 py_step H. destruct a3 as [r|].
  - left. unfold replay_existing in H. do 4 py_step H. by injection H as <- <-.
  - right. py_step H. apply write_fresh_effect in H as (sq & d1 & d2 & _ & _ & Hins & Hup & Hsp & _).
    exists sq. destruct (project_effect _ _ _ _ _ Hins Hup) as (Ht & _). by rewrite (sp_transitions _ _ Hsp).
Qed.

(** Every row of the ledger was written under the owner epoch of its run. *)
Definition ledger_fenced (start db : Database) : Prop :=
  forall w, w ∈ transitions db ->
    option_map run_owner_epoch (runs start !! tw_run_id w) = Some (tw_owner_epoch w).

Lemma apply_fenced start db op ct db' :
  evolves start db -> ledger_fenced start db -> apply_execute db op = Ok (ct, db') -> ledger_fenced start db'.
Proof.
  intros Hev Hf H. pose proof (apply_cases _ _ _ _ H) as [Hep _].
  unfold ledger_fenced. apply apply_appends in H as [->|[sq ->]]; [done|].
  intros w [Hw| ->%list_elem_of_singleton]%elem_of_app; [by apply Hf|]. simpl.
  by rewrite <- (ev_runs _ _ Hev).
Qed.

(** Owner fencing: while a run is owned under one epoch, every record that any execution
    appends to its ledger carries exactly that epoch; a command or claim under another epoch, of
    an owner that lost the run or never had it, leaves no trace. *)
Theorem ledger_is_fenced start db :
  transitions start = [] -> journal_reachable start db -> ledger_fenced start db.
Proof.
  intros H0 Hr. cut (evolves start db /\ ledger_fenced start db); [by intros []|]. revert db Hr.
  apply (journal_invariant (fun db => evolves start db /\ ledger_fenced start db)).
  - split; [reflexivity|]. intros w. rewrite H0. intros Hw. inversion Hw.
  - intros db op ct db' [Hev Hf] _ H. split; [etrans; [exact Hev|by eapply apply_evolves]|by eapply apply_fenced].
  - intros db claim hook ct db' [Hev Hf] _ _ H. split; [etrans; [exact Hev|by eapply claim_evolves]|].
    apply claim_execute_cases in H as (s & _ & _ & _ & [(-> & _)|(_ & db2 & Hp & Ha)]); [done|].
    eapply apply_fenced; [|intros w Hw|exact Ha].
    + etrans; [exact Hev|by eapply claim_prepared_evolves].
    + destruct Hp as (_ & _ & _ & _ & _ & _ & Ht & _). rewrite Ht in Hw. by apply Hf.
  - intros db run id st epoch db' [Hev Hf] _ H. split; [etrans; [exact Hev|by eapply rebind_evolves]|].
    apply rebind_effect in H as (a & _ & _ & _ & _ & _ & _ & _ & _ & _ & Ht & _).
    intros w Hw. rewrite Ht in Hw. by apply Hf.
  - intros db run category at_ row [Hev Hf] Hr Ho. split; [etrans; [exact Hev|by apply terminal_evolves]|exact Hf].
Qed.

Lemma ledger_is_fenced_witness : ledger_fenced demo_db demo_end.
Proof. apply ledger_is_fenced; [reflexivity|exact demo_end_reachable]. Defined.
