(* ===== verification/Idempotence.v ===== *)
(** * Repeating a committed command

    A client that lost the acknowledgement of a committed transition sends the same command
    again; the repository answers with the record it already wrote and changes nothing. *)

From S2P Require Import Prelude Domain Clocks Identifiers Lifecycle Replay Commands Json Store Journal Schedules Demo Ledger Outcomes Claiming.

Local Open Scope Z_scope.

(** ** Queries with one answer *)

Lemma elem_of_select {A : Type} (t : gmap str A) cond k v :
  (k, v) ∈ select t cond <-> t !! k = Some v /\ cond k v = true.
Proof.
  unfold select. rewrite list_elem_of_In, List.filter_In, <- list_elem_of_In, elem_of_map_to_list. done.
Qed.

Lemma NoDup_select {A : Type} (t : gmap str A) cond : NoDup (select t cond).
Proof. unfold select. apply NoDup_ListNoDup, List.NoDup_filter, NoDup_ListNoDup, NoDup_map_to_list. Qed.

Lemma select_unique {A : Type} (t : gmap str A) cond k v :
  t !! k = Some v -> cond k v = true ->
  (forall k' v', t !! k' = Some v' -> cond k' v' = true -> k' = k) ->
  select t cond = [(k, v)].
Proof.
  intros Hk Hc Hu. apply Permutation_singleton_r, NoDup_Permutation.
  - apply NoDup_select.
  - apply NoDup_singleton.
  - intros [k' v']. rewrite elem_of_select, list_elem_of_singleton. split; [|by intros [= -> ->]].
    intros [Hk' Hc']. pose proof (Hu _ _ Hk' Hc') as ->. congruence.
Qed.

(** A row just inserted is the only answer of a query nothing answered before. *)
Lemma select_inserted {A : Type} (t : gmap str A) cond k v :
  exists_row t cond = false -> cond k v = true -> select (<[k := v]> t) cond = [(k, v)].
Proof.
  intros Hn Hc. apply select_unique; [apply lookup_insert_eq|done|].
  intros k' v' Hk' Hc'. apply lookup_insert_Some in Hk' as [[-> _]|[_ Hk']]; [done|].
  apply (exists_row_false _ _ _ _ Hn) in Hk'. congruence.
Qed.

Lemma find_appended {A : Type} (p : A -> bool) (l : list A) x :
  List.find p l = None -> p x = true -> List.find p (l ++ [x]) = Some x.
Proof.
  intros Hn Hx. induction l as [|y l IH]; simpl in *; [by rewrite Hx|]. destruct (p y); [done|]. by apply IH.
Qed.

(** ** The database after the writes *)

Lemma chain_attempts db op sq db1 db2 db3 db4 db5 db6 db7 :
  fresh_writes db op sq db1 db2 db3 db4 db5 db6 db7 -> attempts db7 = attempts db3.
Proof.
  intros [_ _ _ _ H4 H5 H6 H7].
  assert (attempts db4 = attempts db3) as <-.
  { destruct (op_response_staging op); simpl in H4; [|by injection H4 as <-].
    unfold _persist_attempt_response_staging in H4. do 4 py_step H4. by injection H4 as <-. }
  assert (attempts db5 = attempts db4) as <-.
  { destruct (op_transport_evidence op); [|by subst]. destruct H5 as (? & ? & _ & _ & H5).
    unfold _insert_attempt_record in H5. py_step H5. by injection H5 as <-. }
  assert (attempts db6 = attempts db5) as <-.
  { destruct (tc_attempt_outcome _ ≫= _); simpl in H6; [|by injection H6 as <-].
    unfold _insert_retry_schedule in H6. py_step H6. by injection H6 as <-. }
  destruct (is_response_reduction _); [|by injection H7 as <-].
  unfold _consume_attempt_response_staging in H7. py_step H7. by injection H7 as <-.
Qed.

Lemma chain_staging db op sq db1 db2 db3 db4 db5 db6 db7 :
  is_response_reduction (op_command op) = false ->
  fresh_writes db op sq db1 db2 db3 db4 db5 db6 db7 ->
  attempt_response_staging db7 = attempt_response_staging db4.
Proof.
  intros Hn [_ _ _ _ _ H5 H6 H7]. rewrite Hn in H7. injection H7 as <-.
  assert (attempt_response_staging db5 = attempt_response_staging db4) as <-.
  { destruct (op_transport_evidence op); [|by subst]. destruct H5 as (? & ? & _ & _ & H5).
    unfold _insert_attempt_record in H5. py_step H5. by injection H5 as <-. }
  destruct (tc_attempt_outcome _ ≫= _); simpl in H6; [|by injection H6 as <-].
  unfold _insert_retry_schedule in H6. py_step H6. by injection H6 as <-.
Qed.

(** ** Each part verifies *)

Lemma phase_verified db op sq db1 db2 db3 db4 db5 db6 db7 p :
  fresh_writes db op sq db1 db2 db3 db4 db5 db6 db7 -> op_phase_evidence op = Some p ->
  _verify_attempt_phase_evidence db7 (op_command op) p = Ok tt.
Proof.
  intros Hw Hp. pose proof (chain_attempts _ _ _ _ _ _ _ _ _ _ Hw) as Ha.
  pose proof (fw_phase _ _ _ _ _ _ _ _ _ _ Hw) as H3. rewrite Hp in H3. simpl in H3.
  unfold _persist_attempt_phase_evidence in H3. py_step H3. destruct a.
  destruct (attempts db2 !! tc_entity_id (op_command op)) as [row|] eqn:Er; [|done].
  destruct (_ && _) eqn:Eb in H3; [|done]. injection H3 as <-. simpl in Ha.
  unfold _verify_attempt_phase_evidence. rewrite Ha, lookup_insert_eq. simpl.
  apply andb_true_iff in Eb as [[[[Hr%bool_decide_eq_true _]%andb_true_iff _]%andb_true_iff _]%andb_true_iff _].
  rewrite (bool_decide_true (at_run_id row = _)) by done. simpl. rewrite E. simpl.
  rewrite (bool_decide_true (Some _ = _)) by done. rewrite andb_false_r. simpl.
  unfold digest_differs, coalesce.
  destruct (ph_request_blob_hash p), (ph_request_headers_hash p); by rewrite ?bool_decide_true.
Qed.

Lemma staging_not_reduction c s :
  _validate_response_staging_presence c (Some s) = Ok tt -> is_response_reduction c = false.
Proof.
  unfold _validate_response_staging_presence, is_response_reduction. intros H. py_step H. clear H.
  apply negb_false_iff, eqb_prop in E. apply andb_true_iff in E as [[_ E%bool_decide_eq_true]%andb_true_iff _].
  rewrite E. rewrite (bool_decide_false (_ = _)) by done. by rewrite andb_false_r.
Qed.

Lemma staging_verified db op sq db1 db2 db3 db4 db5 db6 db7 s :
  fresh_writes db op sq db1 db2 db3 db4 db5 db6 db7 -> op_response_staging op = Some s ->
  _verify_attempt_response_staging db7 (op_command op) s = Ok tt.
Proof.
  intros Hw Hs. pose proof (fw_staging _ _ _ _ _ _ _ _ _ _ Hw) as H4. rewrite Hs in H4. simpl in H4.
  unfold _persist_attempt_response_staging in H4. do 4 py_step H4. injection H4 as H4. destruct a.
  pose proof (chain_staging _ _ _ _ _ _ _ _ _ _ (staging_not_reduction _ _ E) Hw) as Hst.
  rewrite <- H4 in Hst. simpl in Hst. pose proof E as Ep.
  unfold _validate_response_staging_presence in E. py_step E. simpl in E. do 2 py_step E.
  apply negb_bool_decide_false in E4, E5.
  unfold _verify_attempt_response_staging, staged_row. rewrite Ep, Hst, E5, lookup_insert_eq.
  assert (sg_run_id a1 = tc_run_id (op_command op)) as Hr.
  { clear -E1 E4. unfold _attempt_response_staging_values in E1.
    destruct (ev_request _); [|discriminate E1]. destruct (ev_response _) as [response|]; [|discriminate E1].
    destruct (resp_body_sha256 response); [|discriminate E1]. py_step E1. by injection E1 as <-. }
  rewrite bool_decide_true by done. rewrite E1. simpl. by rewrite !bool_decide_true.
Qed.

Lemma record_verified db op sq db1 db2 db3 db4 db5 db6 db7 e :
  _validate_transport_evidence_presence (op_command op) (op_transport_evidence op) = Ok tt ->
  when_some (op_transport_evidence op) (_validate_transport_evidence_identity db (op_command op)) = Ok tt ->
  adds_record db db7 op ->
  fresh_writes db op sq db1 db2 db3 db4 db5 db6 db7 -> op_transport_evidence op = Some e ->
  _verify_existing_attempt_record db7 (op_command op) (_record_from_command (op_command op) sq) e = Ok tt.
Proof.
  intros Hev Hid Hadd Hw He. unfold adds_record in Hadd. rewrite He in *.
  destruct Hadd as (row & rsq & Hval & _ & Hrec). simpl in Hid.
  pose proof (attempt_record_columns _ _ _ _ _ Hval) as (_ & Hrun & Hatt & _).
  apply evidence_presence in Hev as [_ Hev]. destruct (Hev e eq_refl) as (? & ? & _ & _ & Hr & Ha & _).
  unfold _validate_transport_evidence_identity in Hid. destruct (attempts db !! _); [|done].
  py_step Hid. py_step Hid. clear Hid. unfold _verify_existing_attempt_record. rewrite Hrec.
  rewrite (select_inserted _ _ _ row E0) by (by rewrite !bool_decide_true by congruence).
  cbn [tr_timestamp tr_logical_time_ns _record_from_command].
  assert (ar_sequence row = rsq) as -> by (unfold attempt_record_values in Hval; py_step Hval; by injection Hval as <-).
  rewrite Hval. by rewrite bool_decide_true.
Qed.

(** ** The terminal outcome verifies *)

(** The columns of an attempt's projection that locate it. *)
Definition projection_place (p : _EntityProjection) :=
  (pj_run_id p, pj_scenario_id p, pj_attempt_ordinal p, pj_scenario_ordinal p, pj_step_ordinal p,
   pj_delivery_ordinal p).

Lemma load_attempt_after db db' id p a' :
  same_identities db db' -> load_attempt_projection db id = Some p -> attempts db' !! id = Some a' ->
  exists p', load_attempt_projection db' id = Some p' /\ projection_place p' = projection_place p /\
    pj_state p' = OfAttempt (at_state a') /\
    (pj_outcome_category p', pj_terminal_recorded_at p') = attempt_outcome a'.
Proof.
  intros Hsi Hl Ha'. unfold load_attempt_projection in *. rewrite Ha'.
  destruct (attempts db !! id) as [a|] eqn:Ha; [|done].
  pose proof (si_attempts _ _ Hsi id) as Hi. rewrite Ha, Ha' in Hi. unfold attempt_identity in Hi. simpl in Hi.
  injection Hi as E1 E2 E3 E4 E5 E6 E7 E8. rewrite E1, E2, E3, E4, E6.
  destruct (scenarios db !! at_scenario_id a) as [s|] eqn:Hs; [|done].
  destruct (deliveries db !! at_delivery_id a) as [d|] eqn:Hd; [|done].
  pose proof (si_scenarios _ _ Hsi (at_scenario_id a)) as Hs'. rewrite Hs in Hs'.
  pose proof (si_deliveries _ _ Hsi (at_delivery_id a)) as Hd'. rewrite Hd in Hd'.
  destruct (scenarios db' !! at_scenario_id a) as [s'|]; [|done].
  destruct (deliveries db' !! at_delivery_id a) as [d'|]; [|done].
  simpl in Hs', Hd'. injection Hs' as S1 S2. injection Hd' as D1 D2 D3 D4 D5 D6.
  rewrite S1, S2, D1, D2, D3, D4, D5. destruct (_ && _); [|done]. injection Hl as <-. by eexists.
Qed.

Lemma retry_identity_place c p p' :
  projection_place p' = projection_place p ->
  _validate_retry_schedule_identity c p' = _validate_retry_schedule_identity c p.
Proof.
  unfold projection_place. intros [= _ H1 H2 H3 H4 H5]. unfold _validate_retry_schedule_identity.
  by rewrite H1, H2, H3, H4, H5.
Qed.

(** No schedule entry for the attempt after this one. *)
Definition successor_free (db : Database) (c : TransitionCommand) : Prop :=
  forall p, _load_entity_projection db Entity_ATTEMPT (tc_entity_id c) = Some p ->
    _derived_next_attempt_schedule_exists db (tc_run_id c) p = Ok false.

Lemma derived_place db db' run p p' :
  projection_place p' = projection_place p -> schedule_entries db' = schedule_entries db ->
  _derived_next_attempt_schedule_exists db' run p' = _derived_next_attempt_schedule_exists db run p.
Proof.
  unfold projection_place. intros [= _ H1 H2 H3 H4 H5] Hs. unfold _derived_next_attempt_schedule_exists.
  by rewrite H1, H2, H3, H4, H5, Hs.
Qed.

Lemma retry_verified db op sq db1 db2 db3 db4 db5 db6 db7 outcome s :
  fresh_writes db op sq db1 db2 db3 db4 db5 db6 db7 ->
  tc_attempt_outcome (op_command op) = Some outcome -> outcome_retry_schedule outcome = Some s ->
  _verify_existing_retry_schedule db7 (tc_run_id (op_command op)) s = Ok tt.
Proof.
  intros [_ _ _ _ _ _ H6 H7] Ho Hs. rewrite Ho in H6. simpl in H6. rewrite Hs in H6. simpl in H6.
  unfold _insert_retry_schedule in H6. py_step H6. injection H6 as <-.
  rewrite !orb_false_iff in E. destruct E as [[_ E] _].
  assert (schedule_entries db7 = <[rs_schedule_entry_id s := retry_schedule_row (tc_run_id (op_command op)) s]>
    (schedule_entries db5)) as Hse.
  { destruct (is_response_reduction _); [|by injection H7 as <-].
    by apply consume_staging_effect in H7 as (_ & -> & _). }
  unfold _verify_existing_retry_schedule. rewrite Hse.
  rewrite (select_inserted _ _ _ _ E) by (simpl; by rewrite !bool_decide_true).
  rewrite bool_decide_true; done.
Qed.

(** The attempt's row after its terminal command. *)
Lemma terminal_row db db' op p outcome :
  _validate_payload_scope (op_command op) = Ok tt -> fresh_change db db' op p ->
  tc_attempt_outcome (op_command op) = Some outcome ->
  tc_entity_type (op_command op) = Entity_ATTEMPT /\
  exists a', attempts db' !! tc_entity_id (op_command op) = Some a' /\
    at_run_id a' = tc_run_id (op_command op) /\ OfAttempt (at_state a') = tc_new_state (op_command op) /\
    attempt_outcome a' = (Some (outcome_classification outcome),
                          Some (_format_wall_time (tc_timestamp (op_command op)))).
Proof.
  intros Hpay%payload_terminal Hf Ho. rewrite Ho in Hpay. simpl in Hpay.
  pose proof Hpay as [He (s & Hs & Hts)]%is_terminal_attempt_spec. split; [done|].
  pose proof (fc_states _ _ _ _ Hf) as Hst.
  destruct (tc_expected_state (op_command op)) as [expected|].
  2: { destruct Hst as (_ & _ & Hini). rewrite He, Hs in Hini. exfalso.
       unfold _TERMINAL_ATTEMPT_STATES in Hts. destruct s; try (vm_compute in Hini; discriminate Hini). set_solver. }
  destruct Hst as (_ & _ & Hw & Hout). rewrite He in Hw. specialize (Hw Entity_ATTEMPT (tc_entity_id (op_command op))).
  rewrite decide_True in Hw by done. unfold entity_state in Hw.
  destruct (attempts db' !! tc_entity_id (op_command op)) as [a'|] eqn:Ea; [|done]. simpl in Hw. injection Hw as Hr Hn.
  exists a'. split_and!; [done..|]. unfold outcome_written, is_entity in Hout. rewrite Ho in Hout.
  rewrite bool_decide_true in Hout by done. destruct Hout as [_ Hout].
  specialize (Hout (tc_entity_id (op_command op))). rewrite Ea, decide_True in Hout by done. simpl in Hout. congruence.
Qed.

Lemma outcome_verified db op p sq db1 db2 db3 db4 db5 db6 db7 outcome :
  _validate_payload_scope (op_command op) = Ok tt -> fresh_change db db7 op p ->
  fresh_writes db op sq db1 db2 db3 db4 db5 db6 db7 ->
  tc_attempt_outcome (op_command op) = Some outcome ->
  (outcome_retry_schedule outcome = None -> successor_free db (op_command op)) ->
  _verify_existing_attempt_outcome db7 (op_command op) (_record_from_command (op_command op) sq) = Ok tt.
Proof.
  intros Hpay Hf Hw Ho Hsucc. destruct (terminal_row _ _ _ _ _ Hpay Hf Ho) as (He & a' & Ha' & Hr & Hs & Hout).
  pose proof (fc_load _ _ _ _ Hf) as Hl. rewrite He in Hl.
  destruct (load_attempt_after _ _ _ _ _ (fc_identities _ _ _ _ Hf) Hl Ha') as (p' & Hl' & Hpl & Hst' & Hout').
  rewrite Hout in Hout'. injection Hout' as Hc' Ht'.
  assert (_validate_retry_schedule_identity (op_command op) p' = Ok tt) as Hid.
  { rewrite (retry_identity_place _ _ _ Hpl). pose proof (fc_guards _ _ _ _ Hf) as Hg.
    apply payload_terminal in Hpay. rewrite Ho in Hpay. unfold _validate_transition_guards in Hg. do 3 py_step Hg.
    rewrite Hpay in Hg. unfold _guard_terminal_attempt in Hg. rewrite Ho, <- Hs in Hg. cbn [is_none negb] in Hg.
    do 2 py_step Hg. exact Hg. }
  unfold _verify_existing_attempt_outcome. rewrite Ho. cbn [_load_entity_projection]. rewrite Hl'.
  assert (pj_run_id p' = tc_run_id (op_command op)) as ->.
  { rewrite <- (fc_run _ _ _ _ Hf). unfold projection_place in Hpl. congruence. }
  rewrite Hc', Ht', Hst', Hs. cbn [tr_timestamp tr_to_state _record_from_command].
  unfold states_equal. rewrite !bool_decide_true by done. simpl. rewrite Hid.
  destruct (outcome_retry_schedule outcome) as [s|] eqn:Ers; [by eapply retry_verified|].
  assert (_derived_next_attempt_schedule_exists db7 (tc_run_id (op_command op)) p' = Ok false) as ->.
  { rewrite <- (Hsucc eq_refl p Hl). apply derived_place; [done|].
    pose proof (fc_schedule _ _ _ _ Hf) as Hsch. unfold adds_schedule in Hsch. rewrite Ho in Hsch. simpl in Hsch.
    by rewrite Ers in Hsch. }
  simpl. by repeat case_match.
Qed.

(** ** The repeated command *)

Definition with_hook (op : _ApplyTransitionOperation) (hook : option TransitionCrashHook) : _ApplyTransitionOperation :=
  {| op_command := op_command op; op_crash_hook := hook; op_phase_evidence := op_phase_evidence op;
     op_response_staging := op_response_staging op; op_transport_evidence := op_transport_evidence op |}.

(** The ledger answers the command's key with the record just appended. *)
Lemma key_answered db c sq db' :
  _transition_by_idempotency_key db (tc_run_id c) (tc_idempotency_key c) = Ok None ->
  command_ok c -> transitions db' = transitions db ++ [transition_row (_record_from_command c sq)] ->
  _transition_by_idempotency_key db' (tc_run_id c) (tc_idempotency_key c) = Ok (Some (_record_from_command c sq)).
Proof.
  unfold _transition_by_idempotency_key. intros H Hok ->.
  destruct (List.find _ (transitions db)) as [w|] eqn:Ef; [by destruct (_record_from_row w)|].
  rewrite (find_appended _ _ _ Ef) by (simpl; by rewrite !bool_decide_true).
  by rewrite record_roundtrip by (by apply command_record_ok).
Qed.

Lemma replay_verified db c sq :
  match tc_attempt_outcome c with
  | Some _ => _verify_existing_attempt_outcome db c (_record_from_command c sq)
  | None => Ok tt
  end = Ok tt ->
  _verify_idempotent_replay db c (_record_from_command c sq) = Ok tt.
Proof.
  intros H. unfold _verify_idempotent_replay. simpl. unfold states_equal.
  rewrite !bool_decide_true by done. rewrite Z.eqb_refl. exact H.
Qed.

Lemma owner_kept db db' c :
  evolves db db' -> _require_current_owner db c = Ok tt -> _require_current_owner db' c = Ok tt.
Proof.
  intros Hev. unfold _require_current_owner. pose proof (ev_runs _ _ Hev (tc_run_id c)) as Hr.
  destruct (runs db !! tc_run_id c), (runs db' !! tc_run_id c); try done. simpl in Hr. by injection Hr as ->.
Qed.

Lemma apply_repeats db op ct db' :
  command_ok (op_command op) ->
  (forall outcome, tc_attempt_outcome (op_command op) = Some outcome ->
     outcome_retry_schedule outcome = None -> successor_free db (op_command op)) ->
  apply_execute db op = Ok (ct, db') ->
  apply_execute db' op = Ok ({| committed_record := committed_record ct; idempotent_replay := true |}, db').
Proof.
  intros Hok Hsucc H. pose proof (apply_evolves _ _ _ _ H) as Hev. pose proof (apply_cases _ _ _ _ H) as Hc.
  unfold apply_execute in H. do 5 py_step H. destruct a, a0, a1, a2.
  assert (_require_current_owner db' (op_command op) = Ok tt) as Hown by (by eapply owner_kept).
  unfold apply_execute. cbn [op_command op_response_staging op_transport_evidence].
  rewrite E, E0, E1, Hown. destruct a3 as [r|].
  - pose proof H as H'. unfold replay_existing in H'. do 4 py_step H'. injection H' as <- <-. by rewrite E3.
  - py_step H. rename a into p. pose proof H as (sq & db1 & db2 & db3 & db4 & db5 & db6 & Hw & ->)%write_fresh_chain.
    apply write_fresh_effect in H as (sq' & d1 & d2 & Hsq & [= Hrec] & Hins & Hup & Hsp & _).
    destruct Hc as (_ & _ & _ & [[[=] _]|[_ [p' Hf]]]).
    assert (transitions db' = transitions db ++ [transition_row (_record_from_command (op_command op) sq)]) as Ht.
    { destruct (project_effect _ _ _ _ _ Hins Hup) as (Ht & _). rewrite (sp_transitions _ _ Hsp), Ht. congruence. }
    rewrite (key_answered _ _ _ _ E3 Hok Ht). unfold replay_existing. cbn [op_command op_phase_evidence
      op_response_staging op_transport_evidence committed_record].
    rewrite replay_verified.
    2: { destruct (tc_attempt_outcome (op_command op)) as [outcome|] eqn:Eo; [|done].
         eapply outcome_verified; eauto. }
    pose proof (fun ph => phase_verified _ _ _ _ _ _ _ _ _ _ ph Hw) as Hph.
    pose proof (fun st => staging_verified _ _ _ _ _ _ _ _ _ _ st Hw) as Hst.
    pose proof (fun e => record_verified _ _ _ _ _ _ _ _ _ _ e E1 (fc_evidence _ _ _ _ Hf)
      (fc_record _ _ _ _ Hf) Hw) as Hre.
    destruct (op_phase_evidence op) as [ph|]; simpl; [rewrite Hph by done|];
      (destruct (op_response_staging op) as [st|]; simpl; [rewrite Hst by done|]);
      (destruct (op_transport_evidence op) as [e|]; simpl; [rewrite Hre by done|]); done.
Qed.

(** A replay writes nothing, so no failpoint fires. *)
Lemma replay_hook db op ct db' hook :
  apply_execute db op = Ok (ct, db') -> idempotent_replay ct = true -> apply_execute db (with_hook op hook) = Ok (ct, db').
Proof.
  unfold apply_execute. cbn [with_hook op_command op_response_staging op_transport_evidence]. intros H Hr.
  do 5 py_step H. destruct a3 as [r|]; [exact H|]. py_step H. apply write_fresh_chain in H as (? & ? & ? & ? & ? & ? & ? & _ & ->).
  discriminate Hr.
Qed.

(** A committed command can be repeated safely: right after it committed, sending it again with
    the same evidence returns exactly the record that was committed, marked as a replay, and leaves
    the database untouched, whichever failpoints are armed.  An outcome without a retry needs that
    no schedule entry for the following attempt was there. *)
Theorem reapply_idempotent db op ct db' hook :
  command_ok (op_command op) ->
  (forall outcome, tc_attempt_outcome (op_command op) = Some outcome ->
     outcome_retry_schedule outcome = None -> successor_free db (op_command op)) ->
  apply_execute db op = Ok (ct, db') ->
  apply_execute db' (with_hook op hook) =
    Ok ({| committed_record := committed_record ct; idempotent_replay := true |}, db').
Proof. intros Hok Hsucc H. apply replay_hook; [exact (apply_repeats _ _ _ _ Hok Hsucc H)|done]. Qed.

(** The terminal command of the worked run, repeated under an armed failpoint. *)
Lemma reapply_idempotent_witness :
  exists db ct db', apply_execute db demo_terminal = Ok (ct, db') /\ idempotent_replay ct = false /\
    apply_execute db' (with_hook demo_terminal (Some (fun _ => Some RuntimeError))) =
      Ok ({| committed_record := committed_record ct; idempotent_replay := true |}, db').
Proof.
  set (db := fold_left journal_exec (take 9 demo_calls) demo_db). exists db.
  destruct (apply_execute db demo_terminal) as [[ct db']|] eqn:E; [|vm_compute in E; discriminate E].
  exists ct, db'. split; [reflexivity|]. split.
  - assert (option_map (fun x => idempotent_replay x.1)
      match apply_execute db demo_terminal with Ok x => Some x | Raise _ => None end = Some false) as H
      by (vm_compute; reflexivity).
    rewrite E in H. simpl in H. congruence.
  - apply (reapply_idempotent db).
    + split; vm_compute; reflexivity.
    + intros outcome _ _ p Hp.
      assert (match _load_entity_projection db Entity_ATTEMPT demo_attempt with
              | Some p => _derived_next_attempt_schedule_exists db demo_run p
              | None => Ok false end = Ok false) as H by (vm_compute; reflexivity).
      change (tc_entity_id (op_command demo_terminal)) with demo_attempt in Hp. by rewrite Hp in H.
    + exact E.
Defined.
