(* ===== verification/History.v ===== *)
(** * Reading the ledger back

    [_load_transition_history] pages through the ledger a thousand rows at a time; together the
    pages are exactly the selected records, in sequence order, for as many as the replay limit
    allows. *)

From S2P Require Import Prelude Domain Clocks Identifiers Lifecycle Replay Commands Json Store Journal Schedules Demo Ledger Outcomes Claiming.

Local Open Scope Z_scope.

(** ** The selected records *)

Definition selects (run_id : str) (entity : option (EntityType * str)) (r : TransitionRecord) : bool :=
  bool_decide (tr_run_id r = run_id)
  && match entity with
     | None => true
     | Some (e, id) => bool_decide (tr_entity_type r = e) && bool_decide (tr_entity_id r = id)
     end.

Definition sequence_after (l : list TransitionRecord) : Z := fold_left (fun _ r => tr_sequence r) l 0.

Lemma sequence_after_snoc l r : sequence_after (l ++ [r]) = tr_sequence r.
Proof. unfold sequence_after. by rewrite fold_left_app. Qed.

Lemma sequence_after_app l k : fold_left (fun _ r => tr_sequence r) k (sequence_after l) = sequence_after (l ++ k).
Proof. unfold sequence_after. by rewrite fold_left_app. Qed.

Lemma sequence_after_in l : sequence_after l ∈ 0 :: map tr_sequence l.
Proof.
  destruct l as [|x l _] using rev_ind; [apply list_elem_of_here|].
  rewrite sequence_after_snoc, map_app. right. apply elem_of_app. right. apply list_elem_of_here.
Qed.

(** In a strictly increasing list, the records after a prefix are those with a larger sequence. *)
Lemma sorted_suffix past todo :
  StronglySorted Z.lt (0 :: map tr_sequence (past ++ todo)) ->
  List.filter (fun r => sequence_after past <? tr_sequence r) (past ++ todo) = todo.
Proof.
  rewrite map_app, app_comm_cons. intros Hs.
  assert (List.filter (fun r => sequence_after past <? tr_sequence r) past = []) as Hp.
  { clear -Hs. apply StronglySorted_app_1_l in Hs. destruct past as [|x l _] using rev_ind; [done|].
    rewrite sequence_after_snoc. rewrite map_app, app_comm_cons in Hs.
    rewrite (filter_ext_in _ (fun _ => false)); [apply filter_false|].
    intros r [Hr|[<-|[]]]%in_app_or; apply Z.ltb_ge; [|lia]. apply Z.lt_le_incl.
    eapply (StronglySorted_app_1_elem_of Z.lt); [exact Hs| |apply list_elem_of_here].
    right. apply list_elem_of_fmap_2, list_elem_of_In, Hr. }
  rewrite List.filter_app, Hp, forallb_filter_id; [done|].
  apply List.forallb_forall. intros r Hr. apply Z.ltb_lt.
  eapply (StronglySorted_app_1_elem_of Z.lt); [exact Hs|apply sequence_after_in|].
  apply list_elem_of_fmap_2, list_elem_of_In, Hr.
Qed.

(** A strictly increasing list of rows is already ordered by sequence. *)
Lemma rows_ordered l :
  StronglySorted Z.lt (map tr_sequence l) -> py_sorted tw_sequence (map transition_row l) = map transition_row l.
Proof.
  intros Hs. apply py_sorted_id. induction l as [|r l IH]; [constructor|].
  simpl in Hs. apply StronglySorted_inv in Hs as [Hs Hf]. constructor; [by apply IH|].
  apply List.Forall_map. rewrite List.Forall_map in Hf. eapply List.Forall_impl; [|exact Hf].
  intros x Hx. unfold key_le. simpl. apply cmp_le_cases. left. by apply Z.compare_lt_iff.
Qed.

Lemma filter_both {A : Type} (f g : A -> bool) l :
  List.filter (fun x => f x && g x) l = List.filter g (List.filter f l).
Proof. induction l as [|x l IH]; simpl; [done|]. destruct (f x); simpl; [destruct (g x)|]; by rewrite IH. Qed.

Lemma map_result_rows l : Forall record_ok l -> map_result _record_from_row (map transition_row l) = Ok l.
Proof. intros H. apply map_result_ok. induction H; constructor; [by apply record_roundtrip|done]. Qed.

(** ** The pages *)

Section paging.
Context (db : Database) (rs : list TransitionRecord) (Hledger : ledger_of db rs).
Context (run_id : str) (entity : option (EntityType * str)).

Let own := List.filter (selects run_id entity) rs.

Lemma own_sorted : StronglySorted Z.lt (0 :: map tr_sequence own).
Proof.
  pose proof (lg_sequence _ _ Hledger run_id) as Hs. unfold own, selects. rewrite filter_both.
  assert (List.filter (fun r => bool_decide (tr_run_id r = run_id)) rs = run_records run_id rs) as ->.
  { clear. unfold run_records. induction rs as [|r l IH]; simpl; [done|]. rewrite filter_cons, IH.
    case_bool_decide; [by rewrite decide_True|by rewrite decide_False]. }
  generalize dependent (run_records run_id rs). intros l Hs. apply StronglySorted_inv in Hs as [Hs Hf].
  constructor.
  - induction l as [|r l IH]; simpl in *; [constructor|]. apply StronglySorted_inv in Hs as [Hs Hr].
    inversion_clear Hf. destruct (match entity with None => _ | Some _ => _ end); [|by apply IH].
    simpl. constructor; [by apply IH|]. rewrite List.Forall_map, List.Forall_forall in *.
    intros x [Hx _]%List.filter_In. by apply Hr.
  - rewrite List.Forall_map, List.Forall_forall in *. intros x [Hx _]%List.filter_In. by apply Hf.
Qed.

Lemma page_spec past todo :
  own = past ++ todo ->
  history_page db run_id entity (sequence_after past) = map transition_row (take INVENTORY_PAGE_SIZE todo).
Proof.
  intros Hown. pose proof own_sorted as Hs. rewrite Hown in Hs. unfold history_page.
  rewrite (lg_rows _ _ Hledger), filter_map_swap.
  assert (List.filter (fun r => bool_decide (tr_run_id r = run_id)
      && match entity with
         | None => true
         | Some (e, id) => bool_decide (EntityType_value (tr_entity_type r) = EntityType_value e)
                           && bool_decide (tr_entity_id r = id)
         end && (sequence_after past <? tr_sequence r)) rs = todo) as Ht.
  { rewrite <- (sorted_suffix past todo Hs), <- Hown. unfold own. rewrite filter_both. f_equal.
    apply filter_ext. intros r. unfold selects. destruct entity as [[e id]|]; [|done].
    do 2 f_equal. apply bool_decide_ext. split; [apply entity_type_value_inj|by intros ->]. }
  match goal with |- context [List.filter ?f rs] => replace (List.filter f rs) with todo by (symmetry; exact Ht) end.
  rewrite rows_ordered; [apply firstn_map|]. rewrite map_app, app_comm_cons in Hs. by apply StronglySorted_app_1_r in Hs.
Qed.

Lemma loop_spec fuel past todo :
  own = past ++ todo -> (length todo < fuel)%nat -> zlen past <= MAX_REPLAY_TRANSITIONS ->
  history_loop fuel db run_id entity (sequence_after past) past =
    if MAX_REPLAY_TRANSITIONS <? zlen own then Raise ProjectionIntegrityError else Ok own.
Proof.
  revert past todo. induction fuel as [|fuel IH]; intros past todo Hown Hlen Hpast; [lia|].
  cbn [history_loop]. rewrite (page_spec _ _ Hown). unfold map at 1. fold (map transition_row).
  rewrite length_map, length_take.
  assert (Forall record_ok (take INVENTORY_PAGE_SIZE todo)) as Hok.
  { pose proof (lg_ok _ _ Hledger) as Hok. rewrite List.Forall_forall in *. intros r Hr. apply Hok.
    assert (In r own) as [Hin _]%List.filter_In; [|done]. rewrite Hown. apply in_or_app. right.
    rewrite <- (take_drop INVENTORY_PAGE_SIZE todo). apply in_or_app. by left. }
  rewrite (map_result_rows _ Hok).
  assert (own = (past ++ take INVENTORY_PAGE_SIZE todo) ++ drop INVENTORY_PAGE_SIZE todo) as Hown'
    by (by rewrite <- app_assoc, take_drop).
  assert (zlen own = zlen past + Z.of_nat (length todo)) as Hz
    by (unfold zlen; rewrite Hown, length_app; lia).
  case_bool_decide as Hemp.
  - destruct todo; [|simpl in Hemp; unfold INVENTORY_PAGE_SIZE in Hemp; simpl in Hemp; lia].
    simpl in Hz. rewrite (proj2 (Z.ltb_ge _ _)) by lia. by rewrite Hown, app_nil_r.
  - destruct (MAX_REPLAY_TRANSITIONS <? zlen (past ++ _)) eqn:Emax.
    + apply Z.ltb_lt in Emax. rewrite (proj2 (Z.ltb_lt _ _)); [done|].
      unfold zlen in *. rewrite length_app, length_take in Emax. lia.
    + apply Z.ltb_ge in Emax. case_bool_decide as Hlast.
      * assert (take INVENTORY_PAGE_SIZE todo = todo) as Htk by (apply take_ge; lia).
        rewrite Htk in *. rewrite <- Hown in *. by rewrite (proj2 (Z.ltb_ge _ _)).
      * rewrite sequence_after_app. apply (IH _ _ Hown'); [|done]. rewrite length_drop. lia.
Qed.

Lemma history_spec :
  _load_transition_history db run_id entity =
    if MAX_REPLAY_TRANSITIONS <? zlen own then Raise ProjectionIntegrityError else Ok own.
Proof.
  apply (loop_spec _ [] own); [done| |unfold zlen; simpl; unfold MAX_REPLAY_TRANSITIONS; lia].
  rewrite (lg_rows _ _ Hledger), length_map. unfold own. pose proof (List.filter_length_le (selects run_id entity) rs). lia.
Qed.
End paging.

(** C36: Reading a run's history back is complete: on every journal reached from an empty ledger, the
    paged query returns exactly the records of the run, or of the one entity asked for, in the
    order they were committed, and it refuses precisely when there are more of them than the
    replay limit. *)
Theorem history_complete start db run_id entity :
  transitions start = [] -> journal_reachable start db ->
  exists rs, map_result _record_from_row (transitions db) = Ok rs /\
    let own := List.filter (selects run_id entity) rs in
    _load_transition_history db run_id entity =
      if MAX_REPLAY_TRANSITIONS <? zlen own then Raise ProjectionIntegrityError else Ok own.
Proof.
  intros H0 Hr. destruct (ledger_reachable _ _ H0 Hr) as [rs Hl]. exists rs. split.
  - rewrite (lg_rows _ _ Hl). by apply map_result_rows, (lg_ok _ _ Hl).
  - by apply history_spec.
Qed.

Lemma history_complete_witness :
  exists rs, map_result _record_from_row (transitions demo_end) = Ok rs /\
    let own := List.filter (selects demo_run (Some (Entity_ATTEMPT, demo_attempt))) rs in
    _load_transition_history demo_end demo_run (Some (Entity_ATTEMPT, demo_attempt)) =
      if MAX_REPLAY_TRANSITIONS <? zlen own then Raise ProjectionIntegrityError else Ok own.
Proof. apply (history_complete demo_db demo_end); [reflexivity|exact demo_end_reachable]. Defined.

(** ** The audit of a claimed attempt *)

(** A claim that inserts its attempt appends the record that leaves SCHEDULED. *)
Lemma inserting_claim db rs claim hook ct db' :
  ledger_of db rs -> validate_schedule_claim claim = Ok claim -> command_ok (cl_claim_transition claim) ->
  claim_execute db claim hook = Ok (ct, db') -> attempts db !! cl_attempt_id claim = None ->
  ledger_of db' (rs ++ [committed_record ct]) /\
  record_identity (committed_record ct) = (tc_run_id (cl_claim_transition claim), Entity_ATTEMPT, cl_attempt_id claim) /\
  tr_from_state (committed_record ct) = Some (OfAttempt Attempt_SCHEDULED).
Proof.
  intros Hl Hv Hc H Hnew. destruct (claim_shape _ Hv) as (He & Hid & Hex & Hn & _).
  pose proof H as (schedule & Hs & _ & _ & [(_ & _ & Hconsumed & _)|(_ & db2 & Hp & Ha)])%claim_execute_cases.
  { exfalso. unfold claim_execute in H. py_step H. rewrite Hs in H. py_step H. destruct (se_consumed_at schedule); [|done]. py_step H.
    unfold _verify_claimed_attempt in H. by rewrite Hnew in H. }
  assert (ledger_of db2 rs) as Hl2 by (eapply ledger_frame; [exact Hl|by apply Hp|intros; by eapply claim_prepared_state]).
  destruct (claim_prepared_attempt _ _ _ _ Hp) as (a & _ & _ & Hst). rewrite <- Hid in Hst.
  set (c := cl_claim_transition claim) in *.
  assert (_transition_by_idempotency_key db2 (tc_run_id c) (tc_idempotency_key c) = Ok None) as Hkey
    by (by eapply (claim_not_replayed db2 rs c); [..|exact Ha]).
  set (op := {| op_command := c; op_crash_hook := hook; op_phase_evidence := None; op_response_staging := None; op_transport_evidence := None |}) in *.
  unfold apply_execute in Ha. do 5 py_step Ha. change (op_command op) with c in E3. rewrite Hkey in E3. injection E3 as <-.
  py_step Ha. pose proof (fresh_ledger db2 op _ ct db' rs Hl2 Hc E3 Ha) as Hl'. split; [done|].
  apply write_fresh_effect in Ha as (sq & _ & _ & _ & -> & _). unfold record_identity. simpl. by rewrite He, Hid.
Qed.

(** The ledger only grows. *)
Lemma ledger_grows start rs db : ledger_of start rs -> journal_reachable start db -> exists k, ledger_of db (rs ++ k).
Proof.
  intros H0. revert db. apply (journal_invariant (fun d => exists k, ledger_of d (rs ++ k))).
  - exists []. by rewrite app_nil_r.
  - intros d op ct d' [k Hl] Hc%op_command_ok H. apply (apply_ledger _ _ _ _ _ Hl Hc) in H as [(_ & -> & _)|[_ H]]; [by exists k|].
    rewrite <- app_assoc in H. eauto.
  - intros d claim hook ct d' [k Hl] _ Hc (schedule & _ & _ & _ & [(-> & _)|(_ & d2 & Hp & Ha)])%claim_execute_cases; [by exists k|].
    assert (ledger_of d2 (rs ++ k)) as Hl2 by (eapply ledger_frame; [exact Hl|by apply Hp|intros; by eapply claim_prepared_state]).
    eapply apply_ledger in Ha as [(_ & -> & _)|[_ H]]; [by exists k| |exact Hl2|exact Hc]. rewrite <- app_assoc in H. eauto.
  - intros d run id st epoch d' [k Hl] _ H. exists k. eapply ledger_frame; [exact Hl| |].
    + by apply rebind_effect in H as (? & _ & _ & _ & _ & _ & _ & _ & _ & _ & ? & _).
    + intros e i x. by rewrite (rebind_state _ _ _ _ _ _ _ _ H).
  - intros d run category at_ r [k Hl] Hr _. exists k. eapply ledger_frame; [exact Hl|done|].
    intros e i x. by rewrite terminal_entity.
Qed.

(** Records of an entity without a row are none. *)
Lemma no_row_no_records db rs run e id : ledger_of db rs -> entity_state db e id = None -> entity_records (run, e, id) rs = [].
Proof.
  intros Hl Hn. pose proof (lg_projected _ _ Hl (run, e, id)) as Hp. cbn [fst snd] in Hp. unfold final_state in Hp.
  destruct (entity_records (run, e, id) rs) as [|r l _] using rev_ind; [done|]. rewrite fold_left_app in Hp. simpl in Hp.
  specialize (Hp _ eq_refl). congruence.
Qed.

Lemma entity_records_of_run run e id rs :
  entity_records (run, e, id) (List.filter (selects run None) rs) = entity_records (run, e, id) rs.
Proof.
  unfold entity_records. induction rs as [|r rs IH]; [done|]. simpl. unfold selects at 1. rewrite andb_true_r.
  case_bool_decide as Hr; rewrite !filter_cons, IH; [done|]. rewrite decide_False; [done|]. unfold record_identity. congruence.
Qed.

(** A run in which the first record of some entity leaves a state cannot be audited. *)
Lemma audit_unentered db rs run e id r rest :
  ledger_of db rs -> entity_records (run, e, id) rs = r :: rest -> tr_from_state r <> None -> is_ok (audit_execute db run) = false.
Proof.
  intros Hl He Hr. unfold audit_execute. destruct (_require_run_exists db run); [|done]. cbn [mbind]. destruct (_load_projection_inventory db run); [|done].
  rewrite (history_spec db rs Hl run None). destruct (MAX_REPLAY_TRANSITIONS <? _); [done|].
  unfold replay_transition_records. destruct (MAX_REPLAY_TRANSITIONS <? _); [done|].
  destruct (replay_spec (List.filter (selects run None) rs)) as [Hlegal _].
  destruct (for_each replay_step replay_init _) as [st|] eqn:E; [|done]. exfalso.
  destruct (proj1 Hlegal eq_refl) as [_ _ _ Hlife]. specialize (Hlife (run, e, id)). rewrite entity_records_of_run, He in Hlife.
  destruct Hlife as [Hc _]. unfold continues in Hc. by destruct (tr_from_state r).
Qed.

(** C40: A claim that inserts its attempt makes its run unauditable.  On every journal reached from an empty
    ledger, whatever an audit of the run said before, such a claim appends as the attempt's first record one that leaves SCHEDULED,
    without a record that enters it; from then on, whatever is executed, every audit of the run is refused. *)
Theorem claim_audit_refused start db claim hook ct db' later
    (Hstart : transitions start = []) (Hreach : journal_reachable start db)
    (Hv : validate_schedule_claim claim = Ok claim) (Hc : command_ok (cl_claim_transition claim))
    (Hclaim : claim_execute db claim hook = Ok (ct, db')) (Hnew : attempts db !! cl_attempt_id claim = None)
    (Hlater : journal_reachable db' later) :
  (exists rs, ledger_of db rs /\ ledger_of db' (rs ++ [committed_record ct]) /\
     entity_records (record_identity (committed_record ct)) (rs ++ [committed_record ct]) = [committed_record ct] /\
     tr_from_state (committed_record ct) = Some (OfAttempt Attempt_SCHEDULED)) /\
  is_ok (audit_execute later (tc_run_id (cl_claim_transition claim))) = false.
Proof.
  destruct (ledger_reachable _ _ Hstart Hreach) as [rs Hl].
  destruct (inserting_claim _ _ _ _ _ _ Hl Hv Hc Hclaim Hnew) as (Hl' & Hi & Hf).
  assert (entity_records (record_identity (committed_record ct)) rs = []) as Hnone.
  { rewrite Hi. eapply no_row_no_records; [exact Hl|]. unfold entity_state. by rewrite Hnew. }
  split.
  - exists rs. split_and!; try done. by rewrite entity_records_snoc, Hnone, decide_True.
  - destruct (ledger_grows _ _ _ Hl' Hlater) as [k Hk]. rewrite Hi in Hnone. eapply (audit_unentered later _ _ Entity_ATTEMPT (cl_attempt_id claim) (committed_record ct)); [exact Hk| |by rewrite Hf].
    unfold entity_records in *. rewrite !list.filter_app, Hnone. simpl. rewrite filter_cons, decide_True by done. reflexivity.
Qed.

(** A run whose rows were entered and advanced one record at a time, with a claim pending. *)
Definition entered_db : Database :=
  {| runs := {[demo_run := {| run_state := Run_PLANNED; run_owner_epoch := 3; run_terminal_category := None; run_terminal_at := None |}]};
     scenarios := {[demo_scenario := {| sc_run_id := demo_run; sc_ordinal := 0; sc_state := Scenario_PENDING |}]};
     deliveries := {[demo_delivery := {| dl_run_id := demo_run; dl_scenario_id := demo_scenario; dl_event_id := demo_event; dl_ordinal := 2;
       dl_step_ordinal := 1; dl_state := Delivery_PENDING; dl_required := true |}]};
     attempts := ∅; observer_series := ∅; assertions := ∅; transitions := []; schedule_entries := {[demo_schedule := demo_entry]};
     attempt_records := ∅; attempt_response_staging := ∅ |}.
Definition entry_command (n : Z) (e : EntityType) (id : str) (to : LifecycleState) : TransitionCommand :=
  let c := demo_command n e id to to in
  {| tc_run_id := tc_run_id c; tc_transition_id := tc_transition_id c; tc_entity_type := e; tc_entity_id := id; tc_expected_state := None;
     tc_new_state := to; tc_trigger_category := tc_trigger_category c; tc_timestamp := tc_timestamp c; tc_owner_epoch := tc_owner_epoch c;
     tc_idempotency_key := tc_idempotency_key c; tc_causal_reference := None; tc_logical_time_ns := tc_logical_time_ns c;
     tc_delivery_satisfaction := None; tc_attempt_outcome := None |}.
Definition entered_calls : list journal_call :=
  map (fun c => CallApply (demo_op c))
    [entry_command 10 Entity_RUN demo_run (OfRun Run_PLANNED); entry_command 11 Entity_SCENARIO demo_scenario (OfScenario Scenario_PENDING);
     entry_command 12 Entity_DELIVERY demo_delivery (OfDelivery Delivery_PENDING);
     demo_command 13 Entity_RUN demo_run (OfRun Run_PLANNED) (OfRun Run_RUNNING);
     demo_command 14 Entity_SCENARIO demo_scenario (OfScenario Scenario_PENDING) (OfScenario Scenario_ELIGIBLE);
     demo_command 15 Entity_SCENARIO demo_scenario (OfScenario Scenario_ELIGIBLE) (OfScenario Scenario_RUNNING);
     demo_command 16 Entity_DELIVERY demo_delivery (OfDelivery Delivery_PENDING) (OfDelivery Delivery_ELIGIBLE);
     demo_command 17 Entity_DELIVERY demo_delivery (OfDelivery Delivery_ELIGIBLE) (OfDelivery Delivery_ACTIVE)].
Definition before_claim : Database := Eval vm_compute in fold_left journal_exec entered_calls entered_db.
Lemma before_claim_reachable : journal_reachable entered_db before_claim.
Proof.
  change before_claim with (fold_left journal_exec entered_calls entered_db). apply exec_reachable.
  repeat (apply List.Forall_cons; [|]); [..|apply List.Forall_nil];
    (split; [constructed|]; split; [intros s Hs; discriminate Hs|]; intros o Ho; discriminate Ho).
Qed.

(** The audit accepts the run before the claim: ledger and rows agree.  After it, it is refused. *)
Lemma claim_audit_refused_witness :
  (let! a := audit_execute before_claim demo_run in Ok (audit_matches a)) = Ok true /\
  exists ct db', claim_execute before_claim demo_claim None = Ok (ct, db') /\ is_ok (audit_execute db' demo_run) = false.
Proof.
  split; [vm_compute; reflexivity|].
  destruct (claim_execute before_claim demo_claim None) as [[ct db']|] eqn:E; [|vm_compute in E; discriminate E].
  exists ct, db'. split; [reflexivity|].
  refine (proj2 (claim_audit_refused entered_db before_claim demo_claim None ct db' db' eq_refl before_claim_reachable _ _ E _ (journal_start db'))).
  - vm_compute. reflexivity.
  - split; vm_compute; reflexivity.
  - vm_compute. reflexivity.
Defined.
