(* ===== verification/Verdicts.v ===== *)
(** * Terminal verdicts

    [runtime/verdicts.py], [reporting/summary.py] and [cli/exit_codes.py]: the classification of
    assertions and attempts, the two reductions of a run's facts to one category, and the process
    exit code.  Arguments of the wrong Python type, which the code refuses, have no counterpart
    here. *)

From S2P Require Import Prelude Domain.

Local Open Scope Z_scope.

(** ** Exit codes ([errors.py], [cli/exit_codes.py]) *)

Definition RESULT_TO_EXIT (c : ResultCategory) : CliExitCategory * ExitCode :=
  match c with
  | Category_PASS => (Cli_PASS, Exit_PASS)
  | Category_RECEIVER_FAILURE => (Cli_RECEIVER_FAILURE, Exit_RECEIVER_FAILURE)
  | Category_ENVIRONMENT_ERROR => (Cli_ENVIRONMENT_FAILURE, Exit_ENVIRONMENT_FAILURE)
  | Category_HARNESS_ERROR => (Cli_HARNESS_FAILURE, Exit_HARNESS_FAILURE)
  | Category_AMBIGUOUS => (Cli_AMBIGUOUS, Exit_AMBIGUOUS)
  | Category_INVALID_INPUT => (Cli_INVALID_INPUT, Exit_INVALID_INPUT)
  | Category_UNSUPPORTED => (Cli_UNSUPPORTED, Exit_UNSUPPORTED)
  | Category_CANCELLED => (Cli_CANCELLED, Exit_CANCELLED)
  end.
Definition exit_for_result (result : ResultCategory) : CliExitCategory * ExitCode := RESULT_TO_EXIT result.

Inductive CommandSurface := Surface_RUN | Surface_RESUME | Surface_REPLAY.

Record ExitCodeMapping := { em_result : ResultCategory; em_cli_category : CliExitCategory; em_code : ExitCode }.
#[global] Instance ExitCodeMapping_eq_dec : EqDecision ExitCodeMapping.
Proof. solve_decision. Defined.

(** [ExitCodeMapping.__post_init__] *)
Definition make_exit_mapping (r : ResultCategory) (e : CliExitCategory * ExitCode) : result ExitCodeMapping :=
  raise_if negb (bool_decide (exit_for_result r = e)) with ValueError ;;
  Ok {| em_result := r; em_cli_category := e.1; em_code := e.2 |}.

Definition EXIT_CODE_MAPPINGS : result (list ExitCodeMapping) :=
  map_result (fun r => make_exit_mapping r (exit_for_result r)) ResultCategory_members.
(** [EXIT_CODE_TABLE[result]]: the last mapping whose result is the key. *)
Definition EXIT_CODE_TABLE (r : ResultCategory) : result ExitCodeMapping :=
  let! mappings := EXIT_CODE_MAPPINGS in
  match List.find (fun m => bool_decide (em_result m = r)) (rev mappings) with
  | Some m => Ok m
  | None => Raise KeyError
  end.

Definition exit_mapping_for (r : ResultCategory) (surface : CommandSurface) : result ExitCodeMapping :=
  EXIT_CODE_TABLE r.
Definition process_exit_code (r : ResultCategory) (surface : CommandSurface) : result ExitCode :=
  let! m := exit_mapping_for r surface in Ok (em_code m).

(** ** Runtime classification ([runtime/verdicts.py]) *)

Inductive AssertionErrorOrigin := Origin_ENVIRONMENT | Origin_HARNESS | Origin_INVALID_INPUT.

Definition _ERROR_RESULT (o : AssertionErrorOrigin) : ResultCategory :=
  match o with
  | Origin_ENVIRONMENT => Category_ENVIRONMENT_ERROR
  | Origin_HARNESS => Category_HARNESS_ERROR
  | Origin_INVALID_INPUT => Category_INVALID_INPUT
  end.

Definition _ATTEMPT_RESULT (c : AttemptClassification) : ResultCategory :=
  match c with
  | Class_PLANNED => Category_PASS
  | Class_RECEIVER_ACCEPTED => Category_PASS
  | Class_RECEIVER_REJECTED => Category_RECEIVER_FAILURE
  | Class_ENVIRONMENT_FAILURE => Category_ENVIRONMENT_ERROR
  | Class_HARNESS_FAILURE => Category_HARNESS_ERROR
  | Class_CANCELLED => Category_CANCELLED
  | Class_AMBIGUOUS => Category_AMBIGUOUS
  end.

Definition _PRECEDENCE : list ResultCategory :=
  [Category_HARNESS_ERROR; Category_INVALID_INPUT; Category_AMBIGUOUS; Category_ENVIRONMENT_ERROR;
   Category_UNSUPPORTED; Category_RECEIVER_FAILURE; Category_CANCELLED; Category_PASS].

(** [{category: index for index, category in enumerate(order)}[c]] *)
Fixpoint index_in (order : list ResultCategory) (c : ResultCategory) : Z :=
  match order with
  | [] => 0
  | x :: rest => if decide (x = c) then 0 else 1 + index_in rest c
  end.
Definition _PRECEDENCE_INDEX (c : ResultCategory) : Z := index_in _PRECEDENCE c.

Record TerminalVerdict := { vd_category : ResultCategory; vd_exit_code : ExitCode }.

(** [TerminalVerdict.__post_init__] *)
Definition make_terminal_verdict (c : ResultCategory) (code : ExitCode) : result TerminalVerdict :=
  raise_if negb (bool_decide ((exit_for_result c).2 = code)) with ValueError ;;
  Ok {| vd_category := c; vd_exit_code := code |}.

Definition terminal_verdict (c : ResultCategory) : result TerminalVerdict :=
  make_terminal_verdict c (exit_for_result c).2.

Definition classify_assertion_verdict (r : AssertionResult) (state : AssertionState)
    (error_origin : option AssertionErrorOrigin) : result TerminalVerdict :=
  if bool_decide (state = Assertion_PASSED) && bool_decide (r = Result_PASS)
  then terminal_verdict Category_PASS
  else if bool_decide (state = Assertion_FAILED) && bool_decide (r = Result_FAIL)
  then terminal_verdict Category_RECEIVER_FAILURE
  else if bool_decide (state = Assertion_UNSUPPORTED) && bool_decide (r ∈ [Result_ERROR; Result_SKIPPED])
  then terminal_verdict Category_UNSUPPORTED
  else if bool_decide (state = Assertion_ERROR) && bool_decide (r = Result_ERROR)
  then match error_origin with
       | None => Raise ValueError
       | Some o => terminal_verdict (_ERROR_RESULT o)
       end
  else if bool_decide (state = Assertion_CANCELLED)
  then terminal_verdict Category_CANCELLED
  else Raise ValueError.

Definition classify_attempt_verdict (c : AttemptClassification) : result TerminalVerdict :=
  terminal_verdict (_ATTEMPT_RESULT c).

(** [min(first :: rest, key=...)]: the first of the least elements. *)
Fixpoint min_by (key : ResultCategory -> Z) (best : ResultCategory) (rest : list ResultCategory) : ResultCategory :=
  match rest with
  | [] => best
  | c :: rest' => min_by key (if key c <? key best then c else best) rest'
  end.

Definition reduce_terminal_verdicts (categories : list ResultCategory) (durably_terminal : option ResultCategory)
    : result TerminalVerdict :=
  match categories with
  | [] => Raise TypeError
  | c :: rest =>
    match durably_terminal with
    | Some d => terminal_verdict d
    | None => terminal_verdict (min_by _PRECEDENCE_INDEX c rest)
    end
  end.

(** ** The report's reduction ([reporting/summary.py]) *)

Definition SUMMARY_PRECEDENCE : list ResultCategory :=
  [Category_HARNESS_ERROR; Category_INVALID_INPUT; Category_AMBIGUOUS; Category_ENVIRONMENT_ERROR;
   Category_UNSUPPORTED; Category_RECEIVER_FAILURE; Category_CANCELLED; Category_PASS].
Definition SUMMARY_PRECEDENCE_INDEX (c : ResultCategory) : Z := index_in SUMMARY_PRECEDENCE c.

Record ReducedResult := { rr_category : ResultCategory; rr_exit_code : ExitCode }.

(** [ReducedResult.__post_init__] *)
Definition make_reduced (c : ResultCategory) (code : ExitCode) : result ReducedResult :=
  let! expected := process_exit_code c Surface_RUN in
  raise_if negb (bool_decide (expected = code)) with ValueError ;;
  Ok {| rr_category := c; rr_exit_code := code |}.

Definition pairwise_reduce (left right : ResultCategory) : ResultCategory :=
  if SUMMARY_PRECEDENCE_INDEX left <=? SUMMARY_PRECEDENCE_INDEX right then left else right.

Definition reduce_result_categories (categories : list ResultCategory) (surface : CommandSurface)
    (durably_terminal : option ResultCategory) (cancellation_requested : bool) : result ReducedResult :=
  match durably_terminal with
  | Some d => let! code := process_exit_code d surface in make_reduced d code
  | None =>
    let facts := if cancellation_requested then categories ++ [Category_CANCELLED] else categories in
    let '(first, rest) := match facts with [] => (Category_PASS, []) | c :: r => (c, r) end in
    let reduced := fold_left pairwise_reduce rest first in
    let! code := process_exit_code reduced surface in make_reduced reduced code
  end.

(** ** The precedence order *)

Lemma precedence_injective c d : _PRECEDENCE_INDEX c = _PRECEDENCE_INDEX d -> c = d.
Proof. destruct c, d; vm_compute; congruence. Qed.

Lemma summary_index c : SUMMARY_PRECEDENCE_INDEX c = _PRECEDENCE_INDEX c.
Proof. reflexivity. Qed.

Lemma exit_code_agrees c surface : process_exit_code c surface = Ok (exit_for_result c).2.
Proof. destruct c, surface; vm_compute; reflexivity. Qed.

Lemma terminal_verdict_ok c :
  terminal_verdict c = Ok {| vd_category := c; vd_exit_code := (exit_for_result c).2 |}.
Proof. unfold terminal_verdict, make_terminal_verdict. by rewrite bool_decide_true. Qed.

Lemma make_reduced_ok c :
  make_reduced c (exit_for_result c).2 = Ok {| rr_category := c; rr_exit_code := (exit_for_result c).2 |}.
Proof. unfold make_reduced. rewrite exit_code_agrees. by rewrite bool_decide_true. Qed.

(** [pairwise_reduce] is the meet of the precedence order. *)
Lemma pairwise_spec c d :
  (pairwise_reduce c d = c \/ pairwise_reduce c d = d) /\
  _PRECEDENCE_INDEX (pairwise_reduce c d) <= _PRECEDENCE_INDEX c /\
  _PRECEDENCE_INDEX (pairwise_reduce c d) <= _PRECEDENCE_INDEX d.
Proof.
  destruct c, d; vm_compute; (split; [(by left) || (by right)|split; discriminate]).
Qed.

#[global] Instance pairwise_comm : Comm (=) pairwise_reduce.
Proof. intros [] []; vm_compute; reflexivity. Qed.
#[global] Instance pairwise_assoc : Assoc (=) pairwise_reduce.
Proof. intros [] [] []; vm_compute; reflexivity. Qed.

Lemma pairwise_min c d : (if _PRECEDENCE_INDEX d <? _PRECEDENCE_INDEX c then d else c) = pairwise_reduce c d.
Proof. destruct c, d; vm_compute; reflexivity. Qed.

Lemma min_by_fold c rest : min_by _PRECEDENCE_INDEX c rest = fold_left pairwise_reduce rest c.
Proof. revert c; induction rest as [|d rest IH]; intros c; simpl; [done|]. by rewrite pairwise_min, IH. Qed.

(** The worst category of a nonempty list. *)
Definition worst (facts : list ResultCategory) (c : ResultCategory) : Prop :=
  c ∈ facts /\ forall d, d ∈ facts -> _PRECEDENCE_INDEX c <= _PRECEDENCE_INDEX d.

Lemma worst_unique facts c d : worst facts c -> worst facts d -> c = d.
Proof. intros [H1 H2] [H3 H4]. apply precedence_injective. apply Z.le_antisymm; auto. Qed.

Lemma fold_worst rest c : worst (c :: rest) (fold_left pairwise_reduce rest c).
Proof.
  revert c; induction rest as [|d rest IH]; intros c; simpl.
  - split; [left|]. intros x ->%list_elem_of_singleton. lia.
  - destruct (IH (pairwise_reduce c d)) as [Hin Hle].
    destruct (pairwise_spec c d) as (Hcd & H1 & H2). split.
    + apply list_elem_of_In in Hin. apply list_elem_of_In. destruct Hin as [Hin|Hin]; [|by right; right].
      rewrite <- Hin. destruct Hcd as [->| ->]; [by left|by right; left].
    + pose proof (Hle _ (list_elem_of_here _ _)) as Hp.
      intros x Hx. apply list_elem_of_In in Hx as [<-|[<-|Hx]]; [lia|lia|].
      apply Hle. right. by apply list_elem_of_In.
Qed.

(** ** What the verdict is *)

(** The order REPORT-022 fixes (specification/05-product-requirements.md): each category overrides the next,
    and those the next one overrides. *)
Inductive overrides : ResultCategory -> ResultCategory -> Prop :=
  | harness_over_invalid : overrides Category_HARNESS_ERROR Category_INVALID_INPUT
  | invalid_over_ambiguous : overrides Category_INVALID_INPUT Category_AMBIGUOUS
  | ambiguous_over_environment : overrides Category_AMBIGUOUS Category_ENVIRONMENT_ERROR
  | environment_over_unsupported : overrides Category_ENVIRONMENT_ERROR Category_UNSUPPORTED
  | unsupported_over_receiver : overrides Category_UNSUPPORTED Category_RECEIVER_FAILURE
  | receiver_over_cancelled : overrides Category_RECEIVER_FAILURE Category_CANCELLED
  | cancelled_over_pass : overrides Category_CANCELLED Category_PASS.
Definition takes_precedence (c d : ResultCategory) : Prop := rtc overrides c d.

(** The tables implement that order. *)
Lemma precedence_index c d : takes_precedence c d <-> _PRECEDENCE_INDEX c <= _PRECEDENCE_INDEX d.
Proof.
  split.
  - induction 1 as [|x y z Hxy _ IH]; [done|]. etrans; [|exact IH]. destruct Hxy; vm_compute; discriminate.
  - destruct c, d; intros H; try (exfalso; apply H; reflexivity); repeat first [apply rtc_refl|eapply rtc_l; [constructor|]].
Qed.

(** The category in [facts] that takes precedence over all of them. *)
Definition prevails (facts : list ResultCategory) (c : ResultCategory) : Prop :=
  c ∈ facts /\ forall d, d ∈ facts -> takes_precedence c d.
Lemma prevails_worst facts c : prevails facts c <-> worst facts c.
Proof. unfold prevails, worst. setoid_rewrite precedence_index. done. Qed.

(** C38: The runtime's verdict is the fact of the run that prevails in the order REPORT-022 fixes (harness
    error, invalid input, ambiguous, environment error, unsupported, receiver failure, cancelled, pass): the
    reduction of a nonempty list of categories without a durable result returns exactly the one category in
    it that takes precedence over all of them, paired with that category's exit code, and so does not depend
    on the order or the multiplicity of the facts; a durable result is returned unchanged. *)
Theorem reduce_is_worst facts v :
  facts <> [] ->
  (reduce_terminal_verdicts facts None = Ok v <->
   prevails facts (vd_category v) /\ vd_exit_code v = (exit_for_result (vd_category v)).2) /\
  (forall facts', (forall c, c ∈ facts' <-> c ∈ facts) ->
     reduce_terminal_verdicts facts' None = reduce_terminal_verdicts facts None) /\
  (forall d, reduce_terminal_verdicts facts (Some d)
     = Ok {| vd_category := d; vd_exit_code := (exit_for_result d).2 |}).
Proof.
  intros Hne. destruct facts as [|c rest]; [done|]. clear Hne.
  assert (forall c rest, reduce_terminal_verdicts (c :: rest) None =
    Ok {| vd_category := fold_left pairwise_reduce rest c;
          vd_exit_code := (exit_for_result (fold_left pairwise_reduce rest c)).2 |}) as Hred.
  { intros. simpl. by rewrite min_by_fold, terminal_verdict_ok. }
  split_and!.
  - rewrite Hred, prevails_worst. split.
    + intros [= <-]. split; [apply fold_worst|done].
    + intros [Hw He]. destruct v as [x e]. simpl in *. rewrite He.
      by rewrite (worst_unique _ _ _ Hw (fold_worst rest c)).
  - intros facts' Hin. destruct facts' as [|c' rest'].
    { exfalso. pose proof (proj2 (Hin c) (list_elem_of_here _ _)) as Hc. inversion Hc. }
    rewrite !Hred.
    assert (fold_left pairwise_reduce rest' c' = fold_left pairwise_reduce rest c) as ->; [|done].
    apply (worst_unique (c :: rest)); [|apply fold_worst]. destruct (fold_worst rest' c') as [H1 H2].
    split; [by apply Hin|]. intros d Hd%Hin. by apply H2.
  - intros d. apply terminal_verdict_ok.
Qed.

Lemma reduce_is_worst_witness :
  reduce_terminal_verdicts [Category_PASS; Category_AMBIGUOUS; Category_RECEIVER_FAILURE] None =
    Ok {| vd_category := Category_AMBIGUOUS; vd_exit_code := Exit_AMBIGUOUS |}.
Proof.
  refine (proj2 (proj1 (reduce_is_worst [Category_PASS; Category_AMBIGUOUS; Category_RECEIVER_FAILURE] _ _)) _);
    [discriminate|]. split; [|reflexivity]. split; [right; left|]. intros d Hd. apply list_elem_of_In in Hd.
  destruct Hd as [<-|[<-|[<-|[]]]]; repeat first [apply rtc_refl|eapply rtc_l; [constructor|]].
Defined.

(** The report and the runtime agree: on any facts, the summary's reduction gives the same
    category and exit code as the runtime's, whatever the command surface; a requested cancellation
    counts as one more CANCELLED fact; no facts at all count as PASS; and a durable result wins in
    both. *)
Theorem summary_agrees (facts : list ResultCategory) surface durable (cancelled : bool) :
  let all := if cancelled then facts ++ [Category_CANCELLED] else facts in
  let all := match all with [] => [Category_PASS] | _ => all end in
  match reduce_result_categories facts surface durable cancelled, reduce_terminal_verdicts all durable with
  | Ok r, Ok v => rr_category r = vd_category v /\ rr_exit_code r = vd_exit_code v
  | _, _ => False
  end.
Proof.
  cbv zeta. unfold reduce_result_categories.
  destruct (if cancelled then facts ++ [Category_CANCELLED] else facts) as [|c rest];
    (destruct durable as [d|]; cbv beta iota zeta delta [reduce_terminal_verdicts]; rewrite exit_code_agrees, make_reduced_ok, ?min_by_fold, terminal_verdict_ok; done).
Qed.

(** The exit code tells the verdict: every command surface reports the same code for a
    category, different categories have different numeric codes, and the process exits with 0
    exactly for PASS. *)
Theorem exit_code_faithful c d s s' e e' :
  process_exit_code c s = Ok e -> process_exit_code d s' = Ok e' ->
  (ExitCode_value e = ExitCode_value e' <-> c = d) /\ (ExitCode_value e = 0 <-> c = Category_PASS).
Proof.
  rewrite !exit_code_agrees. intros [= <-] [= <-].
  split; split; try (intros ->; reflexivity); destruct c; try destruct d; vm_compute; congruence.
Qed.

Lemma exit_code_faithful_witness :
  ExitCode_value Exit_CANCELLED = ExitCode_value Exit_HARNESS_FAILURE <-> Category_CANCELLED = Category_HARNESS_ERROR.
Proof.
  apply (exit_code_faithful Category_CANCELLED Category_HARNESS_ERROR Surface_RUN Surface_REPLAY);
    vm_compute; reflexivity.
Defined.

(** A receiver is blamed only on comparable evidence: an assertion is classified as a receiver
    failure exactly when it FAILED with result FAIL, an errored one is classified by its explicit
    origin and refused without one, and every combination that is not terminal is refused. *)
Theorem assertion_verdict_spec r state origin :
  (classify_assertion_verdict r state origin =
     Ok {| vd_category := Category_RECEIVER_FAILURE; vd_exit_code := Exit_RECEIVER_FAILURE |} <->
   state = Assertion_FAILED /\ r = Result_FAIL) /\
  (classify_assertion_verdict r Assertion_ERROR origin =
     match r, origin with
     | Result_ERROR, Some o => terminal_verdict (_ERROR_RESULT o)
     | _, _ => Raise ValueError
     end) /\
  (is_ok (classify_assertion_verdict r state origin) = true <->
   state = Assertion_CANCELLED \/ (state = Assertion_PASSED /\ r = Result_PASS) \/
   (state = Assertion_FAILED /\ r = Result_FAIL) \/
   (state = Assertion_UNSUPPORTED /\ (r = Result_ERROR \/ r = Result_SKIPPED)) \/
   (state = Assertion_ERROR /\ r = Result_ERROR /\ origin <> None)).
Proof.
  split_and!.
  - split; [|by intros [-> ->]].
    destruct r, state, origin as [[]|]; vm_compute; intros [=]; done.
  - destruct r, origin as [[]|]; vm_compute; reflexivity.
  - destruct r, state, origin as [[]|]; vm_compute; intuition congruence.
Qed.
