(* ===== verification/JsonFlat.v ===== *)
(** * Text of JSON objects and of numbers

    Round trips of flat objects, and what is known of decimal text. *)

From S2P Require Import Prelude Text Commands Json.
From stdpp Require Import pretty.
From Stdlib Require Import Ascii.

Local Open Scope Z_scope.

(** * Canonical JSON of flat objects

    What the canonical writer prints for an object of scalars the scanner reads back to the same
    members: the round trip behind the retry conditions the journal stores and checks. *)

(** ** Decimal integers *)

Definition decimal_value (digits : str) : Z := fold_left (fun acc c => acc * 10 + (Z.of_N c - 48)) digits 0.

(** Digits without a leading zero. *)
Definition canonical_digits (d : str) : Prop :=
  forallb is_decimal d = true /\ match d with [] => False | c :: _ => c <> 48%N end.

Lemma u_string c s : u (String c s) = Ascii.N_of_ascii c :: u s.
Proof. reflexivity. Qed.

Lemma digit_char x : (x < 10)%N -> Ascii.N_of_ascii (pretty_N_char x) = (48 + x)%N.
Proof.
  intros Hx.
  assert (x = 0 \/ x = 1 \/ x = 2 \/ x = 3 \/ x = 4 \/ x = 5 \/ x = 6 \/ x = 7 \/ x = 8 \/ x = 9)%N as Hc by lia.
  destruct Hc as [->|[->|[->|[->|[->|[->|[->|[->|[->| ->]]]]]]]]]; reflexivity.
Qed.

Lemma digits_of x :
  (0 < x)%N -> exists d, (forall s, u (pretty_N_go x s) = d ++ u s) /\ canonical_digits d /\
    decimal_value d = Z.of_N x.
Proof.
  induction (N.lt_wf_0 x) as [x _ IH]. intros Hx.
  assert (x mod 10 < 10)%N as Hm by (apply N.mod_lt; lia).
  assert (x = 10 * (x / 10) + x mod 10)%N as Hdm by (apply N.div_mod; lia).
  assert (x / 10 < x)%N as Hlt by (apply N.div_lt; lia).
  assert (forall s, u (pretty_N_go x s) = u (pretty_N_go (x / 10) (String (pretty_N_char (x mod 10)) s))) as Hstep
    by (intros; by rewrite pretty_N_go_step).
  revert Hm Hdm Hlt Hstep. generalize (x / 10)%N (x mod 10)%N. intros q m Hm Hdm Hlt Hstep.
  assert (is_decimal (48 + m) = true) as Hdig.
  { unfold is_decimal, char_between. apply andb_true_iff. split; apply N.leb_le; lia. }
  destruct (decide (q = 0)%N) as [->|Hz].
  - exists [(48 + m)%N]. split_and!.
    + intros s. by rewrite Hstep, pretty_N_go_0, u_string, digit_char.
    + split; [cbn [forallb]; by rewrite Hdig|]. lia.
    + unfold decimal_value. cbn [fold_left]. lia.
  - destruct (IH q Hlt) as (d & Hd & [Hc Hh] & Hv); [lia|].
    exists (d ++ [(48 + m)%N]). split_and!.
    + intros s. by rewrite Hstep, Hd, u_string, digit_char, <- app_assoc.
    + split; [rewrite forallb_app, Hc; cbn [forallb]; by rewrite Hdig|]. by destruct d.
    + unfold decimal_value in *. rewrite fold_left_app, Hv. cbn [fold_left]. lia.
Qed.

(** The text of an integer: 0, or an optional sign and canonical digits. *)
Lemma str_of_int_cases z :
  (z = 0 /\ str_of_int z = [48%N]) \/
  exists d, canonical_digits d /\ decimal_value d = Z.abs z /\
    str_of_int z = if z <? 0 then 45%N :: d else d.
Proof.
  unfold str_of_int. destruct z as [|p|p]; [by left|right|right];
    (destruct (digits_of (Npos p)) as (d & Hd & Hc & Hv); [lia|]; specialize (Hd EmptyString);
     rewrite app_nil_r in Hd; exists d; split_and!; [done|by rewrite Hv|]).
  - exact Hd.
  - change (u (pretty (Z.neg p))) with (u (String "-"%char (pretty_N_go (Npos p) EmptyString))).
    rewrite u_string, Hd. done.
Qed.

(** The text after a value: a comma, a closing brace or bracket, or nothing. *)
Definition delimited (rest : str) : Prop :=
  match rest with c :: _ => c = 44%N \/ c = 125%N \/ c = 93%N | [] => True end.

Lemma span_digits_app d rest :
  forallb is_decimal d = true -> delimited rest -> span_digits (d ++ rest) = (d, rest).
Proof.
  intros Hd Hr. induction d as [|c d IH]; simpl in *.
  - destruct rest as [|c rest]; [done|]. simpl. by destruct Hr as [->|[->| ->]].
  - apply andb_true_iff in Hd as [-> Hd]. by rewrite IH.
Qed.

Lemma scan_digits d rest :
  canonical_digits d -> delimited rest ->
  match d ++ rest with
  | c :: r =>
    if (c =? 48)%N then None
    else if is_decimal c then Some (let (x, y) := span_digits r in (c :: x, y)) else None
  | [] => None
  end = Some (d, rest).
Proof.
  intros [Hd Hh] Hr. destruct d as [|c d]; [done|]. simpl. simpl in Hd. apply andb_true_iff in Hd as [Hc Hd].
  rewrite (proj2 (N.eqb_neq _ _)) by done. rewrite Hc, span_digits_app by done. done.
Qed.

Lemma canonical_not_minus c d : canonical_digits (c :: d) -> (c =? 45)%N = false.
Proof.
  intros [H _]. simpl in H. apply andb_true_iff in H as [H _]. unfold is_decimal, char_between in H.
  apply andb_true_iff in H as [H _]. apply N.leb_le in H. apply N.eqb_neq. lia.
Qed.

Lemma scan_int_text z rest : delimited rest -> scan_int (str_of_int z ++ rest) = Some (str_of_int z, rest).
Proof.
  intros Hr. destruct (str_of_int_cases z) as [[-> ->]|(d & Hd & _ & ->)]; [done|].
  pose proof (scan_digits _ _ Hd Hr) as Hs. destruct d as [|c d]; [by destruct Hd|].
  pose proof (canonical_not_minus _ _ Hd) as Hc. unfold scan_int. simpl in Hs.
  destruct (z <? 0); simpl; rewrite ?Hc; simpl; destruct (c =? 48)%N; try done;
    (destruct (is_decimal c); [|done]); destruct (span_digits (d ++ rest)); simplify_eq; done.
Qed.

Lemma decimal_filter d : forallb is_decimal d = true -> List.filter is_decimal d = d.
Proof. apply forallb_filter_id. Qed.

Lemma int_of_text z : int_of_decimal (str_of_int z) = z.
Proof.
  destruct (str_of_int_cases z) as [[-> ->]|(d & Hd & Hv & ->)]; [done|]. unfold int_of_decimal.
  destruct (z <? 0) eqn:Ez.
  - cbn [List.filter]. change (is_decimal 45) with false. cbn iota. rewrite decimal_filter by apply Hd.
    fold (decimal_value d). change (45 =? 45)%N with true. cbn iota. apply Z.ltb_lt in Ez. lia.
  - rewrite decimal_filter by apply Hd. fold (decimal_value d). apply Z.ltb_ge in Ez.
    destruct d as [|c d]; [by destruct Hd|]. rewrite (canonical_not_minus _ _ Hd). lia.
Qed.

(** ** Plain strings *)

(** Printable ASCII without the quote and the backslash. *)
Definition plain_char (c : N) : bool :=
  (32 <=? c)%N && (c <=? 126)%N && negb (c =? 34)%N && negb (c =? 92)%N.
Definition plain (s : str) : bool := forallb plain_char s.

Lemma plain_json_char c : plain_char c = true -> json_char c = [c].
Proof.
  unfold plain_char, json_char. intros H. py_bool. rewrite N.leb_le in *. rewrite N.eqb_neq in *.
  repeat match goal with |- context [(c =? ?k)%N] => rewrite (proj2 (N.eqb_neq c k)) by lia end.
  by rewrite (proj2 (N.leb_le 32 c)), (proj2 (N.leb_le c 126)) by lia.
Qed.

Lemma plain_json_string s : plain s = true -> json_string s = [34%N] ++ s ++ [34%N].
Proof.
  intros H. unfold json_string. do 2 f_equal. induction s as [|c s IH]; [done|]. simpl in *.
  apply andb_true_iff in H as [Hc H]. rewrite plain_json_char by done. simpl. by rewrite IH.
Qed.

Lemma scan_plain s rest : plain s = true -> scan_string (s ++ 34%N :: rest) = Some (s, rest).
Proof.
  intros H. induction s as [|c s IH]; [done|]. simpl in H. apply andb_true_iff in H as [Hc H].
  unfold plain_char in Hc. rewrite !andb_true_iff, !negb_true_iff in Hc. destruct Hc as [[[Hl%N.leb_le _] Hq] Hb].
  cbn [app scan_string]. rewrite Hq, Hb, (proj2 (N.ltb_ge c 32)), IH by done. done.
Qed.

(** ** Flat objects *)

(** A scalar the hooks give back unchanged. *)
Definition scalar_ok (h : JsonHooks) (v : json) : Prop :=
  match v with
  | JNull | JBool _ => True
  | JInt z => parse_int h (str_of_int z) = Some (JInt z)
  | JString s => plain s = true
  | _ => False
  end.

Lemma skip_space_delimited rest : delimited rest -> skip_space rest = rest.
Proof. destruct rest as [|c rest]; [done|]. by intros [->|[->| ->]]. Qed.

(** The text of a scalar starts with a character that is not white space. *)
Lemma scalar_head h v : scalar_ok h v -> exists c t, json_dumps v = c :: t /\ is_json_space c = false.
Proof.
  destruct v as [|[]|z|raw|s|items|ms]; try done; intros Hv.
  1-3: by eexists _, _.
  - cbn [json_dumps]. destruct (str_of_int_cases z) as [[-> ->]|(d & Hd & _ & ->)]; [by eexists _, _|].
    destruct d as [|c d]; [by destruct Hd|]. destruct (z <? 0); [by eexists _, _|]. eexists _, _. split; [done|].
    destruct Hd as [Hd _]. simpl in Hd. apply andb_true_iff in Hd as [Hd _]. unfold is_decimal, char_between in Hd.
    rewrite andb_true_iff, !N.leb_le in Hd. unfold is_json_space. simpl.
    repeat match goal with |- context [(c =? ?k)%N] => rewrite (proj2 (N.eqb_neq c k)) by lia end. done.
  - simpl. rewrite plain_json_string by done. by eexists _, _.
Qed.

Lemma skip_space_scalar h v rest : scalar_ok h v -> skip_space (json_dumps v ++ rest) = json_dumps v ++ rest.
Proof. intros (c & t & -> & Hc)%scalar_head. simpl. by rewrite Hc. Qed.

Lemma scan_number_text h z rest :
  parse_int h (str_of_int z) = Some (JInt z) -> delimited rest ->
  scan_number h (str_of_int z ++ rest) = Some (JInt z, rest).
Proof.
  intros Hh Hr. unfold scan_number. rewrite scan_int_text by done.
  assert (scan_fraction rest = ([], rest)) as ->
    by (destruct rest as [|c rest]; [done|]; by destruct Hr as [->|[->| ->]]).
  assert (scan_exponent rest = ([], rest)) as ->
    by (destruct rest as [|c rest]; [done|]; by destruct Hr as [->|[->| ->]]).
  simpl. by rewrite Hh.
Qed.

Lemma int_head z rest :
  exists c t, str_of_int z ++ rest = c :: t /\ (c = 45%N \/ is_decimal c = true).
Proof.
  destruct (str_of_int_cases z) as [[-> ->]|(d & Hd & _ & ->)]; [eexists _, _; by split; [done|right]|].
  destruct d as [|c d]; [by destruct Hd|]. destruct (z <? 0); [eexists _, _; by split; [done|left]|].
  eexists _, _. split; [done|right]. destruct Hd as [Hd _]. simpl in Hd. by apply andb_true_iff in Hd as [-> _].
Qed.

Lemma scan_scalar h fuel v rest :
  scalar_ok h v -> delimited rest -> scan_value (S fuel) h (json_dumps v ++ rest) = Some (v, rest).
Proof.
  intros Hv Hr. destruct v as [|[]|z|raw|s|items|ms]; try done.
  - pose proof (scan_number_text h z rest Hv Hr) as Hs. simpl json_dumps in *.
    destruct (int_head z rest) as (c & t & Heq & Hc). rewrite Heq in *. cbn [scan_value].
    assert (c <> 34 /\ c <> 123 /\ c <> 91 /\ c <> 110 /\ c <> 116 /\ c <> 102)%N as Hn.
    { destruct Hc as [->|Hc]; [done|]. unfold is_decimal, char_between in Hc.
      rewrite andb_true_iff, !N.leb_le in Hc. lia. }
    destruct Hn as (H1 & H2 & H3 & H4 & H5 & H6).
    by rewrite !(proj2 (N.eqb_neq c _)) by done.
  - simpl json_dumps. rewrite plain_json_string by done. rewrite <- !app_assoc. cbn [app scan_value].
    change (34 =? 34)%N with true. cbn iota. rewrite scan_plain by done. done.
Qed.

Definition member_text (m : str * json) : str := json_string m.1 ++ [58%N] ++ json_dumps m.2.

Lemma scan_members_text h fuel ms rest :
  ms <> [] -> Forall (fun m => plain m.1 = true /\ scalar_ok h m.2) ms -> (length ms < fuel)%nat ->
  scan_members fuel h (json_join (map member_text ms) ++ 125%N :: rest) = Some (ms, rest).
Proof.
  revert fuel. induction ms as [|[k v] ms IH]; intros fuel Hne Hms Hf; [done|]. clear Hne.
  inversion Hms as [|? ? [Hk Hv] Hms']; subst. simpl in Hk, Hv.
  destruct fuel as [|[|fuel]]; [simpl in Hf; lia..|].
  assert (forall tail, delimited tail ->
    scan_members (S (S fuel)) h (member_text (k, v) ++ tail) =
    match tail with
    | e :: r3 => if (e =? 125)%N then Some ([(k, v)], r3)
      else if (e =? 44)%N then
        match scan_members (S fuel) h (skip_space r3) with Some (more, r4) => Some ((k, v) :: more, r4) | None => None end
      else None
    | [] => None
    end) as Hstep.
  { intros tail Ht. unfold member_text. simpl fst. simpl snd. rewrite plain_json_string by done.
    rewrite <- !app_assoc. cbn [app]. 
    change (scan_members (S (S fuel)) h (34%N :: k ++ 34%N :: 58%N :: json_dumps v ++ tail)) with
      (match scan_string (k ++ 34%N :: 58%N :: json_dumps v ++ tail) with
       | None => None
       | Some (k', r) =>
         match skip_space r with
         | d :: r1 =>
           if (d =? 58)%N then
             match scan_value (S fuel) h (skip_space r1) with
             | None => None
             | Some (v', r2) =>
               match skip_space r2 with
               | e :: r3 =>
                 if (e =? 125)%N then Some ([(k', v')], r3)
                 else if (e =? 44)%N then
                   match scan_members (S fuel) h (skip_space r3) with
                   | Some (more, r4) => Some ((k', v') :: more, r4) | None => None end
                 else None
               | [] => None
               end
             end
           else None
         | [] => None
         end
       end).
    rewrite scan_plain by done. cbn [skip_space]. change (is_json_space 58) with false. cbn iota.
    change (58 =? 58)%N with true. cbn iota.
    rewrite (skip_space_scalar h), scan_scalar, skip_space_delimited by done. done. }
  destruct ms as [|m ms].
  - simpl json_join. rewrite Hstep by (right; by left). done.
  - change (json_join (map member_text ((k, v) :: m :: ms))) with
      (member_text (k, v) ++ [44%N] ++ json_join (map member_text (m :: ms))).
    rewrite <- !app_assoc. rewrite Hstep by (by left). cbn [app].
    change (44 =? 125)%N with false. change (44 =? 44)%N with true. cbn iota.
    assert (skip_space (json_join (map member_text (m :: ms)) ++ 125%N :: rest) =
      json_join (map member_text (m :: ms)) ++ 125%N :: rest) as ->.
    { destruct ms; simpl; unfold member_text, json_string; simpl; done. }
    rewrite IH by (done || simpl in *; lia). done.
Qed.

(** Members in increasing key order are printed in that order. *)
Lemma dumps_sorted_members ms :
  StronglySorted (fun x y => cmp_le x.1 y.1) ms ->
  json_dumps (JObject ms) = [123%N] ++ json_join (map member_text ms) ++ [125%N].
Proof.
  intros Hs. cbn [json_dumps]. do 2 f_equal. f_equal. f_equal.
  rewrite py_sorted_id; [by rewrite map_map|].
  induction Hs as [|m ms _ IH Hf]; simpl; constructor; [done|].
  apply List.Forall_map. eapply List.Forall_impl; [|exact Hf]. done.
Qed.

Lemma join_length {A} (f : A -> str) l : (forall x, f x <> []) -> (length l <= length (json_join (map f l)))%nat.
Proof.
  intros Hf. induction l as [|x l IH]; [done|]. destruct l as [|y l].
  - simpl. specialize (Hf x). destruct (f x); [done|simpl; lia].
  - change (json_join (map f (x :: y :: l))) with (f x ++ [44%N] ++ json_join (map f (y :: l))).
    rewrite !length_app. simpl length at 1. simpl length at 3. simpl in IH |- *. lia.
Qed.

(** Distinct keys pass both ways of building an object. *)
Lemma unique_pairs_ok ms : NoDup (map fst ms) -> unique_pairs ms = Some (JObject ms).
Proof. intros H. unfold unique_pairs. by rewrite bool_decide_true. Qed.

Lemma dict_set_new k v ms : k ∉ map fst ms -> dict_set k v ms = ms ++ [(k, v)].
Proof.
  induction ms as [|[k' v'] ms IH]; [done|]. cbn [map fst]. rewrite not_elem_of_cons. intros [Hk Hms]. simpl.
  rewrite bool_decide_eq_false_2 by congruence. by rewrite IH.
Qed.

Lemma dict_pairs_ok ms : NoDup (map fst ms) -> dict_pairs ms = Some (JObject ms).
Proof.
  intros H. unfold dict_pairs. do 2 f_equal.
  enough (forall acc, NoDup (map fst (acc ++ ms)) ->
    fold_left (fun members m => dict_set m.1 m.2 members) ms acc = acc ++ ms) as Hall by exact (Hall [] H).
  clear H. induction ms as [|[k v] ms IH]; intros acc Hnd; simpl; [by rewrite app_nil_r|].
  assert (acc ++ (k, v) :: ms = (acc ++ [(k, v)]) ++ ms) as Heq by (by rewrite <- app_assoc).
  rewrite dict_set_new.
  - rewrite Heq. apply IH. by rewrite <- Heq.
  - rewrite map_app in Hnd. apply list.NoDup_app in Hnd as (_ & Hnd & _). intros Hk. apply (Hnd k Hk). left.
Qed.

(** The canonical text of a flat object parses back to its members. *)
Lemma flat_roundtrip h ms :
  ms <> [] -> Forall (fun m => plain m.1 = true /\ scalar_ok h m.2) ms ->
  StronglySorted (fun x y => cmp_le x.1 y.1) ms -> object_pairs h ms = Some (JObject ms) ->
  json_loads h (json_dumps (JObject ms)) = Some (JObject ms).
Proof.
  intros Hne Hms Hs Hnd. rewrite dumps_sorted_members by done. unfold json_loads. cbn [app].
  set (body := json_join (map member_text ms) ++ [125%N]).
  change (skip_space (123%N :: body)) with (123%N :: body).
  assert (skip_space body = body) as Hsp.
  { unfold body. destruct ms as [|m [|]]; [done|..]; simpl; unfold member_text, json_string; done. }
  assert (exists c t, body = c :: t /\ (c =? 125)%N = false) as (c & t & Hb & Hc).
  { unfold body. destruct ms as [|m [|]]; [done|..]; simpl; unfold member_text, json_string; simpl; by eexists _, _. }
  assert (scan_members (S (length body)) h body = Some (ms, [])) as Hsm.
  { apply scan_members_text; [done|done|]. unfold body. rewrite length_app.
    pose proof (join_length member_text ms ltac:(intros []; done)). lia. }
  cbn [scan_value length]. change (123 =? 34)%N with false. change (123 =? 123)%N with true. cbn iota.
  rewrite Hsp. clearbody body. subst body. by rewrite Hc, Hsm, Hnd.
Qed.

(** ** Arrays of strings *)

Lemma scan_plain_value h fuel s tail :
  plain s = true -> scan_value (S fuel) h (json_string s ++ tail) = Some (JString s, tail).
Proof.
  intros Hs. rewrite plain_json_string by done. rewrite <- !app_assoc. cbn [app scan_value].
  change (34 =? 34)%N with true. cbn iota. by rewrite scan_plain.
Qed.

Lemma scan_items_text h fuel names rest :
  names <> [] -> Forall (fun s => plain s = true) names -> (length names < fuel)%nat ->
  scan_items fuel h (json_join (map json_string names) ++ 93%N :: rest) = Some (map JString names, rest).
Proof.
  revert fuel. induction names as [|s names IH]; intros fuel Hne Hp Hf; [done|]. clear Hne.
  inversion Hp as [|? ? Hs Hp']; subst. destruct fuel as [|[|fuel]]; [simpl in Hf; lia..|].
  assert (forall tail, scan_items (S (S fuel)) h (json_string s ++ tail) =
    match skip_space tail with
    | e :: r1 => if (e =? 93)%N then Some ([JString s], r1)
      else if (e =? 44)%N then
        match scan_items (S fuel) h (skip_space r1) with Some (more, r2) => Some (JString s :: more, r2) | None => None end
      else None
    | [] => None
    end) as Hstep.
  { intros tail. change (scan_items (S (S fuel)) h (json_string s ++ tail)) with
      (match scan_value (S fuel) h (json_string s ++ tail) with
       | None => None
       | Some (v, r) =>
         match skip_space r with
         | e :: r1 =>
           if (e =? 93)%N then Some ([v], r1)
           else if (e =? 44)%N then
             match scan_items (S fuel) h (skip_space r1) with Some (more, r2) => Some (v :: more, r2) | None => None end
           else None
         | [] => None
         end
       end). by rewrite scan_plain_value. }
  destruct names as [|s' names].
  - simpl json_join. rewrite Hstep. done.
  - change (json_join (map json_string (s :: s' :: names))) with
      (json_string s ++ [44%N] ++ json_join (map json_string (s' :: names))).
    rewrite <- !app_assoc. rewrite Hstep. cbn [app skip_space].
    change (is_json_space 44) with false. cbn iota. change (44 =? 93)%N with false. change (44 =? 44)%N with true. cbn iota.
    assert (skip_space (json_join (map json_string (s' :: names)) ++ 93%N :: rest) =
      json_join (map json_string (s' :: names)) ++ 93%N :: rest) as ->.
    { destruct names; simpl; unfold json_string; simpl; done. }
    rewrite IH by (done || simpl in *; lia). done.
Qed.

(** The canonical text of a list of plain strings parses back to it. *)
Lemma array_roundtrip h names :
  Forall (fun s => plain s = true) names -> json_loads h (json_array names) = Some (JArray (map JString names)).
Proof.
  intros Hp. unfold json_array, json_loads. cbn [app]. destruct names as [|s names]; [reflexivity|].
  set (body := json_join (map json_string (s :: names)) ++ [93%N]).
  change (skip_space (91%N :: body)) with (91%N :: body).
  assert (exists t, body = 34%N :: t) as [t Hb] by (unfold body; destruct names; simpl; unfold json_string; simpl; by eexists).
  assert (scan_items (S (length body)) h body = Some (map JString (s :: names), [])) as Hsm.
  { apply scan_items_text; [done|done|]. unfold body. rewrite length_app.
    pose proof (join_length json_string (s :: names) ltac:(intros; done)). lia. }
  cbn [scan_value length]. change (91 =? 34)%N with false. change (91 =? 123)%N with false.
  change (91 =? 91)%N with true. cbn iota. clearbody body. subst body.
  change (skip_space (34%N :: t)) with (34%N :: t). cbn iota. change (34 =? 93)%N with false. cbn iota.
  rewrite Hsm. done.
Qed.

(** * The decimal text of an integer

    How long it is, and that it determines the integer. *)

Lemma zlen_app {A} (l k : list A) : zlen (l ++ k) = zlen l + zlen k.
Proof. unfold zlen. rewrite length_app. lia. Qed.

Lemma zlen_cons {A} (x : A) l : zlen (x :: l) = 1 + zlen l.
Proof. unfold zlen. cbn [length]. lia. Qed.

Lemma zlen_map {A B} (f : A -> B) l : zlen (map f l) = zlen l.
Proof. unfold zlen. by rewrite length_map. Qed.

Lemma zlen_nonneg {A} (l : list A) : 0 <= zlen l.
Proof. unfold zlen. lia. Qed.

Lemma str_of_int_inj a b : str_of_int a = str_of_int b -> a = b.
Proof. intros H. rewrite <- (int_of_text a), H. apply int_of_text. Qed.

Lemma length_decimal d : canonical_digits d -> 10 ^ (zlen d - 1) <= decimal_value d.
Proof.
  intros [Hd Hh]. destruct d as [|c d]; [done|]. cbn [forallb] in Hd. apply andb_true_iff in Hd as [Hc Hd].
  assert (forall acc, 0 <= acc -> acc * 10 ^ zlen d <= fold_left (fun acc c => acc * 10 + (Z.of_N c - 48)) d acc) as Hgo.
  { clear Hh Hc. induction d as [|e d IH]; intros acc Hacc; [unfold zlen; simpl; lia|]. cbn [forallb] in Hd.
    apply andb_true_iff in Hd as [He Hd]. cbn [fold_left]. unfold is_decimal, char_between in He.
    apply andb_true_iff in He as [He1%N.leb_le He2%N.leb_le]. specialize (IH Hd (acc * 10 + (Z.of_N e - 48))).
    unfold zlen in *. cbn [length]. rewrite Nat2Z.inj_succ, Z.pow_succ_r by lia.
    assert (0 < 10 ^ Z.of_nat (length d)) by (apply Z.pow_pos_nonneg; lia). nia. }
  unfold decimal_value. cbn [fold_left]. unfold is_decimal, char_between in Hc.
  apply andb_true_iff in Hc as [Hc1%N.leb_le Hc2%N.leb_le]. specialize (Hgo (0 * 10 + (Z.of_N c - 48))).
  replace (zlen (c :: d) - 1) with (zlen d) by (unfold zlen; cbn [length]; lia).
  assert (0 < 10 ^ zlen d) by (apply Z.pow_pos_nonneg; unfold zlen; lia). nia.
Qed.

(** The text of an integer of [digits] digits at most. *)
Lemma decimal_length digits z d :
  0 <= digits -> canonical_digits d -> decimal_value d = Z.abs z -> Z.abs z < 10 ^ digits -> zlen d <= digits.
Proof.
  intros Hn Hd Hv Hz. pose proof (length_decimal d Hd) as Hl. rewrite Hv in Hl.
  destruct (Z.le_gt_cases (zlen d) digits) as [|Hgt]; [done|]. exfalso.
  assert (10 ^ digits <= 10 ^ (zlen d - 1)) by (apply Z.pow_le_mono_r; lia). lia.
Qed.

Lemma int_text_length digits z : 1 <= digits -> Z.abs z < 10 ^ digits -> zlen (str_of_int z) <= digits + 1.
Proof.
  intros Hn Hz. destruct (str_of_int_cases z) as [[-> ->]|(d & Hd & Hv & ->)]; [unfold zlen; simpl; lia|].
  pose proof (decimal_length digits z d ltac:(lia) Hd Hv Hz) as Hl. unfold zlen in *. destruct (z <? 0); cbn [length]; lia.
Qed.
