(* ===== verification/Retries.v ===== *)
(** * Retry policy

    [scheduler/retries.py]: the evaluation of a delivery's conditional attempt templates against a
    classified predecessor, the identities of a retry, its jittered delay and the condition bytes
    that the journal later checks when the retry is claimed. *)

From S2P Require Import Prelude Sha256 Text Generator Identifiers Domain Commands Json Store Journal JsonFlat.

Local Open Scope Z_scope.

Definition JITTER_POLICY_VERSION : str := u "retry-jitter-v1".
Definition MAX_ATTEMPTS : Z := 32.

Inductive RetryPredicate := Predicate_TIMED_OUT | Predicate_CONNECTION_FAILED | Predicate_RETRYABLE_STATUS.
#[global] Instance RetryPredicate_eq_dec : EqDecision RetryPredicate.
Proof. solve_decision. Defined.
Definition RetryPredicate_value (p : RetryPredicate) : str :=
  match p with
  | Predicate_TIMED_OUT => u "timed_out"
  | Predicate_CONNECTION_FAILED => u "connection_failed"
  | Predicate_RETRYABLE_STATUS => u "retryable_status"
  end.

Inductive RetryDisposition := Retry_SCHEDULED | Retry_INELIGIBLE | Retry_EXHAUSTED | Retry_AMBIGUOUS_BLOCKED.
#[global] Instance RetryDisposition_eq_dec : EqDecision RetryDisposition.
Proof. solve_decision. Defined.
Definition RetryDisposition_value (d : RetryDisposition) : str :=
  match d with
  | Retry_SCHEDULED => u "scheduled"
  | Retry_INELIGIBLE => u "ineligible"
  | Retry_EXHAUSTED => u "exhausted"
  | Retry_AMBIGUOUS_BLOCKED => u "ambiguous_blocked"
  end.

(** ** The manifest's plan ([manifest/models.py]) *)

Record AttemptTemplate := {
  tp_ordinal : Z;
  tp_not_before_logical_ns : Z;
  tp_request_blob : str;
  tp_headers_sha256 : str;
  tp_conditional_on : option str
}.
Record DeliveryPlan := {
  dp_delivery_id : str;
  dp_event_id : str;
  dp_logical_time_ns : Z;
  dp_ordinal : Z;
  dp_concurrency_group : option str;
  dp_attempt_plan : list AttemptTemplate
}.

(** ** Bounded integers *)

Definition _ordinal (value : Z) : result Z :=
  raise_if negb (within 1 MAX_SAFE_INTEGER value) with RetryPolicyError ;; Ok value.
Definition _logical_time (value : Z) : result Z :=
  raise_if negb (within (- MAX_SAFE_INTEGER) MAX_SAFE_INTEGER value) with RetryPolicyError ;; Ok value.
Definition _nonnegative_int64 (value : Z) : result Z :=
  raise_if negb (within 0 (2 ^ 63 - 1) value) with RetryPolicyError ;; Ok value.

(** ** Predecessors *)

Record ClassifiedPredecessor := {
  pr_attempt_id : str;
  pr_attempt_ordinal : Z;
  pr_classification : AttemptClassification;
  pr_predicate : option RetryPredicate;
  pr_logical_time_ns : Z;
  pr_status_code : option Z
}.

Definition _validate_relationships (p : ClassifiedPredecessor) : result unit :=
  if bool_decide (pr_classification p = Class_AMBIGUOUS) then
    raise_if negb (is_none (pr_predicate p)) || negb (is_none (pr_status_code p)) with RetryPolicyError ;; Ok tt
  else if bool_decide (pr_predicate p = Some Predicate_RETRYABLE_STATUS) then
    raise_if negb (bool_decide (pr_classification p = Class_RECEIVER_REJECTED)) || is_none (pr_status_code p)
      with RetryPolicyError ;; Ok tt
  else
    raise_if negb (is_none (pr_status_code p)) with RetryPolicyError ;;
    if bool_decide (pr_predicate p = Some Predicate_TIMED_OUT)
       || bool_decide (pr_predicate p = Some Predicate_CONNECTION_FAILED) then
      raise_if negb (bool_decide (pr_classification p = Class_ENVIRONMENT_FAILURE)) with RetryPolicyError ;; Ok tt
    else if is_none (pr_predicate p) && bool_decide (pr_classification p = Class_ENVIRONMENT_FAILURE) then Ok tt
    else
      raise_if negb (is_none (pr_predicate p)) with RetryPolicyError ;; Ok tt.

(** [ClassifiedPredecessor.__post_init__] *)
Definition validate_predecessor_fact (p : ClassifiedPredecessor) : result ClassifiedPredecessor :=
  let! _ := validate_fresh_id (pr_attempt_id p) (Some Fresh_ATTEMPT) in
  let! _ := _ordinal (pr_attempt_ordinal p) in
  let! _ := _logical_time (pr_logical_time_ns p) in
  raise_if match pr_status_code p with Some s => negb (within 100 599 s) | None => false end
    with RetryPolicyError ;;
  let! _ := _validate_relationships p in
  Ok p.

Record RetryDecision := {
  rd_disposition : RetryDisposition;
  rd_predecessor_attempt_id : str;
  rd_predecessor_attempt_ordinal : Z;
  rd_next_attempt_ordinal : option Z;
  rd_attempt_plan_id : option str;
  rd_schedule_entry_id : option str;
  rd_schedule_idempotency_key : option str;
  rd_logical_due_ns : option Z;
  rd_predicate : option RetryPredicate;
  rd_condition_json : bytes;
  rd_template : option AttemptTemplate
}.

Definition should_schedule (d : RetryDecision) : bool := bool_decide (rd_disposition d = Retry_SCHEDULED).

(** ** Jitter *)

Definition derive_signed_jitter_ns (fuel : nat) (g : ContextGenerator)
    (scenario_id planned_delivery_id : str) (attempt_ordinal magnitude_bound_ns : Z) (version : str)
    : option (result Z) :=
  match _ordinal attempt_ordinal with
  | Raise e => Some (Raise e)
  | Ok ordinal => signed_retry_jitter fuel g scenario_id planned_delivery_id ordinal version magnitude_bound_ns
  end.

Definition derive_retry_delay_ns (fuel : nat) (g : ContextGenerator)
    (scenario_id planned_delivery_id : str) (attempt_ordinal base_delay_ns magnitude_bound_ns : Z) (version : str)
    : option (result (Z * Z)) :=
  match _nonnegative_int64 base_delay_ns with
  | Raise e => Some (Raise e)
  | Ok base =>
    match derive_signed_jitter_ns fuel g scenario_id planned_delivery_id attempt_ordinal magnitude_bound_ns version with
    | None => None
    | Some (Raise e) => Some (Raise e)
    | Some (Ok jitter) =>
      let delay := Z.max 0 (base + jitter) in
      Some (raise_if (MAX_SAFE_INTEGER <? delay) with OverflowError ;; Ok (delay, jitter))
    end
  end.

(** ** Templates *)

Definition predicate_of (piece : str) : result RetryPredicate :=
  match List.find (fun p => bool_decide (RetryPredicate_value p = piece))
          [Predicate_TIMED_OUT; Predicate_CONNECTION_FAILED; Predicate_RETRYABLE_STATUS] with
  | Some p => Ok p
  | None => Raise RetryPolicyError
  end.

Definition _template_predicates (t : AttemptTemplate) : result (list RetryPredicate) :=
  match tp_conditional_on t with
  | None => Raise RetryPolicyError
  | Some condition =>
    let pieces := split_on 124 condition in
    raise_if existsb (fun piece => bool_decide (piece = [])) pieces || negb (bool_decide (NoDup pieces))
      with RetryPolicyError ;;
    map_result predicate_of pieces
  end.

(** One iteration of the plan's check: the index and the previous template's time. *)
Definition plan_step (st : Z * option Z) (t : AttemptTemplate) : result (Z * option Z) :=
  let '(index, previous_time) := st in
  raise_if negb (tp_ordinal t =? index) with RetryPolicyError ;;
  let! time := _logical_time (tp_not_before_logical_ns t) in
  raise_if match previous_time with Some p => time <? p | None => false end with RetryPolicyError ;;
  raise_if (index =? 1) && negb (is_none (tp_conditional_on t)) with RetryPolicyError ;;
  let! _ := if 1 <? index then let! _ := _template_predicates t in Ok tt else Ok tt in
  Ok (index + 1, Some time).

Definition _validate_attempt_plan (d : DeliveryPlan) : result unit :=
  raise_if negb (within 1 MAX_ATTEMPTS (zlen (dp_attempt_plan d))) with RetryPolicyError ;;
  let! _ := for_each plan_step (1, None) (dp_attempt_plan d) in
  Ok tt.

(** ** Conditions *)

Definition json_option {A} (f : A -> json) (o : option A) : json := match o with Some a => f a | None => JNull end.

Definition condition_members (disposition : RetryDisposition) (p : ClassifiedPredecessor) (next_ordinal : option Z)
    (predicate : option RetryPredicate) (logical_due_ns : option Z) : list (str * json) :=
  [(u "classification", JString (AttemptClassification_value (pr_classification p)));
   (u "disposition", JString (RetryDisposition_value disposition));
   (u "logical_due_ns", json_option JInt logical_due_ns);
   (u "next_attempt_ordinal", json_option JInt next_ordinal);
   (u "predecessor_attempt_id", JString (pr_attempt_id p));
   (u "predecessor_attempt_ordinal", JInt (pr_attempt_ordinal p));
   (u "predicate", json_option (fun q => JString (RetryPredicate_value q)) predicate);
   (u "status_code", json_option JInt (pr_status_code p))].

(** [json.dumps(...).encode("ascii")]; with [ensure_ascii] the text is ASCII. *)
Definition _condition_bytes (disposition : RetryDisposition) (p : ClassifiedPredecessor) (next_ordinal : option Z)
    (predicate : option RetryPredicate) (logical_due_ns : option Z) : bytes :=
  ascii_bytes (json_dumps (JObject (condition_members disposition p next_ordinal predicate logical_due_ns))).

Definition _terminal_decision (disposition : RetryDisposition) (p : ClassifiedPredecessor) : RetryDecision :=
  {| rd_disposition := disposition; rd_predecessor_attempt_id := pr_attempt_id p;
     rd_predecessor_attempt_ordinal := pr_attempt_ordinal p; rd_next_attempt_ordinal := None;
     rd_attempt_plan_id := None; rd_schedule_entry_id := None; rd_schedule_idempotency_key := None;
     rd_logical_due_ns := None; rd_predicate := pr_predicate p;
     rd_condition_json := _condition_bytes disposition p None (pr_predicate p) None; rd_template := None |}.

(** ** Evaluation *)

(** The text the retry's identities are hashed from. *)
Definition identity_root (scenario_id delivery_id attempt_id : str) (next_ordinal : Z) : str :=
  scenario_id ++ [124%N] ++ delivery_id ++ [124%N] ++ attempt_id ++ [124%N] ++ str_of_int next_ordinal.

Definition hexdigest (text : str) : result str :=
  let! b := utf8_encode text in Ok (hex_of_bytes (sha256 b)).

Definition schedule_retry (d : DeliveryPlan) (p : ClassifiedPredecessor) (g : ContextGenerator) (scenario_id : str)
    (next_ordinal : Z) (template : AttemptTemplate) (predicate : RetryPredicate) : result RetryDecision :=
  let due := tp_not_before_logical_ns template in
  let! attempt_plan_id := planned_id g Planned_ATTEMPT_PLAN [scenario_id; dp_delivery_id d; str_of_int next_ordinal] in
  let root := identity_root scenario_id (dp_delivery_id d) (pr_attempt_id p) next_ordinal in
  let! entry := hexdigest root in
  let! key := hexdigest (u "idempotency|" ++ root) in
  Ok {| rd_disposition := Retry_SCHEDULED; rd_predecessor_attempt_id := pr_attempt_id p;
        rd_predecessor_attempt_ordinal := pr_attempt_ordinal p; rd_next_attempt_ordinal := Some next_ordinal;
        rd_attempt_plan_id := Some attempt_plan_id; rd_schedule_entry_id := Some (u "retry." ++ entry);
        rd_schedule_idempotency_key := Some (u "retry.schedule." ++ key); rd_logical_due_ns := Some due;
        rd_predicate := Some predicate;
        rd_condition_json := _condition_bytes Retry_SCHEDULED p (Some next_ordinal) (Some predicate) (Some due);
        rd_template := Some template |}.

Definition evaluate_retry (d : DeliveryPlan) (p : ClassifiedPredecessor) (g : ContextGenerator) (scenario_id : str)
    : result RetryDecision :=
  let! _ := validate_planned_id scenario_id (Some Planned_SCENARIO) in
  let! _ := _validate_attempt_plan d in
  let next_ordinal := pr_attempt_ordinal p + 1 in
  if (zlen (dp_attempt_plan d) <? next_ordinal) || (MAX_ATTEMPTS <? next_ordinal)
  then Ok (_terminal_decision Retry_EXHAUSTED p)
  else
    match dp_attempt_plan d !! Z.to_nat (next_ordinal - 1) with
    | None => Raise RuntimeError
    | Some template =>
      raise_if negb (tp_ordinal template =? next_ordinal) with RetryPolicyError ;;
      if bool_decide (pr_classification p = Class_AMBIGUOUS)
      then Ok (_terminal_decision Retry_AMBIGUOUS_BLOCKED p)
      else
        let! predicates := _template_predicates template in
        match pr_predicate p with
        | None => Ok (_terminal_decision Retry_INELIGIBLE p)
        | Some predicate =>
          if negb (bool_decide (predicate ∈ predicates)) then Ok (_terminal_decision Retry_INELIGIBLE p)
          else
            raise_if (tp_not_before_logical_ns template <? pr_logical_time_ns p) with RetryPolicyError ;;
            let! _ := _logical_time (tp_not_before_logical_ns template) in
            schedule_retry d p g scenario_id next_ordinal template predicate
        end
    end.

(** ** Identifiers are plain text *)

(** Printable, without quotes, backslashes and the separator of the identity text. *)
Definition id_char (c : N) : bool := plain_char c && negb (c =? 124)%N.

Lemma id_plain s : forallb id_char s = true -> plain s = true.
Proof.
  unfold plain. rewrite !forallb_forall. intros H c Hc. specialize (H c Hc). by apply andb_true_iff in H as [? _].
Qed.

Lemma crockford_id_char d : is_digit 5 d -> id_char (crockford_char d) = true.
Proof.
  intros Hd. assert (Forall (fun d => id_char (crockford_char d) = true) (seqZ 0 32)) as HF
    by (vm_compute; repeat constructor).
  rewrite list.Forall_forall in HF. apply HF, elem_of_seqZ. unfold is_digit in Hd. change (2 ^ 5) with 32 in Hd. lia.
Qed.

(** A predicate of the characters of kinds and payloads holds of every identifier. *)
Section id_chars.
Context (P : N -> bool) (HP : forall d, is_digit 5 d -> P (crockford_char d) = true) (Hsep : P 95%N = true).

Lemma decoded_chars t raw : decode_crockford_ulid t = Ok raw -> forallb P t = true /\ length t = 26%nat.
Proof.
  unfold decode_crockford_ulid. intros H. do 2 py_step H. apply negb_false_iff, Nat.eqb_eq in E.
  apply decode_loop_ok in E0 as (ds & <- & Hds & _). split; [|exact E].
  clear -Hds HP. induction Hds as [|d ds Hd _ IH]; [done|]. cbn [map forallb]. by rewrite HP, IH.
Qed.

Lemma parse_kinds_chars {K} (value_of : K -> str) kinds text r :
  (forall k, forallb P (value_of k) = true) -> parse_kinds value_of kinds text = Ok r ->
  forallb P text = true /\ exists k, length text = (length (value_of k) + 27)%nat.
Proof.
  intros Hv. induction kinds as [|k kinds IH]; cbn [parse_kinds]; [done|].
  destruct (strip_prefix _ text) as [payload|] eqn:Es; [|done].
  apply strip_prefix_some in Es as ->. intros H. py_step H. destruct (decoded_chars _ _ E) as [Hc Hl]. split.
  - rewrite !forallb_app, Hv, Hc. cbn [forallb]. unfold underscore. by rewrite Hsep.
  - exists k. rewrite !length_app, Hl. simpl. lia.
Qed.
End id_chars.

Lemma fresh_id_chars v k v' : validate_fresh_id v k = Ok v' -> forallb id_char v = true.
Proof.
  unfold validate_fresh_id, parse_fresh_id. intros H. py_step H. py_step E.
  eapply (parse_kinds_chars id_char crockford_id_char eq_refl); [|exact E]. intros []; vm_compute; reflexivity.
Qed.
Lemma planned_id_chars v k v' : validate_planned_id v k = Ok v' -> forallb id_char v = true.
Proof.
  unfold validate_planned_id, parse_planned_id. intros H. py_step H.
  eapply (parse_kinds_chars id_char crockford_id_char eq_refl); [|exact E]. intros []; vm_compute; reflexivity.
Qed.

(** ** Conditions and the journal *)

Definition is_ascii (c : N) : bool := (c <? 128)%N.

Lemma plain_ascii s : plain s = true -> forallb is_ascii s = true.
Proof.
  unfold plain. rewrite !forallb_forall. intros H c Hc. specialize (H c Hc). unfold plain_char in H.
  rewrite !andb_true_iff, !N.leb_le in H. apply N.ltb_lt. lia.
Qed.

Lemma scalar_ascii h v : scalar_ok h v -> forallb is_ascii (json_dumps v) = true.
Proof.
  destruct v as [|[]|z|raw|s|items|ms]; try done; intros Hv.
  - cbn [json_dumps]. destruct (str_of_int_cases z) as [[-> ->]|(d & [Hd _] & _ & ->)]; [done|].
    assert (forallb is_ascii d = true) as Ha.
    { rewrite forallb_forall in *. intros c Hc. specialize (Hd c Hc). unfold is_decimal, char_between in Hd.
      rewrite !andb_true_iff, !N.leb_le in Hd. apply N.ltb_lt. lia. }
    destruct (z <? 0); [cbn [forallb]; by rewrite Ha|done].
  - cbn [json_dumps scalar_ok] in *. rewrite plain_json_string by done. rewrite !forallb_app.
    rewrite (plain_ascii s Hv). reflexivity.
Qed.

Lemma join_ascii parts :
  Forall (fun p => forallb is_ascii p = true) parts -> forallb is_ascii (json_join parts) = true.
Proof.
  induction 1 as [|p parts Hp _ IH]; [done|]. destruct parts as [|q parts]; [done|].
  change (json_join (p :: q :: parts)) with (p ++ [44%N] ++ json_join (q :: parts)). by rewrite !forallb_app, Hp, IH.
Qed.

Lemma flat_ascii h ms :
  Forall (fun m => plain m.1 = true /\ scalar_ok h m.2) ms -> StronglySorted (fun x y => cmp_le x.1 y.1) ms ->
  forallb is_ascii (json_dumps (JObject ms)) = true.
Proof.
  intros Hms Hs. rewrite dumps_sorted_members by done. rewrite !forallb_app, join_ascii; [done|].
  apply List.Forall_map. eapply List.Forall_impl; [|exact Hms]. intros [k v] [Hk Hv]. unfold member_text. cbn [fst snd] in *.
  rewrite plain_json_string by done. rewrite !forallb_app.
  rewrite (plain_ascii k Hk), (scalar_ascii h v Hv). reflexivity.
Qed.

Lemma ascii_roundtrip s : forallb is_ascii s = true -> ascii_decode (ascii_bytes s) = Some s.
Proof.
  intros H. unfold ascii_decode, ascii_bytes.
  assert (forallb (within 0 127) (map Z.of_N s) = true) as ->.
  { rewrite forallb_forall in *. intros b (c & <- & Hc)%in_map_iff. apply H, N.ltb_lt in Hc. apply within_spec. lia. }
  rewrite map_map. f_equal. induction s as [|c s IH]; [done|]. cbn [map]. rewrite N2Z.id. f_equal. apply IH.
  simpl in H. by apply andb_true_iff in H as [_ ?].
Qed.

Lemma safe_int_scalar z : within (- MAX_SAFE_INTEGER) MAX_SAFE_INTEGER z = true -> scalar_ok retry_hooks (JInt z).
Proof. intros H. cbn [scalar_ok retry_hooks parse_int]. by rewrite int_of_text, H. Qed.

(** A flat condition in key order that names the predecessor and the next ordinal is accepted. *)
Lemma flat_condition_accepted ms predecessor next :
  Forall (fun m => plain m.1 = true /\ scalar_ok retry_hooks m.2) ms ->
  StronglySorted (fun x y => cmp_le x.1 y.1) ms -> NoDup (map fst ms) -> ms <> [] ->
  (64 <? json_depth (JObject ms)) || (10000 <? json_nodes (JObject ms)) = false ->
  json_get (u "predecessor_attempt_id") ms = Some (JString predecessor) ->
  json_get (u "next_attempt_ordinal") ms = Some (JInt next) ->
  _validate_retry_condition (ascii_bytes (json_dumps (JObject ms))) predecessor next = Ok tt.
Proof.
  intros Hsc Hso Hk Hne Hsize Hp Hn. unfold _validate_retry_condition.
  rewrite ascii_roundtrip by apply (flat_ascii retry_hooks _ Hsc Hso).
  rewrite (flat_roundtrip retry_hooks ms) by (done || by apply unique_pairs_ok). rewrite Hsize, Hp, Hn.
  cbn [json_is_text json_is_int]. rewrite Z.eqb_refl. rewrite !bool_decide_true by done. done.
Qed.

(** The members of a condition of a constructed predecessor are plain scalars in key order. *)
Section condition.
Context (disposition : RetryDisposition) (p : ClassifiedPredecessor).
Context (next : Z) (predicate : option RetryPredicate) (due : Z).
Context (Hp : validate_predecessor_fact p = Ok p).
Context (Hnext : within (- MAX_SAFE_INTEGER) MAX_SAFE_INTEGER next = true).
Context (Hdue : within (- MAX_SAFE_INTEGER) MAX_SAFE_INTEGER due = true).

Let ms := condition_members disposition p (Some next) predicate (Some due).

Lemma condition_scalars : Forall (fun m => plain m.1 = true /\ scalar_ok retry_hooks m.2) ms.
Proof.
  pose proof Hp as H. unfold validate_predecessor_fact in H. do 4 py_step H. apply fresh_id_chars, id_plain in E.
  assert (within (- MAX_SAFE_INTEGER) MAX_SAFE_INTEGER (pr_attempt_ordinal p) = true) as Ho.
  { unfold _ordinal in E0. py_step E0. apply negb_false_iff in E3. apply within_spec in E3. apply within_spec. lia. }
  repeat (apply List.Forall_cons; [split; [vm_compute; reflexivity|]|]); [..|apply List.Forall_nil]; cbn [snd].
  - destruct (pr_classification p); vm_compute; reflexivity.
  - destruct disposition; vm_compute; reflexivity.
  - by apply safe_int_scalar.
  - by apply safe_int_scalar.
  - exact E.
  - by apply safe_int_scalar.
  - destruct predicate as [[]|]; vm_compute; done.
  - destruct (pr_status_code p) as [s|]; [|exact I]. apply safe_int_scalar. apply negb_false_iff, within_spec in E2.
    apply within_spec. unfold MAX_SAFE_INTEGER. lia.
Qed.

Lemma condition_sorted : StronglySorted (fun x y => cmp_le x.1 y.1) ms.
Proof. repeat constructor; vm_compute; discriminate. Qed.

Lemma condition_keys : NoDup (map fst ms).
Proof. apply (bool_decide_eq_true_1 _). vm_compute. reflexivity. Qed.

(** What the scheduler writes the journal's claim accepts. *)
Lemma condition_accepted :
  _validate_retry_condition (_condition_bytes disposition p (Some next) predicate (Some due)) (pr_attempt_id p) next = Ok tt.
Proof.
  unfold _condition_bytes. fold ms.
  apply flat_condition_accepted; [apply condition_scalars|apply condition_sorted|apply condition_keys|done| |reflexivity..].
  unfold ms, condition_members. destruct predicate, (pr_status_code p); vm_compute; reflexivity.
Qed.
End condition.

(** ** The decision *)

Lemma evaluate_parts d p g sc dec :
  evaluate_retry d p g sc = Ok dec ->
  validate_planned_id sc (Some Planned_SCENARIO) = Ok sc /\ _validate_attempt_plan d = Ok tt /\
  (zlen (dp_attempt_plan d) < pr_attempt_ordinal p + 1 /\ dec = _terminal_decision Retry_EXHAUSTED p \/
   pr_attempt_ordinal p + 1 <= zlen (dp_attempt_plan d) /\
   exists t, dp_attempt_plan d !! Z.to_nat (pr_attempt_ordinal p) = Some t /\ tp_ordinal t = pr_attempt_ordinal p + 1 /\
     (pr_classification p = Class_AMBIGUOUS /\ dec = _terminal_decision Retry_AMBIGUOUS_BLOCKED p \/
      pr_classification p <> Class_AMBIGUOUS /\ exists predicates, _template_predicates t = Ok predicates /\
        ((forall q, pr_predicate p = Some q -> q ∉ predicates) /\ dec = _terminal_decision Retry_INELIGIBLE p \/
         exists q, pr_predicate p = Some q /\ q ∈ predicates /\
           pr_logical_time_ns p <= tp_not_before_logical_ns t /\
           within (- MAX_SAFE_INTEGER) MAX_SAFE_INTEGER (tp_not_before_logical_ns t) = true /\
           schedule_retry d p g sc (pr_attempt_ordinal p + 1) t q = Ok dec))).
Proof.
  unfold evaluate_retry. intros H. do 2 py_step H. destruct a0.
  assert (a = sc) as -> by (unfold validate_planned_id in E; do 2 py_step E; by injection E).
  split; [done|]. split; [done|].
  assert (zlen (dp_attempt_plan d) <= MAX_ATTEMPTS) as Hmax.
  { unfold _validate_attempt_plan in E0. py_step E0. apply negb_false_iff, within_spec in E1. lia. }
  destruct (_ || _) eqn:Eex; cbv iota in H.
  - left. injection H as <-. split; [|done]. apply orb_true_iff in Eex as [?%Z.ltb_lt|?%Z.ltb_lt]; lia.
  - right. apply orb_false_iff in Eex as [Hn%Z.ltb_ge _]. split; [done|].
    replace (pr_attempt_ordinal p + 1 - 1) with (pr_attempt_ordinal p) in H by lia.
    destruct (dp_attempt_plan d !! _) as [t|]; [|done]. exists t. split; [done|].
    py_step H. apply negb_false_iff, Z.eqb_eq in E1. split; [done|].
    case_bool_decide as Ha; [left; by injection H as <-|right]. split; [done|]. py_step H. exists a. split; [done|].
    destruct (pr_predicate p) as [q|]; [|left; by injection H as <-].
    case_bool_decide as Hq; cbn [negb] in H; [right|left; injection H as <-; split; [|done]; by intros ? [= <-]].
    exists q. py_step H. apply Z.ltb_ge in E3. py_step H. unfold _logical_time in E4. py_step E4.
    apply negb_false_iff in E5. split_and!; [done..|lia|done|done].
Qed.

Lemma schedule_retry_fields d p g sc n t q dec :
  schedule_retry d p g sc n t q = Ok dec ->
  rd_disposition dec = Retry_SCHEDULED /\ rd_next_attempt_ordinal dec = Some n /\
  rd_predecessor_attempt_id dec = pr_attempt_id p /\
  rd_logical_due_ns dec = Some (tp_not_before_logical_ns t) /\ rd_template dec = Some t /\
  rd_condition_json dec = _condition_bytes Retry_SCHEDULED p (Some n) (Some q) (Some (tp_not_before_logical_ns t)).
Proof. unfold schedule_retry. intros H. do 3 py_step H. by injection H as <-. Qed.

(** C35: The retry decision is exactly the plan's: a predecessor past the plan is exhausted, an
    ambiguous one is blocked and never retried, and otherwise a retry is scheduled precisely when
    the predecessor's predicate is one the next template names; a scheduled retry takes the next
    ordinal, which stays within the plan and the limit of 32, and the template's own time, which
    is not before the predecessor's. *)
Theorem retry_decision_spec d p g sc dec :
  validate_predecessor_fact p = Ok p -> evaluate_retry d p g sc = Ok dec ->
  let next := pr_attempt_ordinal p + 1 in
  (rd_disposition dec = Retry_EXHAUSTED <-> zlen (dp_attempt_plan d) < next) /\
  (rd_disposition dec = Retry_AMBIGUOUS_BLOCKED <->
     next <= zlen (dp_attempt_plan d) /\ pr_classification p = Class_AMBIGUOUS) /\
  (rd_disposition dec = Retry_SCHEDULED <->
     exists t predicates q, dp_attempt_plan d !! Z.to_nat (pr_attempt_ordinal p) = Some t /\
       pr_classification p <> Class_AMBIGUOUS /\ _template_predicates t = Ok predicates /\
       pr_predicate p = Some q /\ q ∈ predicates) /\
  (rd_disposition dec = Retry_SCHEDULED ->
     exists t, rd_template dec = Some t /\ dp_attempt_plan d !! Z.to_nat (pr_attempt_ordinal p) = Some t /\
       rd_next_attempt_ordinal dec = Some next /\ 2 <= next <= MAX_ATTEMPTS /\
       rd_logical_due_ns dec = Some (tp_not_before_logical_ns t) /\
       pr_logical_time_ns p <= tp_not_before_logical_ns t).
Proof.
  intros Hp H. simpl.
  assert (1 <= pr_attempt_ordinal p) as Hone.
  { unfold validate_predecessor_fact, _ordinal in Hp. do 2 py_step Hp. py_step E0.
    apply negb_false_iff, within_spec in E1. lia. }
  pose proof (evaluate_parts _ _ _ _ _ H) as (_ & Hplan & Hcases).
  assert (zlen (dp_attempt_plan d) <= MAX_ATTEMPTS) as Hmax.
  { unfold _validate_attempt_plan in Hplan. py_step Hplan. apply negb_false_iff, within_spec in E. lia. }
  destruct Hcases as [[Hlt ->]|(Hle & t & Ht & _ & Hcases)].
  - simpl. split_and!; [split; try done; lia|split; [done|lia]|split; [done|]|done].
    intros (t & ? & ? & Ht & _). apply lookup_lt_Some in Ht. unfold zlen in Hlt. lia.
  - rewrite Ht. destruct Hcases as [[Hamb ->]|(Hna & preds & Hpr & [[Hq ->]|(q & Hq & Hin & Htime & _ & Hs)])].
    + simpl. split_and!; [split; [done|lia]|done|split; [done|]|done]. by intros (? & ? & ? & _ & Hn & _).
    + simpl. split_and!; [split; [done|lia]|split; [done|by intros [_ ?]]| |done].
      * split; [done|]. intros (t' & preds' & q & [= <-] & _ & Hpr' & Hq' & Hin). rewrite Hpr in Hpr'.
        injection Hpr' as <-. by destruct (Hq q Hq').
    + apply schedule_retry_fields in Hs as (Hd & Hn & _ & Hdue & Htp & _). rewrite Hd. split_and!.
      * split; [done|lia].
      * split; [done|]. by intros [_ ?].
      * split; [|done]. intros _. exists t, preds, q. done.
      * intros _. exists t. split_and!; try done; lia.
Qed.

(** What the scheduler hands the journal the journal accepts: the condition bytes of every
    scheduled retry decode, as canonical JSON, to a condition that the schedule claim of that very
    predecessor and ordinal validates. *)
Theorem retry_condition_accepted d p g sc dec :
  validate_predecessor_fact p = Ok p -> evaluate_retry d p g sc = Ok dec ->
  rd_disposition dec = Retry_SCHEDULED ->
  exists next, rd_next_attempt_ordinal dec = Some next /\
    _validate_retry_condition (rd_condition_json dec) (rd_predecessor_attempt_id dec) next = Ok tt.
Proof.
  intros Hp H Hd. pose proof (evaluate_parts _ _ _ _ _ H) as (_ & Hplan & Hcases).
  destruct Hcases as [[_ ->]|(Hle & t & Ht & _ & [[_ ->]|(_ & preds & _ & [[_ ->]|(q & _ & _ & _ & Htime & Hs)])])];
    try discriminate Hd.
  apply schedule_retry_fields in Hs as (_ & Hn & Hid & _ & _ & Hc). exists (pr_attempt_ordinal p + 1).
  split; [done|]. rewrite Hc, Hid. apply condition_accepted; [done| |done].
  unfold validate_predecessor_fact, _ordinal in Hp. do 2 py_step Hp. py_step E0. apply negb_false_iff, within_spec in E1.
  unfold _validate_attempt_plan in Hplan. py_step Hplan. apply negb_false_iff, within_spec in E2.
  apply within_spec. unfold MAX_ATTEMPTS in E2. unfold MAX_SAFE_INTEGER in *. lia.
Qed.

(** ** Chains of retries *)

(** Each attempt of the chain is the retry its predecessor's decision scheduled. *)
Fixpoint retry_chain (d : DeliveryPlan) (g : ContextGenerator) (sc : str) (p : ClassifiedPredecessor)
    (rest : list ClassifiedPredecessor) : Prop :=
  match rest with
  | [] => True
  | q :: rest' =>
    validate_predecessor_fact p = Ok p /\
    (exists dec, evaluate_retry d p g sc = Ok dec /\ rd_disposition dec = Retry_SCHEDULED /\
       rd_next_attempt_ordinal dec = Some (pr_attempt_ordinal q)) /\
    retry_chain d g sc q rest'
  end.

Lemma scheduled_next d p g sc dec n :
  evaluate_retry d p g sc = Ok dec -> rd_disposition dec = Retry_SCHEDULED -> rd_next_attempt_ordinal dec = Some n ->
  n = pr_attempt_ordinal p + 1 /\ n <= zlen (dp_attempt_plan d) <= MAX_ATTEMPTS.
Proof.
  intros H Hd Hn. apply evaluate_parts in H as (_ & Hplan & Hcases).
  assert (zlen (dp_attempt_plan d) <= MAX_ATTEMPTS).
  { unfold _validate_attempt_plan in Hplan. py_step Hplan. apply negb_false_iff, within_spec in E. lia. }
  destruct Hcases as [[_ ->]|(Hle & t & _ & _ & [[_ ->]|(_ & preds & _ & [[_ ->]|(q & _ & _ & _ & _ & Hs)])])];
    try discriminate Hd.
  apply schedule_retry_fields in Hs as (_ & Hn' & _). rewrite Hn in Hn'. injection Hn' as ->. lia.
Qed.

(** Retrying terminates: along any chain of attempts in which each one is the retry the
    previous one's decision scheduled, the ordinals count up one by one and the chain is no longer
    than the delivery's plan, hence than 32 attempts. *)
Theorem retry_chain_bounded d g sc p rest :
  pr_attempt_ordinal p = 1 -> retry_chain d g sc p rest -> rest <> [] ->
  map pr_attempt_ordinal (p :: rest) = seqZ 1 (1 + zlen rest) /\
  1 + zlen rest <= zlen (dp_attempt_plan d) <= MAX_ATTEMPTS.
Proof.
  assert (forall rest p, retry_chain d g sc p rest -> rest <> [] ->
    map pr_attempt_ordinal (p :: rest) = seqZ (pr_attempt_ordinal p) (1 + zlen rest) /\
    pr_attempt_ordinal p + zlen rest <= zlen (dp_attempt_plan d) <= MAX_ATTEMPTS) as Hgen.
  { clear. intros rest. induction rest as [|q rest IH]; intros p Hc Hne; [done|].
    destruct Hc as (_ & (dec & He & Hd & Hn) & Hc). destruct (scheduled_next _ _ _ _ _ _ He Hd Hn) as [Hq Hb].
    assert (map pr_attempt_ordinal (q :: rest) = seqZ (pr_attempt_ordinal q) (1 + zlen rest) /\
      pr_attempt_ordinal q + zlen rest <= zlen (dp_attempt_plan d)) as [Hm Hl].
    { destruct rest as [|r rest].
      - split; [|unfold zlen in *; simpl; lia]. change (1 + zlen (@nil ClassifiedPredecessor)) with 1.
        rewrite seqZ_cons by lia. by rewrite seqZ_nil by lia.
      - destruct (IH q Hc) as [Hm [Hl _]]; [done|]. auto. }
    cbn [map] in *. rewrite Hm. unfold zlen in *. cbn [length].
    split; [|lia]. rewrite (seqZ_cons (pr_attempt_ordinal p)) by lia. f_equal. f_equal; lia. }
  intros H1 Hc Hne. destruct (Hgen rest p Hc Hne) as [Hm Hb]. rewrite H1 in *. split; [done|lia].
Qed.

(** The jittered delay of a retry is exact and bounded: it is the base plus the jitter, cut off
    at zero, the jitter lies within its bound on both sides, and the delay is a nonnegative safe
    integer no further than the bound from the base. *)
Theorem retry_delay_bounds fuel g sc del o base bound v delay jitter :
  derive_retry_delay_ns fuel g sc del o base bound v = Some (Ok (delay, jitter)) ->
  delay = Z.max 0 (base + jitter) /\ - bound <= jitter <= bound /\
  0 <= delay <= MAX_SAFE_INTEGER /\ Z.abs (delay - base) <= bound.
Proof.
  unfold derive_retry_delay_ns, derive_signed_jitter_ns, _nonnegative_int64. intros H.
  destruct (negb (within 0 _ base)) eqn:Eb; [done|]. apply negb_false_iff, within_spec in Eb.
  destruct (_ordinal o) as [o'|]; [|done].
  destruct (signed_retry_jitter _ _ _ _ _ _ _) as [[j|]|] eqn:Ej; try done. injection H as H. py_step H.
  injection H as <- <-. apply Z.ltb_ge in E.
  assert (- bound <= j <= bound) as Hj.
  { revert Ej. unfold signed_retry_jitter, _validate_nonempty_text.
    repeat (case_match; simplify_eq/=; try done). py_bool. intros Hv%bounded_int_in_range. lia. }
  split_and!; lia.
Qed.

(** ** Retry identities *)

Lemma app_separator (a b a' b' : str) :
  forallb id_char a = true -> forallb id_char a' = true ->
  a ++ 124%N :: b = a' ++ 124%N :: b' -> a = a' /\ b = b'.
Proof.
  revert a'; induction a as [|c a IH]; intros [|c' a'] Ha Ha' Heq; simpl in *.
  - by injection Heq.
  - injection Heq as <- _. change (id_char 124) with false in Ha'. discriminate Ha'.
  - injection Heq as -> _. change (id_char 124) with false in Ha. discriminate Ha.
  - injection Heq as <- Heq. apply andb_true_iff in Ha as [_ Ha], Ha' as [_ Ha'].
    destruct (IH _ Ha Ha' Heq) as [-> ->]. done.
Qed.

(** Every retry has its own identity: for valid identifiers, the text whose hashes name the
    schedule entry and its idempotency key determines the scenario, the delivery, the predecessor
    and the ordinal. *)
Theorem identity_root_injective sc sc' d d' a a' n n' k1 k2 k3 :
  validate_planned_id sc k1 = Ok sc -> validate_planned_id sc' k1 = Ok sc' ->
  validate_planned_id d k2 = Ok d -> validate_planned_id d' k2 = Ok d' ->
  validate_fresh_id a k3 = Ok a -> validate_fresh_id a' k3 = Ok a' ->
  identity_root sc d a n = identity_root sc' d' a' n' -> sc = sc' /\ d = d' /\ a = a' /\ n = n'.
Proof.
  intros H1%planned_id_chars H2%planned_id_chars H3%planned_id_chars H4%planned_id_chars
    H5%fresh_id_chars H6%fresh_id_chars. unfold identity_root. cbn [app].
  intros [-> H]%app_separator; [|done..]. apply app_separator in H as [-> H]; [|done..].
  apply app_separator in H as [-> H]; [|done..]. split_and!; try done.
  by rewrite <- (int_of_text n), H, int_of_text.
Qed.

(** ** A worked retry *)

Definition demo_payload_text : str := u "01ARZ3NDEKTSV4RRFFQ69G5FAV".
Definition demo_template (n t : Z) (condition : option str) : AttemptTemplate :=
  {| tp_ordinal := n; tp_not_before_logical_ns := t; tp_request_blob := []; tp_headers_sha256 := [];
     tp_conditional_on := condition |}.
Definition demo_plan3 : DeliveryPlan :=
  {| dp_delivery_id := u "delivery_" ++ demo_payload_text; dp_event_id := u "event_" ++ demo_payload_text;
     dp_logical_time_ns := 0; dp_ordinal := 0; dp_concurrency_group := None;
     dp_attempt_plan := [demo_template 1 0 None; demo_template 2 10 (Some (u "timed_out|retryable_status"));
                         demo_template 3 20 (Some (u "timed_out"))] |}.
Definition demo_predecessor (n : Z) : ClassifiedPredecessor :=
  {| pr_attempt_id := u "attempt_" ++ demo_payload_text; pr_attempt_ordinal := n;
     pr_classification := Class_ENVIRONMENT_FAILURE; pr_predicate := Some Predicate_TIMED_OUT;
     pr_logical_time_ns := 5; pr_status_code := None |}.
Definition demo_generator : ContextGenerator := {| normalized_seed_hash := repeat 7 32 |}.
Definition demo_retry_scenario : str := u "scenario_" ++ demo_payload_text.
Definition demo_decide (n : Z) : result RetryDecision :=
  evaluate_retry demo_plan3 (demo_predecessor n) demo_generator demo_retry_scenario.

Lemma demo_decisions :
  map (fun n => match demo_decide n with Ok d => Some (rd_disposition d, rd_next_attempt_ordinal d) | Raise _ => None end)
    [1; 2; 3] =
  [Some (Retry_SCHEDULED, Some 2); Some (Retry_SCHEDULED, Some 3); Some (Retry_EXHAUSTED, None)].
Proof. vm_compute. reflexivity. Qed.

Lemma retry_decision_spec_witness :
  exists dec, demo_decide 3 = Ok dec /\ (rd_disposition dec = Retry_EXHAUSTED <-> 3 < 3 + 1).
Proof.
  destruct (demo_decide 3) as [dec|] eqn:E; [|vm_compute in E; discriminate E]. exists dec. split; [reflexivity|].
  apply (retry_decision_spec demo_plan3 (demo_predecessor 3) demo_generator demo_retry_scenario dec);
    [vm_compute; reflexivity|exact E].
Defined.

Lemma retry_condition_accepted_witness :
  exists dec next, demo_decide 1 = Ok dec /\ rd_next_attempt_ordinal dec = Some next /\
    _validate_retry_condition (rd_condition_json dec) (rd_predecessor_attempt_id dec) next = Ok tt.
Proof.
  destruct (demo_decide 1) as [dec|] eqn:E; [|vm_compute in E; discriminate E].
  assert (match demo_decide 1 with Ok d => rd_disposition d | Raise _ => Retry_EXHAUSTED end = Retry_SCHEDULED) as Hd
    by (vm_compute; reflexivity).
  rewrite E in Hd.
  destruct (retry_condition_accepted demo_plan3 (demo_predecessor 1) demo_generator demo_retry_scenario dec)
    as (next & H1 & H2); [vm_compute; reflexivity|exact E|exact Hd|].
  exists dec, next. split; [reflexivity|]. split; [exact H1|exact H2].
Defined.

Lemma retry_chain_bounded_witness :
  map pr_attempt_ordinal [demo_predecessor 1; demo_predecessor 2; demo_predecessor 3] = seqZ 1 3 /\
  1 + 2 <= zlen (dp_attempt_plan demo_plan3) <= MAX_ATTEMPTS.
Proof.
  apply (retry_chain_bounded demo_plan3 demo_generator demo_retry_scenario (demo_predecessor 1)
    [demo_predecessor 2; demo_predecessor 3]); [reflexivity| |discriminate].
  split; [vm_compute; reflexivity|]. split.
  - eexists. split; [vm_compute; reflexivity|]. split; reflexivity.
  - split; [vm_compute; reflexivity|]. split; [|exact I].
    eexists. split; [vm_compute; reflexivity|]. split; reflexivity.
Defined.

Lemma retry_delay_bounds_witness :
  exists delay jitter, derive_retry_delay_ns 8 demo_generator (u "scenario_01") (u "delivery_02") 2 1000 400
    JITTER_POLICY_VERSION = Some (Ok (delay, jitter)) /\ Z.abs (delay - 1000) <= 400.
Proof.
  destruct (derive_retry_delay_ns 8 demo_generator (u "scenario_01") (u "delivery_02") 2 1000 400
    JITTER_POLICY_VERSION) as [[[delay jitter]|]|] eqn:E; [|vm_compute in E; discriminate E..].
  exists delay, jitter. split; [reflexivity|].
  apply (retry_delay_bounds 8 demo_generator (u "scenario_01") (u "delivery_02") 2 1000 400 JITTER_POLICY_VERSION
    delay jitter E).
Defined.

Lemma identity_root_injective_witness :
  identity_root demo_retry_scenario (dp_delivery_id demo_plan3) (pr_attempt_id (demo_predecessor 1)) 2 =
  identity_root demo_retry_scenario (dp_delivery_id demo_plan3) (pr_attempt_id (demo_predecessor 1)) 2 /\ 2 = 2.
Proof.
  split; [reflexivity|].
  apply (identity_root_injective demo_retry_scenario demo_retry_scenario (dp_delivery_id demo_plan3)
    (dp_delivery_id demo_plan3) (pr_attempt_id (demo_predecessor 1)) (pr_attempt_id (demo_predecessor 1)) 2 2
    (Some Planned_SCENARIO) (Some Planned_DELIVERY) (Some Fresh_ATTEMPT)); vm_compute; reflexivity.
Defined.
