(* ===== verification/Barriers.v ===== *)
(** * Bounded concurrency groups

    [scheduler/barriers.py]: the cohorts of a delivery batch, and the worker pool that releases
    each cohort through its barrier.  The pool is a step relation over every interleaving of its
    tasks; a worker's loop body is cut at the awaits of the code.  An exception of a callback
    cancels the task group and leaves no result, so the relation follows callbacks that return. *)

From S2P Require Import Prelude Commands.

Local Open Scope Z_scope.

Definition DEFAULT_DELIVERY_CONCURRENCY : Z := 10.
Definition HARD_DELIVERY_CONCURRENCY : Z := 50.
Definition MAX_GROUP_ITEMS : Z := 100000.
Definition MAX_ORDINAL : Z := 9007199254740991.

Definition _token (value : str) (maximum : Z) : result str :=
  raise_if negb (is_token value maximum) with BarrierInputError ;; Ok value.
Definition _monotonic (value : Z) : result Z :=
  raise_if (value <? 0) with BarrierInputError ;; Ok value.

Definition validate_concurrency (value : option Z) : result Z :=
  let realized := match value with None => DEFAULT_DELIVERY_CONCURRENCY | Some v => v end in
  raise_if negb (within 1 HARD_DELIVERY_CONCURRENCY realized) with BarrierInputError ;;
  Ok realized.

Section barriers.
Context {T R : Type}.

Record ConcurrencyWork := {
  cw_work_id : str;
  cw_group : str;
  cw_ordinal : Z;
  cw_payload : T
}.

(** [ConcurrencyWork.__post_init__] *)
Definition validate_work (w : ConcurrencyWork) : result ConcurrencyWork :=
  let! _ := _token (cw_work_id w) 96 in
  let! _ := _token (cw_group w) 128 in
  raise_if negb (within 0 MAX_ORDINAL (cw_ordinal w)) with BarrierInputError ;;
  Ok w.

Record ActualStartEvidence := {
  se_work_id : str;
  se_group : str;
  actual_monotonic_start_ns : Z
}.
(** [ActualStartEvidence.__post_init__] *)
Definition validate_start (s : ActualStartEvidence) : result ActualStartEvidence :=
  let! _ := _token (se_work_id s) 96 in
  let! _ := _token (se_group s) 128 in
  let! _ := _monotonic (actual_monotonic_start_ns s) in
  Ok s.

Record BarrierRelease := {
  br_group : str;
  released_monotonic_ns : Z;
  eligible_work_ids : list str
}.
(** [BarrierRelease.__post_init__] *)
Definition validate_release (r : BarrierRelease) : result BarrierRelease :=
  let! _ := _token (br_group r) 128 in
  let! _ := _monotonic (released_monotonic_ns r) in
  raise_if bool_decide (eligible_work_ids r = []) with BarrierInputError ;;
  let! _ := map_result (fun i => _token i 96) (eligible_work_ids r) in
  raise_if negb (bool_decide (NoDup (eligible_work_ids r))) with BarrierInputError ;;
  Ok r.

Record CompletedWork := {
  cp_work : ConcurrencyWork;
  cp_result : R;
  cp_start : ActualStartEvidence
}.

Record BarrierRun := {
  run_completed : list CompletedWork;
  run_releases : list BarrierRelease;
  configured_concurrency : Z;
  peak_created_tasks : Z
}.
(** [BarrierRun.__post_init__] *)
Definition validate_run (r : BarrierRun) : result BarrierRun :=
  let! _ := validate_concurrency (Some (configured_concurrency r)) in
  raise_if negb (within 0 (configured_concurrency r) (peak_created_tasks r)) with ValueError ;;
  Ok r.

(** ** Cohorts *)

Abbreviation entry := (nat * ConcurrencyWork)%type.

Record GroupState := {
  gs_identities : gset str;
  gs_groups : gmap str (list entry);
  gs_order : list str
}.

(** One iteration over [enumerate(work)]. *)
Definition group_step (st : GroupState) (e : entry) : result GroupState :=
  let item := e.2 in
  raise_if bool_decide (cw_work_id item ∈ gs_identities st) with BarrierInputError ;;
  let '(groups, order) :=
    match gs_groups st !! cw_group item with
    | Some _ => (gs_groups st, gs_order st)
    | None => (<[cw_group item := []]> (gs_groups st), gs_order st ++ [cw_group item])
    end in
  match groups !! cw_group item with
  | None => Raise KeyError
  | Some members =>
    Ok {| gs_identities := {[cw_work_id item]} ∪ gs_identities st;
          gs_groups := <[cw_group item := members ++ [e]]> groups; gs_order := order |}
  end.

Definition entry_key (e : entry) : Z * Z := (cw_ordinal e.2, Z.of_nat e.1).
Definition enumerate (work : list ConcurrencyWork) : list entry := imap (fun i w => (i, w)) work.

Definition _validate_and_group (work : list ConcurrencyWork) : result (list (str * list entry)) :=
  raise_if (MAX_GROUP_ITEMS <? zlen work) with BarrierInputError ;;
  let! st := for_each group_step {| gs_identities := ∅; gs_groups := ∅; gs_order := [] |} (enumerate work) in
  map_result (fun group =>
    match gs_groups st !! group with
    | Some members => Ok (group, py_sorted entry_key members)
    | None => Raise KeyError
    end) (gs_order st).

(** The groups in the order of their first item, and one group's items. *)
Definition group_of (e : entry) : str := cw_group e.2.
Definition add_group (order : list str) (e : entry) : list str :=
  if decide (group_of e ∈ order) then order else order ++ [group_of e].
Definition group_order (l : list entry) : list str := fold_left add_group l [].
Definition members_of (g : str) (l : list entry) : list entry := filter (fun e => group_of e = g) l.

(** ** What grouping computes *)

Record grouped (l : list entry) (st : GroupState) : Prop := {
  gr_ids : forall i, i ∈ gs_identities st <-> i ∈ map (fun e => cw_work_id e.2) l;
  gr_unique : NoDup (map (fun e => cw_work_id e.2) l);
  gr_order : gs_order st = group_order l;
  gr_groups : forall g, gs_groups st !! g = if decide (g ∈ group_order l) then Some (members_of g l) else None
}.

Lemma group_order_snoc l e : group_order (l ++ [e]) = add_group (group_order l) e.
Proof. unfold group_order. by rewrite fold_left_app. Qed.

Lemma members_of_snoc g l e :
  members_of g (l ++ [e]) = members_of g l ++ (if decide (group_of e = g) then [e] else []).
Proof. unfold members_of. by rewrite list.filter_app. Qed.

Lemma elem_of_add_group g order e : g ∈ add_group order e <-> g ∈ order \/ g = group_of e.
Proof.
  unfold add_group. destruct (decide _).
  - split; [by left|]. by intros [?| ->].
  - rewrite elem_of_app, list_elem_of_singleton. done.
Qed.

Lemma elem_of_group_order g l : g ∈ group_order l <-> exists e, e ∈ l /\ group_of e = g.
Proof.
  induction l as [|e l IH] using rev_ind.
  - split; [intros H; inversion H|]. intros (e & He & _). inversion He.
  - rewrite group_order_snoc, elem_of_add_group, IH. split.
    + intros [(x & Hx & Hg)| ->]; [exists x|exists e]; rewrite elem_of_app, list_elem_of_singleton; auto.
    + intros (x & [Hx| ->%list_elem_of_singleton]%elem_of_app & Hg); [left; eauto|by right].
Qed.

Lemma group_order_nodup l : NoDup (group_order l).
Proof.
  induction l as [|e l IH] using rev_ind; [constructor|]. rewrite group_order_snoc. unfold add_group.
  destruct (decide _) as [|Hn]; [done|]. apply list.NoDup_app. split_and!; [done| |apply NoDup_singleton].
  intros g Hg ->%list_elem_of_singleton. done.
Qed.

Lemma members_of_none g l : g ∉ group_order l -> members_of g l = [].
Proof.
  intros Hg. apply filter_none, list.Forall_forall. intros e He Heq. apply Hg, elem_of_group_order. eauto.
Qed.

Lemma group_step_spec l st e :
  grouped l st ->
  if bool_decide (cw_work_id e.2 ∈ map (fun e => cw_work_id e.2) l)
  then group_step st e = Raise BarrierInputError
  else exists st', group_step st e = Ok st' /\ grouped (l ++ [e]) st'.
Proof.
  intros [Hids Hu Ho Hg]. unfold group_step.
  rewrite (bool_decide_ext (cw_work_id e.2 ∈ gs_identities st) (cw_work_id e.2 ∈ map (fun e => cw_work_id e.2) l))
    by apply Hids.
  case_bool_decide as Hin; [done|].
  assert (NoDup (map (fun e => cw_work_id e.2) (l ++ [e]))) as Hu'.
  { rewrite map_app. apply list.NoDup_app. split_and!; [done| |apply NoDup_singleton].
    intros i Hi ->%list_elem_of_singleton. done. }
  assert (forall i, i ∈ ({[cw_work_id e.2]} ∪ gs_identities st : gset str) <->
    i ∈ map (fun e => cw_work_id e.2) (l ++ [e])) as Hids'.
  { intros i. rewrite elem_of_union, elem_of_singleton, map_app, elem_of_app, Hids. cbn [map].
    rewrite list_elem_of_singleton. tauto. }
  fold (group_of e). pose proof (Hg (group_of e)) as Hge.
  destruct (gs_groups st !! group_of e) as [members|] eqn:Em; destruct (decide _) as [Hord|Hord] in Hge; try done.
  - rewrite Em. eexists. split; [reflexivity|]. split; try done.
    + simpl. rewrite group_order_snoc. unfold add_group. by rewrite decide_True.
    + intros g. simpl. rewrite group_order_snoc. unfold add_group. rewrite (decide_True _ _ Hord), members_of_snoc.
      destruct (decide (g = group_of e)) as [->|Hne].
      * rewrite lookup_insert_eq, (decide_True _ _ Hord), decide_True by done. by injection Hge as <-.
      * rewrite lookup_insert_ne, Hg, (decide_False (P := group_of e = g)) by done. by rewrite app_nil_r.
  - rewrite lookup_insert_eq. eexists. split; [reflexivity|]. split; try done.
    + simpl. rewrite group_order_snoc. unfold add_group. rewrite decide_False by done. by rewrite Ho.
    + intros g. simpl. rewrite group_order_snoc. unfold add_group. rewrite (decide_False (P := _ ∈ group_order l)), members_of_snoc by done.
      destruct (decide (g = group_of e)) as [->|Hne].
      * rewrite lookup_insert_eq, decide_True, decide_True by (done || apply elem_of_app; right; apply list_elem_of_here).
        by rewrite members_of_none.
      * rewrite !lookup_insert_ne, Hg, (decide_False (P := group_of e = g)), app_nil_r by done.
        destruct (decide (g ∈ group_order l)) as [Hi|Hi], (decide (g ∈ group_order l ++ [group_of e])) as [Hj|Hj]; try done.
        -- exfalso. apply Hj, elem_of_app. by left.
        -- exfalso. apply elem_of_app in Hj as [?| ->%list_elem_of_singleton]; done.
Qed.

Lemma group_fold l : forall st done_, grouped done_ st ->
  for_each group_step st l =
    match for_each group_step st l with Ok st' => Ok st' | Raise _ => Raise BarrierInputError end /\
  (is_ok (for_each group_step st l) = true <-> NoDup (map (fun e => cw_work_id e.2) (done_ ++ l))) /\
  (forall st', for_each group_step st l = Ok st' -> grouped (done_ ++ l) st').
Proof.
  induction l as [|e l IH]; intros st done_ Hst; cbn [for_each].
  - rewrite app_nil_r. split_and!; [done| |by intros st' [= <-]]. split; [intros _; apply (gr_unique _ _ Hst)|done].
  - pose proof (group_step_spec _ _ e Hst) as Hs. case_bool_decide as Hin.
    + rewrite Hs. split_and!; [done| |done]. split; [done|]. rewrite map_app. cbn [map]. intros Hn.
      apply list.NoDup_app in Hn as (_ & Hn & _). exfalso. apply (Hn _ Hin), list_elem_of_here.
    + destruct Hs as (st1 & -> & Hst1). specialize (IH st1 (done_ ++ [e]) Hst1).
      rewrite <- app_assoc in IH. exact IH.
Qed.

Definition work_ids (work : list ConcurrencyWork) : list str := map cw_work_id work.

Lemma enumerate_ids work : map (fun e => cw_work_id e.2) (enumerate work) = work_ids work.
Proof.
  unfold enumerate, work_ids. generalize 0%nat. 
  assert (forall (f : nat -> nat), map (fun e => cw_work_id e.2) (imap (fun i w => (f i, w)) work) = map cw_work_id work) as H.
  { induction work as [|w work IH]; intros f; [done|]. cbn [imap map]. f_equal. apply (IH (f ∘ S)). }
  intros _. apply (H (fun i => i)).
Qed.

(** The cohorts as a specification: by first appearance, each sorted by ordinal and position. *)
Definition cohorts_of (l : list entry) : list (str * list entry) :=
  map (fun g => (g, py_sorted entry_key (members_of g l))) (group_order l).

(** Grouping is total and exact: a batch is refused precisely when it is over the item limit or
    repeats a work identity; otherwise the cohorts are the groups in the order of their first item,
    each holding exactly the items of that group sorted by ordinal and then by position. *)
Theorem group_spec work :
  _validate_and_group work =
    if (MAX_GROUP_ITEMS <? zlen work) || negb (bool_decide (NoDup (work_ids work)))
    then Raise BarrierInputError else Ok (cohorts_of (enumerate work)).
Proof.
  unfold _validate_and_group. destruct (MAX_GROUP_ITEMS <? zlen work); [done|]. simpl orb.
  set (st0 := {| gs_identities := ∅; gs_groups := ∅; gs_order := [] |}).
  assert (grouped [] st0) as H0.
  { split; try done; [|constructor]. intros i. simpl. split; [|intros H; inversion H]. set_solver. }
  destruct (group_fold (enumerate work) st0 [] H0) as (Hr & Hok & Hg). cbn [app] in *. rewrite enumerate_ids in Hok.
  destruct (for_each group_step st0 (enumerate work)) as [st|e].
  - rewrite bool_decide_true by (by apply Hok). simpl. specialize (Hg st eq_refl). destruct Hg as [_ _ Ho Hgr].
    rewrite Ho. apply map_result_ok. unfold cohorts_of.
    assert (forall order, (forall g, g ∈ order -> g ∈ group_order (enumerate work)) ->
      Forall2 (fun x y => match gs_groups st !! x with
        | Some members => Ok (x, py_sorted entry_key members) | None => Raise KeyError end = Ok y) order
        (map (fun g => (g, py_sorted entry_key (members_of g (enumerate work)))) order)) as Hf; [|by apply Hf].
    intros order Hin. induction order as [|g order IH]; simpl; constructor.
    + rewrite Hgr, decide_True by (apply Hin, list_elem_of_here). done.
    + apply IH. intros x Hx. apply Hin. by right.
  - injection Hr as ->. rewrite bool_decide_false; [done|]. intros Hn. apply Hok in Hn. done.
Qed.

(** ** Cohorts cover the batch *)

Lemma concat_split {A : Type} (f : str -> list A) x (a : A) order :
  NoDup order -> x ∈ order ->
  concat (map (fun g => if decide (x = g) then a :: f g else f g) order) ≡ₚ a :: concat (map f order).
Proof.
  induction order as [|g order IH]; intros Hn Hx; [inversion Hx|]. apply list.NoDup_cons in Hn as [Hg Hn]. simpl.
  apply list_elem_of_In in Hx as [<-|Hx%list_elem_of_In].
  - rewrite decide_True by done. simpl. f_equiv. f_equiv.
    assert (map (fun g0 => if decide (g = g0) then a :: f g0 else f g0) order = map f order) as ->; [|done].
    apply map_ext_in. intros y Hy%list_elem_of_In. rewrite decide_False; [done|]. congruence.
  - rewrite decide_False by congruence. rewrite (IH Hn Hx). by rewrite Permutation_middle.
Qed.

Lemma members_cover order l :
  NoDup order -> (forall e, e ∈ l -> group_of e ∈ order) -> concat (map (fun g => members_of g l) order) ≡ₚ l.
Proof.
  intros Hn. induction l as [|e l IH]; intros Hin.
  - assert (concat (map (fun g : str => members_of g []) order) = []) as ->; [|done]. clear. by induction order.
  - transitivity (e :: concat (map (fun g => members_of g l) order));
      [|f_equiv; apply IH; intros x Hx; apply Hin; by right].
    rewrite <- (concat_split (fun g => members_of g l) (group_of e) e order Hn) by (apply Hin, list_elem_of_here).
    assert (map (fun g => members_of g (e :: l)) order =
      map (fun g => if decide (group_of e = g) then e :: members_of g l else members_of g l) order) as ->; [|done].
    apply map_ext. intros g. unfold members_of. rewrite filter_cons. done.
Qed.

(** [pending]: the cohorts one after the other. *)
Definition pending_of (cohorts : list (str * list entry)) : list entry := concat (map snd cohorts).

Lemma pending_perm l : pending_of (cohorts_of l) ≡ₚ l.
Proof.
  unfold pending_of, cohorts_of. rewrite map_map. cbn [snd].
  transitivity (concat (map (fun g => members_of g l) (group_order l)));
    [|apply members_cover; [apply group_order_nodup|intros e He; apply elem_of_group_order; eauto]].
  induction (group_order l) as [|g order IH]; [done|]. simpl. by rewrite py_sorted_perm, IH.
Qed.

Lemma elem_of_enumerate work i w : (i, w) ∈ enumerate work <-> work !! i = Some w.
Proof.
  unfold enumerate. rewrite elem_of_lookup_imap. split.
  - by intros (j & x & [= <- <-] & Hj).
  - intros H. exists i, w. done.
Qed.

Lemma enumerate_indices work : map fst (enumerate work) = seq 0 (length work).
Proof.
  apply list_eq. intros i. change (map fst (enumerate work)) with (fst <$> enumerate work). unfold enumerate.
  rewrite list_lookup_fmap, list_lookup_imap.
  destruct (decide (i < length work)%nat) as [Hi|Hi].
  - destruct (lookup_lt_is_Some_2 work i Hi) as [w ->]. by rewrite lookup_seq_lt.
  - rewrite lookup_ge_None_2, lookup_seq_ge by lia. done.
Qed.

(** ** The worker pool *)

(** Where a worker is: at the head of its loop, waiting at a barrier, inside its callback, or
    returned. *)
Inductive WorkerState :=
  | AtLoop
  | Waiting (e : entry)
  | Running (e : entry) (s : ActualStartEvidence)
  | Exited.

Record PoolState := {
  next_index : nat;
  workers : list WorkerState;
  releases : list BarrierRelease;
  completed : list (option CompletedWork)
}.

Definition start_of (e : entry) (now : Z) : ActualStartEvidence :=
  {| se_work_id := cw_work_id e.2; se_group := cw_group e.2; actual_monotonic_start_ns := now |}.
Definition release_of (g : str) (cohort : list entry) (now : Z) : BarrierRelease :=
  {| br_group := g; released_monotonic_ns := now; eligible_work_ids := map (fun e => cw_work_id e.2) cohort |}.

(** The head of [run_concurrency_groups]: the realized limit and the cohorts. *)
Definition run_setup (max_concurrency : option Z) (work : list ConcurrencyWork) :
    result (Z * list (str * list entry)) :=
  let! concurrency := validate_concurrency max_concurrency in
  let! cohorts := _validate_and_group work in
  Ok (concurrency, cohorts).

Section pool.
Context (work : list ConcurrencyWork) (concurrency : Z).

Let cohorts := cohorts_of (enumerate work).
Let pending := pending_of cohorts.

Definition created : nat := Z.to_nat (Z.min concurrency (zlen work)).

Definition pool_start : PoolState :=
  {| next_index := 0; workers := replicate created AtLoop; releases := [];
     completed := replicate (length work) None |}.

Definition set_worker (st : PoolState) (i : nat) (w : WorkerState) : PoolState :=
  {| next_index := next_index st; workers := <[i := w]> (workers st); releases := releases st;
     completed := completed st |}.

(** One task runs to its next await. *)
Inductive pool_step : PoolState -> PoolState -> Prop :=
  | step_take st i e :
      workers st !! i = Some AtLoop -> pending !! next_index st = Some e ->
      pool_step st {| next_index := S (next_index st); workers := <[i := Waiting e]> (workers st);
                      releases := releases st; completed := completed st |}
  | step_exit st i :
      workers st !! i = Some AtLoop -> (length pending <= next_index st)%nat ->
      pool_step st (set_worker st i Exited)
  | step_start st i e now s :
      workers st !! i = Some (Waiting e) -> group_of e ∈ map br_group (releases st) ->
      validate_start (start_of e now) = Ok s -> pool_step st (set_worker st i (Running e s))
  | step_finish st i e s r :
      workers st !! i = Some (Running e s) ->
      pool_step st {| next_index := next_index st; workers := <[i := AtLoop]> (workers st);
                      releases := releases st;
                      completed := <[e.1 := Some {| cp_work := e.2; cp_result := r; cp_start := s |}]> (completed st) |}
  | step_release st g cohort now rel :
      cohorts !! length (releases st) = Some (g, cohort) ->
      validate_release (release_of g cohort now) = Ok rel ->
      pool_step st {| next_index := next_index st; workers := workers st; releases := releases st ++ [rel];
                      completed := completed st |}.

Inductive pool_reachable : PoolState -> Prop :=
  | pool_init : pool_reachable pool_start
  | pool_next st st' : pool_reachable st -> pool_step st st' -> pool_reachable st'.

(** The task group ends when every task has. *)
Definition pool_done (st : PoolState) : bool :=
  forallb (fun w => match w with Exited => true | _ => false end) (workers st)
  && (length (releases st) =? length cohorts)%nat.

(** The value [run_concurrency_groups] returns. *)
Definition pool_result (st : PoolState) : result BarrierRun :=
  raise_if existsb is_none (completed st) with RuntimeError ;;
  validate_run {| run_completed := omap (fun c => c) (completed st); run_releases := releases st;
                  configured_concurrency := concurrency; peak_created_tasks := Z.of_nat created |}.

(** ** The invariant *)

Definition entry_held (w : WorkerState) : option entry :=
  match w with Waiting e | Running e _ => Some e | _ => None end.
Definition held (st : PoolState) : list nat := map fst (omap entry_held (workers st)).
Definition is_finished (st : PoolState) (i : nat) : Prop := exists c, completed st !! i = Some (Some c).
#[local] Instance is_finished_dec st i : Decision (is_finished st i).
Proof.
  destruct (completed st !! i) as [[c|]|] eqn:E; [left; by exists c|right..]; intros [c Hc]; congruence.
Defined.
Definition finished (st : PoolState) : list nat := filter (is_finished st) (seq 0 (length work)).

Record pool_inv (st : PoolState) : Prop := {
  pi_workers : length (workers st) = created;
  pi_completed : length (completed st) = length work;
  pi_taken : map fst (take (next_index st) pending) ≡ₚ held st ++ finished st;
  pi_next : (next_index st <= length pending)%nat;
  pi_held : forall i w e, workers st !! i = Some w -> entry_held w = Some e -> e ∈ pending;
  pi_running : forall i e s, workers st !! i = Some (Running e s) ->
    group_of e ∈ map br_group (releases st) /\ exists now, s = start_of e now /\ 0 <= now;
  pi_results : forall i c, completed st !! i = Some (Some c) ->
    (i, cp_work c) ∈ pending /\ cw_group (cp_work c) ∈ map br_group (releases st) /\
    exists now, cp_start c = start_of (i, cp_work c) now /\ 0 <= now;
  pi_exited : forall i, workers st !! i = Some Exited -> next_index st = length pending;
  pi_releases : forall k r, releases st !! k = Some r -> exists cohort,
    cohorts !! k = Some (br_group r, cohort) /\ eligible_work_ids r = map (fun e => cw_work_id e.2) cohort
}.

Lemma pending_nodup : NoDup (map fst pending).
Proof.
  assert (map fst pending ≡ₚ seq 0 (length work)) as ->; [|apply NoDup_seq].
  rewrite <- enumerate_indices. apply Permutation_map, pending_perm.
Qed.

Lemma elem_of_pending i w : (i, w) ∈ pending <-> work !! i = Some w.
Proof. rewrite <- elem_of_enumerate. unfold pending, cohorts. by rewrite pending_perm. Qed.

Lemma pending_length : length pending = length work.
Proof. unfold pending, cohorts. rewrite pending_perm. unfold enumerate. by rewrite length_imap. Qed.

Lemma taken_nodup st : pool_inv st -> NoDup (held st ++ finished st).
Proof.
  intros Hi. rewrite <- (pi_taken _ Hi). pose proof pending_nodup as Hn.
  rewrite <- (take_drop (next_index st) pending), map_app in Hn. by apply list.NoDup_app in Hn as [? _].
Qed.

(** Changing one worker changes what it holds. *)
Lemma held_set (ws : list WorkerState) i w w' :
  ws !! i = Some w ->
  exists a b, map fst (omap entry_held ws) = a ++ map fst (omap entry_held [w]) ++ b /\
    map fst (omap entry_held (<[i := w']> ws)) = a ++ map fst (omap entry_held [w']) ++ b.
Proof.
  intros Hw. pose proof (lookup_lt_Some _ _ _ Hw) as Hlt.
  exists (map fst (omap entry_held (take i ws))), (map fst (omap entry_held (drop (S i) ws))). split.
  - rewrite <- (take_drop_middle _ _ _ Hw) at 1. change (w :: drop (S i) ws) with ([w] ++ drop (S i) ws).
    by rewrite !omap_app, !map_app.
  - rewrite insert_take_drop by done. change (w' :: drop (S i) ws) with ([w'] ++ drop (S i) ws).
    by rewrite !omap_app, !map_app.
Qed.

Lemma lookup_set (ws : list WorkerState) i w j x :
  <[i := w]> ws !! j = Some x -> (i = j /\ x = w) \/ (i <> j /\ ws !! j = Some x).
Proof.
  intros [(-> & <- & _)|[Hne H]]%list_lookup_insert_Some; [by left|by right].
Qed.

Lemma inv_start : pool_inv pool_start.
Proof.
  split; simpl; rewrite ?length_replicate; try done.
  - unfold held, finished. simpl. rewrite (filter_none (is_finished pool_start)).
    + rewrite app_nil_r. by induction created.
    + apply list.Forall_forall. intros i _ [c Hc]. simpl in Hc. by apply lookup_replicate in Hc as [[=] _].
  - lia.
  - intros i w e Hw He. apply lookup_replicate in Hw as [-> _]. done.
  - intros i e s Hw. by apply lookup_replicate in Hw as [[=] _].
  - intros i c Hc. by apply lookup_replicate in Hc as [[=] _].
  - intros i Hw. by apply lookup_replicate in Hw as [[=] _].
Qed.

(** A step that moves one worker and keeps what it holds. *)
Lemma inv_move st i w w' :
  pool_inv st -> workers st !! i = Some w -> entry_held w' = entry_held w ->
  (forall e s, w' = Running e s -> group_of e ∈ map br_group (releases st) /\ exists now, s = start_of e now /\ 0 <= now) ->
  (w' = Exited -> next_index st = length pending) -> pool_inv (set_worker st i w').
Proof.
  intros [H1 H2 H3 H4 H5 H6 H7 H8 H9] Hw Hh Hrun Hex. split; simpl; try done.
  - by rewrite length_insert.
  - unfold held. simpl. destruct (held_set _ _ _ w' Hw) as (a & b & Ha & Hb). rewrite Hb. cbn [omap list_omap].
    rewrite Hh. unfold held in H3. rewrite Ha in H3. exact H3.
  - intros j x e [[<- ->]|[_ Hx]]%lookup_set He; [|by eapply H5]. rewrite Hh in He. by eapply H5.
  - intros j e s [[<- <-]|[_ Hx]]%lookup_set; [by apply Hrun|by eapply H6].
  - intros j [[<- <-]|[_ Hx]]%lookup_set; [by apply Hex|by eapply H8].
Qed.

Lemma inv_take st i e :
  pool_inv st -> workers st !! i = Some AtLoop -> pending !! next_index st = Some e ->
  pool_inv {| next_index := S (next_index st); workers := <[i := Waiting e]> (workers st);
              releases := releases st; completed := completed st |}.
Proof.
  intros [H1 H2 H3 H4 H5 H6 H7 H8 H9] Hw He. pose proof (lookup_lt_Some _ _ _ He) as Hlt.
  assert (e ∈ pending) as Hin by (by eapply list_elem_of_lookup_2). split; simpl; try done.
  - by rewrite length_insert.
  - rewrite (take_S_r _ _ _ He), map_app. destruct (held_set _ _ _ (Waiting e) Hw) as (a & b & Ha & Hb).
    unfold held in *. simpl. rewrite Hb. cbn [omap list_omap entry_held map]. rewrite H3, Ha.
    cbn [omap list_omap entry_held map app]. rewrite <- (Permutation_middle a b e.1).
    by rewrite (Permutation_app_comm _ [e.1]).
  - intros j x y [[<- ->]|[_ Hx]]%lookup_set Hy; [|by eapply H5]. injection Hy as <-. done.
  - intros j y s [[_ [=]]|[_ Hx]]%lookup_set. by eapply H6.
  - intros j [[_ [=]]|[_ Hx]]%lookup_set. apply H8 in Hx. lia.
Qed.

Lemma finished_set st i e s r :
  pool_inv st -> workers st !! i = Some (Running e s) ->
  let c := {| cp_work := e.2; cp_result := r; cp_start := s |} in
  let st' := {| next_index := next_index st; workers := <[i := AtLoop]> (workers st); releases := releases st;
                completed := <[e.1 := Some c]> (completed st) |} in
  finished st' ≡ₚ e.1 :: finished st /\ (e.1 < length work)%nat.
Proof.
  intros Hi Hw c st'. pose proof (taken_nodup _ Hi) as Hn.
  assert (e ∈ pending) as Hin by (by eapply (pi_held _ Hi)).
  assert (e.1 < length work)%nat as Hlt.
  { destruct e as [j w]. apply elem_of_pending, lookup_lt_Some in Hin. done. }
  assert (e.1 ∉ finished st) as Hnf.
  { apply list.NoDup_app in Hn as (_ & Hn & _). apply Hn. unfold held.
    destruct (held_set _ _ _ AtLoop Hw) as (a & b & -> & _). cbn [omap list_omap entry_held map].
    apply elem_of_app. right. apply list_elem_of_here. }
  split; [|done]. apply NoDup_Permutation.
  - apply list.NoDup_filter, NoDup_seq.
  - apply list.NoDup_cons. split; [done|]. apply list.NoDup_filter, NoDup_seq.
  - intros j. rewrite elem_of_cons. unfold finished. rewrite !list_elem_of_filter, !elem_of_seq. unfold is_finished. simpl.
    destruct (decide (e.1 = j)) as [<-|Hne].
    + rewrite list_lookup_insert_eq by (rewrite (pi_completed _ Hi); lia). split; [intros _; by left|]. intros _. split; [by eexists|lia].
    + rewrite list_lookup_insert_ne by done. split; [intros H; by right|]. by intros [?|?].
Qed.

Lemma inv_finish st i e s r :
  pool_inv st -> workers st !! i = Some (Running e s) ->
  pool_inv {| next_index := next_index st; workers := <[i := AtLoop]> (workers st); releases := releases st;
              completed := <[e.1 := Some {| cp_work := e.2; cp_result := r; cp_start := s |}]> (completed st) |}.
Proof.
  intros Hi Hw. destruct (finished_set st i e s r Hi Hw) as [Hf Hlt].
  assert (e ∈ pending) as Hin by (by eapply (pi_held _ Hi)). pose proof (pi_running _ Hi _ _ _ Hw) as [Hrel Hs].
  destruct Hi as [H1 H2 H3 H4 H5 H6 H7 H8 H9]. split; simpl; try done.
  - by rewrite length_insert.
  - by rewrite length_insert.
  - rewrite Hf, H3. unfold held. simpl. destruct (held_set _ _ _ AtLoop Hw) as (a & b & -> & ->).
    cbn [omap list_omap entry_held map app]. rewrite <- (Permutation_middle a b e.1).
    by rewrite <- (Permutation_middle (a ++ b) (finished st) e.1).
  - intros j x y [[_ ->]|[_ Hx]]%lookup_set Hy; [done|by eapply H5].
  - intros j y t [[_ [=]]|[_ Hx]]%lookup_set. by eapply H6.
  - intros j c. destruct (decide (e.1 = j)) as [<-|Hne].
    + rewrite list_lookup_insert_eq by lia. intros [= <-]. simpl. destruct e as [k w]. simpl. done.
    + rewrite list_lookup_insert_ne by done. apply H7.
  - intros j [[_ [=]]|[_ Hx]]%lookup_set. by eapply H8.
Qed.

Lemma inv_release st g cohort now rel :
  pool_inv st -> cohorts !! length (releases st) = Some (g, cohort) ->
  validate_release (release_of g cohort now) = Ok rel ->
  pool_inv {| next_index := next_index st; workers := workers st; releases := releases st ++ [rel];
              completed := completed st |}.
Proof.
  intros [H1 H2 H3 H4 H5 H6 H7 H8 H9] Hc Hv.
  assert (rel = release_of g cohort now) as ->.
  { unfold validate_release in Hv. do 5 py_step Hv. by injection Hv. }
  split; simpl; try done.
  - intros j e s [Hr Hs]%H6. rewrite map_app, elem_of_app. auto.
  - intros j c (Hp & Hr & Hs)%H7. rewrite map_app, elem_of_app. auto.
  - intros k r [Hk|[Hk Hr]]%lookup_app_Some; [by apply H9|].
    destruct (k - length (releases st))%nat eqn:Ek; [|done]. simpl in Hr. injection Hr as <-.
    exists cohort. simpl. replace k with (length (releases st)) by lia. done.
Qed.

Lemma start_valid e now s : validate_start (start_of e now) = Ok s -> s = start_of e now /\ 0 <= now.
Proof.
  unfold validate_start, _monotonic. intros H. do 3 py_step H. py_step E1. injection H as <-. apply Z.ltb_ge in E2. done.
Qed.

Lemma inv_reachable st : pool_reachable st -> pool_inv st.
Proof.
  induction 1 as [|st st' _ IH Hs]; [apply inv_start|].
  destruct Hs as [st i e Hw He|st i Hw Hn|st i e now s Hw Hg Hv|st i e s r Hw|st g cohort now rel Hc Hv].
  - by apply inv_take.
  - eapply inv_move; [done|exact Hw|done|done|]. intros _. pose proof (pi_next _ IH). lia.
  - apply start_valid in Hv as [-> Hnow]. eapply inv_move; [done|exact Hw|done| |done].
    intros e' s' [= <- <-]. split; [done|]. by exists now.
  - by eapply inv_finish.
  - by eapply inv_release.
Qed.

(** ** What a finished pool returns *)

Lemma exited_all st : pool_done st = true -> Forall (fun w => w = Exited) (workers st).
Proof.
  unfold pool_done. intros [Hw _]%andb_true_iff. rewrite forallb_forall in Hw. apply List.Forall_forall.
  intros w Hin. specialize (Hw w Hin). by destruct w.
Qed.

Lemma exited_holds_none ws : Forall (fun w => w = Exited) ws -> omap entry_held ws = [].
Proof. induction 1 as [|w ws -> _ IH]; [done|]. exact IH. Qed.

Lemma taken_all st : pool_inv st -> (0 < created)%nat -> pool_done st = true ->
  forall i, (i < length work)%nat -> is_finished st i.
Proof.
  intros Hi Hc Hd i Hlt. pose proof (exited_all _ Hd) as Hex.
  assert (next_index st = length pending) as Hn.
  { destruct (workers st) as [|w ws] eqn:Ew; [pose proof (pi_workers _ Hi) as H; rewrite Ew in H; simpl in H; lia|].
    apply list.Forall_cons in Hex as [-> _]. apply (pi_exited _ Hi 0%nat). by rewrite Ew. }
  pose proof (pi_taken _ Hi) as Ht. unfold held in Ht. rewrite (exited_holds_none _ Hex), Hn, firstn_all in Ht.
  assert (i ∈ finished st) as Hf.
  { cbn [map app] in Ht. rewrite <- Ht. rewrite list_elem_of_In, in_map_iff.
    destruct (lookup_lt_is_Some_2 work i Hlt) as [w Hw]. exists (i, w). split; [done|].
    by apply list_elem_of_In, elem_of_pending. }
  unfold finished in Hf. by apply list_elem_of_filter in Hf as [? _].
Qed.

Lemma completed_slots st :
  pool_inv st -> (forall i, (i < length work)%nat -> is_finished st i) ->
  exists cs, completed st = map Some cs /\ map cp_work cs = work.
Proof.
  intros Hi Hf.
  assert (exists cs, completed st = map Some cs) as [cs Hcs].
  { assert (forall l : list (option CompletedWork), (forall i, (i < length l)%nat -> exists c, l !! i = Some (Some c)) ->
      exists cs, l = map Some cs) as Hgen.
    { induction l as [|x l IH]; intros H; [by exists []|]. destruct (H 0%nat) as [c [= ->]]; [simpl; lia|].
      destruct IH as [cs ->]; [|by exists (c :: cs)]. intros i Hlt. apply (H (S i)). simpl. lia. }
    apply Hgen. intros i Hlt. apply Hf. by rewrite <- (pi_completed _ Hi). }
  exists cs. split; [done|]. apply list_eq_same_length with (length work).
  - done.
  - rewrite length_map, <- (length_map Some cs), <- Hcs. apply (pi_completed _ Hi).
  - intros i x y Hlt Hx Hy. change (map cp_work cs) with (cp_work <$> cs) in Hx.
    apply list_lookup_fmap_Some in Hx as (c & -> & Hc).
    assert (completed st !! i = Some (Some c)) as Hsl by (rewrite Hcs; change (map Some cs) with (Some <$> cs); by rewrite list_lookup_fmap, Hc).
    apply (pi_results _ Hi) in Hsl as (Hp & _). apply elem_of_pending in Hp. congruence.
Qed.

Lemma released_groups st : pool_inv st -> length (releases st) = length cohorts ->
  map br_group (releases st) = map fst cohorts.
Proof.
  intros Hi Hl. apply list_eq_same_length with (length cohorts); rewrite ?length_map; try done.
  intros i x y _ Hx Hy.
  change (map br_group (releases st)) with (br_group <$> releases st) in Hx. change (map fst cohorts) with (fst <$> cohorts) in Hy.
  apply list_lookup_fmap_Some in Hx as (r & -> & Hr). apply list_lookup_fmap_Some in Hy as (c & -> & Hc).
  apply (pi_releases _ Hi) in Hr as (cohort & Hr & _). rewrite Hc in Hr. by injection Hr as ->.
Qed.

Lemma setup_parts maxc cs :
  run_setup maxc work = Ok (concurrency, cs) ->
  cs = cohorts /\ 1 <= concurrency <= HARD_DELIVERY_CONCURRENCY /\ NoDup (work_ids work) /\
  zlen work <= MAX_GROUP_ITEMS.
Proof.
  unfold run_setup. rewrite group_spec. intros H. py_step H.
  destruct ((MAX_GROUP_ITEMS <? zlen work) || _) eqn:Eb; [done|]. injection H as -> <-. split; [done|].
  apply orb_false_iff in Eb as [El%Z.ltb_ge En%negb_false_iff%bool_decide_eq_true].
  unfold validate_concurrency in E. py_step E. injection E as E1. rewrite E1 in E0. apply negb_false_iff in E0.
  split_and!; try done; unfold within in E0; apply andb_true_iff in E0 as [?%Z.leb_le ?%Z.leb_le]; lia.
Qed.

Lemma created_bounds : 1 <= concurrency -> Z.of_nat created <= concurrency /\ (work <> [] -> (0 < created)%nat).
Proof.
  intros Hc. unfold created, zlen. split; [lia|]. intros Hw. destruct work; [done|]. simpl length. lia.
Qed.

Lemma omap_somes {A : Type} (l : list A) : omap (fun c => c) (map Some l) = l.
Proof. induction l as [|a l IH]; [done|]. cbn. by f_equal. Qed.

Lemma somes_no_none {A : Type} (l : list A) : existsb is_none (map Some l) = false.
Proof. by induction l. Qed.

(** C33: When the task group of [run_concurrency_groups] has ended, under whatever interleaving of its
    workers and releases, the call returns a [BarrierRun]: one result per work item, in the order of the
    input, each with start evidence for that very item; one release per cohort, in cohort order; and no
    more tasks than the configured concurrency. *)
Theorem pool_complete maxc cs st :
  run_setup maxc work = Ok (concurrency, cs) -> pool_reachable st -> pool_done st = true ->
  exists run, pool_result st = Ok run /\ map cp_work (run_completed run) = work /\
    map br_group (run_releases run) = group_order (enumerate work) /\
    (forall c, c ∈ run_completed run -> exists now, 0 <= now /\
       cp_start c = {| se_work_id := cw_work_id (cp_work c); se_group := cw_group (cp_work c);
                       actual_monotonic_start_ns := now |}) /\
    configured_concurrency run = concurrency /\ peak_created_tasks run <= concurrency.
Proof.
  intros (-> & Hc & _ & _)%setup_parts Hi%inv_reachable Hd. pose proof (created_bounds (proj1 Hc)) as [Hcr Hpos].
  destruct (completed_slots st Hi) as (done_ & Hs & Hw).
  { intros i Hlt. apply taken_all; try done. apply Hpos. intros Hn. rewrite Hn in Hlt. simpl in Hlt. lia. }
  eexists. split.
  - unfold pool_result. rewrite Hs, somes_no_none, omap_somes. unfold validate_run. simpl.
    unfold validate_concurrency, within. rewrite !(proj2 (Z.leb_le _ _)) by lia. reflexivity.
  - simpl. split_and!; try done.
    + rewrite (released_groups _ Hi). { unfold cohorts, cohorts_of. rewrite map_map. apply map_id. }
      unfold pool_done in Hd. apply andb_true_iff in Hd as [_ Hd]. by apply Nat.eqb_eq.
    + intros c Hin. apply list_elem_of_lookup in Hin as [i Hin].
      assert (completed st !! i = Some (Some c)) as Hsl by (rewrite Hs; change (map Some done_) with (Some <$> done_); by rewrite list_lookup_fmap, Hin).
      apply (pi_results _ Hi) in Hsl as (_ & _ & now & -> & Hn). by exists now.
Qed.

(** The callbacks in flight. *)
Definition is_running (w : WorkerState) : bool := match w with Running _ _ => true | _ => false end.
Definition running (st : PoolState) : list WorkerState := List.filter is_running (workers st).

(** In every state the pool can reach: no more callbacks are in flight than the configured
    concurrency; a callback runs, and a result exists, only for an item whose own group has been
    released; and no item is held by two workers, or held after it has completed. *)
Theorem pool_safe maxc cs st :
  run_setup maxc work = Ok (concurrency, cs) -> pool_reachable st ->
  zlen (running st) <= concurrency /\
  (forall i e s, workers st !! i = Some (Running e s) -> group_of e ∈ map br_group (releases st)) /\
  (forall i c, completed st !! i = Some (Some c) ->
     work !! i = Some (cp_work c) /\ cw_group (cp_work c) ∈ map br_group (releases st)) /\
  NoDup (held st ++ finished st).
Proof.
  intros (-> & Hc & _ & _)%setup_parts Hi%inv_reachable. split_and!.
  - pose proof (created_bounds (proj1 Hc)) as [Hcr _]. rewrite <- (pi_workers _ Hi) in Hcr.
    pose proof (List.filter_length_le is_running (workers st)). unfold running, zlen. lia.
  - intros i e s Hw. apply (pi_running _ Hi _ _ _ Hw).
  - intros i c (Hp & Hr & _)%(pi_results _ Hi). split; [by apply elem_of_pending|done].
  - by apply taken_nodup.
Qed.

(** ** Termination and progress *)

Definition weight (w : WorkerState) : nat :=
  match w with AtLoop => 1 | Waiting _ => 4 | Running _ _ => 3 | Exited => 0 end.
Definition pool_measure (st : PoolState) : nat :=
  4 * (length pending - next_index st) + sum_list_with weight (workers st) + (length cohorts - length (releases st)).

Lemma weight_set ws i w w' : ws !! i = Some w ->
  (sum_list_with weight (<[i := w']> ws) + weight w = sum_list_with weight ws + weight w')%nat.
Proof.
  intros Hw. pose proof (lookup_lt_Some _ _ _ Hw) as Hlt. rewrite insert_take_drop by done.
  rewrite <- (take_drop_middle _ _ _ Hw) at 3. rewrite !sum_list_with_app. simpl. lia.
Qed.

Lemma step_decreases st st' : pool_step st st' -> (pool_measure st' < pool_measure st)%nat.
Proof.
  unfold pool_measure.
  intros [s i e Hw He|s i Hw Hn|s i e now ev Hw Hg Hv|s i e ev r Hw|s g cohort now rel Hc Hv]; simpl.
  - pose proof (weight_set _ _ _ (Waiting e) Hw) as H. apply lookup_lt_Some in He. simpl in H. lia.
  - pose proof (weight_set _ _ _ Exited Hw) as H. simpl in H. lia.
  - pose proof (weight_set _ _ _ (Running e ev) Hw) as H. simpl in H. lia.
  - pose proof (weight_set _ _ _ AtLoop Hw) as H. simpl in H. lia.
  - rewrite length_app. simpl. apply lookup_lt_Some in Hc. lia.
Qed.

Lemma steps_decrease n st st' : nsteps pool_step n st st' -> (n + pool_measure st' <= pool_measure st)%nat.
Proof. induction 1 as [|n st st1 st2 Hs _ IH]; [done|]. apply step_decreases in Hs. lia. Qed.

Lemma steps_reachable n st st' : nsteps pool_step n st st' -> pool_reachable st -> pool_reachable st'.
Proof. induction 1 as [|n st st1 st2 Hs _ IH]; [done|]. intros Hr. apply IH. by eapply pool_next. Qed.

Lemma start_measure : pool_measure pool_start = (4 * length work + created + length cohorts)%nat.
Proof.
  unfold pool_measure. rewrite pending_length. simpl. rewrite Nat.sub_0_r.
  assert (sum_list_with weight (replicate created AtLoop) = created) as ->; [|lia].
  induction created as [|n IH]; simpl; lia.
Qed.

Lemma cohort_member k g cohort : cohorts !! k = Some (g, cohort) ->
  cohort ≡ₚ members_of g (enumerate work) /\ cohort <> [].
Proof.
  unfold cohorts, cohorts_of. change (map ?f ?l) with (f <$> l). intros (x & [= -> ->] & Hx)%list_lookup_fmap_Some.
  split; [apply py_sorted_perm|]. intros Hn. apply list_elem_of_lookup_2, elem_of_group_order in Hx as (e & He & Hg).
  assert (e ∈ members_of x (enumerate work)) as Hin by (apply list_elem_of_filter; done).
  rewrite <- (py_sorted_perm entry_key), Hn in Hin. inversion Hin.
Qed.

Lemma token_valid value n : is_ok (_token value n) = true -> _token value n = Ok value.
Proof. unfold _token. by destruct (is_token value n). Qed.

Lemma work_valid w : validate_work w = Ok w ->
  _token (cw_work_id w) 96 = Ok (cw_work_id w) /\ _token (cw_group w) 128 = Ok (cw_group w).
Proof. unfold validate_work, _token. by destruct (is_token (cw_work_id w) 96), (is_token (cw_group w) 128). Qed.

Section valid_batch.
Hypothesis Hvalid : Forall (fun w => validate_work w = Ok w) work.
Hypothesis Hunique : NoDup (work_ids work).

Lemma entry_valid e : e ∈ enumerate work -> validate_work e.2 = Ok e.2.
Proof.
  destruct e as [i w]. rewrite elem_of_enumerate. intros Hw. apply list_elem_of_lookup_2 in Hw.
  by apply (proj1 (list.Forall_forall _ _) Hvalid).
Qed.

Lemma release_valid k g cohort : cohorts !! k = Some (g, cohort) ->
  validate_release (release_of g cohort 0) = Ok (release_of g cohort 0).
Proof.
  intros Hk. destruct (cohort_member _ _ _ Hk) as [Hp Hne]. unfold validate_release, release_of. simpl.
  assert (forall e, e ∈ cohort -> e ∈ enumerate work /\ group_of e = g) as Hin.
  { intros e. rewrite Hp. unfold members_of. rewrite list_elem_of_filter. tauto. }
  destruct cohort as [|e0 cohort]; [done|]. destruct (Hin e0) as [He0 Hg0]; [apply list_elem_of_here|].
  pose proof (work_valid _ (entry_valid _ He0)) as [_ Htok]. unfold group_of in Hg0. rewrite Hg0 in Htok. rewrite Htok. simpl.
  assert (map_result (fun i => _token i 96) (map (fun e : entry => cw_work_id e.2) (e0 :: cohort)) =
    Ok (map (fun e => cw_work_id e.2) (e0 :: cohort))) as Hids.
  { apply map_result_ok, Forall2_fmap_l, Forall2_fmap_r, Forall_Forall2_diag, list.Forall_forall. intros e He.
    apply (work_valid _ (entry_valid _ (proj1 (Hin e He)))). }
  simpl in Hids. rewrite Hids. simpl.
  rewrite bool_decide_true; [done|]. change (cw_work_id e0.2 :: _) with (map (fun e : entry => cw_work_id e.2) (e0 :: cohort)).
    rewrite Hp. apply (sublist_NoDup _ (map (fun e => cw_work_id e.2) (enumerate work))); [by rewrite enumerate_ids|].
    unfold members_of. apply fmap_sublist, sublist_filter.
Qed.

Lemma waiting_steps st i e : pool_inv st -> workers st !! i = Some (Waiting e) -> exists st', pool_step st st'.
Proof.
  intros Hi Hw. destruct (lt_dec (length (releases st)) (length cohorts)) as [Hlt|Hge].
  - destruct (lookup_lt_is_Some_2 _ _ Hlt) as [[g cohort] Hc]. eexists. eapply step_release; [exact Hc|].
    by eapply release_valid.
  - assert (e ∈ pending) as Hin by (by eapply (pi_held _ Hi)).
    assert (length (releases st) = length cohorts) as Hl.
    { destruct (decide (length (releases st) = length cohorts)) as [|Hne]; [done|].
      destruct (lookup_lt_is_Some_2 (releases st) (length cohorts)) as [r Hr]; [lia|].
      apply (pi_releases _ Hi) in Hr as (c & Hr & _). apply lookup_lt_Some in Hr. lia. }
    assert (e ∈ enumerate work) as He by (rewrite <- (pending_perm (enumerate work)); exact Hin).
    pose proof (work_valid _ (entry_valid _ He)) as [Hid Hg].
    eexists. eapply (step_start _ _ _ 0); [exact Hw| |].
    + rewrite (released_groups _ Hi Hl). unfold cohorts, cohorts_of. rewrite map_map, map_id.
      apply elem_of_group_order. eauto.
    + unfold validate_start, start_of. simpl. by rewrite Hid, Hg.
Qed.

Lemma pool_progresses (answer : R) st : pool_inv st -> pool_done st = false -> exists st', pool_step st st'.
Proof.
  intros Hi Hd. destruct (decide (Forall (fun w => weight w = 0%nat) (workers st))) as [Hex|Hex].
  - unfold pool_done in Hd. apply andb_false_iff in Hd as [Hd|Hd].
    + exfalso. apply not_true_iff_false in Hd. apply Hd, forallb_forall. intros w Hw. rewrite List.Forall_forall in Hex.
      specialize (Hex _ Hw). by destruct w.
    + apply Nat.eqb_neq in Hd. destruct (lt_dec (length (releases st)) (length cohorts)) as [Hlt|Hge].
      * destruct (lookup_lt_is_Some_2 _ _ Hlt) as [[g cohort] Hc]. eexists. eapply step_release; [exact Hc|].
        by eapply release_valid.
      * destruct (lookup_lt_is_Some_2 (releases st) (length cohorts)) as [r Hr]; [lia|].
        apply (pi_releases _ Hi) in Hr as (c & Hr & _). apply lookup_lt_Some in Hr. lia.
  - apply not_Forall_Exists in Hex; [|intros w; exact _]. apply Exists_exists in Hex as (w & Hin%list_elem_of_In & Hw).
    apply list_elem_of_lookup in Hin as [i Hin]. destruct w as [|e|e s|]; [| |eexists; by eapply (step_finish _ _ _ _ answer)|by destruct Hw].
    + destruct (lt_dec (next_index st) (length pending)) as [Hlt|Hge].
      * destruct (lookup_lt_is_Some_2 _ _ Hlt) as [e He]. eexists. by eapply step_take.
      * eexists. eapply step_exit; [exact Hin|lia].
    + by eapply waiting_steps.
Qed.

End valid_batch.

(** C34: The pool neither deadlocks nor runs forever: on a batch of valid items, every execution of the
    pool has at most [4 * items + workers + cohorts] steps, and one that can go no further has ended
    every worker and released every cohort.  [answer] is any value a callback returns. *)
Theorem pool_live (answer : R) maxc cs n st :
  run_setup maxc work = Ok (concurrency, cs) -> Forall (fun w => validate_work w = Ok w) work ->
  nsteps pool_step n pool_start st ->
  (n <= 4 * length work + created + length cs)%nat /\
  ((forall st', ~ pool_step st st') -> pool_done st = true).
Proof.
  intros (-> & _ & Hu & _)%setup_parts Hv Hs. split.
  - rewrite <- start_measure. apply steps_decrease in Hs. lia.
  - intros Hstuck. destruct (pool_done st) eqn:Ed; [done|]. exfalso.
    destruct (pool_progresses Hv Hu answer st) as [st' Hst']; [|done|by apply (Hstuck st')].
    apply inv_reachable. eapply steps_reachable; [exact Hs|]. apply pool_init.
Qed.

End pool.
End barriers.

(** ** A worked batch: two groups, two workers *)

Definition demo_item (id g : String.string) (ordinal : Z) : ConcurrencyWork (T := unit) :=
  {| cw_work_id := u id; cw_group := u g; cw_ordinal := ordinal; cw_payload := tt |}.
Definition demo_batch : list ConcurrencyWork :=
  [demo_item "w1" "beta" 2; demo_item "w2" "alpha" 0; demo_item "w3" "beta" 1].

Abbreviation demo_pool := (pool_step (R := bool) demo_batch).
Abbreviation demo_pool_start := (pool_start (R := bool) demo_batch 2).

Lemma demo_setup : exists cs, run_setup (Some 2) demo_batch = Ok (2, cs) /\ length cs = 2%nat.
Proof. eexists. split; [vm_compute; reflexivity|reflexivity]. Qed.

(** One interleaving: both workers wait before either group is released. *)
Ltac take_by i := eapply nsteps_l; [eapply (step_take _ _ i); vm_compute; reflexivity|].
Ltac release_at now := eapply nsteps_l; [eapply (step_release _ _ _ _ now); vm_compute; reflexivity|].
Ltac start_by i now :=
  eapply nsteps_l; [eapply (step_start _ _ i _ now);
    [vm_compute; reflexivity|refine (proj1 (bool_decide_eq_true _) _); vm_compute; reflexivity|vm_compute; reflexivity]|].
Ltac finish_by i r := eapply nsteps_l; [eapply (step_finish _ _ i _ _ r); vm_compute; reflexivity|].
Ltac exit_by i := eapply nsteps_l; [eapply (step_exit _ _ i); [vm_compute; reflexivity|vm_compute; lia]|].

Lemma demo_execution : exists st, nsteps demo_pool 13 demo_pool_start st /\ pool_done demo_batch st = true.
Proof.
  eexists. split.
  - take_by 0%nat. take_by 1%nat. release_at 5. release_at 6. start_by 1%nat 7. start_by 0%nat 8.
    finish_by 0%nat true. take_by 0%nat. finish_by 1%nat false. exit_by 1%nat.
    start_by 0%nat 9. finish_by 0%nat true. exit_by 0%nat. apply nsteps_O.
  - vm_compute. reflexivity.
Qed.

Lemma pool_complete_witness :
  exists st run, pool_reachable (R := bool) demo_batch 2 st /\ pool_result demo_batch 2 st = Ok run /\
    map cp_work (run_completed run) = demo_batch.
Proof.
  destruct demo_setup as (cs & Hs & _). destruct demo_execution as (st & Hrun & Hd).
  assert (pool_reachable demo_batch 2 st) as Hr by (eapply steps_reachable; [exact Hrun|apply pool_init]).
  destruct (pool_complete demo_batch 2 (Some 2) cs st Hs Hr Hd) as (run & H1 & H2 & _).
  exists st, run. split; [exact Hr|]. split; [exact H1|exact H2].
Defined.

Lemma pool_safe_witness :
  exists st, pool_reachable (R := bool) demo_batch 2 st /\ zlen (running st) <= 2.
Proof.
  destruct demo_setup as (cs & Hs & _). destruct demo_execution as (st & Hrun & Hd).
  assert (pool_reachable demo_batch 2 st) as Hr by (eapply steps_reachable; [exact Hrun|apply pool_init]).
  exists st. split; [exact Hr|]. apply (pool_safe demo_batch 2 (Some 2) cs st Hs Hr).
Defined.

Lemma pool_live_witness :
  exists (cs : list (str * list (nat * ConcurrencyWork (T := unit)))) st, nsteps demo_pool 13 demo_pool_start st /\
    (13 <= 4 * length demo_batch + created demo_batch 2 + length cs)%nat /\ length cs = 2%nat.
Proof.
  destruct demo_setup as (cs & Hs & Hl). destruct demo_execution as (st & Hrun & _). exists cs, st.
  split; [exact Hrun|]. split; [|exact Hl].
  apply (pool_live demo_batch 2 true (Some 2) cs 13 st Hs); [|exact Hrun].
  repeat constructor; vm_compute; reflexivity.
Defined.
