(* ===== verification/Recovery.v ===== *)
(** * Recovery scanning

    [recovery/models.py] and [recovery/scanner.py]: what a fresh process does with the attempts and
    observations an interrupted one left behind.  The scan reads the journal in one transaction,
    classifies every attempt by its state and durable phase evidence and builds a plan; [apply]
    rebinds recoverable leases and commits the plan's transitions, each in its own transaction, so
    a failure keeps what was committed before it.  Columns restricted to an enumeration hold a
    member of it and timestamps an instant, so the parses of those columns cannot fail; the
    identifiers of new records are arguments. *)

From S2P Require Import Prelude Text Identifiers Domain Clocks Lifecycle Replay Commands Json Store Journal.

Local Open Scope Z_scope.

(** ** [recovery/models.py] *)

Inductive DurableNoSendProof := Proof_NONE | Proof_CONTROLLED_PRE_TRANSPORT | Proof_NO_CONNECTION_ESTABLISHED.
#[global] Instance DurableNoSendProof_eq_dec : EqDecision DurableNoSendProof.
Proof. solve_decision. Defined.
Definition DurableNoSendProof_value (p : DurableNoSendProof) : str :=
  match p with
  | Proof_NONE => u "none"
  | Proof_CONTROLLED_PRE_TRANSPORT => u "controlled_pre_transport"
  | Proof_NO_CONNECTION_ESTABLISHED => u "no_connection_established"
  end.

Inductive AttemptRecoveryAction :=
  | Recover_RESUME_SCHEDULED
  | Recover_RECLAIM_EXPIRED_CLAIM
  | Recover_REQUIRE_PHASE_EVIDENCE
  | Recover_TERMINATE_NOT_SENT
  | Recover_TERMINATE_UNKNOWN_OUTCOME
  | Recover_REDUCE_DURABLE_RESPONSE
  | Recover_PRESERVE_TERMINAL
  | Recover_PRESERVE_UNKNOWN_OUTCOME.
#[global] Instance AttemptRecoveryAction_eq_dec : EqDecision AttemptRecoveryAction.
Proof. solve_decision. Defined.

Inductive ObservationRecoveryAction :=
  | Observe_RESUME_SCHEDULED
  | Observe_TERMINATE_INTERRUPTED_ERROR
  | Observe_PRESERVE_TERMINAL.
#[global] Instance ObservationRecoveryAction_eq_dec : EqDecision ObservationRecoveryAction.
Proof. solve_decision. Defined.

Inductive RecoveryAmbiguity := Ambiguity_NONE | Ambiguity_PHASE_EVIDENCE_REQUIRED | Ambiguity_POSSIBLE_RECEIVER_EFFECT.
#[global] Instance RecoveryAmbiguity_eq_dec : EqDecision RecoveryAmbiguity.
Proof. solve_decision. Defined.

(** The fields of [RunLockMetadata] the context is checked against. *)
Record RunLockMetadata := { lock_run_id : str; lock_owner_epoch : Z }.
Record RecoveryScanContext := { cx_run_id : str; cx_owner_epoch : Z; cx_owner : RunLockMetadata }.

Definition _nonnegative_integer (value maximum : Z) : result Z :=
  raise_if negb (within 0 maximum value) with ValueError ;; Ok value.

(** [RecoveryScanContext.__post_init__] *)
Definition validate_scan_context (cx : RecoveryScanContext) : result RecoveryScanContext :=
  let! _ := validate_run_id (cx_run_id cx) in
  let! _ := _nonnegative_integer (cx_owner_epoch cx) MAX_OWNER_EPOCH in
  raise_if negb (bool_decide (lock_run_id (cx_owner cx) = cx_run_id cx)) with ValueError ;;
  raise_if negb (lock_owner_epoch (cx_owner cx) =? cx_owner_epoch cx) with ValueError ;;
  Ok cx.

Record AttemptRecoveryItem := {
  ri_run_id : str;
  ri_scenario_id : str;
  ri_event_id : str;
  ri_delivery_id : str;
  ri_attempt_id : str;
  ri_scenario_ordinal : Z;
  ri_step_ordinal : Z;
  ri_delivery_ordinal : Z;
  ri_attempt_ordinal : Z;
  ri_prior_state : AttemptState;
  ri_durable_no_send_proof : DurableNoSendProof;
  ri_action : AttemptRecoveryAction;
  ri_ambiguity : RecoveryAmbiguity;
  ri_target_state : option AttemptState;
  ri_predecessor_attempt_id : option str;
  ri_response_staging : option AttemptResponseStagingCommand
}.
#[global] Instance AttemptResponseStagingCommand_eq_dec : EqDecision AttemptResponseStagingCommand.
Proof. solve_decision. Defined.
#[global] Instance AttemptRecoveryItem_eq_dec : EqDecision AttemptRecoveryItem.
Proof. solve_decision. Defined.

Definition _ATTEMPT_ACTION_PRIOR_STATES (a : AttemptRecoveryAction) : list AttemptState :=
  match a with
  | Recover_RESUME_SCHEDULED => [Attempt_SCHEDULED]
  | Recover_RECLAIM_EXPIRED_CLAIM => [Attempt_CLAIMED]
  | Recover_REQUIRE_PHASE_EVIDENCE => [Attempt_PRE_SEND_COMMITTED]
  | Recover_TERMINATE_NOT_SENT => [Attempt_PRE_SEND_COMMITTED; Attempt_CONNECTING]
  | Recover_TERMINATE_UNKNOWN_OUTCOME => [Attempt_CONNECTING; Attempt_SENDING; Attempt_AWAITING_RESPONSE]
  | Recover_REDUCE_DURABLE_RESPONSE => [Attempt_RESPONSE_OBSERVED]
  | Recover_PRESERVE_TERMINAL =>
    [Attempt_NOT_SENT; Attempt_SUCCEEDED; Attempt_REJECTED; Attempt_TRANSPORT_FAILED; Attempt_CANCELLED]
  | Recover_PRESERVE_UNKNOWN_OUTCOME => [Attempt_UNKNOWN_OUTCOME]
  end.

(** [.get(action)]: absent actions have no target, and [Ambiguity_NONE]. *)
Definition _ATTEMPT_ACTION_TARGETS (a : AttemptRecoveryAction) : option AttemptState :=
  match a with
  | Recover_TERMINATE_NOT_SENT => Some Attempt_NOT_SENT
  | Recover_TERMINATE_UNKNOWN_OUTCOME => Some Attempt_UNKNOWN_OUTCOME
  | _ => None
  end.
Definition _ATTEMPT_ACTION_AMBIGUITY (a : AttemptRecoveryAction) : RecoveryAmbiguity :=
  match a with
  | Recover_REQUIRE_PHASE_EVIDENCE => Ambiguity_PHASE_EVIDENCE_REQUIRED
  | Recover_TERMINATE_UNKNOWN_OUTCOME | Recover_PRESERVE_UNKNOWN_OUTCOME => Ambiguity_POSSIBLE_RECEIVER_EFFECT
  | _ => Ambiguity_NONE
  end.

Definition _expected_no_send_proof (i : AttemptRecoveryItem) : DurableNoSendProof :=
  if negb (bool_decide (ri_action i = Recover_TERMINATE_NOT_SENT)) then Proof_NONE
  else if bool_decide (ri_prior_state i = Attempt_PRE_SEND_COMMITTED) then Proof_CONTROLLED_PRE_TRANSPORT
  else Proof_NO_CONNECTION_ESTABLISHED.

Definition _validate_attempt_action (i : AttemptRecoveryItem) : result unit :=
  let! _ :=
    if bool_decide (ri_action i = Recover_REDUCE_DURABLE_RESPONSE) then
      match ri_response_staging i with
      | None => Raise ValueError
      | Some staging =>
        raise_if negb (bool_decide (ri_target_state i = Some (st_terminal_state staging))) with ValueError ;; Ok tt
      end
    else
      raise_if negb (bool_decide (ri_target_state i = _ATTEMPT_ACTION_TARGETS (ri_action i))) with ValueError ;;
      raise_if negb (is_none (ri_response_staging i)) with ValueError ;;
      Ok tt in
  raise_if negb (bool_decide (ri_prior_state i ∈ _ATTEMPT_ACTION_PRIOR_STATES (ri_action i))) with ValueError ;;
  raise_if negb (bool_decide (ri_ambiguity i = _ATTEMPT_ACTION_AMBIGUITY (ri_action i))) with ValueError ;;
  raise_if negb (bool_decide (ri_durable_no_send_proof i = _expected_no_send_proof i)) with ValueError ;;
  Ok tt.

(** [AttemptRecoveryItem.__post_init__] *)
Definition validate_recovery_item (i : AttemptRecoveryItem) : result AttemptRecoveryItem :=
  let! _ := validate_run_id (ri_run_id i) in
  let! _ := validate_planned_id (ri_scenario_id i) (Some Planned_SCENARIO) in
  let! _ := validate_planned_id (ri_event_id i) (Some Planned_EVENT) in
  let! _ := validate_planned_id (ri_delivery_id i) (Some Planned_DELIVERY) in
  let! _ := validate_fresh_id (ri_attempt_id i) (Some Fresh_ATTEMPT) in
  let! _ := when_some (ri_predecessor_attempt_id i) (fun p =>
    let! _ := validate_fresh_id p (Some Fresh_ATTEMPT) in
    raise_if bool_decide (p = ri_attempt_id i) with ValueError ;; Ok tt) in
  let! _ := map_result (fun v => _nonnegative_integer v MAX_SAFE_INTEGER)
    [ri_scenario_ordinal i; ri_step_ordinal i; ri_delivery_ordinal i; ri_attempt_ordinal i] in
  let! _ := _validate_attempt_action i in
  Ok i.

Definition requires_transition (i : AttemptRecoveryItem) : bool := negb (is_none (ri_target_state i)).
Definition deterministic_key (i : AttemptRecoveryItem) : Z * (Z * (Z * (Z * str))) :=
  (ri_scenario_ordinal i, (ri_step_ordinal i, (ri_delivery_ordinal i, (ri_attempt_ordinal i, ri_attempt_id i)))).

Record ObservationRecoveryItem := {
  oi_run_id : str;
  oi_scenario_id : str;
  oi_observation_id : str;
  oi_scenario_ordinal : Z;
  oi_prior_state : ObservationState;
  oi_action : ObservationRecoveryAction;
  oi_target_state : option ObservationState
}.
#[global] Instance ObservationRecoveryItem_eq_dec : EqDecision ObservationRecoveryItem.
Proof. solve_decision. Defined.

(** [ObservationRecoveryItem.__post_init__] *)
Definition validate_observation_item (i : ObservationRecoveryItem) : result ObservationRecoveryItem :=
  let! _ := validate_run_id (oi_run_id i) in
  let! _ := validate_planned_id (oi_scenario_id i) (Some Planned_SCENARIO) in
  let! _ := validate_planned_id (oi_observation_id i) (Some Planned_OBSERVATION) in
  let! _ := _nonnegative_integer (oi_scenario_ordinal i) MAX_SAFE_INTEGER in
  let expected_target :=
    if bool_decide (oi_action i = Observe_TERMINATE_INTERRUPTED_ERROR) then Some Observation_ERROR else None in
  raise_if negb (bool_decide (oi_target_state i = expected_target)) with ValueError ;;
  raise_if bool_decide (oi_action i = Observe_RESUME_SCHEDULED)
           && negb (bool_decide (oi_prior_state i = Observation_SCHEDULED)) with ValueError ;;
  raise_if bool_decide (oi_action i = Observe_TERMINATE_INTERRUPTED_ERROR)
           && negb (bool_decide (oi_prior_state i = Observation_RUNNING)) with ValueError ;;
  raise_if bool_decide (oi_action i = Observe_PRESERVE_TERMINAL)
           && negb (bool_decide (oi_prior_state i ∈ [Observation_OK; Observation_PENDING;
                Observation_UNSUPPORTED; Observation_ERROR; Observation_TIMED_OUT; Observation_CANCELLED]))
    with ValueError ;;
  Ok i.

Definition observation_requires_transition (i : ObservationRecoveryItem) : bool := negb (is_none (oi_target_state i)).
Definition observation_key (i : ObservationRecoveryItem) : Z * str := (oi_scenario_ordinal i, oi_observation_id i).

Record RecoveryPlan := {
  rp_run_id : str;
  rp_owner_epoch : Z;
  rp_run_state : RunState;
  rp_attempts : list AttemptRecoveryItem;
  rp_observations : list ObservationRecoveryItem
}.

Definition same_coordinates (item predecessor : AttemptRecoveryItem) : bool :=
  bool_decide (ri_scenario_id item = ri_scenario_id predecessor)
  && bool_decide (ri_event_id item = ri_event_id predecessor)
  && bool_decide (ri_delivery_id item = ri_delivery_id predecessor)
  && (ri_scenario_ordinal item =? ri_scenario_ordinal predecessor)
  && (ri_step_ordinal item =? ri_step_ordinal predecessor)
  && (ri_delivery_ordinal item =? ri_delivery_ordinal predecessor)
  && (ri_attempt_ordinal item =? ri_attempt_ordinal predecessor + 1).

Definition predecessor_step (attempts_by_id : gmap str AttemptRecoveryItem) (seen : gset str)
    (item : AttemptRecoveryItem) : result (gset str) :=
  match ri_predecessor_attempt_id item with
  | None => Ok seen
  | Some predecessor_id =>
    match attempts_by_id !! predecessor_id with
    | None => Raise ValueError
    | Some predecessor =>
      raise_if bool_decide (predecessor_id ∈ seen) with ValueError ;;
      raise_if negb (same_coordinates item predecessor) with ValueError ;;
      Ok ({[predecessor_id]} ∪ seen)
    end
  end.

(** [{item.attempt_id: item for item in attempts}]: the last item of an identifier wins. *)
Definition attempts_by_id (items : list AttemptRecoveryItem) : gmap str AttemptRecoveryItem :=
  fold_left (fun m i => <[ri_attempt_id i := i]> m) items ∅.

Definition _validate_attempt_predecessors (items : list AttemptRecoveryItem) : result unit :=
  let! _ := for_each (predecessor_step (attempts_by_id items)) ∅ items in
  Ok tt.

Definition _validate_plan_inventories (p : RecoveryPlan) : result unit :=
  raise_if existsb (fun i => negb (bool_decide (ri_run_id i = rp_run_id p))) (rp_attempts p)
           || existsb (fun i => negb (bool_decide (oi_run_id i = rp_run_id p))) (rp_observations p)
    with ValueError ;;
  raise_if negb (bool_decide (NoDup (map ri_attempt_id (rp_attempts p))))
           || negb (bool_decide (NoDup (map oi_observation_id (rp_observations p)))) with ValueError ;;
  let! _ := _validate_attempt_predecessors (rp_attempts p) in
  raise_if negb (bool_decide (rp_attempts p = py_sorted deterministic_key (rp_attempts p))) with ValueError ;;
  raise_if negb (bool_decide (rp_observations p = py_sorted observation_key (rp_observations p))) with ValueError ;;
  Ok tt.

(** [RecoveryPlan.__post_init__] *)
Definition validate_recovery_plan (p : RecoveryPlan) : result RecoveryPlan :=
  let! _ := validate_run_id (rp_run_id p) in
  let! _ := _nonnegative_integer (rp_owner_epoch p) MAX_OWNER_EPOCH in
  let! _ := _validate_plan_inventories p in
  Ok p.

Definition unresolved_ambiguous_attempts (p : RecoveryPlan) : list AttemptRecoveryItem :=
  let predecessors := omap ri_predecessor_attempt_id (rp_attempts p) in
  List.filter (fun i => negb (bool_decide (ri_ambiguity i = Ambiguity_NONE))
                        && negb (bool_decide (ri_attempt_id i ∈ predecessors))) (rp_attempts p).
Definition contains_ambiguity (p : RecoveryPlan) : bool :=
  negb (bool_decide (unresolved_ambiguous_attempts p = [])).
Definition automatic_transition_count (p : RecoveryPlan) : Z :=
  zlen (List.filter requires_transition (rp_attempts p))
  + zlen (List.filter observation_requires_transition (rp_observations p)).

(** ** [recovery/scanner.py]: classification *)

Definition MAX_RECOVERY_ITEMS : Z := 100000.
Definition SCAN_PAGE_SIZE : nat := Z.to_nat 1000.
Definition TRIGGER_RECOVERY_NO_SEND_PROOF : str := u "recovery_no_send_proof".
Definition TRIGGER_RECOVERY_INTERRUPTED_SEND : str := u "recovery_interrupted_send".
Definition TRIGGER_RECOVERY_INTERRUPTED_OBSERVER : str := u "recovery_interrupted_observer".

(** [None] for a state that is not terminal. *)
Definition _TERMINAL_ATTEMPT_CLASSIFICATIONS (s : AttemptState) : option (list AttemptClassification) :=
  match s with
  | Attempt_NOT_SENT => Some [Class_ENVIRONMENT_FAILURE; Class_HARNESS_FAILURE]
  | Attempt_SUCCEEDED => Some [Class_RECEIVER_ACCEPTED]
  | Attempt_REJECTED => Some [Class_RECEIVER_REJECTED]
  | Attempt_TRANSPORT_FAILED => Some [Class_ENVIRONMENT_FAILURE; Class_HARNESS_FAILURE]
  | Attempt_UNKNOWN_OUTCOME => Some [Class_AMBIGUOUS]
  | Attempt_CANCELLED => Some [Class_CANCELLED]
  | _ => None
  end.

Definition AttemptClassificationDecision : Type := AttemptRecoveryAction * RecoveryAmbiguity * option AttemptState.

(** [None] for the two states that need phase evidence. *)
Definition _STATIC_ATTEMPT_DECISIONS (s : AttemptState) : option AttemptClassificationDecision :=
  match s with
  | Attempt_SCHEDULED => Some (Recover_RESUME_SCHEDULED, Ambiguity_NONE, None)
  | Attempt_CLAIMED => Some (Recover_RECLAIM_EXPIRED_CLAIM, Ambiguity_NONE, None)
  | Attempt_SENDING | Attempt_AWAITING_RESPONSE =>
    Some (Recover_TERMINATE_UNKNOWN_OUTCOME, Ambiguity_POSSIBLE_RECEIVER_EFFECT, Some Attempt_UNKNOWN_OUTCOME)
  | Attempt_RESPONSE_OBSERVED => Some (Recover_REDUCE_DURABLE_RESPONSE, Ambiguity_NONE, None)
  | Attempt_NOT_SENT | Attempt_SUCCEEDED | Attempt_REJECTED | Attempt_TRANSPORT_FAILED | Attempt_CANCELLED =>
    Some (Recover_PRESERVE_TERMINAL, Ambiguity_NONE, None)
  | Attempt_UNKNOWN_OUTCOME => Some (Recover_PRESERVE_UNKNOWN_OUTCOME, Ambiguity_POSSIBLE_RECEIVER_EFFECT, None)
  | Attempt_PRE_SEND_COMMITTED | Attempt_CONNECTING => None
  end.

Definition classify_attempt_state (state : AttemptState) (proof : DurableNoSendProof)
    : result AttemptClassificationDecision :=
  if bool_decide (state = Attempt_PRE_SEND_COMMITTED) then
    if bool_decide (proof = Proof_CONTROLLED_PRE_TRANSPORT)
    then Ok (Recover_TERMINATE_NOT_SENT, Ambiguity_NONE, Some Attempt_NOT_SENT)
    else Ok (Recover_REQUIRE_PHASE_EVIDENCE, Ambiguity_PHASE_EVIDENCE_REQUIRED, None)
  else if bool_decide (state = Attempt_CONNECTING) then
    if bool_decide (proof = Proof_NO_CONNECTION_ESTABLISHED)
    then Ok (Recover_TERMINATE_NOT_SENT, Ambiguity_NONE, Some Attempt_NOT_SENT)
    else Ok (Recover_TERMINATE_UNKNOWN_OUTCOME, Ambiguity_POSSIBLE_RECEIVER_EFFECT, Some Attempt_UNKNOWN_OUTCOME)
  else
    match _STATIC_ATTEMPT_DECISIONS state with
    | Some decision => Ok decision
    | None => Raise KeyError
    end.

Definition classify_observation_state (s : ObservationState) : ObservationRecoveryAction * option ObservationState :=
  match s with
  | Observation_SCHEDULED => (Observe_RESUME_SCHEDULED, None)
  | Observation_RUNNING => (Observe_TERMINATE_INTERRUPTED_ERROR, Some Observation_ERROR)
  | _ => (Observe_PRESERVE_TERMINAL, None)
  end.

(** ** The scan *)

Record _AttemptRow := {
  ra_attempt_id : str; ra_scenario_id : str; ra_event_id : str; ra_delivery_id : str; ra_attempt_ordinal : Z;
  ra_state : AttemptState; ra_phase : option str; ra_outcome_category : option AttemptClassification;
  ra_terminal_recorded_at : option Z; ra_attempt_owner_epoch : option Z;
  ra_scenario_ordinal : Z; ra_step_ordinal : Z; ra_delivery_ordinal : Z; ra_predecessor_attempt_id : option str
}.
Record _ObservationRow := {
  ro_observation_id : str; ro_scenario_id : str; ro_state : ObservationState; ro_scenario_ordinal : Z
}.
Record _ScanRows := {
  sr_run_state : RunState; sr_owner_epoch : Z; sr_attempts : list _AttemptRow;
  sr_response_staging : list (str * StagingRow); sr_observations : list _ObservationRow
}.

(** The row an attempt joins to: its scenario and its delivery, of the same run. *)
Definition joined_attempt (db : Database) (id : str) (a : AttemptRow) : option _AttemptRow :=
  match scenarios db !! at_scenario_id a, deliveries db !! at_delivery_id a with
  | Some sc, Some dl =>
    if bool_decide (sc_run_id sc = at_run_id a) && bool_decide (dl_run_id dl = at_run_id a)
       && bool_decide (dl_scenario_id dl = at_scenario_id a) && bool_decide (dl_event_id dl = at_event_id a)
    then Some {| ra_attempt_id := id; ra_scenario_id := at_scenario_id a; ra_event_id := at_event_id a;
                 ra_delivery_id := at_delivery_id a; ra_attempt_ordinal := at_ordinal a; ra_state := at_state a;
                 ra_phase := at_phase a; ra_outcome_category := at_outcome_category a;
                 ra_terminal_recorded_at := at_terminal_recorded_at a; ra_attempt_owner_epoch := at_owner_epoch a;
                 ra_scenario_ordinal := sc_ordinal sc; ra_step_ordinal := dl_step_ordinal dl;
                 ra_delivery_ordinal := dl_ordinal dl; ra_predecessor_attempt_id := at_predecessor_attempt_id a |}
    else None
  | _, _ => None
  end.
Definition joined_observation (db : Database) (id : str) (o : SeriesRow) : option _ObservationRow :=
  match scenarios db !! ob_scenario_id o with
  | Some sc =>
    if bool_decide (sc_run_id sc = ob_run_id o)
    then Some {| ro_observation_id := id; ro_scenario_id := ob_scenario_id o; ro_state := ob_state o;
                 ro_scenario_ordinal := sc_ordinal sc |}
    else None
  | None => None
  end.

(** The rows of a run that a scanning query selects, by identifier. *)
Definition scanned {A B : Type} (t : gmap str A) (cond : A -> bool) (row : str -> A -> option B) : list (str * B) :=
  py_sorted fst (omap (fun kv => option_map (pair kv.1) (row kv.1 kv.2)) (select t (fun _ a => cond a))).

(** The three loading loops: [WHERE ... AND id > ? ORDER BY id LIMIT 1000] until a short page. *)
Fixpoint scan_pages {B : Type} (fuel : nat) (rows : list (str * B)) (last : str) (acc : list (str * B))
    : result (list (str * B)) :=
  match fuel with
  | O => Raise RuntimeError
  | S fuel' =>
    let page := take SCAN_PAGE_SIZE (List.filter (fun kv => cmp_ltb last kv.1) rows) in
    if bool_decide (length page = 0%nat) then Ok acc
    else
      let acc' := acc ++ page in
      let last' := fold_left (fun _ kv => kv.1) page last in
      if bool_decide ((length page < SCAN_PAGE_SIZE)%nat) then Ok acc' else scan_pages fuel' rows last' acc'
  end.
Definition load_pages {B : Type} (rows : list (str * B)) : result (list (str * B)) :=
  scan_pages (S (length rows)) rows [] [].

Definition _load_attempt_rows (db : Database) (run_id : str) : result (list _AttemptRow) :=
  let! rows := load_pages (scanned (attempts db) (fun a => bool_decide (at_run_id a = run_id)) (joined_attempt db)) in
  Ok (map snd rows).
Definition _load_response_staging_rows (db : Database) (run_id : str) : result (list (str * StagingRow)) :=
  load_pages (scanned (attempt_response_staging db) (fun r => bool_decide (sg_run_id r = run_id)) (fun _ r => Some r)).
Definition _load_observation_rows (db : Database) (run_id : str) : result (list _ObservationRow) :=
  let! rows := load_pages (scanned (observer_series db) (fun o => bool_decide (ob_run_id o = run_id))
    (joined_observation db)) in
  Ok (map snd rows).

(** [_ScanOperation.execute] *)
Definition scan_execute (db : Database) (run_id : str) : result _ScanRows :=
  match runs db !! run_id with
  | None => Raise RecoveryIntegrityError
  | Some run =>
    let total := zlen (select (attempts db) (fun _ a => bool_decide (at_run_id a = run_id)))
                 + zlen (select (observer_series db) (fun _ o => bool_decide (ob_run_id o = run_id))) in
    raise_if (MAX_RECOVERY_ITEMS <? total) with RecoveryResourceLimitError ;;
    let! attempt_rows := _load_attempt_rows db run_id in
    let! staging_rows := _load_response_staging_rows db run_id in
    let! observation_rows := _load_observation_rows db run_id in
    raise_if negb (zlen attempt_rows + zlen observation_rows =? total) with RecoveryIntegrityError ;;
    Ok {| sr_run_state := Store.run_state run; sr_owner_epoch := run_owner_epoch run; sr_attempts := attempt_rows;
          sr_response_staging := staging_rows; sr_observations := observation_rows |}
  end.

Definition _validate_attempt_projection (row : _AttemptRow) : result unit :=
  match _TERMINAL_ATTEMPT_CLASSIFICATIONS (ra_state row) with
  | None =>
    raise_if negb (is_none (ra_outcome_category row)) || negb (is_none (ra_terminal_recorded_at row))
      with RecoveryIntegrityError ;;
    Ok tt
  | Some allowed =>
    match ra_outcome_category row, ra_terminal_recorded_at row with
    | Some classification, Some _ =>
      raise_if negb (bool_decide (classification ∈ allowed)) with RecoveryIntegrityError ;; Ok tt
    | _, _ => Raise RecoveryIntegrityError
    end
  end.

Definition _durable_no_send_proof (value : option str) : DurableNoSendProof :=
  if bool_decide (value = Some (DurableNoSendProof_value Proof_CONTROLLED_PRE_TRANSPORT))
  then Proof_CONTROLLED_PRE_TRANSPORT
  else if bool_decide (value = Some (DurableNoSendProof_value Proof_NO_CONNECTION_ESTABLISHED))
  then Proof_NO_CONNECTION_ESTABLISHED
  else Proof_NONE.

Definition _attempt_item (run_id : str) (row : _AttemptRow) (staging : option AttemptResponseStagingCommand)
    : result AttemptRecoveryItem :=
  let! _ := _validate_attempt_projection row in
  let raw_proof := _durable_no_send_proof (ra_phase row) in
  let! decision := classify_attempt_state (ra_state row) raw_proof in
  let '(action, ambiguity, target) := decision in
  let! target :=
    if bool_decide (action = Recover_REDUCE_DURABLE_RESPONSE) then
      match staging with
      | None => Raise RecoveryIntegrityError
      | Some s => Ok (Some (st_terminal_state s))
      end
    else raise_if negb (is_none staging) with RecoveryIntegrityError ;; Ok target in
  let proof := if bool_decide (action = Recover_TERMINATE_NOT_SENT) then raw_proof else Proof_NONE in
  validate_recovery_item
    {| ri_run_id := run_id; ri_scenario_id := ra_scenario_id row; ri_event_id := ra_event_id row;
       ri_delivery_id := ra_delivery_id row; ri_attempt_id := ra_attempt_id row;
       ri_scenario_ordinal := ra_scenario_ordinal row; ri_step_ordinal := ra_step_ordinal row;
       ri_delivery_ordinal := ra_delivery_ordinal row; ri_attempt_ordinal := ra_attempt_ordinal row;
       ri_prior_state := ra_state row; ri_durable_no_send_proof := proof; ri_action := action;
       ri_ambiguity := ambiguity; ri_target_state := target;
       ri_predecessor_attempt_id := ra_predecessor_attempt_id row; ri_response_staging := staging |}.

Definition _observation_item (run_id : str) (row : _ObservationRow) : result ObservationRecoveryItem :=
  let '(action, target) := classify_observation_state (ro_state row) in
  validate_observation_item
    {| oi_run_id := run_id; oi_scenario_id := ro_scenario_id row; oi_observation_id := ro_observation_id row;
       oi_scenario_ordinal := ro_scenario_ordinal row; oi_prior_state := ro_state row; oi_action := action;
       oi_target_state := target |}.

(** ** Staged responses *)

(** [_text] and [_integer] of a nullable column. *)
Definition _text (value : option str) : result str :=
  match value with Some t => Ok t | None => Raise RecoveryIntegrityError end.
Definition _integer (value : option Z) : result Z :=
  match value with Some z => Ok z | None => Raise RecoveryIntegrityError end.

Definition json_text_items (items : list json) : option (list str) :=
  mapM (fun j => match j with JString s => Some s | _ => None end) items.

(** [json.loads(headers_blob)], refused unless it is a list of strings. *)
Definition staged_header_names (blob : option str) : result (list str) :=
  match blob with
  | None => Raise RecoveryIntegrityError
  | Some text =>
    match json_loads any_number text with
    | Some (JArray items) =>
      match json_text_items items with Some names => Ok names | None => Raise RecoveryIntegrityError end
    | _ => Raise RecoveryIntegrityError
    end
  end.

Definition staged_retry (attempt_id : str) (row : StagingRow) : result (option RetrySchedule) :=
  match sg_retry_schedule_entry_id row with
  | None => Ok None
  | Some schedule_entry_id =>
    let! entity_id := _text (sg_retry_entity_id row) in
    let! logical_time_ns := _integer (sg_retry_logical_time_ns row) in
    let! scenario_ordinal := _integer (sg_retry_scenario_ordinal row) in
    let! step_ordinal := _integer (sg_retry_step_ordinal row) in
    let! delivery_ordinal := _integer (sg_retry_delivery_ordinal row) in
    let! attempt_ordinal := _integer (sg_retry_attempt_ordinal row) in
    let! tie_key := _text (sg_retry_deterministic_tie_key row) in
    let! idempotency_key := _text (sg_retry_idempotency_key row) in
    let! retry := validate_retry_schedule
      {| rs_schedule_entry_id := schedule_entry_id; rs_scenario_id := sg_scenario_id row;
         rs_entity_type := u "attempt"; rs_entity_id := entity_id; rs_logical_time_ns := logical_time_ns;
         rs_scenario_ordinal := scenario_ordinal; rs_step_ordinal := step_ordinal;
         rs_delivery_ordinal := delivery_ordinal; rs_attempt_ordinal := attempt_ordinal;
         rs_deterministic_tie_key := tie_key; rs_idempotency_key := idempotency_key;
         rs_predecessor_attempt_id := attempt_id; rs_condition_json := sg_retry_condition_json row |} in
    Ok (Some retry)
  end.

Definition staged_error (row : StagingRow) : result (option TransportError) :=
  match sg_error_category row with
  | None => Ok None
  | Some category =>
    let! message := _text (sg_error_message_redacted row) in
    Ok (Some {| err_category := category; err_message_redacted := message; err_phase := sg_error_phase row |})
  end.

Definition _response_staging (attempt_id : str) (row : StagingRow) : result AttemptResponseStagingCommand :=
  let! header_names := staged_header_names (sg_request_header_names_json row) in
  raise_if negb (bool_decide (sg_request_method row = u "POST")) with RecoveryIntegrityError ;;
  let! error := staged_error row in
  let! retry := staged_retry attempt_id row in
  let! evidence := validate_transport_evidence
    {| ev_record_id := sg_record_id row; ev_run_id := sg_run_id row; ev_scenario_id := sg_scenario_id row;
       ev_event_id := sg_event_id row; ev_delivery_id := sg_delivery_id row; ev_attempt_id := attempt_id;
       ev_state := sg_evidence_state row; ev_classification := sg_classification row;
       ev_request := Some {| req_method := u "POST"; req_url_redacted := sg_request_url_redacted row;
                             req_body_sha256 := sg_request_body_sha256 row;
                             req_byte_length := sg_request_byte_length row; req_header_names := header_names |};
       ev_response := Some {| resp_status := sg_response_status row;
                              resp_body_sha256 := Some (sg_response_body_sha256 row);
                              resp_captured_bytes := sg_response_captured_bytes row;
                              resp_truncated := sg_response_truncated row |};
       ev_error := error; ev_response_headers_elapsed_ns := sg_response_headers_elapsed_ns row |} in
  validate_response_staging
    {| st_terminal_state := sg_terminal_state row;
       st_terminal_outcome := {| outcome_classification := sg_classification row; outcome_retry_schedule := retry |};
       st_transport_evidence := evidence |}.

(** ** [RecoveryScanner.scan] *)

(** [except (TypeError, ValueError)]: invalid evidence is an integrity failure. *)
Definition as_integrity {A} (r : result A) : result A :=
  match r with
  | Raise TypeError | Raise ValueError => Raise RecoveryIntegrityError
  | _ => r
  end.

Definition scan_attempts (run_id : str) (rows : _ScanRows)
    : result (gmap str AttemptResponseStagingCommand * list AttemptRecoveryItem) :=
  let! staged := map_result (fun kv => let! s := _response_staging kv.1 kv.2 in Ok (kv.1, s)) (sr_response_staging rows) in
  let staging_by_attempt := list_to_map staged : gmap str AttemptResponseStagingCommand in
  raise_if negb (Z.of_nat (size staging_by_attempt) =? zlen (sr_response_staging rows)) with RecoveryIntegrityError ;;
  let! items := map_result (fun row => _attempt_item run_id row (staging_by_attempt !! ra_attempt_id row))
    (sr_attempts rows) in
  Ok (staging_by_attempt, py_sorted deterministic_key items).

Definition scan (db : Database) (cx : RecoveryScanContext) : result RecoveryPlan :=
  let! rows := scan_execute db (cx_run_id cx) in
  raise_if negb (sr_owner_epoch rows =? cx_owner_epoch cx) with RecoveryOwnerEpochError ;;
  let! scanned_attempts := as_integrity (scan_attempts (cx_run_id cx) rows) in
  let '(staging_by_attempt, items) := scanned_attempts in
  raise_if negb (bool_decide
      (list_to_set (map ri_attempt_id (List.filter (fun i => negb (is_none (ri_response_staging i))) items))
       =@{gset str} dom staging_by_attempt)) with RecoveryIntegrityError ;;
  let! observations := map_result (_observation_item (cx_run_id cx)) (sr_observations rows) in
  validate_recovery_plan
    {| rp_run_id := cx_run_id cx; rp_owner_epoch := cx_owner_epoch cx; rp_run_state := sr_run_state rows;
       rp_attempts := items; rp_observations := py_sorted observation_key observations |}.

(** ** The transitions of a plan *)

Definition _transition_id (entity_id target_state : str) : str := u "recovery." ++ entity_id ++ u "." ++ target_state.
Definition _idempotency_key (entity_id prior_state target_state : str) : str :=
  u "recovery." ++ entity_id ++ u "." ++ prior_state ++ u "." ++ target_state.

Definition no_send_classification (i : AttemptRecoveryItem) : AttemptClassification :=
  if bool_decide (ri_durable_no_send_proof i = Proof_CONTROLLED_PRE_TRANSPORT)
  then Class_HARNESS_FAILURE else Class_ENVIRONMENT_FAILURE.

Definition transition_target (i : AttemptRecoveryItem) : result AttemptState :=
  match ri_target_state i with
  | Some Attempt_NOT_SENT => Ok Attempt_NOT_SENT
  | Some Attempt_UNKNOWN_OUTCOME => Ok Attempt_UNKNOWN_OUTCOME
  | target =>
    match ri_response_staging i with
    | Some staging =>
      if bool_decide (ri_action i = Recover_REDUCE_DURABLE_RESPONSE)
         && bool_decide (target = Some (st_terminal_state staging))
      then Ok (st_terminal_state staging) else Raise RecoveryIntegrityError
    | None => Raise RecoveryIntegrityError
    end
  end.

Definition _attempt_transition (i : AttemptRecoveryItem) (owner_epoch : Z) (timestamp : TransitionTimestamp)
    : result TransitionCommand :=
  let! target := transition_target i in
  let trigger :=
    if bool_decide (target = Attempt_UNKNOWN_OUTCOME) then TRIGGER_RECOVERY_INTERRUPTED_SEND
    else match ri_response_staging i with
         | Some _ => u "recovery_response_reduction"
         | None => TRIGGER_RECOVERY_NO_SEND_PROOF
         end in
  let outcome :=
    match ri_response_staging i with
    | Some staging => st_terminal_outcome staging
    | None =>
      {| outcome_classification := if bool_decide (target = Attempt_UNKNOWN_OUTCOME) then Class_AMBIGUOUS
                                   else no_send_classification i;
         outcome_retry_schedule := None |}
    end in
  let! cause := validate_causal_reference {| cause_run_id := ri_run_id i; cause_record_id := ri_attempt_id i |} in
  validate_transition_command
    {| tc_run_id := ri_run_id i; tc_transition_id := _transition_id (ri_attempt_id i) (AttemptState_value target);
       tc_entity_type := Entity_ATTEMPT; tc_entity_id := ri_attempt_id i;
       tc_expected_state := Some (OfAttempt (ri_prior_state i)); tc_new_state := OfAttempt target;
       tc_trigger_category := trigger; tc_timestamp := timestamp; tc_owner_epoch := owner_epoch;
       tc_idempotency_key := _idempotency_key (ri_attempt_id i) (AttemptState_value (ri_prior_state i))
                               (AttemptState_value target);
       tc_causal_reference := Some cause;
       tc_logical_time_ns := None; tc_delivery_satisfaction := None; tc_attempt_outcome := Some outcome |}.

Definition _attempt_recovery_evidence (i : AttemptRecoveryItem) (record_id : str)
    : result AttemptTransportEvidenceCommand :=
  let evidence state classification category message :=
    validate_transport_evidence
      {| ev_record_id := record_id; ev_run_id := ri_run_id i; ev_scenario_id := ri_scenario_id i;
         ev_event_id := ri_event_id i; ev_delivery_id := ri_delivery_id i; ev_attempt_id := ri_attempt_id i;
         ev_state := state; ev_classification := classification; ev_request := None; ev_response := None;
         ev_error := Some {| err_category := category; err_message_redacted := message;
                             err_phase := Some (AttemptState_value (ri_prior_state i)) |};
         ev_response_headers_elapsed_ns := None |} in
  match ri_target_state i with
  | Some Attempt_NOT_SENT =>
    evidence Evidence_CONNECTION_FAILED (no_send_classification i)
      (if bool_decide (ri_durable_no_send_proof i = Proof_CONTROLLED_PRE_TRANSPORT)
       then u "recovery_controlled_pre_transport" else u "recovery_no_connection")
      (u "Recovery proved that no application request bytes left the harness.")
  | Some Attempt_UNKNOWN_OUTCOME =>
    evidence Evidence_UNKNOWN_OUTCOME Class_AMBIGUOUS (u "recovery_interrupted_send")
      (u "Recovery found a possible request send without a durable response.")
  | _ => Raise RecoveryIntegrityError
  end.

Definition _observation_transition (i : ObservationRecoveryItem) (owner_epoch : Z) (timestamp : TransitionTimestamp)
    : result TransitionCommand :=
  raise_if negb (bool_decide (oi_target_state i = Some Observation_ERROR)) with RecoveryIntegrityError ;;
  let! cause := validate_causal_reference {| cause_run_id := oi_run_id i; cause_record_id := oi_observation_id i |} in
  validate_transition_command
    {| tc_run_id := oi_run_id i;
       tc_transition_id := _transition_id (oi_observation_id i) (ObservationState_value Observation_ERROR);
       tc_entity_type := Entity_OBSERVATION; tc_entity_id := oi_observation_id i;
       tc_expected_state := Some (OfObservation (oi_prior_state i)); tc_new_state := OfObservation Observation_ERROR;
       tc_trigger_category := TRIGGER_RECOVERY_INTERRUPTED_OBSERVER; tc_timestamp := timestamp;
       tc_owner_epoch := owner_epoch;
       tc_idempotency_key := _idempotency_key (oi_observation_id i) (ObservationState_value (oi_prior_state i))
                               (ObservationState_value Observation_ERROR);
       tc_causal_reference := Some cause;
       tc_logical_time_ns := None; tc_delivery_satisfaction := None; tc_attempt_outcome := None |}.

(** ** Deliveries an attempt has settled *)

Record _DeliveryReductionRow := {
  dr_run_id : str; dr_delivery_id : str; dr_attempt_id : str; dr_attempt_state : AttemptState
}.

(** [prepared]: a claimed attempt of the entry's plan and ordinal, held by the current owner. *)
Definition holds_prepared (db : Database) (delivery_id : str) (e : ScheduleRow) : bool :=
  exists_row (attempts db) (fun _ p =>
    bool_decide (at_run_id p = se_run_id e) && bool_decide (at_scenario_id p = se_scenario_id e)
    && bool_decide (at_delivery_id p = delivery_id) && bool_decide (at_attempt_plan_id p = Some (se_entity_id e))
    && (at_ordinal p =? se_attempt_ordinal e) && bool_decide (at_state p = Attempt_CLAIMED)
    && match se_consumed_by_owner_epoch e with
       | Some epoch => bool_decide (option_map run_owner_epoch (runs db !! se_run_id e) = Some epoch)
       | None => false
       end).

(** The two [NOT EXISTS] clauses. *)
Definition has_successor (db : Database) (a : AttemptRow) : bool :=
  exists_row (attempts db) (fun _ s =>
    bool_decide (at_run_id s = at_run_id a) && bool_decide (at_delivery_id s = at_delivery_id a)
    && (at_ordinal a <? at_ordinal s)).
Definition has_open_schedule (db : Database) (delivery_id : str) (d : DeliveryRow) : bool :=
  exists_row (schedule_entries db) (fun _ e =>
    bool_decide (se_run_id e = dl_run_id d) && bool_decide (se_scenario_id e = dl_scenario_id d)
    && (se_delivery_ordinal e =? dl_ordinal d)
    && (is_none (se_consumed_at e) || holds_prepared db delivery_id e)).

Definition _REDUCIBLE_STATES : list AttemptState :=
  [Attempt_NOT_SENT; Attempt_SUCCEEDED; Attempt_REJECTED; Attempt_TRANSPORT_FAILED; Attempt_CANCELLED].

Definition reduction_of (db : Database) (run_id : str) (attempt_id : str) (a : AttemptRow)
    : option ((str * (Z * (Z * str))) * _DeliveryReductionRow) :=
  match deliveries db !! at_delivery_id a with
  | Some d =>
    if bool_decide (dl_run_id d = run_id) && bool_decide (at_run_id a = run_id)
       && bool_decide (dl_state d = Delivery_ACTIVE) && bool_decide (at_state a ∈ _REDUCIBLE_STATES)
       && negb (has_successor db a) && negb (has_open_schedule db (at_delivery_id a) d)
    then Some ((dl_scenario_id d, (dl_ordinal d, (at_ordinal a, attempt_id))),
               {| dr_run_id := run_id; dr_delivery_id := at_delivery_id a; dr_attempt_id := attempt_id;
                  dr_attempt_state := at_state a |})
    else None
  | None => None
  end.

(** [_DeliveryReductionOperation.execute] *)
Definition reductions_execute (db : Database) (run_id : str) : result (list _DeliveryReductionRow) :=
  let rows := py_sorted fst (omap (fun kv => reduction_of db run_id kv.1 kv.2) (map_to_list (attempts db))) in
  raise_if (MAX_RECOVERY_ITEMS <? zlen rows) with RecoveryResourceLimitError ;;
  Ok (map snd rows).

Definition reduced_delivery_state (s : AttemptState) : option DeliveryState :=
  match s with
  | Attempt_SUCCEEDED => Some Delivery_SATISFIED
  | Attempt_CANCELLED => Some Delivery_CANCELLED
  | Attempt_NOT_SENT | Attempt_REJECTED | Attempt_TRANSPORT_FAILED => Some Delivery_EXHAUSTED
  | _ => None
  end.

Definition _delivery_reduction_transition (r : _DeliveryReductionRow) (owner_epoch : Z)
    (timestamp : TransitionTimestamp) : result TransitionCommand :=
  match reduced_delivery_state (dr_attempt_state r) with
  | None => Raise RecoveryIntegrityError
  | Some target =>
    let! cause := validate_causal_reference {| cause_run_id := dr_run_id r; cause_record_id := dr_attempt_id r |} in
    validate_transition_command
      {| tc_run_id := dr_run_id r; tc_transition_id := _transition_id (dr_delivery_id r) (DeliveryState_value target);
         tc_entity_type := Entity_DELIVERY; tc_entity_id := dr_delivery_id r;
         tc_expected_state := Some (OfDelivery Delivery_ACTIVE); tc_new_state := OfDelivery target;
         tc_trigger_category := TRIGGER_ATTEMPT_OUTCOME; tc_timestamp := timestamp; tc_owner_epoch := owner_epoch;
         tc_idempotency_key := _idempotency_key (dr_delivery_id r) (DeliveryState_value Delivery_ACTIVE)
                                 (DeliveryState_value target);
         tc_causal_reference := Some cause; tc_logical_time_ns := None;
         tc_delivery_satisfaction :=
           if bool_decide (target = Delivery_SATISFIED)
           then Some {| satisfaction_kind := Satisfied_ATTEMPT; satisfaction_cause := cause |} else None;
         tc_attempt_outcome := None |}
  end.

(** ** [RecoveryScanner.apply]

    A session: the answer of a sequence of transactions, and the database they leave. *)

Definition session (A : Type) : Type := Database -> result A * Database.
Definition s_return {A} (r : result A) : session A := fun db => (r, db).
Definition s_bind {A B} (m : session A) (k : A -> session B) : session B := fun db =>
  match m db with
  | (Ok a, db') => k a db'
  | (Raise e, db') => (Raise e, db')
  end.
Notation "'let*' x := m 'in' k" := (s_bind m (fun x => k))
  (at level 10, x pattern, m at level 200, k at level 200, format "'let*'  x  :=  m  'in' '//' k") : py_scope.

Fixpoint s_each {A B} (body : A -> session B) (l : list A) : session (list B) :=
  match l with
  | [] => s_return (Ok [])
  | x :: rest => let* b := body x in let* bs := s_each body rest in s_return (Ok (b :: bs))
  end.

(** The repository's calls, each one transaction. *)
Definition repository_apply (c : TransitionCommand) (evidence : option AttemptTransportEvidenceCommand)
    : session CommittedTransition := fun db =>
  in_transaction db (apply_execute db {| op_command := c; op_crash_hook := None; op_phase_evidence := None;
    op_response_staging := None; op_transport_evidence := evidence |}).

Definition apply_attempt (c : TransitionCommand) (evidence : option AttemptTransportEvidenceCommand)
    : session CommittedTransition :=
  if negb (bool_decide (tc_entity_type c = Entity_ATTEMPT)) then s_return (Raise TypeError)
  else
    let* _ := s_return (_validate_response_staging_presence c None) in
    let* _ := s_return (_validate_transport_evidence_presence c evidence) in
    repository_apply c evidence.

Definition rebind_recoverable_attempt (run_id attempt_id : str) (expected : AttemptState) (owner_epoch : Z)
    : session unit :=
  let* _ := s_return (validate_run_id run_id) in
  let* _ := s_return (validate_fresh_id attempt_id (Some Fresh_ATTEMPT)) in
  if negb (bool_decide (expected ∈ [Attempt_SCHEDULED; Attempt_CLAIMED])) then s_return (Raise ValueError)
  else
    let* _ := s_return (_owner_epoch owner_epoch) in
    fun db => match rebind_execute db run_id attempt_id expected owner_epoch with
              | Ok db' => (Ok tt, db')
              | Raise e => (Raise e, db)
              end.

(** [_AttemptRecordIdOperation.execute] behind [TransitionRepository.attempt_record_id] *)
Definition attempt_record_id (run_id attempt_id : str) : session (option str) := fun db =>
  (let! _ := validate_run_id run_id in
   let! _ := validate_fresh_id attempt_id (Some Fresh_ATTEMPT) in
   let! _ := _require_run_exists db run_id in
   match select (attempt_records db) (fun _ r =>
     bool_decide (ar_run_id r = run_id) && bool_decide (ar_attempt_id r = attempt_id)) with
   | [] => Ok None
   | [(record_id, _)] =>
     let! _ := validate_fresh_id record_id (Some Fresh_RECORD) in Ok (Some record_id)
   | _ => Raise ProjectionIntegrityError
   end, db).

Definition rebind_item (owner_epoch : Z) (i : AttemptRecoveryItem) : session unit :=
  match ri_action i with
  | Recover_RESUME_SCHEDULED =>
    rebind_recoverable_attempt (ri_run_id i) (ri_attempt_id i) Attempt_SCHEDULED owner_epoch
  | Recover_RECLAIM_EXPIRED_CLAIM =>
    rebind_recoverable_attempt (ri_run_id i) (ri_attempt_id i) Attempt_CLAIMED owner_epoch
  | _ => s_return (Ok tt)
  end.

Section apply.
Context (fresh_record : AttemptRecoveryItem -> str) (timestamp : TransitionTimestamp).

Definition apply_item (owner_epoch : Z) (i : AttemptRecoveryItem) : session CommittedTransition :=
  let* evidence :=
    match ri_response_staging i with
    | Some staging => s_return (Ok (st_transport_evidence staging))
    | None =>
      let* record_id := attempt_record_id (ri_run_id i) (ri_attempt_id i) in
      s_return (_attempt_recovery_evidence i (match record_id with None => fresh_record i | Some r => r end))
    end in
  let* command := s_return (_attempt_transition i owner_epoch timestamp) in
  apply_attempt command (Some evidence).

Definition apply_observation (owner_epoch : Z) (i : ObservationRecoveryItem) : session CommittedTransition :=
  let* command := s_return (_observation_transition i owner_epoch timestamp) in
  repository_apply command None.

Definition apply_reduction (owner_epoch : Z) (r : _DeliveryReductionRow) : session CommittedTransition :=
  let* command := s_return (_delivery_reduction_transition r owner_epoch timestamp) in
  repository_apply command None.

Definition apply (cx : RecoveryScanContext) (plan : RecoveryPlan) : session (list CommittedTransition) :=
  if negb (is_live timestamp) then s_return (Raise ValueError)
  else if negb (bool_decide (rp_run_id plan = cx_run_id cx)) || negb (rp_owner_epoch plan =? cx_owner_epoch cx)
  then s_return (Raise RecoveryOwnerEpochError)
  else
    let epoch := rp_owner_epoch plan in
    let* _ := s_each (rebind_item epoch) (rp_attempts plan) in
    let* committed_attempts := s_each (apply_item epoch) (List.filter requires_transition (rp_attempts plan)) in
    let* committed_observations :=
      s_each (apply_observation epoch) (List.filter observation_requires_transition (rp_observations plan)) in
    let* reductions := (fun db => (reductions_execute db (rp_run_id plan), db)) in
    let* committed_deliveries := s_each (apply_reduction epoch) reductions in
    s_return (Ok (committed_attempts ++ committed_observations ++ committed_deliveries)).

End apply.
