(* ===== verification/RecoveryScan.v ===== *)
(** * What a recovery scan finds

    On every journal the repository can leave behind, whatever the point of interruption, the scan
    succeeds, sees every attempt and observation of the run, and rebuilds each staged response
    exactly as it was staged. *)

From S2P Require Import Prelude Text Identifiers Domain Clocks Lifecycle Replay Commands Json Store Journal Schedules Demo Ledger Outcomes Claiming JsonFlat Recovery.

Local Open Scope Z_scope.

(** ** Paging *)

Definition str_lt (a b : str) : Prop := cmp a b = Lt.

Section pages.
Context {B : Type}.
Implicit Types l past todo : list (str * B).

Definition id_after l : str := fold_left (fun _ kv => kv.1) l [].

Lemma id_after_snoc l x : id_after (l ++ [x]) = x.1.
Proof. unfold id_after. by rewrite fold_left_app. Qed.

Lemma id_after_app l k : fold_left (fun _ kv => kv.1) k (id_after l) = id_after (l ++ k).
Proof. unfold id_after. by rewrite fold_left_app. Qed.

Lemma id_after_in l : id_after l ∈ [] :: map fst l.
Proof.
  destruct l as [|x l _] using rev_ind; [apply list_elem_of_here|].
  rewrite id_after_snoc, map_app. right. apply elem_of_app. right. apply list_elem_of_here.
Qed.

(** In a strictly increasing list, the rows after a prefix are those with a larger identifier. *)
Lemma rows_after past todo :
  StronglySorted str_lt ([] :: map fst (past ++ todo)) ->
  List.filter (fun kv => cmp_ltb (id_after past) kv.1) (past ++ todo) = todo.
Proof.
  rewrite map_app, app_comm_cons. intros Hs.
  assert (List.filter (fun kv => cmp_ltb (id_after past) kv.1) past = []) as Hp.
  { clear -Hs. apply StronglySorted_app_1_l in Hs. destruct past as [|x l _] using rev_ind; [done|].
    rewrite id_after_snoc. rewrite map_app, app_comm_cons in Hs.
    rewrite (filter_ext_in _ (fun _ => false)); [apply filter_false|].
    intros r [Hr|[<-|[]]]%in_app_or; apply cmp_ltb_le; [|apply cmp_le_refl]. apply cmp_le_cases. left.
    eapply (StronglySorted_app_1_elem_of str_lt); [exact Hs| |apply list_elem_of_here].
    right. apply list_elem_of_fmap_2, list_elem_of_In, Hr. }
  rewrite List.filter_app, Hp, forallb_filter_id; [done|].
  apply List.forallb_forall. intros r Hr. apply cmp_ltb_lt.
  eapply (StronglySorted_app_1_elem_of str_lt); [exact Hs|apply id_after_in|].
  apply list_elem_of_fmap_2, list_elem_of_In, Hr.
Qed.

Lemma scan_pages_spec fuel past todo :
  StronglySorted str_lt ([] :: map fst (past ++ todo)) -> (length todo < fuel)%nat ->
  scan_pages fuel (past ++ todo) (id_after past) past = Ok (past ++ todo).
Proof.
  revert past todo. induction fuel as [|fuel IH]; intros past todo Hs Hlen; [lia|].
  cbn [scan_pages]. rewrite (rows_after _ _ Hs), length_take. case_bool_decide as Hemp.
  - destruct todo; [by rewrite app_nil_r|]. unfold SCAN_PAGE_SIZE in Hemp. simpl in Hemp. lia.
  - case_bool_decide as Hlast; [by rewrite take_ge by lia|]. rewrite id_after_app.
    assert (past ++ todo = (past ++ take SCAN_PAGE_SIZE todo) ++ drop SCAN_PAGE_SIZE todo) as Heq
      by (by rewrite <- app_assoc, take_drop).
    rewrite Heq in *. apply IH; [exact Hs|]. rewrite length_drop. lia.
Qed.

Lemma load_pages_spec l : StronglySorted str_lt ([] :: map fst l) -> load_pages l = Ok l.
Proof. intros Hs. apply (scan_pages_spec _ [] l); [done|lia]. Qed.

End pages.

(** Rows ordered by distinct identifiers increase strictly. *)
Lemma sorted_strict {B : Type} (l : list (str * B)) :
  NoDup (map fst l) -> [] ∉ map fst l -> StronglySorted str_lt ([] :: map fst (py_sorted fst l)).
Proof.
  intros Hn Hne. pose proof (py_sorted_sorted fst l) as Hs.
  assert (NoDup (map fst (py_sorted fst l))) as Hn' by (by rewrite py_sorted_perm).
  assert ([] ∉ map fst (py_sorted fst l)) as Hne' by (by rewrite py_sorted_perm). clear Hn Hne.
  constructor.
  - induction Hs as [|x k _ IH Hx]; [constructor|]. simpl in *. apply list.NoDup_cons in Hn' as [Hxn Hn'].
    constructor; [apply IH; [done|set_solver]|]. rewrite List.Forall_map, List.Forall_forall in *.
    intros y Hy. destruct (proj1 (cmp_le_cases _ _) (Hx y Hy)) as [?|Heq]; [done|].
    exfalso. apply Hxn. rewrite Heq. apply list_elem_of_fmap_2, list_elem_of_In, Hy.
  - apply List.Forall_forall. intros id Hid. destruct id; [|done]. exfalso. apply Hne'. by apply list_elem_of_In.
Qed.

Section scanned.
Context {A B : Type} (t : gmap str A) (cond : A -> bool) (row : str -> A -> option B).

Let joined (l : list (str * A)) : list (str * B) :=
  omap (fun kv => option_map (pair kv.1) (row kv.1 kv.2)) (List.filter (fun kv => cond kv.2) l).

Lemma joined_ids l : sublist (map fst (joined l)) (map fst l).
Proof.
  unfold joined. induction l as [|kv l IH]; simpl; [constructor|]. destruct (cond kv.2); simpl; [|by constructor].
  destruct (row kv.1 kv.2); simpl; [by apply sublist_skip|by constructor].
Qed.

Lemma elem_of_scanned id b :
  (id, b) ∈ scanned t cond row <-> exists a, t !! id = Some a /\ cond a = true /\ row id a = Some b.
Proof.
  unfold scanned. rewrite elem_of_py_sorted, list_elem_of_omap. split.
  - intros ([k a] & Hin & Hr). apply list_elem_of_In, List.filter_In in Hin as [Hin Hc]. simpl in *.
    destruct (row k a) as [b'|] eqn:E; [|done]. injection Hr as <- <-. exists a.
    split; [by apply elem_of_map_to_list, list_elem_of_In|done].
  - intros (a & Ht & Hc & Hr). exists (id, a). simpl. rewrite Hr. split; [|done].
    apply list_elem_of_In, List.filter_In. split; [by apply list_elem_of_In, elem_of_map_to_list|done].
Qed.

Lemma scanned_nodup : NoDup (map fst (scanned t cond row)).
Proof.
  unfold scanned. rewrite py_sorted_perm. eapply sublist_NoDup; [apply (NoDup_fst_map_to_list t)|].
  apply (joined_ids (map_to_list t)).
Qed.

Lemma scanned_load : t !! [] = None -> load_pages (scanned t cond row) = Ok (scanned t cond row).
Proof.
  intros H0. apply load_pages_spec. unfold scanned. apply sorted_strict.
  - pose proof scanned_nodup as Hn. unfold scanned in Hn. by rewrite py_sorted_perm in Hn.
  - intros Hin. assert ([] ∈ map fst (map_to_list t)) as Hm.
    { eapply elem_of_sublist; [exact Hin|]. apply (joined_ids (map_to_list t)). }
    apply list_elem_of_fmap in Hm as ([k a] & Heq & Hm). simpl in Heq. subst k.
    apply elem_of_map_to_list in Hm. congruence.
Qed.

(** No row is lost when every selected row joins. *)
Lemma scanned_total :
  (forall id a, t !! id = Some a -> cond a = true -> is_Some (row id a)) ->
  length (scanned t cond row) = length (select t (fun _ a => cond a)).
Proof.
  intros Hj. unfold scanned, select. rewrite py_sorted_perm.
  assert (Forall (fun kv => is_Some (row kv.1 kv.2)) (List.filter (fun kv => cond kv.2) (map_to_list t))) as Hf.
  { apply List.Forall_forall. intros [id a] [Hin Hc]%List.filter_In. apply (Hj id a); [|done].
    by apply elem_of_map_to_list, list_elem_of_In. }
  induction Hf as [|kv l [b Hb] _ IH]; simpl; [done|]. rewrite Hb. simpl. by f_equal.
Qed.
End scanned.

(** ** Staged responses read back *)

Lemma header_char_plain_char c : is_header_name_char c = true -> plain_char c = true.
Proof.
  intros H. assert (c < 127)%N as Hc.
  { unfold is_header_name_char, is_decimal, is_lower, char_between in H. simpl in H.
    rewrite !orb_true_iff, !andb_true_iff, !N.eqb_eq, !N.leb_le in H. lia. }
  assert (forallb (fun n => implb (is_header_name_char (N.of_nat n)) (plain_char (N.of_nat n))) (seq 0 127) = true)
    as Hall by (vm_compute; reflexivity).
  rewrite List.forallb_forall in Hall. specialize (Hall (N.to_nat c)). rewrite N2Nat.id, H in Hall.
  apply Hall, in_seq. lia.
Qed.

Lemma staged_names_back names :
  forallb header_name_ok names = true -> staged_header_names (Some (json_array names)) = Ok names.
Proof.
  intros H. unfold staged_header_names. rewrite array_roundtrip.
  - unfold json_text_items. assert (mapM (fun j => match j with JString s => Some s | _ => None end) (map JString names) = Some names) as ->; [|done].
    clear. induction names as [|n names IH]; [done|]. simpl. by rewrite IH.
  - apply List.Forall_forall. intros n Hn. rewrite List.forallb_forall in H. specialize (H n Hn).
    unfold header_name_ok in H. apply andb_true_iff in H as [_ H]. unfold plain. apply List.forallb_forall.
    intros c Hc. rewrite List.forallb_forall in H. by apply header_char_plain_char, H.
Qed.

(** The table keeps a retry's schedule without its scenario and entity type, which are those of the
    staged attempt. *)
Definition attempt_retry (e : AttemptTransportEvidenceCommand) (r : RetrySchedule) : RetrySchedule :=
  {| rs_schedule_entry_id := rs_schedule_entry_id r; rs_scenario_id := ev_scenario_id e;
     rs_entity_type := u "attempt"; rs_entity_id := rs_entity_id r; rs_logical_time_ns := rs_logical_time_ns r;
     rs_scenario_ordinal := rs_scenario_ordinal r; rs_step_ordinal := rs_step_ordinal r;
     rs_delivery_ordinal := rs_delivery_ordinal r; rs_attempt_ordinal := rs_attempt_ordinal r;
     rs_deterministic_tie_key := rs_deterministic_tie_key r; rs_idempotency_key := rs_idempotency_key r;
     rs_predecessor_attempt_id := rs_predecessor_attempt_id r; rs_condition_json := rs_condition_json r |}.
Definition restaged (s : AttemptResponseStagingCommand) : AttemptResponseStagingCommand :=
  {| st_terminal_state := st_terminal_state s;
     st_terminal_outcome := {| outcome_classification := outcome_classification (st_terminal_outcome s);
       outcome_retry_schedule := option_map (attempt_retry (st_transport_evidence s))
                                   (outcome_retry_schedule (st_terminal_outcome s)) |};
     st_transport_evidence := st_transport_evidence s |}.

Lemma attempt_retry_ok e r :
  validate_transport_evidence e = Ok e -> validate_retry_schedule r = Ok r ->
  validate_retry_schedule (attempt_retry e r) = Ok (attempt_retry e r).
Proof.
  intros He Hr. unfold validate_transport_evidence in He. do 3 py_step He.
  unfold validate_retry_schedule in *. simpl. rewrite E1. do 13 py_step Hr. simpl. done.
Qed.

Lemma restaged_valid s : validate_response_staging s = Ok s -> validate_response_staging (restaged s) = Ok (restaged s).
Proof.
  unfold validate_response_staging, restaged. simpl. intros H. py_step H.
  destruct (ev_request _); [|done]. destruct (ev_response _); [|done]. do 4 py_step H.
  destruct (outcome_retry_schedule _) as [retry|]; simpl; [|done]. do 2 py_step H. done.
Qed.

(** A staged response survives a crash: the row written for a staging command decodes to exactly
    that command. *)
Lemma staging_reads_back s row :
  staging_ok s -> _attempt_response_staging_values s = Ok row ->
  _response_staging (ev_attempt_id (st_transport_evidence s)) row = Ok (restaged s).
Proof.
  intros (Hev & Hst & Hretry & Hpost) Hrow. pose proof (restaged_valid _ Hst) as Hre. destruct s as [ts [cls retry] e]. simpl in *.
  unfold _attempt_response_staging_values in Hrow. simpl in Hrow.
  destruct (ev_request e) as [rq|] eqn:Erq; [|done]. destruct (ev_response e) as [rp|] eqn:Erp; [|done].
  destruct (resp_body_sha256 rp) as [body|] eqn:Ebody; [|done]. py_step Hrow. injection Hrow as <-.
  simpl in E. py_step E. injection E as <-. clear E0.
  assert (ev_classification e = cls) as Hcls.
  { unfold validate_response_staging in Hst. simpl in Hst. py_step Hst. rewrite Erq, Erp in Hst. do 2 py_step Hst.
    by apply negb_bool_decide_false in E1. }
  assert (forallb header_name_ok (req_header_names rq) = true) as Hnames.
  { unfold validate_transport_evidence in Hev. do 7 py_step Hev. rewrite Erq in E5. simpl in E5.
    unfold _validate_request_metadata in E5. do 3 py_step E5. by apply negb_false_iff in E8. }
  unfold _response_staging. cbn [sg_request_header_names_json]. rewrite (staged_names_back _ Hnames).
  cbn [sg_request_method]. rewrite (Hpost _ eq_refl), bool_decide_true by done. cbn [negb].
  assert (forall r, retry = Some r -> rs_predecessor_attempt_id r = ev_attempt_id e) as Hpred.
  { intros r ->. unfold validate_response_staging in Hst. simpl in Hst. py_step Hst. rewrite Erq, Erp in Hst.
    do 6 py_step Hst. by apply negb_bool_decide_false in E5. }
  set (row := Build_StagingRow _ _ _ _ _ _ _ _ _ _ _ _ _ _ _ _ _ _ _ _ _ _ _ _ _ _ _ _ _ _ _).
  assert (staged_error row = Ok (ev_error e)) as ->
    by (unfold staged_error, row; simpl; by destruct (ev_error e) as [[]|]).
  assert (staged_retry (ev_attempt_id e) row = Ok (option_map (attempt_retry e) retry)) as ->.
  { unfold staged_retry, row. simpl. destruct retry as [r|]; [|done]. simpl. rewrite <- (Hpred r eq_refl).
    pose proof (attempt_retry_ok e r Hev (Hretry r eq_refl)) as Hv. unfold attempt_retry in Hv. by rewrite Hv. }
  assert (Build_AttemptTransportEvidenceCommand (sg_record_id row) (sg_run_id row) (sg_scenario_id row)
    (sg_event_id row) (sg_delivery_id row) (ev_attempt_id e) (sg_evidence_state row) (sg_classification row)
    (Some (Build_RequestMetadata (u "POST") (sg_request_url_redacted row) (sg_request_body_sha256 row)
       (sg_request_byte_length row) (req_header_names rq)))
    (Some (Build_ResponseMetadata (sg_response_status row) (Some (sg_response_body_sha256 row))
       (sg_response_captured_bytes row) (sg_response_truncated row)))
    (ev_error e) (sg_response_headers_elapsed_ns row) = e) as ->.
  { unfold row. simpl. rewrite <- (Hpost _ eq_refl), <- Ebody, <- Hcls. destruct e, rq, rp. simpl in *. by subst. }
  rewrite Hev. exact Hre.
Qed.

(** A durable response survives a crash: a constructed staging command always has a row, and that
    row decodes to exactly the command, its terminal state, outcome, retry schedule, request and
    response metadata and error included. *)
Theorem staging_roundtrip s :
  staging_ok s ->
  (forall r, outcome_retry_schedule (st_terminal_outcome s) = Some r ->
     rs_scenario_id r = ev_scenario_id (st_transport_evidence s) /\ rs_entity_type r = u "attempt") ->
  exists row, _attempt_response_staging_values s = Ok row /\
    _response_staging (ev_attempt_id (st_transport_evidence s)) row = Ok s.
Proof.
  intros Hok Hretry. assert (restaged s = s) as Hre.
  { destruct s as [ts [cls retry] e]. unfold restaged. simpl in *. destruct retry as [r|]; [|done]. simpl.
    destruct (Hretry r eq_refl) as [H1 H2]. unfold attempt_retry. rewrite <- H1, <- H2. by destruct r. }
  assert (exists row, _attempt_response_staging_values s = Ok row) as [row Hrow].
  { destruct Hok as (Hev & Hst & _). unfold validate_response_staging in Hst. py_step Hst.
    unfold _attempt_response_staging_values. unfold validate_transport_evidence in Hev. do 7 py_step Hev.
    destruct (ev_request _) as [rq|]; [|done]. simpl in E6. unfold _validate_request_metadata in E6. do 5 py_step E6.
    destruct (ev_response _) as [rp|]; [|done]. py_step Hst. destruct (resp_body_sha256 rp); [|done]. eauto. }
  exists row. split; [done|]. rewrite (staging_reads_back s row Hok Hrow). by rewrite Hre.
Qed.

(** ** The items of a plan *)

Lemma validate_response_staging_id s r : validate_response_staging s = Ok r -> r = s.
Proof.
  unfold validate_response_staging. intros H. py_step H. destruct (ev_request _); [|done].
  destruct (ev_response _); [|done]. do 4 py_step H. destruct (outcome_retry_schedule _); [|by injection H].
  do 2 py_step H. by injection H.
Qed.

Lemma staging_terminal s :
  validate_response_staging s = Ok s ->
  st_terminal_state s = Attempt_SUCCEEDED \/ st_terminal_state s = Attempt_REJECTED \/
  st_terminal_state s = Attempt_TRANSPORT_FAILED.
Proof.
  unfold validate_response_staging. intros H. py_step H. apply negb_bool_decide_false in E. set_solver.
Qed.

Lemma load_rows_ok {B : Type} (l r : list (str * B)) x : load_pages l = Ok r -> x ∈ r -> x ∈ l.
Proof.
  unfold load_pages. generalize (S (length l)) ([] : str). intros fuel last.
  assert (forall acc, (forall y, y ∈ acc -> y ∈ l) -> scan_pages fuel l last acc = Ok r -> forall y, y ∈ r -> y ∈ l) as H.
  { revert last. induction fuel as [|fuel IH]; intros last acc Hacc; cbn [scan_pages]; [done|].
    case_bool_decide; [by intros [= <-]|].
    assert (forall y, y ∈ acc ++ take SCAN_PAGE_SIZE (List.filter (fun kv => cmp_ltb last kv.1) l) -> y ∈ l) as Hacc'.
    { intros y [Hy|Hy]%elem_of_app; [by apply Hacc|]. apply list_elem_of_In.
      apply (List.filter_In (fun kv => cmp_ltb last kv.1)). apply list_elem_of_In. eapply elem_of_sublist; [exact Hy|apply sublist_take]. }
    case_bool_decide; [by intros [= <-]|]. by apply IH. }
  intros Hl Hx. eapply H; [|exact Hl|exact Hx]. by intros y Hy%elem_of_nil.
Qed.

Lemma as_integrity_ok {A} (r : result A) x : as_integrity r = Ok x -> r = Ok x.
Proof. by destruct r as [|[]]. Qed.

Lemma validate_retry_schedule_id r r' : validate_retry_schedule r = Ok r' -> r' = r.
Proof. unfold validate_retry_schedule. intros H. do 13 py_step H. by injection H. Qed.

Definition staged_ok (s : AttemptResponseStagingCommand) : Prop :=
  validate_response_staging s = Ok s /\ retry_ok (st_terminal_outcome s).

Lemma response_staging_valid id row s : _response_staging id row = Ok s -> staged_ok s.
Proof.
  unfold _response_staging. intros H. do 5 py_step H. pose proof (validate_response_staging_id _ _ H) as ->.
  split; [exact H|]. intros r Hr. simpl in Hr. subst a1. clear H E3. unfold staged_retry in E2.
  destruct (sg_retry_schedule_entry_id row); [|done]. do 8 py_step E2.
  destruct (validate_retry_schedule _) as [retry|] eqn:Ev; [|done]. injection E2 as <-.
  pose proof (validate_retry_schedule_id _ _ Ev) as Heq. by rewrite <- Heq in Ev.
Qed.

(** An item is the row it was made from. *)
Lemma attempt_item_fields run row staging i :
  _attempt_item run row staging = Ok i ->
  ri_run_id i = run /\ ri_attempt_id i = ra_attempt_id row /\ ri_prior_state i = ra_state row /\
  ri_scenario_id i = ra_scenario_id row /\ ri_event_id i = ra_event_id row /\ ri_delivery_id i = ra_delivery_id row /\
  ri_scenario_ordinal i = ra_scenario_ordinal row /\ ri_step_ordinal i = ra_step_ordinal row /\
  ri_delivery_ordinal i = ra_delivery_ordinal row /\ ri_attempt_ordinal i = ra_attempt_ordinal row /\
  ri_predecessor_attempt_id i = ra_predecessor_attempt_id row /\ ri_response_staging i = staging.
Proof.
  unfold _attempt_item. intros H. do 2 py_step H. destruct a0 as [[action ambiguity] target]. py_step H.
  unfold validate_recovery_item in H. do 8 py_step H. by injection H as <-.
Qed.

Lemma joined_attempt_id db id a row :
  joined_attempt db id a = Some row ->
  ra_attempt_id row = id /\ ra_state row = at_state a /\ ra_phase row = at_phase a.
Proof. unfold joined_attempt. intros H. repeat case_match; try done. by injection H as <-. Qed.

(** An item of a plan comes from an attempt of the run. *)
Lemma plan_item db cx plan i :
  scan db cx = Ok plan -> i ∈ rp_attempts plan ->
  exists a row staging, attempts db !! ri_attempt_id i = Some a /\ at_run_id a = cx_run_id cx /\
    joined_attempt db (ri_attempt_id i) a = Some row /\ _attempt_item (cx_run_id cx) row staging = Ok i /\
    forall s, staging = Some s -> staged_ok s.
Proof.
  unfold scan. intros H Hi. py_step H. py_step H. py_step H. destruct a0 as [staged items]. do 2 py_step H.
  unfold validate_recovery_plan in H. do 3 py_step H. injection H as <-. simpl in Hi. clear E2 E3 E4 E5 E6.
  apply as_integrity_ok in E1. unfold scan_attempts in E1. do 3 py_step E1. injection E1 as _ <-.
  apply elem_of_py_sorted, list_elem_of_lookup in Hi as [n Hi]. apply map_result_ok in E4.
  destruct (Forall2_lookup_r _ _ _ _ _ E4 Hi) as (row & Hrow & Hitem).
  apply list_elem_of_lookup_2 in Hrow. unfold scan_execute in E. destruct (runs db !! _); [|done]. do 5 py_step E.
  injection E as <-. simpl in Hrow. unfold _load_attempt_rows in E5. py_step E5. injection E5 as <-.
  apply list_elem_of_fmap in Hrow as ([id rr] & -> & Hr). apply (load_rows_ok _ _ _ E), elem_of_scanned in Hr.
  destruct Hr as (att & Hatt & Hrun%bool_decide_eq_true & Hj).
  destruct (attempt_item_fields _ _ _ _ Hitem) as (_ & Hid & _).
  destruct (joined_attempt_id _ _ _ _ Hj) as [Hrid _]. cbn [snd] in *. rewrite Hid, Hrid. eexists att, rr, _.
  do 4 (split; [eassumption|]). intros s Hs. apply elem_of_list_to_map_2, list_elem_of_lookup in Hs as [m Hs].
  apply map_result_ok in E2. destruct (Forall2_lookup_r _ _ _ _ _ E2 Hs) as ([k srow] & _ & Hk).
  py_step Hk. injection Hk as _ <-. by eapply response_staging_valid.
Qed.

(** What an item decides, from the state and phase of its row. *)
Definition item_decided (i : AttemptRecoveryItem) (state : AttemptState) (phase : option str) : Prop :=
  (ri_target_state i = Some Attempt_NOT_SENT <->
     state = Attempt_PRE_SEND_COMMITTED /\ phase = Some (u "controlled_pre_transport")
     \/ state = Attempt_CONNECTING /\ phase = Some (u "no_connection_established")) /\
  (state ∈ [Attempt_CONNECTING; Attempt_SENDING; Attempt_AWAITING_RESPONSE] ->
     ri_target_state i <> Some Attempt_NOT_SENT ->
     ri_target_state i = Some Attempt_UNKNOWN_OUTCOME /\ ri_ambiguity i = Ambiguity_POSSIBLE_RECEIVER_EFFECT) /\
  (state = Attempt_PRE_SEND_COMMITTED -> ri_target_state i <> Some Attempt_NOT_SENT ->
     ri_target_state i = None /\ ri_ambiguity i = Ambiguity_PHASE_EVIDENCE_REQUIRED) /\
  (state = Attempt_RESPONSE_OBSERVED ->
     exists s, ri_response_staging i = Some s /\ ri_target_state i = Some (st_terminal_state s)) /\
  (state ∈ [Attempt_SCHEDULED; Attempt_CLAIMED] ++ _TERMINAL_ATTEMPT_STATES -> ri_target_state i = None) /\
  (forall t, ri_target_state i = Some t -> transition_allowed Entity_ATTEMPT (OfAttempt state) (OfAttempt t) = true).

Lemma proof_controlled v :
  _durable_no_send_proof v = Proof_CONTROLLED_PRE_TRANSPORT <-> v = Some (u "controlled_pre_transport").
Proof. unfold _durable_no_send_proof. repeat case_bool_decide; naive_solver. Qed.

Lemma proof_no_connection v :
  _durable_no_send_proof v = Proof_NO_CONNECTION_ESTABLISHED <-> v = Some (u "no_connection_established").
Proof. unfold _durable_no_send_proof. repeat case_bool_decide; subst; split; intros; simplify_eq; done. Qed.

Lemma item_decision run row staging i :
  _attempt_item run row staging = Ok i -> (forall s, staging = Some s -> validate_response_staging s = Ok s) ->
  item_decided i (ra_state row) (ra_phase row).
Proof.
  intros H Hst. unfold _attempt_item in H. do 2 py_step H. destruct a0 as [[action ambiguity] target]. py_step H.
  unfold validate_recovery_item in H. do 8 py_step H. injection H as <-. clear -E0 E1 Hst.
  unfold item_decided. rewrite <- proof_controlled, <- proof_no_connection. simpl.
  generalize dependent (_durable_no_send_proof (ra_phase row)). intros proof Hdec.
  assert (forall s, staging = Some s -> _) as Hts by (intros s Hs; exact (staging_terminal s (Hst s Hs))).
  unfold _TERMINAL_ATTEMPT_STATES. rewrite !elem_of_cons, !elem_of_nil.
  destruct (ra_state row), proof; vm_compute in Hdec; injection Hdec as <- <- <-; vm_compute in E1.
  all: destruct staging as [s|]; try discriminate E1; injection E1 as <-; split_and!.
  all: try (destruct s as [ts o e]; pose proof (Hts _ eq_refl) as Ht; simpl in Ht; destruct Ht as [-> | [-> | ->]]).
  all: clear Hst Hts; try (intros t [= <-]; vm_compute; reflexivity).
  all: try (split; [intros|intros [[??]|[??]]]).
  all: try discriminate; try reflexivity.
  all: try (intros ?; destruct_or?; discriminate).
  all: first [ by left | by right | by (intros; split) | by (intros; exfalso) | intros _; by eexists
             | intros; destruct_or?; discriminate ].
Qed.

(** C11: Recovery never guesses. An item of a plan is terminated as [not_sent] exactly when the journal
    holds the durable proof for its phase: a controlled stop before transport after the pre-send
    commit, or no established connection while connecting. An attempt whose bytes may have left
    the harness is flagged ambiguous and goes to [unknown_outcome]; one with a staged response
    goes to its staged state, and every other attempt is left as it is. Every target is one the
    lifecycle allows. *)
Theorem recovery_conservative db cx plan i :
  scan db cx = Ok plan -> i ∈ rp_attempts plan ->
  exists a, attempts db !! ri_attempt_id i = Some a /\ at_run_id a = cx_run_id cx /\ ri_prior_state i = at_state a /\
    item_decided i (at_state a) (at_phase a).
Proof.
  intros Hscan Hi. destruct (plan_item _ _ _ _ Hscan Hi) as (a & row & staging & Ha & Hrun & Hj & Hitem & Hst).
  exists a. pose proof (item_decision _ _ _ _ Hitem (fun s Hs => proj1 (Hst s Hs))) as Hd. destruct (attempt_item_fields _ _ _ _ Hitem) as (_ & _ & Hs & _).
  apply joined_attempt_id in Hj as (_ & Hstate & Hphase). rewrite Hstate, Hphase in *. exact (conj Ha (conj Hrun (conj Hs Hd))).
Qed.

(** ** The worked run, interrupted *)

Definition demo_context : RecoveryScanContext :=
  {| cx_run_id := demo_run; cx_owner_epoch := 3; cx_owner := {| lock_run_id := demo_run; lock_owner_epoch := 3 |} |}.
Definition crashed (k : nat) : Database := fold_left journal_exec (take k demo_calls) demo_db.

Lemma staging_roundtrip_witness :
  exists s row, op_response_staging demo_staging = Some s /\ st_terminal_state s = Attempt_SUCCEEDED /\
    _attempt_response_staging_values s = Ok row /\ _response_staging demo_attempt row = Ok s.
Proof.
  destruct demo_staging_ok as (_ & Hok & _). destruct (op_response_staging demo_staging) as [s|] eqn:Es; [|discriminate Es].
  injection Es as Es. destruct (staging_roundtrip s (Hok s eq_refl)) as (row & Hr & Hd).
  - subst s. intros r Hr. discriminate Hr.
  - exists s, row. split; [reflexivity|]. subst s. split; [reflexivity|]. split; [exact Hr|exact Hd].
Defined.

(** Stopped while awaiting the response: the attempt may have been received. *)
Lemma recovery_conservative_witness :
  exists plan i, scan (crashed 7) demo_context = Ok plan /\ i ∈ rp_attempts plan /\
    ri_target_state i = Some Attempt_UNKNOWN_OUTCOME /\
    exists a, attempts (crashed 7) !! ri_attempt_id i = Some a /\ at_run_id a = demo_run /\
      ri_prior_state i = at_state a /\ item_decided i (at_state a) (at_phase a).
Proof.
  destruct (scan (crashed 7) demo_context) as [plan|] eqn:Hs; [|vm_compute in Hs; discriminate Hs].
  assert (match scan (crashed 7) demo_context with
          | Ok p => map ri_target_state (rp_attempts p)
          | Raise _ => []
          end = [Some Attempt_UNKNOWN_OUTCOME]) as Heval by (vm_compute; reflexivity).
  rewrite Hs in Heval. destruct (rp_attempts plan) as [|i rest] eqn:Hi; [discriminate Heval|].
  injection Heval as Ht _. exists plan, i. rewrite Hi. split; [reflexivity|]. split; [left|]. split; [exact Ht|].
  apply (recovery_conservative (crashed 7) demo_context plan i); [exact Hs|]. rewrite Hi. left.
Defined.
