(* ===== verification/Recoverable.v ===== *)
(** * Every journal can be recovered

    The invariants a recovery scan relies on, kept by every operation of the repository: a staged
    response belongs to an attempt in RESPONSE_OBSERVED and to no other, every attempt joins its
    scenario and delivery and follows its predecessor, and the columns a plan is built from are in
    range.  From them, whatever the point of interruption, the scan succeeds, plans every attempt
    and observation of the run exactly once, and rebuilds each staged response. *)

From S2P Require Import Prelude Text Identifiers Domain Clocks Lifecycle Replay Commands Json Store Journal Schedules Demo Ledger Outcomes Claiming Idempotence JsonFlat Recovery RecoveryScan.

Local Open Scope Z_scope.

(** ** Staged responses *)

(** An attempt has a staged response exactly while it is in RESPONSE_OBSERVED, and the row is the
    one a constructed staging command for this attempt writes. *)
Definition staging_bound (db : Database) : Prop :=
  forall id, match attempt_response_staging db !! id with
  | Some row =>
    entity_state db Entity_ATTEMPT id = Some (sg_run_id row, OfAttempt Attempt_RESPONSE_OBSERVED) /\
    exists s, staging_ok s /\ _attempt_response_staging_values s = Ok row /\
      ev_attempt_id (st_transport_evidence s) = id
  | None => forall run, entity_state db Entity_ATTEMPT id <> Some (run, OfAttempt Attempt_RESPONSE_OBSERVED)
  end.

Definition staging_written (db db' : Database) (op : _ApplyTransitionOperation) : Prop :=
  match op_response_staging op with
  | Some s => exists row, _attempt_response_staging_values s = Ok row /\
      attempt_response_staging db' = <[tc_entity_id (op_command op) := row]> (attempt_response_staging db)
  | None => attempt_response_staging db' =
      if is_response_reduction (op_command op)
      then delete (tc_entity_id (op_command op)) (attempt_response_staging db) else attempt_response_staging db
  end.

Lemma update_projection_staging db c expected db' :
  _update_projection db c expected = Ok db' -> attempt_response_staging db' = attempt_response_staging db.
Proof.
  assert (forall e id s, write_state db e id s = Ok db' ->
    attempt_response_staging db' = attempt_response_staging db) as Hw.
  { intros e id s H. unfold write_state in H. repeat case_match; try done; by injection H as <-. }
  unfold _update_projection. intros H. destruct (tc_attempt_outcome c); [|by py_step H; eapply Hw].
  destruct (is_entity c Entity_ATTEMPT); [|by py_step H; eapply Hw].
  destruct (attempts db !! _); [|done]. destruct (tc_new_state c); try done. py_step H. by injection H as <-.
Qed.

Lemma staging_identity c s :
  _validate_response_staging_presence c (Some s) = Ok tt ->
  ev_run_id (st_transport_evidence s) = tc_run_id c /\ ev_attempt_id (st_transport_evidence s) = tc_entity_id c.
Proof.
  unfold _validate_response_staging_presence. intros H. py_step H. simpl in H. do 2 py_step H.
  by apply negb_bool_decide_false in E0, E1.
Qed.

Lemma staging_row_run s row :
  _attempt_response_staging_values s = Ok row -> sg_run_id row = ev_run_id (st_transport_evidence s).
Proof.
  unfold _attempt_response_staging_values. intros H. destruct (ev_request _); [|done].
  destruct (ev_response _) as [rp|]; [|done]. destruct (resp_body_sha256 rp); [|done]. py_step H. by injection H as <-.
Qed.

Lemma chain_staged db op sq db1 db2 db3 db4 db5 db6 db7 :
  _validate_response_staging_presence (op_command op) (op_response_staging op) = Ok tt ->
  fresh_writes db op sq db1 db2 db3 db4 db5 db6 db7 -> staging_written db db7 op.
Proof.
  intros Hpres Hw. pose proof Hw as [_ H1 H2 H3 H4 H5 H6 H7].
  assert (attempt_response_staging db1 = attempt_response_staging db) as E1.
  { unfold _insert_transition in H1. py_step H1. by injection H1 as <-. }
  assert (attempt_response_staging db2 = attempt_response_staging db) as E2.
  { rewrite <- E1. destruct (tc_expected_state _); simpl in H2; [|by injection H2 as <-].
    by eapply update_projection_staging. }
  assert (attempt_response_staging db3 = attempt_response_staging db) as E3.
  { rewrite <- E2. destruct (op_phase_evidence op); simpl in H3; [|by injection H3 as <-].
    by apply persist_phase_effect in H3 as (_ & _ & _ & ->). }
  unfold staging_written. destruct (op_response_staging op) as [s|] eqn:Es; simpl in H4.
  - rewrite (chain_staging _ _ _ _ _ _ _ _ _ _ (staging_not_reduction _ _ Hpres) Hw).
    destruct (staging_identity _ _ Hpres) as [_ <-].
    unfold _persist_attempt_response_staging in H4. do 4 py_step H4. injection H4 as <-. simpl. rewrite E3. eauto.
  - injection H4 as <-. destruct (is_response_reduction (op_command op)) eqn:Er.
    + assert (attempt_response_staging db6 = attempt_response_staging db) as <-.
      { rewrite <- E3. destruct (op_transport_evidence op).
        - destruct H5 as (? & ? & _ & _ & H5). unfold _insert_attempt_record in H5. py_step H5. injection H5 as <-.
          destruct (tc_attempt_outcome _ ≫= _); simpl in H6; [|by injection H6 as <-].
          unfold _insert_retry_schedule in H6. py_step H6. by injection H6 as <-.
        - subst db5. destruct (tc_attempt_outcome _ ≫= _); simpl in H6; [|by injection H6 as <-].
          unfold _insert_retry_schedule in H6. py_step H6. by injection H6 as <-. }
      unfold _consume_attempt_response_staging in H7. py_step H7. by injection H7 as <-.
    + by rewrite (chain_staging _ _ _ _ _ _ _ _ _ _ Er Hw).
Qed.

Lemma apply_staged db op ct db' :
  apply_execute db op = Ok (ct, db') ->
  db' = db \/ _validate_response_staging_presence (op_command op) (op_response_staging op) = Ok tt /\
             staging_written db db' op /\ exists p, fresh_change db db' op p.
Proof.
  intros H. pose proof H as (_ & _ & _ & [[_ ->]|[Hn Hp]])%apply_cases; [by left|]. right.
  unfold apply_execute in H. do 5 py_step H. destruct a0. split; [done|]. split; [|done]. destruct a3.
  - unfold replay_existing in H. do 4 py_step H. by injection H as <- <-.
  - py_step H. apply write_fresh_chain in H as (sq & db1 & db2 & db3 & db4 & db5 & db6 & Hw & _).
    by eapply chain_staged.
Qed.

Lemma into_observed expected :
  transition_allowed Entity_ATTEMPT expected (OfAttempt Attempt_RESPONSE_OBSERVED) = true ->
  expected = OfAttempt Attempt_AWAITING_RESPONSE.
Proof. destruct expected as [[]|[]|[]|[]|[]|[]]; vm_compute; congruence. Qed.

Lemma out_of_observed t :
  transition_allowed Entity_ATTEMPT (OfAttempt Attempt_RESPONSE_OBSERVED) t = true -> enters_terminal t = true.
Proof. destruct t as [[]|[]|[]|[]|[]|[]]; vm_compute; congruence. Qed.

Lemma observation_presence c staging :
  _validate_response_staging_presence c staging = Ok tt ->
  staging <> None <-> tc_entity_type c = Entity_ATTEMPT /\
    tc_expected_state c = Some (OfAttempt Attempt_AWAITING_RESPONSE) /\
    tc_new_state c = OfAttempt Attempt_RESPONSE_OBSERVED.
Proof.
  unfold _validate_response_staging_presence, is_entity. intros H. py_step H. apply negb_false_iff, eqb_prop in E.
  assert (staging <> None <-> negb (is_none staging) = true) as -> by (by destruct staging).
  rewrite <- E, !andb_true_iff, !bool_decide_eq_true. naive_solver.
Qed.

Lemma fresh_staging_bound db db' op p :
  staging_bound db -> (forall s, op_response_staging op = Some s -> staging_ok s) ->
  _validate_response_staging_presence (op_command op) (op_response_staging op) = Ok tt ->
  staging_written db db' op -> fresh_change db db' op p -> staging_bound db'.
Proof.
  intros HB Hok Hpres Hw Hf id. pose proof (fc_states _ _ _ _ Hf) as Hst.
  pose proof (observation_presence _ _ Hpres) as Hobs. unfold staging_written in Hw. specialize (HB id).
  destruct (op_response_staging op) as [s|] eqn:Es.
  - destruct Hobs as [(Het & Hex & Hnew) _]; [done|]. rewrite Hex in Hst. destruct Hst as (_ & _ & Hs & _).
    destruct Hw as (row & Hrow & ->). rewrite Hs, Het, Hnew.
    destruct (decide (id = tc_entity_id (op_command op))) as [->|Hne].
    + rewrite lookup_insert_eq, decide_True by done. destruct (staging_identity _ _ Hpres) as [Hrun Hid].
      rewrite (staging_row_run _ _ Hrow), Hrun. split; [done|]. exists s. split; [by apply Hok|done].
    + rewrite lookup_insert_ne, decide_False by naive_solver. exact HB.
  - assert (~ (tc_entity_type (op_command op) = Entity_ATTEMPT /\
      tc_expected_state (op_command op) = Some (OfAttempt Attempt_AWAITING_RESPONSE) /\
      tc_new_state (op_command op) = OfAttempt Attempt_RESPONSE_OBSERVED)) as Hno by (intros ?; by apply Hobs).
    clear Hobs Hpres. rewrite Hw. destruct (tc_expected_state (op_command op)) as [expected|] eqn:Eex.
    + destruct Hst as (Hcur & Hedge & Hs & _). rewrite Hs.
      destruct (decide (Entity_ATTEMPT = tc_entity_type (op_command op) /\ id = tc_entity_id (op_command op))) as [[He ->]|Hne].
      * assert (tc_new_state (op_command op) <> OfAttempt Attempt_RESPONSE_OBSERVED) as Hnew.
        { intros Hnew. rewrite <- He, Hnew in Hedge. apply into_observed in Hedge. subst. by apply Hno. }
        unfold is_response_reduction, is_entity. rewrite <- He, Eex. rewrite (bool_decide_true (_ = Entity_ATTEMPT)) by done.
        simpl. case_bool_decide as Hr; simpl.
        -- injection Hr as ->. rewrite <- He in Hedge. rewrite (out_of_observed _ Hedge), lookup_delete_eq.
           intros run [= _ ?]. by apply Hnew.
        -- rewrite <- He in Hcur. rewrite Hcur in HB. destruct (_ !! _).
           ++ destruct HB as [[= _ ?] _]. by subst.
           ++ intros run [= _ ?]. by apply Hnew.
      * assert ((if is_response_reduction (op_command op)
          then delete (tc_entity_id (op_command op)) (attempt_response_staging db)
          else attempt_response_staging db) !! id = attempt_response_staging db !! id) as ->; [|exact HB].
        unfold is_response_reduction, is_entity. destruct (_ && _ && _) eqn:Er; [|done].
        apply lookup_delete_ne. py_bool. intros Heq. apply Hne. split; congruence.
    + destruct Hst as [Hs _]. rewrite Hs. unfold is_response_reduction. rewrite Eex.
      by rewrite (bool_decide_false (None = _)), andb_false_r by done.
Qed.

Lemma staging_bound_kept db op ct db' :
  staging_bound db -> op_ok op -> apply_execute db op = Ok (ct, db') -> staging_bound db'.
Proof.
  intros HB (_ & Hok & _) [->|(Hpres & Hw & p & Hf)]%apply_staged; [done|]. by eapply fresh_staging_bound.
Qed.

(** ** Attempts and their neighbours *)

Definition valid_planned (k : PlannedIdKind) (id : str) : Prop := is_ok (validate_planned_id id (Some k)) = true.
Definition valid_attempt_id (id : str) : Prop := is_ok (validate_fresh_id id (Some Fresh_ATTEMPT)) = true.
Definition safe (v : Z) : Prop := within 0 MAX_SAFE_INTEGER v = true.

(** The identity columns of the tables a plan is built from are in range. *)
Record typed_tables (db : Database) : Prop := {
  ty_scenarios : forall id sc, scenarios db !! id = Some sc -> valid_planned Planned_SCENARIO id /\ safe (sc_ordinal sc);
  ty_deliveries : forall id d, deliveries db !! id = Some d ->
    valid_planned Planned_DELIVERY id /\ valid_planned Planned_EVENT (dl_event_id d) /\
    safe (dl_ordinal d) /\ safe (dl_step_ordinal d);
  ty_series : forall id o, observer_series db !! id = Some o ->
    valid_planned Planned_OBSERVATION id /\
    exists sc, scenarios db !! ob_scenario_id o = Some sc /\ sc_run_id sc = ob_run_id o;
  ty_attempts : forall id a, attempts db !! id = Some a -> valid_attempt_id id /\ safe (at_ordinal a);
  ty_schedules : forall id e, schedule_entries db !! id = Some e -> safe (se_attempt_ordinal e)
}.

(** An attempt belongs to a delivery of its scenario, and follows its predecessor in it. *)
Definition attempt_joined (db : Database) (a : AttemptRow) : Prop :=
  exists sc d, scenarios db !! at_scenario_id a = Some sc /\ sc_run_id sc = at_run_id a /\
    deliveries db !! at_delivery_id a = Some d /\ dl_run_id d = at_run_id a /\
    dl_scenario_id d = at_scenario_id a /\ dl_event_id d = at_event_id a.
Definition attempt_follows (db : Database) (a : AttemptRow) : Prop :=
  forall p, at_predecessor_attempt_id a = Some p -> exists b, attempts db !! p = Some b /\
    at_run_id b = at_run_id a /\ at_scenario_id b = at_scenario_id a /\ at_event_id b = at_event_id a /\
    at_delivery_id b = at_delivery_id a /\ at_ordinal a = at_ordinal b + 1.
Record attempts_linked (db : Database) : Prop := {
  al_joined : forall id a, attempts db !! id = Some a -> attempt_joined db a;
  al_follows : forall id a, attempts db !! id = Some a -> attempt_follows db a;
  al_unique : forall id a id' a', attempts db !! id = Some a -> attempts db !! id' = Some a' ->
    at_delivery_id a = at_delivery_id a' -> at_ordinal a = at_ordinal a' -> id = id'
}.

(** The places of all rows are the same. *)
Record same_places (db db' : Database) : Prop := {
  pl_scenarios : forall id, option_map (fun r => (sc_run_id r, sc_ordinal r)) (scenarios db' !! id)
    = option_map (fun r => (sc_run_id r, sc_ordinal r)) (scenarios db !! id);
  pl_deliveries : forall id,
    option_map (fun r => (dl_run_id r, dl_scenario_id r, dl_event_id r, dl_ordinal r, dl_step_ordinal r))
      (deliveries db' !! id)
    = option_map (fun r => (dl_run_id r, dl_scenario_id r, dl_event_id r, dl_ordinal r, dl_step_ordinal r))
      (deliveries db !! id);
  pl_series : forall id, option_map (fun r => (ob_run_id r, ob_scenario_id r)) (observer_series db' !! id)
    = option_map (fun r => (ob_run_id r, ob_scenario_id r)) (observer_series db !! id);
  pl_attempts : forall id, option_map attempt_place (attempts db' !! id) = option_map attempt_place (attempts db !! id)
}.

Lemma mapped {A B : Type} (f : A -> B) (x y : option A) v :
  option_map f x = option_map f y -> x = Some v -> exists w, y = Some w /\ f w = f v.
Proof. intros H ->. destruct y as [w|]; simpl in H; [|done]. injection H as H. eauto. Qed.

Lemma identities_places db db' : same_identities db db' -> same_places db db'.
Proof.
  intros [_ Hs Hd Ha Ho _]. split; [done| |done|].
  - intros id. specialize (Hd id). destruct (deliveries db' !! id), (deliveries db !! id); simpl in *; congruence.
  - intros id. specialize (Ha id). unfold attempt_identity, attempt_place in *.
    destruct (attempts db' !! id), (attempts db !! id); simpl in *; congruence.
Qed.

Lemma rebind_places db run id st epoch db' : rebind_execute db run id st epoch = Ok db' -> same_places db db'.
Proof.
  intros (a & Ha & _ & _ & Hat & _ & Hs & Hd & Ho & _)%rebind_effect. split; try congruence.
  intros i. rewrite Hat. destruct (decide (i = id)) as [->|]; [by rewrite lookup_insert_eq, Ha|by rewrite lookup_insert_ne].
Qed.

Lemma joined_frame db db' a a' :
  same_places db db' -> attempt_place a' = attempt_place a -> attempt_joined db a -> attempt_joined db' a'.
Proof.
  intros [Hs Hd _ _] Hp (sc & d & Hsc & Hr & Hdl & H1 & H2 & H3). unfold attempt_place in Hp.
  injection Hp as Er Esc Ee Ed _ _ _.
  destruct (mapped _ _ _ _ (eq_sym (Hs _)) Hsc) as (sc' & Hsc' & [= E1 _]).
  destruct (mapped _ _ _ _ (eq_sym (Hd _)) Hdl) as (d' & Hd' & [= E2 E3 E4 _ _]).
  exists sc', d'. rewrite Esc, Ed. split_and!; congruence.
Qed.

Lemma linked_frame db db' : same_places db db' -> attempts_linked db -> attempts_linked db'.
Proof.
  intros Hp [Hj Hf Hu]. pose proof (pl_attempts _ _ Hp) as Ha. split.
  - intros id a' Ha'. destruct (mapped _ _ _ _ (Ha id) Ha') as (a & Hid & Hpl).
    eapply joined_frame; [exact Hp|by symmetry|by eapply Hj].
  - intros id a' Ha' p Hpr. destruct (mapped _ _ _ _ (Ha id) Ha') as (a & Hid & [= E1 E2 E3 E4 _ E5 E6]).
    destruct (Hf _ _ Hid p) as (b & Hb & Hbs); [congruence|].
    destruct (mapped _ _ _ _ (eq_sym (Ha p)) Hb) as (b' & Hb' & [= F1 F2 F3 F4 _ F5 _]).
    exists b'. split; [done|]. rewrite F1, F2, F3, F4, F5, <- E1, <- E2, <- E3, <- E4, <- E5. exact Hbs.
  - intros id a id' b Hx Hy Hd Ho.
    destruct (mapped _ _ _ _ (Ha id) Hx) as (a0 & Hid & [= _ _ _ E4 _ E5 _]).
    destruct (mapped _ _ _ _ (Ha id') Hy) as (b0 & Hid' & [= _ _ _ F4 _ F5 _]).
    eapply Hu; [exact Hid|exact Hid'|congruence..].
Qed.

Lemma typed_frame db db' :
  same_places db db' -> (forall id e, schedule_entries db' !! id = Some e -> safe (se_attempt_ordinal e)) ->
  typed_tables db -> typed_tables db'.
Proof.
  intros [Hs Hd Ho Ha] Hsch [Ts Td To Ta _]. split; [| | | |done].
  - intros id sc' H. destruct (mapped _ _ _ _ (Hs id) H) as (sc & Hid & [= _ <-]). by apply Ts.
  - intros id d' H. destruct (mapped _ _ _ _ (Hd id) H) as (d & Hid & [= _ _ <- <- <-]). by apply Td.
  - intros id o' H. destruct (mapped _ _ _ _ (Ho id) H) as (o & Hid & [= <- <-]).
    destruct (To _ _ Hid) as (Hv & sc & Hsc & Hr). split; [done|].
    destruct (mapped _ _ _ _ (eq_sym (Hs _)) Hsc) as (sc' & Hsc' & [= E1 _]). exists sc'. split; congruence.
  - intros id a' H. destruct (mapped _ _ _ _ (Ha id) H) as (a & Hid & [= _ _ _ _ _ E5 _]). rewrite <- E5. by apply Ta.
Qed.

(** A claim that inserts its attempt found no attempt of its ordinal in the delivery. *)
Lemma claim_unique db claim hook r schedule i b :
  claim_execute db claim hook = Ok r -> schedule_entries db !! cl_schedule_entry_id claim = Some schedule ->
  se_consumed_at schedule = None -> attempts db !! cl_attempt_id claim = None -> attempts db !! i = Some b ->
  at_delivery_id b = cl_delivery_id claim -> at_ordinal b <> se_attempt_ordinal schedule.
Proof.
  unfold claim_execute. intros H Hs Hc Hn Hb Hd Ho. py_step H. rewrite Hs in H. py_step H. rewrite Hc in H.
  do 3 py_step H. unfold _insert_claimed_attempt in E3. simpl in E3. rewrite Hn in E3. py_step E3.
  apply orb_false_iff in E4 as [E4 _]. pose proof (exists_row_false _ _ _ _ E4 Hb) as Hf. simpl in Hf.
  rewrite bool_decide_true in Hf by done. simpl in Hf. by apply Z.eqb_neq in Hf.
Qed.

Lemma claim_row_joined db claim schedule :
  _validate_attempt_schedule_claim db claim schedule = Ok tt ->
  attempt_joined db (claimed_attempt_row claim schedule) /\ attempt_follows db (claimed_attempt_row claim schedule).
Proof.
  unfold _validate_attempt_schedule_claim. intros H. do 3 py_step H. apply negb_bool_decide_false in E.
  destruct (deliveries db !! cl_delivery_id claim) as [d|] eqn:Ed; [|done].
  destruct (scenarios db !! dl_scenario_id d) as [sc|] eqn:Esc; [|done]. do 2 py_step H.
  apply orb_false_iff in E2 as [E2%negb_bool_decide_false E2'%negb_bool_decide_false].
  rewrite !orb_false_iff in E3. destruct E3 as [[[[E3%negb_bool_decide_false E4%negb_bool_decide_false] _] _] _].
  split.
  - exists sc, d. simpl. rewrite <- E3. split_and!; congruence.
  - intros p Hp. simpl in Hp. rewrite Hp in H. destruct (se_condition_json schedule); [|done]. do 3 py_step H.
    unfold validate_predecessor in H. destruct (attempts db !! p) as [b|]; [|done]. py_step H.
    rewrite !orb_false_iff, !negb_bool_decide_false, negb_false_iff, Z.eqb_eq in E8.
    exists b. simpl. split_and!; naive_solver congruence.
Qed.

Lemma follows_frame db db' a :
  (forall id b, attempts db !! id = Some b -> attempts db' !! id = Some b) -> attempt_follows db a -> attempt_follows db' a.
Proof. intros Hs Hf p (b & Hb & H)%Hf. exists b. split; [by apply Hs|done]. Qed.

Lemma prepared_places db db2 claim schedule :
  claim_prepared db db2 claim schedule -> attempts db2 = attempts db -> same_places db db2.
Proof. intros (_ & _ & Hs & Hd & Ho & _) Ha. split; congruence. Qed.

Lemma prepared_linked db db2 claim schedule :
  claim_prepared db db2 claim schedule -> _validate_attempt_schedule_claim db claim schedule = Ok tt ->
  (attempts db !! cl_attempt_id claim = None -> forall i b, attempts db !! i = Some b ->
     at_delivery_id b = cl_delivery_id claim -> at_ordinal b <> se_attempt_ordinal schedule) ->
  attempts_linked db -> attempts_linked db2.
Proof.
  intros Hp [Hrj Hrf]%claim_row_joined Hu Hl. pose proof Hp as (_ & _ & Hs & Hd & _ & _ & _ & _ & _ & Hatt).
  destruct Hatt as [(prepared & _ & _ & _ & Ha)|[Hn Ha]].
  { eapply linked_frame; [by eapply prepared_places|done]. }
  specialize (Hu Hn). destruct Hl as [Hj Hf Hq].
  assert (forall a, attempt_joined db a -> attempt_joined db2 a) as Hjoin
    by (intros a; unfold attempt_joined; by rewrite Hs, Hd).
  assert (forall id b, attempts db !! id = Some b -> attempts db2 !! id = Some b) as Hkeep.
  { intros id b Hb. rewrite Ha, lookup_insert_ne; congruence. }
  split.
  - intros id a H. rewrite Ha in H. apply lookup_insert_Some in H as [[<- <-]|[_ H]]; [by apply Hjoin|].
    by eapply Hjoin, Hj.
  - intros id a H. rewrite Ha in H. apply lookup_insert_Some in H as [[<- <-]|[_ H]];
      (eapply follows_frame; [exact Hkeep|]); [done|by eapply Hf].
  - intros id a id' b H H' Hdl Ho. rewrite Ha in H, H'.
    apply lookup_insert_Some in H as [[<- <-]|[_ H]], H' as [[<- <-]|[_ H']]; [done| | |by eapply Hq].
    + exfalso. by apply (Hu _ _ H').
    + exfalso. by apply (Hu _ _ H).
Qed.

Lemma prepared_typed db db2 claim schedule :
  claim_prepared db db2 claim schedule -> schedule_entries db !! cl_schedule_entry_id claim = Some schedule ->
  valid_attempt_id (cl_attempt_id claim) -> typed_tables db -> typed_tables db2.
Proof.
  intros (Hse & _ & Hs & Hd & Ho & _ & _ & _ & _ & Hatt) Hsch Hid [Ts Td To Ta Te].
  split; rewrite ?Hs, ?Hd, ?Ho; [done..| |].
  - intros id a. destruct Hatt as [(prepared & _ & _ & _ & ->)|[_ ->]]; [apply Ta|].
    intros [[<- <-]|[_ H]]%lookup_insert_Some; [|by apply Ta]. split; [done|]. by eapply Te.
  - rewrite Hse. intros id e [[<- <-]|[_ H]]%lookup_insert_Some; [|by eapply Te]. simpl. by eapply Te.
Qed.

(** ** The invariant *)

Record recoverable (db : Database) : Prop := {
  rc_staging : staging_bound db;
  rc_recorded : attempts_recorded db;
  rc_records : records_referenced db;
  rc_linked : attempts_linked db;
  rc_typed : typed_tables db
}.

Definition placed (db : Database) : Prop := staging_bound db /\ attempts_linked db /\ typed_tables db.

Lemma retry_ordinal_safe r : validate_retry_schedule r = Ok r -> safe (rs_attempt_ordinal r).
Proof.
  unfold validate_retry_schedule. intros H. do 9 py_step H. unfold _safe_integer in E7. py_step E7.
  by apply negb_false_iff in E8.
Qed.

Lemma apply_placed db op ct db' : placed db -> op_ok op -> apply_execute db op = Ok (ct, db') -> placed db'.
Proof.
  intros (HB & HL & HT) Hok H. pose proof (staging_bound_kept _ _ _ _ HB Hok H) as HB'.
  apply apply_staged in H as [->|(_ & _ & p & Hf)]; [done|].
  pose proof (identities_places _ _ (fc_identities _ _ _ _ Hf)) as Hp.
  split_and!; [done|by eapply linked_frame|]. eapply typed_frame; [exact Hp| |exact HT].
  destruct Hok as (_ & _ & Hretry). pose proof (fc_schedule _ _ _ _ Hf) as Hs. unfold adds_schedule in Hs.
  destruct (tc_attempt_outcome (op_command op)) as [o|]; simpl in Hs; [|rewrite Hs; apply HT].
  destruct (outcome_retry_schedule o) as [r|] eqn:Er; [|rewrite Hs; apply HT]. destruct Hs as [_ ->].
  intros id e [[<- <-]|[_ He]]%lookup_insert_Some; [|by eapply ty_schedules].
  apply retry_ordinal_safe. by eapply Hretry.
Qed.

Lemma claim_valid claim :
  validate_schedule_claim claim = Ok claim ->
  valid_attempt_id (cl_attempt_id claim) /\ tc_attempt_outcome (cl_claim_transition claim) = None.
Proof.
  unfold validate_schedule_claim. intros Hv. do 8 py_step Hv. rewrite !orb_false_iff in E6.
  unfold valid_attempt_id. rewrite E0. split; [done|]. by destruct E6 as [_ E6], (tc_attempt_outcome _).
Qed.

Lemma claim_placed db claim hook ct db' :
  placed db -> validate_schedule_claim claim = Ok claim -> command_ok (cl_claim_transition claim) ->
  claim_execute db claim hook = Ok (ct, db') -> placed db'.
Proof.
  intros (HB & HL & HT) Hv Hc H.
  pose proof H as (schedule & Hs & Hval & _ & [(-> & _)|(Hfree & db2 & Hp & Ha)])%claim_execute_cases; [done|].
  destruct (claim_valid _ Hv) as [Hid Ho].
  eapply apply_placed; [| |exact Ha].
  - split_and!.
    + intros id. destruct Hp as (_ & _ & _ & _ & _ & _ & _ & _ & -> & Hatt). specialize (HB id).
      destruct (attempt_response_staging db !! id) as [row|].
      * split; [|by apply HB]. destruct HB as [HB _]. unfold entity_state in *.
        destruct Hatt as [(? & _ & _ & _ & ->)|[Hn ->]]; [done|].
        rewrite lookup_insert_ne; [done|]. intros <-. by rewrite Hn in HB.
      * intros run. unfold entity_state in *. destruct Hatt as [(? & _ & _ & _ & ->)|[Hn ->]]; [apply HB|].
        destruct (decide (id = cl_attempt_id claim)) as [->|]; [by rewrite lookup_insert_eq|].
        rewrite lookup_insert_ne by done. apply HB.
    + eapply prepared_linked; [done|done| |done]. intros Hn i b. by eapply claim_unique.
    + by eapply prepared_typed.
  - split; [exact Hc|]. simpl. split; [done|]. rewrite Ho. done.
Qed.

Lemma rebind_placed db run id st epoch db' : placed db -> rebind_execute db run id st epoch = Ok db' -> placed db'.
Proof.
  intros (HB & HL & HT) H. pose proof (rebind_places _ _ _ _ _ _ H) as Hp. split_and!.
  - intros i. rewrite (rebind_state _ _ _ _ _ _ _ _ H). apply rebind_effect in H as (_ & _ & _ & _ & _ & _ & _ & _ & _ & _ & _ & _ & -> & _).
    exact (HB i).
  - by eapply linked_frame.
  - eapply typed_frame; [exact Hp| |exact HT].
    destruct (rebind_entries _ _ _ _ _ _ H) as [->|(sid & r & Hr & _ & ->)]; [apply HT|].
    intros i e [[<- <-]|[_ He]]%lookup_insert_Some; [exact (ty_schedules _ HT _ _ Hr)|exact (ty_schedules _ HT _ _ He)].
Qed.

Lemma terminal_placed db run category at_ r :
  placed db -> runs db !! run = Some r -> terminal_open category at_ r = true -> placed (with_terminal db run category at_ r).
Proof.
  intros (HB & [] & []) Hr _. split_and!; [|by split..]. intros i. rewrite terminal_entity by done. exact (HB i).
Qed.

Lemma recoverable_reachable start db : recoverable start -> journal_reachable start db -> recoverable db.
Proof.
  intros [HB HR HD HL HT] Hr. destruct (recorded_reachable _ _ HR HD Hr) as [HR' HD'].
  assert (placed db) as (? & ? & ?); [|by split].
  clear HR HD HR' HD'. revert db Hr. apply (journal_invariant placed); [done|..];
    eauto using apply_placed, claim_placed, rebind_placed, terminal_placed.
Qed.
