(* ===== verification/ScheduleLaws.v ===== *)
(** * Reading what is due and completing a run

    What [Schedules] promises over every execution. *)

From S2P Require Import Prelude Text Identifiers Domain Clocks Lifecycle Replay Commands Json Store Journal Schedules Demo Ledger Outcomes Claiming Idempotence Recoverable.

Local Open Scope Z_scope.

(** * What the schedule repository reads and what a completion leaves

    Reading the pending entries of a run never fails on the schedules the repository itself
    writes, lists exactly the work that is due, in the stable order, and a completion is final. *)

(** ** Reading an entry *)

Definition entry_of (id : str) (e : ScheduleRow) (predecessor prepared : option str) : PersistedScheduleEntry :=
  {| pe_schedule_entry_id := id; pe_run_id := se_run_id e; pe_scenario_id := se_scenario_id e;
     pe_attempt_plan_id := se_entity_id e; pe_logical_due_ns := se_logical_time_ns e;
     pe_scenario_ordinal := se_scenario_ordinal e; pe_step_ordinal := se_step_ordinal e;
     pe_delivery_ordinal := se_delivery_ordinal e; pe_attempt_ordinal := se_attempt_ordinal e;
     pe_deterministic_tie_key := se_deterministic_tie_key e; pe_condition_json := se_condition_json e;
     pe_predecessor_attempt_id := predecessor; pe_prepared_attempt_id := prepared |}.

Lemma row_text_ok s v : row_text s = Ok v -> v = s /\ s <> [].
Proof. unfold row_text. intros H. py_step H. injection H as <-. by apply bool_decide_eq_false in E. Qed.

(** The attempt joined to a row only adds its own identifier. *)
Lemma entry_read_prepared id e p a :
  _schedule_entry id e None = Ok p -> valid_attempt_id a ->
  _schedule_entry id e (Some a) = Ok (entry_of id e (pe_predecessor_attempt_id p) (Some a)).
Proof.
  intros H Ha. assert (row_text a = Ok a) as Ht.
  { unfold row_text. rewrite bool_decide_false; [done|]. intros ->. discriminate Ha. }
  unfold _schedule_entry in *. rewrite Ht. do 8 py_step H.
  apply row_text_ok in E as [-> _], E1 as [-> _], E2 as [-> _], E3 as [-> _], E4 as [-> _], E5 as [-> _].
  unfold validate_schedule_entry in *.
  cbn [pe_run_id pe_scenario_id pe_attempt_plan_id pe_schedule_entry_id pe_logical_due_ns pe_scenario_ordinal
    pe_step_ordinal pe_delivery_ordinal pe_attempt_ordinal pe_deterministic_tie_key pe_condition_json
    pe_predecessor_attempt_id pe_prepared_attempt_id] in *.
  do 9 py_step H. assert (validate_attempt_id (Some a) = Ok tt) as Hv.
  { unfold validate_attempt_id. unfold valid_attempt_id in Ha. by destruct (validate_fresh_id a _). }
  py_step H. rewrite Hv. py_step H. injection H as <-. reflexivity.
Qed.

(** ** Entries that can be read *)

(** Rows a later retry leaves readable: attempts count from one. *)
Record readable (db : Database) : Prop := {
  rd_entries : forall id e, schedule_entries db !! id = Some e ->
    1 <= se_attempt_ordinal e /\ is_ok (_schedule_entry id e None) = true;
  rd_attempts : forall id a, attempts db !! id = Some a -> valid_attempt_id id /\ 1 <= at_ordinal a
}.

(** The retries a command schedules say in their condition which attempt they follow. *)
Definition names_predecessor (c : TransitionCommand) : Prop :=
  forall o r, tc_attempt_outcome c = Some o -> outcome_retry_schedule o = Some r ->
    _predecessor (rs_condition_json r) = Ok (Some (rs_predecessor_attempt_id r)).

Lemma token_bounded v n t : _bounded_token v n = Ok t -> within 1 n (zlen v) = true /\ v <> [].
Proof.
  unfold _bounded_token. intros H. py_step H. apply orb_false_iff in E as [E%negb_false_iff _].
  split; [done|]. intros ->. discriminate E.
Qed.

Lemma safe_within v signed t :
  _safe_integer v signed = Ok t -> within (if signed then - MAX_SAFE_INTEGER else 0) MAX_SAFE_INTEGER v = true.
Proof. unfold _safe_integer. intros H. py_step H. by apply negb_false_iff in E. Qed.

Lemma planned_nonempty v k t : validate_planned_id v (Some k) = Ok t -> v <> [].
Proof. intros H ->. destruct k; discriminate H. Qed.
Lemma run_nonempty v t : validate_run_id v = Ok t -> v <> [].
Proof. intros H ->. discriminate H. Qed.
Lemma row_text_nonempty v : v <> [] -> row_text v = Ok v.
Proof. unfold row_text. intros H. by rewrite bool_decide_false. Qed.
#[local] Hint Resolve planned_nonempty run_nonempty row_text_nonempty : core.

Lemma predecessor_valid c pr : _predecessor c = Ok (Some pr) -> validate_attempt_id (Some pr) = Ok tt.
Proof.
  unfold _predecessor. intros H. destruct c; [|done]. destruct (_ ≫= _) as [[]|]; try done.
  destruct (json_get _ _) as [[]|]; try done. py_step H. injection H as <-. simpl. by rewrite E.
Qed.

(** A retry that follows an attempt is readable. *)
Lemma retry_readable run_id t r pr :
  validate_run_id run_id = Ok t -> validate_retry_schedule r = Ok r ->
  is_ok (validate_planned_id (rs_entity_id r) (Some Planned_ATTEMPT_PLAN)) = true ->
  rs_entity_type r = u "attempt" -> 2 <= rs_attempt_ordinal r ->
  _predecessor (rs_condition_json r) = Ok (Some pr) ->
  is_ok (_schedule_entry (rs_schedule_entry_id r) (retry_schedule_row run_id r) None) = true.
Proof.
  intros Hrun H Hp Ht Ho Hc. unfold validate_retry_schedule in H. do 13 py_step H.
  apply token_bounded in E as [Hb1 Hn1], E8 as [Hb2 Hn2]. apply safe_within in E3, E4, E5, E6, E7.
  destruct (validate_planned_id (rs_entity_id r) _) eqn:Ep; [|done].
  unfold _schedule_entry, validate_schedule_entry, retry_schedule_row. simpl.
  rewrite Ht, Hc, (predecessor_valid _ _ Hc). change (row_text (u "attempt")) with (Ok (u "attempt")).
  rewrite !row_text_nonempty by eauto. rewrite Hrun, E0, Ep.
  unfold _MAX_SCHEDULE_ENTRY_ID, _MAX_TIE_KEY. rewrite Hb1, Hb2, E3, E4, E5, E6, E7.
  unfold condition_too_long in E11. simpl. rewrite E11. by rewrite (proj2 (Z.eqb_neq _ 1)) by lia.
Qed.

Lemma loaded_ordinal db id p :
  load_attempt_projection db id = Some p -> exists a, attempts db !! id = Some a /\ pj_attempt_ordinal p = Some (at_ordinal a).
Proof.
  unfold load_attempt_projection. intros H. destruct (attempts db !! id) as [a|]; [|done]. exists a. split; [done|].
  repeat case_match; simplify_eq; done.
Qed.

(** What the guard of a terminal command checks of the retry it schedules. *)
Lemma fresh_retry db db' op p o r :
  _validate_payload_scope (op_command op) = Ok tt -> fresh_change db db' op p ->
  tc_attempt_outcome (op_command op) = Some o -> outcome_retry_schedule o = Some r ->
  rs_entity_type r = u "attempt" /\ is_ok (validate_planned_id (rs_entity_id r) (Some Planned_ATTEMPT_PLAN)) = true /\
  exists a, attempts db !! tc_entity_id (op_command op) = Some a /\ rs_attempt_ordinal r = 1 + at_ordinal a.
Proof.
  intros Hpay%payload_terminal Hf Ho Hr. rewrite Ho in Hpay. cbn [is_none negb] in Hpay.
  pose proof (fc_guards _ _ _ _ Hf) as Hg. unfold _validate_transition_guards in Hg. do 3 py_step Hg. rewrite Hpay in Hg.
  unfold _guard_terminal_attempt in Hg. rewrite Ho in Hg. destruct (tc_new_state (op_command op)); try done.
  do 2 py_step Hg. unfold _validate_retry_schedule_identity in Hg. rewrite Ho in Hg. simpl in Hg. rewrite Hr in Hg.
  simpl in Hg. py_step Hg. py_step Hg. rewrite !orb_false_iff, !negb_false_iff in E4.
  destruct E4 as [[[[[[[_ _] _] Ht%bool_decide_eq_true] _] _] _] Hord%bool_decide_eq_true].
  apply is_terminal_attempt_spec in Hpay as [He _].
  pose proof (fc_load _ _ _ _ Hf) as Hl. rewrite He in Hl. apply loaded_ordinal in Hl as (b & Hb & Hp).
  rewrite Hp in Hord. injection Hord as Hord. split_and!; [done| |by eauto]. by apply negb_false_iff in E5.
Qed.

Lemma readable_attempts db db' :
  (forall id, option_map attempt_identity (attempts db' !! id) = option_map attempt_identity (attempts db !! id)) ->
  readable db -> forall id a, attempts db' !! id = Some a -> valid_attempt_id id /\ 1 <= at_ordinal a.
Proof.
  intros Hi [_ HA] id a' Ha'. destruct (mapped _ _ _ _ (Hi id) Ha') as (a & Ha & Heq).
  destruct (HA _ _ Ha) as [Hv Ho]. split; [done|]. unfold attempt_identity in Heq. simplify_eq. congruence.
Qed.

Lemma apply_readable db op ct db' :
  readable db -> op_ok op -> names_predecessor (op_command op) -> apply_execute db op = Ok (ct, db') -> readable db'.
Proof.
  intros HR (Hok & _ & Hretry) Hnames (_ & Hpay & _ & [[_ ->]|[_ [p Hf]]])%apply_cases; [done|].
  pose proof (readable_attempts db db' (si_attempts _ _ (fc_identities _ _ _ _ Hf)) HR) as HA.
  split; [|exact HA]. pose proof (fc_schedule _ _ _ _ Hf) as Hs. unfold adds_schedule in Hs.
  destruct (tc_attempt_outcome (op_command op)) as [o|] eqn:Eo; simpl in Hs; [|rewrite Hs; apply HR].
  destruct (outcome_retry_schedule o) as [r|] eqn:Er; [|rewrite Hs; apply HR]. destruct Hs as [_ ->].
  intros id e [[<- <-]|[_ He]]%lookup_insert_Some; [|by apply (rd_entries _ HR)].
  destruct (fresh_retry _ _ _ _ _ _ Hpay Hf Eo Er) as (Ht & Hp & a & Ha & Hord).
  destruct (rd_attempts _ HR _ _ Ha) as [_ Hone]. cbn [se_attempt_ordinal retry_schedule_row]. split; [lia|].
  destruct Hok as [Hc _]. unfold validate_transition_command in Hc. py_step Hc.
  eapply retry_readable; [exact E|by eapply Hretry|done|done|lia|by eapply Hnames].
Qed.

(** Consuming an entry keeps what is read of it. *)
Lemma consumed_read id e at_ epoch p :
  _schedule_entry id (consume_schedule e at_ epoch) p = _schedule_entry id e p.
Proof. done. Qed.

Lemma readable_consumed db db' sid e at_ epoch :
  readable db -> schedule_entries db !! sid = Some e ->
  schedule_entries db' = <[sid := consume_schedule e at_ epoch]> (schedule_entries db) ->
  (forall id a, attempts db' !! id = Some a -> valid_attempt_id id /\ 1 <= at_ordinal a) -> readable db'.
Proof.
  intros [HE _] He Hs HA. split; [|exact HA]. rewrite Hs. intros id x [[<- <-]|[_ Hx]]%lookup_insert_Some; [|by apply HE].
  rewrite consumed_read. exact (HE _ _ He).
Qed.

Lemma claim_readable db claim hook ct db' :
  readable db -> validate_schedule_claim claim = Ok claim -> command_ok (cl_claim_transition claim) ->
  claim_execute db claim hook = Ok (ct, db') -> readable db'.
Proof.
  intros HR Hv Hc (schedule & Hs & Hval & _ & [(-> & _)|(Hfree & db2 & Hp & Ha)])%claim_execute_cases; [done|].
  destruct (claim_valid _ Hv) as [Hid Ho].
  eapply apply_readable; [| | |exact Ha].
  - destruct Hp as (Hse & _ & _ & _ & _ & _ & _ & _ & _ & Hatt). eapply readable_consumed; [exact HR|done..|].
    destruct Hatt as [(? & _ & _ & _ & ->)|[Hn ->]]; [apply HR|].
    intros id a [[<- <-]|[_ Hl]]%lookup_insert_Some; [|by apply HR]. split; [done|]. exact (proj1 (rd_entries _ HR _ _ Hs)).
  - split; [exact Hc|]. simpl. split; [done|]. rewrite Ho. done.
  - intros o r. simpl. rewrite Ho. done.
Qed.

Lemma rebind_readable db run id st epoch db' :
  readable db -> rebind_execute db run id st epoch = Ok db' -> readable db'.
Proof.
  intros HR H. pose proof H as (a & Ha & _ & _ & Hat & _)%rebind_effect.
  assert (forall i b, attempts db' !! i = Some b -> valid_attempt_id i /\ 1 <= at_ordinal b) as HA.
  { rewrite Hat. intros i b [[<- <-]|[_ Hl]]%lookup_insert_Some; [exact (rd_attempts _ HR _ _ Ha)|by apply HR]. }
  destruct (rebind_entries _ _ _ _ _ _ H) as [Hs|(sid & e & He & _ & Hs)].
  - split; [rewrite Hs; apply HR|exact HA].
  - by eapply readable_consumed.
Qed.

Definition call_names (call : journal_call) : Prop :=
  match call with CallApply op => names_predecessor (op_command op) | _ => True end.

Lemma exec_readable db call : readable db -> call_ok call -> call_names call -> readable (journal_exec db call).
Proof.
  intros HR Hok Hn. unfold journal_exec, in_transaction. destruct call as [op|claim hook|run id st epoch|q].
  - destruct (apply_execute db op) as [[ct d]|] eqn:E; [|done]. by eapply apply_readable.
  - destruct (claim_execute db claim hook) as [[ct d]|] eqn:E; [|done]. destruct Hok. by eapply claim_readable.
  - destruct (rebind_execute db run id st epoch) as [d|] eqn:E; [|done]. by eapply rebind_readable.
  - destruct (finalize_execute db q) as [d|] eqn:E; [|done]. destruct Hok as [Hok Hq].
    apply finalize_cases in E as (ct & d' & r & Ha & _ & _ & ->).
    assert (readable d') as [HE HA]; [|by split]. eapply apply_readable; [exact HR|exact Hok| |exact Ha].
    intros o r' Ho _. apply apply_cases in Ha as (_ & Hpay%payload_terminal & _). rewrite Ho in Hpay.
    apply is_terminal_attempt_spec in Hpay as [He _]. unfold validate_completion_request in Hq. do 6 py_step Hq.
    rewrite !orb_false_iff, !negb_false_iff in E4. destruct E4 as [[[[[_ Hr%bool_decide_eq_true] _] _] _] _].
    simpl in He. congruence.
Qed.

Lemma calls_readable db calls :
  readable db -> Forall call_ok calls -> Forall call_names calls -> readable (fold_left journal_exec calls db).
Proof.
  intros HR Hok. revert db HR. induction Hok as [|call calls Hc _ IH]; intros db HR Hn; [done|].
  apply list.Forall_cons in Hn as [Hn Hns]. simpl. apply IH; [by apply exec_readable|done].
Qed.

(** ** The rows of the query *)

Lemma elem_of_left_join {A} (l : list A) x : x ∈ left_join l <-> (l = [] /\ x = None) \/ (exists y, y ∈ l /\ x = Some y).
Proof.
  destruct l as [|y l].
  - simpl. rewrite list_elem_of_singleton. split; [by left|]. intros [[_ ->]|(z & Hz & _)]; [done|]. by apply not_elem_of_nil in Hz.
  - cbn [left_join]. rewrite list_elem_of_fmap. split; [intros (z & -> & Hz); eauto|intros [[[=] _]|(z & Hz & ->)]; eauto].
Qed.

Lemma left_join_inhabited {A} (l : list A) : exists x, x ∈ left_join l.
Proof. destruct l as [|y l]; [exists None; by left|exists (Some y); by left]. Qed.

(** The attempt an entry was claimed for. *)
Definition prepared_for (db : Database) (e : ScheduleRow) (aid : str) (a : AttemptRow) : Prop :=
  attempts db !! aid = Some a /\
  (at_run_id a, at_scenario_id a, at_attempt_plan_id a, at_ordinal a)
    = (se_run_id e, se_scenario_id e, Some (se_entity_id e), se_attempt_ordinal e) /\
  at_state a ∈ [Attempt_SCHEDULED; Attempt_CLAIMED] /\
  exists d, deliveries db !! at_delivery_id a = Some d /\
    (dl_run_id d, dl_scenario_id d, dl_ordinal d) = (se_run_id e, se_scenario_id e, se_delivery_ordinal e).

Lemma joined_prepared db e a :
  (exists d, d ∈ joined_deliveries db e /\ Some a ∈ joined_attempts db e d) <-> prepared_for db e a.1 a.2.
Proof.
  destruct a as [aid a]. unfold joined_attempts, joined_deliveries, prepared_for, prepares. simpl. split.
  - intros (d & Hd & Ha). apply elem_of_left_join in Ha as [[_ [=]]|(? & Ha & [= <-])].
    apply elem_of_select in Ha as [Ha Hp]. rewrite !andb_true_iff, !bool_decide_eq_true, Z.eqb_eq in Hp.
    destruct Hp as [[[[[Hr Hs] <-] Hpl] Ho] Hst]. apply elem_of_left_join in Hd as [[_ [=]]|(? & Hd & [= <-])].
    apply list_elem_of_fmap in Hd as ([did d] & Heq & [Hd Hm]%elem_of_select). simpl in Heq. subst did.
    rewrite !andb_true_iff, !bool_decide_eq_true, Z.eqb_eq in Hm. destruct Hm as [[D1 D2] D3].
    split_and!; [done|congruence|done|]. exists d. split; [done|]. congruence.
  - intros (Ha & [= H1 H2 H3 H4] & Hst & d & Hd & [= D1 D2 D3]). exists (Some (at_delivery_id a)). split.
    + apply elem_of_left_join. right. exists (at_delivery_id a). split; [|done].
      apply list_elem_of_fmap. exists (at_delivery_id a, d). split; [done|]. apply elem_of_select. split; [done|].
      by rewrite !andb_true_iff, !bool_decide_eq_true, Z.eqb_eq.
    + apply elem_of_left_join. right. exists (aid, a). split; [|done]. apply elem_of_select. split; [done|].
      by rewrite !andb_true_iff, !bool_decide_eq_true, Z.eqb_eq.
Qed.

Lemma elem_of_entry_rows db epoch id e r :
  r ∈ entry_rows db epoch id e <->
  exists d a, d ∈ joined_deliveries db e /\ a ∈ joined_attempts db e d /\ is_open epoch e a = true /\
    r = (id, e, option_map fst a).
Proof.
  unfold entry_rows. rewrite list_elem_of_bind. split.
  - intros (d & Hr & Hd). apply list_elem_of_fmap in Hr as (a & -> & Ha).
    apply list_elem_of_In, List.filter_In in Ha as [Ha%list_elem_of_In Ho]. eauto 10.
  - intros (d & a & Hd & Ha & Ho & ->). exists d. split; [|done]. apply list_elem_of_fmap. exists a. split; [done|].
    apply list_elem_of_In, List.filter_In. by rewrite <- list_elem_of_In.
Qed.

(** An entry is due: not consumed, or consumed by this owner for an attempt that is still claimed. *)
Definition due (db : Database) (epoch : Z) (e : ScheduleRow) : Prop :=
  se_consumed_at e = None \/
  (se_consumed_by_owner_epoch e = Some epoch /\ exists aid a, prepared_for db e aid a /\ at_state a = Attempt_CLAIMED).

Lemma rows_due db epoch id e : (exists r, r ∈ entry_rows db epoch id e) <-> due db epoch e.
Proof.
  setoid_rewrite elem_of_entry_rows. unfold due. split.
  - intros (r & d & a & Hd & Ha & Ho & _). unfold is_open in Ho. destruct (se_consumed_at e); [|by left]. right.
    simpl in Ho. apply andb_true_iff in Ho as [Ho He%bool_decide_eq_true]. split; [done|].
    destruct a as [[aid a]|]; [|done]. apply bool_decide_eq_true in Ho. exists aid, a. split; [|done].
    apply (joined_prepared db e (aid, a)). eauto.
  - intros [Hn|(He & aid & a & Hp & Hs)].
    + destruct (left_join_inhabited (map fst (select (deliveries db) (fun _ d =>
        bool_decide (dl_run_id d = se_run_id e) && bool_decide (dl_scenario_id d = se_scenario_id e)
        && (dl_ordinal d =? se_delivery_ordinal e))))) as [d Hd].
      destruct (left_join_inhabited (select (attempts db) (fun _ a => prepares e d a))) as [a Ha].
      exists (id, e, option_map fst a), d, a. split_and!; try done. unfold is_open. by rewrite Hn.
    + apply (joined_prepared db e (aid, a)) in Hp as (d & Hd & Ha).
      exists (id, e, Some aid), d, (Some (aid, a)). split_and!; try done. unfold is_open. rewrite He.
      rewrite !bool_decide_true by done. apply orb_true_r.
Qed.

(** ** The pending entries *)

Lemma rows_read db run epoch :
  readable db -> exists entries,
    Forall2 (fun r p => _schedule_entry r.1.1 r.1.2 r.2 = Ok p) (pending_rows db run epoch) entries.
Proof.
  intros HR. destruct (map_result_total (fun r => _schedule_entry r.1.1 r.1.2 r.2) (pending_rows db run epoch)) as [l Hl].
  2: { exists l. by apply map_result_ok. }
  intros r Hr. unfold pending_rows in Hr. apply elem_of_py_sorted in Hr.
  apply list_elem_of_bind in Hr as ([id e] & Hr & [He _]%elem_of_select).
  apply elem_of_entry_rows in Hr as (d & a & Hd & Ha & _ & ->). cbn [fst snd].
  destruct (rd_entries _ HR _ _ He) as [_ Hok]. destruct (_schedule_entry id e None) as [p|] eqn:Ep; [|done].
  destruct a as [[aid a]|]; [|by eexists]. eexists. apply (entry_read_prepared _ _ _ _ Ep).
  assert (prepared_for db e aid a) as [Hl _] by (apply (joined_prepared db e (aid, a)); eauto).
  by apply (rd_attempts _ HR _ _ Hl).
Qed.

(** What is read of a row is its columns. *)
Lemma row_entry id e a p :
  _schedule_entry id e a = Ok p ->
  exists predecessor, _predecessor (se_condition_json e) = Ok predecessor /\ p = entry_of id e predecessor a.
Proof.
  unfold _schedule_entry. intros H. do 8 py_step H.
  apply row_text_ok in E as [-> _], E1 as [-> _], E2 as [-> _], E3 as [-> _], E4 as [-> _], E5 as [-> _].
  assert (forall q, (let! prepared := match a with None => Ok None | Some a => let! t := row_text a in Ok (Some t) end in
    q prepared) = Ok p -> q a = Ok p) as Hq.
  { intros q. destruct a as [a|]; [|done]. destruct (row_text a) eqn:Ea; [|done]. by apply row_text_ok in Ea as [-> _]. }
  apply Hq in H. unfold validate_schedule_entry in H. do 11 py_step H. injection H as <-. eauto.
Qed.

Lemma entries_keys rows entries :
  Forall2 (fun r p => _schedule_entry r.1.1 r.1.2 r.2 = Ok p) rows entries ->
  map entry_order_key entries = map row_order_key rows.
Proof.
  induction 1 as [|[[id e] a] p rows entries Hp _ IH]; [done|]. simpl. rewrite IH. f_equal.
  by apply row_entry in Hp as (pr & _ & ->).
Qed.

Lemma pending_rows_elem db run epoch id e a :
  (id, e, a) ∈ pending_rows db run epoch <->
  schedule_entries db !! id = Some e /\ se_run_id e = run /\ (id, e, a) ∈ entry_rows db epoch id e.
Proof.
  unfold pending_rows. rewrite elem_of_py_sorted, list_elem_of_bind. split.
  - intros ([id' e'] & Hr & [He Hrun%bool_decide_eq_true]%elem_of_select).
    pose proof Hr as (d & x & _ & _ & _ & [= <- <- _])%elem_of_entry_rows. done.
  - intros (He & Hrun & Hr). exists (id, e). split; [done|]. apply elem_of_select. by rewrite bool_decide_true.
Qed.

(** The entries read, in the order of the query. *)
Lemma pending_reads db run row :
  readable db -> is_ok (validate_run_id run) = true -> runs db !! run = Some row ->
  exists entries, pending_schedule db run = Ok entries /\ StronglySorted (key_le entry_order_key) entries /\
    Forall2 (fun r p => _schedule_entry r.1.1 r.1.2 r.2 = Ok p) (pending_rows db run (run_owner_epoch row)) entries.
Proof.
  intros HR Hv Hrow. destruct (rows_read db run (run_owner_epoch row) HR) as [entries Hf]. exists entries.
  pose proof (entries_keys _ _ Hf) as Hk.
  assert (StronglySorted (key_le (fun k => k)) (map entry_order_key entries)) as Hs.
  { rewrite Hk. eapply sorted_map; [|apply py_sorted_sorted]. done. }
  split_and!; [| |done].
  - unfold pending_schedule, pending_execute. destruct (validate_run_id run); [|done].
    rewrite Hrow, (proj2 (map_result_ok _ _ _) Hf). cbn zeta.
    by rewrite (py_sorted_id _ _ Hs), bool_decide_true.
  - clear -Hs. induction entries as [|p l IH]; [constructor|]. simpl in Hs. inversion Hs as [|? ? Hl Hx]; subst.
    constructor; [by apply IH|]. exact (proj1 (List.Forall_map entry_order_key _ l) Hx).
Qed.

(** Reading the pending schedule never fails on the work the repository itself records.  From a
    database whose schedule can be read, after any sequence of calls whose retries name the attempt
    they follow in their condition, the read returns a list in the stable order that holds exactly
    the entries of the run that are due: not consumed, or consumed under the current owner epoch for
    an attempt that is still claimed.  Every entry returned carries the columns of its row and only
    names an attempt that was prepared for it. *)
Theorem pending_exact start calls run row :
  readable start -> Forall call_ok calls -> Forall call_names calls -> is_ok (validate_run_id run) = true ->
  let db := fold_left journal_exec calls start in
  runs db !! run = Some row ->
  exists entries, pending_schedule db run = Ok entries /\ StronglySorted (key_le entry_order_key) entries /\
    (forall id e, schedule_entries db !! id = Some e -> se_run_id e = run ->
       ((exists p, p ∈ entries /\ pe_schedule_entry_id p = id) <-> due db (run_owner_epoch row) e)) /\
    (forall p, p ∈ entries -> exists e predecessor,
       schedule_entries db !! pe_schedule_entry_id p = Some e /\ se_run_id e = run /\
       _predecessor (se_condition_json e) = Ok predecessor /\
       p = entry_of (pe_schedule_entry_id p) e predecessor (pe_prepared_attempt_id p) /\
       (forall aid, pe_prepared_attempt_id p = Some aid -> exists a, prepared_for db e aid a)).
Proof.
  intros HR Hok Hn Hv db Hrow. assert (readable db) as HRd by (by apply calls_readable).
  destruct (pending_reads db run row HRd Hv Hrow) as (entries & Hp & Hs & Hf). exists entries. split_and!; [done..| |].
  - intros id e He Hrun. rewrite <- (rows_due db _ id). split.
    + intros (p & Hin & Hid). destruct (Forall2_in_r _ _ _ _ Hf Hin) as ([[id' e'] a] & Hr & Hread).
      apply row_entry in Hread as (pr & _ & ->). simpl in Hid. subst id'.
      apply pending_rows_elem in Hr as (He' & _ & Hr). exists (id, e', a). congruence.
    + intros (r & Hr). pose proof Hr as (d & a & _ & _ & _ & ->)%elem_of_entry_rows.
      destruct (Forall2_in_l _ _ _ (id, e, option_map fst a) Hf) as (p & Hin & Hread); [by apply pending_rows_elem|].
      exists p. split; [done|]. by apply row_entry in Hread as (pr & _ & ->).
  - intros p Hin. destruct (Forall2_in_r _ _ _ _ Hf Hin) as ([[id e] a] & Hr & Hread).
    apply row_entry in Hread as (pr & Hpr & ->). apply pending_rows_elem in Hr as (He & Hrun & Hr). exists e, pr.
    split_and!; [done..|]. simpl. intros aid ->. apply elem_of_entry_rows in Hr as (d & x & Hd & Hx & _ & Heq).
    destruct x as [[aid' a]|]; [|done]. exists a. injection Heq as ->. apply (joined_prepared db e (aid', a)). eauto.
Qed.

(** The worked run between the claim and the first byte: the entry is consumed, and still pending for
    the attempt it was claimed for. *)
Lemma pending_exact_witness :
  let db := fold_left journal_exec (take 3 demo_calls) demo_db in
  exists entries, pending_schedule db demo_run = Ok entries /\
    map (fun p => (pe_schedule_entry_id p, pe_prepared_attempt_id p)) entries = [(demo_schedule, Some demo_attempt)] /\
    (forall e, schedule_entries db !! demo_schedule = Some e -> se_consumed_at e <> None /\ due db 3 e).
Proof.
  assert (Forall call_ok (take 3 demo_calls)) as Hok by (apply list.Forall_take, demo_calls_ok).
  assert (Forall call_names (take 3 demo_calls)) as Hn.
  { repeat (apply list.Forall_cons; split; [try (intros o r [=]); done|]). by apply list.Forall_nil. }
  assert (readable demo_db) as HR.
  { split; [|intros id a [=]]. intros id e He. change (({[demo_schedule := demo_entry]} : gmap str ScheduleRow) !! id = Some e) in He.
    apply lookup_singleton_Some in He as [<- <-]. split; [done|vm_compute; reflexivity]. }
  destruct (pending_exact demo_db (take 3 demo_calls) demo_run
    {| run_state := Run_RUNNING; run_owner_epoch := 3; run_terminal_category := None; run_terminal_at := None |}
    HR Hok Hn) as (entries & Hp & _ & Hdue & _); [vm_compute; reflexivity..|].
  assert (match pending_schedule (fold_left journal_exec (take 3 demo_calls) demo_db) demo_run with
          | Ok l => map (fun p => (pe_schedule_entry_id p, pe_prepared_attempt_id p)) l | _ => [] end
    = [(demo_schedule, Some demo_attempt)]) as Hprep by (vm_compute; reflexivity).
  rewrite Hp in Hprep. exists entries. split_and!; [done..|]. intros e He.
  assert (option_map (fun e => (se_run_id e, is_none (se_consumed_at e)))
    (schedule_entries (fold_left journal_exec (take 3 demo_calls) demo_db) !! demo_schedule) = Some (demo_run, false))
    as Hcols by (vm_compute; reflexivity).
  rewrite He in Hcols. simpl in Hcols. injection Hcols as Hrun Hc. split; [by destruct (se_consumed_at e)|].
  apply (Hdue demo_schedule e He Hrun). destruct entries as [|p []]; try discriminate Hprep.
  exists p. split; [by left|]. injection Hprep as Hid _. exact Hid.
Defined.

(** * The completion of a run is final

    A finalization commits the run's last transition together with its result and time; afterwards
    nothing the repository can do changes them, the same request succeeds again without effect and
    any other result or time is refused. *)

(** ** The request *)

(** The transition of a valid request leaves [RUNNING] for the final state of its result. *)
Lemma completion_command q :
  validate_completion_request q = Ok q ->
  exists s, _RUN_STATE_BY_RESULT (fr_result_category q) = Ok s /\ no_exit Entity_RUN (OfRun s) /\
    tc_run_id (fr_transition q) = fr_run_id q /\ tc_entity_type (fr_transition q) = Entity_RUN /\
    tc_entity_id (fr_transition q) = fr_run_id q /\ tc_expected_state (fr_transition q) = Some (OfRun Run_RUNNING) /\
    tc_new_state (fr_transition q) = OfRun s.
Proof.
  unfold validate_completion_request. intros H. do 6 py_step H. rewrite !orb_false_iff, !negb_bool_decide_false in E4.
  destruct E4 as [[[[[H1 H2] H3] H4] H5] _]. exists a1. split; [done|]. split; [|done].
  intros t. unfold _RUN_STATE_BY_RESULT in E3. revert t. refine (proj1 (stuck_spec _ _) _).
  destruct (fr_result_category q); try discriminate E3; injection E3 as <-; vm_compute; reflexivity.
Qed.

Lemma result_value_inj c d : ResultCategory_value c = ResultCategory_value d -> c = d.
Proof. destruct c, d; intros H; try reflexivity; vm_compute in H; discriminate H. Qed.

(** ** The run after the transition *)

(** A record that enters a state without an exit is the last of its entity. *)
Lemma linked_stuck e cur L r :
  linked e cur L -> r ∈ L -> no_exit e (tr_to_state r) ->
  fold_left (fun _ r => Some (tr_to_state r)) L cur = Some (tr_to_state r).
Proof.
  induction L as [|x L IH] using rev_ind; [by intros _ Hr; inversion Hr|].
  rewrite linked_snoc, fold_left_app. intros [Hl Hx] Hr Hne. simpl.
  apply elem_of_app in Hr as [Hr| ->%list_elem_of_singleton]; [|done].
  rewrite (IH Hl Hr Hne) in Hx. destruct Hx as [_ Ha]. by rewrite Hne in Ha.
Qed.

(** A committed command that enters a final state leaves the entity in it, even as a replay. *)
Lemma apply_final db rs op ct db' expected :
  ledger_of db rs -> apply_execute db op = Ok (ct, db') -> tc_expected_state (op_command op) = Some expected ->
  no_exit (tc_entity_type (op_command op)) (tc_new_state (op_command op)) ->
  uses_enum (tc_entity_type (op_command op)) (tc_new_state (op_command op)) = true ->
  entity_state db' (tc_entity_type (op_command op)) (tc_entity_id (op_command op))
    = Some (tc_run_id (op_command op), tc_new_state (op_command op)).
Proof.
  intros Hl H Hx Hne Hu. pose proof H as (_ & _ & _ & [[Hrep ->]|[_ [p Hf]]])%apply_cases.
  2: { pose proof (fc_states _ _ _ _ Hf) as Hst. rewrite Hx in Hst. destruct Hst as (_ & _ & Hw & _).
       by rewrite Hw, decide_True by done. }
  unfold apply_execute in H. do 5 py_step H. destruct a3 as [r|].
  2: { py_step H. apply write_fresh_effect in H as (? & ? & ? & _ & -> & _). done. }
  apply (find_record _ _ _ _ _ Hl) in E3 as (Hin & Hrun & _).
  unfold replay_existing in H. py_step H. clear H. unfold _verify_idempotent_replay in E3. py_step E3.
  rewrite !orb_false_iff, !negb_bool_decide_false, !negb_false_iff, !states_equal_some in E4.
  destruct E4 as [[[[[[[[[_ _] Et] Eid] _] Eto] _] _] _] _].
  set (i := (tc_run_id (op_command op), tc_entity_type (op_command op), tc_entity_id (op_command op))).
  assert (r ∈ entity_records i rs) as Hr.
  { apply list_elem_of_filter. split; [|done]. unfold record_identity. unfold i. congruence. }
  assert (tr_to_state r = tc_new_state (op_command op)) as Hto.
  { apply state_value_inj; [|congruence]. pose proof (lg_ok _ _ Hl) as Hok. rewrite list.Forall_forall in Hok.
    destruct (Hok r Hin) as (Hur & _). unfold uses_enum in *. py_bool. congruence. }
  assert (tr_entity_type r = tc_entity_type (op_command op)) as Het by done.
  pose proof (linked_stuck _ None _ r (lg_linked _ _ Hl i) Hr) as Hf. unfold i in Hf. cbn [fst snd] in Hf.
  rewrite Hto in Hf. exact (lg_projected _ _ Hl i _ (Hf Hne)).
Qed.

(** ** Repeating the request *)

(** Writing the same result and time again changes nothing. *)
Lemma with_terminal_again db run category at_ r :
  with_terminal (with_terminal db run category at_ r) run category at_ (set_terminal category at_ r)
  = with_terminal db run category at_ r.
Proof.
  unfold with_terminal at 1 3. cbn [runs with_terminal with_runs]. unfold with_runs. simpl. by rewrite insert_insert_eq.
Qed.

(** A replay without evidence reads nothing of the run's terminal columns. *)
Lemma terminal_replays db run category at_ r op ct :
  runs db !! run = Some r -> tc_attempt_outcome (op_command op) = None ->
  op_phase_evidence op = None -> op_response_staging op = None -> op_transport_evidence op = None ->
  apply_execute db op = Ok (ct, db) -> idempotent_replay ct = true ->
  apply_execute (with_terminal db run category at_ r) op = Ok (ct, with_terminal db run category at_ r).
Proof.
  intros Hr Ho Hp Hs Ht H Hrep. unfold apply_execute in *. do 5 py_step H.
  assert (_require_current_owner (with_terminal db run category at_ r) (op_command op) = Ok a2) as ->.
  { unfold _require_current_owner in *. cbn [runs with_terminal with_runs].
    destruct (decide (tc_run_id (op_command op) = run)) as [Heq|]; [|by rewrite lookup_insert_ne].
    rewrite Heq in *. rewrite lookup_insert_eq. rewrite Hr in E2. exact E2. }
  assert (_transition_by_idempotency_key (with_terminal db run category at_ r) (tc_run_id (op_command op))
    (tc_idempotency_key (op_command op)) = Ok a3) as -> by exact E3.
  destruct a3 as [x|].
  2: { py_step H. apply write_fresh_effect in H as (? & ? & ? & _ & -> & _). done. }
  unfold replay_existing in *. rewrite Hp, Hs, Ht in *. simpl in *. unfold _verify_idempotent_replay in *.
  rewrite Ho in *. py_step H. py_step E4. by injection H as <-.
Qed.

Lemma completion_plain db q ct db' :
  validate_completion_request q = Ok q -> apply_execute db (completion_op q) = Ok (ct, db') ->
  tc_attempt_outcome (fr_transition q) = None.
Proof.
  intros (s & _ & _ & _ & He & _)%completion_command (_ & Hpay%payload_terminal & _)%apply_cases. simpl in Hpay.
  destruct (tc_attempt_outcome (fr_transition q)); [|done]. apply is_terminal_attempt_spec in Hpay as [Ha _]. congruence.
Qed.

Lemma finalize_repeats db q db' :
  validate_completion_request q = Ok q -> op_ok (completion_op q) -> finalize_execute db q = Ok db' ->
  finalize_execute db' q = Ok db'.
Proof.
  intros Hq [Hc _] (ct & d & r & Ha & Hr & Ho & ->)%finalize_cases. pose proof (completion_plain _ _ _ _ Hq Ha) as Hno.
  assert (apply_execute d (completion_op q)
    = Ok ({| committed_record := committed_record ct; idempotent_replay := true |}, d)) as Hrep.
  { apply (apply_repeats db _ ct _ Hc); [|exact Ha]. simpl. rewrite Hno. done. }
  pose proof (terminal_replays _ (fr_run_id q) (ResultCategory_value (fr_result_category q)) (fr_completed_at q) r
    (completion_op q) _ Hr Hno eq_refl eq_refl eq_refl Hrep eq_refl) as Hw.
  unfold finalize_execute. rewrite Hw. cbn [snd]. cbn [runs with_terminal with_runs]. rewrite lookup_insert_eq.
  unfold terminal_open. cbn [set_terminal run_terminal_category run_terminal_at]. rewrite !bool_decide_true by done.
  simpl. by rewrite with_terminal_again.
Qed.

(** ** What stays *)

(** The run's row after a finalization. *)
Definition completed (db : Database) (q : FullRunCompletionRequest) : Prop :=
  exists r, runs db !! fr_run_id q = Some r /\ _RUN_STATE_BY_RESULT (fr_result_category q) = Ok (run_state r) /\
    run_terminal r = (Some (ResultCategory_value (fr_result_category q)), Some (fr_completed_at q)).

Lemma finalize_completes db rs q db' :
  ledger_of db rs -> validate_completion_request q = Ok q -> op_ok (completion_op q) ->
  finalize_execute db q = Ok db' -> completed db' q.
Proof.
  intros Hl Hq [Hc _] (ct & d & r & Ha & Hr & _ & ->)%finalize_cases.
  destruct (completion_command _ Hq) as (s & Hs & Hne & Hrun & He & Hid & Hx & Hn).
  pose proof (apply_final _ _ _ _ _ (OfRun Run_RUNNING) Hl Ha) as Hf. cbn [completion_op op_command] in Hf.
  rewrite He, Hn, Hid, Hrun in Hf. specialize (Hf Hx Hne eq_refl). unfold entity_state in Hf. rewrite Hr in Hf.
  simpl in Hf. exists (set_terminal (ResultCategory_value (fr_result_category q)) (fr_completed_at q) r).
  cbn [runs with_terminal with_runs]. rewrite lookup_insert_eq. split_and!; [done| |done]. simpl. congruence.
Qed.

Lemma completed_kept db q later :
  validate_completion_request q = Ok q -> completed db q -> journal_reachable db later -> completed later q.
Proof.
  intros Hq (r & Hr & Hs & Ht) Hev%reachable_evolves.
  destruct (completion_command _ Hq) as (s & Hs' & Hne & _). rewrite Hs in Hs'. injection Hs' as <-.
  pose proof (ev_final _ _ Hev Entity_RUN (fr_run_id q) (fr_run_id q) (OfRun (run_state r))) as Hst.
  pose proof (ev_terminal _ _ Hev (fr_run_id q) (ResultCategory_value (fr_result_category q)) (fr_completed_at q)) as Hte.
  unfold entity_state in Hst. rewrite Hr in *. specialize (Hst eq_refl Hne). simpl in Hte. rewrite Ht in Hte.
  specialize (Hte eq_refl). destruct (runs later !! fr_run_id q) as [r'|] eqn:Er; [|done]. exists r'.
  cbn [option_map] in Hst, Hte. injection Hst as Hst. apply (inj Some) in Hte. split_and!; [done|by rewrite Hst|done].
Qed.

(** The completion of a run is final and can be repeated.  Once a completion request is committed,
    in whatever execution from an empty ledger, the run is in the final state of its result and holds
    the requested result category and time; whatever is executed afterwards, that stays so, and a
    further completion of the run is accepted only with the same category and time.  Repeating the
    request at once succeeds and leaves the database as it is. *)
Theorem completion_final start db q db' :
  transitions start = [] -> journal_reachable start db ->
  validate_completion_request q = Ok q -> op_ok (completion_op q) -> finalize_execute db q = Ok db' ->
  finalize_execute db' q = Ok db' /\
  forall later, journal_reachable db' later ->
    completed later q /\
    forall q' db2, fr_run_id q' = fr_run_id q -> finalize_execute later q' = Ok db2 ->
      fr_result_category q' = fr_result_category q /\ fr_completed_at q' = fr_completed_at q.
Proof.
  intros H0 Hreach Hq Hok H. destruct (ledger_reachable _ _ H0 Hreach) as [rs Hl].
  split; [by eapply finalize_repeats|]. intros later Hlater.
  assert (completed later q) as Hc by (eapply completed_kept; [done|by eapply finalize_completes|done]).
  split; [done|]. intros q' db2 Hrun (ct & d & r & Ha & Hr & Ho & _)%finalize_cases.
  destruct Hc as (r0 & Hr0 & _ & Ht). apply apply_evolves in Ha.
  pose proof (ev_terminal _ _ Ha (fr_run_id q) (ResultCategory_value (fr_result_category q)) (fr_completed_at q)) as Hte.
  rewrite Hr0 in Hte. simpl in Hte. rewrite Ht in Hte. specialize (Hte eq_refl). rewrite Hrun in Hr. rewrite Hr in Hte.
  simpl in Hte. unfold run_terminal in Hte. injection Hte as Hcat Hat. unfold terminal_open in Ho.
  rewrite Hcat, Hat in Ho. simpl in Ho. apply andb_true_iff in Ho as [Ho1%bool_decide_eq_true Ho2%bool_decide_eq_true].
  split; [apply result_value_inj|]; congruence.
Qed.

(** The worked run, completed as passed. *)
Lemma completion_final_witness :
  let q := {| fr_run_id := demo_run; fr_owner_epoch := 3; fr_result_category := Category_PASS;
              fr_completed_at := u "2024-02-29T23:59:59.125Z"; fr_transition := demo_completion 9 |} in
  let db := fold_left journal_exec (take 13 demo_calls) demo_db in
  exists db', finalize_execute db q = Ok db' /\ finalize_execute db' q = Ok db' /\ completed db' q.
Proof.
  intros q db. assert (call_ok (CallFinalize q)) as [Hok Hq].
  { split; [|vm_compute; reflexivity]. split; [constructed|]. split; [intros s Hs; discriminate Hs|]. intros o Ho. discriminate Ho. }
  destruct (finalize_execute db q) as [db'|] eqn:E.
  2: { assert (is_ok (finalize_execute db q) = true) as Hx by (vm_compute; reflexivity). by rewrite E in Hx. }
  exists db'. split; [done|]. destruct (completion_final demo_db db q db') as [Hr Hl]; [done| |done..|].
  - apply exec_reachable, list.Forall_take, demo_calls_ok.
  - split; [done|]. apply Hl. constructor.
Defined.
