(* ===== verification/RecoveryTotal.v ===== *)
(** * Recovery scans succeed

    On a journal that satisfies the invariants of [Recoverable], which every journal the repository
    leaves behind does, the scan returns a plan: it misses no attempt and no observation of the
    run, and hands back each staged response as it was staged. *)

From S2P Require Import Prelude Text Identifiers Domain Clocks Lifecycle Replay Commands Json Store Journal Schedules Demo Ledger Outcomes Recovery RecoveryScan Recoverable.

Local Open Scope Z_scope.

Lemma is_ok_some {A} (r : result A) : is_ok r = true -> exists x, r = Ok x.
Proof. destruct r; [eauto|done]. Qed.

(** ** One attempt *)

Lemma decision_valid state proof action ambiguity target staging target' i :
  classify_attempt_state state proof = Ok (action, ambiguity, target) ->
  (state = Attempt_RESPONSE_OBSERVED <-> staging <> None) ->
  target' = match staging with Some s => Some (st_terminal_state s) | None => target end ->
  ri_prior_state i = state -> ri_action i = action -> ri_ambiguity i = ambiguity -> ri_target_state i = target' ->
  ri_response_staging i = staging ->
  ri_durable_no_send_proof i = (if bool_decide (action = Recover_TERMINATE_NOT_SENT) then proof else Proof_NONE) ->
  _validate_attempt_action i = Ok tt.
Proof.
  intros Hdec Hst -> Hp Ha Hm Ht Hs Hn. unfold _validate_attempt_action, _expected_no_send_proof.
  rewrite Hp, Ha, Hm, Ht, Hs, Hn. clear -Hdec Hst.
  destruct state, proof; vm_compute in Hdec; injection Hdec as <- <- <-;
    destruct staging as [s|]; try (exfalso; naive_solver congruence); try reflexivity.
  all: rewrite (bool_decide_true (Some _ = Some _)) by done; reflexivity.
Qed.

Lemma classify_total state proof :
  exists action ambiguity target, classify_attempt_state state proof = Ok (action, ambiguity, target) /\
    (action = Recover_REDUCE_DURABLE_RESPONSE <-> state = Attempt_RESPONSE_OBSERVED).
Proof. destruct state, proof; do 3 eexists; (split; [reflexivity|]); split; congruence. Qed.

(** The row an attempt of a linked journal joins to. *)
Definition attempt_row (id : str) (a : AttemptRow) (sc : ScenarioRow) (d : DeliveryRow) : _AttemptRow :=
  {| ra_attempt_id := id; ra_scenario_id := at_scenario_id a; ra_event_id := at_event_id a;
     ra_delivery_id := at_delivery_id a; ra_attempt_ordinal := at_ordinal a; ra_state := at_state a;
     ra_phase := at_phase a; ra_outcome_category := at_outcome_category a;
     ra_terminal_recorded_at := at_terminal_recorded_at a; ra_attempt_owner_epoch := at_owner_epoch a;
     ra_scenario_ordinal := sc_ordinal sc; ra_step_ordinal := dl_step_ordinal d;
     ra_delivery_ordinal := dl_ordinal d; ra_predecessor_attempt_id := at_predecessor_attempt_id a |}.

Lemma joined_row db id a :
  attempt_joined db a -> exists sc d, scenarios db !! at_scenario_id a = Some sc /\
    deliveries db !! at_delivery_id a = Some d /\ dl_event_id d = at_event_id a /\
    joined_attempt db id a = Some (attempt_row id a sc d).
Proof.
  intros (sc & d & Hsc & H1 & Hd & H2 & H3 & H4). exists sc, d. do 3 (split; [done|]).
  unfold joined_attempt. rewrite Hsc, Hd. by rewrite !bool_decide_true.
Qed.

Lemma projection_recorded db id a sc d :
  attempts_recorded db -> attempts db !! id = Some a -> _validate_attempt_projection (attempt_row id a sc d) = Ok tt.
Proof.
  intros HR Ha. specialize (HR id a Ha). unfold _validate_attempt_projection. simpl. unfold attempt_outcome in HR.
  destruct (at_state a); simpl in HR;
    first [ destruct HR as (k & t & rid & r & [= -> ->] & Hk & _) | destruct HR as [[= -> ->] _]; reflexivity ].
  all: cbn [_TERMINAL_ATTEMPT_CLASSIFICATIONS]; by rewrite bool_decide_true.
Qed.

Lemma valid_planned_ok k id : valid_planned k id -> exists x, validate_planned_id id (Some k) = Ok x.
Proof. apply is_ok_some. Qed.

Lemma safe_ok v : safe v -> _nonnegative_integer v MAX_SAFE_INTEGER = Ok v.
Proof. unfold safe, _nonnegative_integer. by intros ->. Qed.

(** Every attempt of a recoverable journal has an item. *)
Lemma attempt_item_total db id a sc d staging :
  recoverable db -> attempts db !! id = Some a -> is_ok (validate_run_id (at_run_id a)) = true ->
  scenarios db !! at_scenario_id a = Some sc -> deliveries db !! at_delivery_id a = Some d ->
  dl_event_id d = at_event_id a ->
  (at_state a = Attempt_RESPONSE_OBSERVED <-> staging <> None) ->
  exists i, _attempt_item (at_run_id a) (attempt_row id a sc d) staging = Ok i.
Proof.
  intros HR Ha [run Hrun]%is_ok_some Hsc Hd He Hst. destruct HR as [_ HR _ HL HT].
  unfold _attempt_item. rewrite (projection_recorded _ _ _ _ _ HR Ha).
  cbn [ra_state ra_phase attempt_row ra_attempt_id ra_scenario_id ra_event_id ra_delivery_id ra_attempt_ordinal
       ra_scenario_ordinal ra_step_ordinal ra_delivery_ordinal ra_predecessor_attempt_id].
  destruct (classify_total (at_state a) (_durable_no_send_proof (at_phase a))) as (action & ambiguity & target & Ec & Hred).
  rewrite Ec.
  assert ((if bool_decide (action = Recover_REDUCE_DURABLE_RESPONSE)
           then match staging with Some s => Ok (Some (st_terminal_state s)) | None => Raise RecoveryIntegrityError end
           else if negb (is_none staging) then Raise RecoveryIntegrityError else Ok target)
          = Ok (match staging with Some s => Some (st_terminal_state s) | None => target end)) as ->.
  { case_bool_decide as Hact; rewrite Hred in Hact; destruct staging; naive_solver. }
  match goal with |- exists i, validate_recovery_item ?x = Ok i => exists x; set (item := x) end.
  unfold validate_recovery_item. cbn [ri_run_id ri_scenario_id ri_event_id ri_delivery_id ri_attempt_id
    ri_predecessor_attempt_id ri_scenario_ordinal ri_step_ordinal ri_delivery_ordinal ri_attempt_ordinal item].
  rewrite Hrun. destruct (ty_scenarios _ HT _ _ Hsc) as [[x1 H1]%valid_planned_ok O1]. rewrite H1.
  destruct (ty_deliveries _ HT _ _ Hd) as ([x2 H2]%valid_planned_ok & [x3 H3]%valid_planned_ok & O2 & O3).
  rewrite He in H3. rewrite H3, H2. destruct (ty_attempts _ HT _ _ Ha) as [[x4 H4]%is_ok_some O4]. rewrite H4.
  assert (when_some (at_predecessor_attempt_id a) (fun p => let! _ := validate_fresh_id p (Some Fresh_ATTEMPT) in
    raise_if bool_decide (p = id) with ValueError ;; Ok tt) = Ok tt) as ->.
  { destruct (at_predecessor_attempt_id a) as [p|] eqn:Ep; [|done]. simpl.
    destruct (al_follows _ HL _ _ Ha p Ep) as (b & Hb & _ & _ & _ & _ & Ho).
    destruct (ty_attempts _ HT _ _ Hb) as [[x5 H5]%is_ok_some _]. rewrite H5, bool_decide_false; [done|].
    intros ->. rewrite Ha in Hb. injection Hb as <-. lia. }
  cbn [map_result]. rewrite !safe_ok by done. cbn.
  assert (_validate_attempt_action item = Ok tt) as ->; [|done].
  by eapply decision_valid.
Qed.

(** ** The rows of a run *)

Section recoverable_scan.
Context (db : Database) (run : str) (Hrec : recoverable db) (Hrun : is_ok (validate_run_id run) = true).

Let attempts_of := scanned (attempts db) (fun a => bool_decide (at_run_id a = run)) (joined_attempt db).
Let staging_of := scanned (attempt_response_staging db) (fun r => bool_decide (sg_run_id r = run)) (fun _ r => Some r).
Let series_of := scanned (observer_series db) (fun o => bool_decide (ob_run_id o = run)) (joined_observation db).

Lemma attempts_loaded : _load_attempt_rows db run = Ok (map snd attempts_of).
Proof.
  unfold _load_attempt_rows. rewrite scanned_load; [done|]. destruct (attempts db !! []) as [a|] eqn:E; [|done].
  by destruct (ty_attempts _ (rc_typed _ Hrec) _ _ E) as [? _].
Qed.

Lemma staging_loaded : _load_response_staging_rows db run = Ok staging_of.
Proof.
  apply scanned_load. destruct (attempt_response_staging db !! []) as [row|] eqn:E; [|done].
  pose proof (rc_staging _ Hrec []) as HB. rewrite E in HB. destruct HB as [HB _]. simpl in HB.
  destruct (attempts db !! []) as [a|] eqn:Ea; [|done]. by destruct (ty_attempts _ (rc_typed _ Hrec) _ _ Ea) as [? _].
Qed.

Lemma series_loaded : _load_observation_rows db run = Ok (map snd series_of).
Proof.
  unfold _load_observation_rows. rewrite scanned_load; [done|]. destruct (observer_series db !! []) as [a|] eqn:E; [|done].
  by destruct (ty_series _ (rc_typed _ Hrec) _ _ E) as [? _].
Qed.

Lemma attempts_join i a :
  attempts db !! i = Some a -> bool_decide (at_run_id a = run) = true -> is_Some (joined_attempt db i a).
Proof.
  intros Ha _. destruct (joined_row db i a (al_joined _ (rc_linked _ Hrec) _ _ Ha)) as (sc & d & _ & _ & _ & ->).
  by eexists.
Qed.

Lemma observations_join i o :
  observer_series db !! i = Some o -> bool_decide (ob_run_id o = run) = true -> is_Some (joined_observation db i o).
Proof.
  intros Ho _. destruct (ty_series _ (rc_typed _ Hrec) _ _ Ho) as (_ & sc & Hsc & Hsr). unfold joined_observation.
  rewrite Hsc, bool_decide_true by done. by eexists.
Qed.

Lemma scan_rows r :
  runs db !! run = Some r ->
  zlen (select (attempts db) (fun _ a => bool_decide (at_run_id a = run)))
  + zlen (select (observer_series db) (fun _ o => bool_decide (ob_run_id o = run))) <= MAX_RECOVERY_ITEMS ->
  scan_execute db run = Ok {| sr_run_state := Store.run_state r; sr_owner_epoch := run_owner_epoch r;
    sr_attempts := map snd attempts_of; sr_response_staging := staging_of; sr_observations := map snd series_of |}.
Proof.
  intros Hr Hlim. unfold scan_execute. rewrite Hr, (proj2 (Z.ltb_ge _ _) Hlim).
  rewrite attempts_loaded, staging_loaded, series_loaded.
  unfold zlen in *. rewrite !length_map. unfold attempts_of, series_of.
  rewrite !scanned_total by eauto using attempts_join, observations_join.
  by rewrite Z.eqb_refl.
Qed.

(** Each staged response of the run decodes. *)
Lemma staging_decodes :
  exists staged, map_result (fun kv => let! s := _response_staging kv.1 kv.2 in Ok (kv.1, s)) staging_of = Ok staged /\
    map fst staged = map fst staging_of /\
    (forall id s', (id, s') ∈ staged -> exists row s, attempt_response_staging db !! id = Some row /\
       sg_run_id row = run /\ staging_ok s /\ _attempt_response_staging_values s = Ok row /\ s' = restaged s).
Proof.
  assert (forall kv, kv ∈ staging_of -> exists row s, attempt_response_staging db !! kv.1 = Some row /\
    sg_run_id row = run /\ staging_ok s /\ _attempt_response_staging_values s = Ok row /\
    _response_staging kv.1 kv.2 = Ok (restaged s)) as Hdec.
  { intros [id row] Hin. apply elem_of_scanned in Hin as (row' & Hl & Hr%bool_decide_eq_true & [= ->]).
    pose proof (rc_staging _ Hrec id) as HB. rewrite Hl in HB. destruct HB as (_ & s & Hok & Hv & <-).
    exists row, s. split_and!; try done. by apply staging_reads_back. }
  destruct (map_result_total (fun kv => let! s := _response_staging kv.1 kv.2 in Ok (kv.1, s)) staging_of) as [staged Hs].
  { intros kv (row & s & _ & _ & _ & _ & ->)%Hdec. by eexists. }
  exists staged. split; [done|]. apply map_result_ok in Hs. split.
  - clear Hdec. induction Hs as [|kv y l k Hy _ IH]; [done|]. simpl. py_step Hy. injection Hy as <-. by rewrite IH.
  - intros id s' Hin. apply list_elem_of_lookup in Hin as [n Hn].
    destruct (Forall2_lookup_r _ _ _ _ _ Hs Hn) as (kv & Hkv & Hy). apply list_elem_of_lookup_2 in Hkv.
    destruct (Hdec _ Hkv) as (row & s & Hl & Hr & Hok & Hv & Hd). rewrite Hd in Hy. injection Hy as <- <-. eauto 10.
Qed.

Definition item_of (staged : gmap str AttemptResponseStagingCommand) (i : AttemptRecoveryItem) : Prop :=
  exists a sc d, attempts db !! ri_attempt_id i = Some a /\ at_run_id a = run /\
    scenarios db !! at_scenario_id a = Some sc /\ deliveries db !! at_delivery_id a = Some d /\
    _attempt_item run (attempt_row (ri_attempt_id i) a sc d) (staged !! ri_attempt_id i) = Ok i.

(** The staging map holds exactly the responses of the run's attempts in RESPONSE_OBSERVED. *)
Definition staged_exactly (staged : gmap str AttemptResponseStagingCommand) : Prop :=
  (forall id a, attempts db !! id = Some a -> at_run_id a = run ->
     at_state a = Attempt_RESPONSE_OBSERVED <-> staged !! id <> None) /\
  (forall id s', staged !! id = Some s' -> exists a row s, attempts db !! id = Some a /\ at_run_id a = run /\
     attempt_response_staging db !! id = Some row /\ staging_ok s /\ _attempt_response_staging_values s = Ok row /\
     s' = restaged s).

Lemma staged_total :
  exists staged, map_result (fun kv => let! s := _response_staging kv.1 kv.2 in Ok (kv.1, s)) staging_of = Ok staged /\
    Z.of_nat (size (list_to_map staged : gmap str AttemptResponseStagingCommand)) = zlen staging_of /\
    staged_exactly (list_to_map staged).
Proof.
  destruct staging_decodes as (staged & Hs & Hfst & Hspec). exists staged. split; [done|].
  assert (NoDup (map fst staged)) as Hnd by (rewrite Hfst; apply scanned_nodup). split.
  { rewrite map_size_list_to_map by done. unfold zlen. f_equal. rewrite <- (length_map fst staged), Hfst. apply length_map. }
  split.
  - intros id a Ha Hr. pose proof (rc_staging _ Hrec id) as HB. simpl in HB. rewrite Ha in HB. simpl in HB.
    assert (list_to_map (M:=gmap str AttemptResponseStagingCommand) staged !! id <> None <-> id ∈ map fst staged) as ->.
    { destruct (decide (id ∈ map fst staged)) as [Hin|Hout].
      - split; [done|]. intros _ Hn%not_elem_of_list_to_map. by apply Hn.
      - split; [|done]. intros Hn. exfalso. by apply Hn, not_elem_of_list_to_map. }
    rewrite Hfst. split.
    + intros Hst. rewrite Hst in HB. destruct (attempt_response_staging db !! id) as [row|] eqn:El; [|by specialize (HB (at_run_id a))].
      destruct HB as [[= HB] _]. apply list_elem_of_fmap. exists (id, row). split; [done|]. apply elem_of_scanned.
      exists row. split; [done|]. split; [|done]. apply bool_decide_eq_true. congruence.
    + intros ([id' row] & -> & Hin)%list_elem_of_fmap. apply elem_of_scanned in Hin as (row' & Hl & _ & _).
      simpl in *. rewrite Hl in HB. by destruct HB as [[= _ ?] _].
  - intros id s' Hl%elem_of_list_to_map_2. destruct (Hspec _ _ Hl) as (row & s & Hrow & Hr & Hok & Hv & ->).
    pose proof (rc_staging _ Hrec id) as HB. rewrite Hrow in HB. destruct HB as [HB _]. simpl in HB.
    destruct (attempts db !! id) as [a|] eqn:Ea; [|done]. injection HB as HB _. exists a, row, s. split_and!; congruence.
Qed.

Lemma items_total staged :
  staged_exactly staged ->
  exists items, map_result (fun row => _attempt_item run row (staged !! ra_attempt_id row)) (map snd attempts_of) = Ok items /\
    map ri_attempt_id items = map fst attempts_of /\ Forall (item_of staged) items.
Proof.
  intros [Hst _].
  assert (forall kv, kv ∈ attempts_of -> exists a sc d, attempts db !! kv.1 = Some a /\ at_run_id a = run /\
    scenarios db !! at_scenario_id a = Some sc /\ deliveries db !! at_delivery_id a = Some d /\
    dl_event_id d = at_event_id a /\ kv.2 = attempt_row kv.1 a sc d) as Hrow.
  { intros [id row] Hin. apply elem_of_scanned in Hin as (a & Ha & Hr%bool_decide_eq_true & Hj).
    destruct (joined_row db id a (al_joined _ (rc_linked _ Hrec) _ _ Ha)) as (sc & d & Hsc & Hd & He & Hj').
    rewrite Hj in Hj'. injection Hj' as ->. exists a, sc, d. done. }
  revert Hrow. generalize attempts_of. intros rows. induction rows as [|[id row] rows IH]; intros Hrow; [exists []; by repeat constructor|].
  destruct IH as (items & Hi & Hids & Hf); [intros kv Hkv; apply Hrow; by right|].
  destruct (Hrow (id, row) (list_elem_of_here _ _)) as (a & sc & d & Ha & Hr & Hsc & Hd & He & Heq). simpl in Ha, Heq.
  destruct (attempt_item_total db id a sc d (staged !! id) Hrec Ha) as [i Hit]; [by rewrite Hr|done|done|done|by apply Hst|].
  rewrite Hr in Hit. destruct (attempt_item_fields _ _ _ _ Hit) as (_ & Hid & _). simpl in Hid.
  exists (i :: items). simpl. rewrite Heq. cbn [ra_attempt_id attempt_row]. fold (attempt_row id a sc d). rewrite Hit, Hi.
  split; [done|]. split; [by rewrite Hid, Hids|]. constructor; [|done]. exists a, sc, d. rewrite Hid. done.
Qed.

(** ** The plan *)

Lemma by_id_lookup items i :
  NoDup (map ri_attempt_id items) -> i ∈ items -> attempts_by_id items !! ri_attempt_id i = Some i.
Proof.
  induction items as [|x items IH] using rev_ind; [by intros _ ?%elem_of_nil|].
  unfold attempts_by_id. rewrite fold_left_app, map_app. simpl. fold (attempts_by_id items).
  intros (Hn & Hx & _)%list.NoDup_app [Hi|Hi]%elem_of_app.
  - rewrite lookup_insert_ne; [by apply IH|]. intros Heq. apply (Hx (ri_attempt_id i)); [by apply list_elem_of_fmap_2|].
    rewrite <- Heq. apply list_elem_of_here.
  - apply list_elem_of_singleton in Hi as ->. apply lookup_insert_eq.
Qed.

(** An item's predecessor is an item of the same place, one ordinal earlier. *)
Lemma predecessor_item staged items i p :
  Forall (item_of staged) items -> (forall id a, attempts db !! id = Some a -> at_run_id a = run -> id ∈ map ri_attempt_id items) ->
  i ∈ items -> ri_predecessor_attempt_id i = Some p ->
  exists j, j ∈ items /\ ri_attempt_id j = p /\ same_coordinates i j = true.
Proof.
  intros Hf Hall Hi Hp. rewrite list.Forall_forall in Hf.
  destruct (Hf i Hi) as (a & sc & d & Ha & Hr & Hsc & Hd & Hit).
  destruct (attempt_item_fields _ _ _ _ Hit) as (_ & _ & _ & F1 & F2 & F3 & F4 & F5 & F6 & F7 & F8 & _).
  rewrite F8 in Hp. simpl in *.
  destruct (al_follows _ (rc_linked _ Hrec) _ _ Ha p Hp) as (b & Hb & G1 & G2 & G3 & G4 & G5).
  assert (p ∈ map ri_attempt_id items) as Hin by (eapply Hall; [exact Hb|congruence]).
  apply list_elem_of_fmap in Hin as (j & -> & Hj). exists j. split; [done|]. split; [done|].
  destruct (Hf j Hj) as (b' & sc' & d' & Hb' & _ & Hsc' & Hd' & Hit').
  rewrite Hb in Hb'. injection Hb' as <-. rewrite G2, Hsc in Hsc'. injection Hsc' as <-. rewrite G4, Hd in Hd'. injection Hd' as <-.
  destruct (attempt_item_fields _ _ _ _ Hit') as (_ & _ & _ & E1 & E2 & E3 & E4 & E5 & E6 & E7 & _). simpl in *.
  unfold same_coordinates. rewrite F1, F2, F3, F4, F5, F6, F7, E1, E2, E3, E4, E5, E6, E7, G2, G3, G4, G5.
  rewrite !bool_decide_true by done. by rewrite !Z.eqb_refl.
Qed.

Lemma predecessor_unique staged i k p :
  item_of staged i -> item_of staged k -> ri_predecessor_attempt_id i = Some p -> ri_predecessor_attempt_id k = Some p ->
  ri_attempt_id i = ri_attempt_id k.
Proof.
  intros (a & sc & d & Ha & _ & _ & _ & Hit) (b & sc' & d' & Hb & _ & _ & _ & Hit') Hp Hp'.
  apply attempt_item_fields in Hit as (_ & _ & _ & _ & _ & _ & _ & _ & _ & _ & F & _).
  apply attempt_item_fields in Hit' as (_ & _ & _ & _ & _ & _ & _ & _ & _ & _ & F' & _). rewrite F in Hp. rewrite F' in Hp'.
  destruct (al_follows _ (rc_linked _ Hrec) _ _ Ha p Hp) as (x & Hx & _ & _ & _ & Hd & Ho).
  destruct (al_follows _ (rc_linked _ Hrec) _ _ Hb p Hp') as (y & Hy & _ & _ & _ & Hd' & Ho').
  rewrite Hx in Hy. injection Hy as <-. eapply (al_unique _ (rc_linked _ Hrec)); [exact Ha|exact Hb|congruence..].
Qed.

Lemma predecessors_valid staged items :
  NoDup (map ri_attempt_id items) -> Forall (item_of staged) items ->
  (forall id a, attempts db !! id = Some a -> at_run_id a = run -> id ∈ map ri_attempt_id items) ->
  _validate_attempt_predecessors items = Ok tt.
Proof.
  intros Hn Hf Hall. unfold _validate_attempt_predecessors.
  assert (forall todo past seen, items = past ++ todo ->
    (forall p, p ∈ seen -> exists k, k ∈ past /\ ri_predecessor_attempt_id k = Some p) ->
    exists seen', for_each (predecessor_step (attempts_by_id items)) seen todo = Ok seen') as Hloop.
  { intros todo. induction todo as [|i todo IH]; intros past seen Heq Hseen; [by eexists|]. simpl.
    assert (i ∈ items) as Hi by (rewrite Heq; apply elem_of_app; right; apply list_elem_of_here).
    unfold predecessor_step at 1. destruct (ri_predecessor_attempt_id i) as [p|] eqn:Ep.
    - destruct (predecessor_item _ _ _ _ Hf Hall Hi Ep) as (j & Hj & <- & Hc).
      rewrite (by_id_lookup _ _ Hn Hj), bool_decide_false, Hc; simpl.
      + apply (IH (past ++ [i])); [by rewrite <- app_assoc|]. intros p [->%elem_of_singleton|Hp]%elem_of_union.
        * exists i. split; [|done]. apply elem_of_app. right. apply list_elem_of_here.
        * destruct (Hseen p Hp) as (k & Hk & Hkp). exists k. split; [|done]. apply elem_of_app. by left.
      + intros Hp. destruct (Hseen _ Hp) as (k & Hk & Hkp). rewrite list.Forall_forall in Hf.
        assert (k ∈ items) as Hk' by (rewrite Heq; apply elem_of_app; by left).
        pose proof (predecessor_unique _ _ _ _ (Hf _ Hi) (Hf _ Hk') Ep Hkp) as Hid.
        rewrite Heq, map_app in Hn. apply list.NoDup_app in Hn as (_ & Hn & _).
        apply (Hn (ri_attempt_id k)); [by apply list_elem_of_fmap_2|]. rewrite <- Hid. apply list_elem_of_here.
    - apply (IH (past ++ [i])); [by rewrite <- app_assoc|]. intros p Hp.
      destruct (Hseen p Hp) as (k & Hk & Hkp). exists k. split; [|done]. apply elem_of_app. by left. }
  destruct (Hloop items [] ∅ eq_refl) as [seen' ->]; [by intros p ?%elem_of_empty|done].
Qed.

Lemma observation_item_total id o sc :
  observer_series db !! id = Some o -> scenarios db !! ob_scenario_id o = Some sc ->
  exists i, _observation_item run {| ro_observation_id := id; ro_scenario_id := ob_scenario_id o;
    ro_state := ob_state o; ro_scenario_ordinal := sc_ordinal sc |} = Ok i /\
    oi_run_id i = run /\ oi_observation_id i = id /\ oi_prior_state i = ob_state o.
Proof.
  intros Ho Hsc. destruct (ty_series _ (rc_typed _ Hrec) _ _ Ho) as [[x H]%valid_planned_ok _].
  destruct (ty_scenarios _ (rc_typed _ Hrec) _ _ Hsc) as [[x1 H1]%valid_planned_ok O1%safe_ok].
  destruct (is_ok_some _ Hrun) as [x2 H2]. unfold _observation_item. cbn [ro_state].
  destruct (classify_observation_state (ob_state o)) as [action target] eqn:Ec.
  match goal with |- context [validate_observation_item ?x] => exists x end. unfold validate_observation_item.
  cbn [oi_run_id oi_scenario_id oi_observation_id oi_scenario_ordinal oi_action oi_target_state oi_prior_state
       ro_observation_id ro_scenario_id ro_scenario_ordinal]. rewrite H2, H1, H, O1. split; [|done].
  destruct (ob_state o); injection Ec as <- <-; reflexivity.
Qed.

Lemma observations_total :
  exists obs, map_result (_observation_item run) (map snd series_of) = Ok obs /\
    map oi_observation_id obs = map fst series_of /\ Forall (fun i => oi_run_id i = run) obs.
Proof.
  assert (forall kv, kv ∈ series_of -> exists o sc, observer_series db !! kv.1 = Some o /\
    scenarios db !! ob_scenario_id o = Some sc /\ kv.2 = {| ro_observation_id := kv.1; ro_scenario_id := ob_scenario_id o;
    ro_state := ob_state o; ro_scenario_ordinal := sc_ordinal sc |}) as Hrow.
  { intros [id row] Hin. apply elem_of_scanned in Hin as (o & Ho & _ & Hj). unfold joined_observation in Hj.
    destruct (scenarios db !! ob_scenario_id o) as [sc|] eqn:Hsc; [|done]. case_bool_decide; [|done]. injection Hj as <-. eauto. }
  revert Hrow. generalize series_of. intros rows. induction rows as [|[id row] rows IH]; intros Hrow; [exists []; by repeat constructor|].
  destruct IH as (obs & Hi & Hids & Hf); [intros kv Hkv; apply Hrow; by right|].
  destruct (Hrow (id, row) (list_elem_of_here _ _)) as (o & sc & Ho & Hsc & Heq). simpl in Ho, Heq.
  destruct (observation_item_total id o sc Ho Hsc) as (i & Hit & Hr & Hid & _).
  exists (i :: obs). simpl. rewrite Heq, Hit, Hi. split; [done|]. split; [by rewrite Hid, Hids|by constructor].
Qed.

Lemma plan_validates staged items obs epoch state :
  within 0 MAX_OWNER_EPOCH epoch = true -> NoDup (map ri_attempt_id items) -> NoDup (map oi_observation_id obs) ->
  Forall (item_of staged) items -> Forall (fun i => oi_run_id i = run) obs ->
  (forall id a, attempts db !! id = Some a -> at_run_id a = run -> id ∈ map ri_attempt_id items) ->
  let plan := {| rp_run_id := run; rp_owner_epoch := epoch; rp_run_state := state;
                 rp_attempts := py_sorted deterministic_key items; rp_observations := py_sorted observation_key obs |} in
  validate_recovery_plan plan = Ok plan.
Proof.
  intros He Hn Hno Hf Hfo Hall plan. unfold validate_recovery_plan, _nonnegative_integer, plan. simpl.
  destruct (is_ok_some _ Hrun) as [x ->]. rewrite He. simpl. unfold _validate_plan_inventories. simpl.
  assert (NoDup (map ri_attempt_id (py_sorted deterministic_key items))) as Hn' by (by rewrite py_sorted_perm).
  assert (NoDup (map oi_observation_id (py_sorted observation_key obs))) as Hno' by (by rewrite py_sorted_perm).
  assert (Forall (item_of staged) (py_sorted deterministic_key items)) as Hf' by (by rewrite py_sorted_perm).
  assert (Forall (fun i => oi_run_id i = run) (py_sorted observation_key obs)) as Hfo' by (by rewrite py_sorted_perm).
  assert (existsb (fun i => negb (bool_decide (ri_run_id i = run))) (py_sorted deterministic_key items) = false) as ->.
  { apply existsb_false, (list.Forall_impl _ _ _ Hf'). intros i (a & sc & d & _ & _ & _ & _ & Hi). 
    apply attempt_item_fields in Hi as [-> _]. by rewrite bool_decide_true. }
  assert (existsb (fun i => negb (bool_decide (oi_run_id i = run))) (py_sorted observation_key obs) = false) as ->.
  { apply existsb_false, (list.Forall_impl _ _ _ Hfo'). intros i ->. by rewrite bool_decide_true. }
  simpl. rewrite !bool_decide_true by done. simpl. rewrite (predecessors_valid staged); [|done|done|].
  2: { intros id a Ha Hr. rewrite py_sorted_perm. by eapply Hall. }
  rewrite (py_sorted_id _ _ (py_sorted_sorted deterministic_key items)).
  rewrite (py_sorted_id _ _ (py_sorted_sorted observation_key obs)). by rewrite !bool_decide_true.
Qed.

(** The items that carry a staged response are those of the staging map. *)
Lemma staged_items_dom staged items :
  staged_exactly staged -> Forall (item_of staged) items ->
  (forall id a, attempts db !! id = Some a -> at_run_id a = run -> id ∈ map ri_attempt_id items) ->
  list_to_set (map ri_attempt_id (List.filter (fun i => negb (is_none (ri_response_staging i)))
    (py_sorted deterministic_key items))) =@{gset str} dom staged.
Proof.
  intros [_ Hex] Hf Hall. rewrite list.Forall_forall in Hf.
  assert (forall i, i ∈ items -> ri_response_staging i = staged !! ri_attempt_id i) as Hri.
  { intros i (a & sc & d & _ & _ & _ & _ & Hi)%Hf. apply attempt_item_fields in Hi. by destruct_and! Hi. }
  apply set_eq. intros id. rewrite elem_of_list_to_set, elem_of_dom, list_elem_of_fmap. split.
  - intros (i & -> & Hi). apply list_elem_of_In, List.filter_In in Hi as [Hi%list_elem_of_In Hs].
    apply elem_of_py_sorted in Hi. rewrite (Hri i Hi) in Hs. destruct (staged !! ri_attempt_id i); [by eexists|done].
  - intros [s' Hs']. destruct (Hex _ _ Hs') as (a & row & s & Ha & Hra & _).
    pose proof (Hall id a Ha Hra) as Hin. apply list_elem_of_fmap in Hin as (i & -> & Hi). exists i. split; [done|].
    apply list_elem_of_In, List.filter_In. split; [by apply list_elem_of_In, elem_of_py_sorted|]. by rewrite (Hri i Hi), Hs'.
Qed.

End recoverable_scan.

(** What a plan owes the journal it was made from. *)
Record plan_complete (db : Database) (run : str) (plan : RecoveryPlan) : Prop := {
  pc_attempts : forall id, id ∈ map ri_attempt_id (rp_attempts plan) <->
    exists a, attempts db !! id = Some a /\ at_run_id a = run;
  pc_attempts_once : NoDup (map ri_attempt_id (rp_attempts plan));
  pc_observations : forall id, id ∈ map oi_observation_id (rp_observations plan) <->
    exists o, observer_series db !! id = Some o /\ ob_run_id o = run;
  pc_observations_once : NoDup (map oi_observation_id (rp_observations plan));
  pc_staged : forall i row, i ∈ rp_attempts plan -> attempt_response_staging db !! ri_attempt_id i = Some row ->
    exists s, staging_ok s /\ _attempt_response_staging_values s = Ok row /\ ri_response_staging i = Some (restaged s)
}.

Lemma scanned_ids {A B : Type} (t : gmap str A) (cond : A -> bool) (row : str -> A -> option B) id :
  (forall i a, t !! i = Some a -> cond a = true -> is_Some (row i a)) ->
  id ∈ map fst (scanned t cond row) <-> exists a, t !! id = Some a /\ cond a = true.
Proof.
  intros Hj. rewrite list_elem_of_fmap. split.
  - intros ([k b] & -> & (a & Ha & Hc & _)%elem_of_scanned). eauto.
  - intros (a & Ha & Hc). destruct (Hj _ _ Ha Hc) as [b Hb]. exists (id, b). split; [done|]. apply elem_of_scanned. eauto.
Qed.

Lemma recoverable_scan db cx r :
  recoverable db -> validate_scan_context cx = Ok cx -> runs db !! cx_run_id cx = Some r ->
  run_owner_epoch r = cx_owner_epoch cx ->
  zlen (select (attempts db) (fun _ a => bool_decide (at_run_id a = cx_run_id cx)))
  + zlen (select (observer_series db) (fun _ o => bool_decide (ob_run_id o = cx_run_id cx))) <= MAX_RECOVERY_ITEMS ->
  exists plan, scan db cx = Ok plan /\ plan_complete db (cx_run_id cx) plan.
Proof.
  intros Hrec Hcx Hr He Hlim. set (run := cx_run_id cx) in *.
  assert (is_ok (validate_run_id run) = true /\ within 0 MAX_OWNER_EPOCH (cx_owner_epoch cx) = true) as [Hrun Hep].
  { unfold validate_scan_context, _nonnegative_integer in Hcx. do 2 py_step Hcx. unfold run. rewrite E. split; [done|].
    py_step E0. by apply negb_false_iff in E1. }
  destruct (staged_total db run Hrec) as (staged & Hst & Hsize & Hexact).
  destruct (items_total db run Hrec Hrun _ Hexact) as (items & Hit & Hids & Hf).
  destruct (observations_total db run Hrec Hrun) as (obs & Hobs & Hoids & Hof).
  assert (forall id, id ∈ map ri_attempt_id items <-> exists a, attempts db !! id = Some a /\ at_run_id a = run) as Hall.
  { intros id. rewrite Hids, scanned_ids by eauto using attempts_join. setoid_rewrite bool_decide_eq_true. done. }
  assert (NoDup (map ri_attempt_id items)) as Hn by (rewrite Hids; apply scanned_nodup).
  assert (NoDup (map oi_observation_id obs)) as Hno by (rewrite Hoids; apply scanned_nodup).
  unfold scan. fold run. rewrite (scan_rows db run Hrec r Hr Hlim). cbn [sr_owner_epoch]. rewrite He, Z.eqb_refl.
  unfold scan_attempts. cbn [sr_response_staging sr_attempts sr_observations sr_run_state negb].
  rewrite Hst. rewrite Hsize, Z.eqb_refl. cbn [negb]. rewrite Hit. cbn [as_integrity]. rewrite bool_decide_true; cbn [negb].
  - rewrite Hobs. eexists. split.
    { eapply (plan_validates db run Hrec Hrun (list_to_map staged)); try done. intros id a Ha Hra. apply Hall. eauto. }
    split; simpl; rewrite ?py_sorted_perm; try done.
    + intros id. by rewrite py_sorted_perm.
    + intros id. rewrite py_sorted_perm, Hoids, scanned_ids by eauto using observations_join. setoid_rewrite bool_decide_eq_true. done.
    + intros i row Hi Hrow. rewrite elem_of_py_sorted in Hi. rewrite list.Forall_forall in Hf.
      destruct (Hf i Hi) as (a & sc & d & Ha & Hra & _ & _ & Hitem).
      apply attempt_item_fields in Hitem as (_ & _ & _ & _ & _ & _ & _ & _ & _ & _ & _ & ->).
      destruct Hexact as [Hex1 Hex2]. specialize (Hex1 _ _ Ha Hra).
      destruct (list_to_map staged !! ri_attempt_id i) as [s'|] eqn:El.
      * destruct (Hex2 _ _ El) as (_ & row' & s & _ & _ & Hrow' & Hok & Hv & ->). exists s. split_and!; congruence.
      * exfalso. apply Hex1; [|done]. pose proof (rc_staging _ Hrec (ri_attempt_id i)) as HB. rewrite Hrow in HB.
        destruct HB as [HB _]. simpl in HB. rewrite Ha in HB. by injection HB.
  - eapply staged_items_dom; [exact Hexact|exact Hf|]. intros id a Ha Hra. apply Hall. eauto.
Qed.

(** Whatever the repository was doing when it stopped, recovery can start: on every journal an
    execution leaves behind, within the item limit and with the current owner epoch, the scan
    returns a plan. The plan lists each attempt and each observation of the run exactly once, and
    an attempt with a staged response carries that response, decoded from its row. *)
Theorem scan_total start db cx r :
  recoverable start -> journal_reachable start db -> validate_scan_context cx = Ok cx ->
  runs db !! cx_run_id cx = Some r -> run_owner_epoch r = cx_owner_epoch cx ->
  zlen (select (attempts db) (fun _ a => bool_decide (at_run_id a = cx_run_id cx)))
  + zlen (select (observer_series db) (fun _ o => bool_decide (ob_run_id o = cx_run_id cx))) <= MAX_RECOVERY_ITEMS ->
  exists plan, scan db cx = Ok plan /\ plan_complete db (cx_run_id cx) plan.
Proof. intros H0 Hr. apply recoverable_scan. by eapply recoverable_reachable. Qed.

(** ** The worked run, interrupted *)

Lemma crashed_reachable k : journal_reachable demo_db (crashed k).
Proof. apply exec_reachable, Forall_take, demo_calls_ok. Qed.

Lemma demo_recoverable : recoverable demo_db.
Proof.
  split.
  - intros id. change (attempt_response_staging demo_db) with (∅ : gmap str StagingRow). rewrite lookup_empty. done.
  - intros id a H. discriminate H.
  - intros id a H. discriminate H.
  - split; [intros id a H|intros id a H|intros id a id' a' H]; discriminate H.
  - split.
    + intros id sc H. unfold demo_db in H. simpl in H. apply lookup_singleton_Some in H as [<- <-]. constructed.
    + intros id d H. unfold demo_db in H. simpl in H. apply lookup_singleton_Some in H as [<- <-]. split_and!; vm_compute; reflexivity.
    + intros id o H. discriminate H.
    + intros id a H. discriminate H.
    + intros id e H. unfold demo_db in H. simpl in H. apply lookup_singleton_Some in H as [<- <-]. vm_compute. reflexivity.
Qed.

(** Stopped after the response was staged: the plan reduces it to its staged state. *)
Lemma scan_total_witness :
  exists plan, scan (crashed 8) demo_context = Ok plan /\ plan_complete (crashed 8) demo_run plan /\
    map (fun i => (ri_prior_state i, ri_target_state i)) (rp_attempts plan)
    = [(Attempt_RESPONSE_OBSERVED, Some Attempt_SUCCEEDED)].
Proof.
  assert (exists r, runs (crashed 8) !! demo_run = Some r /\ run_owner_epoch r = 3) as (r & Hr & He)
    by (eexists; constructed).
  destruct (scan_total demo_db (crashed 8) demo_context r demo_recoverable (crashed_reachable 8)) as (plan & Hs & Hp).
  - vm_compute. reflexivity.
  - exact Hr.
  - exact He.
  - vm_compute. discriminate.
  - exists plan. split; [exact Hs|]. split; [exact Hp|].
    assert (match scan (crashed 8) demo_context with
            | Ok p => map (fun i => (ri_prior_state i, ri_target_state i)) (rp_attempts p)
            | Raise _ => []
            end = [(Attempt_RESPONSE_OBSERVED, Some Attempt_SUCCEEDED)]) as Heval by (vm_compute; reflexivity).
    rewrite Hs in Heval. exact Heval.
Defined.
