(* ===== verification/RecoveryApply.v ===== *)
(** * Applying a recovery plan

    [RecoveryScanner.apply] commits a plan one transaction at a time.  Whether it finishes or stops
    at an error, what it leaves is a journal the repository's own operations lead to, so every
    invariant of the journal survives recovery, and interrupted recovery can be recovered; when it
    returns, every attempt of the plan that had a target is in it. *)

From S2P Require Import Prelude Text Identifiers Domain Clocks Lifecycle Replay Commands Json Store Journal Schedules Demo Ledger Outcomes Recovery RecoveryScan Recoverable RecoveryTotal.

Local Open Scope Z_scope.

(** ** Sessions that only take journal steps *)

Definition steps {A} (m : session A) : Prop := forall db r db', m db = (r, db') -> journal_reachable db db'.

Lemma reachable_trans a b c : journal_reachable a b -> journal_reachable b c -> journal_reachable a c.
Proof. intros Hab Hbc. induction Hbc; [done|]. by eapply journal_next. Qed.

Lemma steps_return {A} (r : result A) : steps (s_return r).
Proof. intros db x db' [= _ <-]. constructor. Qed.

Lemma steps_bind {A B} (m : session A) (k : A -> session B) : steps m -> (forall a, steps (k a)) -> steps (s_bind m k).
Proof.
  intros Hm Hk db r db' H. unfold s_bind in H. destruct (m db) as [[a|e] d] eqn:E; [|injection H as _ <-; by eapply Hm].
  eapply reachable_trans; [by eapply Hm|by eapply Hk].
Qed.

(** A value computed without the database can be assumed. *)
Lemma steps_let {A B} (r : result A) (k : A -> session B) : (forall a, r = Ok a -> steps (k a)) -> steps (s_bind (s_return r) k).
Proof.
  intros Hk db x db' H. unfold s_bind, s_return in H. destruct r as [a|e]; [by eapply Hk|]. injection H as _ <-. constructor.
Qed.

Lemma steps_each {A B} (body : A -> session B) l : (forall x, x ∈ l -> steps (body x)) -> steps (s_each body l).
Proof.
  induction l as [|x l IH]; intros Hb; [apply steps_return|]. simpl.
  apply steps_bind; [apply Hb; left|]. intros b. apply steps_bind; [apply IH; intros y Hy; apply Hb; by right|].
  intros bs. apply steps_return.
Qed.

(** What holds after each element, and keeps holding, holds at the end. *)
Lemma each_post {A B} (body : A -> session B) (P : A -> Database -> Prop) l db rs db' :
  (forall x, x ∈ l -> steps (body x)) ->
  (forall x d r d', x ∈ l -> body x d = (Ok r, d') -> P x d') ->
  (forall x d d', P x d -> journal_reachable d d' -> P x d') ->
  s_each body l db = (Ok rs, db') -> forall x, x ∈ l -> P x db'.
Proof.
  intros Hs HP Hk. revert db rs. induction l as [|y l IH]; intros db rs H x Hx; [by apply elem_of_nil in Hx|].
  simpl in H. unfold s_bind in H. destruct (body y db) as [[b|] d] eqn:Ey; [|done].
  destruct (s_each body l d) as [[bs|] d'] eqn:El; [|done]. injection H as _ <-.
  apply elem_of_cons in Hx as [->|Hx].
  - eapply Hk; [eapply HP; [left|exact Ey]|]. eapply (steps_each body l); [|exact El]. intros z Hz. apply Hs. by right.
  - eapply IH; [..|exact El|exact Hx]; intros; [apply Hs|eapply HP]; try (by right); done.
Qed.

(** ** The commands *)

Lemma transition_command_id c c' : validate_transition_command c = Ok c' -> c' = c.
Proof. unfold validate_transition_command. intros H. do 10 py_step H. by injection H. Qed.

Lemma repository_apply_steps c evidence :
  command_ok c -> (forall o, tc_attempt_outcome c = Some o -> retry_ok o) -> steps (repository_apply c evidence).
Proof.
  intros Hc Ho db r db' H. eapply journal_next; [constructor|]. eapply step_apply; [|exact H]. split; [exact Hc|]. by split.
Qed.

Lemma apply_attempt_steps c evidence :
  command_ok c -> (forall o, tc_attempt_outcome c = Some o -> retry_ok o) -> steps (apply_attempt c evidence).
Proof.
  intros Hc Ho. unfold apply_attempt. destruct (negb _); [apply steps_return|].
  apply steps_let. intros _ _. apply steps_let. intros _ _. by apply repository_apply_steps.
Qed.

Lemma rebind_steps epoch i : steps (rebind_item epoch i).
Proof.
  assert (forall run id st, steps (rebind_recoverable_attempt run id st epoch)) as H.
  { intros run id st. unfold rebind_recoverable_attempt. apply steps_let. intros _ _. apply steps_let. intros _ _.
    destruct (negb (bool_decide (st ∈ _))) eqn:E; [apply steps_return|]. apply negb_bool_decide_false in E.
    apply steps_let. intros _ _ db r db' H. eapply journal_next; [constructor|]. eapply step_rebind; [exact E|].
    destruct (rebind_execute db run id st epoch) eqn:Er; injection H as <- <-; by rewrite Er. }
  unfold rebind_item. destruct (ri_action i); auto using steps_return.
Qed.

(** A committed outcome is the attempt's state, whether the command was fresh or replayed. *)
Lemma apply_enters db op ct db' t expected :
  apply_execute db op = Ok (ct, db') -> tc_entity_type (op_command op) = Entity_ATTEMPT ->
  tc_new_state (op_command op) = OfAttempt t -> tc_expected_state (op_command op) = Some expected ->
  tc_attempt_outcome (op_command op) <> None ->
  entity_state db' Entity_ATTEMPT (tc_entity_id (op_command op)) = Some (tc_run_id (op_command op), OfAttempt t).
Proof.
  intros H He Hn Hx Ho. pose proof H as (_ & _ & _ & [[Hrep ->]|[_ [p Hf]]])%apply_cases.
  - unfold apply_execute in H. do 5 py_step H. destruct a3 as [r|].
    2: { py_step H. apply write_fresh_effect in H as (? & ? & ? & _ & -> & _). done. }
    unfold replay_existing in H. py_step H. clear H. unfold _verify_idempotent_replay in E4. py_step E4.
    rewrite !orb_false_iff, !negb_false_iff, !states_equal_some in E5. destruct E5 as [[[[[_ Eto] _] _] _] _].
    destruct (tc_attempt_outcome (op_command op)) as [o|] eqn:Eo; [|done]. unfold _verify_existing_attempt_outcome in E4.
    rewrite Eo in E4. destruct (_load_entity_projection db Entity_ATTEMPT _) as [p|] eqn:Ep; [|done].
    do 2 py_step E4. apply negb_bool_decide_false in E5. rewrite !orb_false_iff, !negb_false_iff, !states_equal_some in E6.
    destruct E6 as [[Est _] _]. apply load_projection_state in Ep. rewrite Ep, E5. do 2 f_equal.
    apply state_value_inj; [|congruence]. by rewrite (entity_state_type _ _ _ _ _ Ep).
  - pose proof (fc_states _ _ _ _ Hf) as Hst. rewrite Hx in Hst. destruct Hst as (_ & _ & Hw & _).
    rewrite Hw, decide_True by done. by rewrite Hn.
Qed.

Section apply.
Context (fresh_record : AttemptRecoveryItem -> str) (ts : TransitionTimestamp) (Hts : timestamp_ok ts).

(** The item's staged response, when it has one, was decoded from a row. *)
Definition item_staged (i : AttemptRecoveryItem) : Prop :=
  forall s, ri_response_staging i = Some s -> staged_ok s.

Lemma transition_target_ok i t : transition_target i = Ok t -> ri_target_state i = Some t.
Proof.
  unfold transition_target. destruct (ri_target_state i) as [[]|]; try congruence;
    (destruct (ri_response_staging i) as [s|]; [|done]); destruct (_ && _) eqn:E; try done;
    apply andb_true_iff in E as [_ E%bool_decide_eq_true]; congruence.
Qed.

Lemma attempt_command i epoch c :
  item_staged i -> _attempt_transition i epoch ts = Ok c ->
  command_ok c /\ (forall o, tc_attempt_outcome c = Some o -> retry_ok o) /\ tc_attempt_outcome c <> None /\
  tc_entity_type c = Entity_ATTEMPT /\ tc_entity_id c = ri_attempt_id i /\ tc_run_id c = ri_run_id i /\
  tc_expected_state c = Some (OfAttempt (ri_prior_state i)) /\
  exists t, ri_target_state i = Some t /\ tc_new_state c = OfAttempt t.
Proof.
  unfold _attempt_transition. intros Hs H. py_step H. py_step H.
  pose proof (transition_command_id _ _ H) as Hc. split; [split; [by rewrite <- Hc in H|by rewrite Hc]|].
  rewrite Hc. clear H Hc. cbn. split_and!; try done.
  - intros o [= <-]. destruct (ri_response_staging i) as [s|] eqn:Es; [by apply Hs|]. intros r Hr. discriminate Hr.
  - exists a. split; [by apply transition_target_ok|done].
Qed.

Lemma apply_item_steps epoch i : item_staged i -> steps (apply_item fresh_record ts epoch i).
Proof.
  intros Hs. unfold apply_item. apply steps_bind.
  - destruct (ri_response_staging i); [apply steps_return|]. apply steps_bind; [|intros; apply steps_return].
    intros db r db' [= _ <-]. constructor.
  - intros evidence. apply steps_let. intros c Hc. destruct (attempt_command _ _ _ Hs Hc) as (H1 & H2 & _).
    by apply apply_attempt_steps.
Qed.

Lemma apply_item_enters epoch i d r d' :
  item_staged i -> apply_item fresh_record ts epoch i d = (Ok r, d') ->
  exists t, ri_target_state i = Some t /\ entity_state d' Entity_ATTEMPT (ri_attempt_id i) = Some (ri_run_id i, OfAttempt t).
Proof.
  intros Hs H. unfold apply_item, s_bind at 1 in H. destruct (match ri_response_staging i with _ => _ end d) as [[e|] d1]; [|done].
  unfold s_bind, s_return in H. destruct (_attempt_transition i epoch ts) as [c|] eqn:Ec; [|done].
  destruct (attempt_command _ _ _ Hs Ec) as (_ & _ & Ho & He & Hid & Hrun & Hx & t & Ht & Hn). exists t. split; [done|].
  unfold apply_attempt in H. rewrite He, bool_decide_true in H by done. simpl in H. unfold s_bind, s_return in H.
  destruct (_validate_response_staging_presence c None); [|done].
  destruct (_validate_transport_evidence_presence c (Some e)); [|done].
  unfold repository_apply, in_transaction in H.
  destruct (apply_execute d1 _) as [[ct d2]|] eqn:Ea; [|done]. injection H as <- <-.
  rewrite <- Hid, <- Hrun. exact (apply_enters _ _ _ _ _ _ Ea He Hn Hx Ho).
Qed.

Lemma observation_steps epoch i : steps (apply_observation ts epoch i).
Proof.
  unfold apply_observation. apply steps_let. intros c Hc. unfold _observation_transition in Hc. do 2 py_step Hc.
  pose proof (transition_command_id _ _ Hc) as Heq. apply repository_apply_steps.
  - split; [by rewrite <- Heq in Hc|by rewrite Heq].
  - rewrite Heq. done.
Qed.

Lemma reduction_steps epoch r : steps (apply_reduction ts epoch r).
Proof.
  unfold apply_reduction. apply steps_let. intros c Hc. unfold _delivery_reduction_transition in Hc.
  destruct (reduced_delivery_state _); [|done]. py_step Hc.
  pose proof (transition_command_id _ _ Hc) as Heq. apply repository_apply_steps.
  - split; [by rewrite <- Heq in Hc|by rewrite Heq].
  - rewrite Heq. done.
Qed.

Lemma plan_items_staged db cx plan : scan db cx = Ok plan -> Forall item_staged (rp_attempts plan).
Proof.
  intros Hs. apply list.Forall_forall. intros i Hi s Hri.
  destruct (plan_item _ _ _ _ Hs Hi) as (a & row & staging & _ & _ & _ & Hit & Hst).
  apply attempt_item_fields in Hit. destruct_and! Hit. apply Hst. congruence.
Qed.

Lemma plan_target_terminal db cx plan i t :
  scan db cx = Ok plan -> i ∈ rp_attempts plan -> ri_target_state i = Some t ->
  ri_run_id i = cx_run_id cx /\ t ∈ _TERMINAL_ATTEMPT_STATES.
Proof.
  intros Hs Hi Ht. pose proof (plan_items_staged _ _ _ Hs) as Hst. rewrite list.Forall_forall in Hst. specialize (Hst i Hi).
  destruct (plan_item _ _ _ _ Hs Hi) as (a & row & staging & _ & _ & _ & Hit & _).
  split; [by apply attempt_item_fields in Hit as [? _]|].
  unfold _attempt_item in Hit. do 2 py_step Hit. destruct a1 as [[action ambiguity] target]. py_step Hit.
  set (item := Build_AttemptRecoveryItem _ _ _ _ _ _ _ _ _ _ _ _ _ _ _ _) in Hit.
  unfold validate_recovery_item in Hit. do 8 py_step Hit. injection Hit as <-. clear -E9 Hst Ht.
  unfold _validate_attempt_action in E9. case_bool_decide as Hred.
  - destruct (ri_response_staging item) as [s|] eqn:Es; [|done]. py_step E9. py_step E. apply negb_bool_decide_false in E0.
    rewrite Ht in E0. injection E0 as ->. destruct (Hst s Es) as [Hv _].
    destruct (staging_terminal s Hv) as [-> | [-> | ->]]; unfold _TERMINAL_ATTEMPT_STATES; set_solver.
  - py_step E9. py_step E. apply negb_bool_decide_false in E0. rewrite Ht in E0.
    destruct (ri_action item); simpl in E0; try done; injection E0 as ->; unfold _TERMINAL_ATTEMPT_STATES; set_solver.
Qed.

(** The targets of a plan that have been reached. *)
Definition reached (i : AttemptRecoveryItem) (db : Database) : Prop :=
  exists t, ri_target_state i = Some t /\ t ∈ _TERMINAL_ATTEMPT_STATES /\
    entity_state db Entity_ATTEMPT (ri_attempt_id i) = Some (ri_run_id i, OfAttempt t).

Lemma reached_kept i d d' : reached i d -> journal_reachable d d' -> reached i d'.
Proof.
  intros (t & Ht & Hterm & Hst) Hr. exists t. split; [done|]. split; [done|].
  apply (ev_final _ _ (reachable_evolves _ _ Hr)); [done|]. by apply terminal_no_exit.
Qed.

Lemma apply_steps cx plan : Forall item_staged (rp_attempts plan) -> steps (apply fresh_record ts cx plan).
Proof.
  intros Hst. rewrite list.Forall_forall in Hst. unfold apply. destruct (negb (is_live ts)); [apply steps_return|].
  destruct (_ || _); [apply steps_return|].
  apply steps_bind; [apply steps_each; intros; apply rebind_steps|intros _].
  apply steps_bind.
  { apply steps_each. intros i Hi. apply apply_item_steps, Hst. apply list_elem_of_In, List.filter_In in Hi as [Hi _].
    by apply list_elem_of_In. }
  intros ca. apply steps_bind; [apply steps_each; intros; apply observation_steps|intros co].
  apply steps_bind; [intros db r db' [= _ <-]; constructor|intros rows].
  apply steps_bind; [apply steps_each; intros; apply reduction_steps|intros cd]. apply steps_return.
Qed.

Lemma apply_reaches db0 cx plan db rs db' i :
  scan db0 cx = Ok plan -> apply fresh_record ts cx plan db = (Ok rs, db') ->
  i ∈ rp_attempts plan -> requires_transition i = true -> reached i db'.
Proof.
  intros Hscan H Hi Hreq. pose proof (plan_items_staged _ _ _ Hscan) as Hst. rewrite list.Forall_forall in Hst.
  unfold apply in H. destruct (negb (is_live ts)); [done|]. destruct (_ || _); [done|].
  unfold s_bind at 1 in H. destruct (s_each (rebind_item _) _ db) as [[us|] d1]; [|done].
  unfold s_bind at 1 in H. destruct (s_each (apply_item _ _ _) _ d1) as [[ca|] d2] eqn:Ea; [|done].
  assert (i ∈ List.filter requires_transition (rp_attempts plan)) as Hif
    by (apply list_elem_of_In, List.filter_In; split; [by apply list_elem_of_In|done]).
  assert (forall x, x ∈ List.filter requires_transition (rp_attempts plan) -> x ∈ rp_attempts plan) as Hsub
    by (intros x Hx; apply list_elem_of_In, List.filter_In in Hx as [Hx _]; by apply list_elem_of_In).
  assert (reached i d2) as Hd2.
  { eapply (each_post _ reached _ _ _ _); [| |exact reached_kept|exact Ea|exact Hif].
    - intros x Hx. by apply apply_item_steps, Hst, Hsub.
    - intros x d r d' Hx Hx'. destruct (apply_item_enters _ _ _ _ _ (Hst _ (Hsub _ Hx)) Hx') as (t & Ht & Hs).
      destruct (plan_target_terminal _ _ _ _ _ Hscan (Hsub _ Hx) Ht) as [_ Hterm]. by exists t. }
  eapply reached_kept; [exact Hd2|].
  match type of H with ?m d2 = _ => assert (steps m) as Hsteps end; [|by eapply Hsteps].
  apply steps_bind; [apply steps_each; intros; apply observation_steps|intros co].
  apply steps_bind; [intros d r d' [= _ <-]; constructor|intros rows].
  apply steps_bind; [apply steps_each; intros; apply reduction_steps|intros cd]. apply steps_return.
Qed.

End apply.

(** C10: Recovery is itself recoverable and final. Applying a plan from a scan, whether it returns or
    stops at an error, only takes steps of the journal's own operations, so a journal that could
    be recovered still can. When it returns, every attempt of the plan with a target is in that
    terminal state, and no later operation moves it. *)
Theorem apply_settles fresh_record ts db0 cx plan db r db' :
  timestamp_ok ts -> scan db0 cx = Ok plan -> recoverable db -> apply fresh_record ts cx plan db = (r, db') ->
  journal_reachable db db' /\ recoverable db' /\
  forall rs i t later, r = Ok rs -> i ∈ rp_attempts plan -> ri_target_state i = Some t -> journal_reachable db' later ->
    entity_state later Entity_ATTEMPT (ri_attempt_id i) = Some (cx_run_id cx, OfAttempt t).
Proof.
  intros Hts Hscan Hrec H. assert (journal_reachable db db') as Hr.
  { eapply apply_steps; [exact Hts|by eapply plan_items_staged|exact H]. }
  split; [done|]. split; [by eapply recoverable_reachable|]. intros rs i t later -> Hi Ht Hl.
  destruct (plan_target_terminal _ _ _ _ _ Hscan Hi Ht) as [<- _].
  assert (reached i later) as (t' & Ht' & _ & Hst); [|congruence].
  eapply reached_kept; [|exact Hl]. eapply apply_reaches; [done|done|exact H|done|]. unfold requires_transition. by rewrite Ht.
Qed.

(** Stopped after staging the response: recovery settles the attempt as the staged response says. *)
Lemma apply_settles_witness :
  exists plan rs db', scan (crashed 8) demo_context = Ok plan /\
    apply (fun _ => demo_record) (demo_time 50) demo_context plan (crashed 8) = (Ok rs, db') /\ recoverable db' /\
    entity_state db' Entity_ATTEMPT demo_attempt = Some (demo_run, OfAttempt Attempt_SUCCEEDED).
Proof.
  assert (match scan (crashed 8) demo_context with
          | Ok p => (map (fun i => (ri_attempt_id i, ri_target_state i)) (rp_attempts p),
                     is_ok (apply (fun _ => demo_record) (demo_time 50) demo_context p (crashed 8)).1)
          | Raise _ => ([], false)
          end = ([(demo_attempt, Some Attempt_SUCCEEDED)], true)) as Heval by (vm_compute; reflexivity).
  destruct (scan (crashed 8) demo_context) as [plan|] eqn:Hs; [|discriminate Heval].
  destruct (apply (fun _ => demo_record) (demo_time 50) demo_context plan (crashed 8)) as [[rs|e] db'] eqn:Ha;
    [|discriminate Heval].
  destruct (rp_attempts plan) as [|i rest] eqn:Hi; [discriminate Heval|]. injection Heval as Hid Ht _.
  destruct (apply_settles (fun _ => demo_record) (demo_time 50) (crashed 8) demo_context plan (crashed 8) (Ok rs) db')
    as (_ & Hrec & Hst).
  - vm_compute. reflexivity.
  - exact Hs.
  - exact (recoverable_reachable _ _ demo_recoverable (crashed_reachable 8)).
  - exact Ha.
  - exists plan, rs, db'. split; [reflexivity|]. split; [exact Ha|]. split; [exact Hrec|]. rewrite <- Hid.
    apply (Hst rs i Attempt_SUCCEEDED db' eq_refl); [rewrite Hi; left|exact Ht|constructor].
Defined.
