(* ===== verification/Policy.v ===== *)
(** * Resume policy

    [recovery/policy.py]: what a resumed run may do about attempts whose effect is unknown.  The
    engine turns the recovery plan, the policy material of the run's bundle, the choices of the
    invocation and the persisted schedule into one plan, without I/O: the work that may run, the
    work that is held back, the observations and redeliveries to make and the decisions to append.
    Tuples of exact types are typed lists; the factory of fresh attempt identifiers is a parameter
    that answers its [n]-th call with a value or an exception, and the journal adapter's answer is
    an argument of [apply_policy]. *)

From S2P Require Import Prelude Sha256 Text Identifiers Domain Clocks Queue Commands Json Verdicts Recovery.

Local Open Scope Z_scope.

Definition MAX_POLICY_ITEMS : Z := MAX_SCHEDULE_ITEMS.
Definition MAX_EVIDENCE_REFERENCES : Z := 1000.
Definition MAX_REASON_BYTES : Z := 4096.
Definition MAX_TIE_KEY_BYTES : Z := 200.
Definition MAX_CONDITION_BYTES : Z := 1048576.

Inductive AmbiguityPolicy := Policy_STOP | Policy_OBSERVE | Policy_REDELIVER | Policy_OPERATOR_DECISION.
#[global] Instance AmbiguityPolicy_eq_dec : EqDecision AmbiguityPolicy.
Proof. solve_decision. Defined.
Definition AmbiguityPolicy_value (p : AmbiguityPolicy) : str :=
  match p with
  | Policy_STOP => u "stop"
  | Policy_OBSERVE => u "observe"
  | Policy_REDELIVER => u "redeliver"
  | Policy_OPERATOR_DECISION => u "operator_decision"
  end.

Inductive ResumeDisposition := Resume_CONTINUE | Resume_AWAIT_OBSERVATION | Resume_STOP_AMBIGUOUS | Resume_CANCELLED.
#[global] Instance ResumeDisposition_eq_dec : EqDecision ResumeDisposition.
Proof. solve_decision. Defined.

Inductive OperatorVerdict := Operator_PROCESSED | Operator_NOT_PROCESSED | Operator_STILL_UNKNOWN.
#[global] Instance OperatorVerdict_eq_dec : EqDecision OperatorVerdict.
Proof. solve_decision. Defined.

Inductive RecoveryDecisionKind :=
  | Decision_STOPPED_AMBIGUOUS
  | Decision_OBSERVATION_REQUESTED
  | Decision_REDELIVERY_CREATED
  | Decision_OPERATOR_PROCESSED
  | Decision_OPERATOR_NOT_PROCESSED
  | Decision_OPERATOR_STILL_UNKNOWN.
#[global] Instance RecoveryDecisionKind_eq_dec : EqDecision RecoveryDecisionKind.
Proof. solve_decision. Defined.

(** ** Field checks *)

Definition _token (value : str) (maximum : Z) : result str :=
  raise_if negb (is_token value maximum) with ValueError ;; Ok value.

Definition _bounded_text (value : str) (maximum : Z) : result str :=
  raise_if bool_decide (value = []) with ValueError ;;
  raise_if existsb is_control value with ValueError ;;
  let! encoded := utf8_encode value in
  raise_if (maximum <? zlen encoded) with ValueError ;;
  Ok value.

Definition _unique_values {A} `{EqDecision A} (items : list A) : result unit :=
  raise_if negb (bool_decide (NoDup items)) with ValueError ;; Ok tt.

Definition validate_sha256_digest (value : str) : result str :=
  raise_if negb (is_sha256_digest value) with ValueError ;; Ok value.

(** ** Inputs *)

Record RecoveryEvidenceReference := { ref_evidence_kind : str; ref_evidence_id : str }.
#[global] Instance RecoveryEvidenceReference_eq_dec : EqDecision RecoveryEvidenceReference.
Proof. solve_decision. Defined.
Definition validate_evidence_reference (r : RecoveryEvidenceReference) : result RecoveryEvidenceReference :=
  let! _ := _lower_identifier (ref_evidence_kind r) 64 in
  let! _ := _token (ref_evidence_id r) 96 in
  Ok r.

Record RedeliveryTemplate := {
  rt_scenario_id : str; rt_event_id : str; rt_delivery_id : str; rt_attempt_plan_id : str;
  rt_logical_due_ns : Z; rt_deterministic_tie_key : str
}.
Definition validate_redelivery_template (t : RedeliveryTemplate) : result RedeliveryTemplate :=
  let! _ := validate_planned_id (rt_scenario_id t) (Some Planned_SCENARIO) in
  let! _ := validate_planned_id (rt_event_id t) (Some Planned_EVENT) in
  let! _ := validate_planned_id (rt_delivery_id t) (Some Planned_DELIVERY) in
  let! _ := validate_planned_id (rt_attempt_plan_id t) (Some Planned_ATTEMPT_PLAN) in
  let! _ := validate_logical_nanoseconds (rt_logical_due_ns t) in
  let! _ := _token (rt_deterministic_tie_key t) MAX_TIE_KEY_BYTES in
  Ok t.

Record ObservationReconciliationRule := {
  or_scenario_id : str; or_delivery_id : str; or_observation_id : str; or_assertion_ids : list str;
  or_read_only : bool; or_idempotent : bool
}.
Definition validate_observation_rule (r : ObservationReconciliationRule) : result ObservationReconciliationRule :=
  let! _ := validate_planned_id (or_scenario_id r) (Some Planned_SCENARIO) in
  let! _ := validate_planned_id (or_delivery_id r) (Some Planned_DELIVERY) in
  let! _ := validate_planned_id (or_observation_id r) (Some Planned_OBSERVATION) in
  raise_if bool_decide (or_assertion_ids r = []) with ValueError ;;
  raise_if (MAX_EVIDENCE_REFERENCES <=? zlen (or_assertion_ids r)) with ResumePolicyResourceLimitError ;;
  let! _ := map_result (fun a => validate_planned_id a (Some Planned_ASSERTION)) (or_assertion_ids r) in
  raise_if negb (bool_decide (NoDup (or_assertion_ids r))) with ValueError ;;
  Ok r.
Definition eligible_for_resume (r : ObservationReconciliationRule) : bool := or_read_only r && or_idempotent r.

Record BundleRecoveryPolicy := {
  bp_redelivery_templates : list RedeliveryTemplate;
  bp_observation_rules : list ObservationReconciliationRule
}.
Definition validate_bundle_policy (b : BundleRecoveryPolicy) : result BundleRecoveryPolicy :=
  raise_if (MAX_POLICY_ITEMS <? zlen (bp_redelivery_templates b)) || (MAX_POLICY_ITEMS <? zlen (bp_observation_rules b))
    with ResumePolicyResourceLimitError ;;
  let! _ := _unique_values (map (fun t => (rt_scenario_id t, rt_delivery_id t)) (bp_redelivery_templates b)) in
  let! _ := _unique_values (map (fun r => (or_scenario_id r, or_delivery_id r)) (bp_observation_rules b)) in
  Ok b.

Record OperatorDecisionDirective := {
  od_attempt_id : str; od_verdict : OperatorVerdict; od_reason : str; od_operator_identity_fingerprint : str;
  od_operator_input_digest : str; od_evidence : list RecoveryEvidenceReference; od_signed_policy_verified : bool
}.
Definition validate_operator_directive (d : OperatorDecisionDirective) : result OperatorDecisionDirective :=
  let! _ := validate_fresh_id (od_attempt_id d) (Some Fresh_ATTEMPT) in
  let! _ := _bounded_text (od_reason d) MAX_REASON_BYTES in
  let! _ := validate_sha256_digest (od_operator_identity_fingerprint d) in
  let! _ := validate_sha256_digest (od_operator_input_digest d) in
  raise_if bool_decide (od_evidence d = []) with ValueError ;;
  raise_if (MAX_EVIDENCE_REFERENCES <? zlen (od_evidence d)) with ValueError ;;
  raise_if negb (bool_decide (NoDup (od_evidence d))) with ValueError ;;
  Ok d.

Record ResumeInvocationPolicy := {
  iv_on_ambiguous : option AmbiguityPolicy; iv_noninteractive : bool; iv_cancel_requested : bool;
  iv_operator_decisions : list OperatorDecisionDirective
}.
Definition validate_invocation_policy (i : ResumeInvocationPolicy) : result ResumeInvocationPolicy :=
  raise_if (MAX_POLICY_ITEMS <? zlen (iv_operator_decisions i)) with ResumePolicyResourceLimitError ;;
  raise_if negb (bool_decide (iv_on_ambiguous i = Some Policy_OPERATOR_DECISION))
           && match iv_operator_decisions i with [] => false | _ => true end with ValueError ;;
  let! _ := _unique_values (map od_attempt_id (iv_operator_decisions i)) in
  Ok i.

Record PersistedScheduleSnapshot := { ps_entries : list ScheduleItem; ps_consumed_entry_ids : gset str }.
Definition validate_schedule_snapshot (s : PersistedScheduleSnapshot) : result PersistedScheduleSnapshot :=
  raise_if (MAX_POLICY_ITEMS <? zlen (ps_entries s))
           || (MAX_POLICY_ITEMS <? Z.of_nat (size (ps_consumed_entry_ids s))) with ResumePolicyResourceLimitError ;;
  let! _ := _unique_values (map schedule_entry_id (ps_entries s)) in
  let! _ := map_result (fun id => _token id 96) (elements (ps_consumed_entry_ids s)) in
  raise_if negb (bool_decide (ps_consumed_entry_ids s ⊆ list_to_set (map schedule_entry_id (ps_entries s))))
    with ResumePolicyIntegrityError ;;
  Ok s.

Record ResumePolicyContext := { rx_scan_context : RecoveryScanContext; rx_recovery_plan : RecoveryPlan }.
Definition validate_policy_context (x : ResumePolicyContext) : result ResumePolicyContext :=
  raise_if negb (bool_decide (cx_run_id (rx_scan_context x) = rp_run_id (rx_recovery_plan x)))
           || negb (cx_owner_epoch (rx_scan_context x) =? rp_owner_epoch (rx_recovery_plan x))
    with ResumePolicyIntegrityError ;;
  Ok x.

(** ** Plans *)

Record ObservationReconciliationPlan := {
  obp_attempt_id : str; obp_scenario_id : str; obp_delivery_id : str; obp_observation_id : str;
  obp_assertion_ids : list str
}.
Definition validate_observation_plan (p : ObservationReconciliationPlan) : result ObservationReconciliationPlan :=
  let! _ := validate_fresh_id (obp_attempt_id p) (Some Fresh_ATTEMPT) in
  let! _ := validate_planned_id (obp_scenario_id p) (Some Planned_SCENARIO) in
  let! _ := validate_planned_id (obp_delivery_id p) (Some Planned_DELIVERY) in
  let! _ := validate_planned_id (obp_observation_id p) (Some Planned_OBSERVATION) in
  raise_if bool_decide (obp_assertion_ids p = []) with ValueError ;;
  Ok p.

Record RedeliveryAttemptPlan := {
  rl_run_id : str; rl_scenario_id : str; rl_event_id : str; rl_delivery_id : str; rl_predecessor_attempt_id : str;
  rl_attempt_id : str; rl_attempt_plan_id : str; rl_attempt_ordinal : Z; rl_schedule_item : ScheduleItem;
  rl_schedule_idempotency_key : str; rl_condition_json : bytes
}.
Definition validate_redelivery_plan (p : RedeliveryAttemptPlan) : result RedeliveryAttemptPlan :=
  let! _ := validate_run_id (rl_run_id p) in
  let! _ := validate_planned_id (rl_scenario_id p) (Some Planned_SCENARIO) in
  let! _ := validate_planned_id (rl_event_id p) (Some Planned_EVENT) in
  let! _ := validate_planned_id (rl_delivery_id p) (Some Planned_DELIVERY) in
  let! _ := validate_fresh_id (rl_predecessor_attempt_id p) (Some Fresh_ATTEMPT) in
  let! _ := validate_fresh_id (rl_attempt_id p) (Some Fresh_ATTEMPT) in
  raise_if bool_decide (rl_attempt_id p = rl_predecessor_attempt_id p) with ValueError ;;
  let! _ := validate_planned_id (rl_attempt_plan_id p) (Some Planned_ATTEMPT_PLAN) in
  let! _ := _nonnegative_integer (rl_attempt_ordinal p) MAX_SAFE_INTEGER in
  raise_if negb (bool_decide (entity_id (rl_schedule_item p) = rl_attempt_plan_id p))
           || negb (attempt_ordinal (rl_schedule_item p) =? rl_attempt_ordinal p) with ValueError ;;
  let! _ := _token (rl_schedule_idempotency_key p) 256 in
  raise_if (MAX_CONDITION_BYTES <? zlen (rl_condition_json p)) with ValueError ;;
  Ok p.

Record RecoveryDecisionPlan := {
  dc_decision_id : str; dc_run_id : str; dc_scenario_id : str; dc_attempt_id : str; dc_policy : AmbiguityPolicy;
  dc_decision : RecoveryDecisionKind; dc_reason : str; dc_timestamp : TransitionTimestamp;
  dc_evidence : list RecoveryEvidenceReference; dc_operator_identity_fingerprint : option str;
  dc_operator_input_digest : option str
}.
Definition _validate_operator_fields (p : RecoveryDecisionPlan) : result unit :=
  let is_operator := bool_decide (dc_policy p = Policy_OPERATOR_DECISION) in
  match dc_operator_identity_fingerprint p, dc_operator_input_digest p with
  | Some fingerprint, Some input_digest =>
    raise_if negb is_operator with ValueError ;;
    let! _ := validate_sha256_digest fingerprint in
    let! _ := validate_sha256_digest input_digest in
    Ok tt
  | _, _ => raise_if is_operator with ValueError ;; Ok tt
  end.
Definition validate_decision_plan (p : RecoveryDecisionPlan) : result RecoveryDecisionPlan :=
  let! _ := _token (dc_decision_id p) 96 in
  let! _ := validate_run_id (dc_run_id p) in
  let! _ := validate_planned_id (dc_scenario_id p) (Some Planned_SCENARIO) in
  let! _ := validate_fresh_id (dc_attempt_id p) (Some Fresh_ATTEMPT) in
  let! _ := _bounded_text (dc_reason p) MAX_REASON_BYTES in
  raise_if negb (is_live (dc_timestamp p)) with ValueError ;;
  raise_if (MAX_EVIDENCE_REFERENCES <? zlen (dc_evidence p)) with ValueError ;;
  raise_if negb (bool_decide (NoDup (dc_evidence p))) with ValueError ;;
  let! _ := _validate_operator_fields p in
  Ok p.

Record ResumePolicyPlan := {
  pp_run_id : str; pp_owner_epoch : Z; pp_requested_policy : option AmbiguityPolicy;
  pp_effective_policy : AmbiguityPolicy; pp_disposition : ResumeDisposition;
  pp_result_category : option ResultCategory; pp_exit_code : option ExitCode;
  pp_ambiguous_attempt_ids : list str; pp_decisions : list RecoveryDecisionPlan;
  pp_redeliveries : list RedeliveryAttemptPlan; pp_observations : list ObservationReconciliationPlan;
  pp_runnable_schedule : list ScheduleItem; pp_deferred_schedule : list ScheduleItem
}.

Definition _validate_plan_result (p : ResumePolicyPlan) : result unit :=
  let! _ :=
    match pp_result_category p, pp_exit_code p with
    | Some category, Some code =>
      raise_if negb (bool_decide ((exit_for_result category).2 = code)) with ValueError ;; Ok tt
    | None, None => Ok tt
    | _, _ => Raise ValueError
    end in
  raise_if bool_decide (pp_disposition p ∈ [Resume_STOP_AMBIGUOUS; Resume_CANCELLED])
           && is_none (pp_result_category p) with ValueError ;;
  Ok tt.

Definition _validate_policy_plan_collections (p : ResumePolicyPlan) : result unit :=
  let! _ := map_result (fun id => validate_fresh_id id (Some Fresh_ATTEMPT)) (pp_ambiguous_attempt_ids p) in
  let! _ := _unique_values (pp_ambiguous_attempt_ids p) in
  raise_if existsb (fun n => MAX_POLICY_ITEMS <? n)
    [zlen (pp_decisions p); zlen (pp_redeliveries p); zlen (pp_observations p); zlen (pp_runnable_schedule p);
     zlen (pp_deferred_schedule p)] with ResumePolicyResourceLimitError ;;
  raise_if (MAX_POLICY_ITEMS <? zlen (pp_runnable_schedule p) + zlen (pp_deferred_schedule p))
    with ResumePolicyResourceLimitError ;;
  raise_if existsb (fun d => negb (bool_decide (dc_run_id d = pp_run_id p))) (pp_decisions p)
           || existsb (fun r => negb (bool_decide (rl_run_id r = pp_run_id p))) (pp_redeliveries p) with ValueError ;;
  let runnable_ids := map schedule_entry_id (pp_runnable_schedule p) in
  let deferred_ids := map schedule_entry_id (pp_deferred_schedule p) in
  raise_if negb (bool_decide (NoDup runnable_ids)) || negb (bool_decide (NoDup deferred_ids))
           || existsb (fun id => bool_decide (id ∈ deferred_ids)) runnable_ids with ValueError ;;
  Ok tt.

Definition validate_policy_plan (p : ResumePolicyPlan) : result ResumePolicyPlan :=
  let! _ := validate_run_id (pp_run_id p) in
  let! _ := _nonnegative_integer (pp_owner_epoch p) (2 ^ 63 - 1) in
  let! _ := _validate_plan_result p in
  let! _ := _validate_policy_plan_collections p in
  Ok p.

Definition requires_journal_commit (p : ResumePolicyPlan) : bool :=
  negb (zlen (pp_decisions p) =? 0) || negb (zlen (pp_redeliveries p) =? 0).
Definition delivery_execution_allowed (p : ResumePolicyPlan) : bool :=
  bool_decide (pp_disposition p = Resume_CONTINUE).
Definition observer_contact_allowed (p : ResumePolicyPlan) : bool := negb (zlen (pp_observations p) =? 0).

(** ** Building a plan *)

(** [except ScheduleQueueError] *)
Definition as_policy_integrity {A} (r : result A) : result A :=
  match r with
  | Raise (ScheduleQueueError _) => Raise ResumePolicyIntegrityError
  | _ => r
  end.

Definition _pending_schedule (s : PersistedScheduleSnapshot) : result (list ScheduleItem) :=
  let! q := as_policy_integrity (reconstruct (ps_entries s) (ps_consumed_entry_ids s) MAX_POLICY_ITEMS) in
  Ok (snapshot q).

Definition _policy_item_limit (ambiguous : list AttemptRecoveryItem) (pending : list ScheduleItem) : result unit :=
  raise_if (MAX_POLICY_ITEMS <? zlen ambiguous) || (MAX_POLICY_ITEMS <? zlen pending)
    with ResumePolicyResourceLimitError ;;
  Ok tt.

(** The inputs have their types; the clock must be live. *)
Definition _require_build_inputs (timestamp : TransitionTimestamp) : result unit :=
  raise_if negb (is_live timestamp) with ResumePolicyIntegrityError ;; Ok tt.

Definition _decision_for (x : ResumePolicyContext) (item : AttemptRecoveryItem) (policy : AmbiguityPolicy)
    (decision : RecoveryDecisionKind) (reason : str) (timestamp : TransitionTimestamp)
    (evidence : list RecoveryEvidenceReference) (fingerprint input_digest : option str) : result RecoveryDecisionPlan :=
  validate_decision_plan
    {| dc_decision_id := u "resume." ++ str_of_int (rp_owner_epoch (rx_recovery_plan x)) ++ u "."
                         ++ AmbiguityPolicy_value policy ++ u "." ++ ri_attempt_id item;
       dc_run_id := rp_run_id (rx_recovery_plan x); dc_scenario_id := ri_scenario_id item;
       dc_attempt_id := ri_attempt_id item; dc_policy := policy; dc_decision := decision; dc_reason := reason;
       dc_timestamp := timestamp; dc_evidence := evidence; dc_operator_identity_fingerprint := fingerprint;
       dc_operator_input_digest := input_digest |}.

Definition _continue_without_ambiguity (x : ResumePolicyContext) (i : ResumeInvocationPolicy)
    (pending : list ScheduleItem) : result ResumePolicyPlan :=
  validate_policy_plan
    {| pp_run_id := rp_run_id (rx_recovery_plan x); pp_owner_epoch := rp_owner_epoch (rx_recovery_plan x);
       pp_requested_policy := iv_on_ambiguous i;
       pp_effective_policy := match iv_on_ambiguous i with None => Policy_STOP | Some p => p end;
       pp_disposition := Resume_CONTINUE; pp_result_category := None; pp_exit_code := None;
       pp_ambiguous_attempt_ids := []; pp_decisions := []; pp_redeliveries := []; pp_observations := [];
       pp_runnable_schedule := pending; pp_deferred_schedule := [] |}.

Definition _cancelled_plan (x : ResumePolicyContext) (i : ResumeInvocationPolicy) (pending : list ScheduleItem)
    : result ResumePolicyPlan :=
  validate_policy_plan
    {| pp_run_id := rp_run_id (rx_recovery_plan x); pp_owner_epoch := rp_owner_epoch (rx_recovery_plan x);
       pp_requested_policy := iv_on_ambiguous i; pp_effective_policy := Policy_STOP;
       pp_disposition := Resume_CANCELLED; pp_result_category := Some Category_CANCELLED;
       pp_exit_code := Some (exit_for_result Category_CANCELLED).2;
       pp_ambiguous_attempt_ids := []; pp_decisions := []; pp_redeliveries := []; pp_observations := [];
       pp_runnable_schedule := []; pp_deferred_schedule := pending |}.

Definition _stop_plan (x : ResumePolicyContext) (requested : option AmbiguityPolicy)
    (ambiguous : list AttemptRecoveryItem) (pending : list ScheduleItem) (timestamp : TransitionTimestamp) (reason : str)
    : result ResumePolicyPlan :=
  let! decisions := map_result (fun item =>
    _decision_for x item Policy_STOP Decision_STOPPED_AMBIGUOUS reason timestamp [] None None) ambiguous in
  validate_policy_plan
    {| pp_run_id := rp_run_id (rx_recovery_plan x); pp_owner_epoch := rp_owner_epoch (rx_recovery_plan x);
       pp_requested_policy := requested; pp_effective_policy := Policy_STOP;
       pp_disposition := Resume_STOP_AMBIGUOUS; pp_result_category := Some Category_AMBIGUOUS;
       pp_exit_code := Some (exit_for_result Category_AMBIGUOUS).2;
       pp_ambiguous_attempt_ids := map ri_attempt_id ambiguous; pp_decisions := decisions; pp_redeliveries := [];
       pp_observations := []; pp_runnable_schedule := []; pp_deferred_schedule := pending |}.

(** [{key(item): item for item in items}] *)
Definition dict_of {K V} `{EqDecision K, Countable K} (key : V -> K) (items : list V) : gmap K V :=
  fold_left (fun m v => <[key v := v]> m) items ∅.

Definition item_scope (i : AttemptRecoveryItem) : str * str := (ri_scenario_id i, ri_delivery_id i).

(** The rule of an attempt's delivery, when it is eligible. *)
Definition selected_rule (rules : gmap (str * str) ObservationReconciliationRule) (i : AttemptRecoveryItem)
    : option ObservationReconciliationRule :=
  match rules !! item_scope i with
  | Some rule => if eligible_for_resume rule then Some rule else None
  | None => None
  end.

Definition _observe_plan (x : ResumePolicyContext) (bundle : BundleRecoveryPolicy)
    (ambiguous : list AttemptRecoveryItem) (pending : list ScheduleItem) (timestamp : TransitionTimestamp)
    : result ResumePolicyPlan :=
  let rules := dict_of (fun r => (or_scenario_id r, or_delivery_id r)) (bp_observation_rules bundle) in
  match mapM (selected_rule rules) ambiguous with
  | None =>
    _stop_plan x (Some Policy_OBSERVE) ambiguous pending timestamp
      (u "observe_requires_read_only_idempotent_decisive_rule")
  | Some selected =>
    let! observations := map_result (fun '(item, rule) =>
      validate_observation_plan
        {| obp_attempt_id := ri_attempt_id item; obp_scenario_id := ri_scenario_id item;
           obp_delivery_id := ri_delivery_id item; obp_observation_id := or_observation_id rule;
           obp_assertion_ids := or_assertion_ids rule |}) (zip ambiguous selected) in
    let! decisions := map_result (fun '(item, observation) =>
      let! evidence := map_result validate_evidence_reference
        ({| ref_evidence_kind := u "observation"; ref_evidence_id := obp_observation_id observation |}
         :: map (fun a => {| ref_evidence_kind := u "assertion"; ref_evidence_id := a |}) (obp_assertion_ids observation)) in
      _decision_for x item Policy_OBSERVE Decision_OBSERVATION_REQUESTED
        (u "configured_read_only_observer_and_decisive_assertions") timestamp evidence None None)
      (zip ambiguous observations) in
    validate_policy_plan
      {| pp_run_id := rp_run_id (rx_recovery_plan x); pp_owner_epoch := rp_owner_epoch (rx_recovery_plan x);
         pp_requested_policy := Some Policy_OBSERVE; pp_effective_policy := Policy_OBSERVE;
         pp_disposition := Resume_AWAIT_OBSERVATION; pp_result_category := None; pp_exit_code := None;
         pp_ambiguous_attempt_ids := map ri_attempt_id ambiguous; pp_decisions := decisions; pp_redeliveries := [];
         pp_observations := observations; pp_runnable_schedule := []; pp_deferred_schedule := pending |}
  end.

Definition schedule_scope (i : ScheduleItem) : Z * (Z * Z) := (scenario_ordinal i, (step_ordinal i, delivery_ordinal i)).
Definition attempt_scope (i : AttemptRecoveryItem) : Z * (Z * Z) :=
  (ri_scenario_ordinal i, (ri_step_ordinal i, ri_delivery_ordinal i)).

(** The runnable and the deferred entries. *)
Definition _partition_linked_schedule (pending : list ScheduleItem) (ambiguous : list AttemptRecoveryItem)
    : list ScheduleItem * list ScheduleItem :=
  let linked i := bool_decide (schedule_scope i ∈ map attempt_scope ambiguous) in
  (List.filter (fun i => negb (linked i)) pending, List.filter linked pending).

Definition operator_kind (v : OperatorVerdict) : RecoveryDecisionKind :=
  match v with
  | Operator_PROCESSED => Decision_OPERATOR_PROCESSED
  | Operator_NOT_PROCESSED => Decision_OPERATOR_NOT_PROCESSED
  | Operator_STILL_UNKNOWN => Decision_OPERATOR_STILL_UNKNOWN
  end.
Definition _operator_decision_for (x : ResumePolicyContext) (item : AttemptRecoveryItem)
    (d : OperatorDecisionDirective) (timestamp : TransitionTimestamp) : result RecoveryDecisionPlan :=
  _decision_for x item Policy_OPERATOR_DECISION (operator_kind (od_verdict d)) (od_reason d) timestamp (od_evidence d)
    (Some (od_operator_identity_fingerprint d)) (Some (od_operator_input_digest d)).

Definition _operator_plan (x : ResumePolicyContext) (i : ResumeInvocationPolicy)
    (ambiguous : list AttemptRecoveryItem) (pending : list ScheduleItem) (timestamp : TransitionTimestamp)
    : result ResumePolicyPlan :=
  let directives := dict_of od_attempt_id (iv_operator_decisions i) in
  let stop reason := _stop_plan x (Some Policy_OPERATOR_DECISION) ambiguous pending timestamp reason in
  if negb (bool_decide (dom directives =@{gset str} list_to_set (map ri_attempt_id ambiguous)))
  then stop (u "operator_decision_set_is_incomplete")
  else
    match mapM (fun item => directives !! ri_attempt_id item) ambiguous with
    | None => Raise KeyError
    | Some selected =>
      if iv_noninteractive i && existsb (fun d => negb (od_signed_policy_verified d)) selected
      then stop (u "noninteractive_operator_policy_is_unsigned")
      else
        let! decisions := map_result (fun '(item, d) => _operator_decision_for x item d timestamp)
          (zip ambiguous selected) in
        let unresolved := existsb (fun d => bool_decide (od_verdict d = Operator_STILL_UNKNOWN)) selected in
        let '(runnable, linked) := _partition_linked_schedule pending ambiguous in
        let category := if unresolved then Some Category_AMBIGUOUS else None in
        validate_policy_plan
          {| pp_run_id := rp_run_id (rx_recovery_plan x); pp_owner_epoch := rp_owner_epoch (rx_recovery_plan x);
             pp_requested_policy := Some Policy_OPERATOR_DECISION; pp_effective_policy := Policy_OPERATOR_DECISION;
             pp_disposition := if unresolved then Resume_STOP_AMBIGUOUS else Resume_CONTINUE;
             pp_result_category := category;
             pp_exit_code := option_map (fun c => (exit_for_result c).2) category;
             pp_ambiguous_attempt_ids := map ri_attempt_id ambiguous; pp_decisions := decisions;
             pp_redeliveries := []; pp_observations := [];
             pp_runnable_schedule := if unresolved then [] else runnable;
             pp_deferred_schedule := if unresolved then pending else linked |}
    end.

(** ** Redelivery *)

Definition _is_redeliverable (i : AttemptRecoveryItem) : bool :=
  bool_decide (ri_prior_state i = Attempt_UNKNOWN_OUTCOME)
  || bool_decide (ri_target_state i = Some Attempt_UNKNOWN_OUTCOME).

Fixpoint block_reason (ambiguous : list AttemptRecoveryItem) (templates : gmap (str * str) RedeliveryTemplate)
    : option str :=
  match ambiguous with
  | [] => None
  | item :: rest =>
    if negb (_is_redeliverable item) then Some (u "ambiguity_is_not_a_terminal_unknown_outcome")
    else
      match templates !! item_scope item with
      | None => Some (u "scenario_redelivery_authorization_is_missing")
      | Some template =>
        if negb (bool_decide (rt_scenario_id template = ri_scenario_id item))
           || negb (bool_decide (rt_event_id template = ri_event_id item))
           || negb (bool_decide (rt_delivery_id template = ri_delivery_id item))
        then Some (u "scenario_redelivery_authorization_identity_mismatch")
        else block_reason rest templates
      end
  end.
Definition _redelivery_block_reason (ambiguous : list AttemptRecoveryItem)
    (templates : gmap (str * str) RedeliveryTemplate) : option str :=
  if negb (bool_decide (NoDup (map item_scope ambiguous)))
  then Some (u "multiple_unresolved_attempts_share_one_delivery")
  else block_reason ambiguous templates.

(** The factory's answer, checked. *)
Definition _fresh_redelivery_id (answer : result str) (existing : gset str) : result str :=
  let! attempt_id :=
    match (let! attempt_id := answer in validate_fresh_id attempt_id (Some Fresh_ATTEMPT)) with
    | Raise TypeError | Raise ValueError => Raise ResumePolicyIntegrityError
    | r => r
    end in
  raise_if bool_decide (attempt_id ∈ existing) with ResumePolicyIntegrityError ;;
  Ok attempt_id.

Definition redelivery_condition (item : AttemptRecoveryItem) (attempt_id : str) (attempt_ordinal : Z)
    : list (str * json) :=
  [(u "attempt_id", JString attempt_id); (u "next_attempt_ordinal", JInt attempt_ordinal);
   (u "policy", JString (AmbiguityPolicy_value Policy_REDELIVER));
   (u "predecessor_attempt_id", JString (ri_attempt_id item))].

Definition _redelivery_from (x : ResumePolicyContext) (item : AttemptRecoveryItem) (template : RedeliveryTemplate)
    (attempt_id : str) : result RedeliveryAttemptPlan :=
  let attempt_ordinal := ri_attempt_ordinal item + 1 in
  raise_if (MAX_SAFE_INTEGER <? attempt_ordinal) with ResumePolicyResourceLimitError ;;
  let! schedule := validate_item
    {| schedule_entry_id := u "resume.redelivery." ++ attempt_id; entity_id := rt_attempt_plan_id template;
       logical_due_ns := rt_logical_due_ns template; scenario_ordinal := ri_scenario_ordinal item;
       step_ordinal := ri_step_ordinal item; delivery_ordinal := ri_delivery_ordinal item;
       attempt_ordinal := attempt_ordinal;
       deterministic_tie_key := rt_deterministic_tie_key template ++ u "." ++ attempt_id |} in
  validate_redelivery_plan
    {| rl_run_id := rp_run_id (rx_recovery_plan x); rl_scenario_id := ri_scenario_id item;
       rl_event_id := ri_event_id item; rl_delivery_id := ri_delivery_id item;
       rl_predecessor_attempt_id := ri_attempt_id item; rl_attempt_id := attempt_id;
       rl_attempt_plan_id := rt_attempt_plan_id template; rl_attempt_ordinal := attempt_ordinal;
       rl_schedule_item := schedule; rl_schedule_idempotency_key := u "resume.redelivery.schedule." ++ attempt_id;
       rl_condition_json := ascii_bytes (json_dumps (JObject (redelivery_condition item attempt_id attempt_ordinal))) |}.

Section engine.
Context (fresh_attempt_id : nat -> result str).

(** The loop of [_authorized_redelivery_plan]; [call] counts the factory's calls. *)
Fixpoint redeliver_each (x : ResumePolicyContext) (templates : gmap (str * str) RedeliveryTemplate) (call : nat)
    (existing schedule_ids : gset str) (ambiguous : list AttemptRecoveryItem) : result (list RedeliveryAttemptPlan) :=
  match ambiguous with
  | [] => Ok []
  | item :: rest =>
    match templates !! item_scope item with
    | None => Raise KeyError
    | Some template =>
      let! attempt_id := _fresh_redelivery_id (fresh_attempt_id call) existing in
      let! redelivery := _redelivery_from x item template attempt_id in
      let id := schedule_entry_id (rl_schedule_item redelivery) in
      raise_if bool_decide (id ∈ schedule_ids) with ResumePolicyIntegrityError ;;
      let! later := redeliver_each x templates (S call) ({[attempt_id]} ∪ existing) ({[id]} ∪ schedule_ids) rest in
      Ok (redelivery :: later)
    end
  end.

Definition _authorized_redelivery_plan (x : ResumePolicyContext) (ambiguous : list AttemptRecoveryItem)
    (pending : list ScheduleItem) (s : PersistedScheduleSnapshot) (timestamp : TransitionTimestamp)
    (templates : gmap (str * str) RedeliveryTemplate) : result ResumePolicyPlan :=
  let existing := list_to_set (map ri_attempt_id (rp_attempts (rx_recovery_plan x))) in
  let schedule_ids := list_to_set (map schedule_entry_id (ps_entries s)) ∪ ps_consumed_entry_ids s in
  let! redeliveries := redeliver_each x templates 0 existing schedule_ids ambiguous in
  raise_if (MAX_POLICY_ITEMS <? zlen pending + zlen redeliveries) with ResumePolicyResourceLimitError ;;
  let '(runnable, deferred) := _partition_linked_schedule pending ambiguous in
  let! decisions := map_result (fun '(item, redelivery) =>
    let! evidence := validate_evidence_reference
      {| ref_evidence_kind := u "attempt"; ref_evidence_id := rl_attempt_id redelivery |} in
    _decision_for x item Policy_REDELIVER Decision_REDELIVERY_CREATED
      (u "explicit_bundle_and_invocation_redelivery") timestamp [evidence] None None) (zip ambiguous redeliveries) in
  validate_policy_plan
    {| pp_run_id := rp_run_id (rx_recovery_plan x); pp_owner_epoch := rp_owner_epoch (rx_recovery_plan x);
       pp_requested_policy := Some Policy_REDELIVER; pp_effective_policy := Policy_REDELIVER;
       pp_disposition := Resume_CONTINUE; pp_result_category := None; pp_exit_code := None;
       pp_ambiguous_attempt_ids := map ri_attempt_id ambiguous; pp_decisions := decisions;
       pp_redeliveries := redeliveries; pp_observations := [];
       pp_runnable_schedule := py_sorted order_key (runnable ++ map rl_schedule_item redeliveries);
       pp_deferred_schedule := deferred |}.

Definition _redelivery_plan (x : ResumePolicyContext) (bundle : BundleRecoveryPolicy)
    (ambiguous : list AttemptRecoveryItem) (pending : list ScheduleItem) (s : PersistedScheduleSnapshot)
    (timestamp : TransitionTimestamp) : result ResumePolicyPlan :=
  let templates := dict_of (fun t => (rt_scenario_id t, rt_delivery_id t)) (bp_redelivery_templates bundle) in
  match _redelivery_block_reason ambiguous templates with
  | Some reason => _stop_plan x (Some Policy_REDELIVER) ambiguous pending timestamp reason
  | None => _authorized_redelivery_plan x ambiguous pending s timestamp templates
  end.

Definition build_plan (x : ResumePolicyContext) (bundle : BundleRecoveryPolicy) (i : ResumeInvocationPolicy)
    (s : PersistedScheduleSnapshot) (timestamp : TransitionTimestamp) : result ResumePolicyPlan :=
  let! _ := _require_build_inputs timestamp in
  let! pending := _pending_schedule s in
  let ambiguous := unresolved_ambiguous_attempts (rx_recovery_plan x) in
  let! _ := _policy_item_limit ambiguous pending in
  let unambiguous := bool_decide (ambiguous = []) in
  if iv_cancel_requested i then
    if negb unambiguous
    then _stop_plan x (iv_on_ambiguous i) ambiguous pending timestamp (u "cancellation_preserved_unresolved_ambiguity")
    else _cancelled_plan x i pending
  else if unambiguous then _continue_without_ambiguity x i pending
  else
    match iv_on_ambiguous i with
    | None => _stop_plan x None ambiguous pending timestamp (u "default_stop")
    | Some Policy_STOP => _stop_plan x (Some Policy_STOP) ambiguous pending timestamp (u "explicit_stop")
    | Some Policy_OBSERVE => _observe_plan x bundle ambiguous pending timestamp
    | Some Policy_OPERATOR_DECISION => _operator_plan x i ambiguous pending timestamp
    | Some Policy_REDELIVER => _redelivery_plan x bundle ambiguous pending s timestamp
    end.

End engine.

(** ** Applying a plan *)

Record PolicyApplication := { pa_plan : ResumePolicyPlan; pa_commit_attempted : bool; pa_newly_committed : bool }.
Definition policy_idempotent_replay (a : PolicyApplication) : bool := pa_commit_attempted a && negb (pa_newly_committed a).

(** [ResumePolicyEngine.apply] with the answer of the journal adapter. *)
Definition apply_policy (plan : ResumePolicyPlan) (commit_policy : ResumePolicyPlan -> result bool)
    : result PolicyApplication :=
  if negb (requires_journal_commit plan)
  then Ok {| pa_plan := plan; pa_commit_attempted := false; pa_newly_committed := false |}
  else
    let! committed := commit_policy plan in
    Ok {| pa_plan := plan; pa_commit_attempted := true; pa_newly_committed := committed |}.

Definition reconstruct_queue (plan : ResumePolicyPlan) : result PersistentPriorityQueue :=
  as_policy_integrity (reconstruct (pp_runnable_schedule plan) ∅ MAX_POLICY_ITEMS).

Definition due_schedule (plan : ResumePolicyPlan) (logical_now_ns limit : Z) : result (list ScheduleItem) :=
  let! q := reconstruct_queue plan in
  due q logical_now_ns limit.
