(* ===== verification/ResumeSafety.v ===== *)
(** * What a resumed run may do

    Theorems on [Policy]: a delivery is repeated only when both the bundle and the invocation ask for
    it, work of a delivery whose effect is unknown never runs by itself, every pending entry is
    either runnable or held back, and the condition of a redelivery is one the journal's claim
    accepts. *)

From S2P Require Import Prelude Sha256 Text Identifiers Domain Clocks Queue Commands Json Journal JsonFlat Retries Verdicts Demo Recovery RecoveryScan Policy.

Local Open Scope Z_scope.

(** ** Constructors return what they check *)

Lemma policy_plan_id p r : validate_policy_plan p = Ok r -> r = p.
Proof. unfold validate_policy_plan. intros H. do 4 py_step H. by injection H. Qed.

Lemma validate_item_id i j : validate_item i = Ok j -> j = i.
Proof. unfold validate_item. intros H. do 5 py_step H. by injection H. Qed.

Lemma redelivery_plan_id p r : validate_redelivery_plan p = Ok r -> r = p.
Proof. unfold validate_redelivery_plan. intros H. do 12 py_step H. by injection H. Qed.

Lemma stop_plan_shape x requested ambiguous pending ts reason plan :
  _stop_plan x requested ambiguous pending ts reason = Ok plan ->
  pp_disposition plan = Resume_STOP_AMBIGUOUS /\ pp_effective_policy plan = Policy_STOP /\
  pp_result_category plan = Some Category_AMBIGUOUS /\ pp_exit_code plan = Some (exit_for_result Category_AMBIGUOUS).2 /\
  pp_redeliveries plan = [] /\ pp_observations plan = [] /\ pp_runnable_schedule plan = [] /\
  pp_deferred_schedule plan = pending /\ pp_ambiguous_attempt_ids plan = map ri_attempt_id ambiguous.
Proof. unfold _stop_plan. intros H. py_step H. apply policy_plan_id in H as ->. done. Qed.

(** ** Redeliveries *)


Lemma dict_of_some {K V} `{EqDecision K, Countable K} (key : V -> K) items k v :
  dict_of key items !! k = Some v -> v ∈ items /\ key v = k.
Proof.
  unfold dict_of. induction items as [|x items IH] using rev_ind; simpl; [by rewrite lookup_empty|].
  rewrite fold_left_app. simpl. intros [[<- <-]|[_ Hl]]%lookup_insert_Some.
  - split; [|done]. apply elem_of_app. right. apply list_elem_of_here.
  - destruct (IH Hl). split; [apply elem_of_app; by left|done].
Qed.

(** A redelivery of an attempt, authorised by a template of the bundle. *)
Definition redelivers (bundle : BundleRecoveryPolicy) (i : AttemptRecoveryItem) (r : RedeliveryAttemptPlan) : Prop :=
  exists t, t ∈ bp_redelivery_templates bundle /\
    rt_scenario_id t = ri_scenario_id i /\ rt_event_id t = ri_event_id i /\ rt_delivery_id t = ri_delivery_id i /\
    _is_redeliverable i = true /\ rl_predecessor_attempt_id r = ri_attempt_id i /\
    rl_scenario_id r = ri_scenario_id i /\ rl_event_id r = ri_event_id i /\ rl_delivery_id r = ri_delivery_id i /\
    rl_attempt_plan_id r = rt_attempt_plan_id t /\ rl_attempt_ordinal r = ri_attempt_ordinal i + 1 /\
    schedule_scope (rl_schedule_item r) = attempt_scope i /\
    rl_condition_json r = ascii_bytes (json_dumps (JObject (redelivery_condition i (rl_attempt_id r) (rl_attempt_ordinal r)))).

Lemma block_reason_none ambiguous templates i :
  block_reason ambiguous templates = None -> i ∈ ambiguous ->
  _is_redeliverable i = true /\ exists t, templates !! item_scope i = Some t /\
    rt_scenario_id t = ri_scenario_id i /\ rt_event_id t = ri_event_id i /\ rt_delivery_id t = ri_delivery_id i.
Proof.
  induction ambiguous as [|x rest IH]; [by intros _ ?%elem_of_nil|]. simpl. intros H.
  destruct (negb (_is_redeliverable x)) eqn:E1; [done|]. destruct (templates !! item_scope x) as [t|] eqn:Et; [|done].
  destruct (_ || _ || _) eqn:E2; [done|]. rewrite !orb_false_iff, !negb_bool_decide_false in E2.
  intros [->|Hi]%elem_of_cons; [|by apply IH]. apply negb_false_iff in E1. naive_solver.
Qed.

Lemma redelivery_shape x item template id r :
  _redelivery_from x item template id = Ok r ->
  rl_run_id r = rp_run_id (rx_recovery_plan x) /\ rl_scenario_id r = ri_scenario_id item /\
  rl_event_id r = ri_event_id item /\ rl_delivery_id r = ri_delivery_id item /\
  rl_predecessor_attempt_id r = ri_attempt_id item /\ rl_attempt_id r = id /\
  rl_attempt_plan_id r = rt_attempt_plan_id template /\ rl_attempt_ordinal r = ri_attempt_ordinal item + 1 /\
  schedule_scope (rl_schedule_item r) = attempt_scope item /\
  schedule_entry_id (rl_schedule_item r) = u "resume.redelivery." ++ id /\
  rl_condition_json r = ascii_bytes (json_dumps (JObject (redelivery_condition item id (ri_attempt_ordinal item + 1)))) /\
  validate_redelivery_plan r = Ok r /\ validate_item (rl_schedule_item r) = Ok (rl_schedule_item r).
Proof.
  unfold _redelivery_from. intros H. do 2 py_step H. apply validate_item_id in E0 as Heq. subst a.
  apply redelivery_plan_id in H as Heq. subst r. do 11 (split; [reflexivity|]). split; [exact H|exact E0].
Qed.

Lemma redeliver_each_spec fresh x templates call existing schedule_ids ambiguous rs :
  redeliver_each fresh x templates call existing schedule_ids ambiguous = Ok rs ->
  Forall2 (fun i r => exists t, templates !! item_scope i = Some t /\ _redelivery_from x i t (rl_attempt_id r) = Ok r)
    ambiguous rs /\
  NoDup (map rl_attempt_id rs) /\ Forall (fun r => rl_attempt_id r ∉ existing) rs /\
  NoDup (map (fun r => schedule_entry_id (rl_schedule_item r)) rs) /\
  Forall (fun r => schedule_entry_id (rl_schedule_item r) ∉ schedule_ids) rs.
Proof.
  revert call existing schedule_ids rs. induction ambiguous as [|i rest IH]; intros call existing schedule_ids rs; simpl.
  - intros [= <-]. split_and!; constructor.
  - destruct (templates !! item_scope i) as [t|] eqn:Et; [|done]. intros H. do 4 py_step H. injection H as <-.
    rename a into id, a0 into r, a1 into later. unfold _fresh_redelivery_id in E. do 2 py_step E. injection E as ->.
    apply bool_decide_eq_false in E1, E4. destruct (redelivery_shape _ _ _ _ _ E0) as (_ & _ & _ & _ & _ & Hid & _ & _ & _ & _).
    destruct (IH _ _ _ _ E2) as (HF & Hn & Hf & Hs & Hg). simpl. rewrite !list.Forall_forall in *. split_and!.
    + constructor; [|done]. exists t. by rewrite Hid.
    + constructor; [|done]. intros (r' & Heq & Hr')%list_elem_of_fmap. apply (Hf _ Hr'). set_solver.
    + intros r' [->|Hr']%elem_of_cons; [by rewrite Hid|]. specialize (Hf _ Hr'). set_solver.
    + constructor; [|done]. intros (r' & Heq & Hr')%list_elem_of_fmap. apply (Hg _ Hr'). set_solver.
    + intros r' [->|Hr']%elem_of_cons; [done|]. specialize (Hg _ Hr'). set_solver.
Qed.

(** ** The four kinds of plan *)

Section plan.
Context (fresh : nat -> result str) (x : ResumePolicyContext) (bundle : BundleRecoveryPolicy).
Context (i : ResumeInvocationPolicy) (s : PersistedScheduleSnapshot) (ts : TransitionTimestamp).

Let ambiguous := unresolved_ambiguous_attempts (rx_recovery_plan x).
Let templates := dict_of (fun t => (rt_scenario_id t, rt_delivery_id t)) (bp_redelivery_templates bundle).

Inductive plan_kind (pending : list ScheduleItem) (plan : ResumePolicyPlan) : Prop :=
  | plan_held :
      pp_disposition plan <> Resume_CONTINUE -> pp_redeliveries plan = [] ->
      pp_runnable_schedule plan = [] -> pp_deferred_schedule plan = pending -> plan_kind pending plan
  | plan_clear :
      ambiguous = [] -> pp_disposition plan = Resume_CONTINUE -> pp_redeliveries plan = [] ->
      pp_runnable_schedule plan = pending -> pp_deferred_schedule plan = [] -> plan_kind pending plan
  | plan_operator :
      iv_on_ambiguous i = Some Policy_OPERATOR_DECISION -> iv_cancel_requested i = false ->
      pp_disposition plan = Resume_CONTINUE -> pp_redeliveries plan = [] ->
      (pp_runnable_schedule plan, pp_deferred_schedule plan) = _partition_linked_schedule pending ambiguous ->
      plan_kind pending plan
  | plan_redelivery runnable :
      iv_on_ambiguous i = Some Policy_REDELIVER -> iv_cancel_requested i = false ->
      pp_disposition plan = Resume_CONTINUE -> block_reason ambiguous templates = None ->
      redeliver_each fresh x templates 0 (list_to_set (map ri_attempt_id (rp_attempts (rx_recovery_plan x))))
        (list_to_set (map schedule_entry_id (ps_entries s)) ∪ ps_consumed_entry_ids s) ambiguous = Ok (pp_redeliveries plan) ->
      (runnable, pp_deferred_schedule plan) = _partition_linked_schedule pending ambiguous ->
      pp_runnable_schedule plan = py_sorted order_key (runnable ++ map rl_schedule_item (pp_redeliveries plan)) ->
      plan_kind pending plan.

Lemma stop_plan_held requested amb pending reason plan :
  _stop_plan x requested amb pending ts reason = Ok plan -> plan_kind pending plan.
Proof.
  intros (Hd & _ & _ & _ & Hr & _ & Hrun & Hdef & _)%stop_plan_shape. apply plan_held; try done. by rewrite Hd.
Qed.

Lemma build_plan_cases plan :
  build_plan fresh x bundle i s ts = Ok plan ->
  exists pending, _pending_schedule s = Ok pending /\ plan_kind pending plan.
Proof.
  unfold build_plan. intros H. do 3 py_step H. exists a0. split; [done|]. fold ambiguous in H. clear E E0 E1.
  destruct (iv_cancel_requested i) eqn:Hc.
  { destruct (negb _); [by eapply stop_plan_held|]. apply policy_plan_id in H as ->. by apply plan_held. }
  case_bool_decide as Hamb.
  { apply policy_plan_id in H as ->. by apply plan_clear. }
  destruct (iv_on_ambiguous i) as [[]|] eqn:Ho; try (by eapply stop_plan_held).
  - unfold _observe_plan in H. destruct (mapM _ _); [|by eapply stop_plan_held]. do 2 py_step H.
    apply policy_plan_id in H as ->. by apply plan_held.
  - unfold _redelivery_plan in H. fold templates in H. unfold _redelivery_block_reason in H.
    destruct (negb (bool_decide (NoDup _))); [by eapply stop_plan_held|].
    destruct (block_reason ambiguous templates) eqn:Eb; [by eapply stop_plan_held|].
    unfold _authorized_redelivery_plan in H. do 2 py_step H.
    destruct (_partition_linked_schedule a0 ambiguous) as [runnable deferred] eqn:Ep. py_step H.
    apply policy_plan_id in H as ->. by eapply (plan_redelivery _ _ runnable).
  - unfold _operator_plan in H. destruct (negb (bool_decide (dom _ = _))); [by eapply stop_plan_held|].
    destruct (mapM _ _) as [selected|]; [|done]. destruct (iv_noninteractive i && _); [by eapply stop_plan_held|].
    py_step H. destruct (_partition_linked_schedule a0 ambiguous) as [runnable deferred] eqn:Ep.
    destruct (existsb _ selected); apply policy_plan_id in H as ->; [by apply plan_held|by apply plan_operator].
Qed.

Lemma partition_perm pending runnable deferred :
  (runnable, deferred) = _partition_linked_schedule pending ambiguous ->
  runnable ++ deferred ≡ₚ pending /\
  Forall (fun e => schedule_scope e ∉ map attempt_scope ambiguous) runnable.
Proof.
  unfold _partition_linked_schedule. intros [= -> ->]. split.
  - induction pending as [|e pending IH]; [done|]. simpl. destruct (bool_decide _); simpl; [|by rewrite IH].
    rewrite <- Permutation_middle. by rewrite IH.
  - apply List.Forall_forall. intros e [_ He]%List.filter_In. by apply negb_true_iff, bool_decide_eq_false in He.
Qed.

End plan.

(** C12: Nothing is delivered again by itself. A plan that redelivers was asked for by the invocation
    and authorised, for each unresolved attempt, by a template of the bundle with the same
    scenario, event and delivery; each of those attempts ends, or is about to end, as an unknown
    outcome. The redeliveries answer the unresolved attempts one by one, under fresh attempt
    identifiers that are distinct and unused, as the next attempt of the same delivery. *)
Theorem redelivery_authorized fresh x bundle i s ts plan :
  build_plan fresh x bundle i s ts = Ok plan -> pp_redeliveries plan <> [] ->
  iv_on_ambiguous i = Some Policy_REDELIVER /\ iv_cancel_requested i = false /\
  Forall2 (redelivers bundle) (unresolved_ambiguous_attempts (rx_recovery_plan x)) (pp_redeliveries plan) /\
  NoDup (map rl_attempt_id (pp_redeliveries plan)) /\
  Forall (fun r => rl_attempt_id r ∉ map ri_attempt_id (rp_attempts (rx_recovery_plan x))) (pp_redeliveries plan).
Proof.
  intros (pending & _ & [| | |runnable Hon Hc _ Hb Hr _ _])%build_plan_cases Hne; try done.
  do 2 (split; [done|]). destruct (redeliver_each_spec _ _ _ _ _ _ _ _ Hr) as (HF & Hn & Hf & _). split_and!; [|done|].
  - apply Forall2_same_length_lookup. split; [by eapply Forall2_length|]. intros k item r Hi Hk.
    destruct (Forall2_lookup_lr _ _ _ _ _ _ HF Hi Hk) as (t & Ht & Hfrom).
    destruct (block_reason_none _ _ item Hb) as (Hred & t' & Ht' & E1 & E2 & E3); [by eapply list_elem_of_lookup_2|].
    rewrite Ht in Ht'. injection Ht' as <-. apply dict_of_some in Ht as [Hin _].
    apply redelivery_shape in Hfrom as (_ & G1 & G2 & G3 & G4 & _ & G5 & G6 & G7 & _ & G8 & _).
    exists t. rewrite G6. split_and!; try done.
  - apply (list.Forall_impl _ _ _ Hf). intros r Hnot Hin. apply Hnot. by apply elem_of_list_to_set.
Qed.

(** C13: No work is lost and none runs under ambiguity. The runnable and the deferred entries of a plan
    are together the pending entries of the persisted schedule and the entries of its
    redeliveries; an entry of a delivery with an unresolved attempt is runnable only as such a
    redelivery, and only a plan that continues has runnable entries at all. *)
Theorem schedule_partitioned fresh x bundle i s ts plan :
  build_plan fresh x bundle i s ts = Ok plan ->
  exists pending, _pending_schedule s = Ok pending /\
    pp_runnable_schedule plan ++ pp_deferred_schedule plan ≡ₚ pending ++ map rl_schedule_item (pp_redeliveries plan) /\
    (forall e, e ∈ pp_runnable_schedule plan ->
       schedule_scope e ∈ map attempt_scope (unresolved_ambiguous_attempts (rx_recovery_plan x)) ->
       e ∈ map rl_schedule_item (pp_redeliveries plan)) /\
    (pp_disposition plan <> Resume_CONTINUE -> pp_runnable_schedule plan = []).
Proof.
  intros (pending & Hp & Hk)%build_plan_cases. exists pending. split; [done|].
  destruct Hk as [Hd Hr Hrun Hdef|Ha Hd Hr Hrun Hdef|_ _ Hd Hr Hpart|runnable _ _ Hd _ _ Hpart Hrun].
  - rewrite Hr, Hrun, Hdef, app_nil_r. split_and!; [done| |done]. by intros e ?%elem_of_nil.
  - rewrite Hr, Hrun, Hdef, app_nil_r, Ha. split_and!; [by rewrite app_nil_r| |done]. by intros e _ ?%elem_of_nil.
  - rewrite Hr, app_nil_r. apply partition_perm in Hpart as [Hperm Hf]. split_and!; [done| |done].
    intros e He Hs. rewrite list.Forall_forall in Hf. by apply Hf in He.
  - apply partition_perm in Hpart as [Hperm Hf]. rewrite Hrun. split_and!; [| |done].
    + rewrite py_sorted_perm, <- Hperm. solve_Permutation.
    + intros e. rewrite elem_of_py_sorted, elem_of_app. rewrite list.Forall_forall in Hf. intros [He|He] Hs; [by apply Hf in He|done].
Qed.

(** ** The journal accepts a redelivery *)

(** The condition of a planned redelivery is canonical JSON that names its predecessor and its
    ordinal, so that the journal's schedule claim accepts it. *)
Theorem redelivery_accepted fresh x bundle i s ts plan r :
  build_plan fresh x bundle i s ts = Ok plan -> r ∈ pp_redeliveries plan ->
  _validate_retry_condition (rl_condition_json r) (rl_predecessor_attempt_id r) (rl_attempt_ordinal r) = Ok tt.
Proof.
  intros (pending & _ & [_ Hr|_ _ Hr|_ _ _ Hr|runnable _ _ _ _ Hr _ _])%build_plan_cases Hin;
    try (rewrite Hr in Hin; by apply elem_of_nil in Hin).
  destruct (redeliver_each_spec _ _ _ _ _ _ _ _ Hr) as (HF & _). apply list_elem_of_lookup in Hin as [k Hk].
  destruct (Forall2_lookup_r _ _ _ _ _ HF Hk) as (item & _ & t & _ & Hfrom).
  apply redelivery_shape in Hfrom as (_ & _ & _ & _ & Hpred & _ & _ & Hord & _ & _ & Hcond & Hv & _).
  rewrite Hcond, Hpred, <- Hord. unfold validate_redelivery_plan in Hv. do 9 py_step Hv.
  apply fresh_id_chars, id_plain in E3, E4. rewrite Hpred in E3. unfold _nonnegative_integer in E7. py_step E7.
  apply negb_false_iff, within_spec in E8.
  apply flat_condition_accepted; [..|vm_compute; reflexivity|reflexivity|reflexivity].
  - repeat (apply List.Forall_cons; [split; [vm_compute; reflexivity|]|]); [..|apply List.Forall_nil]; cbn [snd].
    + exact E4.
    + apply safe_int_scalar, within_spec. unfold MAX_SAFE_INTEGER in *. lia.
    + vm_compute. reflexivity.
    + exact E3.
  - repeat constructor; vm_compute; discriminate.
  - apply (bool_decide_eq_true_1 _). vm_compute. reflexivity.
  - done.
Qed.

(** ** The worked run, resumed

    Stopped while awaiting the response, with one more entry of the same delivery and one of another
    delivery pending. *)

Definition demo_recovery_plan : RecoveryPlan :=
  Eval vm_compute in
  match scan (crashed 7) demo_context with
  | Ok plan => plan
  | Raise _ => {| rp_run_id := []; rp_owner_epoch := 0; rp_run_state := Run_RUNNING; rp_attempts := []; rp_observations := [] |}
  end.
Definition demo_policy_context : ResumePolicyContext :=
  {| rx_scan_context := demo_context; rx_recovery_plan := demo_recovery_plan |}.
Definition demo_pending (id : str) (delivery : Z) : ScheduleItem :=
  {| schedule_entry_id := id; entity_id := demo_plan; logical_due_ns := 60; scenario_ordinal := 0; step_ordinal := 1;
     delivery_ordinal := delivery; attempt_ordinal := 2; deterministic_tie_key := u "tie" |}.
Definition demo_snapshot : PersistedScheduleSnapshot :=
  {| ps_entries := [demo_pending (u "linked") 2; demo_pending (u "other") 3]; ps_consumed_entry_ids := ∅ |}.
Definition demo_bundle : BundleRecoveryPolicy :=
  {| bp_redelivery_templates :=
       [{| rt_scenario_id := demo_scenario; rt_event_id := demo_event; rt_delivery_id := demo_delivery;
           rt_attempt_plan_id := demo_plan; rt_logical_due_ns := 50; rt_deterministic_tie_key := u "again" |}];
     bp_observation_rules := [] |}.
Definition demo_invocation (policy : option AmbiguityPolicy) : ResumeInvocationPolicy :=
  {| iv_on_ambiguous := policy; iv_noninteractive := true; iv_cancel_requested := false; iv_operator_decisions := [] |}.
Definition demo_fresh (_ : nat) : result str := Ok (u "attempt_01ARZ3NDEKTSV4RRFFQ69G5FAW").

Definition demo_resume (policy : option AmbiguityPolicy) : result ResumePolicyPlan :=
  build_plan demo_fresh demo_policy_context demo_bundle (demo_invocation policy) demo_snapshot (demo_time 60).

Lemma redelivery_authorized_witness :
  exists plan, demo_resume (Some Policy_REDELIVER) = Ok plan /\ length (pp_redeliveries plan) = 1%nat /\
    Forall2 (redelivers demo_bundle) (unresolved_ambiguous_attempts demo_recovery_plan) (pp_redeliveries plan).
Proof.
  assert (match demo_resume (Some Policy_REDELIVER) with Ok p => length (pp_redeliveries p) | Raise _ => 0%nat end = 1%nat)
    as Hlen by (vm_compute; reflexivity).
  destruct (demo_resume (Some Policy_REDELIVER)) as [plan|] eqn:Hp; [|discriminate Hlen].
  exists plan. split; [reflexivity|]. split; [exact Hlen|].
  refine (proj1 (proj2 (proj2 (redelivery_authorized demo_fresh demo_policy_context demo_bundle
    (demo_invocation (Some Policy_REDELIVER)) demo_snapshot (demo_time 60) plan Hp _)))).
  intros Hnil. rewrite Hnil in Hlen. discriminate Hlen.
Defined.

Lemma schedule_partitioned_witness :
  exists plan pending, demo_resume (Some Policy_REDELIVER) = Ok plan /\ _pending_schedule demo_snapshot = Ok pending /\
    map schedule_entry_id (pp_deferred_schedule plan) = [u "linked"] /\
    pp_runnable_schedule plan ++ pp_deferred_schedule plan ≡ₚ pending ++ map rl_schedule_item (pp_redeliveries plan).
Proof.
  assert (match demo_resume (Some Policy_REDELIVER) with
          | Ok p => map schedule_entry_id (pp_deferred_schedule p) | Raise _ => [] end = [u "linked"])
    as Hdef by (vm_compute; reflexivity).
  destruct (demo_resume (Some Policy_REDELIVER)) as [plan|] eqn:Hp; [|discriminate Hdef].
  destruct (schedule_partitioned demo_fresh demo_policy_context demo_bundle (demo_invocation (Some Policy_REDELIVER))
    demo_snapshot (demo_time 60) plan Hp) as (pending & Hpend & Hperm & _).
  exists plan, pending. split; [reflexivity|]. split; [exact Hpend|]. split; [exact Hdef|exact Hperm].
Defined.

Lemma redelivery_accepted_witness :
  exists plan r, demo_resume (Some Policy_REDELIVER) = Ok plan /\ r ∈ pp_redeliveries plan /\
    _validate_retry_condition (rl_condition_json r) (rl_predecessor_attempt_id r) (rl_attempt_ordinal r) = Ok tt.
Proof.
  assert (match demo_resume (Some Policy_REDELIVER) with Ok p => length (pp_redeliveries p) | Raise _ => 0%nat end = 1%nat)
    as Hlen by (vm_compute; reflexivity).
  destruct (demo_resume (Some Policy_REDELIVER)) as [plan|] eqn:Hp; [|discriminate Hlen].
  destruct (pp_redeliveries plan) as [|r rest] eqn:Hr; [discriminate Hlen|].
  exists plan, r. rewrite Hr. split; [reflexivity|]. split; [left|].
  apply (redelivery_accepted demo_fresh demo_policy_context demo_bundle (demo_invocation (Some Policy_REDELIVER))
    demo_snapshot (demo_time 60) plan r Hp). rewrite Hr. left.
Defined.
