(* ===== verification/ResumeTotal.v ===== *)
(** * A resume plan is always found

    Without redelivery, whose fresh identifiers come from outside, planning cannot fail: whatever the
    interrupted run left and whatever the invocation asks, the engine returns a plan that passes
    its own checks, and the scheduler rebuilds its queue from it in the same order. *)

From S2P Require Import Prelude Sha256 Text Identifiers Domain Clocks Queue Commands Json JsonFlat Retries Verdicts Demo Recovery RecoveryTotal Policy ResumeSafety.

Local Open Scope Z_scope.

Lemma bool_filter_sublist {A} (f : A -> bool) l : sublist (List.filter f l) l.
Proof. induction l as [|a l IH]; [done|]. simpl. destruct (f a); by constructor. Qed.

(** ** The schedule *)

Lemma reconstruct_fits l consumed n :
  NoDup (map schedule_entry_id l) -> 1 <= n <= MAX_SCHEDULE_ITEMS -> zlen l <= n ->
  exists q, reconstruct l consumed n = Ok q.
Proof.
  intros Hn Hb Hl. unfold reconstruct, make_queue. rewrite (proj2 (within_spec 1 MAX_SCHEDULE_ITEMS n)) by done. simpl.
  set (q0 := Build_PersistentPriorityQueue _ _ _).
  assert (_maximum_items q0 = n /\ queue_len q0 + zlen l <= n /\ (forall i, i ∈ l -> _entries q0 !! schedule_entry_id i = None))
    as (Hm & Hs & He) by (split_and!; [done|unfold queue_len; simpl; rewrite map_size_empty; lia|intros; apply lookup_empty]).
  clearbody q0. clear Hl. revert q0 Hm Hs He. induction l as [|e l IH]; intros q Hm Hs He; [by eexists|]. simpl.
  simpl in Hn. apply list.NoDup_cons in Hn as [Hne Hn]. unfold zlen in *. simpl in Hs.
  unfold reconstruct_step at 1. case_bool_decide as Hc.
  - apply IH; [done..|lia|]. intros i Hi. apply He. by right.
  - unfold add, validate_add. rewrite (He e (list_elem_of_here _ _)).
    rewrite (proj2 (Z.leb_gt _ _)) by lia. simpl. apply IH; simpl; [done..| |].
    + unfold queue_len in *. simpl. rewrite map_size_insert_None by apply He, list_elem_of_here. lia.
    + intros i Hi. rewrite lookup_insert_ne; [apply He; by right|]. intros Heq. apply Hne. rewrite Heq.
      by apply list_elem_of_fmap_2.
Qed.

Lemma snapshot_ids q : queue_inv q -> NoDup (map schedule_entry_id (snapshot q)).
Proof.
  intros Hq. unfold snapshot. rewrite py_sorted_perm. unfold values.
  assert (map schedule_entry_id (map snd (map_to_list (_entries q))) = map fst (map_to_list (_entries q))) as ->.
  { rewrite map_map. apply map_ext_in. intros [id e] Hin. apply (inv_keyed _ Hq).
    by apply elem_of_map_to_list, list_elem_of_In. }
  apply NoDup_fst_map_to_list.
Qed.

Lemma snapshot_length q : zlen (snapshot q) = queue_len q.
Proof. unfold snapshot, zlen, queue_len. rewrite py_sorted_perm. unfold values. by rewrite length_map, length_map_to_list. Qed.

(** A queue rebuilt from a sorted schedule with distinct identifiers lists it unchanged. *)
Lemma reconstruct_sorted l n :
  NoDup (map schedule_entry_id l) -> 1 <= n <= MAX_SCHEDULE_ITEMS -> zlen l <= n -> StronglySorted (key_le order_key) l ->
  exists q, reconstruct l ∅ n = Ok q /\ snapshot q = l.
Proof.
  intros Hn Hb Hl Hs. destruct (reconstruct_fits l ∅ n Hn Hb Hl) as [q Hq]. exists q. split; [done|].
  destruct (reconstruct_ok _ _ _ _ Hq) as (Hinv & _ & Hi). apply (sorted_unique order_key).
  - intros a b Ha Hb' Hk. unfold snapshot in *. rewrite elem_of_py_sorted in Ha, Hb'. by apply (values_key_inj q).
  - apply NoDup_Permutation.
    + eapply NoDup_fmap_1, snapshot_ids, Hinv.
    + eapply NoDup_fmap_1, Hn.
    + intros e. rewrite elem_of_snapshot by done. rewrite Hi. set_solver.
  - apply snapshot_sorted.
  - done.
Qed.

(** ** Field checks *)

Lemma epoch_text epoch :
  within 0 MAX_OWNER_EPOCH epoch = true -> forallb is_token_char (str_of_int epoch) = true /\ zlen (str_of_int epoch) <= 19.
Proof.
  intros He%within_spec. destruct (str_of_int_cases epoch) as [[-> ->]|(d & Hd & Hv & ->)]; [done|].
  rewrite (proj2 (Z.ltb_ge epoch 0)) by lia. split.
  - destruct Hd as [Hd _]. apply List.forallb_forall. intros c Hc. rewrite List.forallb_forall in Hd.
    unfold is_token_char. rewrite (Hd c Hc). by rewrite !orb_true_r.
  - pose proof (length_decimal d Hd) as Hl. rewrite Hv, Z.abs_eq in Hl by lia.
    destruct (Z.le_gt_cases (zlen d) 19); [done|]. exfalso. unfold MAX_OWNER_EPOCH in He.
    assert (10 ^ 19 <= 10 ^ (zlen d - 1)) by (apply Z.pow_le_mono_r; lia). lia.
Qed.

Lemma crockford_token_char d : is_digit 5 d -> is_token_char (crockford_char d) = true.
Proof.
  intros Hd. assert (Forall (fun d => is_token_char (crockford_char d) = true) (seqZ 0 32)) as HF
    by (vm_compute; repeat constructor).
  rewrite list.Forall_forall in HF. apply HF, elem_of_seqZ. unfold is_digit in Hd. change (2 ^ 5) with 32 in Hd. lia.
Qed.

Lemma planned_id_token v k v' : validate_planned_id v k = Ok v' -> is_token v 96 = true.
Proof.
  unfold validate_planned_id, parse_planned_id. intros H. py_step H.
  assert (forall k, forallb is_token_char (PlannedIdKind_value k) = true) as Hk by (intros []; reflexivity).
  destruct (parse_kinds_chars is_token_char crockford_token_char eq_refl _ _ _ _ Hk E) as (Hc & kind & Hl).
  assert (1 <= length (PlannedIdKind_value kind) <= 12)%nat by (destruct kind; vm_compute; lia).
  unfold is_token, len_within. rewrite Hc. apply andb_true_iff. split; [|done]. apply andb_true_iff.
  split; apply Z.leb_le; lia.
Qed.

Lemma fresh_id_token v k v' : validate_fresh_id v k = Ok v' -> forallb is_token_char v = true /\ 28 <= zlen v <= 39.
Proof.
  unfold validate_fresh_id, parse_fresh_id. intros H. py_step H. py_step E.
  assert (forall k, forallb is_token_char (FreshIdKind_value k) = true) as Hk by (intros []; reflexivity).
  destruct (parse_kinds_chars is_token_char crockford_token_char eq_refl _ _ _ _ Hk E) as (Hc & kind & Hl). split; [done|].
  assert (1 <= length (FreshIdKind_value kind) <= 12)%nat by (destruct kind; vm_compute; lia). unfold zlen. lia.
Qed.

(** ** Decisions *)

(** A constructed item of a plan of the run. *)
Definition item_ok (i : AttemptRecoveryItem) : Prop := validate_recovery_item i = Ok i.

Lemma item_ids i :
  item_ok i -> is_ok (validate_planned_id (ri_scenario_id i) (Some Planned_SCENARIO)) = true /\
  is_ok (validate_planned_id (ri_delivery_id i) (Some Planned_DELIVERY)) = true /\
  is_ok (validate_fresh_id (ri_attempt_id i) (Some Fresh_ATTEMPT)) = true.
Proof. unfold item_ok, validate_recovery_item. intros H. by do 5 py_step H. Qed.

Lemma policy_value_token p : forallb is_token_char (AmbiguityPolicy_value p) = true /\ zlen (AmbiguityPolicy_value p) <= 17.
Proof. destruct p; (split; [reflexivity|]); vm_compute; discriminate. Qed.

Lemma elem_of_zip_map {A B C} (g : A * B -> C) (l : list A) (k : list B) a c :
  (a, c) ∈ zip l (map g (zip l k)) -> exists b, (a, b) ∈ zip l k /\ c = g (a, b).
Proof.
  revert k. induction l as [|x l IH]; intros [|y k]; simpl; try (by intros ?%elem_of_nil).
  intros [[= -> ->]|H]%elem_of_cons; [exists y; split; [left|done]|].
  destruct (IH _ H) as (b & Hb & ->). exists b. split; [by right|done].
Qed.

Section total.
Context (x : ResumePolicyContext) (ts : TransitionTimestamp).
Let plan_of := rx_recovery_plan x.
Context (Hlive : is_live ts = true) (Hrun : is_ok (validate_run_id (rp_run_id plan_of)) = true).
Context (Hepoch : within 0 MAX_OWNER_EPOCH (rp_owner_epoch plan_of) = true).

Lemma decision_id_token policy id v' :
  validate_fresh_id id (Some Fresh_ATTEMPT) = Ok v' ->
  is_token (u "resume." ++ str_of_int (rp_owner_epoch plan_of) ++ u "." ++ AmbiguityPolicy_value policy ++ u "." ++ id) 96 = true.
Proof.
  intros [Hc Hl]%fresh_id_token. destruct (epoch_text _ Hepoch) as [He Hel]. destruct (policy_value_token policy) as [Hp Hpl].
  unfold is_token, len_within. rewrite !forallb_app, He, Hp, Hc. unfold zlen in *. rewrite !length_app.
  change (length (u "resume.")) with 7%nat. change (length (u ".")) with 1%nat.
  rewrite (proj2 (Z.leb_le 1 _)), (proj2 (Z.leb_le _ 96)) by lia. reflexivity.
Qed.

Lemma decision_total item policy kind reason evidence fp dg :
  item_ok item -> is_ok (_bounded_text reason MAX_REASON_BYTES) = true ->
  zlen evidence <= MAX_EVIDENCE_REFERENCES -> NoDup evidence ->
  match fp, dg with
  | Some f, Some d => policy = Policy_OPERATOR_DECISION /\ is_sha256_digest f = true /\ is_sha256_digest d = true
  | _, _ => policy <> Policy_OPERATOR_DECISION
  end ->
  exists d, _decision_for x item policy kind reason ts evidence fp dg = Ok d /\ dc_run_id d = rp_run_id plan_of.
Proof.
  intros ([x1 H1]%is_ok_some & _ & [x2 H2]%is_ok_some)%item_ids [x3 H3]%is_ok_some Hl Hn Ho.
  unfold _decision_for. fold plan_of. match goal with |- context [validate_decision_plan ?d] => exists d end.
  split; [|reflexivity]. destruct (is_ok_some _ Hrun) as [x4 H4]. unfold validate_decision_plan.
  cbn [dc_decision_id dc_run_id dc_scenario_id dc_attempt_id dc_reason dc_timestamp dc_evidence].
  unfold _token. rewrite (decision_id_token _ _ _ H2). cbn [negb]. rewrite H4, H1, H2, H3, Hlive. cbn [negb].
  rewrite (proj2 (Z.ltb_ge _ _) Hl), bool_decide_true by done. cbn [negb]. unfold _validate_operator_fields.
  cbn [dc_policy dc_operator_identity_fingerprint dc_operator_input_digest]. unfold validate_sha256_digest.
  destruct fp as [f|], dg as [d|]; try (by rewrite bool_decide_false).
  destruct Ho as (-> & -> & ->). reflexivity.
Qed.

Lemma decisions_total {A} (body : A -> result RecoveryDecisionPlan) l :
  (forall a, a ∈ l -> exists d, body a = Ok d /\ dc_run_id d = rp_run_id plan_of) ->
  exists ds, map_result body l = Ok ds /\ length ds = length l /\
    existsb (fun d => negb (bool_decide (dc_run_id d = rp_run_id plan_of))) ds = false.
Proof.
  induction l as [|a l IH]; intros H; [by exists []|]. destruct (H a (list_elem_of_here _ _)) as (d & Hd & Hr).
  destruct IH as (ds & Hds & Hl & He); [intros b Hb; apply H; by right|]. exists (d :: ds). simpl. rewrite Hd, Hds.
  split; [done|]. split; [by rewrite Hl|]. by rewrite Hr, bool_decide_true, He.
Qed.

(** A plan without redeliveries passes its checks. *)
Lemma policy_plan_total p :
  pp_run_id p = rp_run_id plan_of -> pp_owner_epoch p = rp_owner_epoch plan_of -> _validate_plan_result p = Ok tt ->
  Forall (fun id => is_ok (validate_fresh_id id (Some Fresh_ATTEMPT)) = true) (pp_ambiguous_attempt_ids p) ->
  NoDup (pp_ambiguous_attempt_ids p) ->
  zlen (pp_decisions p) <= MAX_POLICY_ITEMS -> pp_redeliveries p = [] -> zlen (pp_observations p) <= MAX_POLICY_ITEMS ->
  zlen (pp_runnable_schedule p) + zlen (pp_deferred_schedule p) <= MAX_POLICY_ITEMS ->
  existsb (fun d => negb (bool_decide (dc_run_id d = rp_run_id plan_of))) (pp_decisions p) = false ->
  NoDup (map schedule_entry_id (pp_runnable_schedule p ++ pp_deferred_schedule p)) ->
  validate_policy_plan p = Ok p.
Proof.
  intros Er Ee Hres Hids Hnd Hd Hrd Hob Hs Hdr Hn. unfold validate_policy_plan. rewrite Er, Ee.
  destruct (is_ok_some _ Hrun) as [x4 ->]. unfold _nonnegative_integer. change (2 ^ 63 - 1) with MAX_OWNER_EPOCH.
  rewrite Hepoch. cbn [negb]. rewrite Hres. unfold _validate_policy_plan_collections.
  destruct (map_result_total (fun id => validate_fresh_id id (Some Fresh_ATTEMPT)) (pp_ambiguous_attempt_ids p)) as [r ->].
  { intros id Hid. rewrite list.Forall_forall in Hids. by apply is_ok_some, Hids. }
  unfold _unique_values. rewrite bool_decide_true by done. cbn [negb existsb]. rewrite Hrd, Er, Hdr.
  rewrite map_app in Hn. apply list.NoDup_app in Hn as (Hn1 & Hn2 & Hn3).
  rewrite !(bool_decide_true (NoDup _)) by done.
  assert (existsb (fun id => bool_decide (id ∈ map schedule_entry_id (pp_deferred_schedule p)))
    (map schedule_entry_id (pp_runnable_schedule p)) = false) as ->.
  { apply existsb_false, List.Forall_forall. intros id Hid%list_elem_of_In. apply bool_decide_eq_false. by apply Hn2. }
  assert (0 <= zlen (pp_runnable_schedule p) /\ 0 <= zlen (pp_deferred_schedule p)) as [? ?] by (unfold zlen; lia).
  change (zlen (@nil RedeliveryAttemptPlan)) with 0.
  rewrite !(proj2 (Z.ltb_ge MAX_POLICY_ITEMS _)) by (unfold MAX_POLICY_ITEMS, MAX_SCHEDULE_ITEMS in *; lia). reflexivity.
Qed.

Let ambiguous := unresolved_ambiguous_attempts plan_of.
Context (Hitems : Forall item_ok (rp_attempts plan_of)) (Hids : NoDup (map ri_attempt_id (rp_attempts plan_of))).
Context (Hlimit : zlen (rp_attempts plan_of) <= MAX_POLICY_ITEMS).

Lemma ambiguous_sublist : sublist ambiguous (rp_attempts plan_of).
Proof. apply bool_filter_sublist. Qed.

Lemma ambiguous_items i : i ∈ ambiguous -> item_ok i.
Proof. intros Hi. rewrite list.Forall_forall in Hitems. apply Hitems. by eapply elem_of_sublist, ambiguous_sublist. Qed.

Lemma ambiguous_length : zlen ambiguous <= MAX_POLICY_ITEMS.
Proof. pose proof (sublist_length _ _ ambiguous_sublist). unfold zlen in *. lia. Qed.

Lemma ambiguous_ids :
  NoDup (map ri_attempt_id ambiguous) /\
  Forall (fun id => is_ok (validate_fresh_id id (Some Fresh_ATTEMPT)) = true) (map ri_attempt_id ambiguous).
Proof.
  split; [eapply sublist_NoDup; [exact Hids|apply fmap_sublist, ambiguous_sublist]|].
  apply list.Forall_forall. intros id (i & -> & Hi)%list_elem_of_fmap. by apply ambiguous_items, item_ids in Hi as (_ & _ & ?).
Qed.

Context (pending : list ScheduleItem) (Hpids : NoDup (map schedule_entry_id pending)) (Hplen : zlen pending <= MAX_POLICY_ITEMS).

Lemma stop_total requested reason :
  is_ok (_bounded_text reason MAX_REASON_BYTES) = true -> exists plan, _stop_plan x requested ambiguous pending ts reason = Ok plan.
Proof.
  intros Hr. unfold _stop_plan. fold plan_of.
  destruct (decisions_total (fun item => _decision_for x item Policy_STOP Decision_STOPPED_AMBIGUOUS reason ts [] None None)
    ambiguous) as (ds & -> & Hl & He).
  { intros item Hi. apply decision_total; [by apply ambiguous_items|done|done|constructor|done]. }
  eexists. destruct ambiguous_ids as [Hn Hv]. apply policy_plan_total; cbn; try done.
  - unfold zlen in *. rewrite Hl. apply ambiguous_length.
Qed.

Lemma continue_total i : exists plan, _continue_without_ambiguity x i pending = Ok plan.
Proof.
  eexists. apply policy_plan_total; cbn; try done; try apply NoDup_nil_2.
  - unfold zlen in *. simpl. lia.
  - by rewrite app_nil_r.
Qed.

Lemma cancelled_total i : exists plan, _cancelled_plan x i pending = Ok plan.
Proof. eexists. apply policy_plan_total; cbn; try done; apply NoDup_nil_2. Qed.

Context (bundle : BundleRecoveryPolicy).
Context (Hrules : Forall (fun r => validate_observation_rule r = Ok r) (bp_observation_rules bundle)).

Lemma rule_fields r :
  validate_observation_rule r = Ok r ->
  is_ok (validate_planned_id (or_observation_id r) (Some Planned_OBSERVATION)) = true /\ or_assertion_ids r <> [] /\
  zlen (or_assertion_ids r) < MAX_EVIDENCE_REFERENCES /\ NoDup (or_assertion_ids r) /\
  Forall (fun a => is_ok (validate_planned_id a (Some Planned_ASSERTION)) = true) (or_assertion_ids r).
Proof.
  unfold validate_observation_rule. intros H. do 7 py_step H. apply bool_decide_eq_false in E2. apply Z.leb_gt in E3.
  apply negb_bool_decide_false in E5. split_and!; try done. apply map_result_ok in E4. clear -E4.
  induction E4 as [|a y l k Hy _ IH]; [constructor|]. constructor; [by rewrite Hy|done].
Qed.


Definition observation_of (p : AttemptRecoveryItem * ObservationReconciliationRule) : ObservationReconciliationPlan :=
  {| obp_attempt_id := ri_attempt_id p.1; obp_scenario_id := ri_scenario_id p.1; obp_delivery_id := ri_delivery_id p.1;
     obp_observation_id := or_observation_id p.2; obp_assertion_ids := or_assertion_ids p.2 |}.

Lemma selected_valid selected item rule :
  mapM (selected_rule (dict_of (fun r => (or_scenario_id r, or_delivery_id r)) (bp_observation_rules bundle))) ambiguous
    = Some selected -> (item, rule) ∈ zip ambiguous selected ->
  item_ok item /\ validate_observation_rule rule = Ok rule.
Proof.
  intros Hm Hin. apply mapM_Some in Hm. split; [by apply ambiguous_items; eapply elem_of_zip_l|].
  apply list_elem_of_lookup in Hin as [n Hn]. apply lookup_zip_Some in Hn as [Hi Hr].
  pose proof (Forall2_lookup_lr _ _ _ _ _ _ Hm Hi Hr) as Hs. unfold selected_rule in Hs.
  destruct (dict_of _ _ !! _) as [r|] eqn:Ed; [|done]. destruct (eligible_for_resume r); [|done]. injection Hs as <-.
  apply dict_of_some in Ed as [Ed _]. rewrite list.Forall_forall in Hrules. by apply Hrules.
Qed.

Lemma observation_evidence_total rule :
  validate_observation_rule rule = Ok rule ->
  let evidence := {| ref_evidence_kind := u "observation"; ref_evidence_id := or_observation_id rule |}
    :: map (fun a => {| ref_evidence_kind := u "assertion"; ref_evidence_id := a |}) (or_assertion_ids rule) in
  map_result validate_evidence_reference evidence = Ok evidence /\ zlen evidence <= MAX_EVIDENCE_REFERENCES /\ NoDup evidence.
Proof.
  intros ([o Ho]%is_ok_some & _ & Hl & Hn & Ha)%rule_fields. cbv zeta.
  assert (forall id kind, is_token id 96 = true -> kind = u "observation" \/ kind = u "assertion" ->
    validate_evidence_reference {| ref_evidence_kind := kind; ref_evidence_id := id |}
    = Ok {| ref_evidence_kind := kind; ref_evidence_id := id |}) as Href.
  { intros id kind Ht Hk. unfold validate_evidence_reference, _token. simpl. rewrite Ht. by destruct Hk as [-> | ->]. }
  split_and!.
  - rewrite (map_result_map _ (fun r => r)), map_id; [done|].
    intros r [->|(a & -> & Hin)%list_elem_of_fmap]%elem_of_cons; apply Href; auto.
    + by eapply planned_id_token.
    + rewrite list.Forall_forall in Ha. destruct (is_ok_some _ (Ha _ Hin)) as [y Hy]. by eapply planned_id_token.
  - unfold zlen in *. simpl. rewrite length_map. lia.
  - apply list.NoDup_cons. split.
    + intros (a & Heq & _)%list_elem_of_fmap. discriminate Heq.
    + apply NoDup_fmap_2; [|done]. by intros a b [=].
Qed.

Lemma observe_total : exists plan, _observe_plan x bundle ambiguous pending ts = Ok plan.
Proof.
  unfold _observe_plan. fold plan_of. destruct (mapM _ ambiguous) as [selected|] eqn:Hm; [|by apply stop_total].
  rewrite (map_result_map _ observation_of).
  2: { intros [item rule] Hin. destruct (selected_valid _ _ _ Hm Hin) as [Hi Hr].
    destruct (item_ids _ Hi) as ([x1 H1]%is_ok_some & [x2 H2]%is_ok_some & [x3 H3]%is_ok_some).
    destruct (rule_fields _ Hr) as ([x4 H4]%is_ok_some & Hne & _). unfold validate_observation_plan, observation_of. simpl.
    rewrite H1, H2, H3, H4. by rewrite bool_decide_false. }
  match goal with |- context [map_result ?f (zip ambiguous _)] =>
    destruct (decisions_total f (zip ambiguous (map observation_of (zip ambiguous selected)))) as (ds & -> & Hl & He) end.
  { intros [item obs] Hin. apply elem_of_zip_map in Hin as (rule & Hin & ->). destruct (selected_valid _ _ _ Hm Hin) as [Hi Hr].
    destruct (observation_evidence_total _ Hr) as (Hev & Hlen & Hnd). cbn [observation_of obp_observation_id obp_assertion_ids snd].
    rewrite Hev. apply decision_total; done. }
  eexists. destruct ambiguous_ids as [Hn Hv].
  assert (length selected = length ambiguous) as Hls by (apply mapM_Some, Forall2_length in Hm; done).
  pose proof ambiguous_length as Hal.
  apply policy_plan_total; cbn; try done; unfold zlen in *; rewrite ?Hl, ?length_zip, ?length_map, ?length_zip; lia.
Qed.

Context (i : ResumeInvocationPolicy).
Context (Hdirectives : Forall (fun d => validate_operator_directive d = Ok d) (iv_operator_decisions i)).

Lemma operator_decision_total item d :
  item_ok item -> validate_operator_directive d = Ok d ->
  exists p, _operator_decision_for x item d ts = Ok p /\ dc_run_id p = rp_run_id plan_of.
Proof.
  intros Hi Hd. unfold validate_operator_directive in Hd. do 7 py_step Hd. unfold _operator_decision_for.
  unfold validate_sha256_digest in E1, E2. py_step E1. py_step E2. apply negb_false_iff in E6, E7.
  apply negb_bool_decide_false in E5. apply Z.ltb_ge in E4. apply decision_total; try done. by rewrite E0.
Qed.

Lemma partition_fits runnable deferred :
  (runnable, deferred) = _partition_linked_schedule pending ambiguous ->
  zlen runnable + zlen deferred <= MAX_POLICY_ITEMS /\ NoDup (map schedule_entry_id (runnable ++ deferred)).
Proof.
  intros [Hp _]%partition_perm. split; [|by rewrite Hp]. unfold zlen in *. rewrite <- Nat2Z.inj_add, <- length_app. by rewrite Hp.
Qed.

Lemma operator_total : exists plan, _operator_plan x i ambiguous pending ts = Ok plan.
Proof.
  unfold _operator_plan. fold plan_of.
  destruct (negb (bool_decide (dom _ = _))) eqn:Ed; [by apply stop_total|]. apply negb_bool_decide_false in Ed.
  assert (is_Some (mapM (fun item => dict_of od_attempt_id (iv_operator_decisions i) !! ri_attempt_id item) ambiguous)) as [selected Hm].
  { apply mapM_is_Some, list.Forall_forall. intros item Hi. apply elem_of_dom. rewrite Ed, elem_of_list_to_set.
    by apply list_elem_of_fmap_2. }
  rewrite Hm. destruct (iv_noninteractive i && _); [by apply stop_total|].
  match goal with |- context [map_result ?f (zip ambiguous selected)] =>
    destruct (decisions_total f (zip ambiguous selected)) as (ds & -> & Hl & He) end.
  { intros [item d] Hin. apply operator_decision_total; [by apply ambiguous_items; eapply elem_of_zip_l|].
    apply mapM_Some in Hm. apply list_elem_of_lookup in Hin as [n Hn]. apply lookup_zip_Some in Hn as [Hi Hd].
    pose proof (Forall2_lookup_lr _ _ _ _ _ _ Hm Hi Hd) as Hs. apply dict_of_some in Hs as [Hs _].
    rewrite list.Forall_forall in Hdirectives. by apply Hdirectives. }
  destruct (_partition_linked_schedule pending ambiguous) as [runnable linked] eqn:Ep.
  destruct (partition_fits _ _ (eq_sym Ep)) as [Hsz Hnd]. destruct ambiguous_ids as [Hn Hv]. pose proof ambiguous_length as Hal.
  assert (length ds <= length ambiguous)%nat as Hdl by (rewrite Hl, length_zip; lia).
  destruct (existsb _ selected); eexists; apply policy_plan_total; cbn; try done; unfold zlen in *; simpl; lia.
Qed.

End total.

(** Inputs as their constructors and the scanner leave them. *)
Record resume_inputs (x : ResumePolicyContext) (bundle : BundleRecoveryPolicy) (i : ResumeInvocationPolicy)
    (s : PersistedScheduleSnapshot) (ts : TransitionTimestamp) : Prop := {
  in_live : is_live ts = true;
  in_plan : validate_recovery_plan (rx_recovery_plan x) = Ok (rx_recovery_plan x);
  in_items : Forall item_ok (rp_attempts (rx_recovery_plan x));
  in_limit : zlen (rp_attempts (rx_recovery_plan x)) <= MAX_RECOVERY_ITEMS;
  in_rules : Forall (fun r => validate_observation_rule r = Ok r) (bp_observation_rules bundle);
  in_directives : Forall (fun d => validate_operator_directive d = Ok d) (iv_operator_decisions i);
  in_schedule : validate_schedule_snapshot s = Ok s
}.

Lemma pending_total s :
  validate_schedule_snapshot s = Ok s ->
  exists pending, _pending_schedule s = Ok pending /\ NoDup (map schedule_entry_id pending) /\
    zlen pending <= MAX_POLICY_ITEMS /\ StronglySorted (key_le order_key) pending.
Proof.
  unfold validate_schedule_snapshot. intros H. do 2 py_step H. apply orb_false_iff in E as [Hl%Z.ltb_ge _].
  unfold _unique_values in E0. py_step E0. apply negb_bool_decide_false in E.
  destruct (reconstruct_fits (ps_entries s) (ps_consumed_entry_ids s) MAX_POLICY_ITEMS E) as [q Hq]; [done|done|].
  exists (snapshot q). unfold _pending_schedule. rewrite Hq. destruct (reconstruct_ok _ _ _ _ Hq) as (Hinv & Hm & _).
  split_and!; [done|by apply snapshot_ids| |apply snapshot_sorted].
  rewrite snapshot_length, <- Hm. apply (inv_bound _ Hinv).
Qed.

Lemma build_total fresh x bundle i s ts :
  resume_inputs x bundle i s ts -> iv_on_ambiguous i <> Some Policy_REDELIVER ->
  exists plan, build_plan fresh x bundle i s ts = Ok plan.
Proof.
  intros [Hlive Hplan Hitems Hlim Hrules Hdir Hsch] Hnr. destruct (pending_total s Hsch) as (pending & Hp & Hpi & Hpl & _).
  unfold validate_recovery_plan in Hplan. do 3 py_step Hplan. clear Hplan. unfold _nonnegative_integer in E0. py_step E0.
  apply negb_false_iff in E2. unfold _validate_plan_inventories in E1. do 2 py_step E1.
  apply orb_false_iff in E4 as [Hids%negb_bool_decide_false _]. clear E1 E3.
  assert (is_ok (validate_run_id (rp_run_id (rx_recovery_plan x))) = true) as Hrun by (by rewrite E).
  unfold build_plan, _require_build_inputs. rewrite Hlive, Hp. cbn [negb]. unfold _policy_item_limit.
  rewrite (proj2 (Z.ltb_ge _ _) (ambiguous_length x Hlim)), (proj2 (Z.ltb_ge _ _) Hpl). cbn [orb].
  assert (forall requested reason, is_ok (_bounded_text reason MAX_REASON_BYTES) = true -> exists plan,
    _stop_plan x requested (unresolved_ambiguous_attempts (rx_recovery_plan x)) pending ts reason = Ok plan) as Hstop
    by (intros; by apply stop_total).
  destruct (iv_cancel_requested i); [destruct (negb _); [by apply Hstop|by apply cancelled_total]|].
  case_bool_decide; [by apply continue_total|].
  destruct (iv_on_ambiguous i) as [[]|]; [by apply Hstop|by apply observe_total|done|by apply operator_total|by apply Hstop].
Qed.


(** Planning a resumed run cannot fail without redelivery: from every plan of the scanner, and for
    every choice of the invocation, the engine returns a plan that passes its own checks, and the
    scheduler rebuilds from it a queue that lists the runnable entries in exactly their order. *)
Theorem resume_plan_total fresh x bundle i s ts :
  resume_inputs x bundle i s ts -> iv_on_ambiguous i <> Some Policy_REDELIVER ->
  exists plan q, build_plan fresh x bundle i s ts = Ok plan /\ reconstruct_queue plan = Ok q /\
    snapshot q = pp_runnable_schedule plan.
Proof.
  intros Hin Hnr. destruct (build_total fresh _ _ _ _ _ Hin Hnr) as [plan Hplan].
  destruct (build_plan_cases _ _ _ _ _ _ _ Hplan) as (pending & Hp & Hk).
  destruct (pending_total s (in_schedule _ _ _ _ _ Hin)) as (pending' & Hp' & Hpi & Hpl & Hps).
  rewrite Hp in Hp'. injection Hp' as <-.
  assert (sublist (pp_runnable_schedule plan) pending /\ StronglySorted (key_le order_key) (pp_runnable_schedule plan)) as [Hsub Hso].
  { destruct Hk as [_ _ -> _|_ _ _ -> _|_ _ _ _ Hpart|runnable Hon]; [split; [apply sublist_nil_l|constructor]|done| |done].
    unfold _partition_linked_schedule in Hpart. injection Hpart as -> _. split; [apply bool_filter_sublist|by apply sorted_filter]. }
  destruct (reconstruct_sorted (pp_runnable_schedule plan) MAX_POLICY_ITEMS) as (q & Hq & Hsn); [|done| |done|].
  - eapply sublist_NoDup; [exact Hpi|by apply fmap_sublist].
  - pose proof (sublist_length _ _ Hsub). unfold zlen in *. lia.
  - exists plan, q. split; [done|]. split; [|done]. unfold reconstruct_queue. by rewrite Hq.
Qed.

(** With no choice made, the worked run stops and runs nothing. *)
Lemma resume_plan_total_witness :
  exists plan q, demo_resume None = Ok plan /\ reconstruct_queue plan = Ok q /\ snapshot q = pp_runnable_schedule plan /\
    pp_disposition plan = Resume_STOP_AMBIGUOUS /\ pp_runnable_schedule plan = [].
Proof.
  destruct (resume_plan_total demo_fresh demo_policy_context demo_bundle (demo_invocation None) demo_snapshot (demo_time 60))
    as (plan & q & Hp & Hq & Hs).
  - split.
    + reflexivity.
    + vm_compute. reflexivity.
    + unfold demo_policy_context, demo_recovery_plan. cbn [rx_recovery_plan rp_attempts].
      apply List.Forall_cons; [vm_compute; reflexivity|apply List.Forall_nil].
    + unfold demo_policy_context, demo_recovery_plan. cbn [rx_recovery_plan rp_attempts]. discriminate.
    + apply List.Forall_nil.
    + apply List.Forall_nil.
    + vm_compute. reflexivity.
  - discriminate.
  - exists plan, q. split; [exact Hp|]. split; [exact Hq|]. split; [exact Hs|].
    assert (match demo_resume None with Ok p => (pp_disposition p, pp_runnable_schedule p) | Raise _ => (Resume_CONTINUE, []) end
      = (Resume_STOP_AMBIGUOUS, [])) as Heval by (vm_compute; reflexivity).
    unfold demo_resume in Heval. rewrite Hp in Heval. injection Heval as Hd Hr. split; [exact Hd|exact Hr].
Defined.
