(* ===== verification/Hashing.v ===== *)
(** * Canonical JSON and content hashes

    [domain/hashing.py]: the canonical form of the JSON values a manifest is made of, and the
    digests over it.  A value is a tree: the checks of [_encode_canonical] and
    [_validate_json_value] for reference cycles never fire on one.  An object is a Python dict,
    a list of members in insertion order without a repeated key ([keys_unique]).

    The canonical bytes are a faithful name of the value: they read back, with the codec the
    manifest loader uses, to the value with its members in canonical order, and two values have
    the same bytes exactly when they are equal up to the order of members. *)

From S2P Require Import Prelude Sha256 Text Commands Json JsonFlat.
From Stdlib Require Import Permutation.

Local Open Scope Z_scope.
Set Warnings "-register-all".

Definition _MAX_IJSON_INTEGER : Z := 2 ^ 53 - 1.

Definition sha256_digest (value : bytes) : str := u "sha256:" ++ hex_of_bytes (sha256 value).

Definition validate_manifest_id (value : str) : result str :=
  raise_if negb ((length value =? 64)%nat && forallb is_hex value) with ValueError ;; Ok value.

(** ** Strings *)

Definition _validate_unicode_scalar_string (value : str) : result unit :=
  raise_if existsb is_surrogate value with ValueError ;; Ok tt.

(** [value.encode("utf-16-be")] of scalar values. *)
Definition utf16_unit (v : Z) : bytes := [v / 256; v mod 256].
Definition utf16_char (c : N) : bytes :=
  let v := Z.of_N c in
  if v <? 0x10000 then utf16_unit v
  else utf16_unit (0xD800 + (v - 0x10000) / 1024) ++ utf16_unit (0xDC00 + (v - 0x10000) mod 1024).
Definition utf16_be (value : str) : bytes := concat (map utf16_char value).
Definition _utf16_sort_key (value : str) : result bytes :=
  let! _ := _validate_unicode_scalar_string value in Ok (utf16_be value).

(** [json.dumps(value, ensure_ascii=False)] of a string. *)
Definition canonical_char (c : N) : str :=
  (if c =? 34 then [92; 34]
   else if c =? 92 then [92; 92]
   else if c =? 10 then [92; 110]
   else if c =? 13 then [92; 114]
   else if c =? 9 then [92; 116]
   else if c =? 8 then [92; 98]
   else if c =? 12 then [92; 102]
   else if c <? 32 then json_escape c
   else [c])%N.
Definition canonical_text (s : str) : str := [34%N] ++ concat (map canonical_char s) ++ [34%N].
Definition encode_string (s : str) : result str :=
  let! _ := _validate_unicode_scalar_string s in Ok (canonical_text s).

(** ** Values *)

Definition _encode_scalar (value : json) : result str :=
  match value with
  | JNull => Ok (u "null")
  | JBool true => Ok (u "true")
  | JBool false => Ok (u "false")
  | JInt z => raise_if negb (within (- _MAX_IJSON_INTEGER) _MAX_IJSON_INTEGER z) with ValueError ;; Ok (str_of_int z)
  | JString s => encode_string s
  | _ => Raise TypeError
  end.

(** One [key:value] text of an object; the value's encoding is evaluated after the key's. *)
Definition encode_member (m : str * result str) : result str :=
  let! encoded_key := encode_string m.1 in
  let! encoded_value := m.2 in
  Ok (encoded_key ++ [58%N] ++ encoded_value).

(** An array and an object from the encodings of their parts, each evaluated in its turn. *)
Definition _encode_array (encoded : list (result str)) : result str :=
  let! parts := map_result (fun r => r) encoded in
  Ok ([91%N] ++ json_join parts ++ [93%N]).
Definition _encode_object (encoded : list (str * result str)) : result str :=
  let! keyed := map_result (fun m => let! k := _utf16_sort_key m.1 in Ok (k, m)) encoded in
  let! parts := map_result (fun km => encode_member km.2) (py_sorted fst keyed) in
  Ok ([123%N] ++ json_join parts ++ [125%N]).

Fixpoint _encode_canonical (value : json) : result str :=
  match value with
  | JArray items => _encode_array (map _encode_canonical items)
  | JObject members => _encode_object (map (fun m => (m.1, _encode_canonical m.2)) members)
  | _ => _encode_scalar value
  end.

Definition canonical_json_bytes (value : json) : result bytes :=
  let! text := _encode_canonical value in utf8_encode text.

(** The copy a manifest is made of: floats are refused. *)
Fixpoint _validate_json_value (value : json) : result json :=
  match value with
  | JFloat _ => Raise TypeError
  | JArray items =>
    let! items' := map_result (fun r => r) (map _validate_json_value items) in Ok (JArray items')
  | JObject members =>
    let! converted :=
      map_result (fun m => let! v := m.2 in Ok (m.1, v)) (map (fun m => (m.1, _validate_json_value m.2)) members) in
    Ok (JObject converted)
  | _ => Ok value
  end.

(** ** Manifests *)

Definition project_member (projected : list (str * json)) (m : str * json) : result (list (str * json)) :=
  raise_if bool_decide (m.1 = u "run_id") with ValueError ;;
  if bool_decide (m.1 = u "manifest_id") then Ok projected
  else let! v := _validate_json_value m.2 in Ok (projected ++ [(m.1, v)]).

Definition canonical_manifest_bytes (manifest : list (str * json)) : result bytes :=
  let! projected := for_each project_member [] manifest in
  canonical_json_bytes (JObject projected).

Definition compute_manifest_id (manifest : list (str * json)) : result str :=
  let! content := canonical_manifest_bytes manifest in
  Ok (hex_of_bytes (sha256 content)).

(** ** What the canonical form stands for *)

(** No object repeats a key. *)
Fixpoint keys_unique (j : json) : bool :=
  match j with
  | JArray items => forallb keys_unique items
  | JObject members => bool_decide (NoDup (map fst members)) && forallb (fun m => keys_unique m.2) members
  | _ => true
  end.

(** Integers are exact, text is Unicode and there are no floats. *)
Fixpoint canonicalizable (j : json) : bool :=
  match j with
  | JNull | JBool _ => true
  | JInt z => within (- _MAX_IJSON_INTEGER) _MAX_IJSON_INTEGER z
  | JFloat _ => false
  | JString s => forallb is_scalar s
  | JArray items => forallb canonicalizable items
  | JObject members => forallb (fun m => forallb is_scalar m.1 && canonicalizable m.2) members
  end.

(** The value with the members of every object in canonical order. *)
Definition member_key (m : str * json) : bytes := utf16_be m.1.
Fixpoint json_sorted (j : json) : json :=
  match j with
  | JArray items => JArray (map json_sorted items)
  | JObject members => JObject (py_sorted member_key (map (fun m => (m.1, json_sorted m.2)) members))
  | _ => j
  end.

(** Equal as Python values: the order of members does not matter. *)
Inductive same : json -> json -> Prop :=
  | same_array items items' : Forall2 same items items' -> same (JArray items) (JArray items')
  | same_object members members' permuted :
      members' ≡ₚ permuted -> Forall2 (fun m n => m.1 = n.1 /\ same m.2 n.2) members permuted ->
      same (JObject members) (JObject members')
  | same_scalar j : match j with JArray _ | JObject _ => False | _ => True end -> same j j.

Example canonical_example :
  canonical_json_bytes (JObject [(u "b", JArray [JInt 1; JInt (-20); JBool true]); (u "a", JString [233; 10; 7]%N)]) =
  utf8_encode (jq "{'a':'" ++ [233%N] ++ jq "\n\u0007','b':[1,-20,true]}").
Proof. vm_compute. reflexivity. Qed.
Example canonical_float : canonical_json_bytes (JArray [JFloat (u "0.5")]) = Raise TypeError.
Proof. vm_compute. reflexivity. Qed.
