(* ===== verification/Canonical.v ===== *)
(** * The canonical form is faithful

    What [Hashing] promises: canonical bytes read back to the value they were made from, and they
    are equal exactly for equal values, whatever the order of the members. *)

From S2P Require Import Prelude Sha256 Text Commands Json JsonFlat Hashing.
From Stdlib Require Import Permutation.

Local Open Scope Z_scope.

(** ** Induction on JSON trees *)

Section json_induction.
Context (P : json -> Prop).
Context (Hscalar : forall j, match j with JArray _ | JObject _ => False | _ => True end -> P j).
Context (Harray : forall items, Forall P items -> P (JArray items)).
Context (Hobject : forall members, Forall (fun m => P m.2) members -> P (JObject members)).

Fixpoint json_tree_ind (j : json) : P j :=
  match j with
  | JArray items =>
    Harray items ((fix each (l : list json) : Forall P l :=
      match l with
      | [] => List.Forall_nil P
      | x :: rest => List.Forall_cons P x rest (json_tree_ind x) (each rest)
      end) items)
  | JObject members =>
    Hobject members ((fix each (l : list (str * json)) : Forall (fun m => P m.2) l :=
      match l with
      | [] => List.Forall_nil (fun m => P m.2)
      | m :: rest => List.Forall_cons (fun m => P m.2) m rest (json_tree_ind m.2) (each rest)
      end) members)
  | j => Hscalar j I
  end.
End json_induction.

(** ** UTF-16 *)

Lemma scalar_range c : is_scalar c = true -> (Z.of_N c < 0xD800 \/ 0xDFFF < Z.of_N c) /\ 0 <= Z.of_N c <= 0x10FFFF.
Proof.
  intros H. split; [|by apply is_scalar_bound]. unfold is_scalar, is_surrogate, char_between in H.
  apply andb_true_iff in H as [_ H]. apply negb_true_iff, andb_false_iff in H as [H|H]; apply N.leb_gt in H; lia.
Qed.

Lemma scalar_valid s : forallb is_scalar s = true -> _validate_unicode_scalar_string s = Ok tt.
Proof.
  intros H. unfold _validate_unicode_scalar_string. rewrite existsb_false; [done|]. apply list.Forall_forall.
  rewrite List.forallb_forall in H. intros c Hc%list_elem_of_In%H. unfold is_scalar in Hc. by py_bool.
Qed.

Lemma utf16_char_inj c d x y :
  is_scalar c = true -> is_scalar d = true -> utf16_char c ++ x = utf16_char d ++ y -> c = d /\ x = y.
Proof.
  intros [Hc Hc']%scalar_range [Hd Hd']%scalar_range. unfold utf16_char.
  destruct (Z.of_N c <? 0x10000) eqn:Ec, (Z.of_N d <? 0x10000) eqn:Ed; py_bool; simpl; intros H; injection H; intros; subst;
    (split; [|done]) || exfalso; Z.to_euclidean_division_equations; lia.
Qed.

Lemma utf16_inj s t :
  forallb is_scalar s = true -> forallb is_scalar t = true -> utf16_be s = utf16_be t -> s = t.
Proof.
  unfold utf16_be. revert t; induction s as [|c s IH]; intros [|d t]; simpl; intros Hs Ht H.
  - done.
  - unfold utf16_char in H. by case_match.
  - unfold utf16_char in H. by case_match.
  - apply andb_true_iff in Hs as [Hc Hs]. apply andb_true_iff in Ht as [Hd Ht].
    apply utf16_char_inj in H as [-> H]; [|done..]. f_equal. by apply IH.
Qed.

(** ** Strings read back *)

Lemma scan_escape c rest : (c < 32)%N ->
  scan_string (json_escape c ++ rest) = cons_char c (scan_string rest).
Proof.
  intros Hc. assert (In (N.to_nat c) (seq 0 32)) as Hin by (apply in_seq; lia).
  rewrite <- (N2Nat.id c). revert Hin. generalize (N.to_nat c). intros n Hn. clear c Hc.
  simpl in Hn. repeat destruct Hn as [<-|Hn]; try (reflexivity || done).
Qed.

Lemma scan_canonical_char c rest : scan_string (canonical_char c ++ rest) = cons_char c (scan_string rest).
Proof.
  unfold canonical_char.
  repeat match goal with |- context [(c =? ?k)%N] => destruct (N.eqb_spec c k) as [->|?]; [reflexivity|] end.
  destruct (N.ltb_spec c 32); [by apply scan_escape|]. cbn [app scan_string].
  rewrite (proj2 (N.eqb_neq c 34)), (proj2 (N.eqb_neq c 92)), (proj2 (N.ltb_ge c 32)) by done. done.
Qed.

Lemma scan_canonical_text s rest : scan_string (concat (map canonical_char s) ++ 34%N :: rest) = Some (s, rest).
Proof.
  induction s as [|c s IH]; [done|]. simpl. rewrite <- app_assoc, scan_canonical_char, IH. done.
Qed.

(** ** Values read back *)

(** A text that starts a value: not white space, a closing bracket or brace, or a byte order mark. *)
Definition value_head (text : str) : Prop :=
  exists c t, text = c :: t /\ is_json_space c = false /\ c <> 93%N /\ c <> 125%N /\ c <> 65279%N.

(** [text] is a value's text: [scan_value] takes it off the front of what follows. *)
Definition reads_as (text : str) (v : json) : Prop :=
  value_head text /\
  forall fuel rest, (length text <= fuel)%nat -> delimited rest -> scan_value fuel any_number (text ++ rest) = Some (v, rest).

Lemma head_skip text rest : value_head text -> skip_space (text ++ rest) = text ++ rest.
Proof. intros (c & t & -> & Hc & _). simpl. by rewrite Hc. Qed.

Lemma scan_items_step fuel s :
  scan_items (S fuel) any_number s =
  match scan_value fuel any_number s with
  | None => None
  | Some (v, r) =>
    match skip_space r with
    | e :: r1 =>
      if (e =? 93)%N then Some ([v], r1)
      else if (e =? 44)%N then
        match scan_items fuel any_number (skip_space r1) with Some (more, r2) => Some (v :: more, r2) | None => None end
      else None
    | [] => None
    end
  end.
Proof. reflexivity. Qed.

Lemma join_one p : json_join [p] = p.
Proof. reflexivity. Qed.
Lemma join_cons p q parts : json_join (p :: q :: parts) = p ++ [44%N] ++ json_join (q :: parts).
Proof. reflexivity. Qed.

Lemma join_head parts rest : parts <> [] -> Forall value_head parts -> value_head (json_join parts ++ rest).
Proof.
  intros Hne Hp. destruct Hp as [|p parts Hp Hps]; [done|]. destruct Hp as (c & t & -> & Hc).
  destruct parts; [by exists c, (t ++ rest)|]. rewrite join_cons. simpl. by eexists c, _.
Qed.

Lemma scan_items_parts fuel parts vs rest :
  parts <> [] -> Forall2 reads_as parts vs -> (length (json_join parts) < fuel)%nat ->
  scan_items fuel any_number (json_join parts ++ 93%N :: rest) = Some (vs, rest).
Proof.
  intros Hne Hp. revert fuel Hne. induction Hp as [|p v parts vs [Hhead Hread] Hps IH]; intros fuel Hne Hf; [done|].
  destruct fuel as [|fuel]; [lia|]. rewrite scan_items_step. destruct Hps as [|q w parts vs Hq Hps].
  - simpl json_join in *. rewrite Hread by (done || lia || by right; right). done.
  - rewrite join_cons in *. rewrite <- !app_assoc. rewrite Hread; [|rewrite length_app in Hf; lia|by left].
    cbn [app skip_space]. change (is_json_space 44) with false. cbn iota.
    change (44 =? 93)%N with false. change (44 =? 44)%N with true. cbn iota.
    assert (value_head (json_join (q :: parts) ++ 93%N :: rest)) as Hh.
    { apply join_head; [done|]. constructor; [apply Hq|]. clear -Hps. induction Hps as [|? ? ? ? H]; constructor; [apply H|done]. }
    rewrite <- (app_nil_r (json_join (q :: parts) ++ 93%N :: rest)), head_skip, app_nil_r by done.
    rewrite IH; [done|done|]. rewrite length_app in Hf. simpl in Hf |- *. lia.
Qed.

(** A member's text and what it stands for. *)
Definition reads_member (text : str) (m : str * json) : Prop :=
  exists value, text = canonical_text m.1 ++ [58%N] ++ value /\ reads_as value m.2.

Lemma scan_members_step fuel k s :
  scan_members (S fuel) any_number (canonical_text k ++ [58%N] ++ s) =
  match scan_value fuel any_number (skip_space s) with
  | None => None
  | Some (v, r2) =>
    match skip_space r2 with
    | e :: r3 =>
      if (e =? 125)%N then Some ([(k, v)], r3)
      else if (e =? 44)%N then
        match scan_members fuel any_number (skip_space r3) with
        | Some (more, r4) => Some ((k, v) :: more, r4)
        | None => None
        end
      else None
    | [] => None
    end
  end.
Proof.
  unfold canonical_text. rewrite <- !app_assoc. cbn [app scan_members]. change (34 =? 34)%N with true. cbn iota.
  rewrite scan_canonical_text. reflexivity.
Qed.

Lemma member_head text m : reads_member text m -> value_head text.
Proof. intros (value & -> & _). by eexists 34%N, _. Qed.

Lemma scan_members_parts fuel parts ms rest :
  parts <> [] -> Forall2 reads_member parts ms -> (length (json_join parts) < fuel)%nat ->
  scan_members fuel any_number (json_join parts ++ 125%N :: rest) = Some (ms, rest).
Proof.
  intros Hne Hp. revert fuel Hne. induction Hp as [|p m parts ms Hm Hps IH]; intros fuel Hne Hf; [done|].
  destruct fuel as [|fuel]; [lia|]. destruct Hm as (value & -> & Hhead & Hread). destruct m as [k v]. simpl fst in *. simpl snd in *.
  destruct Hps as [|q m' parts ms Hq Hps].
  - rewrite join_one in *. rewrite <- !app_assoc, scan_members_step, head_skip by done.
    rewrite Hread; [done|rewrite !length_app in Hf; lia|by right; left].
  - rewrite join_cons in *. rewrite <- !app_assoc, scan_members_step, head_skip by done.
    rewrite Hread; [|rewrite !length_app in Hf; lia|by left].
    cbn [app skip_space]. change (is_json_space 44) with false. cbn iota.
    change (44 =? 125)%N with false. change (44 =? 44)%N with true. cbn iota.
    assert (value_head (json_join (q :: parts) ++ 125%N :: rest)) as Hh.
    { apply join_head; [done|]. constructor; [by eapply member_head|]. clear -Hps.
      induction Hps as [|? ? ? ? H]; constructor; [by eapply member_head|done]. }
    rewrite <- (app_nil_r (json_join (q :: parts) ++ 125%N :: rest)), head_skip, app_nil_r by done.
    rewrite IH; [done|done|]. rewrite !length_app in Hf. simpl in Hf |- *. lia.
Qed.

(** ** Encoding canonicalizable values *)

(** The text of a value that has one. *)
Definition text_of (v : json) : str := match _encode_canonical v with Ok t => t | Raise _ => [] end.
Definition encodes (v : json) : Prop :=
  _encode_canonical v = Ok (text_of v) /\ forallb is_scalar (text_of v) = true.
Definition canonical_member (m : str * json) : str := canonical_text m.1 ++ [58%N] ++ text_of m.2.

Lemma encode_string_ok s : forallb is_scalar s = true -> encode_string s = Ok (canonical_text s).
Proof. intros H. unfold encode_string. by rewrite scalar_valid. Qed.

Lemma encode_array items :
  Forall encodes items -> _encode_canonical (JArray items) = Ok ([91%N] ++ json_join (map text_of items) ++ [93%N]).
Proof.
  intros H. cbn [_encode_canonical]. unfold _encode_array. assert (map_result (fun r => r) (map _encode_canonical items) = Ok (map text_of items)) as ->; [|done].
  apply map_result_ok. induction H as [|v items [Hv _] _ IH]; simpl; constructor; [exact Hv|done].
Qed.

Lemma encode_object members :
  Forall (fun m => forallb is_scalar m.1 = true /\ encodes m.2) members ->
  _encode_canonical (JObject members) =
  Ok ([123%N] ++ json_join (map canonical_member (py_sorted member_key members)) ++ [125%N]).
Proof.
  intros H. cbn [_encode_canonical]. unfold _encode_object. rewrite list.Forall_forall in H.
  rewrite (map_result_map _ (fun m => (utf16_be m.1, m))).
  2:{ intros m (m' & -> & Hm)%list_elem_of_fmap. destruct (H m' Hm) as [Hs _]. simpl. unfold _utf16_sort_key. by rewrite scalar_valid. }
  rewrite map_map, py_sorted_map. cbn [fst].
  change (fun a : str * json => utf16_be a.1) with member_key.
  rewrite map_result_of_map, (map_result_map _ canonical_member); [done|].
  intros m Hm. rewrite elem_of_py_sorted in Hm. destruct (H m Hm) as [Hs [Hv _]]. cbn [snd]. unfold encode_member. cbn [fst snd].
  by rewrite encode_string_ok, Hv.
Qed.

Lemma json_escape_scalar c : (c < 32)%N -> forallb is_scalar (json_escape c) = true.
Proof.
  intros Hc. assert (In (N.to_nat c) (seq 0 32)) as Hin by (apply in_seq; lia).
  rewrite <- (N2Nat.id c). revert Hin. generalize (N.to_nat c). intros n Hn. clear c Hc.
  simpl in Hn. repeat destruct Hn as [<-|Hn]; try (reflexivity || done).
Qed.

Lemma canonical_char_scalar c : is_scalar c = true -> forallb is_scalar (canonical_char c) = true.
Proof.
  intros H. unfold canonical_char. repeat (case_match; [reflexivity|]).
  case_match; [by apply json_escape_scalar, N.ltb_lt|]. simpl. by rewrite H.
Qed.

Lemma canonical_text_scalar s : forallb is_scalar s = true -> forallb is_scalar (canonical_text s) = true.
Proof.
  intros H. unfold canonical_text. rewrite !forallb_app. simpl. rewrite andb_true_r.
  induction s as [|c s IH]; [done|]. simpl in *. apply andb_true_iff in H as [Hc H]. by rewrite forallb_app, canonical_char_scalar, IH.
Qed.

Lemma decimal_scalar d : forallb is_decimal d = true -> forallb is_scalar d = true.
Proof.
  rewrite !List.forallb_forall. intros H c Hc%H. unfold is_decimal, is_scalar, is_surrogate, char_between in *.
  apply andb_true_iff in Hc as [H1%N.leb_le H2%N.leb_le]. apply andb_true_iff. split; [apply N.leb_le; lia|].
  apply negb_true_iff, andb_false_iff. left. apply N.leb_gt. lia.
Qed.

Lemma int_scalar z : forallb is_scalar (str_of_int z) = true.
Proof.
  destruct (str_of_int_cases z) as [[-> ->]|(d & [Hd _] & _ & ->)]; [done|]. apply decimal_scalar in Hd. case_match; [|done].
  simpl. by rewrite Hd.
Qed.

Lemma join_scalar parts : Forall (fun p => forallb is_scalar p = true) parts -> forallb is_scalar (json_join parts) = true.
Proof.
  induction 1 as [|p parts Hp Hps IH]; [done|]. destruct parts; [by rewrite join_one|]. rewrite join_cons, !forallb_app, Hp, IH. done.
Qed.

Lemma canonicalizable_encodes v : canonicalizable v = true -> encodes v.
Proof.
  induction v as [v Hv|items IH|members IH] using json_tree_ind; intros H.
  - unfold encodes, text_of. destruct v as [|[]|z|raw|s|items|ms]; try done; simpl in *.
    + rewrite H. simpl. split; [done|apply int_scalar].
    + rewrite encode_string_ok by done. split; [done|by apply canonical_text_scalar].
  - simpl in H. assert (Forall encodes items) as He.
    { rewrite list.Forall_forall in *. rewrite List.forallb_forall in H. intros v Hv. apply IH; [done|]. by apply H, list_elem_of_In. }
    unfold encodes, text_of. rewrite encode_array by done. split; [done|]. rewrite !forallb_app, join_scalar; [done|].
    apply List.Forall_map. eapply List.Forall_impl; [|exact He]. by intros v [_ Hs].
  - simpl in H. assert (Forall (fun m => forallb is_scalar m.1 = true /\ encodes m.2) members) as He.
    { rewrite list.Forall_forall in *. rewrite List.forallb_forall in H. intros m Hm.
      pose proof (H m (proj1 (list_elem_of_In _ _) Hm)) as Hb. apply andb_true_iff in Hb as [? ?]. split; [done|by apply IH]. }
    unfold encodes, text_of. rewrite encode_object by done. split; [done|]. rewrite !forallb_app, join_scalar; [done|].
    rewrite List.Forall_map, list.Forall_forall. intros m Hm. rewrite elem_of_py_sorted in Hm. rewrite list.Forall_forall in He.
    destruct (He m Hm) as [Hk [_ Hs]]. unfold canonical_member. rewrite !forallb_app, canonical_text_scalar, Hs by done. done.
Qed.

(** ** The round trip *)

Lemma reads_string s : reads_as (canonical_text s) (JString s).
Proof.
  split; [by eexists 34%N, _|]. intros [|fuel] rest Hf _; [simpl in Hf; lia|]. unfold canonical_text.
  rewrite <- !app_assoc. cbn [app scan_value]. change (34 =? 34)%N with true. cbn iota. by rewrite scan_canonical_text.
Qed.

Lemma reads_int z : reads_as (str_of_int z) (JInt z).
Proof.
  split.
  - destruct (int_head z []) as (c & t & Heq & Hc). rewrite app_nil_r in Heq. exists c, t. split; [done|].
    destruct Hc as [->|Hc]; [done|]. unfold is_decimal, char_between in Hc. rewrite andb_true_iff, !N.leb_le in Hc.
    split; [|lia]. unfold is_json_space. simpl.
    repeat match goal with |- context [(c =? ?k)%N] => rewrite (proj2 (N.eqb_neq c k)) by lia end. done.
  - intros fuel rest Hf Hr. destruct fuel as [|fuel].
    { destruct (int_head z []) as (c & t & Heq & _). rewrite app_nil_r in Heq. rewrite Heq in Hf. simpl in Hf. lia. }
    apply (scan_scalar any_number fuel (JInt z)); [|done]. simpl. by rewrite int_of_text.
Qed.

Lemma scan_array parts vs :
  Forall2 reads_as parts vs -> reads_as ([91%N] ++ json_join parts ++ [93%N]) (JArray vs).
Proof.
  intros Hp. split; [by eexists 91%N, _|]. intros [|fuel] rest Hf Hr; [simpl in Hf; lia|].
  destruct parts as [|p parts]; [by inversion Hp|].
  assert (value_head (json_join (p :: parts) ++ 93%N :: rest)) as (c & t & Hc & Hsp & H93 & _).
  { apply join_head; [done|]. clear -Hp. induction Hp as [|? ? ? ? H]; constructor; [apply H|done]. }
  pose proof (scan_items_parts fuel (p :: parts) vs rest ltac:(done) Hp) as Hs.
  rewrite !length_app in Hf. cbn [length] in Hf. rewrite <- !app_assoc. cbn [app]. rewrite Hc in *. cbn [scan_value].
  change (91 =? 34)%N with false. change (91 =? 123)%N with false. change (91 =? 91)%N with true. cbn iota.
  assert (skip_space (c :: t) = c :: t) as -> by (simpl; by rewrite Hsp).
  rewrite (proj2 (N.eqb_neq c 93)), Hs by (done || lia). done.
Qed.

Lemma scan_object parts ms :
  Forall2 reads_member parts ms -> NoDup (map fst ms) -> reads_as ([123%N] ++ json_join parts ++ [125%N]) (JObject ms).
Proof.
  intros Hp Hnd. split; [by eexists 123%N, _|]. intros [|fuel] rest Hf Hr; [simpl in Hf; lia|].
  destruct parts as [|p parts]; [by inversion Hp|].
  assert (value_head (json_join (p :: parts) ++ 125%N :: rest)) as (c & t & Hc & Hsp & _ & H125 & _).
  { apply join_head; [done|]. clear -Hp. induction Hp as [|? ? ? ? H]; constructor; [by eapply member_head|done]. }
  pose proof (scan_members_parts fuel (p :: parts) ms rest ltac:(done) Hp) as Hs.
  rewrite !length_app in Hf. cbn [length] in Hf. rewrite <- !app_assoc. cbn [app]. rewrite Hc in *. cbn [scan_value].
  change (123 =? 34)%N with false. change (123 =? 123)%N with true. cbn iota.
  assert (skip_space (c :: t) = c :: t) as -> by (simpl; by rewrite Hsp).
  rewrite (proj2 (N.eqb_neq c 125)), Hs by (done || lia). cbn [object_pairs any_number]. by rewrite unique_pairs_ok.
Qed.

Lemma Forall2_map2 {A B C} (R : B -> C -> Prop) (f : A -> B) (g : A -> C) l :
  (forall x, x ∈ l -> R (f x) (g x)) -> Forall2 R (map f l) (map g l).
Proof.
  induction l as [|x l IH]; intros H; simpl; constructor; [apply H; left|]. apply IH. intros y Hy. apply H. by right.
Qed.

Lemma sorted_object members :
  json_sorted (JObject members) = JObject (map (fun m => (m.1, json_sorted m.2)) (py_sorted member_key members)).
Proof. cbn [json_sorted]. by rewrite py_sorted_map. Qed.

Lemma canonical_reads v : canonicalizable v = true -> keys_unique v = true -> reads_as (text_of v) (json_sorted v).
Proof.
  induction v as [v Hv|items IH|members IH] using json_tree_ind; intros H Hu.
  - unfold text_of. destruct v as [|[]|z|raw|s|items|ms]; try done; simpl in *.
    1-3: split; [by eexists _, _|]; intros [|fuel] rest Hf Hr; [simpl in Hf; lia|done].
    + rewrite H. simpl. apply reads_int.
    + rewrite encode_string_ok by done. apply reads_string.
  - simpl in H, Hu. rewrite List.forallb_forall in H, Hu. rewrite list.Forall_forall in IH.
    unfold text_of at 1. rewrite encode_array.
    2:{ apply list.Forall_forall. intros v Hv%list_elem_of_In. by apply canonicalizable_encodes, H. }
    apply scan_array, Forall2_map2. intros v Hv. apply IH; [done|by apply H, list_elem_of_In|by apply Hu, list_elem_of_In].
  - simpl in H, Hu. apply andb_true_iff in Hu as [Hnd%bool_decide_eq_true Hu].
    rewrite List.forallb_forall in H, Hu. rewrite list.Forall_forall in IH.
    unfold text_of at 1. rewrite encode_object.
    2:{ apply list.Forall_forall. intros m Hm%list_elem_of_In. specialize (H m Hm). apply andb_true_iff in H as [? ?].
        split; [done|by apply canonicalizable_encodes]. }
    rewrite sorted_object. apply scan_object; [|by rewrite map_map, py_sorted_perm].
    apply Forall2_map2. intros m Hm. rewrite elem_of_py_sorted in Hm. apply list_elem_of_In in Hm. exists (text_of m.2).
    split; [done|]. apply IH; [by apply list_elem_of_In| |by apply Hu]. apply H in Hm. by apply andb_true_iff in Hm as [_ ?].
Qed.

(** ** Bytes read back *)

Lemma within_false lo hi v : v < lo \/ hi < v -> within lo hi v = false.
Proof. intros H. destruct (within lo hi v) eqn:E; [apply within_spec in E; lia|done]. Qed.

Lemma utf8_decode_char c rest :
  is_scalar c = true -> utf8_decode (utf8_char (Z.of_N c) ++ rest) = option_map (cons c) (utf8_decode rest).
Proof.
  intros [Hs Hc]%scalar_range. rewrite <- (N2Z.id c) at 2. revert Hs Hc. generalize (Z.of_N c). clear c. intros c Hs Hc.
  unfold utf8_char. destruct (c <? 0x80) eqn:E1; [|destruct (c <? 0x800) eqn:E2; [|destruct (c <? 0x10000) eqn:E3]]; py_bool.
  - cbn [app utf8_decode]. by rewrite (proj2 (within_spec 0 127 c)) by lia.
  - assert (2 <= c / 64 < 32 /\ 0 <= c mod 64 < 64 /\ c = c / 64 * 64 + c mod 64) as (H1 & H2 & H3)
      by (Z.to_euclidean_division_equations; lia).
    revert H1 H2 H3. generalize (c / 64) (c mod 64). intros q r H1 H2 H3. cbn [app utf8_decode].
    rewrite (within_false 0 127), (proj2 (within_spec 194 223 _)) by lia. unfold is_continuation.
    rewrite (proj2 (within_spec 128 191 _)) by lia. do 3 f_equal. lia.
  - assert (0 <= c / 4096 < 16 /\ 0 <= (c / 64) mod 64 < 64 /\ 0 <= c mod 64 < 64 /\
      c = c / 4096 * 4096 + (c / 64) mod 64 * 64 + c mod 64) as (H1 & H2 & H3 & H4)
      by (Z.to_euclidean_division_equations; lia).
    revert H1 H2 H3 H4. generalize (c / 4096) ((c / 64) mod 64) (c mod 64). intros q r t H1 H2 H3 H4. cbn [app utf8_decode].
    rewrite (within_false 0 127), (within_false 194 223), (proj2 (within_spec 224 239 _)) by lia. unfold is_continuation.
    rewrite !(proj2 (within_spec 128 191 _)), (proj2 (Z.leb_le _ _)), (within_false 55296 57343) by lia.
    do 3 f_equal. lia.
  - assert (0 <= c / 262144 < 5 /\ 0 <= (c / 4096) mod 64 < 64 /\ 0 <= (c / 64) mod 64 < 64 /\ 0 <= c mod 64 < 64 /\
      c = c / 262144 * 262144 + (c / 4096) mod 64 * 4096 + (c / 64) mod 64 * 64 + c mod 64) as (H1 & H2 & H3 & H4 & H5)
      by (Z.to_euclidean_division_equations; lia).
    revert H1 H2 H3 H4 H5. generalize (c / 262144) ((c / 4096) mod 64) ((c / 64) mod 64) (c mod 64).
    intros q r t v H1 H2 H3 H4 H5. cbn [app utf8_decode].
    rewrite (within_false 0 127), (within_false 194 223), (within_false 224 239), (proj2 (within_spec 240 244 _)) by lia.
    unfold is_continuation. rewrite !(proj2 (within_spec 128 191 _)), (proj2 (within_spec 65536 1114111 _)) by lia.
    do 3 f_equal. lia.
Qed.

Lemma utf8_roundtrip s : forallb is_scalar s = true -> exists b, utf8_encode s = Ok b /\ utf8_decode b = Some s.
Proof.
  intros Hs. unfold utf8_encode. rewrite Hs. eexists. split; [done|]. induction s as [|c s IH]; [done|]. simpl in *.
  apply andb_true_iff in Hs as [Hc Hs]. by rewrite utf8_decode_char, IH.
Qed.

(** ** Equality up to the order of members *)

Lemma elem_canonicalizable items v : v ∈ items -> canonicalizable (JArray items) = true -> keys_unique (JArray items) = true ->
  canonicalizable v = true /\ keys_unique v = true.
Proof. simpl. rewrite !List.forallb_forall, list_elem_of_In. auto. Qed.

Lemma member_canonicalizable members m : m ∈ members -> canonicalizable (JObject members) = true ->
  keys_unique (JObject members) = true -> forallb is_scalar m.1 = true /\ canonicalizable m.2 = true /\ keys_unique m.2 = true.
Proof.
  intros Hm%list_elem_of_In H [_ Hu]%andb_true_iff. simpl in H. rewrite List.forallb_forall in H, Hu.
  specialize (H m Hm). apply andb_true_iff in H as [? ?]. auto.
Qed.

Lemma object_keys members : keys_unique (JObject members) = true -> NoDup (map fst members).
Proof. simpl. by intros [H%bool_decide_eq_true _]%andb_true_iff. Qed.

Definition sorted_member (m : str * json) : str * json := (m.1, json_sorted m.2).

(** Objects whose members agree up to order have the same sorted form. *)
Lemma sorted_members_perm members members' :
  canonicalizable (JObject members) = true -> keys_unique (JObject members) = true ->
  map sorted_member members ≡ₚ map sorted_member members' <->
  json_sorted (JObject members) = json_sorted (JObject members').
Proof.
  intros Hc Hu. cbn [json_sorted]. fold sorted_member. split.
  - intros Hp. f_equal. apply (sorted_unique member_key); [|by rewrite !py_sorted_perm|apply py_sorted_sorted..].
    intros x y Hx Hy. rewrite !elem_of_py_sorted in *. apply list_elem_of_fmap in Hx as (m & -> & Hm).
    apply list_elem_of_fmap in Hy as (n & -> & Hn). unfold member_key, sorted_member. cbn [fst]. intros Hk.
    destruct (member_canonicalizable _ _ Hm Hc Hu) as (Hsm & _), (member_canonicalizable _ _ Hn Hc Hu) as (Hsn & _).
    apply utf16_inj in Hk; [|done..]. apply object_keys in Hu. clear -Hu Hk Hm Hn.
    assert (m = n) as ->; [|done]. by eapply (nodup_injective fst).
  - intros [= H]. rewrite <- (py_sorted_perm member_key (map sorted_member members)), H. apply py_sorted_perm.
Qed.

Lemma same_sorted v :
  canonicalizable v = true -> keys_unique v = true ->
  forall w, canonicalizable w = true -> keys_unique w = true -> same v w <-> json_sorted v = json_sorted w.
Proof.
  induction v as [v Hv|items IH|members IH] using json_tree_ind; intros Hc Hu w Hcw Huw.
  - split; [by inversion 1; subst; [..|done]|]. intros H.
    assert (v = w) as <-; [|by constructor]. destruct v; try done; destruct w; try done.
  - rewrite list.Forall_forall in IH. split.
    + inversion 1 as [? items' Hs| |]; subst; [|done]. simpl. f_equal.
      assert (forall x, x ∈ items' -> canonicalizable x = true /\ keys_unique x = true) as Hw
        by (intros x Hx; by eapply elem_canonicalizable).
      assert (forall x, x ∈ items -> canonicalizable x = true /\ keys_unique x = true) as Hv
        by (intros x Hx; by eapply elem_canonicalizable).
      clear -Hs IH Hw Hv. induction Hs as [|x y l k Hxy Hs IHs]; simpl; [done|].
      destruct (Hw y (list_elem_of_here _ _)), (Hv x (list_elem_of_here _ _)).
      f_equal; [by apply IH; [left|..]|]. apply IHs; intros; [apply IH|apply Hw|apply Hv]; try done; by right.
    + destruct w as [| | | | |items'|]; try done. intros [= H]. constructor. simpl in H.
      assert (forall x, x ∈ items' -> canonicalizable x = true /\ keys_unique x = true) as Hw
        by (intros x Hx; by eapply elem_canonicalizable).
      assert (forall x, x ∈ items -> canonicalizable x = true /\ keys_unique x = true) as Hv
        by (intros x Hx; by eapply elem_canonicalizable).
      clear -H IH Hw Hv. revert items' H Hw. induction items as [|x l IHl]; intros [|y k] [=]; constructor.
      * destruct (Hw y (list_elem_of_here _ _)), (Hv x (list_elem_of_here _ _)). by apply IH; [left|..].
      * apply IHl; [..|done|]; intros; [apply IH|apply Hv|apply Hw]; try done; by right.
  - assert (forall m, m ∈ members -> forall w, canonicalizable w = true -> keys_unique w = true ->
      same m.2 w <-> json_sorted m.2 = json_sorted w) as IHm.
    { intros m Hm. rewrite list.Forall_forall in IH. destruct (member_canonicalizable _ _ Hm Hc Hu) as (_ & ? & ?). by apply IH. }
    clear IH. split.
    + inversion 1 as [|? members' permuted Hp Hs|]; subst; [|done]. apply sorted_members_perm; [done..|]. rewrite Hp.
      assert (forall n, n ∈ permuted -> canonicalizable n.2 = true /\ keys_unique n.2 = true) as Hw.
      { intros n Hn. rewrite <- Hp in Hn. by destruct (member_canonicalizable _ _ Hn Hcw Huw) as (_ & ? & ?). }
      clear -Hs IHm Hw. apply Permutation_refl'. induction Hs as [|m n l k [Hk Hmn] Hs IHs]; simpl; [done|].
      destruct (Hw n (list_elem_of_here _ _)). unfold sorted_member at 1 3. rewrite Hk.
      rewrite (proj1 (IHm m (list_elem_of_here _ _) n.2 ltac:(done) ltac:(done)) Hmn). f_equal.
      apply IHs; intros; [apply IHm|apply Hw]; try done; by right.
    + destruct w as [| | | | | |members']; try done. intros H%sorted_members_perm; [|done..].
      apply Permutation_map_inv in H as (permuted & Heq & Hp). apply (same_object _ _ permuted); [done|].
      assert (forall n, n ∈ permuted -> canonicalizable n.2 = true /\ keys_unique n.2 = true) as Hw.
      { intros n Hn. rewrite <- Hp in Hn. by destruct (member_canonicalizable _ _ Hn Hcw Huw) as (_ & ? & ?). }
      clear -Heq IHm Hw. revert permuted Heq Hw. induction members as [|m l IHl]; intros [|n k] [=] Hw; constructor.
      * destruct (Hw n (list_elem_of_here _ _)). split; [done|]. by apply IHm; [left|..].
      * apply IHl; [..|done|]; intros; [apply IHm|apply Hw]; try done; by right.
Qed.

(** ** Manifests *)

(** What the identifier is computed over: every member but the identifier. *)
Definition manifest_content (m : list (str * json)) : list (str * json) :=
  List.filter (fun x => negb (bool_decide (x.1 = u "manifest_id"))) m.

Lemma validate_canonicalizable v : canonicalizable v = true -> _validate_json_value v = Ok v.
Proof.
  induction v as [v Hv|items IH|members IH] using json_tree_ind; intros H.
  - by destruct v.
  - cbn [_validate_json_value]. rewrite map_result_of_map, (map_result_map _ id), map_id; [done|]. intros v Hv.
    rewrite list.Forall_forall in IH. simpl in H. rewrite List.forallb_forall in H. apply IH; [done|by apply H, list_elem_of_In].
  - cbn [_validate_json_value]. rewrite map_result_of_map, (map_result_map _ id), map_id; [done|]. intros [k v] Hm. cbn [fst snd].
    rewrite list.Forall_forall in IH. simpl in H. rewrite List.forallb_forall in H.
    pose proof (H _ (proj1 (list_elem_of_In _ _) Hm)) as Hb. apply andb_true_iff in Hb as [_ Hb].
    pose proof (IH _ Hm Hb) as Hv. simpl in Hv. by rewrite Hv.
Qed.

Lemma project_members m acc :
  u "run_id" ∉ map fst m -> canonicalizable (JObject (manifest_content m)) = true ->
  for_each project_member acc m = Ok (acc ++ manifest_content m).
Proof.
  revert acc. induction m as [|[k v] m IH]; intros acc Hr H; simpl; [by rewrite app_nil_r|].
  cbn [map fst] in Hr. rewrite not_elem_of_cons in Hr. destruct Hr as [Hk Hr]. unfold project_member at 1. cbn [fst snd] in *.
  rewrite bool_decide_eq_false_2 by congruence. unfold manifest_content in *. cbn [List.filter fst] in *.
  case_bool_decide; simpl in *; [by apply IH|]. apply andb_true_iff in H as [[_ Hv]%andb_true_iff H].
  rewrite validate_canonicalizable by done. rewrite IH by done. by rewrite <- app_assoc.
Qed.

Lemma project_run_id m acc : u "run_id" ∈ map fst m -> is_ok (for_each project_member acc m) = false.
Proof.
  revert acc. induction m as [|[k v] m IH]; intros acc Hr; [by apply elem_of_nil in Hr|]. simpl.
  destruct (project_member acc (k, v)) as [acc'|] eqn:E; [|done]. apply IH. cbn [map fst] in Hr.
  apply elem_of_cons in Hr as [<-|Hr]; [|done]. unfold project_member in E. by rewrite bool_decide_eq_true_2 in E.
Qed.

Lemma canonical_bytes v : canonicalizable v = true ->
  canonical_json_bytes v = utf8_encode (text_of v) /\ exists b, utf8_encode (text_of v) = Ok b /\ utf8_decode b = Some (text_of v).
Proof.
  intros [He Hs]%canonicalizable_encodes. unfold canonical_json_bytes. rewrite He. split; [done|by apply utf8_roundtrip].
Qed.

Lemma value_read_back v : canonicalizable v = true -> keys_unique v = true ->
  json_loads any_number (text_of v) = Some (json_sorted v).
Proof.
  intros Hc Hu. destruct (canonical_reads v Hc Hu) as [(c & t & Heq & Hsp & _ & _ & Hbom) Hread].
  pose proof (Hread (S (length (text_of v))) [] ltac:(lia) I) as Hs. rewrite app_nil_r, Heq in Hs.
  unfold json_loads. rewrite Heq. assert (skip_space (c :: t) = c :: t) as -> by (simpl; by rewrite Hsp). rewrite Hs.
  cbn [skip_space]. rewrite bool_decide_eq_true_2 by done. destruct c as [|p]; [done|].
  repeat (destruct p as [p|p|]; try done).
Qed.

Lemma canonicalizable_sorted v : canonicalizable v = true -> canonicalizable (json_sorted v) = true.
Proof.
  induction v as [v Hv|items IH|members IH] using json_tree_ind; intros H; simpl in *.
  - by destruct v.
  - rewrite List.forallb_forall in *. rewrite list.Forall_forall in IH. intros x (v & <- & Hv)%in_map_iff.
    apply IH; [by apply list_elem_of_In|by apply H].
  - rewrite List.forallb_forall in *. rewrite list.Forall_forall in IH. intros x Hx%list_elem_of_In. rewrite elem_of_py_sorted in Hx.
    apply list_elem_of_fmap in Hx as (m & -> & Hm). cbn [fst snd]. pose proof (H m (proj1 (list_elem_of_In _ _) Hm)) as Hb.
    apply andb_true_iff in Hb as [-> Hb]. by apply IH.
Qed.

Lemma text_sorted v : canonicalizable v = true -> text_of (json_sorted v) = text_of v.
Proof.
  induction v as [v Hv|items IH|members IH] using json_tree_ind; intros H.
  - by destruct v.
  - assert (forall v, v ∈ items -> canonicalizable v = true) as Hc.
    { intros v Hv. simpl in H. rewrite List.forallb_forall in H. by apply H, list_elem_of_In. }
    rewrite list.Forall_forall in IH. cbn [json_sorted]. unfold text_of. rewrite !encode_array.
    + rewrite map_map. f_equal. f_equal. f_equal. apply map_ext_in. intros v Hv%list_elem_of_In. by apply IH, Hc.
    + apply list.Forall_forall. intros v Hv. by apply canonicalizable_encodes, Hc.
    + apply List.Forall_map, list.Forall_forall. intros v Hv. by apply canonicalizable_encodes, canonicalizable_sorted, Hc.
  - assert (forall m, m ∈ members -> forallb is_scalar m.1 = true /\ canonicalizable m.2 = true) as Hc.
    { intros m Hm. simpl in H. rewrite List.forallb_forall in H. apply list_elem_of_In, H in Hm. by apply andb_true_iff in Hm. }
    rewrite list.Forall_forall in IH. rewrite sorted_object. unfold text_of. rewrite !encode_object.
    + rewrite py_sorted_map. change (fun a : str * json => member_key (a.1, json_sorted a.2)) with member_key.
      rewrite (py_sorted_id member_key (py_sorted member_key members)) by apply py_sorted_sorted.
      rewrite map_map. f_equal. f_equal. f_equal. apply map_ext_in. intros m Hm%list_elem_of_In. rewrite elem_of_py_sorted in Hm.
      unfold canonical_member. cbn [fst snd]. rewrite IH; [done|done|by apply Hc].
    + apply list.Forall_forall. intros m Hm. destruct (Hc m Hm). split; [done|by apply canonicalizable_encodes].
    + apply List.Forall_map, list.Forall_forall. intros m Hm. rewrite elem_of_py_sorted in Hm. destruct (Hc m Hm).
      split; [done|by apply canonicalizable_encodes, canonicalizable_sorted].
Qed.

Lemma bytes_same v w : canonicalizable v = true -> keys_unique v = true -> canonicalizable w = true -> keys_unique w = true ->
  canonical_json_bytes v = canonical_json_bytes w <-> same v w.
Proof.
  intros Hv Huv Hw Huw. rewrite same_sorted by done.
  destruct (canonical_bytes v Hv) as [-> (b & Hb & _)], (canonical_bytes w Hw) as [-> (b' & Hb' & _)]. split.
  - rewrite Hb, Hb'. intros [= ->]. pose proof (utf8_encode_inj _ _ _ Hb Hb') as Heq.
    pose proof (value_read_back v Hv Huv) as H1. rewrite Heq, value_read_back in H1 by done. congruence.
  - intros Hs. assert (text_of v = text_of w) as ->; [|done].
    by rewrite <- (text_sorted v), <- (text_sorted w), Hs.
Qed.

(** C31: The canonical bytes of a value with exact integers, Unicode text, no float and no repeated key
    exist, decode as UTF-8 and parse back, with the codec the manifest loader uses, to the same value
    with its members in canonical order. *)
Theorem canonical_roundtrip v (Hv : canonicalizable v = true) (Hu : keys_unique v = true) :
  exists b text, canonical_json_bytes v = Ok b /\ utf8_decode b = Some text /\
    json_loads any_number text = Some (json_sorted v).
Proof.
  destruct (canonical_bytes v Hv) as [He (b & Hb & Hd)]. exists b, (text_of v).
  rewrite He. split; [done|]. split; [done|]. by apply value_read_back.
Qed.

(** C32: The bytes a manifest identifier is the hash of exist for every manifest of canonical values, they
    are equal for two manifests exactly when these have, apart from the identifier, the same members with
    the same values in whatever order, and a manifest that names a run is refused. *)
Theorem manifest_bytes_name_content m m'
    (Hm : canonicalizable (JObject (manifest_content m)) = true /\ keys_unique (JObject (manifest_content m)) = true)
    (Hm' : canonicalizable (JObject (manifest_content m')) = true /\ keys_unique (JObject (manifest_content m')) = true) :
  (is_ok (canonical_manifest_bytes m) = negb (bool_decide (u "run_id" ∈ map fst m))) /\
  (u "run_id" ∉ map fst m -> u "run_id" ∉ map fst m' ->
   canonical_manifest_bytes m = canonical_manifest_bytes m' <->
   same (JObject (manifest_content m)) (JObject (manifest_content m'))).
Proof.
  destruct Hm as [Hc Hu], Hm' as [Hc' Hu']. unfold canonical_manifest_bytes. split.
  - case_bool_decide as Hr.
    + apply (project_run_id m []) in Hr. by destruct (for_each project_member [] m).
    + rewrite project_members by done. destruct (canonical_bytes _ Hc) as [He (b & Hb & _)]. cbn [app]. by rewrite He, Hb.
  - intros Hr Hr'. rewrite !project_members by done. by apply bytes_same.
Qed.

(** ** Two spellings of one manifest *)

Definition demo_manifest (swap : bool) : list (str * json) :=
  let scenario := (u "scenarios", JArray [JObject [(u "id", JString [233%N]); (u "n", JInt 7)]]) in
  let version := (u "schema_version", JString (u "1.0")) in
  if swap then [version; scenario; (u "manifest_id", JString (u "b"))] else [(u "manifest_id", JNull); scenario; version].

Lemma canonical_roundtrip_witness :
  exists b text, canonical_json_bytes (JObject (demo_manifest true)) = Ok b /\ utf8_decode b = Some text /\
    json_loads any_number text = Some (json_sorted (JObject (demo_manifest true))).
Proof. apply (canonical_roundtrip (JObject (demo_manifest true))); vm_compute; reflexivity. Defined.

Lemma manifest_bytes_name_content_witness :
  canonical_manifest_bytes (demo_manifest true) = canonical_manifest_bytes (demo_manifest false) /\
  same (JObject (manifest_content (demo_manifest true))) (JObject (manifest_content (demo_manifest false))).
Proof.
  assert (canonical_manifest_bytes (demo_manifest true) = canonical_manifest_bytes (demo_manifest false)) as Heq
    by (vm_compute; reflexivity).
  split; [exact Heq|].
  apply (proj2 (manifest_bytes_name_content (demo_manifest true) (demo_manifest false)
    ltac:(split; vm_compute; reflexivity) ltac:(split; vm_compute; reflexivity)));
    [apply (bool_decide_eq_false_1 (u "run_id" ∈ map fst _)); vm_compute; reflexivity..|exact Heq].
Defined.
