(* ===== verification/Evidence.v ===== *)
(** * Observer evidence

    The values an observer reports ([observers/protocol.py]): bounded JSON values, digests of binary
    values, and the evidence that tags a value with its type.  A [json] stands for a value before and
    after it is frozen: lists and tuples are [JArray], dictionaries and [FrozenJsonObject] are
    [JObject], with the same members in the same order; reference cycles do not exist in the model.
    The failures of a pydantic model's validators are [ValidationError]s, which are [ValueError]s. *)

From S2P Require Import Prelude Text Identifiers Domain Commands Json Store Journal Schedules Policy.

Local Open Scope Z_scope.

Definition MAX_EVIDENCE_VALUES : Z := 64.
Definition MAX_JSON_ARRAY_ITEMS : Z := 1000.
Definition MAX_JSON_OBJECT_PROPERTIES : Z := 1000.
Definition MAX_JSON_DEPTH : Z := 32.
Definition MAX_JSON_NODES : Z := 10000.
Definition MAX_JSON_STRING_LENGTH : Z := 4096.
Definition MAX_JSON_OBJECT_KEY_LENGTH : Z := 256.
Definition MAX_SNAPSHOT_ID_LENGTH : Z := 512.
Definition MAX_DECIMAL_STRING_LENGTH : Z := 256.
Definition MAX_MEDIA_TYPE_LENGTH : Z := 255.
Definition MIN_IJSON_INTEGER : Z := - 9007199254740991.
Definition MAX_IJSON_INTEGER : Z := 9007199254740991.

Inductive EvidenceValueType :=
  | Value_NULL | Value_BOOLEAN | Value_INTEGER | Value_DECIMAL_STRING | Value_STRING | Value_BYTES_DIGEST | Value_TIMESTAMP
  | Value_ARRAY | Value_OBJECT.
#[global] Instance EvidenceValueType_eq_dec : EqDecision EvidenceValueType.
Proof. solve_decision. Defined.

(** ** Digits

    [\d] matches the decimal digits of every script, in runs of ten that begin at these code points
    (Unicode 15.0, Python 3.12). *)
Definition DECIMAL_ZEROS : list N := [
  0x30; 0x660; 0x6F0; 0x7C0; 0x966; 0x9E6; 0xA66; 0xAE6; 0xB66; 0xBE6; 0xC66; 0xCE6; 0xD66; 0xDE6; 0xE50; 0xED0; 0xF20; 0x1040;
  0x1090; 0x17E0; 0x1810; 0x1946; 0x19D0; 0x1A80; 0x1A90; 0x1B50; 0x1BB0; 0x1C40; 0x1C50; 0xA620; 0xA8D0; 0xA900; 0xA9D0; 0xA9F0;
  0xAA50; 0xABF0; 0xFF10; 0x104A0; 0x10D30; 0x11066; 0x110F0; 0x11136; 0x111D0; 0x112F0; 0x11450; 0x114D0; 0x11650; 0x116C0;
  0x11730; 0x118E0; 0x11950; 0x11C50; 0x11D50; 0x11DA0; 0x11F50; 0x16A60; 0x16AC0; 0x16B50; 0x1D7CE; 0x1D7D8; 0x1D7E2; 0x1D7EC;
  0x1D7F6; 0x1E140; 0x1E2F0; 0x1E4F0; 0x1E950; 0x1FBF0]%N.
Definition digit_value (c : N) : option Z :=
  match List.find (fun zero => char_between zero (zero + 9) c) DECIMAL_ZEROS with
  | Some zero => Some (Z.of_N (c - zero))
  | None => None
  end.
Definition is_unicode_digit (c : N) : bool := negb (bool_decide (digit_value c = None)).

(** [int(text)] of a run of digits. *)
Definition digits_int (text : str) : Z := fold_left (fun acc c => acc * 10 + default 0 (digit_value c)) text 0.

Fixpoint digit_span (p : N -> bool) (s : str) : str * str :=
  match s with
  | c :: rest => if p c then let (d, r) := digit_span p rest in (c :: d, r) else ([], s)
  | [] => ([], [])
  end.

(** ** Decimal strings

    An optional minus sign, 0 or digits that begin with 1 to 9, an optional fraction and an optional
    exponent: the groups of a full match of [_DECIMAL_STRING], for a class of digits. *)
Record DecimalParts := { dp_negative : bool; dp_integer : str; dp_fraction : str; dp_exponent_negative : bool; dp_exponent : str }.

Section decimal_strings.
Context (digit : N -> bool).

Definition integer_part (s : str) : option (str * str) :=
  match s with
  | c :: rest =>
    if (c =? 48)%N then Some ([c], rest)
    else if char_between 49 57 c then let (d, r) := digit_span digit rest in Some (c :: d, r) else None
  | [] => None
  end.
Definition fraction_part (s : str) : option (str * str) :=
  match s with
  | c :: rest => if (c =? 46)%N then let (d, r) := digit_span digit rest in if bool_decide (d = []) then None else Some (d, r) else Some ([], s)
  | [] => Some ([], [])
  end.
Definition exponent_part (s : str) : option (bool * str) :=
  match s with
  | [] => Some (false, [])
  | c :: rest =>
    if (c =? 101)%N || (c =? 69)%N then
      let (negative, body) := match rest with
        | e :: rest1 => if (e =? 45)%N then (true, rest1) else if (e =? 43)%N then (false, rest1) else (false, rest)
        | [] => (false, [])
        end in
      if negb (bool_decide (body = [])) && forallb digit body then Some (negative, body) else None
    else None
  end.
Definition decimal_parts (s : str) : option DecimalParts :=
  let (negative, body) := match s with
    | c :: rest => if (c =? 45)%N then (true, rest) else (false, s)
    | [] => (false, [])
    end in
  match integer_part body with
  | None => None
  | Some (integer, rest) =>
    match fraction_part rest with
    | None => None
    | Some (fraction, rest1) =>
      match exponent_part rest1 with
      | None => None
      | Some (exponent_negative, exponent) =>
        Some {| dp_negative := negative; dp_integer := integer; dp_fraction := fraction; dp_exponent_negative := exponent_negative;
                dp_exponent := exponent |}
      end
    end
  end.
Definition decimal_fullmatch (s : str) : bool := negb (is_none (decimal_parts s)).
End decimal_strings.

(** ** Timestamps

    [\d{4}-\d{2}-\d{2}T\d{2}:\d{2}:\d{2}(?:\.\d{1,9})?Z] and a date the calendar has. *)
Definition timestamp_tail (tail : str) : bool :=
  match tail with
  | c :: rest =>
    if (c =? 90)%N then bool_decide (rest = [])
    else if (c =? 46)%N then
      let digits := removelast rest in
      bool_decide (List.last rest 0%N = 90%N) && within 1 9 (zlen digits) && forallb is_unicode_digit digits
    else false
  | [] => false
  end.
Definition _validate_utc_timestamp (value : str) : result str :=
  match value with
  | y1 :: y2 :: y3 :: y4 :: c1 :: m1 :: m2 :: c2 :: d1 :: d2 :: c3 :: h1 :: h2 :: c4 :: n1 :: n2 :: c5 :: s1 :: s2 :: tail =>
    raise_if negb (bool_decide ([c1; c2; c3; c4; c5] = u "--T::") && timestamp_tail tail
                   && forallb is_unicode_digit [y1; y2; y3; y4; m1; m2; d1; d2; h1; h2; n1; n2; s1; s2]) with ValueError ;;
    let year := digits_int [y1; y2; y3; y4] in
    let month := digits_int [m1; m2] in
    raise_if negb (within 1 9999 year && within 1 12 month && within 1 (days_in_month year month) (digits_int [d1; d2])
                   && within 0 23 (digits_int [h1; h2]) && within 0 59 (digits_int [n1; n2]) && within 0 59 (digits_int [s1; s2]))
      with ValueError ;;
    Ok value
  | _ => Raise ValueError
  end.

(** ** Bounded text *)

Definition _validate_bounded_text (value : str) (maximum : Z) (allow_empty : bool) : result str :=
  raise_if (negb allow_empty && bool_decide (value = [])) || (maximum <? zlen value) with ValueError ;;
  let! _ := utf8_encode value in
  raise_if existsb is_control value with ValueError ;;
  Ok value.
Definition _validate_snapshot_id (value : str) : result str := _validate_bounded_text value MAX_SNAPSHOT_ID_LENGTH false.

(** ** Bounded JSON values

    [_freeze_json_node] counts the values in a cell shared by the whole traversal: [nodes] is the
    count so far and is returned with the frozen value. *)

Definition frozen_integer (z : Z) : result Z := raise_if negb (within MIN_IJSON_INTEGER MAX_IJSON_INTEGER z) with ValueError ;; Ok z.
Definition frozen_string (s : str) : result str :=
  raise_if MAX_JSON_STRING_LENGTH <? zlen s with ObserverJsonResourceLimitError "OBS_PROTOCOL_JSON_STRING_LIMIT" ;;
  _validate_bounded_text s MAX_JSON_STRING_LENGTH true.
Definition frozen_key (s : str) : result str :=
  raise_if MAX_JSON_OBJECT_KEY_LENGTH <? zlen s with ObserverJsonResourceLimitError "OBS_PROTOCOL_JSON_KEY_LIMIT" ;;
  _validate_bounded_text s MAX_JSON_OBJECT_KEY_LENGTH false.
Definition FrozenJsonObject (items : list (str * json)) : result json :=
  raise_if negb (bool_decide (NoDup (map fst items))) with ValueError ;; Ok (JObject items).

Fixpoint _freeze_json_node (value : json) (depth nodes : Z) {struct value} : result (json * Z) :=
  let nodes := nodes + 1 in
  raise_if MAX_JSON_NODES <? nodes with ObserverJsonResourceLimitError "OBS_PROTOCOL_JSON_NODE_LIMIT" ;;
  raise_if MAX_JSON_DEPTH <? depth with ObserverJsonResourceLimitError "OBS_PROTOCOL_JSON_DEPTH_LIMIT" ;;
  match value with
  | JNull | JBool _ => Ok (value, nodes)
  | JInt z => let! _ := frozen_integer z in Ok (value, nodes)
  | JFloat _ => Raise TypeError
  | JString s => let! _ := frozen_string s in Ok (value, nodes)
  | JArray sequence =>
    raise_if MAX_JSON_ARRAY_ITEMS <? zlen sequence with ObserverJsonResourceLimitError "OBS_PROTOCOL_JSON_ARRAY_LIMIT" ;;
    let! (items, nodes) := (fix freeze_items (l : list json) (nodes : Z) : result (list json * Z) :=
      match l with
      | [] => Ok ([], nodes)
      | item :: rest =>
        let! (frozen, nodes) := _freeze_json_node item (depth + 1) nodes in
        let! (tail, nodes) := freeze_items rest nodes in
        Ok (frozen :: tail, nodes)
      end) sequence nodes in
    Ok (JArray items, nodes)
  | JObject mapping =>
    raise_if MAX_JSON_OBJECT_PROPERTIES <? zlen mapping with ObserverJsonResourceLimitError "OBS_PROTOCOL_JSON_OBJECT_LIMIT" ;;
    let! (items, nodes) := (fix freeze_members (l : list (str * json)) (nodes : Z) : result (list (str * json) * Z) :=
      match l with
      | [] => Ok ([], nodes)
      | (key, item) :: rest =>
        let! normalized_key := frozen_key key in
        let! (frozen, nodes) := _freeze_json_node item (depth + 1) nodes in
        let! (tail, nodes) := freeze_members rest nodes in
        Ok ((normalized_key, frozen) :: tail, nodes)
      end) mapping nodes in
    let! frozen := FrozenJsonObject items in
    Ok (frozen, nodes)
  end.
Definition _freeze_json (value : json) : result json := let! (frozen, _) := _freeze_json_node value 1 0 in Ok frozen.

(** ** Digests of binary values *)

Record BytesDigestMetadata := { sha256_text : str; byte_length : Z; digest_media_type : option str }.
#[global] Instance BytesDigestMetadata_eq_dec : EqDecision BytesDigestMetadata.
Proof. solve_decision. Defined.

Definition validate_media_type (value : option str) : result (option str) :=
  match value with
  | None => Ok None
  | Some text => let! _ := _validate_bounded_text text MAX_MEDIA_TYPE_LENGTH false in Ok value
  end.
(** [BytesDigestMetadata.model_validate]: a strict, closed object. *)
Definition digest_model_validate (value : json) : result BytesDigestMetadata :=
  match value with
  | JObject members =>
    raise_if negb (forallb (fun m => bool_decide (m.1 ∈ [u "sha256"; u "byte_length"; u "media_type"])) members) with ValueError ;;
    match json_get (u "sha256") members, json_get (u "byte_length") members, json_get (u "media_type") members with
    | Some (JString digest), Some (JInt length), media_type =>
      let! _ := validate_sha256_digest digest in
      raise_if negb (within 0 MAX_IJSON_INTEGER length) with ValueError ;;
      let! media := match media_type with
        | None | Some JNull => Ok None
        | Some (JString text) => validate_media_type (Some text)
        | Some _ => Raise ValueError
        end in
      Ok {| sha256_text := digest; byte_length := length; digest_media_type := media |}
    | _, _, _ => Raise ValueError
    end
  | _ => Raise ValueError
  end.

(** ** Typed evidence *)

(** What evidence holds: a frozen JSON value or the metadata of a binary one. *)
Inductive TypedEvidence :=
  | EvidenceJson (value : json)
  | EvidenceDigest (metadata : BytesDigestMetadata).

Definition _matches_evidence_type (value_type : EvidenceValueType) (value : TypedEvidence) : bool :=
  match value_type, value with
  | Value_NULL, EvidenceJson JNull => true
  | Value_BOOLEAN, EvidenceJson (JBool _) => true
  | Value_INTEGER, EvidenceJson (JInt z) => within MIN_IJSON_INTEGER MAX_IJSON_INTEGER z
  | Value_DECIMAL_STRING, EvidenceJson (JString s) => (zlen s <=? MAX_DECIMAL_STRING_LENGTH) && decimal_fullmatch is_unicode_digit s
  | Value_STRING, EvidenceJson (JString _) => true
  | Value_BYTES_DIGEST, EvidenceDigest _ => true
  | Value_TIMESTAMP, EvidenceJson (JString s) => is_ok (_validate_utc_timestamp s)
  | Value_ARRAY, EvidenceJson (JArray _) => true
  | Value_OBJECT, EvidenceJson (JObject _) => true
  | _, _ => false
  end.

Record ObserverEvidence := { ev_key : str; ev_value_type : EvidenceValueType; ev_value : TypedEvidence; ev_sensitive : bool }.

(** The value as [freeze_and_classify_value] leaves it. *)
Definition freeze_and_classify_value (value_type : EvidenceValueType) (value : json) : result TypedEvidence :=
  if bool_decide (value_type = Value_BYTES_DIGEST) then
    let! metadata := digest_model_validate value in Ok (EvidenceDigest metadata)
  else
    match _freeze_json value with
    | Ok frozen => Ok (EvidenceJson frozen)
    | Raise _ => Raise ValueError
    end.
(** [ObserverEvidence.model_validate]. *)
Definition evidence_model_validate (key : str) (value_type : EvidenceValueType) (value : json) (sensitive : bool)
    : result ObserverEvidence :=
  let! typed := freeze_and_classify_value value_type value in
  let! _ := _validate_bounded_text key MAX_JSON_OBJECT_KEY_LENGTH false in
  raise_if negb (_matches_evidence_type value_type typed) with ValueError ;;
  Ok {| ev_key := key; ev_value_type := value_type; ev_value := typed; ev_sensitive := sensitive |}.

Example frozen_value :
  _freeze_json (JObject [(u "b", JArray [JInt 1; JNull]); (u "a", JString (u "x"))])
  = Ok (JObject [(u "b", JArray [JInt 1; JNull]); (u "a", JString (u "x"))]).
Proof. vm_compute. reflexivity. Qed.
Example frozen_float : _freeze_json (JArray [JFloat (u "0.5")]) = Raise TypeError.
Proof. reflexivity. Qed.
Example timestamps :
  map (fun t => is_ok (_validate_utc_timestamp (u t)))
    ["2024-02-29T23:59:59Z"; "2023-02-29T00:00:00Z"; "2024-02-29T23:59:59.123456789Z"; "2024-02-29T24:00:00Z"; "2024-02-29T23:59:59"]%string
  = [true; false; true; false; false].
Proof. vm_compute. reflexivity. Qed.
Example decimals :
  map (fun t => decimal_fullmatch is_unicode_digit (u t)) ["-0.50e+3"; "01"; "1."; "12E5"; "1e"; "-7"]%string = [true; false; false; true; false; true].
Proof. vm_compute. reflexivity. Qed.
Example other_digits : decimal_fullmatch is_unicode_digit [49; 0x661; 46; 0xFF19]%N = true /\ decimal_fullmatch is_decimal [49; 0x661; 46; 0xFF19]%N = false.
Proof. vm_compute. done. Qed.
