(* ===== verification/ObserverProtocol.v ===== *)
(** * The observer protocol

    [observers/protocol.py]: the requests, responses, capabilities and persisted records of version 1.0,
    each with the validation of its pydantic model, and the pure policy over them: negotiation, polling,
    retry, correlation of a response with its request, and the ledger of snapshot identities.  Fields
    whose type has one value ([protocol_version], [schema_version]) are left out. *)

From S2P Require Import Prelude Text Identifiers Domain Commands Json Policy Evidence.

Local Open Scope Z_scope.

Definition MAX_OBSERVER_QUERIES : Z := 64.
Definition MAX_CAPABILITY_EVIDENCE_KEYS : Z := 256.
Definition MAX_QUERY_PARAMETERS : Z := 128.
Definition MAX_CHECKPOINT_LENGTH : Z := 128.
Definition MAX_OBSERVER_ID_LENGTH : Z := 256.
Definition MAX_ERROR_CATEGORY_LENGTH : Z := 128.
Definition MAX_ERROR_MESSAGE_LENGTH : Z := 4096.

Inductive ObserverOperation := Operation_CAPABILITIES | Operation_OBSERVE.
#[global] Instance ObserverOperation_eq_dec : EqDecision ObserverOperation.
Proof. solve_decision. Defined.

Inductive ObserverResponseStatus := Response_OK | Response_PENDING | Response_UNSUPPORTED | Response_ERROR.
#[global] Instance ObserverResponseStatus_eq_dec : EqDecision ObserverResponseStatus.
Proof. solve_decision. Defined.

Inductive ObservationStatus := Status_OK | Status_PENDING | Status_UNSUPPORTED | Status_ERROR | Status_TIMEOUT.
#[global] Instance ObservationStatus_eq_dec : EqDecision ObservationStatus.
Proof. solve_decision. Defined.

Inductive UnsupportedPolicy := Policy_UNSUPPORTED | Policy_SKIP.
Inductive AssertionUnsupportedDisposition := Disposition_UNSUPPORTED | Disposition_SKIPPED.

Definition RESPONSE_TO_RECORD_STATUS (status : ObserverResponseStatus) : ObservationStatus :=
  match status with
  | Response_OK => Status_OK
  | Response_PENDING => Status_PENDING
  | Response_UNSUPPORTED => Status_UNSUPPORTED
  | Response_ERROR => Status_ERROR
  end.
Definition map_response_status (status : ObserverResponseStatus) : ObservationStatus := RESPONSE_TO_RECORD_STATUS status.

(** ** Fields *)

Definition optional {A} (validate : A -> result A) (value : option A) : result (option A) :=
  match value with None => Ok None | Some v => let! v' := validate v in Ok (Some v') end.
Definition _require_unique {A} `{EqDecision A} (values : list A) : result unit :=
  raise_if negb (bool_decide (NoDup values)) with ValueError ;; Ok tt.

Definition _REQUEST_ID (value : str) : option str :=
  match strip_prefix (u "request_") value with
  | Some (c :: rest) =>
    if char_between 48 55 c && (zlen rest =? 25) && forallb (fun x => bool_decide (x ∈ _CROCKFORD_ALPHABET)) rest
    then Some (c :: rest) else None
  | _ => None
  end.
Definition _request_id (value : str) : result str :=
  match _REQUEST_ID value with
  | None => Raise ValueError
  | Some ulid => let! _ := decode_crockford_ulid ulid in Ok value
  end.
Definition _sample_id (value : str) : result str := validate_fresh_id value (Some Fresh_SAMPLE).
Definition _record_id (value : str) : result str := validate_fresh_id value (Some Fresh_RECORD).
Definition _scenario_id (value : str) : result str := validate_planned_id value (Some Planned_SCENARIO).
Definition _event_id (value : str) : result str := validate_planned_id value (Some Planned_EVENT).
Definition _observation_id (value : str) : result str := validate_planned_id value (Some Planned_OBSERVATION).

(** [[a-z][a-z0-9_]{0,127}] *)
Definition _ERROR_CATEGORY (value : str) : bool :=
  match value with
  | c :: rest => is_lower c && forallb (fun x => is_lower x || is_decimal x || (x =? 95)%N) rest && (zlen rest <=? 127)
  | [] => false
  end.
Definition validate_category (value : str) : result str :=
  raise_if negb (within 1 MAX_ERROR_CATEGORY_LENGTH (zlen value)) || negb (_ERROR_CATEGORY value) with ValueError ;; Ok value.
Definition validate_message (value : str) : result str := _validate_bounded_text value MAX_ERROR_MESSAGE_LENGTH false.

(** ** Queries and capabilities *)

Record ObserverQuery := { oq_key : str; oq_type : EvidenceValueType; oq_parameters : json }.
Definition freeze_parameters (value : json) : result json :=
  match _freeze_json value with
  | Ok (JObject members) => raise_if MAX_QUERY_PARAMETERS <? zlen members with ValueError ;; Ok (JObject members)
  | _ => Raise ValueError
  end.
Definition validate_observer_query (q : ObserverQuery) : result ObserverQuery :=
  let! key := _validate_bounded_text (oq_key q) MAX_JSON_OBJECT_KEY_LENGTH false in
  let! parameters := freeze_parameters (oq_parameters q) in
  Ok {| oq_key := key; oq_type := oq_type q; oq_parameters := parameters |}.

Record ObserverCapabilities := {
  cap_evidence_types : list EvidenceValueType; cap_evidence_keys : list str; cap_read_only : bool; cap_idempotent : bool;
  cap_max_queries : Z; cap_supports_pending : bool; cap_stable_snapshot_ids : bool
}.
#[global] Instance ObserverCapabilities_eq_dec : EqDecision ObserverCapabilities.
Proof. solve_decision. Defined.
Definition validate_observer_capabilities (c : ObserverCapabilities) : result ObserverCapabilities :=
  raise_if negb (within 1 9 (zlen (cap_evidence_types c))) with ValueError ;;
  raise_if MAX_CAPABILITY_EVIDENCE_KEYS <? zlen (cap_evidence_keys c) with ValueError ;;
  let! _ := map_result (fun key => _validate_bounded_text key MAX_JSON_OBJECT_KEY_LENGTH false) (cap_evidence_keys c) in
  let! _ := _require_unique (cap_evidence_keys c) in
  let! _ := _require_unique (cap_evidence_types c) in
  raise_if negb (within 1 MAX_OBSERVER_QUERIES (cap_max_queries c)) with ValueError ;;
  Ok c.
Definition automatic_reinvocation_safe (c : ObserverCapabilities) : bool := cap_read_only c && cap_idempotent c.
Definition explicit_invocation_limit (c : ObserverCapabilities) : option Z := if cap_read_only c then None else Some 1.

(** ** Requests *)

Record ObserverRequest := {
  req_request_id : str; req_operation : ObserverOperation; req_sample_id : option str; req_run_id : option str;
  req_scenario_id : option str; req_event_id : option str; req_checkpoint : option str; req_prior_snapshot_id : option str;
  req_queries : list ObserverQuery
}.
Definition validate_operation_shape (r : ObserverRequest) : result ObserverRequest :=
  if bool_decide (req_operation r = Operation_CAPABILITIES) then
    raise_if negb (is_none (req_sample_id r) && is_none (req_run_id r) && is_none (req_scenario_id r) && is_none (req_event_id r)
                   && is_none (req_checkpoint r) && is_none (req_prior_snapshot_id r)) || negb (bool_decide (req_queries r = []))
      with ValueError ;;
    Ok r
  else
    raise_if is_none (req_sample_id r) || is_none (req_run_id r) || bool_decide (req_queries r = []) with ValueError ;;
    raise_if negb (is_none (req_event_id r)) && is_none (req_scenario_id r) with ValueError ;;
    let! _ := _require_unique (map oq_key (req_queries r)) in
    Ok r.
Definition validate_observer_request (r : ObserverRequest) : result ObserverRequest :=
  let! request_id := _request_id (req_request_id r) in
  let! sample_id := optional _sample_id (req_sample_id r) in
  let! run_id := optional validate_run_id (req_run_id r) in
  let! scenario_id := optional _scenario_id (req_scenario_id r) in
  let! event_id := optional _event_id (req_event_id r) in
  let! checkpoint := optional (fun t => _validate_bounded_text t MAX_CHECKPOINT_LENGTH false) (req_checkpoint r) in
  let! prior := optional _validate_snapshot_id (req_prior_snapshot_id r) in
  raise_if MAX_OBSERVER_QUERIES <? zlen (req_queries r) with ValueError ;;
  let! queries := map_result validate_observer_query (req_queries r) in
  validate_operation_shape
    {| req_request_id := request_id; req_operation := req_operation r; req_sample_id := sample_id; req_run_id := run_id;
       req_scenario_id := scenario_id; req_event_id := event_id; req_checkpoint := checkpoint; req_prior_snapshot_id := prior;
       req_queries := queries |}.

(** ** Responses *)

Record ObserverWireError := { we_category : str; we_message : option str; we_retryable : bool }.
Definition validate_wire_error (e : ObserverWireError) : result ObserverWireError :=
  let! _ := validate_category (we_category e) in
  let! _ := optional validate_message (we_message e) in
  Ok e.

Record ObserverResponse := {
  rsp_request_id : str; rsp_status : ObserverResponseStatus; rsp_capabilities : ObserverCapabilities; rsp_snapshot_id : option str;
  rsp_evidence : list ObserverEvidence; rsp_error : option ObserverWireError
}.
Definition validate_response_shape (r : ObserverResponse) : result ObserverResponse :=
  let! _ := _require_unique (map ev_key (rsp_evidence r)) in
  if bool_decide (rsp_status r = Response_OK) then
    raise_if is_none (rsp_snapshot_id r) with ValueError ;;
    raise_if negb (is_none (rsp_error r)) with ValueError ;;
    Ok r
  else
    raise_if negb (is_none (rsp_snapshot_id r)) || negb (bool_decide (rsp_evidence r = [])) with ValueError ;;
    raise_if bool_decide (rsp_status r = Response_ERROR) && is_none (rsp_error r) with ValueError ;;
    raise_if negb (bool_decide (rsp_status r = Response_ERROR)) && negb (is_none (rsp_error r)) with ValueError ;;
    Ok r.
(** The nested models are built, and so validated, before the response that holds them. *)
Definition validate_observer_response (r : ObserverResponse) : result ObserverResponse :=
  let! _ := _request_id (rsp_request_id r) in
  let! _ := validate_observer_capabilities (rsp_capabilities r) in
  let! _ := optional _validate_snapshot_id (rsp_snapshot_id r) in
  raise_if MAX_EVIDENCE_VALUES <? zlen (rsp_evidence r) with ValueError ;;
  let! _ := optional validate_wire_error (rsp_error r) in
  validate_response_shape r.

(** ** Records *)

Record ObservationRecordError := { re_category : str; re_message_redacted : str }.
Definition validate_record_error (e : ObservationRecordError) : result ObservationRecordError :=
  let! _ := validate_category (re_category e) in
  let! _ := validate_message (re_message_redacted e) in
  Ok e.

Record ObservationRecord := {
  rec_record_id : str; rec_run_id : str; rec_scenario_id : str; rec_observation_id : str; rec_sample_id : str;
  rec_observer_id : str; rec_sample_sequence : Z; rec_recorded_at : str; rec_status : ObservationStatus; rec_event_id : option str;
  rec_snapshot_id : option str; rec_evidence : list ObserverEvidence; rec_error : option ObservationRecordError
}.
Definition validate_status_shape (r : ObservationRecord) : result ObservationRecord :=
  let! _ := _require_unique (map ev_key (rec_evidence r)) in
  if bool_decide (rec_status r = Status_OK) then
    raise_if is_none (rec_snapshot_id r) with ValueError ;;
    raise_if negb (is_none (rec_error r)) with ValueError ;;
    Ok r
  else
    raise_if negb (is_none (rec_snapshot_id r)) || negb (bool_decide (rec_evidence r = [])) with ValueError ;;
    raise_if bool_decide (rec_status r ∈ [Status_ERROR; Status_TIMEOUT]) && is_none (rec_error r) with ValueError ;;
    Ok r.
Definition validate_observation_record (r : ObservationRecord) : result ObservationRecord :=
  let! _ := _record_id (rec_record_id r) in
  let! _ := validate_run_id (rec_run_id r) in
  let! _ := _scenario_id (rec_scenario_id r) in
  let! _ := _observation_id (rec_observation_id r) in
  let! _ := _sample_id (rec_sample_id r) in
  let! _ := _validate_bounded_text (rec_observer_id r) MAX_OBSERVER_ID_LENGTH false in
  raise_if negb (within 1 MAX_IJSON_INTEGER (rec_sample_sequence r)) with ValueError ;;
  let! _ := _validate_utc_timestamp (rec_recorded_at r) in
  let! _ := optional _event_id (rec_event_id r) in
  let! _ := optional _validate_snapshot_id (rec_snapshot_id r) in
  raise_if MAX_EVIDENCE_VALUES <? zlen (rec_evidence r) with ValueError ;;
  let! _ := optional validate_record_error (rec_error r) in
  validate_status_shape r.

(** ** Capability policy *)

Record CapabilityNegotiation := {
  missing_evidence_keys : list str; unsupported_evidence_types : list EvidenceValueType; query_limit_exceeded : bool;
  stable_snapshot_unavailable : bool
}.
Definition validate_negotiation (n : CapabilityNegotiation) : result CapabilityNegotiation :=
  let! _ := _require_unique (missing_evidence_keys n) in
  let! _ := _require_unique (unsupported_evidence_types n) in
  Ok n.
Definition supported (n : CapabilityNegotiation) : bool :=
  negb (negb (bool_decide (missing_evidence_keys n = [])) || negb (bool_decide (unsupported_evidence_types n = []))
        || query_limit_exceeded n || stable_snapshot_unavailable n).
Definition negotiated_status (n : CapabilityNegotiation) : option ObserverResponseStatus :=
  if supported n then None else Some Response_UNSUPPORTED.

(** The loop's two lists: what no declared value covers, each once, in the order of the queries. *)
Definition append_missing {A} `{EqDecision A} (declared missing : list A) (x : A) : list A :=
  if negb (bool_decide (x ∈ declared)) && negb (bool_decide (x ∈ missing)) then missing ++ [x] else missing.
Definition negotiate_capabilities (c : ObserverCapabilities) (queries : list ObserverQuery) (requires_stable_snapshot : bool)
    : result CapabilityNegotiation :=
  validate_negotiation
    {| missing_evidence_keys := fold_left (append_missing (cap_evidence_keys c)) (map oq_key queries) [];
       unsupported_evidence_types := fold_left (append_missing (cap_evidence_types c)) (map oq_type queries) [];
       query_limit_exceeded := cap_max_queries c <? zlen queries;
       stable_snapshot_unavailable := requires_stable_snapshot && negb (cap_stable_snapshot_ids c) |}.

Definition automatic_polling_allowed (c : ObserverCapabilities) (n : CapabilityNegotiation) : bool :=
  supported n && automatic_reinvocation_safe c && cap_supports_pending c.
Definition resume_reconciliation_allowed (c : ObserverCapabilities) : bool :=
  automatic_reinvocation_safe c && cap_stable_snapshot_ids c.
Definition automatic_retry_allowed (c : ObserverCapabilities) (r : ObserverResponse) : bool :=
  automatic_reinvocation_safe c && bool_decide (rsp_status r = Response_ERROR)
  && match rsp_error r with Some e => we_retryable e | None => false end.

Record UnsupportedMapping := {
  um_policy : UnsupportedPolicy; um_observation_status : ObserverResponseStatus;
  um_assertion_disposition : AssertionUnsupportedDisposition; um_result_category : ResultCategory; um_polling_allowed : bool
}.
Definition map_unsupported_policy (policy : UnsupportedPolicy) : UnsupportedMapping :=
  {| um_policy := policy; um_observation_status := Response_UNSUPPORTED;
     um_assertion_disposition := match policy with Policy_SKIP => Disposition_SKIPPED | Policy_UNSUPPORTED => Disposition_UNSUPPORTED end;
     um_result_category := Category_UNSUPPORTED; um_polling_allowed := false |}.

(** The logical request is kept, the invocation's identity replaced. *)
Definition with_sample_id (r : ObserverRequest) (sample_id : str) : ObserverRequest :=
  {| req_request_id := req_request_id r; req_operation := req_operation r; req_sample_id := Some sample_id; req_run_id := req_run_id r;
     req_scenario_id := req_scenario_id r; req_event_id := req_event_id r; req_checkpoint := req_checkpoint r;
     req_prior_snapshot_id := req_prior_snapshot_id r; req_queries := req_queries r |}.
Definition retry_observe_request (r : ObserverRequest) (fresh_sample_id : str) : result ObserverRequest :=
  raise_if negb (bool_decide (req_operation r = Operation_OBSERVE)) || is_none (req_sample_id r) with ValueError ;;
  let! sample_id := _sample_id fresh_sample_id in
  raise_if bool_decide (Some sample_id = req_sample_id r) with ValueError ;;
  validate_observer_request (with_sample_id r sample_id).

(** ** Correlating a response with its request *)

(** [{key: value for ...}] *)
Definition dict_from {V} (pairs : list (str * V)) : gmap str V := fold_left (fun d p => <[p.1 := p.2]> d) pairs ∅.

Definition validate_response_for_request (request : ObserverRequest) (response : ObserverResponse) : result ObserverResponse :=
  raise_if negb (bool_decide (rsp_request_id response = req_request_id request))
    with ObserverProtocolError "OBS_RESPONSE_REQUEST_ID_MISMATCH" ;;
  if bool_decide (req_operation request = Operation_CAPABILITIES) then
    raise_if negb (bool_decide (rsp_status response = Response_OK)) || negb (bool_decide (rsp_evidence response = []))
      with ObserverProtocolError "OBS_CAPABILITIES_RESPONSE_INVALID" ;;
    Ok response
  else
    let! negotiation := negotiate_capabilities (rsp_capabilities response) (req_queries request) (negb (is_none (req_prior_snapshot_id request))) in
    raise_if negb (supported negotiation) && negb (bool_decide (rsp_status response = Response_UNSUPPORTED))
      with ObserverProtocolError "OBS_CAPABILITY_MISMATCH" ;;
    raise_if bool_decide (rsp_status response = Response_PENDING) && negb (cap_supports_pending (rsp_capabilities response))
      with ObserverProtocolError "OBS_PENDING_NOT_DECLARED" ;;
    if negb (bool_decide (rsp_status response = Response_OK)) then Ok response
    else
      let requested := dict_from (map (fun q => (oq_key q, oq_type q)) (req_queries request)) in
      let actual := dict_from (map (fun e => (ev_key e, ev_value_type e)) (rsp_evidence response)) in
      raise_if negb (bool_decide (dom actual ⊆ dom requested)) with ObserverProtocolError "OBS_UNREQUESTED_EVIDENCE" ;;
      raise_if negb (bool_decide (dom requested ⊆ dom actual)) with ObserverProtocolError "OBS_EVIDENCE_MISSING" ;;
      raise_if negb (bool_decide (map_Forall (fun key expected => actual !! key = Some expected) requested))
        with ObserverProtocolError "OBS_EVIDENCE_TYPE_MISMATCH" ;;
      Ok response.

(** ** Snapshot identities *)

Record SnapshotBinding := { sb_snapshot_id : str; sb_state_sha256 : str }.
Definition make_snapshot_binding (snapshot_id state_sha256 : str) : result SnapshotBinding :=
  let! _ := _validate_snapshot_id snapshot_id in
  let! _ := validate_sha256_digest state_sha256 in
  Ok {| sb_snapshot_id := snapshot_id; sb_state_sha256 := state_sha256 |}.
Definition SnapshotIdentityLedger := list SnapshotBinding.
Definition make_ledger (bindings : list SnapshotBinding) : result SnapshotIdentityLedger :=
  let! _ := _require_unique (map sb_snapshot_id bindings) in Ok bindings.
Definition bind (ledger : SnapshotIdentityLedger) (snapshot_id state_sha256 : str) : result SnapshotIdentityLedger :=
  let! candidate := make_snapshot_binding snapshot_id state_sha256 in
  match List.find (fun existing => bool_decide (sb_snapshot_id existing = sb_snapshot_id candidate)) ledger with
  | Some existing =>
    raise_if negb (bool_decide (sb_state_sha256 existing = sb_state_sha256 candidate))
      with ObserverProtocolError "OBS_SNAPSHOT_ID_CONFLICT" ;;
    Ok ledger
  | None => make_ledger (ledger ++ [candidate])
  end.

(** ** Validated records *)

Lemma validated_ok_record r x : validate_observation_record r = Ok x -> rec_status r = Status_OK -> rec_snapshot_id r <> None.
Proof.
  intros Hr Hs Hn. unfold validate_observation_record in Hr. repeat (py_step Hr; []). unfold validate_status_shape in Hr. py_step Hr.
  by rewrite Hs, Hn in Hr.
Qed.

(** ** Negotiation *)

Lemma append_missing_spec {A} `{EqDecision A} (declared xs missing : list A) :
  NoDup missing -> NoDup (fold_left (append_missing declared) xs missing) /\
  forall x, x ∈ fold_left (append_missing declared) xs missing <-> x ∈ missing \/ (x ∈ xs /\ x ∉ declared).
Proof.
  revert missing; induction xs as [|x xs IH]; intros missing Hm; simpl; [split; [done|set_solver]|].
  assert (NoDup (append_missing declared missing x) /\ forall y, y ∈ append_missing declared missing x <-> y ∈ missing \/ (y = x /\ x ∉ declared))
    as [Hnd Hin].
  { unfold append_missing. repeat case_bool_decide; simpl; [split; [done|set_solver]..|]. split; [|set_solver].
    apply list.NoDup_app. split; [done|]. split; [set_solver|apply list.NoDup_singleton]. }
  destruct (IH _ Hnd) as [H1 H2]. split; [done|]. intros y. rewrite H2, Hin. set_solver.
Qed.

Lemma append_missing_none {A B} `{EqDecision A} (declared : list A) (f : B -> A) (queries : list B) :
  fold_left (append_missing declared) (map f queries) [] = [] <-> forall q, q ∈ queries -> f q ∈ declared.
Proof.
  destruct (append_missing_spec declared (map f queries) [] (NoDup_nil_2)) as [_ Hin]. split.
  - intros E q Hq. rewrite E in Hin. destruct (decide (f q ∈ declared)) as [|Hd]; [done|]. exfalso.
    apply (not_elem_of_nil (f q)). apply Hin. right. split; [by apply list_elem_of_fmap_2|done].
  - intros H. apply elem_of_nil_inv. intros x [Hx|[(q & -> & Hq)%list_elem_of_fmap Hd]]%Hin; [by apply not_elem_of_nil in Hx|]. by apply Hd, H.
Qed.

Lemma negotiate_spec c queries b : exists n, negotiate_capabilities c queries b = Ok n /\
  (supported n = true <->
     (forall q, q ∈ queries -> oq_key q ∈ cap_evidence_keys c /\ oq_type q ∈ cap_evidence_types c) /\
     zlen queries <= cap_max_queries c /\ (b = true -> cap_stable_snapshot_ids c = true)).
Proof.
  unfold negotiate_capabilities.
  destruct (append_missing_spec (cap_evidence_keys c) (map oq_key queries) [] (NoDup_nil_2)) as [Hk Hk'].
  destruct (append_missing_spec (cap_evidence_types c) (map oq_type queries) [] (NoDup_nil_2)) as [Ht Ht'].
  set (keys := fold_left _ (map oq_key queries) []) in *. set (types := fold_left _ (map oq_type queries) []) in *.
  unfold validate_negotiation, _require_unique. cbn [missing_evidence_keys unsupported_evidence_types].
  rewrite !bool_decide_eq_true_2 by done. eexists. split; [reflexivity|]. unfold supported.
  cbn [missing_evidence_keys unsupported_evidence_types query_limit_exceeded stable_snapshot_unavailable].
  subst keys types. rewrite negb_true_iff, !orb_false_iff, !negb_false_iff, !bool_decide_eq_true, Z.ltb_ge, andb_false_iff, negb_false_iff.
  rewrite !append_missing_none. destruct b; naive_solver.
Qed.
