(* ===== verification/Reconcile.v ===== *)
(** * Reconciliation of ambiguous deliveries

    [recovery/reconcile.py]: whether the persisted records of an observer ([ObserverProtocol]) settle
    what happened to one ambiguous delivery.  The supplier of evidence is an argument: its answer is evidence, another value, an exception or a
    cancellation. *)

From S2P Require Import Prelude Text Identifiers Domain Commands Json Schedules Demo Verdicts Recovery Policy Evidence ObserverProtocol.

Local Open Scope Z_scope.

Definition MAX_RECONCILIATION_RECORDS : Z := 1000.
Definition MAX_RECONCILIATION_ASSERTIONS : Z := 1000.

Inductive ReconciliationOutcome := Outcome_RECONCILED | Outcome_AMBIGUOUS.
#[global] Instance ReconciliationOutcome_eq_dec : EqDecision ReconciliationOutcome.
Proof. solve_decision. Defined.

Inductive ReconciliationReason :=
  | Reason_DECISIVE_ASSERTIONS_PASSED
  | Reason_OBSERVER_INELIGIBLE
  | Reason_OBSERVER_ERROR
  | Reason_OBSERVATION_MISSING
  | Reason_OBSERVATION_INCONCLUSIVE
  | Reason_EVIDENCE_SCOPE_MISMATCH
  | Reason_SNAPSHOT_MISMATCH
  | Reason_ASSERTION_SET_INCOMPLETE
  | Reason_ASSERTION_SET_CONTRADICTORY
  | Reason_ASSERTION_PENDING
  | Reason_ASSERTION_UNSUPPORTED
  | Reason_ASSERTION_ERROR
  | Reason_ASSERTION_CONTRARY.
#[global] Instance ReconciliationReason_eq_dec : EqDecision ReconciliationReason.
Proof. solve_decision. Defined.

(** ** Evidence *)

Record ReconciliationAssertionFact := {
  fact_assertion_id : str; fact_evaluation_id : str; fact_state : AssertionState; fact_result : AssertionResult;
  fact_observation_id : str; fact_sample_id : str; fact_snapshot_id : str
}.
Definition line_safe (text : str) : bool :=
  negb (existsb (fun c => bool_decide (c ∈ [13; 10; 0]%N)) text).
Definition validate_assertion_fact (f : ReconciliationAssertionFact) : result ReconciliationAssertionFact :=
  let! _ := validate_planned_id (fact_assertion_id f) (Some Planned_ASSERTION) in
  let! _ := validate_fresh_id (fact_evaluation_id f) (Some Fresh_EVALUATION) in
  let! _ := validate_planned_id (fact_observation_id f) (Some Planned_OBSERVATION) in
  let! _ := validate_fresh_id (fact_sample_id f) (Some Fresh_SAMPLE) in
  raise_if bool_decide (fact_snapshot_id f = []) || (MAX_SNAPSHOT_ID_LENGTH <? zlen (fact_snapshot_id f))
           || negb (line_safe (fact_snapshot_id f)) with ValueError ;;
  Ok f.

Record ReconciliationEvidence := {
  re_observations : list ObservationRecord;
  re_assertions : list ReconciliationAssertionFact
}.
Definition validate_evidence (e : ReconciliationEvidence) : result ReconciliationEvidence :=
  raise_if (MAX_RECONCILIATION_RECORDS <? zlen (re_observations e)) with ValueError ;;
  raise_if (MAX_RECONCILIATION_ASSERTIONS <? zlen (re_assertions e)) with ValueError ;;
  Ok e.

(** ** Decisions *)

Record ReconciliationDecision := {
  rd_attempt_id : str; rd_outcome : ReconciliationOutcome; rd_reason : ReconciliationReason;
  rd_result_category : ResultCategory; rd_exit_code : ExitCode;
  rd_observation_record_ids : list str; rd_evaluation_ids : list str
}.
Definition _fresh_id_tuple (values : list str) (kind : FreshIdKind) : result unit :=
  let! _ := map_result (fun v => validate_fresh_id v (Some kind)) values in
  raise_if negb (bool_decide (NoDup values)) with ValueError ;;
  Ok tt.
Definition validate_reconciliation_decision (d : ReconciliationDecision) : result ReconciliationDecision :=
  let! _ := validate_fresh_id (rd_attempt_id d) (Some Fresh_ATTEMPT) in
  let expected_category :=
    if bool_decide (rd_outcome d = Outcome_RECONCILED) then Category_PASS else Category_AMBIGUOUS in
  raise_if negb (bool_decide (rd_result_category d = expected_category)) with ValueError ;;
  raise_if negb (bool_decide ((exit_for_result (rd_result_category d)).2 = rd_exit_code d)) with ValueError ;;
  let! _ := _fresh_id_tuple (rd_observation_record_ids d) Fresh_RECORD in
  let! _ := _fresh_id_tuple (rd_evaluation_ids d) Fresh_EVALUATION in
  Ok d.
Definition reconciled (d : ReconciliationDecision) : bool := bool_decide (rd_outcome d = Outcome_RECONCILED).

(** [tuple(dict.fromkeys(values))]. *)
Definition _unique_ordered (values : list str) : list str :=
  fold_left (fun seen v => if bool_decide (v ∈ seen) then seen else seen ++ [v]) values [].

Definition _decision (plan : ObservationReconciliationPlan) (reason : ReconciliationReason)
    (observations : list ObservationRecord) (assertions : list ReconciliationAssertionFact) (is_reconciled : bool)
    : result ReconciliationDecision :=
  let category := if is_reconciled then Category_PASS else Category_AMBIGUOUS in
  validate_reconciliation_decision
    {| rd_attempt_id := obp_attempt_id plan;
       rd_outcome := if is_reconciled then Outcome_RECONCILED else Outcome_AMBIGUOUS;
       rd_reason := reason;
       rd_result_category := category;
       rd_exit_code := (exit_for_result category).2;
       rd_observation_record_ids := _unique_ordered (map rec_record_id observations);
       rd_evaluation_ids := _unique_ordered (map fact_evaluation_id assertions) |}.

Definition _observation_identities_conflict (observations : list ObservationRecord) : bool :=
  negb (bool_decide (NoDup (map rec_sample_id observations)))
  || negb (bool_decide (NoDup (map rec_sample_sequence observations)))
  || negb (bool_decide (NoDup (map rec_record_id observations))).

Definition _nonpassing_reason (f : ReconciliationAssertionFact) : ReconciliationReason :=
  if bool_decide (fact_state f ∈ [Assertion_PENDING; Assertion_RUNNING]) || bool_decide (fact_result f = Result_PENDING)
  then Reason_ASSERTION_PENDING
  else if bool_decide (fact_state f = Assertion_UNSUPPORTED) || bool_decide (fact_result f = Result_SKIPPED)
  then Reason_ASSERTION_UNSUPPORTED
  else if bool_decide (fact_state f ∈ [Assertion_ERROR; Assertion_CANCELLED])
  then Reason_ASSERTION_ERROR
  else Reason_ASSERTION_CONTRARY.

(** ** Assessment *)

Definition passing (f : ReconciliationAssertionFact) : bool :=
  bool_decide (fact_state f = Assertion_PASSED) && bool_decide (fact_result f = Result_PASS).

(** [max(first :: rest, key=sample_sequence)]: the first of the greatest. *)
Definition latest (first : ObservationRecord) (rest : list ObservationRecord) : ObservationRecord :=
  fold_left (fun best r => if rec_sample_sequence best <? rec_sample_sequence r then r else best) rest first.

(** [Counter(...)[id]]. *)
Definition times (id : str) (ids : list str) : nat := length (List.filter (fun i => bool_decide (i = id)) ids).

(** [next(fact for fact in selected if fact.assertion_id == id)]; without one the surrounding
    generator raises. *)
Definition fact_for (selected : list ReconciliationAssertionFact) (id : str) : result ReconciliationAssertionFact :=
  match List.find (fun f => bool_decide (fact_assertion_id f = id)) selected with
  | Some f => Ok f
  | None => Raise RuntimeError
  end.

Definition in_scope (plan : ObservationReconciliationPlan) (r : ObservationRecord) : bool :=
  bool_decide (rec_observation_id r = obp_observation_id plan) && bool_decide (rec_scenario_id r = obp_scenario_id plan).

(** The checks of the assertion facts against the terminal observation. *)
Definition assess_assertions (plan : ObservationReconciliationPlan) (scoped : list ObservationRecord)
    (terminal : ObservationRecord) (snapshot : str) (assertions : list ReconciliationAssertionFact)
    : result ReconciliationDecision :=
  let selected := List.filter (fun f => bool_decide (fact_sample_id f = rec_sample_id terminal)) assertions in
  if existsb (fun f => negb (bool_decide (fact_assertion_id f ∈ obp_assertion_ids plan))
                       || negb (bool_decide (fact_observation_id f = obp_observation_id plan))) assertions
  then _decision plan Reason_EVIDENCE_SCOPE_MISMATCH scoped assertions false
  else if existsb (fun f => negb (bool_decide (fact_observation_id f = rec_observation_id terminal))
                            || negb (bool_decide (fact_snapshot_id f = snapshot))) selected
  then _decision plan Reason_SNAPSHOT_MISMATCH scoped selected false
  else
    let ids := map fact_assertion_id selected in
    if negb (bool_decide ((list_to_set ids : gset str) = list_to_set (obp_assertion_ids plan)))
    then _decision plan Reason_ASSERTION_SET_INCOMPLETE scoped selected false
    else if existsb (fun id => negb (times id ids =? 1)%nat) ids
    then _decision plan Reason_ASSERTION_SET_CONTRADICTORY scoped selected false
    else
      let! ordered := map_result (fact_for selected) (obp_assertion_ids plan) in
      match List.find (fun f => negb (passing f)) ordered with
      | Some nonpassing => _decision plan (_nonpassing_reason nonpassing) scoped ordered false
      | None => _decision plan Reason_DECISIVE_ASSERTIONS_PASSED scoped ordered true
      end.

Definition assess (plan : ObservationReconciliationPlan) (capabilities : ObserverCapabilities)
    (evidence : ReconciliationEvidence) : result ReconciliationDecision :=
  if negb (resume_reconciliation_allowed capabilities)
  then _decision plan Reason_OBSERVER_INELIGIBLE [] [] false
  else if bool_decide (re_observations evidence = [])
  then _decision plan Reason_OBSERVATION_MISSING [] [] false
  else
    let scoped := List.filter (in_scope plan) (re_observations evidence) in
    if negb (length scoped =? length (re_observations evidence))%nat
    then _decision plan Reason_EVIDENCE_SCOPE_MISMATCH (re_observations evidence) [] false
    else if _observation_identities_conflict scoped
    then _decision plan Reason_EVIDENCE_SCOPE_MISMATCH scoped [] false
    else
      match scoped with
      | [] => Raise ValueError
      | first :: rest =>
        let terminal := latest first rest in
        match rec_status terminal, rec_snapshot_id terminal with
        | Status_OK, Some snapshot => assess_assertions plan scoped terminal snapshot (re_assertions evidence)
        | _, _ => _decision plan Reason_OBSERVATION_INCONCLUSIVE scoped [] false
        end
      end.

(** ** Collecting the evidence *)

(** What awaiting the supplier gives. *)
Inductive SupplierAnswer :=
  | Supplied (evidence : ReconciliationEvidence)
  | SuppliedOther
  | SupplierFailed
  | SupplierCancelled.

(** The decision, and whether the observer was contacted. *)
Definition reconcile (plan : ObservationReconciliationPlan) (capabilities : ObserverCapabilities)
    (evidence_supplier : SupplierAnswer) : result ReconciliationDecision * bool :=
  if negb (resume_reconciliation_allowed capabilities)
  then (_decision plan Reason_OBSERVER_INELIGIBLE [] [] false, false)
  else
    (match evidence_supplier with
     | SupplierCancelled => Raise Cancelled
     | SupplierFailed => _decision plan Reason_OBSERVER_ERROR [] [] false
     | SuppliedOther => _decision plan Reason_OBSERVER_ERROR [] [] false
     | Supplied evidence => assess plan capabilities evidence
     end, true).

(** ** What counts as decisive *)

Definition evidence_ok (e : ReconciliationEvidence) : Prop :=
  Forall (fun r => validate_observation_record r = Ok r) (re_observations e) /\
  Forall (fun f => validate_assertion_fact f = Ok f) (re_assertions e).

Definition sampled_for (r : ObservationRecord) (id : str) (f : ReconciliationAssertionFact) : bool :=
  bool_decide (fact_sample_id f = rec_sample_id r) && bool_decide (fact_assertion_id f = id).

(** [r] is the latest sample of an unmixed series, it has a snapshot, and it carries exactly one
    fact for each assertion of the plan, each of them passed on that snapshot. *)
Record decisive (plan : ObservationReconciliationPlan) (e : ReconciliationEvidence) (r : ObservationRecord) : Prop := {
  decisive_latest : r ∈ re_observations e /\
    (forall r', r' ∈ re_observations e -> rec_sample_sequence r' <= rec_sample_sequence r);
  decisive_scope : forall r', r' ∈ re_observations e ->
    rec_observation_id r' = obp_observation_id plan /\ rec_scenario_id r' = obp_scenario_id plan;
  decisive_samples : NoDup (map rec_sample_id (re_observations e));
  decisive_sequences : NoDup (map rec_sample_sequence (re_observations e));
  decisive_records : NoDup (map rec_record_id (re_observations e));
  decisive_status : rec_status r = Status_OK;
  decisive_facts : forall f, f ∈ re_assertions e ->
    fact_assertion_id f ∈ obp_assertion_ids plan /\ fact_observation_id f = obp_observation_id plan;
  decisive_passed : forall f, f ∈ re_assertions e -> fact_sample_id f = rec_sample_id r ->
    Some (fact_snapshot_id f) = rec_snapshot_id r /\ fact_state f = Assertion_PASSED /\ fact_result f = Result_PASS;
  decisive_each : forall id, id ∈ obp_assertion_ids plan ->
    exists f, List.filter (sampled_for r id) (re_assertions e) = [f]
}.

(** The decision of a plan, settled or not. *)
Definition decided (plan : ObservationReconciliationPlan) (b : bool) (r : result ReconciliationDecision) : Prop :=
  exists d, r = Ok d /\ rd_attempt_id d = obp_attempt_id plan /\
    rd_outcome d = (if b then Outcome_RECONCILED else Outcome_AMBIGUOUS) /\
    rd_exit_code d = (if b then Exit_PASS else Exit_AMBIGUOUS).

(** ** Decisions are well formed *)

Lemma unique_ordered_spec values :
  NoDup (_unique_ordered values) /\ (forall v, v ∈ _unique_ordered values <-> v ∈ values).
Proof.
  unfold _unique_ordered.
  enough (forall seen, NoDup seen ->
    NoDup (fold_left (fun seen v => if bool_decide (v ∈ seen) then seen else seen ++ [v]) values seen) /\
    (forall v, v ∈ fold_left (fun seen v => if bool_decide (v ∈ seen) then seen else seen ++ [v]) values seen <->
       v ∈ seen \/ v ∈ values)) as H.
  { destruct (H [] (NoDup_nil_2)) as [H1 H2]. split; [done|]. intros v. rewrite H2. set_solver. }
  induction values as [|x values IH]; intros seen Hseen; simpl; [set_solver|].
  case_bool_decide as Hx.
  - destruct (IH seen Hseen) as [H1 H2]. split; [done|]. set_solver.
  - destruct (IH (seen ++ [x])) as [H1 H2].
    { apply list.NoDup_app. split; [done|]. split; [set_solver|apply list.NoDup_singleton]. }
    split; [done|]. intros v. rewrite H2. set_solver.
Qed.

Lemma fresh_tuple_ok kind values :
  (forall v, v ∈ values -> is_ok (validate_fresh_id v (Some kind)) = true) ->
  _fresh_id_tuple (_unique_ordered values) kind = Ok tt.
Proof.
  intros H. destruct (unique_ordered_spec values) as [Hnd Hin]. unfold _fresh_id_tuple.
  destruct (map_result_total (fun v => validate_fresh_id v (Some kind)) (_unique_ordered values)) as [ys ->].
  { intros v Hv. apply is_ok_exists, H, Hin, Hv. }
  by rewrite bool_decide_eq_true_2.
Qed.

Section decisions.
Context (plan : ObservationReconciliationPlan) (Hplan : validate_observation_plan plan = Ok plan).
Context (e : ReconciliationEvidence) (He : evidence_ok e).

Lemma decision_decided reason obs facts b :
  obs ⊆ re_observations e -> facts ⊆ re_assertions e -> decided plan b (_decision plan reason obs facts b).
Proof.
  intros Hobs Hfacts. unfold _decision, validate_reconciliation_decision. cbn [rd_attempt_id rd_outcome rd_result_category
    rd_exit_code rd_observation_record_ids rd_evaluation_ids].
  unfold validate_observation_plan in Hplan. py_step Hplan. clear Hplan.
  destruct He as [Hr Hf]. rewrite list.Forall_forall in Hr. rewrite list.Forall_forall in Hf.
  rewrite (fresh_tuple_ok Fresh_RECORD), (fresh_tuple_ok Fresh_EVALUATION).
  - destruct b; (eexists; split; [reflexivity|done]).
  - intros v (f & -> & Hin)%list_elem_of_fmap. pose proof (Hf f (Hfacts f Hin)) as H. unfold validate_assertion_fact in H.
    by do 2 py_step H.
  - intros v (r & -> & Hin)%list_elem_of_fmap. pose proof (Hr r (Hobs r Hin)) as H. unfold validate_observation_record, _record_id in H.
    by py_step H.
Qed.

(** ** The facts of the latest sample *)

(** The part of [decisive] that is about the assertion facts. *)
Record settled (r : ObservationRecord) (snapshot : str) (facts : list ReconciliationAssertionFact) : Prop := {
  settled_facts : forall f, f ∈ facts ->
    fact_assertion_id f ∈ obp_assertion_ids plan /\ fact_observation_id f = obp_observation_id plan;
  settled_passed : forall f, f ∈ facts -> fact_sample_id f = rec_sample_id r ->
    fact_snapshot_id f = snapshot /\ fact_state f = Assertion_PASSED /\ fact_result f = Result_PASS;
  settled_each : forall id, id ∈ obp_assertion_ids plan -> exists f, List.filter (sampled_for r id) facts = [f]
}.

Definition sample_facts (r : ObservationRecord) (facts : list ReconciliationAssertionFact) : list ReconciliationAssertionFact :=
  List.filter (fun f => bool_decide (fact_sample_id f = rec_sample_id r)) facts.

Lemma elem_of_sample_facts r facts f : f ∈ sample_facts r facts <-> f ∈ facts /\ fact_sample_id f = rec_sample_id r.
Proof. unfold sample_facts. rewrite !list_elem_of_In, List.filter_In, bool_decide_eq_true. done. Qed.

Lemma times_sampled r id facts :
  times id (map fact_assertion_id (sample_facts r facts)) = length (List.filter (sampled_for r id) facts).
Proof.
  unfold times, sample_facts. induction facts as [|f facts IH]; [done|]. simpl. unfold sampled_for at 1.
  destruct (bool_decide (fact_sample_id f = rec_sample_id r)); simpl; [|done].
  destruct (bool_decide (fact_assertion_id f = id)); simpl; by rewrite IH.
Qed.

Lemma fact_for_in selected id :
  id ∈ map fact_assertion_id selected -> exists f, fact_for selected id = Ok f /\ f ∈ selected /\ fact_assertion_id f = id.
Proof.
  intros (f & -> & Hin)%list_elem_of_fmap. unfold fact_for.
  destruct (List.find _ selected) as [f'|] eqn:E.
  - apply List.find_some in E as [Hin' Heq%bool_decide_eq_true]. exists f'. rewrite list_elem_of_In. done.
  - apply list_elem_of_In in Hin. pose proof (List.find_none _ _ E f Hin) as H. simpl in H.
    by rewrite bool_decide_eq_true_2 in H.
Qed.

(** The facts selected for the latest sample agree with the plan's assertions one to one. *)
Lemma each_exact r facts :
  (forall id, id ∈ obp_assertion_ids plan -> exists f, List.filter (sampled_for r id) facts = [f]) <->
  obp_assertion_ids plan ⊆ map fact_assertion_id (sample_facts r facts) /\
  (forall id, id ∈ obp_assertion_ids plan -> times id (map fact_assertion_id (sample_facts r facts)) = 1%nat).
Proof.
  split.
  - intros H. split.
    + intros id Hid. destruct (H id Hid) as [f Hf]. assert (f ∈ List.filter (sampled_for r id) facts) as Hin by (rewrite Hf; left).
      apply list_elem_of_In, List.filter_In in Hin as [Hin%list_elem_of_In Hs]. unfold sampled_for in Hs. py_bool.
      apply list_elem_of_fmap. exists f. split; [done|]. by apply elem_of_sample_facts.
    + intros id Hid. destruct (H id Hid) as [f Hf]. by rewrite times_sampled, Hf.
  - intros [_ H] id Hid. specialize (H id Hid). rewrite times_sampled in H.
    destruct (List.filter (sampled_for r id) facts) as [|f [|]]; try done. by exists f.
Qed.

Lemma times_unique selected f f' :
  times (fact_assertion_id f) (map fact_assertion_id selected) = 1%nat ->
  f ∈ selected -> f' ∈ selected -> fact_assertion_id f' = fact_assertion_id f -> f' = f.
Proof.
  intros H Hf Hf' Heq.
  assert (length (List.filter (fun x => bool_decide (fact_assertion_id x = fact_assertion_id f)) selected) = 1%nat) as Hlen.
  { rewrite <- H. unfold times. clear. induction selected as [|x l IH]; [done|]. simpl. case_bool_decide; simpl; by rewrite IH. }
  assert (forall x, x ∈ selected -> fact_assertion_id x = fact_assertion_id f ->
    x ∈ List.filter (fun x => bool_decide (fact_assertion_id x = fact_assertion_id f)) selected) as Hin.
  { intros x Hx Hid. apply list_elem_of_In, List.filter_In. rewrite <- list_elem_of_In, bool_decide_eq_true. done. }
  destruct (List.filter _ selected) as [|y [|]]; try done.
  pose proof (Hin f Hf eq_refl) as ->%list_elem_of_singleton. by pose proof (Hin f' Hf' Heq) as ->%list_elem_of_singleton.
Qed.

Lemma ordered_facts selected ids :
  ids ⊆ map fact_assertion_id selected ->
  exists ordered, map_result (fact_for selected) ids = Ok ordered /\ ordered ⊆ selected /\
    forall f, f ∈ selected -> fact_assertion_id f ∈ ids -> times (fact_assertion_id f) (map fact_assertion_id selected) = 1%nat ->
      f ∈ ordered.
Proof.
  intros Hcover. destruct (map_result_total (fact_for selected) ids) as [ordered Ho].
  { intros id (f & Hf & _)%Hcover%fact_for_in. by exists f. }
  exists ordered. split; [done|]. apply map_result_ok in Ho. split.
  - intros f Hf. destruct (list_elem_of_lookup_1 _ _ Hf) as [k Hk]. destruct (Forall2_lookup_r _ _ _ _ _ Ho Hk) as (id & Hid & E).
    destruct (fact_for_in selected id) as (f' & E' & Hin & _); [by apply Hcover, (list_elem_of_lookup_2 _ k)|]. congruence.
  - intros f Hf Hid H1. destruct (list_elem_of_lookup_1 _ _ Hid) as [k Hk]. destruct (Forall2_lookup_l _ _ _ _ _ Ho Hk) as (f' & Hf' & E).
    destruct (fact_for_in selected (fact_assertion_id f)) as (f2 & E2 & Hin & Heq); [by apply Hcover|].
    assert (f' = f2) as -> by congruence. rewrite (times_unique selected f f2 H1 Hf Hin Heq) in Hf'.
    by apply (list_elem_of_lookup_2 _ k).
Qed.

Lemma assess_assertions_decided r snapshot scoped :
  scoped ⊆ re_observations e -> rec_observation_id r = obp_observation_id plan ->
  exists b, decided plan b (assess_assertions plan scoped r snapshot (re_assertions e)) /\
    (b = true <-> settled r snapshot (re_assertions e)).
Proof.
  intros Hscoped Hr. unfold assess_assertions. fold (sample_facts r (re_assertions e)).
  set (facts := re_assertions e). set (selected := sample_facts r facts).
  assert (selected ⊆ facts) as Hsel by (intros f [Hf _]%elem_of_sample_facts; done).
  destruct (existsb _ facts) eqn:E1.
  { exists false. split; [by apply decision_decided|]. split; [done|]. intros [H _ _].
    apply List.existsb_exists in E1 as (f & Hf%list_elem_of_In & Hb). destruct (H f Hf).
    rewrite !bool_decide_eq_true_2 in Hb by done. done. }
  destruct (existsb _ selected) eqn:E2.
  { exists false. split; [by apply decision_decided|]. split; [done|]. intros [H H' _].
    apply List.existsb_exists in E2 as (f & [Hf Hs]%list_elem_of_In%elem_of_sample_facts & Hb).
    destruct (H f Hf), (H' f Hf Hs) as (? & _). rewrite !bool_decide_eq_true_2 in Hb by congruence. done. }
  assert (map fact_assertion_id selected ⊆ obp_assertion_ids plan) as Hsub.
  { intros id (f & -> & Hf%Hsel)%list_elem_of_fmap. destruct (bool_decide (fact_assertion_id f ∈ obp_assertion_ids plan)) eqn:Eb.
    - by apply bool_decide_eq_true in Eb.
    - assert (existsb (fun f => negb (bool_decide (fact_assertion_id f ∈ obp_assertion_ids plan))
        || negb (bool_decide (fact_observation_id f = obp_observation_id plan))) facts = true) as E; [|congruence].
      apply List.existsb_exists. exists f. rewrite <- list_elem_of_In. split; [done|]. by rewrite Eb. }
  case_bool_decide as E3; simpl.
  2:{ exists false. split; [by apply decision_decided|]. split; [done|]. intros [_ _ H]. apply each_exact in H as [H _].
      exfalso. apply E3. fold selected in H. set_solver. }
  assert (obp_assertion_ids plan ⊆ map fact_assertion_id selected) as Hsup by set_solver.
  destruct (existsb _ (map fact_assertion_id selected)) eqn:E4.
  { exists false. split; [by apply decision_decided|]. split; [done|]. intros [_ _ H]. apply each_exact in H as [_ H].
    apply List.existsb_exists in E4 as (id & Hid%list_elem_of_In & Hb). fold selected in H. by rewrite H in Hb by auto. }
  destruct (ordered_facts selected (obp_assertion_ids plan) Hsup) as (ordered & -> & Hord & Hall).
  assert (forall id, id ∈ obp_assertion_ids plan -> times id (map fact_assertion_id selected) = 1%nat) as Honce.
  { intros id Hid%Hsup. pose proof (existsb_all _ _ E4 id Hid) as H. cbv beta in H. by apply negb_false_iff, Nat.eqb_eq in H. }
  destruct (List.find _ ordered) as [f|] eqn:E5.
  - apply List.find_some in E5 as [Hf%list_elem_of_In Hb]. exists false. split; [apply decision_decided; set_solver|].
    split; [done|]. intros [_ H _]. apply Hord, elem_of_sample_facts in Hf as [Hf Hs].
    destruct (H f Hf Hs) as (_ & H1 & H2). unfold passing in Hb. by rewrite !bool_decide_eq_true_2 in Hb.
  - exists true. split; [apply decision_decided; set_solver|]. split; [|done]. intros _. split.
    + intros f Hf. pose proof (existsb_all _ _ E1 f Hf) as H. cbv beta in H. by py_bool.
    + intros f Hf Hs. assert (f ∈ selected) as Hin by (by apply elem_of_sample_facts).
      pose proof (existsb_all _ _ E2 f Hin) as H. cbv beta in H. assert (fact_assertion_id f ∈ obp_assertion_ids plan) as Hid.
      { apply Hsub, list_elem_of_fmap. by exists f. }
      pose proof (Hall f Hin Hid (Honce _ Hid)) as Ho%list_elem_of_In. pose proof (List.find_none _ _ E5 f Ho) as Hp. cbv beta in Hp.
      unfold passing in Hp. by py_bool.
    + by apply each_exact.
Qed.

(** ** The whole assessment *)

Lemma latest_spec first rest :
  latest first rest ∈ first :: rest /\
  (forall r, r ∈ first :: rest -> rec_sample_sequence r <= rec_sample_sequence (latest first rest)).
Proof.
  unfold latest. revert first; induction rest as [|x rest IH]; intros first; simpl.
  { split; [left|]. intros r ->%list_elem_of_singleton. lia. }
  destruct (IH (if rec_sample_sequence first <? rec_sample_sequence x then x else first)) as [H1 H2].
  destruct (rec_sample_sequence first <? rec_sample_sequence x) eqn:E; py_bool;
    (split; [rewrite !elem_of_cons in *; naive_solver|]); intros r [->|[->|Hr]%elem_of_cons]%elem_of_cons;
    solve [by apply H2; left | by apply H2; right | eapply Z.le_trans; [|apply H2; left]; lia].
Qed.

Lemma assess_decided capabilities :
  exists b, decided plan b (assess plan capabilities e) /\
    (b = true <-> resume_reconciliation_allowed capabilities = true /\ exists r, decisive plan e r).
Proof.
  unfold assess. destruct (resume_reconciliation_allowed capabilities); simpl.
  2:{ exists false. split; [apply decision_decided; set_solver|]. naive_solver. }
  case_bool_decide as Hobs.
  { exists false. split; [apply decision_decided; set_solver|]. split; [done|]. intros (_ & r & [[Hr _] _ _ _ _ _ _ _ _]).
    rewrite Hobs in Hr. set_solver. }
  destruct (Nat.eqb_spec (length (List.filter (in_scope plan) (re_observations e))) (length (re_observations e))) as [Hl|Hl]; simpl.
  2:{ exists false. split; [apply decision_decided; set_solver|]. split; [done|]. intros (_ & r & H). exfalso. apply Hl. f_equal.
      apply List.forallb_filter_id, List.forallb_forall. intros x Hx%list_elem_of_In. unfold in_scope.
      destruct (decisive_scope _ _ _ H x Hx). by rewrite !bool_decide_eq_true_2. }
  apply filter_all in Hl as [-> Hscope].
  destruct (_observation_identities_conflict (re_observations e)) eqn:Hc.
  { exists false. split; [apply decision_decided; set_solver|]. split; [done|]. intros (_ & r & [_ _ H1 H2 H3 _ _ _ _]).
    unfold _observation_identities_conflict in Hc. by rewrite !bool_decide_eq_true_2 in Hc. }
  unfold _observation_identities_conflict in Hc. py_bool.
  destruct (re_observations e) as [|first rest] eqn:Er; [done|].
  destruct (latest_spec first rest) as [Hin Hmax]. set (r := latest first rest) in *.
  assert (forall r', decisive plan e r' -> r' = r) as Huniq.
  { intros r' [[Hr' Hm] _ _ _ _ _ _ _ _]. rewrite Er in *. eapply (nodup_injective rec_sample_sequence); [done..|].
    apply Z.le_antisymm; auto. }
  assert (rec_status r <> Status_OK \/ rec_snapshot_id r = None -> exists b,
    decided plan b (_decision plan Reason_OBSERVATION_INCONCLUSIVE (first :: rest) [] false) /\
    (b = true <-> true = true /\ exists r, decisive plan e r)) as Hinc.
  { intros Hno. exists false. split; [apply decision_decided; [by rewrite Er|set_solver]|]. split; [done|]. intros (_ & r' & Hd).
    pose proof (Huniq r' Hd) as ->. destruct Hno as [Hno|Hno]; [by destruct Hno; apply (decisive_status _ _ _ Hd)|].
    destruct He as [Ho _]. rewrite list.Forall_forall in Ho. assert (r ∈ re_observations e) as Hr by (by rewrite Er).
    by destruct (validated_ok_record r r (Ho r Hr) (decisive_status _ _ _ Hd)). }
  destruct (rec_status r) eqn:Es; [|apply Hinc; by left..].
  destruct (rec_snapshot_id r) as [snapshot|] eqn:Esn; [|apply Hinc; by right].
  destruct (assess_assertions_decided r snapshot (first :: rest)) as (b & Hb & Hset); [by rewrite Er| |].
  { pose proof (Hscope r Hin) as H'. unfold in_scope in H'. by py_bool. }
  exists b. split; [done|]. rewrite Hset. split.
  - intros [S1 S2 S3]. split; [done|]. exists r. split; [by rewrite Er| |by rewrite Er..|done|done| |done].
    + rewrite Er. intros r' Hr'. pose proof (Hscope r' Hr') as H'. unfold in_scope in H'. by py_bool.
    + intros f Hf Hs. destruct (S2 f Hf Hs) as (-> & ?). by rewrite Esn.
  - intros (_ & r' & Hd). pose proof (Huniq r' Hd) as ->. split; [apply Hd| |apply Hd].
    intros f Hf Hs. destruct (decisive_passed _ _ _ Hd f Hf Hs) as (Hsnap & ?). rewrite Esn in Hsnap. naive_solver.
Qed.
End decisions.

(** Reconciliation contacts an observer exactly when it is read-only, idempotent and gives stable
    snapshots; it decides whatever the observer then answers, unless it is cancelled; and it reports the
    delivery reconciled, with the passing exit code, exactly when the observer supplied evidence whose
    latest sample, of one unmixed series in the plan's scope, carries one passed fact for each assertion
    of the plan, all on its snapshot. *)
Theorem reconcile_decisive plan capabilities answer
    (Hplan : validate_observation_plan plan = Ok plan)
    (Hanswer : forall e, answer = Supplied e -> evidence_ok e) :
  let '(r, contacted) := reconcile plan capabilities answer in
  contacted = resume_reconciliation_allowed capabilities /\
  ((exists b, decided plan b r /\
      (b = true <-> contacted = true /\ exists e o, answer = Supplied e /\ decisive plan e o)) \/
   contacted = true /\ answer = SupplierCancelled /\ r = Raise Cancelled).
Proof.
  assert (forall reason, decided plan false (_decision plan reason [] [] false)) as Hnone.
  { intros reason. apply (decision_decided plan Hplan {| re_observations := []; re_assertions := [] |}); [by split|done..]. }
  unfold reconcile. destruct (resume_reconciliation_allowed capabilities) eqn:Ha; simpl; (split; [done|]).
  2:{ left. exists false. split; [apply Hnone|naive_solver]. }
  destruct answer as [e| | |]; [|left; exists false; (split; [apply Hnone|naive_solver])..|by right].
  left. destruct (assess_decided plan Hplan e (Hanswer e eq_refl) capabilities) as (b & Hb & Hiff).
  exists b. split; [done|]. rewrite Hiff, Ha. naive_solver.
Qed.

(** ** An observed delivery

    The observer's first sample found nothing yet; on its second sample the assertion passed. *)

Definition demo_observation : str := u "observation_" ++ demo_payload.
Definition demo_reconciliation : ObservationReconciliationPlan :=
  {| obp_attempt_id := demo_attempt; obp_scenario_id := demo_scenario; obp_delivery_id := demo_delivery;
     obp_observation_id := demo_observation; obp_assertion_ids := [demo_assertion] |}.
Definition demo_sample (n : N) (status : ObservationStatus) (snapshot : option str) : ObservationRecord :=
  {| rec_record_id := u "record_01ARZ3NDEKTSV4RRFFQ69G5FA" ++ [n]; rec_run_id := demo_run; rec_scenario_id := demo_scenario;
     rec_observation_id := demo_observation; rec_sample_id := u "sample_01ARZ3NDEKTSV4RRFFQ69G5FA" ++ [n]; rec_observer_id := u "probe";
     rec_sample_sequence := Z.of_N n; rec_recorded_at := u "2026-01-01T00:00:00Z"; rec_status := status; rec_event_id := None;
     rec_snapshot_id := snapshot; rec_evidence := []; rec_error := None |}.
Definition demo_fact (state : AssertionState) (result : AssertionResult) : ReconciliationAssertionFact :=
  {| fact_assertion_id := demo_assertion; fact_evaluation_id := u "evaluation_" ++ demo_payload; fact_state := state;
     fact_result := result; fact_observation_id := demo_observation;
     fact_sample_id := u "sample_01ARZ3NDEKTSV4RRFFQ69G5FAB"; fact_snapshot_id := u "snapshot-7" |}.
Definition demo_observed (state : AssertionState) (result : AssertionResult) : ReconciliationEvidence :=
  {| re_observations := [demo_sample 66 Status_OK (Some (u "snapshot-7")); demo_sample 65 Status_PENDING None];
     re_assertions := [demo_fact state result] |}.
Definition demo_capabilities : ObserverCapabilities :=
  {| cap_evidence_types := [Value_BOOLEAN]; cap_evidence_keys := [u "processed"]; cap_read_only := true; cap_idempotent := true;
     cap_max_queries := 64; cap_supports_pending := true; cap_stable_snapshot_ids := true |}.

Example failed_assertion_ambiguous :
  (let! d := (reconcile demo_reconciliation demo_capabilities
     (Supplied (demo_observed Assertion_FAILED Result_FAIL))).1 in Ok (rd_outcome d, rd_reason d))
  = Ok (Outcome_AMBIGUOUS, Reason_ASSERTION_CONTRARY).
Proof. vm_compute. reflexivity. Qed.

Lemma reconcile_decisive_witness :
  exists d, reconcile demo_reconciliation demo_capabilities (Supplied (demo_observed Assertion_PASSED Result_PASS)) = (Ok d, true) /\
    rd_outcome d = Outcome_RECONCILED /\ rd_exit_code d = Exit_PASS /\
    exists e o, Supplied (demo_observed Assertion_PASSED Result_PASS) = Supplied e /\ decisive demo_reconciliation e o.
Proof.
  assert (match (reconcile demo_reconciliation demo_capabilities (Supplied (demo_observed Assertion_PASSED Result_PASS))).1 with
          | Ok d => bool_decide (rd_outcome d = Outcome_RECONCILED) | Raise _ => false end = true)
    as Hrec by (vm_compute; reflexivity).
  pose proof (reconcile_decisive demo_reconciliation demo_capabilities (Supplied (demo_observed Assertion_PASSED Result_PASS))) as H.
  destruct (reconcile _ _ _) as [r contacted]. destruct H as (Hc & [([] & (d & -> & _ & Ho & Hx) & Hiff)|(_ & [=] & _)]).
  - vm_compute; reflexivity.
  - intros e [= <-]. split; repeat constructor; vm_compute; reflexivity.
  - exists d. destruct Hiff as [H _]. destruct (H eq_refl) as [-> Hev].
    split; [reflexivity|]. split; [exact Ho|]. split; [exact Hx|exact Hev].
  - exfalso. simpl in Hrec. rewrite Ho in Hrec. discriminate Hrec.
Defined.
