(* ===== verification/Addresses.v ===== *)
(** * Destination addresses

    [network/addresses.py]: the textual forms of IPv4 and IPv6 addresses, as far as the standard
    library's [ipaddress] reads and writes them for this program (CPython 3.12), and the
    classification of an address that decides whether a delivery may be sent to it. *)

From S2P Require Import Prelude Sha256 Text.

Local Open Scope Z_scope.

(** ** IPv4 text *)

Definition decimal_of (digits : str) : Z := fold_left (fun acc c => acc * 10 + (Z.of_N c - 48)) digits 0.

(** [_parse_octet]: at most three digits, no leading zero, at most 255. *)
Definition parse_octet (octet : str) : option Z :=
  if bool_decide (octet = []) || negb (forallb is_decimal octet) || (3 <? length octet)%nat then None
  else if negb (bool_decide (octet = u "0")) && bool_decide (head octet = Some 48%N) then None
  else if 255 <? decimal_of octet then None else Some (decimal_of octet).

(** [IPv4Address(text)] *)
Definition parse_ipv4 (text : str) : option Z :=
  if has_char 47 text then None
  else
    let octets := split_on 46 text in
    if bool_decide (length octets = 4%nat) then option_map (of_digits 8) (mapM parse_octet octets) else None.

(** [str] of an IPv4 address. *)
Definition format_ipv4 (v : Z) : str := join_on 46 (map str_of_int (to_digits 8 4 v [])).

(** ** IPv6 text *)

Definition is_hex_digit (c : N) : bool := is_decimal c || char_between 97 102 c || char_between 65 70 c.
Definition hex_digit_value (c : N) : Z :=
  if is_decimal c then Z.of_N c - 48 else if char_between 97 102 c then Z.of_N c - 87 else Z.of_N c - 55.

(** [_parse_hextet] *)
Definition parse_hextet (h : str) : option Z :=
  if negb (forallb is_hex_digit h) || (4 <? length h)%nat || bool_decide (h = []) then None
  else Some (of_digits 4 (map hex_digit_value h)).

(** [%x] of a number of at most sixteen bits. *)
Fixpoint drop_zeros (s : str) : str :=
  match s with
  | c :: (_ :: _) as rest => if (c =? 48)%N then drop_zeros rest else s
  | _ => s
  end.
Definition hex_text (v : Z) : str := drop_zeros (map hex_digit (to_digits 4 4 v [])).

(** A dotted suffix stands for two groups. *)
Definition expand_suffix (parts : list str) : option (list str) :=
  let suffix := List.last parts [] in
  if has_char 46 suffix then
    option_map (fun v => removelast parts
      ++ [hex_text (Z.land (Z.shiftr v 16) 0xFFFF); hex_text (Z.land v 0xFFFF)]) (parse_ipv4 suffix)
  else Some parts.

(** The inner positions with nothing between their colons. *)
Definition empty_inner (parts : list str) : list nat :=
  List.filter (fun i => bool_decide (parts !! i = Some [])) (seq 1 (length parts - 2)).

(** How many groups stand before and after a run of zeros, and how long the run is. *)
Definition layout (parts : list str) : option (nat * nat * nat) :=
  let first_empty := bool_decide (head parts = Some []) in
  let last_empty := bool_decide (List.last parts [] = []) in
  match empty_inner parts with
  | [skip] =>
    let hi := if first_empty then skip - 1 else skip in
    let after := length parts - skip - 1 in
    let lo := if last_empty then after - 1 else after in
    if (first_empty && negb (hi =? 0)) || (last_empty && negb (lo =? 0)) || (8 <=? hi + lo) then None
    else Some (hi, lo, 8 - (hi + lo))
  | [] =>
    if negb (length parts =? 8) || first_empty || last_empty then None else Some (length parts, 0, 0)
  | _ => None
  end%nat.

(** [_ip_int_from_string] *)
Definition parse_ipv6_int (text : str) : option Z :=
  let parts := split_on 58 text in
  if bool_decide (text = []) || (length parts <? 3)%nat then None
  else
    match expand_suffix parts with
    | None => None
    | Some parts =>
      if (9 <? length parts)%nat then None
      else
        match layout parts with
        | None => None
        | Some (hi, lo, skipped) =>
          match mapM parse_hextet (take hi parts), mapM parse_hextet (drop (length parts - lo) parts) with
          | Some high, Some low => Some (of_digits 16 (high ++ replicate skipped 0 ++ low))
          | _, _ => None
          end
        end
    end.

(** [IPv6Address(text)]: the address and its scope. *)
Definition parse_ipv6 (text : str) : option (Z * option str) :=
  if has_char 47 text then None
  else
    match partition_on 37 text with
    | (address, None) => option_map (fun v => (v, None)) (parse_ipv6_int address)
    | (address, Some scope) =>
      if bool_decide (scope = []) || has_char 37 scope then None
      else option_map (fun v => (v, Some scope)) (parse_ipv6_int address)
    end.

(** The scan for the longest run of zero groups: the best run so far and the current one, each as
    its start and length. *)
Record zero_runs := { best_start : nat; best_len : nat; run_start : nat; run_len : nat }.
Definition scan_zero (s : zero_runs * nat) (hextet : str) : zero_runs * nat :=
  let (r, index) := s in
  (if bool_decide (hextet = u "0") then
     let len := S (run_len r) in
     let start := if (run_len r =? 0)%nat then index else run_start r in
     if (best_len r <? len)%nat
     then {| best_start := start; best_len := len; run_start := start; run_len := len |}
     else {| best_start := best_start r; best_len := best_len r; run_start := start; run_len := len |}
   else {| best_start := best_start r; best_len := best_len r; run_start := 0; run_len := 0 |}, S index).

(** [_compress_hextets] *)
Definition compress_hextets (hextets : list str) : list str :=
  let r := (fold_left scan_zero hextets ({| best_start := 0; best_len := 0; run_start := 0; run_len := 0 |}, 0%nat)).1 in
  if (best_len r <=? 1)%nat then hextets
  else
    let stop := (best_start r + best_len r)%nat in
    let closed := take (best_start r) hextets ++ [] :: drop stop hextets
      ++ (if (stop =? length hextets)%nat then [[]] else []) in
    if (best_start r =? 0)%nat then [] :: closed else closed.

(** [compressed], and [str] without a scope. *)
Definition format_ipv6 (v : Z) : str := join_on 58 (compress_hextets (map hex_text (to_digits 16 8 v []))).

(** ** Addresses *)

Inductive ip := IPv4 (v : Z) | IPv6 (v : Z) (scope : option str).

(** [ip_address(text)] *)
Definition ip_address (text : str) : option ip :=
  match parse_ipv4 text with
  | Some v => Some (IPv4 v)
  | None => option_map (fun p => IPv6 p.1 p.2) (parse_ipv6 text)
  end.

(** [str(address)] *)
Definition ip_str (a : ip) : str :=
  match a with
  | IPv4 v => format_ipv4 v
  | IPv6 v None => format_ipv6 v
  | IPv6 v (Some scope) => format_ipv6 v ++ 37%N :: scope
  end.

(** ** Networks *)

Record network := { net_bits : Z; net_address : Z; net_prefix : Z }.
(** [IPv4Network("address/prefix")] *)
Definition net4 (address : string) (prefix : Z) : network :=
  {| net_bits := 32; net_address := default 0 (parse_ipv4 (u address)); net_prefix := prefix |}.
Definition net6 (address : string) (prefix : Z) : network :=
  {| net_bits := 128; net_address := default 0 (parse_ipv6_int (u address)); net_prefix := prefix |}.

(** [netmask]: the ones of the width, without those below the prefix. *)
Definition netmask (n : network) : Z :=
  Z.lxor (Z.ones (net_bits n)) (Z.shiftr (Z.ones (net_bits n)) (net_prefix n)).
(** [address in network], for an address of the network's version. *)
Definition in_network (v : Z) (n : network) : bool := Z.land v (netmask n) =? net_address n.

(** ** Classes *)

Definition MAX_ADDRESS_TEXT_LENGTH : nat := 128.

Inductive AddressClass := Address_LOOPBACK | Address_PRIVATE | Address_PUBLIC | Address_BLOCKED.
Inductive BlockedAddressReason :=
  | Blocked_UNSPECIFIED | Blocked_MULTICAST | Blocked_LINK_LOCAL | Blocked_METADATA | Blocked_DOCUMENTATION
  | Blocked_BENCHMARK | Blocked_RESERVED | Blocked_TRANSITION | Blocked_SPECIAL_USE | Blocked_SCOPED.
#[global] Instance AddressClass_eq_dec : EqDecision AddressClass.
Proof. solve_decision. Defined.
#[global] Instance BlockedAddressReason_eq_dec : EqDecision BlockedAddressReason.
Proof. solve_decision. Defined.

Record AddressClassification := {
  normalized : str;
  version : Z;
  address_class : AddressClass;
  blocked_reason : option BlockedAddressReason
}.
#[global] Instance AddressClassification_eq_dec : EqDecision AddressClassification.
Proof. solve_decision. Defined.

Definition _IPV4_LOOPBACK : network := net4 "127.0.0.0" 8.
Definition _IPV4_PRIVATE : list network :=
  [net4 "10.0.0.0" 8; net4 "172.16.0.0" 12; net4 "192.168.0.0" 16].
Definition _IPV4_METADATA : list network :=
  [net4 "100.100.100.200" 32; net4 "168.63.129.16" 32; net4 "169.254.169.254" 32; net4 "169.254.170.2" 32;
   net4 "192.0.0.192" 32].
Definition _IPV4_BLOCKED : list (network * BlockedAddressReason) :=
  [(net4 "0.0.0.0" 8, Blocked_UNSPECIFIED); (net4 "100.64.0.0" 10, Blocked_SPECIAL_USE);
   (net4 "169.254.0.0" 16, Blocked_LINK_LOCAL); (net4 "192.0.0.0" 24, Blocked_SPECIAL_USE);
   (net4 "192.0.2.0" 24, Blocked_DOCUMENTATION); (net4 "192.31.196.0" 24, Blocked_SPECIAL_USE);
   (net4 "192.52.193.0" 24, Blocked_TRANSITION); (net4 "192.88.99.0" 24, Blocked_TRANSITION);
   (net4 "192.175.48.0" 24, Blocked_SPECIAL_USE); (net4 "198.18.0.0" 15, Blocked_BENCHMARK);
   (net4 "198.51.100.0" 24, Blocked_DOCUMENTATION); (net4 "203.0.113.0" 24, Blocked_DOCUMENTATION);
   (net4 "224.0.0.0" 4, Blocked_MULTICAST); (net4 "240.0.0.0" 4, Blocked_RESERVED)].

Definition _IPV6_LOOPBACK : network := net6 "::1" 128.
Definition _IPV6_PRIVATE : network := net6 "fc00::" 7.
Definition _IPV6_METADATA : list network :=
  [net6 "fd00:ec2::254" 128; net6 "fd20:ce::254" 128].
Definition _IPV6_PUBLIC : list network :=
  [net6 "2001:200::" 23; net6 "2001:400::" 23; net6 "2001:600::" 23; net6 "2001:800::" 22;
   net6 "2001:c00::" 23; net6 "2001:e00::" 23; net6 "2001:1200::" 23; net6 "2001:1400::" 22;
   net6 "2001:1800::" 23; net6 "2001:1a00::" 23; net6 "2001:1c00::" 22; net6 "2001:2000::" 19;
   net6 "2001:4000::" 23; net6 "2001:4200::" 23; net6 "2001:4400::" 23; net6 "2001:4600::" 23;
   net6 "2001:4800::" 23; net6 "2001:4a00::" 23; net6 "2001:4c00::" 23; net6 "2001:5000::" 20;
   net6 "2001:8000::" 19; net6 "2001:a000::" 20; net6 "2001:b000::" 20; net6 "2003::" 18; net6 "2400::" 12;
   net6 "2410::" 12; net6 "2600::" 12; net6 "2610::" 23; net6 "2620::" 23; net6 "2630::" 12;
   net6 "2800::" 12; net6 "2a00::" 12; net6 "2a10::" 12; net6 "2c00::" 12].
Definition _IPV6_BLOCKED : list (network * BlockedAddressReason) :=
  [(net6 "::" 128, Blocked_UNSPECIFIED); (net6 "::" 96, Blocked_TRANSITION);
   (net6 "::ffff:0:0" 96, Blocked_TRANSITION); (net6 "64:ff9b::" 96, Blocked_TRANSITION);
   (net6 "64:ff9b:1::" 48, Blocked_TRANSITION); (net6 "100::" 64, Blocked_SPECIAL_USE);
   (net6 "100:0:0:1::" 64, Blocked_SPECIAL_USE); (net6 "2001::" 23, Blocked_SPECIAL_USE);
   (net6 "2001:db8::" 32, Blocked_DOCUMENTATION); (net6 "2002::" 16, Blocked_TRANSITION);
   (net6 "2620:4f:8000::" 48, Blocked_SPECIAL_USE); (net6 "3ffe::" 16, Blocked_TRANSITION);
   (net6 "3fff::" 20, Blocked_DOCUMENTATION); (net6 "5f00::" 16, Blocked_DOCUMENTATION);
   (net6 "fec0::" 10, Blocked_RESERVED); (net6 "fe80::" 10, Blocked_LINK_LOCAL);
   (net6 "ff00::" 8, Blocked_MULTICAST)].

(** The first network of a table that holds the address gives the reason. *)
Definition block_of (v : Z) (table : list (network * BlockedAddressReason)) : option BlockedAddressReason :=
  option_map snd (List.find (fun entry => in_network v entry.1) table).

Definition _classify_ipv4 (v : Z) : AddressClassification :=
  let classified c reason := {| normalized := format_ipv4 v; version := 4; address_class := c; blocked_reason := reason |} in
  if in_network v _IPV4_LOOPBACK then classified Address_LOOPBACK None
  else if existsb (in_network v) _IPV4_PRIVATE then classified Address_PRIVATE None
  else if existsb (in_network v) _IPV4_METADATA then classified Address_BLOCKED (Some Blocked_METADATA)
  else match block_of v _IPV4_BLOCKED with
       | Some reason => classified Address_BLOCKED (Some reason)
       | None => classified Address_PUBLIC None
       end.

Definition _classify_ipv6 (v : Z) (scope : option str) : AddressClassification :=
  let classified c reason :=
    {| normalized := ascii_lower (ip_str (IPv6 v scope)); version := 6; address_class := c; blocked_reason := reason |} in
  if in_network v _IPV6_LOOPBACK then classified Address_LOOPBACK None
  else if existsb (in_network v) _IPV6_METADATA then classified Address_BLOCKED (Some Blocked_METADATA)
  else if in_network v _IPV6_PRIVATE then classified Address_PRIVATE None
  else match block_of v _IPV6_BLOCKED with
       | Some reason => classified Address_BLOCKED (Some reason)
       | None =>
         if existsb (in_network v) _IPV6_PUBLIC then classified Address_PUBLIC None
         else classified Address_BLOCKED (Some Blocked_RESERVED)
       end.

Definition _parse_address (value : str) : result ip :=
  match ip_address value with Some a => Ok a | None => Raise ValueError end.

Definition ip_version (a : ip) : Z := match a with IPv4 _ => 4 | IPv6 _ _ => 6 end.

Definition classify_address (value : str) : result AddressClassification :=
  raise_if bool_decide (value = []) || (MAX_ADDRESS_TEXT_LENGTH <? length value)%nat
           || negb (bool_decide (value = strip value)) || has_control value with ValueError ;;
  match partition_on 37 value with
  | (base, Some zone) =>
    raise_if bool_decide (base = []) || bool_decide (zone = []) || has_char 37 zone with ValueError ;;
    let! parsed_scoped := _parse_address base in
    Ok {| normalized := ip_str parsed_scoped; version := ip_version parsed_scoped;
          address_class := Address_BLOCKED; blocked_reason := Some Blocked_SCOPED |}
  | (_, None) =>
    let! parsed := _parse_address value in
    Ok (match parsed with
        | IPv4 v => _classify_ipv4 v
        | IPv6 v scope => _classify_ipv6 v scope
        end)
  end.

Definition class_of (text : string) : option AddressClass :=
  match classify_address (u text) with Ok c => Some (address_class c) | Raise _ => None end.
Example classes : map class_of ["127.1.2.3"; "10.0.0.1"; "8.8.8.8"; "169.254.169.254"; "::1"; "fd00:ec2::254"; "fd00::1";
    "2606:4700::1111"; "::ffff:127.0.0.1"; "fe80::1%eth0"; "010.0.0.1"]
  = [Some Address_LOOPBACK; Some Address_PRIVATE; Some Address_PUBLIC; Some Address_BLOCKED; Some Address_LOOPBACK;
     Some Address_BLOCKED; Some Address_PRIVATE; Some Address_PUBLIC; Some Address_BLOCKED; Some Address_BLOCKED; None].
Proof. vm_compute. reflexivity. Qed.

Example ipv4_read : parse_ipv4 (u "192.168.0.1") = Some 3232235521. Proof. vm_compute. reflexivity. Qed.
Example ipv4_zero : parse_ipv4 (u "192.168.00.1") = None. Proof. vm_compute. reflexivity. Qed.
Example ipv6_write : format_ipv6 0x20010db8000000000001000000000001 = u "2001:db8::1:0:0:1".
Proof. vm_compute. reflexivity. Qed.
Example ipv6_read : parse_ipv6_int (u "2001:DB8::1:0:0:1") = Some 0x20010db8000000000001000000000001.
Proof. vm_compute. reflexivity. Qed.
Example ipv6_mapped : parse_ipv6_int (u "::ffff:127.0.0.1") = Some 0xffff7f000001. Proof. vm_compute. reflexivity. Qed.
Example ipv6_colons : map parse_ipv6_int [u "::"; u ":::"; u "1::"; u "1:::2"; u ":1::"; u "1:2:3:4:5:6:7::"; u "::1:2:3:4:5:6:7:8"]
  = [Some 0; None; Some (2 ^ 112); None; None; Some 0x00010002000300040005000600070000; None].
Proof. vm_compute. reflexivity. Qed.
