(* ===== verification/AddressText.v ===== *)
(** * Written addresses read back

    The text an address is normalized to reads back as the same address, in both versions; the run of
    zero groups the writer leaves out is the one the reader fills in. *)

From S2P Require Import Prelude Sha256 Text TextLemmas Addresses.

Local Open Scope Z_scope.

Lemma digits_small k n v d : 0 < k -> d ∈ to_digits k n v [] -> 0 <= d < 2 ^ k.
Proof. intros Hk. pose proof (to_digits_digit k Hk n v) as Hf. rewrite list.Forall_forall in Hf. apply Hf. Qed.

(** ** IPv4 *)

Definition octet_ok (d : Z) : bool :=
  bool_decide (parse_octet (str_of_int d) = Some d)
  && negb (existsb (fun c => has_char c (str_of_int d)) [37; 46; 47; 58]%N).

Lemma octets_ok d : 0 <= d < 256 -> octet_ok d = true.
Proof.
  intros Hd. assert (forallb octet_ok (map Z.of_nat (seq 0 256)) = true) as H by (vm_compute; reflexivity).
  rewrite forallb_forall in H. apply H, in_map_iff. exists (Z.to_nat d). split; [lia|]. apply in_seq. lia.
Qed.

Lemma octet_reads d : 0 <= d < 256 -> parse_octet (str_of_int d) = Some d.
Proof. intros [H _]%octets_ok%andb_true_iff. by apply bool_decide_eq_true in H. Qed.

Lemma octet_plain d c : 0 <= d < 256 -> c ∈ [37; 46; 47; 58]%N -> has_char c (str_of_int d) = false.
Proof.
  intros [_ H]%octets_ok%andb_true_iff Hc. apply negb_true_iff in H.
  destruct (has_char c (str_of_int d)) eqn:E; [|done]. rewrite <- H. symmetry. apply existsb_exists.
  exists c. by rewrite <- list_elem_of_In.
Qed.

Lemma format_ipv4_plain v c : c ∈ [37; 47; 58]%N -> has_char c (format_ipv4 v) = false.
Proof.
  intros Hc. apply join_char; [set_solver|]. apply Forall_map, list.Forall_forall. intros d Hd.
  apply octet_plain; [by apply (digits_small 8 4 v)|set_solver].
Qed.

Theorem ipv4_roundtrip v : 0 <= v < 2 ^ 32 -> parse_ipv4 (format_ipv4 v) = Some v.
Proof.
  intros Hv. unfold parse_ipv4. rewrite format_ipv4_plain by set_solver. unfold format_ipv4.
  assert (forall d, d ∈ to_digits 8 4 v [] -> 0 <= d < 256) as Hd by (intros d; by apply digits_small).
  rewrite split_join; [|done|apply Forall_map, list.Forall_forall; intros d Hin; apply octet_plain; [auto|set_solver]].
  rewrite bool_decide_true by done. rewrite mapM_inverse by (intros; apply octet_reads; auto).
  cbn [option_map]. f_equal. by apply (of_to_digits 8).
Qed.

(** ** Groups of an IPv6 address *)

Lemma hex_digit_cases d : 0 <= d < 16 -> hex_digit d ∈ u "0123456789abcdef".
Proof.
  intros Hd. assert (forallb (fun d => bool_decide (hex_digit d ∈ u "0123456789abcdef")) (map Z.of_nat (seq 0 16)) = true)
    as H by (vm_compute; reflexivity).
  rewrite forallb_forall in H. specialize (H d). apply bool_decide_eq_true in H; [done|].
  apply in_map_iff. exists (Z.to_nat d). split; [lia|]. apply in_seq. lia.
Qed.

Definition hex_char_ok (c : N) : bool :=
  is_hex_digit c && forallb (fun x => negb (x =? c)%N) [37; 46; 47; 58]%N.

Lemma hex_char_fine c : c ∈ u "0123456789abcdef" -> hex_char_ok c = true.
Proof.
  intros Hc. assert (forallb hex_char_ok (u "0123456789abcdef") = true) as H by (vm_compute; reflexivity).
  rewrite forallb_forall in H. by apply H, list_elem_of_In.
Qed.

Lemma hex_value_of_digit d : 0 <= d < 16 -> hex_digit_value (hex_digit d) = d.
Proof.
  intros Hd. assert (forallb (fun d => hex_digit_value (hex_digit d) =? d) (map Z.of_nat (seq 0 16)) = true)
    as H by (vm_compute; reflexivity).
  rewrite forallb_forall in H. apply Z.eqb_eq, H, in_map_iff. exists (Z.to_nat d). split; [lia|]. apply in_seq. lia.
Qed.

Lemma drop_zeros_value s : of_digits 4 (map hex_digit_value (drop_zeros s)) = of_digits 4 (map hex_digit_value s).
Proof.
  induction s as [|c s IH]; [done|]. destruct s as [|d s]; [done|].
  change (drop_zeros (c :: d :: s)) with (if (c =? 48)%N then drop_zeros (d :: s) else c :: d :: s).
  destruct (c =? 48)%N eqn:E; [|done]. apply N.eqb_eq in E as ->. by rewrite IH.
Qed.

Lemma drop_zeros_sub s : exists p, s = p ++ drop_zeros s /\ (s <> [] -> drop_zeros s <> []).
Proof.
  induction s as [|c s (p & Hp & Hne)]; [by exists []|]. destruct s as [|d s]; [by exists []|].
  change (drop_zeros (c :: d :: s)) with (if (c =? 48)%N then drop_zeros (d :: s) else c :: d :: s).
  destruct (c =? 48)%N; [|by exists []]. exists (c :: p). split; [|intros _; by apply Hne].
  rewrite <- app_comm_cons. by rewrite <- Hp.
Qed.

(** The text of a group: at most four hexadecimal digits, at least one. *)
Lemma hex_text_shape v :
  hex_text v <> [] /\ (length (hex_text v) <= 4)%nat /\ Forall (fun c => c ∈ u "0123456789abcdef") (hex_text v).
Proof.
  unfold hex_text. set (s := map hex_digit (to_digits 4 4 v [])).
  destruct (drop_zeros_sub s) as (p & Hp & Hne).
  assert (length s = 4%nat) as Hl by (unfold s; by rewrite length_map, length_to_digits).
  split; [apply Hne; by intros ->|]. split.
  - assert (length s = length (p ++ drop_zeros s)) as Hl' by (by rewrite <- Hp). rewrite length_app in Hl'. lia.
  - assert (Forall (fun c => c ∈ u "0123456789abcdef") s) as Hf.
    { apply Forall_map, list.Forall_forall. intros d Hd. apply hex_digit_cases. by apply (digits_small 4 4 v). }
    rewrite Hp in Hf. by apply Forall_app in Hf as [_ Hf].
Qed.

Lemma hex_text_plain v c : c ∈ [37; 46; 47; 58]%N -> has_char c (hex_text v) = false.
Proof.
  intros Hc. destruct (hex_text_shape v) as (_ & _ & Hf). unfold has_char. apply existsb_false.
  apply list.Forall_forall. intros x Hx. rewrite list.Forall_forall in Hf. apply Hf, hex_char_fine, andb_true_iff in Hx as [_ Hx].
  rewrite forallb_forall in Hx. apply negb_true_iff, Hx. by apply list_elem_of_In.
Qed.

Lemma hextet_reads v : 0 <= v < 2 ^ 16 -> parse_hextet (hex_text v) = Some v.
Proof.
  intros Hv. destruct (hex_text_shape v) as (Hne & Hl & Hf). unfold parse_hextet.
  assert (forallb is_hex_digit (hex_text v) = true) as ->.
  { apply forallb_forall. intros c Hc%list_elem_of_In. rewrite list.Forall_forall in Hf.
    by apply Hf, hex_char_fine, andb_true_iff in Hc as [? _]. }
  rewrite (proj2 (Nat.ltb_ge _ _)) by done. rewrite bool_decide_false by done. simpl. f_equal. unfold hex_text.
  rewrite drop_zeros_value, map_map. rewrite (map_ext_in _ (fun d => d)).
  - rewrite map_id. by apply (of_to_digits 4).
  - intros d Hd%list_elem_of_In. apply hex_value_of_digit. by apply (digits_small 4 4 v).
Qed.

(** ** The run of zeros left out *)

Definition zero : str := u "0".

(** The best and the current run are runs of zeros in what was read. *)
Definition runs_found (read : list str) (s : zero_runs * nat) : Prop :=
  s.2 = length read /\
  ((0 < best_len s.1)%nat -> exists before after,
     read = before ++ replicate (best_len s.1) zero ++ after /\ length before = best_start s.1) /\
  (exists before, read = before ++ replicate (run_len s.1) zero /\
     ((0 < run_len s.1)%nat -> length before = run_start s.1)).

Lemma scan_zero_found read s hextet : runs_found read s -> runs_found (read ++ [hextet]) (scan_zero s hextet).
Proof.
  destruct s as [r index]. intros (Hi & Hb & before & Hr & Hs). cbn [fst snd] in *.
  unfold runs_found, scan_zero. cbn [fst snd]. rewrite length_app. simpl length. split; [lia|].
  case_bool_decide as Hz; cbn [best_len best_start run_len run_start].
  - subst hextet. fold zero.
    assert (exists start, (if (run_len r =? 0)%nat then index else run_start r) = start /\
      read ++ [zero] = before ++ replicate (S (run_len r)) zero /\ length before = start) as (start & -> & Hread & Hl).
    { eexists. split; [reflexivity|]. rewrite Hr, <- app_assoc. split; [by rewrite replicate_S_end|].
      destruct (run_len r =? 0)%nat eqn:E.
      - apply Nat.eqb_eq in E. rewrite E in Hr. simpl in Hr. rewrite app_nil_r in Hr. congruence.
      - apply Nat.eqb_neq in E. apply Hs. lia. }
    destruct (best_len r <? S (run_len r))%nat eqn:E; cbn [best_len best_start run_len run_start]; split.
    + intros _. exists before, []. by rewrite app_nil_r.
    + by exists before.
    + intros Hp. destruct (Hb Hp) as (b1 & a1 & Heq & Hl1). exists b1, (a1 ++ [zero]).
      split; [rewrite Heq; by rewrite <- !app_assoc|done].
    + by exists before.
  - split; [|exists (read ++ [hextet]); rewrite app_nil_r; by split; [|lia]].
    intros Hp. destruct (Hb Hp) as (b1 & a1 & Heq & Hl1). exists b1, (a1 ++ [hextet]).
    split; [rewrite Heq; by rewrite <- !app_assoc|done].
Qed.

Lemma scan_found hextets read s :
  runs_found read s -> runs_found (read ++ hextets) (fold_left scan_zero hextets s).
Proof.
  revert read s. induction hextets as [|h hextets IH]; intros read s H; simpl; [by rewrite app_nil_r|].
  rewrite cons_middle, app_assoc. apply IH. by apply scan_zero_found.
Qed.

(** The written groups: all of them, or all but one run of at least two zeros. *)
Definition padded (before after : list str) : list str :=
  (if bool_decide (before = []) then [[]] else []) ++ before ++ [] :: after
  ++ (if bool_decide (after = []) then [[]] else []).

Lemma compress_cases hextets :
  compress_hextets hextets = hextets \/
  exists before n after, hextets = before ++ replicate n zero ++ after /\ (2 <= n)%nat /\
    compress_hextets hextets = padded before after.
Proof.
  unfold compress_hextets.
  pose proof (scan_found hextets [] ({| best_start := 0; best_len := 0; run_start := 0; run_len := 0 |}, 0%nat)) as Hf.
  destruct (fold_left scan_zero hextets _) as [r index]. cbn [fst].
  destruct Hf as (_ & Hb & _); [split; [done|]; split; [simpl; lia|]; by exists []|]. cbn [fst snd app] in Hb.
  destruct (best_len r <=? 1)%nat eqn:E; [by left|]. apply Nat.leb_gt in E. right.
  destruct Hb as (before & after & Heq & Hl); [lia|]. exists before, (best_len r), after. split; [done|]. split; [lia|].
  unfold padded. rewrite <- Hl. rewrite Heq, take_app_length.
  assert (drop (length before + best_len r) (before ++ replicate (best_len r) zero ++ after) = after) as Hd.
  { rewrite app_assoc. apply drop_app_length'. by rewrite length_app, length_replicate. }
  rewrite Hd, !length_app, length_replicate.
  assert ((length before + best_len r =? length before + (best_len r + length after))%nat = bool_decide (after = [])) as ->.
  { apply eq_true_iff_eq. rewrite Nat.eqb_eq, bool_decide_eq_true, <- length_zero_iff_nil. lia. }
  assert ((length before =? 0)%nat = bool_decide (before = [])) as ->.
  { apply eq_true_iff_eq. by rewrite Nat.eqb_eq, bool_decide_eq_true, <- length_zero_iff_nil. }
  by case_bool_decide.
Qed.

(** ** Reading the groups back *)

Lemma filter_unique {A} (f : A -> bool) l x :
  List.NoDup l -> x ∈ l -> f x = true -> (forall y, y ∈ l -> f y = true -> y = x) -> List.filter f l = [x].
Proof.
  intros Hn Hx Hf Hu. apply Permutation_singleton_r, NoDup_Permutation.
  - apply NoDup_ListNoDup. by apply List.NoDup_filter.
  - apply NoDup_singleton.
  - intros y. rewrite list_elem_of_In, List.filter_In, <- list_elem_of_In, list_elem_of_singleton.
    split; [intros [Hy Hfy]; by apply Hu|by intros ->].
Qed.

(** The groups on either side of the gap, each side with its end, which is empty when it has no group. *)
Definition side (groups : list str) : list str := if bool_decide (groups = []) then [[]] else groups.

Lemma padded_sides before after : padded before after = side before ++ [] :: side after.
Proof.
  unfold padded, side. case_bool_decide as Hb; [rewrite Hb|]; case_bool_decide as Ha; try rewrite Ha; simpl;
    by rewrite ?app_nil_r.
Qed.

Lemma side_length groups : length (side groups) = Nat.max 1 (length groups).
Proof. unfold side. case_bool_decide as H; [by rewrite H|]. destruct groups; simpl; [done|lia]. Qed.

Section sides.
Context (before after : list str).
Hypothesis (Hb : Forall (fun p => p <> []) before) (Ha : Forall (fun p => p <> []) after).

Lemma side_group groups i : Forall (fun p => p <> []) groups -> side groups !! i = Some [] -> groups = [] /\ i = 0%nat.
Proof using Type.
  unfold side. intros Hf. case_bool_decide as H.
  - intros Hi. split; [done|]. apply lookup_lt_Some in Hi. simpl in Hi. lia.
  - intros Hi. rewrite list.Forall_forall in Hf. apply list_elem_of_lookup_2, Hf in Hi. done.
Qed.

Lemma padded_gap : empty_inner (padded before after) = [length (side before)].
Proof using Ha Hb.
  rewrite padded_sides. unfold empty_inner. rewrite length_app. simpl length.
  pose proof (side_length before) as Hl. pose proof (side_length after) as Hr. apply filter_unique.
  - apply seq_NoDup.
  - apply list_elem_of_In, in_seq. lia.
  - rewrite bool_decide_eq_true. by rewrite list_lookup_middle.
  - intros i Hi%list_elem_of_In%in_seq Hg%bool_decide_eq_true.
    apply lookup_app_Some in Hg as [Hg|[Hge Hg]].
    + apply side_group in Hg as [_ ->]; [lia|done].
    + destruct (i - length (side before))%nat as [|j] eqn:Ej; [lia|]. simpl in Hg.
      pose proof (lookup_lt_Some _ _ _ Hg). apply side_group in Hg as [Hn ->]; [|done]. assert (length after = 0%nat) by (by rewrite Hn). lia.
Qed.

Lemma last_side : List.last (side after) [] = [] <-> after = [].
Proof using Ha.
  unfold side. case_bool_decide as H; [done|]. split; [|done]. intros Hl.
  rewrite list.Forall_forall in Ha. exfalso. apply (Ha (List.last after [])); [|done].
  destruct (exists_last H) as (l & x & ->). rewrite last_last. apply elem_of_app. right. by left.
Qed.

Lemma layout_padded :
  (length before + length after < 8)%nat ->
  layout (padded before after) = Some (length before, length after, 8 - (length before + length after))%nat.
Proof using Ha Hb.
  intros Hlen. unfold layout. rewrite padded_gap. rewrite padded_sides.
  assert (bool_decide (head (side before ++ [] :: side after) = Some []) = bool_decide (before = [])) as ->.
  { unfold side at 1. apply eq_true_iff_eq. rewrite !bool_decide_eq_true. case_bool_decide as H; [done|].
    destruct before as [|p l]; [done|]. inversion Hb; subst. simpl. split; [by intros [= ->]|done]. }
  assert (bool_decide (List.last (side before ++ [] :: side after) [] = []) = bool_decide (after = [])) as ->.
  { apply eq_true_iff_eq. rewrite !bool_decide_eq_true. rewrite <- last_side.
    rewrite cons_middle, app_assoc, last_append; [done|].
    pose proof (side_length after). intros Hn. rewrite Hn in H. simpl in H. lia. }
  rewrite length_app. simpl length. pose proof (side_length before) as Hl. pose proof (side_length after) as Hr.
  assert ((if bool_decide (before = []) then length (side before) - 1 else length (side before)) = length before)%nat as ->.
  { case_bool_decide as H; rewrite Hl; [by rewrite H|]. destruct before; simpl; [done|lia]. }
  assert ((if bool_decide (after = []) then length (side before) + S (length (side after)) - length (side before) - 1 - 1
    else length (side before) + S (length (side after)) - length (side before) - 1) = length after)%nat as ->.
  { case_bool_decide as H; rewrite Hr; [rewrite H; simpl; lia|]. destruct after; simpl; [done|lia]. }
  rewrite (proj2 (Nat.leb_gt 8 _)) by lia.
  assert (bool_decide (before = []) && negb (length before =? 0)%nat = false) as ->.
  { case_bool_decide as H; [by rewrite H|done]. }
  assert (bool_decide (after = []) && negb (length after =? 0)%nat = false) as ->.
  { case_bool_decide as H; [by rewrite H|done]. }
  done.
Qed.

Lemma padded_take : take (length before) (padded before after) = before.
Proof using Type.
  unfold padded. case_bool_decide as H; [by rewrite H|]. simpl. by rewrite take_app_length.
Qed.
Lemma padded_drop : drop (length (padded before after) - length after) (padded before after) = after.
Proof using Type.
  rewrite padded_sides. unfold side at 2 4. case_bool_decide as H.
  - rewrite H. simpl length. rewrite Nat.sub_0_r. by rewrite drop_all.
  - rewrite length_app. simpl length. rewrite cons_middle, app_assoc. apply drop_app_length'.
    rewrite length_app. simpl. lia.
Qed.
End sides.

(** ** IPv6 *)

Definition group_text (p : str) : Prop := p = [] \/ exists v, p = hex_text v.

Lemma group_plain c p : c ∈ [37; 46; 47; 58]%N -> group_text p -> has_char c p = false.
Proof. intros Hc [->|[v ->]]; [done|by apply hex_text_plain]. Qed.

Lemma groups_last parts : Forall group_text parts -> group_text (List.last parts []).
Proof.
  intros Hf. destruct parts as [|p l]; [by left|]. destruct (exists_last (l := p :: l)) as (k & x & Hk); [done|].
  rewrite Hk in *. rewrite last_last. apply Forall_app in Hf as [_ Hf]. by apply Forall_inv in Hf.
Qed.

(** A text of groups is read by its layout. *)
Lemma parse_groups parts hi lo skipped :
  Forall group_text parts -> (3 <= length parts <= 9)%nat -> layout parts = Some (hi, lo, skipped) ->
  parse_ipv6_int (join_on 58 parts) =
    match mapM parse_hextet (take hi parts), mapM parse_hextet (drop (length parts - lo) parts) with
    | Some high, Some low => Some (of_digits 16 (high ++ replicate skipped 0 ++ low))
    | _, _ => None
    end.
Proof.
  intros Hf Hl Hlay. unfold parse_ipv6_int. rewrite split_join.
  2: { intros ->. simpl in Hl. lia. }
  2: { eapply List.Forall_impl; [|exact Hf]. intros p. apply group_plain. set_solver. }
  rewrite bool_decide_false.
  2: { destruct parts as [|p [|q l]]; simpl in Hl; try lia.
       change (p ++ 58%N :: join_on 58 (q :: l) <> []). by destruct p. }
  rewrite (proj2 (Nat.ltb_ge _ 3)) by lia. cbn [orb]. unfold expand_suffix.
  rewrite (group_plain 46 (List.last parts [])) by (set_solver || by apply groups_last).
  rewrite (proj2 (Nat.ltb_ge 9 _)) by lia. by rewrite Hlay.
Qed.

Lemma padded_groups before after :
  Forall group_text before -> Forall group_text after -> Forall group_text (padded before after).
Proof.
  assert (forall g, Forall group_text g -> Forall group_text (side g)) as Hs.
  { intros g Hf. unfold side. case_bool_decide; [|done]. constructor; [by left|constructor]. }
  intros Hb Ha. rewrite padded_sides. apply Forall_app. split; [by apply Hs|]. constructor; [by left|by apply Hs].
Qed.

(** Eight groups without a gap. *)
Lemma layout_full parts :
  length parts = 8%nat -> Forall (fun p => p <> []) parts -> layout parts = Some (8, 0, 0)%nat.
Proof.
  intros Hl Hf. destruct parts as [|d0 [|d1 [|d2 [|d3 [|d4 [|d5 [|d6 [|d7 []]]]]]]]]; try discriminate Hl.
  repeat match goal with H : Forall _ (_ :: _) |- _ => inversion H; clear H; subst end.
  unfold layout, empty_inner. simpl. by rewrite !bool_decide_false by congruence.
Qed.

Lemma hextets_read ds : (forall d, d ∈ ds -> 0 <= d < 2 ^ 16) -> mapM parse_hextet (map hex_text ds) = Some ds.
Proof. intros H. apply mapM_inverse. intros d Hd. apply hextet_reads. auto. Qed.

Lemma group_texts ds : Forall group_text (map hex_text ds) /\ Forall (fun p => p <> []) (map hex_text ds).
Proof.
  split; apply Forall_map, list.Forall_forall; intros d _; [right; by exists d|apply hex_text_shape].
Qed.

(** Only zero is written as a zero group. *)
Lemma zero_groups ds n :
  (forall d, d ∈ ds -> 0 <= d < 2 ^ 16) -> map hex_text ds = replicate n zero -> ds = replicate n 0.
Proof.
  intros Hd Heq. assert (mapM parse_hextet (replicate n zero) = Some ds) as H by (rewrite <- Heq; by apply hextets_read).
  assert (mapM parse_hextet (replicate n zero) = Some (replicate n 0)) as H'.
  { apply mapM_Some. clear. induction n; simpl; constructor; [by vm_compute|done]. }
  congruence.
Qed.

Lemma groups_split ds before mid after :
  map hex_text ds = before ++ mid ++ after ->
  exists d1 d2 d3, ds = d1 ++ d2 ++ d3 /\ before = map hex_text d1 /\ mid = map hex_text d2 /\ after = map hex_text d3.
Proof.
  intros H. apply map_eq_app in H as (d1 & r & -> & <- & H). apply map_eq_app in H as (d2 & d3 & -> & <- & <-).
  by exists d1, d2, d3.
Qed.

Theorem ipv6_roundtrip v : 0 <= v < 2 ^ 128 -> parse_ipv6_int (format_ipv6 v) = Some v.
Proof.
  intros Hv. unfold format_ipv6.
  pose proof (length_to_digits 16 8 v) as Hlen. pose proof (fun d => digits_small 16 8 v d eq_refl) as Hd.
  pose proof (of_to_digits 16 eq_refl 8 v Hv) as Hof. revert Hlen Hd Hof. generalize (to_digits 16 8 v []) as ds.
  intros ds Hlen Hd Hof. destruct (group_texts ds) as [Hg Hne].
  destruct (compress_cases (map hex_text ds)) as [->|(before & n & after & Heq & Hn & ->)].
  - assert (layout (map hex_text ds) = Some (8, 0, 0)%nat) as Hlay by (apply layout_full; [by rewrite length_map|done]).
    rewrite (parse_groups _ 8 0 0 Hg); [|rewrite length_map; lia|exact Hlay].
    rewrite take_ge, drop_ge by (rewrite length_map; lia).
    rewrite hextets_read by done. simpl. by rewrite app_nil_r, Hof.
  - destruct (groups_split _ _ _ _ Heq) as (d1 & d2 & d3 & -> & -> & H2 & ->).
    rewrite !length_app in Hlen. assert (length d2 = n) as Hn2.
    { assert (length (replicate n zero) = length (map hex_text d2)) as Hl by (by rewrite H2).
      by rewrite length_replicate, length_map in Hl. }
    assert (d2 = replicate n 0) as Hz.
    { apply zero_groups; [|done]. intros d Hin. apply Hd. apply elem_of_app. right. apply elem_of_app. by left. }
    destruct (group_texts d1) as [Hg1 Hne1]. destruct (group_texts d3) as [Hg3 Hne3].
    pose proof (layout_padded _ _ Hne1 Hne3) as Hlay. rewrite !length_map in Hlay.
    pose proof (padded_groups _ _ Hg1 Hg3) as Hgp.
    rewrite (parse_groups _ (length d1) (length d3) (8 - (length d1 + length d3)) Hgp); [| |exact (Hlay ltac:(lia))].
    2: { rewrite padded_sides, length_app. simpl length. rewrite !side_length, !length_map. lia. }
    pose proof (padded_take (map hex_text d1) (map hex_text d3)) as Ht.
    pose proof (padded_drop (map hex_text d1) (map hex_text d3)) as Hdr. rewrite length_map in Ht, Hdr.
    rewrite Ht, Hdr, !hextets_read; [|intros d Hin; apply Hd; rewrite !elem_of_app; tauto..].
    rewrite <- Hof, Hz. do 5 f_equal. lia.
Qed.

(** What is written are at most nine groups, some of them left empty. *)
Lemma compress_shape ds :
  length ds = 8%nat -> Forall group_text (compress_hextets (map hex_text ds)) /\
    (3 <= length (compress_hextets (map hex_text ds)) <= 9)%nat.
Proof.
  intros Hlen. destruct (group_texts ds) as [Hg _].
  destruct (compress_cases (map hex_text ds)) as [->|(before & n & after & Heq & Hn & ->)].
  - split; [done|]. rewrite length_map. lia.
  - rewrite Heq in Hg. apply Forall_app in Hg as [Hg1 Hg]. apply Forall_app in Hg as [_ Hg3].
    split; [by apply padded_groups|]. rewrite padded_sides, length_app. simpl length. rewrite !side_length.
    assert (length (map hex_text ds) = length (before ++ replicate n zero ++ after)) as Hl by (by rewrite Heq).
    rewrite length_map, !length_app, length_replicate in Hl. lia.
Qed.

(** ** The numbers read *)

Lemma parse_octet_bound p v : parse_octet p = Some v -> is_digit 8 v.
Proof.
  unfold parse_octet, is_digit. destruct (_ || _ || _) eqn:E1; [done|]. destruct (_ && _); [done|].
  destruct (255 <? decimal_of p) eqn:E; [done|]. intros [= <-]. apply Z.ltb_ge in E. split; [|lia].
  rewrite !orb_false_iff, negb_false_iff in E1. destruct E1 as [[_ Hd] _]. clear E. unfold decimal_of.
  assert (forall acc, 0 <= acc -> 0 <= fold_left (fun acc c => acc * 10 + (Z.of_N c - 48)) p acc) as H; [|by apply H].
  induction p as [|c p IH]; intros acc Hacc; simpl; [done|]. simpl in Hd. apply andb_true_iff in Hd as [Hc Hd].
  unfold is_decimal, char_between in Hc. apply andb_true_iff in Hc as [Hc%N.leb_le _]. apply IH; [done|lia].
Qed.

Lemma mapM_digits {A} (f : A -> option Z) k l vs :
  (forall x v, f x = Some v -> is_digit k v) -> mapM f l = Some vs -> Forall (is_digit k) vs /\ length vs = length l.
Proof.
  intros Hf H%mapM_Some. split; [|symmetry; by eapply Forall2_length].
  induction H as [|x v l vs Hx _ IH]; constructor; eauto.
Qed.

Lemma parse_ipv4_bound text v : parse_ipv4 text = Some v -> 0 <= v < 2 ^ 32.
Proof.
  unfold parse_ipv4. destruct (has_char 47 text); [done|]. case_bool_decide as Hl; [|done].
  destruct (mapM parse_octet _) as [vs|] eqn:E; [|done]. intros [= <-].
  destruct (mapM_digits _ 8 _ _ parse_octet_bound E) as [Hd Hv].
  pose proof (of_digits_bound 8 eq_refl vs Hd) as Hb. by rewrite Hv, Hl in Hb.
Qed.

Lemma hex_digit_value_bound c : is_hex_digit c = true -> is_digit 4 (hex_digit_value c).
Proof.
  unfold is_hex_digit, hex_digit_value, is_digit, is_decimal, char_between.
  destruct (_ && _) eqn:E1; [apply andb_true_iff in E1 as [H1%N.leb_le H2%N.leb_le]; lia|].
  destruct ((97 <=? c)%N && _) eqn:E2; [apply andb_true_iff in E2 as [H1%N.leb_le H2%N.leb_le]; lia|].
  cbn [orb]. intros [H1%N.leb_le H2%N.leb_le]%andb_true_iff. lia.
Qed.

Lemma parse_hextet_bound p v : parse_hextet p = Some v -> is_digit 16 v.
Proof.
  unfold parse_hextet, is_digit. destruct (_ || _ || _) eqn:E; [done|]. intros [= <-].
  rewrite !orb_false_iff, negb_false_iff in E. destruct E as [[Hh Hl%Nat.ltb_ge] _].
  assert (Forall (is_digit 4) (map hex_digit_value p)) as Hf.
  { apply Forall_map, list.Forall_forall. intros c Hc. apply hex_digit_value_bound. rewrite forallb_forall in Hh.
    by apply Hh, list_elem_of_In. }
  pose proof (of_digits_bound 4 eq_refl _ Hf) as Hb. rewrite length_map in Hb.
  assert (2 ^ (4 * Z.of_nat (length p)) <= 2 ^ 16) by (apply Z.pow_le_mono_r; lia). lia.
Qed.

Lemma layout_total parts hi lo skipped : layout parts = Some (hi, lo, skipped) -> (hi + lo + skipped = 8)%nat.
Proof.
  unfold layout. destruct (empty_inner parts) as [|skip []]; [| |done].
  - destruct (_ || _ || _) eqn:E; [done|]. intros [= <- <- <-]. rewrite !orb_false_iff, negb_false_iff in E.
    destruct E as [[E%Nat.eqb_eq _] _]. lia.
  - destruct (_ || _ || _) eqn:E; [done|]. intros [= <- <- <-]. rewrite !orb_false_iff in E.
    destruct E as [_ E%Nat.leb_gt]. lia.
Qed.

Lemma parse_ipv6_bound text v : parse_ipv6_int text = Some v -> 0 <= v < 2 ^ 128.
Proof.
  unfold parse_ipv6_int. destruct (_ || _); [done|]. destruct (expand_suffix _) as [parts|]; [|done].
  destruct (9 <? length parts)%nat; [done|]. destruct (layout parts) as [[[hi lo] skipped]|] eqn:El; [|done].
  destruct (mapM parse_hextet (take hi parts)) as [high|] eqn:E1; [|done].
  destruct (mapM parse_hextet (drop _ parts)) as [low|] eqn:E2; [|done]. intros [= <-].
  destruct (mapM_digits _ 16 _ _ parse_hextet_bound E1) as [H1 L1].
  destruct (mapM_digits _ 16 _ _ parse_hextet_bound E2) as [H2 L2].
  assert (Forall (is_digit 16) (high ++ replicate skipped 0 ++ low)) as Hf.
  { apply Forall_app. split; [done|]. apply Forall_app. split; [|done]. apply Forall_replicate. by unfold is_digit. }
  pose proof (of_digits_bound 16 eq_refl _ Hf) as Hb. rewrite !length_app, length_replicate, L1, L2, length_take, length_drop in Hb.
  pose proof (layout_total _ _ _ _ El). 
  assert (2 ^ (16 * Z.of_nat (hi `min` length parts + (skipped + (length parts - (length parts - lo))))) <= 2 ^ 128)
    by (apply Z.pow_le_mono_r; lia). lia.
Qed.
