(* ===== verification/AddressClasses.v ===== *)
(** * What the classes of addresses stand for

    Membership in a network is a range of addresses, the tables of [network/addresses.py] decide by
    the leading octets or groups of an address, and an address keeps its class when its normalized
    text is read again. *)

From S2P Require Import Prelude Sha256 Text TextLemmas Addresses AddressText.

Local Open Scope Z_scope.

(** ** Networks as ranges *)

Definition net_size (n : network) : Z := 2 ^ (net_bits n - net_prefix n).
(** No host bit is set, as the constructor of a network demands. *)
Definition net_ok (n : network) : bool :=
  within 0 (net_bits n) (net_prefix n) && (net_address n mod net_size n =? 0)
  && within 0 (2 ^ net_bits n - 1) (net_address n).

Lemma netmask_shift n :
  0 <= net_prefix n <= net_bits n -> netmask n = Z.shiftl (Z.ones (net_prefix n)) (net_bits n - net_prefix n).
Proof.
  intros Hp. unfold netmask. apply Z.bits_inj'. intros i Hi.
  rewrite Z.lxor_spec, Z.shiftr_spec, Z.shiftl_spec by done.
  rewrite !Z.testbit_ones by lia.
  repeat match goal with |- context [(?a <=? ?b)] => destruct (Z.leb_spec a b) end;
    repeat match goal with |- context [(?a <? ?b)] => destruct (Z.ltb_spec a b) end; simpl; try done; lia.
Qed.

Lemma masked v k p : 0 <= k -> 0 <= p -> 0 <= v < 2 ^ (p + k) -> Z.land v (Z.shiftl (Z.ones p) k) = v / 2 ^ k * 2 ^ k.
Proof.
  intros Hk Hp Hv. rewrite <- Z.shiftr_div_pow2, <- Z.shiftl_mul_pow2 by done. apply Z.bits_inj'. intros i Hi.
  rewrite Z.land_spec, !Z.shiftl_spec by done. destruct (Z.lt_ge_cases i k).
  - rewrite !(Z.testbit_neg_r _ (i - k)) by lia. apply andb_false_r.
  - rewrite Z.shiftr_spec by lia. replace (i - k + k) with i by lia. rewrite Z.testbit_ones by lia.
    destruct (Z.lt_ge_cases (i - k) p).
    + rewrite (proj2 (Z.leb_le 0 (i - k))), (proj2 (Z.ltb_lt (i - k) p)) by lia. by rewrite andb_true_r.
    + destruct (Z.eq_dec v 0) as [->|]; [by rewrite Z.bits_0|].
      rewrite (Z.bits_above_log2 v i); [done|lia|]. apply Z.log2_lt_pow2; [lia|].
      apply Z.lt_le_trans with (2 ^ (p + k)); [lia|]. apply Z.pow_le_mono_r; lia.
Qed.

Lemma in_network_range v n :
  net_ok n = true -> 0 <= v < 2 ^ net_bits n ->
  in_network v n = true <-> net_address n <= v < net_address n + net_size n.
Proof.
  unfold net_ok, net_size. intros H Hv. py_bool. destruct H as [Hp Ha]. py_bool. unfold in_network.
  rewrite Z.eqb_eq, netmask_shift, masked by (try lia; replace (net_prefix n + (net_bits n - net_prefix n)) with (net_bits n) by lia; done).
  set (s := 2 ^ (net_bits n - net_prefix n)) in *. assert (0 < s) as Hs by (apply Z.pow_pos_nonneg; lia).
  pose proof (Z.div_mod v s ltac:(lia)). pose proof (Z.mod_pos_bound v s Hs).
  pose proof (Z.div_mod (net_address n) s ltac:(lia)). split.
  - intros Heq. lia.
  - intros Hr. assert (v / s = net_address n / s); [|nia].
    assert (net_address n / s * s <= v < (net_address n / s + 1) * s) as Hb by lia. nia.
Qed.

(** ** Every table is well formed *)

Lemma tables_ok :
  forallb (fun n => net_ok n && (net_bits n =? 32)) (_IPV4_LOOPBACK :: _IPV4_PRIVATE ++ _IPV4_METADATA ++ map fst _IPV4_BLOCKED)
  && forallb (fun n => net_ok n && (net_bits n =? 128))
       (_IPV6_LOOPBACK :: _IPV6_PRIVATE :: _IPV6_METADATA ++ _IPV6_PUBLIC ++ map fst _IPV6_BLOCKED) = true.
Proof. vm_compute. reflexivity. Qed.

(** An address written by octets, or by groups. *)
Lemma ipv4_octets a b c d :
  within 0 255 a = true -> within 0 255 b = true -> within 0 255 c = true -> within 0 255 d = true ->
  of_digits 8 [a; b; c; d] = a * 2 ^ 24 + b * 2 ^ 16 + c * 2 ^ 8 + d.
Proof.
  rewrite !within_spec. intros Ha Hb Hc Hd.
  pose proof (of_digits_app 8 eq_refl [a; b; c] d ltac:(unfold is_digit; lia)) as H1.
  pose proof (of_digits_app 8 eq_refl [a; b] c ltac:(unfold is_digit; lia)) as H2.
  pose proof (of_digits_app 8 eq_refl [a] b ltac:(unfold is_digit; lia)) as H3. simpl app in *.
  rewrite H1, H2, H3. change (of_digits 8 [a]) with a. lia.
Qed.

(** The ranges of a table, computed once. *)
Definition range_of (n : network) : Z * Z := (net_address n, net_address n + net_size n).
Definition in_range (v : Z) (r : Z * Z) : bool := (r.1 <=? v) && (v <? r.2).

Lemma network_range v n bits :
  net_ok n && (net_bits n =? bits) = true -> 0 <= v < 2 ^ bits -> in_network v n = in_range v (range_of n).
Proof.
  intros [Hok Hb%Z.eqb_eq]%andb_true_iff Hv. apply eq_true_iff_eq. unfold in_range, range_of. simpl.
  rewrite andb_true_iff, Z.leb_le, Z.ltb_lt. apply in_network_range; [done|congruence].
Qed.

Lemma table_range v ns bits :
  forallb (fun n => net_ok n && (net_bits n =? bits)) ns = true -> 0 <= v < 2 ^ bits ->
  existsb (in_network v) ns = existsb (in_range v) (map range_of ns).
Proof.
  intros H Hv. induction ns as [|n ns IH]; [done|]. simpl in *. apply andb_true_iff in H as [Hn H].
  by rewrite (network_range v n bits Hn Hv), IH.
Qed.

Lemma block_of_none v table : block_of v table = None <-> existsb (in_network v) (map fst table) = false.
Proof.
  unfold block_of. induction table as [|e table IH]; [done|]. simpl. by destruct (in_network v e.1).
Qed.

Definition _ranges4_private : list (Z * Z) := Eval vm_compute in map range_of _IPV4_PRIVATE.
Definition _ranges4_blocked : list (Z * Z) := Eval vm_compute in map range_of (_IPV4_METADATA ++ map fst _IPV4_BLOCKED).

(** The special-purpose IPv4 space outside loopback and private use, by octets: the metadata services,
    then the blocked networks. *)
Definition special_ipv4 (a b c d : Z) : list bool :=
  [(a =? 100) && (b =? 100) && (c =? 100) && (d =? 200); (a =? 168) && (b =? 63) && (c =? 129) && (d =? 16);
   (a =? 169) && (b =? 254) && (c =? 169) && (d =? 254); (a =? 169) && (b =? 254) && (c =? 170) && (d =? 2);
   (a =? 192) && (b =? 0) && (c =? 0) && (d =? 192);
   a =? 0; (a =? 100) && within 64 127 b; (a =? 169) && (b =? 254); (a =? 192) && (b =? 0) && (c =? 0);
   (a =? 192) && (b =? 0) && (c =? 2); (a =? 192) && (b =? 31) && (c =? 196); (a =? 192) && (b =? 52) && (c =? 193);
   (a =? 192) && (b =? 88) && (c =? 99); (a =? 192) && (b =? 175) && (c =? 48); (a =? 198) && within 18 19 b;
   (a =? 198) && (b =? 51) && (c =? 100); (a =? 203) && (b =? 0) && (c =? 113); within 224 239 a; 240 <=? a].

Ltac range_octets :=
  apply eq_true_iff_eq; unfold in_range; cbn [fst snd];
  rewrite ?andb_true_iff, ?Z.leb_le, ?Z.ltb_lt, ?Z.eqb_eq, ?within_spec; lia.

Section octets.
Context (a b c d : Z).
Hypothesis (Ha : 0 <= a <= 255) (Hb : 0 <= b <= 255) (Hc : 0 <= c <= 255) (Hd : 0 <= d <= 255).
Let v := a * 2 ^ 24 + b * 2 ^ 16 + c * 2 ^ 8 + d.

Lemma private_octets :
  map (in_range v) _ranges4_private = [a =? 10; (a =? 172) && within 16 31 b; (a =? 192) && (b =? 168)].
Proof using Ha Hb Hc Hd. unfold _ranges4_private, v. cbn [map]. repeat (apply (f_equal2 cons); [range_octets|]). done. Qed.

Lemma blocked_octets : map (in_range v) _ranges4_blocked = special_ipv4 a b c d.
Proof using Ha Hb Hc Hd.
  unfold _ranges4_blocked, special_ipv4, v. cbn [map]. repeat (apply (f_equal2 cons); [range_octets|]). done.
Qed.
End octets.

(** ** What a class says of an address *)

(** The four octets of an IPv4 address. *)
Definition octet (v k : Z) : Z := v / 2 ^ (8 * k) mod 2 ^ 8.

Lemma octets_value v :
  0 <= v < 2 ^ 32 -> v = octet v 3 * 2 ^ 24 + octet v 2 * 2 ^ 16 + octet v 1 * 2 ^ 8 + octet v 0.
Proof.
  intros Hv. unfold octet. change (2 ^ 8) with 256. change (2 ^ (8 * 0)) with 1. change (2 ^ (8 * 1)) with 256.
  change (2 ^ (8 * 2)) with (256 * 256). change (2 ^ (8 * 3)) with (256 * 256 * 256). change (2 ^ 32) with 4294967296 in Hv.
  change (2 ^ 24) with (256 * 256 * 256). change (2 ^ 16) with (256 * 256). rewrite <- !Z.div_div by lia. rewrite Z.div_1_r.
  pose proof (Z.div_mod v 256 ltac:(lia)). pose proof (Z.div_mod (v / 256) 256 ltac:(lia)).
  pose proof (Z.div_mod (v / 256 / 256) 256 ltac:(lia)).
  rewrite (Z.mod_small (v / 256 / 256 / 256)); [lia|]. split; [repeat (apply Z.div_pos; [|lia]); lia|].
  repeat (apply Z.div_lt_upper_bound; [lia|]). lia.
Qed.

Lemma octet_bound v k : 0 <= octet v k <= 255.
Proof. unfold octet. pose proof (Z.mod_pos_bound (v / 2 ^ (8 * k)) (2 ^ 8) eq_refl). lia. Qed.

Definition private_ipv4 (v : Z) : bool :=
  let a := octet v 3 in let b := octet v 2 in
  (a =? 10) || (a =? 172) && within 16 31 b || (a =? 192) && (b =? 168).
Definition blocked_ipv4 (v : Z) : bool := existsb id (special_ipv4 (octet v 3) (octet v 2) (octet v 1) (octet v 0)).

(** The class of an IPv4 address by its octets. *)
Definition ipv4_class (v : Z) : AddressClass :=
  if octet v 3 =? 127 then Address_LOOPBACK
  else if private_ipv4 v then Address_PRIVATE
  else if blocked_ipv4 v then Address_BLOCKED else Address_PUBLIC.

Lemma existsb_id {A} (f : A -> bool) l : existsb f l = existsb id (map f l).
Proof. induction l as [|x l IH]; [done|]. simpl. by rewrite IH. Qed.

Lemma existsb_networks v ns bits :
  forallb (fun n => net_ok n && (net_bits n =? bits)) ns = true -> 0 <= v < 2 ^ bits ->
  existsb (in_network v) ns = existsb id (map (in_range v) (map range_of ns)).
Proof. intros H Hv. by rewrite (table_range v ns bits H Hv), existsb_id. Qed.

Lemma classified_ipv4 v : 0 <= v < 2 ^ 32 -> address_class (_classify_ipv4 v) = ipv4_class v.
Proof.
  intros Hv. pose proof (octets_value v Hv) as Hd.
  pose proof (octet_bound v 3) as H3. pose proof (octet_bound v 2) as H2. pose proof (octet_bound v 1) as H1.
  pose proof (octet_bound v 0) as H0. unfold _classify_ipv4, ipv4_class.
  rewrite (network_range v _IPV4_LOOPBACK 32 eq_refl Hv).
  assert (in_range v (range_of _IPV4_LOOPBACK) = (octet v 3 =? 127)) as ->.
  { change (range_of _IPV4_LOOPBACK) with (127 * 2 ^ 24, 128 * 2 ^ 24). rewrite Hd at 1. range_octets. }
  destruct (octet v 3 =? 127); [done|].
  rewrite (existsb_networks v _IPV4_PRIVATE 32 eq_refl Hv). change (map range_of _IPV4_PRIVATE) with _ranges4_private.
  pose proof (private_octets _ _ _ _ H3 H2 H1 H0) as Hp. rewrite <- Hd in Hp. rewrite Hp.
  assert (existsb id [octet v 3 =? 10; (octet v 3 =? 172) && within 16 31 (octet v 2); (octet v 3 =? 192) && (octet v 2 =? 168)]
    = private_ipv4 v) as -> by (unfold private_ipv4; simpl; unfold id; by rewrite orb_false_r, orb_assoc).
  destruct (private_ipv4 v); [done|].
  assert (existsb (in_network v) (_IPV4_METADATA ++ map fst _IPV4_BLOCKED) = blocked_ipv4 v) as Hb.
  { rewrite (existsb_networks v (_IPV4_METADATA ++ map fst _IPV4_BLOCKED) 32 eq_refl Hv). change (map range_of (_IPV4_METADATA ++ map fst _IPV4_BLOCKED)) with _ranges4_blocked.
    pose proof (blocked_octets _ _ _ _ H3 H2 H1 H0) as Hs. rewrite <- Hd in Hs. by rewrite Hs. }
  rewrite existsb_app in Hb. destruct (existsb (in_network v) _IPV4_METADATA); cbn [orb] in Hb; [by rewrite <- Hb|].
  destruct (block_of v _IPV4_BLOCKED) as [r|] eqn:E.
  - destruct (existsb (in_network v) (map fst _IPV4_BLOCKED)) eqn:E'; [by rewrite <- Hb|].
    apply block_of_none in E'. congruence.
  - apply block_of_none in E. rewrite E in Hb. by rewrite <- Hb.
Qed.

(** Unique local addresses without the metadata services in them. *)
Definition private_ipv6 (v : Z) : Prop :=
  0xfc00 * 2 ^ 112 <= v < 0xfe00 * 2 ^ 112 /\
  v <> 0xfd000ec2000000000000000000000254 /\ v <> 0xfd2000ce000000000000000000000254.
(** Global unicast space without 6to4, the special-purpose block and the documentation prefix. *)
Definition public_ipv6 (v : Z) : Prop :=
  0x2000 * 2 ^ 112 <= v < 0x4000 * 2 ^ 112 /\
  ~ (0x2002 * 2 ^ 112 <= v < 0x2003 * 2 ^ 112) /\
  ~ (0x20010000 * 2 ^ 96 <= v < 0x20010200 * 2 ^ 96) /\
  ~ (0x20010db8 * 2 ^ 96 <= v < 0x20010db9 * 2 ^ 96).

Definition stands_for (c : AddressClass) (a : ip) : Prop :=
  match c, a with
  | Address_BLOCKED, _ => True
  | _, IPv4 v => 0 <= v < 2 ^ 32 /\ ipv4_class v = c
  | Address_LOOPBACK, IPv6 v None => v = 1
  | Address_PRIVATE, IPv6 v None => private_ipv6 v
  | Address_PUBLIC, IPv6 v None => public_ipv6 v
  | _, _ => False
  end.

Definition _ranges6_public : list (Z * Z) := Eval vm_compute in map range_of _IPV6_PUBLIC.
Definition _ranges6_blocked : list (Z * Z) := Eval vm_compute in map range_of (map fst _IPV6_BLOCKED).

Lemma in_range_spec v r : in_range v r = true <-> r.1 <= v < r.2.
Proof. unfold in_range. by rewrite andb_true_iff, Z.leb_le, Z.ltb_lt. Qed.

Lemma outside v ranges lo hi : existsb (in_range v) ranges = false -> (lo, hi) ∈ ranges -> ~ (lo <= v < hi).
Proof.
  intros H Hin Hr. assert (existsb (in_range v) ranges = true) as H'; [|congruence].
  apply existsb_exists. exists (lo, hi). rewrite <- list_elem_of_In. split; [done|]. by apply in_range_spec.
Qed.

Lemma classified_ipv6 v :
  0 <= v < 2 ^ 128 -> stands_for (address_class (_classify_ipv6 v None)) (IPv6 v None).
Proof.
  intros Hv. unfold _classify_ipv6.
  rewrite (network_range v _IPV6_LOOPBACK 128 eq_refl Hv).
  destruct (in_range v (range_of _IPV6_LOOPBACK)) eqn:E1.
  { apply in_range_spec in E1. change (range_of _IPV6_LOOPBACK) with (1, 2) in E1. simpl in *. lia. }
  rewrite (table_range v _IPV6_METADATA 128 eq_refl Hv).
  destruct (existsb (in_range v) (map range_of _IPV6_METADATA)) eqn:E2; [done|].
  rewrite (network_range v _IPV6_PRIVATE 128 eq_refl Hv).
  destruct (in_range v (range_of _IPV6_PRIVATE)) eqn:E3.
  { apply in_range_spec in E3. change (range_of _IPV6_PRIVATE) with (0xfc00 * 2 ^ 112, 0xfe00 * 2 ^ 112) in E3.
    split; [exact E3|]. split; intros Heq.
    - apply (outside v _ 0xfd000ec2000000000000000000000254 0xfd000ec2000000000000000000000255 E2); [by vm_compute; left|lia].
    - apply (outside v _ 0xfd2000ce000000000000000000000254 0xfd2000ce000000000000000000000255 E2); [|lia].
      vm_compute. right. by left. }
  destruct (block_of v _IPV6_BLOCKED) as [r|] eqn:E4; [done|].
  apply block_of_none in E4. rewrite (table_range v (map fst _IPV6_BLOCKED) 128 eq_refl Hv) in E4.
  rewrite (table_range v _IPV6_PUBLIC 128 eq_refl Hv).
  destruct (existsb (in_range v) (map range_of _IPV6_PUBLIC)) eqn:E5; [|done].
  change (map range_of (map fst _IPV6_BLOCKED)) with _ranges6_blocked in E4.
  change (map range_of _IPV6_PUBLIC) with _ranges6_public in E5.
  apply existsb_exists in E5 as (r & Hr & Hin%in_range_spec).
  assert (forallb (fun r => (0x2000 * 2 ^ 112 <=? r.1) && (r.2 <=? 0x4000 * 2 ^ 112)) _ranges6_public = true) as Hall
    by (vm_compute; reflexivity).
  rewrite forallb_forall in Hall. apply Hall, andb_true_iff in Hr as [Hlo%Z.leb_le Hhi%Z.leb_le].
  split; [lia|]. split_and!; apply (outside v _ _ _ E4); apply list_elem_of_In; vm_compute; tauto.
Qed.

(** ** The normalized text *)

(** Characters an address is written with. *)
Definition address_char (c : N) : bool := is_decimal c || char_between 97 102 c || (c =? 46)%N || (c =? 58)%N.

Lemma address_char_ok c :
  address_char c = true -> is_py_space c = false /\ ((c <? 32)%N || (c =? 127)%N) = false /\ lower_char c = c.
Proof.
  unfold address_char, is_decimal, is_py_space, lower_char, char_between. intros H.
  rewrite !orb_true_iff, !andb_true_iff, !N.leb_le, !N.eqb_eq in H.
  split; [|split].
  - rewrite !orb_false_iff, !andb_false_iff, !N.leb_gt, !N.eqb_neq. lia.
  - rewrite orb_false_iff, N.ltb_ge, N.eqb_neq. lia.
  - destruct (65 <=? c)%N eqn:E1, (c <=? 90)%N eqn:E2; try done. apply N.leb_le in E1, E2. lia.
Qed.

Lemma strip_plain s : forallb address_char s = true -> strip s = s.
Proof.
  assert (forall s, forallb address_char s = true -> lstrip s = s) as Hl.
  { intros [|c t]; [done|]. simpl. intros [Hc _]%andb_true_iff. by destruct (address_char_ok c Hc) as [-> _]. }
  intros H. unfold strip. rewrite (Hl s H), Hl, rev_involutive; [done|].
  apply forallb_forall. intros c Hc%in_rev. rewrite forallb_forall in H. auto.
Qed.

Definition octet_text_ok (d : Z) : bool :=
  forallb address_char (str_of_int d) && (length (str_of_int d) <=? 3)%nat && negb (bool_decide (str_of_int d = [])).
Lemma octet_text d : 0 <= d < 256 -> octet_text_ok d = true.
Proof.
  intros Hd. assert (forallb octet_text_ok (map Z.of_nat (seq 0 256)) = true) as H by (vm_compute; reflexivity).
  rewrite forallb_forall in H. apply H, in_map_iff. exists (Z.to_nat d). split; [lia|]. apply in_seq. lia.
Qed.

(** What the classifier asks of a text before it reads it. *)
Definition readable_text (s : str) : Prop := s <> [] /\ (length s <= 128)%nat /\ forallb address_char s = true.

Lemma format_ipv4_readable v : readable_text (format_ipv4 v).
Proof.
  unfold format_ipv4. assert (forall d, d ∈ to_digits 8 4 v [] -> octet_text_ok d = true) as Hd.
  { intros d Hin. apply octet_text. by apply (digits_small 8 4 v). }
  assert (Forall (fun p => forallb address_char p = true) (map str_of_int (to_digits 8 4 v []))) as Hc.
  { apply Forall_map, list.Forall_forall. intros d Hin. by apply Hd, andb_true_iff in Hin as [[H _]%andb_true_iff _]. }
  assert (Forall (fun p => length p <= 3)%nat (map str_of_int (to_digits 8 4 v []))) as Hl.
  { apply Forall_map, list.Forall_forall. intros d Hin.
    by apply Hd, andb_true_iff in Hin as [[_ H%Nat.leb_le]%andb_true_iff _]. }
  split; [|split].
  - simpl to_digits. cbn [map]. apply join_nonempty. by right.
  - pose proof (join_on_length 46 _ 3 Hl) as H. rewrite length_map, length_to_digits in H. lia.
  - by apply join_forallb.
Qed.

Lemma group_text_chars p : group_text p -> forallb address_char p = true /\ (length p <= 4)%nat.
Proof.
  intros [->|[v ->]]; [split; [done|simpl; lia]|]. destruct (hex_text_shape v) as (_ & Hl & Hf). split; [|done].
  apply forallb_forall. intros c Hc%list_elem_of_In. rewrite list.Forall_forall in Hf. apply Hf in Hc.
  assert (forallb address_char (u "0123456789abcdef") = true) as H by (vm_compute; reflexivity).
  rewrite forallb_forall in H. by apply H, list_elem_of_In.
Qed.

Lemma format_ipv6_readable v : readable_text (format_ipv6 v).
Proof.
  unfold format_ipv6. destruct (compress_shape _ (length_to_digits 16 8 v)) as [Hg Hl].
  revert Hg Hl. generalize (compress_hextets (map hex_text (to_digits 16 8 v []))) as parts. intros parts Hg Hl.
  split; [|split].
  - destruct parts as [|p [|q l]]; simpl in Hl; try lia. apply join_nonempty. by right.
  - assert (Forall (fun p => length p <= 4)%nat parts) as H4.
    { eapply List.Forall_impl; [|exact Hg]. intros p Hp. by apply group_text_chars. }
    pose proof (join_on_length 58 _ 4 H4). lia.
  - apply join_forallb; [done|]. eapply List.Forall_impl; [|exact Hg]. intros p Hp. by apply group_text_chars.
Qed.

Lemma readable_lower s : readable_text s -> ascii_lower s = s.
Proof.
  intros (_ & _ & H). unfold ascii_lower. rewrite <- (map_id s) at 2. apply map_ext_in. intros c Hc.
  rewrite forallb_forall in H. by apply address_char_ok, H.
Qed.

Lemma readable_no_char c s : address_char c = false -> readable_text s -> has_char c s = false.
Proof.
  intros Hc (_ & _ & H). unfold has_char. apply existsb_false, list.Forall_forall. intros x Hx%list_elem_of_In.
  rewrite forallb_forall in H. apply H in Hx. apply N.eqb_neq. intros ->. congruence.
Qed.

(** A readable text is classified by the address it denotes. *)
Lemma classify_readable s :
  readable_text s -> classify_address s =
    match ip_address s with
    | Some (IPv4 v) => Ok (_classify_ipv4 v)
    | Some (IPv6 v scope) => Ok (_classify_ipv6 v scope)
    | None => Raise ValueError
    end.
Proof.
  intros Hs. pose proof Hs as (Hne & Hl & Hc). unfold classify_address.
  rewrite bool_decide_false, (proj2 (Nat.ltb_ge _ _)), strip_plain, bool_decide_true by done.
  assert (has_control s = false) as ->.
  { apply existsb_false, list.Forall_forall. intros c Hin%list_elem_of_In. rewrite forallb_forall in Hc.
    by apply address_char_ok, Hc. }
  cbn [orb negb]. rewrite partition_absent by (by apply readable_no_char). unfold _parse_address.
  by destruct (ip_address s) as [[]|].
Qed.

Lemma reads_ipv4 v : 0 <= v < 2 ^ 32 -> ip_address (format_ipv4 v) = Some (IPv4 v).
Proof. intros Hv. unfold ip_address. by rewrite ipv4_roundtrip. Qed.

Lemma format_ipv6_plain v c : c ∈ [37; 46; 47]%N -> has_char c (format_ipv6 v) = false.
Proof.
  intros Hc. unfold format_ipv6. destruct (compress_shape _ (length_to_digits 16 8 v)) as [Hg _].
  apply join_char; [set_solver|]. eapply List.Forall_impl; [|exact Hg]. intros p. apply group_plain. set_solver.
Qed.

Lemma reads_ipv6 v : 0 <= v < 2 ^ 128 -> ip_address (format_ipv6 v) = Some (IPv6 v None).
Proof.
  intros Hv. unfold ip_address, parse_ipv4. rewrite (format_ipv6_plain v 47) by set_solver.
  rewrite split_plain by (apply format_ipv6_plain; set_solver). cbn [length].
  rewrite bool_decide_false by done. unfold parse_ipv6. rewrite (format_ipv6_plain v 47) by set_solver.
  rewrite partition_absent by (apply format_ipv6_plain; set_solver). by rewrite ipv6_roundtrip.
Qed.

(** ** The classification means what it says *)

Lemma classify_cases value c :
  classify_address value = Ok c ->
  blocked_reason c = Some Blocked_SCOPED /\ address_class c = Address_BLOCKED \/
  (exists v, 0 <= v < 2 ^ 32 /\ c = _classify_ipv4 v) \/ (exists v, 0 <= v < 2 ^ 128 /\ c = _classify_ipv6 v None).
Proof.
  unfold classify_address. intros H. py_step H.
  destruct (partition_on 37 value) as [base [zone|]] eqn:Ep.
  - py_step H. destruct (_parse_address base); [|done]. injection H as <-. by left.
  - right. unfold _parse_address, ip_address in H. destruct (parse_ipv4 value) as [v|] eqn:E4.
    + injection H as <-. left. exists v. split; [by eapply parse_ipv4_bound|done].
    + unfold parse_ipv6 in H. destruct (has_char 47 value); [done|]. rewrite Ep in H.
      destruct (parse_ipv6_int base) as [v|] eqn:E6; [|done]. injection H as <-. right. exists v.
      split; [by eapply parse_ipv6_bound|done].
Qed.

Lemma normalized_ipv4 v : normalized (_classify_ipv4 v) = format_ipv4 v.
Proof. unfold _classify_ipv4. by repeat case_match. Qed.
Lemma normalized_ipv6 v : normalized (_classify_ipv6 v None) = format_ipv6 v.
Proof.
  unfold _classify_ipv6. pose proof (readable_lower _ (format_ipv6_readable v)) as H.
  repeat case_match; exact H.
Qed.
Lemma version_ipv4 v : version (_classify_ipv4 v) = 4.
Proof. unfold _classify_ipv4. by repeat case_match. Qed.
Lemma version_ipv6 v s : version (_classify_ipv6 v s) = 6.
Proof. unfold _classify_ipv6. by repeat case_match. Qed.

(** The canonical text of an address classifies as the address. *)
Lemma classify_ipv4 v : 0 <= v < 2 ^ 32 -> classify_address (format_ipv4 v) = Ok (_classify_ipv4 v).
Proof. intros Hv. rewrite classify_readable by apply format_ipv4_readable. by rewrite reads_ipv4. Qed.
Lemma classify_ipv6 v : 0 <= v < 2 ^ 128 -> classify_address (format_ipv6 v) = Ok (_classify_ipv6 v None).
Proof. intros Hv. rewrite classify_readable by apply format_ipv6_readable. by rewrite reads_ipv6. Qed.

(** The text kept of an address that is not blocked is canonical. *)
Lemma classification_normal value c :
  classify_address value = Ok c -> address_class c <> Address_BLOCKED -> classify_address (normalized c) = Ok c.
Proof.
  intros [[_ H]|[(v & Hv & ->)|(v & Hv & ->)]]%classify_cases Hne; [done| |].
  - rewrite normalized_ipv4. by apply classify_ipv4.
  - rewrite normalized_ipv6. by apply classify_ipv6.
Qed.

(** The address it denotes is in its class. *)
Definition denotes (c : AddressClassification) (a : ip) : Prop :=
  ip_address (normalized c) = Some a /\ version c = ip_version a /\ stands_for (address_class c) a /\
  ip_str a = normalized c.

Lemma classification_denotes value c :
  classify_address value = Ok c -> address_class c <> Address_BLOCKED -> exists a, denotes c a.
Proof.
  intros [[_ H]|[(v & Hv & ->)|(v & Hv & ->)]]%classify_cases Hne; [done| |].
  - exists (IPv4 v). unfold denotes. rewrite normalized_ipv4, reads_ipv4, version_ipv4, classified_ipv4 in * by done.
    split_and!; [done..| |done]. unfold stands_for. by destruct (ipv4_class v).
  - exists (IPv6 v None). unfold denotes. rewrite normalized_ipv6, reads_ipv6, version_ipv6 by done.
    split_and!; [done..|by apply classified_ipv6|done].
Qed.

(** A text without a scope denotes an address without one. *)
Lemma plain_address s x :
  has_char 37 s = false -> ip_address s = Some x ->
  (exists v, 0 <= v < 2 ^ 32 /\ x = IPv4 v) \/ (exists v, 0 <= v < 2 ^ 128 /\ x = IPv6 v None).
Proof.
  intros Hp. unfold ip_address. destruct (parse_ipv4 s) as [v|] eqn:E4.
  - intros [= <-]. left. exists v. split; [by eapply parse_ipv4_bound|done].
  - unfold parse_ipv6. destruct (has_char 47 s); [done|]. rewrite partition_absent by done.
    destruct (parse_ipv6_int s) as [v|] eqn:E6; [|done]. intros [= <-]. right. exists v.
    split; [by eapply parse_ipv6_bound|done].
Qed.

(** An address that is not blocked is what its class says, and the text kept of it is canonical.
    Whatever text was classified, the normalized text of an accepted address reads back as one
    address, of the recorded version and without a scope, prints as itself and classifies to the same
    record; and that address is loopback (127.0.0.0/8 or ::1), private (RFC 1918 or unique local, no
    metadata service), or public: outside every special-purpose IPv4 range, or IPv6 global unicast
    that is not 6to4, special-purpose or documentation space. *)
Theorem classification_sound value c :
  classify_address value = Ok c -> address_class c <> Address_BLOCKED ->
  classify_address (normalized c) = Ok c /\ exists a, denotes c a.
Proof.
  intros H Hne. split; [exact (classification_normal _ _ H Hne)|exact (classification_denotes _ _ H Hne)].
Qed.

Lemma classification_sound_witness :
  exists c, classify_address (u "2606:4700:0:0:0:0:0:1111") = Ok c /\ normalized c = u "2606:4700::1111" /\
    classify_address (normalized c) = Ok c /\ exists a, denotes c a.
Proof.
  eexists. split; [vm_compute; reflexivity|]. split; [reflexivity|].
  apply (classification_sound (u "2606:4700:0:0:0:0:0:1111")); [vm_compute; reflexivity|discriminate].
Defined.
