(* ===== verification/Destination.v ===== *)
(** * The destination policy

    [network/policy.py]: which receiver a run may send to.  A receiver's URL is parsed strictly and
    passed through the gates of its target profile before any name is resolved; the addresses a
    resolver returns are then authorized as a whole.  The results are capabilities: a registry outside
    the objects records how each was minted, and every consumer validates an object against it.

    The codecs of the Unicode tables (normalization forms, lower case and IDNA beyond ASCII) are a
    parameter; on ASCII text they are what the standard library does. *)

From S2P Require Import Prelude Sha256 Text Addresses.

Local Open Scope Z_scope.

Definition MAX_ALLOWED_HOSTS : nat := 64.
Definition MAX_HTTP_PORT : Z := 65535.
Definition MAX_DESTINATION_URL_LENGTH : nat := 4096.
Definition MAX_HOST_LENGTH : nat := 253.
Definition MAX_RESOLVED_ADDRESSES : nat := 64.
Definition MAX_CHALLENGE_PATH_LENGTH : nat := 2048.

Definition _reject {A} (code : PolicyErrorCode) : result A := Raise (DestinationPolicyError code).

(** ** Text *)

Definition is_ascii_text (s : str) : bool := forallb (fun c => (c <? 128)%N) s.
Definition too_long (limit : nat) (s : str) : bool := (limit <? length s)%nat.
Definition unstripped (s : str) : bool := negb (bool_decide (s = strip s)).

(** [needle in text] *)
Fixpoint contains (needle s : str) : bool :=
  bool_decide (take (length needle) s = needle) || match s with [] => false | _ :: rest => contains needle rest end.

(** [text.removesuffix(".")] *)
Definition without_dot (s : str) : str := if bool_decide (List.last s 0%N = 46%N) then removelast s else s.

(** What the code uses of the Unicode database for text outside ASCII. *)
Record UnicodeTables := {
  nfc : str -> str;
  nfkc : str -> str;
  unicode_lower : str -> str;
  idna_to_ascii : str -> option str;
  idna_to_unicode : str -> option str
}.

Section tables.
Context (tables : UnicodeTables).

Definition normalize_nfc (s : str) : str := if is_ascii_text s then s else nfc tables s.
Definition lower (s : str) : str := if is_ascii_text s then ascii_lower s else unicode_lower tables s.

(** [text.encode("idna").decode("ascii")]: an ASCII name is only checked for the length of its labels. *)
Definition idna_encode (s : str) : option str :=
  if is_ascii_text s then
    let labels := split_on 46 s in
    if bool_decide (s = []) then Some []
    else if forallb (fun l => (0 <? length l)%nat && (length l <? 64)%nat) (removelast labels)
         && (length (List.last labels []) <? 64)%nat
    then Some s else None
  else idna_to_ascii tables s.
(** [text.encode("ascii").decode("idna")]: without the ACE prefix, the text itself. *)
Definition idna_decode (s : str) : option str := if contains (u "xn--") s then idna_to_unicode tables s else Some s.

(** ** Hosts *)

Definition _validate_host_text (value : str) : result unit :=
  if bool_decide (value = []) || too_long (S MAX_HOST_LENGTH) value || unstripped value || has_control value
     || existsb (fun c => has_char c value) (u "/\@#?%[]")
  then _reject INVALID_HOST else Ok tt.

Definition _normalize_ipv6_literal (value : str) : result str :=
  match ip_address value with
  | Some (IPv6 v scope) => Ok (ascii_lower (ip_str (IPv6 v scope)))
  | _ => _reject INVALID_HOST
  end.

(** [_NUMERIC_HOST_LABEL] *)
Definition numeric_label (label : str) : bool :=
  (negb (bool_decide (label = [])) && forallb is_decimal label)
  || match label with
     | z :: x :: digits =>
       (z =? 48)%N && ((x =? 120)%N || (x =? 88)%N) && negb (bool_decide (digits = [])) && forallb is_hex_digit digits
     | _ => false
     end.

(** [_ASCII_LABEL] *)
Definition label_char (c : N) : bool := is_lower c || is_decimal c.
Definition ascii_label (label : str) : bool :=
  match label with
  | [] => false
  | c :: _ =>
    label_char c && label_char (List.last label 0%N) && forallb (fun c => label_char c || (c =? 45)%N) label
    && (length label <=? 63)%nat
  end.

Definition _validate_idna_round_trip (source ascii_host : str) : result unit :=
  match idna_decode ascii_host with
  | None => _reject INVALID_HOST
  | Some decoded =>
    match idna_encode decoded with
    | None => _reject INVALID_HOST
    | Some encoded =>
      if negb (bool_decide (ascii_lower encoded = ascii_host)) then _reject INVALID_HOST
      else if negb (is_ascii_text source) && negb (bool_decide (lower decoded = lower source)) then _reject INVALID_HOST
      else Ok tt
    end
  end.

Definition _normalize_dns_hostname (candidate : str) : result str :=
  if forallb numeric_label (split_on 46 candidate) then _reject INVALID_HOST
  else if negb (bool_decide (normalize_nfc candidate = candidate)) then _reject INVALID_HOST
  else
    match idna_encode candidate with
    | None => _reject INVALID_HOST
    | Some encoded =>
      let ascii_host := ascii_lower encoded in
      if too_long MAX_HOST_LENGTH ascii_host then _reject INVALID_HOST
      else if negb (forallb ascii_label (split_on 46 ascii_host)) then _reject INVALID_HOST
      else let! _ := _validate_idna_round_trip candidate ascii_host in Ok ascii_host
    end.

Definition normalize_host (value : str) : result str :=
  let! _ := _validate_host_text value in
  if has_char 58 value then _normalize_ipv6_literal value
  else
    let candidate := without_dot value in
    if bool_decide (candidate = []) || bool_decide (List.last candidate 0%N = 46%N) then _reject INVALID_HOST
    else
      match ip_address candidate with
      | Some (IPv4 v) => Ok (format_ipv4 v)
      | Some (IPv6 _ _) => _reject INVALID_HOST
      | None => _normalize_dns_hostname candidate
      end.

(** ** URLs *)

Inductive TargetProfile := Target_LOOPBACK | Target_PRIVATE_ALLOWLIST | Target_PUBLIC_AUTHORIZED.
#[global] Instance TargetProfile_eq_dec : EqDecision TargetProfile.
Proof. solve_decision. Defined.

Record ParsedDestination := {
  pd_scheme : str; pd_host : str; pd_port : Z; pd_path : str; pd_query : str; pd_literal_address : option str
}.
#[global] Instance ParsedDestination_eq_dec : EqDecision ParsedDestination.
Proof. solve_decision. Defined.

Definition _DEFAULT_PORTS (scheme : str) : option Z :=
  if bool_decide (scheme = u "http") then Some 80 else if bool_decide (scheme = u "https") then Some 443 else None.

Definition _validate_url_text (value : str) : result unit :=
  if bool_decide (value = []) || too_long MAX_DESTINATION_URL_LENGTH value || unstripped value || has_char 92 value
     || has_control value
  then _reject INVALID_URL else Ok tt.

(** The text before [://] and the text after it. *)
Fixpoint scheme_split (s : str) : option (str * str) :=
  match s with
  | [] => None
  | c :: rest =>
    match s with
    | 58%N :: 47%N :: 47%N :: tail => Some ([], tail)
    | _ => option_map (fun p => (c :: p.1, p.2)) (scheme_split rest)
    end
  end.

(** The text up to the first of some delimiters, and from there on. *)
Fixpoint cut_at (delimiters s : str) : str * str :=
  match s with
  | [] => ([], [])
  | c :: rest => if has_char c delimiters then ([], s) else let (a, b) := cut_at delimiters rest in (c :: a, b)
  end.

Definition _extract_scheme_and_authority (value : str) : result (str * str) :=
  match scheme_split value with
  | None => _reject INVALID_URL
  | Some (before, remainder) =>
    if bool_decide (before = []) then _reject INVALID_URL
    else
      let scheme := ascii_lower before in
      if bool_decide (_DEFAULT_PORTS scheme = None) then _reject INVALID_SCHEME
      else
        let raw_authority := (cut_at (u "/?") remainder).1 in
        if bool_decide (raw_authority = []) then _reject INVALID_URL
        else if has_char 64 raw_authority then _reject USERINFO_FORBIDDEN
        else if has_char 37 raw_authority then _reject INVALID_HOST
        else Ok (scheme, raw_authority)
  end.

Definition _split_authority (authority : str) : result (str * option str) :=
  match authority with
  | 91%N :: rest =>
    match partition_on 93 rest with
    | (_, None) => _reject INVALID_HOST
    | (raw_host, Some suffix) =>
      let! explicit_port :=
        match suffix with
        | [] => Ok None
        | 58%N :: port => Ok (Some port)
        | _ => _reject INVALID_HOST
        end in
      match ip_address raw_host with
      | Some (IPv6 _ _) => Ok (raw_host, explicit_port)
      | _ => _reject INVALID_HOST
      end
    end
  | _ =>
    if has_char 91 authority || has_char 93 authority || (2 <? length (split_on 58 authority))%nat
    then _reject INVALID_HOST
    else Ok (partition_on 58 authority)
  end.

Definition _parse_port (value : option str) (default : option Z) : result Z :=
  match value with
  | None => match default with None => _reject INVALID_PORT | Some p => Ok p end
  | Some text =>
    if bool_decide (text = []) || negb (forallb is_decimal text)
       || (1 <? length text)%nat && bool_decide (head text = Some 48%N) then _reject INVALID_PORT
    else if negb (within 1 MAX_HTTP_PORT (decimal_of text)) then _reject INVALID_PORT else Ok (decimal_of text)
  end.

(** ** The parser of the standard library

    [urllib.parse.urlsplit], whose reading of the URL must agree with the one above. *)

Record SplitResult := { sr_scheme : str; sr_netloc : str; sr_path : str; sr_query : str; sr_fragment : str }.

Definition scheme_char (c : N) : bool :=
  is_lower c || char_between 65 90 c || is_decimal c || existsb (N.eqb c) (u "+-.").
Fixpoint drop_c0 (s : str) : str :=
  match s with c :: rest => if (c <=? 32)%N then drop_c0 rest else s | [] => [] end.

(** The address between brackets: an IPv6 address, or a future version. *)
Definition bracketed_host_ok (hostname : str) : bool :=
  match hostname with
  | 118%N :: future =>
    match partition_on 46 future with
    | (v, Some tail) => negb (bool_decide (v = [])) && forallb is_hex_digit v && negb (bool_decide (tail = []))
                        && negb (has_char 10 tail)
    | _ => false
    end
  | _ => match ip_address hostname with Some (IPv6 _ _) => true | _ => false end
  end.
Definition bracketed_netloc_ok (netloc : str) : bool :=
  match partition_on 91 netloc with
  | (before, Some bracketed) =>
    let (hostname, port) := partition_on 93 bracketed in
    bool_decide (before = []) && match port with Some (c :: _) => (c =? 58)%N | _ => true end
    && bracketed_host_ok hostname
  | (_, None) => true
  end.

(** [_checknetloc]: no delimiter may appear by compatibility normalization. *)
Definition netloc_normal (netloc : str) : bool :=
  is_ascii_text netloc ||
  let n := List.filter (fun c => negb (has_char c (u "@:#?"))) netloc in
  bool_decide (n = nfkc tables n) || negb (existsb (fun c => has_char c (nfkc tables n)) (u "/?#@:")).

Definition urlsplit (value : str) : option SplitResult :=
  let url := List.filter (fun c => negb (has_char c [9; 13; 10]%N)) (drop_c0 value) in
  let (scheme, rest) :=
    match partition_on 58 url with
    | (before, Some after) =>
      if match before with c :: _ => is_lower c || char_between 65 90 c | [] => false end && forallb scheme_char before
      then (ascii_lower before, after) else ([], url)
    | _ => ([], url)
    end in
  let (netloc, rest) :=
    match rest with 47%N :: 47%N :: tail => cut_at (u "/?#") tail | _ => ([], rest) end in
  if negb (eqb (has_char 91 netloc) (has_char 93 netloc)) || (has_char 91 netloc && negb (bracketed_netloc_ok netloc))
     || negb (netloc_normal netloc) then None
  else
    let (rest, fragment) := partition_on 35 rest in
    let (path, query) := partition_on 63 rest in
    Some {| sr_scheme := scheme; sr_netloc := netloc; sr_path := path; sr_query := default [] query;
            sr_fragment := default [] fragment |}.

Definition _require_parser_agreement (parsed : SplitResult) (scheme raw_authority : str) : result unit :=
  if negb (bool_decide (ascii_lower (sr_scheme parsed) = scheme)) || negb (bool_decide (sr_netloc parsed = raw_authority))
  then _reject INVALID_URL
  else if has_char 64 (sr_netloc parsed) then _reject USERINFO_FORBIDDEN
  else if negb (bool_decide (sr_fragment parsed = [])) then _reject FRAGMENT_FORBIDDEN
  else Ok tt.

(** The address a host is written as, if it is one. *)
Definition literal_of (host : str) : option str := option_map ip_str (ip_address host).

Definition _parse_destination_url (value : str) : result ParsedDestination :=
  let! _ := _validate_url_text value in
  if has_char 35 value then _reject FRAGMENT_FORBIDDEN
  else
    let! (scheme, raw_authority) := _extract_scheme_and_authority value in
    let! (raw_host, explicit_port) := _split_authority raw_authority in
    let! host := normalize_host raw_host in
    let! port := _parse_port explicit_port (_DEFAULT_PORTS scheme) in
    match urlsplit value with
    | None => _reject INVALID_URL
    | Some parsed =>
      let! _ := _require_parser_agreement parsed scheme raw_authority in
      Ok {| pd_scheme := scheme; pd_host := host; pd_port := port; pd_path := sr_path parsed;
            pd_query := sr_query parsed; pd_literal_address := literal_of host |}
    end.

(** [authority] and [normalized_url] *)
Definition authority (d : ParsedDestination) : str :=
  (if has_char 58 (pd_host d) then u "[" ++ pd_host d ++ u "]" else pd_host d) ++ u ":" ++ str_of_int (pd_port d).
Definition normalized_url (d : ParsedDestination) : str :=
  pd_scheme d ++ u "://" ++ authority d ++ pd_path d
  ++ (if bool_decide (pd_query d = []) then [] else u "?" ++ pd_query d).
(** ** The receiver's configuration *)

(** The fields of [config.models.ReceiverConfig] the policy reads. *)
Record ReceiverConfig := {
  rc_url : str; rc_target_profile : TargetProfile; rc_allowed_hosts : list str; rc_allowed_ports : list Z;
  rc_public_challenge_path : str
}.

Definition sorted_by {A} `{Cmp A} (l : list A) : list A := py_sorted (fun x => x) l.

Definition _normalize_allowed_hosts (values : list str) : result (list str) :=
  if (MAX_ALLOWED_HOSTS <? length values)%nat then _reject HOST_NOT_ALLOWED
  else
    let! normalized := map_result normalize_host values in
    if negb (bool_decide (NoDup normalized)) then _reject HOST_NOT_ALLOWED else Ok (sorted_by normalized).

Definition _require_allowed_host (host : str) (allowed_hosts : list str) : result unit :=
  if bool_decide (host ∈ allowed_hosts) then Ok tt else _reject HOST_NOT_ALLOWED.

Definition _validate_challenge_path (value : str) : result unit :=
  if bool_decide (value = []) || too_long MAX_CHALLENGE_PATH_LENGTH value
     || negb (bool_decide (head value = Some 47%N)) || bool_decide (take 2 value = u "//")
     || existsb (fun c => has_char c value) (u "?#\") || has_control value
  then _reject PREFLIGHT_CONFIGURATION_INVALID else Ok tt.

Definition _parse_runtime_authorization (value : str) : result (str * Z) :=
  if bool_decide (value = []) || too_long (MAX_HOST_LENGTH + 8) value || unstripped value || has_control value
  then _reject PUBLIC_AUTHORIZATION_MISMATCH
  else
    match
      (let! (raw_host, explicit_port) := _split_authority value in
       if bool_decide (explicit_port = None) then _reject PUBLIC_AUTHORIZATION_MISMATCH
       else
         let! port := _parse_port explicit_port None in
         let! host := normalize_host raw_host in
         Ok (host, port))
    with
    | Ok authorized => Ok authorized
    | Raise (DestinationPolicyError _) => _reject PUBLIC_AUTHORIZATION_MISMATCH
    | Raise e => Raise e
    end.

Definition _validate_public_gates (destination : ParsedDestination) (allowed_hosts : list str) (challenge_path : str)
    (runtime_authorization : option str) : result (str * Z) :=
  if negb (bool_decide (pd_scheme destination = u "https")) then _reject PUBLIC_HTTPS_REQUIRED
  else
    let! _ := _require_allowed_host (pd_host destination) allowed_hosts in
    let! _ := _validate_challenge_path challenge_path in
    match runtime_authorization with
    | None => _reject PUBLIC_AUTHORIZATION_REQUIRED
    | Some text =>
      let! authorized := _parse_runtime_authorization text in
      if negb (bool_decide (authorized = (pd_host destination, pd_port destination)))
      then _reject PUBLIC_AUTHORIZATION_MISMATCH else Ok authorized
    end.

(** ** Capabilities

    An object is its identity and its current fields: [object.__setattr__] can change the fields of a
    frozen dataclass, and a constructor's seal can be found, so a consumer does not trust them.  The
    registry maps the identity of a live object to what it was minted with. *)

Record DestinationObject := { do_id : Z; do_fields : ParsedDestination }.
Record PolicyObject := {
  po_id : Z; po_destination : DestinationObject; po_target_profile : TargetProfile; po_allowed_hosts : list str;
  po_allowed_ports : list Z; po_public_challenge_path : str
}.
Record AuthorizedObject := {
  ao_id : Z; ao_policy : PolicyObject; ao_addresses_id : Z; ao_addresses : list AddressClassification
}.

(** [_policy_binding] and [_authorized_destination_binding] *)
Record policy_binding := {
  pb_destination_id : Z; pb_destination : ParsedDestination; pb_target_profile : TargetProfile;
  pb_allowed_hosts : list str; pb_allowed_ports : list Z; pb_public_challenge_path : str;
  pb_public_authorization : option (str * Z)
}.
#[global] Instance policy_binding_eq_dec : EqDecision policy_binding.
Proof. solve_decision. Defined.
Record authorized_binding := {
  ab_policy_id : Z; ab_policy : policy_binding; ab_addresses_id : Z; ab_addresses : list AddressClassification
}.
#[global] Instance authorized_binding_eq_dec : EqDecision authorized_binding.
Proof. solve_decision. Defined.

(** A record's kind is its constructor. *)
Inductive _AuthorityRecord :=
  | Minted_destination (b : ParsedDestination)
  | Minted_policy (b : policy_binding)
  | Minted_authorized (b : authorized_binding).

(** [_AUTHORITY_RECORDS], and the identities handed out so far. *)
Record Authorities := { records : gmap Z _AuthorityRecord; next_id : Z }.

Definition destination_binding_of (auth : Authorities) (id : Z) : option ParsedDestination :=
  match records auth !! id with Some (Minted_destination b) => Some b | _ => None end.
Definition policy_binding_of (auth : Authorities) (id : Z) : option policy_binding :=
  match records auth !! id with Some (Minted_policy b) => Some b | _ => None end.
Definition authorized_binding_of (auth : Authorities) (id : Z) : option authorized_binding :=
  match records auth !! id with Some (Minted_authorized b) => Some b | _ => None end.

(** [_mint_authority] of a new object *)
Definition _mint_authority (auth : Authorities) (record : _AuthorityRecord) : result (Z * Authorities) :=
  match records auth !! next_id auth with
  | Some _ => Raise RuntimeError
  | None => Ok (next_id auth, {| records := <[next_id auth := record]> (records auth); next_id := next_id auth + 1 |})
  end.

(** [_policy_binding] of an object as it is now *)
Definition _policy_binding (auth : Authorities) (p : PolicyObject) (authorization : option (str * Z)) : result policy_binding :=
  match destination_binding_of auth (do_id (po_destination p)) with
  | None => Raise TypeError
  | Some b =>
    Ok {| pb_destination_id := do_id (po_destination p); pb_destination := b; pb_target_profile := po_target_profile p;
          pb_allowed_hosts := po_allowed_hosts p; pb_allowed_ports := po_allowed_ports p;
          pb_public_challenge_path := po_public_challenge_path p; pb_public_authorization := authorization |}
  end.
Definition _authorized_destination_binding (auth : Authorities) (a : AuthorizedObject) : result authorized_binding :=
  match policy_binding_of auth (po_id (ao_policy a)) with
  | None => Raise TypeError
  | Some b => Ok {| ab_policy_id := po_id (ao_policy a); ab_policy := b; ab_addresses_id := ao_addresses_id a;
                    ab_addresses := ao_addresses a |}
  end.

(** ** Address profiles *)

Definition _enforce_address_profile (profile : TargetProfile) (c : AddressClassification) : result unit :=
  if bool_decide (address_class c = Address_BLOCKED) then _reject ADDRESS_BLOCKED
  else
    let accepted :=
      match profile with
      | Target_LOOPBACK => bool_decide (address_class c = Address_LOOPBACK)
      | Target_PRIVATE_ALLOWLIST => bool_decide (address_class c ∈ [Address_PRIVATE; Address_LOOPBACK])
      | Target_PUBLIC_AUTHORIZED => bool_decide (address_class c = Address_PUBLIC)
      end in
    if accepted then Ok tt else _reject ADDRESS_PROFILE_MISMATCH.

Definition address_key (c : AddressClassification) : Z * str := (version c, normalized c).

(** ** Validation of a capability *)

Definition _policy_profile_gates_are_valid (p : PolicyObject) (authorization : option (str * Z)) : result bool :=
  let d := do_fields (po_destination p) in
  match po_target_profile p with
  | Target_LOOPBACK => Ok (bool_decide (authorization = None))
  | Target_PRIVATE_ALLOWLIST => Ok (bool_decide (pd_host d ∈ po_allowed_hosts p) && bool_decide (authorization = None))
  | Target_PUBLIC_AUTHORIZED =>
    let! _ := _validate_challenge_path (po_public_challenge_path p) in
    Ok (bool_decide (pd_scheme d = u "https") && bool_decide (pd_host d ∈ po_allowed_hosts p)
        && bool_decide (authorization = Some (pd_host d, pd_port d)))
  end.

Definition normalizes_to_itself (host : str) : bool :=
  match normalize_host host with Ok h => bool_decide (h = host) | Raise _ => false end.

(** The checks inside the [try] of [_validate_policy_provenance]; an exception counts as a failure. *)
Definition policy_checks (auth : Authorities) (p : PolicyObject) : result bool :=
  let d := do_fields (po_destination p) in
  match policy_binding_of auth (po_id p) with
  | None => Ok false
  | Some b =>
    let authorization := pb_public_authorization b in
    let! current := _policy_binding auth p authorization in
    let! gates := _policy_profile_gates_are_valid p authorization in
    Ok (bool_decide (destination_binding_of auth (do_id (po_destination p)) = Some d)
        && bool_decide (b = current)
        && bool_decide (po_allowed_hosts p = sorted_by (remove_dups (po_allowed_hosts p)))
        && forallb normalizes_to_itself (po_allowed_hosts p)
        && bool_decide (po_allowed_ports p = sorted_by (remove_dups (po_allowed_ports p)))
        && forallb (within 1 MAX_HTTP_PORT) (po_allowed_ports p)
        && negb (bool_decide (_DEFAULT_PORTS (pd_scheme d) = None))
        && normalizes_to_itself (pd_host d)
        && within 1 MAX_HTTP_PORT (pd_port d)
        && bool_decide (pd_literal_address d = literal_of (pd_host d))
        && bool_decide (pd_port d ∈ po_allowed_ports p)
        && gates)
  end.
Definition _validate_policy_provenance (auth : Authorities) (p : PolicyObject) : result unit :=
  match policy_checks auth p with Ok true => Ok tt | _ => _reject PREFLIGHT_CONFIGURATION_INVALID end.
Definition validate_destination_policy (auth : Authorities) (p : PolicyObject) : result PolicyObject :=
  let! _ := _validate_policy_provenance auth p in Ok p.

Definition _authorized_address_set_is_valid (p : PolicyObject) (addresses : list AddressClassification) : bool :=
  (1 <=? length addresses)%nat && (length addresses <=? MAX_RESOLVED_ADDRESSES)%nat
  && forallb (fun c =>
       match classify_address (normalized c) with Ok c' => bool_decide (c' = c) | Raise _ => false end
       && is_ok (_enforce_address_profile (po_target_profile p) c)) addresses
  && bool_decide (map address_key addresses = sorted_by (remove_dups (map address_key addresses)))
  && match pd_literal_address (do_fields (po_destination p)) with
     | None => true
     | Some literal => bool_decide (map normalized addresses = [literal])
     end.

Definition validate_authorized_destination (auth : Authorities) (a : AuthorizedObject) : result AuthorizedObject :=
  let! _ := _validate_policy_provenance auth (ao_policy a) in
  let binding_valid :=
    match authorized_binding_of auth (ao_id a), _authorized_destination_binding auth a with
    | Some minted, Ok current => bool_decide (minted = current)
    | _, _ => false
    end in
  if binding_valid && _authorized_address_set_is_valid (ao_policy a) (ao_addresses a)
  then Ok a else _reject PREFLIGHT_CONFIGURATION_INVALID.

(** ** Minting *)

(** The destination and the policy are minted in turn. *)
Definition parse_destination_policy (auth : Authorities) (receiver : ReceiverConfig) (runtime_authorization : option str)
    : result (PolicyObject * Authorities) :=
  let! destination := _parse_destination_url (rc_url receiver) in
  let! (destination_id, auth1) := _mint_authority auth (Minted_destination destination) in
  let! allowed_hosts := _normalize_allowed_hosts (rc_allowed_hosts receiver) in
  let allowed_ports := sorted_by (rc_allowed_ports receiver) in
  if negb (bool_decide (pd_port destination ∈ allowed_ports)) then _reject PORT_NOT_ALLOWED
  else
    let! public_authorization :=
      match rc_target_profile receiver with
      | Target_LOOPBACK => Ok None
      | Target_PRIVATE_ALLOWLIST =>
        let! _ := _require_allowed_host (pd_host destination) allowed_hosts in Ok None
      | Target_PUBLIC_AUTHORIZED =>
        let! authorized := _validate_public_gates destination allowed_hosts (rc_public_challenge_path receiver)
          runtime_authorization in
        Ok (Some authorized)
      end in
    let! (policy_id, auth2) := _mint_authority auth1 (Minted_policy
      {| pb_destination_id := destination_id; pb_destination := destination; pb_target_profile := rc_target_profile receiver;
         pb_allowed_hosts := allowed_hosts; pb_allowed_ports := allowed_ports;
         pb_public_challenge_path := rc_public_challenge_path receiver; pb_public_authorization := public_authorization |}) in
    let policy :=
      {| po_id := policy_id; po_destination := {| do_id := destination_id; do_fields := destination |};
         po_target_profile := rc_target_profile receiver; po_allowed_hosts := allowed_hosts;
         po_allowed_ports := allowed_ports; po_public_challenge_path := rc_public_challenge_path receiver |} in
    match pd_literal_address destination with
    | None => Ok (policy, auth2)
    | Some literal =>
      match classify_address literal with
      | Raise _ => _reject ADDRESS_INVALID
      | Ok classification =>
        let! _ := _enforce_address_profile (po_target_profile policy) classification in Ok (policy, auth2)
      end
    end.

(** [classifications[key] = classification]: the last one of a key, at the key's first place. *)
Fixpoint set_classification (c : AddressClassification) (l : list AddressClassification) : list AddressClassification :=
  match l with
  | [] => [c]
  | x :: rest => if bool_decide (address_key x = address_key c) then c :: rest else x :: set_classification c rest
  end.

Definition authorize_candidate (policy : PolicyObject) (found : list AddressClassification) (candidate : str)
    : result (list AddressClassification) :=
  match classify_address candidate with
  | Raise _ => _reject ADDRESS_INVALID
  | Ok classification =>
    let! _ := _enforce_address_profile (po_target_profile policy) classification in
    Ok (set_classification classification found)
  end.

Definition _materialize_candidates (candidates : list str) : result (list str) :=
  if (length candidates <? 1)%nat || (MAX_RESOLVED_ADDRESSES <? length candidates)%nat
  then _reject ADDRESS_SET_INVALID else Ok candidates.

Definition authorize_resolved_addresses (auth : Authorities) (policy : PolicyObject) (candidates : option (list str))
    : result (AuthorizedObject * Authorities) :=
  let! _ := validate_destination_policy auth policy in
  let literal := pd_literal_address (do_fields (po_destination policy)) in
  let! values :=
    match candidates with
    | None => match literal with None => _reject ADDRESS_SET_INVALID | Some l => Ok [l] end
    | Some given => _materialize_candidates given
    end in
  let! found := for_each (authorize_candidate policy) [] values in
  let ordered := py_sorted address_key found in
  if match literal with None => false | Some l => negb (bool_decide (map normalized ordered = [l])) end
  then _reject ADDRESS_SET_INVALID
  else
    match policy_binding_of auth (po_id policy) with
    | None => Raise TypeError
    | Some b =>
      let addresses_id := next_id auth in
      let! (id, auth1) := _mint_authority {| records := records auth; next_id := next_id auth + 1 |} (Minted_authorized
        {| ab_policy_id := po_id policy; ab_policy := b; ab_addresses_id := addresses_id; ab_addresses := ordered |}) in
      Ok ({| ao_id := id; ao_policy := policy; ao_addresses_id := addresses_id; ao_addresses := ordered |}, auth1)
    end.
End tables.

(** ASCII text only: every table is the identity, and no other name has an ASCII form. *)
Definition ascii_tables : UnicodeTables :=
  {| nfc := fun s => s; nfkc := fun s => s; unicode_lower := fun s => s; idna_to_ascii := fun _ => None;
     idna_to_unicode := fun s => Some s |}.

Definition host_of (text : string) : option str :=
  match normalize_host ascii_tables (u text) with Ok h => Some h | Raise _ => None end.
Example hosts : map host_of ["Example.COM."; "127.0.0.1"; "0x7f.1"; "017.0.0.1"; "FE80::0:1"; "a..b"; "-a.b"; "1.2.3"]
  = [Some (u "example.com"); Some (u "127.0.0.1"); None; None; Some (u "fe80::1"); None; None; None].
Proof. vm_compute. reflexivity. Qed.
Example urls : map (fun t => match _parse_destination_url ascii_tables (u t) with
    | Ok d => inl (normalized_url d) | Raise e => inr e end)
    ["HTTPS://Example.com/a/b?q=1"; "http://[::1]:8080"; "http://user@h/"; "http://h:080/"; "http://h/#f"; "ftp://h/"; "http://[::1"]
  = [inl (u "https://example.com:443/a/b?q=1"); inl (u "http://[::1]:8080"); inr (DestinationPolicyError USERINFO_FORBIDDEN);
     inr (DestinationPolicyError INVALID_PORT); inr (DestinationPolicyError FRAGMENT_FORBIDDEN);
     inr (DestinationPolicyError INVALID_SCHEME); inr (DestinationPolicyError INVALID_HOST)].
Proof. vm_compute. reflexivity. Qed.
