(* ===== verification/Dialer.v ===== *)
(** * Dialing a pinned address

    [network/dialer.py] and the plans of [network/transport.py]: a policy is resolved and authorized
    once, the connection is made to one numeric address of the authorized set, and the connected peer
    is compared with the plan before any byte is sent.  The resolver and the connector are outside the
    program: what a call to them did is an argument. *)

From S2P Require Import Prelude Sha256 Text Addresses Destination.

Local Open Scope Z_scope.

Definition MAX_TIMEOUT_NANOSECONDS : Z := 2 ^ 63 - 1.
Definition MAX_RESOLVER_RESULTS : nat := 64.
Definition MAX_GETADDRINFO_RECORDS : nat := 256.

Definition dial_error {A} (code : DialErrorCode) : result A := Raise (PinnedDialError code).

(** ** Resolution *)

Inductive SocketFamily := IPV4 | IPV6.
#[global] Instance SocketFamily_eq_dec : EqDecision SocketFamily.
Proof. solve_decision. Defined.
Definition SocketFamily_of (version : Z) : result SocketFamily :=
  if version =? 4 then Ok IPV4 else if version =? 6 then Ok IPV6 else Raise ValueError.

(** A record of [getaddrinfo]: [None] when its shape or the types of its fields are not those of one. *)
Record SocketRecord := { rec_family : option SocketFamily; rec_stream : bool; rec_host : str; rec_port : Z }.

Inductive resolver_error := Resolver_result_limit | Resolver_record.

Definition resolve_record (port : Z) (record : option SocketRecord) (addresses : list str)
    : resolver_error + list str :=
  match record with
  | None => inl Resolver_record
  | Some r =>
    match rec_family r with
    | None => inl Resolver_record
    | Some family =>
      if negb (rec_stream r) || negb (rec_port r =? port) then inl Resolver_record
      else
        match ip_address (rec_host r) with
        | None => inl Resolver_record
        | Some parsed =>
          if negb (ip_version parsed =? match family with IPV4 => 4 | IPV6 => 6 end) then inl Resolver_record
          else if bool_decide (ip_str parsed ∈ addresses) then inr addresses
          else if (length addresses =? MAX_RESOLVER_RESULTS)%nat then inl Resolver_result_limit
          else inr (addresses ++ [ip_str parsed])
        end
    end
  end.

(** [AnyIOResolver.resolve]: the records in turn; [index] counts those read. *)
Fixpoint resolve_records (port : Z) (index : nat) (records : list (option SocketRecord)) (addresses : list str)
    : resolver_error + list str :=
  match records with
  | [] => inr addresses
  | record :: rest =>
    if (MAX_GETADDRINFO_RECORDS <? S index)%nat then inl Resolver_result_limit
    else match resolve_record port record addresses with
         | inl e => inl e
         | inr addresses' => resolve_records port (S index) rest addresses'
         end
  end.
Definition resolve (port : Z) (records : list (option SocketRecord)) : resolver_error + list str :=
  resolve_records port 0 records [].

(** What awaiting a resolver or a connector ended with. *)
Inductive resolution :=
  | Resolved (candidates : list str)
  | Resolution_timed_out
  | Resolution_error (e : resolver_error)
  | Resolution_dial_error (code : DialErrorCode)
  | Resolution_exception.

Record DialTimeouts := { resolve_nanoseconds : Z; connect_nanoseconds : Z; close_nanoseconds : Z }.
(** [_seconds], without the division *)
Definition _seconds (nanoseconds : Z) : result unit :=
  raise_if negb (within 1 MAX_TIMEOUT_NANOSECONDS nanoseconds) with ValueError ;; Ok tt.

Section tables.
Context (tables : UnicodeTables).

(** [resolve_and_authorize]; the resolver is asked only for a name. *)
Definition resolve_and_authorize (auth : Authorities) (policy : PolicyObject) (timeouts : DialTimeouts)
    (resolver : str -> Z -> resolution) : result (AuthorizedObject * Authorities) :=
  let! validated := validate_destination_policy tables auth policy in
  let destination := do_fields (po_destination validated) in
  let! _ := validate_destination_policy tables auth validated in
  match pd_literal_address destination with
  | Some _ => authorize_resolved_addresses tables auth validated None
  | None =>
    let! _ := _seconds (resolve_nanoseconds timeouts) in
    match resolver (pd_host destination) (pd_port destination) with
    | Resolution_timed_out => dial_error RESOLUTION_TIMEOUT
    | Resolution_error Resolver_result_limit => dial_error RESOLUTION_RESULT_LIMIT
    | Resolution_error Resolver_record => dial_error RESOLUTION_RESULT_INVALID
    | Resolution_dial_error code => dial_error code
    | Resolution_exception => dial_error RESOLUTION_FAILED
    | Resolved candidates => authorize_resolved_addresses tables auth validated (Some candidates)
    end
  end.

(** ** Plans *)

(** A TLS context is an identity; whether it verifies hostname and certificate is state it carries. *)
Record ConnectionPlan := {
  cp_pinned_address : str; cp_port : Z; cp_family : SocketFamily; cp_authorized_addresses : list str;
  cp_host_header : str; cp_tls_server_hostname : option str; cp_ssl_context : option Z
}.
#[global] Instance ConnectionPlan_eq_dec : EqDecision ConnectionPlan.
Proof. solve_decision. Defined.

Definition family_matches (family : SocketFamily) (a : ip) : bool :=
  ip_version a =? match family with IPV4 => 4 | IPV6 => 6 end.

(** [address == str(ip_address(address))] *)
Definition canonical_address (address : str) : bool :=
  match ip_address address with Some a => bool_decide (address = ip_str a) | None => false end.

Definition validate_connection_plan (verifies : Z -> bool) (p : ConnectionPlan) : result ConnectionPlan :=
  raise_if match ip_address (cp_pinned_address p) with
           | None => true
           | Some a => negb (bool_decide (cp_pinned_address p = ip_str a)) || negb (family_matches (cp_family p) a)
           end with ValueError ;;
  raise_if negb (within 1 MAX_HTTP_PORT (cp_port p)) with ValueError ;;
  raise_if negb (bool_decide (cp_pinned_address p ∈ cp_authorized_addresses p))
           || negb (forallb canonical_address (cp_authorized_addresses p)) with ValueError ;;
  raise_if bool_decide (cp_host_header p = []) || has_char 13 (cp_host_header p) || has_char 10 (cp_host_header p)
    with ValueError ;;
  raise_if match cp_tls_server_hostname p, cp_ssl_context p with
           | None, None => false
           | None, Some _ => true
           | Some name, Some context => bool_decide (name = []) || negb (verifies context)
           | Some _, None => true
           end with ValueError ;;
  Ok p.

Record PeerAddress := { peer_address : str; peer_port : Z; peer_family : SocketFamily }.
#[global] Instance PeerAddress_eq_dec : EqDecision PeerAddress.
Proof. solve_decision. Defined.
Definition validate_peer_address (p : PeerAddress) : result PeerAddress :=
  raise_if match ip_address (peer_address p) with
           | None => true
           | Some a => negb (bool_decide (peer_address p = ip_str a)) || negb (family_matches (peer_family p) a)
           end with ValueError ;;
  raise_if negb (within 1 MAX_HTTP_PORT (peer_port p)) with ValueError ;;
  Ok p.

(** ** Connection *)

(** What awaiting [stream.aclose()] comes to within the close timeout. *)
Inductive close_answer := Close_completes | Close_raises | Close_times_out.
(** A stream the connector returned: the peer it shows ([None] when reading it raises or it is not a
    [PeerAddress]), what the connector left of the plan and of the contexts, and how closing it goes. *)
Record connected := { co_peer : option PeerAddress; co_plan : ConnectionPlan; co_verifies : Z -> bool; co_aclose : close_answer }.
Inductive connection :=
  | Connected (c : connected)
  | Connect_timed_out
  | Connect_tls_error
  | Connect_dial_error (code : DialErrorCode)
  | Connect_exception.

Record PeerAddressEvidence := {
  pe_authorized_address : str; pe_authorized_family : SocketFamily; pe_peer_address : str; pe_peer_family : SocketFamily
}.
Record PinnedConnection := { pc_plan : ConnectionPlan; pc_evidence : PeerAddressEvidence }.

(** What became of the stream: there was none, it was handed over open, or it was refused and [aclose] was
    awaited, which closed it or did not. *)
Inductive stream_state := Stream_none | Stream_open | Stream_closed | Stream_abandoned.

(** Best effort: an exception of [aclose] is suppressed, and so is its timeout. *)
Definition _close_failed_stream (c : connected) : stream_state :=
  match co_aclose c with
  | Close_completes => Stream_closed
  | Close_raises | Close_times_out => Stream_abandoned
  end.

Definition _verify_peer_and_wrap (c : connected) (expected_plan : ConnectionPlan) : result PinnedConnection * stream_state :=
  match co_peer c with
  | None => (dial_error PEER_INVALID, _close_failed_stream c)
  | Some peer =>
    match validate_peer_address peer with
    | Raise _ => (dial_error PEER_INVALID, _close_failed_stream c)
    | Ok peer =>
      if negb (bool_decide (peer_address peer = cp_pinned_address expected_plan))
         || negb (peer_port peer =? cp_port expected_plan)
         || negb (bool_decide (peer_family peer = cp_family expected_plan))
      then (dial_error PEER_MISMATCH, _close_failed_stream c)
      else
        match validate_connection_plan (co_verifies c) expected_plan with
        | Raise _ => (dial_error PEER_INVALID, _close_failed_stream c)
        | Ok verified_plan =>
          if negb (bool_decide (co_plan c = verified_plan)) then (dial_error PEER_MISMATCH, _close_failed_stream c)
          else
            (Ok {| pc_plan := verified_plan;
                   pc_evidence := {| pe_authorized_address := cp_pinned_address verified_plan;
                                     pe_authorized_family := cp_family verified_plan;
                                     pe_peer_address := peer_address peer; pe_peer_family := peer_family peer |} |},
             Stream_open)
        end
    end
  end.

(** What [connect_authorized] does before it asks the connector: the expected plan.  [create_context] is
    [tls_context_provider.create]: the identity of a context, or an exception. *)
Definition expected_plan_of (auth : Authorities) (authorized : AuthorizedObject) (timeouts : DialTimeouts)
    (create_context : str -> option Z) (verifies : Z -> bool) : result ConnectionPlan :=
  let! validated := validate_authorized_destination tables auth authorized in
  match ao_addresses validated with
  | [] => Raise IndexError
  | selected :: _ =>
    let destination := do_fields (po_destination (ao_policy validated)) in
    let! pinned_family := SocketFamily_of (version selected) in
    let! _ := validate_authorized_destination tables auth validated in
    let! _ := _seconds (connect_nanoseconds timeouts) in
    let! _ := _seconds (close_nanoseconds timeouts) in
    let! (tls_server_hostname, tls_context) :=
      if bool_decide (pd_scheme destination = u "https") then
        match create_context (pd_host destination) with
        | None => dial_error TLS_CONFIGURATION_FAILED
        | Some context => Ok (Some (pd_host destination), Some context)
        end
      else Ok (None, None) in
    validate_connection_plan verifies
      {| cp_pinned_address := normalized selected; cp_port := pd_port destination; cp_family := pinned_family;
         cp_authorized_addresses := map normalized (ao_addresses validated);
         cp_host_header := authority destination; cp_tls_server_hostname := tls_server_hostname;
         cp_ssl_context := tls_context |}
  end.
Definition connect_authorized (auth : Authorities) (authorized : AuthorizedObject) (timeouts : DialTimeouts)
    (create_context : str -> option Z) (verifies : Z -> bool) (connector : ConnectionPlan -> connection)
    : result PinnedConnection * stream_state :=
  match expected_plan_of auth authorized timeouts create_context verifies with
  | Raise e => (Raise e, Stream_none)
  | Ok expected_plan =>
    match connector expected_plan with
    | Connect_timed_out => (dial_error CONNECT_TIMEOUT, Stream_none)
    | Connect_tls_error => (dial_error TLS_FAILED, Stream_none)
    | Connect_dial_error code => (dial_error code, Stream_none)
    | Connect_exception => (dial_error CONNECTION_FAILED, Stream_none)
    | Connected c => _verify_peer_and_wrap c expected_plan
    end
  end.

(** [dial] *)
Definition dial (auth : Authorities) (policy : PolicyObject) (timeouts : DialTimeouts) (resolver : str -> Z -> resolution)
    (create_context : str -> option Z) (verifies : Z -> bool) (connector : ConnectionPlan -> connection)
    : result PinnedConnection * stream_state :=
  match resolve_and_authorize auth policy timeouts resolver with
  | Raise e => (Raise e, Stream_none)
  | Ok (authorized, auth1) => connect_authorized auth1 authorized timeouts create_context verifies connector
  end.
End tables.

(** A receiver on loopback, and connectors that answer from the pinned address and from another. *)
Definition loopback_receiver : ReceiverConfig :=
  {| rc_url := u "http://localhost:8080/hook"; rc_target_profile := Target_LOOPBACK; rc_allowed_hosts := [];
     rc_allowed_ports := [8080]; rc_public_challenge_path := [] |}.
Definition connector_to (address : str -> str) (plan : ConnectionPlan) : connection :=
  Connected {| co_peer := Some {| peer_address := address (cp_pinned_address plan); peer_port := cp_port plan;
                                  peer_family := cp_family plan |};
               co_plan := plan; co_verifies := fun _ => true; co_aclose := Close_completes |}.
Definition dial_outcome (answers : list str) (address : str -> str) : result str :=
  match parse_destination_policy ascii_tables {| records := ∅; next_id := 0 |} loopback_receiver None with
  | Raise e => Raise e
  | Ok (policy, auth) =>
    match (dial ascii_tables auth policy {| resolve_nanoseconds := 1; connect_nanoseconds := 1; close_nanoseconds := 1 |}
            (fun _ _ => Resolved answers) (fun _ => None) (fun _ => true) (connector_to address)).1 with
    | Ok conn => Ok (cp_pinned_address (pc_plan conn))
    | Raise e => Raise e
    end
  end.
Example dials :
  [dial_outcome [u "::1"; u "127.0.0.1"] (fun a => a); dial_outcome [u "127.0.0.1"; u "10.0.0.1"] (fun a => a);
   dial_outcome [u "127.0.0.1"] (fun _ => u "127.0.0.2")]
  = [Ok (u "127.0.0.1"); Raise (DestinationPolicyError ADDRESS_PROFILE_MISMATCH); Raise (PinnedDialError PEER_MISMATCH)].
Proof. vm_compute. reflexivity. Qed.
