(* ===== verification/DestinationHosts.v ===== *)
(** * A normalized host is its own normal form

    [normalize_host] of an accepted host returns a host it would return again, for names and for
    written addresses; the validation of a capability relies on it. *)

From S2P Require Import Prelude Sha256 Text TextLemmas Addresses AddressText AddressClasses Destination.

Local Open Scope Z_scope.

(** ** Labels *)

Lemma lower_char_cases c : lower_char c = c \/ (65 <= c <= 90)%N /\ lower_char c = (c + 32)%N.
Proof.
  unfold lower_char, char_between. destruct (_ && _) eqn:E; [right|by left].
  by apply andb_true_iff in E as [H1%N.leb_le H2%N.leb_le].
Qed.

Lemma split_lower s : split_on 46 (ascii_lower s) = map ascii_lower (split_on 46 s).
Proof.
  induction s as [|c s IH]; [done|]. simpl.
  assert ((lower_char c =? 46)%N = (c =? 46)%N) as ->.
  { apply eq_true_iff_eq. rewrite !N.eqb_eq. destruct (lower_char_cases c) as [->|[? ->]]; lia. }
  fold (ascii_lower s). rewrite IH. destruct (c =? 46)%N; [done|].
  pose proof (split_nonempty 46 s). by destruct (split_on 46 s).
Qed.

(** ** Characters of a name *)

Definition host_char (c : N) : bool := label_char c || (c =? 45)%N || (c =? 46)%N.

Lemma host_char_ok c :
  host_char c = true -> is_py_space c = false /\ ((c <? 32)%N || (c =? 127)%N) = false /\ lower_char c = c /\
    (c <? 128)%N = true /\ existsb (N.eqb c) (u "/\@#?%[]:") = false.
Proof.
  unfold host_char, label_char, is_lower, is_decimal, is_py_space, lower_char, char_between. intros H.
  rewrite !orb_true_iff, !andb_true_iff, !N.leb_le, !N.eqb_eq in H.
  split_and!.
  - rewrite !orb_false_iff, !andb_false_iff, !N.leb_gt, !N.eqb_neq. lia.
  - rewrite orb_false_iff, N.ltb_ge, N.eqb_neq. lia.
  - destruct (65 <=? c)%N eqn:E1, (c <=? 90)%N eqn:E2; try done. apply N.leb_le in E1, E2. lia.
  - apply N.ltb_lt. lia.
  - simpl. rewrite !orb_false_iff, !N.eqb_neq. lia.
Qed.

Lemma address_host_char c : address_char c = true -> host_char c = true \/ c = 58%N.
Proof.
  unfold address_char, host_char, label_char, is_lower, char_between. intros H.
  rewrite !orb_true_iff, !andb_true_iff, !N.leb_le, !N.eqb_eq in H.
  rewrite !orb_true_iff, !andb_true_iff, !N.leb_le, !N.eqb_eq. intuition lia.
Qed.

Lemma strip_of (p : N -> bool) s :
  (forall c, p c = true -> is_py_space c = false) -> forallb p s = true -> strip s = s.
Proof.
  intros Hp. assert (forall s, forallb p s = true -> lstrip s = s) as Hl.
  { intros [|c t]; [done|]. simpl. intros [Hc _]%andb_true_iff. by rewrite (Hp c Hc). }
  intros H. unfold strip. rewrite (Hl s H), Hl, rev_involutive; [done|].
  apply forallb_forall. intros c Hc%in_rev. rewrite forallb_forall in H. auto.
Qed.

(** A text of host characters passes the checks on host text. *)
Lemma host_text_ok s :
  s <> [] -> (length s <= 254)%nat -> forallb (fun c => host_char c || (c =? 58)%N) s = true ->
  _validate_host_text s = Ok tt.
Proof.
  intros Hne Hl H. unfold _validate_host_text. rewrite bool_decide_false by done.
  unfold too_long. rewrite (proj2 (Nat.ltb_ge _ _)) by exact Hl. unfold unstripped.
  assert (forall c, host_char c || (c =? 58)%N = true -> is_py_space c = false /\
    ((c <? 32)%N || (c =? 127)%N) = false /\ existsb (N.eqb c) (u "/\@#?%[]") = false) as Hc.
  { intros c [Hc| ->%N.eqb_eq]%orb_true_iff; [|done]. destruct (host_char_ok c Hc) as (H1 & H2 & _ & _ & H3).
    split_and!; [done..|]. simpl in *. rewrite !orb_false_iff in *. tauto. }
  rewrite (strip_of _ _ (fun c Hp => proj1 (Hc c Hp)) H), bool_decide_true by done.
  rewrite forallb_forall in H.
  assert (has_control s = false) as ->.
  { apply existsb_false, list.Forall_forall. intros c Hin%list_elem_of_In. by apply Hc, H. }
  cbn [orb negb]. destruct (existsb (fun c => has_char c s) (u "/\@#?%[]")) eqn:E; [|done]. exfalso.
  apply existsb_exists in E as (x & Hx & Hin). unfold has_char in Hin. apply existsb_exists in Hin as (c & Hin & Heq%N.eqb_eq).
  subst x. destruct (Hc c (H c Hin)) as (_ & _ & H3). assert (existsb (N.eqb c) (u "/\@#?%[]") = true); [|congruence].
  apply existsb_exists. exists c. by rewrite N.eqb_refl.
Qed.

(** ** Written addresses *)

Section tables.
Context (tables : UnicodeTables).

Lemma format_ipv6_colon v : has_char 58 (format_ipv6 v) = true.
Proof.
  unfold format_ipv6. destruct (compress_shape _ (length_to_digits 16 8 v)) as [_ Hl].
  destruct (compress_hextets _) as [|p [|q l]]; simpl in Hl; try lia.
  change (has_char 58 (p ++ 58%N :: join_on 58 (q :: l)) = true). rewrite has_char_app. simpl. apply orb_true_r.
Qed.

Lemma readable_host_text s : readable_text s -> _validate_host_text s = Ok tt.
Proof.
  intros (Hne & Hl & Hc). apply host_text_ok; [done|lia|]. apply forallb_forall. intros c Hin.
  rewrite forallb_forall in Hc. apply Hc, address_host_char in Hin as [-> | ->]; [done|apply orb_true_r].
Qed.

Lemma ipv6_normal v : 0 <= v < 2 ^ 128 -> normalize_host tables (format_ipv6 v) = Ok (format_ipv6 v).
Proof.
  intros Hv. pose proof (format_ipv6_readable v) as Hr. unfold normalize_host. rewrite readable_host_text by done.
  rewrite format_ipv6_colon. unfold _normalize_ipv6_literal. rewrite reads_ipv6 by done. cbn [ip_str].
  by rewrite readable_lower.
Qed.

Lemma format_ipv4_last v : List.last (format_ipv4 v) 0%N <> 46%N.
Proof.
  unfold format_ipv4. set (parts := map str_of_int (to_digits 8 4 v [])).
  assert (In (List.last parts []) parts) as Hin by (by apply last_in).
  apply in_map_iff in Hin as (d & Hd & Hin%list_elem_of_In). assert (0 <= d < 256) as Hb by (by apply (digits_small 8 4 v)).
  pose proof (octet_plain d 46 Hb ltac:(set_solver)) as Hp. pose proof (octet_text d Hb) as Ht. rewrite Hd in *.
  assert (List.last parts [] <> []) as Hne.
  { unfold octet_text_ok in Ht. rewrite Hd in Ht. apply andb_true_iff in Ht as [_ Ht]. by apply negb_true_iff, bool_decide_eq_false in Ht. }
  rewrite last_join by done. intros Heq. pose proof (last_in _ 0%N Hne) as Hl. rewrite Heq in Hl.
  unfold has_char in Hp. assert (existsb (N.eqb 46) (List.last parts []) = true); [|congruence].
  apply existsb_exists. by exists 46%N.
Qed.

Lemma ipv4_normal v : 0 <= v < 2 ^ 32 -> normalize_host tables (format_ipv4 v) = Ok (format_ipv4 v).
Proof.
  intros Hv. pose proof (format_ipv4_readable v) as Hr. unfold normalize_host. rewrite readable_host_text by done.
  rewrite format_ipv4_plain by set_solver. unfold without_dot.
  rewrite !(bool_decide_false (List.last (format_ipv4 v) 0%N = 46%N)) by apply format_ipv4_last.
  rewrite bool_decide_false by apply Hr. cbn [orb]. by rewrite reads_ipv4.
Qed.

(** ** Names *)

(** A text outside ASCII, in normal form, has no lower case within ASCII. *)
Hypothesis lower_not_ascii : forall s, nfc tables s = s -> is_ascii_text s = false -> is_ascii_text (unicode_lower tables s) = false.

Lemma parse_ipv4_numeric s v : parse_ipv4 s = Some v -> forallb numeric_label (split_on 46 s) = true.
Proof using Type.
  unfold parse_ipv4. destruct (has_char 47 s); [done|]. case_bool_decide; [|done].
  destruct (mapM parse_octet _) as [vs|] eqn:E; [|done]. intros _. apply mapM_Some in E.
  apply forallb_forall. intros l Hl%list_elem_of_In. destruct (Forall2_in_l _ _ _ _ E Hl) as (o & _ & Ho).
  unfold parse_octet in Ho. destruct (_ || _ || _) eqn:Eg; [done|]. rewrite !orb_false_iff, negb_false_iff in Eg.
  destruct Eg as [[Hn Hd] _]. unfold numeric_label. by rewrite Hn, Hd.
Qed.

Lemma numeric_lower l : numeric_label (ascii_lower l) = numeric_label l.
Proof using Type.
  assert (forall c, is_decimal (lower_char c) = is_decimal c /\ is_hex_digit (lower_char c) = is_hex_digit c) as Hc.
  { intros c. destruct (lower_char_cases c) as [->|[Hb ->]]; [done|]. unfold is_hex_digit, is_decimal, char_between.
    split; apply eq_true_iff_eq; rewrite ?orb_true_iff, ?andb_true_iff, ?N.leb_le; lia. }
  assert (forall s, forallb is_decimal (ascii_lower s) = forallb is_decimal s /\
    forallb is_hex_digit (ascii_lower s) = forallb is_hex_digit s) as Hs.
  { intros s. induction s as [|c s [IH1 IH2]]; [done|]. simpl. destruct (Hc c) as [-> ->].
    fold (ascii_lower s). by rewrite IH1, IH2. }
  unfold numeric_label. rewrite (proj1 (Hs l)).
  assert (forall s, bool_decide (ascii_lower s = []) = bool_decide (s = [])) as Hn by (by intros []).
  rewrite Hn. f_equal. destruct l as [|z [|x digits]]; [done|done|]. cbn [ascii_lower map].
  fold (ascii_lower digits). rewrite Hn, (proj2 (Hs digits)).
  assert ((lower_char z =? 48)%N = (z =? 48)%N) as ->.
  { apply eq_true_iff_eq. rewrite !N.eqb_eq. destruct (lower_char_cases z) as [->|[? ->]]; lia. }
  assert ((lower_char x =? 120)%N || (lower_char x =? 88)%N = ((x =? 120)%N || (x =? 88)%N)) as ->; [|done].
  apply eq_true_iff_eq. rewrite !orb_true_iff, !N.eqb_eq. destruct (lower_char_cases x) as [->|[? ->]]; lia.
Qed.

(** A label with an [n] is no number. *)
Lemma named_label s : has_char 110 s = true -> forallb numeric_label (split_on 46 s) = false.
Proof using Type.
  intros Hs. destruct (forallb numeric_label (split_on 46 s)) eqn:E; [|done]. exfalso.
  rewrite forallb_forall in E.
  assert (Forall (fun p => has_char 110 p = false) (split_on 46 s)) as Hf.
  { apply list.Forall_forall. intros l Hl%list_elem_of_In%E. unfold has_char. apply existsb_false, list.Forall_forall.
    intros c Hc%list_elem_of_In. apply N.eqb_neq. intros <-. unfold numeric_label in Hl. apply orb_true_iff in Hl as [Hl|Hl].
    - apply andb_true_iff in Hl as [_ Hl]. rewrite forallb_forall in Hl. by apply Hl in Hc.
    - destruct l as [|z [|x digits]]; try done. rewrite !andb_true_iff, orb_true_iff, !N.eqb_eq in Hl.
      destruct Hl as [[[-> Hx] _] Hd]. rewrite forallb_forall in Hd. destruct Hc as [Hc|[Hc|Hc]]; [done| |by apply Hd in Hc].
      subst x. by destruct Hx. }
  pose proof (join_char 110 46 _ ltac:(done) Hf) as Hj. rewrite join_split in Hj. congruence.
Qed.

Lemma contains_char needle s c : contains needle s = true -> In c needle -> has_char c s = true.
Proof using Type.
  intros H Hc. induction s as [|x s IH].
  - simpl in H. rewrite take_nil, orb_false_r in H. apply bool_decide_eq_true in H. by subst.
  - cbn [contains] in H. apply orb_true_iff in H as [H|H].
    + apply bool_decide_eq_true in H. unfold has_char. apply existsb_exists. exists c. split; [|apply N.eqb_refl].
      rewrite <- (take_drop (length needle) (x :: s)). apply in_or_app. left. by rewrite H.
    + unfold has_char in *. simpl. by rewrite IH, orb_true_r.
Qed.

(** The shape of an accepted name. *)
Lemma label_shape l : ascii_label l = true ->
  l <> [] /\ (length l <= 63)%nat /\ forallb host_char l = true /\ label_char (List.last l 0%N) = true /\
  label_char (hd 0%N l) = true.
Proof using Type.
  destruct l as [|c l]; [done|]. unfold ascii_label. rewrite !andb_true_iff, Nat.leb_le.
  intros [[[H1 H2] H3] H4]. split_and!; [done|done| |done|done]. apply forallb_forall. intros x Hx.
  rewrite forallb_forall in H3. apply H3, orb_true_iff in Hx as [Hx|Hx]; unfold host_char; rewrite Hx; [done|].
  by rewrite orb_true_r.
Qed.

Lemma name_chars h : forallb ascii_label (split_on 46 h) = true -> forallb host_char h = true.
Proof using Type.
  intros H. rewrite <- (join_split 46 h). apply join_forallb; [done|]. apply list.Forall_forall.
  intros l Hl%list_elem_of_In. rewrite forallb_forall in H. by apply label_shape, H.
Qed.

Lemma name_ascii h : forallb host_char h = true -> is_ascii_text h = true /\ ascii_lower h = h.
Proof using Type.
  intros H. rewrite forallb_forall in H. split.
  - apply forallb_forall. intros c Hc. by apply host_char_ok, H.
  - unfold ascii_lower. rewrite <- (map_id h) at 2. apply map_ext_in. intros c Hc. by apply host_char_ok, H.
Qed.

Lemma name_last h : forallb ascii_label (split_on 46 h) = true -> List.last h 0%N <> 46%N /\ h <> [].
Proof using Type.
  intros H. pose proof (split_nonempty 46 h) as Hne.
  assert (In (List.last (split_on 46 h) []) (split_on 46 h)) as Hin by (by apply last_in).
  rewrite forallb_forall in H. destruct (label_shape _ (H _ Hin)) as (Hl & _ & _ & Hc & _). split.
  - rewrite <- (join_split 46 h), last_join by done. intros Heq. rewrite Heq in Hc. done.
  - intros ->. done.
Qed.

(** The checks a name has passed, as it is returned. *)
Lemma dns_name candidate h :
  _normalize_dns_hostname tables candidate = Ok h ->
  forallb ascii_label (split_on 46 h) = true /\ (length h <= 253)%nat /\ forallb numeric_label (split_on 46 h) = false /\
  exists decoded encoded, idna_decode tables h = Some decoded /\ idna_encode tables decoded = Some encoded /\ ascii_lower encoded = h.
Proof using lower_not_ascii.
  unfold _normalize_dns_hostname. destruct (forallb numeric_label (split_on 46 candidate)) eqn:En; [done|].
  case_bool_decide as Hnfc; [|done]. cbn [negb]. destruct (idna_encode tables candidate) as [encoded|] eqn:Ee; [|done].
  destruct (too_long _ _) eqn:El; [done|]. destruct (forallb ascii_label _) eqn:Ea; [|done]. cbn [negb].
  destruct (_validate_idna_round_trip _ _ _) eqn:Er; [|done]. intros [= <-].
  unfold _validate_idna_round_trip in Er. destruct (idna_decode tables (ascii_lower encoded)) as [decoded|] eqn:Ed; [|done].
  destruct (idna_encode tables decoded) as [again|] eqn:Eg; [|done]. case_bool_decide as Hagain; [|done]. cbn [negb] in Er.
  split_and!; [done| | |by exists decoded, again].
  { unfold too_long in El. by apply Nat.ltb_ge in El. }
  unfold idna_encode in Ee. destruct (is_ascii_text candidate) eqn:Eas.
  - assert (encoded = candidate) as ->.
    { destruct (bool_decide (candidate = [])) eqn:Eb; [apply bool_decide_eq_true in Eb; congruence|].
      destruct (_ && _) in Ee; [congruence|done]. }
    rewrite split_lower, <- En. generalize (split_on 46 candidate) as labels. induction labels as [|l labels IH]; [done|].
    simpl. by rewrite numeric_lower, IH.
  - cbn [negb andb] in Er. case_bool_decide as Hlow; [|done]. unfold idna_decode in Ed.
    destruct (contains (u "xn--") (ascii_lower encoded)) eqn:Ex.
    + apply named_label. eapply contains_char; [exact Ex|]. simpl. tauto.
    + injection Ed as <-. exfalso. destruct (name_ascii _ (name_chars _ Ea)) as [Hasc Hll].
      unfold lower, normalize_nfc in *. rewrite Hasc, Eas, Hll in *.
      pose proof (lower_not_ascii candidate Hnfc Eas) as Hx. rewrite <- Hlow in Hx. congruence.
Qed.

Lemma name_normal candidate h : _normalize_dns_hostname tables candidate = Ok h -> normalize_host tables h = Ok h.
Proof using lower_not_ascii.
  intros (Ha & Hl & Hn & decoded & encoded & Hd & He & Hh)%dns_name.
  pose proof (name_chars _ Ha) as Hc. destruct (name_ascii _ Hc) as [Hasc Hlow]. destruct (name_last _ Ha) as [Hlast Hne].
  assert (forall c, host_char c = false -> has_char c h = false) as Hno.
  { intros c Hf. unfold has_char. apply existsb_false, list.Forall_forall. intros x Hx%list_elem_of_In.
    apply N.eqb_neq. intros <-. rewrite forallb_forall in Hc. apply Hc in Hx. congruence. }
  unfold normalize_host. rewrite host_text_ok; [|done|lia|].
  2: { apply forallb_forall. intros c Hin. rewrite forallb_forall in Hc. by rewrite (Hc c Hin). }
  rewrite (Hno 58%N) by done. unfold without_dot. rewrite !(bool_decide_false (List.last h 0%N = 46%N)) by done.
  rewrite bool_decide_false by done. cbn [orb]. unfold ip_address.
  destruct (parse_ipv4 h) as [v|] eqn:E4; [apply parse_ipv4_numeric in E4; congruence|].
  unfold parse_ipv6. rewrite (Hno 47%N) by done. rewrite partition_absent by (by apply Hno).
  unfold parse_ipv6_int at 1. rewrite (split_plain 58) by (by apply Hno). rewrite orb_true_r. cbn [option_map].
  unfold _normalize_dns_hostname. rewrite Hn.
  rewrite (bool_decide_true (normalize_nfc tables h = h)) by (unfold normalize_nfc; by rewrite Hasc). cbn [negb].
  assert (idna_encode tables h = Some h) as ->.
  { unfold idna_encode. rewrite Hasc, bool_decide_false by done.
    assert (forall l, In l (split_on 46 h) -> (0 <? length l)%nat = true /\ (length l <? 64)%nat = true) as Hlab.
    { intros l Hin. rewrite forallb_forall in Ha. destruct (label_shape _ (Ha l Hin)) as (Hln & Hll & _).
      split; apply Nat.ltb_lt; [destruct l; simpl; [done|lia]|lia]. }
    assert (forallb (fun l => (0 <? length l)%nat && (length l <? 64)%nat) (removelast (split_on 46 h)) = true) as ->.
    { apply forallb_forall. intros l Hin. destruct (Hlab l) as [-> ->]; [|done].
      rewrite (app_removelast_last (l := split_on 46 h) []) by apply split_nonempty. apply in_or_app. by left. }
    destruct (Hlab (List.last (split_on 46 h) [])) as [_ ->]; [|done]. apply last_in, split_nonempty. }
  rewrite Hlow. unfold too_long. rewrite (proj2 (Nat.ltb_ge _ _)) by exact Hl. rewrite Ha. cbn [negb].
  unfold _validate_idna_round_trip. rewrite Hd, He, Hh, bool_decide_true by done. by rewrite Hasc.
Qed.

Lemma host_text_plain s : _validate_host_text s = Ok tt -> has_char 37 s = false.
Proof using Type.
  unfold _validate_host_text. destruct (_ || _ || _ || _ || _) eqn:Eo; [done|]. apply orb_false_iff in Eo as [_ Eo].
  simpl in Eo. rewrite !orb_false_iff in Eo. tauto.
Qed.

Lemma normalize_idempotent value h : normalize_host tables value = Ok h -> normalize_host tables h = Ok h.
Proof using lower_not_ascii.
  intros H. unfold normalize_host in H. destruct (_validate_host_text value) as [[]|] eqn:Et; [|discriminate H].
  destruct (has_char 58 value).
  - unfold _normalize_ipv6_literal in H. destruct (ip_address value) as [[|v scope]|] eqn:Ei; try done.
    destruct (plain_address _ _ (host_text_plain _ Et) Ei) as [(w & _ & [=])|(w & Hw & [= -> ->])].
    apply ok_inj in H as <-. cbn [ip_str]. rewrite readable_lower by apply format_ipv6_readable. by apply ipv6_normal.
  - destruct (_ || _); [done|]. unfold ip_address in H. destruct (parse_ipv4 _) as [v|] eqn:E4.
    + apply ok_inj in H as <-. apply ipv4_normal. by eapply parse_ipv4_bound.
    + destruct (parse_ipv6 _); [discriminate H|]. exact (name_normal _ _ H).
Qed.
End tables.
