(* ===== verification/DestinationSafety.v ===== *)
(** * What a dialed connection is connected to

    The safety of the pinned dialer, from the validation of the policy to the peer of the stream, and
    the converse for capabilities: what the policy functions mint, their consumers accept. *)

From S2P Require Import Prelude Sha256 Text TextLemmas Addresses AddressText AddressClasses Destination Dialer DestinationHosts.

Local Open Scope Z_scope.

(** ** What a profile allows *)

Definition profile_allows (profile : TargetProfile) (c : AddressClass) : Prop :=
  match profile with
  | Target_LOOPBACK => c = Address_LOOPBACK
  | Target_PRIVATE_ALLOWLIST => c = Address_PRIVATE \/ c = Address_LOOPBACK
  | Target_PUBLIC_AUTHORIZED => c = Address_PUBLIC
  end.

(** A text a resolver may return: an address of an allowed class. *)
Definition allowed_text (profile : TargetProfile) (text : str) : Prop :=
  exists c, classify_address text = Ok c /\ profile_allows profile (address_class c).

(** The conditions of a profile on the destination, and the operator's authorization of a public one. *)
Definition gates_held (auth : Authorities) (p : PolicyObject) : Prop :=
  let d := do_fields (po_destination p) in
  match po_target_profile p with
  | Target_LOOPBACK => True
  | Target_PRIVATE_ALLOWLIST => pd_host d ∈ po_allowed_hosts p
  | Target_PUBLIC_AUTHORIZED =>
    pd_scheme d = u "https" /\ pd_host d ∈ po_allowed_hosts p /\
    exists b, policy_binding_of auth (po_id p) = Some b /\ pb_public_authorization b = Some (pd_host d, pd_port d)
  end.

Lemma allows_not_blocked profile c : profile_allows profile c -> c <> Address_BLOCKED.
Proof. destruct profile; simpl; intros H ->; intuition congruence. Qed.

Lemma enforce_ok profile c : _enforce_address_profile profile c = Ok tt <-> profile_allows profile (address_class c).
Proof.
  unfold _enforce_address_profile, _reject, profile_allows.
  destruct profile, (address_class c); vm_compute; intuition congruence.
Qed.

Section tables.
Context (tables : UnicodeTables).

Lemma provenance_ok auth p :
  _validate_policy_provenance tables auth p = Ok tt <-> policy_checks tables auth p = Ok true.
Proof.
  unfold _validate_policy_provenance, _reject.
  destruct (policy_checks tables auth p) as [[]|]; split; congruence.
Qed.

(** ** The checks a policy has passed *)

Lemma policy_facts auth p :
  _validate_policy_provenance tables auth p = Ok tt ->
  pd_port (do_fields (po_destination p)) ∈ po_allowed_ports p /\
  pd_literal_address (do_fields (po_destination p)) = literal_of (pd_host (do_fields (po_destination p))) /\
  gates_held auth p.
Proof.
  rewrite provenance_ok. unfold policy_checks, gates_held. intros H.
  destruct (policy_binding_of auth (po_id p)) as [b|] eqn:Eb; [|done].
  destruct (_policy_binding auth p _) as [current|]; [|done].
  destruct (_policy_profile_gates_are_valid p _) as [gates|] eqn:Eg; [|done]. cbn [mbind] in H.
  apply ok_inj in H. rewrite !andb_true_iff in H. destruct H as [[[_ Hl] Hp] ->].
  apply bool_decide_eq_true in Hl, Hp. split_and!; [done..|].
  unfold _policy_profile_gates_are_valid in Eg. destruct (po_target_profile p); [done|..].
  - apply ok_inj, andb_true_iff in Eg as [Eg%bool_decide_eq_true _]. done.
  - destruct (_validate_challenge_path _); [|done]. apply ok_inj in Eg. rewrite !andb_true_iff in Eg.
    destruct Eg as [[H1%bool_decide_eq_true H2%bool_decide_eq_true] H3%bool_decide_eq_true]. split_and!; [done..|].
    by exists b.
Qed.

(** ** The checks an authorized destination has passed *)

Lemma authorized_facts auth a a' :
  validate_authorized_destination tables auth a = Ok a' ->
  a' = a /\ _validate_policy_provenance tables auth (ao_policy a) = Ok tt /\
  Forall (fun c => classify_address (normalized c) = Ok c /\ profile_allows (po_target_profile (ao_policy a)) (address_class c))
    (ao_addresses a).
Proof.
  unfold validate_authorized_destination. intros H.
  destruct (_validate_policy_provenance tables auth (ao_policy a)) as [[]|] eqn:Ep; [|done].
  destruct (_ && _) eqn:E in H; [|discriminate H]. apply ok_inj in H as <-. split_and!; [done..|].
  apply andb_true_iff in E as [_ E]. unfold _authorized_address_set_is_valid in E. rewrite !andb_true_iff in E.
  destruct E as [[[_ E] _] _]. apply list.Forall_forall. intros c Hc%list_elem_of_In. rewrite forallb_forall in E.
  apply E, andb_true_iff in Hc as [H1 H2]. split.
  - destruct (classify_address (normalized c)); [|done]. by apply bool_decide_eq_true in H1 as ->.
  - apply enforce_ok. by destruct (_enforce_address_profile _ c) as [[]|].
Qed.

(** ** Resolution authorizes every answer *)

Lemma candidates_allowed policy values found r :
  for_each (authorize_candidate policy) found values = Ok r -> Forall (allowed_text (po_target_profile policy)) values.
Proof using Type.
  revert found. induction values as [|v values IH]; intros found H; [constructor|]. simpl in H.
  destruct (authorize_candidate policy found v) as [found'|] eqn:E; [|done]. constructor; [|by eapply IH].
  unfold authorize_candidate, _reject in E. destruct (classify_address v) as [c|] eqn:Ec; [|done].
  destruct (_enforce_address_profile _ c) as [[]|] eqn:Ee; [|done]. exists c. split; [done|by apply enforce_ok].
Qed.

Lemma authorize_facts auth policy candidates a auth' :
  authorize_resolved_addresses tables auth policy candidates = Ok (a, auth') ->
  ao_policy a = policy /\ (forall given, candidates = Some given -> Forall (allowed_text (po_target_profile policy)) given).
Proof.
  unfold authorize_resolved_addresses, validate_destination_policy. intros H.
  destruct (_validate_policy_provenance tables auth policy); [|done]. cbn [mbind] in H.
  match type of H with match ?x with _ => _ end = _ => destruct x as [values|] eqn:Ev; [|discriminate H] end.
  destruct (for_each _ _ values) as [found|] eqn:Ef; [|discriminate H].
  destruct (match _ with None => _ | Some _ => _ end) in H; [discriminate H|].
  destruct (policy_binding_of auth (po_id policy)); [|discriminate H].
  destruct (_mint_authority _ _) as [[id auth1]|]; [|discriminate H]. injection H as <- <-. split; [done|].
  intros given ->. apply candidates_allowed in Ef. unfold _materialize_candidates in Ev.
  destruct (_ || _) in Ev; [discriminate Ev|]. by apply ok_inj in Ev as ->.
Qed.

Definition answers_allowed (policy : PolicyObject) (resolver : str -> Z -> resolution) : Prop :=
  let d := do_fields (po_destination policy) in
  ip_address (pd_host d) = None ->
  exists answers, resolver (pd_host d) (pd_port d) = Resolved answers /\ Forall (allowed_text (po_target_profile policy)) answers.

Lemma resolution_facts auth policy timeouts resolver a auth' :
  resolve_and_authorize tables auth policy timeouts resolver = Ok (a, auth') ->
  ao_policy a = policy /\ _validate_policy_provenance tables auth policy = Ok tt /\ answers_allowed policy resolver.
Proof.
  unfold resolve_and_authorize, validate_destination_policy at 1. intros H.
  destruct (_validate_policy_provenance tables auth policy) as [[]|] eqn:Ep; [|discriminate H]. cbn [mbind] in H.
  destruct (validate_destination_policy tables auth policy); [|discriminate H].
  destruct (policy_facts _ _ Ep) as (_ & Hl & _). unfold answers_allowed.
  destruct (pd_literal_address _) as [literal|] eqn:El.
  - apply authorize_facts in H as [-> _]. split_and!; [done..|]. intros Hn. unfold literal_of in Hl. by rewrite Hn in Hl.
  - destruct (_seconds _); [|discriminate H].
    destruct (resolver _ _) as [answers| |[]|code|] eqn:Er; try discriminate H.
    apply authorize_facts in H as [-> Ha]. split_and!; [done..|]. intros _. exists answers. split; [done|by apply Ha].
Qed.

(** ** The connection *)

Definition tls_verified (plan : ConnectionPlan) (d : ParsedDestination) (verifies : Z -> bool) : Prop :=
  pd_scheme d = u "https" ->
  cp_tls_server_hostname plan = Some (pd_host d) /\
  exists context, cp_ssl_context plan = Some context /\ verifies context = true.

(** The plan is for the policy's destination and pins an address its profile allows. *)
Definition plan_allowed (policy : PolicyObject) (plan : ConnectionPlan) : Prop :=
  let d := do_fields (po_destination policy) in
  cp_port plan = pd_port d /\ pd_port d ∈ po_allowed_ports policy /\ cp_host_header plan = authority d /\
  exists a c, ip_address (cp_pinned_address plan) = Some a /\ profile_allows (po_target_profile policy) c /\ stands_for c a.

(** The stream's peer is the pinned address, and the security of the plan still stands. *)
Definition peer_pinned (connector : ConnectionPlan -> connection) (d : ParsedDestination) (conn : PinnedConnection) : Prop :=
  let plan := pc_plan conn in
  exists c peer, connector plan = Connected c /\ co_plan c = plan /\ co_peer c = Some peer /\
    peer_address peer = cp_pinned_address plan /\ peer_port peer = cp_port plan /\ peer_family peer = cp_family plan /\
    pe_peer_address (pc_evidence conn) = cp_pinned_address plan /\ tls_verified plan d (co_verifies c).

Lemma plan_facts verifies p p' :
  validate_connection_plan verifies p = Ok p' ->
  p' = p /\ forall name context, cp_tls_server_hostname p = Some name -> cp_ssl_context p = Some context -> verifies context = true.
Proof using Type.
  unfold validate_connection_plan. intros H. do 5 py_step H. apply ok_inj in H as <-. split; [done|].
  intros name context Hn Hc. rewrite Hn, Hc in *.
  match goal with E : _ || negb (verifies context) = false |- _ => apply orb_false_iff in E as [_ E]; by apply negb_false_iff in E end.
Qed.

Lemma peer_facts p p' : validate_peer_address p = Ok p' -> p' = p.
Proof using Type. unfold validate_peer_address. intros H. do 2 py_step H. by apply ok_inj in H. Qed.

Lemma wrap_facts c plan :
  match _verify_peer_and_wrap c plan with
  | (Ok conn, st) =>
    st = Stream_open /\ pc_plan conn = plan /\ co_plan c = plan /\ validate_connection_plan (co_verifies c) plan = Ok plan /\
    pe_peer_address (pc_evidence conn) = cp_pinned_address plan /\
    exists peer, co_peer c = Some peer /\ peer_address peer = cp_pinned_address plan /\ peer_port peer = cp_port plan /\
      peer_family peer = cp_family plan
  | (Raise _, st) => st = _close_failed_stream c
  end.
Proof using Type.
  unfold _verify_peer_and_wrap, dial_error. destruct (co_peer c) as [peer|]; [|done].
  destruct (validate_peer_address peer) as [peer'|] eqn:Ep; [|done]. apply peer_facts in Ep as ->.
  destruct (_ || _ || _) eqn:E; [done|]. rewrite !orb_false_iff, !negb_false_iff, !bool_decide_eq_true, Z.eqb_eq in E.
  destruct E as [[Ha Hp] Hf].
  destruct (validate_connection_plan _ plan) as [plan'|] eqn:Ev; [|done]. destruct (plan_facts _ _ _ Ev) as [-> _].
  case_bool_decide as Hc; [|done]. simpl. split_and!; [done..|]. by exists peer.
Qed.

(** What is left of the stream when [dialing] with a connector failed: the connector was not asked, or
    returned none, or [aclose] was awaited on the one it returned. *)
Definition stream_released (dialing : (ConnectionPlan -> connection) -> result PinnedConnection * stream_state)
    (connector : ConnectionPlan -> connection) (st : stream_state) : Prop :=
  match st with
  | Stream_none => (forall connector', dialing connector' = dialing connector) \/ exists plan, forall c, connector plan <> Connected c
  | Stream_open => False
  | Stream_closed => exists plan c, connector plan = Connected c /\ co_aclose c = Close_completes
  | Stream_abandoned => exists plan c, connector plan = Connected c /\ co_aclose c <> Close_completes
  end.
Lemma refused_released dialing connector plan c : connector plan = Connected c -> stream_released dialing connector (_close_failed_stream c).
Proof using Type. intros Hc. unfold _close_failed_stream. destruct (co_aclose c) eqn:E; exists plan, c; by rewrite E. Qed.

(** The plan is made from the first authorized address. *)
Lemma expected_facts auth a timeouts create_context verifies plan :
  expected_plan_of tables auth a timeouts create_context verifies = Ok plan ->
  plan_allowed (ao_policy a) plan /\
  forall verifies', validate_connection_plan verifies' plan = Ok plan -> tls_verified plan (do_fields (po_destination (ao_policy a))) verifies'.
Proof.
  unfold expected_plan_of. destruct (validate_authorized_destination tables auth a) as [a'|] eqn:Ea; [|done].
  destruct (authorized_facts _ _ _ Ea) as (-> & Hp & Hc). destruct (policy_facts _ _ Hp) as (Hport & _ & _).
  destruct (ao_addresses a) as [|selected rest]; [done|].
  apply list.Forall_cons in Hc as [[Hn Hall] _].
  destruct (classification_denotes _ _ Hn (allows_not_blocked _ _ Hall)) as (x & Hx & _ & Hs & _).
  destruct (SocketFamily_of _) as [family|]; [|done]. rewrite Ea.
  destruct (_seconds (connect_nanoseconds timeouts)); [|done]. destruct (_seconds (close_nanoseconds timeouts)); [|done].
  set (d := do_fields _) in *.
  destruct (if bool_decide (pd_scheme d = u "https") then _ else _) as [[tls_name tls_context]|] eqn:Et; [|done].
  cbv iota beta. intros Ev. destruct (plan_facts _ _ _ Ev) as [-> _]. split.
  - unfold plan_allowed. cbn. split_and!; [done..|]. by exists x, (address_class selected).
  - intros verifies' Hv Hs'. rewrite bool_decide_true in Et by done.
    destruct (create_context _) as [context|]; [|discriminate Et]. injection Et as <- <-.
    destruct (plan_facts _ _ _ Hv) as [_ Htls]. split; [done|]. exists context. split; [done|]. by apply (Htls (pd_host d)).
Qed.
Lemma connect_facts auth a timeouts create_context verifies connector :
  match connect_authorized tables auth a timeouts create_context verifies connector with
  | (Ok conn, st) =>
    st = Stream_open /\ plan_allowed (ao_policy a) (pc_plan conn) /\
    peer_pinned connector (do_fields (po_destination (ao_policy a))) conn
  | (Raise _, st) => stream_released (connect_authorized tables auth a timeouts create_context verifies) connector st
  end.
Proof.
  unfold connect_authorized.
  destruct (expected_plan_of tables auth a timeouts create_context verifies) as [plan|] eqn:Ev; [|by left].
  destruct (expected_facts _ _ _ _ _ _ Ev) as [Hallowed Htls].
  destruct (connector plan) as [c| | | |] eqn:Econn; try (right; exists plan; intros c; by rewrite Econn).
  pose proof (wrap_facts c plan) as Hw. destruct (_verify_peer_and_wrap c plan) as [[conn|] st]; [|subst st; by eapply refused_released].
  destruct Hw as (-> & Hplan & Hco & Hv & Hev & peer & Hpeer & Ha & Hpp & Hf). rewrite <- Hplan in *.
  split; [done|]. split; [done|]. exists c, peer. split_and!; try done. by apply Htls.
Qed.

(** C14: A dialed connection goes where the policy allows, whatever the resolver and the connector do.
    When [dial] returns a connection, the stream is open and its peer is the pinned numeric address
    and the policy's own port; the pin is an address of a class the profile allows (loopback,
    private or public space), the port is an allowed one, and outside the loopback profile the host is
    allowlisted, a public one also authorized by the operator for that very host and port and reached
    by https; every answer of the resolver was of an allowed class, not only the one pinned; over
    https the context still verifies the connection for the policy's hostname.  When [dial] fails, it
    hands over no stream: either it failed before any connector was asked, whatever the connector, or
    the connector returned no stream, or the returned stream was closed, unless its [aclose] raised or
    timed out: the close is best effort. *)
Theorem dial_safe auth policy timeouts resolver create_context verifies connector :
  match dial tables auth policy timeouts resolver create_context verifies connector with
  | (Ok conn, st) =>
    st = Stream_open /\ gates_held auth policy /\ answers_allowed policy resolver /\
    plan_allowed policy (pc_plan conn) /\ peer_pinned connector (do_fields (po_destination policy)) conn
  | (Raise _, st) => stream_released (dial tables auth policy timeouts resolver create_context verifies) connector st
  end.
Proof.
  unfold dial. destruct (resolve_and_authorize _ _ _ _ _) as [[a auth1]|] eqn:Er; [|by left].
  destruct (resolution_facts _ _ _ _ _ _ Er) as (Hpol & Hp & Ha). destruct (policy_facts _ _ Hp) as (_ & _ & Hg).
  pose proof (connect_facts auth1 a timeouts create_context verifies connector) as H.
  destruct (connect_authorized _ _ _ _ _ _ _) as [[conn|] st]; [|done]. rewrite Hpol in H.
  by destruct H as (? & ? & ?).
Qed.
End tables.
