(* ===== verification/Capabilities.v ===== *)
(** * Minted capabilities are accepted

    What [parse_destination_policy] and [authorize_resolved_addresses] mint passes the validation their
    consumers make: every check of [validate_destination_policy] and [validate_authorized_destination]
    is established by the code that mints. *)

From S2P Require Import Prelude Sha256 Text TextLemmas Addresses AddressText AddressClasses Destination DestinationHosts.

Local Open Scope Z_scope.

(** No identity still to be handed out is registered. *)
Definition fresh_authorities (auth : Authorities) : Prop := forall id, next_id auth <= id -> records auth !! id = None.

Lemma remove_dups_nodup {A} `{EqDecision A} (l : list A) : NoDup l -> remove_dups l = l.
Proof. induction 1 as [|x l Hx _ IH]; [done|]. simpl. destruct (decide_rel _ x l); [done|by rewrite IH]. Qed.

(** A sorted tuple without duplicates is what its validation computes. *)
Definition sorted_tuple {A} `{Cmp A, EqDecision A} (l : list A) : Prop := l = sorted_by (remove_dups l).

Lemma sorted_tuple_intro {A} `{CmpLaws A, EqDecision A} (l : list A) : NoDup l -> sorted_tuple (sorted_by l).
Proof.
  intros Hl. unfold sorted_tuple. rewrite remove_dups_nodup by (unfold sorted_by; by rewrite py_sorted_perm).
  unfold sorted_by. symmetry. apply py_sorted_id, py_sorted_sorted.
Qed.

Lemma mint_fresh auth record :
  fresh_authorities auth ->
  _mint_authority auth record = Ok (next_id auth, {| records := <[next_id auth := record]> (records auth); next_id := next_id auth + 1 |}).
Proof. intros H. unfold _mint_authority. by rewrite H. Qed.

Lemma fresh_insert auth record :
  fresh_authorities auth -> fresh_authorities {| records := <[next_id auth := record]> (records auth); next_id := next_id auth + 1 |}.
Proof. intros H id Hid. cbn [next_id records] in *. rewrite lookup_insert_ne by lia. apply H. lia. Qed.

Lemma fresh_next auth : fresh_authorities auth -> fresh_authorities {| records := records auth; next_id := next_id auth + 1 |}.
Proof. intros H id Hid. cbn [next_id records] in *. apply H. lia. Qed.

Section tables.
Context (tables : UnicodeTables).
Hypothesis lower_not_ascii : forall s, nfc tables s = s -> is_ascii_text s = false -> is_ascii_text (unicode_lower tables s) = false.

(** ** Parsed destinations *)

Lemma parse_port_bound text default p :
  (forall q, default = Some q -> within 1 MAX_HTTP_PORT q = true) -> _parse_port text default = Ok p ->
  within 1 MAX_HTTP_PORT p = true.
Proof using Type.
  intros Hd. unfold _parse_port, _reject. destruct text as [text|].
  - destruct (_ || _); [discriminate|]. destruct (within _ _ _) eqn:E; [|discriminate]. by intros <-%ok_inj.
  - destruct default as [q|]; [|discriminate]. intros <-%ok_inj. by apply Hd.
Qed.

Lemma default_ports scheme q : _DEFAULT_PORTS scheme = Some q -> within 1 MAX_HTTP_PORT q = true.
Proof using Type. unfold _DEFAULT_PORTS. repeat case_bool_decide; intros [= <-]; done. Qed.

Record destination_ok (d : ParsedDestination) : Prop := {
  known_scheme : _DEFAULT_PORTS (pd_scheme d) <> None;
  normal_host : normalizes_to_itself tables (pd_host d) = true;
  port_bound : within 1 MAX_HTTP_PORT (pd_port d) = true;
  literal_host : pd_literal_address d = literal_of (pd_host d)
}.

Lemma normalized_itself value h : normalize_host tables value = Ok h -> normalizes_to_itself tables h = true.
Proof using lower_not_ascii.
  intros H%(normalize_idempotent tables lower_not_ascii). unfold normalizes_to_itself. rewrite H. by apply bool_decide_eq_true.
Qed.

Lemma scheme_known value scheme raw : _extract_scheme_and_authority value = Ok (scheme, raw) -> _DEFAULT_PORTS scheme <> None.
Proof using Type.
  unfold _extract_scheme_and_authority, _reject. destruct (scheme_split value) as [[before rest]|]; [|discriminate].
  destruct (bool_decide (before = [])); [discriminate|]. destruct (bool_decide (_DEFAULT_PORTS _ = None)) eqn:E; [discriminate|].
  destruct (bool_decide (_ = [])); [discriminate|]. destruct (has_char 64 _); [discriminate|].
  destruct (has_char 37 _); [discriminate|]. intros [= <- _]. by apply bool_decide_eq_false in E.
Qed.

Lemma parsed_ok value d : _parse_destination_url tables value = Ok d -> destination_ok d.
Proof using lower_not_ascii.
  unfold _parse_destination_url, _reject. destruct (_validate_url_text value); [|discriminate].
  destruct (has_char 35 value); [discriminate|].
  destruct (_extract_scheme_and_authority value) as [[scheme raw]|] eqn:Es; [|discriminate].
  destruct (_split_authority raw) as [[raw_host port_text]|]; [|discriminate].
  destruct (normalize_host tables raw_host) as [host|] eqn:Eh; [|discriminate].
  destruct (_parse_port _ _) as [port|] eqn:Ep; [|discriminate].
  destruct (urlsplit tables value) as [parsed|]; [|discriminate].
  destruct (_require_parser_agreement parsed scheme raw); [|discriminate]. intros <-%ok_inj. constructor; cbn.
  - by eapply scheme_known.
  - by eapply normalized_itself.
  - eapply parse_port_bound; [|exact Ep]. apply default_ports.
  - done.
Qed.

Lemma hosts_ok values hosts :
  _normalize_allowed_hosts tables values = Ok hosts -> sorted_tuple hosts /\ forallb (normalizes_to_itself tables) hosts = true.
Proof using lower_not_ascii.
  unfold _normalize_allowed_hosts, _reject. destruct (_ <? _)%nat; [discriminate|].
  destruct (map_result _ values) as [normal|] eqn:En; [|discriminate]. case_bool_decide as Hd; [|discriminate]. cbn [negb].
  intros <-%ok_inj. split; [by apply sorted_tuple_intro|]. apply forallb_forall. intros h Hh%list_elem_of_In.
  unfold sorted_by in Hh. rewrite elem_of_py_sorted in Hh. apply map_result_ok in En.
  destruct (Forall2_in_r _ _ _ _ En Hh) as (v & _ & Hv). by eapply normalized_itself.
Qed.

(** ** Policies *)

Lemma public_gates_ok d hosts path runtime authorized :
  _validate_public_gates tables d hosts path runtime = Ok authorized ->
  pd_scheme d = u "https" /\ pd_host d ∈ hosts /\ _validate_challenge_path path = Ok tt /\ authorized = (pd_host d, pd_port d).
Proof using Type.
  unfold _validate_public_gates, _require_allowed_host, _reject. case_bool_decide as Hs; [|discriminate]. cbn [negb].
  case_bool_decide as Hh; [|discriminate]. destruct (_validate_challenge_path path) as [[]|]; [|discriminate].
  destruct runtime as [text|]; [|discriminate]. destruct (_parse_runtime_authorization tables text); [|discriminate].
  case_bool_decide as Ha; [|discriminate]. cbn [negb]. intros <-%ok_inj. done.
Qed.

(** The checks hold of the object whose fields are those it was minted with. *)
Lemma checks_of_minted auth p authorization :
  let d := do_fields (po_destination p) in
  destination_binding_of auth (do_id (po_destination p)) = Some d ->
  policy_binding_of auth (po_id p) =
    Some {| pb_destination_id := do_id (po_destination p); pb_destination := d; pb_target_profile := po_target_profile p;
            pb_allowed_hosts := po_allowed_hosts p; pb_allowed_ports := po_allowed_ports p;
            pb_public_challenge_path := po_public_challenge_path p; pb_public_authorization := authorization |} ->
  _policy_profile_gates_are_valid p authorization = Ok true ->
  sorted_tuple (po_allowed_hosts p) -> forallb (normalizes_to_itself tables) (po_allowed_hosts p) = true ->
  sorted_tuple (po_allowed_ports p) -> forallb (within 1 MAX_HTTP_PORT) (po_allowed_ports p) = true ->
  destination_ok d -> pd_port d ∈ po_allowed_ports p -> _validate_policy_provenance tables auth p = Ok tt.
Proof using Type.
  intros d Hd Hp Hg Hhosts Hnormal Hports Hrange [Hk Hn Hb Hl] Hport. unfold _validate_policy_provenance, policy_checks.
  fold d. rewrite Hp. unfold _policy_binding. rewrite Hd. cbn [pb_public_authorization]. rewrite Hg, Hnormal, Hrange, Hn, Hb.
  unfold sorted_tuple in Hhosts, Hports. rewrite <- Hhosts, <- Hports.
  rewrite (bool_decide_false (_DEFAULT_PORTS _ = None)) by done. by rewrite !bool_decide_true by done.
Qed.

Lemma policy_accepted auth receiver runtime policy auth' :
  fresh_authorities auth -> NoDup (rc_allowed_ports receiver) ->
  forallb (within 1 MAX_HTTP_PORT) (rc_allowed_ports receiver) = true ->
  parse_destination_policy tables auth receiver runtime = Ok (policy, auth') ->
  _validate_policy_provenance tables auth' policy = Ok tt /\ fresh_authorities auth'.
Proof using lower_not_ascii.
  intros Hfresh Hnodup Hrange H. unfold parse_destination_policy, _reject in H.
  destruct (_parse_destination_url tables _) as [d|] eqn:Ed; [|discriminate H].
  rewrite mint_fresh in H by done. pose proof (fresh_insert auth (Minted_destination d) Hfresh) as Hfresh1.
  set (auth1 := {| records := _; next_id := _ |}) in *.
  destruct (_normalize_allowed_hosts tables _) as [hosts|] eqn:Eh; [|discriminate H].
  case_bool_decide as Hport; [|discriminate H]. cbn [negb] in H.
  match type of H with match ?x with _ => _ end = _ => destruct x as [authorization|] eqn:Eg; [|discriminate H] end.
  rewrite mint_fresh in H by done.
  match type of H with context [Minted_policy ?b] => pose proof (fresh_insert auth1 (Minted_policy b) Hfresh1) as Hfresh2 end.
  set (auth2 := {| records := <[_ := Minted_policy _]> _; next_id := _ |}) in *.
  set (p := {| po_id := _; po_destination := _; po_target_profile := _ |}) in *.
  assert (policy = p /\ auth' = auth2) as [-> ->].
  { destruct (pd_literal_address d); [|by injection H]. destruct (classify_address _); [|discriminate H].
    destruct (_enforce_address_profile _ _); [|discriminate H]. by injection H. }
  clear H. split; [|done]. destruct (hosts_ok _ _ Eh) as [Hsorted Hnormal].
  apply (checks_of_minted auth2 p authorization); cbn [p po_destination po_id do_id do_fields po_allowed_hosts po_allowed_ports].
  - unfold destination_binding_of. cbn [auth2 records auth1 next_id]. rewrite lookup_insert_ne by lia. by rewrite lookup_insert_eq.
  - unfold policy_binding_of. cbn [auth2 records]. by rewrite lookup_insert_eq.
  - unfold _policy_profile_gates_are_valid. cbn [p po_target_profile po_destination do_fields po_allowed_hosts po_public_challenge_path].
    destruct (rc_target_profile receiver).
    + injection Eg as <-. done.
    + unfold _require_allowed_host in Eg. case_bool_decide as Hin; [|discriminate Eg]. injection Eg as <-. by rewrite bool_decide_true.
    + destruct (_validate_public_gates _ _ _ _ _) as [authorized|] eqn:Ea; [|discriminate Eg]. injection Eg as <-.
      destruct (public_gates_ok _ _ _ _ _ Ea) as (H1 & H2 & H3 & ->). rewrite H3. by rewrite !bool_decide_true.
  - done.
  - done.
  - by apply sorted_tuple_intro.
  - rewrite forallb_forall in Hrange. apply forallb_forall. intros q Hq%list_elem_of_In.
    unfold sorted_by in Hq. rewrite elem_of_py_sorted, list_elem_of_In in Hq. by apply Hrange.
  - by eapply parsed_ok.
  - done.
Qed.

(** ** Authorized addresses *)

Definition key_list (l : list AddressClassification) : list (Z * str) := map address_key l.

Lemma set_keys c l :
  key_list (set_classification c l) = if bool_decide (address_key c ∈ key_list l) then key_list l else key_list l ++ [address_key c].
Proof using Type.
  unfold key_list. induction l as [|x l IH]; [done|]. cbn [set_classification map].
  destruct (bool_decide (address_key x = address_key c)) eqn:Ex.
  - apply bool_decide_eq_true in Ex. cbn [map]. rewrite Ex. symmetry. rewrite bool_decide_true; [done|]. apply list_elem_of_here.
  - apply bool_decide_eq_false in Ex. cbn [map]. rewrite IH. destruct (bool_decide (address_key c ∈ map address_key l)) eqn:E.
    + apply bool_decide_eq_true in E. rewrite bool_decide_true by (by right). done.
    + apply bool_decide_eq_false in E. rewrite bool_decide_false; [done|]. intros [?|?]%elem_of_cons; [congruence|done].
Qed.

Lemma set_in c x l : x ∈ set_classification c l -> x = c \/ x ∈ l.
Proof using Type.
  induction l as [|y l IH]; cbn [set_classification]; [intros ->%list_elem_of_singleton; by left|].
  case_bool_decide; intros [->|H']%elem_of_cons; [by left|right; by right|right; by left|].
  destruct (IH H'); [by left|right; by right].
Qed.

(** What the loop over the candidates has found: one record per address, canonical and allowed. *)
Record found_ok (policy : PolicyObject) (found : list AddressClassification) : Prop := {
  distinct : NoDup (key_list found);
  canonical : Forall (fun c => classify_address (normalized c) = Ok c /\
    _enforce_address_profile (po_target_profile policy) c = Ok tt) found
}.

Lemma enforced_not_blocked profile c : _enforce_address_profile profile c = Ok tt -> address_class c <> Address_BLOCKED.
Proof using Type. intros H Hc. unfold _enforce_address_profile in H. by rewrite bool_decide_true in H. Qed.

Lemma candidate_ok policy found v found' :
  authorize_candidate policy found v = Ok found' -> found_ok policy found ->
  found_ok policy found' /\ (1 <= length found' <= S (length found))%nat.
Proof using Type.
  unfold authorize_candidate, _reject. destruct (classify_address v) as [c|] eqn:Ec; [|discriminate].
  destruct (_enforce_address_profile _ c) as [[]|] eqn:Ee; [|discriminate]. intros <-%ok_inj [Hd Hc].
  pose proof (classification_normal _ _ Ec (enforced_not_blocked _ _ Ee)) as Hn. pose proof (set_keys c found) as Hk.
  assert (forall l, length (key_list l) = length l) as Hlen by (intros l; apply length_map). rewrite <- !Hlen, Hk.
  split; [constructor|].
  - rewrite Hk. destruct (bool_decide _) eqn:Hin; [done|]. apply bool_decide_eq_false in Hin.
    apply list.NoDup_app. split_and!; [done| |apply NoDup_singleton].
    intros x Hx ->%list_elem_of_singleton. done.
  - apply list.Forall_forall. intros x [->|Hx]%set_in; [done|]. rewrite list.Forall_forall in Hc. by apply Hc.
  - destruct (bool_decide _) eqn:Hin; [|rewrite length_app; simpl; lia]. apply bool_decide_eq_true in Hin.
    destruct (key_list found); [by apply not_elem_of_nil in Hin|simpl; lia].
Qed.

Lemma candidates_ok policy values found found' :
  for_each (authorize_candidate policy) found values = Ok found' -> found_ok policy found ->
  found_ok policy found' /\ (length found' <= length found + length values)%nat /\
  (values <> [] \/ found <> [] -> found' <> []).
Proof using Type.
  revert found. induction values as [|v values IH]; intros found H Hok; simpl in H.
  - apply ok_inj in H as <-. split_and!; [done|lia|]. by intros [?|?].
  - destruct (authorize_candidate policy found v) as [found1|] eqn:E; [|discriminate H].
    destruct (candidate_ok _ _ _ _ E Hok) as [Hok1 [Hlo Hhi]]. destruct (IH _ H Hok1) as (Hok' & Hlen & Hne).
    split_and!; [done|simpl; lia|]. intros _. apply Hne. right. by destruct found1; [simpl in Hlo; lia|].
Qed.

(** The tuple of addresses made of what was found is the one validation asks for. *)
Lemma address_set_ok policy found :
  found_ok policy found -> (1 <= length found <= MAX_RESOLVED_ADDRESSES)%nat ->
  match pd_literal_address (do_fields (po_destination policy)) with
  | None => True
  | Some l => map normalized (py_sorted address_key found) = [l]
  end ->
  _authorized_address_set_is_valid policy (py_sorted address_key found) = true.
Proof using Type.
  intros [Hd Hc] [Hlo Hhi] Hlit. unfold _authorized_address_set_is_valid.
  assert (length (py_sorted address_key found) = length found) as -> by (by rewrite py_sorted_perm).
  rewrite (proj2 (Nat.leb_le _ _) Hlo), (proj2 (Nat.leb_le _ _) Hhi).
  assert (forallb (fun c =>
       match classify_address (normalized c) with Ok c' => bool_decide (c' = c) | Raise _ => false end
       && is_ok (_enforce_address_profile (po_target_profile policy) c)) (py_sorted address_key found) = true) as ->.
  { apply forallb_forall. intros c Hin%list_elem_of_In. rewrite elem_of_py_sorted in Hin. rewrite list.Forall_forall in Hc.
    destruct (Hc c Hin) as [-> ->]. by rewrite bool_decide_true. }
  assert (map address_key (py_sorted address_key found) = sorted_by (key_list found)) as ->
    by (unfold sorted_by, key_list; by rewrite py_sorted_map).
  rewrite (bool_decide_true (sorted_by _ = _)) by (by apply sorted_tuple_intro). cbn [andb].
  destruct (pd_literal_address _); [by apply bool_decide_eq_true|done].
Qed.

(** A policy that was accepted is accepted after a further capability is minted. *)
Lemma validation_kept auth policy id record n :
  records auth !! id = None -> _validate_policy_provenance tables auth policy = Ok tt ->
  _validate_policy_provenance tables {| records := <[id := record]> (records auth); next_id := n |} policy = Ok tt.
Proof using Type.
  intros Hid. unfold _validate_policy_provenance, policy_checks, _policy_binding.
  set (auth' := {| records := _; next_id := _ |}).
  assert (forall k b, policy_binding_of auth k = Some b -> policy_binding_of auth' k = Some b) as Hp.
  { intros k b. unfold policy_binding_of. cbn [auth' records]. destruct (decide (k = id)) as [->|Hk]; [by rewrite Hid|].
    by rewrite lookup_insert_ne. }
  assert (forall k b, destination_binding_of auth k = Some b -> destination_binding_of auth' k = Some b) as Hd.
  { intros k b. unfold destination_binding_of. cbn [auth' records]. destruct (decide (k = id)) as [->|Hk]; [by rewrite Hid|].
    by rewrite lookup_insert_ne. }
  destruct (policy_binding_of auth (po_id policy)) as [b|] eqn:Eb; [|discriminate]. rewrite (Hp _ _ Eb).
  destruct (destination_binding_of auth (do_id (po_destination policy))) as [d|] eqn:Ed; [|discriminate].
  by rewrite (Hd _ _ Ed).
Qed.

Lemma addresses_accepted auth policy candidates authorized auth' :
  fresh_authorities auth -> authorize_resolved_addresses tables auth policy candidates = Ok (authorized, auth') ->
  validate_authorized_destination tables auth' authorized = Ok authorized.
Proof using Type.
  intros Hfresh H. unfold authorize_resolved_addresses, validate_destination_policy, _reject in H.
  destruct (_validate_policy_provenance tables auth policy) as [[]|] eqn:Ep; [|discriminate H]. cbn [mbind] in H.
  match type of H with match ?x with _ => _ end = _ => destruct x as [values|] eqn:Ev; [|discriminate H] end.
  destruct (for_each _ _ values) as [found|] eqn:Ef; [|discriminate H].
  destruct (match _ with None => _ | Some _ => _ end) eqn:El in H; [discriminate H|].
  destruct (policy_binding_of auth (po_id policy)) as [b|] eqn:Eb; [|discriminate H].
  rewrite mint_fresh in H by (by apply fresh_next). injection H as <- <-.
  assert (1 <= length values <= MAX_RESOLVED_ADDRESSES)%nat as Hv.
  { destruct candidates as [given|].
    - unfold _materialize_candidates in Ev. destruct (_ || _) eqn:Eo in Ev; [discriminate Ev|]. apply ok_inj in Ev as <-.
      apply orb_false_iff in Eo as [H1%Nat.ltb_ge H2%Nat.ltb_ge]. done.
    - destruct (pd_literal_address _); [|discriminate Ev]. apply ok_inj in Ev as <-. unfold MAX_RESOLVED_ADDRESSES. simpl. lia. }
  destruct (candidates_ok _ _ _ _ Ef) as (Hok & Hlen & Hne); [by constructor; [apply NoDup_nil_2|]|].
  assert (1 <= length found <= MAX_RESOLVED_ADDRESSES)%nat as Hf.
  { split; [|simpl in Hlen; lia]. destruct found; [|simpl; lia]. exfalso. apply Hne; [|done]. left. intros ->. simpl in Hv. lia. }
  unfold validate_authorized_destination, _reject. cbn [ao_policy ao_id ao_addresses].
  assert (records auth !! (next_id auth + 1) = None) as Hnew by (apply Hfresh; lia).
  cbn [records next_id]. rewrite validation_kept by done.
  unfold authorized_binding_of, _authorized_destination_binding, policy_binding_of in *. cbn [records ao_policy ao_addresses_id ao_addresses] in *.
  rewrite lookup_insert_eq. rewrite lookup_insert_ne by (intros Heq; rewrite <- Heq, Hnew in Eb; discriminate Eb). rewrite Eb.
  rewrite bool_decide_true by done. rewrite address_set_ok; [done|done..|].
  destruct (pd_literal_address _); [|done]. apply negb_false_iff, bool_decide_eq_true in El. done.
Qed.

(** ** Written addresses *)

(** The literal of a normalized host is the text its classification keeps. *)
Lemma literal_kept host literal c :
  normalizes_to_itself tables host = true -> literal_of host = Some literal -> classify_address literal = Ok c ->
  normalized c = literal.
Proof using Type.
  unfold normalizes_to_itself, literal_of. destruct (normalize_host tables host) as [h|] eqn:En; [|discriminate].
  intros _ Hl Hc. assert (has_char 37 host = false) as Hp.
  { apply host_text_plain. unfold normalize_host in En. by destruct (_validate_host_text host) as [[]|]. }
  destruct (ip_address host) as [x|] eqn:Ex; [|discriminate Hl]. apply (inj Some) in Hl. revert Hc. rewrite <- Hl.
  destruct (plain_address _ _ Hp Ex) as [(v & Hv & ->)|(v & Hv & ->)].
  - change (ip_str (IPv4 v)) with (format_ipv4 v). rewrite classify_ipv4 by done. intros <-%ok_inj. apply normalized_ipv4.
  - change (ip_str (IPv6 v None)) with (format_ipv6 v). rewrite classify_ipv6 by done. intros <-%ok_inj. apply normalized_ipv6.
Qed.

Lemma literal_authorized auth receiver runtime policy auth1 literal :
  fresh_authorities auth1 -> _validate_policy_provenance tables auth1 policy = Ok tt ->
  parse_destination_policy tables auth receiver runtime = Ok (policy, auth1) ->
  pd_literal_address (do_fields (po_destination policy)) = Some literal ->
  exists authorized auth2, authorize_resolved_addresses tables auth1 policy None = Ok (authorized, auth2).
Proof using lower_not_ascii.
  intros Hfresh Hp H Hl. assert (exists c, classify_address literal = Ok c /\
    _enforce_address_profile (po_target_profile policy) c = Ok tt /\ normalized c = literal) as (c & Hc & He & Hn).
  { unfold parse_destination_policy, _reject in H. destruct (_parse_destination_url tables _) as [d|] eqn:Ed; [|discriminate H].
    destruct (_mint_authority auth _) as [[i a]|]; [|discriminate H].
    destruct (_normalize_allowed_hosts tables _); [|discriminate H]. destruct (negb _); [discriminate H|].
    match type of H with match ?x with _ => _ end = _ => destruct x; [|discriminate H] end.
    destruct (_mint_authority a _) as [[j b]|]; [|discriminate H].
    assert (pd_literal_address d = Some literal) as Hd.
    { destruct (pd_literal_address d) eqn:E; [destruct (classify_address _); [|discriminate H];
        destruct (_enforce_address_profile _ _); [|discriminate H]|]; injection H as <- _; by rewrite <- E. }
    rewrite Hd in H. destruct (classify_address literal) as [c|] eqn:Ec; [|discriminate H].
    destruct (_enforce_address_profile _ c) as [[]|] eqn:Ee; [|discriminate H]. injection H as <- _. exists c.
    split_and!; [done..|]. destruct (parsed_ok _ _ Ed) as [_ Hnorm _ Hlit]. rewrite Hlit in Hd. by eapply literal_kept. }
  unfold authorize_resolved_addresses, validate_destination_policy. rewrite Hp, Hl. cbn [for_each].
  unfold authorize_candidate. rewrite Hc, He. cbn [set_classification py_sorted sort_insert map]. rewrite Hn, bool_decide_true by done.
  cbn [negb]. unfold _validate_policy_provenance, policy_checks in Hp.
  destruct (policy_binding_of auth1 (po_id policy)); [|discriminate Hp]. rewrite mint_fresh by (by apply fresh_next).
  by eexists _, _.
Qed.

(** A minted capability can be used.  From a registry without identities still to be handed out and a
    receiver whose ports are distinct and in range, a policy that [parse_destination_policy] returns
    is accepted by [validate_destination_policy]; a destination written as an address is authorized
    without a resolver; and whatever [authorize_resolved_addresses] returns for the policy, of any
    answers of a resolver, [validate_authorized_destination] accepts: hosts and addresses are in
    normal form, sorted and distinct, and the registry holds the very bindings that are compared. *)
Theorem authorization_usable auth receiver runtime policy auth1 :
  fresh_authorities auth -> NoDup (rc_allowed_ports receiver) ->
  forallb (within 1 MAX_HTTP_PORT) (rc_allowed_ports receiver) = true ->
  parse_destination_policy tables auth receiver runtime = Ok (policy, auth1) ->
  validate_destination_policy tables auth1 policy = Ok policy /\
  (pd_literal_address (do_fields (po_destination policy)) <> None -> exists authorized auth2,
     authorize_resolved_addresses tables auth1 policy None = Ok (authorized, auth2)) /\
  forall candidates authorized auth2,
    authorize_resolved_addresses tables auth1 policy candidates = Ok (authorized, auth2) ->
    validate_authorized_destination tables auth2 authorized = Ok authorized.
Proof using lower_not_ascii.
  intros Hfresh Hnodup Hrange H. destruct (policy_accepted _ _ _ _ _ Hfresh Hnodup Hrange H) as [Hp Hf1]. split_and!.
  - unfold validate_destination_policy. by rewrite Hp.
  - intros Hl. destruct (pd_literal_address _) as [literal|] eqn:El; [|done]. by eapply literal_authorized.
  - intros candidates authorized auth2. by apply addresses_accepted.
Qed.
End tables.

Definition example_receiver : ReceiverConfig :=
  {| rc_url := u "http://Receiver.test:8080/hook"; rc_target_profile := Target_PRIVATE_ALLOWLIST;
     rc_allowed_hosts := [u "receiver.test"; u "api.test."]; rc_allowed_ports := [8443; 8080]; rc_public_challenge_path := [] |}.
Definition no_authorities : Authorities := {| records := ∅; next_id := 0 |}.

(** The policy of the example, with the registry it is minted in. *)
Definition example_policy : option (PolicyObject * Authorities) :=
  match parse_destination_policy ascii_tables no_authorities example_receiver None with Ok r => Some r | Raise _ => None end.
Definition example_answers : list str := [u "192.168.0.9"; u "10.0.0.1"; u "192.168.0.9"].

Example example_policy_hosts :
  option_map (fun r => po_allowed_hosts r.1) example_policy = Some [u "api.test"; u "receiver.test"].
Proof. vm_compute. reflexivity. Qed.

Lemma authorization_usable_witness :
  exists policy auth1 authorized auth2,
    parse_destination_policy ascii_tables no_authorities example_receiver None = Ok (policy, auth1) /\
    validate_destination_policy ascii_tables auth1 policy = Ok policy /\
    authorize_resolved_addresses ascii_tables auth1 policy (Some example_answers) = Ok (authorized, auth2) /\
    validate_authorized_destination ascii_tables auth2 authorized = Ok authorized.
Proof.
  assert (fresh_authorities no_authorities) as Hf by (intros id _; apply lookup_empty).
  assert (NoDup (rc_allowed_ports example_receiver)) as Hd by (apply (bool_decide_unpack _); vm_compute; reflexivity).
  destruct (parse_destination_policy ascii_tables no_authorities example_receiver None) as [[policy auth1]|e] eqn:Ep.
  2: { exfalso. assert (is_ok (parse_destination_policy ascii_tables no_authorities example_receiver None) = true) as Hok
         by (vm_compute; reflexivity). rewrite Ep in Hok. discriminate Hok. }
  destruct (authorization_usable ascii_tables (fun s _ H => H) _ _ _ _ _ Hf Hd eq_refl Ep) as (Hv & _ & Ha).
  destruct (authorize_resolved_addresses ascii_tables auth1 policy (Some example_answers)) as [[authorized auth2]|e] eqn:Ea.
  2: { exfalso. assert (match parse_destination_policy ascii_tables no_authorities example_receiver None with
         | Ok (p, a) => is_ok (authorize_resolved_addresses ascii_tables a p (Some example_answers)) | Raise _ => false end = true) as Hok
         by (vm_compute; reflexivity). rewrite Ep, Ea in Hok. discriminate Hok. }
  exists policy, auth1, authorized, auth2. split; [reflexivity|]. split; [exact Hv|]. split; [exact Ea|]. exact (Ha _ _ _ Ea).
Defined.
