(* ===== verification/Base64.v ===== *)
(** * Hexadecimal and base64 text

    What the signers use of [bytes.hex], [bytes.fromhex], [base64.b64encode] and
    [base64.b64decode(text, validate=True)] (CPython 3.12), with their round trips. *)

From S2P Require Import Prelude Sha256 Text TextLemmas.

Local Open Scope Z_scope.

(** ** Hexadecimal *)

(** [int(c, 16)] of a lowercase digit *)
Definition hex_nibble (c : N) : Z := if is_decimal c then Z.of_N c - 48 else Z.of_N c - 87.

(** [bytes.fromhex] of an even number of lowercase digits *)
Fixpoint from_hex (s : str) : bytes :=
  match s with
  | hi :: lo :: rest => (16 * hex_nibble hi + hex_nibble lo) :: from_hex rest
  | _ => []
  end.

(** [_LOWER_HEX_SIGNATURE.fullmatch] *)
Definition lower_hex (n : nat) (s : str) : bool := (length s =? n)%nat && forallb is_hex s.

Lemma hex_digit_nibble d : 0 <= d < 16 -> hex_nibble (hex_digit d) = d /\ is_hex (hex_digit d) = true.
Proof.
  intros Hd. assert (forallb (fun d => (hex_nibble (hex_digit d) =? d) && is_hex (hex_digit d)) (map Z.of_nat (seq 0 16)) = true) as H
    by (vm_compute; reflexivity).
  rewrite forallb_forall in H. specialize (H d). rewrite andb_true_iff, Z.eqb_eq in H. apply H.
  apply in_map_iff. exists (Z.to_nat d). split; [lia|]. apply in_seq. lia.
Qed.

Lemma hex_nibble_digit c : is_hex c = true -> hex_digit (hex_nibble c) = c /\ 0 <= hex_nibble c < 16.
Proof.
  intros H. unfold is_hex, is_decimal, char_between in H. unfold hex_digit, hex_nibble, is_decimal, char_between.
  rewrite orb_true_iff, !andb_true_iff, !N.leb_le in H.
  destruct ((48 <=? c)%N && (c <=? 57)%N) eqn:E.
  - apply andb_true_iff in E as [H1%N.leb_le H2%N.leb_le]. assert ((Z.of_N c - 48 <? 10) = true) as -> by (apply Z.ltb_lt; lia). lia.
  - apply andb_false_iff in E. rewrite !N.leb_gt in E.
    assert ((Z.of_N c - 87 <? 10) = false) as -> by (apply Z.ltb_ge; lia). lia.
Qed.

(** The halves of a byte. *)
Lemma byte_halves x : is_byte x -> 0 <= Z.shiftr x 4 < 16 /\ 0 <= Z.land x 15 < 16 /\ 16 * Z.shiftr x 4 + Z.land x 15 = x.
Proof.
  unfold is_byte, is_digit. change (2 ^ 8) with 256. intros Hx. rewrite Z.shiftr_div_pow2 by lia. change 15 with (Z.ones 4). rewrite Z.land_ones by lia.
  change (2 ^ 4) with 16. Z.to_euclidean_division_equations. lia.
Qed.

Lemma from_hex_of_bytes b : Forall is_byte b -> from_hex (hex_of_bytes b) = b.
Proof.
  induction 1 as [|x b Hx _ IH]; [done|]. unfold hex_of_bytes in *. simpl. rewrite IH.
  destruct (byte_halves x Hx) as (H1 & H2 & H3).
  rewrite (proj1 (hex_digit_nibble _ H1)), (proj1 (hex_digit_nibble _ H2)), H3. done.
Qed.

Lemma hex_of_from_hex n s : lower_hex (2 * n) s = true -> hex_of_bytes (from_hex s) = s /\ length (from_hex s) = n.
Proof.
  unfold lower_hex. rewrite andb_true_iff, Nat.eqb_eq. intros [Hl Hs]. revert s Hl Hs.
  induction n as [|n IH]; intros s Hl Hs; [by destruct s|].
  destruct s as [|hi [|lo s]]; simpl in Hl; try lia. simpl in Hs. rewrite !andb_true_iff in Hs. destruct Hs as (Hhi & Hlo & Hs).
  destruct (hex_nibble_digit hi Hhi) as [Ehi Bhi]. destruct (hex_nibble_digit lo Hlo) as [Elo Blo].
  destruct (IH s ltac:(lia) Hs) as [E1 E2]. unfold hex_of_bytes in *. simpl. rewrite E1, E2. split; [|done].
  destruct (byte_halves (16 * hex_nibble hi + hex_nibble lo)) as (H1 & H2 & H3); [unfold is_byte, is_digit; change (2 ^ 8) with 256; lia|].
  replace (Z.shiftr _ 4) with (hex_nibble hi) by lia. replace (Z.land _ 15) with (hex_nibble lo) by lia. by rewrite Ehi, Elo.
Qed.

(** ** Base64 *)

Definition b64_char (v : Z) : N :=
  Z.to_N (if v <? 26 then 65 + v else if v <? 52 then 71 + v else if v <? 62 then v - 4 else if v =? 62 then 43 else 47).
Definition b64_value (c : N) : option Z :=
  if is_upper c then Some (Z.of_N c - 65) else if is_lower c then Some (Z.of_N c - 71)
  else if is_decimal c then Some (Z.of_N c + 4) else if (c =? 43)%N then Some 62 else if (c =? 47)%N then Some 63 else None.

(** [base64.b64encode(data).decode("ascii")] *)
Fixpoint b64encode (data : bytes) : str :=
  match data with
  | [] => []
  | [x] => [b64_char (Z.shiftr x 2); b64_char (Z.shiftl (Z.land x 3) 4); 61; 61]%N
  | [x; y] =>
    [b64_char (Z.shiftr x 2); b64_char (Z.lor (Z.shiftl (Z.land x 3) 4) (Z.shiftr y 4));
     b64_char (Z.shiftl (Z.land y 15) 2); 61%N]
  | x :: y :: z :: rest =>
    b64_char (Z.shiftr x 2) :: b64_char (Z.lor (Z.shiftl (Z.land x 3) 4) (Z.shiftr y 4))
    :: b64_char (Z.lor (Z.shiftl (Z.land y 15) 2) (Z.shiftr z 6)) :: b64_char (Z.land z 63) :: b64encode rest
  end.

(** [binascii.a2b_base64(text, strict_mode=True)]: [quad] is the place in the group of four, [left] the
    bits not yet written, [pads] the padding seen in the group and [padding] whether any was seen. *)
Fixpoint a2b_base64 (quad left pads : Z) (padding : bool) (s : str) : option bytes :=
  match s with
  | [] => if quad =? 0 then Some [] else None
  | c :: rest =>
    if (c =? 61)%N then
      let pads := if 2 <=? quad then pads + 1 else pads in
      if (2 <=? quad) && (4 <=? quad + pads) then match rest with [] => Some [] | _ => None end
      else a2b_base64 quad left pads true rest
    else
      match b64_value c with
      | None => None
      | Some v =>
        if padding then None
        else if quad =? 0 then a2b_base64 1 v 0 false rest
        else if quad =? 1 then option_map (cons (Z.lor (Z.shiftl left 2) (Z.shiftr v 4))) (a2b_base64 2 (Z.land v 15) 0 false rest)
        else if quad =? 2 then option_map (cons (Z.lor (Z.shiftl left 4) (Z.shiftr v 2))) (a2b_base64 3 (Z.land v 3) 0 false rest)
        else option_map (cons (Z.lor (Z.shiftl left 6) v)) (a2b_base64 0 0 0 false rest)
      end
  end.
Definition b64decode (s : str) : option bytes :=
  match s with 61%N :: _ => None | _ => a2b_base64 0 0 0 false s end.

Example base64_examples :
  (b64encode (ascii_bytes (u "any carnal pleas")), option_map hex_of_bytes (b64decode (u "TWE=")), b64decode (u "TWE"), b64decode (u "T=WE"))
  = (u "YW55IGNhcm5hbCBwbGVhcw==", Some (u "4d61"), None, None).
Proof. vm_compute. reflexivity. Qed.

(** *** Round trip *)

Lemma forall_small (P : Z -> bool) n : forallb P (map Z.of_nat (seq 0 n)) = true -> forall v, 0 <= v < Z.of_nat n -> P v = true.
Proof.
  rewrite forallb_forall. intros H v Hv. apply H, in_map_iff. exists (Z.to_nat v). split; [lia|]. apply in_seq. lia.
Qed.

Definition char_ok (v : Z) : bool := bool_decide (b64_value (b64_char v) = Some v) && negb (b64_char v =? 61)%N.
Lemma chars : forallb char_ok (map Z.of_nat (seq 0 64)) = true.
Proof. vm_compute. reflexivity. Qed.
Lemma b64_char_value v : 0 <= v < 64 -> b64_value (b64_char v) = Some v /\ (b64_char v =? 61)%N = false.
Proof.
  intros Hv. pose proof (forall_small char_ok 64 chars v Hv) as H. unfold char_ok in H.
  by rewrite andb_true_iff, negb_true_iff, bool_decide_eq_true in H.
Qed.

(** The six-bit groups of three bytes, and the bytes they are put together to. *)
Definition group_ok (x y : Z) : bool :=
  let v1 := Z.lor (Z.shiftl (Z.land x 3) 4) (Z.shiftr y 4) in
  within 0 63 (Z.shiftr x 2) && within 0 63 v1
  && (Z.lor (Z.shiftl (Z.shiftr x 2) 2) (Z.shiftr v1 4) =? x) && (Z.land v1 15 =? Z.shiftr y 4).
Definition tail_ok (y z : Z) : bool :=
  let v2 := Z.lor (Z.shiftl (Z.land y 15) 2) (Z.shiftr z 6) in
  within 0 63 v2 && within 0 63 (Z.land z 63)
  && (Z.lor (Z.shiftl (Z.shiftr y 4) 4) (Z.shiftr v2 2) =? y) && (Z.lor (Z.shiftl (Z.land v2 3) 6) (Z.land z 63) =? z).

Lemma pair_small (P : Z -> Z -> bool) :
  forallb (fun x => forallb (P x) (map Z.of_nat (seq 0 256))) (map Z.of_nat (seq 0 256)) = true ->
  forall x y, is_byte x -> is_byte y -> P x y = true.
Proof.
  intros H x y Hx Hy. pose proof (forall_small (fun x => forallb (P x) (map Z.of_nat (seq 0 256))) 256 H x Hx) as Hr.
  exact (forall_small (P x) 256 Hr y Hy).
Qed.
Lemma zero_byte : is_byte 0.
Proof. by split. Qed.
Lemma groups x y : is_byte x -> is_byte y -> group_ok x y = true.
Proof. apply pair_small. vm_compute. reflexivity. Qed.
Lemma tails y z : is_byte y -> is_byte z -> tail_ok y z = true.
Proof. apply pair_small. vm_compute. reflexivity. Qed.

(** One character of each place of a group. *)
Ltac decode_step H := destruct H as [H1 H2]; cbn [a2b_base64]; rewrite H2, H1; reflexivity.
Lemma decode0 left pads v rest :
  0 <= v < 64 -> a2b_base64 0 left pads false (b64_char v :: rest) = a2b_base64 1 v 0 false rest.
Proof. intros H%b64_char_value. decode_step H. Qed.
Lemma decode1 left pads v rest :
  0 <= v < 64 -> a2b_base64 1 left pads false (b64_char v :: rest)
    = option_map (cons (Z.lor (Z.shiftl left 2) (Z.shiftr v 4))) (a2b_base64 2 (Z.land v 15) 0 false rest).
Proof. intros H%b64_char_value. decode_step H. Qed.
Lemma decode2 left pads v rest :
  0 <= v < 64 -> a2b_base64 2 left pads false (b64_char v :: rest)
    = option_map (cons (Z.lor (Z.shiftl left 4) (Z.shiftr v 2))) (a2b_base64 3 (Z.land v 3) 0 false rest).
Proof. intros H%b64_char_value. decode_step H. Qed.
Lemma decode3 left pads v rest :
  0 <= v < 64 -> a2b_base64 3 left pads false (b64_char v :: rest)
    = option_map (cons (Z.lor (Z.shiftl left 6) v)) (a2b_base64 0 0 0 false rest).
Proof. intros H%b64_char_value. decode_step H. Qed.

Lemma decode_encode n data :
  (length data <= n)%nat -> Forall is_byte data -> a2b_base64 0 0 0 false (b64encode data) = Some data.
Proof.
  revert data. induction n as [|n IH]; intros data Hn Hd; [destruct data; [done|simpl in Hn; lia]|].
  destruct data as [|x [|y [|z rest]]]; [done|..]; repeat (apply list.Forall_cons in Hd as [? Hd]).
  - pose proof (groups x 0 H zero_byte) as Hg. unfold group_ok in Hg. change (Z.shiftr 0 4) with 0 in Hg. rewrite Z.lor_0_r in Hg.
    rewrite !andb_true_iff, !within_spec, !Z.eqb_eq in Hg. destruct Hg as [[[H1 H2] H3] _].
    cbn [b64encode]. rewrite decode0, decode1 by lia. by rewrite H3.
  - pose proof (groups x y H H0) as Hg. pose proof (tails y 0 H0 zero_byte) as Ht. unfold group_ok in Hg. unfold tail_ok in Ht.
    change (Z.shiftr 0 6) with 0 in Ht. rewrite Z.lor_0_r in Ht.
    rewrite !andb_true_iff, !within_spec, !Z.eqb_eq in Hg, Ht. destruct Hg as [[[H1 H2] H3] H4]. destruct Ht as [[[H5 _] H6] _].
    cbn [b64encode]. rewrite decode0, decode1, decode2 by lia. by rewrite H3, H4, H6.
  - pose proof (groups x y H H0) as Hg. pose proof (tails y z H0 H1) as Ht. unfold group_ok in Hg. unfold tail_ok in Ht.
    rewrite !andb_true_iff, !within_spec, !Z.eqb_eq in Hg, Ht. destruct Hg as [[[G1 G2] G3] G4]. destruct Ht as [[[T1 T2] T3] T4].
    cbn [b64encode]. rewrite decode0, decode1, decode2, decode3 by lia. rewrite G3, G4, T3, T4, IH; [done| |done].
    simpl in Hn. lia.
Qed.

Lemma b64_roundtrip data : Forall is_byte data -> b64decode (b64encode data) = Some data.
Proof.
  intros Hd. unfold b64decode. pose proof (decode_encode _ data (le_n _) Hd) as H. destruct (b64encode data) as [|c rest] eqn:E; [done|].
  destruct (decide (c = 61%N)) as [->|Hc]; [|destruct c; try done; repeat (case_match; try done; simplify_eq)].
  destruct data as [|x [|y [|z data]]]; try discriminate E; exfalso; apply list.Forall_cons in Hd as [Hx Hd];
  pose proof (groups x 0 Hx zero_byte) as Hg; unfold group_ok in Hg; rewrite !andb_true_iff, !within_spec in Hg;
  destruct Hg as [[[Hg _] _] _]; destruct (b64_char_value (Z.shiftr x 2)) as [_ Hb]; try lia; injection E as E _; rewrite E in Hb; done.
Qed.

Lemma b64_length data : length (b64encode data) = (4 * ((length data + 2) / 3))%nat.
Proof.
  assert (forall n data, (length data <= n)%nat -> length (b64encode data) = (4 * ((length data + 2) / 3))%nat) as H.
  { induction n as [|n IH]; intros d Hd; [destruct d; [done|simpl in Hd; lia]|]. destruct d as [|x [|y [|z rest]]]; [done..|].
    cbn [b64encode length]. rewrite IH by (simpl in Hd; lia).
    replace (S (S (S (length rest))) + 2)%nat with (1 * 3 + (length rest + 2))%nat by lia. rewrite Nat.div_add_l by lia. lia. }
  by apply (H (length data)).
Qed.
