(* ===== verification/Signing.v ===== *)
(** * Signing inputs, headers and evidence

    [signatures/base.py] and the use of a secret in [secrets.py]: what a signer is given, the canonical
    bytes a template renders it to, the headers a signer may own and what it reports.  A secret handle
    has a provider that loads its material anew at every use: the provider is an argument. *)

From S2P Require Import Prelude Sha256 Text Commands Hashing Base64.

Local Open Scope Z_scope.

Definition MAX_SIGNING_BODY_BYTES : Z := 16777216.
Definition MAX_SIGNING_INPUT_BYTES : Z := MAX_SIGNING_BODY_BYTES + 8192.
Definition MAX_EVENT_ID_BYTES : Z := 4096.
Definition MAX_TEMPLATE_COMPONENTS : Z := 16.
Definition MAX_TEMPLATE_LITERAL_BYTES : Z := 1024.
Definition MAX_SIGNER_HEADERS : Z := 16.
Definition MAX_USER_HEADERS : Z := 128.
Definition MAX_HEADER_NAME_LENGTH : Z := 128.
Definition MAX_HEADER_VALUE_LENGTH : Z := 8192.
Definition MAX_KEY_ID_LENGTH : Z := 128.
Definition SIGNED_INT64_MIN : Z := - 2 ^ 63.
Definition SIGNED_INT64_MAX : Z := 2 ^ 63 - 1.
Definition NANOSECONDS_PER_SECOND : Z := 1000000000.
Definition LENGTH_PREFIXED_TEMPLATE_DOMAIN : bytes := ascii_bytes (u "wrch-signing-input-frame-v1") ++ [0].

Definition _HARNESS_REQUEST_HEADERS : list str :=
  map u ["connection"; "content-length"; "content-type"; "host"; "proxy-authorization"; "te"; "trailer";
         "transfer-encoding"; "upgrade"; "user-agent"].

(** ** Secrets *)

Definition SECRET_FINGERPRINT_DOMAIN_SEPARATOR : bytes := ascii_bytes (u "secret-fingerprint-v1") ++ [0].
Definition secret_fingerprint (material : bytes) : str :=
  u "sha256:" ++ hex_of_bytes (sha256 (SECRET_FINGERPRINT_DOMAIN_SEPARATOR ++ material)).

(** What loading from a provider does: the material, the provider's own error, or another exception. *)
Inductive provider_answer := Loaded (material : bytes) | Load_refused (code : string) | Load_failed.
Record SecretHandle := { sh_fingerprint : str; sh_closed : bool; sh_load : provider_answer }.

Definition _load_provider_safely (h : SecretHandle) : result bytes :=
  match sh_load h with
  | Loaded material => Ok material
  | Load_refused code => Raise (SecretResolutionError code)
  | Load_failed => Raise (SecretResolutionError "SECRET_KEY_UNAVAILABLE")
  end.
Definition use_with {A} (h : SecretHandle) (callback : bytes -> result A) : result A :=
  raise_if sh_closed h with SecretResolutionError "SECRET_KEY_UNAVAILABLE" ;;
  let! material := _load_provider_safely h in
  raise_if negb (bool_decide (secret_fingerprint material = sh_fingerprint h)) with SecretResolutionError "SECRET_VALUE_CHANGED" ;;
  match callback material with
  | Ok value => Ok value
  | Raise _ => Raise (SecretResolutionError "SECRET_CALLBACK_FAILED")
  end.
(** [close] *)
Definition close_secret (h : SecretHandle) : SecretHandle :=
  {| sh_fingerprint := sh_fingerprint h; sh_closed := true; sh_load := sh_load h |}.

(** ** Field checks *)

Definition is_header_char (c : N) : bool := is_upper c || is_lower c || is_decimal c || has_char c (u "!#$%&'*+.^_`|~-").
(** [casefold] of a token is its lower case. *)
Definition _validate_header_name (value : str) : result str :=
  raise_if negb (within 1 MAX_HEADER_NAME_LENGTH (zlen value)) || negb (forallb is_header_char value) with ValueError ;;
  Ok (ascii_lower value).

Definition ascii_text (s : str) : bool := forallb (fun c => (c <? 128)%N) s.
Definition _validate_header_value (value : str) : result unit :=
  raise_if MAX_HEADER_VALUE_LENGTH <? zlen value with ValueError ;;
  raise_if negb (ascii_text value) with ValueError ;;
  raise_if has_control value with ValueError ;;
  Ok tt.

(** [_IDENTIFIER] *)
Definition identifier_text (value : str) : bool :=
  match value with
  | c :: rest =>
    is_lower c && forallb (fun c => is_lower c || is_decimal c || has_char c (u "._-")) rest && (zlen rest <=? 127)
  | [] => false
  end.
Definition _validate_identifier (value : str) : result str :=
  raise_if negb (identifier_text value) with ValueError ;; Ok value.

(** [_validate_key_id] of the evidence; the signers' own raise [SIG_KEY_ID_INVALID] under the same conditions. *)
Definition key_id_ok (value : option str) : bool :=
  match value with None => true | Some k => (zlen k <=? MAX_KEY_ID_LENGTH) && negb (has_control k) end.
Definition _validate_key_id (value : option str) : result unit := raise_if negb (key_id_ok value) with ValueError ;; Ok tt.
Definition _validate_signer_key_id (value : option str) : result unit :=
  raise_if negb (key_id_ok value) with SignerError "SIG_KEY_ID_INVALID" ;; Ok tt.

Definition sha256_text (value : str) : bool := bool_decide (take 7 value = u "sha256:") && lower_hex 64 (drop 7 value).
Definition validate_sha256_digest (value : str) : result str :=
  raise_if negb (sha256_text value) with ValueError ;; Ok value.
Definition _validate_sha256_fingerprint (value : str) : result unit :=
  raise_if negb (sha256_text value) with ValueError ;; Ok tt.
Definition _validate_logical_time (value : Z) : result Z :=
  raise_if negb (within SIGNED_INT64_MIN SIGNED_INT64_MAX value) with ValueError ;; Ok value.

(** [UnicodeEncodeError] is a [ValueError]. *)
Definition _encode_bounded_text (value : str) (maximum_bytes : Z) : result bytes :=
  let! encoded := utf8_encode value in
  raise_if maximum_bytes <? zlen encoded with ValueError ;; Ok encoded.

(** ** Signing inputs and templates *)

Inductive SigningInputToken := Token_TIMESTAMP | Token_EVENT_ID | Token_BODY.
#[global] Instance SigningInputToken_eq_dec : EqDecision SigningInputToken.
Proof. solve_decision. Defined.
Inductive TimestampEncoding := ASCII_DECIMAL_NANOSECONDS | ASCII_DECIMAL_SECONDS_FLOOR.
#[global] Instance TimestampEncoding_eq_dec : EqDecision TimestampEncoding.
Proof. solve_decision. Defined.
Inductive TemplateFraming := EXACT_BODY_V1 | LENGTH_PREFIXED_V1.
#[global] Instance TemplateFraming_eq_dec : EqDecision TemplateFraming.
Proof. solve_decision. Defined.
Inductive SignatureEncoding := HEX | BASE64.
#[global] Instance SignatureEncoding_eq_dec : EqDecision SignatureEncoding.
Proof. solve_decision. Defined.

Inductive SigningTemplateComponent := Literal (value : bytes) | Token (token : SigningInputToken).
#[global] Instance SigningTemplateComponent_eq_dec : EqDecision SigningTemplateComponent.
Proof. solve_decision. Defined.

Record SigningInput := { body : bytes; event_id : str; logical_time_ns : Z }.
Definition validate_signing_input (i : SigningInput) : result SigningInput :=
  raise_if MAX_SIGNING_BODY_BYTES <? zlen (body i) with ValueError ;;
  let! _ := _encode_bounded_text (event_id i) MAX_EVENT_ID_BYTES in
  let! _ := _validate_logical_time (logical_time_ns i) in
  Ok i.

Record CanonicalSigningTemplate := {
  template_version : str; components : list SigningTemplateComponent; framing : TemplateFraming
}.
#[global] Instance CanonicalSigningTemplate_eq_dec : EqDecision CanonicalSigningTemplate.
Proof. solve_decision. Defined.

Definition literal_length (c : SigningTemplateComponent) : Z := match c with Literal value => zlen value | Token _ => 0 end.
Definition literal_bytes (l : list SigningTemplateComponent) : Z := foldr (fun c n => literal_length c + n) 0 l.
Definition tokens_of (l : list SigningTemplateComponent) : list SigningInputToken :=
  omap (fun c => match c with Token t => Some t | Literal _ => None end) l.

Definition _validate_template_components (l : list SigningTemplateComponent) (framing : TemplateFraming) : result unit :=
  raise_if negb (within 1 MAX_TEMPLATE_COMPONENTS (zlen l)) with ValueError ;;
  raise_if MAX_TEMPLATE_LITERAL_BYTES <? literal_bytes l with ValueError ;;
  raise_if bool_decide (tokens_of l = []) with ValueError ;;
  raise_if negb (bool_decide (NoDup (tokens_of l))) with ValueError ;;
  raise_if bool_decide (framing = EXACT_BODY_V1) && negb (bool_decide (l = [Token Token_BODY])) with ValueError ;;
  Ok tt.
Definition validate_template (t : CanonicalSigningTemplate) : result CanonicalSigningTemplate :=
  let! _ := _validate_identifier (template_version t) in
  let! _ := _validate_template_components (components t) (framing t) in
  Ok t.

Definition _encode_timestamp (value : Z) (encoding : TimestampEncoding) : bytes :=
  ascii_bytes (str_of_int (match encoding with ASCII_DECIMAL_NANOSECONDS => value | _ => value / NANOSECONDS_PER_SECOND end)).

(** [int.to_bytes(length, "big")] *)
Definition to_bytes_big (length : nat) (value : Z) : result bytes :=
  raise_if negb (within 0 (2 ^ (8 * Z.of_nat length) - 1) value) with OverflowError ;; Ok (int_to_bytes length value).

(** The tag and value of a component. *)
Definition frame_component (i : SigningInput) (encoding : TimestampEncoding) (c : SigningTemplateComponent) : result (Z * bytes) :=
  match c with
  | Literal value => Ok (0, value)
  | Token Token_TIMESTAMP => Ok (1, _encode_timestamp (logical_time_ns i) encoding)
  | Token Token_EVENT_ID => let! encoded := utf8_encode (event_id i) in Ok (2, encoded)
  | Token Token_BODY => Ok (3, body i)
  end.
Definition framed_size (version : bytes) (framed : list (Z * bytes)) : Z :=
  zlen LENGTH_PREFIXED_TEMPLATE_DOMAIN + 2 + zlen version + 1 + foldr (fun f n => 1 + 8 + zlen f.2 + n) 0 framed.
Definition render_component (f : Z * bytes) : result bytes :=
  let! size := to_bytes_big 8 (zlen f.2) in Ok (f.1 :: size ++ f.2).
Definition _render_length_prefixed_template (t : CanonicalSigningTemplate) (i : SigningInput) (encoding : TimestampEncoding)
    : result bytes :=
  let version := ascii_bytes (template_version t) in
  let! framed := map_result (frame_component i encoding) (components t) in
  raise_if MAX_SIGNING_INPUT_BYTES <? framed_size version framed with ValueError ;;
  let! version_size := to_bytes_big 2 (zlen version) in
  let! count := to_bytes_big 1 (zlen framed) in
  let! rendered := map_result render_component framed in
  Ok (LENGTH_PREFIXED_TEMPLATE_DOMAIN ++ version_size ++ version ++ count ++ concat rendered).

(** [render] *)
Definition render (t : CanonicalSigningTemplate) (i : SigningInput) (encoding : TimestampEncoding) : result bytes :=
  match framing t with
  | EXACT_BODY_V1 => Ok (body i)
  | LENGTH_PREFIXED_V1 => _render_length_prefixed_template t i encoding
  end.

(** ** Template registry

    A fingerprint is the registration itself: a template of the model cannot change under it. *)
Record SigningTemplateRegistration := { registered_template : CanonicalSigningTemplate; registered_encoding : TimestampEncoding }.
#[global] Instance SigningTemplateRegistration_eq_dec : EqDecision SigningTemplateRegistration.
Proof. solve_decision. Defined.

Definition _template_semantic_fingerprint (t : CanonicalSigningTemplate) (encoding : TimestampEncoding)
    : result SigningTemplateRegistration :=
  let! detached := validate_template t in Ok {| registered_template := detached; registered_encoding := encoding |}.

Definition registration_version (r : SigningTemplateRegistration) : str := template_version (registered_template r).
(** [_by_version], in the order of registration *)
Definition StaticSigningTemplateRegistry := list SigningTemplateRegistration.
Definition by_version (registry : StaticSigningTemplateRegistry) (version : str) : option SigningTemplateRegistration :=
  List.find (fun r => bool_decide (registration_version r = version)) registry.
Definition register_template (registry : StaticSigningTemplateRegistry) (r : SigningTemplateRegistration)
    : result StaticSigningTemplateRegistry :=
  let! fingerprint := _template_semantic_fingerprint (registered_template r) (registered_encoding r) in
  match by_version registry (registration_version fingerprint) with
  | Some _ => Raise (SignerError "SIG_TEMPLATE_VERSION_DUPLICATE")
  | None => Ok (registry ++ [fingerprint])
  end.
Definition make_template_registry (registrations : list SigningTemplateRegistration) : result StaticSigningTemplateRegistry :=
  for_each register_template [] registrations.

(** [StaticSigningTemplateRegistry.validate] *)
Definition validate_registered (registry : StaticSigningTemplateRegistry) (t : CanonicalSigningTemplate) (encoding : TimestampEncoding)
    : result SigningTemplateRegistration :=
  match _template_semantic_fingerprint t encoding with
  | Raise TypeError | Raise ValueError => Raise (SignerError "SIG_TEMPLATE_VERSION_CONFLICT")
  | Raise e => Raise e
  | Ok candidate =>
    match by_version registry (registration_version candidate) with
    | None => Raise (SignerError "SIG_TEMPLATE_VERSION_UNREGISTERED")
    | Some registered =>
      raise_if negb (bool_decide (registered = candidate)) with SignerError "SIG_TEMPLATE_VERSION_CONFLICT" ;; Ok registered
    end
  end.

(** ** Headers *)

Record SignatureHeader := { header_name : str; header_value : str }.
#[global] Instance SignatureHeader_eq_dec : EqDecision SignatureHeader.
Proof. solve_decision. Defined.
Definition make_signature_header (name value : str) : result SignatureHeader :=
  let! normalized := _validate_header_name name in
  let! _ := _validate_header_value value in
  Ok {| header_name := normalized; header_value := value |}.

Definition _validate_result_headers (headers : list SignatureHeader) : result unit :=
  raise_if negb (within 1 MAX_SIGNER_HEADERS (zlen headers)) with ValueError ;;
  raise_if negb (bool_decide (NoDup (map header_name headers))) with ValueError ;;
  Ok tt.

(** [_normalize_header_sequence]: items are read one past the maximum. *)
Fixpoint normalize_headers (room : nat) (values : list str) : result (list str) :=
  match values, room with
  | [], _ => Ok []
  | _ :: _, O => Raise (SignerError "SIG_SIGNER_HEADERS_INVALID")
  | value :: rest, S room =>
    match _validate_header_name value with
    | Raise _ => Raise (SignerError "SIG_SIGNER_HEADERS_INVALID")
    | Ok name => let! names := normalize_headers room rest in Ok (name :: names)
    end
  end.
Definition _normalize_header_sequence (values : list str) (maximum : Z) : result (list str) :=
  normalize_headers (Z.to_nat maximum) values.

Definition shares (l k : list str) : bool := existsb (fun x => bool_decide (x ∈ k)) l.
Definition validate_header_ownership (owned_headers user_header_names : list str) : result (list str) :=
  let! owned := _normalize_header_sequence owned_headers MAX_SIGNER_HEADERS in
  let! users := _normalize_header_sequence user_header_names MAX_USER_HEADERS in
  raise_if negb (bool_decide (NoDup owned)) with SignerError "SIG_SIGNER_HEADER_INTERNAL_CONFLICT" ;;
  raise_if shares owned users with SignerError "SIG_SIGNER_HEADER_CONFLICT" ;;
  raise_if shares owned _HARNESS_REQUEST_HEADERS with SignerError "SIG_SIGNER_HEADER_RESERVED" ;;
  Ok owned.

(** [_matching_headers] *)
Definition _matching_headers (headers : list SignatureHeader) (name : str) : result (list SignatureHeader) :=
  raise_if MAX_SIGNER_HEADERS <? zlen headers with ValueError ;;
  Ok (List.filter (fun h => bool_decide (header_name h = name)) headers).

(** ** Evidence and results *)

Record SigningEvidence := {
  se_adapter_id : str; se_adapter_version : str; se_template_version : str; se_logical_time_ns : Z;
  se_body_sha256 : str; se_covered_bytes_sha256 : str; se_key_fingerprint : str; se_key_id : option str;
  se_output_encoding : SignatureEncoding
}.
Definition validate_evidence_fields (e : SigningEvidence) : result SigningEvidence :=
  let! _ := _validate_identifier (se_adapter_id e) in
  let! _ := _validate_identifier (se_adapter_version e) in
  let! _ := _validate_identifier (se_template_version e) in
  let! _ := _validate_logical_time (se_logical_time_ns e) in
  let! _ := validate_sha256_digest (se_body_sha256 e) in
  let! _ := validate_sha256_digest (se_covered_bytes_sha256 e) in
  let! _ := _validate_sha256_fingerprint (se_key_fingerprint e) in
  let! _ := _validate_key_id (se_key_id e) in
  Ok e.
Definition signing_evidence (adapter_id adapter_version template_version : str) (i : SigningInput) (covered_bytes : bytes)
    (key_fingerprint : str) (key_id : option str) (output_encoding : SignatureEncoding) : result SigningEvidence :=
  validate_evidence_fields
    {| se_adapter_id := adapter_id; se_adapter_version := adapter_version; se_template_version := template_version;
       se_logical_time_ns := logical_time_ns i; se_body_sha256 := sha256_digest (body i);
       se_covered_bytes_sha256 := sha256_digest covered_bytes; se_key_fingerprint := key_fingerprint; se_key_id := key_id;
       se_output_encoding := output_encoding |}.

Record SigningResult := { sr_headers : list SignatureHeader; sr_evidence : SigningEvidence }.
Definition make_signing_result (headers : list SignatureHeader) (evidence : SigningEvidence) : result SigningResult :=
  let! _ := _validate_result_headers headers in Ok {| sr_headers := headers; sr_evidence := evidence |}.

Inductive VerificationReason :=
  | Reason_VALID | Reason_MISSING_HEADER | Reason_DUPLICATE_HEADER | Reason_MALFORMED_HEADER | Reason_SIGNATURE_MISMATCH.
#[global] Instance VerificationReason_eq_dec : EqDecision VerificationReason.
Proof. solve_decision. Defined.
Record VerificationResult := { vr_valid : bool; vr_reason : VerificationReason; vr_evidence : SigningEvidence }.
Definition make_verification_result (valid : bool) (reason : VerificationReason) (evidence : SigningEvidence) : result VerificationResult :=
  raise_if negb (eqb valid (bool_decide (reason = Reason_VALID))) with ValueError ;;
  Ok {| vr_valid := valid; vr_reason := reason; vr_evidence := evidence |}.

(** The protocol the built-in signers implement. *)
Class Signer (T : Type) := {
  adapter_id : T -> str;
  adapter_version : T -> str;
  owned_headers : T -> list str;
  sign : T -> SigningInput -> result SigningResult;
  verify : T -> SigningInput -> list SignatureHeader -> result VerificationResult
}.
