(* ===== verification/SigningFrames.v ===== *)
(** * Canonical signing inputs

    The length-prefixed frame of a template determines every field it covers, and a valid template
    always renders a valid input, within the limit. *)

From S2P Require Import Prelude Sha256 Text TextLemmas Commands Json JsonFlat Hashing Base64 Signing.

Local Open Scope Z_scope.

(** ** Sizes and texts *)

Lemma to_bytes_ok n v b :
  to_bytes_big n v = Ok b <-> 0 <= v < 2 ^ (8 * Z.of_nat n) /\ b = int_to_bytes n v.
Proof.
  unfold to_bytes_big. destruct (within 0 _ v) eqn:E; cbn [negb].
  - apply within_spec in E. split; [intros [= <-]; split; [lia|done]|by intros [_ ->]].
  - split; [discriminate|]. intros [H _]. assert (within 0 (2 ^ (8 * Z.of_nat n) - 1) v = true); [apply within_spec; lia|congruence].
Qed.

Lemma to_bytes_inj n v w b : to_bytes_big n v = Ok b -> to_bytes_big n w = Ok b -> v = w.
Proof.
  rewrite !to_bytes_ok. intros [Hv ->] [Hw H]. rewrite <- (of_to_digits 8 ltac:(lia) n v), <- (of_to_digits 8 ltac:(lia) n w) by done.
  unfold int_to_bytes in H. by rewrite H.
Qed.

Lemma to_bytes_length n v b : to_bytes_big n v = Ok b -> length b = n.
Proof. intros [_ ->]%to_bytes_ok. apply length_int_to_bytes. Qed.

Lemma ascii_bytes_inj s t : ascii_bytes s = ascii_bytes t -> s = t.
Proof. revert t. induction s as [|c s IH]; intros [|d t] H; try done. injection H as H1 H2. f_equal; [lia|by apply IH]. Qed.

(** ** One component *)

Definition timestamp_value (encoding : TimestampEncoding) (i : SigningInput) : Z :=
  match encoding with
  | ASCII_DECIMAL_NANOSECONDS => logical_time_ns i
  | ASCII_DECIMAL_SECONDS_FLOOR => logical_time_ns i / NANOSECONDS_PER_SECOND
  end.

(** Two components are the same literal, or the same token with the same value of its field. *)
Definition frame_agrees (e1 e2 : TimestampEncoding) (i1 i2 : SigningInput) (c1 c2 : SigningTemplateComponent) : Prop :=
  match c1, c2 with
  | Literal a, Literal b => a = b
  | Token Token_TIMESTAMP, Token Token_TIMESTAMP => timestamp_value e1 i1 = timestamp_value e2 i2
  | Token Token_EVENT_ID, Token Token_EVENT_ID => event_id i1 = event_id i2
  | Token Token_BODY, Token Token_BODY => body i1 = body i2
  | _, _ => False
  end.

Lemma encode_timestamp_value i e : _encode_timestamp (logical_time_ns i) e = ascii_bytes (str_of_int (timestamp_value e i)).
Proof. by destruct e. Qed.

Lemma component_agrees e1 e2 i1 i2 c1 c2 f :
  frame_component i1 e1 c1 = Ok f -> frame_component i2 e2 c2 = Ok f -> frame_agrees e1 e2 i1 i2 c1 c2.
Proof.
  intros H1 H2. destruct c1 as [a|[]], c2 as [b|[]]; cbn [frame_component] in H1, H2;
    repeat match goal with H : match ?x with _ => _ end = Ok _ |- _ => destruct x eqn:?; [|discriminate H] end;
    simplify_eq; cbn [frame_agrees]; try done.
  - rewrite !encode_timestamp_value in *. match goal with H : ascii_bytes _ = ascii_bytes _ |- _ => by apply ascii_bytes_inj, str_of_int_inj in H end.
  - by eapply utf8_encode_inj.
Qed.

Lemma render_component_inj f g b c rest rest' :
  render_component f = Ok b -> render_component g = Ok c -> b ++ rest = c ++ rest' -> f = g /\ rest = rest'.
Proof.
  unfold render_component. destruct f as [tag value], g as [tag' value']. cbn [fst snd].
  destruct (to_bytes_big 8 (zlen value)) as [size|] eqn:Es; [|discriminate].
  destruct (to_bytes_big 8 (zlen value')) as [size'|] eqn:Es'; [|discriminate].
  intros [= <-] [= <-]. cbn [app]. rewrite <- !app_assoc. intros [= -> H].
  apply app_inj_1 in H as [-> H]; [|by rewrite (to_bytes_length _ _ _ Es), (to_bytes_length _ _ _ Es')].
  pose proof (to_bytes_inj _ _ _ _ Es Es') as Hl. unfold zlen in Hl. apply app_inj_1 in H as [-> ->]; [done|lia].
Qed.

Lemma rendered_inj framed framed' rendered rendered' :
  length framed = length framed' -> map_result render_component framed = Ok rendered ->
  map_result render_component framed' = Ok rendered' -> concat rendered = concat rendered' -> framed = framed'.
Proof.
  intros Hl. rewrite !map_result_ok. intros H. revert framed' rendered' Hl.
  induction H as [|f b framed rendered Hf _ IH]; intros framed' rendered' Hl H' Hc; [by destruct framed'|].
  destruct framed' as [|g framed']; [discriminate Hl|]. inversion H' as [|? c ? rendered'' Hg Ht]; subst. cbn [concat] in Hc.
  destruct (render_component_inj _ _ _ _ _ _ Hf Hg Hc) as [-> Hr]. f_equal. eapply IH; [by injection Hl|done|done].
Qed.

(** ** The whole frame *)

Lemma agree_all e1 e2 i1 i2 l1 l2 framed :
  map_result (frame_component i1 e1) l1 = Ok framed -> map_result (frame_component i2 e2) l2 = Ok framed ->
  Forall2 (frame_agrees e1 e2 i1 i2) l1 l2.
Proof.
  rewrite !map_result_ok. intros H. revert l2. induction H as [|c f l1 framed Hc _ IH]; intros l2 H2; inversion H2; subst; constructor.
  - by eapply component_agrees.
  - by apply IH.
Qed.

(** C17: A length-prefixed signing input determines every field the signature covers.  When two templates
    render two inputs to the same bytes, the templates have the same version and component for component
    the same literals and tokens, and the inputs agree on each covered field: the event identifier, the
    exact body, and the timestamp to the precision the template encodes.  No boundary between fields can
    be moved. *)
Theorem framing_injective t1 t2 e1 e2 i1 i2 b :
  framing t1 = LENGTH_PREFIXED_V1 -> framing t2 = LENGTH_PREFIXED_V1 -> render t1 i1 e1 = Ok b -> render t2 i2 e2 = Ok b ->
  template_version t1 = template_version t2 /\ Forall2 (frame_agrees e1 e2 i1 i2) (components t1) (components t2).
Proof.
  unfold render. intros -> ->. unfold _render_length_prefixed_template. intros H1 H2.
  destruct (map_result (frame_component i1 e1) _) as [f1|] eqn:E1; [|discriminate H1].
  destruct (map_result (frame_component i2 e2) _) as [f2|] eqn:E2; [|discriminate H2].
  destruct (_ <? _); [discriminate H1|]. destruct (_ <? _); [discriminate H2|].
  destruct (to_bytes_big 2 (zlen (ascii_bytes (template_version t1)))) as [v1|] eqn:V1; [|discriminate H1].
  destruct (to_bytes_big 2 (zlen (ascii_bytes (template_version t2)))) as [v2|] eqn:V2; [|discriminate H2].
  destruct (to_bytes_big 1 (zlen f1)) as [n1|] eqn:N1; [|discriminate H1].
  destruct (to_bytes_big 1 (zlen f2)) as [n2|] eqn:N2; [|discriminate H2].
  destruct (map_result render_component f1) as [r1|] eqn:R1; [|discriminate H1].
  destruct (map_result render_component f2) as [r2|] eqn:R2; [|discriminate H2].
  apply ok_inj in H1, H2. rewrite <- H2 in H1. clear H2. apply app_inv_head in H1.
  apply app_inj_1 in H1 as [Hv H]; [|by rewrite (to_bytes_length _ _ _ V1), (to_bytes_length _ _ _ V2)]. subst v2.
  pose proof (to_bytes_inj _ _ _ _ V1 V2) as Hl. unfold zlen in Hl. apply app_inj_1 in H as [Hver H]; [|lia].
  apply app_inj_1 in H as [Hn H]; [|by rewrite (to_bytes_length _ _ _ N1), (to_bytes_length _ _ _ N2)]. subst n2.
  pose proof (to_bytes_inj _ _ _ _ N1 N2) as Hc. unfold zlen in Hc.
  assert (f1 = f2) as <- by (eapply rendered_inj; [lia|done..]).
  split; [by apply ascii_bytes_inj|by eapply agree_all].
Qed.

(** ** Rendering always succeeds *)

(** A valid input: the bounds its constructor checks. *)
Lemma input_facts i : validate_signing_input i = Ok i ->
  zlen (body i) <= MAX_SIGNING_BODY_BYTES /\ (exists e, utf8_encode (event_id i) = Ok e /\ zlen e <= MAX_EVENT_ID_BYTES) /\
  SIGNED_INT64_MIN <= logical_time_ns i <= SIGNED_INT64_MAX.
Proof.
  unfold validate_signing_input, _encode_bounded_text, _validate_logical_time. intros H.
  destruct (_ <? zlen (body i)) eqn:Eb; [discriminate H|]. destruct (utf8_encode (event_id i)) as [e|] eqn:Ee; [|discriminate H].
  destruct (_ <? zlen e) eqn:El; [discriminate H|]. destruct (within _ _ _) eqn:Et; [|discriminate H].
  apply within_spec in Et. split_and!; [lia|exists e; split; [done|lia]|lia..].
Qed.

Definition token_size (i : SigningInput) (encoding : TimestampEncoding) (t : SigningInputToken) : Z :=
  match t with
  | Token_TIMESTAMP => zlen (_encode_timestamp (logical_time_ns i) encoding)
  | Token_EVENT_ID => match utf8_encode (event_id i) with Ok e => zlen e | Raise _ => 0 end
  | Token_BODY => zlen (body i)
  end.
Definition sizes (f : SigningInputToken -> Z) (l : list SigningInputToken) : Z := foldr (fun t n => f t + n) 0 l.

Lemma sizes_app f l k : sizes f (l ++ k) = sizes f l + sizes f k.
Proof. induction l as [|t l IH]; [done|]. cbn [app sizes foldr]. fold (sizes f (l ++ k)) (sizes f l). rewrite IH. lia. Qed.

(** Each token occurs once, so their values are bounded by one of each. *)
Lemma sizes_once f l : (forall t, 0 <= f t) -> NoDup l -> sizes f l <= f Token_TIMESTAMP + f Token_EVENT_ID + f Token_BODY.
Proof.
  intros Hf Hl. set (all := [Token_TIMESTAMP; Token_EVENT_ID; Token_BODY]).
  assert (l ⊆+ all) as [k Hk]%submseteq_Permutation.
  { apply NoDup_submseteq; [done|]. intros [] _; unfold all; set_solver. }
  assert (sizes f all = sizes f (l ++ k)) as Hs.
  { unfold sizes. apply (foldr_permutation_proper eq (fun t n => f t + n) 0); [intros a b n; lia|done]. }
  rewrite sizes_app in Hs. assert (0 <= sizes f k) as H0 by (clear Hs Hk; induction k as [|t k IH]; [done|];
    change (0 <= f t + sizes f k); specialize (Hf t); lia).
  assert (sizes f all = f Token_TIMESTAMP + f Token_EVENT_ID + f Token_BODY) as Ha by (unfold sizes, all; cbn [foldr]; lia). lia.
Qed.

Lemma token_size_nonneg i e t : 0 <= token_size i e t.
Proof. destruct t; cbn [token_size]; try case_match; try apply zlen_nonneg; lia. Qed.

Lemma frames_size i e l framed :
  map_result (frame_component i e) l = Ok framed ->
  foldr (fun f n => 1 + 8 + zlen f.2 + n) 0 framed = 9 * zlen l + literal_bytes l + sizes (token_size i e) (tokens_of l).
Proof.
  rewrite map_result_ok. induction 1 as [|c f l framed Hc _ IH]; [done|]. cbn [foldr]. rewrite IH, zlen_cons.
  unfold literal_bytes at 2. cbn [foldr]. fold (literal_bytes l).
  destruct c as [a|[]]; cbn [frame_component] in Hc; cbn [literal_length];
    unfold tokens_of; cbn [omap list_omap]; fold (tokens_of l); unfold sizes; cbn [foldr token_size];
    fold (sizes (token_size i e) (tokens_of l)).
  - injection Hc as <-. cbn [snd]. lia.
  - injection Hc as <-. cbn [snd]. lia.
  - destruct (utf8_encode (event_id i)) as [b|]; [|discriminate Hc]. injection Hc as <-. cbn [snd]. lia.
  - injection Hc as <-. cbn [snd]. lia.
Qed.

Lemma template_facts t : validate_template t = Ok t ->
  identifier_text (template_version t) = true /\ 1 <= zlen (components t) <= MAX_TEMPLATE_COMPONENTS /\
  literal_bytes (components t) <= MAX_TEMPLATE_LITERAL_BYTES /\ NoDup (tokens_of (components t)).
Proof.
  unfold validate_template, _validate_identifier, _validate_template_components. intros H.
  destruct (identifier_text _); [|discriminate H]. cbn [negb] in H. destruct (within _ _ _) eqn:E; [|discriminate H]. cbn [negb] in H.
  destruct (_ <? literal_bytes _) eqn:El; [discriminate H|]. destruct (bool_decide (tokens_of _ = [])); [discriminate H|].
  destruct (bool_decide (NoDup _)) eqn:En; [|discriminate H]. apply bool_decide_eq_true in En. apply within_spec in E.
  split_and!; [done|lia..|done].
Qed.

Lemma identifier_length s : identifier_text s = true -> 1 <= zlen s <= 128.
Proof.
  destruct s as [|c s]; [done|]. unfold identifier_text. rewrite !andb_true_iff, Z.leb_le, zlen_cons. pose proof (zlen_nonneg s). lia.
Qed.

Lemma timestamp_size i e : validate_signing_input i = Ok i -> zlen (_encode_timestamp (logical_time_ns i) e) <= 20.
Proof.
  intros (_ & _ & Ht)%input_facts. unfold SIGNED_INT64_MIN, SIGNED_INT64_MAX in Ht.
  rewrite encode_timestamp_value. unfold ascii_bytes. rewrite zlen_map. apply (int_text_length 19); [lia|].
  assert (Z.abs (timestamp_value e i) <= 2 ^ 63) as H; [|lia]. destruct e; cbn [timestamp_value]; [lia|].
  unfold NANOSECONDS_PER_SECOND. assert (- 2 ^ 63 <= logical_time_ns i / 1000000000 <= 2 ^ 63); [|lia].
  split; [apply Z.div_le_lower_bound; lia|apply Z.div_le_upper_bound; lia].
Qed.

Lemma frames_exist i l e : validate_signing_input i = Ok i -> exists framed, map_result (frame_component i e) l = Ok framed.
Proof.
  intros (_ & (b & Hb & _) & _)%input_facts. apply map_result_total. intros [a|[]] _; cbn [frame_component]; try by eexists.
  rewrite Hb. by eexists.
Qed.

Lemma renders_each framed : Forall (fun f => zlen f.2 <= MAX_SIGNING_INPUT_BYTES) framed ->
  exists rendered, map_result render_component framed = Ok rendered.
Proof.
  intros H. apply map_result_total. intros f Hf. rewrite list.Forall_forall in H. specialize (H f Hf). unfold render_component.
  pose proof (zlen_nonneg f.2). assert (to_bytes_big 8 (zlen f.2) = Ok (int_to_bytes 8 (zlen f.2))) as ->; [|by eexists].
  apply to_bytes_ok. split; [|done]. unfold MAX_SIGNING_INPUT_BYTES, MAX_SIGNING_BODY_BYTES in H. lia.
Qed.

Lemma rendered_size framed rendered :
  map_result render_component framed = Ok rendered -> zlen (concat rendered) = foldr (fun f n => 1 + 8 + zlen f.2 + n) 0 framed.
Proof.
  rewrite map_result_ok. induction 1 as [|f b framed rendered Hb _ IH]; [done|]. cbn [concat foldr]. rewrite zlen_app, IH.
  unfold render_component in Hb. destruct (to_bytes_big 8 _) as [size|] eqn:E; [|discriminate Hb]. injection Hb as <-.
  apply to_bytes_length in E. rewrite zlen_cons, zlen_app. unfold zlen at 1. rewrite E. lia.
Qed.

Lemma framed_each framed n : 0 <= n -> foldr (fun f n => 1 + 8 + zlen f.2 + n) 0 framed <= n -> Forall (fun f : Z * bytes => zlen f.2 <= n) framed.
Proof.
  revert n. induction framed as [|f framed IH]; intros n Hn H; [constructor|]. cbn [foldr] in H.
  assert (0 <= foldr (fun f n => 1 + 8 + zlen f.2 + n) 0 framed) as H0.
  { clear. induction framed as [|f framed IH]; [done|]. cbn [foldr]. pose proof (zlen_nonneg f.2). lia. }
  pose proof (zlen_nonneg f.2). constructor; [lia|]. apply IH; lia.
Qed.

(** C18: A valid template renders every valid input, to no more bytes than a signer accepts: the limit on
    the signing input is never reached once the body, the event identifier, the timestamp and the
    literals are within theirs, and no length overflows its field. *)
Theorem render_total t i e :
  validate_template t = Ok t -> validate_signing_input i = Ok i ->
  exists b, render t i e = Ok b /\ zlen b <= MAX_SIGNING_INPUT_BYTES.
Proof.
  intros Ht Hi. destruct (input_facts i Hi) as (Hbody & (ev & Hev & Hevl) & _). unfold render.
  destruct (framing t); [exists (body i); split; [done|unfold MAX_SIGNING_INPUT_BYTES; lia]|].
  destruct (template_facts t Ht) as (Hver%identifier_length & Hcount & Hlit & Htok).
  unfold _render_length_prefixed_template. destruct (frames_exist i (components t) e Hi) as [framed Hf]. rewrite Hf.
  pose proof (frames_size _ _ _ _ Hf) as Hsize. pose proof (sizes_once _ _ (token_size_nonneg i e) Htok) as Hsum.
  pose proof (timestamp_size i e Hi) as Hts. cbn [token_size] in Hsum. rewrite Hev in Hsum.
  unfold MAX_TEMPLATE_COMPONENTS, MAX_TEMPLATE_LITERAL_BYTES, MAX_EVENT_ID_BYTES, MAX_SIGNING_BODY_BYTES in *.
  assert (zlen (ascii_bytes (template_version t)) = zlen (template_version t)) as Hvl by apply zlen_map.
  assert (zlen framed = zlen (components t)) as Hfl by (apply map_result_ok, Forall2_length in Hf; unfold zlen; lia).
  assert (zlen LENGTH_PREFIXED_TEMPLATE_DOMAIN = 28) as Hdom by reflexivity.
  assert (framed_size (ascii_bytes (template_version t)) framed <= MAX_SIGNING_INPUT_BYTES) as Hle.
  { unfold framed_size. rewrite Hsize, Hvl, Hdom. unfold MAX_SIGNING_INPUT_BYTES, MAX_SIGNING_BODY_BYTES. lia. }
  rewrite (proj2 (Z.ltb_ge _ _) Hle).
  assert (forall n v, 0 <= v < 2 ^ (8 * Z.of_nat n) -> to_bytes_big n v = Ok (int_to_bytes n v)) as Hbytes
    by (intros n v Hv; by apply to_bytes_ok).
  rewrite (Hbytes 2%nat) by (change (2 ^ (8 * Z.of_nat 2)) with 65536; lia).
  rewrite (Hbytes 1%nat) by (change (2 ^ (8 * Z.of_nat 1)) with 256; lia).
  destruct (renders_each framed) as [rendered Hr].
  { apply framed_each; [done|]. unfold framed_size in Hle. pose proof (zlen_nonneg (ascii_bytes (template_version t))). lia. }
  rewrite Hr. eexists. split; [done|]. rewrite !zlen_app, (rendered_size _ _ Hr).
  unfold zlen at 2. rewrite length_int_to_bytes. unfold zlen at 3. rewrite length_int_to_bytes.
  unfold framed_size in Hle. lia.
Qed.

(** ** Witnesses *)

Definition frame_template : CanonicalSigningTemplate :=
  {| template_version := u "frame-v1"; framing := LENGTH_PREFIXED_V1;
     components := [Token Token_EVENT_ID; Literal (ascii_bytes (u ".")); Token Token_TIMESTAMP; Token Token_BODY] |}.
Definition frame_input (time : Z) : SigningInput :=
  {| body := ascii_bytes (u "{}"); event_id := u "evt_1"; logical_time_ns := time |}.

(** Two times within one second are one to a template that signs seconds. *)
Lemma framing_injective_witness :
  Forall2 (frame_agrees ASCII_DECIMAL_SECONDS_FLOOR ASCII_DECIMAL_SECONDS_FLOOR (frame_input 1700000000000000000) (frame_input 1700000000999999999))
    (components frame_template) (components frame_template).
Proof.
  destruct (render frame_template (frame_input 1700000000000000000) ASCII_DECIMAL_SECONDS_FLOOR) as [b|] eqn:E; [|vm_compute in E; discriminate E].
  assert (render frame_template (frame_input 1700000000999999999) ASCII_DECIMAL_SECONDS_FLOOR = Ok b) as E' by (rewrite <- E; vm_compute; reflexivity).
  exact (proj2 (framing_injective frame_template frame_template _ _ _ _ b eq_refl eq_refl E E')).
Defined.

Lemma render_total_witness :
  exists b, render frame_template (frame_input (-1)) ASCII_DECIMAL_NANOSECONDS = Ok b /\ zlen b <= MAX_SIGNING_INPUT_BYTES.
Proof. apply (render_total frame_template (frame_input (-1)) ASCII_DECIMAL_NANOSECONDS); vm_compute; reflexivity. Defined.
