(* ===== verification/HmacSigners.v ===== *)
(** * The built-in signers

    [signatures/hmac_generic.py], [signatures/stripe.py] and [signatures/standard_webhooks.py]: each
    signs the exact bytes of a delivery with HMAC-SHA256 and verifies the headers it owns strictly. *)

From S2P Require Import Prelude Sha256 Text Commands Json Hashing Base64 Signing.

Local Open Scope Z_scope.

Definition SHA256_DIGEST_BYTES : nat := 32.
Definition SHA256_HEX_CHARACTERS : nat := 64.
Definition SHA256_BASE64_CHARACTERS : nat := 44.

(** ** Digests

    A signer computes its digest inside [use_with]; [derive] is what it makes of the material, and a
    failure inside the callback is reported after it. *)

Definition digest_with (derive : bytes -> option bytes) (canonical : bytes) (secret : SecretHandle) : result bytes :=
  let! computed := use_with secret (fun material => Ok (option_map (fun key => hmac_sha256 key canonical) (derive material))) in
  match computed with
  | Some digest =>
    raise_if negb (length digest =? SHA256_DIGEST_BYTES)%nat with SignerError "SIG_SIGNING_FAILED" ;; Ok digest
  | None => Raise (SignerError "SIG_SIGNING_FAILED")
  end.
(** A raw key is the material. *)
Definition raw_key (material : bytes) : option bytes := Some material.

(** Some expected digest is one of those supplied. *)
Definition any_match (expected supplied : list bytes) : bool :=
  existsb (fun e => existsb (fun s => bool_decide (e = s)) supplied) expected.

(** ** Generic HMAC *)

Definition GENERIC_HMAC_SHA256_ADAPTER_ID : str := u "generic-hmac-sha256".
Definition GENERIC_HMAC_SHA256_ADAPTER_VERSION : str := u "v1".
Definition GENERIC_HMAC_SHA256_TEMPLATE_VERSION : str := u "generic-hmac-sha256-body-v1".
Definition GENERIC_HMAC_SHA256_FRAMED_NS_TEMPLATE_VERSION : str := u "generic-hmac-sha256-framed-ns-v1".
Definition GENERIC_HMAC_SHA256_FRAMED_SECONDS_TEMPLATE_VERSION : str := u "generic-hmac-sha256-framed-seconds-v1".
Definition DEFAULT_SIGNATURE_HEADER : str := u "x-webhook-signature".
Definition MAX_SIGNATURE_PREFIX_LENGTH : Z := 128.

Definition GENERIC_HMAC_SHA256_TEMPLATE_V1 : CanonicalSigningTemplate :=
  {| template_version := GENERIC_HMAC_SHA256_TEMPLATE_VERSION; components := [Token Token_BODY]; framing := EXACT_BODY_V1 |}.
Definition GENERIC_HMAC_SHA256_FRAMED_NS_TEMPLATE_V1 : CanonicalSigningTemplate :=
  {| template_version := GENERIC_HMAC_SHA256_FRAMED_NS_TEMPLATE_VERSION;
     components := [Token Token_TIMESTAMP; Token Token_EVENT_ID; Token Token_BODY]; framing := LENGTH_PREFIXED_V1 |}.
Definition GENERIC_HMAC_SHA256_FRAMED_SECONDS_TEMPLATE_V1 : CanonicalSigningTemplate :=
  {| template_version := GENERIC_HMAC_SHA256_FRAMED_SECONDS_TEMPLATE_VERSION;
     components := [Token Token_TIMESTAMP; Token Token_EVENT_ID; Token Token_BODY]; framing := LENGTH_PREFIXED_V1 |}.
(** The registrations, and the registry built of them. *)
Definition generic_registrations : list SigningTemplateRegistration :=
  [{| registered_template := GENERIC_HMAC_SHA256_TEMPLATE_V1; registered_encoding := ASCII_DECIMAL_NANOSECONDS |};
   {| registered_template := GENERIC_HMAC_SHA256_FRAMED_NS_TEMPLATE_V1; registered_encoding := ASCII_DECIMAL_NANOSECONDS |};
   {| registered_template := GENERIC_HMAC_SHA256_FRAMED_SECONDS_TEMPLATE_V1; registered_encoding := ASCII_DECIMAL_SECONDS_FLOOR |}].
Definition GENERIC_HMAC_SHA256_TEMPLATE_REGISTRY : StaticSigningTemplateRegistry :=
  match make_template_registry generic_registrations with Ok registry => registry | Raise _ => [] end.
Example generic_registry_built : make_template_registry generic_registrations = Ok generic_registrations.
Proof. vm_compute. reflexivity. Qed.

Record GenericHmacSha256Settings := {
  gs_header_name : str; gs_prefix : str; gs_template : CanonicalSigningTemplate; gs_timestamp_encoding : TimestampEncoding;
  gs_output_encoding : SignatureEncoding; gs_key_id : option str
}.
Definition _validate_prefix (value : str) : result unit :=
  raise_if MAX_SIGNATURE_PREFIX_LENGTH <? zlen value with SignerError "SIG_SIGNATURE_PREFIX_INVALID" ;;
  raise_if negb (ascii_text value) with SignerError "SIG_SIGNATURE_PREFIX_INVALID" ;;
  raise_if existsb (fun c => (c <? 33)%N || (c =? 127)%N) value with SignerError "SIG_SIGNATURE_PREFIX_INVALID" ;;
  Ok tt.
Definition encoded_length (encoding : SignatureEncoding) : nat :=
  match encoding with HEX => SHA256_HEX_CHARACTERS | BASE64 => SHA256_BASE64_CHARACTERS end.
Definition validate_generic_settings (s : GenericHmacSha256Settings) : result GenericHmacSha256Settings :=
  let! normalized := validate_header_ownership [gs_header_name s] [] in
  let! _ := _validate_prefix (gs_prefix s) in
  let! registered := validate_registered GENERIC_HMAC_SHA256_TEMPLATE_REGISTRY (gs_template s) (gs_timestamp_encoding s) in
  let! _ := _validate_signer_key_id (gs_key_id s) in
  raise_if MAX_HEADER_VALUE_LENGTH <? zlen (gs_prefix s) + Z.of_nat (encoded_length (gs_output_encoding s))
    with SignerError "SIG_SIGNATURE_HEADER_TOO_LARGE" ;;
  Ok {| gs_header_name := hd [] normalized; gs_prefix := gs_prefix s; gs_template := registered_template registered;
        gs_timestamp_encoding := registered_encoding registered; gs_output_encoding := gs_output_encoding s;
        gs_key_id := gs_key_id s |}.
Definition default_generic_settings : GenericHmacSha256Settings :=
  {| gs_header_name := DEFAULT_SIGNATURE_HEADER; gs_prefix := []; gs_template := GENERIC_HMAC_SHA256_TEMPLATE_V1;
     gs_timestamp_encoding := ASCII_DECIMAL_NANOSECONDS; gs_output_encoding := HEX; gs_key_id := None |}.

Record GenericHmacSha256Signer := { g_secret : SecretHandle; g_settings : GenericHmacSha256Settings }.

Definition generic_canonical_message (s : GenericHmacSha256Signer) (i : SigningInput) : result bytes :=
  render (gs_template (g_settings s)) i (gs_timestamp_encoding (g_settings s)).
Definition _digest (s : GenericHmacSha256Signer) (canonical : bytes) : result bytes := digest_with raw_key canonical (g_secret s).
Definition _encode_digest (digest : bytes) (encoding : SignatureEncoding) : str :=
  match encoding with HEX => hex_of_bytes digest | BASE64 => b64encode digest end.
Definition _decode_header_value (value prefix : str) (encoding : SignatureEncoding) : option bytes :=
  if negb (bool_decide (take (length prefix) value = prefix)) then None
  else
    let encoded := drop (length prefix) value in
    match encoding with
    | HEX => if lower_hex SHA256_HEX_CHARACTERS encoded then Some (from_hex encoded) else None
    | BASE64 =>
      if negb (length encoded =? SHA256_BASE64_CHARACTERS)%nat then None
      else
        match b64decode encoded with
        | None => None
        | Some decoded =>
          if negb (length decoded =? SHA256_DIGEST_BYTES)%nat || negb (bool_decide (b64encode decoded = encoded))
          then None else Some decoded
        end
    end.
Definition generic_evidence (s : GenericHmacSha256Signer) (i : SigningInput) (canonical : bytes) : result SigningEvidence :=
  signing_evidence GENERIC_HMAC_SHA256_ADAPTER_ID GENERIC_HMAC_SHA256_ADAPTER_VERSION
    (template_version (gs_template (g_settings s))) i canonical (sh_fingerprint (g_secret s)) (gs_key_id (g_settings s))
    (gs_output_encoding (g_settings s)).

Definition generic_sign (s : GenericHmacSha256Signer) (i : SigningInput) : result SigningResult :=
  let! canonical := generic_canonical_message s i in
  let! digest := _digest s canonical in
  let! header := make_signature_header (gs_header_name (g_settings s))
    (gs_prefix (g_settings s) ++ _encode_digest digest (gs_output_encoding (g_settings s))) in
  let! evidence := generic_evidence s i canonical in
  make_signing_result [header] evidence.

Definition generic_verify (s : GenericHmacSha256Signer) (i : SigningInput) (headers : list SignatureHeader)
    : result VerificationResult :=
  let! canonical := generic_canonical_message s i in
  let! evidence := generic_evidence s i canonical in
  let! matching := _matching_headers headers (gs_header_name (g_settings s)) in
  match matching with
  | [] => make_verification_result false Reason_MISSING_HEADER evidence
  | [header] =>
    match _decode_header_value (header_value header) (gs_prefix (g_settings s)) (gs_output_encoding (g_settings s)) with
    | None => make_verification_result false Reason_MALFORMED_HEADER evidence
    | Some supplied =>
      let! expected := _digest s canonical in
      let valid := bool_decide (expected = supplied) in
      make_verification_result valid (if valid then Reason_VALID else Reason_SIGNATURE_MISMATCH) evidence
    end
  | _ => make_verification_result false Reason_DUPLICATE_HEADER evidence
  end.

#[global] Instance generic_signer : Signer GenericHmacSha256Signer := {
  adapter_id := fun _ => GENERIC_HMAC_SHA256_ADAPTER_ID;
  adapter_version := fun _ => GENERIC_HMAC_SHA256_ADAPTER_VERSION;
  owned_headers := fun s => [gs_header_name (g_settings s)];
  sign := generic_sign;
  verify := generic_verify
}.

(** ** Several keys *)

(** The conditions a signer with rotated keys is constructed under; the codes differ. *)
Definition MAX_STRIPE_SIGNING_SECRETS : Z := 8.
Definition MAX_STANDARD_WEBHOOKS_SIGNING_SECRETS : Z := 8.
Definition check_keys (count_code id_code duplicate_code : string) (maximum : Z) (secret : SecretHandle)
    (additional_key_ids : list (option str)) (additional : list SecretHandle) : result (list SecretHandle) :=
  let secrets := secret :: additional in
  raise_if maximum <? zlen secrets with SignerError count_code ;;
  raise_if negb (bool_decide (additional_key_ids = [])) && negb (zlen additional_key_ids =? zlen additional) with SignerError id_code ;;
  raise_if negb (bool_decide (NoDup (map sh_fingerprint secrets))) with SignerError duplicate_code ;;
  Ok secrets.

(** [_CANONICAL_INTEGER] *)
Definition canonical_magnitude (s : str) : bool :=
  match s with c :: rest => char_between 49 57 c && forallb is_decimal rest && (zlen rest <=? 18) | [] => false end.
Definition canonical_integer (s : str) : bool :=
  bool_decide (s = [48%N]) || match s with 45%N :: rest => canonical_magnitude rest | _ => canonical_magnitude s end.
(** [_parse_timestamp], and the same steps inside [_parse_header] *)
Definition _parse_timestamp (value : str) : option Z :=
  if negb (canonical_integer value) then None
  else let parsed := int_of_decimal value in if bool_decide (str_of_int parsed = value) then Some parsed else None.

(** ** Stripe *)

Definition STRIPE_V1_ADAPTER_ID : str := u "stripe-v1".
Definition STRIPE_V1_ADAPTER_VERSION : str := u "v1".
Definition STRIPE_V1_TEMPLATE_VERSION : str := u "stripe-v1-timestamp-dot-body-v1".
Definition STRIPE_SIGNATURE_HEADER : str := u "stripe-signature".
Definition MAX_STRIPE_HEADER_COMPONENTS : Z := 32.

Record StripeV1Settings := { ss_header_name : str; ss_key_id : option str; ss_additional_key_ids : list (option str) }.
Definition validate_stripe_settings (s : StripeV1Settings) : result StripeV1Settings :=
  let! normalized := validate_header_ownership [ss_header_name s] [] in
  let! _ := _validate_signer_key_id (ss_key_id s) in
  raise_if MAX_STRIPE_SIGNING_SECRETS <=? zlen (ss_additional_key_ids s) with SignerError "SIG_STRIPE_KEY_COUNT_INVALID" ;;
  let! _ := map_result _validate_signer_key_id (ss_additional_key_ids s) in
  Ok {| ss_header_name := hd [] normalized; ss_key_id := ss_key_id s; ss_additional_key_ids := ss_additional_key_ids s |}.

Record StripeV1Signer := { s_secrets : list SecretHandle; s_settings : StripeV1Settings }.
Definition make_stripe_signer (secret : SecretHandle) (settings : StripeV1Settings) (additional : list SecretHandle)
    : result StripeV1Signer :=
  let! secrets := check_keys "SIG_STRIPE_KEY_COUNT_INVALID" "SIG_STRIPE_KEY_ID_COUNT_INVALID" "SIG_STRIPE_DUPLICATE_KEY"
    MAX_STRIPE_SIGNING_SECRETS secret (ss_additional_key_ids settings) additional in
  Ok {| s_secrets := secrets; s_settings := settings |}.

Definition stripe_canonical_message (timestamp : Z) (body : bytes) : result bytes :=
  let rendered := ascii_bytes (str_of_int timestamp) ++ [46] ++ body in
  raise_if MAX_SIGNING_INPUT_BYTES <? zlen rendered with ValueError ;; Ok rendered.

(** [_SCHEME] *)
Definition scheme_text (s : str) : bool :=
  match s with
  | c :: rest =>
    (is_upper c || is_lower c) && forallb (fun c => is_upper c || is_lower c || is_decimal c || has_char c (u "_-")) rest
    && (zlen rest <=? 31)
  | [] => false
  end.
(** A component of the header: the timestamps and signatures read so far, and with it. *)
Definition read_component (read : list Z * list bytes) (component : str) : option (list Z * list bytes) :=
  let (timestamps, signatures) := read in
  if negb (zlen (split_on 61 component) =? 2) then None
  else
    match partition_on 61 component with
    | (_, None) => None
    | (scheme, Some encoded) =>
      if negb (scheme_text scheme) || bool_decide (encoded = []) then None
      else if bool_decide (scheme = u "t") then
        match _parse_timestamp encoded with None => None | Some t => Some (timestamps ++ [t], signatures) end
      else if bool_decide (scheme = u "v1") then
        if (MAX_STRIPE_SIGNING_SECRETS <=? zlen signatures) || negb (lower_hex SHA256_HEX_CHARACTERS encoded) then None
        else Some (timestamps, signatures ++ [from_hex encoded])
      else if (SHA256_HEX_CHARACTERS <? length encoded)%nat || existsb (fun c => (c <? 33)%N || (c =? 127)%N) encoded then None
      else Some (timestamps, signatures)
    end.
Fixpoint read_components (read : list Z * list bytes) (components : list str) : option (list Z * list bytes) :=
  match components with
  | [] => Some read
  | component :: rest => match read_component read component with None => None | Some read => read_components read rest end
  end.
Definition _parse_header (value : str) : option (Z * list bytes) :=
  if bool_decide (value = []) then None
  else
    let components := split_on 44 value in
    if negb (within 2 MAX_STRIPE_HEADER_COMPONENTS (zlen components)) then None
    else
      match read_components ([], []) components with
      | Some ([timestamp], (_ :: _) as signatures) => Some (timestamp, signatures)
      | _ => None
      end.

Definition stripe_digests (s : StripeV1Signer) (canonical : bytes) : result (list bytes) :=
  map_result (digest_with raw_key canonical) (s_secrets s).
Definition primary_fingerprint (secrets : list SecretHandle) : result str :=
  match secrets with [] => Raise IndexError | secret :: _ => Ok (sh_fingerprint secret) end.
Definition stripe_evidence (s : StripeV1Signer) (i : SigningInput) (canonical : bytes) : result SigningEvidence :=
  let! fingerprint := primary_fingerprint (s_secrets s) in
  signing_evidence STRIPE_V1_ADAPTER_ID STRIPE_V1_ADAPTER_VERSION STRIPE_V1_TEMPLATE_VERSION i canonical fingerprint
    (ss_key_id (s_settings s)) HEX.

Definition stripe_value (timestamp : Z) (signatures : list bytes) : str :=
  join_on 44 ((u "t=" ++ str_of_int timestamp) :: map (fun d => u "v1=" ++ hex_of_bytes d) signatures).
Definition stripe_sign (s : StripeV1Signer) (i : SigningInput) : result SigningResult :=
  let timestamp := logical_time_ns i / NANOSECONDS_PER_SECOND in
  let! canonical := stripe_canonical_message timestamp (body i) in
  let! signatures := stripe_digests s canonical in
  let value := stripe_value timestamp signatures in
  raise_if MAX_HEADER_VALUE_LENGTH <? zlen value with SignerError "SIG_SIGNING_FAILED" ;;
  let! header := make_signature_header (ss_header_name (s_settings s)) value in
  let! evidence := stripe_evidence s i canonical in
  make_signing_result [header] evidence.

Definition stripe_verify (s : StripeV1Signer) (i : SigningInput) (headers : list SignatureHeader) : result VerificationResult :=
  let! default_canonical := stripe_canonical_message (logical_time_ns i / NANOSECONDS_PER_SECOND) (body i) in
  let! default_evidence := stripe_evidence s i default_canonical in
  let! matching := _matching_headers headers (ss_header_name (s_settings s)) in
  match matching with
  | [] => make_verification_result false Reason_MISSING_HEADER default_evidence
  | [header] =>
    match _parse_header (header_value header) with
    | None => make_verification_result false Reason_MALFORMED_HEADER default_evidence
    | Some (timestamp, supplied) =>
      let! canonical := stripe_canonical_message timestamp (body i) in
      let! evidence := stripe_evidence s i canonical in
      let! expected := stripe_digests s canonical in
      let valid := any_match expected supplied in
      make_verification_result valid (if valid then Reason_VALID else Reason_SIGNATURE_MISMATCH) evidence
    end
  | _ => make_verification_result false Reason_DUPLICATE_HEADER default_evidence
  end.

#[global] Instance stripe_signer : Signer StripeV1Signer := {
  adapter_id := fun _ => STRIPE_V1_ADAPTER_ID;
  adapter_version := fun _ => STRIPE_V1_ADAPTER_VERSION;
  owned_headers := fun s => [ss_header_name (s_settings s)];
  sign := stripe_sign;
  verify := stripe_verify
}.

(** ** Standard Webhooks *)

Definition STANDARD_WEBHOOKS_ADAPTER_ID : str := u "standard-webhooks-hmac".
Definition STANDARD_WEBHOOKS_ADAPTER_VERSION : str := u "v1".
Definition STANDARD_WEBHOOKS_TEMPLATE_VERSION : str := u "standard-webhooks-id-timestamp-body-v1".
Definition WEBHOOK_ID_HEADER : str := u "webhook-id".
Definition WEBHOOK_TIMESTAMP_HEADER : str := u "webhook-timestamp".
Definition WEBHOOK_SIGNATURE_HEADER : str := u "webhook-signature".
Definition MAX_SIGNATURE_COMPONENTS : Z := 16.

Record StandardWebhooksSettings := { ws_header_name : str; ws_key_id : option str; ws_additional_key_ids : list (option str) }.
Definition validate_standard_settings (s : StandardWebhooksSettings) : result StandardWebhooksSettings :=
  let! normalized := validate_header_ownership [WEBHOOK_ID_HEADER; WEBHOOK_TIMESTAMP_HEADER; ws_header_name s] [] in
  let! _ := _validate_signer_key_id (ws_key_id s) in
  raise_if MAX_STANDARD_WEBHOOKS_SIGNING_SECRETS <=? zlen (ws_additional_key_ids s)
    with SignerError "SIG_STANDARD_WEBHOOKS_KEY_COUNT_INVALID" ;;
  let! _ := map_result _validate_signer_key_id (ws_additional_key_ids s) in
  Ok {| ws_header_name := nth 2 normalized []; ws_key_id := ws_key_id s; ws_additional_key_ids := ws_additional_key_ids s |}.

Record StandardWebhooksHmacSigner := { w_secrets : list SecretHandle; w_settings : StandardWebhooksSettings }.
Definition make_standard_signer (secret : SecretHandle) (settings : StandardWebhooksSettings) (additional : list SecretHandle)
    : result StandardWebhooksHmacSigner :=
  let! secrets := check_keys "SIG_STANDARD_WEBHOOKS_KEY_COUNT_INVALID" "SIG_STANDARD_WEBHOOKS_KEY_ID_COUNT_INVALID"
    "SIG_STANDARD_WEBHOOKS_DUPLICATE_KEY" MAX_STANDARD_WEBHOOKS_SIGNING_SECRETS secret (ws_additional_key_ids settings) additional in
  Ok {| w_secrets := secrets; w_settings := settings |}.

(** Secret material outside ASCII is no base64; [Z.to_N] keeps bytes apart. *)
Definition _decode_secret (material : bytes) : option bytes :=
  let encoded := map Z.to_N (if bool_decide (take 6 material = ascii_bytes (u "whsec_")) then drop 6 material else material) in
  if bool_decide (encoded = []) then None
  else
    match b64decode encoded with
    | None => None
    | Some decoded => if bool_decide (decoded = []) || negb (bool_decide (b64encode decoded = encoded)) then None else Some decoded
    end.

Definition standard_canonical_message (event_id : str) (timestamp : Z) (body : bytes) : result bytes :=
  raise_if bool_decide (event_id = []) with ValueError ;;
  let! encoded_id := utf8_encode event_id in
  raise_if existsb (fun b => (b <? 32) || (b =? 127)) encoded_id with ValueError ;;
  let rendered := encoded_id ++ [46] ++ ascii_bytes (str_of_int timestamp) ++ [46] ++ body in
  raise_if MAX_SIGNING_INPUT_BYTES <? zlen rendered with ValueError ;; Ok rendered.

(** [_SIGNATURE_COMPONENT] *)
Definition signature_component (s : str) : option str :=
  let encoded := drop 3 s in
  if bool_decide (take 3 s = u "v1,") && (length encoded =? 44)%nat
     && forallb (fun c => is_upper c || is_lower c || is_decimal c || (c =? 43)%N || (c =? 47)%N) (take 43 encoded)
     && bool_decide (drop 43 encoded = [61%N])
  then Some encoded else None.
Definition decode_component (component : str) : option bytes :=
  match signature_component component with
  | None => None
  | Some encoded =>
    match b64decode encoded with
    | None => None
    | Some digest => if negb (length digest =? SHA256_DIGEST_BYTES)%nat then None else Some digest
    end
  end.
Definition _parse_signatures (value : str) : option (list bytes) :=
  if bool_decide (value = []) then None
  else
    let components := split_on 32 value in
    if negb (within 1 MAX_SIGNATURE_COMPONENTS (zlen components)) then None else mapM decode_component components.

Definition standard_digests (s : StandardWebhooksHmacSigner) (canonical : bytes) : result (list bytes) :=
  map_result (digest_with _decode_secret canonical) (w_secrets s).
Definition standard_evidence (s : StandardWebhooksHmacSigner) (i : SigningInput) (canonical : bytes) : result SigningEvidence :=
  let! fingerprint := primary_fingerprint (w_secrets s) in
  signing_evidence STANDARD_WEBHOOKS_ADAPTER_ID STANDARD_WEBHOOKS_ADAPTER_VERSION STANDARD_WEBHOOKS_TEMPLATE_VERSION i
    canonical fingerprint (ws_key_id (w_settings s)) BASE64.

Definition standard_value (signatures : list bytes) : str := join_on 32 (map (fun d => u "v1," ++ b64encode d) signatures).
Definition standard_sign (s : StandardWebhooksHmacSigner) (i : SigningInput) : result SigningResult :=
  let timestamp := logical_time_ns i / NANOSECONDS_PER_SECOND in
  let! canonical := standard_canonical_message (event_id i) timestamp (body i) in
  let! digests := standard_digests s canonical in
  let signatures := standard_value digests in
  raise_if MAX_HEADER_VALUE_LENGTH <? zlen signatures with SignerError "SIG_SIGNING_FAILED" ;;
  let! id_header := make_signature_header WEBHOOK_ID_HEADER (event_id i) in
  let! timestamp_header := make_signature_header WEBHOOK_TIMESTAMP_HEADER (str_of_int timestamp) in
  let! signature_header := make_signature_header (ws_header_name (w_settings s)) signatures in
  let! evidence := standard_evidence s i canonical in
  make_signing_result [id_header; timestamp_header; signature_header] evidence.

Definition standard_owned_headers (s : StandardWebhooksHmacSigner) : list str :=
  [WEBHOOK_ID_HEADER; WEBHOOK_TIMESTAMP_HEADER; ws_header_name (w_settings s)].
Definition standard_verify (s : StandardWebhooksHmacSigner) (i : SigningInput) (headers : list SignatureHeader)
    : result VerificationResult :=
  let! default_canonical := standard_canonical_message (event_id i) (logical_time_ns i / NANOSECONDS_PER_SECOND) (body i) in
  let! default_evidence := standard_evidence s i default_canonical in
  let! matched := map_result (_matching_headers headers) (standard_owned_headers s) in
  if existsb (fun values => bool_decide (values = [])) matched then
    make_verification_result false Reason_MISSING_HEADER default_evidence
  else
    match matched with
    | [[id_header]; [timestamp_header]; [signature_header]] =>
      match _parse_timestamp (header_value timestamp_header), _parse_signatures (header_value signature_header) with
      | Some timestamp, Some supplied =>
        match standard_canonical_message (header_value id_header) timestamp (body i) with
        | Raise _ => make_verification_result false Reason_MALFORMED_HEADER default_evidence
        | Ok canonical =>
          let! evidence := standard_evidence s i canonical in
          let! expected := standard_digests s canonical in
          let valid := any_match expected supplied in
          make_verification_result valid (if valid then Reason_VALID else Reason_SIGNATURE_MISMATCH) evidence
        end
      | _, _ => make_verification_result false Reason_MALFORMED_HEADER default_evidence
      end
    | _ => make_verification_result false Reason_DUPLICATE_HEADER default_evidence
    end.

#[global] Instance standard_signer : Signer StandardWebhooksHmacSigner := {
  adapter_id := fun _ => STANDARD_WEBHOOKS_ADAPTER_ID;
  adapter_version := fun _ => STANDARD_WEBHOOKS_ADAPTER_VERSION;
  owned_headers := standard_owned_headers;
  sign := standard_sign;
  verify := standard_verify
}.
