(* ===== verification/SignerTexts.v ===== *)
(** * Signature header texts

    What a signer writes into a header it reads back, and the generic signer reads nothing else. *)

From S2P Require Import Prelude Sha256 Text TextLemmas Commands Json JsonFlat Hashing Base64 Signing HmacSigners.

Local Open Scope Z_scope.

(** A digest: 32 bytes. *)
Definition is_digest (d : bytes) : Prop := Forall is_byte d /\ length d = SHA256_DIGEST_BYTES.

Lemma digest_with_ok derive canonical secret d : digest_with derive canonical secret = Ok d -> is_digest d.
Proof.
  unfold digest_with, use_with. intros H. destruct (sh_closed secret); [discriminate H|].
  destruct (_load_provider_safely secret) as [material|]; [|discriminate H]. destruct (negb _); [discriminate H|].
  destruct (derive material) as [key|]; [|discriminate H]. cbn [option_map] in H.
  destruct (negb _) in H; [discriminate H|]. apply ok_inj in H as <-.
  split; [apply hmac_sha256_byte|apply hmac_sha256_length].
Qed.

(** ** The generic header *)

Lemma encoded_digest_length d encoding : is_digest d -> length (_encode_digest d encoding) = encoded_length encoding.
Proof.
  intros [_ Hl]. destruct encoding; cbn [_encode_digest encoded_length].
  - rewrite hex_of_bytes_length, Hl. done.
  - rewrite b64_length, Hl. done.
Qed.

Lemma decode_written d prefix encoding : is_digest d -> _decode_header_value (prefix ++ _encode_digest d encoding) prefix encoding = Some d.
Proof.
  intros Hd. pose proof (encoded_digest_length d encoding Hd) as Hl. destruct Hd as [Hb Hn]. unfold _decode_header_value.
  rewrite take_app_length, bool_decide_true by done. cbn [negb]. rewrite drop_app_length.
  destruct encoding; cbn [_encode_digest encoded_length] in *.
  - unfold lower_hex. rewrite Hl, hex_of_bytes_hex by done. cbn [Nat.eqb andb]. by rewrite from_hex_of_bytes.
  - rewrite Hl. cbn [Nat.eqb negb]. rewrite b64_roundtrip by done. rewrite Hn, bool_decide_true by done. done.
Qed.

(** The only text that decodes to a digest is the one it is written as. *)
Lemma decode_only value prefix encoding d :
  _decode_header_value value prefix encoding = Some d -> value = prefix ++ _encode_digest d encoding.
Proof.
  unfold _decode_header_value. case_bool_decide as Hp; [|discriminate]. cbn [negb].
  intros H. transitivity (take (length prefix) value ++ drop (length prefix) value); [by rewrite take_drop|].
  rewrite Hp. f_equal. destruct encoding; cbn [_encode_digest].
  - destruct (lower_hex _ _) eqn:E; [|discriminate H]. injection H as <-. symmetry. by apply (hex_of_from_hex 32).
  - destruct (negb _); [discriminate H|]. destruct (b64decode _) as [decoded|]; [|discriminate H].
    destruct (negb (length decoded =? _)%nat); [discriminate H|]. case_bool_decide as He; [|discriminate H]. cbn in H. injection H as <-. done.
Qed.

(** ** Timestamps *)

Lemma magnitude_ok d : canonical_digits d -> zlen d <= 19 -> canonical_magnitude d = true.
Proof.
  intros [Hd Hh] Hl. destruct d as [|c d]; [done|]. cbn [forallb canonical_magnitude] in *. apply andb_true_iff in Hd as [Hc Hd].
  rewrite zlen_cons in Hl. rewrite Hd, (proj2 (Z.leb_le _ _)) by lia. rewrite !andb_true_r.
  unfold is_decimal, char_between in *. apply andb_true_iff in Hc as [H1%N.leb_le H2%N.leb_le].
  apply andb_true_iff. rewrite !N.leb_le. lia.
Qed.

Lemma canonical_integer_text z : Z.abs z < 10 ^ 19 -> canonical_integer (str_of_int z) = true.
Proof.
  intros Hz. unfold canonical_integer. destruct (str_of_int_cases z) as [[-> ->]|(d & Hd & Hv & ->)]; [done|].
  pose proof (decimal_length 19 z d ltac:(lia) Hd Hv Hz) as Hl. pose proof (magnitude_ok d Hd Hl) as Hm.
  apply orb_true_iff. right. destruct (z <? 0); [done|]. destruct d as [|c d]; [done|].
  destruct (decide (c = 45%N)) as [->|Hc]; [exfalso; destruct Hd as [Hd _]; done|].
  destruct c; try done. repeat (case_match; try done). 
Qed.

Lemma parse_timestamp_text z : Z.abs z < 10 ^ 19 -> _parse_timestamp (str_of_int z) = Some z.
Proof.
  intros Hz. unfold _parse_timestamp. rewrite canonical_integer_text by done. cbn [negb].
  by rewrite int_of_text, bool_decide_true.
Qed.

(** A character of no decimal text. *)
Lemma int_text_plain c z : is_decimal c = false -> c <> 45%N -> has_char c (str_of_int z) = false.
Proof.
  intros Hc H45. assert (forall d, canonical_digits d -> has_char c d = false) as Hd.
  { intros d [Hd _]. unfold has_char. apply existsb_false, list.Forall_forall. intros x Hx%list_elem_of_In.
    rewrite forallb_forall in Hd. apply Hd in Hx. apply N.eqb_neq. congruence. }
  destruct (str_of_int_cases z) as [[-> ->]|(d & Hcd & _ & ->)].
  - unfold has_char. cbn [existsb]. rewrite orb_false_r. apply N.eqb_neq. intros ->. done.
  - specialize (Hd d Hcd). destruct (z <? 0); [|done]. change (has_char c ([45%N] ++ d) = false). rewrite has_char_app, Hd.
    unfold has_char. cbn [existsb]. rewrite !orb_false_r. by apply N.eqb_neq.
Qed.

Lemma hex_plain c b : is_hex c = false -> Forall is_byte b -> has_char c (hex_of_bytes b) = false.
Proof.
  intros Hc Hb%hex_of_bytes_hex. unfold has_char. apply existsb_false, list.Forall_forall. intros x Hx%list_elem_of_In.
  rewrite forallb_forall in Hb. apply Hb in Hx. apply N.eqb_neq. congruence.
Qed.

(** ** The Stripe header *)

Lemma split_two sep a b : has_char sep a = false -> has_char sep b = false ->
  split_on sep (a ++ sep :: b) = [a; b] /\ partition_on sep (a ++ sep :: b) = (a, Some b).
Proof.
  intros Ha Hb. split; [by rewrite split_prefix, split_plain|]. revert Ha. induction a as [|c a IH]; intros Ha; cbn [app partition_on].
  - by rewrite N.eqb_refl.
  - unfold has_char in Ha. cbn [existsb] in Ha. apply orb_false_iff in Ha as [Hc Ha]. rewrite N.eqb_sym in Hc. rewrite Hc.
    by rewrite (IH Ha).
Qed.

Lemma read_timestamp t timestamps signatures :
  Z.abs t < 10 ^ 19 -> read_component (timestamps, signatures) (u "t=" ++ str_of_int t) = Some (timestamps ++ [t], signatures).
Proof.
  intros Ht. unfold read_component. destruct (split_two 61 (u "t") (str_of_int t)) as [Hs Hp]; [done|by apply int_text_plain|].
  change (u "t=" ++ str_of_int t) with (u "t" ++ 61%N :: str_of_int t). rewrite Hs, Hp. cbn [negb].
  assert ((zlen [u "t"; str_of_int t] =? 2) = true) as -> by reflexivity. cbn [negb].
  rewrite (bool_decide_false (str_of_int t = [])).
  2: { intros E. pose proof (canonical_integer_text t Ht) as H. by rewrite E in H. }
  cbn [orb negb scheme_text]. rewrite (bool_decide_true (u "t" = u "t")) by done. by rewrite parse_timestamp_text.
Qed.

Lemma read_signature d timestamps signatures :
  is_digest d -> zlen signatures < MAX_STRIPE_SIGNING_SECRETS ->
  read_component (timestamps, signatures) (u "v1=" ++ hex_of_bytes d) = Some (timestamps, signatures ++ [d]).
Proof.
  intros [Hb Hl] Hn. unfold read_component. pose proof (hex_of_bytes_length d) as Hx. rewrite Hl in Hx.
  destruct (split_two 61 (u "v1") (hex_of_bytes d)) as [Hs Hp]; [done|by apply hex_plain|].
  change (u "v1=" ++ hex_of_bytes d) with (u "v1" ++ 61%N :: hex_of_bytes d). rewrite Hs, Hp.
  assert ((zlen [u "v1"; hex_of_bytes d] =? 2) = true) as -> by reflexivity. cbn [negb].
  rewrite (bool_decide_false (hex_of_bytes d = [])) by (intros E; rewrite E in Hx; discriminate Hx).
  assert (negb (scheme_text (u "v1")) || false = false) as -> by reflexivity.
  rewrite (bool_decide_false (u "v1" = u "t")), (bool_decide_true (u "v1" = u "v1")) by done.
  rewrite (proj2 (Z.leb_gt _ _)) by done. unfold lower_hex. rewrite Hx, hex_of_bytes_hex by done.
  cbn [Nat.eqb andb orb negb Nat.mul]. by rewrite from_hex_of_bytes.
Qed.

Lemma read_signatures timestamps signatures ds :
  Forall is_digest ds -> zlen signatures + zlen ds <= MAX_STRIPE_SIGNING_SECRETS ->
  read_components (timestamps, signatures) (map (fun d => u "v1=" ++ hex_of_bytes d) ds) = Some (timestamps, signatures ++ ds).
Proof.
  intros Hd. revert signatures. induction Hd as [|d ds Hd _ IH]; intros signatures Hn; [by rewrite app_nil_r|].
  cbn [map read_components]. rewrite zlen_cons in Hn. pose proof (zlen_nonneg ds). rewrite read_signature by (done || lia).
  rewrite IH by (rewrite zlen_app; unfold zlen in *; simpl; lia). by rewrite <- app_assoc.
Qed.

Lemma stripe_written t ds :
  Z.abs t < 10 ^ 19 -> Forall is_digest ds -> 1 <= zlen ds <= MAX_STRIPE_SIGNING_SECRETS ->
  _parse_header (stripe_value t ds) = Some (t, ds).
Proof.
  intros Ht Hd Hn. unfold _parse_header, stripe_value. set (parts := _ :: map _ ds).
  rewrite bool_decide_false by (apply join_nonempty; by left).
  rewrite split_join; [|done|].
  2: { constructor; [change (has_char 44 (u "t=" ++ str_of_int t) = false); rewrite has_char_app; by apply int_text_plain|].
    apply Forall_map. eapply List.Forall_impl; [|exact Hd]. intros d [Hb _]. rewrite has_char_app. by apply hex_plain. }
  assert (zlen parts = 1 + zlen ds) as Hl by (unfold parts; by rewrite zlen_cons, zlen_map).
  unfold MAX_STRIPE_SIGNING_SECRETS in Hn.
  assert (within 2 MAX_STRIPE_HEADER_COMPONENTS (zlen parts) = true) as -> by (apply within_spec; unfold MAX_STRIPE_HEADER_COMPONENTS; lia).
  cbn [negb]. unfold parts. cbn [read_components]. rewrite read_timestamp by done.
  rewrite read_signatures by (done || (unfold zlen at 1, MAX_STRIPE_SIGNING_SECRETS; simpl; lia)).
  cbn [app]. destruct ds; [unfold zlen in Hn; simpl in Hn; lia|done].
Qed.

(** ** The Standard Webhooks header *)

Definition base64_char (c : N) : bool := is_upper c || is_lower c || is_decimal c || (c =? 43)%N || (c =? 47)%N.
Definition base64_char_at (v : Z) : bool := base64_char (b64_char v).
Lemma base64_chars : forallb base64_char_at (map Z.of_nat (seq 0 64)) = true.
Proof. vm_compute. reflexivity. Qed.
Lemma b64_char_plain v : 0 <= v < 64 -> base64_char (b64_char v) = true.
Proof. exact (forall_small base64_char_at 64 base64_chars v). Qed.

Lemma group_values x y : is_byte x -> is_byte y ->
  0 <= Z.shiftr x 2 < 64 /\ 0 <= Z.lor (Z.shiftl (Z.land x 3) 4) (Z.shiftr y 4) < 64.
Proof.
  intros Hx Hy. pose proof (groups x y Hx Hy) as H. unfold group_ok in H. rewrite !andb_true_iff, !within_spec in H. lia.
Qed.
Lemma tail_values y z : is_byte y -> is_byte z ->
  0 <= Z.lor (Z.shiftl (Z.land y 15) 2) (Z.shiftr z 6) < 64 /\ 0 <= Z.land z 63 < 64.
Proof.
  intros Hy Hz. pose proof (tails y z Hy Hz) as H. unfold tail_ok in H. rewrite !andb_true_iff, !within_spec in H. lia.
Qed.

(** The base64 text of 3k + 2 bytes ends in one padding character. *)
Lemma b64_shape k data : Forall is_byte data -> length data = (3 * k + 2)%nat ->
  exists l, b64encode data = l ++ [61%N] /\ forallb base64_char l = true.
Proof.
  revert data. induction k as [|k IH]; intros data Hb Hl.
  - destruct data as [|x [|y [|z data]]]; simpl in Hl; try lia.
    apply list.Forall_cons in Hb as [Hx Hb]. apply list.Forall_cons in Hb as [Hy _].
    destruct (group_values x y Hx Hy) as [H1 H2]. destruct (tail_values y 0 Hy zero_byte) as [H3 _].
    change (Z.shiftr 0 6) with 0 in H3. rewrite Z.lor_0_r in H3.
    eexists [_; _; _]. split; [reflexivity|]. cbn [forallb]. by rewrite !b64_char_plain.
  - destruct data as [|x [|y [|z data]]]; simpl in Hl; try lia. repeat (apply list.Forall_cons in Hb as [? Hb]).
    destruct (IH data Hb ltac:(lia)) as (l & El & Hf). cbn [b64encode]. rewrite El.
    eexists (_ :: _ :: _ :: _ :: l). split; [reflexivity|]. cbn [forallb].
    destruct (group_values x y) as [G1 G2]; [done..|]. destruct (tail_values y z) as [T1 T2]; [done..|].
    by rewrite !b64_char_plain, Hf.
Qed.

Lemma component_written d : is_digest d -> decode_component (u "v1," ++ b64encode d) = Some d.
Proof.
  intros [Hb Hl]. pose proof (b64_length d) as Hn. rewrite Hl in Hn. change (4 * ((SHA256_DIGEST_BYTES + 2) / 3))%nat with 44%nat in Hn.
  unfold decode_component, signature_component. change (drop 3 (u "v1," ++ b64encode d)) with (b64encode d).
  change (take 3 (u "v1," ++ b64encode d)) with (u "v1,"). rewrite (bool_decide_true (u "v1," = u "v1,")) by done. rewrite Hn.
  destruct (b64_shape 10 d Hb ltac:(rewrite Hl; reflexivity)) as (l & El & Hf).
  assert (length l = 43%nat) as Hl43 by (rewrite El, length_app in Hn; simpl in Hn; lia).
  assert (take 43 (b64encode d) = l) as -> by (rewrite El, <- Hl43; apply take_app_length).
  assert (drop 43 (b64encode d) = [61%N]) as -> by (rewrite El, <- Hl43; apply drop_app_length).
  unfold base64_char in Hf. rewrite Hf, (bool_decide_true ([61%N] = [61%N])) by done. cbn [Nat.eqb andb].
  rewrite b64_roundtrip by done. by rewrite Hl.
Qed.

Lemma base64_plain c d : base64_char c = false -> c <> 61%N -> is_digest d -> has_char c (b64encode d) = false.
Proof.
  intros Hc H61 [Hb Hl]. destruct (b64_shape 10 d Hb ltac:(rewrite Hl; reflexivity)) as (l & -> & Hf).
  rewrite has_char_app. apply orb_false_iff. split.
  - unfold has_char. apply existsb_false, list.Forall_forall. intros x Hx%list_elem_of_In.
    rewrite forallb_forall in Hf. apply Hf in Hx. apply N.eqb_neq. congruence.
  - unfold has_char. cbn [existsb]. rewrite orb_false_r. by apply N.eqb_neq.
Qed.

Lemma standard_written ds : Forall is_digest ds -> 1 <= zlen ds <= MAX_STANDARD_WEBHOOKS_SIGNING_SECRETS ->
  _parse_signatures (standard_value ds) = Some ds.
Proof.
  intros Hd Hn. unfold MAX_STANDARD_WEBHOOKS_SIGNING_SECRETS in Hn. unfold _parse_signatures, standard_value.
  destruct ds as [|d ds]; [unfold zlen in Hn; simpl in Hn; lia|]. set (parts := map _ (d :: ds)).
  rewrite bool_decide_false by (apply join_nonempty; by left).
  rewrite split_join; [|done|].
  2: { apply Forall_map. eapply List.Forall_impl; [|exact Hd]. intros e He. rewrite has_char_app. by apply base64_plain. }
  assert (zlen parts = zlen (d :: ds)) as Hl by (unfold parts; by rewrite zlen_map).
  assert (within 1 MAX_SIGNATURE_COMPONENTS (zlen parts) = true) as -> by (apply within_spec; unfold MAX_SIGNATURE_COMPONENTS; lia).
  cbn [negb]. apply mapM_inverse. intros e He. rewrite list.Forall_forall in Hd. by apply component_written, Hd.
Qed.
