(* ===== verification/SignerLaws.v ===== *)
(** * What a signer promises

    The interface of a signer with its laws, and the three built-in signers as instances: a signed
    delivery verifies, a missing or unreadable header is reported as such, and a verification that
    accepts has seen an HMAC of the very bytes it covers. *)

From S2P Require Import Prelude Sha256 Text TextLemmas Commands Json JsonFlat Hashing Base64 Signing SigningFrames HmacSigners SignerTexts.

Local Open Scope Z_scope.

(** The headers of a name. *)
Definition named (name : str) (headers : list SignatureHeader) : list SignatureHeader :=
  List.filter (fun h => bool_decide (header_name h = name)) headers.

Class SignerLaws (T : Type) `{Signer T} := {
  signer_ok : T -> Prop;
  (** A header value the signer does not read. *)
  unreadable : T -> str -> Prop;
  owned_distinct : forall s, signer_ok s -> NoDup (owned_headers s);
  sign_owned : forall s i r, signer_ok s -> sign s i = Ok r -> map header_name (sr_headers r) = owned_headers s;
  verify_signed : forall s i r headers, signer_ok s -> validate_signing_input i = Ok i -> sign s i = Ok r ->
    zlen headers <= MAX_SIGNER_HEADERS -> (forall name, name ∈ owned_headers s -> named name headers = named name (sr_headers r)) ->
    verify s i headers = Ok {| vr_valid := true; vr_reason := Reason_VALID; vr_evidence := sr_evidence r |};
  verify_missing : forall s i r headers name, signer_ok s -> sign s i = Ok r -> zlen headers <= MAX_SIGNER_HEADERS ->
    name ∈ owned_headers s -> named name headers = [] ->
    verify s i headers = Ok {| vr_valid := false; vr_reason := Reason_MISSING_HEADER; vr_evidence := sr_evidence r |};
  verify_unreadable : forall s i r headers, signer_ok s -> sign s i = Ok r -> zlen headers <= MAX_SIGNER_HEADERS ->
    (forall name, name ∈ owned_headers s -> exists h, named name headers = [h] /\ unreadable s (header_value h)) ->
    verify s i headers = Ok {| vr_valid := false; vr_reason := Reason_MALFORMED_HEADER; vr_evidence := sr_evidence r |}
}.

(** ** Shared steps *)

Lemma matching_named headers name : zlen headers <= MAX_SIGNER_HEADERS -> _matching_headers headers name = Ok (named name headers).
Proof. intros H. unfold _matching_headers. by rewrite (proj2 (Z.ltb_ge _ _) H). Qed.

Lemma lower_idempotent s : ascii_lower (ascii_lower s) = ascii_lower s.
Proof.
  unfold ascii_lower. rewrite map_map. apply map_ext. intros c. unfold lower_char, char_between.
  destruct ((65 <=? c) && (c <=? 90))%N eqn:E; [|by rewrite E].
  apply andb_true_iff in E as [H1%N.leb_le H2%N.leb_le].
  assert ((c + 32 <=? 90)%N = false) as -> by (apply N.leb_gt; lia). by rewrite andb_false_r.
Qed.

Lemma normalized_headers room values names : normalize_headers room values = Ok names -> names = map ascii_lower values.
Proof.
  revert room names. induction values as [|v values IH]; intros room names; [by destruct room; intros [= <-]|].
  destruct room as [|room]; [discriminate|]. cbn [normalize_headers map]. unfold _validate_header_name.
  destruct (_ || _); [discriminate|]. destruct (normalize_headers room values) as [rest|] eqn:E; [|discriminate].
  intros [= <-]. by rewrite (IH _ _ E).
Qed.

Lemma ownership_facts owned users names :
  validate_header_ownership owned users = Ok names -> names = map ascii_lower owned /\ NoDup names.
Proof.
  unfold validate_header_ownership, _normalize_header_sequence.
  destruct (normalize_headers _ owned) as [n|] eqn:E; [|discriminate]. destruct (normalize_headers _ users) as [k|]; [|discriminate].
  case_bool_decide as Hd; [|discriminate]. cbn [negb]. destruct (shares n k); [discriminate|]. destruct (shares n _); [discriminate|].
  intros <-%ok_inj. by apply normalized_headers in E.
Qed.

Lemma made_header name value h : make_signature_header name value = Ok h -> h = {| header_name := ascii_lower name; header_value := value |}.
Proof.
  unfold make_signature_header, _validate_header_name. destruct (_ || _); [discriminate|].
  destruct (_validate_header_value value); [|discriminate]. by intros <-%ok_inj.
Qed.

Lemma made_result headers evidence r : make_signing_result headers evidence = Ok r -> r = {| sr_headers := headers; sr_evidence := evidence |}.
Proof. unfold make_signing_result. destruct (_validate_result_headers headers); [|discriminate]. by intros <-%ok_inj. Qed.

Lemma named_self name value : named name [{| header_name := name; header_value := value |}] = [{| header_name := name; header_value := value |}].
Proof. unfold named. cbn [List.filter header_name]. by rewrite bool_decide_true. Qed.

(** The steps of a computation that succeeded, one at a time. *)
Ltac take_step H :=
  match type of H with
  | match ?x with _ => _ end = Ok _ => let E := fresh "E" in destruct x eqn:E; [|discriminate H]
  end.

(** ** The generic signer *)

Definition generic_ok (s : GenericHmacSha256Signer) : Prop := exists given, validate_generic_settings given = Ok (g_settings s).

Lemma generic_header s : generic_ok s -> ascii_lower (gs_header_name (g_settings s)) = gs_header_name (g_settings s).
Proof.
  intros [given H]. unfold validate_generic_settings in H. destruct (validate_header_ownership _ _) as [names|] eqn:E; [|discriminate H].
  apply ownership_facts in E as [-> _]. take_step H. take_step H. take_step H.
  destruct (_ <? _); [discriminate H|]. apply ok_inj in H. rewrite <- H. cbn [gs_header_name hd map]. apply lower_idempotent.
Qed.

(** What a signature was made of. *)
Lemma generic_signed s i r :
  generic_ok s -> generic_sign s i = Ok r ->
  exists canonical digest, generic_canonical_message s i = Ok canonical /\ _digest s canonical = Ok digest /\
    generic_evidence s i canonical = Ok (sr_evidence r) /\
    sr_headers r = [{| header_name := gs_header_name (g_settings s);
                       header_value := gs_prefix (g_settings s) ++ _encode_digest digest (gs_output_encoding (g_settings s)) |}].
Proof.
  intros Hs H. unfold generic_sign in H. take_step H. take_step H. take_step H. take_step H.
  apply made_result in H as ->. match goal with E : make_signature_header _ _ = Ok _ |- _ => apply made_header in E as -> end.
  rewrite generic_header by done. by eexists _, _.
Qed.

#[global, refine] Instance generic_laws : SignerLaws GenericHmacSha256Signer := {
  signer_ok := generic_ok;
  unreadable s value := _decode_header_value value (gs_prefix (g_settings s)) (gs_output_encoding (g_settings s)) = None
}.
Proof.
  - intros s _. apply NoDup_singleton.
  - intros s i r Hs Hr. destruct (generic_signed s i r Hs Hr) as (c & d & _ & _ & _ & ->). done.
  - intros s i r headers Hs _ Hr Hl Hn. destruct (generic_signed s i r Hs Hr) as (c & d & Hc & Hd & He & Hh).
    cbn [verify generic_signer]. unfold generic_verify. rewrite Hc, He, matching_named by done.
    rewrite (Hn (gs_header_name (g_settings s))) by left. rewrite Hh, named_self. cbn [header_value].
    rewrite decode_written by (by eapply digest_with_ok). rewrite Hd, bool_decide_true by done. done.
  - intros s i r headers name Hs Hr Hl Hname Hn. destruct (generic_signed s i r Hs Hr) as (c & d & Hc & Hd & He & Hh).
    apply list_elem_of_singleton in Hname as ->. cbn [verify generic_signer]. unfold generic_verify.
    rewrite Hc, He, matching_named by done. by rewrite Hn.
  - intros s i r headers Hs Hr Hl Hn. destruct (generic_signed s i r Hs Hr) as (c & d & Hc & Hd & He & Hh).
    destruct (Hn (gs_header_name (g_settings s))) as (h & Hh' & Hu); [by left|].
    cbn [verify generic_signer]. unfold generic_verify. rewrite Hc, He, matching_named by done. by rewrite Hh', Hu.
Defined.

(** ** Keys *)

Lemma keys_checked c1 c2 c3 maximum secret ids additional secrets :
  check_keys c1 c2 c3 maximum secret ids additional = Ok secrets -> secrets = secret :: additional /\ zlen secrets <= maximum.
Proof.
  unfold check_keys. destruct (maximum <? _) eqn:E; [discriminate|]. destruct (_ && _); [discriminate|].
  destruct (negb _); [discriminate|]. intros <-%ok_inj. split; [done|lia].
Qed.

Lemma digests_ok derive canonical secrets ds :
  map_result (digest_with derive canonical) secrets = Ok ds -> Forall is_digest ds /\ zlen ds = zlen secrets.
Proof.
  rewrite map_result_ok. intros H. split.
  - apply list.Forall_forall. intros d Hd. destruct (Forall2_in_r _ _ _ _ H Hd) as (s & _ & Hs). by eapply digest_with_ok.
  - apply Forall2_length in H. unfold zlen. lia.
Qed.

Lemma any_match_self ds : 1 <= zlen ds -> any_match ds ds = true.
Proof.
  destruct ds as [|d ds]; [unfold zlen; simpl; lia|]. intros _. unfold any_match. cbn [existsb]. by rewrite bool_decide_true.
Qed.

Lemma seconds_bound i : validate_signing_input i = Ok i -> Z.abs (logical_time_ns i / NANOSECONDS_PER_SECOND) < 10 ^ 19.
Proof.
  intros (_ & _ & Ht)%input_facts. unfold SIGNED_INT64_MIN, SIGNED_INT64_MAX, NANOSECONDS_PER_SECOND in *.
  assert (- 2 ^ 63 <= logical_time_ns i / 1000000000 <= 2 ^ 63); [|lia].
  split; [apply Z.div_le_lower_bound; lia|apply Z.div_le_upper_bound; lia].
Qed.

(** ** The Stripe signer *)

Definition stripe_ok (s : StripeV1Signer) : Prop :=
  exists given settings secret additional,
    validate_stripe_settings given = Ok settings /\ make_stripe_signer secret settings additional = Ok s.

Lemma stripe_facts s : stripe_ok s ->
  ascii_lower (ss_header_name (s_settings s)) = ss_header_name (s_settings s) /\
  1 <= zlen (s_secrets s) <= MAX_STRIPE_SIGNING_SECRETS.
Proof.
  intros (given & settings & secret & additional & Hv & Hm). unfold make_stripe_signer in Hm. take_step Hm. apply ok_inj in Hm as <-.
  match goal with E : check_keys _ _ _ _ _ _ _ = Ok _ |- _ => apply keys_checked in E as [-> Hl] end.
  cbn [s_settings s_secrets]. rewrite zlen_cons in *. pose proof (zlen_nonneg additional). split; [|lia].
  unfold validate_stripe_settings in Hv. destruct (validate_header_ownership _ _) as [names|] eqn:E; [|discriminate Hv].
  apply ownership_facts in E as [-> _]. take_step Hv. destruct (_ <=? _) in Hv; [discriminate Hv|]. take_step Hv.
  apply ok_inj in Hv as <-. cbn [ss_header_name hd map]. apply lower_idempotent.
Qed.

Lemma stripe_signed s i r :
  stripe_ok s -> stripe_sign s i = Ok r ->
  let timestamp := logical_time_ns i / NANOSECONDS_PER_SECOND in
  exists canonical digests, stripe_canonical_message timestamp (body i) = Ok canonical /\ stripe_digests s canonical = Ok digests /\
    stripe_evidence s i canonical = Ok (sr_evidence r) /\
    sr_headers r = [{| header_name := ss_header_name (s_settings s); header_value := stripe_value timestamp digests |}].
Proof.
  intros Hs H. unfold stripe_sign in H. take_step H. take_step H. destruct (_ <? _) in H; [discriminate H|]. take_step H. take_step H.
  apply made_result in H as ->. match goal with E : make_signature_header _ _ = Ok _ |- _ => apply made_header in E as -> end.
  rewrite (proj1 (stripe_facts s Hs)). by eexists _, _.
Qed.

#[global, refine] Instance stripe_laws : SignerLaws StripeV1Signer := {
  signer_ok := stripe_ok;
  unreadable s value := _parse_header value = None
}.
Proof.
  - intros s _. apply NoDup_singleton.
  - intros s i r Hs Hr. destruct (stripe_signed s i r Hs Hr) as (c & ds & _ & _ & _ & ->). done.
  - intros s i r headers Hs Hi Hr Hl Hn. destruct (stripe_signed s i r Hs Hr) as (c & ds & Hc & Hd & He & Hh).
    destruct (digests_ok _ _ _ _ Hd) as [Hds Hlen]. pose proof (proj2 (stripe_facts s Hs)) as Hk.
    cbn [verify stripe_signer]. unfold stripe_verify. rewrite Hc, He, matching_named by done.
    rewrite (Hn (ss_header_name (s_settings s))) by left. rewrite Hh, named_self. cbn [header_value].
    rewrite stripe_written by (done || (by apply seconds_bound) || lia). rewrite Hc, He, Hd, any_match_self by lia. done.
  - intros s i r headers name Hs Hr Hl Hname Hn. destruct (stripe_signed s i r Hs Hr) as (c & ds & Hc & Hd & He & Hh).
    apply list_elem_of_singleton in Hname as ->. cbn [verify stripe_signer]. unfold stripe_verify.
    rewrite Hc, He, matching_named by done. by rewrite Hn.
  - intros s i r headers Hs Hr Hl Hn. destruct (stripe_signed s i r Hs Hr) as (c & ds & Hc & Hd & He & Hh).
    destruct (Hn (ss_header_name (s_settings s))) as (h & Hh' & Hu); [by left|].
    cbn [verify stripe_signer]. unfold stripe_verify. rewrite Hc, He, matching_named by done. by rewrite Hh', Hu.
Defined.

(** ** The Standard Webhooks signer *)

Definition standard_ok (s : StandardWebhooksHmacSigner) : Prop :=
  exists given settings secret additional,
    validate_standard_settings given = Ok settings /\ make_standard_signer secret settings additional = Ok s.

Lemma standard_facts s : standard_ok s ->
  ascii_lower (ws_header_name (w_settings s)) = ws_header_name (w_settings s) /\ NoDup (standard_owned_headers s) /\
  1 <= zlen (w_secrets s) <= MAX_STANDARD_WEBHOOKS_SIGNING_SECRETS.
Proof.
  intros (given & settings & secret & additional & Hv & Hm). unfold make_standard_signer in Hm. take_step Hm. apply ok_inj in Hm as <-.
  match goal with E : check_keys _ _ _ _ _ _ _ = Ok _ |- _ => apply keys_checked in E as [-> Hl] end.
  unfold standard_owned_headers. cbn [w_settings w_secrets]. rewrite zlen_cons in *. pose proof (zlen_nonneg additional).
  unfold validate_standard_settings in Hv. destruct (validate_header_ownership _ _) as [names|] eqn:E; [|discriminate Hv].
  apply ownership_facts in E as [-> Hd]. take_step Hv. destruct (_ <=? _) in Hv; [discriminate Hv|]. take_step Hv.
  apply ok_inj in Hv as <-. cbn [ws_header_name nth map]. split_and!; [apply lower_idempotent|exact Hd|lia..].
Qed.

Lemma standard_signed s i r :
  standard_ok s -> standard_sign s i = Ok r ->
  let timestamp := logical_time_ns i / NANOSECONDS_PER_SECOND in
  exists canonical digests, standard_canonical_message (event_id i) timestamp (body i) = Ok canonical /\
    standard_digests s canonical = Ok digests /\ standard_evidence s i canonical = Ok (sr_evidence r) /\
    sr_headers r = [{| header_name := WEBHOOK_ID_HEADER; header_value := event_id i |};
                    {| header_name := WEBHOOK_TIMESTAMP_HEADER; header_value := str_of_int timestamp |};
                    {| header_name := ws_header_name (w_settings s); header_value := standard_value digests |}].
Proof.
  intros Hs H. unfold standard_sign in H. take_step H. take_step H. destruct (_ <? _) in H; [discriminate H|]. do 4 take_step H.
  apply made_result in H as ->.
  repeat match goal with E : make_signature_header _ _ = Ok _ |- _ => apply made_header in E as -> end.
  rewrite (proj1 (standard_facts s Hs)). by eexists _, _.
Qed.

(** The headers of each owned name, when there is one of each. *)
Lemma matched_owned s headers :
  zlen headers <= MAX_SIGNER_HEADERS ->
  map_result (_matching_headers headers) (standard_owned_headers s) = Ok (map (fun name => named name headers) (standard_owned_headers s)).
Proof. intros Hl. apply map_result_map. intros name _. by apply matching_named. Qed.

Lemma owned_three s a b c :
  NoDup (standard_owned_headers s) ->
  let headers := [{| header_name := WEBHOOK_ID_HEADER; header_value := a |};
                  {| header_name := WEBHOOK_TIMESTAMP_HEADER; header_value := b |};
                  {| header_name := ws_header_name (w_settings s); header_value := c |}] in
  map (fun name => named name headers) (standard_owned_headers s) = map (fun h => [h]) headers.
Proof.
  unfold standard_owned_headers. intros Hd. rewrite !list.NoDup_cons, !elem_of_cons in Hd. destruct Hd as (H1 & H2 & _).
  unfold named. cbn [map List.filter header_name]. revert H1 H2.
  generalize WEBHOOK_ID_HEADER as x, WEBHOOK_TIMESTAMP_HEADER as y, (ws_header_name (w_settings s)) as z. intros x y z H1 H2.
  rewrite (bool_decide_true (x = x)), (bool_decide_true (y = y)), (bool_decide_true (z = z)) by done.
  rewrite (bool_decide_false (x = y)), (bool_decide_false (x = z)), (bool_decide_false (y = x)), (bool_decide_false (y = z)),
    (bool_decide_false (z = x)), (bool_decide_false (z = y)) by (intros ->; tauto). done.
Qed.

#[global, refine] Instance standard_laws : SignerLaws StandardWebhooksHmacSigner := {
  signer_ok := standard_ok;
  unreadable s value := _parse_timestamp value = None /\ _parse_signatures value = None
}.
Proof.
  - intros s Hs. apply (standard_facts s Hs).
  - intros s i r Hs Hr. destruct (standard_signed s i r Hs Hr) as (c & ds & _ & _ & _ & ->). done.
  - intros s i r headers Hs Hi Hr Hl Hn. destruct (standard_signed s i r Hs Hr) as (c & ds & Hc & Hd & He & Hh).
    destruct (digests_ok _ _ _ _ Hd) as [Hds Hlen]. destruct (standard_facts s Hs) as (_ & Hown & Hk).
    cbn [verify standard_signer owned_headers] in *. unfold standard_verify. rewrite Hc, He, matched_owned by done.
    rewrite (map_ext_in _ (fun name => named name (sr_headers r))) by (intros name Hin; by apply Hn, list_elem_of_In).
    rewrite Hh, owned_three by done. cbn [map existsb header_value].
    rewrite !(bool_decide_false (_ = [])) by done. cbn [orb].
    rewrite parse_timestamp_text by (by apply seconds_bound). rewrite standard_written by (done || lia).
    rewrite Hc, He, Hd, any_match_self by lia. done.
  - intros s i r headers name Hs Hr Hl Hname Hn. destruct (standard_signed s i r Hs Hr) as (c & ds & Hc & Hd & He & Hh).
    cbn [verify standard_signer owned_headers] in *. unfold standard_verify. rewrite Hc, He, matched_owned by done.
    assert (existsb (fun values => bool_decide (values = [])) (map (fun name => named name headers) (standard_owned_headers s)) = true) as ->; [|done].
    apply existsb_exists. exists []. split; [|by apply bool_decide_eq_true]. apply in_map_iff. exists name. split; [done|by apply list_elem_of_In].
  - intros s i r headers Hs Hr Hl Hn. destruct (standard_signed s i r Hs Hr) as (c & ds & Hc & Hd & He & Hh).
    cbn [verify standard_signer owned_headers] in *. unfold standard_verify. rewrite Hc, He, matched_owned by done.
    unfold standard_owned_headers in *.
    destruct (Hn WEBHOOK_ID_HEADER) as (h1 & E1 & _); [left|]. destruct (Hn WEBHOOK_TIMESTAMP_HEADER) as (h2 & E2 & Hu & _); [right; left|].
    destruct (Hn (ws_header_name (w_settings s))) as (h3 & E3 & _ & _); [right; right; left|].
    cbn [map existsb]. rewrite E1, E2, E3. rewrite !(bool_decide_false (_ = [])) by done. cbn [orb]. by rewrite Hu.
Defined.

(** ** The built-in signers *)

Inductive BuiltinSigner :=
  | Builtin_generic (s : GenericHmacSha256Signer)
  | Builtin_stripe (s : StripeV1Signer)
  | Builtin_standard (s : StandardWebhooksHmacSigner).

#[global] Instance builtin_signer : Signer BuiltinSigner := {
  adapter_id b := match b with Builtin_generic s => adapter_id s | Builtin_stripe s => adapter_id s | Builtin_standard s => adapter_id s end;
  adapter_version b :=
    match b with Builtin_generic s => adapter_version s | Builtin_stripe s => adapter_version s | Builtin_standard s => adapter_version s end;
  owned_headers b :=
    match b with Builtin_generic s => owned_headers s | Builtin_stripe s => owned_headers s | Builtin_standard s => owned_headers s end;
  sign b := match b with Builtin_generic s => sign s | Builtin_stripe s => sign s | Builtin_standard s => sign s end;
  verify b := match b with Builtin_generic s => verify s | Builtin_stripe s => verify s | Builtin_standard s => verify s end
}.

#[global, refine] Instance builtin_laws : SignerLaws BuiltinSigner := {
  signer_ok b := match b with Builtin_generic s => signer_ok s | Builtin_stripe s => signer_ok s | Builtin_standard s => signer_ok s end;
  unreadable b := match b with Builtin_generic s => unreadable s | Builtin_stripe s => unreadable s | Builtin_standard s => unreadable s end
}.
Proof.
  - intros [s|s|s]; exact (owned_distinct s).
  - intros [s|s|s]; exact (sign_owned s).
  - intros [s|s|s]; exact (verify_signed s).
  - intros [s|s|s]; exact (verify_missing s).
  - intros [s|s|s]; exact (verify_unreadable s).
Defined.
