(* ===== verification/Signatures.v ===== *)
(** * What signing and verifying show

    A signed delivery verifies among other headers, and a verification that accepts has seen the HMAC of
    the bytes of the delivery under one of the signer's keys. *)

From S2P Require Import Prelude Sha256 Text TextLemmas Commands Json JsonFlat Hashing Base64 Signing SigningFrames HmacSigners SignerTexts SignerLaws.

Local Open Scope Z_scope.

(** ** Headers among others *)

Lemma named_perm name h k : h ≡ₚ k -> named name h ≡ₚ named name k.
Proof.
  unfold named. induction 1 as [|x h k _ IH|x y h|h k l _ IH1 _ IH2]; cbn [List.filter]; [done| | |by etransitivity].
  - case_match; [by constructor|done].
  - repeat case_match; try done. apply Permutation_swap.
Qed.

Lemma named_none name headers : Forall (fun h => header_name h <> name) headers -> named name headers = [].
Proof. induction 1 as [|h headers Hh _ IH]; [done|]. unfold named in *. cbn [List.filter]. by rewrite bool_decide_false. Qed.

Lemma named_once name headers : NoDup (map header_name headers) -> (length (named name headers) <= 1)%nat.
Proof.
  induction headers as [|h headers IH]; [simpl; lia|]. cbn [map]. intros [Hn Hd]%list.NoDup_cons. unfold named in *. cbn [List.filter].
  case_bool_decide as Hh; [|by apply IH]. cbn [length]. subst name.
  pose proof (named_none (header_name h) headers) as He. unfold named in He. rewrite He; [done|].
  apply list.Forall_forall. intros x Hx Heq. apply Hn. rewrite <- Heq. by apply list_elem_of_fmap_2.
Qed.

Lemma perm_short {A} (l k : list A) : (length k <= 1)%nat -> l ≡ₚ k -> l = k.
Proof.
  intros Hk Hp. destruct k as [|x [|y k]]; [by apply Permutation_nil_r in Hp|by apply Permutation_singleton_r in Hp|simpl in Hk; lia].
Qed.

Section signer.
Context {T : Type} `{SignerLaws T}.

(** The headers of a delivery: the signer's own, among headers of other names, in any order. *)
Lemma named_own s i r others headers name :
  signer_ok s -> sign s i = Ok r -> headers ≡ₚ sr_headers r ++ others ->
  Forall (fun h => header_name h ∉ owned_headers s) others -> name ∈ owned_headers s -> named name headers = named name (sr_headers r).
Proof.
  intros Hs Hr Hp Ho Hn. apply perm_short.
  - apply named_once. rewrite (sign_owned s i r Hs Hr). by apply owned_distinct.
  - rewrite (named_perm name _ _ Hp). unfold named. rewrite List.filter_app. fold (named name (sr_headers r)) (named name others).
    rewrite (named_none name others), app_nil_r; [done|]. eapply List.Forall_impl; [|exact Ho]. intros h Hh Heq. apply Hh. by rewrite Heq.
Qed.
End signer.

(** C15: A signed delivery verifies.  Whatever signer is built in (generic, Stripe with up to eight rotated
    keys, Standard Webhooks), the headers it signs a valid input with verify for that input as valid and
    with the same evidence, wherever they stand among the headers of other names. *)
Theorem signed_delivery_verifies (b : BuiltinSigner) i r others headers :
  signer_ok b -> validate_signing_input i = Ok i -> sign b i = Ok r -> headers ≡ₚ sr_headers r ++ others ->
  Forall (fun h => header_name h ∉ owned_headers b) others -> zlen headers <= MAX_SIGNER_HEADERS ->
  verify b i headers = Ok {| vr_valid := true; vr_reason := Reason_VALID; vr_evidence := sr_evidence r |}.
Proof.
  intros Hb Hi Hr Hp Ho Hl. apply verify_signed; [done..|]. intros name Hn. by eapply (named_own b i r others).
Qed.

(** ** What a header read says *)

Lemma read_component_says t ds t' ds' component :
  read_component (t, ds) component = Some (t', ds') ->
  (forall x, x ∈ t' -> x ∈ t \/ component = u "t=" ++ str_of_int x) /\
  (forall d, d ∈ ds' -> d ∈ ds \/ component = u "v1=" ++ hex_of_bytes d).
Proof.
  unfold read_component. destruct (negb _); [discriminate|].
  assert (forall c a b, partition_on 61 c = (a, Some b) -> c = a ++ [61%N] ++ b) as Hpart.
  { clear. induction c as [|x c IH]; intros a b; cbn [partition_on]; [discriminate|]. destruct (x =? 61)%N eqn:E.
    - apply N.eqb_eq in E as ->. by intros [= <- <-].
    - destruct (partition_on 61 c) as [p [q|]]; [|discriminate]. intros [= <- <-]. cbn [app]. f_equal. exact (IH p q eq_refl). }
  destruct (partition_on 61 component) as [scheme [encoded|]] eqn:Ep; [|discriminate]. apply Hpart in Ep.
  destruct (_ || _); [discriminate|]. case_bool_decide as Ht.
  - unfold _parse_timestamp. destruct (negb (canonical_integer encoded)); [discriminate|].
    case_bool_decide as Hs; [|discriminate]. intros [= <- <-]. split; [|by left].
    intros x [Hx| ->%list_elem_of_singleton]%elem_of_app; [by left|]. right. by rewrite Hs, Ep, Ht.
  - case_bool_decide as Hv.
    + destruct (_ || _) eqn:E; [discriminate|]. intros [= <- <-]. split; [by left|].
      apply orb_false_iff in E as [_ E%negb_false_iff].
      intros d [Hd| ->%list_elem_of_singleton]%elem_of_app; [by left|]. right.
      rewrite (proj1 (hex_of_from_hex 32 encoded E)), Ep, Hv. done.
    + destruct (_ || _); [discriminate|]. intros [= <- <-]. split; by left.
Qed.

Lemma read_components_say t ds t' ds' components :
  read_components (t, ds) components = Some (t', ds') ->
  (forall x, x ∈ t' -> x ∈ t \/ u "t=" ++ str_of_int x ∈ components) /\
  (forall d, d ∈ ds' -> d ∈ ds \/ u "v1=" ++ hex_of_bytes d ∈ components).
Proof.
  revert t ds. induction components as [|c components IH]; intros t ds; cbn [read_components].
  - intros [= <- <-]. split; by left.
  - destruct (read_component (t, ds) c) as [[t1 ds1]|] eqn:E; [|discriminate]. intros Hr.
    destruct (read_component_says _ _ _ _ _ E) as [H1 H2]. destruct (IH _ _ Hr) as [H3 H4]. split.
    + intros x [Hx|Hx]%H3; [|right; by right]. destruct (H1 x Hx) as [|<-]; [by left|right; left].
    + intros d [Hd|Hd]%H4; [|right; by right]. destruct (H2 d Hd) as [|<-]; [by left|right; left].
Qed.

Lemma stripe_says value t ds d :
  _parse_header value = Some (t, ds) -> d ∈ ds ->
  u "t=" ++ str_of_int t ∈ split_on 44 value /\ u "v1=" ++ hex_of_bytes d ∈ split_on 44 value.
Proof.
  unfold _parse_header. case_bool_decide; [discriminate|]. destruct (negb _); [discriminate|].
  destruct (read_components ([], []) _) as [[[|x [|y l]] [|e es]]|] eqn:E; try discriminate. intros [= <- <-] Hd.
  destruct (read_components_say _ _ _ _ _ E) as [H1 H2]. split.
  - destruct (H1 x) as [Hx|]; [left|by apply not_elem_of_nil in Hx|done].
  - destruct (H2 d Hd) as [Hx|]; [by apply not_elem_of_nil in Hx|done].
Qed.

Lemma standard_says value ds d :
  _parse_signatures value = Some ds -> d ∈ ds -> exists encoded, u "v1," ++ encoded ∈ split_on 32 value /\ b64decode encoded = Some d.
Proof.
  unfold _parse_signatures. case_bool_decide; [discriminate|]. destruct (negb _); [discriminate|]. intros Hm%mapM_Some Hd.
  destruct (Forall2_in_r _ _ _ _ Hm Hd) as (c & Hc & Hdec). unfold decode_component, signature_component in Hdec.
  destruct (_ && _ && _ && _) eqn:E in Hdec; [|discriminate Hdec]. rewrite !andb_true_iff, bool_decide_eq_true in E.
  destruct E as [[[Et _] _] _]. exists (drop 3 c). rewrite <- Et, take_drop. split; [done|].
  destruct (b64decode (drop 3 c)) as [digest|]; [|discriminate Hdec]. destruct (negb _) in Hdec; [discriminate Hdec|done].
Qed.

(** ** Accepted signatures *)

(** An HMAC over the delivery's bytes, by a key of the signer, stands in the header the signer owns. *)
Definition authentic (b : BuiltinSigner) (i : SigningInput) (headers : list SignatureHeader) : Prop :=
  match b with
  | Builtin_generic s =>
    exists canonical digest h, generic_canonical_message s i = Ok canonical /\ _digest s canonical = Ok digest /\
      named (gs_header_name (g_settings s)) headers = [h] /\
      header_value h = gs_prefix (g_settings s) ++ _encode_digest digest (gs_output_encoding (g_settings s))
  | Builtin_stripe s =>
    exists timestamp canonical secret digest h, secret ∈ s_secrets s /\
      canonical = ascii_bytes (str_of_int timestamp) ++ [46] ++ body i /\ digest_with raw_key canonical secret = Ok digest /\
      named (ss_header_name (s_settings s)) headers = [h] /\
      u "t=" ++ str_of_int timestamp ∈ split_on 44 (header_value h) /\ u "v1=" ++ hex_of_bytes digest ∈ split_on 44 (header_value h)
  | Builtin_standard s =>
    exists timestamp event_bytes canonical secret digest encoded h1 h2 h3, secret ∈ w_secrets s /\
      named WEBHOOK_ID_HEADER headers = [h1] /\ utf8_encode (header_value h1) = Ok event_bytes /\
      named WEBHOOK_TIMESTAMP_HEADER headers = [h2] /\ header_value h2 = str_of_int timestamp /\
      canonical = event_bytes ++ [46] ++ ascii_bytes (str_of_int timestamp) ++ [46] ++ body i /\
      digest_with _decode_secret canonical secret = Ok digest /\
      named (ws_header_name (w_settings s)) headers = [h3] /\ u "v1," ++ encoded ∈ split_on 32 (header_value h3) /\
      b64decode encoded = Some digest
  end.

Lemma any_match_true expected supplied : any_match expected supplied = true -> exists d, d ∈ expected /\ d ∈ supplied.
Proof.
  unfold any_match. intros (e & He & Hs)%existsb_exists. apply existsb_exists in Hs as (d & Hd & ->%bool_decide_eq_true).
  exists d. by rewrite !list_elem_of_In.
Qed.

Lemma digest_of derive canonical secrets ds d :
  map_result (digest_with derive canonical) secrets = Ok ds -> d ∈ ds -> exists secret, secret ∈ secrets /\ digest_with derive canonical secret = Ok d.
Proof. intros H%map_result_ok Hd. destruct (Forall2_in_r _ _ _ _ H Hd) as (secret & Hs & He). by exists secret. Qed.

Lemma made_verification valid reason evidence v :
  make_verification_result valid reason evidence = Ok v -> vr_valid v = valid.
Proof. unfold make_verification_result. destruct (negb _); [discriminate|]. by intros <-%ok_inj. Qed.

Lemma generic_authentic s i headers v : generic_verify s i headers = Ok v -> vr_valid v = true -> authentic (Builtin_generic s) i headers.
Proof.
  intros H Hv. unfold generic_verify in H. take_step H. take_step H.
  destruct (_matching_headers _ _) as [matching|] eqn:Em; [|discriminate H]. unfold _matching_headers in Em.
  destruct (_ <? _) in Em; [discriminate Em|]. apply ok_inj in Em. fold (named (gs_header_name (g_settings s)) headers) in Em.
  destruct matching as [|h [|h' l]]; [by apply made_verification in H; congruence| |by apply made_verification in H; congruence].
  destruct (_decode_header_value _ _ _) as [supplied|] eqn:Ed; [|by apply made_verification in H; congruence].
  destruct (_digest s a) as [expected|] eqn:Ex; [|discriminate H]. apply made_verification in H. rewrite Hv in H.
  symmetry in H. apply bool_decide_eq_true in H as ->. cbn [authentic]. exists a, supplied, h.
  apply decode_only in Ed. by repeat split.
Qed.

Lemma stripe_authentic s i headers v : stripe_verify s i headers = Ok v -> vr_valid v = true -> authentic (Builtin_stripe s) i headers.
Proof.
  intros H Hv. unfold stripe_verify in H. take_step H. take_step H.
  destruct (_matching_headers _ _) as [matching|] eqn:Em; [|discriminate H]. unfold _matching_headers in Em.
  destruct (_ <? _) in Em; [discriminate Em|]. apply ok_inj in Em. fold (named (ss_header_name (s_settings s)) headers) in Em.
  destruct matching as [|h [|h' l]]; [by apply made_verification in H; congruence| |by apply made_verification in H; congruence].
  destruct (_parse_header _) as [[timestamp supplied]|] eqn:Ep; [|by apply made_verification in H; congruence].
  destruct (stripe_canonical_message timestamp _) as [canonical|] eqn:Ec; [|discriminate H]. take_step H.
  destruct (stripe_digests s canonical) as [expected|] eqn:Ed; [|discriminate H]. apply made_verification in H. rewrite Hv in H.
  symmetry in H. apply any_match_true in H as (d & He & Hd). destruct (digest_of _ _ _ _ _ Ed He) as (secret & Hs & Hdig).
  destruct (stripe_says _ _ _ _ Ep Hd) as [H1 H2]. unfold stripe_canonical_message in Ec. destruct (_ <? _) in Ec; [discriminate Ec|].
  apply ok_inj in Ec. cbn [authentic]. exists timestamp, canonical, secret, d, h. by repeat split.
Qed.

Lemma standard_authentic s i headers v : standard_verify s i headers = Ok v -> vr_valid v = true -> authentic (Builtin_standard s) i headers.
Proof.
  intros H Hv. unfold standard_verify in H. take_step H. take_step H.
  destruct (map_result (_matching_headers headers) _) as [matched|] eqn:Em; [|discriminate H].
  assert (forall name l, _matching_headers headers name = Ok l -> named name headers = l) as Hnamed.
  { intros name l. unfold _matching_headers. destruct (_ <? _); [discriminate|]. by intros <-%ok_inj. }
  destruct (existsb _ matched); [by apply made_verification in H; congruence|].
  unfold standard_owned_headers in Em. apply map_result_ok in Em.
  inversion Em as [|? l1 ? m1 M1 Em1]; subst. inversion Em1 as [|? l2 ? m2 M2 Em2]; subst. inversion Em2 as [|? l3 ? m3 M3 Em3]; subst.
  inversion Em3; subst. apply Hnamed in M1, M2, M3.
  destruct l1 as [|h1 [|? ?]]; try by (apply made_verification in H; congruence).
  destruct l2 as [|h2 [|? ?]]; try by (apply made_verification in H; congruence).
  destruct l3 as [|h3 [|? ?]]; try by (apply made_verification in H; congruence).
  destruct (_parse_timestamp _) as [timestamp|] eqn:Et; [|by apply made_verification in H; congruence].
  destruct (_parse_signatures _) as [supplied|] eqn:Es; [|by apply made_verification in H; congruence].
  destruct (standard_canonical_message (header_value h1) _ _) as [canonical|] eqn:Ec; [|by apply made_verification in H; congruence].
  take_step H. destruct (standard_digests s canonical) as [expected|] eqn:Ed; [|discriminate H].
  apply made_verification in H. rewrite Hv in H. symmetry in H. apply any_match_true in H as (d & He & Hd).
  destruct (digest_of _ _ _ _ _ Ed He) as (secret & Hs & Hdig). destruct (standard_says _ _ _ Es Hd) as (encoded & Hin & Hdec).
  unfold standard_canonical_message in Ec. destruct (bool_decide _) in Ec; [discriminate Ec|].
  destruct (utf8_encode (header_value h1)) as [event_bytes|] eqn:Eu; [|discriminate Ec]. destruct (existsb _ _) in Ec; [discriminate Ec|].
  destruct (_ <? _) in Ec; [discriminate Ec|]. apply ok_inj in Ec.
  unfold _parse_timestamp in Et. destruct (negb _) in Et; [discriminate Et|]. case_bool_decide as Hts; [|discriminate Et]. injection Et as <-.
  cbn [authentic]. exists (int_of_decimal (header_value h2)), event_bytes, canonical, secret, d, encoded, h1, h2, h3. by repeat split.
Qed.

(** C16: A verification that accepts has seen a genuine signature.  If a built-in signer's [verify] says valid,
    the delivery has exactly one header of each name the signer owns, and the signature header holds an
    HMAC, under one of the signer's keys, of the exact body it was asked about: for the generic signer the
    header is, character by character, the one [sign] would write; for Stripe and Standard Webhooks the
    HMAC covers the timestamp, and for the latter the event identifier, that the headers themselves
    state. *)
Theorem valid_signature_authentic (b : BuiltinSigner) i headers v :
  verify b i headers = Ok v -> vr_valid v = true -> authentic b i headers.
Proof.
  destruct b as [s|s|s].
  - exact (generic_authentic s i headers v).
  - exact (stripe_authentic s i headers v).
  - exact (standard_authentic s i headers v).
Qed.

(** ** Examples *)

Definition example_key : bytes := ascii_bytes (u "secret").
Definition example_secret : SecretHandle :=
  {| sh_fingerprint := secret_fingerprint example_key; sh_closed := false; sh_load := Loaded example_key |}.
Definition example_input : SigningInput :=
  {| body := ascii_bytes (u "{}"); event_id := u "evt_1"; logical_time_ns := 1700000000000000000 |}.
Definition example_settings : StripeV1Settings :=
  {| ss_header_name := u "Stripe-Signature"; ss_key_id := None; ss_additional_key_ids := [] |}.
Definition example_stripe : result StripeV1Signer :=
  let! settings := validate_stripe_settings example_settings in make_stripe_signer example_secret settings [].
Definition example_signer : BuiltinSigner :=
  match example_stripe with
  | Ok s => Builtin_stripe s
  | Raise _ => Builtin_generic {| g_secret := example_secret; g_settings := default_generic_settings |}
  end.

Example stripe_header :
  match sign example_signer example_input with
  | Ok r => map header_value (sr_headers r)
  | Raise _ => []
  end = [u "t=1700000000,v1=b8569b78799ff9e3cbff0fc2d63a33a2b57f3282abd07c37ae5e8e7d79a5f163"].
Proof. vm_compute. reflexivity. Qed.

Lemma example_ok : signer_ok example_signer.
Proof.
  assert (exists settings, validate_stripe_settings example_settings = Ok settings) as [settings Hs] by (eexists; vm_compute; reflexivity).
  assert (exists s, make_stripe_signer example_secret settings [] = Ok s) as [s Hm].
  { assert (settings = {| ss_header_name := STRIPE_SIGNATURE_HEADER; ss_key_id := None; ss_additional_key_ids := [] |}) as ->
      by (apply ok_inj; rewrite <- Hs; vm_compute; reflexivity). eexists. vm_compute. reflexivity. }
  unfold example_signer, example_stripe. rewrite Hs, Hm. by exists example_settings, settings, example_secret, [].
Qed.

Definition other_header : SignatureHeader := {| header_name := u "x-request-id"; header_value := u "1" |}.

Lemma signed_delivery_verifies_witness :
  exists r, sign example_signer example_input = Ok r /\
    verify example_signer example_input (other_header :: sr_headers r)
      = Ok {| vr_valid := true; vr_reason := Reason_VALID; vr_evidence := sr_evidence r |}.
Proof.
  destruct (sign example_signer example_input) as [r|e] eqn:Er.
  2: { exfalso. assert (is_ok (sign example_signer example_input) = true) as Hok by (vm_compute; reflexivity). by rewrite Er in Hok. }
  exists r. split; [reflexivity|].
  apply (signed_delivery_verifies example_signer example_input r [other_header]).
  - exact example_ok.
  - vm_compute. reflexivity.
  - exact Er.
  - apply (Permutation_app_comm [other_header]).
  - constructor; [|constructor]. apply (bool_decide_unpack _). vm_compute. reflexivity.
  - assert (match sign example_signer example_input with Ok r => zlen (other_header :: sr_headers r) <=? MAX_SIGNER_HEADERS | _ => true end = true)
      as Hl by (vm_compute; reflexivity). rewrite Er in Hl. by apply Z.leb_le.
Defined.

Lemma valid_signature_authentic_witness :
  exists r, sign example_signer example_input = Ok r /\ authentic example_signer example_input (sr_headers r).
Proof.
  destruct (sign example_signer example_input) as [r|e] eqn:Er.
  2: { exfalso. assert (is_ok (sign example_signer example_input) = true) as Hok by (vm_compute; reflexivity). by rewrite Er in Hok. }
  exists r. split; [reflexivity|].
  assert (match sign example_signer example_input with
    | Ok r => match verify example_signer example_input (sr_headers r) with Ok v => vr_valid v | Raise _ => false end
    | Raise _ => false end = true) as Hv by (vm_compute; reflexivity).
  rewrite Er in Hv. destruct (verify example_signer example_input (sr_headers r)) as [v|e] eqn:Ev; [|discriminate Hv].
  exact (valid_signature_authentic example_signer example_input (sr_headers r) v Ev Hv).
Defined.
