(* ===== verification/Mutations.v ===== *)
(** * Mutations: the contract

    [mutations/base.py]: realized mutations with their frozen parameters, the state an operator is
    given and returns, the registration of an operator with the effects it declares, the registry and
    the evidence of an invocation.  A signer is an object: operators may replace it, and the pipeline
    compares objects by identity, so a signer here carries the identity of its object. *)

From S2P Require Import Prelude Text TextLemmas Commands Json JsonFlat Hashing Base64 Signing.

Local Open Scope Z_scope.

Definition MAX_MUTATIONS_PER_PIPELINE : Z := 16.
Definition MAX_MUTATION_REGISTRATIONS : Z := 64.
Definition MAX_OPERATOR_VERSION : Z := 2 ^ 31 - 1.
Definition MAX_PARAMETER_DEPTH : Z := 64.
Definition MAX_PARAMETER_NODES : Z := 100000.
Definition MAX_PARAMETER_COLLECTION_ITEMS : Z := 1000.
Definition MAX_PARAMETER_KEY_LENGTH : Z := 256.
Definition MAX_PARAMETER_STRING_LENGTH : Z := 4096.
Definition MAX_MUTATION_HEADERS : Z := 144.
Definition MAX_MEDIA_TYPE_LENGTH : Z := 256.
Definition REDACTED_PARAMETER_VALUE : str := u "[REDACTED]".

Inductive MutationStage := STRUCTURAL | RAW_PRE_SIGN | HEADER_PRE_SIGN | SIGNING | RAW_POST_SIGN | HEADER_POST_SIGN.
#[global] Instance MutationStage_eq_dec : EqDecision MutationStage.
Proof. solve_decision. Defined.
Definition PIPELINE_STAGE_RANK (stage : MutationStage) : Z :=
  match stage with
  | STRUCTURAL => 0 | RAW_PRE_SIGN => 1 | HEADER_PRE_SIGN => 2 | SIGNING => 3 | RAW_POST_SIGN => 4 | HEADER_POST_SIGN => 5
  end.

Inductive SignatureHeaderAction := Action_NONE | Action_REMOVE | Action_REPLACE.
#[global] Instance SignatureHeaderAction_eq_dec : EqDecision SignatureHeaderAction.
Proof. solve_decision. Defined.

(** ** Parameters

    A frozen object holds the same values as the object it was made of: freezing and thawing check
    and copy.  A number with a fraction is no JSON value here. *)

Definition parameters := list (str * json).

(** The number of values visited so far, with this one and those within it. *)
Fixpoint _freeze_parameter_value (value : json) (depth node_limit nodes : Z) : result Z :=
  raise_if node_limit <? nodes + 1 with ValueError ;;
  raise_if MAX_PARAMETER_DEPTH <? depth with ValueError ;;
  match value with
  | JNull | JBool _ => Ok (nodes + 1)
  | JInt z => raise_if negb (within (- MAX_SAFE_INTEGER) MAX_SAFE_INTEGER z) with ValueError ;; Ok (nodes + 1)
  | JFloat _ => Raise TypeError
  | JString s => raise_if MAX_PARAMETER_STRING_LENGTH <? zlen s with ValueError ;; Ok (nodes + 1)
  | JArray items =>
    raise_if MAX_PARAMETER_COLLECTION_ITEMS <? zlen items with ValueError ;;
    for_each (fun nodes item => _freeze_parameter_value item (depth + 1) node_limit nodes) (nodes + 1) items
  | JObject members =>
    raise_if MAX_PARAMETER_COLLECTION_ITEMS <? zlen members with ValueError ;;
    raise_if negb (bool_decide (NoDup (map fst members))) with ValueError ;;
    for_each (fun nodes (m : str * json) =>
      raise_if MAX_PARAMETER_KEY_LENGTH <? zlen m.1 with ValueError ;;
      _freeze_parameter_value m.2 (depth + 1) node_limit nodes) (nodes + 1) members
  end.

(** The parameter envelope itself is not counted. *)
Definition freeze_parameter_object (values : parameters) : result parameters :=
  raise_if existsb (fun m => bool_decide (m.1 = [])) values with ValueError ;;
  let! _ := _freeze_parameter_value (JObject values) 0 (MAX_PARAMETER_NODES + zlen values) (-1) in
  Ok values.

Fixpoint _redact_parameter_value (value : json) : json :=
  match value with
  | JArray items => JArray (map _redact_parameter_value items)
  | JObject members => JObject (map (fun m => (m.1, _redact_parameter_value m.2)) members)
  | _ => JString REDACTED_PARAMETER_VALUE
  end.
Definition _redacted_projection (values : parameters) : parameters := map (fun m => (m.1, _redact_parameter_value m.2)) values.

(** ** Realized mutations *)

Definition _validate_operator_identity (operator_id : str) (operator_version : Z) : result unit :=
  raise_if negb (identifier_text operator_id) with ValueError ;;
  raise_if negb (within 1 MAX_OPERATOR_VERSION operator_version) with ValueError ;;
  Ok tt.

Record RealizedMutation := {
  rz_operator_id : str; rz_operator_version : Z; rz_stage : MutationStage; rz_parameters : parameters;
  rz_parameters_safe : parameters
}.
Definition make_realized (operator_id : str) (operator_version : Z) (stage : MutationStage) (values : parameters)
    (parameters_safe : option parameters) : result RealizedMutation :=
  let! _ := _validate_operator_identity operator_id operator_version in
  let! frozen := freeze_parameter_object values in
  let! frozen_safe := match parameters_safe with None => Ok (_redacted_projection frozen) | Some safe => freeze_parameter_object safe end in
  Ok {| rz_operator_id := operator_id; rz_operator_version := operator_version; rz_stage := stage;
        rz_parameters := frozen; rz_parameters_safe := frozen_safe |}.

(** ** Request state *)

Definition _validate_event_id (event_id : str) : result unit :=
  raise_if bool_decide (event_id = []) with ValueError ;;
  let! encoded := utf8_encode event_id in
  raise_if MAX_EVENT_ID_BYTES <? zlen encoded with ValueError ;;
  Ok tt.

(** [_MEDIA_TYPE]: a type, a slash, a subtype, then nothing or blanks, a semicolon and one line of text. *)
Definition media_char (c : N) : bool := is_upper c || is_lower c || is_decimal c || has_char c (u "!#$&^_.+-").
Fixpoint span (p : N -> bool) (s : str) : str * str :=
  match s with
  | c :: rest => if p c then let (taken, left) := span p rest in (c :: taken, left) else ([], s)
  | [] => ([], [])
  end.
Definition media_parameters (s : str) : bool :=
  match s with
  | [] => true
  | _ =>
    match (span (fun c => (c =? 32)%N || (c =? 9)%N) s).2 with
    | 59%N :: rest => forallb (fun c => negb ((c =? 13)%N || (c =? 10)%N)) rest
    | _ => false
    end
  end.
Definition media_type_text (s : str) : bool :=
  let (main, rest) := span media_char s in
  match rest with
  | 47%N :: rest =>
    let (sub, rest) := span media_char rest in
    negb (bool_decide (main = [])) && negb (bool_decide (sub = [])) && media_parameters rest
  | _ => false
  end.
Definition _validate_media_type (media_type : str) : result unit :=
  raise_if negb (within 1 MAX_MEDIA_TYPE_LENGTH (zlen media_type)) || negb (media_type_text media_type) with ValueError ;;
  Ok tt.

(** A signer object. *)
Record SignerObject (T : Type) := { so_identity : Z; so_signer : T }.
Arguments so_identity {T}.
Arguments so_signer {T}.

Section mutations.
Context {T : Type}.

Record MutationState := {
  ms_body : bytes; ms_headers : list SignatureHeader; ms_signing_time_ns : Z; ms_signer : option (SignerObject T)
}.
Definition _validate_state_fields (s : MutationState) : result MutationState :=
  raise_if MAX_MUTATION_HEADERS <? zlen (ms_headers s) with ValueError ;;
  raise_if negb (bool_decide (NoDup (map header_name (ms_headers s)))) with ValueError ;;
  raise_if negb (within SIGNED_INT64_MIN SIGNED_INT64_MAX (ms_signing_time_ns s)) with ValueError ;;
  Ok s.

(** A [MutationOutput] has the fields and the checks of a [MutationState]. *)
Definition MutationOutput := MutationState.

Record MutationInput := { mi_realized : RealizedMutation; mi_state : MutationState; mi_event_id : str; mi_media_type : str }.
Definition make_input (realized : RealizedMutation) (state : MutationState) (event_id media_type : str) : result MutationInput :=
  let! _ := _validate_event_id event_id in
  let! _ := _validate_media_type media_type in
  Ok {| mi_realized := realized; mi_state := state; mi_event_id := event_id; mi_media_type := media_type |}.
Definition mi_parameters (i : MutationInput) : parameters := rz_parameters (mi_realized i).

End mutations.
Arguments MutationState : clear implicits.
Arguments MutationOutput : clear implicits.
Arguments MutationInput : clear implicits.

(** The protocol of an operator over the signers [T]. *)
Class MutationOperator (O T : Type) := apply_mutation : O -> MutationInput T -> result (MutationOutput T).

(** ** Registrations *)

Section registrations.
Context {O : Type}.

Record MutationRegistration := {
  mr_operator_id : str; mr_operator_version : Z; mr_stage : MutationStage; mr_implementation : O;
  mr_changes_body : bool; mr_requires_valid_json : bool; mr_invalidates_json : bool;
  mr_written_headers : list str; mr_removed_headers : list str; mr_signature_header_action : SignatureHeaderAction;
  mr_may_change_signing_time : bool; mr_may_replace_signer : bool
}.

Definition _normalize_declared_headers (headers : list str) : result (list str) :=
  raise_if MAX_MUTATION_HEADERS <? zlen headers with ValueError ;;
  let! normalized := map_result (fun value => let! h := make_signature_header value [] in Ok (header_name h)) headers in
  raise_if negb (bool_decide (NoDup normalized)) with ValueError ;;
  Ok normalized.

Definition header_effect (r : MutationRegistration) : bool :=
  negb (bool_decide (mr_written_headers r = [])) || negb (bool_decide (mr_removed_headers r = []))
  || negb (bool_decide (mr_signature_header_action r = Action_NONE)).
Definition signing_effect (r : MutationRegistration) : bool := mr_may_change_signing_time r || mr_may_replace_signer r.
(** [_validate_stage_effects]: the effects a stage allows. *)
Definition stage_effects_ok (r : MutationRegistration) : bool :=
  match mr_stage r with
  | STRUCTURAL =>
    negb (negb (mr_changes_body r) || negb (mr_requires_valid_json r) || mr_invalidates_json r || header_effect r || signing_effect r)
  | RAW_PRE_SIGN | RAW_POST_SIGN => negb (negb (mr_changes_body r) || header_effect r || signing_effect r)
  | HEADER_PRE_SIGN | HEADER_POST_SIGN =>
    negb (mr_changes_body r || mr_invalidates_json r || signing_effect r || negb (header_effect r))
    && negb (negb (bool_decide (mr_signature_header_action r = Action_NONE)) && negb (bool_decide (mr_stage r = HEADER_POST_SIGN)))
  | SIGNING =>
    negb (mr_changes_body r || mr_requires_valid_json r || mr_invalidates_json r || header_effect r || negb (signing_effect r))
  end.
Definition with_headers (r : MutationRegistration) (written removed : list str) : MutationRegistration :=
  {| mr_operator_id := mr_operator_id r; mr_operator_version := mr_operator_version r; mr_stage := mr_stage r;
     mr_implementation := mr_implementation r; mr_changes_body := mr_changes_body r;
     mr_requires_valid_json := mr_requires_valid_json r; mr_invalidates_json := mr_invalidates_json r;
     mr_written_headers := written; mr_removed_headers := removed;
     mr_signature_header_action := mr_signature_header_action r;
     mr_may_change_signing_time := mr_may_change_signing_time r; mr_may_replace_signer := mr_may_replace_signer r |}.
Definition validate_registration (r : MutationRegistration) : result MutationRegistration :=
  let! _ := _validate_operator_identity (mr_operator_id r) (mr_operator_version r) in
  let! written := _normalize_declared_headers (mr_written_headers r) in
  let! removed := _normalize_declared_headers (mr_removed_headers r) in
  raise_if shares written removed with ValueError ;;
  raise_if negb (stage_effects_ok (with_headers r written removed)) with ValueError ;;
  Ok (with_headers r written removed).
Definition mr_key (r : MutationRegistration) : str * Z := (mr_operator_id r, mr_operator_version r).

(** ** Registry: the registrations, in order *)

Definition StaticMutationRegistry := list MutationRegistration.
Definition by_key (registry : StaticMutationRegistry) (key : str * Z) : option MutationRegistration :=
  List.find (fun r => bool_decide (mr_key r = key)) registry.
Definition register_mutation (registry : StaticMutationRegistry) (r : MutationRegistration) : result StaticMutationRegistry :=
  let! snapshot := validate_registration r in
  match by_key registry (mr_key snapshot) with
  | Some _ => Raise (MutationError "MUT_DUPLICATE_REGISTRATION")
  | None => Ok (registry ++ [snapshot])
  end.
Definition make_mutation_registry (registrations : list MutationRegistration) : result StaticMutationRegistry :=
  raise_if MAX_MUTATION_REGISTRATIONS <? zlen registrations with MutationError "MUT_REGISTRY_LIMIT" ;;
  for_each register_mutation [] registrations.
(** [registration] *)
Definition registration_of (registry : StaticMutationRegistry) (realized : RealizedMutation) : result MutationRegistration :=
  match by_key registry (rz_operator_id realized, rz_operator_version realized) with
  | None =>
    if existsb (fun r => bool_decide (mr_operator_id r = rz_operator_id realized)) registry
    then Raise (MutationError "MUT_OPERATOR_VERSION_UNREGISTERED")
    else Raise (MutationError "MUT_OPERATOR_UNREGISTERED")
  | Some r =>
    raise_if negb (bool_decide (mr_stage r = rz_stage realized)) with MutationError "MUT_OPERATOR_STAGE_CONFLICT" ;;
    Ok r
  end.
End registrations.
Arguments MutationRegistration : clear implicits.
Arguments StaticMutationRegistry : clear implicits.

(** ** Evidence *)

Record MutationEvidence := {
  me_operator_id : str; me_operator_version : Z; me_stage : MutationStage; me_parameters_safe : parameters;
  me_input_body_sha256 : str; me_output_body_sha256 : str
}.
Definition validate_mutation_evidence (e : MutationEvidence) : result MutationEvidence :=
  let! _ := _validate_operator_identity (me_operator_id e) (me_operator_version e) in
  let! _ := validate_sha256_digest (me_input_body_sha256 e) in
  let! _ := validate_sha256_digest (me_output_body_sha256 e) in
  Ok e.
