(* ===== verification/MutationPipeline.v ===== *)
(** * The mutation pipeline

    [mutations/pipeline.py]: the plan of mutations is checked as a whole, then applied in stage order
    with one signing in between.  Every effect of an operator is compared with what its registration
    declares.  The values an operator is given are immutable here, so the check that it left them
    alone has no counterpart. *)

From S2P Require Import Prelude Sha256 Text TextLemmas Commands Json JsonFlat Hashing Base64 Signing Mutations.

Local Open Scope Z_scope.

Definition MAX_TOTAL_HEADER_BYTES : Z := 262144.

Record MutationPipelineLimits := { max_body_bytes : Z; max_headers : Z; max_total_header_bytes : Z; max_mutations : Z }.
Definition _validate_limit (value hard_maximum : Z) (allow_zero : bool) : result unit :=
  raise_if negb (within (if allow_zero then 0 else 1) hard_maximum value) with ValueError ;; Ok tt.
Definition validate_limits (l : MutationPipelineLimits) : result MutationPipelineLimits :=
  let! _ := _validate_limit (max_body_bytes l) MAX_SIGNING_BODY_BYTES false in
  let! _ := _validate_limit (max_headers l) MAX_MUTATION_HEADERS false in
  let! _ := _validate_limit (max_total_header_bytes l) MAX_TOTAL_HEADER_BYTES false in
  let! _ := _validate_limit (max_mutations l) MAX_MUTATIONS_PER_PIPELINE true in
  Ok l.
Definition default_limits : MutationPipelineLimits :=
  {| max_body_bytes := MAX_SIGNING_BODY_BYTES; max_headers := MAX_MUTATION_HEADERS;
     max_total_header_bytes := MAX_TOTAL_HEADER_BYTES; max_mutations := MAX_MUTATIONS_PER_PIPELINE |}.

Record MutationPipelineResult := {
  pr_body : bytes; pr_headers : list SignatureHeader; pr_mutation_evidence : list MutationEvidence;
  pr_signing_evidence : option SigningEvidence; pr_signed_body_sha256 : option str; pr_delivered_body_sha256 : str
}.
(** [_require_digest] *)
Definition _require_digest (value : str) : result unit := raise_if negb (sha256_text value) with ValueError ;; Ok tt.
Definition make_pipeline_result (r : MutationPipelineResult) : result MutationPipelineResult :=
  raise_if negb (eqb (bool_decide (pr_signing_evidence r = None)) (bool_decide (pr_signed_body_sha256 r = None))) with ValueError ;;
  let! _ := match pr_signed_body_sha256 r with None => Ok tt | Some digest => _require_digest digest end in
  let! _ := _require_digest (pr_delivered_body_sha256 r) in
  raise_if negb (bool_decide (pr_delivered_body_sha256 r = sha256_digest (pr_body r))) with ValueError ;;
  Ok r.

(** ** JSON bodies *)

Definition MAX_INTEGER_DIGITS : Z := 4300.
(** [int] refuses a text of more digits than the interpreter's limit. *)
Definition plain_json : JsonHooks :=
  {| parse_int := fun raw => if MAX_INTEGER_DIGITS <? zlen (List.filter is_decimal raw) then None else Some (JInt (int_of_decimal raw));
     parse_float := fun raw => Some (JFloat raw); object_pairs := dict_pairs |}.
Definition _require_valid_json (b : bytes) (code : string) : result unit :=
  match utf8_decode b with
  | None => Raise (MutationError code)
  | Some text => match json_loads plain_json text with None => Raise (MutationError code) | Some _ => Ok tt end
  end.
Definition ends_with (suffix s : str) : bool := bool_decide (drop (length s - length suffix) s = suffix).
(** A media type that passed its check is ASCII up to its semicolon. *)
Definition _is_json_media_type (media_type : str) : bool :=
  let base := ascii_lower (strip (partition_on 59 media_type).1) in
  bool_decide (base = u "application/json") || ends_with (u "+json") base.

Section pipeline.
Context {T O : Type} `{Signer T, MutationOperator O T}.

(** ** Signer snapshots *)

Record _SignerSnapshot := { sn_signer : SignerObject T; sn_adapter_id : str; sn_adapter_version : str; sn_owned_headers : list str }.
Definition _snapshot_signer (s : SignerObject T) : result _SignerSnapshot :=
  let id := adapter_id (so_signer s) in
  let version := adapter_version (so_signer s) in
  raise_if negb (identifier_text id) || negb (identifier_text version) with MutationError "MUT_SIGNER_CONTRACT_INVALID" ;;
  match validate_header_ownership (owned_headers (so_signer s)) [] with
  | Raise _ => Raise (MutationError "MUT_SIGNER_CONTRACT_INVALID")
  | Ok owned => Ok {| sn_signer := s; sn_adapter_id := id; sn_adapter_version := version; sn_owned_headers := owned |}
  end.
(** Adapter identity and header ownership agree. *)
Definition same_contract (a b : _SignerSnapshot) : bool :=
  bool_decide (sn_adapter_id a = sn_adapter_id b) && bool_decide (sn_adapter_version a = sn_adapter_version b)
  && bool_decide (sn_owned_headers a = sn_owned_headers b).
Definition _reject_signer_input_collision (snapshot : _SignerSnapshot) (headers : list SignatureHeader) : result unit :=
  match validate_header_ownership (sn_owned_headers snapshot) (map header_name headers) with
  | Raise (SignerError _) => Raise (MutationError "MUT_SIGNER_HEADER_COLLISION")
  | Raise e => Raise e
  | Ok _ => Ok tt
  end.
Definition signer_headers (snapshot : option _SignerSnapshot) : list str :=
  match snapshot with None => [] | Some s => sn_owned_headers s end.

(** ** Limits *)

Definition _validate_header_resources (l : MutationPipelineLimits) (headers : list SignatureHeader) : result unit :=
  let total := foldr (fun h n => zlen (header_name h) + zlen (header_value h) + n) 0 headers in
  raise_if max_total_header_bytes l <? total with MutationError "MUT_HEADER_BYTES_LIMIT" ;; Ok tt.
Definition _validate_state_resources (l : MutationPipelineLimits) (s : MutationState T) : result unit :=
  raise_if max_body_bytes l <? zlen (ms_body s) with MutationError "MUT_BODY_LIMIT" ;;
  raise_if max_headers l <? zlen (ms_headers s) with MutationError "MUT_HEADER_COUNT_LIMIT" ;;
  _validate_header_resources l (ms_headers s).

(** Headers are detached one by one, after all of them are known to be within the limit. *)
Definition _bounded_headers (headers : list SignatureHeader) (maximum : Z) : result (list SignatureHeader) :=
  raise_if maximum <? zlen headers with MutationError "MUT_HEADER_COUNT_LIMIT" ;;
  match map_result (fun h => make_signature_header (header_name h) (header_value h)) headers with
  | Ok detached => Ok detached
  | Raise _ => Raise (MutationError "MUT_HEADERS_INVALID")
  end.
Definition _bounded_mutations (mutations : list RealizedMutation) (maximum : Z) : result (list RealizedMutation) :=
  raise_if maximum <? zlen mutations with MutationError "MUT_SEQUENCE_LIMIT" ;; Ok mutations.

(** ** Preflight *)

Record _PreparedMutation := { pm_realized : RealizedMutation; pm_registration : MutationRegistration O }.
Record _PreparedPipeline := {
  pp_mutations : list _PreparedMutation; pp_body : bytes; pp_headers : list SignatureHeader;
  pp_signer : option (SignerObject T); pp_signer_snapshot : option _SignerSnapshot
}.

Definition _detach_realized (m : RealizedMutation) : result RealizedMutation :=
  make_realized (rz_operator_id m) (rz_operator_version m) (rz_stage m) (rz_parameters m) (Some (rz_parameters_safe m)).

Definition static_targets (r : MutationRegistration O) : list str := mr_written_headers r ++ mr_removed_headers r.
(** The claims so far, with those of this mutation. *)
Definition claim_header (claims : list str) (name : str) : result (list str) :=
  raise_if bool_decide (name ∈ claims) with MutationError "MUT_HEADER_TARGET_CONFLICT" ;; Ok (claims ++ [name]).
Definition _preflight_header_effects (r : MutationRegistration O) (snapshot : option _SignerSnapshot) (claims : list str)
    : result (list str) :=
  raise_if bool_decide (mr_signature_header_action r = Action_NONE) && shares (signer_headers snapshot) (static_targets r)
    with MutationError "MUT_SIGNER_HEADER_OWNERSHIP_CONFLICT" ;;
  raise_if bool_decide (mr_signature_header_action r = Action_REMOVE) && shares (signer_headers snapshot) (mr_written_headers r)
    with MutationError "MUT_SIGNATURE_HEADER_ACTION_CONFLICT" ;;
  for_each claim_header claims (static_targets r).

(** The variables of the loop over the plan. *)
Record Preflight := {
  pf_prepared : list _PreparedMutation; pf_furthest : option MutationStage; pf_invalid_json : bool;
  pf_header_claims : list str; pf_signature_action : bool; pf_structural_present : bool
}.
Definition preflight_start : Preflight :=
  {| pf_prepared := []; pf_furthest := None; pf_invalid_json := false; pf_header_claims := []; pf_signature_action := false;
     pf_structural_present := false |}.
Definition earlier (stage : MutationStage) (furthest : option MutationStage) : bool :=
  match furthest with None => false | Some f => PIPELINE_STAGE_RANK stage <? PIPELINE_STAGE_RANK f end.
Definition advance (stage : MutationStage) (furthest : option MutationStage) : option MutationStage :=
  match furthest with
  | None => Some stage
  | Some f => if PIPELINE_STAGE_RANK f <? PIPELINE_STAGE_RANK stage then Some stage else Some f
  end.
Definition preflight_step (registry : StaticMutationRegistry O) (media_type : str) (snapshot : option _SignerSnapshot)
    (p : Preflight) (source : RealizedMutation) : result Preflight :=
  match _detach_realized source with
  | Raise _ => Raise (MutationError "MUT_REALIZED_OPERATOR_INVALID")
  | Ok realized =>
    let! r := registration_of registry realized in
    raise_if bool_decide (rz_stage realized = STRUCTURAL) && pf_invalid_json p with MutationError "MUT_STRUCTURAL_AFTER_INVALID_JSON" ;;
    raise_if earlier (rz_stage realized) (pf_furthest p) with MutationError "MUT_PIPELINE_STAGE_ORDER" ;;
    raise_if mr_requires_valid_json r && negb (_is_json_media_type media_type) with MutationError "MUT_STRUCTURAL_REQUIRES_JSON" ;;
    raise_if (signing_effect r || negb (bool_decide (mr_signature_header_action r = Action_NONE)))
             && match snapshot with None => true | Some _ => false end with MutationError "MUT_OPERATOR_REQUIRES_SIGNER" ;;
    let! claims := _preflight_header_effects r snapshot (pf_header_claims p) in
    raise_if negb (bool_decide (mr_signature_header_action r = Action_NONE)) && pf_signature_action p
      with MutationError "MUT_SIGNATURE_HEADER_ACTION_CONFLICT" ;;
    Ok {| pf_prepared := pf_prepared p ++ [{| pm_realized := realized; pm_registration := r |}];
          pf_furthest := advance (rz_stage realized) (pf_furthest p);
          pf_invalid_json := pf_invalid_json p || mr_invalidates_json r;
          pf_header_claims := claims;
          pf_signature_action := pf_signature_action p || negb (bool_decide (mr_signature_header_action r = Action_NONE));
          pf_structural_present := pf_structural_present p || mr_requires_valid_json r |}
  end.

Definition preflight_realized : RealizedMutation :=
  {| rz_operator_id := u "pipeline-preflight"; rz_operator_version := 1; rz_stage := RAW_PRE_SIGN; rz_parameters := [];
     rz_parameters_safe := [] |}.
Definition seed_state (body : bytes) (headers : list SignatureHeader) (logical_time : Z) (signer : option (SignerObject T))
    (event_id media_type : str) : result unit :=
  let! seed := _validate_state_fields
    {| ms_body := body; ms_headers := headers; ms_signing_time_ns := logical_time; ms_signer := signer |} in
  let! _ := make_input preflight_realized seed event_id media_type in
  Ok tt.

Record MutationPipeline := { mp_registry : StaticMutationRegistry O; mp_limits : MutationPipelineLimits }.

Record PipelineRequest := {
  rq_body : bytes; rq_headers : list SignatureHeader; rq_event_id : str; rq_logical_time_ns : Z; rq_media_type : str;
  rq_signer : option (SignerObject T); rq_mutations : list RealizedMutation
}.

Definition _preflight (p : MutationPipeline) (q : PipelineRequest) : result _PreparedPipeline :=
  raise_if max_body_bytes (mp_limits p) <? zlen (rq_body q) with MutationError "MUT_BODY_LIMIT" ;;
  let! headers := _bounded_headers (rq_headers q) (max_headers (mp_limits p)) in
  let! mutations := _bounded_mutations (rq_mutations q) (max_mutations (mp_limits p)) in
  match seed_state (rq_body q) headers (rq_logical_time_ns q) (rq_signer q) (rq_event_id q) (rq_media_type q) with
  | Raise _ => Raise (MutationError "MUT_PIPELINE_INPUT_INVALID")
  | Ok _ =>
    let! _ := _validate_header_resources (mp_limits p) headers in
    let! snapshot := match rq_signer q with None => Ok None | Some s => let! snapshot := _snapshot_signer s in Ok (Some snapshot) end in
    let! _ := match snapshot with None => Ok tt | Some s => _reject_signer_input_collision s headers end in
    let! checked := for_each (preflight_step (mp_registry p) (rq_media_type q) snapshot) preflight_start mutations in
    let! _ := if pf_structural_present checked then _require_valid_json (rq_body q) "MUT_STRUCTURAL_INPUT_INVALID_JSON" else Ok tt in
    Ok {| pp_mutations := pf_prepared checked; pp_body := rq_body q; pp_headers := headers; pp_signer := rq_signer q;
          pp_signer_snapshot := snapshot |}
  end.

(** ** Declared effects *)

Definition UNDECLARED {A} : result A := Raise (MutationError "MUT_OPERATOR_UNDECLARED_EFFECT").

(** The value of a header; names are distinct. *)
Definition value_of (headers : list SignatureHeader) (name : str) : option str :=
  option_map header_value (List.find (fun h => bool_decide (header_name h = name)) headers).
Definition removed_names (before after : list SignatureHeader) : list str :=
  List.filter (fun name => negb (bool_decide (name ∈ map header_name after))) (map header_name before).
Definition written_names (before after : list SignatureHeader) : list str :=
  map header_name (List.filter (fun h => negb (bool_decide (value_of before (header_name h) = Some (header_value h)))) after).
Definition subset (l k : list str) : bool := forallb (fun x => bool_decide (x ∈ k)) l.
Definition untargeted (targets : list str) (headers : list SignatureHeader) : list SignatureHeader :=
  List.filter (fun h => negb (bool_decide (header_name h ∈ targets))) headers.
Definition allowed_removed (r : MutationRegistration O) (snapshot : option _SignerSnapshot) : list str :=
  mr_removed_headers r ++ match mr_signature_header_action r with Action_NONE => [] | _ => signer_headers snapshot end.
Definition allowed_written (r : MutationRegistration O) (snapshot : option _SignerSnapshot) : list str :=
  mr_written_headers r ++ match mr_signature_header_action r with Action_REPLACE => signer_headers snapshot | _ => [] end.
Definition _validate_header_effects (before after : list SignatureHeader) (r : MutationRegistration O)
    (snapshot : option _SignerSnapshot) : result unit :=
  if negb (subset (removed_names before after) (allowed_removed r snapshot))
     || negb (subset (written_names before after) (allowed_written r snapshot)) then UNDECLARED
  else
    let targets := allowed_removed r snapshot ++ allowed_written r snapshot in
    if negb (bool_decide (untargeted targets before = untargeted targets after)) then UNDECLARED else Ok tt.

(** [a is b] *)
Definition same_object (a b : option (SignerObject T)) : bool :=
  match a, b with None, None => true | Some a, Some b => so_identity a =? so_identity b | _, _ => false end.
Definition check_replacement (after : option (SignerObject T)) (expected : option _SignerSnapshot) : result unit :=
  match after, expected with
  | Some s, Some expected =>
    let! replacement := _snapshot_signer s in
    raise_if negb (same_contract replacement expected) with MutationError "MUT_REPLACEMENT_SIGNER_CONTRACT" ;; Ok tt
  | _, _ => UNDECLARED
  end.
Definition _validate_declared_effects (before after : MutationState T) (r : MutationRegistration O) (expected : option _SignerSnapshot)
    : result unit :=
  if negb (bool_decide (ms_body before = ms_body after)) && negb (mr_changes_body r) then UNDECLARED
  else if negb (ms_signing_time_ns before =? ms_signing_time_ns after) && negb (mr_may_change_signing_time r) then UNDECLARED
  else
    let! _ :=
      if same_object (ms_signer before) (ms_signer after) then Ok tt
      else if negb (mr_may_replace_signer r) then UNDECLARED else check_replacement (ms_signer after) expected in
    _validate_header_effects (ms_headers before) (ms_headers after) r expected.

(** ** One mutation *)

Definition apply_operator (r : MutationRegistration O) (i : MutationInput T) : result (MutationOutput T) :=
  match apply_mutation (mr_implementation r) i with
  | Raise (MutationError code) => Raise (MutationError code)
  | Raise _ => Raise (MutationError "MUT_OPERATOR_FAILED")
  | Ok output => Ok output
  end.
Definition _apply_one (l : MutationPipelineLimits) (event_id media_type : str) (expected : option _SignerSnapshot)
    (state : MutationState T) (m : _PreparedMutation) : result (MutationState T * MutationEvidence) :=
  let r := pm_registration m in
  let realized := pm_realized m in
  let! _ := if mr_requires_valid_json r then _require_valid_json (ms_body state) "MUT_STRUCTURAL_INPUT_INVALID_JSON" else Ok tt in
  let! i := make_input realized state event_id media_type in
  let! output := apply_operator r i in
  let! candidate := _validate_state_fields output in
  let! _ := _validate_state_resources l candidate in
  let! _ := _validate_declared_effects state candidate r expected in
  let! _ := if bool_decide (rz_stage realized = STRUCTURAL) then _require_valid_json (ms_body candidate) "MUT_STRUCTURAL_OUTPUT_INVALID_JSON" else Ok tt in
  let! evidence := validate_mutation_evidence
    {| me_operator_id := rz_operator_id realized; me_operator_version := rz_operator_version realized; me_stage := rz_stage realized;
       me_parameters_safe := rz_parameters_safe realized; me_input_body_sha256 := sha256_digest (ms_body state);
       me_output_body_sha256 := sha256_digest (ms_body candidate) |} in
  Ok (candidate, evidence).

(** ** Signing *)

Definition Signed := (MutationState T * option SigningEvidence * option str)%type.

Definition call_sign (s : SignerObject T) (i : SigningInput) : result SigningResult :=
  match sign (so_signer s) i with
  | Raise (SignerError code) => Raise (SignerError code)
  | Raise _ => Raise (MutationError "MUT_SIGNER_FAILED")
  | Ok r => Ok r
  end.
(** What the signer returned is about this request. *)
Definition evidence_agrees (snapshot : _SignerSnapshot) (state : MutationState T) (r : SigningResult) : bool :=
  let evidence := sr_evidence r in
  bool_decide (se_adapter_id evidence = sn_adapter_id snapshot) && bool_decide (se_adapter_version evidence = sn_adapter_version snapshot)
  && (se_logical_time_ns evidence =? ms_signing_time_ns state) && bool_decide (se_body_sha256 evidence = sha256_digest (ms_body state))
  && bool_decide (map header_name (sr_headers r) = sn_owned_headers snapshot).
Definition _sign (l : MutationPipelineLimits) (event_id : str) (expected : option _SignerSnapshot) (state : MutationState T)
    : result Signed :=
  match ms_signer state with
  | None => match expected with Some _ => Raise (MutationError "MUT_SIGNER_REMOVED") | None => Ok (state, None, None) end
  | Some s =>
    let! actual := _snapshot_signer s in
    raise_if match expected with None => true | Some expected => negb (same_contract actual expected) end
      with MutationError "MUT_SIGNER_CONTRACT_CHANGED" ;;
    let! _ := _reject_signer_input_collision actual (ms_headers state) in
    let! i := validate_signing_input {| body := ms_body state; event_id := event_id; logical_time_ns := ms_signing_time_ns state |} in
    let! r := call_sign s i in
    raise_if negb (evidence_agrees actual state r) with MutationError "MUT_SIGNER_EVIDENCE_CONFLICT" ;;
    let! candidate := _validate_state_fields
      {| ms_body := ms_body state; ms_headers := ms_headers state ++ sr_headers r; ms_signing_time_ns := ms_signing_time_ns state;
         ms_signer := ms_signer state |} in
    let! _ := _validate_state_resources l candidate in
    Ok (candidate, Some (sr_evidence r), Some (sha256_digest (ms_body state)))
  end.

(** ** Execution *)

Record Execution := {
  ex_state : MutationState T; ex_evidence : list MutationEvidence; ex_signing_evidence : option SigningEvidence;
  ex_signed_body_sha256 : option str; ex_signer_invoked : bool
}.
Definition execution_start (state : MutationState T) : Execution :=
  {| ex_state := state; ex_evidence := []; ex_signing_evidence := None; ex_signed_body_sha256 := None; ex_signer_invoked := false |}.
Definition with_signature (x : Execution) (s : Signed) : Execution :=
  {| ex_state := s.1.1; ex_evidence := ex_evidence x; ex_signing_evidence := s.1.2; ex_signed_body_sha256 := s.2; ex_signer_invoked := true |}.
Definition with_mutation (x : Execution) (m : MutationState T * MutationEvidence) : Execution :=
  {| ex_state := m.1; ex_evidence := ex_evidence x ++ [m.2]; ex_signing_evidence := ex_signing_evidence x;
     ex_signed_body_sha256 := ex_signed_body_sha256 x; ex_signer_invoked := ex_signer_invoked x |}.

Definition sign_before (l : MutationPipelineLimits) (event_id : str) (expected : option _SignerSnapshot) (needed : bool) (x : Execution)
    : result Execution :=
  if needed && negb (ex_signer_invoked x) then let! s := _sign l event_id expected (ex_state x) in Ok (with_signature x s) else Ok x.
Definition after_signing (stage : MutationStage) : bool := PIPELINE_STAGE_RANK SIGNING <? PIPELINE_STAGE_RANK stage.
Definition execute_step (l : MutationPipelineLimits) (event_id media_type : str) (expected : option _SignerSnapshot) (x : Execution)
    (m : _PreparedMutation) : result Execution :=
  let! x := sign_before l event_id expected (after_signing (rz_stage (pm_realized m))) x in
  let! applied := _apply_one l event_id media_type expected (ex_state x) m in
  Ok (with_mutation x applied).

Definition execute (p : MutationPipeline) (q : PipelineRequest) : result MutationPipelineResult :=
  let! prepared := _preflight p q in
  let l := mp_limits p in
  let expected := pp_signer_snapshot prepared in
  let! state := _validate_state_fields
    {| ms_body := pp_body prepared; ms_headers := pp_headers prepared; ms_signing_time_ns := rq_logical_time_ns q;
       ms_signer := pp_signer prepared |} in
  let! x := for_each (execute_step l (rq_event_id q) (rq_media_type q) expected) (execution_start state) (pp_mutations prepared) in
  let! x := sign_before l (rq_event_id q) expected true x in
  let! _ := _validate_state_resources l (ex_state x) in
  make_pipeline_result
    {| pr_body := ms_body (ex_state x); pr_headers := ms_headers (ex_state x); pr_mutation_evidence := ex_evidence x;
       pr_signing_evidence := ex_signing_evidence x; pr_signed_body_sha256 := ex_signed_body_sha256 x;
       pr_delivered_body_sha256 := sha256_digest (ms_body (ex_state x)) |}.
End pipeline.
