(* ===== verification/MutationOperators.v ===== *)
(** * The mutation operators of the runtime

    [mutations/raw_ops.py] and [mutations/signature_ops.py]: the operators on raw bodies and the
    content type, and those on the signing time, the signing key and the signature headers. *)

From S2P Require Import Prelude Sha256 Text TextLemmas Commands Json JsonFlat Hashing Base64 Signing HmacSigners SignerLaws Mutations MutationPipeline.

Local Open Scope Z_scope.

Definition OPERATOR_VERSION : Z := 1.
Definition TRUNCATE_BYTES_V1 : str := u "truncate-bytes-v1".
Definition INVALID_JSON_V1 : str := u "invalid-json-v1".
Definition CONTENT_TYPE_MISMATCH_V1 : str := u "content-type-mismatch-v1".
Definition ALTER_AFTER_SIGNING_V1 : str := u "alter-after-signing-v1".
Definition OVERSIZED_BODY_V1 : str := u "oversized-body-v1".
Definition STALE_SIGNATURE_TIMESTAMP_V1 : str := u "stale-signature-timestamp-v1".
Definition WRONG_SIGNING_KEY_V1 : str := u "wrong-signing-key-v1".
Definition MISSING_SIGNATURE_V1 : str := u "missing-signature-v1".
Definition MALFORMED_SIGNATURE_V1 : str := u "malformed-signature-v1".
Definition MALFORMED_SIGNATURE_CASES : list str :=
  map u ["invalid-encoding"; "missing-component"; "invalid-delimiter"; "duplicate-component"].
Definition _WRONG_KEY_DOMAIN : bytes := ascii_bytes (u "wrch-wrong-signing-key-v1") ++ [0].
Definition MAX_WRONG_KEY_CONTEXT_LENGTH : Z := 4096.
Definition CONTENT_TYPE : str := u "content-type".

Definition _INVALID_JSON_BYTES (strategy : str) : option bytes :=
  if bool_decide (strategy = u "truncated-object") then Some (ascii_bytes (jq "{'_':"))
  else if bool_decide (strategy = u "bad-escape") then Some (ascii_bytes (jq "'\x'"))
  else if bool_decide (strategy = u "trailing-comma") then Some (ascii_bytes (jq "{'_':0,}"))
  else None.

(** The names given are those required; both modules, with their own codes. *)
Definition _parameters (values : parameters) (required : list str) (code : string) : result parameters :=
  raise_if negb (subset (map fst values) required && subset required (map fst values)) with MutationError code ;; Ok values.
(** [values[name]] of a name that was required *)
Definition parameter (values : parameters) (name : string) : result json :=
  match json_get (u name) values with None => Raise KeyError | Some v => Ok v end.

Definition _integer (value : json) (code : string) (minimum maximum : Z) : result Z :=
  match value with
  | JInt z => raise_if negb (within minimum maximum z) with MutationError code ;; Ok z
  | _ => Raise (MutationError code)
  end.
Definition _text (value : json) (code : string) (maximum : Z) : result str :=
  match value with
  | JString s => raise_if negb (within 1 maximum (zlen s)) || negb (ascii_text s) || has_control s with MutationError code ;; Ok s
  | _ => Raise (MutationError code)
  end.

Section raw.
Context {T : Type} `{Signer T}.

(** [_output]: a new state with what is given changed. *)
Definition output_body (i : MutationInput T) (b : bytes) : result (MutationOutput T) :=
  let s := mi_state i in
  _validate_state_fields
    {| ms_body := b; ms_headers := ms_headers s; ms_signing_time_ns := ms_signing_time_ns s; ms_signer := ms_signer s |}.
Definition output_headers (i : MutationInput T) (headers : list SignatureHeader) : result (MutationOutput T) :=
  let s := mi_state i in
  _validate_state_fields
    {| ms_body := ms_body s; ms_headers := headers; ms_signing_time_ns := ms_signing_time_ns s; ms_signer := ms_signer s |}.
Definition output_time (i : MutationInput T) (time : Z) : result (MutationOutput T) :=
  let s := mi_state i in
  _validate_state_fields {| ms_body := ms_body s; ms_headers := ms_headers s; ms_signing_time_ns := time; ms_signer := ms_signer s |}.
Definition output_signer (i : MutationInput T) (signer : SignerObject T) : result (MutationOutput T) :=
  let s := mi_state i in
  _validate_state_fields
    {| ms_body := ms_body s; ms_headers := ms_headers s; ms_signing_time_ns := ms_signing_time_ns s; ms_signer := Some signer |}.

(** ** Raw bodies *)

Definition truncate_bytes (i : MutationInput T) : result (MutationOutput T) :=
  let! values := _parameters (mi_parameters i) [u "length"] "MUT_RAW_PARAMETERS_INVALID" in
  let! length := parameter values "length" in
  let! retained := _integer length "MUT_TRUNCATE_LENGTH_INVALID" 0 (zlen (ms_body (mi_state i))) in
  output_body i (take (Z.to_nat retained) (ms_body (mi_state i))).

Definition invalid_json (i : MutationInput T) : result (MutationOutput T) :=
  let! values := _parameters (mi_parameters i) [u "strategy"] "MUT_RAW_PARAMETERS_INVALID" in
  let! strategy := parameter values "strategy" in
  match match strategy with JString s => _INVALID_JSON_BYTES s | _ => None end with
  | None => Raise (MutationError "MUT_INVALID_JSON_CASE_INVALID")
  | Some body =>
    raise_if negb (_is_json_media_type (mi_media_type i)) with MutationError "MUT_INVALID_JSON_MEDIA_TYPE" ;;
    output_body i body
  end.

Definition content_type_mismatch (i : MutationInput T) : result (MutationOutput T) :=
  let! values := _parameters (mi_parameters i) [u "media_type"] "MUT_RAW_PARAMETERS_INVALID" in
  let! value := parameter values "media_type" in
  let! media_type := _text value "MUT_CONTENT_TYPE_INVALID" 255 in
  let! header := make_signature_header CONTENT_TYPE media_type in
  output_headers i (List.filter (fun h => negb (bool_decide (header_name h = CONTENT_TYPE))) (ms_headers (mi_state i)) ++ [header]).

Definition alter_after_signing (i : MutationInput T) : result (MutationOutput T) :=
  let! values := _parameters (mi_parameters i) [u "offset"; u "xor"] "MUT_RAW_PARAMETERS_INVALID" in
  let b := ms_body (mi_state i) in
  let! offset := parameter values "offset" in
  let! offset := _integer offset "MUT_ALTER_OFFSET_INVALID" 0 (Z.max 0 (zlen b - 1)) in
  raise_if bool_decide (b = []) with MutationError "MUT_ALTER_EMPTY_BODY" ;;
  let! xor := parameter values "xor" in
  let! xor := _integer xor "MUT_ALTER_XOR_INVALID" 1 255 in
  output_body i (alter (Z.lxor xor) (Z.to_nat offset) b).

Definition oversized_body (i : MutationInput T) : result (MutationOutput T) :=
  let! values := _parameters (mi_parameters i) [u "target_bytes"; u "fill"] "MUT_RAW_PARAMETERS_INVALID" in
  let! target := parameter values "target_bytes" in
  let! target := _integer target "MUT_OVERSIZED_TARGET_INVALID" 1 MAX_SIGNING_BODY_BYTES in
  let! fill := parameter values "fill" in
  raise_if negb (json_is_text (Some fill) (u "ascii-space")) with MutationError "MUT_OVERSIZED_FILL_INVALID" ;;
  let b := ms_body (mi_state i) in
  raise_if target <=? zlen b with MutationError "MUT_OVERSIZED_TARGET_NOT_LARGER" ;;
  output_body i (b ++ replicate (Z.to_nat (target - zlen b)) 32).

(** ** Signing time and signature headers *)

Definition stale_signature_timestamp (i : MutationInput T) : result (MutationOutput T) :=
  let! values := _parameters (mi_parameters i) [u "age_ns"] "MUT_SIGNATURE_PARAMETERS_INVALID" in
  let! age := parameter values "age_ns" in
  match age with
  | JInt age =>
    raise_if age <=? 0 with MutationError "MUT_STALE_AGE_INVALID" ;;
    match ms_signer (mi_state i) with
    | None => Raise (MutationError "MUT_STALE_SIGNER_REQUIRED")
    | Some s =>
      raise_if bool_decide (adapter_id (so_signer s) = GENERIC_HMAC_SHA256_ADAPTER_ID)
        with MutationError "MUT_STALE_SIGNER_NOT_TIMESTAMPED" ;;
      let stale := ms_signing_time_ns (mi_state i) - age in
      raise_if stale <? 0 with MutationError "MUT_STALE_TIMESTAMP_NEGATIVE" ;;
      output_time i stale
    end
  | _ => Raise (MutationError "MUT_STALE_AGE_INVALID")
  end.

Definition _owned_header_names (i : MutationInput T) : result (list str) :=
  match ms_signer (mi_state i) with
  | None => Raise (MutationError "MUT_SIGNATURE_SIGNER_REQUIRED")
  | Some s => Ok (remove_dups (owned_headers (so_signer s)))
  end.

Definition missing_signature (i : MutationInput T) : result (MutationOutput T) :=
  let! _ := _parameters (mi_parameters i) [] "MUT_SIGNATURE_PARAMETERS_INVALID" in
  let! owned := _owned_header_names i in
  output_headers i (untargeted owned (ms_headers (mi_state i))).

Definition _malformed_value (case : str) : option str :=
  if bool_decide (case = u "invalid-encoding") then Some (u "v1=!")
  else if bool_decide (case = u "missing-component") then Some (u "v1")
  else if bool_decide (case = u "invalid-delimiter") then Some (u "v1:00")
  else if bool_decide (case = u "duplicate-component") then Some (u "v1=00,v1=11")
  else None.
Definition replace_header (replacements : list (str * SignatureHeader)) (h : SignatureHeader) : SignatureHeader :=
  match List.find (fun r => bool_decide (r.1 = header_name h)) replacements with Some r => r.2 | None => h end.
Definition malformed_signature (i : MutationInput T) : result (MutationOutput T) :=
  let! values := _parameters (mi_parameters i) [u "case"] "MUT_SIGNATURE_PARAMETERS_INVALID" in
  let! case := parameter values "case" in
  match match case with JString s => _malformed_value s | _ => None end with
  | None => Raise (MutationError "MUT_MALFORMED_SIGNATURE_CASE_INVALID")
  | Some value =>
    let! owned := _owned_header_names i in
    let! replacements := map_result (fun name => let! h := make_signature_header name value in Ok (name, h)) owned in
    let headers := ms_headers (mi_state i) in
    let absent := List.filter (fun r => negb (bool_decide (r.1 ∈ map header_name headers))) replacements in
    output_headers i (map (replace_header replacements) headers ++ map snd (py_sorted fst absent))
  end.
End raw.

(** ** The signing key *)

(** The handle [SecretResolver] makes of an environment variable with this text. *)
Definition environment_secret (encoded : str) : SecretHandle :=
  let material := ascii_bytes encoded in
  {| sh_fingerprint := secret_fingerprint material; sh_closed := false; sh_load := Loaded material |}.
Definition derived_key (context : bytes) (index : nat) : bytes :=
  sha256 (_WRONG_KEY_DOMAIN ++ int_to_bytes 4 (Z.of_nat index) ++ context).
Definition encoded_key (delegate : BuiltinSigner) (derived : bytes) : str :=
  match delegate with Builtin_standard _ => u "whsec_" ++ b64encode derived | _ => hex_of_bytes derived end.
Definition _key_fingerprints (s : BuiltinSigner) : list str :=
  match s with
  | Builtin_generic s => [sh_fingerprint (g_secret s)]
  | Builtin_stripe s => map sh_fingerprint (s_secrets s)
  | Builtin_standard s => map sh_fingerprint (w_secrets s)
  end.
Definition _require_distinct_wrong_keys (original replacement : BuiltinSigner) : result unit :=
  raise_if negb (bool_decide (NoDup (_key_fingerprints replacement))) || shares (_key_fingerprints original) (_key_fingerprints replacement)
    with ValueError ;;
  Ok tt.
Definition _wrong_key_signer (delegate : BuiltinSigner) (context : bytes) : result BuiltinSigner :=
  let key_count := match delegate with Builtin_generic _ => 1%nat | _ => length (_key_fingerprints delegate) end in
  match map (fun index => environment_secret (encoded_key delegate (derived_key context index))) (seq 0 key_count) with
  | [] => Raise ValueError
  | primary :: additional =>
    let! replacement :=
      match delegate with
      | Builtin_generic s => Ok (Builtin_generic {| g_secret := primary; g_settings := g_settings s |})
      | Builtin_stripe s => let! made := make_stripe_signer primary (s_settings s) additional in Ok (Builtin_stripe made)
      | Builtin_standard s => let! made := make_standard_signer primary (w_settings s) additional in Ok (Builtin_standard made)
      end in
    let! _ := _require_distinct_wrong_keys delegate replacement in
    Ok replacement
  end.

(** A new object is not the one it replaces. *)
Definition new_object {T} (old : SignerObject T) (signer : T) : SignerObject T :=
  {| so_identity := so_identity old + 1; so_signer := signer |}.
Definition wrong_signing_key (i : MutationInput BuiltinSigner) : result (MutationOutput BuiltinSigner) :=
  let! values := _parameters (mi_parameters i) [u "context"] "MUT_SIGNATURE_PARAMETERS_INVALID" in
  let! context := parameter values "context" in
  match context with
  | JString context =>
    raise_if negb (within 1 MAX_WRONG_KEY_CONTEXT_LENGTH (zlen context)) with MutationError "MUT_WRONG_KEY_CONTEXT_INVALID" ;;
    match utf8_encode context with
    | Raise _ => Raise (MutationError "MUT_WRONG_KEY_CONTEXT_INVALID")
    | Ok context_bytes =>
      raise_if MAX_WRONG_KEY_CONTEXT_LENGTH <? zlen context_bytes with MutationError "MUT_WRONG_KEY_CONTEXT_INVALID" ;;
      match ms_signer (mi_state i) with
      | None => Raise (MutationError "MUT_WRONG_KEY_SIGNER_REQUIRED")
      | Some s =>
        match _wrong_key_signer (so_signer s) context_bytes with
        | Ok replacement => output_signer i (new_object s replacement)
        | Raise (SignerError _) | Raise TypeError | Raise ValueError => Raise (MutationError "MUT_WRONG_KEY_SIGNER_UNSUPPORTED")
        | Raise e => Raise e
        end
      end
    end
  | _ => Raise (MutationError "MUT_WRONG_KEY_CONTEXT_INVALID")
  end.

(** ** Registrations *)

Inductive RuntimeOperator :=
  | TruncateBytesV1 | InvalidJsonV1 | ContentTypeMismatchV1 | AlterAfterSigningV1 | OversizedBodyV1
  | StaleSignatureTimestampV1 | WrongSigningKeyV1 | MissingSignatureV1 | MalformedSignatureV1.
#[global] Instance RuntimeOperator_eq_dec : EqDecision RuntimeOperator.
Proof. solve_decision. Defined.

#[global] Instance runtime_operator : MutationOperator RuntimeOperator BuiltinSigner := fun operator =>
  match operator with
  | TruncateBytesV1 => truncate_bytes
  | InvalidJsonV1 => invalid_json
  | ContentTypeMismatchV1 => content_type_mismatch
  | AlterAfterSigningV1 => alter_after_signing
  | OversizedBodyV1 => oversized_body
  | StaleSignatureTimestampV1 => stale_signature_timestamp
  | WrongSigningKeyV1 => wrong_signing_key
  | MissingSignatureV1 => missing_signature
  | MalformedSignatureV1 => malformed_signature
  end.

(** A registration that declares no effect. *)
Definition registration (operator_id : str) (stage : MutationStage) (implementation : RuntimeOperator) : MutationRegistration RuntimeOperator :=
  {| mr_operator_id := operator_id; mr_operator_version := OPERATOR_VERSION; mr_stage := stage; mr_implementation := implementation;
     mr_changes_body := false; mr_requires_valid_json := false; mr_invalidates_json := false; mr_written_headers := [];
     mr_removed_headers := []; mr_signature_header_action := Action_NONE; mr_may_change_signing_time := false;
     mr_may_replace_signer := false |}.
Definition changing_body (invalidates : bool) (r : MutationRegistration RuntimeOperator) : MutationRegistration RuntimeOperator :=
  {| mr_operator_id := mr_operator_id r; mr_operator_version := mr_operator_version r; mr_stage := mr_stage r;
     mr_implementation := mr_implementation r; mr_changes_body := true; mr_requires_valid_json := mr_requires_valid_json r;
     mr_invalidates_json := invalidates; mr_written_headers := mr_written_headers r; mr_removed_headers := mr_removed_headers r;
     mr_signature_header_action := mr_signature_header_action r; mr_may_change_signing_time := mr_may_change_signing_time r;
     mr_may_replace_signer := mr_may_replace_signer r |}.
Definition changing_signature (action : SignatureHeaderAction) (time signer : bool) (r : MutationRegistration RuntimeOperator)
    : MutationRegistration RuntimeOperator :=
  {| mr_operator_id := mr_operator_id r; mr_operator_version := mr_operator_version r; mr_stage := mr_stage r;
     mr_implementation := mr_implementation r; mr_changes_body := mr_changes_body r; mr_requires_valid_json := mr_requires_valid_json r;
     mr_invalidates_json := mr_invalidates_json r; mr_written_headers := mr_written_headers r; mr_removed_headers := mr_removed_headers r;
     mr_signature_header_action := action; mr_may_change_signing_time := time; mr_may_replace_signer := signer |}.

Definition RAW_MUTATION_REGISTRATIONS : list (MutationRegistration RuntimeOperator) :=
  [changing_body false (registration TRUNCATE_BYTES_V1 RAW_PRE_SIGN TruncateBytesV1);
   changing_body true (registration INVALID_JSON_V1 RAW_PRE_SIGN InvalidJsonV1);
   with_headers (registration CONTENT_TYPE_MISMATCH_V1 HEADER_PRE_SIGN ContentTypeMismatchV1) [CONTENT_TYPE] [];
   changing_body false (registration ALTER_AFTER_SIGNING_V1 RAW_POST_SIGN AlterAfterSigningV1);
   changing_body false (registration OVERSIZED_BODY_V1 RAW_PRE_SIGN OversizedBodyV1)].
Definition SIGNATURE_MUTATION_REGISTRATIONS : list (MutationRegistration RuntimeOperator) :=
  [changing_signature Action_NONE true false (registration STALE_SIGNATURE_TIMESTAMP_V1 SIGNING StaleSignatureTimestampV1);
   changing_signature Action_NONE false true (registration WRONG_SIGNING_KEY_V1 SIGNING WrongSigningKeyV1);
   changing_signature Action_REMOVE false false (registration MISSING_SIGNATURE_V1 HEADER_POST_SIGN MissingSignatureV1);
   changing_signature Action_REPLACE false false (registration MALFORMED_SIGNATURE_V1 HEADER_POST_SIGN MalformedSignatureV1)].

(** [_RUNTIME_MUTATION_REGISTRY] of [runtime/attempts.py] *)
Definition runtime_registrations : list (MutationRegistration RuntimeOperator) :=
  RAW_MUTATION_REGISTRATIONS ++ SIGNATURE_MUTATION_REGISTRATIONS.
Definition _RUNTIME_MUTATION_REGISTRY : StaticMutationRegistry RuntimeOperator :=
  match make_mutation_registry runtime_registrations with Ok registry => registry | Raise _ => [] end.

Lemma runtime_registry_built : _RUNTIME_MUTATION_REGISTRY = runtime_registrations.
Proof. vm_compute. reflexivity. Qed.
