(* ===== verification/PipelineLaws.v ===== *)
(** * What the mutation pipeline accepts and applies

    The phases of an accepted plan, the effects of an applied mutation, and the laws the runtime operators keep. *)

From S2P Require Import Prelude Sha256 Text TextLemmas Commands Json JsonFlat Hashing Base64 Signing HmacSigners SignerTexts SignerLaws Signatures Mutations MutationPipeline MutationOperators.

Local Open Scope Z_scope.

(** * The phases of the pipeline

    What an accepted plan looks like, what an accepted effect is, and the pipeline as three phases: the
    mutations up to signing, one signing, and the mutations after it. *)

(** A step of a computation that succeeded; [pass] steps over an early exit. *)
Ltac pass H := match type of H with (if ?b then _ else _) = Ok _ => let E := fresh "E" in destruct b eqn:E; [discriminate H|] end.

Lemma valid_state_same {T} (s s' : MutationState T) :
  _validate_state_fields s = Ok s' -> s' = s /\ NoDup (map header_name (ms_headers s)) /\ zlen (ms_headers s) <= MAX_MUTATION_HEADERS.
Proof.
  unfold _validate_state_fields. intros H. pass H. pass H. pass H. apply ok_inj in H as <-.
  apply negb_bool_decide_false in E0. split_and!; [done|done|lia].
Qed.

Lemma detached_same m m' : _detach_realized m = Ok m' -> m' = m.
Proof.
  unfold _detach_realized, make_realized, freeze_parameter_object. intros H. repeat take_step H.
  repeat match goal with E : (if ?b then _ else _) = Ok _ |- _ => destruct b; [discriminate E|] end.
  repeat match goal with E : match ?x with _ => _ end = Ok _ |- _ => destruct x; [|discriminate E]; apply ok_inj in E end.
  subst. apply ok_inj in H as <-. by destruct m.
Qed.

Section phases.
Context {T O : Type} `{Signer T, MutationOperator O T}.
Abbreviation Prepared := (@_PreparedMutation O).
Abbreviation Snapshot := (@_SignerSnapshot T).

(** ** Accepted plans *)

Definition rank (m : Prepared) : Z := PIPELINE_STAGE_RANK (rz_stage (pm_realized m)).
Definition acts (m : Prepared) : bool := negb (bool_decide (mr_signature_header_action (pm_registration m) = Action_NONE)).
(** An operator without a signature action leaves the signer's headers alone. *)
Definition respects (snapshot : option Snapshot) (m : Prepared) : Prop :=
  mr_signature_header_action (pm_registration m) = Action_NONE ->
  forall name, name ∈ signer_headers snapshot -> name ∉ static_targets (pm_registration m).

Definition furthest_is (p : @Preflight O) : Prop :=
  match pf_furthest p with
  | None => pf_prepared p = []
  | Some f => Forall (fun m => rank m <= PIPELINE_STAGE_RANK f) (pf_prepared p)
  end.
Definition plan_ok (registry : StaticMutationRegistry O) (snapshot : option Snapshot) (l : list Prepared) : Prop :=
  Forall (fun m => registration_of registry (pm_realized m) = Ok (pm_registration m)) l /\
  StronglySorted (fun a b => rank a <= rank b) l /\ Forall (respects snapshot) l /\ (length (List.filter acts l) <= 1)%nat.
Definition preflight_inv (registry : StaticMutationRegistry O) (snapshot : option Snapshot) (p : @Preflight O) : Prop :=
  plan_ok registry snapshot (pf_prepared p) /\ furthest_is p /\
  (pf_signature_action p = false -> List.filter acts (pf_prepared p) = []).

Lemma shares_false l k : shares l k = false -> forall x, x ∈ l -> x ∉ k.
Proof. intros Hs x Hx. pose proof (existsb_all _ _ Hs x Hx) as Hb. by apply bool_decide_eq_false in Hb. Qed.

Lemma sorted_snoc {A} (R : A -> A -> Prop) l x : StronglySorted R l -> Forall (fun a => R a x) l -> StronglySorted R (l ++ [x]).
Proof.
  induction 1 as [|a l Hl IH Ha]; intros Hf; [repeat constructor|]. apply list.Forall_cons in Hf as [Hax Hf]. cbn [app].
  constructor; [by apply IH|]. apply list.Forall_app. split; [done|by constructor].
Qed.

Lemma advance_rank stage furthest :
  earlier stage furthest = false -> exists g, advance stage furthest = Some g /\ PIPELINE_STAGE_RANK g = PIPELINE_STAGE_RANK stage.
Proof.
  unfold earlier, advance. destruct furthest as [f|]; [|by exists stage]. destruct (_ <? PIPELINE_STAGE_RANK stage) eqn:El; [by exists stage|].
  intros He. exists f. split; [done|]. apply Z.ltb_ge in El, He. lia.
Qed.

Lemma preflight_step_inv registry media_type snapshot p source p' :
  preflight_inv registry snapshot p -> preflight_step registry media_type snapshot p source = Ok p' ->
  preflight_inv registry snapshot p' /\ map pm_realized (pf_prepared p') = map pm_realized (pf_prepared p) ++ [source].
Proof.
  intros ((Hreg & Hsort & Hresp & Hact) & Hfur & Hnone) Hs. unfold preflight_step in Hs.
  destruct (_detach_realized source) as [m|] eqn:Em; [|discriminate Hs]. apply detached_same in Em as ->.
  destruct (registration_of registry source) as [r|] eqn:Er; [|discriminate Hs]. pass Hs.
  destruct (earlier _ _) eqn:Eearly; [discriminate Hs|]. pass Hs. pass Hs.
  destruct (_preflight_header_effects r snapshot _) as [claims|] eqn:Eclaims; [|discriminate Hs].
  destruct (_ && pf_signature_action p) eqn:Eact; [discriminate Hs|]. apply ok_inj in Hs as <-. cbn [pf_prepared].
  set (new := {| pm_realized := source; pm_registration := r |}).
  assert (respects snapshot new) as Hnew.
  { intros Hn. unfold _preflight_header_effects in Eclaims. cbn [pm_registration new] in Hn. rewrite Hn, bool_decide_true in Eclaims by done.
    destruct (shares _ (static_targets r)) eqn:Es in Eclaims; [discriminate Eclaims|]. cbn [pm_registration new]. by apply shares_false. }
  assert (Forall (fun m => rank m <= rank new) (pf_prepared p)) as Hle.
  { unfold furthest_is in Hfur. destruct (pf_furthest p) as [f|]; [|by rewrite Hfur].
    cbn [earlier] in Eearly. eapply List.Forall_impl; [|exact Hfur]. intros m Hm. cbv beta in Hm. change (rank new) with (PIPELINE_STAGE_RANK (rz_stage source)). lia. }
  split; [|by rewrite map_app]. unfold preflight_inv, plan_ok. cbn [pf_prepared pf_signature_action]. fold new. split; [|split].
  - split_and!.
    + apply list.Forall_app. split; [done|]. by repeat constructor.
    + by apply sorted_snoc.
    + apply list.Forall_app. split; [done|]. by repeat constructor.
    + rewrite List.filter_app, length_app. cbn [List.filter]. destruct (acts new) eqn:Ea; [|cbn [length]; lia].
      unfold acts in Ea. cbn [new pm_registration] in Ea. rewrite Ea in Eact. cbn [andb] in Eact. rewrite (Hnone Eact). cbn [length]. lia.
  - unfold furthest_is. cbn [pf_furthest pf_prepared]. fold new.
    destruct (advance_rank (rz_stage source) (pf_furthest p) Eearly) as (g & -> & Hf).
    change (PIPELINE_STAGE_RANK (rz_stage source)) with (rank new) in Hf.
    apply list.Forall_app. rewrite Hf. split; [done|]. by constructor.
  - cbn [pf_signature_action pf_prepared]. fold new. intros [Hp Ha]%orb_false_iff.
    rewrite List.filter_app, (Hnone Hp). cbn [List.filter app]. unfold acts. cbn [new pm_registration]. by rewrite Ha.
Qed.

Lemma preflight_steps registry media_type snapshot l p p' :
  preflight_inv registry snapshot p -> for_each (preflight_step registry media_type snapshot) p l = Ok p' ->
  preflight_inv registry snapshot p' /\ map pm_realized (pf_prepared p') = map pm_realized (pf_prepared p) ++ l.
Proof.
  revert p. induction l as [|m l IH]; intros p Hp Hs; [apply ok_inj in Hs as <-; by rewrite app_nil_r|].
  cbn [for_each] in Hs. take_step Hs. destruct (preflight_step_inv _ _ _ _ _ _ Hp E) as [Ha Hm].
  destruct (IH _ Ha Hs) as [Hp' Hm']. split; [done|]. by rewrite Hm', Hm, <- app_assoc.
Qed.

Definition snapshot_of (signer : option (SignerObject T)) (snapshot : option Snapshot) : Prop :=
  match signer, snapshot with
  | None, None => True
  | Some s, Some sn => _snapshot_signer s = Ok sn
  | _, _ => False
  end.

Lemma preflight_facts (p : @MutationPipeline O) q pp :
  _preflight p q = Ok pp ->
  map pm_realized (pp_mutations pp) = rq_mutations q /\ plan_ok (mp_registry p) (pp_signer_snapshot pp) (pp_mutations pp) /\
  pp_body pp = rq_body q /\ pp_signer pp = rq_signer q /\ snapshot_of (rq_signer q) (pp_signer_snapshot pp).
Proof.
  unfold _preflight. intros Hs. pass Hs. take_step Hs. take_step Hs. destruct (seed_state _ _ _ _ _ _); [|discriminate Hs].
  take_step Hs. take_step Hs. take_step Hs. take_step Hs. take_step Hs. apply ok_inj in Hs as <-. cbn [pp_mutations pp_signer_snapshot pp_body pp_signer].
  assert (a0 = rq_mutations q) as -> by (unfold _bounded_mutations in E1; pass E1; by apply ok_inj in E1).
  match goal with Hf : for_each _ preflight_start _ = Ok ?x |- _ => apply preflight_steps in Hf as [(Hplan & _) Hm] end.
  - split_and!; [exact Hm|exact Hplan|done|done|]. unfold snapshot_of. destruct (rq_signer q) as [s|]; [|by apply ok_inj in E3 as <-].
    take_step E3. by apply ok_inj in E3 as <-.
  - repeat split; try constructor. cbn. lia.
Qed.

(** ** Three phases *)

Fixpoint run_mutations (l : MutationPipelineLimits) (event_id media_type : str) (expected : option Snapshot) (state : MutationState T)
    (mutations : list Prepared) : result (MutationState T * list MutationEvidence) :=
  match mutations with
  | [] => Ok (state, [])
  | m :: rest =>
    let! applied := _apply_one l event_id media_type expected state m in
    let! remaining := run_mutations l event_id media_type expected applied.1 rest in
    Ok (remaining.1, applied.2 :: remaining.2)
  end.

Definition advanced (x : @Execution T) (run : MutationState T * list MutationEvidence) : Execution :=
  {| ex_state := run.1; ex_evidence := ex_evidence x ++ run.2; ex_signing_evidence := ex_signing_evidence x;
     ex_signed_body_sha256 := ex_signed_body_sha256 x; ex_signer_invoked := ex_signer_invoked x |}.

Section run.
Context (l : MutationPipelineLimits) (event_id media_type : str) (expected : option Snapshot).
Abbreviation step := (execute_step l event_id media_type expected).
Abbreviation run := (run_mutations l event_id media_type expected).

(** While no signing is due, the loop applies the mutations. *)
Lemma steps_run x ms x' :
  Forall (fun m : Prepared => after_signing (rz_stage (pm_realized m)) && negb (ex_signer_invoked x) = false) ms ->
  for_each step x ms = Ok x' -> exists r, run (ex_state x) ms = Ok r /\ x' = advanced x r.
Proof.
  revert x. induction ms as [|m ms IH]; intros x Hd Hs.
  - apply ok_inj in Hs as <-. eexists. split; [done|]. unfold advanced. cbn [fst snd]. rewrite app_nil_r. by destruct x.
  - apply list.Forall_cons in Hd as [Hm Hd]. cbn [for_each] in Hs. unfold execute_step at 1, sign_before in Hs. rewrite Hm in Hs.
    destruct (_apply_one _ _ _ _ (ex_state x) m) as [a|] eqn:Ea; [|discriminate Hs].
    destruct (IH (with_mutation x a) Hd Hs) as (r & Hr & ->). cbn [with_mutation ex_state] in Hr.
    exists (r.1, a.2 :: r.2). cbn [run_mutations]. rewrite Ea. cbn [ex_state with_mutation] in Hr. rewrite Hr. split; [done|].
    unfold advanced, with_mutation. cbn [ex_state ex_evidence ex_signing_evidence ex_signed_body_sha256 ex_signer_invoked fst snd].
    by rewrite <- app_assoc.
Qed.

Lemma split_at_signing (ms : list Prepared) :
  StronglySorted (fun a b => rank a <= rank b) ms ->
  exists pre post, ms = pre ++ post /\ Forall (fun m => after_signing (rz_stage (pm_realized m)) = false) pre /\
    Forall (fun m => after_signing (rz_stage (pm_realized m)) = true) post.
Proof.
  induction 1 as [|m ms Hs IH Hm]; [by exists [], []|].
  destruct (after_signing (rz_stage (pm_realized m))) eqn:E.
  - exists [], (m :: ms). repeat split; [constructor|]. constructor; [done|]. eapply List.Forall_impl; [|exact Hm].
    intros k Hk. cbv beta in Hk. unfold after_signing, rank in *. apply Z.ltb_lt in E. apply Z.ltb_lt. lia.
  - destruct IH as (pre & post & -> & Hpre & Hpost). exists (m :: pre), post. repeat split; [by constructor|done].
Qed.

(** The loop of [execute] and the signing after it. *)
Lemma loop_phases state ms x x' :
  StronglySorted (fun a b => rank a <= rank b) ms ->
  for_each step (execution_start state) ms = Ok x -> sign_before l event_id expected true x = Ok x' ->
  exists pre post r1 s r2, ms = pre ++ post /\
    Forall (fun m => after_signing (rz_stage (pm_realized m)) = false) pre /\
    Forall (fun m => after_signing (rz_stage (pm_realized m)) = true) post /\
    run state pre = Ok r1 /\ _sign l event_id expected r1.1 = Ok s /\ run s.1.1 post = Ok r2 /\
    x' = {| ex_state := r2.1; ex_evidence := r1.2 ++ r2.2; ex_signing_evidence := s.1.2; ex_signed_body_sha256 := s.2;
            ex_signer_invoked := true |}.
Proof.
  intros (pre & post & -> & Hpre & Hpost)%split_at_signing Hloop Hend. rewrite for_each_app in Hloop.
  destruct (for_each step (execution_start state) pre) as [x1|] eqn:E1; [|discriminate Hloop].
  apply steps_run in E1 as (r1 & Hr1 & ->); [|eapply List.Forall_impl; [|exact Hpre]; intros m Hm; cbv beta in Hm; by rewrite Hm].
  cbn [execution_start ex_state] in Hr1. destruct post as [|m post].
  - apply ok_inj in Hloop as <-. unfold sign_before in Hend. cbn [andb negb advanced execution_start ex_signer_invoked ex_state] in Hend.
    destruct (_sign _ _ _ r1.1) as [s|] eqn:Es; [|discriminate Hend]. apply ok_inj in Hend as <-.
    exists pre, [], r1, s, (s.1.1, []). cbn [run_mutations fst snd app]. repeat split; try done. rewrite !app_nil_r. done.
  - assert (exists s, _sign l event_id expected r1.1 = Ok s /\
        for_each step (with_signature (advanced (execution_start state) r1) s) (m :: post) = Ok x) as (s & Hs & Hrest).
    { apply list.Forall_cons in Hpost as [Hm _]. cbn [for_each] in *. unfold execute_step at 1, sign_before in Hloop. rewrite Hm in Hloop.
      cbn [andb negb advanced execution_start ex_signer_invoked ex_state] in Hloop.
      destruct (_sign _ _ _ r1.1) as [s|] eqn:Es; [|discriminate Hloop]. exists s. split; [done|]. unfold execute_step at 1, sign_before.
      cbn [with_signature ex_signer_invoked negb]. by rewrite andb_false_r. }
    apply steps_run in Hrest as (r2 & Hr2 & ->).
    2: { eapply List.Forall_impl; [|exact Hpost]. intros k Hk. cbn [with_signature ex_signer_invoked negb]. by rewrite andb_false_r. }
    unfold sign_before in Hend. cbn [advanced with_signature ex_signer_invoked negb andb] in Hend. apply ok_inj in Hend as <-.
    exists pre, (m :: post), r1, s, r2. by repeat split.
Qed.
End run.

(** A pipeline that returns has run its phases. *)
Lemma execute_phases (p : @MutationPipeline O) q res :
  execute p q = Ok res ->
  exists pp pre post r1 s r2, _preflight p q = Ok pp /\ pp_mutations pp = pre ++ post /\
    Forall (fun m => after_signing (rz_stage (pm_realized m)) = false) pre /\
    Forall (fun m => after_signing (rz_stage (pm_realized m)) = true) post /\
    let l := mp_limits p in let expected := pp_signer_snapshot pp in
    let state := {| ms_body := rq_body q; ms_headers := pp_headers pp; ms_signing_time_ns := rq_logical_time_ns q; ms_signer := rq_signer q |} in
    NoDup (map header_name (pp_headers pp)) /\
    run_mutations l (rq_event_id q) (rq_media_type q) expected state pre = Ok r1 /\ _sign l (rq_event_id q) expected r1.1 = Ok s /\
    run_mutations l (rq_event_id q) (rq_media_type q) expected s.1.1 post = Ok r2 /\
    res = {| pr_body := ms_body r2.1; pr_headers := ms_headers r2.1; pr_mutation_evidence := r1.2 ++ r2.2; pr_signing_evidence := s.1.2;
             pr_signed_body_sha256 := s.2; pr_delivered_body_sha256 := sha256_digest (ms_body r2.1) |}.
Proof.
  unfold execute. intros Hs. destruct (_preflight p q) as [pp|] eqn:Ep; [|discriminate Hs].
  destruct (preflight_facts p q pp Ep) as (_ & (_ & Hsort & _) & Hb & Hsg & _). rewrite Hb, Hsg in Hs.
  destruct (_validate_state_fields _) as [state|] eqn:Ev; [|discriminate Hs]. apply valid_state_same in Ev as (-> & Hnd & _).
  destruct (for_each _ _ _) as [x|] eqn:El; [|discriminate Hs]. destruct (sign_before _ _ _ true x) as [x'|] eqn:Ex; [|discriminate Hs].
  destruct (loop_phases _ _ _ _ _ _ _ _ Hsort El Ex) as (pre & post & r1 & s & r2 & Hm & Hpre & Hpost & Hr1 & Hsg' & Hr2 & ->).
  take_step Hs. unfold make_pipeline_result in Hs. pass Hs. take_step Hs. take_step Hs. pass Hs. apply ok_inj in Hs as <-.
  exists pp, pre, post, r1, s, r2. by repeat split.
Qed.
End phases.

(** * What the pipeline does to a request

    Every invocation is accounted for in the evidence, with a digest of the body before and after it; and
    what is signed stays signed while no mutation declares an effect on the signature. *)

(** What an operator promises: its outputs pass the checks of a state, and it leaves signer objects as
    they are, so that the same object is the same signer. *)
Class MutationOperatorLaws (O T : Type) `{MutationOperator O T} := {
  output_valid : forall o i s, apply_mutation o i = Ok s -> _validate_state_fields s = Ok s;
  objects_kept : forall o i s, apply_mutation o i = Ok s -> same_object (ms_signer (mi_state i)) (ms_signer s) = true ->
    ms_signer s = ms_signer (mi_state i)
}.

(** Each invocation took the body the one before it left. *)
Fixpoint digest_chain (digest : str) (evidence : list MutationEvidence) (final : str) : Prop :=
  match evidence with
  | [] => digest = final
  | e :: rest => me_input_body_sha256 e = digest /\ digest_chain (me_output_body_sha256 e) rest final
  end.
Definition invocation (e : MutationEvidence) : str * Z * MutationStage * parameters :=
  (me_operator_id e, me_operator_version e, me_stage e, me_parameters_safe e).
Definition requested (m : RealizedMutation) : str * Z * MutationStage * parameters :=
  (rz_operator_id m, rz_operator_version m, rz_stage m, rz_parameters_safe m).

Lemma named_untargeted targets name headers : name ∉ targets -> named name (untargeted targets headers) = named name headers.
Proof.
  intros Hn. induction headers as [|h headers IH]; [done|]. unfold untargeted, named in *. cbn [List.filter].
  destruct (bool_decide (header_name h = name)) eqn:E; cbn [List.filter].
  - apply bool_decide_eq_true in E. rewrite E, (bool_decide_false (name ∈ targets)) by done. cbn [negb List.filter].
    rewrite E, (bool_decide_true (name = name)) by done. by rewrite IH.
  - destruct (negb _); cbn [List.filter]; [rewrite E|]; apply IH.
Qed.

Section effects.
Context {T O : Type} `{Signer T, MutationOperator O T}.
Abbreviation Prepared := (@_PreparedMutation O).
Abbreviation Snapshot := (@_SignerSnapshot T).

Definition input_of (m : Prepared) (state : MutationState T) (event_id media_type : str) : MutationInput T :=
  {| mi_realized := pm_realized m; mi_state := state; mi_event_id := event_id; mi_media_type := media_type |}.

(** What is known of an applied mutation: the operator ran, and its effects are those declared. *)
Record applied (event_id media_type : str) (expected : option Snapshot) (m : Prepared) (before after : MutationState T)
    (evidence : MutationEvidence) : Prop := {
  ap_operator : apply_mutation (mr_implementation (pm_registration m)) (input_of m before event_id media_type) = Ok after;
  ap_distinct : NoDup (map header_name (ms_headers after));
  ap_body : mr_changes_body (pm_registration m) = false -> ms_body after = ms_body before;
  ap_time : mr_may_change_signing_time (pm_registration m) = false -> ms_signing_time_ns after = ms_signing_time_ns before;
  ap_signer : mr_may_replace_signer (pm_registration m) = false -> same_object (ms_signer before) (ms_signer after) = true;
  ap_headers : _validate_header_effects (ms_headers before) (ms_headers after) (pm_registration m) expected = Ok tt;
  ap_evidence : evidence =
    {| me_operator_id := rz_operator_id (pm_realized m); me_operator_version := rz_operator_version (pm_realized m);
       me_stage := rz_stage (pm_realized m); me_parameters_safe := rz_parameters_safe (pm_realized m);
       me_input_body_sha256 := sha256_digest (ms_body before); me_output_body_sha256 := sha256_digest (ms_body after) |}
}.

Lemma apply_applied l event_id media_type expected state m a :
  _apply_one l event_id media_type expected state m = Ok a -> applied event_id media_type expected m state a.1 a.2.
Proof.
  unfold _apply_one. intros Hs. take_step Hs. unfold make_input in Hs. destruct (_validate_event_id _); [|discriminate Hs].
  destruct (_validate_media_type _); [|discriminate Hs]. destruct (apply_operator _ _) as [output|] eqn:Eo; [|discriminate Hs].
  destruct (_validate_state_fields output) as [after|] eqn:Ev; [|discriminate Hs]. apply valid_state_same in Ev as (-> & Hnd & _).
  take_step Hs. destruct (_validate_declared_effects _ _ _ _) as [[]|] eqn:Ed; [|discriminate Hs]. take_step Hs.
  destruct (validate_mutation_evidence _) as [evidence|] eqn:Ee; [|discriminate Hs]. apply ok_inj in Hs as <-. cbn [fst snd].
  unfold validate_mutation_evidence in Ee. take_step Ee. take_step Ee. take_step Ee. apply ok_inj in Ee as <-.
  unfold _validate_declared_effects in Ed. destruct (negb _ && _) eqn:Eb in Ed; [discriminate Ed|].
  destruct (negb _ && _) eqn:Et in Ed; [discriminate Ed|]. destruct (if same_object _ _ then _ else _) as [[]|] eqn:Es; [|discriminate Ed].
  constructor; [|done| | | |done|done].
  - unfold apply_operator in Eo. fold (input_of m state event_id media_type) in Eo. destruct (apply_mutation _ _) as [o|e]; [exact Eo|by destruct e].
  - intros Hc. rewrite Hc, andb_true_r in Eb. by apply negb_bool_decide_false in Eb.
  - intros Hc. rewrite Hc, andb_true_r in Et. apply negb_false_iff, Z.eqb_eq in Et. done.
  - intros Hc. destruct (same_object _ _); [done|]. rewrite Hc in Es. discriminate Es.
Qed.

(** The headers of a name no declared effect targets stay as they are. *)
Lemma effects_named before after (r : MutationRegistration O) (expected : option Snapshot) name :
  _validate_header_effects before after r expected = Ok tt -> name ∉ allowed_removed r expected -> name ∉ allowed_written r expected ->
  named name after = named name before.
Proof.
  unfold _validate_header_effects. intros Hv Hr Hw. destruct (_ || _); [discriminate Hv|]. destruct (negb _) eqn:E in Hv; [discriminate Hv|].
  apply negb_bool_decide_false in E. rewrite <- (named_untargeted (allowed_removed r expected ++ allowed_written r expected) name after),
    <- E, named_untargeted; [done|..]; rewrite elem_of_app; tauto.
Qed.

Lemma owned_kept event_id media_type expected m before after evidence name :
  applied event_id media_type expected m before after evidence -> respects expected m ->
  mr_signature_header_action (pm_registration m) = Action_NONE -> name ∈ signer_headers expected ->
  named name (ms_headers after) = named name (ms_headers before).
Proof.
  intros Ha Hr Hn Hname. specialize (Hr Hn name Hname). unfold static_targets in Hr. rewrite elem_of_app in Hr.
  eapply effects_named; [by eapply ap_headers|..]; [unfold allowed_removed|unfold allowed_written]; rewrite Hn, app_nil_r; tauto.
Qed.

(** ** Evidence *)

Lemma run_chain l event_id media_type expected ms state r :
  run_mutations l event_id media_type expected state ms = Ok r ->
  digest_chain (sha256_digest (ms_body state)) r.2 (sha256_digest (ms_body r.1)) /\
  map invocation r.2 = map requested (map pm_realized ms).
Proof.
  revert state r. induction ms as [|m ms IH]; intros state r Hs; [by apply ok_inj in Hs as <-|]. cbn [run_mutations] in Hs.
  destruct (_apply_one _ _ _ _ state m) as [a|] eqn:Ea; [|discriminate Hs]. apply apply_applied in Ea.
  destruct (run_mutations _ _ _ _ a.1 ms) as [k|] eqn:Ek; [|discriminate Hs]. apply ok_inj in Hs as <-. destruct (IH _ _ Ek) as [Hc Hm].
  cbn [fst snd digest_chain map]. rewrite (ap_evidence _ _ _ _ _ _ _ Ea). cbn [me_input_body_sha256 me_output_body_sha256].
  split; [by split|]. by rewrite Hm.
Qed.

Lemma signed_body l event_id expected state s :
  _sign l event_id expected state = Ok s ->
  ms_body s.1.1 = ms_body state /\
  match expected with
  | None => s.1.2 = None /\ s.2 = None
  | Some _ => (exists e, s.1.2 = Some e /\ se_body_sha256 e = sha256_digest (ms_body state)) /\ s.2 = Some (sha256_digest (ms_body state))
  end.
Proof.
  unfold _sign. intros Hs. destruct (ms_signer state) as [sg|]; [|destruct expected; [discriminate Hs|]; by apply ok_inj in Hs as <-].
  destruct (_snapshot_signer sg) as [actual|]; [|discriminate Hs]. pass Hs. take_step Hs. take_step Hs.
  destruct (call_sign sg _) as [r|]; [|discriminate Hs]. destruct (negb (evidence_agrees actual state r)) eqn:Ea; [discriminate Hs|].
  destruct (_validate_state_fields _) as [c|] eqn:Ec; [|discriminate Hs]. apply valid_state_same in Ec as (-> & _). take_step Hs.
  apply ok_inj in Hs as <-. cbn [fst snd ms_body]. destruct expected; [|done]. split; [done|]. split; [|done]. eexists. split; [done|].
  apply negb_false_iff in Ea. unfold evidence_agrees in Ea. rewrite !andb_true_iff, !bool_decide_eq_true in Ea. tauto.
Qed.

Lemma stages_of (p : bool -> Prop) l event_id media_type expected ms state r :
  run_mutations l event_id media_type expected state ms = Ok r ->
  Forall (fun m => p (after_signing (rz_stage (pm_realized m)))) ms -> Forall (fun e => p (after_signing (me_stage e))) r.2.
Proof.
  intros Hs Hf. apply run_chain in Hs as [_ Hm]. revert Hf Hm. generalize r.2. clear. induction ms as [|m ms IH]; intros [|e es] Hf Hm; try done.
  apply list.Forall_cons in Hf as [Hp Hf]. cbn [map] in Hm. injection Hm as H1 H2 H3 H4 Hm. constructor; [by rewrite H3|by apply IH].
Qed.
End effects.

(** * The runtime operators keep the contract

    What each operator of the runtime registry may return: its outputs pass the checks of a state, the
    signer object stays unless the key is replaced, and a replacement owns the same headers. *)

(** Every successful path of an operator ends in one of its outputs. *)
Ltac operator_paths H :=
  repeat match type of H with
  | Raise _ = Ok _ => discriminate H
  | (if ?b then _ else _) = Ok _ => destruct b eqn:?
  | match ?x with _ => _ end = Ok _ => destruct x eqn:?
  end.

Lemma wrong_key_owned delegate context replacement :
  _wrong_key_signer delegate context = Ok replacement -> owned_headers replacement = owned_headers delegate.
Proof.
  unfold _wrong_key_signer. intros Hs. destruct (map _ _) as [|primary additional]; [discriminate Hs|].
  destruct (match delegate with Builtin_generic _ => _ | _ => _ end) as [made|] eqn:E; [|discriminate Hs]. take_step Hs. apply ok_inj in Hs as <-.
  destruct delegate as [s|s|s]; [by apply ok_inj in E as <-|..]; unfold make_stripe_signer, make_standard_signer in E;
    destruct (check_keys _ _ _ _ _ _ _) as [secrets|]; try discriminate E; by apply ok_inj in E as <-.
Qed.

(** The signer of an output. *)
Definition signer_kept (i : MutationInput BuiltinSigner) (s : MutationState BuiltinSigner) : Prop :=
  ms_signer s = ms_signer (mi_state i) \/
  exists old new, ms_signer (mi_state i) = Some old /\ ms_signer s = Some (new_object old new) /\ owned_headers new = owned_headers (so_signer old).

Lemma runtime_outputs (o : RuntimeOperator) i s :
  apply_mutation o i = Ok s -> _validate_state_fields s = Ok s /\ signer_kept i s.
Proof.
  assert (forall t : MutationState BuiltinSigner, _validate_state_fields t = Ok s -> signer_kept i t ->
    _validate_state_fields s = Ok s /\ signer_kept i s) as Hfin.
  { intros t Ht Hk. pose proof Ht as Hv. apply valid_state_same in Hv as (-> & _). by split. }
  destruct o; cbn [apply_mutation runtime_operator]; intros Hs;
    unfold truncate_bytes, invalid_json, content_type_mismatch, alter_after_signing, oversized_body, stale_signature_timestamp,
      wrong_signing_key, missing_signature, malformed_signature in Hs; cbv zeta in Hs; operator_paths Hs;
    try (eapply Hfin; [exact Hs|by left]).
  eapply Hfin; [exact Hs|]. right. eexists _, _. split; [done|]. split; [done|]. by eapply wrong_key_owned.
Qed.

#[global] Instance runtime_laws : MutationOperatorLaws RuntimeOperator BuiltinSigner.
Proof.
  split; intros o i s Ha; destruct (runtime_outputs o i s Ha) as [Hv Hk]; [done|]. intros Hsame.
  destruct Hk as [Hk|(old & new & Ho & Hn & _)]; [done|]. rewrite Ho, Hn in Hsame. cbn [same_object new_object so_identity] in Hsame.
  apply Z.eqb_eq in Hsame. lia.
Qed.
