(* ===== verification/PipelineSafety.v ===== *)
(** * What a mutated delivery proves

    The evidence accounts for the delivered body; a plan that leaves the signature alone is delivered with
    a signature that verifies; and a plan with a signature fault is delivered with one that does not. *)

From S2P Require Import Prelude Sha256 Text TextLemmas Commands Json JsonFlat Hashing Base64 Signing HmacSigners SignerTexts SignerLaws Signatures Mutations MutationPipeline MutationOperators PipelineLaws.

Local Open Scope Z_scope.

(** C21: The evidence accounts for the delivered body, whatever the operators do.  There is one record per
    requested mutation, in the order requested; the first took the body of the request, each next one the
    body the last left, and the delivered digest is that of the delivered body.  The digest reported as
    signed, which is also the one in the signing evidence, is the one reached between the mutations of the
    stages up to signing and those after it, and is absent exactly when no signer was selected. *)
Theorem delivered_body_accounted {T O : Type} `{Signer T, MutationOperator O T} (p : @MutationPipeline O) (q : PipelineRequest) res :
  execute p q = Ok res ->
  exists before after signed,
    pr_mutation_evidence res = before ++ after /\
    map invocation (pr_mutation_evidence res) = map requested (rq_mutations q) /\
    Forall (fun e => after_signing (me_stage e) = false) before /\ Forall (fun e => after_signing (me_stage e) = true) after /\
    digest_chain (sha256_digest (rq_body q)) before signed /\ digest_chain signed after (sha256_digest (pr_body res)) /\
    pr_delivered_body_sha256 res = sha256_digest (pr_body res) /\
    pr_signed_body_sha256 res = option_map (fun _ => signed) (rq_signer q) /\
    option_map se_body_sha256 (pr_signing_evidence res) = option_map (fun _ => signed) (rq_signer q).
Proof.
  intros Hs. destruct (execute_phases p q res Hs) as (pp & pre & post & r1 & s & r2 & Hp & Hm & Hpre & Hpost & _ & Hr1 & Hsign & Hr2 & ->).
  destruct (preflight_facts p q pp Hp) as (Hreq & _ & _ & _ & Hsnap). destruct (signed_body _ _ _ _ _ Hsign) as [Hb Hse].
  pose proof (run_chain _ _ _ _ _ _ _ Hr1) as [Hc1 Hi1]. pose proof (run_chain _ _ _ _ _ _ _ Hr2) as [Hc2 Hi2]. rewrite Hb in Hc2.
  exists r1.2, r2.2, (sha256_digest (ms_body r1.1)). cbn [pr_mutation_evidence pr_body pr_delivered_body_sha256 pr_signed_body_sha256 pr_signing_evidence].
  split; [done|]. split; [rewrite map_app, Hi1, Hi2, <- Hreq, Hm; by rewrite !map_app|].
  split; [by eapply (stages_of (fun b => b = false))|]. split; [by eapply (stages_of (fun b => b = true))|].
  split; [exact Hc1|]. split; [exact Hc2|]. split; [done|]. unfold snapshot_of in Hsnap.
  destruct (rq_signer q), (pp_signer_snapshot pp); try done.
  - destruct Hse as ((e & -> & He) & ->). cbn [option_map]. by rewrite He.
  - destruct Hse as (-> & ->). done.
Qed.

(** ** The headers a receiver verifies *)

(** Those of the names a signer owns. *)
Definition signature_headers (names : list str) (headers : list SignatureHeader) : list SignatureHeader :=
  List.filter (fun h => bool_decide (header_name h ∈ names)) headers.

Lemma named_signature names name headers : name ∈ names -> named name (signature_headers names headers) = named name headers.
Proof.
  intros Hn. induction headers as [|h headers IH]; [done|]. unfold signature_headers, named in *. cbn [List.filter].
  destruct (bool_decide (header_name h = name)) eqn:E.
  - apply bool_decide_eq_true in E. rewrite bool_decide_true by (by rewrite E). cbn [List.filter].
    rewrite (bool_decide_true (header_name h = name)) by done. by rewrite IH.
  - destruct (bool_decide (header_name h ∈ names)); cbn [List.filter]; [rewrite E|]; apply IH.
Qed.

Lemma signature_bound names headers : NoDup (map header_name headers) -> (length (signature_headers names headers) <= length names)%nat.
Proof.
  intros Hd. rewrite <- (length_map header_name). apply submseteq_length, NoDup_submseteq.
  - induction headers as [|h headers IH]; [constructor|]. cbn [map] in Hd. apply list.NoDup_cons in Hd as [Hh Hd].
    unfold signature_headers. cbn [List.filter]. destruct (bool_decide _); [|by apply IH]. cbn [map]. apply list.NoDup_cons. split; [|by apply IH].
    intros Hin. apply Hh. apply list_elem_of_In, in_map_iff in Hin as (k & <- & Hk). apply filter_In in Hk as [Hk _].
    by apply list_elem_of_In, in_map.
  - intros x Hx. apply list_elem_of_In, in_map_iff in Hx as (k & <- & Hk). apply filter_In in Hk as [_ Hk]. by apply bool_decide_eq_true in Hk.
Qed.

Lemma named_appended name (a b : list SignatureHeader) :
  NoDup (map header_name (a ++ b)) -> name ∈ map header_name b -> named name (a ++ b) = named name b.
Proof.
  rewrite map_app, list.NoDup_app. intros (_ & Hd & _) Hn. unfold named. rewrite List.filter_app. fold (named name a) (named name b).
  rewrite (named_none name a); [done|]. apply list.Forall_forall. intros h Hh Heq. apply (Hd name); [|done].
  rewrite <- Heq. by apply list_elem_of_In, in_map, list_elem_of_In.
Qed.

Lemma normalized_count room l k : normalize_headers room l = Ok k -> (length l <= room)%nat.
Proof.
  revert room k. induction l as [|v l IH]; intros [|room] k Hs; cbn [normalize_headers length] in *; try lia; [discriminate Hs|].
  destruct (_validate_header_name v); [|discriminate Hs]. destruct (normalize_headers room l) eqn:E; [|discriminate Hs].
  specialize (IH _ _ E). lia.
Qed.

Lemma snapshot_bound {T} `{Signer T} (s : SignerObject T) sn : _snapshot_signer s = Ok sn ->
  zlen (owned_headers (so_signer s)) <= MAX_SIGNER_HEADERS /\ sn_owned_headers sn = map ascii_lower (owned_headers (so_signer s)).
Proof.
  unfold _snapshot_signer. intros Hs. cbv zeta in Hs. pass Hs. destruct (validate_header_ownership _ _) as [owned|] eqn:Eo; [|discriminate Hs].
  apply ok_inj in Hs as <-. cbn [sn_owned_headers]. pose proof (ownership_facts _ _ _ Eo) as [-> _]. split; [|done].
  unfold validate_header_ownership, _normalize_header_sequence in Eo. destruct (normalize_headers _ (owned_headers _)) as [n|] eqn:En; [|discriminate Eo].
  clear Eo. apply normalized_count in En. unfold zlen, MAX_SIGNER_HEADERS in *. lia.
Qed.

(** ** An untouched signature *)

Section untouched.
Context {T O : Type} `{SignerLaws T, MutationOperatorLaws O T}.

(** A mutation that declares no effect on the signature, nor on the body once it is signed. *)
Definition quiet (m : @_PreparedMutation O) : Prop :=
  let r := pm_registration m in
  mr_signature_header_action r = Action_NONE /\ signing_effect r = false /\
  (after_signing (rz_stage (pm_realized m)) = true -> mr_changes_body r = false).

Lemma run_quiet l event_id media_type expected ms (state : MutationState T) r :
  Forall quiet ms -> Forall (respects expected) ms -> run_mutations l event_id media_type expected state ms = Ok r ->
  ms_signer r.1 = ms_signer state /\ ms_signing_time_ns r.1 = ms_signing_time_ns state /\
  (Forall (fun m => after_signing (rz_stage (pm_realized m)) = true) ms -> ms_body r.1 = ms_body state) /\
  (forall name, name ∈ signer_headers expected -> named name (ms_headers r.1) = named name (ms_headers state)) /\
  (NoDup (map header_name (ms_headers state)) -> NoDup (map header_name (ms_headers r.1))).
Proof.
  revert state r. induction ms as [|m ms IH]; intros state r Hq Hr Hs; [apply ok_inj in Hs as <-; by repeat split|].
  apply list.Forall_cons in Hq as [(Hn & Hse & Hb) Hq]. apply list.Forall_cons in Hr as [Hrm Hr]. cbn [run_mutations] in Hs.
  destruct (_apply_one _ _ _ _ state m) as [a|] eqn:Ea; [|discriminate Hs]. apply apply_applied in Ea.
  destruct (run_mutations _ _ _ _ a.1 ms) as [k|] eqn:Ek; [|discriminate Hs]. apply ok_inj in Hs as <-. cbn [fst].
  destruct (IH _ _ Hq Hr Ek) as (Q1 & Q2 & Q3 & Q4 & Q5). apply orb_false_iff in Hse as [Ht Hp].
  split_and!.
  - rewrite Q1. exact (objects_kept _ _ _ (ap_operator _ _ _ _ _ _ _ Ea) (ap_signer _ _ _ _ _ _ _ Ea Hp)).
  - rewrite Q2. exact (ap_time _ _ _ _ _ _ _ Ea Ht).
  - intros Hf. apply list.Forall_cons in Hf as [Hm Hf]. rewrite (Q3 Hf). exact (ap_body _ _ _ _ _ _ _ Ea (Hb Hm)).
  - intros name Hname. rewrite (Q4 name Hname). exact (owned_kept _ _ _ _ _ _ _ _ Ea Hrm Hn Hname).
  - intros _. exact (Q5 (ap_distinct _ _ _ _ _ _ _ Ea)).
Qed.

(** A signature of the state it was made in. *)
Lemma signed_state l event_id sn (state : MutationState T) sg s :
  _sign l event_id (Some sn) state = Ok s -> ms_signer state = Some sg -> signer_ok (so_signer sg) ->
  let i := {| body := ms_body state; event_id := event_id; logical_time_ns := ms_signing_time_ns state |} in
  exists r, validate_signing_input i = Ok i /\ sign (so_signer sg) i = Ok r /\ s.1.2 = Some (sr_evidence r) /\
    ms_body s.1.1 = ms_body state /\ ms_signer s.1.1 = Some sg /\ NoDup (map header_name (ms_headers s.1.1)) /\
    sn_owned_headers sn = owned_headers (so_signer sg) /\
    forall name, name ∈ owned_headers (so_signer sg) -> named name (ms_headers s.1.1) = named name (sr_headers r).
Proof.
  unfold _sign. intros Hs Hsg Hok. rewrite Hsg in Hs. destruct (_snapshot_signer sg) as [actual|]; [|discriminate Hs].
  destruct (negb (same_contract actual sn)) eqn:Esame; [discriminate Hs|]. take_step Hs.
  destruct (validate_signing_input _) as [i|] eqn:Ei; [|discriminate Hs].
  assert (i = {| body := ms_body state; event_id := event_id; logical_time_ns := ms_signing_time_ns state |}) as ->.
  { unfold validate_signing_input in Ei. pass Ei. take_step Ei. take_step Ei. by apply ok_inj in Ei. }
  destruct (call_sign sg _) as [r|] eqn:Er; [|discriminate Hs]. destruct (negb (evidence_agrees actual state r)) eqn:Ea; [discriminate Hs|].
  destruct (_validate_state_fields _) as [c|] eqn:Ec; [|discriminate Hs]. apply valid_state_same in Ec as (-> & Hnd & _). take_step Hs.
  apply ok_inj in Hs as <-. cbn [fst snd ms_body ms_signer ms_headers] in *.
  assert (sign (so_signer sg) {| body := ms_body state; event_id := event_id; logical_time_ns := ms_signing_time_ns state |} = Ok r) as Hr.
  { unfold call_sign in Er. destruct (sign _ _) as [x|x]; [exact Er|by destruct x]. }
  pose proof (sign_owned _ _ _ Hok Hr) as Hown. exists r. split_and!; try done.
  - apply negb_false_iff in Ea, Esame. unfold evidence_agrees, same_contract in *.
    apply andb_true_iff in Ea as [_ Ea%bool_decide_eq_true], Esame as [_ Esame%bool_decide_eq_true]. by rewrite <- Esame, <- Ea.
  - intros name Hname. apply named_appended; [done|]. by rewrite Hown.
Qed.

Lemma untouched_verifies (p : @MutationPipeline O) q res sg :
  execute p q = Ok res -> rq_signer q = Some sg -> signer_ok (so_signer sg) ->
  (forall m r, m ∈ rq_mutations q -> registration_of (mp_registry p) m = Ok r -> quiet {| pm_realized := m; pm_registration := r |}) ->
  exists e, pr_signing_evidence res = Some e /\
    verify (so_signer sg) {| body := pr_body res; event_id := rq_event_id q; logical_time_ns := rq_logical_time_ns q |}
      (signature_headers (owned_headers (so_signer sg)) (pr_headers res))
    = Ok {| vr_valid := true; vr_reason := Reason_VALID; vr_evidence := e |}.
Proof.
  intros Hs Hsg Hok Hquiet. destruct (execute_phases p q res Hs) as (pp & pre & post & r1 & s & r2 & Hp & Hm & Hpre & Hpost & Hnd & Hr1 & Hsign & Hr2 & ->).
  destruct (preflight_facts p q pp Hp) as (Hreq & (Hreg & _ & Hresp & _) & _ & _ & Hsnap).
  assert (Forall quiet (pp_mutations pp)) as Hq.
  { apply list.Forall_forall. intros m Hin. rewrite list.Forall_forall in Hreg. specialize (Hreg m Hin). destruct m as [m r].
    apply Hquiet; [|exact Hreg]. rewrite <- Hreq. by apply (list_elem_of_fmap_2 pm_realized _ _ Hin). }
  rewrite Hm in Hq, Hresp. apply list.Forall_app in Hq as [Hq1 Hq2], Hresp as [Hp1 Hp2]. rewrite Hsg in Hsnap, Hr1.
  destruct (pp_signer_snapshot pp) as [sn|]; [|by unfold snapshot_of in Hsnap]. cbn [snapshot_of] in Hsnap.
  destruct (run_quiet _ _ _ _ _ _ _ Hq1 Hp1 Hr1) as (Q1 & Q2 & _ & _ & _). cbn [ms_signer ms_signing_time_ns] in Q1, Q2.
  destruct (signed_state _ _ _ _ _ _ Hsign Q1 Hok) as (r & Hi & Hr & He & Hb & Hs' & Hd & Hown & Hname).
  destruct (run_quiet _ _ _ _ _ _ _ Hq2 Hp2 Hr2) as (_ & _ & Q3 & Q4 & Q5). cbn [pr_signing_evidence pr_body pr_headers].
  exists (sr_evidence r). split; [exact He|]. rewrite (Q3 Hpost), Hb. rewrite Q2 in Hi, Hr. apply verify_signed; [done..| |].
  - destruct (snapshot_bound _ _ Hsnap) as [Hl _]. pose proof (signature_bound (owned_headers (so_signer sg)) _ (Q5 Hd)). unfold zlen in *. lia.
  - intros name Hin. rewrite named_signature by done. rewrite Q4; [by apply Hname|]. cbn [signer_headers]. by rewrite Hown.
Qed.
End untouched.

(** ** A worked delivery *)

Definition mutation (operator_id : str) (stage : MutationStage) (values : parameters) : RealizedMutation :=
  {| rz_operator_id := operator_id; rz_operator_version := 1; rz_stage := stage; rz_parameters := values; rz_parameters_safe := [] |}.
Definition example_pipeline : @MutationPipeline RuntimeOperator :=
  {| mp_registry := _RUNTIME_MUTATION_REGISTRY; mp_limits := default_limits |}.
Definition example_object : SignerObject BuiltinSigner := {| so_identity := 0; so_signer := example_signer |}.
Definition example_request (mutations : list RealizedMutation) : @PipelineRequest BuiltinSigner :=
  {| rq_body := ascii_bytes (u "{}"); rq_headers := [{| header_name := u "content-type"; header_value := u "application/json" |}];
     rq_event_id := u "evt_1"; rq_logical_time_ns := 1700000000000000000; rq_media_type := u "application/json";
     rq_signer := Some example_object; rq_mutations := mutations |}.
Definition truncated : RealizedMutation := mutation TRUNCATE_BYTES_V1 RAW_PRE_SIGN [(u "length", JInt 1)].
Definition retyped : RealizedMutation := mutation CONTENT_TYPE_MISMATCH_V1 HEADER_PRE_SIGN [(u "media_type", JString (u "text/plain"))].
Definition altered : RealizedMutation := mutation ALTER_AFTER_SIGNING_V1 RAW_POST_SIGN [(u "offset", JInt 0); (u "xor", JInt 1)].
Definition unsigned : RealizedMutation := mutation MISSING_SIGNATURE_V1 HEADER_POST_SIGN [].
Definition garbled : RealizedMutation := mutation MALFORMED_SIGNATURE_V1 HEADER_POST_SIGN [(u "case", JString (u "duplicate-component"))].

Example altered_delivery :
  match execute example_pipeline (example_request [truncated; retyped; altered]) with
  | Ok r => Some (pr_body r, map header_name (pr_headers r), pr_signed_body_sha256 r)
  | Raise _ => None
  end = Some (ascii_bytes (u "z"), [u "content-type"; u "stripe-signature"], Some (sha256_digest (ascii_bytes (u "{")))).
Proof. vm_compute. reflexivity. Qed.

Lemma delivered_body_accounted_witness :
  exists res, execute example_pipeline (example_request [truncated; altered]) = Ok res /\
    exists before after signed, pr_mutation_evidence res = before ++ after /\ digest_chain (sha256_digest (ascii_bytes (u "{}"))) before signed.
Proof.
  destruct (execute example_pipeline (example_request [truncated; altered])) as [res|e] eqn:E.
  2: { exfalso. assert (is_ok (execute example_pipeline (example_request [truncated; altered])) = true) as Hok by (vm_compute; reflexivity).
       by rewrite E in Hok. }
  exists res. split; [reflexivity|].
  destruct (delivered_body_accounted example_pipeline (example_request [truncated; altered]) res E) as (before & after & signed & H1 & _ & _ & _ & H2 & _).
  exists before, after, signed. split; [exact H1|exact H2].
Defined.
