(* ===== verification/PipelineFaults.v ===== *)
(** * Signature faults of the runtime

    Plans over the runtime registry: those that leave the signature alone are delivered with a valid one,
    and the missing and malformed signature faults are delivered as such, whatever else is in the plan. *)

From S2P Require Import Prelude Sha256 Text TextLemmas Commands Json JsonFlat Hashing Base64 Signing HmacSigners SignerTexts SignerLaws Signatures Mutations MutationPipeline MutationOperators PipelineLaws PipelineSafety.

Local Open Scope Z_scope.

(** ** The runtime registry *)

Lemma runtime_registered m r :
  registration_of _RUNTIME_MUTATION_REGISTRY m = Ok r ->
  In r runtime_registrations /\ mr_operator_id r = rz_operator_id m /\ mr_stage r = rz_stage m.
Proof.
  rewrite runtime_registry_built. unfold registration_of, by_key. intros Hs.
  destruct (List.find _ runtime_registrations) as [k|] eqn:E; [|destruct (existsb _ _); discriminate Hs].
  pass Hs. apply ok_inj in Hs as <-. apply find_some in E as [Hin Hk]. apply bool_decide_eq_true in Hk. injection Hk as Hid _.
  split; [exact Hin|]. split; [exact Hid|]. by apply negb_bool_decide_false in E0.
Qed.

(** A check over the nine registrations. *)
Lemma runtime_check (f : MutationRegistration RuntimeOperator -> bool) m r :
  forallb f runtime_registrations = true -> registration_of _RUNTIME_MUTATION_REGISTRY m = Ok r -> f r = true.
Proof. intros Hf (Hin & _)%runtime_registered. by apply (proj1 (forallb_forall f _) Hf). Qed.

(** The operators that leave the signature alone. *)
Definition SIGNATURE_KEEPING : list str := [TRUNCATE_BYTES_V1; INVALID_JSON_V1; CONTENT_TYPE_MISMATCH_V1; OVERSIZED_BODY_V1].
Definition keeps_signature (r : MutationRegistration RuntimeOperator) : bool :=
  implb (bool_decide (mr_operator_id r ∈ SIGNATURE_KEEPING))
    (bool_decide (mr_signature_header_action r = Action_NONE) && negb (signing_effect r) && negb (after_signing (mr_stage r))).

(** C20: Mutations made before signing are signed.  For every plan of the runtime registry that only truncates,
    enlarges or breaks the body or changes the content type, and every built-in signer, the delivered
    headers of the names the signer owns verify for the delivered, mutated body, with the very evidence
    the pipeline reports. *)
Theorem unaltered_signature_verifies (p : @MutationPipeline RuntimeOperator) (q : @PipelineRequest BuiltinSigner) res sg :
  mp_registry p = _RUNTIME_MUTATION_REGISTRY -> execute p q = Ok res -> rq_signer q = Some sg -> signer_ok (so_signer sg) ->
  Forall (fun m => rz_operator_id m ∈ SIGNATURE_KEEPING) (rq_mutations q) ->
  exists e, pr_signing_evidence res = Some e /\
    verify (so_signer sg) {| body := pr_body res; event_id := rq_event_id q; logical_time_ns := rq_logical_time_ns q |}
      (signature_headers (owned_headers (so_signer sg)) (pr_headers res))
    = Ok {| vr_valid := true; vr_reason := Reason_VALID; vr_evidence := e |}.
Proof.
  intros Hreg Hs Hsg Hok Hids. eapply untouched_verifies; [exact Hs|exact Hsg|exact Hok|]. intros m r Hm Hr. rewrite Hreg in Hr.
  assert (keeps_signature r = true) as Hk by (eapply runtime_check; [vm_compute; reflexivity|exact Hr]).
  apply runtime_registered in Hr as (_ & Hid & Hst). rewrite list.Forall_forall in Hids. specialize (Hids m Hm).
  unfold keeps_signature in Hk. rewrite Hid, bool_decide_true in Hk by done. cbn [implb] in Hk.
  rewrite !andb_true_iff, bool_decide_eq_true, !negb_true_iff in Hk. destruct Hk as ((Hn & He) & Ha).
  split; [exact Hn|]. split; [exact He|]. cbn [pm_realized pm_registration]. rewrite <- Hst. congruence.
Qed.

(** ** Signers under mutation *)

Lemma owned_lower (b : BuiltinSigner) : signer_ok b -> map ascii_lower (owned_headers b) = owned_headers b.
Proof.
  destruct b as [s|s|s]; cbn [signer_ok builtin_laws owned_headers builtin_signer map]; intros Hok.
  - cbn. by rewrite (generic_header s Hok).
  - cbn. by rewrite (proj1 (stripe_facts s Hok)).
  - cbn [owned_headers standard_signer standard_owned_headers map]. by rewrite (proj1 (standard_facts s Hok)).
Qed.

Lemma owned_some (b : BuiltinSigner) : exists name, name ∈ owned_headers b.
Proof. destruct b as [s|s|s]; eexists; left. Qed.

(** The signer of a state owns these headers. *)
Definition owner (names : list str) (state : MutationState BuiltinSigner) : Prop :=
  exists sg, ms_signer state = Some sg /\ owned_headers (so_signer sg) = names.

Section runs.
Context (l : MutationPipelineLimits) (event_id media_type : str) (expected : option (@_SignerSnapshot BuiltinSigner)).
Abbreviation Prepared := (@_PreparedMutation RuntimeOperator).
Abbreviation run := (@run_mutations BuiltinSigner RuntimeOperator _ _ l event_id media_type expected).

Lemma run_owner names (ms : list Prepared) state r : run state ms = Ok r -> owner names state -> owner names r.1.
Proof.
  revert state r. induction ms as [|m ms IH]; intros state r Hs Ho; [by apply ok_inj in Hs as <-|]. cbn [run_mutations] in Hs.
  destruct (_apply_one _ _ _ _ state m) as [a|] eqn:Ea; [|discriminate Hs]. apply apply_applied in Ea.
  destruct (run_mutations _ _ _ _ a.1 ms) as [k|] eqn:Ek; [|discriminate Hs]. apply ok_inj in Hs as <-. cbn [fst].
  apply (IH _ _ Ek). destruct Ho as (sg & Hsg & Hn). apply ap_operator, runtime_outputs in Ea as [_ [Hk|(old & new & Hold & Hnew & Hown)]].
  - exists sg. by rewrite Hk.
  - exists (new_object old new). split; [exact Hnew|]. cbn [input_of mi_state] in Hold. rewrite Hsg in Hold. injection Hold as <-.
    cbn [new_object so_signer]. by rewrite Hown.
Qed.

Lemma sign_owner names state s : _sign l event_id expected state = Ok s -> owner names state -> owner names s.1.1.
Proof.
  unfold _sign. intros Hs (sg & Hsg & Hn). exists sg. rewrite Hsg in Hs. split; [|exact Hn]. take_step Hs. pass Hs. repeat take_step Hs.
  pass Hs. destruct (_validate_state_fields _) as [c|] eqn:Ec; [|discriminate Hs]. apply valid_state_same in Ec as (-> & _). take_step Hs.
  by apply ok_inj in Hs as <-.
Qed.

(** A run in two parts around one of its mutations. *)
Lemma run_around before m after (state : MutationState BuiltinSigner) r :
  run state (before ++ m :: after) = Ok r ->
  exists r1 a r2, run state before = Ok r1 /\ _apply_one l event_id media_type expected r1.1 m = Ok a /\ run a.1 after = Ok r2 /\ r.1 = r2.1.
Proof.
  revert state r. induction before as [|k before IH]; intros state r Hs; cbn [app run_mutations] in Hs.
  - destruct (_apply_one _ _ _ _ state m) as [a|] eqn:Ea; [|discriminate Hs].
    destruct (run_mutations _ _ _ _ a.1 after) as [r2|] eqn:Er; [|discriminate Hs]. apply ok_inj in Hs as <-.
    exists (state, []), a, r2. by repeat split.
  - destruct (_apply_one _ _ _ _ state k) as [a|] eqn:Ea; [|discriminate Hs].
    destruct (run_mutations _ _ _ _ a.1 (before ++ m :: after)) as [rest|] eqn:Er; [|discriminate Hs]. apply ok_inj in Hs as <-.
    destruct (IH _ _ Er) as (r1 & a' & r2 & H1 & H2 & H3 & H4). exists (r1.1, a.2 :: r1.2), a', r2. cbn [run_mutations fst].
    rewrite Ea, H1. by repeat split.
Qed.

(** Mutations without a signature action keep the signer's headers. *)
Lemma run_headers (ms : list Prepared) (state : MutationState BuiltinSigner) r :
  Forall (respects expected) ms -> Forall (fun m => acts m = false) ms -> run state ms = Ok r ->
  (forall name, name ∈ signer_headers expected -> named name (ms_headers r.1) = named name (ms_headers state)) /\
  (NoDup (map header_name (ms_headers state)) -> NoDup (map header_name (ms_headers r.1))).
Proof.
  revert state r. induction ms as [|m ms IH]; intros state r Hr Ha Hs; [apply ok_inj in Hs as <-; by split|].
  apply list.Forall_cons in Hr as [Hrm Hr]. apply list.Forall_cons in Ha as [Ham Ha]. cbn [run_mutations] in Hs.
  destruct (_apply_one _ _ _ _ state m) as [a|] eqn:Ea; [|discriminate Hs]. apply apply_applied in Ea.
  destruct (run_mutations _ _ _ _ a.1 ms) as [k|] eqn:Ek; [|discriminate Hs]. apply ok_inj in Hs as <-. cbn [fst].
  destruct (IH _ _ Hr Ha Ek) as [H1 H2]. apply negb_bool_decide_false in Ham. split.
  - intros name Hname. rewrite (H1 name Hname). exact (owned_kept _ _ _ _ _ _ _ _ Ea Hrm Ham Hname).
  - intros _. exact (H2 (ap_distinct _ _ _ _ _ _ _ Ea)).
Qed.
End runs.

(** ** The faults *)

Lemma malformed_unreadable (b : BuiltinSigner) case value : _malformed_value case = Some value -> unreadable b value.
Proof.
  intros Hc. assert (In value (map u ["v1=!"; "v1"; "v1:00"; "v1=00,v1=11"])) as Hin.
  { unfold _malformed_value in Hc. repeat case_bool_decide; try discriminate Hc; injection Hc as <-; cbn [map In]; tauto. }
  clear Hc. destruct b as [s|s|s]; cbn [unreadable builtin_laws generic_laws stripe_laws standard_laws].
  - assert (length value <= 11)%nat as Hl by (cbn [map In] in Hin; repeat destruct Hin as [<-|Hin]; [vm_compute; lia..|done]).
    unfold _decode_header_value. destruct (negb _); [done|]. pose proof (length_drop value (length (gs_prefix (g_settings s)))) as Hd.
    destruct (gs_output_encoding (g_settings s)).
    + unfold lower_hex. destruct (length (drop _ value) =? SHA256_HEX_CHARACTERS)%nat eqn:E; [|done].
      apply Nat.eqb_eq in E. unfold SHA256_HEX_CHARACTERS in E. lia.
    + destruct (length (drop _ value) =? SHA256_BASE64_CHARACTERS)%nat eqn:E; [|done].
      apply Nat.eqb_eq in E. unfold SHA256_BASE64_CHARACTERS in E. lia.
  - cbn [map In] in Hin. repeat destruct Hin as [<-|Hin]; [vm_compute; reflexivity..|done].
  - cbn [map In] in Hin. repeat destruct Hin as [<-|Hin]; [vm_compute; by split..|done].
Qed.

Lemma named_unique headers h : NoDup (map header_name headers) -> h ∈ headers -> named (header_name h) headers = [h].
Proof.
  intros Hd Hin. induction headers as [|k headers IH]; [by apply not_elem_of_nil in Hin|]. cbn [map] in Hd. apply list.NoDup_cons in Hd as [Hk Hd].
  unfold named. cbn [List.filter]. fold (named (header_name h) headers). apply elem_of_cons in Hin as [->|Hin].
  - rewrite bool_decide_true by done. rewrite named_none; [done|]. apply list.Forall_forall. intros x Hx Heq. apply Hk.
    rewrite <- Heq. by apply list_elem_of_In, in_map, list_elem_of_In.
  - rewrite bool_decide_false; [by apply IH|]. intros Heq. apply Hk. rewrite Heq. by apply list_elem_of_In, in_map, list_elem_of_In.
Qed.

(** Every name gets its replacement. *)
Lemma replaced_headers names value replacements headers name :
  map_result (fun name => let! h := make_signature_header name value in Ok (name, h)) names = Ok replacements ->
  map ascii_lower names = names -> name ∈ names ->
  let absent := List.filter (fun r => negb (bool_decide (r.1 ∈ map header_name headers))) replacements in
  {| header_name := name; header_value := value |} ∈ map (replace_header replacements) headers ++ map snd (py_sorted fst absent).
Proof.
  intros Hm Hlower Hin absent. set (new := {| header_name := name; header_value := value |}).
  assert (forall r, r ∈ replacements -> r.1 = name -> r.2 = new) as Hall.
  { intros r Hr Hn. apply map_result_ok in Hm. destruct (Forall2_in_r _ _ _ _ Hm Hr) as (n & Hn1 & Hn2). cbv beta in Hn2.
    destruct (make_signature_header n value) as [h|] eqn:Eh; [|discriminate Hn2]. apply ok_inj in Hn2. subst r. cbn [fst snd] in *. subst n.
    apply made_header in Eh as ->. unfold new. f_equal. clear -Hlower Hin. induction names as [|k names IH]; [by apply not_elem_of_nil in Hin|].
    cbn [map] in Hlower. injection Hlower as Hk Hl. apply elem_of_cons in Hin as [->|Hin]; [done|by apply IH]. }
  assert ((name, new) ∈ replacements) as Hr.
  { pose proof (proj1 (map_result_ok _ _ _) Hm) as Hf. destruct (Forall2_in_l _ _ _ _ Hf Hin) as (r & Hr & Hn). cbv beta in Hn.
    destruct (make_signature_header name value) as [h|] eqn:Eh; [|discriminate Hn]. apply ok_inj in Hn. subst r.
    rewrite <- (Hall _ Hr eq_refl). exact Hr. }
  apply elem_of_app. destruct (bool_decide (name ∈ map header_name headers)) eqn:E.
  - left. apply bool_decide_eq_true, list_elem_of_In, in_map_iff in E as (h & Hh & Hhin). apply list_elem_of_In, in_map_iff. exists h. split; [|done].
    unfold replace_header. destruct (List.find _ replacements) as [r|] eqn:Ef.
    + apply find_some in Ef as [Hin' Hb%bool_decide_eq_true]. apply Hall; [by apply list_elem_of_In|by rewrite Hb].
    + apply list_elem_of_In in Hr. pose proof (find_none _ _ Ef _ Hr) as Hb. cbv beta in Hb. apply bool_decide_eq_false in Hb. by rewrite Hh in Hb.
  - right. apply list_elem_of_In, in_map_iff. exists (name, new). split; [done|]. apply list_elem_of_In, elem_of_py_sorted.
    unfold absent. apply list_elem_of_In, filter_In. split; [by apply list_elem_of_In|]. cbn [fst]. by rewrite E.
Qed.

Lemma map_fixed {A} (f : A -> A) l : (forall x, x ∈ l -> f x = x) -> map f l = l.
Proof.
  induction l as [|x l IH]; intros Hf; [done|]. cbn [map]. rewrite Hf by left. f_equal. apply IH. intros y Hy. apply Hf. by right.
Qed.

Lemma owned_names names (i : MutationInput BuiltinSigner) owned :
  owner names (mi_state i) -> map ascii_lower names = names -> _owned_header_names i = Ok owned ->
  (forall name, name ∈ owned <-> name ∈ names) /\ map ascii_lower owned = owned.
Proof.
  intros (sg & Hsg & <-) Hl Ho. unfold _owned_header_names in Ho. rewrite Hsg in Ho. apply ok_inj in Ho as <-.
  split; [intros name; apply elem_of_remove_dups|]. apply map_fixed. intros x Hx. rewrite elem_of_remove_dups in Hx. revert Hl Hx.
  generalize (owned_headers (so_signer sg)). intros names. induction names as [|y names IH]; intros Hl Hx; [by apply not_elem_of_nil in Hx|].
  cbn [map] in Hl. injection Hl as Hy Hl. apply elem_of_cons in Hx as [->|Hx]; [done|by apply IH].
Qed.

Lemma missing_headers names i after name :
  missing_signature i = Ok after -> owner names (mi_state i) -> map ascii_lower names = names -> name ∈ names ->
  named name (ms_headers after) = [].
Proof.
  unfold missing_signature. intros Hs Ho Hl Hn. take_step Hs. destruct (_owned_header_names i) as [owned|] eqn:Eo; [|discriminate Hs].
  destruct (owned_names _ _ _ Ho Hl Eo) as [Hin _]. unfold output_headers in Hs. cbv zeta in Hs. apply valid_state_same in Hs as (-> & _).
  cbn [ms_headers]. apply named_none. apply list.Forall_forall. intros h Hh Heq. unfold untargeted in Hh. apply list_elem_of_In, filter_In in Hh as [_ Hh].
  apply negb_true_iff, bool_decide_eq_false in Hh. apply Hh. by rewrite Heq, Hin.
Qed.

Lemma malformed_headers names i after :
  malformed_signature i = Ok after -> owner names (mi_state i) -> map ascii_lower names = names ->
  exists case value, _malformed_value case = Some value /\
    forall name, name ∈ names -> {| header_name := name; header_value := value |} ∈ ms_headers after.
Proof.
  unfold malformed_signature. intros Hs Ho Hl. take_step Hs. take_step Hs.
  destruct (match a0 with JString s => _malformed_value s | _ => None end) as [value|] eqn:Ev; [|discriminate Hs].
  destruct (_owned_header_names i) as [owned|] eqn:Eo; [|discriminate Hs]. destruct (owned_names _ _ _ Ho Hl Eo) as [Hin Hlow].
  destruct (map_result _ owned) as [replacements|] eqn:Er; [|discriminate Hs].
  unfold output_headers in Hs. cbv zeta in Hs. apply valid_state_same in Hs as (-> & _). cbn [ms_headers].
  destruct a0 as [| | | |case| |]; try discriminate Ev. exists case, value. split; [exact Ev|]. intros name Hname.
  apply (replaced_headers owned); [exact Er|exact Hlow|by apply Hin].
Qed.

(** What a plan with this operator is delivered as. *)
Definition fault_reason (operator_id : str) : option VerificationReason :=
  if bool_decide (operator_id = MISSING_SIGNATURE_V1) then Some Reason_MISSING_HEADER
  else if bool_decide (operator_id = MALFORMED_SIGNATURE_V1) then Some Reason_MALFORMED_HEADER else None.
Lemma fault_reasons operator_id reason :
  fault_reason operator_id = Some reason -> reason = Reason_MISSING_HEADER \/ reason = Reason_MALFORMED_HEADER.
Proof. unfold fault_reason. destruct (bool_decide _); [|destruct (bool_decide _); [|done]]; intros [= <-]; tauto. Qed.
Definition fault_operator (r : MutationRegistration RuntimeOperator) : bool :=
  match fault_reason (mr_operator_id r) with
  | None => true
  | Some reason =>
    bool_decide (mr_stage r = HEADER_POST_SIGN) && negb (bool_decide (mr_signature_header_action r = Action_NONE)) &&
    bool_decide (mr_implementation r = if bool_decide (reason = Reason_MISSING_HEADER) then MissingSignatureV1 else MalformedSignatureV1)
  end.

(** The headers a fault leaves. *)
Definition faulty (names : list str) (b : BuiltinSigner) (reason : VerificationReason) (headers : list SignatureHeader) : Prop :=
  match reason with
  | Reason_MISSING_HEADER => forall name, name ∈ names -> named name headers = []
  | _ => forall name, name ∈ names -> exists h, named name headers = [h] /\ unreadable b (header_value h)
  end.

Lemma fault_applied l event_id media_type expected m (state : MutationState BuiltinSigner) a names b reason :
  _apply_one l event_id media_type expected state m = Ok a -> owner names state -> map ascii_lower names = names ->
  fault_reason (mr_operator_id (pm_registration m)) = Some reason -> fault_operator (pm_registration m) = true ->
  faulty names b reason (ms_headers a.1).
Proof.
  intros Ha Ho Hl Hr Hf. apply apply_applied in Ha. pose proof (ap_operator _ _ _ _ _ _ _ Ha) as Hop. pose proof (ap_distinct _ _ _ _ _ _ _ Ha) as Hd.
  unfold fault_operator in Hf. rewrite Hr in Hf. apply andb_true_iff in Hf as [_ Hi%bool_decide_eq_true]. rewrite Hi in Hop.
  assert (reason = Reason_MISSING_HEADER \/ reason = Reason_MALFORMED_HEADER) as [-> | ->].
  { by eapply fault_reasons. }
  - rewrite bool_decide_true in Hop by done. intros name Hname. by apply (missing_headers names _ _ _ Hop).
  - rewrite bool_decide_false in Hop by done. apply (malformed_headers names) in Hop as (case & value & Hv & Hh); [|exact Ho|exact Hl].
    intros name Hname. eexists. split; [apply (named_unique _ _ Hd (Hh name Hname))|]. by eapply malformed_unreadable.
Qed.

Lemma faulty_verified (b : BuiltinSigner) reason headers i r :
  signer_ok b -> sign b i = Ok r -> zlen (owned_headers b) <= MAX_SIGNER_HEADERS -> NoDup (map header_name headers) ->
  reason = Reason_MISSING_HEADER \/ reason = Reason_MALFORMED_HEADER -> faulty (owned_headers b) b reason headers ->
  verify b i (signature_headers (owned_headers b) headers) = Ok {| vr_valid := false; vr_reason := reason; vr_evidence := sr_evidence r |}.
Proof.
  intros Hok Hr Hl Hd Hreason Hf.
  assert (zlen (signature_headers (owned_headers b) headers) <= MAX_SIGNER_HEADERS) as Hs
    by (pose proof (signature_bound (owned_headers b) headers Hd); unfold zlen in *; lia).
  destruct Hreason as [-> | ->].
  - destruct (owned_some b) as [name Hname]. apply (verify_missing _ _ _ _ name Hok Hr Hs Hname). rewrite named_signature by done. by apply Hf.
  - apply (verify_unreadable _ _ _ _ Hok Hr Hs). intros name Hname. rewrite named_signature by done. by apply Hf.
Qed.

(** C19: A signature fault reaches the receiver as that fault.  When a plan of the runtime registry contains
    the missing-signature or the malformed-signature operator, in any of its cases and among any other
    operators the pipeline accepts, verifying the delivered headers with the selected signer reports a
    missing or a malformed header, for every request the signer could sign. *)
Theorem signature_fault_detected (p : @MutationPipeline RuntimeOperator) (q : @PipelineRequest BuiltinSigner) res sg m reason i r :
  mp_registry p = _RUNTIME_MUTATION_REGISTRY -> execute p q = Ok res -> rq_signer q = Some sg -> signer_ok (so_signer sg) ->
  m ∈ rq_mutations q -> fault_reason (rz_operator_id m) = Some reason -> sign (so_signer sg) i = Ok r ->
  verify (so_signer sg) i (signature_headers (owned_headers (so_signer sg)) (pr_headers res))
  = Ok {| vr_valid := false; vr_reason := reason; vr_evidence := sr_evidence r |}.
Proof.
  intros Hrun Hs Hsg Hok Hin Hreason Hr. destruct (execute_phases p q res Hs) as (pp & pre & post & r1 & s & r2 & Hp & Hm & Hpre & _ & _ & Hr1 & Hsign & Hr2 & ->).
  destruct (preflight_facts p q pp Hp) as (Hreq & (Hreg & _ & Hresp & Hacts) & _ & _ & Hsnap). rewrite Hsg in Hsnap, Hr1.
  destruct (pp_signer_snapshot pp) as [sn|]; [|by unfold snapshot_of in Hsnap]. cbn [snapshot_of] in Hsnap.
  destruct (snapshot_bound _ _ Hsnap) as [Hl Hsn]. pose proof (owned_lower _ Hok) as Hlow. rewrite Hlow in Hsn.
  set (names := owned_headers (so_signer sg)) in *.
  (* the fault among the mutations after signing *)
  rewrite <- Hreq in Hin. apply list_elem_of_fmap in Hin as (k & -> & Hk). rewrite list.Forall_forall in Hreg. pose proof (Hreg k Hk) as Hkr. rewrite Hrun in Hkr.
  assert (fault_operator (pm_registration k) = true) as Hf by (eapply runtime_check; [vm_compute; reflexivity|exact Hkr]).
  apply runtime_registered in Hkr as (_ & Hid & Hst). rewrite <- Hid in Hreason. pose proof Hf as Hf'. unfold fault_operator in Hf'. rewrite Hreason in Hf'.
  apply andb_true_iff in Hf' as [[Hstage%bool_decide_eq_true Hact]%andb_true_iff _]. rewrite Hm in Hk. apply elem_of_app in Hk as [Hk|Hk].
  { rewrite list.Forall_forall in Hpre. specialize (Hpre k Hk). cbv beta in Hpre. rewrite <- Hst, Hstage in Hpre. discriminate Hpre. }
  apply list_elem_of_split in Hk as (before & after & ->).
  (* the runs around it *)
  destruct (run_around _ _ _ _ _ _ _ _ _ Hr2) as (ra & a & rb & Ha & Happ & Hb & ->). cbn [pr_headers].
  assert (owner names ra.1) as Ho.
  { eapply run_owner; [exact Ha|]. eapply sign_owner; [exact Hsign|]. eapply run_owner; [exact Hr1|]. by exists sg. }
  rewrite Hm in Hresp, Hacts. apply list.Forall_app in Hresp as [_ Hresp]. apply list.Forall_app in Hresp as [_ Hresp].
  apply list.Forall_cons in Hresp as [_ Hresp].
  assert (Forall (fun m => acts m = false) after) as Hquiet.
  { rewrite !List.filter_app, !length_app in Hacts. cbn [List.filter] in Hacts. unfold acts at 3 in Hacts. rewrite Hact in Hacts. cbn [length] in Hacts.
    apply list.Forall_forall. intros x Hx. destruct (acts x) eqn:Ex; [|done]. exfalso.
    assert (In x (List.filter acts after)) as Hc by (apply filter_In; split; [by apply list_elem_of_In|done]).
    destruct (List.filter acts after); [done|cbn [length] in Hacts; lia]. }
  destruct (run_headers _ _ _ _ _ _ _ Hresp Hquiet Hb) as [Hkept Hnd]. cbn [signer_headers] in Hkept. rewrite Hsn in Hkept.
  pose proof (ap_distinct _ _ _ _ _ _ _ (apply_applied _ _ _ _ _ _ _ Happ)) as Hda.
  assert (reason = Reason_MISSING_HEADER \/ reason = Reason_MALFORMED_HEADER) as Hcases
    by (by eapply fault_reasons).
  apply faulty_verified; [done..|by apply Hnd|done|].
  pose proof (fault_applied _ _ _ _ _ _ _ names (so_signer sg) reason Happ Ho Hlow Hreason Hf) as Hfault.
  destruct Hcases as [-> | ->]; intros name Hname; rewrite (Hkept name Hname); by apply Hfault.
Qed.

(** ** Witnesses *)

Lemma unaltered_signature_verifies_witness :
  exists res e, execute example_pipeline (example_request [truncated; retyped]) = Ok res /\
    verify example_signer {| body := pr_body res; event_id := u "evt_1"; logical_time_ns := 1700000000000000000 |}
      (signature_headers (owned_headers example_signer) (pr_headers res))
    = Ok {| vr_valid := true; vr_reason := Reason_VALID; vr_evidence := e |}.
Proof.
  destruct (execute example_pipeline (example_request [truncated; retyped])) as [res|e] eqn:E.
  2: { exfalso. assert (is_ok (execute example_pipeline (example_request [truncated; retyped])) = true) as Hok by (vm_compute; reflexivity).
       by rewrite E in Hok. }
  assert (Forall (fun m => rz_operator_id m ∈ SIGNATURE_KEEPING) [truncated; retyped]) as Hids
    by (apply (bool_decide_unpack _); vm_compute; reflexivity).
  destruct (unaltered_signature_verifies example_pipeline (example_request [truncated; retyped]) res example_object eq_refl E eq_refl example_ok Hids)
    as (e & _ & Hv).
  exists res, e. split; [reflexivity|exact Hv].
Defined.

Lemma signature_fault_detected_witness :
  exists res r, execute example_pipeline (example_request [retyped; altered; garbled]) = Ok res /\ sign example_signer example_input = Ok r /\
    verify example_signer example_input (signature_headers (owned_headers example_signer) (pr_headers res))
    = Ok {| vr_valid := false; vr_reason := Reason_MALFORMED_HEADER; vr_evidence := sr_evidence r |}.
Proof.
  destruct (execute example_pipeline (example_request [retyped; altered; garbled])) as [res|e] eqn:E.
  2: { exfalso. assert (is_ok (execute example_pipeline (example_request [retyped; altered; garbled])) = true) as Hok by (vm_compute; reflexivity).
       by rewrite E in Hok. }
  destruct (sign example_signer example_input) as [r|e] eqn:Er.
  2: { exfalso. assert (is_ok (sign example_signer example_input) = true) as Hok by (vm_compute; reflexivity). by rewrite Er in Hok. }
  exists res, r. split; [reflexivity|]. split; [reflexivity|].
  assert (garbled ∈ rq_mutations (example_request [retyped; altered; garbled])) as Hin by (right; right; left).
  exact (signature_fault_detected example_pipeline (example_request [retyped; altered; garbled]) res example_object garbled
    Reason_MALFORMED_HEADER example_input r eq_refl E eq_refl example_ok Hin eq_refl Er).
Defined.
