(* ===== verification/PipelineErrors.v ===== *)
(** * How the pipeline fails

    Every failure of a pipeline with valid limits is a classified error of the mutation or of the signer:
    the checks a state, an input or an item of evidence repeats on its own cannot fail by then. *)

From S2P Require Import Prelude Sha256 Text TextLemmas Commands Json JsonFlat Hashing Base64 Signing HmacSigners SignerTexts SignerLaws Signatures Mutations MutationPipeline MutationOperators PipelineLaws PipelineSafety.

Local Open Scope Z_scope.

Definition classified (e : exn) : Prop := match e with MutationError _ | SignerError _ => True | _ => False end.

(** A computation that raises classified errors only. *)
Definition fails_classified {A} (r : result A) : Prop := match r with Ok _ => True | Raise e => classified e end.

Lemma fails_bind {A B} (r : result A) (k : A -> result B) :
  fails_classified r -> (forall a, r = Ok a -> fails_classified (k a)) ->
  fails_classified (match r with Ok a => k a | Raise e => Raise e end).
Proof. destruct r as [a|e]; [intros _ Hk; by apply Hk|by intros He _]. Qed.

Lemma fails_if {A} (b : bool) e (k : result A) : classified e -> (b = false -> fails_classified k) -> fails_classified (raise_if b with e ;; k).
Proof. destruct b; [done|]. intros _ Hk. by apply Hk. Qed.

Lemma fails_for_each {A S} (P : S -> Prop) (step : S -> A -> result S) l s :
  P s -> (forall s a, P s -> a ∈ l -> fails_classified (step s a) /\ forall s', step s a = Ok s' -> P s') -> fails_classified (for_each step s l).
Proof.
  revert s. induction l as [|a l IH]; intros s Hs Hstep; [done|]. cbn [for_each]. destruct (Hstep s a Hs) as [Hf Hp]; [left|].
  apply fails_bind; [exact Hf|]. intros s' Hs'. apply IH; [by apply Hp|]. intros t b Ht Hb. apply Hstep; [done|by right].
Qed.

Lemma for_each_member {A S} (P : S -> Prop) (step : S -> A -> result S) l s s' :
  (forall s a, P s -> a ∈ l -> fails_classified (step s a) /\ forall s', step s a = Ok s' -> P s') -> P s -> for_each step s l = Ok s' -> P s'.
Proof.
  revert s. induction l as [|a l IH]; intros s Hstep Hs Hl; [by apply ok_inj in Hl as <-|]. cbn [for_each] in Hl.
  destruct (step s a) as [t|] eqn:E; [|discriminate Hl]. apply (IH t); [|eapply Hstep; [exact Hs|left|exact E]|exact Hl].
  intros u b Hu Hb. apply Hstep; [done|by right].
Qed.

(** The steps that only raise what they say. *)
Ltac fails_step :=
  match goal with
  | |- fails_classified (if ?b then Raise _ else _) => apply (fails_if b); [exact I|intros ?]
  | |- fails_classified (Ok _) => exact I
  | |- fails_classified (Raise _) => exact I
  | |- fails_classified UNDECLARED => exact I
  | |- fails_classified (match ?r with Ok a => _ | Raise e => Raise e end) => apply (fails_bind r); [|intros ? ?]
  end.

Lemma digest_text b : sha256_text (sha256_digest b) = true.
Proof.
  unfold sha256_text, sha256_digest. rewrite bool_decide_true by done. cbn [andb]. unfold lower_hex. rewrite andb_true_iff. split.
  - apply Nat.eqb_eq. change (drop 7 (u "sha256:" ++ hex_of_bytes (sha256 b))) with (hex_of_bytes (sha256 b)). by rewrite hex_of_bytes_length, sha256_length.
  - change (drop 7 (u "sha256:" ++ hex_of_bytes (sha256 b))) with (hex_of_bytes (sha256 b)). apply hex_of_bytes_hex, sha256_byte.
Qed.

(** ** Header ownership *)

Lemma ownership_raises owned users e : validate_header_ownership owned users = Raise e -> exists code, e = SignerError code.
Proof.
  assert (forall room l x, normalize_headers room l = Raise x -> x = SignerError "SIG_SIGNER_HEADERS_INVALID") as Hn.
  { induction room as [|room IH]; intros [|v l] x Hx; cbn [normalize_headers] in Hx; try (by injection Hx as <-); [discriminate Hx..|].
    destruct (_validate_header_name v); [|by injection Hx as <-]. destruct (normalize_headers room l) eqn:E; [discriminate Hx|].
    injection Hx as <-. by eapply IH. }
  unfold validate_header_ownership, _normalize_header_sequence. intros H.
  destruct (normalize_headers _ owned) as [n|x] eqn:E1; [|injection H as <-; eexists; by eapply Hn].
  destruct (normalize_headers _ users) as [k|x] eqn:E2; [|injection H as <-; eexists; by eapply Hn].
  repeat match type of H with (if ?b then _ else _) = _ => destruct b; [injection H as <-; by eexists|] end. discriminate H.
Qed.

(** Disjoint and few enough to be together in one request. *)
Lemma ownership_room owned users n :
  validate_header_ownership owned users = Ok n ->
  zlen owned + zlen users <= MAX_MUTATION_HEADERS /\ NoDup owned /\ forall name, name ∈ owned -> name ∉ users.
Proof.
  intros Ho. pose proof (ownership_facts _ _ _ Ho) as [-> Hd]. unfold validate_header_ownership, _normalize_header_sequence in Ho.
  destruct (normalize_headers _ owned) as [a|] eqn:Ea; [|discriminate Ho]. destruct (normalize_headers _ users) as [k|] eqn:Ek; [|discriminate Ho].
  pose proof (normalized_count _ _ _ Ea) as Ha. pose proof (normalized_count _ _ _ Ek) as Hk. apply normalized_headers in Ea, Ek. subst a k.
  pass Ho. destruct (shares (map ascii_lower owned) (map ascii_lower users)) eqn:Es in Ho; [discriminate Ho|].
  unfold MAX_SIGNER_HEADERS, MAX_USER_HEADERS, MAX_MUTATION_HEADERS, zlen in *. split; [lia|]. split; [by apply (NoDup_fmap_1 ascii_lower)|].
  intros name Hn Hu. apply (shares_false _ _ Es (ascii_lower name)); by apply list_elem_of_In, in_map, list_elem_of_In.
Qed.

Section errors.
Context {T O : Type} `{Signer T, MutationOperatorLaws O T}.
Abbreviation Snapshot := (@_SignerSnapshot T).

Lemma collision_fails (sn : Snapshot) headers : fails_classified (_reject_signer_input_collision sn headers).
Proof.
  unfold _reject_signer_input_collision. destruct (validate_header_ownership _ _) as [n|e] eqn:E; [done|].
  by apply ownership_raises in E as [code ->].
Qed.

Lemma snapshot_fails (s : SignerObject T) : fails_classified (_snapshot_signer s).
Proof. unfold _snapshot_signer. cbv zeta. fails_step. by destruct (validate_header_ownership _ _). Qed.

Lemma resources_fail l (s : MutationState T) : fails_classified (_validate_state_resources l s).
Proof. unfold _validate_state_resources, _validate_header_resources. cbv zeta. by repeat fails_step. Qed.

Lemma json_fails b code : fails_classified (_require_valid_json b code).
Proof. unfold _require_valid_json. destruct (utf8_decode b); [|done]. by destruct (json_loads _ _). Qed.

Lemma lookup_fails (registry : StaticMutationRegistry O) m : fails_classified (registration_of registry m).
Proof. unfold registration_of. destruct (by_key _ _); [by repeat fails_step|]. by destruct (existsb _ _). Qed.

Lemma claims_fail (r : MutationRegistration O) (sn : option Snapshot) claims : fails_classified (_preflight_header_effects r sn claims).
Proof.
  unfold _preflight_header_effects. fails_step. fails_step. apply (fails_for_each (fun _ => True)); [done|].
  intros k name _ _. split; [|done]. unfold claim_header. by repeat fails_step.
Qed.

Lemma plan_fails registry media_type (sn : option Snapshot) l (p : @Preflight O) :
  fails_classified (for_each (preflight_step registry media_type sn) p l).
Proof.
  apply (fails_for_each (fun _ => True)); [done|]. intros k m _ _. split; [|done]. unfold preflight_step.
  destruct (_detach_realized m); [|done]. fails_step; [apply lookup_fails|]. do 4 fails_step. fails_step; [apply claims_fail|].
  by repeat fails_step.
Qed.

Lemma preflight_fails (p : @MutationPipeline O) q : fails_classified (_preflight p q).
Proof.
  unfold _preflight. fails_step. fails_step.
  { unfold _bounded_headers. fails_step. by destruct (map_result _ _). }
  fails_step; [unfold _bounded_mutations; by repeat fails_step|]. destruct (seed_state _ _ _ _ _ _); [|done].
  fails_step; [unfold _validate_header_resources; cbv zeta; by repeat fails_step|].
  fails_step; [destruct (rq_signer q); [|done]; fails_step; [apply snapshot_fails|done]|].
  fails_step; [match goal with |- fails_classified (match ?x with _ => _ end) => destruct x; [apply collision_fails|done] end|].
  fails_step; [apply plan_fails|].
  fails_step; [destruct (pf_structural_present _); [apply json_fails|done]|]. done.
Qed.

(** ** The loop *)

Section loop.
Context (p : @MutationPipeline O) (event_id media_type : str) (expected : option Snapshot).
Context (Hevent : _validate_event_id event_id = Ok tt) (Hmedia : _validate_media_type media_type = Ok tt).
Context (Hlimit : max_body_bytes (mp_limits p) <= MAX_SIGNING_BODY_BYTES).

(** A state that passes its own checks, with a body within the limit. *)
Definition sound_state (s : MutationState T) : Prop :=
  _validate_state_fields s = Ok s /\ zlen (ms_body s) <= max_body_bytes (mp_limits p).
Definition sound_mutation (m : @_PreparedMutation O) : Prop :=
  _validate_operator_identity (rz_operator_id (pm_realized m)) (rz_operator_version (pm_realized m)) = Ok tt.

Lemma resources_body (s : MutationState T) u : _validate_state_resources (mp_limits p) s = Ok u -> zlen (ms_body s) <= max_body_bytes (mp_limits p).
Proof. unfold _validate_state_resources. intros Hs. pass Hs. lia. Qed.

Lemma effects_fail (before after : MutationState T) (r : MutationRegistration O) : fails_classified (_validate_declared_effects before after r expected).
Proof.
  unfold _validate_declared_effects. destruct (_ && _); [done|]. destruct (_ && _); [done|]. fails_step.
  - destruct (same_object _ _); [done|]. destruct (negb _); [done|]. unfold check_replacement. destruct (ms_signer after) as [sg|], expected as [sn|]; try exact I.
    fails_step; [apply snapshot_fails|]. by repeat fails_step.
  - unfold _validate_header_effects. cbv zeta.
    by repeat match goal with |- fails_classified (if ?b then _ else _) => destruct b end.
Qed.

Lemma apply_fails state m :
  sound_state state -> sound_mutation m ->
  fails_classified (_apply_one (mp_limits p) event_id media_type expected state m) /\
  forall a, _apply_one (mp_limits p) event_id media_type expected state m = Ok a -> sound_state a.1.
Proof.
  intros Hs Hm. split.
  - unfold _apply_one. cbv zeta. fails_step; [destruct (mr_requires_valid_json _); [apply json_fails|done]|].
    unfold make_input. rewrite Hevent, Hmedia. fails_step.
    { unfold apply_operator. destruct (apply_mutation _ _) as [o|e]; [done|by destruct e]. }
    match goal with Hop : apply_operator _ _ = Ok ?x |- _ => unfold apply_operator in Hop; rename Hop into Ho, x into output end.
    destruct (apply_mutation _ _) as [o|e] eqn:Eo; [apply ok_inj in Ho as ->|by destruct e].
    rewrite (output_valid _ _ _ Eo). fails_step; [apply resources_fail|]. fails_step; [apply effects_fail|].
    fails_step; [destruct (bool_decide _); [apply json_fails|done]|]. unfold validate_mutation_evidence.
    cbn [me_operator_id me_operator_version me_input_body_sha256 me_output_body_sha256]. rewrite Hm. unfold validate_sha256_digest.
    by rewrite !digest_text.
  - intros a Ha. split.
    + pose proof (apply_applied _ _ _ _ _ _ _ Ha) as Happ. exact (output_valid _ _ _ (ap_operator _ _ _ _ _ _ _ Happ)).
    + unfold _apply_one in Ha. cbv zeta in Ha. take_step Ha. take_step Ha. take_step Ha.
      destruct (_validate_state_fields _) as [c|]; [|discriminate Ha]. destruct (_validate_state_resources _ c) as [x|] eqn:Ex; [|discriminate Ha].
      take_step Ha. take_step Ha. take_step Ha. apply ok_inj in Ha as <-. exact (resources_body _ _ Ex).
Qed.

Lemma input_valid (state : MutationState T) : sound_state state ->
  let i := {| body := ms_body state; Signing.event_id := event_id; logical_time_ns := ms_signing_time_ns state |} in validate_signing_input i = Ok i.
Proof.
  intros [Hv Hb] i. unfold validate_signing_input, _encode_bounded_text, _validate_logical_time. cbn [body Signing.event_id logical_time_ns i].
  rewrite (proj2 (Z.ltb_ge _ _)) by lia. unfold _validate_event_id in Hevent. destruct (bool_decide (event_id = [])); [discriminate Hevent|].
  destruct (utf8_encode event_id) as [e|]; [|discriminate Hevent]. destruct (_ <? zlen e); [discriminate Hevent|].
  unfold _validate_state_fields in Hv. do 2 pass Hv. destruct (within _ _ _); [done|discriminate Hv].
Qed.

(** The signed state is again sound, and evidence and digest come together. *)
Definition sound_signature (evidence : option SigningEvidence) (digest : option str) : Prop :=
  match evidence, digest with None, None => True | Some _, Some d => sha256_text d = true | _, _ => False end.

Lemma sign_fails state :
  sound_state state ->
  fails_classified (_sign (mp_limits p) event_id expected state) /\
  forall s, _sign (mp_limits p) event_id expected state = Ok s -> sound_state s.1.1 /\ sound_signature s.1.2 s.2.
Proof.
  intros Hs. pose proof (input_valid state Hs) as Hi. unfold _sign. destruct (ms_signer state) as [sg|].
  2: { split; [by destruct expected|]. intros s Hok. destruct expected; [discriminate Hok|]. by apply ok_inj in Hok as <-. }
  cbv zeta in Hi. destruct (_snapshot_signer sg) as [actual|e] eqn:Esn.
  2: { split; [|done]. pose proof (snapshot_fails sg) as Hf. by rewrite Esn in Hf. }
  destruct (match expected with None => true | _ => _ end); [done|]. pose proof (collision_fails actual (ms_headers state)) as Hcol.
  destruct (_reject_signer_input_collision actual (ms_headers state)) as [[]|e] eqn:Ecol; [|by split]. rewrite Hi.
  assert (fails_classified (call_sign sg {| body := ms_body state; Signing.event_id := event_id; logical_time_ns := ms_signing_time_ns state |})) as Hcall.
  { unfold call_sign. destruct (sign _ _) as [x|e]; [done|by destruct e]. }
  destruct (call_sign sg _) as [r|e]; [|by split]. destruct (negb (evidence_agrees actual state r)) eqn:Ea; [done|].
  apply negb_false_iff in Ea. unfold evidence_agrees in Ea. apply andb_true_iff in Ea as [_ Ea%bool_decide_eq_true].
  unfold _reject_signer_input_collision in Ecol. destruct (validate_header_ownership _ _) as [n|e] eqn:Eo; [|by destruct e].
  destruct (ownership_room _ _ _ Eo) as (Hroom & Hnd & Hdis). destruct Hs as [Hv Hb].
  set (candidate := {| ms_body := ms_body state; ms_headers := ms_headers state ++ sr_headers r; ms_signing_time_ns := ms_signing_time_ns state;
                       ms_signer := Some sg |}).
  assert (_validate_state_fields candidate = Ok candidate) as Hc.
  { pose proof (valid_state_same _ _ Hv) as (_ & Hn & _). unfold _validate_state_fields in *. cbn [candidate ms_headers ms_signing_time_ns].
    do 2 pass Hv. rewrite (proj2 (Z.ltb_ge _ _)).
    - rewrite map_app, Ea, bool_decide_true; [cbn [negb]; destruct (within _ _ _); [done|discriminate Hv]|].
      apply list.NoDup_app. split; [done|]. split; [|done]. intros name Hin Ho. exact (Hdis name Ho Hin).
    - unfold zlen in *. rewrite length_app, <- (length_map header_name (sr_headers r)), Ea. rewrite length_map in Hroom. lia. }
  rewrite Hc. pose proof (resources_fail (mp_limits p) candidate) as Hr.
  destruct (_validate_state_resources (mp_limits p) candidate) as [x|e] eqn:Er; [|by split]. split; [done|]. intros s Hok. apply ok_inj in Hok as <-.
  cbn [fst snd]. split; [split; [exact Hc|exact (resources_body _ _ Er)]|]. cbn [sound_signature]. apply digest_text.
Qed.

(** ** The whole execution *)

Definition sound_execution (x : @Execution T) : Prop :=
  sound_state (ex_state x) /\ sound_signature (ex_signing_evidence x) (ex_signed_body_sha256 x).

Lemma signing_fails needed x :
  sound_execution x -> fails_classified (sign_before (mp_limits p) event_id expected needed x) /\
  forall x', sign_before (mp_limits p) event_id expected needed x = Ok x' -> sound_execution x'.
Proof.
  intros Hx. unfold sign_before. destruct (needed && _); [|split; [done|]; by intros x' <-%ok_inj].
  destruct (sign_fails (ex_state x) (proj1 Hx)) as [Hf Hs]. destruct (_sign _ _ _ _) as [s|e]; [|by split].
  split; [done|]. intros x' <-%ok_inj. destruct (Hs s eq_refl) as [Hst Hsig]. by split.
Qed.

Lemma step_fails x m :
  sound_execution x -> sound_mutation m -> fails_classified (execute_step (mp_limits p) event_id media_type expected x m) /\
  forall x', execute_step (mp_limits p) event_id media_type expected x m = Ok x' -> sound_execution x'.
Proof.
  intros Hx Hm. unfold execute_step. destruct (signing_fails (after_signing (rz_stage (pm_realized m))) x Hx) as [Hf Hs].
  destruct (sign_before _ _ _ _ x) as [y|e]; [|by split]. destruct (Hs y eq_refl) as [Hy Hsig].
  destruct (apply_fails (ex_state y) m Hy Hm) as [Hfa Ha]. destruct (_apply_one _ _ _ _ (ex_state y) m) as [a|e]; [|by split].
  split; [done|]. intros x' <-%ok_inj. split; [exact (Ha a eq_refl)|exact Hsig].
Qed.
End loop.

(** An accepted request has a state, an input and mutations that pass their own checks. *)
Lemma preflight_sound (p : @MutationPipeline O) q pp :
  _preflight p q = Ok pp ->
  _validate_event_id (rq_event_id q) = Ok tt /\ _validate_media_type (rq_media_type q) = Ok tt /\
  sound_state p {| ms_body := pp_body pp; ms_headers := pp_headers pp; ms_signing_time_ns := rq_logical_time_ns q; ms_signer := pp_signer pp |} /\
  Forall sound_mutation (pp_mutations pp).
Proof.
  intros Hs. destruct (preflight_facts p q pp Hs) as (Hreq & _ & Hb & Hsg & _). unfold _preflight in Hs.
  destruct (_ <? zlen (rq_body q)) eqn:El; [discriminate Hs|]. destruct (_bounded_headers _ _) as [headers|]; [|discriminate Hs]. take_step Hs.
  destruct (seed_state _ _ _ _ _ _) as [u|] eqn:Eseed; [|discriminate Hs]. take_step Hs. take_step Hs. take_step Hs.
  destruct (for_each _ _ _) as [checked|] eqn:Ef; [|discriminate Hs]. take_step Hs. apply ok_inj in Hs as <-.
  cbn [pp_body pp_headers pp_signer pp_mutations] in *. unfold seed_state, make_input in Eseed.
  destruct (_validate_state_fields _) as [seed|] eqn:Ev; [|discriminate Eseed]. pose proof (valid_state_same _ _ Ev) as (-> & _).
  destruct (_validate_event_id _) as [[]|]; [|discriminate Eseed]. destruct (_validate_media_type _) as [[]|]; [|discriminate Eseed].
  split; [done|]. split; [done|]. split; [split; [exact Ev|cbn [ms_body]; lia]|]. clear -Ef.
  assert (Forall sound_mutation (pf_prepared (@preflight_start O))) as Hzero by constructor. revert Ef Hzero. generalize (@preflight_start O) as k.
  generalize a as l. induction l as [|m l IH]; intros k Hk Hzero; [by apply ok_inj in Hk as <-|]. cbn [for_each] in Hk.
  destruct (preflight_step _ _ _ k m) as [k'|] eqn:E; [|discriminate Hk]. apply (IH k' Hk). unfold preflight_step in E.
  destruct (_detach_realized m) as [d|] eqn:Ed; [|discriminate E]. take_step E. do 4 pass E. take_step E. pass E. apply ok_inj in E as <-.
  cbn [pf_prepared]. apply list.Forall_app. split; [done|]. constructor; [|constructor]. unfold sound_mutation. cbn [pm_realized].
  unfold _detach_realized, make_realized in Ed. destruct (_validate_operator_identity (rz_operator_id m) _) as [[]|] eqn:Ei; [|discriminate Ed].
  take_step Ed. take_step Ed. apply ok_inj in Ed as <-. exact Ei.
Qed.

Lemma result_fails b headers evidence signing signed :
  sound_signature signing signed ->
  fails_classified (make_pipeline_result
    {| pr_body := b; pr_headers := headers; pr_mutation_evidence := evidence; pr_signing_evidence := signing;
       pr_signed_body_sha256 := signed; pr_delivered_body_sha256 := sha256_digest b |}).
Proof.
  intros Hsig. pose proof (digest_text b) as Hd. unfold make_pipeline_result.
  cbn [pr_signing_evidence pr_signed_body_sha256 pr_delivered_body_sha256 pr_body]. revert Hd. generalize (sha256_digest b). intros digest Hd.
  unfold _require_digest. rewrite Hd, (bool_decide_true (digest = digest)) by reflexivity. cbn [negb].
  destruct signing as [s|], signed as [d|]; cbn [sound_signature] in Hsig; [|destruct Hsig..|].
  - rewrite !bool_decide_false by discriminate. cbn [eqb negb]. rewrite Hsig. exact I.
  - rewrite !bool_decide_true by reflexivity. exact I.
Qed.

Lemma execute_fails (p : @MutationPipeline O) q : validate_limits (mp_limits p) = Ok (mp_limits p) -> fails_classified (execute p q).
Proof.
  intros Hl. assert (max_body_bytes (mp_limits p) <= MAX_SIGNING_BODY_BYTES) as Hlimit.
  { unfold validate_limits, _validate_limit in Hl. destruct (within 1 _ (max_body_bytes _)) eqn:E; [|discriminate Hl]. apply within_spec in E. lia. }
  unfold execute. pose proof (preflight_fails p q) as Hpf. destruct (_preflight p q) as [pp|e] eqn:Ep; [|done].
  destruct (preflight_sound p q pp Ep) as (Hev & Hmt & Hst & Hms). cbv zeta. rewrite (proj1 Hst).
  assert (sound_execution p (execution_start {| ms_body := pp_body pp; ms_headers := pp_headers pp;
    ms_signing_time_ns := rq_logical_time_ns q; ms_signer := pp_signer pp |})) as Hzero by (split; [exact Hst|exact I]).
  rewrite list.Forall_forall in Hms.
  assert (forall s a, sound_execution p s -> a ∈ pp_mutations pp ->
    fails_classified (execute_step (mp_limits p) (rq_event_id q) (rq_media_type q) (pp_signer_snapshot pp) s a) /\
    forall s', execute_step (mp_limits p) (rq_event_id q) (rq_media_type q) (pp_signer_snapshot pp) s a = Ok s' -> sound_execution p s') as Hstep.
  { intros s a Hs Ha. apply step_fails; [done..|exact Hs|by apply Hms]. }
  apply fails_bind; [by apply (fails_for_each (sound_execution p))|]. intros x Hx.
  assert (sound_execution p x) as Hsx by (by eapply (for_each_member (sound_execution p))).
  destruct (signing_fails p (rq_event_id q) (pp_signer_snapshot pp) Hev Hlimit true x Hsx) as [Hf Hsg].
  apply fails_bind; [exact Hf|]. intros y Hy. destruct (Hsg y Hy) as [_ Hsig]. apply fails_bind; [apply resources_fail|]. intros _ _.
  by apply result_fails.
Qed.
End errors.

(** C22: The pipeline fails only in ways it names.  With limits within the hard caps, whatever the request, the
    realized mutations, the selected built-in signer and its secret provider do, an execution over the
    runtime operators that raises has raised a mutation error or the signer's own error: no check of an
    intermediate state, of an input, of the evidence or of the result, and no failure of an operator or
    of a secret, escapes unclassified. *)
Theorem pipeline_errors_classified (p : @MutationPipeline RuntimeOperator) (q : @PipelineRequest BuiltinSigner) e :
  validate_limits (mp_limits p) = Ok (mp_limits p) -> execute p q = Raise e ->
  (exists code, e = MutationError code) \/ (exists code, e = SignerError code).
Proof.
  intros Hl He. pose proof (execute_fails p q Hl) as Hf. rewrite He in Hf. destruct e; try done; [right|left]; by eexists.
Qed.

Lemma pipeline_errors_classified_witness :
  exists e, execute example_pipeline (example_request [unsigned; truncated]) = Raise e /\
    ((exists code, e = MutationError code) \/ (exists code, e = SignerError code)).
Proof.
  destruct (execute example_pipeline (example_request [unsigned; truncated])) as [res|e] eqn:E.
  1: { exfalso. assert (is_ok (execute example_pipeline (example_request [unsigned; truncated])) = false) as Hno by (vm_compute; reflexivity).
       by rewrite E in Hno. }
  exists e. split; [reflexivity|]. assert (validate_limits (mp_limits example_pipeline) = Ok (mp_limits example_pipeline)) as Hl by (vm_compute; reflexivity).
  exact (pipeline_errors_classified example_pipeline (example_request [unsigned; truncated]) e Hl E).
Defined.
