(* ===== verification/Polling.v ===== *)
(** * Polling an observer

    [observers/polling.py]: one observation series, polled until its predicate passes or a deadline
    ends.  What the poller awaits or reads, the observer, the journal, the clocks, the fresh identities and the
    cancellation points, is a class over the states of the world; the poller runs in a monad of
    exceptions over that state and its runtime clock.  The state also keeps a trace of the effects the
    poller had, which no operation reads. *)

From S2P Require Import Prelude Text Identifiers Domain Clocks Commands Schedules Policy Evidence ObserverProtocol.

Local Open Scope Z_scope.

Definition MINIMUM_POLL_INTERVAL_NS : Z := 10000000.
Definition _MAX_SAFE_INTEGER : Z := Z.shiftl 1 53 - 1.

(** ** Diagnostics *)

Inductive ErrorCategory :=
  | Error_CONFIGURATION_ERROR | Error_UNSUPPORTED_SCHEMA | Error_SECRET_REFERENCE_ERROR | Error_RESOURCE_LIMIT
  | Error_PLANNING_ERROR | Error_FIXTURE_ERROR | Error_UNSUPPORTED_CAPABILITY | Error_JOURNAL_BUSY | Error_ILLEGAL_TRANSITION
  | Error_INTEGRITY_ERROR | Error_MIGRATION_ERROR | Error_SCHEDULE_ERROR | Error_DEADLOCK | Error_CANCELLED
  | Error_CONNECT_TIMEOUT | Error_READ_TIMEOUT | Error_WRITE_TIMEOUT | Error_POOL_TIMEOUT | Error_TLS_ERROR
  | Error_CONNECTION_ERROR | Error_PROTOCOL_ERROR | Error_RESPONSE_TOO_LARGE | Error_KEY_UNAVAILABLE
  | Error_UNSUPPORTED_ALGORITHM | Error_SIGNING_ERROR | Error_MUTATION_NOT_APPLICABLE | Error_CONFLICTING_MUTATION
  | Error_INVALID_PARAMETER | Error_OBSERVER_TIMEOUT | Error_OBSERVER_PROTOCOL_ERROR | Error_OBSERVER_PROCESS_ERROR
  | Error_OBSERVER_HTTP_ERROR | Error_OBSERVER_AUTH_ERROR | Error_ASSERTION_ERROR | Error_EVIDENCE_MISSING
  | Error_UNSUPPORTED_ASSERTION | Error_REPORT_ERROR | Error_ARTIFACT_INTEGRITY_ERROR | Error_OUTPUT_LIMIT
  | Error_LIFECYCLE_DISABLED | Error_PROCESS_ERROR | Error_READINESS_TIMEOUT | Error_SCHEMA_VALIDATION_ERROR
  | Error_INTERNAL_ERROR.
Definition ErrorCategory_value (c : ErrorCategory) : str :=
  u match c with
    | Error_CONFIGURATION_ERROR => "configuration_error" | Error_UNSUPPORTED_SCHEMA => "unsupported_schema"
    | Error_SECRET_REFERENCE_ERROR => "secret_reference_error" | Error_RESOURCE_LIMIT => "resource_limit"
    | Error_PLANNING_ERROR => "planning_error" | Error_FIXTURE_ERROR => "fixture_error"
    | Error_UNSUPPORTED_CAPABILITY => "unsupported_capability" | Error_JOURNAL_BUSY => "journal_busy"
    | Error_ILLEGAL_TRANSITION => "illegal_transition" | Error_INTEGRITY_ERROR => "integrity_error"
    | Error_MIGRATION_ERROR => "migration_error" | Error_SCHEDULE_ERROR => "schedule_error" | Error_DEADLOCK => "deadlock"
    | Error_CANCELLED => "cancelled" | Error_CONNECT_TIMEOUT => "connect_timeout" | Error_READ_TIMEOUT => "read_timeout"
    | Error_WRITE_TIMEOUT => "write_timeout" | Error_POOL_TIMEOUT => "pool_timeout" | Error_TLS_ERROR => "tls_error"
    | Error_CONNECTION_ERROR => "connection_error" | Error_PROTOCOL_ERROR => "protocol_error"
    | Error_RESPONSE_TOO_LARGE => "response_too_large" | Error_KEY_UNAVAILABLE => "key_unavailable"
    | Error_UNSUPPORTED_ALGORITHM => "unsupported_algorithm" | Error_SIGNING_ERROR => "signing_error"
    | Error_MUTATION_NOT_APPLICABLE => "mutation_not_applicable" | Error_CONFLICTING_MUTATION => "conflicting_mutation"
    | Error_INVALID_PARAMETER => "invalid_parameter" | Error_OBSERVER_TIMEOUT => "observer_timeout"
    | Error_OBSERVER_PROTOCOL_ERROR => "observer_protocol_error" | Error_OBSERVER_PROCESS_ERROR => "observer_process_error"
    | Error_OBSERVER_HTTP_ERROR => "observer_http_error" | Error_OBSERVER_AUTH_ERROR => "observer_auth_error"
    | Error_ASSERTION_ERROR => "assertion_error" | Error_EVIDENCE_MISSING => "evidence_missing"
    | Error_UNSUPPORTED_ASSERTION => "unsupported_assertion" | Error_REPORT_ERROR => "report_error"
    | Error_ARTIFACT_INTEGRITY_ERROR => "artifact_integrity_error" | Error_OUTPUT_LIMIT => "output_limit"
    | Error_LIFECYCLE_DISABLED => "lifecycle_disabled" | Error_PROCESS_ERROR => "process_error"
    | Error_READINESS_TIMEOUT => "readiness_timeout" | Error_SCHEMA_VALIDATION_ERROR => "schema_validation_error"
    | Error_INTERNAL_ERROR => "internal_error"
    end%string.

Record Diagnostic := { diagnostic_category : ErrorCategory; diagnostic_retryable : bool }.

(** ** Wall time

    A UTC [datetime], by its fields; [isoformat(timespec="microseconds")] with the offset written Z. *)
Record WallTime := {
  wt_year : Z; wt_month : Z; wt_day : Z; wt_hour : Z; wt_minute : Z; wt_second : Z; wt_microsecond : Z
}.
Definition wall_time_ok (w : WallTime) : bool :=
  within 1 9999 (wt_year w) && within 1 12 (wt_month w) && within 1 (days_in_month (wt_year w) (wt_month w)) (wt_day w)
  && within 0 23 (wt_hour w) && within 0 59 (wt_minute w) && within 0 59 (wt_second w) && within 0 999999 (wt_microsecond w).

Definition leap_days (year : Z) : Z := year / 4 - year / 100 + year / 400.
Definition days_before_month (year month : Z) : Z :=
  fold_left (fun acc m => acc + days_in_month year m) (seqZ 1 (month - 1)) 0.
(** Days since 1970-01-01. *)
Definition ordinal_day (w : WallTime) : Z :=
  (wt_year w - 1) * 365 + leap_days (wt_year w - 1) + days_before_month (wt_year w) (wt_month w) + wt_day w - 719163.
Definition utc_datetime (w : WallTime) : datetime :=
  {| dt_instant_us := (((ordinal_day w * 24 + wt_hour w) * 60 + wt_minute w) * 60 + wt_second w) * 1000000 + wt_microsecond w;
     dt_utcoffset_us := Some 0 |}.

Fixpoint zero_padded (width : nat) (value : Z) : str :=
  match width with
  | O => []
  | S n => zero_padded n (value / 10) ++ [Z.to_N (48 + value mod 10)]
  end.
Definition isoformat (w : WallTime) : str :=
  zero_padded 4 (wt_year w) ++ u "-" ++ zero_padded 2 (wt_month w) ++ u "-" ++ zero_padded 2 (wt_day w) ++ u "T" ++ zero_padded 2 (wt_hour w) ++ u ":"
  ++ zero_padded 2 (wt_minute w) ++ u ":" ++ zero_padded 2 (wt_second w) ++ u "." ++ zero_padded 6 (wt_microsecond w) ++ u "Z".

(** ** Plans and results *)

Inductive ObservationPollOutcome :=
  | Poll_MATCHED | Poll_MISMATCH | Poll_PENDING | Poll_UNSUPPORTED | Poll_ERROR | Poll_TIMED_OUT.
#[global] Instance ObservationPollOutcome_eq_dec : EqDecision ObservationPollOutcome.
Proof. solve_decision. Defined.

Record ObservationPollPlan := {
  plan_observation_id : str; plan_observer_id : str; plan_request : ObserverRequest; plan_capabilities : ObserverCapabilities;
  plan_within_ns : Z; plan_poll_interval_ns : Z; plan_invocation_timeout_ns : Z; plan_requires_stable_snapshot : bool
}.
Definition _positive_safe_integer (value : Z) : result Z := raise_if negb (within 1 _MAX_SAFE_INTEGER value) with ValueError ;; Ok value.
Definition validate_poll_plan (p : ObservationPollPlan) : result ObservationPollPlan :=
  let! _ := validate_planned_id (plan_observation_id p) (Some Planned_OBSERVATION) in
  raise_if negb (within 1 256 (zlen (plan_observer_id p))) || existsb (fun c => bool_decide (c ∈ [13; 10; 0]%N)) (plan_observer_id p)
    with ValueError ;;
  raise_if negb (bool_decide (req_operation (plan_request p) = Operation_OBSERVE)) || is_none (req_sample_id (plan_request p))
           || is_none (req_scenario_id (plan_request p)) || is_none (req_checkpoint (plan_request p)) with ValueError ;;
  let! _ := _positive_safe_integer (plan_within_ns p) in
  let! _ := _positive_safe_integer (plan_invocation_timeout_ns p) in
  let! interval := _positive_safe_integer (plan_poll_interval_ns p) in
  raise_if interval <? MINIMUM_POLL_INTERVAL_NS with ValueError ;;
  raise_if plan_within_ns p <? interval with ValueError ;;
  Ok p.
Definition negotiation (p : ObservationPollPlan) : result CapabilityNegotiation :=
  negotiate_capabilities (plan_capabilities p) (req_queries (plan_request p)) (plan_requires_stable_snapshot p).

Definition TERMINAL_OBSERVATIONS : list ObservationState :=
  [Observation_OK; Observation_PENDING; Observation_UNSUPPORTED; Observation_ERROR; Observation_TIMED_OUT; Observation_CANCELLED].
Record ObservationSampleCommit := {
  sc_record : ObservationRecord; sc_timestamp : TransitionTimestamp; sc_terminal_state : option ObservationState
}.
Definition make_sample_commit (record : ObservationRecord) (timestamp : TransitionTimestamp) (terminal : option ObservationState)
    : result ObservationSampleCommit :=
  raise_if match terminal with Some s => negb (bool_decide (s ∈ TERMINAL_OBSERVATIONS)) | None => false end with ValueError ;;
  Ok {| sc_record := record; sc_timestamp := timestamp; sc_terminal_state := terminal |}.

Record ObservationPollResult := {
  polled_outcome : ObservationPollOutcome; polled_state : ObservationState; polled_sample_ids : list str; polled_matched : bool;
  polled_valid_evidence : bool; polled_deadline_elapsed : bool; polled_last_response : option ObserverResponse
}.
Definition make_poll_result (r : ObservationPollResult) : result ObservationPollResult :=
  raise_if bool_decide (polled_sample_ids r = []) with ValueError ;; Ok r.

Definition PollPredicate := ObserverResponse -> result bool.

(** ** The environment *)

(** What awaiting [observer.invoke] under [fail_after] gives: a response, the timeout, a cancellation
    of the task, or another exception with its diagnostic, if it carries one. *)
Inductive InvokeOutcome :=
  | Responded (response : ObserverResponse)
  | InvokeTimedOut
  | InvokeCancelled
  | InvokeFailed (diagnostic : option Diagnostic).

(** An awaited point of cancellation is cancelled when it answers [true]. *)
Class PollEnvironment (W : Type) := {
  monotonic_reading : W -> Z * W;
  wall_reading : W -> WallTime * W;
  fresh_identity : FreshIdKind -> W -> result str * W;
  await_checkpoint : W -> bool * W;
  await_sleep : Z -> W -> bool * W;
  await_invoke : ObserverRequest -> Z -> W -> InvokeOutcome * W;
  journal_begin_series : ObservationPollPlan -> TransitionTimestamp -> W -> result unit * W;
  journal_append_sample : ObservationPollPlan -> ObservationSampleCommit -> W -> result unit * W
}.

(** The effects of a series, in order: [Refused] is an exception of the journal or of the factory of
    identities. *)
Inductive PollEffect :=
  | Began
  | Invoked (request : ObserverRequest)
  | Appended (commit : ObservationSampleCommit)
  | Refused (e : exn).

Section poller.
Context {W : Type} `{PollEnvironment W}.

Record PollState := { ps_clock : RuntimeClock; ps_world : W; ps_trace : list PollEffect }.
Definition Poll (A : Type) := PollState -> result A * PollState.

Definition ret {A} (a : A) : Poll A := fun s => (Ok a, s).
Definition lift {A} (r : result A) : Poll A := fun s => (r, s).
Definition and_then {A B} (m : Poll A) (k : A -> Poll B) : Poll B :=
  fun s => match m s with (Ok a, s') => k a s' | (Raise e, s') => (Raise e, s') end.
Local Notation "'do!' x := m 'in' k" := (and_then m (fun x => k)) (at level 10, x pattern, m at level 200, k at level 200).

(** [try: m except cancelled: handler; raise]. *)
Definition on_cancel {A} (m : Poll A) (handler : Poll unit) : Poll A :=
  fun s => match m s with
           | (Raise Cancelled, s') => and_then handler (fun _ => lift (Raise Cancelled)) s'
           | r => r
           end.

Definition in_world {A} (f : W -> A * W) : Poll A :=
  fun s => let (a, w) := f (ps_world s) in (Ok a, {| ps_clock := ps_clock s; ps_world := w; ps_trace := ps_trace s |}).
Definition note (e : PollEffect) : Poll unit :=
  fun s => (Ok tt, {| ps_clock := ps_clock s; ps_world := ps_world s; ps_trace := ps_trace s ++ [e] |}).
(** A clock operation on one reading of the monotonic clock. *)
Definition on_clock {A} (f : RuntimeClock -> Z -> result (A * RuntimeClock)) : Poll A :=
  fun s =>
    let (reading, w) := monotonic_reading (ps_world s) in
    match f (ps_clock s) reading with
    | Ok (a, c) => (Ok a, {| ps_clock := c; ps_world := w; ps_trace := ps_trace s |})
    | Raise e => (Raise e, {| ps_clock := ps_clock s; ps_world := w; ps_trace := ps_trace s |})
    end.

Definition timestamp : Poll TransitionTimestamp :=
  do! wall := in_world wall_reading in
  on_clock (fun c reading => transition_timestamp c (utc_datetime wall) reading).
Definition granted {A} (answer : result A) : Poll A :=
  match answer with
  | Ok a => ret a
  | Raise e => do! _ := note (Refused e) in lift (Raise e)
  end.
Definition fresh_id (kind : FreshIdKind) : Poll str :=
  do! identity := in_world (fresh_identity kind) in granted identity.
Definition _format_recorded_at : Poll str := do! wall := in_world wall_reading in ret (isoformat wall).
Definition checkpoint : Poll unit :=
  do! cancelled := in_world await_checkpoint in if (cancelled : bool) then lift (Raise Cancelled) else ret tt.
Definition sleep (ns : Z) : Poll unit :=
  fun s => match sleep_physical (ps_clock s) ns with
           | Raise e => (Raise e, s)
           | Ok physical =>
             and_then (in_world (await_sleep physical)) (fun cancelled => if (cancelled : bool) then lift (Raise Cancelled) else ret tt) s
           end.
Definition journaled (effect : PollEffect) (commit : W -> result unit * W) : Poll unit :=
  do! committed := in_world commit in
  do! _ := granted committed in
  note effect.

(** ** Records *)

Definition some_or_empty (o : option str) : str := default [] o.

Definition _record_status (response : option ObserverResponse) : result ObservationStatus :=
  match response with None => Raise TypeError | Some r => Ok (map_response_status (rsp_status r)) end.

Definition ERROR_RESPONSE_MESSAGE : str := u "Observer returned a classified error.".
Definition _response_record (plan : ObservationPollPlan) (request : ObserverRequest) (sample_sequence : Z)
    (response : option ObserverResponse) (status : option ObservationStatus) : Poll ObservationRecord :=
  do! selected := lift (match status with Some s => Ok s | None => _record_status response end) in
  let error :=
    if bool_decide (selected = Status_ERROR) then
      Some {| re_category := match response with
                             | Some r => match rsp_error r with Some e => we_category e | None => u "observer_error" end
                             | None => u "observer_error"
                             end;
              re_message_redacted := ERROR_RESPONSE_MESSAGE |}
    else None in
  do! _ := lift (optional validate_record_error error) in
  do! record_id := fresh_id Fresh_RECORD in
  do! recorded_at := _format_recorded_at in
  lift (validate_observation_record
    {| rec_record_id := record_id; rec_run_id := some_or_empty (req_run_id request);
       rec_scenario_id := some_or_empty (req_scenario_id request); rec_observation_id := plan_observation_id plan;
       rec_sample_id := some_or_empty (req_sample_id request); rec_observer_id := plan_observer_id plan;
       rec_sample_sequence := sample_sequence; rec_recorded_at := recorded_at; rec_status := selected; rec_event_id := req_event_id request;
       rec_snapshot_id := match response with Some r => rsp_snapshot_id r | None => None end;
       rec_evidence := match response with Some r => List.filter (fun e => negb (ev_sensitive e)) (rsp_evidence r) | None => [] end;
       rec_error := error |}).

(** The records of failed and of timed out samples differ in their status and message. *)
Definition failure_record (status : ObservationStatus) (message : str) (plan : ObservationPollPlan) (request : ObserverRequest)
    (sample_sequence : Z) (category : str) : Poll ObservationRecord :=
  do! record_id := fresh_id Fresh_RECORD in
  do! recorded_at := _format_recorded_at in
  do! error := lift (validate_record_error {| re_category := category; re_message_redacted := message |}) in
  lift (validate_observation_record
    {| rec_record_id := record_id; rec_run_id := some_or_empty (req_run_id request);
       rec_scenario_id := some_or_empty (req_scenario_id request); rec_observation_id := plan_observation_id plan;
       rec_sample_id := some_or_empty (req_sample_id request); rec_observer_id := plan_observer_id plan;
       rec_sample_sequence := sample_sequence; rec_recorded_at := recorded_at; rec_status := status; rec_event_id := req_event_id request;
       rec_snapshot_id := None; rec_evidence := []; rec_error := Some error |}).
Definition _error_record (plan : ObservationPollPlan) (request : ObserverRequest) (sample_sequence : Z) (category message : str)
    : Poll ObservationRecord :=
  failure_record Status_ERROR message plan request sample_sequence category.
Definition _timeout_record (plan : ObservationPollPlan) (request : ObserverRequest) (sample_sequence : Z) (category : str)
    : Poll ObservationRecord :=
  failure_record Status_TIMEOUT (u "The physical observer deadline elapsed.") plan request sample_sequence category.

(** ** Steps *)

Definition _append (plan : ObservationPollPlan) (record : ObservationRecord) (terminal_state : option ObservationState) : Poll unit :=
  do! t := timestamp in
  do! commit := lift (make_sample_commit record t terminal_state) in
  do! _ := journaled (Appended commit) (journal_append_sample plan commit) in
  match terminal_state with Some _ => checkpoint | None => ret tt end.

Definition _cancel (plan : ObservationPollPlan) (request : ObserverRequest) (sample_sequence : Z) : Poll unit :=
  do! record := _error_record plan request sample_sequence (u "cancelled") (u "Observer invocation was cancelled.") in
  _append plan record (Some Observation_CANCELLED).

(** The diagnostic-carrying failure of an invocation is its outcome, not an exception of the monad:
    only [poll] handles it. *)
Definition _invoke_with_deadline (plan : ObservationPollPlan) (request : ObserverRequest) (deadline : MonotonicDeadline)
    : Poll InvokeOutcome :=
  fun s => match on_clock (remaining_ns deadline) s with
           | (Raise _, s') => (Ok (InvokeFailed None), s')
           | (Ok remaining, s') =>
             if remaining =? 0 then (Ok InvokeTimedOut, s')
             else and_then (note (Invoked request)) (fun _ => in_world (await_invoke request (Z.min (plan_invocation_timeout_ns plan) remaining))) s'
           end.

Definition _next_request (plan : ObservationPollPlan) (request : ObserverRequest) (sample_sequence : Z) (deadline : MonotonicDeadline)
    : Poll (ObserverRequest * Z) :=
  do! sample := fresh_id Fresh_SAMPLE in
  do! next_request := lift (retry_observe_request request sample) in
  let next_sequence := sample_sequence + 1 in
  do! remaining := on_clock (remaining_ns deadline) in
  do! _ := on_cancel
    (do! _ := checkpoint in
     if negb (remaining =? 0) then sleep (Z.min (plan_poll_interval_ns plan) remaining) else ret tt)
    (_cancel plan next_request next_sequence) in
  ret (next_request, next_sequence).

(** ** The series *)

(** The variables of the loop. *)
Record PollLoop := {
  pl_request : ObserverRequest; pl_sample_sequence : Z; pl_sample_ids : list str; pl_last_response : option ObserverResponse;
  pl_valid_evidence_seen : bool
}.
Inductive PollStep :=
  | Continue (l : PollLoop)
  | Return (r : ObservationPollResult).

Definition sampled (l : PollLoop) (record : ObservationRecord) : PollLoop :=
  {| pl_request := pl_request l; pl_sample_sequence := pl_sample_sequence l; pl_sample_ids := pl_sample_ids l ++ [rec_sample_id record];
     pl_last_response := pl_last_response l; pl_valid_evidence_seen := pl_valid_evidence_seen l |}.
Definition responded (l : PollLoop) (response : ObserverResponse) : PollLoop :=
  {| pl_request := pl_request l; pl_sample_sequence := pl_sample_sequence l; pl_sample_ids := pl_sample_ids l;
     pl_last_response := Some response;
     pl_valid_evidence_seen := pl_valid_evidence_seen l || bool_decide (rsp_status response = Response_OK) |}.
Definition _result (outcome : ObservationPollOutcome) (final_state : ObservationState) (matched elapsed : bool) (l : PollLoop)
    : result ObservationPollResult :=
  make_poll_result
    {| polled_outcome := outcome; polled_state := final_state; polled_sample_ids := pl_sample_ids l; polled_matched := matched;
       polled_valid_evidence := pl_valid_evidence_seen l; polled_deadline_elapsed := elapsed;
       polled_last_response := pl_last_response l |}.

(** Append the last sample of the series and return. *)
Definition conclude (plan : ObservationPollPlan) (l : PollLoop) (record : ObservationRecord) (outcome : ObservationPollOutcome)
    (final_state : ObservationState) (matched : bool) : Poll PollStep :=
  do! _ := _append plan record (Some final_state) in
  do! r := lift (_result outcome final_state matched false (sampled l record)) in
  ret (Return r).
(** Append a sample that does not end the series and prepare the next request. *)
Definition keep_polling (plan : ObservationPollPlan) (l : PollLoop) (record : ObservationRecord) (deadline : MonotonicDeadline)
    : Poll PollStep :=
  do! _ := _append plan record None in
  do! next := _next_request plan (pl_request l) (pl_sample_sequence l) deadline in
  ret (Continue {| pl_request := next.1; pl_sample_sequence := next.2; pl_sample_ids := pl_sample_ids l ++ [rec_sample_id record];
                   pl_last_response := pl_last_response l; pl_valid_evidence_seen := pl_valid_evidence_seen l |}).

Definition deadline_reached (plan : ObservationPollPlan) (l : PollLoop) : Poll PollStep :=
  do! record := _timeout_record plan (pl_request l) (pl_sample_sequence l) (u "observer_deadline") in
  do! _ := _append plan record (Some Observation_TIMED_OUT) in
  do! r := lift (_result Poll_TIMED_OUT Observation_TIMED_OUT false true (sampled l record)) in
  ret (Return r).
Definition invocation_timed_out (plan : ObservationPollPlan) (l : PollLoop) (deadline : MonotonicDeadline) : Poll PollStep :=
  do! record := _timeout_record plan (pl_request l) (pl_sample_sequence l) (u "observer_timeout") in
  do! _ := _append plan record (Some Observation_TIMED_OUT) in
  do! elapsed := on_clock (expired deadline) in
  do! r := lift (_result Poll_TIMED_OUT Observation_TIMED_OUT false elapsed (sampled l record)) in
  ret (Return r).
Definition invocation_failed (plan : ObservationPollPlan) (l : PollLoop) (deadline : MonotonicDeadline) (diagnostic : option Diagnostic)
    : Poll PollStep :=
  do! can_retry :=
    if match diagnostic with Some d => diagnostic_retryable d | None => false end && automatic_reinvocation_safe (plan_capabilities plan)
    then do! e := on_clock (expired deadline) in ret (negb e) else ret false in
  do! record := _error_record plan (pl_request l) (pl_sample_sequence l)
    (ErrorCategory_value (match diagnostic with Some d => diagnostic_category d | None => Error_OBSERVER_PROTOCOL_ERROR end))
    (u "Observer invocation failed with a classified error.") in
  if (can_retry : bool) then keep_polling plan l record deadline else conclude plan l record Poll_ERROR Observation_ERROR false.

Definition ok_response (plan : ObservationPollPlan) (predicate : PollPredicate) (l : PollLoop) (deadline : MonotonicDeadline)
    (response : ObserverResponse) : Poll PollStep :=
  match predicate response with
  | Raise _ =>
    do! record := _error_record plan (pl_request l) (pl_sample_sequence l) (u "predicate_error")
      (u "The typed polling predicate could not evaluate valid evidence.") in
    conclude plan l record Poll_ERROR Observation_ERROR false
  | Ok matched =>
    do! record := _response_record plan (pl_request l) (pl_sample_sequence l) (Some response) None in
    if (matched : bool) then conclude plan l record Poll_MATCHED Observation_OK true
    else if negb (automatic_reinvocation_safe (plan_capabilities plan)) then conclude plan l record Poll_MISMATCH Observation_OK false
    else keep_polling plan l record deadline
  end.

Definition response_received (plan : ObservationPollPlan) (predicate : PollPredicate) (l : PollLoop) (deadline : MonotonicDeadline)
    (response : ObserverResponse) : Poll PollStep :=
  if negb (bool_decide (rsp_capabilities response = plan_capabilities plan)) then
    do! record := _error_record plan (pl_request l) (pl_sample_sequence l) (u "observer_protocol_error")
      (u "Observer capabilities changed during one polling series.") in
    conclude plan l record Poll_ERROR Observation_ERROR false
  else
    let l := responded l response in
    match rsp_status response with
    | Response_OK => ok_response plan predicate l deadline response
    | Response_PENDING =>
      do! n := lift (negotiation plan) in
      do! record := _response_record plan (pl_request l) (pl_sample_sequence l) (Some response) None in
      if automatic_polling_allowed (plan_capabilities plan) n then keep_polling plan l record deadline
      else conclude plan l record Poll_PENDING Observation_PENDING false
    | Response_UNSUPPORTED =>
      do! record := _response_record plan (pl_request l) (pl_sample_sequence l) (Some response) None in
      conclude plan l record Poll_UNSUPPORTED Observation_UNSUPPORTED false
    | Response_ERROR =>
      do! record := _response_record plan (pl_request l) (pl_sample_sequence l) (Some response) None in
      if automatic_retry_allowed (plan_capabilities plan) response then keep_polling plan l record deadline
      else conclude plan l record Poll_ERROR Observation_ERROR false
    end.

Definition poll_once (plan : ObservationPollPlan) (predicate : PollPredicate) (deadline : MonotonicDeadline) (l : PollLoop)
    : Poll PollStep :=
  do! reached := on_clock (expired deadline) in
  if (reached : bool) then deadline_reached plan l
  else
    do! outcome := _invoke_with_deadline plan (pl_request l) deadline in
    match outcome with
    | InvokeCancelled =>
      do! _ := _cancel plan (pl_request l) (pl_sample_sequence l) in lift (Raise Cancelled)
    | InvokeTimedOut => invocation_timed_out plan l deadline
    | InvokeFailed diagnostic => invocation_failed plan l deadline diagnostic
    | Responded response => response_received plan predicate l deadline response
    end.

(** [while True]: [None] when the fuel runs out. *)
Fixpoint poll_loop (fuel : nat) (plan : ObservationPollPlan) (predicate : PollPredicate) (deadline : MonotonicDeadline) (l : PollLoop)
    (s : PollState) : option (result ObservationPollResult * PollState) :=
  match fuel with
  | O => None
  | S fuel =>
    match poll_once plan predicate deadline l s with
    | (Ok (Continue l'), s') => poll_loop fuel plan predicate deadline l' s'
    | (Ok (Return r), s') => Some (Ok r, s')
    | (Raise e, s') => Some (Raise e, s')
    end
  end.

(** What precedes the loop: the result when capabilities do not suffice, the deadline otherwise. *)
Definition poll_start (plan : ObservationPollPlan) : Poll (MonotonicDeadline * option ObservationPollResult) :=
  let request := plan_request plan in
  do! t := timestamp in
  do! _ := journaled Began (journal_begin_series plan t) in
  do! _ := on_cancel checkpoint (_cancel plan request 1) in
  do! deadline := on_clock (fun c reading => deadline_after c (plan_within_ns plan) reading) in
  do! n := lift (negotiation plan) in
  if supported n then ret (deadline, None)
  else
    do! record := _response_record plan request 1 None (Some Status_UNSUPPORTED) in
    do! _ := _append plan record (Some Observation_UNSUPPORTED) in
    do! r := lift (make_poll_result
      {| polled_outcome := Poll_UNSUPPORTED; polled_state := Observation_UNSUPPORTED; polled_sample_ids := [rec_sample_id record];
         polled_matched := false; polled_valid_evidence := false; polled_deadline_elapsed := false; polled_last_response := None |}) in
    ret (deadline, Some r).

Definition loop_start (plan : ObservationPollPlan) : PollLoop :=
  {| pl_request := plan_request plan; pl_sample_sequence := 1; pl_sample_ids := []; pl_last_response := None;
     pl_valid_evidence_seen := false |}.
Definition poll (fuel : nat) (plan : ObservationPollPlan) (predicate : PollPredicate) (s : PollState)
    : option (result ObservationPollResult * PollState) :=
  match poll_start plan s with
  | (Raise e, s') => Some (Raise e, s')
  | (Ok (_, Some r), s') => Some (Ok r, s')
  | (Ok (deadline, None), s') => poll_loop fuel plan predicate deadline (loop_start plan) s'
  end.
End poller.
Arguments PollState W : clear implicits.
Arguments Poll W A : clear implicits.
