(* ===== verification/PollingLaws.v ===== *)
(** * The laws of a polling environment

    What the poller relies on: a monotonic clock that does not go back and a sleep that lasts, identities
    that are well formed and never repeat, wall times the calendar has, and responses that passed the
    validation of their model.  The journal may raise anything at any time, and so may the factory of
    identities.  Under these laws every record the poller builds is valid, so an operation of the poller
    fails only by cancellation or because the journal or the factory refuses. *)

From S2P Require Import Prelude Text TextLemmas Identifiers Domain Clocks Commands Schedules Policy Evidence ObserverProtocol Polling.

Local Open Scope Z_scope.

Class PollEnvironmentLaws (W : Type) `{PollEnvironment W} := {
  now : W -> Z;
  issued : W -> list str;
  reading_law w t w' : monotonic_reading w = (t, w') ->
    0 <= now w <= t /\ t <= now w' /\ t + _MAX_SAFE_INTEGER <= SIGNED_INT64_MAX /\ issued w' = issued w;
  wall_law w t w' : wall_reading w = (t, w') -> wall_time_ok t = true /\ now w <= now w' /\ issued w' = issued w;
  identity_law kind w r w' : fresh_identity kind w = (r, w') ->
    now w <= now w' /\
    match r with
    | Ok id => validate_fresh_id id (Some kind) = Ok id /\ ~ id ∈ issued w /\ issued w' = (id :: issued w)
    | Raise _ => issued w' = issued w
    end;
  checkpoint_law w b w' : await_checkpoint w = (b, w') -> now w <= now w' /\ issued w' = issued w;
  sleep_law ns w b w' : await_sleep ns w = (b, w') -> now w <= now w' /\ issued w' = issued w /\ (b = false -> now w + ns <= now w');
  invoke_law request timeout w o w' : await_invoke request timeout w = (o, w') ->
    now w <= now w' /\ issued w' = issued w /\ (forall r, o = Responded r -> validate_observer_response r = Ok r);
  begin_law plan t w r w' : journal_begin_series plan t w = (r, w') -> now w <= now w' /\ issued w' = issued w;
  append_law plan c w r w' : journal_append_sample plan c w = (r, w') -> now w <= now w' /\ issued w' = issued w
}.

(** ** Validated requests *)

Lemma optional_ok {A} (f : A -> result A) o o' : optional f o = Ok o' -> match o with Some a => is_ok (f a) = true | None => True end.
Proof. destruct o as [a|]; [|done]. simpl. by destruct (f a). Qed.

(** A request the poller can send. *)
Record observable (r : ObserverRequest) : Prop := {
  observable_valid : validate_observer_request r = Ok r;
  observable_operation : req_operation r = Operation_OBSERVE;
  observable_scenario : is_none (req_scenario_id r) = false
}.

Lemma observable_fields r : observable r ->
  (exists id, req_sample_id r = Some id /\ is_ok (_sample_id id) = true) /\
  (exists run, req_run_id r = Some run /\ is_ok (validate_run_id run) = true) /\
  (exists s, req_scenario_id r = Some s /\ is_ok (_scenario_id s) = true) /\
  is_ok (optional _event_id (req_event_id r)) = true.
Proof.
  intros [Hv Ho Hs]. unfold validate_observer_request in Hv. repeat (py_step Hv; []).
  repeat match goal with E : optional _ _ = Ok _ |- _ => apply optional_ok in E end.
  unfold validate_operation_shape in Hv. cbn [req_operation req_sample_id req_run_id req_queries req_event_id req_scenario_id] in Hv.
  rewrite Ho, bool_decide_eq_false_2 in Hv by done. repeat (py_step Hv; []). apply ok_inj in Hv.
  rewrite <- Hv in *. cbn [req_sample_id req_run_id req_scenario_id req_event_id is_none] in *. py_bool.
  destruct a0 as [id|], a1 as [run|], a2 as [scenario|]; try discriminate. eauto 10.
Qed.

Lemma with_sample_valid r id : validate_observer_request r = Ok r -> req_operation r = Operation_OBSERVE ->
  _sample_id id = Ok id -> validate_observer_request (with_sample_id r id) = Ok (with_sample_id r id).
Proof.
  intros Hv Ho Hid. unfold validate_observer_request in Hv. repeat (py_step Hv; []). unfold validate_operation_shape in Hv.
  cbn [req_operation req_sample_id req_run_id req_queries req_event_id req_scenario_id] in Hv.
  rewrite Ho, bool_decide_eq_false_2 in Hv by done. repeat (py_step Hv; []). apply ok_inj in Hv. rewrite <- Hv in *.
  unfold with_sample_id, validate_observer_request. cbn [req_request_id req_operation req_sample_id req_run_id req_scenario_id req_event_id
    req_checkpoint req_prior_snapshot_id req_queries] in *. rewrite E. simpl optional at 1. rewrite Hid.
  repeat match goal with E : optional _ _ = Ok _ |- _ => rewrite E; clear E end.
  rewrite E6, E7. unfold validate_operation_shape. cbn [req_operation req_sample_id req_run_id req_queries req_event_id req_scenario_id].
  rewrite bool_decide_eq_false_2 by done. apply orb_false_iff in E8 as [[_ ->]%orb_false_iff ->]. simpl orb. cbv iota. by rewrite E9, E10.
Qed.

(** ** Records *)

(** The record of one sample of a series. *)
Record record_of (plan : ObservationPollPlan) (request : ObserverRequest) (sample_sequence : Z) (r : ObservationRecord) : Prop := {
  record_sample : req_sample_id request = Some (rec_sample_id r);
  record_sequence : rec_sample_sequence r = sample_sequence;
  record_observation : rec_observation_id r = plan_observation_id plan;
  record_valid : validate_observation_record r = Ok r
}.

(** A plan the poller accepts, for an observer whose name a record can carry. *)
Record pollable (plan : ObservationPollPlan) : Prop := {
  pollable_valid : validate_poll_plan plan = Ok plan;
  pollable_request : validate_observer_request (plan_request plan) = Ok (plan_request plan);
  pollable_observer : is_ok (_validate_bounded_text (plan_observer_id plan) MAX_OBSERVER_ID_LENGTH false) = true
}.

Lemma pollable_observable plan : pollable plan -> observable (plan_request plan).
Proof.
  intros [Hp Hr _]. unfold validate_poll_plan in Hp. repeat (py_step Hp; []). py_bool. by split.
Qed.
Lemma poll_plan_bounds plan : validate_poll_plan plan = Ok plan ->
  MINIMUM_POLL_INTERVAL_NS <= plan_poll_interval_ns plan <= plan_within_ns plan /\ plan_within_ns plan <= _MAX_SAFE_INTEGER.
Proof.
  intros Hp. unfold validate_poll_plan, _positive_safe_integer in Hp. repeat (py_step Hp; []). simplify_eq/=. py_bool.
  repeat match goal with E : (if _ then _ else _) = Ok _ |- _ => py_step E; apply ok_inj in E end. py_bool. subst. lia.
Qed.
Lemma pollable_bounds plan : pollable plan ->
  MINIMUM_POLL_INTERVAL_NS <= plan_poll_interval_ns plan <= plan_within_ns plan /\ plan_within_ns plan <= _MAX_SAFE_INTEGER.
Proof. intros [Hp _ _]. by apply poll_plan_bounds. Qed.

Lemma is_ok_match {A B} (r : result A) (k : A -> result B) :
  is_ok r = true -> (forall a, r = Ok a -> is_ok (k a) = true) -> is_ok (let! a := r in k a) = true.
Proof. destruct r; simpl; auto. Qed.

(** What a record needs beyond its plan and its request. *)
Lemma record_built plan request sequence r :
  pollable plan -> observable request ->
  is_ok (_record_id (rec_record_id r)) = true -> rec_run_id r = some_or_empty (req_run_id request) ->
  rec_scenario_id r = some_or_empty (req_scenario_id request) -> rec_observation_id r = plan_observation_id plan ->
  rec_sample_id r = some_or_empty (req_sample_id request) -> rec_observer_id r = plan_observer_id plan ->
  rec_sample_sequence r = sequence -> 1 <= sequence <= MAX_IJSON_INTEGER -> is_ok (_validate_utc_timestamp (rec_recorded_at r)) = true ->
  rec_event_id r = req_event_id request -> is_ok (optional _validate_snapshot_id (rec_snapshot_id r)) = true ->
  zlen (rec_evidence r) <= MAX_EVIDENCE_VALUES -> is_ok (optional validate_record_error (rec_error r)) = true ->
  is_ok (validate_status_shape r) = true -> record_of plan request sequence r.
Proof.
  intros Hp Hq Hid Hrun Hscenario Hobservation Hsample Hobserver Hseq Hbound%within_spec Hat Hevent Hsnap Hev Herr Hshape.
  destruct (observable_fields _ Hq) as ((sample & Es & Hs) & (run & Er & Hr) & (scenario & Ec & Hc) & He).
  split; [by rewrite Es in *; rewrite Hsample|done|done|]. rewrite Es in Hsample. rewrite Er in Hrun. rewrite Ec in Hscenario. simpl in *. destruct Hp as [Hv _ Hn].
  unfold validate_poll_plan in Hv. py_step Hv. clear Hv.
  assert (is_ok (validate_observation_record r) = true) as Hok.
  { unfold validate_observation_record, _observation_id. rewrite Hrun, Hscenario, Hobservation, Hsample, Hobserver, Hevent, Hseq, Hbound, E.
    simpl negb. cbv iota. repeat (apply is_ok_match; [done|intros]). rewrite (proj2 (Z.ltb_ge _ _)) by done.
    by repeat (apply is_ok_match; [done|intros]). }
  destruct (validate_observation_record r) as [x|] eqn:Ex; [|done]. f_equal. unfold validate_observation_record in Ex.
  repeat (py_step Ex; []). unfold validate_status_shape in Ex. py_step Ex. destruct (bool_decide _); repeat (py_step Ex; []); by apply ok_inj in Ex.
Qed.

(** ** Wall time *)

Lemma ascii_digit_value d : 0 <= d <= 9 -> digit_value (Z.to_N (48 + d)) = Some d.
Proof.
  intros Hd. assert (d ∈ [0; 1; 2; 3; 4; 5; 6; 7; 8; 9]) as Hin by (rewrite !elem_of_cons; lia).
  repeat (apply elem_of_cons in Hin as [->|Hin]; [done|]). by apply not_elem_of_nil in Hin.
Qed.
Lemma padded_length n v : length (zero_padded n v) = n.
Proof. revert v; induction n as [|n IH]; intros v; [done|]. simpl. rewrite length_app, IH. simpl. lia. Qed.
Lemma padded_digits n v : forallb is_unicode_digit (zero_padded n v) = true.
Proof.
  revert v; induction n as [|n IH]; intros v; [done|]. simpl. rewrite forallb_app, IH. simpl. unfold is_unicode_digit.
  by rewrite ascii_digit_value by (pose proof (Z.mod_pos_bound v 10); lia).
Qed.
Lemma padded_int n v : 0 <= v < 10 ^ Z.of_nat n -> digits_int (zero_padded n v) = v.
Proof.
  revert v; induction n as [|n IH]; intros v Hv; [simpl in Hv; unfold digits_int; simpl; lia|].
  pose proof (Z.mod_pos_bound v 10 ltac:(lia)). pose proof (Z.div_mod v 10 ltac:(lia)). rewrite Nat2Z.inj_succ, Z.pow_succ_r in Hv by lia.
  specialize (IH (v / 10) ltac:(lia)). unfold digits_int in *. simpl. rewrite fold_left_app, IH. simpl.
  rewrite ascii_digit_value by lia. simpl. lia.
Qed.

Lemma isoformat_valid w : wall_time_ok w = true -> _validate_utc_timestamp (isoformat w) = Ok (isoformat w).
Proof.
  unfold wall_time_ok. intros H. py_bool.
  assert (days_in_month (wt_year w) (wt_month w) <= 31) as Hdays by (unfold days_in_month; repeat case_match; lia).
  pose proof (padded_int 4 (wt_year w) ltac:(simpl; lia)) as Hy. pose proof (padded_int 2 (wt_month w) ltac:(simpl; lia)) as Hmo.
  pose proof (padded_int 2 (wt_day w) ltac:(simpl; lia)) as Hd. pose proof (padded_int 2 (wt_hour w) ltac:(simpl; lia)) as Hh.
  pose proof (padded_int 2 (wt_minute w) ltac:(simpl; lia)) as Hm. pose proof (padded_int 2 (wt_second w) ltac:(simpl; lia)) as Hs.
  pose proof (padded_digits 4 (wt_year w)) as Dy. pose proof (padded_digits 2 (wt_month w)) as Dmo.
  pose proof (padded_digits 2 (wt_day w)) as Dd. pose proof (padded_digits 2 (wt_hour w)) as Dh.
  pose proof (padded_digits 2 (wt_minute w)) as Dm. pose proof (padded_digits 2 (wt_second w)) as Ds.
  pose proof (padded_digits 6 (wt_microsecond w)) as Du. unfold isoformat.
  repeat match goal with |- context [zero_padded ?n ?v] =>
    let L := fresh "L" in let l := fresh "l" in pose proof (padded_length n v) as L; set (l := zero_padded n v) in *; clearbody l;
    do 7 try (destruct l as [|? l]; try discriminate L); clear L end.
  simpl in Dy, Dmo, Dd, Dh, Dm, Ds, Du. py_bool.
  unfold _validate_utc_timestamp. cbn [app u map String.list_ascii_of_string]. cbv zeta. rewrite Hy, Hmo, Hd, Hh, Hm, Hs.
  rewrite bool_decide_eq_true_2 by done. rewrite !(proj2 (within_spec _ _ _)) by lia. cbn [timestamp_tail].
  repeat match goal with D : is_unicode_digit _ = true |- _ => rewrite D; clear D | |- context [forallb] => cbn [forallb removelast List.last] end.
  reflexivity.
Qed.

(** ** Operations *)

Section operations.
Context {W : Type} `{!PollEnvironment W} `{!PollEnvironmentLaws W}.

Definition after {A} (m : Poll W A) (s : PollState W) (Q : result A -> PollState W -> Prop) : Prop := let (r, s') := m s in Q r s'.

Lemma after_bind {A B} (m : Poll W A) (k : A -> Poll W B) s (P : result A -> PollState W -> Prop) (Q : result B -> PollState W -> Prop) :
  after m s P -> (forall a s', P (Ok a) s' -> after (k a) s' Q) -> (forall e s', P (Raise e) s' -> Q (Raise e) s') -> after (and_then m k) s Q.
Proof.
  unfold after, and_then. destruct (m s) as [[a|e] s']; intros HP Hk He; [by apply Hk|by apply He].
Qed.
Lemma after_weaken {A} (m : Poll W A) s (P Q : result A -> PollState W -> Prop) :
  after m s P -> (forall r s', P r s' -> Q r s') -> after m s Q.
Proof. unfold after. destruct (m s). auto. Qed.

Definition time (s : PollState W) : Z := now (ps_world s).
Definition identities (s : PollState W) : list str := issued (ps_world s).
Definition lawful (s : PollState W) : Prop :=
  0 <= _origin_monotonic_ns (ps_clock s) <= _last_monotonic_ns (ps_clock s) /\ _last_monotonic_ns (ps_clock s) <= time s.

(** From [s] to [s'] with the effects [E]. *)
Record stepped (s s' : PollState W) (E : list PollEffect) : Prop := {
  step_lawful : lawful s';
  step_time : time s <= time s';
  step_identities : identities s ⊆ identities s';
  step_trace : ps_trace s' = ps_trace s ++ E
}.
Lemma step_refl s : lawful s -> stepped s s [].
Proof. intros Hs. by split; [|lia| |rewrite app_nil_r]. Qed.
Lemma step_trans s1 s2 s3 E F : stepped s1 s2 E -> stepped s2 s3 F -> stepped s1 s3 (E ++ F).
Proof. intros [L1 T1 I1 H1] [L2 T2 I2 H2]. split; [done|lia|set_solver|]. by rewrite H2, H1, app_assoc. Qed.
Lemma step_quiet s1 s2 s3 E : stepped s1 s2 [] -> stepped s2 s3 E -> stepped s1 s3 E.
Proof. apply step_trans. Qed.

Lemma world_after {A} (f : W -> A * W) s (P : A -> Prop) :
  lawful s -> (forall a w, f (ps_world s) = (a, w) -> P a /\ now (ps_world s) <= now w /\ issued (ps_world s) ⊆ issued w) ->
  after (in_world f) s (fun r s' => exists a, r = Ok a /\ P a /\ stepped s s' []).
Proof.
  intros [Ho Hl] Hf. unfold after, in_world. destruct (f (ps_world s)) as [a w] eqn:E. destruct (Hf a w eq_refl) as (Ha & Hn & Hi).
  exists a. split; [done|]. split; [done|]. split; simpl; [|done|done|by rewrite app_nil_r]. split; [done|]. unfold time in *. simpl. lia.
Qed.

(** A reading of the clock succeeds and lies between the times before and after it. *)
Lemma clock_after {A} (f : RuntimeClock -> Z -> result (A * RuntimeClock)) s (P : Z -> A -> Prop) :
  lawful s ->
  (forall t, _origin_monotonic_ns (ps_clock s) <= _last_monotonic_ns (ps_clock s) <= t -> 0 <= t -> t + _MAX_SAFE_INTEGER <= SIGNED_INT64_MAX ->
     exists a c, f (ps_clock s) t = Ok (a, c) /\ P t a /\ _last_monotonic_ns c = t /\ _origin_monotonic_ns c = _origin_monotonic_ns (ps_clock s)) ->
  after (on_clock f) s (fun r s' => exists a t, r = Ok a /\ P t a /\ time s <= t <= time s' /\ stepped s s' [] /\ identities s' = identities s).
Proof.
  intros [Ho Hl] Hf. unfold after, on_clock. destruct (monotonic_reading (ps_world s)) as [t w] eqn:E.
  destruct (reading_law _ _ _ E) as (Ht & Hw & Hbound & Hi). unfold time in *.
  destruct (Hf t) as (a & c & -> & HP & Hc & Hco); [lia..|]. exists a, t. split; [done|]. split; [done|]. unfold time. simpl. split; [lia|].
  split; [|by unfold identities]. split; simpl; [|unfold time; simpl; lia|unfold identities; simpl; by rewrite Hi|by rewrite app_nil_r].
  unfold lawful, time. simpl. rewrite Hc, Hco. lia.
Qed.

Lemma now_reading c t : _last_monotonic_ns c <= t -> 0 <= t <= SIGNED_INT64_MAX -> exists c', monotonic_now_ns c t = Ok (t, c') /\
  _last_monotonic_ns c' = t /\ _origin_monotonic_ns c' = _origin_monotonic_ns c.
Proof.
  intros Hl Ht. unfold monotonic_now_ns. rewrite nonnegative_int64_some by done. rewrite (proj2 (Z.ltb_ge _ _)) by done. by eexists.
Qed.
Lemma safe_nonnegative : 0 <= _MAX_SAFE_INTEGER.
Proof. done. Qed.

Lemma expired_after d s : lawful s ->
  after (on_clock (expired d)) s (fun r s' => exists b t, r = Ok b /\ b = (nanoseconds d <=? t) /\ time s <= t <= time s' /\ stepped s s' [] /\
    identities s' = identities s).
Proof.
  intros Hs. apply (clock_after (expired d) s (fun t b => b = (nanoseconds d <=? t))); [done|]. intros t Hl Ht Hb. unfold expired.
  pose proof safe_nonnegative. destruct (now_reading (ps_clock s) t) as (c & -> & Hc); [lia..|]. by eauto.
Qed.
Lemma remaining_after d s : lawful s ->
  after (on_clock (remaining_ns d)) s (fun r s' => exists left t, r = Ok left /\ left = Z.max 0 (nanoseconds d - t) /\ time s <= t <= time s' /\
    stepped s s' [] /\ identities s' = identities s).
Proof.
  intros Hs. apply (clock_after (remaining_ns d) s (fun t left => left = Z.max 0 (nanoseconds d - t))); [done|]. intros t Hl Ht Hb.
  unfold remaining_ns. pose proof safe_nonnegative. destruct (now_reading (ps_clock s) t) as (c & -> & Hc); [lia..|]. by eauto.
Qed.
Lemma deadline_set plan s : pollable plan -> lawful s ->
  after (on_clock (fun c reading => deadline_after c (plan_within_ns plan) reading)) s
    (fun r s' => exists d t, r = Ok d /\ nanoseconds d = t + plan_within_ns plan /\ time s <= t <= time s' /\ stepped s s' [] /\
       identities s' = identities s).
Proof.
  intros Hp Hs. apply (clock_after _ s (fun t d => nanoseconds d = t + plan_within_ns plan)); [done|]. intros t Hl Ht Hb.
  destruct (pollable_bounds _ Hp) as [Hi Hw]. unfold MINIMUM_POLL_INTERVAL_NS in Hi.
  unfold deadline_after, physical_timeout_ns, make_deadline. rewrite (nonnegative_int64_some (plan_within_ns plan)) by lia.
  destruct (now_reading (ps_clock s) t) as (c & -> & Hc); [lia..|]. rewrite (proj2 (Z.ltb_ge _ _)) by lia.
  rewrite nonnegative_int64_some by lia. eexists _, c. by split.
Qed.

Lemma timestamp_after s : lawful s -> after timestamp s (fun r s' => exists t, r = Ok t /\ stepped s s' []).
Proof.
  intros Hs. unfold timestamp. eapply after_bind.
  - apply (world_after wall_reading s (fun _ => True)); [done|]. intros a w E. destruct (wall_law _ _ _ E) as (_ & Hn & Hi).
    split; [done|]. split; [done|by rewrite Hi].
  - intros w s1 (a & [= <-] & _ & Hst). eapply after_weaken.
    + apply (clock_after _ s1 (fun _ _ => True)); [apply Hst|]. intros t Hl Ht Hb. unfold transition_timestamp, validate_utc_wall_time. simpl.
      unfold monotonic_elapsed_ns. pose proof safe_nonnegative. destruct (now_reading (ps_clock s1) t) as (c & -> & Hc); [lia..|].
      destruct (step_lawful _ _ _ Hst) as [Ho _].
      rewrite nonnegative_int64_some by lia. unfold make_transition_timestamp, validate_utc_wall_time. simpl.
      rewrite nonnegative_int64_some by lia. eexists _, c. by split.
    + intros r s2 (x & t & -> & _ & _ & Hst2 & _). exists x. split; [done|]. by eapply step_quiet.
  - by intros e s' (a & [=] & _).
Qed.

(** The journal or the factory refuses. *)
Definition refused {A} (s s' : PollState W) (r : result A) : Prop := exists e, r = Raise e /\ stepped s s' [Refused e].
Lemma refused_raise {A B} s s' e : refused s s' (Raise e : result A) -> refused s s' (Raise e : result B).
Proof. intros (x & [= ->] & Hst). by exists x. Qed.
Lemma refused_later {A} s s1 s' (r : result A) : stepped s s1 [] -> refused s1 s' r -> refused s s' r.
Proof. intros Hst (e & -> & Hst'). exists e. split; [done|by eapply step_quiet]. Qed.

Lemma fresh_after kind s : lawful s ->
  after (fresh_id kind) s (fun r s' => refused s s' r \/ exists id, r = Ok id /\ validate_fresh_id id (Some kind) = Ok id /\
    ~ id ∈ identities s /\ id ∈ identities s' /\ stepped s s' []).
Proof.
  intros [Ho Hl]. unfold fresh_id, after, and_then, in_world. destruct (fresh_identity kind (ps_world s)) as [r w] eqn:E.
  destruct (identity_law _ _ _ _ E) as [Hw Hr]. destruct r as [id|e]; unfold granted, ret, note, lift, and_then; simpl.
  - destruct Hr as (Hv & Hn & Hi). right. exists id. split; [done|]. split; [done|]. split; [done|]. unfold identities. simpl. rewrite Hi.
    split; [left|]. split; simpl; [|done|unfold identities; simpl; rewrite Hi; set_solver|by rewrite app_nil_r].
    split; [done|]. unfold time in *. simpl. lia.
  - left. exists e. split; [done|]. split; simpl; [|done|unfold identities; simpl; by rewrite Hr|done]. split; [done|]. unfold time in *. simpl. lia.
Qed.
Lemma recorded_after s : lawful s ->
  after _format_recorded_at s (fun r s' => exists text, r = Ok text /\ is_ok (_validate_utc_timestamp text) = true /\ stepped s s' []).
Proof.
  intros Hs. unfold _format_recorded_at. eapply after_bind.
  - apply (world_after wall_reading s (fun w => wall_time_ok w = true)); [done|]. intros a w E.
    destruct (wall_law _ _ _ E) as (Ha & Hn & Hi). split; [done|]. split; [done|by rewrite Hi].
  - intros w s1 (a & [= <-] & Hw & Hst). unfold after, ret. exists (isoformat w). by rewrite isoformat_valid.
  - by intros e s' (a & [=] & _).
Qed.
Lemma checkpoint_after s : lawful s -> after checkpoint s (fun r s' => (r = Ok tt \/ r = Raise Cancelled) /\ stepped s s' []).
Proof.
  intros Hs. unfold checkpoint. eapply after_bind.
  - apply (world_after await_checkpoint s (fun _ => True)); [done|]. intros b w E. destruct (checkpoint_law _ _ _ E) as [Hn Hi].
    split; [done|]. split; [done|by rewrite Hi].
  - intros b s1 (a & [= <-] & _ & Hst). destruct b; unfold after, ret, lift; auto.
  - by intros e s' (a & [=] & _).
Qed.
Lemma sleep_after ns s : lawful s -> 0 <= ns <= SIGNED_INT64_MAX ->
  after (sleep ns) s (fun r s' => stepped s s' [] /\ (r = Ok tt /\ time s + ns <= time s' \/ r = Raise Cancelled)).
Proof.
  intros [Ho Hl] Hns. unfold sleep, after, sleep_physical, physical_timeout_ns. rewrite nonnegative_int64_some by done.
  unfold and_then, in_world. destruct (await_sleep ns (ps_world s)) as [b w] eqn:E. destruct (sleep_law _ _ _ _ E) as (Hn & Hi & Hb).
  unfold time in *. destruct b; unfold ret, lift; (split; [split; simpl;
    [split; [done|unfold time; simpl; lia]|done|unfold identities; simpl; by rewrite Hi|by rewrite app_nil_r]|]); [by right|].
  left. split; [done|]. unfold time. simpl. auto.
Qed.

(** ** Samples *)

Lemma bounded_zlen_filter {A} (p : A -> bool) l b : zlen l <= b -> zlen (List.filter p l) <= b.
Proof. unfold zlen. pose proof (List.filter_length_le p l). lia. Qed.
Lemma filter_keys_unique (p : ObserverEvidence -> bool) l : NoDup (map ev_key l) -> NoDup (map ev_key (List.filter p l)).
Proof.
  induction l as [|x l IH]; [done|]. simpl. intros [Hx Hl]%list.NoDup_cons. destruct (p x); simpl; [|auto]. apply list.NoDup_cons.
  split; [|auto]. intros (y & Hy & Hin)%list_elem_of_fmap. apply Hx. rewrite Hy. apply list_elem_of_fmap_2.
  apply list_elem_of_In. by apply list_elem_of_In, List.filter_In in Hin as [? _].
Qed.
Lemma unique_ok {A} `{EqDecision A} (l : list A) : NoDup l -> _require_unique l = Ok tt.
Proof. intros Hl. unfold _require_unique. by rewrite bool_decide_eq_true_2. Qed.
Lemma unique_inv {A} `{EqDecision A} (l : list A) x : _require_unique l = Ok x -> NoDup l.
Proof. unfold _require_unique. intros H. py_step H. by apply negb_false_iff, bool_decide_eq_true in E. Qed.

(** A record gets its identity and its time first. *)
Lemma stamped_after (P : ObservationRecord -> Prop) (k : str -> str -> Poll W ObservationRecord) s :
  lawful s ->
  (forall id text, is_ok (_record_id id) = true -> is_ok (_validate_utc_timestamp text) = true ->
     exists record, P record /\ forall s, k id text s = (Ok record, s)) ->
  after (and_then (fresh_id Fresh_RECORD) (fun id => and_then _format_recorded_at (fun text => k id text))) s
    (fun r s' => refused s s' r \/ exists record, r = Ok record /\ P record /\ stepped s s' []).
Proof.
  intros Hs Hk. eapply after_bind; [apply (fresh_after Fresh_RECORD s Hs)| |].
  2:{ intros e s' [Hr|(a & [=] & _)]. left. by eapply refused_raise. }
  intros id s1 [(e & [=] & _)|(a & [= <-] & Hid & _ & _ & Hst1)]. eapply after_bind; [apply (recorded_after s1), Hst1| |by intros e s' (a & [=] & _)].
  intros text s2 (a & [= <-] & Htext & Hst2). destruct (Hk id text) as (record & Hr & E); [by unfold _record_id; rewrite Hid|done|].
  unfold after. rewrite E. right. exists record. split; [done|]. split; [done|]. by eapply step_quiet.
Qed.

Lemma failure_after status message plan request sequence category s :
  status = Status_ERROR \/ status = Status_TIMEOUT ->
  pollable plan -> observable request -> 1 <= sequence <= MAX_IJSON_INTEGER ->
  is_ok (validate_record_error {| re_category := category; re_message_redacted := message |}) = true -> lawful s ->
  after (failure_record status message plan request sequence category) s
    (fun r s' => refused s s' r \/ exists record, r = Ok record /\ (record_of plan request sequence record /\ rec_status record = status) /\ stepped s s' []).
Proof.
  intros Hstatus Hp Hq Hseq He Hs. unfold failure_record. apply (stamped_after _ (fun id text => and_then _ _)); [done|]. intros id text Hid Htext.
  unfold and_then, lift. destruct (validate_record_error _) as [error|] eqn:Ee; [|done].
  assert (error = {| re_category := category; re_message_redacted := message |}) as ->.
  { unfold validate_record_error in Ee. repeat (py_step Ee; []). by apply ok_inj in Ee. }
  match goal with |- context [validate_observation_record ?r] => assert (record_of plan request sequence r) as Hr end.
  { apply record_built; try done; cbn [rec_error optional]; [by rewrite Ee|]. unfold validate_status_shape.
    cbn [rec_evidence rec_status rec_snapshot_id rec_error map]. rewrite unique_ok by constructor. by destruct Hstatus as [-> | ->]. }
  rewrite (record_valid _ _ _ _ Hr). by eexists (Build_ObservationRecord _ _ _ _ _ _ _ _ _ _ _ _ _).
Qed.

Lemma validated_response r : validate_observer_response r = Ok r ->
  is_ok (optional _validate_snapshot_id (rsp_snapshot_id r)) = true /\ zlen (rsp_evidence r) <= MAX_EVIDENCE_VALUES /\
  NoDup (map ev_key (rsp_evidence r)) /\
  match rsp_status r with
  | Response_OK => is_none (rsp_snapshot_id r) = false
  | _ => rsp_snapshot_id r = None /\ rsp_evidence r = []
  end /\
  match rsp_error r with Some e => is_ok (validate_category (we_category e)) = true | None => True end.
Proof.
  intros H. unfold validate_observer_response in H. repeat (py_step H; []). split; [done|]. split; [by py_bool|].
  unfold validate_response_shape in H. py_step H. split; [by eapply unique_inv|]. split.
  - destruct (rsp_status r); [rewrite bool_decide_eq_true_2 in H by done; by py_step H|rewrite bool_decide_eq_false_2 in H by done..];
      (py_step H; py_bool; by destruct (rsp_snapshot_id r)).
  - destruct (rsp_error r) as [e|]; [|done]. simpl in E3. unfold validate_wire_error in E3. destruct (validate_category _); [done|]. by simplify_eq/=.
Qed.

Lemma response_after plan request sequence response s :
  pollable plan -> observable request -> 1 <= sequence <= MAX_IJSON_INTEGER -> validate_observer_response response = Ok response -> lawful s ->
  after (_response_record plan request sequence (Some response) None) s
    (fun r s' => refused s s' r \/ exists record, r = Ok record /\ (record_of plan request sequence record /\ rec_status record = map_response_status (rsp_status response)) /\ stepped s s' []).
Proof.
  intros Hp Hq Hseq Hr Hs. destruct (validated_response _ Hr) as (Hsnap & Hlen & Hkeys & Hshape & Herror).
  unfold _response_record. cbn [_record_status]. set (status := map_response_status (rsp_status response)).
  eapply (after_bind _ _ _ (fun r s' => r = Ok status /\ s' = s)); [done| |by intros e s' [[=] _]]. intros a s1 [[= ->] ->]. cbv zeta.
  set (error := if bool_decide (status = Status_ERROR) then _ else _).
  assert (optional validate_record_error error = Ok error) as Ee.
  { subst error. case_bool_decide; [|done]. simpl. unfold validate_record_error. cbn [re_category re_message_redacted].
    destruct (rsp_error response) as [e|]; [|by vm_compute]. by destruct (validate_category (we_category e)). }
  eapply (after_bind _ _ _ (fun r s' => r = Ok error /\ s' = s)); [by rewrite Ee| |by intros e s' [[=] _]]. intros a s1 [[= ->] ->].
  apply stamped_after; [done|]. intros id text Hid Htext. unfold lift.
  match goal with |- context [validate_observation_record ?r] => assert (record_of plan request sequence r) as Hrec end.
  { apply record_built; try done; cbn [rec_error rec_evidence rec_snapshot_id].
    - by apply bounded_zlen_filter.
    - by rewrite Ee.
    - unfold validate_status_shape. cbn [rec_evidence rec_status rec_snapshot_id rec_error]. rewrite unique_ok by (by apply filter_keys_unique).
      subst error status. destruct (rsp_status response); cbn [map_response_status RESPONSE_TO_RECORD_STATUS] in *;
        [by destruct (rsp_snapshot_id response)|destruct Hshape as [-> ->]; done..]. }
  rewrite (record_valid _ _ _ _ Hrec). by eexists.
Qed.

Lemma undeclared_after plan request sequence s :
  pollable plan -> observable request -> 1 <= sequence <= MAX_IJSON_INTEGER -> lawful s ->
  after (_response_record plan request sequence None (Some Status_UNSUPPORTED)) s
    (fun r s' => refused s s' r \/ exists record, r = Ok record /\ record_of plan request sequence record /\ stepped s s' []).
Proof.
  intros Hp Hq Hseq Hs. unfold _response_record. unfold after, and_then at 1 2, lift at 1 2. cbv zeta. rewrite bool_decide_eq_false_2 by done.
  cbn [optional]. apply stamped_after; [done|]. intros id text Hid Htext. unfold lift.
  match goal with |- context [validate_observation_record ?r] => assert (record_of plan request sequence r) as Hrec by (by apply record_built) end.
  rewrite (record_valid _ _ _ _ Hrec). by eexists.
Qed.

(** ** Commits *)

(** What appending a sample does: it is committed, and the task may be cancelled after the last one, or
    the journal refuses. *)
Inductive appended (record : ObservationRecord) (terminal : option ObservationState) : result unit -> list PollEffect -> Prop :=
  | appended_ok c : sc_record c = record -> sc_terminal_state c = terminal ->
      (forall t, terminal = Some t -> t ∈ TERMINAL_OBSERVATIONS) -> appended record terminal (Ok tt) [Appended c]
  | appended_cancelled c : sc_record c = record -> sc_terminal_state c = terminal -> is_none terminal = false ->
      (forall t, terminal = Some t -> t ∈ TERMINAL_OBSERVATIONS) -> appended record terminal (Raise Cancelled) [Appended c]
  | appended_refused e : appended record terminal (Raise e) [Refused e].

Lemma journaled_after effect (f : W -> result unit * W) s :
  lawful s -> (forall r w, f (ps_world s) = (r, w) -> now (ps_world s) <= now w /\ issued w = issued (ps_world s)) ->
  after (journaled effect f) s (fun r s' => r = Ok tt /\ stepped s s' [effect] \/ refused s s' r).
Proof.
  intros Hs Hf. unfold journaled. eapply after_bind.
  - apply (world_after f s (fun _ => True)); [done|]. intros a w E. destruct (Hf a w E) as [Hn ->]. done.
  - intros r s1 (a & [= <-] & _ & [L T I H]). destruct r as [[]|e]; unfold after, and_then, granted, ret, note, lift; [left|right; exists e];
      (split; [done|]); (split; simpl; [done|done|done|by rewrite H, app_nil_r]).
  - by intros e s' (a & [=] & _).
Qed.

Lemma append_after plan record terminal s :
  lawful s -> (forall t, terminal = Some t -> t ∈ TERMINAL_OBSERVATIONS) ->
  after (_append plan record terminal) s (fun r s' => exists E, appended record terminal r E /\ stepped s s' E).
Proof.
  intros Hs Ht. unfold _append. eapply after_bind; [apply (timestamp_after s Hs)| |by intros e s' (a & [=] & _)].
  intros t s1 (a & [= <-] & Hst1). unfold make_sample_commit.
  assert (match terminal with Some s => negb (bool_decide (s ∈ TERMINAL_OBSERVATIONS)) | None => false end = false) as ->.
  { destruct terminal as [x|]; [|done]. by rewrite bool_decide_eq_true_2 by auto. }
  unfold after, and_then at 1, lift at 1. set (c := {| sc_record := record; sc_timestamp := t; sc_terminal_state := terminal |}).
  apply (after_bind _ _ _ (fun r s' => r = Ok tt /\ stepped s1 s' [Appended c] \/ refused s1 s' r)).
  - apply journaled_after; [apply Hst1|]. intros r w E. by apply (append_law plan c _ r).
  - intros [] s2 [[_ Hst2]|(e & [=] & _)]. pose proof (step_quiet _ _ _ _ Hst1 Hst2) as Hst. destruct terminal as [x|].
    + eapply after_weaken; [apply (checkpoint_after s2), Hst|]. intros r s3 [Hc Hst3]. exists [Appended c]. split.
      * destruct Hc as [-> | ->]; [by apply appended_ok|by apply appended_cancelled].
      * by eapply (step_trans _ _ _ [Appended c] []).
    + unfold after, ret. exists [Appended c]. split; [by apply appended_ok|done].
  - intros e s2 [[[=] _]|(e' & [= <-] & Hst2)]. exists [Refused e]. split; [apply appended_refused|by eapply step_quiet].
Qed.

(** How a series ends by an exception: a last sample is committed and the task is cancelled, or the
    journal refuses. *)
Inductive ended (plan : ObservationPollPlan) (request : ObserverRequest) (sequence : Z) : exn -> list PollEffect -> Prop :=
  | ended_cancelled c t : record_of plan request sequence (sc_record c) -> sc_terminal_state c = Some t -> t ∈ TERMINAL_OBSERVATIONS ->
      ended plan request sequence Cancelled [Appended c]
  | ended_refused e : ended plan request sequence e [Refused e].

(** How it ends while the next request, the [n]-th, is prepared. *)
Inductive interrupted (plan : ObservationPollPlan) (q : ObserverRequest) (n : Z) (s : PollState W) : exn -> list PollEffect -> Prop :=
  | interrupted_cancelled c t id : ~ id ∈ identities s -> record_of plan (with_sample_id q id) n (sc_record c) ->
      sc_terminal_state c = Some t -> t ∈ TERMINAL_OBSERVATIONS -> interrupted plan q n s Cancelled [Appended c]
  | interrupted_refused e : interrupted plan q n s e [Refused e].
Lemma ended_interrupted plan q n s id e E :
  ~ id ∈ identities s -> ended plan (with_sample_id q id) n e E -> interrupted plan q n s e E.
Proof. intros Hid []; [by eapply interrupted_cancelled|by apply interrupted_refused]. Qed.

Lemma appended_ended plan request sequence record t e E :
  record_of plan request sequence record -> appended record (Some t) (Raise e) E -> ended plan request sequence e E.
Proof. intros Hr. inversion 1; subst; [eapply ended_cancelled; eauto|by constructor]. Qed.

(** [_cancel] and then the cancellation itself. *)
Lemma cancel_after {A} plan request sequence s :
  pollable plan -> observable request -> 1 <= sequence <= MAX_IJSON_INTEGER -> lawful s ->
  after (and_then (_cancel plan request sequence) (fun _ => lift (A := A) (Raise Cancelled))) s
    (fun r s' => exists e E, r = Raise e /\ ended plan request sequence e E /\ stepped s s' E).
Proof.
  intros Hp Hq Hseq Hs.
  apply (after_bind _ _ _ (fun r s' => exists E, stepped s s' E /\ match r with
    | Ok _ => exists c, E = [Appended c] /\ record_of plan request sequence (sc_record c) /\ sc_terminal_state c = Some Observation_CANCELLED
    | Raise e => ended plan request sequence e E
    end)).
  - unfold _cancel, _error_record. eapply after_bind; [by apply (failure_after Status_ERROR); try done; left| |].
    2:{ intros e s1 [(e' & [= <-] & Hst1)|(a & [=] & _)]. exists [Refused e]. split; [done|constructor]. }
    intros record s1 [(e & [=] & _)|(a & [= <-] & [Hr _] & Hst1)].
    eapply after_weaken; [apply (append_after plan record); [apply Hst1|]|].
    + intros t [= <-]. by repeat (first [left|right]).
    + intros r s2 (E & HE & Hst2). exists E. split; [by eapply step_quiet|]. destruct r as [[]|e]; [|by eapply appended_ended].
      inversion HE as [c Hc Ht| |]; subst. by exists c.
  - intros [] s' (E & Hst & (c & -> & Hc & Ht)). unfold after, lift. eexists _, _. split; [done|]. split; [|done].
    eapply ended_cancelled; [done..|]. by repeat (first [left|right]).
  - intros e s' (E & Hst & HE). by exists e, E.
Qed.

Lemma on_cancel_after {A} (m : Poll W A) (handler : Poll W unit) s (P Q : result A -> PollState W -> Prop) :
  after m s P -> (forall s', P (Raise Cancelled) s' -> after (and_then handler (fun _ => lift (Raise Cancelled))) s' Q) ->
  (forall r s', r <> Raise Cancelled -> P r s' -> Q r s') -> after (on_cancel m handler) s Q.
Proof.
  unfold after, on_cancel. destruct (m s) as [[a|e] s']; intros HP Hc Hr; [by apply Hr|].
  destruct (decide (e = Cancelled)) as [->|He]; [by apply Hc|]. destruct e; try (apply Hr; [congruence|done]). done.
Qed.

(** Waiting out the poll interval, or what is left of the deadline. *)
Lemma pause_after plan deadline t s :
  pollable plan -> lawful s -> t <= time s ->
  let left := Z.max 0 (nanoseconds deadline - t) in
  after (and_then checkpoint (fun _ => if negb (left =? 0) then sleep (Z.min (plan_poll_interval_ns plan) left) else ret tt)) s
    (fun r s' => stepped s s' [] /\
       (r = Ok tt /\ (nanoseconds deadline <= time s' \/ t + plan_poll_interval_ns plan <= time s') \/ r = Raise Cancelled)).
Proof.
  intros Hp Hs Ht left. destruct (pollable_bounds _ Hp) as [Hi Hw]. unfold MINIMUM_POLL_INTERVAL_NS in Hi.
  eapply after_bind; [apply (checkpoint_after s Hs)|..].
  - intros [] s1 [_ Hst1]. pose proof (step_time _ _ _ Hst1) as Ht1. destruct (Z.eqb_spec left 0) as [Hz|Hz]; simpl.
    + unfold after, ret. split; [done|]. left. split; [done|]. lia.
    + eapply after_weaken; [apply (sleep_after (Z.min (plan_poll_interval_ns plan) left)); [apply Hst1|]|].
      { assert (_MAX_SAFE_INTEGER <= SIGNED_INT64_MAX) by (by vm_compute). lia. }
      intros r s2 [Hst2 Hr]. split; [by eapply step_quiet|]. destruct Hr as [[-> Hr]| ->]; [left|by right]. split; [done|]. lia.
  - intros e s1 [[[=]|[= ->]] Hst1]. split; [done|by right].
Qed.

Lemma next_request_after plan request sequence deadline s :
  pollable plan -> observable request -> (exists id, req_sample_id request = Some id /\ id ∈ identities s) ->
  0 <= sequence < MAX_IJSON_INTEGER -> lawful s ->
  after (_next_request plan request sequence deadline) s (fun r s' =>
    (exists id, r = Ok (with_sample_id request id, sequence + 1) /\ _sample_id id = Ok id /\ ~ id ∈ identities s /\ id ∈ identities s' /\
       stepped s s' [] /\ (nanoseconds deadline <= time s' \/ time s + plan_poll_interval_ns plan <= time s')) \/
    (exists e E, r = Raise e /\ interrupted plan request (sequence + 1) s e E /\ stepped s s' E)).
Proof.
  intros Hp Hq (old & Hold & Hin) Hseq Hs. unfold _next_request.
  eapply after_bind; [apply (fresh_after Fresh_SAMPLE s Hs)| |].
  2:{ intros e s' [(e' & [= <-] & Hst)|(a & [=] & _)]. right. exists e, [Refused e]. split; [done|]. split; [constructor|done]. }
  intros id s1 [(e & [=] & _)|(a & [= <-] & Hid & Hnew & Hin1 & Hst1)].
  assert (observable (with_sample_id request id)) as Hq'.
  { split; [|apply Hq..]. apply with_sample_valid; [apply Hq..|done]. }
  assert (retry_observe_request request id = Ok (with_sample_id request id)) as Hretry.
  { unfold retry_observe_request, _sample_id. rewrite (observable_operation _ Hq), Hold, Hid, !bool_decide_eq_true_2 by done. simpl.
    rewrite bool_decide_eq_false_2 by (intros [= ->]; by apply Hnew). apply Hq'. }
  rewrite Hretry. unfold and_then at 1, lift at 1. unfold after. cbv zeta.
  eapply after_bind; [apply (remaining_after deadline s1), Hst1| |by intros e s' (a & t & [=] & _)].
  intros left s2 (a & t & [= <-] & -> & Ht & Hst2 & Hids). pose proof (step_quiet _ _ _ _ Hst1 Hst2) as Hst12.
  set (left := Z.max 0 (nanoseconds deadline - t)). destruct (pollable_bounds _ Hp) as [Hi Hw].
  assert (id ∈ identities s2) as Hin2 by (by rewrite Hids).
  eapply (after_bind _ _ _ (fun r s' => (r = Ok tt /\ stepped s2 s' [] /\ (nanoseconds deadline <= time s' \/ t + plan_poll_interval_ns plan <= time s')) \/
    (exists e E, r = Raise e /\ ended plan (with_sample_id request id) (sequence + 1) e E /\ stepped s2 s' E))).
  - eapply on_cancel_after; [apply (pause_after plan deadline t); [done|apply Hst12|lia]|..].
    + intros s3 [Hst3 _]. eapply after_weaken; [apply (cancel_after plan (with_sample_id request id) (sequence + 1)); [done..|lia|apply Hst3]|].
      intros r s4 (e & E & -> & HE & Hst4). right. exists e, E. split; [done|]. split; [done|]. by eapply step_quiet.
    + intros r s3 Hr [Hst3 [[-> Htime]| ->]]; [|done]. by left.
  - intros [] s3 [(_ & Hst3 & Htime)|(e & E & [=] & _)]. unfold after, ret. left. exists id.
    split; [done|]. split; [done|]. split; [done|]. split; [by apply (step_identities _ _ _ Hst3)|]. split; [by eapply step_quiet|]. pose proof (step_time _ _ _ Hst12).
    pose proof (step_time _ _ _ Hst1). lia.
  - intros e s3 [([=] & _)|(e' & E & [= <-] & HE & Hst3)]. right. exists e, E. split; [done|].
    split; [by eapply ended_interrupted|]. by eapply step_quiet.
Qed.
End operations.
