(* ===== verification/PollingSeries.v ===== *)
(** * One iteration of a polling series

    What one turn of the loop of [poll] does, in the environments of [PollingLaws]: it appends one sample and either prepares
    the next request, or returns a result that agrees with its sample, or ends by an exception of the
    task or of the journal. *)

From S2P Require Import Prelude Text TextLemmas Identifiers Domain Clocks Commands Policy Evidence ObserverProtocol Polling PollingLaws.

Local Open Scope Z_scope.

(** The state in which an outcome leaves the series. *)
Definition outcome_state (o : ObservationPollOutcome) : ObservationState :=
  match o with
  | Poll_MATCHED | Poll_MISMATCH => Observation_OK
  | Poll_PENDING => Observation_PENDING
  | Poll_UNSUPPORTED => Observation_UNSUPPORTED
  | Poll_ERROR => Observation_ERROR
  | Poll_TIMED_OUT => Observation_TIMED_OUT
  end.
Lemma outcome_terminal o : outcome_state o ∈ TERMINAL_OBSERVATIONS.
Proof. destruct o; repeat (first [left|right]). Qed.

Section iteration.
Context {W : Type} `{!PollEnvironment W} `{!PollEnvironmentLaws W}.
Context (plan : ObservationPollPlan) (Hplan : pollable plan) (predicate : PollPredicate).

(** The last response did not end the series: if it was evidence, it did not pass the predicate, and the
    observer may be asked again. *)
Definition unmatched (last : option ObserverResponse) : Prop :=
  match last with
  | Some r => rsp_status r <> Response_UNSUPPORTED /\
      (rsp_status r = Response_OK -> predicate r = Ok false /\ automatic_reinvocation_safe (plan_capabilities plan) = true)
  | None => True
  end.
Definition answered (last : option ObserverResponse) (answer : result bool) : Prop :=
  exists r, last = Some r /\ rsp_status r = Response_OK /\ predicate r = answer.
(** The plan's queries exceed the capabilities the observer declared. *)
Definition undeclared : Prop := exists n, negotiation plan = Ok n /\ supported n = false.

(** Each outcome has its cause in what the observer answered last and in what the plan allows. *)
Definition coherent (r : ObservationPollResult) : Prop :=
  polled_state r = outcome_state (polled_outcome r) /\
  polled_matched r = bool_decide (polled_outcome r = Poll_MATCHED) /\
  match polled_outcome r with
  | Poll_MATCHED => polled_valid_evidence r = true /\ answered (polled_last_response r) (Ok true)
  | Poll_MISMATCH => polled_valid_evidence r = true /\ answered (polled_last_response r) (Ok false) /\
      automatic_reinvocation_safe (plan_capabilities plan) = false
  | Poll_ERROR => unmatched (polled_last_response r) \/ exists e, answered (polled_last_response r) (Raise e)
  | Poll_PENDING => exists response n, polled_last_response r = Some response /\ rsp_status response = Response_PENDING /\
      negotiation plan = Ok n /\ automatic_polling_allowed (plan_capabilities plan) n = false
  | Poll_UNSUPPORTED => (exists response, polled_last_response r = Some response /\ rsp_status response = Response_UNSUPPORTED) \/
      (polled_last_response r = None /\ undeclared)
  | Poll_TIMED_OUT => unmatched (polled_last_response r)
  end.

(** The sample records evidence. *)
Definition evidence_sample (c : ObservationSampleCommit) : bool := bool_decide (rec_status (sc_record c) = Status_OK).
(** When the series times out, its result says whether evidence was [seen] before; the deadline it says
    has elapsed has. *)
Definition timely (seen : bool) (d : MonotonicDeadline) (s' : PollState W) (r : ObservationPollResult) : Prop :=
  (polled_outcome r = Poll_TIMED_OUT -> polled_valid_evidence r = seen) /\
  (polled_deadline_elapsed r = true -> nanoseconds d <= time s').

(** One iteration for the request [q], the [n]-th, after the samples [ids], from [s] to [s'], evidence having been
    [seen] or not.  It asks for another only when [early] holds: the deadline had not been reached. *)
Inductive iteration (early : Prop) (seen : bool) (q : ObserverRequest) (n : Z) (ids : list str) (d : MonotonicDeadline) (s s' : PollState W)
    : result PollStep -> list PollEffect -> Prop :=
  | iteration_continues l c id :
      early -> record_of plan q n (sc_record c) -> sc_terminal_state c = None -> automatic_reinvocation_safe (plan_capabilities plan) = true ->
      _sample_id id = Ok id -> ~ id ∈ identities s -> id ∈ identities s' ->
      nanoseconds d <= time s' \/ time s + plan_poll_interval_ns plan <= time s' ->
      pl_request l = with_sample_id q id -> pl_sample_sequence l = n + 1 -> pl_sample_ids l = ids ++ [rec_sample_id (sc_record c)] ->
      unmatched (pl_last_response l) -> pl_valid_evidence_seen l = seen || evidence_sample c ->
      iteration early seen q n ids d s s' (Ok (Continue l)) [Appended c]
  | iteration_returns r c :
      record_of plan q n (sc_record c) -> sc_terminal_state c = Some (polled_state r) ->
      polled_sample_ids r = ids ++ [rec_sample_id (sc_record c)] -> coherent r -> timely seen d s' r -> (polled_outcome r = Poll_TIMED_OUT -> evidence_sample c = false) ->
      iteration early seen q n ids d s s' (Ok (Return r)) [Appended c]
  | iteration_ends e E : ended plan q n e E -> iteration early seen q n ids d s s' (Raise e) E
  | iteration_interrupted c e E :
      early -> record_of plan q n (sc_record c) -> sc_terminal_state c = None -> interrupted plan q (n + 1) s e E ->
      iteration early seen q n ids d s s' (Raise e) (Appended c :: E).

Lemma interrupted_earlier q n s0 s e E : identities s0 ⊆ identities s -> interrupted plan q n s e E -> interrupted plan q n s0 e E.
Proof. intros Hi []; [eapply interrupted_cancelled; try done; set_solver|by apply interrupted_refused]. Qed.
Lemma iteration_earlier early seen q n ids d s0 s s' r E I :
  stepped s0 s I -> iteration early seen q n ids d s s' r E -> iteration early seen q n ids d s0 s' r E.
Proof.
  intros [_ Ht Hi _] [].
  - eapply iteration_continues; try done; [set_solver|lia].
  - by eapply iteration_returns.
  - by apply iteration_ends.
  - eapply iteration_interrupted; try done. by eapply interrupted_earlier.
Qed.

(** The request can be sent and the next one numbered. *)
Record ready (q : ObserverRequest) (n : Z) (s : PollState W) : Prop := {
  ready_request : observable q;
  ready_sample : exists id, req_sample_id q = Some id /\ id ∈ identities s;
  ready_sequence : 1 <= n < MAX_IJSON_INTEGER;
  ready_lawful : lawful s
}.
Lemma ready_later q n s s' E : ready q n s -> stepped s s' E -> ready q n s'.
Proof. intros [Hq (id & Hid & Hin) Hn _] Hst. split; [done| |done|apply Hst]. exists id. split; [done|]. by apply (step_identities _ _ _ Hst). Qed.

(** [m] is an iteration from [s]. *)
Definition iterates (early : Prop) (seen : bool) (l : PollLoop) (d : MonotonicDeadline) (m : Poll W PollStep) (s : PollState W) : Prop :=
  after m s (fun r s' => exists E, iteration early seen (pl_request l) (pl_sample_sequence l) (pl_sample_ids l) d s s' r E /\ stepped s s' E).

Lemma iterates_bind {A} early seen l d (m : Poll W A) k s (P : A -> Prop) :
  after m s (fun r s' => refused s s' r \/ exists a, r = Ok a /\ P a /\ stepped s s' []) ->
  (forall a s', P a -> stepped s s' [] -> iterates early seen l d (k a) s') -> iterates early seen l d (and_then m k) s.
Proof.
  intros Hm Hk. eapply after_bind; [exact Hm| |].
  2:{ intros e s' [(x & [= <-] & Hst)|(a & [=] & _)]. exists [Refused e]. split; [apply iteration_ends; constructor|done]. }
  intros a s1 [(e & [=] & _)|(x & [= <-] & Ha & Hst1)].
  eapply after_weaken; [by apply Hk|]. intros r s2 (E & HE & Hst2). exists E. split; [by eapply iteration_earlier|by eapply step_quiet].
Qed.

(** Appending the last sample and returning a result that agrees with it. *)
Lemma closing_iterates early seen l d record outcome k s :
  ready (pl_request l) (pl_sample_sequence l) s -> record_of plan (pl_request l) (pl_sample_sequence l) record ->
  (forall s1, lawful s1 -> time s <= time s1 -> after (k tt) s1 (fun r s' => exists res, r = Ok (Return res) /\ polled_state res = outcome_state outcome /\
     polled_sample_ids res = pl_sample_ids l ++ [rec_sample_id record] /\ coherent res /\
     (timely seen d s' res /\ (polled_outcome res = Poll_TIMED_OUT -> rec_status record <> Status_OK)) /\ stepped s1 s' [])) ->
  iterates early seen l d (and_then (_append plan record (Some (outcome_state outcome))) k) s.
Proof.
  intros Hs Hr Hk. eapply after_bind; [apply (append_after plan record); [apply Hs|]|..].
  - intros t [= <-]. apply outcome_terminal.
  - intros [] s1 (E & HE & Hst1). inversion HE as [c Hc Ht| |]; subst. eapply after_weaken; [apply Hk; apply Hst1|].
    intros r s2 (res & -> & Hstate & Hids & Hco & [Htime Hno] & Hst2). exists [Appended c]. split; [|by eapply (step_trans _ _ _ [_] [])].
    apply iteration_returns; try done; [by rewrite Hstate|]. intros Ho. unfold evidence_sample. apply bool_decide_eq_false. auto.
  - intros e s1 (E & HE & Hst1). exists E. split; [|done]. apply iteration_ends. by eapply appended_ended.
Qed.

Definition closing (l : PollLoop) (record : ObservationRecord) (outcome : ObservationPollOutcome) (elapsed : bool) : ObservationPollResult :=
  {| polled_outcome := outcome; polled_state := outcome_state outcome; polled_sample_ids := pl_sample_ids l ++ [rec_sample_id record];
     polled_matched := bool_decide (outcome = Poll_MATCHED); polled_valid_evidence := pl_valid_evidence_seen l;
     polled_deadline_elapsed := elapsed; polled_last_response := pl_last_response l |}.
Lemma closing_result l record outcome elapsed :
  _result outcome (outcome_state outcome) (bool_decide (outcome = Poll_MATCHED)) elapsed (sampled l record) = Ok (closing l record outcome elapsed).
Proof. unfold _result, make_poll_result. simpl. by rewrite bool_decide_eq_false_2 by (by destruct (pl_sample_ids l)). Qed.

Lemma conclude_iterates early seen l d record outcome s :
  ready (pl_request l) (pl_sample_sequence l) s -> record_of plan (pl_request l) (pl_sample_sequence l) record ->
  coherent (closing l record outcome false) -> outcome <> Poll_TIMED_OUT ->
  iterates early seen l d (conclude plan l record outcome (outcome_state outcome) (bool_decide (outcome = Poll_MATCHED))) s.
Proof.
  intros Hs Hr Hco Hne. apply closing_iterates; [done..|]. intros s1 Hs1 _. rewrite closing_result. unfold after, and_then, lift, ret.
  eexists. split; [done|]. split; [done|]. split; [done|]. split; [done|]. split; [|by apply step_refl]. done.
Qed.

Lemma keep_polling_iterates (early : Prop) seen l d record s :
  early -> ready (pl_request l) (pl_sample_sequence l) s -> record_of plan (pl_request l) (pl_sample_sequence l) record ->
  automatic_reinvocation_safe (plan_capabilities plan) = true -> unmatched (pl_last_response l) ->
  pl_valid_evidence_seen l = seen || bool_decide (rec_status record = Status_OK) ->
  iterates early seen l d (keep_polling plan l record d) s.
Proof.
  intros He Hs Hr Hsafe Hlast Hseen. eapply after_bind; [apply (append_after plan record); [apply Hs|done]|..].
  2:{ intros e s1 (E & HE & Hst1). inversion HE; subst; [done|]. exists [Refused e]. split; [|done]. apply iteration_ends. constructor. }
  intros [] s1 (E & HE & Hst1). inversion HE as [c Hc Ht| |]; subst. pose proof (ready_later _ _ _ _ _ Hs Hst1) as Hs1.
  eapply (after_bind _ _ _ _ _ (next_request_after plan (pl_request l) (pl_sample_sequence l) d s1 Hplan _ _ _ _)).
  - intros next s2 [(id & [= ->] & Hid' & Hnew & Hin & Hst2 & Htime)|(e & E & [=] & _)]. unfold after, ret. exists [Appended c].
    split; [|by eapply (step_trans _ _ _ [_] [])]. pose proof (step_time _ _ _ Hst1).
    apply (iteration_continues _ _ _ _ _ _ _ _ _ c id); try done; [|lia].
    intros Hx. by apply Hnew, (step_identities _ _ _ Hst1).
  - intros e s2 [(id & [=] & _)|(e' & E & [= <-] & HE' & Hst2)]. exists (Appended c :: E).
    split; [|by eapply (step_trans _ _ _ [_])]. apply iteration_interrupted; try done.
    eapply interrupted_earlier; [apply Hst1|done].
  Unshelve. all: try apply Hs1. destruct (ready_sequence _ _ _ Hs1). lia.
Qed.

(** ** The branches *)

Lemma error_category_valid c : is_ok (validate_category (ErrorCategory_value c)) = true.
Proof. by destruct c; vm_compute. Qed.
Lemma record_error_ok category message : is_ok (validate_category category) = true -> is_ok (validate_message message) = true ->
  is_ok (validate_record_error {| re_category := category; re_message_redacted := message |}) = true.
Proof. unfold validate_record_error. cbn [re_category re_message_redacted]. destruct (validate_category _); [|done]. by destruct (validate_message _). Qed.

Lemma failure_iterates early seen l d status message category k s :
  status = Status_ERROR \/ status = Status_TIMEOUT -> is_ok (validate_category category) = true -> is_ok (validate_message message) = true ->
  ready (pl_request l) (pl_sample_sequence l) s ->
  (forall record s1, record_of plan (pl_request l) (pl_sample_sequence l) record -> rec_status record = status ->
     ready (pl_request l) (pl_sample_sequence l) s1 -> time s <= time s1 -> iterates early seen l d (k record) s1) ->
  iterates early seen l d (and_then (failure_record status message plan (pl_request l) (pl_sample_sequence l) category) k) s.
Proof.
  intros Hstatus Hc Hm Hs Hk. destruct (ready_sequence _ _ _ Hs).
  eapply iterates_bind; [apply failure_after; [done|done|apply Hs|lia|by apply record_error_ok|apply Hs]|].
  intros record s1 [Hr Hrs] Hst. apply Hk; [done..|by eapply ready_later|apply Hst].
Qed.
Lemma response_iterates early seen l d response k s :
  validate_observer_response response = Ok response -> ready (pl_request l) (pl_sample_sequence l) s ->
  (forall record s1, record_of plan (pl_request l) (pl_sample_sequence l) record -> rec_status record = map_response_status (rsp_status response) ->
     ready (pl_request l) (pl_sample_sequence l) s1 -> iterates early seen l d (k record) s1) ->
  iterates early seen l d (and_then (_response_record plan (pl_request l) (pl_sample_sequence l) (Some response) None) k) s.
Proof.
  intros Hr Hs Hk. destruct (ready_sequence _ _ _ Hs).
  eapply iterates_bind; [apply response_after; [done|apply Hs|lia|done|apply Hs]|]. intros record s1 [Hrec Hrs] Hst. apply Hk; [done..|by eapply ready_later].
Qed.

Lemma timeout_result l record elapsed :
  _result Poll_TIMED_OUT Observation_TIMED_OUT false elapsed (sampled l record) = Ok (closing l record Poll_TIMED_OUT elapsed).
Proof. exact (closing_result l record Poll_TIMED_OUT elapsed). Qed.
Lemma deadline_reached_iterates early l d s :
  ready (pl_request l) (pl_sample_sequence l) s -> unmatched (pl_last_response l) -> nanoseconds d <= time s ->
  iterates early (pl_valid_evidence_seen l) l d (deadline_reached plan l) s.
Proof.
  intros Hs Hl Hd. apply failure_iterates; [by right|done|done|done|]. intros record s1 Hr Hrs Hs1 Ht1.
  apply (closing_iterates early _ l d record Poll_TIMED_OUT); [done..|]. intros s2 Hs2 Ht2. rewrite timeout_result.
  unfold after, and_then, lift, ret. eexists. split; [done|]. split; [done|]. split; [done|]. split; [done|]. split; [|by apply step_refl].
  split; [split; [done|intros _; lia]|by rewrite Hrs].
Qed.
Lemma timed_out_iterates early l d s :
  ready (pl_request l) (pl_sample_sequence l) s -> unmatched (pl_last_response l) ->
  iterates early (pl_valid_evidence_seen l) l d (invocation_timed_out plan l d) s.
Proof.
  intros Hs Hl. apply failure_iterates; [by right|done|done|done|]. intros record s1 Hr Hrs Hs1 _.
  apply (closing_iterates early _ l d record Poll_TIMED_OUT); [done..|]. intros s2 Hs2 _.
  eapply after_bind; [apply (expired_after d s2 Hs2)| |by intros e s' (b & t & [=] & _)]. intros b s3 (x & t & [= <-] & Hb & Ht & Hst & _).
  rewrite timeout_result. unfold after, and_then, lift, ret. eexists. split; [done|]. split; [done|]. split; [done|]. split; [done|]. split; [|done].
  split; [split; [done|]|by rewrite Hrs]. cbn [polled_deadline_elapsed closing]. rewrite Hb. intros ?%Z.leb_le. lia.
Qed.
Lemma failed_iterates (early : Prop) l d diagnostic s :
  early -> ready (pl_request l) (pl_sample_sequence l) s -> unmatched (pl_last_response l) ->
  iterates early (pl_valid_evidence_seen l) l d (invocation_failed plan l d diagnostic) s.
Proof.
  intros He Hs Hl. unfold invocation_failed.
  apply (iterates_bind early _ l d _ _ s (fun can_retry => can_retry = true -> automatic_reinvocation_safe (plan_capabilities plan) = true)).
  - destruct (match diagnostic with Some _ => _ | None => _ end && _) eqn:E.
    + eapply after_bind; [apply (expired_after d s), Hs| |by intros e s' (b & t & [=] & _)]. intros b s1 (x & t & [= <-] & _ & _ & Hst & _).
      unfold after, ret. right. eexists. split; [done|]. split; [|done]. intros _. by apply andb_true_iff in E as [_ ?].
    + unfold after, ret. right. exists false. split; [done|]. split; [done|apply step_refl, Hs].
  - intros can_retry s1 Hsafe Hst. pose proof (ready_later _ _ _ _ _ Hs Hst) as Hs1.
    apply failure_iterates; [by left|by apply error_category_valid|done|done|]. intros record s2 Hr Hrs Hs2 _. destruct can_retry.
    + apply keep_polling_iterates; auto. rewrite Hrs, bool_decide_eq_false_2 by done. by rewrite orb_false_r.
    + apply (conclude_iterates early _ l d record Poll_ERROR); [done..| |done]. split; [done|]. split; [done|by left].
Qed.

Lemma responded_iterates early seen l d response m s : iterates early seen (responded l response) d m s -> iterates early seen l d m s.
Proof. done. Qed.

Lemma ok_iterates (early : Prop) seen l d response s :
  early -> validate_observer_response response = Ok response -> rsp_status response = Response_OK ->
  ready (pl_request l) (pl_sample_sequence l) s -> pl_last_response l = Some response -> pl_valid_evidence_seen l = true ->
  iterates early seen l d (ok_response plan predicate l d response) s.
Proof.
  intros He Hr Hok Hs Hlast Hvalid. unfold ok_response. destruct (predicate response) as [matched|e] eqn:Ep.
  - apply response_iterates; [done..|]. intros record s1 Hrec Hrs Hs1. destruct matched.
    + apply (conclude_iterates early _ l d record Poll_MATCHED); [done..| |done]. split; [done|]. split; [done|]. split; [done|]. by exists response.
    + destruct (automatic_reinvocation_safe _) eqn:Hsafe; simpl.
      * apply keep_polling_iterates; [done..| |]; [rewrite Hlast; split; [by rewrite Hok|done]|].
        rewrite Hvalid, Hrs, Hok. by rewrite orb_true_r.
      * apply (conclude_iterates early _ l d record Poll_MISMATCH); [done..| |done]. split; [done|]. split; [done|]. split; [done|].
        split; [by exists response|done].
  - apply failure_iterates; [by left|done..|]. intros record s1 Hrec _ Hs1 _.
    apply (conclude_iterates early _ l d record Poll_ERROR); [done..| |done]. split; [done|]. split; [done|]. right. exists e. by exists response.
Qed.

Lemma negotiation_after s : lawful s ->
  after (W := W) (lift (negotiation plan)) s (fun r s' => exists n, r = Ok n /\ negotiation plan = Ok n /\ stepped s s' []).
Proof.
  intros Hs. destruct (negotiate_spec (plan_capabilities plan) (req_queries (plan_request plan)) (plan_requires_stable_snapshot plan)) as (n & Hn & _).
  exists n. split; [done|]. split; [done|by apply step_refl].
Qed.

Lemma received_iterates (early : Prop) l d response s :
  early -> validate_observer_response response = Ok response -> ready (pl_request l) (pl_sample_sequence l) s -> unmatched (pl_last_response l) ->
  iterates early (pl_valid_evidence_seen l) l d (response_received plan predicate l d response) s.
Proof.
  intros He Hr Hs Hl. unfold response_received. case_bool_decide; simpl negb; cbv iota.
  2:{ apply failure_iterates; [by left|done..|]. intros record s1 Hrec _ Hs1 _.
      apply (conclude_iterates early _ l d record Poll_ERROR); [done..| |done]. split; [done|]. split; [done|by left]. }
  cbv zeta. apply (responded_iterates early _ l d response). set (l' := responded l response).
  assert (pl_valid_evidence_seen l' = pl_valid_evidence_seen l || bool_decide (rsp_status response = Response_OK)) as Hseen by done.
  assert (rsp_status response <> Response_OK -> rsp_status response <> Response_UNSUPPORTED -> unmatched (pl_last_response l')) as Hl' by (by intros; split).
  destruct (rsp_status response) eqn:Es.
  - apply ok_iterates; [done..|]. rewrite Hseen, bool_decide_eq_true_2 by done. apply orb_true_r.
  - eapply iterates_bind; [eapply after_weaken; [apply (negotiation_after s), Hs|intros x s1 Hx; right; exact Hx]|]. intros n s1 Hn Hst. pose proof (ready_later _ _ _ _ _ Hs Hst) as Hs1.
    apply response_iterates; [done..|]. intros record s2 Hrec Hrs Hs2. destruct (automatic_polling_allowed _ n) eqn:Ha.
    + apply keep_polling_iterates; [done..| |by apply Hl'|by rewrite Hseen, Hrs, Es]. unfold automatic_polling_allowed in Ha. by py_bool.
    + apply (conclude_iterates early _ l' d record Poll_PENDING); [done..| |done]. split; [done|]. split; [done|]. by exists response, n.
  - apply response_iterates; [done..|]. intros record s1 Hrec Hrs Hs1. apply (conclude_iterates early _ l' d record Poll_UNSUPPORTED); [done..| |done].
    split; [done|]. split; [done|]. left. by exists response.
  - apply response_iterates; [done..|]. intros record s1 Hrec Hrs Hs1. destruct (automatic_retry_allowed _ response) eqn:Ha.
    + apply keep_polling_iterates; [done..| |by apply Hl'|by rewrite Hseen, Hrs, Es]. unfold automatic_retry_allowed in Ha. by py_bool.
    + apply (conclude_iterates early _ l' d record Poll_ERROR); [done..| |done]. split; [done|]. split; [done|left; by apply Hl'].
Qed.

Lemma iteration_weaken (early early' : Prop) seen q n ids d s s' r E :
  (early -> early') -> iteration early seen q n ids d s s' r E -> iteration early' seen q n ids d s s' r E.
Proof.
  intros Hw []; [eapply iteration_continues|eapply iteration_returns|apply iteration_ends|eapply iteration_interrupted]; eauto.
Qed.

Lemma invoke_after q d s : lawful s ->
  after (_invoke_with_deadline plan q d) s (fun r s' => exists o I, r = Ok o /\ (I = [] \/ I = [Invoked q]) /\ stepped s s' I /\
    (forall response, o = Responded response -> validate_observer_response response = Ok response)).
Proof.
  intros Hs. unfold after, _invoke_with_deadline. pose proof (remaining_after d s Hs) as Hr. unfold after in Hr.
  destruct (on_clock (remaining_ns d) s) as [r s1]. destruct Hr as (left & t & -> & _ & _ & Hst1 & _).
  destruct (left =? 0). { exists InvokeTimedOut, []. split; [done|]. split; [by left|]. split; [done|]. by intros response [=]. }
  unfold and_then, note, in_world. simpl.
  destruct (await_invoke q _ (ps_world s1)) as [o w] eqn:E. destruct (invoke_law _ _ _ _ _ E) as (Hn & Hi & Hr). exists o, [Invoked q].
  split; [done|]. split; [by right|]. split; [|by apply Hr]. apply (step_quiet _ _ _ _ Hst1). destruct (step_lawful _ _ _ Hst1) as [Ho Hl].
  split; simpl; [|done|unfold identities; simpl; by rewrite Hi|done]. split; [done|]. unfold time in *. simpl. lia.
Qed.

Lemma once_after l d s :
  ready (pl_request l) (pl_sample_sequence l) s -> unmatched (pl_last_response l) ->
  after (poll_once plan predicate d l) s (fun r s' => exists I E, (I = [] \/ I = [Invoked (pl_request l)]) /\
    iteration (time s < nanoseconds d) (pl_valid_evidence_seen l) (pl_request l) (pl_sample_sequence l) (pl_sample_ids l) d s s' r E /\ stepped s s' (I ++ E)).
Proof.
  intros Hs Hl. unfold poll_once.
  eapply after_bind; [apply (expired_after d s), Hs| |by intros e s' (b & t & [=] & _)].
  intros b s1 (x & t & [= <-] & -> & Ht & Hst1 & _). pose proof (ready_later _ _ _ _ _ Hs Hst1) as Hs1.
  destruct (Z.leb_spec (nanoseconds d) t) as [Hd|Hd].
  { eapply after_weaken; [apply (deadline_reached_iterates False l d s1); [done..|lia]|]. intros r s2 (E & HE & Hst2). exists [], E. split; [by left|].
    split; [|by eapply step_quiet]. apply (iteration_weaken False); [done|]. by eapply iteration_earlier. }
  assert (time s < nanoseconds d) as He by lia.
  eapply after_bind; [apply (invoke_after (pl_request l) d s1), Hs1| |by intros e s' (o & I & [=] & _)].
  intros o s2 (x & I & [= <-] & HI & Hst2 & Hr). pose proof (ready_later _ _ _ _ _ Hs1 Hst2) as Hs2.
  assert (forall m, iterates (time s < nanoseconds d) (pl_valid_evidence_seen l) l d m s2 -> after m s2 (fun r s' => exists I E, (I = [] \/ I = [Invoked (pl_request l)]) /\
    iteration (time s < nanoseconds d) (pl_valid_evidence_seen l) (pl_request l) (pl_sample_sequence l) (pl_sample_ids l) d s s' r E /\ stepped s s' (I ++ E))) as Hdone.
  { intros m Hm. eapply after_weaken; [exact Hm|]. intros r s3 (E & HE & Hst3). exists I, E. split; [done|].
    pose proof (step_quiet _ _ _ _ Hst1 Hst2) as Hst. split; [by eapply iteration_earlier|by eapply step_trans]. }
  apply Hdone. clear Hdone. destruct o as [response| | |diagnostic].
  - apply received_iterates; auto.
  - by apply timed_out_iterates.
  - destruct (ready_sequence _ _ _ Hs). eapply after_weaken; [apply (cancel_after plan (pl_request l) (pl_sample_sequence l)); [done|apply Hs|lia|apply Hs2]|].
    intros r s3 (e & E & -> & HE & Hst3). exists E. split; [by apply iteration_ends|done].
  - by apply failed_iterates.
Qed.
End iteration.
