(* ===== verification/PollingSettles.v ===== *)
(** * How a polling series ends

    What a series leaves behind in every environment, and a simulated one. *)

From S2P Require Import Prelude Text TextLemmas Identifiers Domain Clocks Lifecycle Commands Json Demo Policy Evidence ObserverProtocol Polling PollingLaws PollingSeries.

Local Open Scope Z_scope.

(** * What a polling series leaves behind

    The whole of [poll]: in every environment of [PollingLaws] it comes to an end, and the samples it
    appended account for it. *)

(** ** Reading a trace *)

Definition commits (E : list PollEffect) : list ObservationSampleCommit :=
  omap (fun e => match e with Appended c => Some c | _ => None end) E.
Definition invocations (E : list PollEffect) : list ObserverRequest :=
  omap (fun e => match e with Invoked q => Some q | _ => None end) E.
Definition refusals (E : list PollEffect) : list exn :=
  omap (fun e => match e with Refused x => Some x | _ => None end) E.
Definition commit_sample (c : ObservationSampleCommit) : str := rec_sample_id (sc_record c).
Definition commit_number (c : ObservationSampleCommit) : Z := rec_sample_sequence (sc_record c).

(** All samples but the last leave the series open; the last one closes it as [t]. *)
Definition closed (E : list PollEffect) (t : ObservationState) : Prop :=
  refusals E = [] /\ exists earlier final, commits E = earlier ++ [final] /\
    Forall (fun c => sc_terminal_state c = None) earlier /\ sc_terminal_state final = Some t /\ t ∈ TERMINAL_OBSERVATIONS.

Section accounts.
Context {W : Type} `{!PollEnvironment W} `{!PollEnvironmentLaws W}.
Context (plan : ObservationPollPlan) (predicate : PollPredicate).

Definition ending (E : list PollEffect) (r : result ObservationPollResult) : Prop :=
  match r with
  | Ok res => closed E (polled_state res) /\ polled_sample_ids res = map commit_sample (commits E) /\ coherent plan predicate res /\
      (polled_outcome res = Poll_TIMED_OUT -> polled_valid_evidence res = existsb evidence_sample (commits E))
  | Raise e => (e = Cancelled /\ exists t, closed E t) \/
               (exists F, E = F ++ [Refused e] /\ Forall (fun c => sc_terminal_state c = None) (commits F))
  end.

(** The samples are numbered from one, each under its own identity; the observer was asked the plan's
    question, each time under another sample identity, and once only if asking again is not safe. *)
Record accounted (E : list PollEffect) : Prop := {
  accounted_numbers : map commit_number (commits E) = seqZ 1 (zlen (commits E));
  accounted_records : Forall (fun c => validate_observation_record (sc_record c) = Ok (sc_record c) /\
                                       rec_observation_id (sc_record c) = plan_observation_id plan) (commits E);
  accounted_samples : NoDup (map commit_sample (commits E));
  accounted_questions : Forall (fun q => exists id, q = with_sample_id (plan_request plan) id) (invocations E);
  accounted_identities : NoDup (map req_sample_id (invocations E));
  accounted_once : automatic_reinvocation_safe (plan_capabilities plan) = false -> (length (invocations E) <= 1)%nat;
  accounted_bound : (zlen (commits E) - 2) * plan_poll_interval_ns plan < plan_within_ns plan
}.

(** ** The loop *)

Record running (d : MonotonicDeadline) (t0 : Z) (E : list PollEffect) (l : PollLoop) (s : PollState W) : Prop := {
  running_ready : ready (pl_request l) (pl_sample_sequence l) s;
  running_last : unmatched plan predicate (pl_last_response l);
  running_seen : pl_valid_evidence_seen l = existsb evidence_sample (commits E);
  running_number : pl_sample_sequence l = zlen (commits E) + 1;
  running_ids : pl_sample_ids l = map commit_sample (commits E);
  running_question : exists id, pl_request l = with_sample_id (plan_request plan) id /\ ~ id ∈ map commit_sample (commits E);
  running_known : map commit_sample (commits E) ⊆ identities s;
  running_invoked : Forall (fun q => exists c, c ∈ commits E /\ req_sample_id q = Some (commit_sample c)) (invocations E);
  running_accounts : accounted E;
  running_open : Forall (fun c => sc_terminal_state c = None) (commits E);
  running_refused : refusals E = [];
  running_safe : commits E <> [] -> automatic_reinvocation_safe (plan_capabilities plan) = true;
  running_time : nanoseconds d <= time s \/ t0 + zlen (commits E) * plan_poll_interval_ns plan <= time s;
  running_bound : commits E = [] \/ (zlen (commits E) - 1) * plan_poll_interval_ns plan < plan_within_ns plan
}.

Lemma commits_app E F : commits (E ++ F) = commits E ++ commits F.
Proof. apply omap_app. Qed.
Lemma invocations_app E F : invocations (E ++ F) = invocations E ++ invocations F.
Proof. apply omap_app. Qed.
Lemma refusals_app E F : refusals (E ++ F) = refusals E ++ refusals F.
Proof. apply omap_app. Qed.

(** What an iteration sent: at most the request of the loop. *)
Definition sent (l : PollLoop) (I : list PollEffect) : Prop := I = [] \/ I = [Invoked (pl_request l)].
Lemma sent_commits l I : sent l I -> commits I = [] /\ refusals I = [].
Proof. by intros [-> | ->]. Qed.

Lemma accounted_more d t0 E l s I F :
  running d t0 E l s -> sent l I -> invocations F = [] ->
  Forall (fun c => validate_observation_record (sc_record c) = Ok (sc_record c) /\
                   rec_observation_id (sc_record c) = plan_observation_id plan /\ ~ commit_sample c ∈ map commit_sample (commits E)) (commits F) ->
  map commit_number (commits F) = seqZ (zlen (commits E) + 1) (zlen (commits F)) -> NoDup (map commit_sample (commits F)) ->
  (zlen (commits E) + zlen (commits F) - 2) * plan_poll_interval_ns plan < plan_within_ns plan -> accounted (E ++ I ++ F).
Proof.
  intros Hr HI HF HC Hnum Hnd Hbound. destruct (sent_commits _ _ HI) as [HIc _]. destruct Hr as [Hready Hlast Hseen Hn Hids (id & Hq & Hfresh) Hknown
    Hinv [A1 A2 A3 A4 A5 A6 A7] Hopen Href Hsafe Htime Hb].
  split; rewrite ?commits_app, ?invocations_app, ?HIc, ?HF; simpl app; rewrite ?app_nil_r.
  - rewrite map_app, A1, Hnum. unfold zlen. rewrite length_app, Nat2Z.inj_add, seqZ_app by lia. f_equal. f_equal; lia.
  - apply list.Forall_app. split; [done|]. eapply list.Forall_impl; [exact HC|]. tauto.
  - rewrite map_app. apply list.NoDup_app. split; [done|]. split; [|done]. intros x Hx (c & -> & Hc)%list_elem_of_fmap.
    rewrite list.Forall_forall in HC. by destruct (HC c Hc) as (_ & _ & Hno).
  - apply list.Forall_app. split; [done|]. destruct HI as [-> | ->]; simpl; [done|]. constructor; [by exists id|done].
  - destruct HI as [-> | ->]; simpl; rewrite ?app_nil_r; [done|]. rewrite map_app. apply list.NoDup_app. split; [done|]. split.
    + intros x (q & -> & Hq')%list_elem_of_fmap Hx%list_elem_of_singleton. rewrite list.Forall_forall in Hinv.
      destruct (Hinv q Hq') as (c & Hc & Hs). apply Hfresh. rewrite Hq in Hx. rewrite Hx in Hs. injection Hs as ->. by apply list_elem_of_fmap_2.
    + apply list.NoDup_singleton.
  - intros Hunsafe. assert (commits E = []) as HE.
    { destruct (commits E); [done|]. rewrite Hsafe in Hunsafe by done. done. }
    assert (invocations E = []) as ->. { destruct (invocations E) as [|q rest]; [done|]. rewrite list.Forall_cons, HE in Hinv.
      destruct Hinv as [(c & Hc & _) _]. by apply not_elem_of_nil in Hc. }
    destruct HI as [-> | ->]; simpl; lia.
  - unfold zlen in *. rewrite length_app. lia.
Qed.

(** The sample an iteration records is new. *)
Lemma running_sample d t0 E l s c :
  running d t0 E l s -> record_of plan (pl_request l) (pl_sample_sequence l) (sc_record c) ->
  commit_number c = zlen (commits E) + 1 /\ validate_observation_record (sc_record c) = Ok (sc_record c) /\
  rec_observation_id (sc_record c) = plan_observation_id plan /\ ~ commit_sample c ∈ map commit_sample (commits E) /\
  req_sample_id (pl_request l) = Some (commit_sample c) /\ commit_sample c ∈ identities s.
Proof.
  intros Hr [Hs Hn Ho Hv]. destruct (running_question _ _ _ _ _ Hr) as (id & Hq & Hfresh).
  destruct (ready_sample _ _ _ (running_ready _ _ _ _ _ Hr)) as (id' & Hid & Hin). pose proof Hs as Hs'.
  rewrite Hq in Hs. simpl in Hs. injection Hs as ->. rewrite Hs' in Hid. injection Hid as <-.
  unfold commit_number, commit_sample. rewrite Hn, (running_number _ _ _ _ _ Hr). done.
Qed.

Lemma one_more d t0 E l s I c :
  0 < plan_poll_interval_ns plan -> 0 < plan_within_ns plan ->
  running d t0 E l s -> sent l I -> record_of plan (pl_request l) (pl_sample_sequence l) (sc_record c) -> accounted (E ++ I ++ [Appended c]).
Proof.
  intros Hi Hw Hr HI Hc. destruct (running_sample _ _ _ _ _ _ Hr Hc) as (Hn & Hv & Ho & Hnew & _).
  eapply accounted_more; try done; simpl.
  - by repeat constructor.
  - rewrite Hn. by vm_compute.
  - apply list.NoDup_singleton.
  - destruct (running_bound _ _ _ _ _ Hr) as [->|Hb]; unfold zlen in *; simpl; lia.
Qed.

Lemma refused_accounted d t0 E l s I e :
  0 < plan_poll_interval_ns plan -> 0 < plan_within_ns plan -> running d t0 E l s -> sent l I -> accounted (E ++ I ++ [Refused e]).
Proof.
  intros Hi Hw Hr HI. eapply accounted_more; try done; simpl; [constructor|].
  destruct (running_bound _ _ _ _ _ Hr) as [->|Hb]; unfold zlen in *; simpl; lia.
Qed.

Lemma closed_one d t0 E l s I c t :
  running d t0 E l s -> sent l I -> sc_terminal_state c = Some t -> t ∈ TERMINAL_OBSERVATIONS -> closed (E ++ I ++ [Appended c]) t.
Proof.
  intros Hr HI Ht Hterm. destruct (sent_commits _ _ HI) as [HIc HIr]. unfold closed.
  rewrite !refusals_app, !commits_app, (running_refused _ _ _ _ _ Hr), HIr, HIc. split; [done|]. exists (commits E), c. simpl.
  split; [done|]. split; [apply Hr|done].
Qed.
Lemma refused_one d t0 E l s I e :
  running d t0 E l s -> sent l I -> ending (E ++ I ++ [Refused e]) (Raise e).
Proof.
  intros Hr HI. destruct (sent_commits _ _ HI) as [HIc HIr]. right. exists (E ++ I). split; [by rewrite app_assoc|].
  rewrite commits_app, HIc, app_nil_r. apply Hr.
Qed.

Lemma ended_accounted d t0 E l s I e F :
  pollable plan -> running d t0 E l s -> sent l I -> ended plan (pl_request l) (pl_sample_sequence l) e F ->
  accounted (E ++ I ++ F) /\ ending (E ++ I ++ F) (Raise e).
Proof.
  intros Hp Hr HI HF. destruct (pollable_bounds _ Hp) as [Hi Hw]. unfold MINIMUM_POLL_INTERVAL_NS in Hi. inversion HF as [c t Hc Ht Hterm|]; subst.
  - split; [eapply one_more; try done; lia|]. left. split; [done|]. exists t. by eapply closed_one.
  - split; [eapply refused_accounted; try done; lia|by eapply refused_one].
Qed.

Lemma running_continues d t0 E l s I c l' s' id :
  pollable plan -> nanoseconds d = t0 + plan_within_ns plan -> time s < nanoseconds d ->
  running d t0 E l s -> sent l I -> record_of plan (pl_request l) (pl_sample_sequence l) (sc_record c) -> sc_terminal_state c = None ->
  automatic_reinvocation_safe (plan_capabilities plan) = true -> _sample_id id = Ok id -> ~ id ∈ identities s -> id ∈ identities s' ->
  nanoseconds d <= time s' \/ time s + plan_poll_interval_ns plan <= time s' -> pl_request l' = with_sample_id (pl_request l) id ->
  pl_sample_sequence l' = pl_sample_sequence l + 1 -> pl_sample_ids l' = pl_sample_ids l ++ [commit_sample c] ->
  unmatched plan predicate (pl_last_response l') -> pl_valid_evidence_seen l' = pl_valid_evidence_seen l || evidence_sample c ->
  stepped s s' (I ++ [Appended c]) -> running d t0 (E ++ I ++ [Appended c]) l' s'.
Proof.
  intros Hp Hd Hearly Hr HI Hc Hopen Hsafe Hid Hnew Hin Htime Hq Hn Hids Hlast Hsaw Hst. destruct (pollable_bounds _ Hp) as [Hi Hw].
  unfold MINIMUM_POLL_INTERVAL_NS in Hi. destruct (running_sample _ _ _ _ _ _ Hr Hc) as (Hcn & Hv & Ho & Hcnew & Hcs & Hcin).
  destruct (sent_commits _ _ HI) as [HIc HIr]. pose proof (running_number _ _ _ _ _ Hr) as Hnum.
  assert (commits (E ++ I ++ [Appended c]) = commits E ++ [c]) as HC by (by rewrite !commits_app, HIc).
  assert (zlen (commits E ++ [c]) = zlen (commits E) + 1) as Hlen by (unfold zlen; rewrite length_app; simpl; lia).
  assert (0 <= zlen (commits E)) as Hpos by (unfold zlen; lia).
  assert (zlen (commits E) * plan_poll_interval_ns plan < plan_within_ns plan) as Hk by (destruct (running_time _ _ _ _ _ Hr); lia).
  split; rewrite ?HC, ?Hlen.
  - split.
    + rewrite Hq. destruct (running_ready _ _ _ _ _ Hr) as [[Hval Hop Hsc] _ _ _]. split; [by apply with_sample_valid|done..].
    + exists id. by rewrite Hq.
    + rewrite Hn, Hnum. assert (_MAX_SAFE_INTEGER = 9007199254740991) as Hmax by done. unfold MAX_IJSON_INTEGER.
      assert (zlen (commits E) * 10000000 <= zlen (commits E) * plan_poll_interval_ns plan) by (apply Z.mul_le_mono_nonneg_l; lia). lia.
    + apply Hst.
  - done.
  - rewrite Hsaw, (running_seen _ _ _ _ _ Hr), existsb_app. simpl. by rewrite orb_false_r.
  - lia.
  - by rewrite Hids, (running_ids _ _ _ _ _ Hr), map_app.
  - exists id. rewrite Hq. destruct (running_question _ _ _ _ _ Hr) as (id0 & -> & _). split; [done|].
    rewrite map_app, elem_of_app. simpl. rewrite list_elem_of_singleton. intros [Hx| ->]; [by apply Hnew, (running_known _ _ _ _ _ Hr)|by apply Hnew].
  - rewrite map_app. pose proof (step_identities _ _ _ Hst). pose proof (running_known _ _ _ _ _ Hr). simpl. set_solver.
  - rewrite !invocations_app, app_nil_r. apply list.Forall_app. split.
    + eapply list.Forall_impl; [apply (running_invoked _ _ _ _ _ Hr)|]. intros q (x & Hx & Hxq). exists x. split; [|done]. apply elem_of_app. by left.
    + destruct HI as [-> | ->]; simpl; repeat constructor. exists c. split; [apply elem_of_app; right; left|done].
  - eapply one_more; try done; lia.
  - apply list.Forall_app. split; [apply Hr|by repeat constructor].
  - by rewrite !refusals_app, (running_refused _ _ _ _ _ Hr), HIr.
  - done.
  - destruct Htime as [Htime|Htime]; [by left|]. destruct (running_time _ _ _ _ _ Hr); [by left; pose proof (step_time _ _ _ Hst); lia|right; lia].
  - right. lia.
Qed.

Lemma interrupted_accounted d t0 E l s I c e F :
  pollable plan -> nanoseconds d = t0 + plan_within_ns plan -> time s < nanoseconds d ->
  running d t0 E l s -> sent l I -> record_of plan (pl_request l) (pl_sample_sequence l) (sc_record c) -> sc_terminal_state c = None ->
  interrupted plan (pl_request l) (pl_sample_sequence l + 1) s e F -> accounted (E ++ I ++ Appended c :: F) /\ ending (E ++ I ++ Appended c :: F) (Raise e).
Proof.
  intros Hp Hd Hearly Hr HI Hc Hopen HF. destruct (pollable_bounds _ Hp) as [Hi Hw]. unfold MINIMUM_POLL_INTERVAL_NS in Hi.
  destruct (running_sample _ _ _ _ _ _ Hr Hc) as (Hcn & Hv & Ho & Hcnew & Hcs & Hcin). destruct (sent_commits _ _ HI) as [HIc HIr].
  pose proof (running_number _ _ _ _ _ Hr) as Hnum.
  assert (zlen (commits E) * plan_poll_interval_ns plan < plan_within_ns plan) as Hk by (destruct (running_time _ _ _ _ _ Hr); lia).
  inversion HF as [c2 t id Hnew Hc2 Ht Hterm|]; subst.
  - destruct Hc2 as [Hs2 Hn2 Ho2 Hv2]. simpl in Hs2. injection Hs2 as Hs2. rewrite Hnum in Hn2. split.
    + eapply accounted_more; try done; simpl.
      * constructor; [done|]. constructor; [|done]. split; [done|]. split; [done|]. unfold commit_sample. rewrite <- Hs2.
        by intros Hx%(running_known _ _ _ _ _ Hr).
      * unfold commit_number in *. rewrite Hcn, Hn2. unfold zlen, seqZ. simpl. f_equal. f_equal. lia.
      * apply list.NoDup_cons. split; [|apply list.NoDup_singleton]. intros Hx%list_elem_of_singleton. apply Hnew. unfold commit_sample in *.
        by rewrite Hs2, <- Hx.
      * unfold zlen in *. simpl. lia.
    + left. split; [done|]. exists t. unfold closed. rewrite !refusals_app, !commits_app, (running_refused _ _ _ _ _ Hr), HIr, HIc. split; [done|].
      exists (commits E ++ [c]), c2. simpl. split; [by rewrite <- app_assoc|]. split; [|done]. apply list.Forall_app.
      split; [apply Hr|by repeat constructor].
  - split.
    + eapply accounted_more; try done; simpl; [by repeat constructor|by rewrite Hcn|apply list.NoDup_singleton|]. unfold zlen in *. simpl. lia.
    + right. exists (E ++ I ++ [Appended c]). split; [by rewrite <- !app_assoc|]. rewrite !commits_app, HIc. simpl. apply list.Forall_app.
      split; [apply Hr|by repeat constructor].
Qed.

(** A result that says the deadline has elapsed comes no earlier than [t0] and the plan's duration. *)
Definition late (t0 : Z) (s' : PollState W) (r : result ObservationPollResult) : Prop :=
  match r with Ok res => polled_deadline_elapsed res = true -> t0 + plan_within_ns plan <= time s' | Raise _ => True end.

(** From any running state the loop comes to an end, and its effects are accounted for. *)
Lemma loop_ends d t0 : pollable plan -> nanoseconds d = t0 + plan_within_ns plan ->
  forall fuel E l s, running d t0 E l s -> plan_within_ns plan / plan_poll_interval_ns plan + 1 - zlen (commits E) < Z.of_nat fuel ->
  exists r s' F, poll_loop fuel plan predicate d l s = Some (r, s') /\ stepped s s' F /\ late t0 s' r /\ accounted (E ++ F) /\ ending (E ++ F) r.
Proof.
  intros Hp Hd. destruct (pollable_bounds _ Hp) as [Hi Hw]. unfold MINIMUM_POLL_INTERVAL_NS in Hi.
  induction fuel as [|fuel IH]; intros E l s Hr Hfuel.
  { exfalso. destruct (running_bound _ _ _ _ _ Hr) as [HE|Hb].
    - rewrite HE in Hfuel. unfold zlen in Hfuel. simpl in Hfuel. pose proof (Z.div_pos (plan_within_ns plan) (plan_poll_interval_ns plan)). lia.
    - assert (zlen (commits E) - 1 <= plan_within_ns plan / plan_poll_interval_ns plan) by (apply Z.div_le_lower_bound; lia). lia. }
  simpl. pose proof (once_after plan Hp predicate l d s (running_ready _ _ _ _ _ Hr) (running_last _ _ _ _ _ Hr)) as Ho.
  unfold after in Ho. destruct (poll_once plan predicate d l s) as [r s1]. destruct Ho as (I & F & HI & HF & Hst).
  inversion HF as [l' c id He Hc Ht Hsafe Hid Hnew Hin Htime Hq Hn Hids Hlast Hsaw|res c Hc Ht Hids Hco [Hseen Hlate] Hno|e F' HF'|c e F' He Hc Ht HF']; subst.
  - pose proof (running_continues d t0 E l s I c l' s1 id Hp Hd He Hr HI Hc Ht Hsafe Hid Hnew Hin Htime Hq Hn Hids Hlast Hsaw Hst) as Hr'.
    destruct (IH _ _ _ Hr') as (r & s' & G & HG & Hst' & Hlate & Ha & Hend).
    { destruct (sent_commits _ _ HI) as [HIc _]. rewrite !commits_app, HIc. unfold zlen in *. rewrite length_app. simpl. lia. }
    exists r, s', ((I ++ [Appended c]) ++ G). split; [done|]. split; [by eapply step_trans|]. split; [done|]. rewrite <- !app_assoc in *. done.
  - exists (Ok res), s1, (I ++ [Appended c]). split; [done|]. split; [done|]. split; [simpl; rewrite <- Hd; exact Hlate|]. split; [eapply one_more; try done; lia|].
    split; [eapply closed_one; try done; rewrite (proj1 Hco); apply outcome_terminal|]. destruct (sent_commits _ _ HI) as [HIc _]. rewrite !commits_app, HIc.
    split; [by rewrite map_app, Hids, (running_ids _ _ _ _ _ Hr)|]. split; [done|]. intros Ho.
    rewrite existsb_app. simpl. by rewrite (Hseen Ho), (Hno Ho), (running_seen _ _ _ _ _ Hr), !orb_false_r.
  - exists (Raise e), s1, (I ++ F). split; [done|]. split; [done|]. split; [done|]. by eapply ended_accounted.
  - exists (Raise e), s1, (I ++ Appended c :: F'). split; [done|]. split; [done|]. split; [done|]. by eapply interrupted_accounted.
Qed.

(** ** The whole series *)

(** The identity of the plan's first sample is in use. *)
Definition sample_known (s : PollState W) : Prop := exists id, req_sample_id (plan_request plan) = Some id /\ id ∈ identities s.

Lemma accounted_nothing : pollable plan -> accounted [].
Proof.
  intros Hp. destruct (pollable_bounds _ Hp) as [Hi Hw]. unfold MINIMUM_POLL_INTERVAL_NS in Hi.
  split; simpl; [done|by constructor..|lia|unfold zlen; simpl; lia].
Qed.
Lemma start_running d s : pollable plan -> lawful s -> sample_known s -> running d (time s) [] (loop_start plan) s.
Proof.
  intros Hp Hs Hk. split; simpl; try done; try (by left); try (by constructor).
  - by split; [apply pollable_observable| |done|].
  - destruct Hk as (id & Hid & _). exists id. split; [|apply not_elem_of_nil]. unfold with_sample_id. rewrite <- Hid.
    by destruct (plan_request plan).
  - set_solver.
  - by apply accounted_nothing.
  - right. unfold zlen. simpl. lia.
Qed.

Inductive started (s : PollState W) : result (MonotonicDeadline * option ObservationPollResult) -> PollState W -> list PollEffect -> Prop :=
  | started_refused e s' : started s (Raise e) s' [Refused e]
  | started_ended e s' F : ended plan (plan_request plan) 1 e F -> started s (Raise e) s' (Began :: F)
  | started_unsupported d r c s' :
      record_of plan (plan_request plan) 1 (sc_record c) -> sc_terminal_state c = Some (polled_state r) ->
      polled_sample_ids r = [commit_sample c] -> coherent plan predicate r -> polled_outcome r = Poll_UNSUPPORTED ->
      polled_deadline_elapsed r = false -> started s (Ok (d, Some r)) s' [Began; Appended c]
  | started_loop d t0 s' : nanoseconds d = t0 + plan_within_ns plan -> time s <= t0 <= time s' -> started s (Ok (d, None)) s' [Began].

Lemma start_after s : pollable plan -> lawful s ->
  after (poll_start plan) s (fun r s' => exists E, started s r s' E /\ stepped s s' E).
Proof.
  intros Hp Hs. unfold poll_start. pose proof (pollable_observable _ Hp) as Hq.
  eapply after_bind; [apply (timestamp_after s Hs)| |by intros e s' (a & [=] & _)]. intros t s1 (a & [= <-] & Hst1).
  eapply after_bind; [apply (journaled_after Began (journal_begin_series plan t) s1); [apply Hst1|]|..].
  { intros r w E. by apply (begin_law plan t _ r). }
  2:{ intros e s2 [[[=] _]|(e' & [= <-] & Hst2)]. exists [Refused e]. split; [constructor|by eapply step_quiet]. }
  intros [] s2 [[_ Hst2]|(e & [=] & _)]. pose proof (step_quiet _ _ _ _ Hst1 Hst2) as Hst.
  eapply (after_bind _ _ _ (fun r s' => r = Ok tt /\ stepped s2 s' [] \/ exists e F, r = Raise e /\ ended plan (plan_request plan) 1 e F /\ stepped s2 s' F)).
  { eapply on_cancel_after; [apply (checkpoint_after s2), Hst|..].
    - intros s3 [_ Hst3]. eapply after_weaken; [apply (cancel_after plan (plan_request plan) 1); [done..|apply Hst3]|].
      intros r s4 (e & F & -> & HF & Hst4). right. exists e, F. split; [done|]. split; [done|by eapply step_quiet].
    - intros r s3 Hr [[-> | ->] Hst3]; [by left|done]. }
  2:{ intros e s3 [([=] & _)|(e' & F & [= <-] & HF & Hst3)]. exists (Began :: F). split; [by constructor|by eapply (step_trans _ _ _ [Began])]. }
  intros [] s3 [[_ Hst3]|(e & F & [=] & _)]. pose proof (step_trans _ _ _ _ _ Hst Hst3) as Hst'. clear Hst Hst3.
  eapply after_bind; [apply (deadline_set plan s3 Hp), Hst'| |by intros e s' (a & t0 & [=] & _)].
  intros d s4 (x & t0 & [= <-] & Hd & Ht0 & Hst4 & _). pose proof (step_time _ _ _ Hst') as Hlapse. pose proof (step_trans _ _ _ _ _ Hst' Hst4) as Hst. clear Hst' Hst4.
  eapply after_bind; [apply (negotiation_after plan s4), Hst| |by intros e s' (a & [=] & _)].
  intros n s5 (x & [= <-] & Hn & Hst5). pose proof (step_trans _ _ _ _ _ Hst Hst5) as Hst'. clear Hst.
  destruct (supported n) eqn:Hsup.
  { unfold after, ret. exists [Began]. split; [|done]. apply (started_loop _ d t0); [done|]. pose proof (step_time _ _ _ Hst5). lia. }
  eapply after_bind; [apply (undeclared_after plan (plan_request plan) 1); [done|done|done|apply Hst']| |].
  2:{ intros e s6 [(e' & [= <-] & Hst6)|(x & [=] & _)]. exists [Began; Refused e]. split; [|by eapply (step_trans _ _ _ [Began])].
      apply started_ended. constructor. }
  intros record s6 [(e & [=] & _)|(x & [= <-] & Hr & Hst6)]. pose proof (step_trans _ _ _ _ _ Hst' Hst6) as Hst. clear Hst' Hst6.
  eapply after_bind; [apply (append_after plan record); [apply Hst|]|..].
  { intros t' [= <-]. apply (outcome_terminal Poll_UNSUPPORTED). }
  - intros [] s7 (E & HE & Hst7). inversion HE as [c Hc Ht| |]; subst. unfold after, and_then, lift, ret, make_poll_result. simpl.
    exists [Began; Appended c]. split; [|by eapply (step_trans _ _ _ [Began])]. apply started_unsupported; try done.
    split; [done|]. split; [done|]. right. split; [done|]. by exists n.
  - intros e s7 (E & HE & Hst7). exists (Began :: E). split; [|by eapply (step_trans _ _ _ [Began])]. constructor. eapply appended_ended; [exact Hr|done].
Qed.

(** Either the journal refused to begin, or the effects that follow account for the series. *)
Definition series_of (E : list PollEffect) (r : result ObservationPollResult) : Prop :=
  (exists e, E = [Refused e] /\ r = Raise e) \/ (exists F, E = Began :: F /\ accounted F /\ ending F r).

Lemma poll_ends fuel s : pollable plan -> lawful s -> sample_known s ->
  plan_within_ns plan / plan_poll_interval_ns plan + 1 < Z.of_nat fuel ->
  exists r s' E, poll fuel plan predicate s = Some (r, s') /\ stepped s s' E /\ late (time s) s' r /\ series_of E r.
Proof.
  intros Hp Hs Hk Hfuel. pose proof (start_after s Hp Hs) as Ho. unfold after in Ho. unfold poll.
  destruct (poll_start plan s) as [r s1]. destruct Ho as (E & HE & Hst).
  assert (sample_known s1) as Hk1. { destruct Hk as (id & Hid & Hin). exists id. split; [done|]. by apply (step_identities _ _ _ Hst). }
  pose proof (fun d => start_running d s1 Hp (step_lawful _ _ _ Hst) Hk1) as Hrun. pose proof (or_introl eq_refl : sent (loop_start plan) []) as HI.
  inversion HE as [e|e s2 F HF|d res c s2 Hc Ht Hids Hco Hun Hel|d t0 s2 Hd Ht]; subst.
  - exists (Raise e), s1, [Refused e]. split; [done|]. split; [done|]. split; [done|]. left. by exists e.
  - exists (Raise e), s1, (Began :: F). split; [done|]. split; [done|]. split; [done|]. right. exists F. split; [done|].
    by apply (ended_accounted {| nanoseconds := 0 |} _ _ _ _ [] e F Hp (Hrun _) HI).
  - exists (Ok res), s1, [Began; Appended c]. split; [done|]. split; [done|]. split; [simpl; by rewrite Hel|]. right. exists [Appended c]. split; [done|].
    destruct (pollable_bounds _ Hp) as [Hi Hw]. unfold MINIMUM_POLL_INTERVAL_NS in Hi.
    split; [apply (one_more {| nanoseconds := 0 |} _ _ _ _ [] c ltac:(lia) ltac:(lia) (Hrun _) HI Hc)|].
    split; [|split; [done|split; [done|by rewrite Hun]]]. apply (closed_one {| nanoseconds := 0 |} _ _ _ _ [] c _ (Hrun _) HI); [done|]. rewrite (proj1 Hco). apply outcome_terminal.
  - assert (running d t0 [] (loop_start plan) s1) as Hr.
    { destruct (Hrun d). split; try done. right. unfold zlen. simpl. lia. }
    destruct (loop_ends d t0 Hp Hd fuel [] (loop_start plan) s1 Hr) as (r & s2 & F & Hl & Hst2 & Hlate & Ha & Hend).
    { unfold zlen. simpl. lia. }
    exists r, s2, (Began :: F). split; [done|]. split; [by eapply (step_trans _ _ _ [Began])|].
    split; [destruct r; [|done]; intros Hel; specialize (Hlate Hel); lia|]. right. by exists F.
Qed.
End accounts.

(** More fuel does not change what a series does. *)
Lemma loop_fuel {W} `{!PollEnvironment W} plan predicate d fuel fuel' (l : PollLoop) (s : PollState W) x :
  poll_loop fuel plan predicate d l s = Some x -> (fuel <= fuel')%nat -> poll_loop fuel' plan predicate d l s = Some x.
Proof.
  revert fuel' l s. induction fuel as [|fuel IH]; intros [|fuel'] l s Hx Hle; try done; [lia|]. simpl in *.
  destruct (poll_once plan predicate d l s) as [[[l'|r]|e] s']; [|done..]. apply IH; [done|lia].
Qed.
Lemma poll_fuel {W} `{!PollEnvironment W} plan predicate fuel fuel' (s : PollState W) x :
  poll fuel plan predicate s = Some x -> (fuel <= fuel')%nat -> poll fuel' plan predicate s = Some x.
Proof.
  unfold poll. destruct (poll_start plan s) as [[[d [r|]]|e] s']; [done| |done]. intros Hx Hle. by eapply loop_fuel.
Qed.

(** ** Plans the poller accepts *)

Record planned (plan : ObservationPollPlan) : Prop := {
  planned_valid : validate_poll_plan plan = Ok plan;
  planned_request : validate_observer_request (plan_request plan) = Ok (plan_request plan)
}.
(** The journal begins no series for an observer whose name a record cannot hold: a plan may name one
    ([validate_poll_plan] refuses three control characters only), the command that begins a series may
    not. *)
Definition names_checked {W} `{!PollEnvironment W} (plan : ObservationPollPlan) : Prop :=
  forall t w w', journal_begin_series plan t w = (Ok tt, w') ->
    is_ok (_validate_bounded_text (plan_observer_id plan) MAX_OBSERVER_ID_LENGTH false) = true.

Lemma planned_bounds plan : planned plan ->
  MINIMUM_POLL_INTERVAL_NS <= plan_poll_interval_ns plan <= plan_within_ns plan /\ plan_within_ns plan <= _MAX_SAFE_INTEGER.
Proof. intros [Hv _]. by apply poll_plan_bounds. Qed.

Lemma begin_refused {W} `{!PollEnvironment W} `{!PollEnvironmentLaws W} plan (s : PollState W) :
  names_checked plan -> is_ok (_validate_bounded_text (plan_observer_id plan) MAX_OBSERVER_ID_LENGTH false) = false -> lawful s ->
  after (poll_start plan) s (fun r s' => exists e, r = Raise e /\ stepped s s' [Refused e]).
Proof.
  intros Hchecked Hname Hs. unfold poll_start.
  eapply after_bind; [apply (timestamp_after s Hs)| |by intros e s' (a & [=] & _)]. intros t s1 (a & [= <-] & Hst1).
  apply (after_bind _ _ _ (fun r s' => exists e, r = Raise e /\ stepped s s' [Refused e])); [|by intros a s2 (e & [=] & _)|by intros e s2 (e' & [= <-] & Hst2); exists e].
  unfold after, journaled, and_then, in_world, granted, lift, note. destruct (journal_begin_series plan t (ps_world s1)) as [[[]|e] w] eqn:E.
  - by rewrite (Hchecked _ _ _ E) in Hname.
  - exists e. split; [done|]. eapply step_quiet; [exact Hst1|]. destruct (begin_law _ _ _ _ _ E) as [Hn Hi]. destruct (step_lawful _ _ _ Hst1) as [Hl Ho].
    split; simpl; [|done|unfold identities; simpl; by rewrite Hi|done]. split; [done|]. unfold time in *. simpl. lia.
Qed.

(** Either the plan's records can be made, or the journal refuses the series. *)
Lemma planned_cases {W} `{!PollEnvironment W} `{!PollEnvironmentLaws W} plan predicate (s : PollState W) :
  planned plan -> names_checked plan -> lawful s ->
  pollable plan \/ exists e s', stepped s s' [Refused e] /\ forall fuel, poll fuel plan predicate s = Some (Raise e, s').
Proof.
  intros [Hv Hr] Hchecked Hs. destruct (is_ok (_validate_bounded_text (plan_observer_id plan) MAX_OBSERVER_ID_LENGTH false)) eqn:En; [by left|right].
  pose proof (begin_refused plan s Hchecked En Hs) as Ho. unfold after in Ho. unfold poll. destruct (poll_start plan s) as [r s'].
  destruct Ho as (e & -> & Hst). by exists e, s'.
Qed.

(** What any run of a series leaves behind. *)
Lemma poll_series {W} `{!PollEnvironment W} `{!PollEnvironmentLaws W} plan predicate fuel (s s' : PollState W) r :
  planned plan -> names_checked plan -> lawful s -> sample_known plan s -> poll fuel plan predicate s = Some (r, s') ->
  exists E, ps_trace s' = ps_trace s ++ E /\ late plan (time s) s' r /\ series_of plan predicate E r.
Proof.
  intros Hplanned Hchecked Hlawful Hknown Hpoll.
  destruct (planned_cases plan predicate s Hplanned Hchecked Hlawful) as [Hplan|(e & s1 & Hst & Hp)].
  2:{ rewrite Hp in Hpoll. injection Hpoll as <- <-. exists [Refused e]. split; [apply Hst|]. split; [done|]. left. by exists e. }
  set (fuel' := Z.to_nat (plan_within_ns plan / plan_poll_interval_ns plan + 2)).
  destruct (poll_ends plan predicate (fuel `max` fuel') s Hplan Hlawful Hknown) as (r1 & s1 & E & Hp & Hst & Hs); [subst fuel'; lia|].
  apply (poll_fuel _ _ _ (fuel `max` fuel')) in Hpoll; [|lia]. rewrite Hpoll in Hp. injection Hp as <- <-. exists E. split; [apply Hst|done].
Qed.

(** A series whose queries exceed what the observer declared is unsupported. *)
Lemma undeclared_unsupported {W} `{!PollEnvironment W} plan predicate fuel (s s' : PollState W) res :
  undeclared plan -> poll fuel plan predicate s = Some (Ok res, s') -> polled_outcome res = Poll_UNSUPPORTED.
Proof.
  intros (n & Hn & Hs) Hp. unfold poll in Hp. destruct (poll_start plan s) as [[[d [r|]]|e] s1] eqn:E; [|exfalso|done].
  all: unfold poll_start, and_then, lift, ret in E; repeat (case_match; simplify_eq; try done).
  by match goal with H : make_poll_result _ = Ok _ |- _ => unfold make_poll_result in H; py_step H; apply ok_inj in H as <- end.
Qed.

(** * Polling series come to an end and are accounted for

    The claims about [poll], and a simulated environment that keeps the laws of [PollingLaws]: the
    observer gives the answers of a list, the clock moves when the poller sleeps, identities are made
    from a counter. *)

(** C24: a polling series comes to an end.  Whatever the observer, the journal and the factory of identities
    do, after enough turns of the loop the series of a plan the poller accepts has returned or raised, and
    more turns change nothing; at most [within / interval + 2] samples were appended, the last of which may
    record a cancellation.  The journal may refuse anything, and must refuse to begin a series for an
    observer whose name a record cannot hold. *)
Theorem polling_terminates {W : Type} `{!PollEnvironment W} `{!PollEnvironmentLaws W} plan predicate (s : PollState W)
    (Hplan : planned plan) (Hjournal : names_checked plan) (Hlawful : lawful s) (Hknown : sample_known plan s) :
  exists r s' E,
    (forall fuel, plan_within_ns plan / plan_poll_interval_ns plan + 1 < Z.of_nat fuel -> poll fuel plan predicate s = Some (r, s')) /\
    ps_trace s' = ps_trace s ++ E /\ (zlen (commits E) - 2) * plan_poll_interval_ns plan < plan_within_ns plan.
Proof.
  set (fuel := Z.to_nat (plan_within_ns plan / plan_poll_interval_ns plan + 2)).
  destruct (planned_bounds _ Hplan) as [Hi Hw]. unfold MINIMUM_POLL_INTERVAL_NS in Hi.
  assert (0 <= plan_within_ns plan / plan_poll_interval_ns plan) by (apply Z.div_pos; lia).
  destruct (planned_cases plan predicate s Hplan Hjournal Hlawful) as [Hpollable|(e & s1 & Hst & Hp)].
  2:{ exists (Raise e), s1, [Refused e]. split; [done|]. split; [apply Hst|]. unfold zlen. simpl. lia. }
  destruct (poll_ends plan predicate fuel s Hpollable Hlawful Hknown) as (r & s' & E & Hp & Hst & _ & Hs); [subst fuel; lia|].
  exists r, s', E. split; [|split; [apply Hst|]].
  - intros fuel' Hf. eapply poll_fuel; [exact Hp|]. subst fuel. lia.
  - destruct Hs as [(e & -> & _)|(F & -> & Ha & _)]; [unfold zlen; simpl; lia|apply Ha].
Qed.

(** C23: a polling series is accounted for by what the journal committed.  For every plan the poller accepts,
    with a journal that refuses to begin a series for an observer whose name a record cannot hold, either
    the journal refused to begin it, or its samples are valid records numbered from one under distinct identities, the observer
    was asked the planned question only, under a fresh sample identity each time and once if asking again is
    not safe, and the series ends in one of three ways: it returns a result that agrees with the last sample,
    with the last response and with what the plan allows (a mismatch only if asking again is not safe,
    pending only if polling is not allowed, unsupported only if the observer says so or did not declare the
    query), with every sample but the last leaving it running and the last one taking an
    edge of the lifecycle to the result's state; it is cancelled, with such a last sample; or the journal
    or the factory of identities refused. *)
Theorem polling_settles {W : Type} `{!PollEnvironment W} `{!PollEnvironmentLaws W} plan predicate (s s' : PollState W) fuel r
    (Hplan : planned plan) (Hjournal : names_checked plan) (Hlawful : lawful s) (Hknown : sample_known plan s)
    (Hpoll : poll fuel plan predicate s = Some (r, s')) :
  exists E, ps_trace s' = ps_trace s ++ E /\ series_of plan predicate E r /\
    (forall t, closed E t -> (Observation_RUNNING, t) ∈ observation_pairs).
Proof.
  destruct (poll_series plan predicate fuel s s' r Hplan Hjournal Hlawful Hknown Hpoll) as (E & Ht & _ & Hs). exists E. split; [done|]. split; [done|].
  clear Ht. intros t (_ & earlier & final & _ & _ & _ & Ht).
  unfold TERMINAL_OBSERVATIONS in Ht. unfold observation_pairs. rewrite !elem_of_cons in Ht.
  destruct Ht as [->|[->|[->|[->|[->|[->|Ht]]]]]]; [by repeat (first [left|right])..|]. by apply not_elem_of_nil in Ht.
Qed.

(** ** A simulated environment *)

Definition sim_limit : Z := SIGNED_INT64_MAX - _MAX_SAFE_INTEGER.
Record SimWorld := { sim_clock : N; sim_counter : Z; sim_issued : list str; sim_answers : list InvokeOutcome; sim_refuses : list bool }.

Definition sim_now (w : SimWorld) : Z := Z.min (Z.of_N (sim_clock w)) sim_limit.
Definition sim_identity (kind : FreshIdKind) (w : SimWorld) : result str :=
  let! id := new_fresh_id kind (int_to_bytes 16 (sim_counter w)) in
  raise_if negb (is_ok (validate_fresh_id id (Some kind))) || bool_decide (id ∈ sim_issued w) with RuntimeError ;;
  Ok id.
(** An answer that is a response has passed the validation of its model. *)
Definition sim_outcome (o : InvokeOutcome) : InvokeOutcome :=
  match o with
  | Responded r => if is_ok (validate_observer_response r) then o else InvokeTimedOut
  | _ => o
  end.
(** Whether the journal refuses its next commit. *)
Definition sim_commit (w : SimWorld) : result unit * SimWorld :=
  (if default false (head (sim_refuses w)) then Raise StaleOwnerEpochError else Ok tt,
   {| sim_clock := sim_clock w; sim_counter := sim_counter w; sim_issued := sim_issued w; sim_answers := sim_answers w;
      sim_refuses := tail (sim_refuses w) |}).
Definition sim_wall : WallTime :=
  {| wt_year := 2026; wt_month := 2; wt_day := 28; wt_hour := 12; wt_minute := 0; wt_second := 0; wt_microsecond := 250000 |}.

#[global] Instance sim_environment : PollEnvironment SimWorld := {|
  monotonic_reading w := (sim_now w, w);
  wall_reading w := (sim_wall, w);
  fresh_identity kind w :=
    match sim_identity kind w with
    | Ok id => (Ok id, {| sim_clock := sim_clock w; sim_counter := sim_counter w + 1; sim_issued := id :: sim_issued w;
                          sim_answers := sim_answers w; sim_refuses := sim_refuses w |})
    | Raise e => (Raise e, w)
    end;
  await_checkpoint w := (false, w);
  await_sleep ns w :=
    let t := sim_now w + ns in
    if within 0 sim_limit t && (0 <=? ns)
    then (false, {| sim_clock := Z.to_N t; sim_counter := sim_counter w; sim_issued := sim_issued w; sim_answers := sim_answers w;
                    sim_refuses := sim_refuses w |})
    else (true, w);
  await_invoke _ _ w :=
    (sim_outcome (default InvokeTimedOut (head (sim_answers w))),
     {| sim_clock := sim_clock w; sim_counter := sim_counter w; sim_issued := sim_issued w; sim_answers := tail (sim_answers w);
        sim_refuses := sim_refuses w |});
  journal_begin_series plan _ w :=
    if is_ok (_validate_bounded_text (plan_observer_id plan) MAX_OBSERVER_ID_LENGTH false) then sim_commit w else (Raise ValueError, w);
  journal_append_sample _ _ w := sim_commit w
|}.

Lemma validated_response_same r : is_ok (validate_observer_response r) = true -> validate_observer_response r = Ok r.
Proof.
  intros H. destruct (validate_observer_response r) as [x|] eqn:E; [|done]. f_equal. clear H. unfold validate_observer_response in E.
  repeat (py_step E; []). unfold validate_response_shape in E. py_step E. destruct (bool_decide _); repeat (py_step E; []); by apply ok_inj in E.
Qed.

#[global] Instance sim_laws : PollEnvironmentLaws SimWorld.
Proof.
  assert (0 <= sim_limit) as Hlimit by (by vm_compute).
  refine {| now := sim_now; issued := sim_issued |}.
  - intros w t w' [= <- <-]. unfold sim_now in *. unfold sim_limit in *. split; [lia|]. split; [lia|]. split; [lia|done].
  - intros w t w' [= <- <-]. split; [by vm_compute|]. split; [lia|done].
  - intros kind w r w' H. simpl in H. destruct (sim_identity kind w) as [id|e] eqn:E; injection H as <- <-; [|split; [lia|done]].
    split; [done|]. unfold sim_identity in E. py_step E. py_step E. apply ok_inj in E as <-. py_bool. split; [|done].
    destruct (validate_fresh_id a (Some kind)) as [x|] eqn:Ev; [|done]. f_equal. unfold validate_fresh_id in Ev. py_step Ev.
    py_step Ev. by apply ok_inj in Ev.
  - intros w b w' [= <- <-]. split; [lia|done].
  - intros ns w b w' H. simpl in H. destruct (_ && _) eqn:E; injection H as <- <-; [|split; [lia|]; split; done]. py_bool.
    match goal with |- _ <= sim_now ?w' /\ _ => assert (sim_now w' = sim_now w + ns) as -> end.
    { unfold sim_now at 1. cbn [sim_clock]. rewrite Z2N.id by lia. lia. }
    split; [lia|]. split; [done|]. intros _. lia.
  - intros q t w o w' [= <- <-]. split; [done|]. split; [done|]. intros r Hr.
    destruct (default InvokeTimedOut (head (sim_answers w))) as [r'| | |]; simpl in Hr; try done.
    destruct (is_ok (validate_observer_response r')) eqn:E; [|done]. injection Hr as <-. by apply validated_response_same.
  - intros p t w r w' H. simpl in H. destruct (is_ok _); injection H as <- <-; done.
  - intros p t w r w' [= <- <-]. split; [done|done].
Defined.
(** The simulated journal begins no series it could not record. *)
Lemma sim_names plan : names_checked (W := SimWorld) plan.
Proof. intros t w w' H. simpl in H. by destruct (is_ok _). Qed.

(** ** A simulated series

    The observer is pending, then answers evidence that does not pass, then evidence that does. *)

Definition demo_capability : ObserverCapabilities :=
  {| cap_evidence_types := [Value_INTEGER]; cap_evidence_keys := [u "processed"]; cap_read_only := true; cap_idempotent := true;
     cap_max_queries := 4; cap_supports_pending := true; cap_stable_snapshot_ids := true |}.
Definition demo_observe : ObserverRequest :=
  {| req_request_id := u "request_" ++ demo_payload; req_operation := Operation_OBSERVE; req_sample_id := Some (u "sample_" ++ demo_payload);
     req_run_id := Some demo_run; req_scenario_id := Some demo_scenario; req_event_id := None; req_checkpoint := Some (u "settled");
     req_prior_snapshot_id := None; req_queries := [{| oq_key := u "processed"; oq_type := Value_INTEGER; oq_parameters := JObject [] |}] |}.
Definition demo_series (capabilities : ObserverCapabilities) : ObservationPollPlan :=
  {| plan_observation_id := u "observation_" ++ demo_payload; plan_observer_id := u "probe"; plan_request := demo_observe;
     plan_capabilities := capabilities; plan_within_ns := 30000000; plan_poll_interval_ns := 10000000;
     plan_invocation_timeout_ns := 5000000; plan_requires_stable_snapshot := false |}.
Definition demo_response (status : ObserverResponseStatus) (count : Z) : ObserverResponse :=
  {| rsp_request_id := u "request_" ++ demo_payload; rsp_status := status; rsp_capabilities := demo_capability;
     rsp_snapshot_id := if bool_decide (status = Response_OK) then Some (u "snapshot-1") else None;
     rsp_evidence := if bool_decide (status = Response_OK)
       then [{| ev_key := u "processed"; ev_value_type := Value_INTEGER; ev_value := EvidenceJson (JInt count); ev_sensitive := false |}] else [];
     rsp_error := None |}.
(** At least two were processed. *)
Definition demo_predicate (r : ObserverResponse) : result bool :=
  match rsp_evidence r with
  | [{| ev_value := EvidenceJson (JInt n) |}] => Ok (2 <=? n)
  | _ => Raise (TemporalPredicateError "evidence_missing")
  end.
Definition demo_policy : ClockPolicy := {| mode := Clock_REAL; scale_numerator := 1; scale_denominator := 1; minimum_physical_wait_ns := 0 |}.
Definition demo_state (answers : list InvokeOutcome) (refuses : list bool) : PollState SimWorld :=
  {| ps_clock := {| _policy := demo_policy; _origin_monotonic_ns := 1000; _last_monotonic_ns := 1000 |};
     ps_world := {| sim_clock := 2000; sim_counter := 1; sim_issued := [u "sample_" ++ demo_payload]; sim_answers := answers; sim_refuses := refuses |};
     ps_trace := [] |}.
Definition demo_answers : list InvokeOutcome :=
  [Responded (demo_response Response_PENDING 0); Responded (demo_response Response_OK 1); Responded (demo_response Response_OK 2)].

(** The outcome, the number of samples and the exception, if any. *)
Definition poll_summary (x : option (result ObservationPollResult * PollState SimWorld)) : option (result ObservationPollOutcome * nat * nat) :=
  match x with
  | Some (r, s) => Some (let! res := r in Ok (polled_outcome res), length (commits (ps_trace s)), length (invocations (ps_trace s)))
  | None => None
  end.

Example series_matches : poll_summary (poll 5 (demo_series demo_capability) demo_predicate (demo_state demo_answers [])) = Some (Ok Poll_MATCHED, 3, 3)%nat.
Proof. vm_compute. reflexivity. Qed.
Example series_times_out :
  poll_summary (poll 5 (demo_series demo_capability) demo_predicate (demo_state (replicate 9 (Responded (demo_response Response_OK 0))) []))
  = Some (Ok Poll_TIMED_OUT, 4, 3)%nat.
Proof. vm_compute. reflexivity. Qed.
Example series_needs_fuel :
  poll_summary (poll 3 (demo_series demo_capability) demo_predicate (demo_state (replicate 9 (Responded (demo_response Response_OK 0))) [])) = None.
Proof. vm_compute. reflexivity. Qed.
Example series_refused :
  poll_summary (poll 5 (demo_series demo_capability) demo_predicate (demo_state demo_answers [false; false; true]))
  = Some (Raise StaleOwnerEpochError, 1, 2)%nat.
Proof. vm_compute. reflexivity. Qed.

Lemma demo_planned : planned (demo_series demo_capability).
Proof. split; vm_compute; reflexivity. Qed.
(** A plan may name an observer no record can hold; its series is refused before anything is asked. *)
Definition unnameable_series : ObservationPollPlan :=
  {| plan_observation_id := u "observation_" ++ demo_payload; plan_observer_id := [112; 7]%N; plan_request := demo_observe;
     plan_capabilities := demo_capability; plan_within_ns := 30000000; plan_poll_interval_ns := 10000000;
     plan_invocation_timeout_ns := 5000000; plan_requires_stable_snapshot := false |}.
Example unnameable_refused :
  is_ok (validate_poll_plan unnameable_series) = true /\
  poll_summary (poll 5 unnameable_series demo_predicate (demo_state demo_answers [])) = Some (Raise ValueError, 0, 0)%nat.
Proof. split; vm_compute; reflexivity. Qed.
Lemma demo_lawful answers refuses : lawful (demo_state answers refuses).
Proof. split; vm_compute; [split; discriminate|discriminate]. Qed.
Lemma demo_known answers refuses : sample_known (demo_series demo_capability) (demo_state answers refuses).
Proof. eexists. split; [reflexivity|]. left. Qed.

Lemma polling_terminates_witness :
  exists r s' E,
    (forall fuel, plan_within_ns (demo_series demo_capability) / plan_poll_interval_ns (demo_series demo_capability) + 1 < Z.of_nat fuel ->
       poll fuel (demo_series demo_capability) demo_predicate (demo_state demo_answers []) = Some (r, s')) /\
    ps_trace s' = [] ++ E /\ (zlen (commits E) - 2) * 10000000 < 30000000.
Proof. exact (polling_terminates (demo_series demo_capability) demo_predicate (demo_state demo_answers []) demo_planned (sim_names _) (demo_lawful _ _) (demo_known _ _)). Defined.

Lemma polling_settles_witness :
  exists r s' E, poll 5 (demo_series demo_capability) demo_predicate (demo_state demo_answers []) = Some (r, s') /\
    ps_trace s' = [] ++ E /\ series_of (demo_series demo_capability) demo_predicate E r /\
    (forall t, closed E t -> (Observation_RUNNING, t) ∈ observation_pairs).
Proof.
  destruct (poll 5 (demo_series demo_capability) demo_predicate (demo_state demo_answers [])) as [[r s']|] eqn:E; [|vm_compute in E; discriminate E].
  pose proof (polling_settles (demo_series demo_capability) demo_predicate (demo_state demo_answers []) s' 5 r
    demo_planned (sim_names _) (demo_lawful _ _) (demo_known _ _) E) as (F & HF). exists r, s', F. split; [reflexivity|exact HF].
Defined.
