(* ===== verification/ConfigValues.v ===== *)
(** * Values of the configuration

    The scalar values of [config/models.py]: durations, JSON pointers, names, and the canonical JSON
    profile with its limits.  A [json] stands for a value before and after it is frozen: lists and
    [_FrozenJsonArray]s are [JArray], dictionaries and [FrozenDict]s are [JObject].  Where pydantic
    turns a validator's [ValueError] into a [ValidationError], which is one, the model keeps
    [ValueError]. *)

From S2P Require Import Prelude Text Commands Json Hashing Canonical.

Local Open Scope Z_scope.

Definition MAX_DURATION_NANOSECONDS : Z := 2 ^ 63 - 1.
Definition MINIMUM_POLL_NANOSECONDS : Z := 10000000.
Definition MAX_CANONICAL_STRING_LENGTH : Z := 4096.
Definition MAX_CANONICAL_COLLECTION_ITEMS : Z := 1000.
Definition MAX_CANONICAL_OBJECT_KEY_LENGTH : Z := 256.
Definition MAX_CANONICAL_DEPTH : Z := 64.
Definition MAX_CANONICAL_NODES : Z := 100000.
Definition MAX_PATH_LENGTH : Z := 4096.

(** ** Names and bounded text *)

(** [^[a-z][a-z0-9_-]{0,63}$] *)
Definition _PROFILE_NAME (value : str) : bool :=
  match value with
  | c :: rest => is_lower c && forallb (fun x => is_lower x || is_decimal x || (x =? 95)%N || (x =? 45)%N) rest && (zlen rest <=? 63)
  | [] => false
  end.
Definition ProfileName (value : str) : result str := raise_if negb (_PROFILE_NAME value) with ValueError ;; Ok value.

(** Pydantic reads the characters of a constrained string, so it must be Unicode text. *)
Definition StringConstraints (min_length max_length : Z) (value : str) : result str :=
  raise_if negb (forallb is_scalar value) || negb (within min_length max_length (zlen value)) with ValueError ;; Ok value.
Definition BoundedString : str -> result str := StringConstraints 0 4096.
Definition NonEmptyString : str -> result str := StringConstraints 1 4096.
Definition MediaType : str -> result str := StringConstraints 1 255.
Definition SafeInteger (value : Z) : result Z := raise_if negb (within (- MAX_SAFE_INTEGER) MAX_SAFE_INTEGER value) with ValueError ;; Ok value.

Definition config_unique {A} `{EqDecision A} (values : list A) : result (list A) :=
  raise_if negb (bool_decide (NoDup values)) with ValueError ;; Ok values.

(** ** Durations *)

(** [0|[1-9][0-9]*] *)
Definition canonical_number (digits : str) : bool :=
  forallb is_decimal digits
  && match digits with c :: rest => negb (c =? 48)%N || bool_decide (rest = []) | [] => false end.

Fixpoint decimal_span (s : str) : str * str :=
  match s with
  | c :: rest => if is_decimal c then let (d, r) := decimal_span rest in (c :: d, r) else ([], s)
  | [] => ([], [])
  end.
Definition _DURATION_MULTIPLIERS : list (str * Z) :=
  [(u "ns", 1); (u "us", 1000); (u "ms", 1000000); (u "s", 1000000000); (u "m", 60000000000); (u "h", 3600000000000)].
(** The groups of canonical digits followed by a unit, the unit read as its multiplier. *)
Definition _DURATION (value : str) : option (str * Z) :=
  let (digits, unit) := decimal_span value in
  match List.find (fun m => bool_decide (m.1 = unit)) _DURATION_MULTIPLIERS with
  | Some m => if canonical_number digits then Some (digits, m.2) else None
  | None => None
  end.
Definition Duration (minimum_nanoseconds : Z) (value : str) : result str :=
  match _DURATION value with
  | None => Raise ValueError
  | Some (digits, multiplier) =>
    let nanoseconds := int_of_decimal digits * multiplier in
    raise_if MAX_DURATION_NANOSECONDS <? nanoseconds with ValueError ;;
    raise_if nanoseconds <? minimum_nanoseconds with ValueError ;;
    Ok value
  end.
Definition PositiveDuration : str -> result str := Duration 1.
Definition PollDuration : str -> result str := Duration MINIMUM_POLL_NANOSECONDS.
(** The property of a validated duration. *)
Definition nanoseconds (value : str) : Z :=
  match _DURATION value with Some (digits, multiplier) => int_of_decimal digits * multiplier | None => 0 end.

(** ** JSON pointers *)

(** What follows a slash: a tilde is followed by 0 or 1. *)
Fixpoint pointer_chars (s : str) : bool :=
  match s with
  | [] => true
  | c :: rest =>
    if (c =? 126)%N then
      match rest with
      | d :: rest1 => ((d =? 48)%N || (d =? 49)%N) && pointer_chars rest1
      | [] => false
      end
    else pointer_chars rest
  end.
Definition _JSON_POINTER (value : str) : bool :=
  match value with
  | [] => true
  | c :: rest => (c =? 47)%N && pointer_chars rest
  end.
Definition JsonPointer (value : str) : result str :=
  raise_if (MAX_PATH_LENGTH <? zlen value) || negb (_JSON_POINTER value) with ValueError ;; Ok value.

(** ** The canonical JSON profile *)

Definition push_members (mapping : list (str * json)) (depth : Z) (stack : list (json * Z)) : result (list (json * Z)) :=
  raise_if existsb (fun m => MAX_CANONICAL_OBJECT_KEY_LENGTH <? zlen m.1) mapping with ValueError ;;
  Ok (map (fun m => (m.2, depth)) mapping ++ stack).

(** One turn of the loop of [freeze_canonical_json] over the value it pops: the stack that is left. *)
Definition walk_value (current : json) (depth : Z) (stack : list (json * Z)) : result (list (json * Z)) :=
  match current with
  | JNull | JBool _ => Ok stack
  | JInt z => raise_if negb (within (- MAX_SAFE_INTEGER) MAX_SAFE_INTEGER z) with ValueError ;; Ok stack
  | JString s => raise_if MAX_CANONICAL_STRING_LENGTH <? zlen s with ValueError ;; Ok stack
  | JArray sequence =>
    raise_if MAX_CANONICAL_COLLECTION_ITEMS <? zlen sequence with ValueError ;;
    Ok (map (fun item => (item, depth + 1)) sequence ++ stack)
  | JObject mapping =>
    raise_if MAX_CANONICAL_COLLECTION_ITEMS <? zlen mapping with ValueError ;;
    push_members mapping (depth + 1) stack
  | JFloat _ => Raise TypeError
  end.
Fixpoint walk (fuel : nat) (stack : list (json * Z)) (nodes : Z) : option (result unit) :=
  match fuel, stack with
  | _, [] => Some (Ok tt)
  | O, _ => None
  | S fuel, (current, depth) :: rest =>
    let nodes := nodes + 1 in
    if MAX_CANONICAL_NODES <? nodes then Some (Raise ValueError)
    else if MAX_CANONICAL_DEPTH <? depth then Some (Raise ValueError)
    else match walk_value current depth rest with
         | Raise e => Some (Raise e)
         | Ok stack => walk fuel stack nodes
         end
  end.

Definition FrozenDict (items : list (str * json)) : result json :=
  raise_if negb (bool_decide (NoDup (map fst items))) with ValueError ;; Ok (JObject items).
Fixpoint _freeze_validated_json (value : json) {struct value} : result json :=
  match value with
  | JArray sequence =>
    let! items := (fix each (l : list json) : result (list json) :=
      match l with
      | [] => Ok []
      | item :: rest =>
        let! frozen := _freeze_validated_json item in
        let! tail := each rest in
        Ok (frozen :: tail)
      end) sequence in
    Ok (JArray items)
  | JObject mapping =>
    let! items := (fix each (l : list (str * json)) : result (list (str * json)) :=
      match l with
      | [] => Ok []
      | (key, item) :: rest =>
        let! frozen := _freeze_validated_json item in
        let! tail := each rest in
        Ok ((key, frozen) :: tail)
      end) mapping in
    FrozenDict items
  | _ => Ok value
  end.

(** Every turn pops one value and the node limit stops the walk, so the fuel is never the reason it
    stops ([walk_fuel_enough]). *)
Definition walk_fuel (value : json) : nat := Z.to_nat (json_nodes value).
Definition freeze_canonical_json (value : json) : result json :=
  match walk (walk_fuel value) [(value, 1)] 0 with
  | Some (Ok _) => _freeze_validated_json value
  | Some (Raise e) => Raise e
  | None => Raise RuntimeError
  end.
(** [CanonicalJsonValue._validate]: a [TypeError] becomes a [ValueError]. *)
Definition CanonicalJsonValue (value : json) : result json :=
  match freeze_canonical_json value with
  | Raise TypeError => Raise ValueError
  | r => r
  end.

Example durations :
  map (fun t => match PositiveDuration (u t) with Ok d => Some (nanoseconds d) | Raise _ => None end)
    ["1500ms"; "0s"; "01s"; "2h"; "9223372037s"; "10"; "5 s"]%string
  = [Some 1500000000; None; None; Some 7200000000000; None; None; None].
Proof. vm_compute. reflexivity. Qed.
Example pointers : map (fun t => is_ok (JsonPointer (u t))) [""; "/a~1b/0"; "a"; "/a~2"; "/~"; "//"]%string = [true; true; false; false; false; true].
Proof. vm_compute. reflexivity. Qed.

(** ** The profile as a property of the value

    What [walk] checks one value at a time, stated of the whole tree. *)

Fixpoint canonical_values (j : json) : bool :=
  match j with
  | JNull | JBool _ => true
  | JInt z => within (- MAX_SAFE_INTEGER) MAX_SAFE_INTEGER z
  | JFloat _ => false
  | JString s => zlen s <=? MAX_CANONICAL_STRING_LENGTH
  | JArray items => (zlen items <=? MAX_CANONICAL_COLLECTION_ITEMS) && forallb canonical_values items
  | JObject members =>
    (zlen members <=? MAX_CANONICAL_COLLECTION_ITEMS)
    && forallb (fun m => (zlen m.1 <=? MAX_CANONICAL_OBJECT_KEY_LENGTH) && canonical_values m.2) members
  end.
Definition canonical_profile (j : json) : bool :=
  canonical_values j && (json_depth j <=? MAX_CANONICAL_DEPTH) && (json_nodes j <=? MAX_CANONICAL_NODES).

Definition walk_pending (stack : list (json * Z)) : Z := fold_right Z.add 0 (map (fun p => json_nodes p.1) stack).
Definition fits (p : json * Z) : Prop := canonical_values p.1 = true /\ p.2 + json_depth p.1 <= MAX_CANONICAL_DEPTH + 1.

Lemma nodes_positive j : 1 <= json_nodes j.
Proof.
  induction j as [j Hj|items IH|members IH] using json_tree_ind; [destruct j; done| |]; simpl.
  - induction IH; simpl; lia.
  - induction IH; simpl; lia.
Qed.

Lemma depth_positive j : 1 <= json_depth j.
Proof.
  destruct j; try done; simpl.
  - induction items; simpl; lia.
  - induction members; simpl; lia.
Qed.

Lemma max_le l k : 0 <= k -> (fold_right Z.max 0 l <= k <-> Forall (fun x => x <= k) l).
Proof.
  intros Hk. induction l as [|x l IH]; simpl; [split; [by constructor|lia]|]. rewrite list.Forall_cons, <- IH. lia.
Qed.

Lemma pending_app stack stack' : walk_pending (stack ++ stack') = walk_pending stack + walk_pending stack'.
Proof. unfold walk_pending. rewrite map_app, fold_right_app. induction (map _ stack); simpl; lia. Qed.

Lemma pending_parts (depth : Z) parts : walk_pending (map (fun item => (item, depth)) parts) = fold_right Z.add 0 (map json_nodes parts).
Proof. unfold walk_pending. induction parts as [|v parts IH]; [done|]. simpl in *. by rewrite IH. Qed.

Lemma pending_positive stack : stack <> [] -> 1 <= walk_pending stack.
Proof.
  destruct stack as [|p stack]; [done|intros _]. unfold walk_pending; simpl. pose proof (nodes_positive p.1).
  enough (0 <= fold_right Z.add 0 (map (fun q => json_nodes q.1) stack)) by lia.
  induction stack as [|q stack IH]; simpl; [lia|]. pose proof (nodes_positive q.1). lia.
Qed.
Lemma pending_nonneg stack : 0 <= walk_pending stack.
Proof. destruct stack; [done|]. pose proof (pending_positive (p :: stack)). assert (1 <= walk_pending (p :: stack)) by auto. lia. Qed.

(** The values pushed for the parts of a container fit exactly when the container does. *)
Lemma fits_parts (depth : Z) (parts : list json) : depth <= MAX_CANONICAL_DEPTH ->
  (Forall fits (map (fun item => (item, depth + 1)) parts) <->
   forallb canonical_values parts = true /\ depth + (1 + fold_right Z.max 0 (map json_depth parts)) <= MAX_CANONICAL_DEPTH + 1).
Proof.
  intros Hd. rewrite forallb_forall, <- List.Forall_forall.
  assert (depth + (1 + fold_right Z.max 0 (map json_depth parts)) <= MAX_CANONICAL_DEPTH + 1 <->
          Forall (fun x => x <= MAX_CANONICAL_DEPTH - depth) (map json_depth parts)) as ->.
  { rewrite <- max_le by lia. lia. }
  unfold fits. rewrite !list.Forall_fmap, <- list.Forall_and. apply list.Forall_iff. intros v. simpl.
  assert (depth + 1 + json_depth v <= MAX_CANONICAL_DEPTH + 1 <-> json_depth v <= MAX_CANONICAL_DEPTH - depth) as -> by lia. done.
Qed.

Lemma walk_value_spec current depth rest : depth <= MAX_CANONICAL_DEPTH ->
  match walk_value current depth rest with
  | Ok stack => walk_pending stack = walk_pending rest + json_nodes current - 1 /\ (Forall fits stack <-> Forall fits ((current, depth) :: rest))
  | Raise _ => ~ fits (current, depth)
  end.
Proof.
  intros Hd. assert (forall b (v : json), b = canonical_values v -> json_depth v = 1 -> json_nodes v = 1 -> b = true ->
    walk_pending rest = walk_pending rest + json_nodes v - 1 /\ (Forall fits rest <-> Forall fits ((v, depth) :: rest))) as Hscalar.
  { intros b v Hb Hv Hn ->. split; [lia|]. rewrite list.Forall_cons. unfold fits at 2; simpl. rewrite Hv, <- Hb.
    split; [intros ?; split; [split; [done|lia]|done]|by intros [_ ?]]. }
  assert (forall (v : json) parts, (canonical_values v = true <-> forallb canonical_values parts = true) ->
    json_depth v = 1 + fold_right Z.max 0 (map json_depth parts) -> json_nodes v = 1 + fold_right Z.add 0 (map json_nodes parts) ->
    walk_pending (map (fun item => (item, depth + 1)) parts ++ rest) = walk_pending rest + json_nodes v - 1 /\
    (Forall fits (map (fun item => (item, depth + 1)) parts ++ rest) <-> Forall fits ((v, depth) :: rest))) as Hparts.
  { intros v parts Hc Hv Hn. split.
    - rewrite pending_app, pending_parts, Hn. lia.
    - rewrite list.Forall_cons, list.Forall_app, fits_parts by done. unfold fits at 2; simpl. rewrite Hv, Hc. done. }
  destruct current as [|b|z|text|s|items|members]; cbn [walk_value].
  - by apply (Hscalar true JNull).
  - by apply (Hscalar true (JBool b)).
  - destruct (within _ _ z) eqn:E; cbn [negb]; [by eapply (Hscalar _ (JInt z))|]. intros [Hc _]. simpl in Hc. congruence.
  - by intros [? _].
  - destruct (MAX_CANONICAL_STRING_LENGTH <? zlen s) eqn:E.
    + intros [Hc _]. simpl in Hc. py_bool. lia.
    + eapply (Hscalar _ (JString s)); try reflexivity. simpl. py_bool. by apply Z.leb_le.
  - destruct (MAX_CANONICAL_COLLECTION_ITEMS <? zlen items) eqn:E; [intros [Hc _]; simpl in Hc; py_bool; lia|].
    apply (Hparts (JArray items)); [|done..]. simpl. py_bool. rewrite andb_true_iff, Z.leb_le. tauto.
  - destruct (MAX_CANONICAL_COLLECTION_ITEMS <? zlen members) eqn:E; [intros [Hc _]; simpl in Hc; py_bool; lia|]. unfold push_members.
    destruct (existsb _ members) eqn:Ek.
    + apply existsb_exists in Ek as (m & Hm & Hlen). intros [Hc _]. simpl in Hc. apply andb_true_iff in Hc as [_ Hc].
      rewrite forallb_forall in Hc. specialize (Hc m Hm). py_bool. lia.
    + rewrite <- (map_map snd (fun item => (item, depth + 1))). apply (Hparts (JObject members)); [|by simpl; rewrite map_map..].
      simpl. py_bool. rewrite andb_true_iff, Z.leb_le, !forallb_forall. split.
      * intros [_ Hm] v ([k v'] & <- & Hin)%in_map_iff. specialize (Hm _ Hin). by py_bool.
      * intros Hm. split; [done|]. intros m Hin. apply andb_true_iff. split; [|by apply Hm, in_map].
        apply Z.leb_le. apply existsb_all with (x := m) in Ek; [|by apply list_elem_of_In]. by apply Z.ltb_ge in Ek.
Qed.

(** The walk ends within the number of values, and accepts exactly the stacks whose values fit and are
    not too many. *)
Lemma walk_spec fuel stack nodes : walk_pending stack <= Z.of_nat fuel -> nodes <= MAX_CANONICAL_NODES ->
  exists r, walk fuel stack nodes = Some r /\ (r = Ok tt <-> nodes + walk_pending stack <= MAX_CANONICAL_NODES /\ Forall fits stack).
Proof.
  revert stack nodes; induction fuel as [|fuel IH]; intros [|[current depth] rest] nodes Hf Hn.
  - exists (Ok tt). split; [done|]. split; [|done]. intros _. unfold walk_pending; simpl. split; [lia|constructor].
  - pose proof (pending_positive ((current, depth) :: rest)). assert (1 <= walk_pending ((current, depth) :: rest)) by auto. lia.
  - exists (Ok tt). split; [done|]. split; [|done]. intros _. unfold walk_pending; simpl. split; [lia|constructor].
  - cbn [walk]. assert (walk_pending ((current, depth) :: rest) = json_nodes current + walk_pending rest) as Hp by done.
    pose proof (nodes_positive current). pose proof (pending_nonneg rest). pose proof (depth_positive current).
    destruct (MAX_CANONICAL_NODES <? nodes + 1) eqn:En; [py_bool; eexists; split; [done|]; split; [done|lia]|].
    destruct (MAX_CANONICAL_DEPTH <? depth) eqn:Ed; py_bool.
    { eexists; split; [done|]; split; [done|]. intros [_ [[_ Hfit] _]%list.Forall_cons]. simpl in Hfit. lia. }
    pose proof (walk_value_spec current depth rest Ed) as Hw. destruct (walk_value current depth rest) as [stack'|e].
    + destruct Hw as [Hp' Hfit]. destruct (IH stack' (nodes + 1)) as (r & Hr & Hok); [lia..|]. exists r. split; [done|].
      rewrite Hok, Hfit. intuition lia.
    + eexists; split; [done|]. split; [done|]. intros [_ [Hc _]%list.Forall_cons]. by destruct (Hw Hc).
Qed.

Lemma freeze_validated v : keys_unique v = true -> _freeze_validated_json v = Ok v.
Proof.
  induction v as [j Hj|items IH|members IH] using json_tree_ind; intros Hu; [by destruct j| |].
  - cbn [_freeze_validated_json]. cbn [keys_unique] in Hu. set (each := fix each (l : list json) : result (list json) := _).
    enough (each items = Ok items) as -> by done. induction IH as [|v items Hv IH IH']; [done|]. simpl in Hu. py_bool. simpl.
    rewrite Hv by done. by rewrite IH'.
  - cbn [_freeze_validated_json]. cbn [keys_unique] in Hu. apply andb_true_iff in Hu as [Hn Hu].
    set (each := fix each (l : list (str * json)) : result (list (str * json)) := _).
    enough (each members = Ok members) as -> by (unfold FrozenDict; by rewrite Hn). clear Hn.
    induction IH as [|[k v] members Hv IH IH']; [done|]. simpl in Hu. py_bool. simpl in *. rewrite Hv by done. by rewrite IH'.
Qed.

Lemma walk_errors fuel stack nodes e : walk fuel stack nodes = Some (Raise e) -> e = ValueError \/ e = TypeError.
Proof.
  revert stack nodes; induction fuel as [|fuel IH]; intros [|[current depth] rest] nodes; try done. cbn [walk].
  repeat (case_match; [intros [= <-]; by left|]). case_match eqn:E; [apply IH|]. intros [= <-].
  destruct current; simpl in E; unfold push_members in E; repeat case_match; first [discriminate E|injection E as <-; auto].
Qed.

(** Freezing accepts exactly the values of the profile, and keeps them. *)
Lemma canonical_profile_exact v (Hu : keys_unique v = true) :
  CanonicalJsonValue v = if canonical_profile v then Ok v else Raise ValueError.
Proof.
  unfold CanonicalJsonValue, freeze_canonical_json. pose proof (nodes_positive v).
  destruct (walk_spec (walk_fuel v) [(v, 1)] 0) as (r & Hr & Hok).
  { unfold walk_pending, walk_fuel; simpl. lia. }
  { done. }
  rewrite Hr. assert (r = Ok tt <-> canonical_profile v = true) as Hiff.
  { rewrite Hok. unfold canonical_profile, walk_pending; simpl. rewrite !andb_true_iff, !Z.leb_le, list.Forall_singleton. unfold fits; simpl.
    pose proof (depth_positive v). intuition lia. }
  destruct r as [[]|e].
  - rewrite (proj1 Hiff eq_refl), freeze_validated by done. done.
  - destruct (canonical_profile v); [by discriminate (proj2 Hiff eq_refl)|]. by destruct (walk_errors _ _ _ _ Hr) as [->| ->].
Qed.
