(* ===== verification/AssertionConfig.v ===== *)
(** * Assertions of the configuration

    The queries, typed values, predicates and assertions of [config/models.py], each with the
    validation of its pydantic model.  A record holds the fields of a document: [None] is an absent
    field, whose default the accessors give. *)

From S2P Require Import Prelude Text Domain Commands Json Evidence ConfigValues.

Local Open Scope Z_scope.

Definition MAX_OBSERVER_PARAMETERS : Z := 128.
Definition MAX_STATUS_CODES : Z := 64.
Definition MAX_STATUS_CLASSES : Z := 4.
Definition MAX_ASSERTION_STATES : Z := 64.
Definition MAX_PARTIAL_PREDICATES : Z := 64.
Definition MIN_COMPOSITE_ASSERTION_ITEMS : Z := 2.

Inductive Comparator := Comparator_EQ | Comparator_NE | Comparator_LT | Comparator_LTE | Comparator_GT | Comparator_GTE.
#[global] Instance Comparator_eq_dec : EqDecision Comparator.
Proof. solve_decision. Defined.
Inductive MissingPointer := Missing_FAIL | Missing_ERROR.
#[global] Instance MissingPointer_eq_dec : EqDecision MissingPointer.
Proof. solve_decision. Defined.
Inductive OnUnsupported := Unsupported_UNSUPPORTED | Unsupported_SKIP.
#[global] Instance OnUnsupported_eq_dec : EqDecision OnUnsupported.
Proof. solve_decision. Defined.
Inductive HttpStatusClass := Status_SUCCESS | Status_REDIRECTION | Status_CLIENT_ERROR | Status_SERVER_ERROR.
#[global] Instance HttpStatusClass_eq_dec : EqDecision HttpStatusClass.
Proof. solve_decision. Defined.
Inductive AttemptMode := Mode_ALL_TERMINAL | Mode_LAST_TERMINAL.

(** Validate every item of an array. *)
Definition each_valid {A} (validate : A -> result A) (values : list A) : result unit := let! _ := map_result validate values in Ok tt.
Definition valid_option {A} (validate : A -> result A) (value : option A) : result unit :=
  match value with Some v => let! _ := validate v in Ok tt | None => Ok tt end.

(** ** Queries *)

Record ObserverQueryConfig := { cq_observer : str; cq_key : str; cq_parameters : json }.
Definition validate_parameters (value : json) : result json :=
  match value with
  | JObject members => raise_if MAX_OBSERVER_PARAMETERS <? zlen members with ValueError ;; Ok value
  | _ => Raise ValueError
  end.
Definition validate_query (q : ObserverQueryConfig) : result ObserverQueryConfig :=
  let! _ := ProfileName (cq_observer q) in
  let! _ := StringConstraints 1 256 (cq_key q) in
  let! value := CanonicalJsonValue (cq_parameters q) in
  let! parameters := validate_parameters value in
  Ok {| cq_observer := cq_observer q; cq_key := cq_key q; cq_parameters := parameters |}.

(** ** Typed values *)

Inductive TypedValue :=
  | NullTypedValue
  | BooleanTypedValue (value : bool)
  | IntegerTypedValue (value : Z)
  | DecimalStringTypedValue (value : str)
  | StringTypedValue (value : str)
  | BytesDigestTypedValue (sha256 : str) (byte_length : Z) (media_type : option str)
  | TimestampTypedValue (value : str)
  | ArrayTypedValue (value : list json)
  | ObjectTypedValue (value : json).

(** [sha256:] and 64 lower-case hexadecimal digits. *)
Definition _SHA256 (value : str) : bool :=
  match Identifiers.strip_prefix (u "sha256:") value with
  | Some digits => (zlen digits =? 64) && forallb is_hex digits
  | None => false
  end.

(** The pattern of timestamps: digits are those of ASCII, dates are not checked. *)
Definition timestamp_pattern (value : str) : bool :=
  match value with
  | y1 :: y2 :: y3 :: y4 :: c1 :: m1 :: m2 :: c2 :: d1 :: d2 :: c3 :: h1 :: h2 :: c4 :: n1 :: n2 :: c5 :: s1 :: s2 :: tail =>
    bool_decide ([c1; c2; c3; c4; c5] = u "--T::") && forallb is_decimal [y1; y2; y3; y4; m1; m2; d1; d2; h1; h2; n1; n2; s1; s2]
    && match tail with
       | c :: rest =>
         if (c =? 90)%N then bool_decide (rest = [])
         else (c =? 46)%N && (let (digits, last) := decimal_span rest in within 1 9 (zlen digits) && bool_decide (last = u "Z"))
       | [] => false
       end
  | _ => false
  end.

Definition validate_typed_value (v : TypedValue) : result TypedValue :=
  match v with
  | NullTypedValue | BooleanTypedValue _ => Ok v
  | IntegerTypedValue z => let! _ := SafeInteger z in Ok v
  | DecimalStringTypedValue s => let! _ := BoundedString s in raise_if negb (decimal_fullmatch is_decimal s) with ValueError ;; Ok v
  | StringTypedValue s => let! _ := BoundedString s in Ok v
  | BytesDigestTypedValue digest byte_length media_type =>
    raise_if negb (_SHA256 digest) with ValueError ;;
    let! _ := SafeInteger byte_length in
    raise_if byte_length <? 0 with ValueError ;;
    let! _ := valid_option MediaType media_type in
    Ok v
  | TimestampTypedValue s => raise_if negb (timestamp_pattern s) with ValueError ;; Ok v
  | ArrayTypedValue items =>
    let! _ := each_valid CanonicalJsonValue items in
    raise_if MAX_CANONICAL_COLLECTION_ITEMS <? zlen items with ValueError ;;
    Ok v
  | ObjectTypedValue value =>
    let! frozen := CanonicalJsonValue value in
    match frozen with JObject _ => Ok v | _ => Raise ValueError end
  end.

(** [to_wire()]: the declared type and the value, absent options left out. *)
Definition to_wire (v : TypedValue) : EvidenceValueType * json :=
  match v with
  | NullTypedValue => (Value_NULL, JNull)
  | BooleanTypedValue b => (Value_BOOLEAN, JBool b)
  | IntegerTypedValue z => (Value_INTEGER, JInt z)
  | DecimalStringTypedValue s => (Value_DECIMAL_STRING, JString s)
  | StringTypedValue s => (Value_STRING, JString s)
  | BytesDigestTypedValue digest byte_length media_type =>
    (Value_BYTES_DIGEST, JObject ([(u "sha256", JString digest); (u "byte_length", JInt byte_length)]
       ++ match media_type with Some m => [(u "media_type", JString m)] | None => [] end))
  | TimestampTypedValue s => (Value_TIMESTAMP, JString s)
  | ArrayTypedValue items => (Value_ARRAY, JArray items)
  | ObjectTypedValue value => (Value_OBJECT, value)
  end.

(** ** Predicates *)

Record Predicate := {
  pr_name : str; pr_query : ObserverQueryConfig; pr_path : option str; pr_comparator : Comparator; pr_expected : TypedValue;
  pr_missing_pointer : option MissingPointer
}.
Definition missing_pointer (p : Predicate) : MissingPointer := default Missing_ERROR (pr_missing_pointer p).
Definition validate_missing_pointer_dependency (path : option str) (missing : option MissingPointer) : result unit :=
  match missing, path with Some _, None => Raise ValueError | _, _ => Ok tt end.
Definition validate_predicate (p : Predicate) : result Predicate :=
  let! _ := ProfileName (pr_name p) in
  let! _ := validate_query (pr_query p) in
  let! _ := valid_option JsonPointer (pr_path p) in
  let! _ := validate_typed_value (pr_expected p) in
  let! _ := validate_missing_pointer_dependency (pr_path p) (pr_missing_pointer p) in
  Ok p.

(** ** Assertions *)

Record StatusExpectation := { se_codes : option (list Z); se_classes : option (list HttpStatusClass) }.
Definition validate_selection {A} `{EqDecision A} (maximum : Z) (value : option (list A)) : result unit :=
  match value with
  | None => Ok tt
  | Some values => raise_if negb (within 1 maximum (zlen values)) with ValueError ;; let! _ := config_unique values in Ok tt
  end.
Definition validate_status_expectation (e : StatusExpectation) : result StatusExpectation :=
  raise_if negb (forallb (within 100 599) (default [] (se_codes e))) with ValueError ;;
  let! _ := validate_selection MAX_STATUS_CODES (se_codes e) in
  let! _ := validate_selection MAX_STATUS_CLASSES (se_classes e) in
  raise_if is_none (se_codes e) && is_none (se_classes e) with ValueError ;;
  Ok e.

Record AttemptSelector := { sel_event : str; sel_mode : AttemptMode }.

(** The fields every observer assertion has. *)
Record ObserverOptions := { on_unsupported : OnUnsupported; opt_within : option str; opt_poll_interval : option str }.
Definition validate_polling (o : ObserverOptions) : result ObserverOptions :=
  let! _ := valid_option PositiveDuration (opt_within o) in
  let! _ := valid_option PollDuration (opt_poll_interval o) in
  match opt_within o, opt_poll_interval o with
  | None, None => Ok o
  | Some within, Some interval => raise_if nanoseconds within <? nanoseconds interval with ValueError ;; Ok o
  | _, _ => Raise ValueError
  end.
(** [_RequiredPollingAssertionCommon] *)
Definition validate_required_polling (o : ObserverOptions) : result ObserverOptions :=
  raise_if is_none (opt_within o) || is_none (opt_poll_interval o) with ValueError ;; validate_polling o.

Record HttpStatusAssertion := { hs_id : str; hs_attempt : AttemptSelector; hs_expected : StatusExpectation }.
Record AcknowledgementDeadlineAssertion := { ad_id : str; ad_attempt : AttemptSelector; ad_within : str }.
(** The processing, callback and journal counts have the same fields. *)
Record CountAssertion := {
  ca_id : str; ca_options : ObserverOptions; ca_query : ObserverQueryConfig; ca_comparator : Comparator; ca_expected : Z
}.
Record ExistenceAssertion := { ea_id : str; ea_options : ObserverOptions; ea_query : ObserverQueryConfig }.
Record ResourceFieldAssertion := {
  rf_id : str; rf_options : ObserverOptions; rf_query : ObserverQueryConfig; rf_path : str; rf_comparator : Comparator;
  rf_expected : TypedValue; rf_missing_pointer : option MissingPointer
}.
Record EventualStateAssertion := {
  es_id : str; es_options : ObserverOptions; es_query : ObserverQueryConfig; es_path : option str; es_comparator : Comparator;
  es_expected : TypedValue; es_missing_pointer : option MissingPointer
}.
Record OrderedTransitionAssertion := {
  ot_id : str; ot_options : ObserverOptions; ot_query : ObserverQueryConfig; ot_states : list str; ot_allow_intermediate : bool
}.
Record NoPartialSideEffectAssertion := { np_id : str; np_options : ObserverOptions; np_predicates : list Predicate }.

Inductive StateAssertion :=
  | ProcessingCountAssertion (a : CountAssertion)
  | CallbackCountAssertion (a : CountAssertion)
  | JournalCountAssertion (a : CountAssertion)
  | ResourceExistsAssertion (a : ExistenceAssertion)
  | ResourceAbsentAssertion (a : ExistenceAssertion)
  | ResourceField (a : ResourceFieldAssertion).
Inductive TemporalAssertion :=
  | OrderedTransition (a : OrderedTransitionAssertion)
  | EventualState (a : EventualStateAssertion).
Inductive ObserverAssertion :=
  | State (a : StateAssertion)
  | Temporal (a : TemporalAssertion)
  | NoPartialSideEffect (a : NoPartialSideEffectAssertion).
Inductive TransportAssertion :=
  | HttpStatus (a : HttpStatusAssertion)
  | AcknowledgementDeadline (a : AcknowledgementDeadlineAssertion).
Inductive AssertionConfig :=
  | Transport (a : TransportAssertion)
  | Observed (a : ObserverAssertion).

Definition validate_transport (a : TransportAssertion) : result unit :=
  match a with
  | HttpStatus a =>
    let! _ := ProfileName (hs_id a) in
    let! _ := ProfileName (sel_event (hs_attempt a)) in
    let! _ := validate_status_expectation (hs_expected a) in
    Ok tt
  | AcknowledgementDeadline a =>
    let! _ := ProfileName (ad_id a) in
    let! _ := ProfileName (sel_event (ad_attempt a)) in
    let! _ := PositiveDuration (ad_within a) in
    Ok tt
  end.
Definition validate_count (a : CountAssertion) : result unit :=
  let! _ := ProfileName (ca_id a) in
  let! _ := validate_query (ca_query a) in
  let! _ := SafeInteger (ca_expected a) in
  let! _ := validate_polling (ca_options a) in
  Ok tt.
Definition validate_existence (a : ExistenceAssertion) : result unit :=
  let! _ := ProfileName (ea_id a) in
  let! _ := validate_query (ea_query a) in
  let! _ := validate_polling (ea_options a) in
  Ok tt.
Definition validate_state (a : StateAssertion) : result unit :=
  match a with
  | ProcessingCountAssertion a | CallbackCountAssertion a | JournalCountAssertion a => validate_count a
  | ResourceExistsAssertion a | ResourceAbsentAssertion a => validate_existence a
  | ResourceField a =>
    let! _ := ProfileName (rf_id a) in
    let! _ := validate_query (rf_query a) in
    let! _ := JsonPointer (rf_path a) in
    let! _ := validate_typed_value (rf_expected a) in
    let! _ := validate_polling (rf_options a) in
    Ok tt
  end.
Definition validate_eventual (a : EventualStateAssertion) : result unit :=
  let! _ := ProfileName (es_id a) in
  let! _ := validate_query (es_query a) in
  let! _ := valid_option JsonPointer (es_path a) in
  let! _ := validate_typed_value (es_expected a) in
  let! _ := validate_required_polling (es_options a) in
  validate_missing_pointer_dependency (es_path a) (es_missing_pointer a).
Definition validate_states (value : list str) : result (list str) :=
  raise_if negb (within MIN_COMPOSITE_ASSERTION_ITEMS MAX_ASSERTION_STATES (zlen value)) with ValueError ;; Ok value.
Definition validate_ordered (a : OrderedTransitionAssertion) : result unit :=
  let! _ := ProfileName (ot_id a) in
  let! _ := validate_query (ot_query a) in
  let! _ := each_valid BoundedString (ot_states a) in
  let! _ := validate_states (ot_states a) in
  let! _ := validate_polling (ot_options a) in
  Ok tt.
Definition validate_predicates (value : list Predicate) : result unit :=
  raise_if negb (within MIN_COMPOSITE_ASSERTION_ITEMS MAX_PARTIAL_PREDICATES (zlen value)) with ValueError ;;
  let! _ := config_unique (map pr_name value) in
  Ok tt.
Definition validate_no_partial (a : NoPartialSideEffectAssertion) : result unit :=
  let! _ := ProfileName (np_id a) in
  let! _ := each_valid validate_predicate (np_predicates a) in
  let! _ := validate_predicates (np_predicates a) in
  let! _ := validate_polling (np_options a) in
  Ok tt.
Definition validate_assertion (a : AssertionConfig) : result unit :=
  match a with
  | Transport a => validate_transport a
  | Observed (State a) => validate_state a
  | Observed (Temporal (EventualState a)) => validate_eventual a
  | Observed (Temporal (OrderedTransition a)) => validate_ordered a
  | Observed (NoPartialSideEffect a) => validate_no_partial a
  end.

Example typed_values :
  map (fun v => is_ok (validate_typed_value v))
    [DecimalStringTypedValue (u "-1.50e3"); DecimalStringTypedValue (u "1."); TimestampTypedValue (u "2024-02-30T25:00:00.5Z");
     TimestampTypedValue (u "2024-02-30"); ObjectTypedValue (JArray []); IntegerTypedValue (2 ^ 53)]
  = [true; false; true; false; false; false].
Proof. vm_compute. reflexivity. Qed.
