(* ===== verification/EvidenceFacts.v ===== *)
(** * Typed facts and their comparison

    What [assertions/state.py] and [assertions/composite.py] share, each with its own copy: the typed
    facts made of configured and of observed values, exact comparison, and JSON pointers.  [Decimal]
    is what they use of Python's [decimal]: construction from text of the decimal pattern, which is
    exact or refused, and comparison, which is exact. *)

From S2P Require Import Prelude Text Commands Json Domain Hashing Canonical Evidence ConfigValues AssertionConfig.

Local Open Scope Z_scope.

(** ** Decimals *)

Record Decimal := { dec_negative : bool; dec_coefficient : Z; dec_exponent : Z }.

Definition MAX_EMAX : Z := 999999999999999999.
Definition MIN_ETINY : Z := - 1999999999999999997.

(** The number of decimal digits, one for zero. *)
Fixpoint count_digits (fuel : nat) (c : Z) : Z :=
  match fuel with
  | O => 1
  | S fuel => if c <? 10 then 1 else 1 + count_digits fuel (c / 10)
  end.
Definition digit_count (c : Z) : Z := count_digits (Z.to_nat (Z.log2 c)) c.

(** [Decimal(text)] for text of the decimal pattern; [None] is [InvalidOperation]: the value does not
    fit the widest context. *)
Definition Decimal_of_parts (p : DecimalParts) : option Decimal :=
  let coefficient := digits_int (dp_integer p ++ dp_fraction p) in
  let exponent := (if dp_exponent_negative p then - digits_int (dp_exponent p) else digits_int (dp_exponent p)) - zlen (dp_fraction p) in
  if (MIN_ETINY <=? exponent) && (exponent + digit_count coefficient - 1 <=? MAX_EMAX)
  then Some {| dec_negative := dp_negative p; dec_coefficient := coefficient; dec_exponent := exponent |} else None.
Definition Decimal_of_text (text : str) : option Decimal :=
  match decimal_parts is_unicode_digit text with Some p => Decimal_of_parts p | None => None end.
(** [Decimal(integer)] *)
Definition Decimal_of_int (z : Z) : Decimal := {| dec_negative := z <? 0; dec_coefficient := Z.abs z; dec_exponent := 0 |}.

(** Compare magnitudes: by the position of the first digit, then digit by digit. *)
Definition compare_magnitude (a b : Decimal) : comparison :=
  match dec_exponent a + digit_count (dec_coefficient a) ?= dec_exponent b + digit_count (dec_coefficient b) with
  | Eq =>
    let e := Z.min (dec_exponent a) (dec_exponent b) in
    dec_coefficient a * 10 ^ (dec_exponent a - e) ?= dec_coefficient b * 10 ^ (dec_exponent b - e)
  | order => order
  end.
Definition decimal_compare (a b : Decimal) : comparison :=
  match dec_coefficient a =? 0, dec_coefficient b =? 0 with
  | true, true => Eq
  | true, false => if dec_negative b then Gt else Lt
  | false, true => if dec_negative a then Lt else Gt
  | false, false =>
    match dec_negative a, dec_negative b with
    | true, false => Lt
    | false, true => Gt
    | false, false => compare_magnitude a b
    | true, true => compare_magnitude b a
    end
  end.

Definition _compare_numeric (left right : Decimal) (comparator : Comparator) : bool :=
  match comparator with
  | Comparator_EQ => bool_decide (decimal_compare left right = Eq)
  | Comparator_NE => negb (bool_decide (decimal_compare left right = Eq))
  | Comparator_LT => bool_decide (decimal_compare left right = Lt)
  | Comparator_LTE => negb (bool_decide (decimal_compare left right = Gt))
  | Comparator_GT => bool_decide (decimal_compare left right = Gt)
  | Comparator_GTE => negb (bool_decide (decimal_compare left right = Lt))
  end.

(** ** Facts *)

Record StateAssertionFact := { fact_type : EvidenceValueType; fact_value : TypedEvidence; fact_sensitive : bool }.
Definition _require_fact_shape (value_type : EvidenceValueType) (value : TypedEvidence) : result unit :=
  match value_type, value with
  | Value_NULL, EvidenceJson JNull | Value_BOOLEAN, EvidenceJson (JBool _) | Value_INTEGER, EvidenceJson (JInt _)
  | (Value_DECIMAL_STRING | Value_STRING | Value_TIMESTAMP), EvidenceJson (JString _) | Value_BYTES_DIGEST, EvidenceDigest _
  | Value_ARRAY, EvidenceJson (JArray _) | Value_OBJECT, EvidenceJson (JObject _) => Ok tt
  | _, _ => Raise TypeError
  end.
Definition make_fact (value_type : EvidenceValueType) (value : TypedEvidence) (sensitive : bool) : result StateAssertionFact :=
  let! _ := _require_fact_shape value_type value in
  Ok {| fact_type := value_type; fact_value := value; fact_sensitive := sensitive |}.

Definition _validated_fact (value_type : EvidenceValueType) (value : json) (sensitive : bool) : result StateAssertionFact :=
  let! probe := evidence_model_validate (u "assertion_value") value_type value sensitive in
  make_fact (ev_value_type probe) (ev_value probe) sensitive.
Definition _expected_fact (expected : TypedValue) : result StateAssertionFact :=
  let (value_type, value) := to_wire expected in _validated_fact value_type value false.

Definition _infer_value_type (value : json) : result EvidenceValueType :=
  match value with
  | JNull => Ok Value_NULL
  | JBool _ => Ok Value_BOOLEAN
  | JInt _ => Ok Value_INTEGER
  | JString _ => Ok Value_STRING
  | JArray _ => Ok Value_ARRAY
  | JObject _ => Ok Value_OBJECT
  | JFloat _ => Raise TypeError
  end.
Definition is_value_error (e : exn) : bool := bool_decide (e = TypeError) || bool_decide (e = ValueError).
(** [try: attempt except (TypeError, ValueError): fallback]. *)
Definition or_else {A} (attempt fallback : result A) : result A :=
  match attempt with
  | Ok a => Ok a
  | Raise e => if is_value_error e then fallback else Raise e
  end.
Definition _actual_fact (value : json) (expected_type : EvidenceValueType) (sensitive : bool) : result StateAssertionFact :=
  let! inferred := _infer_value_type value in
  match inferred, expected_type, value with
  | Value_STRING, Value_DECIMAL_STRING, JString text =>
    _validated_fact (if decimal_fullmatch is_decimal text then Value_DECIMAL_STRING else Value_STRING) value sensitive
  | Value_STRING, Value_TIMESTAMP, _ => or_else (_validated_fact expected_type value sensitive) (_validated_fact Value_STRING value sensitive)
  | Value_OBJECT, Value_BYTES_DIGEST, _ => or_else (_validated_fact expected_type value sensitive) (_validated_fact Value_OBJECT value sensitive)
  | _, _, _ => _validated_fact inferred value sensitive
  end.

(** ** Equality *)

Fixpoint json_exact_equal (left right : json) {struct left} : bool :=
  match left, right with
  | JBool a, JBool b => Bool.eqb a b
  | JInt a, JInt b => a =? b
  | JObject left_mapping, JObject right_mapping =>
    forallb (fun m => negb (is_none (json_get m.1 right_mapping))) left_mapping
    && forallb (fun m => negb (is_none (json_get m.1 left_mapping))) right_mapping
    && forallb (fun m => match json_get m.1 right_mapping with Some v => json_exact_equal m.2 v | None => false end) left_mapping
  | JArray left_sequence, JArray right_sequence =>
    (fix zip (l r : list json) : bool :=
      match l, r with
      | [], [] => true
      | x :: l, y :: r => json_exact_equal x y && zip l r
      | _, _ => false
      end) left_sequence right_sequence
  | JNull, JNull => true
  | JString a, JString b => bool_decide (a = b)
  | _, _ => false
  end.
Definition _deep_exact_equal (left right : TypedEvidence) : bool :=
  match left, right with
  | EvidenceDigest a, EvidenceDigest b => bool_decide (a = b)
  | EvidenceJson a, EvidenceJson b => json_exact_equal a b
  | _, _ => false
  end.

Definition fact_decimal (f : StateAssertionFact) : option Decimal :=
  match fact_value f with EvidenceJson (JString text) => Decimal_of_text text | _ => None end.
Definition fact_integer (f : StateAssertionFact) : option Decimal :=
  match fact_value f with EvidenceJson (JInt z) => Some (Decimal_of_int z) | _ => None end.
(** [None]: the comparator does not apply to the values. *)
Definition _compare_facts (actual expected : StateAssertionFact) (comparator : Comparator) : option bool :=
  if negb (bool_decide (fact_type actual = fact_type expected)) then
    match comparator with
    | Comparator_EQ => Some false
    | Comparator_NE => Some true
    | _ => None
    end
  else if bool_decide (fact_type actual = Value_INTEGER) then
    left ← fact_integer actual; right ← fact_integer expected; Some (_compare_numeric left right comparator)
  else if bool_decide (fact_type actual = Value_DECIMAL_STRING) then
    left ← fact_decimal actual; right ← fact_decimal expected; Some (_compare_numeric left right comparator)
  else
    let equal := _deep_exact_equal (fact_value actual) (fact_value expected) in
    match comparator with
    | Comparator_EQ => Some equal
    | Comparator_NE => Some (negb equal)
    | _ => None
    end.

(** ** JSON pointers *)

(** [text.replace(first second, replacement)] for a pair of characters. *)
Fixpoint replace_pair (first second replacement : N) (s : str) : str :=
  match s with
  | [] => []
  | c :: rest =>
    match rest with
    | d :: rest1 =>
      if (c =? first)%N && (d =? second)%N then replacement :: replace_pair first second replacement rest1
      else c :: replace_pair first second replacement rest
    | [] => [c]
    end
  end.
Definition unescape_token (raw_token : str) : str := replace_pair 126 48 126 (replace_pair 126 49 47 raw_token).
Definition _ARRAY_INDEX (token : str) : bool := canonical_number token.

(** One turn of the loop of [_resolve_json_pointer]; [None] is a missing member. *)
Definition pointer_step (current : json) (token : str) : option json :=
  match current with
  | JObject mapping => json_get token mapping
  | JArray sequence =>
    if _ARRAY_INDEX token then
      let index := int_of_decimal token in
      if zlen sequence <=? index then None else nth_error sequence (Z.to_nat index)
    else None
  | _ => None
  end.
Definition _resolve_json_pointer (root : json) (pointer : str) : option json :=
  match pointer with
  | [] => Some root
  | _ :: rest =>
    fold_left (fun current raw_token => c ← current; pointer_step c (unescape_token raw_token)) (split_on 47 rest) (Some root)
  end.

Example decimals_compared :
  map (fun p => match Decimal_of_text (u p.1), Decimal_of_text (u p.2) with Some a, Some b => Some (decimal_compare a b) | _, _ => None end)
    [("1.50", "15e-1"); ("-0", "0.000"); ("1e999999999999999999", "2"); ("1e1000000000000000000", "2"); ("-3", "-2.99"); ("1e-400000000", "1e-400000001")]%string
  = [Some Eq; Some Eq; Some Gt; None; Some Lt; Some Gt].
Proof. vm_compute. reflexivity. Qed.
Example pointer_resolved :
  let root := JObject [(u "a/b", JArray [JInt 1; JObject [(u "~", JNull)]])] in
  map (fun p => _resolve_json_pointer root (u p)) [""; "/a~1b/1/~0"; "/a~1b/2"; "/a~1b/01"; "/c"]%string
  = [Some root; Some JNull; None; None; None].
Proof. vm_compute. reflexivity. Qed.
