(* ===== verification/EvidenceLaws.v ===== *)
(** * Frozen evidence

    What [_freeze_json] accepts, stated of the whole value: it returns the value unchanged exactly when
    the value is bounded.  The parts of a frozen value are frozen, and a frozen value has a canonical
    form. *)

From S2P Require Import Prelude Text Commands Json Hashing Canonical Evidence.

Local Open Scope Z_scope.

Definition frozen_text (s : str) : bool := is_ok (_validate_bounded_text s MAX_JSON_STRING_LENGTH true).
Definition frozen_name (s : str) : bool := is_ok (_validate_bounded_text s MAX_JSON_OBJECT_KEY_LENGTH false).
Fixpoint frozen_values (j : json) : bool :=
  match j with
  | JNull | JBool _ => true
  | JInt z => within MIN_IJSON_INTEGER MAX_IJSON_INTEGER z
  | JFloat _ => false
  | JString s => frozen_text s
  | JArray items => (zlen items <=? MAX_JSON_ARRAY_ITEMS) && forallb frozen_values items
  | JObject members =>
    (zlen members <=? MAX_JSON_OBJECT_PROPERTIES) && bool_decide (NoDup (map fst members))
    && forallb (fun m => frozen_name m.1 && frozen_values m.2) members
  end.

(** ** Counting *)

Lemma json_nodes_positive j : 1 <= json_nodes j.
Proof.
  induction j as [j Hj|items IH|members IH] using json_tree_ind; [by destruct j| |]; simpl.
  - induction IH; simpl; lia.
  - induction IH; simpl; lia.
Qed.

Lemma json_depth_positive j : 1 <= json_depth j.
Proof. destruct j as [| | | | |items|members]; try done; simpl; [induction items|induction members]; simpl; lia. Qed.

Lemma max_below l k : 0 <= k -> (fold_right Z.max 0 l <= k <-> Forall (fun x => x <= k) l).
Proof. intros Hk. induction l as [|x l IH]; simpl; [split; [by constructor|lia]|]. rewrite list.Forall_cons, <- IH. lia. Qed.

(** ** The whole traversal *)

(** A traversal gives [x] and the count [n] when [P] holds, and is refused otherwise. *)
Definition frozen_when {A} (r : result (A * Z)) (P : Prop) (x : A) (n : Z) : Prop :=
  r = Ok (x, n) /\ P \/ (exists e, r = Raise e) /\ ~ P.

#[global] Instance frozen_when_proper {A} (r : result (A * Z)) : Proper (iff ==> eq ==> eq ==> iff) (frozen_when r).
Proof. intros P Q HPQ x ? <- n ? <-. unfold frozen_when. by rewrite HPQ. Qed.

Definition fits_below (depth : Z) (v : json) : Prop := frozen_values v = true /\ depth + json_depth v <= MAX_JSON_DEPTH + 1.
Definition nodes_of (l : list json) : Z := fold_right Z.add 0 (map json_nodes l).
Lemma nodes_of_nonneg l : 0 <= nodes_of l.
Proof. unfold nodes_of. induction l as [|v l IH]; simpl; [lia|]. pose proof (json_nodes_positive v). lia. Qed.

Lemma nodes_of_elem v l : v ∈ l -> json_nodes v <= nodes_of l.
Proof.
  induction l as [|w l IH]; [by intros ?%not_elem_of_nil|]. unfold nodes_of in *. simpl. rewrite elem_of_cons.
  pose proof (nodes_of_nonneg l) as Hl. unfold nodes_of in Hl. pose proof (json_nodes_positive w). intros [->|Hin]; [lia|]. specialize (IH Hin). lia.
Qed.

Definition freeze_items (depth : Z) : list json -> Z -> result (list json * Z) :=
  fix freeze_items (l : list json) (nodes : Z) : result (list json * Z) :=
    match l with
    | [] => Ok ([], nodes)
    | item :: rest =>
      let! (frozen, nodes) := _freeze_json_node item (depth + 1) nodes in
      let! (tail, nodes) := freeze_items rest nodes in
      Ok (frozen :: tail, nodes)
    end.
Definition freeze_members (depth : Z) : list (str * json) -> Z -> result (list (str * json) * Z) :=
  fix freeze_members (l : list (str * json)) (nodes : Z) : result (list (str * json) * Z) :=
    match l with
    | [] => Ok ([], nodes)
    | (key, item) :: rest =>
      let! normalized_key := frozen_key key in
      let! (frozen, nodes) := _freeze_json_node item (depth + 1) nodes in
      let! (tail, nodes) := freeze_members rest nodes in
      Ok ((normalized_key, frozen) :: tail, nodes)
    end.

Definition node_spec (v : json) : Prop := forall depth nodes, nodes <= MAX_JSON_NODES ->
  frozen_when (_freeze_json_node v depth nodes) (fits_below depth v /\ nodes + json_nodes v <= MAX_JSON_NODES) v (nodes + json_nodes v).

Lemma freeze_items_spec depth items nodes : Forall node_spec items -> nodes <= MAX_JSON_NODES ->
  frozen_when (freeze_items depth items nodes) (Forall (fits_below (depth + 1)) items /\ nodes + nodes_of items <= MAX_JSON_NODES)
    items (nodes + nodes_of items).
Proof.
  intros Hs. revert nodes; induction Hs as [|v items Hv Hs IH]; intros nodes Hn.
  - left. unfold nodes_of; simpl. rewrite Z.add_0_r. done.
  - cbn [freeze_items]. rewrite list.Forall_cons. assert (nodes_of (v :: items) = json_nodes v + nodes_of items) as -> by done.
    pose proof (nodes_of_nonneg items). destruct (Hv (depth + 1) nodes Hn) as [[-> [Hd Hc]]|[(e & ->) Hno]].
    + destruct (IH _ Hc) as [[-> [Hr Hc']]|[(e & ->) Hno]].
      * left. split; [f_equal; f_equal; lia|]. split; [done|lia].
      * right. split; [by eexists|]. intros [[_ Hr] Hc']. apply Hno. split; [done|lia].
    + right. split; [by eexists|]. intros [[Hd _] Hc]. apply Hno. split; [done|lia].
Qed.

Lemma bounded_text_same s maximum empty t : _validate_bounded_text s maximum empty = Ok t -> t = s.
Proof. unfold _validate_bounded_text. intros H. repeat (py_step H; []). by injection H. Qed.

Lemma bounded_text_length s maximum empty : is_ok (_validate_bounded_text s maximum empty) = true -> zlen s <= maximum.
Proof.
  intros (t & H)%is_ok_exists. unfold _validate_bounded_text in H. py_step H. py_bool. done.
Qed.

Lemma frozen_string_spec s : frozen_string s = (if frozen_text s then Ok s else frozen_string s) /\ is_ok (frozen_string s) = frozen_text s.
Proof.
  unfold frozen_string, frozen_text. destruct (_validate_bounded_text s MAX_JSON_STRING_LENGTH true) as [t|e] eqn:E; simpl.
  - assert (is_ok (_validate_bounded_text s MAX_JSON_STRING_LENGTH true) = true) as Hl by by rewrite E.
    apply bounded_text_length, Z.ltb_ge in Hl. rewrite Hl. apply bounded_text_same in E as ->. done.
  - split; [done|]. by case_match.
Qed.

Lemma frozen_key_spec s : frozen_key s = (if frozen_name s then Ok s else frozen_key s) /\ is_ok (frozen_key s) = frozen_name s.
Proof.
  unfold frozen_key, frozen_name. destruct (_validate_bounded_text s MAX_JSON_OBJECT_KEY_LENGTH false) as [t|e] eqn:E; simpl.
  - assert (is_ok (_validate_bounded_text s MAX_JSON_OBJECT_KEY_LENGTH false) = true) as Hl by by rewrite E.
    apply bounded_text_length, Z.ltb_ge in Hl. rewrite Hl. apply bounded_text_same in E as ->. done.
  - split; [done|]. by case_match.
Qed.

Lemma freeze_members_spec depth members nodes : Forall (fun m => node_spec m.2) members -> nodes <= MAX_JSON_NODES ->
  frozen_when (freeze_members depth members nodes)
    (Forall (fun m => frozen_name m.1 = true /\ fits_below (depth + 1) m.2) members /\ nodes + nodes_of (map snd members) <= MAX_JSON_NODES)
    members (nodes + nodes_of (map snd members)).
Proof.
  intros Hs. revert nodes; induction Hs as [|[k v] members Hv Hs IH]; intros nodes Hn.
  - left. unfold nodes_of; simpl. rewrite Z.add_0_r. done.
  - cbn [freeze_members]. rewrite list.Forall_cons. simpl in Hv.
    assert (nodes_of (map snd ((k, v) :: members)) = json_nodes v + nodes_of (map snd members)) as -> by done.
    pose proof (nodes_of_nonneg (map snd members)). destruct (frozen_key_spec k) as [Hk Hk']. cbn [fst snd].
    destruct (frozen_name k) eqn:Ek.
    + rewrite Hk. destruct (Hv (depth + 1) nodes Hn) as [[-> [Hd Hc]]|[(e & ->) Hno]].
      * destruct (IH _ Hc) as [[-> [Hr Hc']]|[(e & ->) Hno]].
        -- left. split; [f_equal; f_equal; lia|]. split; [done|lia].
        -- right. split; [by eexists|]. intros [[_ Hr] Hc']. apply Hno. split; [done|lia].
      * right. split; [by eexists|]. intros [[[_ Hd] _] Hc]. apply Hno. split; [done|lia].
    + right. destruct (frozen_key k) as [|e]; [done|]. split; [by eexists|]. by intros [[[Hf _] _] _].
Qed.

(** The limits that every node meets before it is looked at. *)
Lemma node_limits (body : Z -> result (json * Z)) v depth nodes :
  (depth <= MAX_JSON_DEPTH -> nodes + 1 <= MAX_JSON_NODES ->
     frozen_when (body (nodes + 1)) (fits_below depth v /\ nodes + json_nodes v <= MAX_JSON_NODES) v (nodes + json_nodes v)) ->
  frozen_when
    (raise_if MAX_JSON_NODES <? nodes + 1 with ObserverJsonResourceLimitError "OBS_PROTOCOL_JSON_NODE_LIMIT" ;;
     raise_if MAX_JSON_DEPTH <? depth with ObserverJsonResourceLimitError "OBS_PROTOCOL_JSON_DEPTH_LIMIT" ;;
     body (nodes + 1))
    (fits_below depth v /\ nodes + json_nodes v <= MAX_JSON_NODES) v (nodes + json_nodes v).
Proof.
  intros Hbody. pose proof (json_nodes_positive v). pose proof (json_depth_positive v).
  destruct (MAX_JSON_NODES <? nodes + 1) eqn:En; [right; py_bool; split; [by eexists|lia]|].
  destruct (MAX_JSON_DEPTH <? depth) eqn:Ed; [right; py_bool; split; [by eexists|intros [[_ Hd] _]; lia]|]. py_bool. auto.
Qed.

(** A scalar is kept or refused on its own. *)
Lemma scalar_node {A} (r : result A) v depth nodes :
  json_nodes v = 1 -> json_depth v = 1 -> is_ok r = frozen_values v -> depth <= MAX_JSON_DEPTH -> nodes + 1 <= MAX_JSON_NODES ->
  frozen_when (let! _ := r in Ok (v, nodes + 1)) (fits_below depth v /\ nodes + json_nodes v <= MAX_JSON_NODES) v (nodes + json_nodes v).
Proof.
  intros Hn Hd Hr Hdepth Hnodes. unfold fits_below. rewrite Hn, Hd, <- Hr. destruct r as [a|e]; [left|right; by split; [eexists|intros [[? _] _]]].
  split; [done|]. split; [split; [done|lia]|done].
Qed.

Lemma freeze_node_spec v : node_spec v.
Proof.
  induction v as [j Hj|items IH|members IH] using json_tree_ind; intros depth nodes Hn.
  - destruct j as [|b|z|t|s|items|members]; try done; cbn [_freeze_json_node]; apply (node_limits (fun nodes => _)); intros Hd Hc.
    + by apply (scalar_node (Ok tt) JNull).
    + by apply (scalar_node (Ok tt) (JBool b)).
    + apply (scalar_node (frozen_integer z) (JInt z)); try done. unfold frozen_integer. simpl. by destruct (within _ _ z).
    + right. split; [by eexists|]. by intros [[? _] _].
    + apply (scalar_node (frozen_string s) (JString s)); try done. apply frozen_string_spec.
  - cbn [_freeze_json_node]. apply (node_limits (fun nodes => _)); intros Hd Hc.
    destruct (MAX_JSON_ARRAY_ITEMS <? zlen items) eqn:El; py_bool.
    { right. split; [by eexists|]. intros [[Hv _] _]. simpl in Hv. py_bool. lia. }
    fold (freeze_items depth). assert (nodes + json_nodes (JArray items) = nodes + 1 + nodes_of items) as -> by (unfold nodes_of; simpl; lia).
    assert (fits_below depth (JArray items) /\ nodes + 1 + nodes_of items <= MAX_JSON_NODES <->
            Forall (fits_below (depth + 1)) items /\ nodes + 1 + nodes_of items <= MAX_JSON_NODES) as ->.
    { f_equiv. unfold fits_below at 1. simpl.
      assert (depth + (1 + fold_right Z.max 0 (map json_depth items)) <= MAX_JSON_DEPTH + 1 <->
              Forall (fun x => x <= MAX_JSON_DEPTH - depth) (map json_depth items)) as ->.
      { rewrite <- max_below by lia. lia. }
      rewrite andb_true_iff, Z.leb_le, forallb_forall, <- List.Forall_forall, list.Forall_fmap. unfold fits_below. rewrite list.Forall_and.
      assert (Forall (fun v => depth + 1 + json_depth v <= MAX_JSON_DEPTH + 1) items <->
              Forall ((fun x => x <= MAX_JSON_DEPTH - depth) ∘ json_depth) items) as ->; [|tauto].
      apply list.Forall_iff. intros v. simpl. lia. }
    destruct (freeze_items_spec depth items (nodes + 1) IH Hc) as [[-> HP]|[(e & ->) HP]]; [by left|by right; split; [eexists|]].
  - cbn [_freeze_json_node]. apply (node_limits (fun nodes => _)); intros Hd Hc.
    destruct (MAX_JSON_OBJECT_PROPERTIES <? zlen members) eqn:El; py_bool.
    { right. split; [by eexists|]. intros [[Hv _] _]. simpl in Hv. py_bool. lia. }
    fold (freeze_members depth).
    assert (nodes + json_nodes (JObject members) = nodes + 1 + nodes_of (map snd members)) as ->.
    { unfold nodes_of. simpl. rewrite map_map. lia. }
    assert (fits_below depth (JObject members) /\ nodes + 1 + nodes_of (map snd members) <= MAX_JSON_NODES <->
            NoDup (map fst members) /\ Forall (fun m => frozen_name m.1 = true /\ fits_below (depth + 1) m.2) members /\
            nodes + 1 + nodes_of (map snd members) <= MAX_JSON_NODES) as ->.
    { rewrite assoc by apply _. f_equiv. unfold fits_below at 1. simpl.
      assert (depth + (1 + fold_right Z.max 0 (map (fun m => json_depth m.2) members)) <= MAX_JSON_DEPTH + 1 <->
              Forall (fun x => x <= MAX_JSON_DEPTH - depth) (map (fun m => json_depth m.2) members)) as ->.
      { rewrite <- max_below by lia. lia. }
      rewrite !andb_true_iff, Z.leb_le, bool_decide_eq_true, forallb_forall, <- List.Forall_forall, list.Forall_fmap.
      assert (Forall (fun m => frozen_name m.1 = true /\ fits_below (depth + 1) m.2) members <->
              Forall (fun m : str * json => (frozen_name m.1 && frozen_values m.2) = true) members /\
              Forall ((fun x => x <= MAX_JSON_DEPTH - depth) ∘ (fun m : str * json => json_depth m.2)) members) as ->; [|tauto].
      rewrite <- list.Forall_and. apply list.Forall_iff. intros m. unfold fits_below. simpl. rewrite andb_true_iff.
      assert (depth + 1 + json_depth m.2 <= MAX_JSON_DEPTH + 1 <-> json_depth m.2 <= MAX_JSON_DEPTH - depth) as -> by lia. tauto. }
    destruct (freeze_members_spec depth members (nodes + 1) IH Hc) as [[-> HP]|[(e & ->) HP]]; [|right; split; [by eexists|tauto]].
    unfold FrozenJsonObject. destruct (decide (NoDup (map fst members))) as [Hnd|Hnd].
    + left. by rewrite bool_decide_eq_true_2.
    + right. rewrite bool_decide_eq_false_2 by done. split; [by eexists|tauto].
Qed.

(** ** Frozen values *)

Definition frozen_profile (v : json) : bool := frozen_values v && (json_depth v <=? MAX_JSON_DEPTH) && (json_nodes v <=? MAX_JSON_NODES).

Lemma freeze_json_spec v : if frozen_profile v then _freeze_json v = Ok v else exists e, _freeze_json v = Raise e.
Proof.
  unfold _freeze_json, frozen_profile. destruct (freeze_node_spec v 1 0) as [[-> [[Hv Hd] Hn]]|[(e & ->) Hno]]; [done| |].
  - rewrite Hv, (proj2 (Z.leb_le _ _)), (proj2 (Z.leb_le _ _)) by lia. done.
  - destruct (frozen_values v) eqn:Hv; [|by eexists]. destruct (json_depth v <=? MAX_JSON_DEPTH) eqn:Hd; [|by eexists].
    destruct (json_nodes v <=? MAX_JSON_NODES) eqn:Hn; [|by eexists]. py_bool. destruct Hno. split; [split; [done|lia]|lia].
Qed.

Lemma freeze_json_frozen v w : _freeze_json v = Ok w -> w = v /\ frozen_profile v = true.
Proof. pose proof (freeze_json_spec v) as H. destruct (frozen_profile v); [rewrite H; by intros [= <-]|]. by destruct H as (e & ->). Qed.
Lemma freeze_json_ok v : frozen_profile v = true -> _freeze_json v = Ok v.
Proof. intros H. pose proof (freeze_json_spec v) as Hs. by rewrite H in Hs. Qed.

(** The parts of a frozen value. *)
Lemma frozen_item items v : v ∈ items -> frozen_profile (JArray items) = true -> frozen_profile v = true.
Proof.
  intros Hin Hf. unfold frozen_profile in *. simpl in Hf. py_bool. rewrite !andb_true_iff, !Z.leb_le. repeat split.
  - rewrite forallb_forall in *. apply H2. by apply list_elem_of_In.
  - assert (fold_right Z.max 0 (map json_depth items) <= MAX_JSON_DEPTH) as Hm by lia. apply max_below in Hm; [|done].
    rewrite list.Forall_forall in Hm. apply Hm. by apply list_elem_of_fmap_2.
  - assert (json_nodes v <= fold_right Z.add 0 (map json_nodes items)); [|lia]. clear -Hin. by apply nodes_of_elem in Hin.
Qed.

Lemma frozen_member members m : m ∈ members -> frozen_profile (JObject members) = true -> frozen_profile m.2 = true.
Proof.
  intros Hin Hf. unfold frozen_profile in *. simpl in Hf. py_bool. rewrite !andb_true_iff, !Z.leb_le. repeat split.
  - match goal with H : forallb _ members = true |- _ => rewrite forallb_forall in H; specialize (H m) end.
    rewrite <- list_elem_of_In, andb_true_iff in *. tauto.
  - assert (fold_right Z.max 0 (map (fun m => json_depth m.2) members) <= MAX_JSON_DEPTH) as Hm by lia. apply max_below in Hm; [|done].
    rewrite list.Forall_forall in Hm. apply Hm. by apply (list_elem_of_fmap_2 (fun m => json_depth m.2)).
  - assert (json_nodes m.2 <= fold_right Z.add 0 (map (fun m => json_nodes m.2) members)); [|lia]. clear -Hin.
    apply (list_elem_of_fmap_2 snd), nodes_of_elem in Hin. unfold nodes_of in Hin. by rewrite map_map in Hin.
Qed.

Lemma json_get_in key members v : json_get key members = Some v -> (key, v) ∈ members.
Proof.
  induction members as [|[k w] members IH]; simpl; [done|]. case_bool_decide as E; [intros [= ->]; subst; left|]. intros Hg. right. auto.
Qed.

(** Frozen text is Unicode, so a frozen value has a canonical form. *)
Lemma bounded_text_scalar s maximum empty : is_ok (_validate_bounded_text s maximum empty) = true -> forallb is_scalar s = true.
Proof.
  intros (t & H)%is_ok_exists. unfold _validate_bounded_text in H. py_step H. destruct (utf8_encode s) eqn:Eu; [|discriminate].
  unfold utf8_encode in Eu. by destruct (forallb is_scalar s).
Qed.

Lemma frozen_canonicalizable v : frozen_values v = true -> canonicalizable v = true /\ keys_unique v = true.
Proof.
  induction v as [j Hj|items IH|members IH] using json_tree_ind; intros Hf.
  - destruct j as [|b|z|t|s| |]; try done; simpl in *. split; [|done]. by eapply bounded_text_scalar.
  - simpl in *. apply andb_true_iff in Hf as [_ Hf]. rewrite !forallb_forall in *. rewrite list.Forall_forall in IH.
    split; intros v Hv; apply IH; auto; by apply list_elem_of_In.
  - simpl in *. py_bool. rewrite list.Forall_forall in IH. match goal with H : forallb _ members = true |- _ => rewrite forallb_forall in H end.
    rewrite bool_decide_eq_true_2 by done. simpl. rewrite !forallb_forall. split; intros m Hm; specialize (H0 m Hm); py_bool.
    + rewrite andb_true_iff. split; [by eapply bounded_text_scalar|]. apply IH; [by apply list_elem_of_In|done].
    + apply IH; [by apply list_elem_of_In|done].
Qed.
