(* ===== verification/PointerLaws.v ===== *)
(** * JSON pointers address what RFC 6901 says

    A pointer is the text of a list of reference tokens, and resolving it follows them. *)

From S2P Require Import Prelude Text TextLemmas Commands Json JsonFlat Hashing Canonical Evidence EvidenceLaws ConfigValues AssertionConfig EvidenceFacts.

Local Open Scope Z_scope.

(** ** The text of a pointer *)

Definition escape_char (c : N) : str := if (c =? 126)%N then [126; 48]%N else if (c =? 47)%N then [126; 49]%N else [c].
Definition escape_token (token : str) : str := concat (map escape_char token).
Definition pointer_text (tokens : list str) : str := concat (map (fun t => 47%N :: escape_token t) tokens).

Lemma replace_skip a b r c s : c <> a -> replace_pair a b r (c :: s) = c :: replace_pair a b r s.
Proof. intros Hc. destruct s as [|d s]; [done|]. cbn [replace_pair]. apply N.eqb_neq in Hc. by rewrite Hc. Qed.

Lemma replace_hit a b r s : replace_pair a b r (a :: b :: s) = r :: replace_pair a b r s.
Proof. cbn [replace_pair]. by rewrite !N.eqb_refl. Qed.

Lemma replace_miss a b r d s : a <> b -> d <> b -> d <> a -> replace_pair a b r (a :: d :: s) = a :: d :: replace_pair a b r s.
Proof.
  intros Hab Hd Hda. cbn [replace_pair]. rewrite N.eqb_refl. apply N.eqb_neq in Hd. rewrite Hd. simpl.
  destruct s as [|e s]; [done|]. apply N.eqb_neq in Hda. rewrite Hda. done.
Qed.

Lemma unescape_escape token : unescape_token (escape_token token) = token.
Proof.
  unfold unescape_token, escape_token.
  assert (replace_pair 126 49 47 (concat (map escape_char token)) = concat (map (fun c => if (c =? 126)%N then [126; 48]%N else [c]) token)) as ->.
  { induction token as [|c token IH]; [done|]. cbn [map concat]. unfold escape_char at 1. destruct (c =? 126)%N eqn:E; [|destruct (c =? 47)%N eqn:E'].
    - simpl app. by rewrite replace_miss, IH.
    - apply N.eqb_eq in E'. subst. simpl app. by rewrite replace_hit, IH.
    - apply N.eqb_neq in E. simpl app. by rewrite replace_skip, IH. }
  induction token as [|c token IH]; [done|]. cbn [map concat]. destruct (c =? 126)%N eqn:E.
  - apply N.eqb_eq in E. subst. simpl app. by rewrite replace_hit, IH.
  - apply N.eqb_neq in E. simpl app. by rewrite replace_skip, IH.
Qed.

Lemma escape_no_slash token : has_char 47 (escape_token token) = false.
Proof.
  unfold escape_token. induction token as [|c token IH]; [done|]. cbn [map concat]. unfold has_char in *. rewrite existsb_app, IH, orb_false_r.
  unfold escape_char. destruct (c =? 126)%N; [done|]. destruct (c =? 47)%N eqn:E; [done|]. cbn [existsb]. by rewrite N.eqb_sym, E.
Qed.

Lemma pointer_tokens t tokens : exists body, pointer_text (t :: tokens) = 47%N :: body /\ split_on 47 body = map escape_token (t :: tokens).
Proof.
  exists (join_on 47 (map escape_token (t :: tokens))). split.
  - revert t; induction tokens as [|t' tokens IH]; intros t; [unfold pointer_text; simpl; by rewrite app_nil_r|].
    change (pointer_text (t :: t' :: tokens)) with ((47%N :: escape_token t) ++ pointer_text (t' :: tokens)). by rewrite IH.
  - apply split_join; [done|]. rewrite list.Forall_fmap. apply list.Forall_forall. intros. apply escape_no_slash.
Qed.

(** Every pointer of the configuration is the text of tokens. *)
Lemma pointer_chars_escape rest : pointer_chars rest = true -> exists t tokens, rest = escape_token t ++ pointer_text tokens.
Proof.
  remember (length rest) as n eqn:Hn. revert rest Hn. induction (lt_wf n) as [n _ IH]. intros [|c rest] -> Hp; [by exists [], []|]. cbn [pointer_chars] in Hp.
  destruct (c =? 126)%N eqn:E.
  - apply N.eqb_eq in E. subst. destruct rest as [|d rest]; [done|]. apply andb_true_iff in Hp as [Hd Hp].
    destruct (IH (length rest) ltac:(simpl; lia) rest eq_refl Hp) as (t & tokens & ->). apply orb_true_iff in Hd as [E|E]; apply N.eqb_eq in E; subst.
    + by exists (126%N :: t), tokens.
    + by exists (47%N :: t), tokens.
  - destruct (IH (length rest) ltac:(simpl; lia) rest eq_refl Hp) as (t & tokens & ->). destruct (c =? 47)%N eqn:E'.
    + apply N.eqb_eq in E'. subst. by exists [], (t :: tokens).
    + exists (c :: t), tokens. unfold escape_token. cbn [map concat]. unfold escape_char at 2. by rewrite E, E'.
Qed.
Lemma pointer_has_tokens pointer : _JSON_POINTER pointer = true -> exists tokens, pointer = pointer_text tokens.
Proof.
  destruct pointer as [|c rest]; [by exists []|]. cbn [_JSON_POINTER]. intros [E Hp]%andb_true_iff. apply N.eqb_eq in E. subst.
  destruct (pointer_chars_escape rest Hp) as (t & tokens & ->). by exists (t :: tokens).
Qed.

(** ** Array indexes *)

Lemma decimal_value_snoc d c : decimal_value (d ++ [c]) = decimal_value d * 10 + (Z.of_N c - 48).
Proof. unfold decimal_value. by rewrite fold_left_app. Qed.

Lemma decimal_digit c : is_decimal c = true -> 0 <= Z.of_N c - 48 <= 9.
Proof. unfold is_decimal, char_between. intros [H1%N.leb_le H2%N.leb_le]%andb_true_iff. lia. Qed.

Lemma decimal_value_inj d e : canonical_digits d -> canonical_digits e -> decimal_value d = decimal_value e -> d = e.
Proof.
  assert (forall d c, canonical_digits (d ++ [c]) -> is_decimal c = true /\ (d = [] \/ canonical_digits d /\ 1 <= decimal_value d)) as Hsnoc.
  { intros l c [Hc Hh]. rewrite forallb_app in Hc. cbn [forallb] in Hc. py_bool. split; [done|]. destruct l as [|x l]; [by left|right].
    assert (canonical_digits (x :: l)) as Hl by by split. split; [done|]. pose proof (length_decimal _ Hl) as Hlen. rewrite zlen_cons in Hlen.
    replace (1 + zlen l - 1) with (zlen l) in Hlen by lia. pose proof (zlen_nonneg l). assert (0 < 10 ^ zlen l) by (apply Z.pow_pos_nonneg; lia). lia. }
  revert e. induction d as [|c d IH] using rev_ind; intros e Hd He Hv; [by destruct Hd|].
  destruct e as [|b e _] using rev_ind; [by destruct He|]. rewrite !decimal_value_snoc in Hv.
  destruct (Hsnoc _ _ Hd) as [Hc%decimal_digit Hd'], (Hsnoc _ _ He) as [Hb%decimal_digit He'].
  destruct Hd' as [->|[Hd' Hpd]], He' as [->|[He' Hpe]]; unfold decimal_value at 1 in Hv; simpl in Hv.
  - assert (c = b) as -> by lia. done.
  - lia.
  - change (fold_left (fun acc c => acc * 10 + (Z.of_N c - 48)) d 0) with (decimal_value d) in Hv. change (decimal_value []) with 0 in Hv. lia.
  - change (fold_left (fun acc c => acc * 10 + (Z.of_N c - 48)) d 0) with (decimal_value d) in Hv.
    assert (d = e) as -> by (apply IH; [done..|lia]). assert (c = b) as -> by lia. done.
Qed.

(** An index is the decimal text of a natural number, in the one way that has no leading zero. *)
Lemma array_index_spec token i : 0 <= i -> _ARRAY_INDEX token = true /\ int_of_decimal token = i <-> token = str_of_int i.
Proof.
  intros Hi. unfold _ARRAY_INDEX. split.
  - intros [Ht Hv]. unfold canonical_number in Ht. apply andb_true_iff in Ht as [Ht Hh].
    assert (int_of_decimal token = decimal_value token) as Hd.
    { unfold int_of_decimal. rewrite decimal_filter by done. destruct token as [|c rest]; [done|]. destruct (c =? 45)%N eqn:E; [|done].
      apply N.eqb_eq in E. subst. done. }
    rewrite Hd in Hv. destruct (decide (token = [48%N])) as [->|Hne]; [by subst i|].
    assert (canonical_digits token) as Hc.
    { split; [done|]. destruct token as [|c rest]; [done|]. intros ->. simpl in Hh. py_bool. subst. done. }
    destruct (str_of_int_cases i) as [[-> ->]|(d & Hdc & Hdv & ->)].
    + pose proof (length_decimal _ Hc). pose proof (zlen_nonneg token). destruct token as [|c token]; [by destruct Hc|]. rewrite zlen_cons in *.
      pose proof (zlen_nonneg token). assert (0 < 10 ^ (1 + zlen token - 1)) by (apply Z.pow_pos_nonneg; lia). lia.
    + rewrite (proj2 (Z.ltb_ge _ _)) by lia. apply decimal_value_inj; [done..|]. lia.
  - intros ->. split; [|apply int_of_text]. destruct (str_of_int_cases i) as [[-> ->]|(d & Hdc & Hdv & ->)]; [done|].
    rewrite (proj2 (Z.ltb_ge _ _)) by lia. destruct Hdc as [Hd Hh]. unfold canonical_number. rewrite Hd. destruct d as [|c d]; [done|].
    apply N.eqb_neq in Hh. by rewrite Hh.
Qed.

(** ** Resolution *)

Lemma nth_error_list {A} (l : list A) i : nth_error l i = l !! i.
Proof. revert i; induction l as [|x l IH]; intros [|i]; simpl; auto. Qed.

(** The value the tokens lead to: a member of an object by its key, an item of an array by its index. *)
Inductive addressed : json -> list str -> json -> Prop :=
  | address_here v : addressed v [] v
  | address_member members key v tokens w :
      json_get key members = Some v -> addressed v tokens w -> addressed (JObject members) (key :: tokens) w
  | address_item items index v tokens w :
      items !! index = Some v -> addressed v tokens w -> addressed (JArray items) (str_of_int (Z.of_nat index) :: tokens) w.

Lemma pointer_step_addressed v token w : pointer_step v token = Some w <-> addressed v [token] w.
Proof.
  split.
  - destruct v as [| | | | |items|members]; try done; simpl.
    + destruct (_ARRAY_INDEX token) eqn:E; [|done]. destruct (zlen items <=? int_of_decimal token) eqn:Hl; [done|]. intros Hn. py_bool.
      assert (0 <= int_of_decimal token) as Hp.
      { unfold _ARRAY_INDEX, canonical_number in E. apply andb_true_iff in E as [Ht _]. unfold int_of_decimal. rewrite decimal_filter by done.
        assert (forall acc, 0 <= acc -> 0 <= fold_left (fun acc c => acc * 10 + (Z.of_N c - 48)) token acc) as Hf.
        { clear -Ht. induction token as [|c token IH]; intros acc Ha; [done|]. cbn [forallb fold_left] in *. py_bool. apply IH; [done|].
          pose proof (decimal_digit c ltac:(done)). lia. }
        destruct token as [|c token]; [done|]. destruct (c =? 45)%N eqn:Ec; [apply N.eqb_eq in Ec; by subst|]. by apply Hf. }
      destruct (array_index_spec token (int_of_decimal token) Hp) as [Ht _]. rewrite Ht by done.
      rewrite <- (Z2Nat.id (int_of_decimal token)) at 1 by done. econstructor; [|constructor]. by rewrite <- nth_error_list.
    + intros Hg. econstructor; [done|constructor].
  - intros H. inversion H as [|members key v' tokens w' Hg Hw|items index v' tokens w' Hi Hw]; subst; inversion Hw; subst; [done|]. simpl.
    destruct (array_index_spec (str_of_int (Z.of_nat index)) (Z.of_nat index) ltac:(lia)) as [_ Hx]. destruct Hx as [-> ->]; [done|].
    apply list.lookup_lt_Some in Hi as Hlt. rewrite (proj2 (Z.leb_gt _ _)) by (unfold zlen; lia). rewrite Nat2Z.id. by rewrite nth_error_list.
Qed.

Lemma addressed_cons v token tokens w : addressed v (token :: tokens) w <-> exists x, addressed v [token] x /\ addressed x tokens w.
Proof.
  split.
  - intros H. inversion H; subst; (eexists; split; [econstructor; [done|constructor]|done]).
  - intros (x & Hx & Hw). inversion Hx as [|members key v' tokens' w' Hg Hv|items index v' tokens' w' Hg Hv]; subst; inversion Hv; subst; by econstructor.
Qed.

Lemma resolve_fold v tokens :
  forall w, fold_left (fun current raw_token => c ← current; pointer_step c (unescape_token raw_token)) (map escape_token tokens) (Some v) = Some w <->
  addressed v tokens w.
Proof.
  revert v; induction tokens as [|t tokens IH]; intros v w; simpl.
  - split; [intros [= ->]; constructor|]. intros H; by inversion H.
  - rewrite unescape_escape, addressed_cons. destruct (pointer_step v t) as [x|] eqn:E.
    + rewrite IH. apply pointer_step_addressed in E as Ha. split; [by exists x|]. intros (y & Hy & Hw). apply pointer_step_addressed in Hy. congruence.
    + split.
      * intros H. exfalso. clear -H. induction (map escape_token tokens) as [|r l IHl]; [done|]. by apply IHl.
      * intros (y & Hy & Hw). apply pointer_step_addressed in Hy. congruence.
Qed.

Lemma resolve_text root tokens w : _resolve_json_pointer root (pointer_text tokens) = Some w <-> addressed root tokens w.
Proof.
  destruct tokens as [|t tokens].
  - simpl. split; [intros [= ->]; constructor|]. intros H; by inversion H.
  - destruct (pointer_tokens t tokens) as (body & -> & Hs). unfold _resolve_json_pointer. rewrite Hs. apply resolve_fold.
Qed.

(** C29: resolving a JSON pointer follows its reference tokens.  Every pointer the configuration accepts
    is the escaped text of a list of tokens, and resolution finds a value exactly when the tokens lead to
    it: object members by their exact key, array items by an index in decimal without leading zeros. *)
Theorem pointer_resolution_exact pointer (Hp : JsonPointer pointer = Ok pointer) :
  exists tokens, pointer = pointer_text tokens /\ forall root w, _resolve_json_pointer root pointer = Some w <-> addressed root tokens w.
Proof.
  unfold JsonPointer in Hp. py_step Hp. py_bool. destruct (pointer_has_tokens pointer) as (tokens & ->); [done|]. exists tokens. split; [done|]. intros root w. apply resolve_text.
Qed.

Lemma pointer_resolution_exact_witness :
  exists tokens, u "/items/1/a~1b" = pointer_text tokens /\
    forall root w, _resolve_json_pointer root (u "/items/1/a~1b") = Some w <-> addressed root tokens w.
Proof. apply pointer_resolution_exact. vm_compute. reflexivity. Defined.
