(* ===== verification/FactLaws.v ===== *)
(** * What facts are

    Exact comparison of numbers and values, and the facts made of configured and observed values. *)

From S2P Require Import Prelude Text Commands Json Policy Hashing Canonical Evidence ConfigValues AssertionConfig EvidenceFacts EvidenceLaws.
From Stdlib Require Import Permutation.

Local Open Scope Z_scope.

(** * Comparison of facts is exact

    Decimals are compared as the numbers they stand for, whatever their exponents, and values as their
    canonical forms. *)

(** ** Digits *)

Lemma count_digits_bounds fuel c : 1 <= c < 10 * 2 ^ Z.of_nat fuel -> 1 <= count_digits fuel c /\ 10 ^ (count_digits fuel c - 1) <= c < 10 ^ count_digits fuel c.
Proof.
  revert c; induction fuel as [|fuel IH]; intros c Hc; cbn [count_digits]; [simpl in *; lia|].
  destruct (c <? 10) eqn:E; py_bool; [simpl; lia|]. rewrite Nat2Z.inj_succ, Z.pow_succ_r in Hc by lia.
  assert (1 <= c / 10) by (apply Z.div_le_lower_bound; lia). assert (c / 10 < 10 * 2 ^ Z.of_nat fuel) by (apply Z.div_lt_upper_bound; lia).
  destruct (IH (c / 10)) as (Hp & Hlo & Hhi); [lia|]. split; [lia|]. set (k := count_digits fuel (c / 10)) in *.
  replace (1 + k - 1) with (k - 1 + 1) by lia. replace (1 + k) with (k + 1) by lia. rewrite !Z.pow_add_r, !Z.pow_1_r by lia.
  pose proof (Z.div_mod c 10). pose proof (Z.mod_pos_bound c 10). lia.
Qed.

Lemma digit_count_bounds c : 0 < c -> 1 <= digit_count c /\ 10 ^ (digit_count c - 1) <= c < 10 ^ digit_count c.
Proof.
  intros Hc. unfold digit_count. apply count_digits_bounds. pose proof (Z.log2_nonneg c). rewrite Z2Nat.id by lia.
  destruct (Z.log2_spec c Hc) as [_ Hlog]. rewrite Z.pow_succ_r in Hlog by lia. lia.
Qed.

(** ** Decimals are compared as numbers *)

(** The decimal in units of [10 ^ e], for [e] at most its exponent. *)
Definition magnitude (d : Decimal) (e : Z) : Z := dec_coefficient d * 10 ^ (dec_exponent d - e).
Definition scaled (d : Decimal) (e : Z) : Z := if dec_negative d then - magnitude d e else magnitude d e.

Lemma magnitude_positive d e : 0 < dec_coefficient d -> e <= dec_exponent d -> 0 < magnitude d e.
Proof. intros Hc He. unfold magnitude. apply Z.mul_pos_pos; [done|]. apply Z.pow_pos_nonneg; lia. Qed.

(** Fewer digits before the point is a smaller magnitude. *)
Lemma fewer_digits a b e : 0 < dec_coefficient a -> 0 < dec_coefficient b -> e <= dec_exponent a -> e <= dec_exponent b ->
  dec_exponent a + digit_count (dec_coefficient a) < dec_exponent b + digit_count (dec_coefficient b) -> magnitude a e < magnitude b e.
Proof.
  intros Ha Hb Hea Heb Hlt. destruct (digit_count_bounds _ Ha) as (Hpa & _ & Hua). destruct (digit_count_bounds _ Hb) as (Hpb & Hlb & _).
  set (na := digit_count (dec_coefficient a)) in *. set (nb := digit_count (dec_coefficient b)) in *. unfold magnitude.
  apply Z.lt_le_trans with (10 ^ (na + (dec_exponent a - e))).
  - rewrite Z.pow_add_r by lia. apply Z.mul_lt_mono_pos_r; [apply Z.pow_pos_nonneg; lia|done].
  - transitivity (10 ^ (nb - 1 + (dec_exponent b - e))); [apply Z.pow_le_mono_r; lia|]. rewrite (Z.pow_add_r 10 (nb - 1)) by lia.
    apply Z.mul_le_mono_nonneg_r; [apply Z.pow_nonneg; lia|done].
Qed.

Lemma compare_magnitude_exact a b e : 0 < dec_coefficient a -> 0 < dec_coefficient b -> e <= dec_exponent a -> e <= dec_exponent b ->
  compare_magnitude a b = (magnitude a e ?= magnitude b e).
Proof.
  intros Ha Hb Hea Heb. unfold compare_magnitude.
  destruct (Z.compare_spec (dec_exponent a + digit_count (dec_coefficient a)) (dec_exponent b + digit_count (dec_coefficient b))) as [E|E|E].
  - set (f := Z.min (dec_exponent a) (dec_exponent b)). unfold magnitude.
    assert (forall d, f <= dec_exponent d -> dec_exponent d - e = dec_exponent d - f + (f - e)) as Hsplit by lia.
    rewrite (Hsplit a), (Hsplit b), !Z.pow_add_r, !Z.mul_assoc by lia.
    rewrite !(Z.mul_comm _ (10 ^ (f - e))). apply Zmult_compare_compat_l. apply Z.lt_gt, Z.pow_pos_nonneg; lia.
  - symmetry. apply Z.compare_lt_iff. by apply fewer_digits.
  - symmetry. apply Z.compare_gt_iff. by apply fewer_digits.
Qed.

Lemma decimal_compare_scaled a b e : 0 <= dec_coefficient a -> 0 <= dec_coefficient b -> e <= dec_exponent a -> e <= dec_exponent b ->
  decimal_compare a b = (scaled a e ?= scaled b e).
Proof.
  intros Ha Hb Hea Heb. unfold decimal_compare, scaled.
  assert (forall d, dec_coefficient d = 0 -> magnitude d e = 0) as Hzero by (intros d E; unfold magnitude; by rewrite E).
  destruct (dec_coefficient a =? 0) eqn:Ea, (dec_coefficient b =? 0) eqn:Eb; py_bool.
  - rewrite (Hzero a), (Hzero b) by done. by destruct (dec_negative a), (dec_negative b).
  - rewrite (Hzero a) by done. pose proof (magnitude_positive b e ltac:(lia) Heb).
    destruct (dec_negative a), (dec_negative b); symmetry; rewrite ?Z.compare_gt_iff, ?Z.compare_lt_iff; lia.
  - rewrite (Hzero b) by done. pose proof (magnitude_positive a e ltac:(lia) Hea).
    destruct (dec_negative a), (dec_negative b); symmetry; rewrite ?Z.compare_gt_iff, ?Z.compare_lt_iff; lia.
  - pose proof (magnitude_positive a e ltac:(lia) Hea). pose proof (magnitude_positive b e ltac:(lia) Heb).
    destruct (dec_negative a), (dec_negative b); rewrite ?(compare_magnitude_exact _ _ e) by lia; symmetry.
    + apply Z.compare_opp.
    + rewrite Z.compare_lt_iff; lia.
    + rewrite Z.compare_gt_iff; lia.
    + done.
Qed.

(** What a comparator asks of two numbers. *)
Definition compares (comparator : Comparator) (x y : Z) : Prop :=
  match comparator with
  | Comparator_EQ => x = y
  | Comparator_NE => x <> y
  | Comparator_LT => x < y
  | Comparator_LTE => x <= y
  | Comparator_GT => y < x
  | Comparator_GTE => y <= x
  end.

Lemma compare_numeric_exact a b comparator e :
  0 <= dec_coefficient a -> 0 <= dec_coefficient b -> e <= dec_exponent a -> e <= dec_exponent b ->
  _compare_numeric a b comparator = true <-> compares comparator (scaled a e) (scaled b e).
Proof.
  intros Ha Hb Hea Heb. unfold _compare_numeric. rewrite (decimal_compare_scaled a b e) by done.
  destruct comparator; simpl; rewrite ?negb_true_iff, ?bool_decide_eq_true, ?bool_decide_eq_false.
  - apply Z.compare_eq_iff.
  - by rewrite Z.compare_eq_iff.
  - apply Z.compare_lt_iff.
  - apply Z.compare_le_iff.
  - apply Z.compare_gt_iff.
  - apply Z.compare_ge_iff.
Qed.

(** ** Values are equal when their canonical forms are *)

Lemma json_get_none key members : json_get key members = None <-> key ∉ map fst members.
Proof.
  induction members as [|[k v] members IH]; simpl; [split; [intros _; apply not_elem_of_nil|done]|].
  rewrite not_elem_of_cons. case_bool_decide as E; [subst; split; [done|intros [? _]; done]|]. rewrite IH. naive_solver.
Qed.

Lemma json_get_unique members key v : NoDup (map fst members) -> json_get key members = Some v <-> (key, v) ∈ members.
Proof.
  intros Hn. split; [apply json_get_in|]. induction members as [|[k w] members IH]; [by intros ?%not_elem_of_nil|]. simpl in *.
  apply list.NoDup_cons in Hn as [Hk Hn]. rewrite elem_of_cons. intros [[= -> ->]|Hin]; [by rewrite bool_decide_eq_true_2|].
  rewrite bool_decide_eq_false_2; [by apply IH|]. intros <-. apply Hk. by apply (list_elem_of_fmap_2 fst) in Hin.
Qed.

(** The members of [members'] in the order of [members]. *)
Definition in_order (members members' : list (str * json)) : list (str * json) :=
  map (fun m => (m.1, default JNull (json_get m.1 members'))) members.

Lemma in_order_perm members members' : NoDup (map fst members) -> NoDup (map fst members') ->
  (forall k, k ∈ map fst members <-> k ∈ map fst members') -> members' ≡ₚ in_order members members'.
Proof.
  intros Hn Hn' Hk. apply list.NoDup_Permutation.
  - by apply (NoDup_fmap_1 fst).
  - apply (NoDup_fmap_1 fst). unfold in_order. change (fmap fst ?l) with (map fst l). by rewrite map_map.
  - intros [k v]. unfold in_order. rewrite (list_elem_of_fmap (fun m => (m.1, default JNull (json_get m.1 members')))). split.
    + intros Hin. assert (k ∈ map fst members) as (m & -> & Hm)%list_elem_of_fmap by (apply Hk; by apply (list_elem_of_fmap_2 fst) in Hin).
      exists m. split; [|done]. apply (json_get_unique _ _ _ Hn') in Hin. by rewrite Hin.
    + intros (m & [= -> ->] & Hm). assert (m.1 ∈ map fst members') as Hin by (apply Hk; by apply list_elem_of_fmap_2).
      destruct (json_get m.1 members') as [w|] eqn:E; [by apply json_get_in|]. by apply json_get_none in E.
Qed.

Lemma same_array_inv items w : same (JArray items) w <-> exists items', w = JArray items' /\ Forall2 same items items'.
Proof.
  split; [|by intros (? & -> & ?); constructor]. intros H. inversion H as [? items' Hf| |? Hj]; subst; [by exists items'|done].
Qed.
Lemma same_object_inv members w : same (JObject members) w <->
  exists members' permuted, w = JObject members' /\ members' ≡ₚ permuted /\ Forall2 (fun m n => m.1 = n.1 /\ same m.2 n.2) members permuted.
Proof.
  split; [|by intros (? & ? & -> & ? & ?); econstructor]. intros H. inversion H as [|? members' permuted Hp Hf|? Hj]; subst; [by exists members', permuted|done].
Qed.
Lemma same_scalar_inv v w : match v with JArray _ | JObject _ => False | _ => True end -> same v w <-> w = v.
Proof. intros Hv. split; [|intros ->; by constructor]. intros H. by inversion H; subst. Qed.

Definition zip_equal : list json -> list json -> bool :=
  fix zip (l r : list json) : bool :=
    match l, r with
    | [], [] => true
    | x :: l, y :: r => json_exact_equal x y && zip l r
    | _, _ => false
    end.
Lemma zip_equal_forall2 l r : zip_equal l r = true <-> Forall2 (fun x y => json_exact_equal x y = true) l r.
Proof.
  revert r; induction l as [|x l IH]; intros [|y r]; simpl.
  - split; [constructor|done].
  - split; [done|]. intros H; inversion H.
  - split; [done|]. intros H; inversion H.
  - rewrite andb_true_iff, IH. split; [intros [? ?]; by constructor|]. intros H; inversion H; subst. done.
Qed.

(** The keys agree and so do the values under them. *)
Lemma object_equal members members' : NoDup (map fst members) -> NoDup (map fst members') ->
  json_exact_equal (JObject members) (JObject members') = true <->
  (forall k, k ∈ map fst members <-> k ∈ map fst members') /\
  forall k v w, (k, v) ∈ members -> (k, w) ∈ members' -> json_exact_equal v w = true.
Proof.
  intros Hn Hn'. simpl. rewrite !andb_true_iff, !forallb_forall.
  assert (forall a b : list (str * json), (forall m, In m a -> negb (is_none (json_get m.1 b)) = true) <-> (forall k, k ∈ map fst a -> k ∈ map fst b)) as Hkeys.
  { intros a b. split.
    - intros H k (m & -> & Hm)%list_elem_of_fmap. destruct (decide (m.1 ∈ map fst b)) as [|Hk]; [done|]. apply json_get_none in Hk.
      specialize (H m). rewrite Hk in H. by discriminate H; apply list_elem_of_In.
    - intros H m Hm%list_elem_of_In. destruct (json_get m.1 b) eqn:E; [done|]. apply json_get_none in E. destruct E. apply H. by apply list_elem_of_fmap_2. }
  rewrite !Hkeys. split.
  - intros [[Hk Hk'] Hv]. split; [naive_solver|]. intros k v w Hin Hin'. specialize (Hv (k, v)). rewrite <- list_elem_of_In in Hv.
    apply (json_get_unique _ _ _ Hn') in Hin'. simpl in Hv. rewrite Hin' in Hv. auto.
  - intros [Hk Hv]. split; [split; intros k; apply Hk|]. intros [k v] Hin%list_elem_of_In. simpl.
    destruct (json_get k members') as [w|] eqn:E; [by eapply Hv, json_get_in|]. apply json_get_none in E. destruct E. apply Hk.
    by apply (list_elem_of_fmap_2 fst) in Hin.
Qed.

Lemma Forall2_congruence {A B} (P Q : A -> B -> Prop) l k :
  (forall x y, x ∈ l -> y ∈ k -> P x y <-> Q x y) -> Forall2 P l k <-> Forall2 Q l k.
Proof.
  revert k; induction l as [|x l IH]; intros [|y k] H; try by (split; intros H0; inversion H0; constructor).
  rewrite !list.Forall2_cons. rewrite H by left. rewrite IH; [done|]. intros. by apply H; right.
Qed.

Lemma exact_equal_same v w : canonicalizable v = true -> keys_unique v = true -> canonicalizable w = true -> keys_unique w = true ->
  json_exact_equal v w = true <-> same v w.
Proof.
  revert w; induction v as [j Hj|items IH|members IH] using json_tree_ind; intros w Hc Hu Hc' Hu'.
  - rewrite same_scalar_inv by done. destruct j as [|b|z|t|s|items|members], w as [|b'|z'|t'|s'|items'|members']; try done; simpl.
    + rewrite Bool.eqb_true_iff. naive_solver.
    + rewrite Z.eqb_eq. naive_solver.
    + rewrite bool_decide_eq_true. naive_solver.
  - rewrite same_array_inv. destruct w as [|b'|z'|t'|s'|items'|members']; try (split; [done|by intros (? & ? & ?)]).
    change (json_exact_equal (JArray items) (JArray items')) with (zip_equal items items'). rewrite zip_equal_forall2.
    assert (Forall2 (fun x y => json_exact_equal x y = true) items items' <-> Forall2 same items items') as ->; [|naive_solver].
    apply Forall2_congruence. intros x y Hx Hy. rewrite list.Forall_forall in IH.
    destruct (elem_canonicalizable items x Hx Hc Hu), (elem_canonicalizable items' y Hy Hc' Hu'). auto.
  - rewrite same_object_inv. destruct w as [|b'|z'|t'|s'|items'|members']; try (split; [done|by intros (? & ? & ? & ?)]).
    pose proof (object_keys _ Hu) as Hn. pose proof (object_keys _ Hu') as Hn'. rewrite object_equal by done. rewrite list.Forall_forall in IH.
    assert (forall k v w, (k, v) ∈ members -> (k, w) ∈ members' -> json_exact_equal v w = true <-> same v w) as Heq.
    { intros k v w Hv Hw. destruct (member_canonicalizable members _ Hv Hc Hu) as (_ & ? & ?), (member_canonicalizable members' _ Hw Hc' Hu') as (_ & ? & ?). by apply (IH (k, v)). }
    split.
    + intros [Hk Hv]. exists members', (in_order members members'). split; [done|]. split; [by apply in_order_perm|].
      unfold in_order. rewrite list.Forall2_fmap_r. apply list.Forall_Forall2_diag, list.Forall_forall. intros [k v] Hin. simpl. split; [done|].
      assert (k ∈ map fst members') as Hk' by (apply Hk; by apply (list_elem_of_fmap_2 fst) in Hin).
      destruct (json_get k members') as [w|] eqn:E; [|by apply json_get_none in E]. apply json_get_in in E. simpl. apply (Heq k); [done..|]. by eapply Hv.
    + intros (members1 & permuted & [= <-] & Hp & Hf). split.
      * intros k. rewrite Hp. clear -Hf. induction Hf as [|m n members permuted [Hk _] Hf IH]; [done|]. simpl. by rewrite !elem_of_cons, Hk, IH.
      * intros k v w Hv Hw. apply (Heq k); [done..|]. apply list_elem_of_lookup_1 in Hv as [i Hi].
        destruct (list.Forall2_lookup_l _ _ _ _ _ Hf Hi) as ([k' w'] & Hi' & Hk' & Hs). simpl in *. subst k'.
        assert ((k, w') ∈ members') as Hin by (rewrite Hp; by eapply list_elem_of_lookup_2).
        apply (json_get_unique _ _ _ Hn') in Hin, Hw. congruence.
Qed.

(** * Facts made of valid values

    Which facts the evaluators build: what a validated fact holds, when a value found by a pointer
    becomes a fact, and what comparing two facts answers. *)

(** ** Valid evidence and facts *)

Definition typed_evidence_ok (value_type : EvidenceValueType) (value : TypedEvidence) : Prop :=
  _matches_evidence_type value_type value = true /\ match value with EvidenceJson v => frozen_profile v = true | EvidenceDigest _ => True end.
Definition valid_evidence (e : ObserverEvidence) : Prop := typed_evidence_ok (ev_value_type e) (ev_value e).
Definition fact_ok (f : StateAssertionFact) : Prop := typed_evidence_ok (fact_type f) (fact_value f).

Lemma classify_ok t v value : freeze_and_classify_value t v = Ok value ->
  match value with EvidenceJson w => w = v /\ frozen_profile v = true /\ t <> Value_BYTES_DIGEST | EvidenceDigest _ => t = Value_BYTES_DIGEST end.
Proof.
  unfold freeze_and_classify_value. case_bool_decide as Ht.
  - destruct (digest_model_validate v) as [d|]; [|done]. by intros [= <-].
  - destruct (_freeze_json v) as [w|] eqn:E; [|done]. intros [= <-]. by apply freeze_json_frozen in E as [-> ?].
Qed.

Lemma model_validate_ok key t v s e : evidence_model_validate key t v s = Ok e ->
  ev_key e = key /\ ev_value_type e = t /\ ev_sensitive e = s /\ valid_evidence e /\ (t <> Value_BYTES_DIGEST -> ev_value e = EvidenceJson v).
Proof.
  unfold evidence_model_validate, valid_evidence, typed_evidence_ok. intros H. py_step H. py_step H. py_step H. injection H as <-. cbn [ev_key ev_value_type ev_sensitive ev_value].
  apply classify_ok in E. py_bool. repeat split; [done| |].
  - destruct a; [by destruct E as (-> & ? & _)|done].
  - intros Ht. destruct a; [by destruct E as [-> _]|done].
Qed.

Lemma shape_ok t v : typed_evidence_ok t v -> _require_fact_shape t v = Ok tt.
Proof. intros [Hm _]. destruct t, v as [[]|]; simpl in *; done. Qed.

Lemma make_fact_ok t v s : typed_evidence_ok t v -> make_fact t v s = Ok {| fact_type := t; fact_value := v; fact_sensitive := s |}.
Proof. intros H. unfold make_fact. by rewrite shape_ok. Qed.

Lemma validated_fact_ok t v s f : _validated_fact t v s = Ok f ->
  fact_type f = t /\ fact_sensitive f = s /\ fact_ok f /\ (t <> Value_BYTES_DIGEST -> fact_value f = EvidenceJson v).
Proof.
  unfold _validated_fact. intros H. py_step H. apply model_validate_ok in E as (_ & Ht & _ & Hv & Hj). rewrite make_fact_ok in H by done.
  injection H as <-. cbn [fact_type fact_value fact_sensitive]. unfold fact_ok. by subst t.
Qed.

Lemma validated_fact_json t v s : t <> Value_BYTES_DIGEST -> frozen_profile v = true -> _matches_evidence_type t (EvidenceJson v) = true ->
  _validated_fact t v s = Ok {| fact_type := t; fact_value := EvidenceJson v; fact_sensitive := s |}.
Proof.
  intros Ht Hv Hm. unfold _validated_fact, evidence_model_validate, freeze_and_classify_value. rewrite bool_decide_eq_false_2, freeze_json_ok by done.
  rewrite Hm. change (_validate_bounded_text (u "assertion_value") MAX_JSON_OBJECT_KEY_LENGTH false) with (Ok (A := str) (u "assertion_value")).
  cbn [negb]. apply make_fact_ok. by split.
Qed.

(** ** Failures are value errors *)

Definition value_errors {A} (r : result A) : Prop := forall e, r = Raise e -> is_value_error e = true.

Lemma value_errors_bind {A B} (r : result A) (k : A -> result B) :
  value_errors r -> (forall a, r = Ok a -> value_errors (k a)) -> value_errors (let! a := r in k a).
Proof. intros Hr Hk e. destruct r as [a|e']; [by apply Hk|]. intros [= <-]. by apply Hr. Qed.
Lemma value_errors_guard {A} (b : bool) e (k : result A) : is_value_error e = true -> value_errors k -> value_errors (raise_if b with e ;; k).
Proof. intros He Hk e'. destruct b; [by intros [= <-]|apply Hk]. Qed.
Lemma value_errors_ok {A} (a : A) : value_errors (Ok a).
Proof. done. Qed.
Lemma value_errors_value {A} : value_errors (Raise (A := A) ValueError).
Proof. by intros e [= <-]. Qed.

Lemma bounded_text_errors s maximum empty : value_errors (_validate_bounded_text s maximum empty).
Proof.
  unfold _validate_bounded_text. apply value_errors_guard; [done|]. apply value_errors_bind; [|intros; apply value_errors_guard; [done|apply value_errors_ok]].
  unfold utf8_encode. apply value_errors_guard; [done|apply value_errors_ok].
Qed.

Lemma digest_errors v : value_errors (digest_model_validate v).
Proof.
  unfold digest_model_validate. destruct v as [| | | | | |members]; try apply value_errors_value. apply value_errors_guard; [done|].
  destruct (json_get (u "sha256") members) as [[| | | |digest| |]|]; try apply value_errors_value.
  destruct (json_get (u "byte_length") members) as [[| |length| | | |]|]; try apply value_errors_value.
  apply value_errors_bind; [unfold validate_sha256_digest; apply value_errors_guard; [done|apply value_errors_ok]|intros _ _].
  apply value_errors_guard; [done|]. apply value_errors_bind; [|intros; apply value_errors_ok].
  destruct (json_get (u "media_type") members) as [[| | | |media| |]|]; try first [apply value_errors_value|apply value_errors_ok].
  apply value_errors_bind; [apply bounded_text_errors|intros; apply value_errors_ok].
Qed.

Lemma validated_fact_errors t v s : value_errors (_validated_fact t v s).
Proof.
  unfold _validated_fact. apply value_errors_bind.
  - unfold evidence_model_validate. apply value_errors_bind; [|intros; apply value_errors_bind; [apply bounded_text_errors|intros; apply value_errors_guard; [done|apply value_errors_ok]]].
    unfold freeze_and_classify_value. case_bool_decide; [apply value_errors_bind; [apply digest_errors|intros; apply value_errors_ok]|].
    case_match; [apply value_errors_ok|apply value_errors_value].
  - intros probe _. unfold make_fact. apply value_errors_bind; [|intros; apply value_errors_ok]. unfold _require_fact_shape.
    repeat (case_match; try first [apply value_errors_ok|by intros e [= <-]]).
Qed.

(** ** Decimal text of ASCII digits is decimal text *)

Lemma unicode_decimal c : is_decimal c = true -> is_unicode_digit c = true.
Proof.
  intros Hc. unfold is_unicode_digit, digit_value. cbn [List.find DECIMAL_ZEROS].
  assert (char_between 0x30 (0x30 + 9) c = true) as -> by (unfold is_decimal, char_between in *; done). by rewrite bool_decide_eq_false_2.
Qed.

Definition no_digit (p : N -> bool) (r : str) : Prop := match r with c :: _ => p c = false | [] => True end.
Lemma digit_span_weaken (p q : N -> bool) s d r : (forall c, p c = true -> q c = true) -> digit_span p s = (d, r) -> no_digit q r -> digit_span q s = (d, r).
Proof.
  intros Hpq. revert d r; induction s as [|c s IH]; intros d r; simpl; [done|]. destruct (p c) eqn:Ec.
  - rewrite (Hpq c Ec). destruct (digit_span p s) as [d' r'] eqn:Es. intros [= <- <-] Hn. by rewrite (IH d' r').
  - intros [= <- <-] Hn. simpl in Hn. by rewrite Hn.
Qed.

(** What may follow the digits of a part: the point, an exponent sign or nothing. *)
Definition part_end (r : str) : Prop := match r with c :: _ => c = 46%N \/ c = 101%N \/ c = 69%N | [] => True end.
Lemma part_end_no_digit r : part_end r -> no_digit is_unicode_digit r.
Proof. destruct r as [|c r]; [done|]. by intros [->|[->| ->]]. Qed.

Lemma exponent_end p r e : exponent_part p r = Some e -> part_end r.
Proof.
  destruct r as [|c r]; [done|]. unfold exponent_part, part_end. destruct ((c =? 101)%N || (c =? 69)%N) eqn:E; [|done]. intros _.
  apply orb_true_iff in E as [E|E]; apply N.eqb_eq in E; auto.
Qed.

Lemma exponent_weaken r e : exponent_part is_decimal r = Some e -> exponent_part is_unicode_digit r = Some e.
Proof.
  destruct r as [|c r]; [done|]. unfold exponent_part. case_match; [|done]. repeat case_match; try done; simplify_eq.
  all: py_bool; intros [= <-]; exfalso.
  all: match goal with H : _ && _ = false |- _ => apply andb_false_iff in H as [H|H] end; py_bool; try congruence.
  all: match goal with H : forallb is_unicode_digit ?l = false, H' : forallb is_decimal ?l = true |- _ =>
         rewrite forallb_forall in H'; apply not_true_iff_false in H; apply H; apply forallb_forall; intros; by apply unicode_decimal, H' end.
Qed.

Lemma fraction_weaken s d r : fraction_part is_decimal s = Some (d, r) -> part_end r -> fraction_part is_unicode_digit s = Some (d, r).
Proof.
  destruct s as [|c s]; [done|]. unfold fraction_part. destruct (c =? 46)%N; [|done]. destruct (digit_span is_decimal s) as [d' r'] eqn:E.
  case_bool_decide as Hd; [done|]. intros [= -> ->] Hr. erewrite digit_span_weaken; [|exact unicode_decimal|exact E|by apply part_end_no_digit].
  by rewrite bool_decide_eq_false_2.
Qed.
Lemma fraction_end p s d r : fraction_part p s = Some (d, r) -> part_end r -> part_end s.
Proof.
  destruct s as [|c s]; [done|]. unfold fraction_part. destruct (c =? 46)%N eqn:E; [apply N.eqb_eq in E; by left|]. by intros [= _ <-].
Qed.

Lemma integer_weaken s d r : integer_part is_decimal s = Some (d, r) -> part_end r -> integer_part is_unicode_digit s = Some (d, r).
Proof.
  destruct s as [|c s]; [done|]. unfold integer_part. destruct (c =? 48)%N; [done|]. destruct (char_between 49 57 c); [|done].
  destruct (digit_span is_decimal s) as [d' r'] eqn:E. intros [= <- <-] Hr.
  erewrite digit_span_weaken; [done|exact unicode_decimal|exact E|by apply part_end_no_digit].
Qed.

Lemma decimal_parts_weaken s p : decimal_parts is_decimal s = Some p -> decimal_parts is_unicode_digit s = Some p.
Proof.
  unfold decimal_parts. set (sign := match s with c :: rest => if (c =? 45)%N then (true, rest) else (false, s) | [] => (false, []) end).
  destruct sign as [negative body]. destruct (integer_part is_decimal body) as [[integer rest]|] eqn:Ei; [|done].
  destruct (fraction_part is_decimal rest) as [[fraction rest1]|] eqn:Ef; [|done].
  destruct (exponent_part is_decimal rest1) as [[en exponent]|] eqn:Ee; [|done].
  pose proof (exponent_end _ _ _ Ee) as Hend. rewrite (integer_weaken _ _ _ Ei), (fraction_weaken _ _ _ Ef), (exponent_weaken _ _ Ee); [done..|].
  by eapply fraction_end.
Qed.
Lemma decimal_fullmatch_weaken s : decimal_fullmatch is_decimal s = true -> decimal_fullmatch is_unicode_digit s = true.
Proof.
  unfold decimal_fullmatch. destruct (decimal_parts is_decimal s) as [p|] eqn:E; [|done]. by rewrite (decimal_parts_weaken _ _ E).
Qed.

(** ** Values found by a pointer *)

(** Text of the decimal pattern that is too long for evidence: the one frozen value that is no fact. *)
Definition oversized_decimal (v : json) (expected_type : EvidenceValueType) : bool :=
  match expected_type, v with
  | Value_DECIMAL_STRING, JString text => decimal_fullmatch is_decimal text && (MAX_DECIMAL_STRING_LENGTH <? zlen text)
  | _, _ => false
  end.

Lemma actual_fact_total v t s : frozen_profile v = true ->
  if oversized_decimal v t then _actual_fact v t s = Raise ValueError
  else exists f, _actual_fact v t s = Ok f /\ fact_ok f /\ fact_sensitive f = s.
Proof.
  intros Hv. assert (forall t' f, _validated_fact t' v s = Ok f -> fact_ok f /\ fact_sensitive f = s) as Hok.
  { intros t' f H%validated_fact_ok. tauto. }
  assert (forall t', t' <> Value_BYTES_DIGEST -> _matches_evidence_type t' (EvidenceJson v) = true ->
            exists f, _validated_fact t' v s = Ok f /\ fact_ok f /\ fact_sensitive f = s) as Hjson.
  { intros t' Ht Hm. eexists. split; [by apply validated_fact_json|]. by apply (Hok t'), validated_fact_json. }
  assert (forall t' t'', t'' <> Value_BYTES_DIGEST -> _matches_evidence_type t'' (EvidenceJson v) = true ->
            exists f, or_else (_validated_fact t' v s) (_validated_fact t'' v s) = Ok f /\ fact_ok f /\ fact_sensitive f = s) as Horelse.
  { intros t' t'' Ht Hm. unfold or_else. destruct (_validated_fact t' v s) as [f|e] eqn:E; [exists f; split; [done|by eapply Hok]|].
    rewrite (validated_fact_errors _ _ _ _ E). by apply Hjson. }
  unfold oversized_decimal, _actual_fact. destruct v as [|b|z|x|text|items|members]; simpl _infer_value_type.
  - destruct t; by apply Hjson.
  - destruct t; by apply Hjson.
  - assert (_matches_evidence_type Value_INTEGER (EvidenceJson (JInt z)) = true) as Hm.
    { unfold frozen_profile in Hv. simpl in *. py_bool. by apply within_spec. }
    destruct t; by apply Hjson.
  - done.
  - destruct t; try by apply Hjson.
    + destruct (decimal_fullmatch is_decimal text) eqn:Ed; simpl; [|by apply Hjson]. destruct (MAX_DECIMAL_STRING_LENGTH <? zlen text) eqn:El.
      * unfold _validated_fact, evidence_model_validate, freeze_and_classify_value. rewrite bool_decide_eq_false_2, freeze_json_ok by done.
        change (_validate_bounded_text (u "assertion_value") MAX_JSON_OBJECT_KEY_LENGTH false) with (Ok (A := str) (u "assertion_value")).
        simpl. rewrite (proj2 (Z.leb_gt _ _)) by (by apply Z.ltb_lt). done.
      * apply Hjson; [done|]. simpl. rewrite decimal_fullmatch_weaken by done. rewrite (proj2 (Z.leb_le _ _)) by (by apply Z.ltb_ge). done.
    + by apply Horelse.
  - destruct t; by apply Hjson.
  - destruct t; first [by apply Hjson|by apply Horelse].
Qed.

(** ** What comparing facts answers *)

Definition value_same (v w : TypedEvidence) : Prop :=
  match v, w with
  | EvidenceJson v, EvidenceJson w => canonical_json_bytes v = canonical_json_bytes w
  | EvidenceDigest a, EvidenceDigest b => a = b
  | _, _ => False
  end.
Definition is_numeric (t : EvidenceValueType) : bool := match t with Value_INTEGER | Value_DECIMAL_STRING => true | _ => false end.
Definition fact_number (f : StateAssertionFact) : option Decimal :=
  match fact_type f with Value_INTEGER => fact_integer f | Value_DECIMAL_STRING => fact_decimal f | _ => None end.

Lemma deep_equal_same v w t : typed_evidence_ok t v -> typed_evidence_ok t w -> _deep_exact_equal v w = true <-> value_same v w.
Proof.
  intros [_ Hv] [_ Hw]. destruct v as [v|a], w as [w|b]; simpl; [|done..|apply bool_decide_eq_true].
  assert (forall x, frozen_profile x = true -> canonicalizable x = true /\ keys_unique x = true) as Hc.
  { intros x Hx. unfold frozen_profile in Hx. py_bool. by apply frozen_canonicalizable. }
  destruct (Hc v Hv), (Hc w Hw). rewrite exact_equal_same by done. by rewrite bytes_same.
Qed.

Lemma digits_nonneg s : 0 <= digits_int s.
Proof.
  unfold digits_int. assert (forall acc, 0 <= acc -> 0 <= fold_left (fun acc c => acc * 10 + default 0 (digit_value c)) s acc) as H; [|by apply H].
  induction s as [|c s IH]; intros acc Ha; [done|]. simpl. apply IH. assert (0 <= default 0 (digit_value c)); [|lia].
  unfold digit_value. case_match; simpl; lia.
Qed.
Lemma number_nonneg f d : fact_number f = Some d -> 0 <= dec_coefficient d.
Proof.
  unfold fact_number, fact_integer, fact_decimal, Decimal_of_text, Decimal_of_parts. intros H.
  repeat (case_match; simplify_eq); simpl; first [lia|apply digits_nonneg].
Qed.

(** C28: comparing typed facts is exact.  Facts of different types are unequal and not ordered.  Integers
    and decimal strings are compared as the numbers they stand for, whatever their exponents, by all six
    comparators; a decimal string whose number Python's decimal context cannot hold compares with
    nothing.  Facts of any other type are equal exactly when their canonical JSON bytes are, or their
    digests, and have no order. *)
Theorem comparison_exact actual expected comparator (Ha : fact_ok actual) (He : fact_ok expected) :
  (fact_type actual <> fact_type expected ->
     _compare_facts actual expected comparator =
     match comparator with Comparator_EQ => Some false | Comparator_NE => Some true | _ => None end) /\
  (fact_type actual = fact_type expected ->
     if is_numeric (fact_type actual) then
       match fact_number actual, fact_number expected with
       | Some l, Some r => exists answer, _compare_facts actual expected comparator = Some answer /\
           forall e, e <= dec_exponent l -> e <= dec_exponent r -> answer = true <-> compares comparator (scaled l e) (scaled r e)
       | _, _ => _compare_facts actual expected comparator = None
       end
     else
       match comparator with
       | Comparator_EQ => exists answer, _compare_facts actual expected comparator = Some answer /\
           (answer = true <-> value_same (fact_value actual) (fact_value expected))
       | Comparator_NE => exists answer, _compare_facts actual expected comparator = Some answer /\
           (answer = false <-> value_same (fact_value actual) (fact_value expected))
       | _ => _compare_facts actual expected comparator = None
       end).
Proof.
  unfold _compare_facts. split; intros Ht.
  - by rewrite bool_decide_eq_false_2.
  - rewrite bool_decide_eq_true_2 by done. cbn [negb].
    assert (forall l r, fact_number actual = Some l -> fact_number expected = Some r ->
      exists answer, Some (_compare_numeric l r comparator) = Some answer /\
        forall e, e <= dec_exponent l -> e <= dec_exponent r -> answer = true <-> compares comparator (scaled l e) (scaled r e)) as Hnum.
    { intros l r Hl%number_nonneg Hr%number_nonneg. eexists. split; [done|]. intros e Hle Hre. by apply compare_numeric_exact. }
    assert (_deep_exact_equal (fact_value actual) (fact_value expected) = true <-> value_same (fact_value actual) (fact_value expected)) as Hsame.
    { apply (deep_equal_same _ _ (fact_type actual)); [exact Ha|]. rewrite Ht. exact He. }
    unfold fact_number in *. rewrite <- Ht in *. destruct (fact_type actual); cbn [is_numeric];
      try (destruct comparator; try done; (eexists; split; [reflexivity|]); by rewrite ?negb_false_iff).
    + rewrite bool_decide_eq_true_2 by done. destruct (fact_integer actual), (fact_integer expected); try done. by apply Hnum.
    + rewrite bool_decide_eq_false_2, bool_decide_eq_true_2 by done. destruct (fact_decimal actual), (fact_decimal expected); try done. by apply Hnum.
Qed.

Definition decimal_demo (text : string) : StateAssertionFact :=
  {| fact_type := Value_DECIMAL_STRING; fact_value := EvidenceJson (JString (u text)); fact_sensitive := false |}.
Lemma comparison_exact_witness :
  exists answer, _compare_facts (decimal_demo "1.50") (decimal_demo "15e-1") Comparator_EQ = Some answer /\
    forall e, e <= -2 -> e <= -1 ->
      answer = true <-> compares Comparator_EQ (scaled {| dec_negative := false; dec_coefficient := 150; dec_exponent := -2 |} e)
                          (scaled {| dec_negative := false; dec_coefficient := 15; dec_exponent := -1 |} e).
Proof.
  refine (proj2 (comparison_exact (decimal_demo "1.50") (decimal_demo "15e-1") Comparator_EQ _ _) eq_refl); split; vm_compute; reflexivity.
Defined.
