(* ===== verification/Evaluators.v ===== *)
(** * Evaluators of assertions

    The evaluators of [assertions/] that look at one attempt or at one snapshot. *)

From S2P Require Import Prelude Text Domain Clocks Commands Json Evidence ObserverProtocol ConfigValues AssertionConfig EvidenceFacts.

Local Open Scope Z_scope.

(** * Transport assertions

    [assertions/transport.py]: the status and the acknowledgement deadline of one attempt.  Of the
    attempt evidence it reads the identifier and the response. *)

Inductive TransportAssertionCode :=
  | Transport_STATUS_MATCH | Transport_STATUS_MISMATCH | Transport_RESPONSE_MISSING | Transport_HEADER_TIMING_MISSING
  | Transport_ACKNOWLEDGEMENT_WITHIN_DEADLINE | Transport_ACKNOWLEDGEMENT_DEADLINE_EXCEEDED.
#[global] Instance TransportAssertionCode_eq_dec : EqDecision TransportAssertionCode.
Proof. solve_decision. Defined.
Definition TransportAssertionCode_value (c : TransportAssertionCode) : str :=
  u match c with
    | Transport_RESPONSE_MISSING => "response_missing"
    | Transport_STATUS_MATCH => "status_match"
    | Transport_STATUS_MISMATCH => "status_mismatch"
    | Transport_HEADER_TIMING_MISSING => "header_timing_missing"
    | Transport_ACKNOWLEDGEMENT_WITHIN_DEADLINE => "acknowledgement_within_deadline"
    | Transport_ACKNOWLEDGEMENT_DEADLINE_EXCEEDED => "acknowledgement_deadline_exceeded"
    end.

Record AttemptEvidence := { ae_attempt_id : str; ae_response : option ResponseMetadata }.
Record TransportAssertionInput := { ti_attempt : AttemptEvidence; ti_response_headers_elapsed_ns : option Z }.
Definition make_transport_input (i : TransportAssertionInput) : result TransportAssertionInput :=
  raise_if match ti_response_headers_elapsed_ns i with Some ns => negb (within 0 SIGNED_INT64_MAX ns) | None => false end with ValueError ;;
  Ok i.

Record TransportAssertionEvaluation := {
  te_assertion_id : str; te_attempt_id : str; te_result : AssertionResult; te_code : TransportAssertionCode;
  te_expected_statuses : list Z; te_expected_classes : list HttpStatusClass; te_actual_status : option Z; te_deadline_ns : option Z;
  te_response_headers_elapsed_ns : option Z
}.
Definition outside (minimum maximum : Z) (value : option Z) : bool :=
  match value with Some v => negb (within minimum maximum v) | None => false end.
Definition make_transport_evaluation (e : TransportAssertionEvaluation) : result TransportAssertionEvaluation :=
  raise_if bool_decide (te_assertion_id e = []) with ValueError ;;
  raise_if bool_decide (te_attempt_id e = []) with ValueError ;;
  raise_if negb (bool_decide (te_result e ∈ [Result_PASS; Result_FAIL; Result_ERROR])) with ValueError ;;
  raise_if negb (forallb (within 100 599) (te_expected_statuses e)) with TypeError ;;
  raise_if outside 100 599 (te_actual_status e) with ValueError ;;
  raise_if outside 0 SIGNED_INT64_MAX (te_deadline_ns e) with ValueError ;;
  raise_if outside 0 SIGNED_INT64_MAX (te_response_headers_elapsed_ns e) with ValueError ;;
  Ok e.

Definition _status_class (status : Z) : option HttpStatusClass :=
  if within 200 299 status then Some Status_SUCCESS
  else if within 300 399 status then Some Status_REDIRECTION
  else if within 400 499 status then Some Status_CLIENT_ERROR
  else if within 500 599 status then Some Status_SERVER_ERROR
  else None.
Definition in_classes (status : option HttpStatusClass) (classes : list HttpStatusClass) : bool :=
  match status with Some c => bool_decide (c ∈ classes) | None => false end.

Definition _evaluate_status (assertion : HttpStatusAssertion) (attempt : AttemptEvidence) : result TransportAssertionEvaluation :=
  let codes := default [] (se_codes (hs_expected assertion)) in
  let classes := default [] (se_classes (hs_expected assertion)) in
  let evaluation := fun outcome code actual =>
    make_transport_evaluation
      {| te_assertion_id := hs_id assertion; te_attempt_id := ae_attempt_id attempt; te_result := outcome; te_code := code;
         te_expected_statuses := codes; te_expected_classes := classes; te_actual_status := actual; te_deadline_ns := None;
         te_response_headers_elapsed_ns := None |} in
  match ae_response attempt with
  | None => evaluation Result_ERROR Transport_RESPONSE_MISSING None
  | Some response =>
    let status := resp_status response in
    let matched := bool_decide (status ∈ codes) || in_classes (_status_class status) classes in
    evaluation (if matched then Result_PASS else Result_FAIL)
      (if matched then Transport_STATUS_MATCH else Transport_STATUS_MISMATCH) (Some status)
  end.

Definition _evaluate_acknowledgement (assertion : AcknowledgementDeadlineAssertion) (supplied : TransportAssertionInput)
    : result TransportAssertionEvaluation :=
  let attempt := ti_attempt supplied in
  let deadline := nanoseconds (ad_within assertion) in
  let evaluation := fun outcome code actual elapsed =>
    make_transport_evaluation
      {| te_assertion_id := ad_id assertion; te_attempt_id := ae_attempt_id attempt; te_result := outcome; te_code := code;
         te_expected_statuses := []; te_expected_classes := []; te_actual_status := actual; te_deadline_ns := Some deadline;
         te_response_headers_elapsed_ns := elapsed |} in
  match ae_response attempt with
  | None => evaluation Result_ERROR Transport_RESPONSE_MISSING None None
  | Some response =>
    match ti_response_headers_elapsed_ns supplied with
    | None => evaluation Result_ERROR Transport_HEADER_TIMING_MISSING (Some (resp_status response)) None
    | Some elapsed =>
      let within := elapsed <=? deadline in
      evaluation (if within then Result_PASS else Result_FAIL)
        (if within then Transport_ACKNOWLEDGEMENT_WITHIN_DEADLINE else Transport_ACKNOWLEDGEMENT_DEADLINE_EXCEEDED)
        (Some (resp_status response)) (Some elapsed)
    end
  end.

(** The evaluators accept bare attempt evidence too: an input without timing. *)
Inductive TransportPayload := BareAttempt (attempt : AttemptEvidence) | TimedAttempt (input : TransportAssertionInput).
Definition evaluate_transport_assertion (assertion : TransportAssertion) (evidence : TransportPayload) : result TransportAssertionEvaluation :=
  let! supplied := match evidence with
    | BareAttempt attempt => make_transport_input {| ti_attempt := attempt; ti_response_headers_elapsed_ns := None |}
    | TimedAttempt input => Ok input
    end in
  match assertion with
  | HttpStatus a => _evaluate_status a (ti_attempt supplied)
  | AcknowledgementDeadline a => _evaluate_acknowledgement a supplied
  end.

Definition demo_delivery_attempt (status : Z) : AttemptEvidence :=
  {| ae_attempt_id := u "attempt"; ae_response := Some {| resp_status := status; resp_body_sha256 := None; resp_captured_bytes := 0; resp_truncated := false |} |}.
Definition demo_status_assertion : HttpStatusAssertion :=
  {| hs_id := u "accepted"; hs_attempt := {| sel_event := u "event"; sel_mode := Mode_LAST_TERMINAL |};
     hs_expected := {| se_codes := Some [302]; se_classes := Some [Status_SUCCESS] |} |}.
Example statuses_evaluated :
  map (fun s => match evaluate_transport_assertion (HttpStatus demo_status_assertion) (BareAttempt (demo_delivery_attempt s)) with
                | Ok e => Some (te_result e) | Raise _ => None end) [204; 302; 404; 99]
  = [Some Result_PASS; Some Result_PASS; Some Result_FAIL; None].
Proof. vm_compute. reflexivity. Qed.

(** * Receiver-state assertions

    [assertions/state.py]: counts, existence and a field of a resource, evaluated on the evidence of one
    snapshot. *)

Inductive StateAssertionCode :=
  | State_COMPARISON_MATCH | State_COMPARISON_MISMATCH | State_EVIDENCE_MISSING | State_EVIDENCE_DUPLICATE
  | State_EVIDENCE_TYPE_MISMATCH | State_POINTER_MISSING | State_COMPARATOR_UNSUPPORTED.
#[global] Instance StateAssertionCode_eq_dec : EqDecision StateAssertionCode.
Proof. solve_decision. Defined.
Definition StateAssertionCode_value (c : StateAssertionCode) : str :=
  u match c with
    | State_COMPARISON_MATCH => "comparison_match"
    | State_COMPARISON_MISMATCH => "comparison_mismatch"
    | State_EVIDENCE_MISSING => "evidence_missing"
    | State_EVIDENCE_DUPLICATE => "evidence_duplicate"
    | State_EVIDENCE_TYPE_MISMATCH => "evidence_type_mismatch"
    | State_POINTER_MISSING => "pointer_missing"
    | State_COMPARATOR_UNSUPPORTED => "comparator_unsupported"
    end.

Record StateAssertionEvaluation := {
  st_assertion_id : str; st_result : AssertionResult; st_code : StateAssertionCode; st_evidence_key : str;
  st_expected : option StateAssertionFact; st_actual : option StateAssertionFact; st_source_evidence : option ObserverEvidence
}.
Definition make_state_evaluation (e : StateAssertionEvaluation) : result StateAssertionEvaluation :=
  raise_if bool_decide (st_assertion_id e = []) with ValueError ;;
  raise_if negb (bool_decide (st_result e ∈ [Result_PASS; Result_FAIL; Result_ERROR])) with ValueError ;;
  raise_if bool_decide (st_evidence_key e = []) with ValueError ;;
  Ok e.

(** [assertion.id] and [assertion.query] *)
Definition state_id (a : StateAssertion) : str :=
  match a with
  | ProcessingCountAssertion a | CallbackCountAssertion a | JournalCountAssertion a => ca_id a
  | ResourceExistsAssertion a | ResourceAbsentAssertion a => ea_id a
  | ResourceField a => rf_id a
  end.
Definition state_query (a : StateAssertion) : ObserverQueryConfig :=
  match a with
  | ProcessingCountAssertion a | CallbackCountAssertion a | JournalCountAssertion a => ca_query a
  | ResourceExistsAssertion a | ResourceAbsentAssertion a => ea_query a
  | ResourceField a => rf_query a
  end.

Definition state_evaluation (assertion : StateAssertion) (outcome : AssertionResult) (code : StateAssertionCode)
    (expected actual : option StateAssertionFact) (source : option ObserverEvidence) : result StateAssertionEvaluation :=
  make_state_evaluation
    {| st_assertion_id := state_id assertion; st_result := outcome; st_code := code; st_evidence_key := cq_key (state_query assertion);
       st_expected := expected; st_actual := actual; st_source_evidence := source |}.
Definition _comparison_evaluation (assertion : StateAssertion) (evidence : ObserverEvidence) (expected actual : StateAssertionFact)
    (matched : bool) : result StateAssertionEvaluation :=
  state_evaluation assertion (if matched then Result_PASS else Result_FAIL)
    (if matched then State_COMPARISON_MATCH else State_COMPARISON_MISMATCH) (Some expected) (Some actual) (Some evidence).

Definition _evaluate_count (assertion : StateAssertion) (count : CountAssertion) (evidence : ObserverEvidence)
    : result StateAssertionEvaluation :=
  let! expected := make_fact Value_INTEGER (EvidenceJson (JInt (ca_expected count))) false in
  match ev_value_type evidence, ev_value evidence with
  | Value_INTEGER, EvidenceJson (JInt value) =>
    let! actual := make_fact Value_INTEGER (EvidenceJson (JInt value)) (ev_sensitive evidence) in
    _comparison_evaluation assertion evidence expected actual
      (_compare_numeric (Decimal_of_int value) (Decimal_of_int (ca_expected count)) (ca_comparator count))
  | _, _ => state_evaluation assertion Result_ERROR State_EVIDENCE_TYPE_MISMATCH (Some expected) None (Some evidence)
  end.

Definition _evaluate_existence (assertion : StateAssertion) (expected_exists : bool) (evidence : ObserverEvidence)
    : result StateAssertionEvaluation :=
  let exists_value :=
    match ev_value_type evidence, ev_value evidence with
    | Value_BOOLEAN, EvidenceJson (JBool value) => Some value
    | Value_OBJECT, EvidenceJson (JObject _) => Some true
    | _, _ => None
    end in
  let! expected := make_fact Value_BOOLEAN (EvidenceJson (JBool expected_exists)) false in
  match exists_value with
  | None => state_evaluation assertion Result_ERROR State_EVIDENCE_TYPE_MISMATCH (Some expected) None (Some evidence)
  | Some found =>
    let! actual := make_fact Value_BOOLEAN (EvidenceJson (JBool found)) (ev_sensitive evidence) in
    _comparison_evaluation assertion evidence expected actual (Bool.eqb found expected_exists)
  end.

Definition _evaluate_resource_field (assertion : StateAssertion) (field : ResourceFieldAssertion) (evidence : ObserverEvidence)
    : result StateAssertionEvaluation :=
  let! expected := _expected_fact (rf_expected field) in
  match ev_value_type evidence, ev_value evidence with
  | Value_OBJECT, EvidenceJson (JObject members) =>
    match _resolve_json_pointer (JObject members) (rf_path field) with
    | None =>
      let outcome := match default Missing_ERROR (rf_missing_pointer field) with Missing_FAIL => Result_FAIL | Missing_ERROR => Result_ERROR end in
      state_evaluation assertion outcome State_POINTER_MISSING (Some expected) None (Some evidence)
    | Some raw_actual =>
      let! actual := _actual_fact raw_actual (fact_type expected) (ev_sensitive evidence) in
      match _compare_facts actual expected (rf_comparator field) with
      | None => state_evaluation assertion Result_ERROR State_COMPARATOR_UNSUPPORTED (Some expected) (Some actual) (Some evidence)
      | Some matched => _comparison_evaluation assertion evidence expected actual matched
      end
    end
  | _, _ => state_evaluation assertion Result_ERROR State_EVIDENCE_TYPE_MISMATCH (Some expected) None (Some evidence)
  end.

(** The items of the snapshot under the key of a query. *)
Definition matching_evidence (key : str) (evidence : list ObserverEvidence) : list ObserverEvidence :=
  List.filter (fun item => bool_decide (ev_key item = key)) evidence.

Definition evaluate_state_assertion (assertion : StateAssertion) (evidence : list ObserverEvidence) : result StateAssertionEvaluation :=
  match matching_evidence (cq_key (state_query assertion)) evidence with
  | [] => state_evaluation assertion Result_ERROR State_EVIDENCE_MISSING None None None
  | [observed] =>
    match assertion with
    | ProcessingCountAssertion a | CallbackCountAssertion a | JournalCountAssertion a => _evaluate_count assertion a observed
    | ResourceExistsAssertion _ => _evaluate_existence assertion true observed
    | ResourceAbsentAssertion _ => _evaluate_existence assertion false observed
    | ResourceField a => _evaluate_resource_field assertion a observed
    end
  | _ => state_evaluation assertion Result_ERROR State_EVIDENCE_DUPLICATE None None None
  end.

(** * Composite assertions

    [assertions/composite.py]: one named predicate over a snapshot, and the assertion that a set of side
    effects is present together or absent together. *)

Inductive EvidencePredicateCode :=
  | Predicate_MATCH | Predicate_MISMATCH | Predicate_EVIDENCE_MISSING | Predicate_EVIDENCE_DUPLICATE | Predicate_EVIDENCE_TYPE_MISMATCH
  | Predicate_POINTER_MISSING | Predicate_COMPARATOR_UNSUPPORTED.
#[global] Instance EvidencePredicateCode_eq_dec : EqDecision EvidencePredicateCode.
Proof. solve_decision. Defined.
Inductive CompositeAssertionCode :=
  | Composite_ALL_PRESENT | Composite_NONE_PRESENT | Composite_PARTIAL_SIDE_EFFECT | Composite_PREDICATE_ERROR
  | Composite_SNAPSHOT_SCOPE_MISMATCH | Composite_OBSERVER_PENDING | Composite_OBSERVER_UNSUPPORTED | Composite_OBSERVER_ERROR.
#[global] Instance CompositeAssertionCode_eq_dec : EqDecision CompositeAssertionCode.
Proof. solve_decision. Defined.
Definition CompositeAssertionCode_value (c : CompositeAssertionCode) : str :=
  u match c with
    | Composite_ALL_PRESENT => "all_side_effects_present"
    | Composite_NONE_PRESENT => "no_side_effects_present"
    | Composite_PARTIAL_SIDE_EFFECT => "partial_side_effect"
    | Composite_PREDICATE_ERROR => "predicate_error"
    | Composite_SNAPSHOT_SCOPE_MISMATCH => "snapshot_scope_mismatch"
    | Composite_OBSERVER_PENDING => "observer_pending"
    | Composite_OBSERVER_UNSUPPORTED => "observer_unsupported"
    | Composite_OBSERVER_ERROR => "observer_error"
    end.

(** ** One predicate *)

Record EvidencePredicateEvaluation := {
  pe_predicate_name : str; pe_evidence_key : str; pe_result : AssertionResult; pe_code : EvidencePredicateCode;
  pe_truth_value : option bool; pe_expected : option StateAssertionFact; pe_actual : option StateAssertionFact;
  pe_source_evidence : option ObserverEvidence
}.
(** The truth value a result stands for; other results have none. *)
Definition truth_of (outcome : AssertionResult) : result (option bool) :=
  match outcome with
  | Result_PASS => Ok (Some true)
  | Result_FAIL => Ok (Some false)
  | Result_ERROR => Ok None
  | _ => Raise KeyError
  end.
Definition make_predicate_evaluation (e : EvidencePredicateEvaluation) : result EvidencePredicateEvaluation :=
  raise_if bool_decide (pe_predicate_name e = []) || bool_decide (pe_evidence_key e = []) with ValueError ;;
  raise_if negb (bool_decide (pe_result e ∈ [Result_PASS; Result_FAIL; Result_ERROR])) with ValueError ;;
  let! expected_truth := truth_of (pe_result e) in
  raise_if negb (bool_decide (pe_truth_value e = expected_truth)) with ValueError ;;
  Ok e.
Definition _predicate_result (predicate : Predicate) (outcome : AssertionResult) (code : EvidencePredicateCode)
    (expected actual : option StateAssertionFact) (source : option ObserverEvidence) : result EvidencePredicateEvaluation :=
  let! truth_value := truth_of outcome in
  make_predicate_evaluation
    {| pe_predicate_name := pr_name predicate; pe_evidence_key := cq_key (pr_query predicate); pe_result := outcome; pe_code := code;
       pe_truth_value := truth_value; pe_expected := expected; pe_actual := actual; pe_source_evidence := source |}.

(** The fact the predicate looks at, or the evaluation that ends it. *)
Inductive PredicateActual :=
  | ActualFact (fact : StateAssertionFact)
  | Decided (evaluation : EvidencePredicateEvaluation).
Definition decided_by (evaluation : result EvidencePredicateEvaluation) : result PredicateActual :=
  let! e := evaluation in Ok (Decided e).
Definition _predicate_actual (predicate : Predicate) (observed : ObserverEvidence) (expected : StateAssertionFact) : result PredicateActual :=
  match pr_path predicate with
  | None => let! fact := make_fact (ev_value_type observed) (ev_value observed) (ev_sensitive observed) in Ok (ActualFact fact)
  | Some path =>
    match ev_value_type observed, ev_value observed with
    | Value_OBJECT, EvidenceJson (JObject members) =>
      match _resolve_json_pointer (JObject members) path with
      | None =>
        decided_by (_predicate_result predicate (match missing_pointer predicate with Missing_FAIL => Result_FAIL | Missing_ERROR => Result_ERROR end)
          Predicate_POINTER_MISSING (Some expected) None (Some observed))
      | Some raw_actual =>
        or_else (let! fact := _actual_fact raw_actual (fact_type expected) (ev_sensitive observed) in Ok (ActualFact fact))
          (decided_by (_predicate_result predicate Result_ERROR Predicate_EVIDENCE_TYPE_MISMATCH (Some expected) None (Some observed)))
      end
    | _, _ => decided_by (_predicate_result predicate Result_ERROR Predicate_EVIDENCE_TYPE_MISMATCH (Some expected) None (Some observed))
    end
  end.

Definition evaluate_evidence_predicate (predicate : Predicate) (evidence : list ObserverEvidence) : result EvidencePredicateEvaluation :=
  let! expected := _expected_fact (pr_expected predicate) in
  match matching_evidence (cq_key (pr_query predicate)) evidence with
  | [] => _predicate_result predicate Result_ERROR Predicate_EVIDENCE_MISSING (Some expected) None None
  | [observed] =>
    let! actual := _predicate_actual predicate observed expected in
    match actual with
    | Decided evaluation => Ok evaluation
    | ActualFact actual =>
      match _compare_facts actual expected (pr_comparator predicate) with
      | None => _predicate_result predicate Result_ERROR Predicate_COMPARATOR_UNSUPPORTED (Some expected) (Some actual) (Some observed)
      | Some matched =>
        _predicate_result predicate (if matched then Result_PASS else Result_FAIL) (if matched then Predicate_MATCH else Predicate_MISMATCH)
          (Some expected) (Some actual) (Some observed)
      end
    end
  | _ => _predicate_result predicate Result_ERROR Predicate_EVIDENCE_DUPLICATE (Some expected) None None
  end.

(** ** All or none *)

Record NoPartialSideEffectEvaluation := {
  ne_assertion_id : str; ne_result : AssertionResult; ne_code : CompositeAssertionCode; ne_predicates : list EvidencePredicateEvaluation;
  ne_snapshot_id : option str
}.
Definition make_composite_evaluation (e : NoPartialSideEffectEvaluation) : result NoPartialSideEffectEvaluation :=
  raise_if bool_decide (ne_assertion_id e = []) with ValueError ;;
  raise_if negb (bool_decide (ne_result e ∈ [Result_PASS; Result_FAIL; Result_ERROR; Result_SKIPPED])) with ValueError ;;
  raise_if zlen (ne_predicates e) <? 2 with TypeError ;;
  raise_if negb (bool_decide (NoDup (map pe_predicate_name (ne_predicates e)))) with ValueError ;;
  raise_if bool_decide (ne_snapshot_id e = Some []) with ValueError ;;
  Ok e.
Definition predicate_values (e : NoPartialSideEffectEvaluation) : list (str * option bool) :=
  map (fun item => (pe_predicate_name item, pe_truth_value item)) (ne_predicates e).
Definition _composite_result (assertion : NoPartialSideEffectAssertion) (outcome : AssertionResult) (code : CompositeAssertionCode)
    (predicates : list EvidencePredicateEvaluation) (snapshot_id : option str) : result NoPartialSideEffectEvaluation :=
  make_composite_evaluation
    {| ne_assertion_id := np_id assertion; ne_result := outcome; ne_code := code; ne_predicates := predicates; ne_snapshot_id := snapshot_id |}.

Definition observer_failure (status : ObserverResponseStatus) : result CompositeAssertionCode :=
  match status with
  | Response_PENDING => Ok Composite_OBSERVER_PENDING
  | Response_UNSUPPORTED => Ok Composite_OBSERVER_UNSUPPORTED
  | Response_ERROR => Ok Composite_OBSERVER_ERROR
  | Response_OK => Raise KeyError
  end.
Definition evaluate_no_partial_side_effect_assertion (assertion : NoPartialSideEffectAssertion) (response : ObserverResponse)
    : result NoPartialSideEffectEvaluation :=
  let! evaluations := map_result (fun predicate => evaluate_evidence_predicate predicate (rsp_evidence response)) (np_predicates assertion) in
  let observer_ids := remove_dups (map (fun predicate => cq_observer (pr_query predicate)) (np_predicates assertion)) in
  if negb (zlen observer_ids =? 1) then
    _composite_result assertion Result_ERROR Composite_SNAPSHOT_SCOPE_MISMATCH evaluations (rsp_snapshot_id response)
  else if negb (bool_decide (rsp_status response = Response_OK)) then
    let outcome :=
      if bool_decide (rsp_status response = Response_UNSUPPORTED) && bool_decide (on_unsupported (np_options assertion) = Unsupported_SKIP)
      then Result_SKIPPED else Result_ERROR in
    let! code := observer_failure (rsp_status response) in
    _composite_result assertion outcome code evaluations None
  else if existsb (fun item => bool_decide (pe_result item = Result_ERROR)) evaluations then
    _composite_result assertion Result_ERROR Composite_PREDICATE_ERROR evaluations (rsp_snapshot_id response)
  else
    let values := map pe_truth_value evaluations in
    if forallb (fun value => bool_decide (value = Some true)) values then
      _composite_result assertion Result_PASS Composite_ALL_PRESENT evaluations (rsp_snapshot_id response)
    else if forallb (fun value => bool_decide (value = Some false)) values then
      _composite_result assertion Result_PASS Composite_NONE_PRESENT evaluations (rsp_snapshot_id response)
    else _composite_result assertion Result_FAIL Composite_PARTIAL_SIDE_EFFECT evaluations (rsp_snapshot_id response).
Definition evaluate_composite_assertion (assertion : NoPartialSideEffectAssertion) (response : ObserverResponse)
    : result NoPartialSideEffectEvaluation :=
  evaluate_no_partial_side_effect_assertion assertion response.
