(* ===== verification/TemporalAssertions.v ===== *)
(** * Temporal assertions

    [assertions/temporal.py]: the order of the states a resource went through, and the state it reaches
    within a polling series.  [Predicate.model_validate] of the wire form of validated models gives them
    back, so the predicate of an eventual state is made of its fields. *)

From S2P Require Import Prelude Text Domain Commands Json Evidence ObserverProtocol Polling ConfigValues AssertionConfig EvidenceFacts Evaluators.

Local Open Scope Z_scope.

Inductive TemporalAssertionCode :=
  | Temporal_ORDER_MATCH | Temporal_ORDER_MISMATCH | Temporal_EVIDENCE_MISSING | Temporal_EVIDENCE_DUPLICATE
  | Temporal_EVIDENCE_TYPE_MISMATCH | Temporal_EVENTUAL_MATCH | Temporal_EVENTUAL_MISMATCH | Temporal_EVENTUAL_DEADLINE_MISMATCH
  | Temporal_EVENTUAL_TIMEOUT_ERROR | Temporal_PREDICATE_ERROR | Temporal_OBSERVER_PENDING | Temporal_OBSERVER_UNSUPPORTED
  | Temporal_OBSERVER_ERROR | Temporal_POLL_RESULT_INCONSISTENT.
#[global] Instance TemporalAssertionCode_eq_dec : EqDecision TemporalAssertionCode.
Proof. solve_decision. Defined.
Definition TemporalAssertionCode_text (c : TemporalAssertionCode) : string :=
  match c with
  | Temporal_ORDER_MATCH => "order_match"
  | Temporal_ORDER_MISMATCH => "order_mismatch"
  | Temporal_EVIDENCE_MISSING => "evidence_missing"
  | Temporal_EVIDENCE_DUPLICATE => "evidence_duplicate"
  | Temporal_EVIDENCE_TYPE_MISMATCH => "evidence_type_mismatch"
  | Temporal_EVENTUAL_MATCH => "eventual_match"
  | Temporal_EVENTUAL_MISMATCH => "eventual_mismatch"
  | Temporal_EVENTUAL_DEADLINE_MISMATCH => "eventual_deadline_mismatch"
  | Temporal_EVENTUAL_TIMEOUT_ERROR => "eventual_timeout_error"
  | Temporal_PREDICATE_ERROR => "predicate_error"
  | Temporal_OBSERVER_PENDING => "observer_pending"
  | Temporal_OBSERVER_UNSUPPORTED => "observer_unsupported"
  | Temporal_OBSERVER_ERROR => "observer_error"
  | Temporal_POLL_RESULT_INCONSISTENT => "poll_result_inconsistent"
  end.
Definition TemporalAssertionCode_value (c : TemporalAssertionCode) : str := u (TemporalAssertionCode_text c).
Definition EvidencePredicateCode_text (c : EvidencePredicateCode) : string :=
  match c with
  | Predicate_MATCH => "predicate_match"
  | Predicate_MISMATCH => "predicate_mismatch"
  | Predicate_EVIDENCE_MISSING => "evidence_missing"
  | Predicate_EVIDENCE_DUPLICATE => "evidence_duplicate"
  | Predicate_EVIDENCE_TYPE_MISMATCH => "evidence_type_mismatch"
  | Predicate_POINTER_MISSING => "pointer_missing"
  | Predicate_COMPARATOR_UNSUPPORTED => "comparator_unsupported"
  end.

(** ** Ordered transitions *)

Record OrderedTransitionEvaluation := {
  oe_assertion_id : str; oe_result : AssertionResult; oe_code : TemporalAssertionCode; oe_evidence_key : str;
  oe_expected : option StateAssertionFact; oe_actual : option StateAssertionFact; oe_source_evidence : option ObserverEvidence
}.
Definition make_ordered_evaluation (e : OrderedTransitionEvaluation) : result OrderedTransitionEvaluation :=
  raise_if bool_decide (oe_assertion_id e = []) || bool_decide (oe_evidence_key e = []) with ValueError ;;
  raise_if negb (bool_decide (oe_result e ∈ [Result_PASS; Result_FAIL; Result_ERROR])) with ValueError ;;
  Ok e.
Definition _ordered_result (assertion : OrderedTransitionAssertion) (outcome : AssertionResult) (code : TemporalAssertionCode)
    (expected actual : option StateAssertionFact) (source : option ObserverEvidence) : result OrderedTransitionEvaluation :=
  make_ordered_evaluation
    {| oe_assertion_id := ot_id assertion; oe_result := outcome; oe_code := code; oe_evidence_key := cq_key (ot_query assertion);
       oe_expected := expected; oe_actual := actual; oe_source_evidence := source |}.

(** The state of one recorded transition: a nonempty text, alone or under [state] beside a timestamp. *)
Definition transition_state (value : json) : option str :=
  match value with
  | JString text => if bool_decide (text = []) then None else Some text
  | JObject transition =>
    if negb (forallb (fun m => bool_decide (m.1 ∈ [u "state"; u "timestamp"])) transition) then None
    else
      match json_get (u "state") transition with
      | Some (JString state) =>
        if bool_decide (state = []) then None
        else
          match json_get (u "timestamp") transition with
          | None => Some state
          | Some timestamp =>
            if is_ok (evidence_model_validate (u "transition_timestamp") Value_TIMESTAMP timestamp false) then Some state else None
          end
      | _ => None
      end
  | _ => None
  end.
Definition _transition_states (values : list json) : option (list str) := mapM transition_state values.

Definition _contains_contiguous_sequence (actual expected : list str) : bool :=
  if zlen actual <? zlen expected then false
  else existsb (fun index => bool_decide (take (length expected) (drop index actual) = expected)) (seq 0 (length actual - length expected + 1)).

(** The loop of [_is_ordered_subsequence]: [remaining] is the expected states from [expected_index] on. *)
Fixpoint ordered_from (actual remaining : list str) : result bool :=
  match actual with
  | [] => Ok false
  | state :: rest =>
    match remaining with
    | [] => Raise IndexError
    | next :: remaining1 =>
      if bool_decide (state = next) then
        if bool_decide (remaining1 = []) then Ok true else ordered_from rest remaining1
      else ordered_from rest remaining
    end
  end.
Definition _is_ordered_subsequence (actual expected : list str) : result bool := ordered_from actual expected.

Definition evaluate_ordered_transition_assertion (assertion : OrderedTransitionAssertion) (evidence : list ObserverEvidence)
    : result OrderedTransitionEvaluation :=
  let! expected := make_fact Value_ARRAY (EvidenceJson (JArray (map JString (ot_states assertion)))) false in
  match matching_evidence (cq_key (ot_query assertion)) evidence with
  | [] => _ordered_result assertion Result_ERROR Temporal_EVIDENCE_MISSING (Some expected) None None
  | [observed] =>
    match ev_value_type observed, ev_value observed with
    | Value_ARRAY, EvidenceJson (JArray raw_values) =>
      let! actual := make_fact Value_ARRAY (EvidenceJson (JArray raw_values)) (ev_sensitive observed) in
      match _transition_states raw_values with
      | None => _ordered_result assertion Result_ERROR Temporal_EVIDENCE_TYPE_MISMATCH (Some expected) (Some actual) (Some observed)
      | Some states =>
        let! matched :=
          if ot_allow_intermediate assertion then _is_ordered_subsequence states (ot_states assertion)
          else Ok (_contains_contiguous_sequence states (ot_states assertion)) in
        _ordered_result assertion (if (matched : bool) then Result_PASS else Result_FAIL)
          (if (matched : bool) then Temporal_ORDER_MATCH else Temporal_ORDER_MISMATCH) (Some expected) (Some actual) (Some observed)
      end
    | _, _ => _ordered_result assertion Result_ERROR Temporal_EVIDENCE_TYPE_MISMATCH (Some expected) None (Some observed)
    end
  | _ => _ordered_result assertion Result_ERROR Temporal_EVIDENCE_DUPLICATE (Some expected) None None
  end.

(** ** Predicates of the poller *)

Definition _observer_code (status : ObserverResponseStatus) : TemporalAssertionCode :=
  match status with
  | Response_PENDING => Temporal_OBSERVER_PENDING
  | Response_UNSUPPORTED => Temporal_OBSERVER_UNSUPPORTED
  | Response_ERROR => Temporal_OBSERVER_ERROR
  | Response_OK => Temporal_POLL_RESULT_INCONSISTENT
  end.
Definition ordered_transition_predicate (assertion : OrderedTransitionAssertion) : PollPredicate := fun response =>
  if negb (bool_decide (rsp_status response = Response_OK)) then
    Raise (TemporalPredicateError (TemporalAssertionCode_text (_observer_code (rsp_status response))))
  else
    let! evaluation := evaluate_ordered_transition_assertion assertion (rsp_evidence response) in
    raise_if bool_decide (oe_result evaluation = Result_ERROR) with TemporalPredicateError (TemporalAssertionCode_text (oe_code evaluation)) ;;
    Ok (bool_decide (oe_result evaluation = Result_PASS)).

Definition _eventual_predicate (assertion : EventualStateAssertion) : Predicate :=
  {| pr_name := es_id assertion; pr_query := es_query assertion; pr_path := es_path assertion; pr_comparator := es_comparator assertion;
     pr_expected := es_expected assertion;
     pr_missing_pointer := match es_path assertion with Some _ => Some (default Missing_ERROR (es_missing_pointer assertion)) | None => None end |}.
Definition eventual_state_predicate (assertion : EventualStateAssertion) : PollPredicate := fun response =>
  if negb (bool_decide (rsp_status response = Response_OK)) then
    Raise (TemporalPredicateError (TemporalAssertionCode_text (_observer_code (rsp_status response))))
  else
    let! evaluation := evaluate_evidence_predicate (_eventual_predicate assertion) (rsp_evidence response) in
    raise_if bool_decide (pe_result evaluation = Result_ERROR) with TemporalPredicateError (EvidencePredicateCode_text (pe_code evaluation)) ;;
    Ok (bool_decide (pe_result evaluation = Result_PASS)).

(** ** Eventual states *)

Record EventualStateEvaluation := {
  el_assertion_id : str; el_result : AssertionResult; el_code : TemporalAssertionCode; el_poll_outcome : ObservationPollOutcome;
  el_sample_ids : list str; el_expected : StateAssertionFact; el_actual : option StateAssertionFact; el_source_evidence : option ObserverEvidence
}.
Definition make_eventual_evaluation (e : EventualStateEvaluation) : result EventualStateEvaluation :=
  raise_if bool_decide (el_assertion_id e = []) with ValueError ;;
  raise_if negb (bool_decide (el_result e ∈ [Result_PASS; Result_FAIL; Result_ERROR; Result_SKIPPED])) with ValueError ;;
  raise_if bool_decide (el_sample_ids e = []) || existsb (fun id => bool_decide (id = [])) (el_sample_ids e) with ValueError ;;
  raise_if negb (bool_decide (NoDup (el_sample_ids e))) with ValueError ;;
  Ok e.
(** [terminal] *)
Definition eventual_terminal (e : EventualStateEvaluation) : str :=
  if bool_decide (el_poll_outcome e = Poll_TIMED_OUT) then u "timeout" else AssertionResult_value (el_result e).

Definition _eventual_detail (assertion : EventualStateAssertion) (response : option ObserverResponse) : result (option EvidencePredicateEvaluation) :=
  match response with
  | Some r =>
    if bool_decide (rsp_status r = Response_OK) then
      let! detail := evaluate_evidence_predicate (_eventual_predicate assertion) (rsp_evidence r) in Ok (Some detail)
    else Ok None
  | None => Ok None
  end.

Definition consistent_state (outcome : ObservationPollOutcome) : ObservationState :=
  match outcome with
  | Poll_MATCHED | Poll_MISMATCH => Observation_OK
  | Poll_PENDING => Observation_PENDING
  | Poll_UNSUPPORTED => Observation_UNSUPPORTED
  | Poll_ERROR => Observation_ERROR
  | Poll_TIMED_OUT => Observation_TIMED_OUT
  end.
Definition _poll_result_consistent (r : ObservationPollResult) : bool :=
  if negb (bool_decide (polled_state r = consistent_state (polled_outcome r))) then false
  else
    match polled_outcome r with
    | Poll_MATCHED => polled_matched r && polled_valid_evidence r && negb (is_none (polled_last_response r))
    | Poll_MISMATCH => negb (polled_matched r) && polled_valid_evidence r && negb (is_none (polled_last_response r))
    | _ => negb (polled_matched r)
    end.

Definition _eventual_result (assertion : EventualStateAssertion) (poll_result : ObservationPollResult) (outcome : AssertionResult)
    (code : TemporalAssertionCode) (expected : StateAssertionFact) (detail : option EvidencePredicateEvaluation) : result EventualStateEvaluation :=
  make_eventual_evaluation
    {| el_assertion_id := es_id assertion; el_result := outcome; el_code := code; el_poll_outcome := polled_outcome poll_result;
       el_sample_ids := polled_sample_ids poll_result; el_expected := expected; el_actual := d ← detail; pe_actual d;
       el_source_evidence := d ← detail; pe_source_evidence d |}.

Definition evaluate_eventual_state_assertion (assertion : EventualStateAssertion) (poll_result : ObservationPollResult)
    : result EventualStateEvaluation :=
  let! expected := _expected_fact (es_expected assertion) in
  let! detail := _eventual_detail assertion (polled_last_response poll_result) in
  let evaluation := fun outcome code => _eventual_result assertion poll_result outcome code expected detail in
  let seen := match detail with Some d => Some (pe_result d) | None => None end in
  if negb (_poll_result_consistent poll_result) then evaluation Result_ERROR Temporal_POLL_RESULT_INCONSISTENT
  else
    match polled_outcome poll_result with
    | Poll_MATCHED =>
      match seen with
      | Some Result_PASS => evaluation Result_PASS Temporal_EVENTUAL_MATCH
      | _ => evaluation Result_ERROR Temporal_POLL_RESULT_INCONSISTENT
      end
    | Poll_MISMATCH =>
      match seen with
      | None | Some Result_PASS => evaluation Result_ERROR Temporal_POLL_RESULT_INCONSISTENT
      | Some Result_ERROR => evaluation Result_ERROR Temporal_PREDICATE_ERROR
      | Some _ => evaluation Result_FAIL Temporal_EVENTUAL_MISMATCH
      end
    | Poll_TIMED_OUT =>
      match seen with
      | Some Result_PASS => evaluation Result_ERROR Temporal_POLL_RESULT_INCONSISTENT
      | Some Result_ERROR => evaluation Result_ERROR Temporal_PREDICATE_ERROR
      | _ =>
        let valid_deadline_mismatch := polled_valid_evidence poll_result && polled_deadline_elapsed poll_result in
        evaluation (if valid_deadline_mismatch then Result_FAIL else Result_ERROR)
          (if valid_deadline_mismatch then Temporal_EVENTUAL_DEADLINE_MISMATCH else Temporal_EVENTUAL_TIMEOUT_ERROR)
      end
    | Poll_UNSUPPORTED =>
      evaluation (if bool_decide (on_unsupported (es_options assertion) = Unsupported_SKIP) then Result_SKIPPED else Result_ERROR)
        Temporal_OBSERVER_UNSUPPORTED
    | Poll_PENDING => evaluation Result_ERROR Temporal_OBSERVER_PENDING
    | Poll_ERROR =>
      evaluation Result_ERROR (if bool_decide (seen = Some Result_ERROR) then Temporal_PREDICATE_ERROR else Temporal_OBSERVER_ERROR)
    end.

(** The payload of a temporal assertion: evidence for an order, a polling result for an eventual state. *)
Inductive TemporalPayload := TemporalEvidence (evidence : list ObserverEvidence) | TemporalPoll (poll_result : ObservationPollResult).
Inductive TemporalEvaluation := OrderedEvaluation (e : OrderedTransitionEvaluation) | EventualEvaluation (e : EventualStateEvaluation).
Definition evaluate_temporal_assertion (assertion : TemporalAssertion) (evidence : TemporalPayload) : result TemporalEvaluation :=
  match assertion, evidence with
  | OrderedTransition a, TemporalEvidence items => let! e := evaluate_ordered_transition_assertion a items in Ok (OrderedEvaluation e)
  | EventualState a, TemporalPoll poll_result => let! e := evaluate_eventual_state_assertion a poll_result in Ok (EventualEvaluation e)
  | _, _ => Raise TypeError
  end.
