(* ===== verification/CompositeLaws.v ===== *)
(** * What predicates and side effects decide

    The verdict of one predicate over a snapshot, and of the assertion over several. *)

From S2P Require Import Prelude Text Domain Commands Json Hashing Canonical Evidence ObserverProtocol ConfigValues AssertionConfig EvidenceFacts EvidenceLaws FactLaws PointerLaws Evaluators.

Local Open Scope Z_scope.

(** * What a predicate decides

    Evaluating a valid predicate on valid evidence always answers, and passes or fails exactly when the
    value it looks at compares with what it expects. *)

(** ** Valid configuration *)

(** The configured value is one that evidence can hold. *)
Definition evaluable (v : TypedValue) : Prop := is_ok (_expected_fact v) = true.

Record predicate_ready (p : Predicate) : Prop := {
  ready_valid : validate_predicate p = Ok p;
  ready_expected : evaluable (pr_expected p)
}.

Lemma profile_name_nonempty n x : ProfileName n = Ok x -> n <> [].
Proof. unfold ProfileName. by destruct n. Qed.

Lemma query_key_nonempty q q' : validate_query q = Ok q' -> cq_key q <> [].
Proof.
  unfold validate_query. intros H. py_step H. destruct (StringConstraints 1 256 (cq_key q)) eqn:E1; [|done].
  unfold StringConstraints in E1. destruct (cq_key q); [|done]. rewrite orb_true_r in E1. done.
Qed.

Lemma predicate_names p : predicate_ready p -> pr_name p <> [] /\ cq_key (pr_query p) <> [].
Proof.
  intros [Hv _]. unfold validate_predicate in Hv. destruct (ProfileName (pr_name p)) eqn:E; [|done].
  destruct (validate_query (pr_query p)) eqn:E'; [|done]. split; [by eapply profile_name_nonempty|by eapply query_key_nonempty].
Qed.

Lemma expected_fact_ok v f : _expected_fact v = Ok f -> fact_ok f.
Proof. unfold _expected_fact. destruct (to_wire v). intros H%validated_fact_ok. tauto. Qed.

(** ** Building an evaluation *)

Definition decisive_result (outcome : AssertionResult) : Prop := outcome = Result_PASS \/ outcome = Result_FAIL \/ outcome = Result_ERROR.
Definition truth (outcome : AssertionResult) : option bool :=
  match outcome with Result_PASS => Some true | Result_FAIL => Some false | _ => None end.

Lemma predicate_result_ok p outcome code expected actual source :
  pr_name p <> [] -> cq_key (pr_query p) <> [] -> decisive_result outcome ->
  _predicate_result p outcome code expected actual source =
  Ok {| pe_predicate_name := pr_name p; pe_evidence_key := cq_key (pr_query p); pe_result := outcome; pe_code := code;
        pe_truth_value := truth outcome; pe_expected := expected; pe_actual := actual; pe_source_evidence := source |}.
Proof.
  intros Hn Hk Hd. unfold _predicate_result, make_predicate_evaluation.
  assert (truth_of outcome = Ok (truth outcome)) as Ht by (by destruct Hd as [->|[->| ->]]). rewrite Ht.
  cbn [pe_predicate_name pe_evidence_key pe_result pe_truth_value]. rewrite Ht, !bool_decide_eq_false_2 by done. cbn [orb].
  rewrite bool_decide_eq_true_2 by (by destruct Hd as [->|[->| ->]]; repeat (first [left|right])). cbn [negb]. by rewrite bool_decide_eq_true_2.
Qed.

(** ** The fact a predicate looks at *)

(** The fact of the observed value itself, or of the value the predicate's pointer leads to. *)
Definition observed_fact (p : Predicate) (observed : ObserverEvidence) (expected_type : EvidenceValueType) (fact : StateAssertionFact) : Prop :=
  match pr_path p with
  | None => fact = {| fact_type := ev_value_type observed; fact_value := ev_value observed; fact_sensitive := ev_sensitive observed |}
  | Some path => exists members v, ev_value_type observed = Value_OBJECT /\ ev_value observed = EvidenceJson (JObject members) /\
      _resolve_json_pointer (JObject members) path = Some v /\ _actual_fact v expected_type (ev_sensitive observed) = Ok fact
  end.
(** The pointer leads nowhere in the observed object. *)
Definition pointer_dangles (p : Predicate) (observed : ObserverEvidence) : Prop :=
  exists path members, pr_path p = Some path /\ ev_value_type observed = Value_OBJECT /\ ev_value observed = EvidenceJson (JObject members) /\
    _resolve_json_pointer (JObject members) path = None.

(** The parts of frozen evidence are frozen. *)
Lemma resolved_frozen root pointer v : frozen_profile root = true -> _resolve_json_pointer root pointer = Some v -> frozen_profile v = true.
Proof.
  intros Hr. unfold _resolve_json_pointer. destruct pointer as [|c rest]; [by intros [= <-]|]. generalize (split_on 47 rest). intros tokens.
  assert (forall o, (forall x, o = Some x -> frozen_profile x = true) ->
    fold_left (fun current raw_token => c ← current; pointer_step c (unescape_token raw_token)) tokens o = Some v -> frozen_profile v = true) as H.
  { induction tokens as [|t tokens IH]; intros o Ho; simpl; [by apply Ho|]. apply IH. intros x Hx. destruct o as [y|]; [|done]. simpl in Hx.
    specialize (Ho y eq_refl). destruct y as [| | | | |items|members]; simpl in Hx; try done.
    - destruct (_ARRAY_INDEX _); [|done]. destruct (_ <=? _); [done|]. apply nth_error_In, list_elem_of_In in Hx. by eapply frozen_item.
    - apply json_get_in in Hx. by apply (frozen_member _ _ Hx). }
  apply H. by intros x [= <-].
Qed.

(** What the predicate looks at is decided: a fact, a dangling pointer, or a value it cannot compare. *)
Lemma predicate_actual_cases p observed expected : predicate_ready p -> valid_evidence observed -> fact_ok expected ->
  (exists fact, _predicate_actual p observed expected = Ok (ActualFact fact) /\ fact_ok fact /\ observed_fact p observed (fact_type expected) fact) \/
  (exists e, _predicate_actual p observed expected = Ok (Decided e) /\ pe_predicate_name e = pr_name p /\
     pe_result e = (match missing_pointer p with Missing_FAIL => Result_FAIL | Missing_ERROR => Result_ERROR end) /\ pe_truth_value e = truth (pe_result e) /\
     pe_code e = Predicate_POINTER_MISSING /\ pointer_dangles p observed /\ forall f, ~ observed_fact p observed (fact_type expected) f) \/
  (exists e, _predicate_actual p observed expected = Ok (Decided e) /\ pe_predicate_name e = pr_name p /\ pe_result e = Result_ERROR /\
     pe_truth_value e = None /\ pe_code e = Predicate_EVIDENCE_TYPE_MISMATCH /\ ~ pointer_dangles p observed /\
     forall f, ~ observed_fact p observed (fact_type expected) f).
Proof.
  intros Hp Ho He. destruct (predicate_names p Hp) as [Hn Hk]. unfold _predicate_actual, observed_fact, pointer_dangles.
  assert (forall code, decided_by (_predicate_result p Result_ERROR code (Some expected) None (Some observed)) =
    Ok (Decided {| pe_predicate_name := pr_name p; pe_evidence_key := cq_key (pr_query p); pe_result := Result_ERROR; pe_code := code;
                   pe_truth_value := None; pe_expected := Some expected; pe_actual := None; pe_source_evidence := Some observed |})) as Herr.
  { intros code. unfold decided_by. rewrite predicate_result_ok; [done..|]. by right; right. }
  destruct (pr_path p) as [path|].
  2:{ left. rewrite make_fact_ok by done. eexists. split; [done|]. split; [exact Ho|done]. }
  assert ((exists members, ev_value_type observed = Value_OBJECT /\ ev_value observed = EvidenceJson (JObject members)) \/
          ((forall members, ev_value_type observed = Value_OBJECT -> ev_value observed <> EvidenceJson (JObject members)) /\
           match ev_value_type observed, ev_value observed with Value_OBJECT, EvidenceJson (JObject _) => False | _, _ => True end)) as [(members & Et & Ev)|[Hno Hm]].
  { destruct (ev_value_type observed), (ev_value observed) as [[]|]; try (right; split; [by intros|done]). left. by eexists. }
  2:{ right; right. rewrite Herr. eexists. split; [by destruct (ev_value_type observed), (ev_value observed) as [[]|]|]. repeat (split; [done|]). split.
      - intros (? & members & _ & Et & Ev & _). by apply (Hno members).
      - intros f (members & _ & Et & Ev & _). by apply (Hno members). }
  rewrite Et, Ev. assert (frozen_profile (JObject members) = true) as Hf. { destruct Ho as [_ Hf]. by rewrite Ev in Hf. }
  destruct (_resolve_json_pointer (JObject members) path) as [v|] eqn:Er.
  - pose proof (actual_fact_total v (fact_type expected) (ev_sensitive observed) (resolved_frozen _ _ _ Hf Er)) as Ha.
    destruct (oversized_decimal v (fact_type expected)).
    + right; right. rewrite Ha. cbn [or_else]. eexists. split; [apply Herr|]. repeat (split; [done|]). split.
      * intros (path' & members' & [= <-] & _ & [= <-] & Hr). congruence.
      * intros f (members' & v' & _ & [= <-] & Hr & Hf'). rewrite Er in Hr. injection Hr as <-. congruence.
    + left. destruct Ha as (f & Hfa & Hfok & _). rewrite Hfa. exists f. split; [done|]. split; [done|]. exists members, v. auto.
  - right; left. eexists. split.
    { unfold decided_by. rewrite predicate_result_ok; [done..|]. destruct (missing_pointer p); [by right; left|by right; right]. }
    repeat (split; [done|]). split; [by exists path, members|]. intros f (members' & v' & _ & [= <-] & Hr & _). congruence.
Qed.

(** ** The verdict *)

(** The one item of evidence under the predicate's key compares with what is expected as [answer]. *)
Definition observes (p : Predicate) (evidence : list ObserverEvidence) (answer : option bool) : Prop :=
  exists observed expected actual, matching_evidence (cq_key (pr_query p)) evidence = [observed] /\ _expected_fact (pr_expected p) = Ok expected /\
    observed_fact p observed (fact_type expected) actual /\ _compare_facts actual expected (pr_comparator p) = answer.
Definition misses (p : Predicate) (evidence : list ObserverEvidence) : Prop :=
  missing_pointer p = Missing_FAIL /\ exists observed, matching_evidence (cq_key (pr_query p)) evidence = [observed] /\ pointer_dangles p observed.

Lemma observed_fact_unique p observed t f g : observed_fact p observed t f -> observed_fact p observed t g -> f = g.
Proof.
  unfold observed_fact. destruct (pr_path p) as [path|]; [|by intros -> ->]. intros (m & v & _ & Em & Ev & Ef) (m' & v' & _ & Em' & Ev' & Ef').
  rewrite Em in Em'. injection Em' as <-. rewrite Ev in Ev'. injection Ev' as <-. congruence.
Qed.

Lemma matching_valid key evidence : Forall valid_evidence evidence -> Forall valid_evidence (matching_evidence key evidence).
Proof. unfold matching_evidence. intros H. rewrite list.Forall_forall in *. intros o [Ho _]%list_elem_of_In%filter_In. by apply H, list_elem_of_In. Qed.

(** The answer, on every branch. *)
Lemma predicate_decided p evidence : predicate_ready p -> Forall valid_evidence evidence ->
  exists e, evaluate_evidence_predicate p evidence = Ok e /\ pe_predicate_name e = pr_name p /\
    decisive_result (pe_result e) /\ pe_truth_value e = truth (pe_result e) /\
    (pe_result e = Result_PASS <-> observes p evidence (Some true)) /\
    (pe_result e = Result_FAIL <-> observes p evidence (Some false) \/ misses p evidence).
Proof.
  intros Hp He. destruct (predicate_names p Hp) as [Hn Hk]. destruct (proj1 (is_ok_exists _) (ready_expected p Hp)) as (expected & Hexp).
  unfold evaluate_evidence_predicate, observes, misses. rewrite Hexp. pose proof (matching_valid (cq_key (pr_query p)) evidence He) as Hm.
  destruct (matching_evidence (cq_key (pr_query p)) evidence) as [|observed [|second more]].
  - rewrite predicate_result_ok by (try done; right; by right). eexists. repeat (split; [done|]). split; [right; by right|].
    split; [done|]. split; (split; [done|]); naive_solver.
  - apply list.Forall_cons in Hm as [Ho _]. pose proof (expected_fact_ok _ _ Hexp) as Hfok.
    destruct (predicate_actual_cases p observed expected Hp Ho Hfok)
      as [(actual & -> & Haok & Hact)|[(e & -> & Hname & Hres & Htruth & _ & Hdangle & Hnone)|(e & -> & Hname & Hres & Htruth & _ & Hdangle & Hnone)]].
    + assert (forall a, (exists o x f, [observed] = [o] /\ Ok expected = Ok x /\ observed_fact p o (fact_type x) f /\ _compare_facts f x (pr_comparator p) = a)
        <-> _compare_facts actual expected (pr_comparator p) = a) as Hobs.
      { intros a. split; [|by eexists _, _, _]. intros (o & x & f & [= <-] & [= <-] & Hf & Hc). by rewrite (observed_fact_unique _ _ _ _ _ Hact Hf). }
      assert (~ (missing_pointer p = Missing_FAIL /\ exists o, [observed] = [o] /\ pointer_dangles p o)) as Hno.
      { intros (_ & o & [= <-] & (path & members & Ep & _ & Ev & Er)). unfold observed_fact in Hact. rewrite Ep in Hact.
        destruct Hact as (members' & v & _ & Ev' & Er' & _). rewrite Ev in Ev'. injection Ev' as <-. congruence. }
      setoid_rewrite Hobs. destruct (_compare_facts actual expected (pr_comparator p)) as [[]|]; rewrite predicate_result_ok by (try done; unfold decisive_result; tauto);
        (eexists; repeat (split; [done|]); split; [unfold decisive_result; tauto|]; split; [done|]; cbn [pe_result]; naive_solver).
    + exists e. split; [done|]. split; [done|]. assert (forall a, ~ exists o x f, [observed] = [o] /\ Ok expected = Ok x /\ observed_fact p o (fact_type x) f /\
        _compare_facts f x (pr_comparator p) = a) as Hobs by (intros a (o & x & f & [= <-] & [= <-] & Hf & _); by apply (Hnone f)).
      rewrite Hres. split; [destruct (missing_pointer p); unfold decisive_result; tauto|]. split; [by rewrite Htruth, Hres|]. split.
      * split; [by destruct (missing_pointer p)|]. intros H. by destruct (Hobs _ H).
      * destruct (missing_pointer p); split; try done; [|intros [H|[? _]]; [by destruct (Hobs _ H)|done]]. intros _. right. split; [done|]. by exists observed.
    + exists e. split; [done|]. split; [done|]. assert (forall a, ~ exists o x f, [observed] = [o] /\ Ok expected = Ok x /\ observed_fact p o (fact_type x) f /\
        _compare_facts f x (pr_comparator p) = a) as Hobs by (intros a (o & x & f & [= <-] & [= <-] & Hf & _); by apply (Hnone f)).
      rewrite Hres. split; [right; by right|]. split; [done|]. split; (split; [done|]); [intros H; by destruct (Hobs _ H)|].
      intros [H|(_ & o & [= <-] & H)]; [by destruct (Hobs _ H)|done].
  - rewrite predicate_result_ok by (try done; right; by right). eexists. repeat (split; [done|]). split; [right; by right|].
    split; [done|]. split; (split; [done|]); naive_solver.
Qed.

Definition demo_item (key : string) (t : EvidenceValueType) (v : json) : ObserverEvidence :=
  {| ev_key := u key; ev_value_type := t; ev_value := EvidenceJson v; ev_sensitive := false |}.
Definition demo_query (key : string) : ObserverQueryConfig := {| cq_observer := u "store"; cq_key := u key; cq_parameters := JObject [] |}.
(** The balance of an account is at least a decimal. *)
Definition demo_predicate_of (name : string) (path : option str) (comparator : Comparator) (expected : TypedValue) : Predicate :=
  {| pr_name := u name; pr_query := demo_query "account"; pr_path := path; pr_comparator := comparator; pr_expected := expected;
     pr_missing_pointer := match path with Some _ => Some Missing_FAIL | None => None end |}.
Definition demo_balance : Predicate := demo_predicate_of "balance" (Some (u "/balance")) Comparator_GTE (DecimalStringTypedValue (u "10.50")).
Definition demo_closed : Predicate := demo_predicate_of "open" (Some (u "/open")) Comparator_EQ (BooleanTypedValue true).
Definition demo_account (balance : string) (is_open : bool) : list ObserverEvidence :=
  [demo_item "account" Value_OBJECT (JObject [(u "balance", JString (u balance)); (u "open", JBool is_open)])].

Lemma demo_balance_ready : predicate_ready demo_balance.
Proof. split; vm_compute; reflexivity. Qed.
Lemma demo_closed_ready : predicate_ready demo_closed.
Proof. split; vm_compute; reflexivity. Qed.
Lemma demo_account_valid : Forall valid_evidence (demo_account "1.05e1" true).
Proof. constructor; [split; vm_compute; reflexivity|constructor]. Qed.

(** Evaluating a predicate raises when no evidence can hold what it expects. *)
Lemma unevaluable_raises p evidence : ~ evaluable (pr_expected p) -> is_ok (evaluate_evidence_predicate p evidence) = false.
Proof. unfold evaluable, evaluate_evidence_predicate. intros Hno. by destruct (_expected_fact (pr_expected p)). Qed.

(** C27: a predicate over a snapshot is decided by what it looks at.  For a valid predicate on valid evidence
    the evaluation answers exactly when the expected value is one that evidence can hold (the
    configuration admits some that are not, and the evaluation then raises); when it answers, it carries
    the predicate's name and a truth value that agrees with its result; it passes exactly when the one item
    under the predicate's key, or the value its pointer leads to in it, compares as configured with the
    expected value, it fails exactly when that comparison is false or the pointer leads nowhere and a
    missing value counts as a failure, and it is an error in every other case. *)
Theorem predicate_verdict p evidence (Hp : validate_predicate p = Ok p) (He : Forall valid_evidence evidence) :
  (is_ok (evaluate_evidence_predicate p evidence) = true <-> evaluable (pr_expected p)) /\
  forall e, evaluate_evidence_predicate p evidence = Ok e ->
    pe_predicate_name e = pr_name p /\ pe_truth_value e = truth (pe_result e) /\
    (pe_result e = Result_PASS <-> observes p evidence (Some true)) /\
    (pe_result e = Result_FAIL <-> observes p evidence (Some false) \/ misses p evidence) /\
    (pe_result e = Result_ERROR <-> ~ observes p evidence (Some true) /\ ~ observes p evidence (Some false) /\ ~ misses p evidence).
Proof.
  destruct (is_ok (_expected_fact (pr_expected p))) eqn:Hexp; fold (evaluable (pr_expected p)) in Hexp.
  - destruct (predicate_decided p evidence (Build_predicate_ready _ Hp Hexp) He) as (e & He' & Hn & Hd & Ht & Hpass & Hfail).
    rewrite He'. split; [done|]. intros e' [= <-]. repeat (split; [done|]).
    split; [|destruct Hd as [Hr|[Hr|Hr]]; rewrite Hr in *; naive_solver]. intros Hr. rewrite Hr in *. naive_solver.
  - assert (is_ok (evaluate_evidence_predicate p evidence) = false) as Hno by (apply unevaluable_raises; unfold evaluable; by rewrite Hexp).
    split; [unfold evaluable; by rewrite Hno, Hexp|]. intros e E. by rewrite E in Hno.
Qed.

Lemma predicate_verdict_witness :
  (is_ok (evaluate_evidence_predicate demo_balance (demo_account "1.05e1" true)) = true <-> evaluable (pr_expected demo_balance)) /\
  forall e, evaluate_evidence_predicate demo_balance (demo_account "1.05e1" true) = Ok e ->
    pe_predicate_name e = pr_name demo_balance /\ pe_truth_value e = truth (pe_result e) /\
    (pe_result e = Result_PASS <-> observes demo_balance (demo_account "1.05e1" true) (Some true)) /\
    (pe_result e = Result_FAIL <-> observes demo_balance (demo_account "1.05e1" true) (Some false) \/ misses demo_balance (demo_account "1.05e1" true)) /\
    (pe_result e = Result_ERROR <-> ~ observes demo_balance (demo_account "1.05e1" true) (Some true) /\
       ~ observes demo_balance (demo_account "1.05e1" true) (Some false) /\ ~ misses demo_balance (demo_account "1.05e1" true)).
Proof. exact (predicate_verdict demo_balance (demo_account "1.05e1" true) (ready_valid _ demo_balance_ready) demo_account_valid). Defined.
(** A timestamp the configuration admits and no evidence can hold. *)
Example demo_unevaluable :
  let p := demo_predicate_of "closed" (Some (u "/closed")) Comparator_EQ (TimestampTypedValue (u "2024-02-30T25:00:00Z")) in
  is_ok (validate_predicate p) = true /\ evaluate_evidence_predicate p (demo_account "1" true) = Raise ValueError.
Proof. split; vm_compute; reflexivity. Qed.
Example demo_balances :
  map (fun b => match evaluate_evidence_predicate demo_balance (demo_account b true) with Ok e => Some (pe_result e) | Raise _ => None end)
    ["1.05e1"; "10.49"; "ten"; "1e9999999999999999999"]%string
  = [Some Result_PASS; Some Result_FAIL; Some Result_ERROR; Some Result_ERROR].
Proof. vm_compute. reflexivity. Qed.

(** * All side effects or none

    What [evaluate_no_partial_side_effect_assertion] concludes from the verdicts of its predicates. *)

(** The result of a predicate over a snapshot. *)
Definition verdict (p : Predicate) (evidence : list ObserverEvidence) (outcome : AssertionResult) : Prop :=
  exists e, evaluate_evidence_predicate p evidence = Ok e /\ pe_result e = outcome.

(** A response as the protocol validates it, with valid evidence. *)
Record response_ready (r : ObserverResponse) : Prop := {
  response_valid : validate_observer_response r = Ok r;
  response_evidence : Forall valid_evidence (rsp_evidence r)
}.

Lemma composite_fields a : validate_no_partial a = Ok tt ->
  np_id a <> [] /\ 2 <= zlen (np_predicates a) /\ NoDup (map pr_name (np_predicates a)).
Proof.
  unfold validate_no_partial. intros H. destruct (ProfileName (np_id a)) eqn:E; [|done]. destruct (each_valid _ _); [|done].
  destruct (validate_predicates (np_predicates a)) eqn:Ep; [|done]. unfold validate_predicates in Ep. py_step Ep. unfold config_unique in Ep.
  destruct (bool_decide (NoDup (map pr_name (np_predicates a)))) eqn:En; [|done]. py_bool. split; [by eapply profile_name_nonempty|].
  unfold MIN_COMPOSITE_ASSERTION_ITEMS in *. split; [lia|done].
Qed.

Lemma snapshot_nonempty r : validate_observer_response r = Ok r -> rsp_snapshot_id r <> Some [].
Proof. unfold validate_observer_response. intros H E. do 2 py_step H. rewrite E in H. done. Qed.

(** The evaluations of the predicates, one for each, in order. *)
Lemma evaluations_of predicates evidence : Forall predicate_ready predicates -> Forall valid_evidence evidence ->
  exists es, map_result (fun p => evaluate_evidence_predicate p evidence) predicates = Ok es /\
    Forall2 (fun p e => evaluate_evidence_predicate p evidence = Ok e /\ pe_predicate_name e = pr_name p /\ decisive_result (pe_result e) /\
      pe_truth_value e = truth (pe_result e)) predicates es.
Proof.
  intros Hp He. induction Hp as [|p predicates Hp Hps IH]; [by exists []|]. destruct IH as (es & Hes & Hall).
  destruct (predicate_decided p evidence Hp He) as (e & Hev & Hn & Hd & Ht & _). exists (e :: es). simpl. rewrite Hev, Hes. split; [done|]. by constructor.
Qed.

Lemma unevaluable_composite a r :
  Exists (fun p => ~ evaluable (pr_expected p)) (np_predicates a) -> is_ok (evaluate_no_partial_side_effect_assertion a r) = false.
Proof.
  unfold evaluate_no_partial_side_effect_assertion. intros Hno.
  assert (is_ok (map_result (fun p => evaluate_evidence_predicate p (rsp_evidence r)) (np_predicates a)) = false) as Hmap.
  { induction Hno as [p predicates Hp|p predicates _ IH]; simpl.
    - pose proof (unevaluable_raises p (rsp_evidence r) Hp). by destruct (evaluate_evidence_predicate p (rsp_evidence r)).
    - destruct (evaluate_evidence_predicate p (rsp_evidence r)); [|done]. by destruct (map_result _ predicates). }
  by destruct (map_result _ (np_predicates a)).
Qed.

Lemma composite_result_ok a outcome code es snapshot :
  validate_no_partial a = Ok tt -> outcome ∈ [Result_PASS; Result_FAIL; Result_ERROR; Result_SKIPPED] ->
  map pe_predicate_name es = map pr_name (np_predicates a) -> snapshot <> Some [] ->
  _composite_result a outcome code es snapshot =
  Ok {| ne_assertion_id := np_id a; ne_result := outcome; ne_code := code; ne_predicates := es; ne_snapshot_id := snapshot |}.
Proof.
  intros Hv Ho Hn Hs. destruct (composite_fields a Hv) as (Hid & Hlen & Hnd). unfold _composite_result, make_composite_evaluation.
  cbn [ne_assertion_id ne_result ne_predicates ne_snapshot_id]. rewrite bool_decide_eq_false_2, bool_decide_eq_true_2 by done. cbn [negb].
  assert (zlen es = zlen (np_predicates a)) as -> by (unfold zlen; by rewrite <- (length_map pe_predicate_name), Hn, length_map).
  rewrite (proj2 (Z.ltb_ge _ _)) by done. rewrite Hn, bool_decide_eq_true_2 by done. cbn [negb]. by rewrite bool_decide_eq_false_2.
Qed.

(** Every predicate of one assertion asks one observer. *)
Definition one_observer (a : NoPartialSideEffectAssertion) : Prop := exists observer, Forall (fun p => cq_observer (pr_query p) = observer) (np_predicates a).
Lemma one_observer_count a : np_predicates a <> [] ->
  (zlen (remove_dups (map (fun p => cq_observer (pr_query p)) (np_predicates a))) =? 1) = true <-> one_observer a.
Proof.
  intros Hne. unfold one_observer. set (ids := map (fun p => cq_observer (pr_query p)) (np_predicates a)). rewrite Z.eqb_eq.
  assert (forall observer, Forall (fun p => cq_observer (pr_query p) = observer) (np_predicates a) <-> Forall (fun x => x = observer) ids) as Hall
    by (intros; unfold ids; by rewrite list.Forall_fmap). setoid_rewrite Hall.
  assert (ids <> []) as Hids by (unfold ids; by destruct (np_predicates a)). pose proof (NoDup_remove_dups ids) as Hnd.
  assert (forall x, x ∈ remove_dups ids <-> x ∈ ids) as Hin by (intros; apply elem_of_remove_dups). revert Hnd Hin. generalize (remove_dups ids). intros l Hnd Hin. split.
  - intros Hl. destruct l as [|x [|y l]]; try (unfold zlen in Hl; simpl in Hl; lia). exists x. apply list.Forall_forall. intros z Hz.
    by apply Hin, list_elem_of_singleton in Hz.
  - intros (x & Hx). rewrite list.Forall_forall in Hx. destruct l as [|y [|z l]]; [|done|].
    + destruct ids as [|i ids']; [done|]. by assert (i ∈ []) as ?%not_elem_of_nil by (apply Hin; left).
    + assert (y = x) as -> by (apply Hx, Hin; left). assert (z = x) as -> by (apply Hx, Hin; right; left). apply list.NoDup_cons in Hnd as [Hnd _].
      destruct Hnd. left.
Qed.

Lemma verdict_unique p evidence r r' : verdict p evidence r -> verdict p evidence r' -> r = r'.
Proof. intros (e & He & <-) (e' & He' & <-). congruence. Qed.

(** ** What the verdicts of the predicates decide *)

Definition present (evidence : list ObserverEvidence) (p : Predicate) : Prop := verdict p evidence Result_PASS.
Definition absent (evidence : list ObserverEvidence) (p : Predicate) : Prop := verdict p evidence Result_FAIL.
Definition undecided (evidence : list ObserverEvidence) (p : Predicate) : Prop := verdict p evidence Result_ERROR.

(** The evaluations that make up a list of verdicts. *)
Definition verdicts (evidence : list ObserverEvidence) (predicates : list Predicate) (es : list EvidencePredicateEvaluation) : Prop :=
  Forall2 (fun p e => evaluate_evidence_predicate p evidence = Ok e /\ pe_predicate_name e = pr_name p /\ decisive_result (pe_result e) /\
    pe_truth_value e = truth (pe_result e)) predicates es.

Lemma verdict_of p evidence e r : evaluate_evidence_predicate p evidence = Ok e -> verdict p evidence r <-> pe_result e = r.
Proof. intros He. split; [intros (e' & He' & Hr); congruence|intros Hr; by exists e]. Qed.

Lemma undecided_some evidence predicates es : verdicts evidence predicates es ->
  existsb (fun item => bool_decide (pe_result item = Result_ERROR)) es = true <-> Exists (undecided evidence) predicates.
Proof.
  induction 1 as [|p e predicates es (He & _) _ IH]; simpl; [split; [done|intros H; by apply Exists_nil in H]|].
  rewrite orb_true_iff, bool_decide_eq_true, IH, Exists_cons. unfold undecided. by rewrite (verdict_of _ _ _ _ He).
Qed.
Lemma truths_all evidence predicates es (b : bool) : verdicts evidence predicates es ->
  forallb (fun value => bool_decide (value = Some b)) (map pe_truth_value es) = true <->
  Forall (fun p => verdict p evidence (if b then Result_PASS else Result_FAIL)) predicates.
Proof.
  induction 1 as [|p e predicates es (He & _ & Hd & Ht) _ IH]; simpl; [by split|].
  rewrite andb_true_iff, bool_decide_eq_true, IH, list.Forall_cons, (verdict_of _ _ _ _ He), Ht.
  destruct Hd as [->|[->| ->]], b; simpl; intuition congruence.
Qed.
Lemma verdicts_split evidence predicates es : verdicts evidence predicates es -> ~ Exists (undecided evidence) predicates ->
  ~ Forall (present evidence) predicates <-> Exists (absent evidence) predicates.
Proof.
  unfold undecided, present, absent. induction 1 as [|p e predicates es (He & _ & Hd & _) _ IH]; [intros _; split; [intros []; constructor|inversion 1]|].
  rewrite !Exists_cons, list.Forall_cons, !(verdict_of _ _ _ _ He). intros Hu. specialize (IH ltac:(tauto)).
  destruct Hd as [Hd|[Hd|Hd]]; rewrite Hd in *; naive_solver.
Qed.
Lemma verdicts_split' evidence predicates es : verdicts evidence predicates es -> ~ Exists (undecided evidence) predicates ->
  ~ Forall (absent evidence) predicates <-> Exists (present evidence) predicates.
Proof.
  unfold undecided, present, absent. induction 1 as [|p e predicates es (He & _ & Hd & _) _ IH]; [intros _; split; [intros []; constructor|inversion 1]|].
  rewrite !Exists_cons, list.Forall_cons, !(verdict_of _ _ _ _ He). intros Hu. specialize (IH ltac:(tauto)).
  destruct Hd as [Hd|[Hd|Hd]]; rewrite Hd in *; naive_solver.
Qed.

Lemma all_decided evidence predicates x : predicates <> [] -> (x = Result_PASS \/ x = Result_FAIL) ->
  Forall (fun p => verdict p evidence x) predicates -> ~ Exists (undecided evidence) predicates.
Proof.
  intros Hne Hx Hall (p & Hp & Hu)%list.Exists_exists. rewrite list.Forall_forall in Hall. pose proof (verdict_unique _ _ _ _ (Hall p Hp) Hu).
  by destruct Hx; subst x.
Qed.

(** The assertion's verdict over a snapshot, in terms of its predicates'. *)
Definition all_or_none (a : NoPartialSideEffectAssertion) (r : ObserverResponse) : Prop :=
  one_observer a /\ rsp_status r = Response_OK /\
  (Forall (present (rsp_evidence r)) (np_predicates a) \/ Forall (absent (rsp_evidence r)) (np_predicates a)).
Definition partial_side_effect (a : NoPartialSideEffectAssertion) (r : ObserverResponse) : Prop :=
  one_observer a /\ rsp_status r = Response_OK /\ ~ Exists (undecided (rsp_evidence r)) (np_predicates a) /\
  Exists (present (rsp_evidence r)) (np_predicates a) /\ Exists (absent (rsp_evidence r)) (np_predicates a).
Definition excused (a : NoPartialSideEffectAssertion) (r : ObserverResponse) : Prop :=
  one_observer a /\ rsp_status r = Response_UNSUPPORTED /\ on_unsupported (np_options a) = Unsupported_SKIP.

Definition demo_both : NoPartialSideEffectAssertion :=
  {| np_id := u "side-effects"; np_options := {| on_unsupported := Unsupported_SKIP; opt_within := None; opt_poll_interval := None |}; np_predicates := [demo_balance; demo_closed] |}.
Definition demo_account_response (balance : string) (is_open : bool) : ObserverResponse :=
  {| rsp_request_id := u "request_01ARZ3NDEKTSV4RRFFQ69G5FAV"; rsp_status := Response_OK;
     rsp_capabilities := {| cap_evidence_types := [Value_OBJECT]; cap_evidence_keys := [u "account"]; cap_read_only := true; cap_idempotent := true;
       cap_max_queries := 1; cap_supports_pending := false; cap_stable_snapshot_ids := true |};
     rsp_snapshot_id := Some (u "snapshot-1"); rsp_evidence := demo_account balance is_open; rsp_error := None |}.

(** The result, from what is asked of the evaluations. *)
Definition concluded (one_observer : bool) (status : ObserverResponseStatus) (skip errors all_hold all_fail : bool) : AssertionResult :=
  if negb one_observer then Result_ERROR
  else match status with
       | Response_OK => if errors then Result_ERROR else if all_hold || all_fail then Result_PASS else Result_FAIL
       | Response_UNSUPPORTED => if skip then Result_SKIPPED else Result_ERROR
       | _ => Result_ERROR
       end.
Lemma composite_concluded a r es : validate_no_partial a = Ok tt -> rsp_snapshot_id r <> Some [] ->
  map_result (fun p => evaluate_evidence_predicate p (rsp_evidence r)) (np_predicates a) = Ok es ->
  map pe_predicate_name es = map pr_name (np_predicates a) ->
  exists e, evaluate_no_partial_side_effect_assertion a r = Ok e /\ ne_predicates e = es /\
    ne_result e = concluded (zlen (remove_dups (map (fun p => cq_observer (pr_query p)) (np_predicates a))) =? 1) (rsp_status r)
      (bool_decide (on_unsupported (np_options a) = Unsupported_SKIP))
      (existsb (fun item => bool_decide (pe_result item = Result_ERROR)) es)
      (forallb (fun value => bool_decide (value = Some true)) (map pe_truth_value es))
      (forallb (fun value => bool_decide (value = Some false)) (map pe_truth_value es)).
Proof.
  intros Hv Hs Hes Hn. unfold evaluate_no_partial_side_effect_assertion, concluded. rewrite Hes.
  assert (forall outcome code snapshot, outcome ∈ [Result_PASS; Result_FAIL; Result_ERROR; Result_SKIPPED] -> snapshot <> Some [] ->
    exists e, _composite_result a outcome code es snapshot = Ok e /\ ne_predicates e = es /\ ne_result e = outcome) as Hmake
    by (intros; rewrite composite_result_ok by done; by eexists).
  destruct (zlen _ =? 1); cbn [negb]; [|apply Hmake; [set_solver|done]].
  destruct (rsp_status r); cbn [bool_decide decide_rel ObserverResponseStatus_eq_dec]; simpl.
  - destruct (existsb _ es); [apply Hmake; [set_solver|done]|]. destruct (forallb _ (map _ es)); [apply Hmake; [set_solver|done]|].
    destruct (forallb _ (map _ es)); simpl; (apply Hmake; [set_solver|done]).
  - apply Hmake; [set_solver|done].
  - destruct (bool_decide _); (apply Hmake; [set_solver|done]).
  - apply Hmake; [set_solver|done].
Qed.

(** What that function answers, when its arguments decide these propositions. *)
Lemma concluded_spec one status skip errors all_hold all_fail (One Skip Errors AllHold AllFail SomeHold SomeFail : Prop) :
  (one = true <-> One) -> (skip = true <-> Skip) -> (errors = true <-> Errors) -> (all_hold = true <-> AllHold) -> (all_fail = true <-> AllFail) ->
  (~ Errors -> (~ AllHold <-> SomeFail)) -> (~ Errors -> (~ AllFail <-> SomeHold)) -> (AllHold \/ AllFail -> ~ Errors) ->
  let x := concluded one status skip errors all_hold all_fail in
  let pass := One /\ status = Response_OK /\ (AllHold \/ AllFail) in
  let fail := One /\ status = Response_OK /\ ~ Errors /\ SomeHold /\ SomeFail in
  let skipped := One /\ status = Response_UNSUPPORTED /\ Skip in
  (x = Result_PASS <-> pass) /\ (x = Result_FAIL <-> fail) /\ (x = Result_SKIPPED <-> skipped) /\ (x = Result_ERROR <-> ~ pass /\ ~ fail /\ ~ skipped).
Proof.
  intros E1 E2 E3 E4 E5 H1 H2 H3. unfold concluded.
  destruct one, status, skip, errors, all_hold, all_fail; simpl; intuition congruence.
Qed.

(** C26: the composite assertion tells a partial side effect from none.  Take a valid assertion with valid
    predicates and a response the protocol validates.  If every expected value is one that evidence can
    hold, the evaluation answers, with the evaluation of every predicate on the response's evidence, in
    order; asked of one observer that answered, it passes exactly when every predicate
    holds or every one of them fails, and it fails exactly when, none of them being undecided, some
    hold and some do not; it is skipped exactly when the observer does not support the query and the
    assertion lets it; in every other case, several observers included, the result is an error.  If some
    expected value is none that evidence can hold, the evaluation raises. *)
Theorem side_effects_all_or_none a r (Ha : validate_no_partial a = Ok tt) (Hpredicates : Forall (fun p => validate_predicate p = Ok p) (np_predicates a))
    (Hr : response_ready r) :
  (Exists (fun p => ~ evaluable (pr_expected p)) (np_predicates a) -> is_ok (evaluate_no_partial_side_effect_assertion a r) = false) /\
  (Forall (fun p => evaluable (pr_expected p)) (np_predicates a) ->
   exists e, evaluate_no_partial_side_effect_assertion a r = Ok e /\
    map_result (fun p => evaluate_evidence_predicate p (rsp_evidence r)) (np_predicates a) = Ok (ne_predicates e) /\
    (ne_result e = Result_PASS <-> all_or_none a r) /\ (ne_result e = Result_FAIL <-> partial_side_effect a r) /\
    (ne_result e = Result_SKIPPED <-> excused a r) /\
    (ne_result e = Result_ERROR <-> ~ all_or_none a r /\ ~ partial_side_effect a r /\ ~ excused a r)).
Proof.
  split; [by apply unevaluable_composite|].
  intros Hexp. destruct Hr as [Hr He]. rename Ha into Hv.
  assert (Forall predicate_ready (np_predicates a)) as Hp.
  { rewrite list.Forall_forall in *. intros p Hin. split; [by apply Hpredicates|by apply Hexp]. }
  destruct (evaluations_of _ _ Hp He) as (es & Hes & Hall). fold (verdicts (rsp_evidence r) (np_predicates a) es) in Hall.
  assert (map pe_predicate_name es = map pr_name (np_predicates a)) as Hn by (clear - Hall; induction Hall as [|???? (_ & Hn & _)]; simpl; congruence).
  pose proof (snapshot_nonempty r Hr) as Hs. destruct (composite_fields a Hv) as (_ & Hlen & _).
  assert (np_predicates a <> []) as Hne by (intros E; rewrite E in Hlen; unfold zlen in Hlen; simpl in Hlen; lia).
  pose proof (one_observer_count a Hne) as Hone. pose proof (undecided_some _ _ _ Hall) as Hund.
  pose proof (truths_all _ _ _ true Hall) as Htrue. pose proof (truths_all _ _ _ false Hall) as Hfalse.
  pose proof (verdicts_split _ _ _ Hall) as Hsplit. pose proof (verdicts_split' _ _ _ Hall) as Hsplit'.
  pose proof (fun x Hx => all_decided (rsp_evidence r) (np_predicates a) x Hne Hx) as Hdec.
  pose proof (Hdec Result_PASS (or_introl eq_refl)) as Hdec1. pose proof (Hdec Result_FAIL (or_intror eq_refl)) as Hdec2.
  destruct (composite_concluded a r es Hv Hs Hes Hn) as (e & Hev & Hpe & Hr'). exists e. split; [done|]. rewrite Hpe. split; [done|].
  rewrite Hr'. refine (concluded_spec _ (rsp_status r) _ _ _ _ _ _ _ _ _ _ _ Hone (bool_decide_eq_true _) Hund Htrue Hfalse Hsplit Hsplit' _).
  by intros [?|?]; [apply Hdec1|apply Hdec2].
Qed.

Lemma side_effects_all_or_none_witness :
  exists e, evaluate_no_partial_side_effect_assertion demo_both (demo_account_response "1.05e1" false) = Ok e /\
    map_result (fun p => evaluate_evidence_predicate p (demo_account "1.05e1" false)) (np_predicates demo_both) = Ok (ne_predicates e) /\
    (ne_result e = Result_PASS <-> all_or_none demo_both (demo_account_response "1.05e1" false)) /\
    (ne_result e = Result_FAIL <-> partial_side_effect demo_both (demo_account_response "1.05e1" false)) /\
    (ne_result e = Result_SKIPPED <-> excused demo_both (demo_account_response "1.05e1" false)) /\
    (ne_result e = Result_ERROR <-> ~ all_or_none demo_both (demo_account_response "1.05e1" false) /\
       ~ partial_side_effect demo_both (demo_account_response "1.05e1" false) /\ ~ excused demo_both (demo_account_response "1.05e1" false)).
Proof.
  apply (side_effects_all_or_none demo_both (demo_account_response "1.05e1" false)).
  - vm_compute. reflexivity.
  - repeat constructor; vm_compute; reflexivity.
  - split; [vm_compute; reflexivity|repeat constructor; vm_compute; reflexivity].
  - repeat constructor; vm_compute; reflexivity.
Defined.
Example demo_side_effects :
  map (fun x => match evaluate_no_partial_side_effect_assertion demo_both (demo_account_response (fst x) (snd x)) with Ok e => Some (ne_code e) | Raise _ => None end)
    [("1.05e1", true); ("10", false); ("10", true); ("11", false); ("ten", true)]%string
  = [Some Composite_ALL_PRESENT; Some Composite_NONE_PRESENT; Some Composite_PARTIAL_SIDE_EFFECT; Some Composite_PARTIAL_SIDE_EFFECT;
     Some Composite_PREDICATE_ERROR].
Proof. vm_compute. reflexivity. Qed.
