(* ===== verification/TemporalLaws.v ===== *)
(** * What temporal assertions decide

    The order of recorded states, and the state a polling series reached. *)

From S2P Require Import Prelude Text TextLemmas Identifiers Domain Clocks Commands Json Policy Evidence ObserverProtocol Polling PollingLaws PollingSeries PollingSettles ConfigValues AssertionConfig EvidenceFacts EvidenceLaws FactLaws Evaluators TemporalAssertions CompositeLaws.

Local Open Scope Z_scope.

(** * The order of states

    What an ordered transition requires of the states an observer recorded. *)

(** ** Subsequences and segments *)

Lemma ordered_from_exact actual : forall remaining, remaining <> [] ->
  exists b, ordered_from actual remaining = Ok b /\ (b = true <-> sublist remaining actual).
Proof.
  induction actual as [|state actual IH]; intros [|next remaining] Hne; [done| |done|]; simpl.
  { exists false. split; [done|]. split; [done|]. intros H. by inversion H. }
  case_bool_decide as Hs; [|destruct (IH (next :: remaining) Hne) as (b & Hb & Hiff)].
  - subst state. case_bool_decide as Hr.
    + subst remaining. exists true. split; [done|]. split; [|done]. intros _. apply sublist_skip, sublist_nil_l.
    + destruct (IH remaining Hr) as (b & Hb & Hiff). exists b. split; [done|]. rewrite Hiff. split; [apply sublist_skip|].
      intros H. inversion H as [| |? ? ? Hc]; subst; [done|]. by eapply sublist_cons_l in Hc as (? & ? & -> & ?); apply sublist_inserts_l, sublist_cons.
  - exists b. split; [done|]. rewrite Hiff. split; [apply sublist_cons|]. intros H. by inversion H.
Qed.

Definition segment (expected actual : list str) : Prop := exists before after, actual = before ++ expected ++ after.
Lemma contiguous_exact actual expected : _contains_contiguous_sequence actual expected = true <-> segment expected actual.
Proof.
  unfold _contains_contiguous_sequence, segment. destruct (zlen actual <? zlen expected) eqn:El.
  - split; [done|]. intros (before & after & ->). apply Z.ltb_lt in El. unfold zlen in El. rewrite !length_app in El. lia.
  - apply Z.ltb_ge in El. unfold zlen in El. rewrite existsb_exists. split.
    + intros (i & Hi & He). apply bool_decide_eq_true in He. exists (take i actual), (drop (length expected) (drop i actual)).
      by rewrite <- He at 1; rewrite !take_drop.
    + intros (before & after & ->). exists (length before). split.
      * apply in_seq. rewrite !length_app. lia.
      * apply bool_decide_eq_true. by rewrite drop_app_length, take_app_length.
Qed.

(** ** The verdict *)

(** The states the one array under the assertion's key records. *)
Definition recorded (a : OrderedTransitionAssertion) (evidence : list ObserverEvidence) (states : list str) : Prop :=
  exists observed values, matching_evidence (cq_key (ot_query a)) evidence = [observed] /\ ev_value_type observed = Value_ARRAY /\
    ev_value observed = EvidenceJson (JArray values) /\ Forall2 (fun v s => transition_state v = Some s) values states.
(** The configured states are among them, in order, with others between them only when the assertion allows it. *)
Definition states_in_order (a : OrderedTransitionAssertion) (states : list str) : Prop :=
  if ot_allow_intermediate a then sublist (ot_states a) states else segment (ot_states a) states.

Lemma ordered_fields a : validate_ordered a = Ok tt -> ot_id a <> [] /\ cq_key (ot_query a) <> [] /\ ot_states a <> [].
Proof.
  unfold validate_ordered. intros H. destruct (ProfileName (ot_id a)) eqn:E1; [|done]. destruct (validate_query (ot_query a)) eqn:E2; [|done].
  destruct (each_valid _ _); [|done]. destruct (validate_states (ot_states a)) eqn:E3; [|done]. split; [by eapply profile_name_nonempty|].
  split; [by eapply query_key_nonempty|]. unfold validate_states in E3. intros E. by rewrite E in E3.
Qed.

Lemma ordered_result_ok a outcome code expected actual source : validate_ordered a = Ok tt -> decisive_result outcome ->
  exists e, _ordered_result a outcome code expected actual source = Ok e /\ oe_result e = outcome /\ oe_code e = code.
Proof.
  intros Hv Ho. destruct (ordered_fields a Hv) as (Hid & Hkey & _). unfold _ordered_result, make_ordered_evaluation.
  cbn [oe_assertion_id oe_evidence_key oe_result]. rewrite !bool_decide_eq_false_2 by done. cbn [orb].
  rewrite bool_decide_eq_true_2 by (destruct Ho as [->|[->| ->]]; set_solver). by eexists.
Qed.

Lemma transition_states_spec values : match _transition_states values with
  | Some states => Forall2 (fun v s => transition_state v = Some s) values states
  | None => forall states, ~ Forall2 (fun v s => transition_state v = Some s) values states
  end.
Proof.
  unfold _transition_states. destruct (mapM transition_state values) as [states|] eqn:E; [by apply mapM_Some in E|].
  intros states H. apply mapM_Some in H. congruence.
Qed.
Lemma recorded_unique a evidence s t : recorded a evidence s -> recorded a evidence t -> s = t.
Proof.
  intros (o & vs & Ho & _ & Hv & Hs) (o' & vs' & Ho' & _ & Hv' & Ht). rewrite Ho in Ho'. injection Ho' as <-. rewrite Hv in Hv'. injection Hv' as <-.
  apply mapM_Some in Hs, Ht. congruence.
Qed.

Definition array_evidence (o : ObserverEvidence) : Prop := ev_value_type o = Value_ARRAY /\ exists values, ev_value o = EvidenceJson (JArray values).
Lemma array_or_not o : array_evidence o \/ ~ array_evidence o.
Proof.
  unfold array_evidence. destruct (ev_value_type o), (ev_value o) as [[]|]; try (right; intros [? [? ?]]; congruence). left. split; [done|]. by eexists.
Qed.

Definition demo_progress (allow : bool) : OrderedTransitionAssertion :=
  {| ot_id := u "progress"; ot_options := {| on_unsupported := Unsupported_UNSUPPORTED; opt_within := None; opt_poll_interval := None |};
     ot_query := demo_query "states"; ot_states := [u "created"; u "paid"]; ot_allow_intermediate := allow |}.
Definition demo_states (states : list string) : list ObserverEvidence :=
  [demo_item "states" Value_ARRAY (JArray (map (fun s => JObject [(u "state", JString (u s)); (u "timestamp", JString (u "2026-02-28T12:00:00Z"))]) states))].

(** C30: an ordered transition passes exactly on the orders it allows.  A valid assertion is always
    answered: it passes when the one array under its key records states among which the configured ones
    come in order, next to each other unless intermediate states are allowed, fails when the array
    records states of which that is not so, and is an error exactly when no such array is there. *)
Theorem ordered_states_exact a evidence (Ha : validate_ordered a = Ok tt) :
  exists e, evaluate_ordered_transition_assertion a evidence = Ok e /\
    (oe_result e = Result_PASS <-> exists states, recorded a evidence states /\ states_in_order a states) /\
    (oe_result e = Result_FAIL <-> exists states, recorded a evidence states /\ ~ states_in_order a states) /\
    (oe_result e = Result_ERROR <-> forall states, ~ recorded a evidence states).
Proof.
  destruct (ordered_fields a Ha) as (_ & _ & Hne). unfold evaluate_ordered_transition_assertion. simpl.
  assert (forall code expected actual source, (forall states, ~ recorded a evidence states) ->
    exists e, _ordered_result a Result_ERROR code expected actual source = Ok e /\
      (oe_result e = Result_PASS <-> exists states, recorded a evidence states /\ states_in_order a states) /\
      (oe_result e = Result_FAIL <-> exists states, recorded a evidence states /\ ~ states_in_order a states) /\
      (oe_result e = Result_ERROR <-> forall states, ~ recorded a evidence states)) as Herr.
  { intros code expected actual source Hno. destruct (ordered_result_ok a Result_ERROR code expected actual source Ha) as (e & He & Hr & _); [by right; right|].
    exists e. rewrite Hr. naive_solver. }
  destruct (matching_evidence (cq_key (ot_query a)) evidence) as [|observed [|second more]] eqn:Em.
  1, 3: apply Herr; intros states (o & vs & Ho & _); congruence.
  destruct (array_or_not observed) as [[Et (values & Ev)]|Hno].
  - rewrite Et, Ev. simpl. pose proof (transition_states_spec values) as Hs. destruct (_transition_states values) as [states|].
    2:{ apply Herr. intros states (o & vs & Ho & _ & Hv & H). rewrite Em in Ho. injection Ho as <-. rewrite Ev in Hv. injection Hv as <-. by apply (Hs states). }
    assert (recorded a evidence states) as Hrec by (exists observed, values; by split_and!).
    assert (exists b, (if ot_allow_intermediate a then _is_ordered_subsequence states (ot_states a) else Ok (_contains_contiguous_sequence states (ot_states a))) = Ok b /\
      (b = true <-> states_in_order a states)) as (b & Hb & Hiff).
    { unfold states_in_order. destruct (ot_allow_intermediate a); [by apply ordered_from_exact|]. eexists. split; [done|]. apply contiguous_exact. }
    rewrite Hb. destruct (ordered_result_ok a (if b then Result_PASS else Result_FAIL) (if b then Temporal_ORDER_MATCH else Temporal_ORDER_MISMATCH)
      (Some {| fact_type := Value_ARRAY; fact_value := EvidenceJson (JArray (map JString (ot_states a))); fact_sensitive := false |})
      (Some {| fact_type := Value_ARRAY; fact_value := EvidenceJson (JArray values); fact_sensitive := ev_sensitive observed |}) (Some observed) Ha)
      as (e & He & Hr & _); [unfold decisive_result; destruct b; tauto|].
    exists e. split; [exact He|]. rewrite Hr.
    assert (forall P : list str -> Prop, (exists states, recorded a evidence states /\ P states) <-> P states) as Hone.
    { intros P. split; [|by exists states]. intros (t & Ht & HP). by rewrite (recorded_unique _ _ _ _ Hrec Ht). }
    rewrite !Hone. destruct b; naive_solver.
  - assert (forall states, ~ recorded a evidence states) as Hnone.
    { intros states (o & vs & Ho & Ht & Hv & _). rewrite Em in Ho. injection Ho as <-. destruct Hno. split; [done|]. by exists vs. }
    unfold array_evidence in Hno. destruct (ev_value_type observed); try (by apply Herr). destruct (ev_value observed) as [[]|]; try (by apply Herr). destruct Hno. split; [done|]. by eexists.
Qed.

Lemma ordered_states_exact_witness :
  exists e, evaluate_ordered_transition_assertion (demo_progress false) (demo_states ["new"; "created"; "paid"]) = Ok e /\
    (oe_result e = Result_PASS <-> exists states, recorded (demo_progress false) (demo_states ["new"; "created"; "paid"]) states /\ states_in_order (demo_progress false) states) /\
    (oe_result e = Result_FAIL <-> exists states, recorded (demo_progress false) (demo_states ["new"; "created"; "paid"]) states /\ ~ states_in_order (demo_progress false) states) /\
    (oe_result e = Result_ERROR <-> forall states, ~ recorded (demo_progress false) (demo_states ["new"; "created"; "paid"]) states).
Proof. apply (ordered_states_exact (demo_progress false) (demo_states ["new"; "created"; "paid"])). vm_compute. reflexivity. Defined.
Example demo_orders :
  map (fun x => match evaluate_ordered_transition_assertion (demo_progress (fst x)) (demo_states (snd x)) with Ok e => Some (oe_result e) | Raise _ => None end)
    [(false, ["new"; "created"; "paid"]); (false, ["created"; "checked"; "paid"]); (true, ["created"; "checked"; "paid"]); (true, ["paid"; "created"]); (true, [""])]%string
  = [Some Result_PASS; Some Result_FAIL; Some Result_PASS; Some Result_FAIL; Some Result_ERROR].
Proof. vm_compute. reflexivity. Qed.

(** * The state reached in the end

    An eventual-state assertion evaluated on the polling series its own predicate drove: the verdict and
    the way the series ended say the same. *)

Record eventual_ready (a : EventualStateAssertion) : Prop := {
  eventual_valid : validate_eventual a = Ok tt;
  eventual_expected : evaluable (es_expected a)
}.






(** ** The verdict of a coherent result *)



(** ** The samples of a series *)

Lemma sample_id_nonempty id : _sample_id id = Ok id -> id <> [].
Proof. by intros H ->. Qed.

Definition demo_settled : EventualStateAssertion :=
  {| es_id := u "settled"; es_options := {| on_unsupported := Unsupported_SKIP; opt_within := Some (u "30ms"); opt_poll_interval := Some (u "10ms") |};
     es_query := demo_query "processed"; es_path := None; es_comparator := Comparator_GTE; es_expected := IntegerTypedValue 2;
     es_missing_pointer := None |}.
Lemma demo_settled_ready : eventual_ready demo_settled.
Proof. split; vm_compute; reflexivity. Qed.

(** ** What the verdict stands for *)






Example demo_settles :
  match poll 5 (demo_series demo_capability) (eventual_state_predicate demo_settled) (demo_state demo_answers []) with
  | Some (Ok res, _) => match evaluate_eventual_state_assertion demo_settled res with Ok e => Some (el_result e, el_code e) | Raise _ => None end
  | _ => None
  end = Some (Result_PASS, Temporal_EVENTUAL_MATCH).
Proof. vm_compute. reflexivity. Qed.
