(* ===== verification/Observations.v ===== *)
(** * Observation series and assertion evaluations in the journal

    The observation operations of [journal/repositories.py] and the adapter of [runtime/observations.py]
    that the poller writes through.  They use tables the transition repository does not: the columns of
    [observer_series] beside its state, [observation_samples], and the tables evidence links can name.  An
    [EvidenceDatabase] adds them to the [Database] of [Store]; a transition is applied to that part of
    it.  The constraints are written like those of [Store]. *)

From S2P Require Import Prelude Sha256 Text Identifiers Domain Clocks Lifecycle Commands Json Store Journal Retries Evidence ObserverProtocol Polling.

Local Open Scope Z_scope.

Inductive ObservationMutationPhase := AFTER_SERIES_INSERT | AFTER_SAMPLE_INSERT.
Abbreviation ObservationCrashHook := (TransitionMutationPhase + AttemptMutationPhase + ObservationMutationPhase -> option exn).
(** The hook as an operation of the transition repository calls it. *)
Definition transition_hook (hook : option ObservationCrashHook) : option TransitionCrashHook := option_map (fun h phase => h (inl phase)) hook.
Definition _call_observation_crash_hook (hook : option ObservationCrashHook) (phase : ObservationMutationPhase) : result unit :=
  match hook with
  | None => Ok tt
  | Some h => match h (inr phase) with Some e => Raise e | None => Ok tt end
  end.

(** [_ApplyTransitionOperation(command, hook)] *)
Definition plain_op (c : TransitionCommand) (hook : option TransitionCrashHook) : _ApplyTransitionOperation :=
  {| op_command := c; op_crash_hook := hook; op_phase_evidence := None; op_response_staging := None; op_transport_evidence := None |}.

(** ** Commands *)

Definition _bounded_control_free_text (value : str) (maximum : Z) : result str :=
  raise_if negb (within 1 maximum (zlen value)) || existsb is_control value with ValueError ;; Ok value.

Record ObservationSeriesCommand := {
  os_run_id : str; os_scenario_id : str; os_observation_id : str; os_observer_id : str; os_checkpoint : str; os_event_id : option str;
  os_initial_transition : TransitionCommand; os_running_transition : TransitionCommand
}.
Definition make_series_command (c : ObservationSeriesCommand) : result ObservationSeriesCommand :=
  let! _ := validate_run_id (os_run_id c) in
  let! _ := _scenario_id (os_scenario_id c) in
  let! _ := _observation_id (os_observation_id c) in
  let! _ := optional _event_id (os_event_id c) in
  let! _ := _bounded_control_free_text (os_observer_id c) 256 in
  let! _ := _bounded_control_free_text (os_checkpoint c) 128 in
  let initial := os_initial_transition c in
  let running := os_running_transition c in
  raise_if negb (bool_decide (tc_run_id initial = os_run_id c)) || negb (bool_decide (tc_entity_type initial = Entity_OBSERVATION))
           || negb (bool_decide (tc_entity_id initial = os_observation_id c)) || negb (is_none (tc_expected_state initial))
           || negb (bool_decide (tc_new_state initial = OfObservation Observation_SCHEDULED)) || negb (is_none (tc_causal_reference initial))
           || negb (is_none (tc_attempt_outcome initial)) with ValueError ;;
  raise_if negb (bool_decide (tc_run_id running = os_run_id c)) || negb (bool_decide (tc_entity_type running = Entity_OBSERVATION))
           || negb (bool_decide (tc_entity_id running = os_observation_id c))
           || negb (bool_decide (tc_expected_state running = Some (OfObservation Observation_SCHEDULED)))
           || negb (bool_decide (tc_new_state running = OfObservation Observation_RUNNING))
           || negb (tc_owner_epoch running =? tc_owner_epoch initial) || negb (is_none (tc_attempt_outcome running)) with ValueError ;;
  Ok c.

Record ObservationSampleCommand := { sm_record : ObservationRecord; sm_owner_epoch : Z; sm_terminal_transition : option TransitionCommand }.
(** The terminal states a sample of a status may leave the series in. *)
Definition allowed_states (s : ObservationStatus) : list ObservationState :=
  match s with
  | Status_OK => [Observation_OK]
  | Status_PENDING => [Observation_PENDING]
  | Status_UNSUPPORTED => [Observation_UNSUPPORTED]
  | Status_ERROR => [Observation_ERROR; Observation_CANCELLED]
  | Status_TIMEOUT => [Observation_TIMED_OUT]
  end.
Definition make_sample_command (c : ObservationSampleCommand) : result ObservationSampleCommand :=
  let record := sm_record c in
  raise_if negb (within 0 MAX_SAFE_INTEGER (sm_owner_epoch c)) with ValueError ;;
  match sm_terminal_transition c with
  | None => raise_if negb (bool_decide (rec_status record ∈ [Status_OK; Status_PENDING; Status_ERROR])) with ValueError ;; Ok c
  | Some t =>
    raise_if negb (bool_decide (tc_run_id t = rec_run_id record)) || negb (bool_decide (tc_entity_type t = Entity_OBSERVATION))
             || negb (bool_decide (tc_entity_id t = rec_observation_id record))
             || negb (bool_decide (tc_expected_state t = Some (OfObservation Observation_RUNNING)))
             || negb (tc_owner_epoch t =? sm_owner_epoch c)
             || match tc_causal_reference t with Some cause => negb (bool_decide (cause_record_id cause = rec_record_id record)) | None => true end
             || negb (is_none (tc_attempt_outcome t)) with ValueError ;;
    raise_if negb (bool_decide (tc_new_state t ∈ map OfObservation (allowed_states (rec_status record)))) with ValueError ;;
    Ok c
  end.

(** ** Tables *)

(** The columns of [observer_series] that [SeriesRow] does not hold. *)
Record SeriesColumns := { sr_event_id : option str; sr_checkpoint : str; sr_observer_id : str }.
#[global] Instance SeriesColumns_eq_dec : EqDecision SeriesColumns.
Proof. solve_decision. Defined.
Record SampleRow := {
  sp_record_id : str; sp_run_id : str; sp_scenario_id : str; sp_observation_id : str; sp_sample_sequence : Z; sp_status : str;
  sp_recorded_at : str; sp_snapshot_id : option str; sp_evidence_json : bytes; sp_error_json : option bytes
}.
#[global] Instance SampleRow_eq_dec : EqDecision SampleRow.
Proof. solve_decision. Defined.
Record EvaluationRow := {
  va_record_id : str; va_run_id : str; va_scenario_id : str; va_assertion_id : str; va_evaluation_sequence : Z; va_result : str;
  va_recorded_at : Z; va_expected_json : option bytes; va_actual_json : option bytes; va_comparison : option str; va_message : option str
}.
#[global] Instance EvaluationRow_eq_dec : EqDecision EvaluationRow.
Proof. solve_decision. Defined.
Record LinkRow := { lk_evaluation_id : str; lk_run_id : str; lk_ordinal : Z; lk_evidence_kind : str; lk_evidence_id : str }.

Record EvidenceDatabase := {
  ed_journal : Database;
  ed_events : list (str * str * str);
  ed_series : gmap str SeriesColumns;
  ed_samples : gmap str SampleRow;
  ed_assertion_types : gmap str str;
  ed_evaluations : gmap str EvaluationRow;
  ed_links : list LinkRow;
  ed_artifacts : list (str * str);
  ed_recovery_decisions : list (str * str)
}.
Definition with_journal (db : EvidenceDatabase) (journal : Database) : EvidenceDatabase :=
  {| ed_journal := journal; ed_events := ed_events db; ed_series := ed_series db; ed_samples := ed_samples db;
     ed_assertion_types := ed_assertion_types db; ed_evaluations := ed_evaluations db; ed_links := ed_links db;
     ed_artifacts := ed_artifacts db; ed_recovery_decisions := ed_recovery_decisions db |}.
Definition with_series (db : EvidenceDatabase) (journal : Database) (t : gmap str SeriesColumns) : EvidenceDatabase :=
  {| ed_journal := journal; ed_events := ed_events db; ed_series := t; ed_samples := ed_samples db;
     ed_assertion_types := ed_assertion_types db; ed_evaluations := ed_evaluations db; ed_links := ed_links db;
     ed_artifacts := ed_artifacts db; ed_recovery_decisions := ed_recovery_decisions db |}.
Definition with_samples (db : EvidenceDatabase) (t : gmap str SampleRow) : EvidenceDatabase :=
  {| ed_journal := ed_journal db; ed_events := ed_events db; ed_series := ed_series db; ed_samples := t;
     ed_assertion_types := ed_assertion_types db; ed_evaluations := ed_evaluations db; ed_links := ed_links db;
     ed_artifacts := ed_artifacts db; ed_recovery_decisions := ed_recovery_decisions db |}.
Definition with_evaluations (db : EvidenceDatabase) (t : gmap str EvaluationRow) (links : list LinkRow) : EvidenceDatabase :=
  {| ed_journal := ed_journal db; ed_events := ed_events db; ed_series := ed_series db; ed_samples := ed_samples db;
     ed_assertion_types := ed_assertion_types db; ed_evaluations := t; ed_links := links;
     ed_artifacts := ed_artifacts db; ed_recovery_decisions := ed_recovery_decisions db |}.

(** A transition, in the same transaction. *)
Definition apply_transition (db : EvidenceDatabase) (op : _ApplyTransitionOperation) : result (CommittedTransition * EvidenceDatabase) :=
  let! applied := apply_execute (ed_journal db) op in
  Ok (applied.1, with_journal db applied.2).

(** ** Beginning a series *)

(** The row of a series: its identity and its state. *)
Definition _load_observation_series (db : EvidenceDatabase) (observation_id : str) : option (str * str * SeriesColumns * ObservationState) :=
  row ← observer_series (ed_journal db) !! observation_id;
  columns ← ed_series db !! observation_id;
  Some (ob_run_id row, ob_scenario_id row, columns, ob_state row).
Definition same_scope (db : EvidenceDatabase) (c : ObservationSeriesCommand) (id : str) (columns : SeriesColumns) : bool :=
  match observer_series (ed_journal db) !! id with
  | Some row =>
    bool_decide ((ob_run_id row, ob_scenario_id row, sr_checkpoint columns, sr_observer_id columns, sr_event_id columns) =
                 (os_run_id c, os_scenario_id c, os_checkpoint c, os_observer_id c, os_event_id c))
  | None => false
  end.
Definition _reject_conflicting_observation_scope (db : EvidenceDatabase) (c : ObservationSeriesCommand) : result unit :=
  raise_if exists_row (ed_series db) (same_scope db c) with IdempotencyConflictError ;; Ok tt.
Definition series_columns (c : ObservationSeriesCommand) : SeriesColumns :=
  {| sr_event_id := os_event_id c; sr_checkpoint := os_checkpoint c; sr_observer_id := os_observer_id c |}.
(** Under the primary key and the references to the scenario and the event; a text parameter is stored in
    UTF-8. *)
Definition insert_series (db : EvidenceDatabase) (c : ObservationSeriesCommand) : result EvidenceDatabase :=
  let! _ := utf8_encode (os_checkpoint c) in
  let! _ := utf8_encode (os_observer_id c) in
  raise_if negb (is_none (observer_series (ed_journal db) !! os_observation_id c))
           || negb (scenario_exists (ed_journal db) (os_run_id c) (os_scenario_id c))
           || match os_event_id c with
              | Some event => negb (bool_decide ((os_run_id c, os_scenario_id c, event) ∈ ed_events db))
              | None => false
              end with SqlConstraintError ;;
  Ok (with_series db
        (with_observer_series (ed_journal db)
           (<[os_observation_id c := {| ob_run_id := os_run_id c; ob_scenario_id := os_scenario_id c; ob_state := Observation_SCHEDULED |}]>
              (observer_series (ed_journal db))))
        (<[os_observation_id c := series_columns c]> (ed_series db))).
(** [_BeginObservationSeriesOperation.execute] *)
Definition begin_execute (db : EvidenceDatabase) (c : ObservationSeriesCommand) (hook : option ObservationCrashHook)
    : result (CommittedTransition * CommittedTransition * EvidenceDatabase) :=
  let! _ := _require_current_owner (ed_journal db) (os_initial_transition c) in
  let! _ := _require_current_owner (ed_journal db) (os_running_transition c) in
  let! db1 :=
    match _load_observation_series db (os_observation_id c) with
    | None =>
      let! _ := _reject_conflicting_observation_scope db c in
      let! inserted := insert_series db c in
      let! _ := _call_observation_crash_hook hook AFTER_SERIES_INSERT in
      Ok inserted
    | Some (run_id, scenario_id, columns, _) =>
      raise_if negb (bool_decide ((run_id, scenario_id, columns) = (os_run_id c, os_scenario_id c, series_columns c))) with IdempotencyConflictError ;;
      Ok db
    end in
  let! initial := apply_transition db1 (plain_op (os_initial_transition c) (transition_hook hook)) in
  let! running := apply_transition initial.2 (plain_op (os_running_transition c) (transition_hook hook)) in
  Ok (initial.1, running.1, running.2).

(** ** Appending a sample *)

Definition EvidenceValueType_members : list EvidenceValueType :=
  [Value_NULL; Value_BOOLEAN; Value_INTEGER; Value_DECIMAL_STRING; Value_STRING; Value_BYTES_DIGEST; Value_TIMESTAMP; Value_ARRAY; Value_OBJECT].
Definition EvidenceValueType_value (t : EvidenceValueType) : str :=
  u match t with
    | Value_NULL => "null" | Value_BOOLEAN => "boolean" | Value_INTEGER => "integer" | Value_DECIMAL_STRING => "decimal-string"
    | Value_STRING => "string" | Value_BYTES_DIGEST => "bytes-digest" | Value_TIMESTAMP => "timestamp" | Value_ARRAY => "array"
    | Value_OBJECT => "object"
    end.
Definition ObservationStatus_members : list ObservationStatus := [Status_OK; Status_PENDING; Status_UNSUPPORTED; Status_ERROR; Status_TIMEOUT].
Definition ObservationStatus_value (s : ObservationStatus) : str :=
  u match s with
    | Status_OK => "ok" | Status_PENDING => "pending" | Status_UNSUPPORTED => "unsupported" | Status_ERROR => "error" | Status_TIMEOUT => "timeout"
    end.

(** [wire_dict()] of the models a sample holds. *)
Definition digest_wire (d : BytesDigestMetadata) : json :=
  JObject ([(u "sha256", JString (sha256_text d)); (u "byte_length", JInt (byte_length d))]
           ++ match digest_media_type d with Some m => [(u "media_type", JString m)] | None => [] end).
Definition value_wire (v : TypedEvidence) : json := match v with EvidenceJson j => j | EvidenceDigest d => digest_wire d end.
Definition evidence_wire_dict (e : ObserverEvidence) : json :=
  JObject [(u "key", JString (ev_key e)); (u "value_type", JString (EvidenceValueType_value (ev_value_type e))); (u "value", value_wire (ev_value e));
           (u "sensitive", JBool (ev_sensitive e))].
Definition error_wire_dict (e : ObservationRecordError) : json :=
  JObject [(u "category", JString (re_category e)); (u "message_redacted", JString (re_message_redacted e))].
Definition _canonical_json_bytes (value : json) : bytes := ascii_bytes (json_dumps value).

Definition sample_row (r : ObservationRecord) : SampleRow :=
  {| sp_record_id := rec_record_id r; sp_run_id := rec_run_id r; sp_scenario_id := rec_scenario_id r; sp_observation_id := rec_observation_id r;
     sp_sample_sequence := rec_sample_sequence r; sp_status := ObservationStatus_value (rec_status r); sp_recorded_at := rec_recorded_at r;
     sp_snapshot_id := rec_snapshot_id r; sp_evidence_json := _canonical_json_bytes (JArray (map evidence_wire_dict (rec_evidence r)));
     sp_error_json := option_map (fun e => _canonical_json_bytes (error_wire_dict e)) (rec_error r) |}.
(** A sample joined with its series: the sample's identity and columns, the observer and the event. *)
Abbreviation SampleColumns := (str * SampleRow * str * option str)%type.
Definition _observation_sample_row_values (r : ObservationRecord) : SampleColumns := (rec_sample_id r, sample_row r, rec_observer_id r, rec_event_id r).

Definition join_series (db : EvidenceDatabase) (sample : str * SampleRow) : option SampleColumns :=
  row ← observer_series (ed_journal db) !! sp_observation_id sample.2;
  columns ← ed_series db !! sp_observation_id sample.2;
  if bool_decide ((ob_run_id row, ob_scenario_id row) = (sp_run_id sample.2, sp_scenario_id sample.2))
  then Some (sample.1, sample.2, sr_observer_id columns, sr_event_id columns) else None.
Definition _load_observation_sample_identity (db : EvidenceDatabase) (sample_id record_id : str) : result (option SampleColumns) :=
  match omap (join_series db) (select (ed_samples db) (fun id row => bool_decide (id = sample_id) || bool_decide (sp_record_id row = record_id))) with
  | [] => Ok None
  | [row] => Ok (Some row)
  | _ => Raise IdempotencyConflictError
  end.
Definition _verify_observation_sample_row (row : SampleColumns) (r : ObservationRecord) : result unit :=
  raise_if negb (bool_decide (row = _observation_sample_row_values r)) with IdempotencyConflictError ;; Ok tt.

Definition series_samples (db : EvidenceDatabase) (run_id observation_id : str) : list (str * SampleRow) :=
  select (ed_samples db) (fun _ row => bool_decide (sp_run_id row = run_id) && bool_decide (sp_observation_id row = observation_id)).
Definition _require_next_observation_sequence (db : EvidenceDatabase) (r : ObservationRecord) : result unit :=
  let expected := next_sequence (map (fun s => sp_sample_sequence s.2) (series_samples db (rec_run_id r) (rec_observation_id r))) in
  raise_if negb (rec_sample_sequence r =? expected) with IdempotencyConflictError ;; Ok tt.
Definition _require_owner_epoch (db : EvidenceDatabase) (run_id : str) (owner_epoch : Z) : result unit :=
  match runs (ed_journal db) !! run_id with
  | None => Raise CrossRunReferenceError
  | Some row => raise_if negb (run_owner_epoch row =? owner_epoch) with StaleOwnerEpochError ;; Ok tt
  end.
Definition MAX_EVIDENCE_JSON_BYTES : Z := 16777216.
Definition MAX_ERROR_JSON_BYTES : Z := 65536.
Definition blob_too_long (maximum : Z) (blob : option bytes) : bool := match blob with Some b => maximum <? Z.of_nat (length b) | None => false end.
(** Under the primary key, the other unique columns, the lengths of the blobs and the reference to the series. *)
Definition insert_sample (db : EvidenceDatabase) (r : ObservationRecord) : result EvidenceDatabase :=
  let row := sample_row r in
  raise_if negb (is_none (ed_samples db !! rec_sample_id r))
           || exists_row (ed_samples db) (fun _ other => bool_decide (sp_record_id other = sp_record_id row)
                || bool_decide (sp_observation_id other = sp_observation_id row) && (sp_sample_sequence other =? sp_sample_sequence row))
           || blob_too_long MAX_EVIDENCE_JSON_BYTES (Some (sp_evidence_json row)) || blob_too_long MAX_ERROR_JSON_BYTES (sp_error_json row)
           || match observer_series (ed_journal db) !! sp_observation_id row with
              | Some series => negb (bool_decide ((ob_run_id series, ob_scenario_id series) = (sp_run_id row, sp_scenario_id row)))
              | None => true
              end with SqlConstraintError ;;
  Ok (with_samples db (<[rec_sample_id r := row]> (ed_samples db))).

Record CommittedObservationSample := { cs_record : ObservationRecord; cs_idempotent_replay : bool; cs_transition : option CommittedTransition }.
Definition _apply_observation_terminal_transition (db : EvidenceDatabase) (c : ObservationSampleCommand) (hook : option ObservationCrashHook)
    : result (option CommittedTransition * EvidenceDatabase) :=
  match sm_terminal_transition c with
  | None => Ok (None, db)
  | Some t => let! applied := apply_transition db (plain_op t (transition_hook hook)) in Ok (Some applied.1, applied.2)
  end.
(** [_AppendObservationSampleOperation.execute] *)
Definition append_execute (db : EvidenceDatabase) (c : ObservationSampleCommand) (hook : option ObservationCrashHook)
    : result (CommittedObservationSample * EvidenceDatabase) :=
  let record := sm_record c in
  let! _ := _require_owner_epoch db (rec_run_id record) (sm_owner_epoch c) in
  match _load_observation_series db (rec_observation_id record) with
  | None => Raise IllegalTransitionError
  | Some (run_id, scenario_id, columns, state) =>
    raise_if negb (bool_decide ((run_id, scenario_id, sr_event_id columns, sr_observer_id columns) =
                                (rec_run_id record, rec_scenario_id record, rec_event_id record, rec_observer_id record)))
      with CrossRunReferenceError ;;
    let! existing := _load_observation_sample_identity db (rec_sample_id record) (rec_record_id record) in
    match existing with
    | Some row =>
      let! _ := _verify_observation_sample_row row record in
      let! applied := _apply_observation_terminal_transition db c hook in
      Ok ({| cs_record := record; cs_idempotent_replay := true; cs_transition := applied.1 |}, applied.2)
    | None =>
      raise_if negb (bool_decide (state = Observation_RUNNING)) with IllegalTransitionError ;;
      let! _ := _require_next_observation_sequence db record in
      let! db1 := insert_sample db record in
      let! _ := _call_observation_crash_hook hook AFTER_SAMPLE_INSERT in
      let! applied := _apply_observation_terminal_transition db1 c hook in
      Ok ({| cs_record := record; cs_idempotent_replay := false; cs_transition := applied.1 |}, applied.2)
    end
  end.

(** ** Reading the samples of a series *)

(** [ProtocolModel.model_validate] of the wire form of evidence: a closed set of members, each of its type. *)
Definition evidence_from_wire (item : json) : result ObserverEvidence :=
  match item with
  | JObject members =>
    raise_if negb (forallb (fun m => bool_decide (m.1 ∈ [u "key"; u "value_type"; u "value"; u "sensitive"])) members) with ValueError ;;
    match json_get (u "key") members, json_get (u "value_type") members, json_get (u "value") members,
          default (JBool false) (json_get (u "sensitive") members) with
    | Some (JString key), Some (JString type_text), Some value, JBool sensitive =>
      match List.find (fun t => bool_decide (EvidenceValueType_value t = type_text)) EvidenceValueType_members with
      | Some value_type => evidence_model_validate key value_type value sensitive
      | None => Raise ValueError
      end
    | _, _, _, _ => Raise ValueError
    end
  | _ => Raise ValueError
  end.
Definition error_from_wire (item : json) : result ObservationRecordError :=
  match item with
  | JObject members =>
    raise_if negb (forallb (fun m => bool_decide (m.1 ∈ [u "category"; u "message_redacted"])) members) with ValueError ;;
    match json_get (u "category") members, json_get (u "message_redacted") members with
    | Some (JString category), Some (JString message) => validate_record_error {| re_category := category; re_message_redacted := message |}
    | _, _ => Raise ValueError
    end
  | _ => Raise ValueError
  end.
Definition _json_blob (value : bytes) : result json :=
  match ascii_decode value with
  | None => Raise ProjectionIntegrityError
  | Some text => match json_loads policy_hooks text with Some v => Ok v | None => Raise ProjectionIntegrityError end
  end.
Definition integrity {A} (r : result A) : result A :=
  match r with
  | Raise e => if bool_decide (e = TypeError) || bool_decide (e = ValueError) then Raise ProjectionIntegrityError else Raise e
  | r => r
  end.
Definition _observation_record_from_row (row : SampleColumns) : result ObservationRecord :=
  let '(sample_id, columns, observer_id, event_id) := row in
  let! evidence_raw := _json_blob (sp_evidence_json columns) in
  let! error_raw := match sp_error_json columns with Some b => let! v := _json_blob b in Ok (Some v) | None => Ok None end in
  match evidence_raw with
  | JArray evidence_items =>
    integrity
      (let! evidence := map_result evidence_from_wire evidence_items in
       let! error := match error_raw with
                     | Some JNull | None => Ok None
                     | Some v => let! e := error_from_wire v in Ok (Some e)
                     end in
       match List.find (fun s => bool_decide (ObservationStatus_value s = sp_status columns)) ObservationStatus_members with
       | None => Raise ValueError
       | Some status =>
         validate_observation_record
           {| rec_record_id := sp_record_id columns; rec_run_id := sp_run_id columns; rec_scenario_id := sp_scenario_id columns;
              rec_observation_id := sp_observation_id columns; rec_sample_id := sample_id; rec_observer_id := observer_id;
              rec_sample_sequence := sp_sample_sequence columns; rec_recorded_at := sp_recorded_at columns; rec_status := status;
              rec_event_id := event_id; rec_snapshot_id := sp_snapshot_id columns; rec_evidence := evidence; rec_error := error |}
       end)
  | _ => Raise ProjectionIntegrityError
  end.
(** The joined rows of a series, in the order of their sequence. *)
Definition sample_rows (db : EvidenceDatabase) (run_id observation_id : str) : list SampleColumns :=
  py_sorted (fun row : SampleColumns => sp_sample_sequence row.1.1.2) (omap (join_series db) (series_samples db run_id observation_id)).
(** [_ObservationSamplesOperation.execute] *)
Definition samples_execute (db : EvidenceDatabase) (run_id observation_id : str) : result (list ObservationRecord) :=
  let! _ := _require_run_exists (ed_journal db) run_id in
  let rows := take (Z.to_nat (MAX_REPLAY_TRANSITIONS + 1)) (sample_rows db run_id observation_id) in
  raise_if MAX_REPLAY_TRANSITIONS <? zlen rows with ProjectionIntegrityError ;;
  map_result _observation_record_from_row rows.

(** ** The adapter of the poller *)

Definition TRIGGER_OBSERVATION_PLANNED : str := u "observation_planned".
Definition TRIGGER_OBSERVATION_STARTED : str := u "observation_started".
Definition TRIGGER_OBSERVATION_OK : str := u "observation_ok".
Definition TRIGGER_OBSERVATION_PENDING : str := u "observation_pending".
Definition TRIGGER_OBSERVATION_UNSUPPORTED : str := u "observation_unsupported".
Definition TRIGGER_OBSERVATION_ERROR : str := u "observation_error".
Definition TRIGGER_OBSERVATION_TIMED_OUT : str := u "observation_timed_out".
Definition TRIGGER_OBSERVATION_CANCELLED : str := u "observation_cancelled".
Definition triggers (s : ObservationState) : option str :=
  match s with
  | Observation_OK => Some TRIGGER_OBSERVATION_OK
  | Observation_PENDING => Some TRIGGER_OBSERVATION_PENDING
  | Observation_UNSUPPORTED => Some TRIGGER_OBSERVATION_UNSUPPORTED
  | Observation_ERROR => Some TRIGGER_OBSERVATION_ERROR
  | Observation_TIMED_OUT => Some TRIGGER_OBSERVATION_TIMED_OUT
  | Observation_CANCELLED => Some TRIGGER_OBSERVATION_CANCELLED
  | _ => None
  end.

Section adapter.
Context (owner_epoch : Z).

Definition observation_transition (run_id transition_id observation_id : str) (expected : option ObservationState) (new : ObservationState)
    (trigger : str) (timestamp : TransitionTimestamp) (cause : option CausalReference) : result TransitionCommand :=
  let! _ := optional validate_causal_reference cause in
  validate_transition_command
    {| tc_run_id := run_id; tc_transition_id := transition_id; tc_entity_type := Entity_OBSERVATION; tc_entity_id := observation_id;
       tc_expected_state := option_map OfObservation expected; tc_new_state := OfObservation new; tc_trigger_category := trigger;
       tc_timestamp := timestamp; tc_owner_epoch := owner_epoch; tc_idempotency_key := transition_id; tc_causal_reference := cause;
       tc_logical_time_ns := None; tc_delivery_satisfaction := None; tc_attempt_outcome := None |}.

(** The command of [SqliteObservationJournal.begin_series]; a plan's request names its run, scenario and checkpoint. *)
Definition begin_command (plan : ObservationPollPlan) (timestamp : TransitionTimestamp) : result ObservationSeriesCommand :=
  let request := plan_request plan in
  let run_id := default [] (req_run_id request) in
  let! initial := observation_transition run_id (u "observation.begin." ++ plan_observation_id plan) (plan_observation_id plan) None
                    Observation_SCHEDULED TRIGGER_OBSERVATION_PLANNED timestamp None in
  let! running := observation_transition run_id (u "observation.run." ++ plan_observation_id plan) (plan_observation_id plan)
                    (Some Observation_SCHEDULED) Observation_RUNNING TRIGGER_OBSERVATION_STARTED timestamp
                    (Some {| cause_run_id := run_id; cause_record_id := plan_observation_id plan |}) in
  make_series_command
    {| os_run_id := run_id; os_scenario_id := default [] (req_scenario_id request); os_observation_id := plan_observation_id plan;
       os_observer_id := plan_observer_id plan; os_checkpoint := default [] (req_checkpoint request); os_event_id := req_event_id request;
       os_initial_transition := initial; os_running_transition := running |}.
Definition _terminal_transition (record : ObservationRecord) (state : ObservationState) (timestamp : TransitionTimestamp) : result TransitionCommand :=
  match triggers state with
  | None => Raise ValueError
  | Some trigger =>
    observation_transition (rec_run_id record)
      (u "observation.sample." ++ rec_record_id record ++ u "." ++ ObservationState_value state) (rec_observation_id record)
      (Some Observation_RUNNING) state trigger timestamp
      (Some {| cause_run_id := rec_run_id record; cause_record_id := rec_record_id record |})
  end.
Definition sample_command (sample : ObservationSampleCommit) : result ObservationSampleCommand :=
  let! transition :=
    match sc_terminal_state sample with
    | None => Ok None
    | Some state => let! t := _terminal_transition (sc_record sample) state (sc_timestamp sample) in Ok (Some t)
    end in
  make_sample_command {| sm_record := sc_record sample; sm_owner_epoch := owner_epoch; sm_terminal_transition := transition |}.

(** [SqliteObservationJournal]: each call is one transaction, undone when it raises. *)
Definition committed {A} (db : EvidenceDatabase) (r : result (A * EvidenceDatabase)) : result unit * EvidenceDatabase :=
  match r with Ok (_, db') => (Ok tt, db') | Raise e => (Raise e, db) end.
Definition begin_series (plan : ObservationPollPlan) (timestamp : TransitionTimestamp) (db : EvidenceDatabase) : result unit * EvidenceDatabase :=
  committed db (let! c := begin_command plan timestamp in begin_execute db c None).
Definition append_sample (sample : ObservationSampleCommit) (db : EvidenceDatabase) : result unit * EvidenceDatabase :=
  committed db (let! c := sample_command sample in append_execute db c None).
End adapter.

(** * Assertion evaluations in the journal

    The assertion operations of [journal/repositories.py]: one evaluation with its typed evidence links
    and the terminal transition of its assertion, appended in one transaction. *)


(** ** The evaluation *)

(** [AssertionEvaluation] of [domain/models.py]; [JNull] is the absent value, and a [JFloat] a finite number. *)
Record AssertionEvaluation := {
  ae_record_id : str; ae_run_id : str; ae_scenario_id : str; ae_assertion_id : str; ae_evaluation_sequence : Z; ae_recorded_at : datetime;
  ae_type : str; ae_result : AssertionResult; ae_expected : json; ae_actual : json; ae_comparison : option str;
  ae_evidence_refs : list str; ae_message : option str
}.
Definition _assertion_id (value : str) : result str := validate_planned_id value (Some Planned_ASSERTION).
Definition _serialized_id (value : str) : result str :=
  match validate_planned_id value None with Raise ValueError => validate_fresh_id value None | r => r end.
(** Pydantic counts the characters of a text and refuses one with a surrogate. *)
Definition unfit (minimum maximum : Z) (text : str) : bool := negb (within minimum maximum (zlen text)) || existsb is_surrogate text.
Definition unfit_option (maximum : Z) (text : option str) : bool := match text with Some t => unfit 0 maximum t | None => false end.
Definition make_evaluation (e : AssertionEvaluation) : result AssertionEvaluation :=
  let! _ := _record_id (ae_record_id e) in
  let! _ := validate_run_id (ae_run_id e) in
  let! _ := _scenario_id (ae_scenario_id e) in
  let! _ := _assertion_id (ae_assertion_id e) in
  raise_if negb (within 1 (2 ^ 63 - 1) (ae_evaluation_sequence e)) with ValueError ;;
  let! _ := validate_utc_wall_time (ae_recorded_at e) in
  raise_if unfit 1 128 (ae_type e) with ValueError ;;
  raise_if unfit_option 256 (ae_comparison e) with ValueError ;;
  raise_if bool_decide (ae_evidence_refs e = []) with ValueError ;;
  let! _ := map_result _serialized_id (ae_evidence_refs e) in
  raise_if unfit_option 4096 (ae_message e) with ValueError ;;
  raise_if negb (bool_decide (NoDup (ae_evidence_refs e))) with ValueError ;;
  Ok e.

(** ** The command *)

Inductive AssertionEvidenceKind := Link_ATTEMPT | Link_OBSERVATION | Link_RECORD | Link_ARTIFACT | Link_TRANSITION | Link_RECOVERY_DECISION.
#[global] Instance AssertionEvidenceKind_eq_dec : EqDecision AssertionEvidenceKind.
Proof. solve_decision. Defined.
Definition AssertionEvidenceKind_value (k : AssertionEvidenceKind) : str :=
  u match k with
    | Link_ATTEMPT => "attempt" | Link_OBSERVATION => "observation" | Link_RECORD => "record" | Link_ARTIFACT => "artifact"
    | Link_TRANSITION => "transition" | Link_RECOVERY_DECISION => "recovery_decision"
    end.
Record AssertionEvidenceReference := { rf_kind : AssertionEvidenceKind; rf_evidence_id : str }.
#[global] Instance AssertionEvidenceReference_eq_dec : EqDecision AssertionEvidenceReference.
Proof. solve_decision. Defined.
Definition _bounded_evidence_identifier (value : str) : result str :=
  raise_if negb (within 1 96 (zlen value)) || negb (forallb is_token_char value) with ValueError ;; Ok value.
Definition make_reference (r : AssertionEvidenceReference) : result AssertionEvidenceReference :=
  let! _ := _bounded_evidence_identifier (rf_evidence_id r) in Ok r.

Record AssertionEvaluationCommand := {
  ac_evaluation_id : str; ac_evaluation : AssertionEvaluation; ac_evidence : list AssertionEvidenceReference;
  ac_terminal_transition : TransitionCommand
}.
(** The terminal states an evaluation of a result may leave its assertion in. *)
Definition evaluation_states (r : AssertionResult) : list AssertionState :=
  match r with
  | Result_PASS => [Assertion_PASSED]
  | Result_FAIL => [Assertion_FAILED]
  | Result_ERROR => [Assertion_ERROR; Assertion_UNSUPPORTED]
  | Result_SKIPPED => [Assertion_UNSUPPORTED]
  | Result_PENDING => []
  end.
Definition make_evaluation_command (c : AssertionEvaluationCommand) : result AssertionEvaluationCommand :=
  let! _ := validate_fresh_id (ac_evaluation_id c) (Some Fresh_EVALUATION) in
  raise_if bool_decide (ac_evidence c = []) with TypeError ;;
  raise_if negb (bool_decide (NoDup (ac_evidence c))) with ValueError ;;
  let evaluation := ac_evaluation c in
  raise_if negb (bool_decide (ae_evidence_refs evaluation = map rf_evidence_id (ac_evidence c))) with ValueError ;;
  let t := ac_terminal_transition c in
  raise_if negb (bool_decide (tc_run_id t = ae_run_id evaluation)) || negb (bool_decide (tc_entity_type t = Entity_ASSERTION))
           || negb (bool_decide (tc_entity_id t = ae_assertion_id evaluation))
           || negb (bool_decide (tc_expected_state t = Some (OfAssertion Assertion_RUNNING)))
           || negb (bool_decide (tc_trigger_category t = u "assertion_evaluation"))
           || negb (bool_decide (tc_causal_reference t =
                Some {| cause_run_id := ae_run_id evaluation; cause_record_id := ae_record_id evaluation |}))
           || negb (is_none (tc_attempt_outcome t))
           || negb (dt_instant_us (wall_time (tc_timestamp t)) =? dt_instant_us (ae_recorded_at evaluation)) with ValueError ;;
  raise_if negb (bool_decide (tc_new_state t ∈ map OfAssertion (evaluation_states (ae_result evaluation)))) with ValueError ;;
  Ok c.

(** ** The operation *)

Definition _optional_canonical_json_bytes (value : json) : option bytes :=
  match value with JNull => None | _ => Some (_canonical_json_bytes value) end.
Definition _assertion_evaluation_row_values (c : AssertionEvaluationCommand) : str * EvaluationRow :=
  let e := ac_evaluation c in
  (ac_evaluation_id c,
   {| va_record_id := ae_record_id e; va_run_id := ae_run_id e; va_scenario_id := ae_scenario_id e; va_assertion_id := ae_assertion_id e;
      va_evaluation_sequence := ae_evaluation_sequence e; va_result := AssertionResult_value (ae_result e);
      va_recorded_at := dt_instant_us (ae_recorded_at e); va_expected_json := _optional_canonical_json_bytes (ae_expected e);
      va_actual_json := _optional_canonical_json_bytes (ae_actual e); va_comparison := ae_comparison e; va_message := ae_message e |}).
Definition _load_assertion_evaluation_identity (db : EvidenceDatabase) (evaluation_id record_id : str) : result (option (str * EvaluationRow)) :=
  match select (ed_evaluations db) (fun id row => bool_decide (id = evaluation_id) || bool_decide (va_record_id row = record_id)) with
  | [] => Ok None
  | [row] => Ok (Some row)
  | _ => Raise IdempotencyConflictError
  end.
Definition stored_links (db : EvidenceDatabase) (run_id evaluation_id : str) : list (str * str) :=
  map (fun l => (lk_evidence_kind l, lk_evidence_id l))
    (py_sorted lk_ordinal (List.filter (fun l => bool_decide (lk_run_id l = run_id) && bool_decide (lk_evaluation_id l = evaluation_id)) (ed_links db))).
Definition _verify_assertion_evaluation_row (db : EvidenceDatabase) (c : AssertionEvaluationCommand) (row : str * EvaluationRow) : result unit :=
  raise_if negb (bool_decide (row = _assertion_evaluation_row_values c)) with IdempotencyConflictError ;;
  raise_if negb (bool_decide (stored_links db (ae_run_id (ac_evaluation c)) (ac_evaluation_id c) =
                              map (fun r => (AssertionEvidenceKind_value (rf_kind r), rf_evidence_id r)) (ac_evidence c)))
    with IdempotencyConflictError ;;
  Ok tt.
Definition _validate_assertion_evaluation_identity (db : EvidenceDatabase) (c : AssertionEvaluationCommand) : result unit :=
  let e := ac_evaluation c in
  match assertions (ed_journal db) !! ae_assertion_id e with
  | None => Raise IllegalTransitionError
  | Some row =>
    raise_if negb (bool_decide (as_run_id row = ae_run_id e)) || negb (bool_decide (as_scenario_id row = ae_scenario_id e)) with CrossRunReferenceError ;;
    raise_if negb (bool_decide (ed_assertion_types db !! ae_assertion_id e = Some (ae_type e))) with IdempotencyConflictError ;;
    raise_if negb (bool_decide (as_state row = Assertion_RUNNING)) with IllegalTransitionError ;;
    Ok tt
  end.
Definition assertion_evaluations (db : EvidenceDatabase) (run_id assertion_id : str) : list (str * EvaluationRow) :=
  select (ed_evaluations db) (fun _ row => bool_decide (va_run_id row = run_id) && bool_decide (va_assertion_id row = assertion_id)).
Definition _require_next_assertion_evaluation_sequence (db : EvidenceDatabase) (c : AssertionEvaluationCommand) : result unit :=
  let e := ac_evaluation c in
  let expected := next_sequence (map (fun r => va_evaluation_sequence r.2) (assertion_evaluations db (ae_run_id e) (ae_assertion_id e))) in
  raise_if negb (ae_evaluation_sequence e =? expected) with IdempotencyConflictError ;; Ok tt.
(** The reference names evidence of the same run. *)
Definition evidence_exists (db : EvidenceDatabase) (run_id : str) (r : AssertionEvidenceReference) : bool :=
  let id := rf_evidence_id r in
  match rf_kind r with
  | Link_ATTEMPT => match attempts (ed_journal db) !! id with Some a => bool_decide (at_run_id a = run_id) | None => false end
  | Link_OBSERVATION =>
    match observer_series (ed_journal db) !! id with Some s => bool_decide (ob_run_id s = run_id) | None => false end
    || match ed_samples db !! id with Some s => bool_decide (sp_run_id s = run_id) | None => false end
  | Link_RECORD =>
    exists_row (attempt_records (ed_journal db)) (fun _ a => bool_decide (ar_run_id a = run_id) && bool_decide (ar_record_id a = id))
    || exists_row (ed_samples db) (fun _ s => bool_decide (sp_run_id s = run_id) && bool_decide (sp_record_id s = id))
    || exists_row (ed_evaluations db) (fun _ e => bool_decide (va_run_id e = run_id) && bool_decide (va_record_id e = id))
  | Link_ARTIFACT => bool_decide ((run_id, id) ∈ ed_artifacts db)
  | Link_TRANSITION => existsb (fun t => bool_decide (tw_run_id t = run_id) && bool_decide (tw_transition_id t = id)) (transitions (ed_journal db))
  | Link_RECOVERY_DECISION => bool_decide ((run_id, id) ∈ ed_recovery_decisions db)
  end.
Definition _require_assertion_evidence_reference (db : EvidenceDatabase) (run_id : str) (r : AssertionEvidenceReference) : result unit :=
  raise_if negb (evidence_exists db run_id r) with CrossRunReferenceError ;; Ok tt.

Definition MAX_EVALUATION_JSON_BYTES : Z := 16777216.
Definition text_outside (maximum : Z) (text : option str) : bool := match text with Some t => negb (within 1 maximum (zlen t)) | None => false end.
(** Under the primary key, the other unique columns, the lengths and the reference to the assertion. *)
Definition insert_evaluation (db : EvidenceDatabase) (c : AssertionEvaluationCommand) : result EvidenceDatabase :=
  let row := (_assertion_evaluation_row_values c).2 in
  raise_if negb (is_none (ed_evaluations db !! ac_evaluation_id c))
           || exists_row (ed_evaluations db) (fun _ other => bool_decide (va_record_id other = va_record_id row)
                || bool_decide (va_assertion_id other = va_assertion_id row) && (va_evaluation_sequence other =? va_evaluation_sequence row))
           || blob_too_long MAX_EVALUATION_JSON_BYTES (va_expected_json row) || blob_too_long MAX_EVALUATION_JSON_BYTES (va_actual_json row)
           || text_outside 256 (va_comparison row) || text_outside 4096 (va_message row)
           || match assertions (ed_journal db) !! va_assertion_id row with
              | Some a => negb (bool_decide ((as_run_id a, as_scenario_id a) = (va_run_id row, va_scenario_id row)))
              | None => true
              end with SqlConstraintError ;;
  Ok (with_evaluations db (<[ac_evaluation_id c := row]> (ed_evaluations db)) (ed_links db)).
(** One link for each reference, numbered from zero; an evaluation has no links before. *)
Definition insert_links (db : EvidenceDatabase) (c : AssertionEvaluationCommand) : EvidenceDatabase :=
  with_evaluations db (ed_evaluations db)
    (ed_links db ++ imap (fun ordinal r =>
       {| lk_evaluation_id := ac_evaluation_id c; lk_run_id := ae_run_id (ac_evaluation c); lk_ordinal := Z.of_nat ordinal;
          lk_evidence_kind := AssertionEvidenceKind_value (rf_kind r); lk_evidence_id := rf_evidence_id r |}) (ac_evidence c)).

Record CommittedAssertionEvaluation := {
  ce_evaluation_id : str; ce_evaluation : AssertionEvaluation; ce_evidence : list AssertionEvidenceReference; ce_idempotent_replay : bool;
  ce_transition : CommittedTransition
}.
Definition committed_evaluation (c : AssertionEvaluationCommand) (replay : bool) (applied : CommittedTransition * EvidenceDatabase)
    : CommittedAssertionEvaluation * EvidenceDatabase :=
  ({| ce_evaluation_id := ac_evaluation_id c; ce_evaluation := ac_evaluation c; ce_evidence := ac_evidence c; ce_idempotent_replay := replay;
      ce_transition := applied.1 |}, applied.2).
(** [_AppendAssertionEvaluationOperation.execute] *)
Definition evaluation_execute (db : EvidenceDatabase) (c : AssertionEvaluationCommand) (hook : option TransitionCrashHook)
    : result (CommittedAssertionEvaluation * EvidenceDatabase) :=
  let t := ac_terminal_transition c in
  let! _ := _require_current_owner (ed_journal db) t in
  let! existing := _load_assertion_evaluation_identity db (ac_evaluation_id c) (ae_record_id (ac_evaluation c)) in
  match existing with
  | Some row =>
    let! _ := _verify_assertion_evaluation_row db c row in
    let! applied := apply_transition db (plain_op t hook) in
    Ok (committed_evaluation c true applied)
  | None =>
    let! _ := _validate_assertion_evaluation_identity db c in
    let! _ := _require_next_assertion_evaluation_sequence db c in
    let! _ := map_result (_require_assertion_evidence_reference db (ae_run_id (ac_evaluation c))) (ac_evidence c) in
    let! db1 := insert_evaluation db c in
    let! applied := apply_transition (insert_links db1 c) (plain_op t hook) in
    Ok (committed_evaluation c false applied)
  end.
(** [AssertionRepository.transition] *)
Definition assertion_transition (db : EvidenceDatabase) (c : TransitionCommand) (hook : option TransitionCrashHook)
    : result (CommittedTransition * EvidenceDatabase) :=
  raise_if negb (bool_decide (tc_entity_type c = Entity_ASSERTION)) with TypeError ;;
  apply_transition db (plain_op c hook).
