(* ===== verification/ObservationLaws.v ===== *)
(** * The evidence in the journal is consistent

    Executions of the observation and the assertion operations, interleaved with the operations of the
    transition repository, and the invariant they keep. *)

From S2P Require Import Prelude Text TextLemmas Identifiers Domain Clocks Lifecycle Replay Commands Json Store Journal Schedules Demo Ledger Outcomes Idempotence History ScheduleLaws Evidence ObserverProtocol Polling PollingSettles Observations.

Local Open Scope Z_scope.

(** ** Generic facts *)

Lemma next_sequence_permutation (l l' : list Z) : l ≡ₚ l' -> next_sequence l = next_sequence l'.
Proof. unfold next_sequence. induction 1; simpl in *; lia. Qed.
Lemma next_sequence_seqZ n : next_sequence (seqZ 1 (Z.of_nat n)) = Z.of_nat n + 1.
Proof.
  unfold next_sequence. f_equal. induction n as [|n IH]; [done|]. rewrite seqZ_S, fold_right_app. simpl.
  revert IH. generalize (seqZ 1 (Z.of_nat n)). intros l. replace (1 + Z.of_nat n) with (Z.of_nat (S n)) by lia.
  clear. intros H. assert (forall m, 0 <= m -> fold_right Z.max m l = Z.max m (fold_right Z.max 0 l)) as Hm.
  { clear. intros m Hm. induction l as [|x l IH]; simpl; lia. }
  rewrite Hm by lia. lia.
Qed.
Lemma select_insert {A : Type} (t : gmap str A) cond k v :
  t !! k = None -> select (<[k := v]> t) cond ≡ₚ (if cond k v then [(k, v)] else []) ++ select t cond.
Proof.
  intros Hk. apply NoDup_Permutation.
  - apply NoDup_select.
  - destruct (cond k v); [|apply NoDup_select]. apply list.NoDup_cons. split; [|apply NoDup_select].
    intros [H _]%elem_of_select. congruence.
  - intros [i x]. rewrite elem_of_app, !elem_of_select, lookup_insert_Some. split.
    + intros [[[<- <-]|[Hn Hi]] Hc]; [left; rewrite Hc; by left|by right].
    + intros [Hi|[Hi Hc]].
      * destruct (cond k v) eqn:Hc; [|by apply not_elem_of_nil in Hi]. apply list_elem_of_singleton in Hi as [= -> ->]. auto.
      * split; [|done]. right. split; [|done]. congruence.
Qed.
Lemma exists_row_true {A : Type} (t : gmap str A) cond k v : t !! k = Some v -> cond k v = true -> exists_row t cond = true.
Proof. intros Hk Hc. destruct (exists_row t cond) eqn:E; [done|]. by rewrite (exists_row_false _ _ _ _ E Hk) in Hc. Qed.

(** ** Executions *)

(** One operation that commits; one that raises, or is stopped at a failpoint, leaves the store as it
    was.  The commands and records are constructed objects. *)
Inductive evidence_step (db : EvidenceDatabase) : EvidenceDatabase -> Prop :=
  | step_journal j : journal_step (ed_journal db) j -> evidence_step db (with_journal db j)
  | step_begin c hook initial running db' :
      make_series_command c = Ok c -> command_ok (os_initial_transition c) -> command_ok (os_running_transition c) ->
      begin_execute db c hook = Ok (initial, running, db') -> evidence_step db db'
  | step_append c hook committed db' :
      make_sample_command c = Ok c -> validate_observation_record (sm_record c) = Ok (sm_record c) ->
      (forall t, sm_terminal_transition c = Some t -> command_ok t) ->
      append_execute db c hook = Ok (committed, db') -> evidence_step db db'
  | step_evaluate c hook committed db' :
      make_evaluation_command c = Ok c -> make_evaluation (ac_evaluation c) = Ok (ac_evaluation c) ->
      command_ok (ac_terminal_transition c) ->
      evaluation_execute db c hook = Ok (committed, db') -> evidence_step db db'.
Inductive evidence_reachable (start : EvidenceDatabase) : EvidenceDatabase -> Prop :=
  | evidence_start : evidence_reachable start start
  | evidence_next db db' : evidence_reachable start db -> evidence_step db db' -> evidence_reachable start db'.

(** ** The invariant *)

Definition series_numbers (db : EvidenceDatabase) (run_id observation_id : str) : list Z :=
  map (fun s => sp_sample_sequence s.2) (series_samples db run_id observation_id).

(** A row is the row of a constructed record, whose observer and event are those of its series. *)
Definition holds_record (db : EvidenceDatabase) (id : str) (row : SampleRow) (r : ObservationRecord) : Prop :=
  validate_observation_record r = Ok r /\ rec_sample_id r = id /\ row = sample_row r /\ join_series db (id, row) = Some (_observation_sample_row_values r).
(** The evaluation left its assertion in a state that its result allows. *)
Definition settled_by (db : EvidenceDatabase) (row : EvaluationRow) : Prop :=
  exists r s, va_result row = AssertionResult_value r /\ s ∈ evaluation_states r /\
    entity_state (ed_journal db) Entity_ASSERTION (va_assertion_id row) = Some (va_run_id row, OfAssertion s).

Record evidence_kept (db : EvidenceDatabase) : Prop := {
  eo_ledger : exists rs, ledger_of (ed_journal db) rs;
  eo_series : forall id, is_Some (ed_series db !! id) <-> is_Some (observer_series (ed_journal db) !! id);
  eo_names : forall id columns, ed_series db !! id = Some columns ->
    is_ok (_validate_bounded_text (sr_observer_id columns) MAX_OBSERVER_ID_LENGTH false) = true;
  eo_samples : forall id row, ed_samples db !! id = Some row -> exists r, holds_record db id row r;
  eo_records : forall id id' row row', ed_samples db !! id = Some row -> ed_samples db !! id' = Some row' ->
    sp_record_id row = sp_record_id row' -> id = id';
  eo_numbers : forall run_id observation_id,
    series_numbers db run_id observation_id ≡ₚ seqZ 1 (Z.of_nat (length (series_numbers db run_id observation_id)));
  eo_decided : forall id row, ed_evaluations db !! id = Some row -> va_evaluation_sequence row = 1 /\ settled_by db row;
  eo_evaluated_once : forall id id' row row', ed_evaluations db !! id = Some row -> ed_evaluations db !! id' = Some row' ->
    va_assertion_id row = va_assertion_id row' -> id = id'
}.

Definition no_evidence (db : EvidenceDatabase) : Prop :=
  transitions (ed_journal db) = [] /\ observer_series (ed_journal db) = ∅ /\ ed_series db = ∅ /\ ed_samples db = ∅ /\ ed_evaluations db = ∅.
Lemma no_evidence_ok db : no_evidence db -> evidence_kept db.
Proof.
  intros (Ht & Ho & Hs & Hp & He). split.
  - eapply ledger_reachable; [exact Ht|constructor].
  - intros id. by rewrite Hs, Ho, !lookup_empty.
  - intros id columns. by rewrite Hs, lookup_empty.
  - intros id row. by rewrite Hp, lookup_empty.
  - intros id id' row row'. by rewrite Hp, lookup_empty.
  - intros r o. unfold series_numbers, series_samples, select. rewrite Hp. done.
  - intros id row. by rewrite He, lookup_empty.
  - intros id id' row row'. by rewrite He, lookup_empty.
Qed.

(** ** Transitions *)

Lemma evaluation_no_exit r s : s ∈ evaluation_states r -> no_exit Entity_ASSERTION (OfAssertion s).
Proof.
  intros Hs. refine (proj1 (stuck_spec _ _) _). assert (forallb (fun r => forallb (fun s => stuck Entity_ASSERTION (OfAssertion s)) (evaluation_states r))
    [Result_PASS; Result_FAIL; Result_ERROR; Result_SKIPPED; Result_PENDING] = true) as H by (by vm_compute).
  rewrite List.forallb_forall in H. assert (In r [Result_PASS; Result_FAIL; Result_ERROR; Result_SKIPPED; Result_PENDING]) as Hr by (destruct r; simpl; tauto).
  apply H in Hr. rewrite List.forallb_forall in Hr. by apply Hr, list_elem_of_In.
Qed.

(** What the journal may become while the evidence stays. *)
Definition journal_kept (j j' : Database) : Prop :=
  (forall id, option_map (fun r => (ob_run_id r, ob_scenario_id r)) (observer_series j' !! id)
     = option_map (fun r => (ob_run_id r, ob_scenario_id r)) (observer_series j !! id)) /\
  (forall e id run s, entity_state j e id = Some (run, s) -> no_exit e s -> entity_state j' e id = Some (run, s)).
Lemma evolves_kept j j' : evolves j j' -> journal_kept j j'.
Proof. intros []. by split. Qed.

Lemma join_kept db j s : journal_kept (ed_journal db) j -> join_series (with_journal db j) s = join_series db s.
Proof.
  intros [Hs _]. specialize (Hs (sp_observation_id s.2)). unfold join_series. cbn [ed_journal ed_series with_journal].
  destruct (observer_series j !! _) as [x|], (observer_series (ed_journal db) !! _) as [y|]; simpl in *; try done.
  injection Hs as Hr Hsc. by rewrite Hr, Hsc.
Qed.
Lemma decided_kept db j row : journal_kept (ed_journal db) j -> settled_by db row -> settled_by (with_journal db j) row.
Proof.
  intros [_ Hf] (r & s & Hr & Hs & He). exists r, s. split_and!; [done..|]. apply Hf; [done|]. by eapply evaluation_no_exit.
Qed.
Lemma journal_ok db j rs : evidence_kept db -> ledger_of j rs -> journal_kept (ed_journal db) j -> evidence_kept (with_journal db j).
Proof.
  intros [Hl Hse Hna Hsa Hre Hn Hd Ho] Hrs Hk. split; try done; [by exists rs|..].
  - intros id. cbn [ed_series ed_journal with_journal]. rewrite Hse. destruct Hk as [Hk _]. specialize (Hk id).
    destruct (observer_series j !! id), (observer_series (ed_journal db) !! id); simpl in Hk; split; intros [? ?]; done || eauto.
  - intros id row Hid. destruct (Hsa id row Hid) as (r & Hv & Hi & Hr & Hj). exists r. split_and!; try done. by rewrite join_kept.
  - intros id row Hid. destruct (Hd id row Hid) as [H1 H2]. split; [done|]. by apply decided_kept.
Qed.
Lemma applied_ok db op ct db' :
  evidence_kept db -> command_ok (op_command op) -> apply_transition db op = Ok (ct, db') -> evidence_kept db'.
Proof.
  intros Hok Hc H. unfold apply_transition in H. destruct (apply_execute _ _) as [[ct' j]|] eqn:E; [|done]. injection H as <- <-. cbn [fst snd].
  pose proof (evolves_kept _ _ (apply_evolves _ _ _ _ E)) as Hk. destruct (eo_ledger _ Hok) as [rs Hl].
  destruct (apply_ledger _ _ _ _ _ Hl Hc E) as [(_ & -> & _)|[_ Hl']]; by eapply journal_ok.
Qed.

(** ** Beginning a series *)

(** An observer a command may name, once it is stored, is one a record can name. *)
Lemma command_named c x : make_series_command c = Ok c -> utf8_encode (os_observer_id c) = Ok x ->
  is_ok (_validate_bounded_text (os_observer_id c) MAX_OBSERVER_ID_LENGTH false) = true.
Proof.
  intros H Hx. unfold make_series_command in H. do 5 py_step H. unfold _bounded_control_free_text in E3. py_step E3.
  rewrite orb_false_iff, negb_false_iff, within_spec in E4. destruct E4 as [Hl Hc]. unfold _validate_bounded_text. rewrite Hx, Hc.
  rewrite bool_decide_eq_false_2 by (intros Hn; rewrite Hn in Hl; unfold zlen in Hl; simpl in Hl; lia).
  by rewrite (proj2 (Z.ltb_ge _ _)) by (unfold MAX_OBSERVER_ID_LENGTH; lia).
Qed.

Lemma insert_series_ok db c db' : evidence_kept db -> make_series_command c = Ok c -> insert_series db c = Ok db' -> evidence_kept db'.
Proof.
  intros Hok Hmake H. unfold insert_series in H. py_step H. py_step H. rename E0 into Hutf. py_step H. injection H as <-.
  rewrite !orb_false_iff in E0. destruct E0 as [[Hn _] _].
  destruct (observer_series _ !! os_observation_id c) eqn:Hnone; [done|]. clear Hn.
  destruct Hok as [[rs Hl] Hse Hna Hsa Hre Hn Hd Ho].
  assert (forall e id x, entity_state (ed_journal db) e id = Some x -> entity_state (ed_journal (with_series db (with_observer_series (ed_journal db)
    (<[os_observation_id c := {| ob_run_id := os_run_id c; ob_scenario_id := os_scenario_id c; ob_state := Observation_SCHEDULED |}]>
       (observer_series (ed_journal db)))) (<[os_observation_id c := series_columns c]> (ed_series db)))) e id = Some x) as Hst.
  { intros e id x Hx. destruct e; try done. unfold entity_state in *. cbn [ed_journal with_series with_observer_series observer_series].
    rewrite lookup_insert_ne; [done|]. intros <-. by rewrite Hnone in Hx. }
  split; try done.
  - exists rs. by eapply ledger_frame.
  - intros id. cbn [ed_journal ed_series with_series with_observer_series observer_series]. destruct (decide (id = os_observation_id c)) as [->|].
    + rewrite !lookup_insert_eq. split; by eexists.
    + by rewrite !lookup_insert_ne.
  - intros id columns. cbn [ed_series with_series]. rewrite lookup_insert_Some. intros [[<- <-]|[_ Hid]]; [|by eapply Hna].
    by eapply command_named.
  - intros id row Hid. destruct (Hsa id row Hid) as (r & Hv & Hi & Hr & Hj). exists r. split_and!; try done.
    unfold join_series in *. cbn [ed_journal ed_series with_series with_observer_series observer_series snd] in *.
    rewrite !lookup_insert_ne; [done|..]; intros Heq; by rewrite <- Heq, Hnone in Hj.
Qed.
Lemma begin_ok db c hook i r db' :
  evidence_kept db -> make_series_command c = Ok c -> command_ok (os_initial_transition c) -> command_ok (os_running_transition c) ->
  begin_execute db c hook = Ok (i, r, db') -> evidence_kept db'.
Proof.
  intros Hok Hmake Hi Hr H. unfold begin_execute in H. do 5 py_step H. destruct a3 as [ct2 d2], a2 as [ct1 d1]. injection H as <- <- <-. cbn [fst snd] in *.
  eapply (applied_ok _ (plain_op (os_running_transition c) (transition_hook hook))); [|exact Hr|exact E3].
  eapply (applied_ok _ (plain_op (os_initial_transition c) (transition_hook hook))); [|exact Hi|exact E2].
  destruct (_load_observation_series _ _) as [[[[? ?] ?] ?]|].
  - py_step E1. by injection E1 as <-.
  - do 3 py_step E1. injection E1 as <-. by eapply insert_series_ok.
Qed.

(** ** Appending a sample *)

Lemma insert_sample_ok db r columns state db' :
  evidence_kept db -> validate_observation_record r = Ok r ->
  _load_observation_series db (rec_observation_id r) = Some (rec_run_id r, rec_scenario_id r, columns, state) ->
  sr_event_id columns = rec_event_id r -> sr_observer_id columns = rec_observer_id r ->
  _require_next_observation_sequence db r = Ok tt -> insert_sample db r = Ok db' -> evidence_kept db'.
Proof.
  intros Hok Hv Hload Hev Hob Hnext H. unfold insert_sample in H. py_step H. injection H as <-.
  rewrite !orb_false_iff in E. destruct E as [[[[Hnone Hunique] _] _] _].
  destruct (ed_samples db !! rec_sample_id r) eqn:Hsample; [done|]. clear Hnone.
  assert (forall id row, ed_samples db !! id = Some row -> sp_record_id row <> rec_record_id r) as Hrec.
  { intros id row Hid Heq. apply (exists_row_false _ _ _ _ Hunique) in Hid. rewrite bool_decide_true in Hid by done. done. }
  destruct Hok as [Hl Hse Hna Hsa Hre Hn Hd Ho]. split; try done.
  - intros id row. cbn [ed_samples with_samples]. rewrite lookup_insert_Some. intros [[<- <-]|[_ Hid]]; [|by apply Hsa].
    exists r. split_and!; try done. unfold _load_observation_series in Hload. unfold join_series, _observation_sample_row_values. simpl in *.
    destruct (observer_series _ !! _) as [row|]; [|done]. simpl in *. destruct (ed_series db !! _) as [cols|]; [|done]. simpl in *.
    injection Hload as H1 H2 -> _. rewrite H1, H2, bool_decide_true by done. by rewrite Hev, Hob.
  - intros id id' row row'. cbn [ed_samples with_samples]. rewrite !lookup_insert_Some.
    intros [[<- <-]|[_ Hid]] [[<- <-]|[_ Hid']] Heq; [done|by apply Hrec in Hid'|by apply Hrec in Hid|by eapply Hre].
  - intros run o. unfold series_numbers, series_samples. cbn [ed_samples with_samples].
    rewrite (select_insert _ _ _ _ Hsample). cbn [sp_run_id sp_observation_id sample_row]. specialize (Hn run o).
    destruct (bool_decide (rec_run_id r = run) && bool_decide (rec_observation_id r = o)) eqn:Hc; [|exact Hn].
    py_bool. subst run o. simpl. unfold _require_next_observation_sequence in Hnext. py_step Hnext. rewrite negb_false_iff, Z.eqb_eq in E.
    fold (series_numbers db (rec_run_id r) (rec_observation_id r)) in E. rewrite (next_sequence_permutation _ _ Hn), next_sequence_seqZ in E.
    rewrite seqZ_S. fold (series_samples db (rec_run_id r) (rec_observation_id r)). fold (series_numbers db (rec_run_id r) (rec_observation_id r)).
    rewrite <- Hn, E. rewrite Permutation_app_comm. simpl. by replace (_ + 1) with (1 + Z.of_nat (length (series_numbers db (rec_run_id r) (rec_observation_id r)))) by lia.
Qed.
Lemma append_ok db c hook s db' :
  evidence_kept db -> validate_observation_record (sm_record c) = Ok (sm_record c) -> (forall t, sm_terminal_transition c = Some t -> command_ok t) ->
  append_execute db c hook = Ok (s, db') -> evidence_kept db'.
Proof.
  intros Hok Hv Ht H. unfold append_execute in H. py_step H.
  destruct (_load_observation_series _ _) as [[[[run scenario] columns] state]|] eqn:Hload; [|done]. py_step H.
  apply negb_bool_decide_false in E0. injection E0 as -> -> Hev Hob. py_step H.
  assert (forall d x, evidence_kept d -> _apply_observation_terminal_transition d c hook = Ok x -> evidence_kept x.2) as Happly.
  { intros d [o d'] Hd Hx. unfold _apply_observation_terminal_transition in Hx. destruct (sm_terminal_transition c) as [t|]; [|by injection Hx as _ <-].
    py_step Hx. injection Hx as _ <-. destruct a1 as [ct d1].
    eapply (applied_ok d (plain_op t (transition_hook hook))); [exact Hd|by apply Ht|exact E1]. }
  destruct a0 as [row|].
  - do 2 py_step H. injection H as _ <-. by eapply Happly.
  - do 5 py_step H. injection H as _ <-. eapply Happly; [|eassumption]. destruct a0. by eapply insert_sample_ok.
Qed.

(** ** Evaluating an assertion *)

Lemma evaluation_target c : make_evaluation_command c = Ok c ->
  let t := ac_terminal_transition c in
  let e := ac_evaluation c in
  tc_run_id t = ae_run_id e /\ tc_entity_type t = Entity_ASSERTION /\ tc_entity_id t = ae_assertion_id e /\
  tc_expected_state t = Some (OfAssertion Assertion_RUNNING) /\
  exists s, tc_new_state t = OfAssertion s /\ s ∈ evaluation_states (ae_result e).
Proof.
  intros H. unfold make_evaluation_command in H. do 6 py_step H. rewrite !orb_false_iff, !negb_bool_decide_false in *.
  match goal with E : ((((((_ /\ _) /\ _) /\ _) /\ _) /\ _) /\ _) /\ _ |- _ => destruct E as [[[[[[[H1 H2] H3] H4] _] _] _] _] end.
  repeat (split; [done|]). match goal with E : _ ∈ map OfAssertion _ |- _ => apply list_elem_of_fmap in E as (s & Hs & Hin) end. by exists s.
Qed.

(** The evaluation of an assertion that is still running is its first. *)
Lemma running_unevaluated db id t :
  evidence_kept db -> assertions (ed_journal db) !! id = Some t -> as_state t = Assertion_RUNNING ->
  forall k row, ed_evaluations db !! k = Some row -> va_assertion_id row <> id.
Proof.
  intros Hok Ht Hs k row Hk Heq. destruct (eo_decided _ Hok k row Hk) as [_ (r & s & _ & Hin & He)]. rewrite Heq in He.
  unfold entity_state in He. rewrite Ht in He. simpl in He. rewrite Hs in He. injection He as _ <-. by destruct r; simpl in Hin; set_solver.
Qed.

Lemma evaluate_ok db c hook s db' :
  evidence_kept db -> make_evaluation_command c = Ok c -> command_ok (ac_terminal_transition c) ->
  evaluation_execute db c hook = Ok (s, db') -> evidence_kept db'.
Proof.
  intros Hok Hmake Hc H. destruct (evaluation_target c Hmake) as (Hrun & Hty & Hid & Hex & st & Hnew & Hst).
  unfold evaluation_execute in H. do 2 py_step H. destruct a0 as [row|].
  { do 2 py_step H. unfold committed_evaluation in H. injection H as _ <-. destruct a1 as [ct d1].
    by eapply (applied_ok db (plain_op (ac_terminal_transition c) hook)). }
  do 5 py_step H. unfold committed_evaluation in H. injection H as _ <-. destruct a4 as [ct d1]. cbn [snd].
  rename E1 into Hvalid, E2 into Hnext, E4 into Hins, E5 into Happ.
  unfold _validate_assertion_evaluation_identity in Hvalid. destruct (assertions (ed_journal db) !! ae_assertion_id (ac_evaluation c)) as [arow|] eqn:Harow; [|done].
  assert (as_state arow = Assertion_RUNNING) as Hrunning.
  { do 3 py_step Hvalid. by match goal with E : negb (bool_decide (as_state arow = _)) = false |- _ => apply negb_bool_decide_false in E end. }
  pose proof (running_unevaluated db _ arow Hok Harow Hrunning) as Hfirst.
  unfold insert_evaluation in Hins. py_step Hins. rename E1 into Hclear. apply ok_inj in Hins as <-. rewrite !orb_false_iff in Hclear. destruct Hclear as [[[[[[Hnone _] _] _] _] _] _].
  destruct (ed_evaluations db !! ac_evaluation_id c) eqn:Hev; [done|].
  unfold apply_transition in Happ. destruct (apply_execute _ _) as [[ct' j]|] eqn:Hj; [|done]. injection Happ as _ <-.
  cbn [ed_journal insert_links with_evaluations] in Hj. destruct (eo_ledger _ Hok) as [rs Hl].
  assert (exists rs', ledger_of j rs') as [rs' Hl'].
  { destruct (apply_ledger _ (plain_op (ac_terminal_transition c) hook) _ _ _ Hl Hc Hj) as [(_ & -> & _)|[_ ?]]; eauto. }
  pose proof (evolves_kept _ _ (apply_evolves _ _ _ _ Hj)) as Hk.
  pose proof (journal_ok db j rs' Hok Hl' Hk) as [H1 H2 H3 H4 H5 H6 H7 H8].
  assert (entity_state j Entity_ASSERTION (ae_assertion_id (ac_evaluation c)) = Some (ae_run_id (ac_evaluation c), OfAssertion st)) as Hfinal.
  { pose proof (apply_final _ _ _ _ _ _ Hl Hj Hex) as Hf. cbn [op_command plain_op] in Hf. rewrite Hty, Hnew, Hid, Hrun in Hf. apply Hf; [by eapply evaluation_no_exit|done]. }
  assert (va_evaluation_sequence (_assertion_evaluation_row_values c).2 = 1) as Hone.
  { unfold _require_next_assertion_evaluation_sequence in Hnext. py_step Hnext. rename E1 into Hseq. rewrite negb_false_iff, Z.eqb_eq in Hseq. simpl. rewrite Hseq.
    assert (assertion_evaluations db (ae_run_id (ac_evaluation c)) (ae_assertion_id (ac_evaluation c)) = []) as ->; [|done].
    apply list.elem_of_nil_inv. intros [k v] [Hkv Hcond]%elem_of_select. py_bool. by eapply Hfirst. }
  split; try done.
  - intros id row. cbn [ed_evaluations with_journal insert_links with_evaluations]. rewrite lookup_insert_Some. intros [[<- <-]|[_ Hid']].
    + split; [exact Hone|]. by exists (ae_result (ac_evaluation c)), st.
    + by apply (H7 id row).
  - intros id id' row row'. cbn [ed_evaluations with_journal insert_links with_evaluations]. rewrite !lookup_insert_Some.
    intros [[<- <-]|[_ Hi]] [[<- <-]|[_ Hi']] Heq; [done|exfalso; by apply (Hfirst _ _ Hi')|exfalso; by apply (Hfirst _ _ Hi)|by eapply H8].
Qed.

(** ** Every execution keeps the invariant *)

Lemma step_ok db db' : evidence_kept db -> evidence_step db db' -> evidence_kept db'.
Proof.
  intros Hok []; [|by eapply begin_ok|by eapply append_ok|by eapply evaluate_ok].
  pose proof (journal_next _ _ _ (journal_start _) H) as Hr. destruct (eo_ledger _ Hok) as [rs Hl].
  destruct (ledger_grows _ _ _ Hl Hr) as [k Hl']. eapply journal_ok; [done|exact Hl'|]. by apply evolves_kept, reachable_evolves.
Qed.
Lemma evidence_invariant start db : no_evidence start -> evidence_reachable start db -> evidence_kept db.
Proof. intros H0. induction 1 as [|db db' _ IH Hstep]; [by apply no_evidence_ok|by eapply step_ok]. Qed.

(** The evidence of every execution from a store without any is consistent.  However the operations of the
    transition repository, new series, samples and evaluations interleave, and whichever of them fail:
    every sample row is the row of a valid record, of the observer and the event of its series; the
    samples of a series are numbered 1, 2, 3 and so on without gaps, and no two samples share a record;
    every evaluation is its assertion's only one, its first, and left the assertion in a state its result
    allows, in which it stays. *)
Theorem evidence_consistent start db :
  no_evidence start -> evidence_reachable start db ->
  (forall id row, ed_samples db !! id = Some row -> exists r, holds_record db id row r) /\
  (forall id id' row row', ed_samples db !! id = Some row -> ed_samples db !! id' = Some row' ->
     sp_record_id row = sp_record_id row' -> id = id') /\
  (forall run_id observation_id,
     series_numbers db run_id observation_id ≡ₚ seqZ 1 (Z.of_nat (length (series_numbers db run_id observation_id)))) /\
  (forall id row, ed_evaluations db !! id = Some row -> va_evaluation_sequence row = 1 /\ settled_by db row) /\
  (forall id id' row row', ed_evaluations db !! id = Some row -> ed_evaluations db !! id' = Some row' ->
     va_assertion_id row = va_assertion_id row' -> id = id').
Proof. intros H0 Hr. destruct (evidence_invariant _ _ H0 Hr). auto. Qed.

(** ** The adapter of the poller *)

Lemma series_command_same c c' : make_series_command c = Ok c' -> c' = c.
Proof. unfold make_series_command. intros H. do 8 py_step H. by apply ok_inj in H. Qed.
Lemma begin_command_observer owner_epoch plan t c :
  begin_command owner_epoch plan t = Ok c -> make_series_command c = Ok c /\ os_observer_id c = plan_observer_id plan.
Proof.
  unfold begin_command. intros H. do 2 py_step H. pose proof (series_command_same _ _ H) as Hc. rewrite <- Hc in H. split; [done|]. by rewrite Hc.
Qed.
(** The journal begins no series for an observer whose name a record cannot hold: it is the law the poller
    relies on. *)
Theorem begin_series_names owner_epoch plan t db db' :
  evidence_kept db -> begin_series owner_epoch plan t db = (Ok tt, db') ->
  is_ok (_validate_bounded_text (plan_observer_id plan) MAX_OBSERVER_ID_LENGTH false) = true.
Proof.
  unfold begin_series, committed. intros Hok H. destruct (begin_command owner_epoch plan t) as [c|] eqn:Ec; [|done]. cbn [mbind] in H.
  destruct (begin_command_observer _ _ _ _ Ec) as [Hc <-]. destruct (begin_execute db c None) as [[[i r] d]|] eqn:Eb; [|done]. clear H.
  unfold begin_execute in Eb. do 3 py_step Eb. clear Eb. rename E1 into Hrow.
  destruct (_load_observation_series db (os_observation_id c)) as [[[[run scenario] columns] state]|] eqn:El.
  - py_step Hrow. apply negb_bool_decide_false in E1. injection E1 as _ _ ->. unfold _load_observation_series in El.
    destruct (observer_series _ !! _); [|done]. simpl in El. destruct (ed_series db !! os_observation_id c) as [columns|] eqn:Es; [|done].
    simpl in El. injection El as _ _ -> _. by apply (eo_names _ Hok _ _ Es).
  - do 2 py_step Hrow. unfold insert_series in E2. do 2 py_step E2. by eapply command_named.
Qed.

(** ** A worked series

    The series of [PollingSettles], begun, sampled twice and read back, then the evaluation of the
    assertion of the worked run on its second sample. *)
Definition demo_store : EvidenceDatabase :=
  {| ed_journal := demo_db; ed_events := []; ed_series := ∅; ed_samples := ∅; ed_assertion_types := {[demo_assertion := u "eventual-state"]};
     ed_evaluations := ∅; ed_links := []; ed_artifacts := []; ed_recovery_decisions := [] |}.
Definition demo_taken (n : Z) (payload : string) (status : ObservationStatus) (evidence : list ObserverEvidence) : ObservationRecord :=
  {| rec_record_id := u "record_" ++ u payload; rec_run_id := demo_run; rec_scenario_id := demo_scenario;
     rec_observation_id := plan_observation_id (demo_series demo_capability); rec_sample_id := u "sample_" ++ u payload; rec_observer_id := u "probe";
     rec_sample_sequence := n; rec_recorded_at := u "2026-02-28T12:00:00.250000Z"; rec_status := status; rec_event_id := None;
     rec_snapshot_id := match evidence with [] => None | _ => Some (u "snapshot-1") end; rec_evidence := evidence; rec_error := None |}.
Definition demo_waiting : ObservationRecord := demo_taken 1 "01ARZ3NDEKTSV4RRFFQ69G5FAV" Status_PENDING [].
Definition demo_evidenced : ObservationRecord := demo_taken 2 "01ARZ3NDEKTSV4RRFFQ69G5FAW" Status_OK
  [{| ev_key := u "processed"; ev_value_type := Value_INTEGER; ev_value := EvidenceJson (JInt 2); ev_sensitive := false |}].
Definition demo_commit (r : ObservationRecord) (terminal : option ObservationState) : ObservationSampleCommit :=
  {| sc_record := r; sc_timestamp := demo_time 20; sc_terminal_state := terminal |}.
Definition demo_evaluation : AssertionEvaluation :=
  {| ae_record_id := u "record_01ARZ3NDEKTSV4RRFFQ69G5FAX"; ae_run_id := demo_run; ae_scenario_id := demo_scenario; ae_assertion_id := demo_assertion;
     ae_evaluation_sequence := 1; ae_recorded_at := wall_time (demo_time 21); ae_type := u "eventual-state"; ae_result := Result_PASS;
     ae_expected := JInt 2; ae_actual := JInt 2; ae_comparison := Some (u "gte"); ae_evidence_refs := [rec_sample_id demo_evidenced]; ae_message := None |}.
Definition demo_evaluate : AssertionEvaluationCommand :=
  let c := demo_command 21 Entity_ASSERTION demo_assertion (OfAssertion Assertion_RUNNING) (OfAssertion Assertion_PASSED) in
  {| ac_evaluation_id := u "evaluation_" ++ demo_payload; ac_evaluation := demo_evaluation;
     ac_evidence := [{| rf_kind := Link_OBSERVATION; rf_evidence_id := rec_sample_id demo_evidenced |}];
     ac_terminal_transition :=
       {| tc_run_id := tc_run_id c; tc_transition_id := tc_transition_id c; tc_entity_type := tc_entity_type c; tc_entity_id := tc_entity_id c;
          tc_expected_state := tc_expected_state c; tc_new_state := tc_new_state c; tc_trigger_category := u "assertion_evaluation";
          tc_timestamp := tc_timestamp c; tc_owner_epoch := tc_owner_epoch c; tc_idempotency_key := tc_idempotency_key c;
          tc_causal_reference := Some {| cause_run_id := demo_run; cause_record_id := ae_record_id demo_evaluation |};
          tc_logical_time_ns := None; tc_delivery_satisfaction := None; tc_attempt_outcome := None |} |}.
Definition demo_begun := begin_series 3 (demo_series demo_capability) (demo_time 19) demo_store.
Definition demo_first := append_sample 3 (demo_commit demo_waiting None) demo_begun.2.
Definition demo_second := append_sample 3 (demo_commit demo_evidenced (Some Observation_OK)) demo_first.2.
Definition demo_evaluated := let! c := make_evaluation_command demo_evaluate in evaluation_execute demo_second.2 c None.

Example demo_series_read_back :
  (demo_begun.1, demo_first.1, demo_second.1) = (Ok tt, Ok tt, Ok tt) /\
  samples_execute demo_second.2 demo_run (plan_observation_id (demo_series demo_capability)) = Ok [demo_waiting; demo_evidenced].
Proof. split; vm_compute; reflexivity. Qed.
(** A third sample is refused: the series is closed.  So is a second evaluation of the assertion. *)
Example demo_series_closed :
  (append_sample 3 (demo_commit (demo_taken 3 "01ARZ3NDEKTSV4RRFFQ69G5FAZ" Status_PENDING []) None) demo_second.2).1 = Raise IllegalTransitionError.
Proof. vm_compute. reflexivity. Qed.
Example demo_assertion_decided :
  (let! e := demo_evaluated in Ok (ce_idempotent_replay e.1, length (ed_links e.2), entity_state (ed_journal e.2) Entity_ASSERTION demo_assertion))
  = Ok (false, 1%nat, Some (demo_run, OfAssertion Assertion_PASSED)).
Proof. vm_compute. reflexivity. Qed.
